(* ===== verification/_CoqProject ===== *)
-Q . S2P
Prelude.v
PyStr.v
Exceptions.v
PyNum.v
Values.v
Objects.v
Utils.v
Classes.v
ObjectLists.v
World.v
Decorators.v
Sql.v
SqlFacts.v
Rows.v
ObjectTypes.v
Rrdata.v
Formats.v
Validation.v
AdapterTables.v
Adapters.v
AdaptersFacts.v
AdaptersYaml.v
Api.v
ApiFacts.v
Rpc.v
Interfaces.v
ApiV2.v
ApiV2Facts.v
ApiV1.v
ApiV1Facts.v
Admin.v
Manage.v
Notifications.v
Tables.v
SqlCache.v
Storage.v
StorageFacts.v
StorageZdns.v
Quota.v
Scheduler.v
Worker.v
WorkerFacts.v
Central.v
CentralZones.v
CentralFacts.v
CentralZonesFacts.v
CentralRecords.v
CentralViews.v
CentralCreate.v
Dnsutils.v
CentralAdmin.v
Heartbeat.v
CentralFloating.v
CentralRecordsFacts.v
CentralAdminFacts.v
Mdns.v
MdnsFacts.v
Agent.v
Machine.v
AgentDrivers.v
AgentDriversFacts.v
KnotFacts.v
DjbdnsFacts.v
Denominator.v
Backends.v
NetworkApi.v
Dynect.v
DynectFacts.v
Infoblox.v
DnsService.v
DnsServiceFacts.v
Coordination.v
CoordinationFacts.v
Cache.v
PoolManager.v
PoolManagerFacts.v
Zdns.v
WorkerViews.v
WorkerViewsFacts.v
Sink.v
