(* ===== verification/Prelude.v ===== *)
(** * Designate: a verification library

    Designate is a DNS service. Tenants manage zones, record sets and records
    through an API; [central] checks and stores every change and asks the [worker],
    or the older pool manager, to carry it to the name servers of a pool, by the
    backend of their kind; these report back whether the change arrived; MiniDNS
    serves the zones to the name servers; the [producer] runs periodic tasks over
    shares of all zones; the sink turns announcements of other services into records.
    This library models these programs (Python, under src/designate/) as executable
    definitions and proves what makes them correct, and where they are not.

    ** How the code is modelled

    A Python value is a [Values.pyval]; a Designate object is a value [PObj] with
    its class, the attributes that are set, the names of the changed ones and their
    original values. A call is a function on an explicit state that returns a value
    or raises: the monad [M] of this file, [P] with the exceptions of
    [Exceptions.exc]; an exception does not undo what the call has changed. The
    state is mostly [World.world]: the database as lists of rows, the clock, the
    identifiers drawn, the messages sent to other services, oldest first, the locks
    and the thread-local state of the decorators. What the source takes from outside
    is a parameter: the class [Env] (policy rules, configuration, random
    identifiers, regular expressions), [SqlEngine] (uniqueness and deadlocks of the
    database), [Services] (the answers of the other services, which may depend on
    all that was said), [ThreadPool] (which tasks a pool runs, in which order).
    Python integers are [Z]; floats, where a comparison of floats decides something,
    are exact quotients rounded to 53 bits ([PyNum]). The one machine integer of the
    modelled code is the 16-bit length before a DNS message ([pack_H]), which does not
    wrap around but fails. Other libraries appear as classes with laws: jsonschema
    ([Schemas]), the middleware of oslo, dnspython's messages ([DnsMessages],
    [MessageLaws]), the drivers of the agent ([AgentBackend]). Identifiers are written without their
    dashes: the UUID columns ignore them.

    ** Files

    - [Prelude] monads, loops, association lists, tactics, the class [Reads] of
      computations that leave the state alone; [PyStr] and [PyNum] strings,
      integers and floats of Python.
    - [Exceptions]: exceptions.py. [Values], [Objects], [Classes]: the objects of
      objects/ with their change tracking, copies and serialisation; the FIELDS of
      thirty classes and mixins; computed properties of RecordSet and Zone.
    - [World]: context.py, policy.py, and the state shared by all components.
      [Utils]: utils.py. [ObjectLists]: the list operations of objects/base.py.
    - [Rrdata], [Formats], [Validation]: the data of resource records as text
      (objects/rrdata_*.py), the format checks of schema/format.py with their regular
      expressions, and the validation of zones and record sets.
    - [AdapterTables], [Adapters], [AdaptersFacts], [AdaptersYaml]: objects/adapters/,
      which render objects for version 2 of the API and for pool files and parse them.
    - [Api], [ApiFacts]: api/middleware.py. [ApiV2], [ApiV2Facts]: the controllers of
      api/v2/ with the routing of rest.py. [ApiV1], [ApiV1Facts]: the blueprints of api/v1/
      with their schemas. [Admin]: the extensions and views of api/admin/. All of them run in
      the monad [A] of the middleware, over the client of central.
    - [Rpc]: the clients and services of the rpcapi.py files as tables of signatures.
      [Interfaces]: the abstract methods of the plug-ins and the methods of their
      drivers, likewise.
    - [Decorators]: retry and transaction of storage/__init__.py,
      synchronized_zone and notification of central/service.py. The class
      [Balanced] is what a decorated body promises: it closes the transactions it
      opens and leaves the state of a surrounding retry alone; every storage
      operation is an instance, and so is what is composed of instances.
    - [Sql], [SqlFacts], [ObjectTypes]: sqlalchemy/base.py and utils.py, queries as
      filters over rows, and the types of the objects that come from rows. [Rows]: lemmas
      on tables whose rows are told apart by their identifiers.
      [Tables]: storage/impl_sqlalchemy/tables.py. [Storage], [StorageFacts]:
      storage/impl_sqlalchemy/__init__.py; [StorageZdns]: its zone tasks, ACLs, views
      and dictionaries of the ZDNS backend.
    - [Quota]: quota/. [Scheduler]: scheduler/ with all its filters.
    - [Central], [CentralZones], [CentralRecords], [CentralViews], [CentralCreate],
      [CentralAdmin], [CentralFloating]: central/service.py, in order checks, zones,
      record sets and records, ACLs and views, the creation of a zone, the
      administration (quotas, TLDs, keys, pools, transfers, imports and exports), and
      floating IPs. A method that the source decorates appears as a body
      ([delete_zone_body]) and with its decorators ([central_delete_zone]). Their
      theorems are in the files with Facts in their names.
    - [Dnsutils]: dnsutils.py and the middleware that thins out NOTIFYs; a zone file
      as dnspython reads it is a record of nodes.
    - [Worker], [WorkerFacts]: worker/tasks/zone.py, worker/service.py,
      worker/processing.py. The tasks share one zone object, the state [tstate].
      [WorkerViews], [WorkerViewsFacts]: its tasks for ACLs, views and NOTIFYs and all
      methods of its service; [Zdns]: backend/base.py and impl_zdns.py, the backend
      these tasks run over.
    - [Backends], [Dynect], [DynectFacts], [Infoblox]: the other drivers of backend/. What a
      driver says to its server is a list of events, and what it hears depends on all that
      was said; PowerDNS is its database, and the zones of Infoblox follow from its requests.
    - [Mdns], [MdnsFacts]: mdns/handler.py, notify.py, xfr.py, and the middleware of
      dnsutils.py. [DnsService], [DnsServiceFacts]: service.py, the threads that serve
      DNS over TCP and UDP sockets.
    - [Agent]: agent/handler.py and backend/agent.py, the two ends of a
      protocol of private DNS messages, with a network that loses them in between.
      [Machine], [AgentDrivers], [AgentDriversFacts], [KnotFacts], [DjbdnsFacts],
      [Denominator]: the drivers of the agent (backend/agent_backend/) on a machine with
      files, directories, locks and commands.
    - [Sink]: sink/service.py and notification_handler/. [Notifications]: notifications.py,
      what the notifications of central say. [NetworkApi]: network_api/, the floating IPs.
    - [Manage]: the commands of manage/pool.py and manage/tlds.py, and Pool.from_config.
    - [Heartbeat]: service_status.py, over [CentralAdmin].
    - [Coordination], [CoordinationFacts]: coordination.py, the partitioner over the
      answers of the backend and the leader election as a step relation;
      producer/tasks.py and producer/service.py.
    - [Cache]: pool_manager/cache/ and memorycache.py. The class
      [PoolManagerCache] is the interface of the drivers and [CacheLaws] what a
      client may rely on; the memcached and the noop driver are instances of both.
      [SqlCache]: the driver on a database, over [Sql], and why it is no instance.
    - [PoolManager], [PoolManagerFacts]: pool_manager/service.py, over any driver.

    ** What is shown

    - Isolation and frames: a look-up returns only live rows of the caller's tenant
      ([find_one_isolation]); an update changes one row and only its changed columns
      ([update_frame]); pages are complete ([pages_complete]).
    - Atomicity: a decorated operation commits or leaves the database as it was,
      within fifty attempts ([transaction_atomic]); a transfer is all or nothing and
      needs the key ([transfer_all_or_nothing]).
    - Record sets: an update is refused without a trace unless the caller may make
      it ([update_recordset_guarded]); one is deleted only when the worker has confirmed
      every record, and those confirmed before a refusal have gone
      ([delete_recordset_confirmed]).
    - Administration: a pool in use stays ([delete_pool_guarded]); the priorities of
      the views stay consecutive ([view_priorities_close_up]); reverse names stay
      with their tenant ([floatingips_isolated]); NOTIFYs of a zone are thinned out
      as long as nobody oversleeps ([notify_rate_limited]).
    - The hierarchy of zones: a new zone has its closest ancestor as parent, with
      the same owner above and below ([create_zone_checks_sound],
      [is_subzone_closest]); no zone with visible children is deleted
      ([delete_zone_guarded]); a purge moves the zones below to their closest
      ancestor that stays ([purge_reparents], [walk_up_zones_spec]).
    - Status: reports converge in any order ([reports_converge]); every action of
      the worker ends with a report ([zone_action_reports],
      [record_action_reports]); polling concludes exactly by the threshold
      ([zone_poller_spec], [compare_threshold_exact]).
    - Consensus: the pool manager's consensus is an order statistic of the serials
      ([consensus_is_order_statistic]); central hears of a success only when a
      quorum of name servers is attested to have it, whatever the cache forgets
      ([success_backed]); the memcached driver refines a map with expiring entries
      ([memcache_refines_map]), the driver on a database one that tells storing from changing
      ([sql_cache_refines_map]); a periodic synchronisation gives up no zone in
      silence ([periodic_sync_settles]). The columns of the two tables with heartbeats and
      statuses have types, and these theorems are about values they take.
    - Sharing the work: the shares of the members of a group are the partitions
      ([partition_covers]), the leader has told everybody ([leader_told]), a task
      sees every item of every page ([iter_complete]). Heartbeats keep one row of a service,
      and for ever add rows once there are two ([heartbeats_recorded]).
    - Admission: quotas ([limit_check_spec]), names ([recordset_name_accepted]),
      pools ([schedule_zone_spec]), policy ([elevated_checked]).
    - The API: every request gets an answer ([every_request_answered]); the application
      is reached by an authorised context only ([application_reached_authorised]);
      requests set what the adapters permit ([request_permitted]) and record sets get
      the records they ask for ([recordset_records_as_requested]); what is stored was
      parsed from the body, and valid but for record sets that change and ACLs
      ([stored_objects_valid]), a change of a record set passed every
      check ([put_recordset_guarded]), reading writes nothing ([gets_send_no_writes]),
      parsing always ends in an object or an error ([parse_answers]). Version 1 changes only
      what it has looked up ([v1_changes_guarded]); quotas are changed together or not at all
      ([admin_quotas_checked]).
    - DNS: a zone transfer has every record once, in packets that fit ([axfr_complete]);
      queries are answered for the key and the zones it covers ([query_guarded]); asking
      for a serial ends ([serial_poll_settles]); queries on a connection come out as they
      were put in ([tcp_queries_answered]), and every connection ends ([connection_ends]).
    - Programs that work together: clients and services agree on their messages, but for
      three ([clients_understood]); drivers on their interfaces, but for one
      ([drivers_implement]); creations and deletions at an agent can be repeated over a
      network that loses messages, with drivers that may fail half way ([agent_creates], [agent_deletes]); central hears of
      ACLs and views only what the server accepted ([server_before_central]); the sink
      touches its own records only ([handlers_touch_their_own]); the floating IPs are listed
      completely unless a thread dies unnoticed ([floatingips_complete]); the audit of a change is the
      difference it made ([audit_is_difference]).
    - Name servers: a zone file is there in full or as it was ([zone_file_atomic]), a
      transaction of Knot is taken whole ([knot_changes_whole]), the database of tinydns
      follows its zone files ([djbdns_database]), record sets reach the server with all their
      records ([denominator_synchronises]); PowerDNS, DynECT and Infoblox have what was asked
      for when a driver reports success, with the exceptions stated there ([powerdns_zones],
      [dynect_sessions], [infoblox_zones]).
    - Management: a dry run changes nothing, pools are parsed and validated before they are
      sent, and only pools the file leaves out are deleted ([pool_update_guarded]).
    - Objects and helpers: what storage returns is well typed ([storage_objects_typed]);
      record data, pool files and copies survive being written and read
      ([rdata_round_trip], [pool_yaml_round_trip], [primitive_round_trip]); what names
      and record sets are accepted ([zonename_spec], [recordset_validity]).

    Several theorems state behaviour that the code does not seem to mean: the lock a
    failing method leaves behind ([synchronized_zone_spec]), notifications in
    reverse ([notification_order]), copies without original values
    ([deepcopy_forgets_originals]), a shard nobody looks after
    ([shards_shared_out]), failed updates recorded as successes
    ([failed_update_recorded_active]), record set requests that are always refused
    ([recordset_actions_refused]), imports that never complete
    ([import_never_completes]), zones that cannot be touched
    ([zone_without_soa_stuck]), a connection closed because another could not be
    accepted ([accept_failures]), records of instances that are never created
    ([creations_never_complete]).

    ** Fuel

    Loops of the source whose end is not structural take fuel and raise [Blocked]
    when it runs out, which the handlers of all exceptions let through wherever it
    can occur. [retry] gets as many
    attempts as it may make, fifty, which [transaction_atomic] shows to be enough;
    [_walk_up_zones] and the poller have the source's own bounds; [load_pool] and
    [_iter] run for as long as their environment makes them, and [load_pool_waits]
    and [iter_complete] give the fuel that suffices. [axfr_complete] gives that of a
    transfer, [serial_poll_settles] that of a poll, and [parse_answers] shows that the
    nesting of the classes bounds that of the adapters. A connection takes one round
    for every query and one to see its end ([tcp_queries_answered]), and no more than
    it has bytes and arrivals ([connection_ends]); the rounds of [receive] are the bytes
    expected. [Blocked] also stands for a thread that waits for a lock held elsewhere.

    ** What is not modelled

    What a database does with values its columns do not take; what a service changes in the
    database of central by calling it back while central waits for its answer, but for the
    deletion of record sets. The migrations of the database and the commands that run them; metrics.py and
    hookpoints.py, which only wrap and time calls; the loading of plug-ins and of the
    extensions of the admin API, which is stevedore; the set-up of RPC and of the WSGI
    servers; the plug-ins of jsonschema (schema/validators.py); the fake drivers; the archived
    drivers and tools under contrib/: input, output and glue. jsonschema with the JSON
    schemas, the parsing of zone files, YAML and JSON, and the wire format of DNS are
    parameters. *)
From Stdlib Require Import ZArith Lia.
From stdpp Require Import base option numbers strings sets list.

Declare Scope py_scope.
Delimit Scope py_scope with py.

(** ** Results and the state-and-exception monad

    A Python call either returns a value or raises; an exception does not undo
    the state the call has already changed. *)
Section Monad.
Context {E : Type}.

Inductive res (A : Type) : Type :=
| Ok (a : A)
| Raise (e : E).
#[global] Arguments Ok {A} _.
#[global] Arguments Raise {A} _.

Definition M (S A : Type) : Type := S -> res A * S.

Definition rbind {A B} (r : res A) (f : A -> res B) : res B :=
  match r with Ok a => f a | Raise e => Raise e end.

Definition ret {S A} (a : A) : M S A := fun s => (Ok a, s).
Definition raise {S A} (e : E) : M S A := fun s => (Raise e, s).
Definition lift {S A} (r : res A) : M S A := fun s => (r, s).
Definition bind {S A B} (m : M S A) (f : A -> M S B) : M S B :=
  fun s => match m s with
           | (Ok a, s') => f a s'
           | (Raise e, s') => (Raise e, s')
           end.
Definition get {S} : M S S := fun s => (Ok s, s).
Definition gets {S A} (f : S -> A) : M S A := fun s => (Ok (f s), s).
Definition modify {S} (f : S -> S) : M S unit := fun s => (Ok tt, f s).

(** [try: m except <h e>]: [h] returns [None] for an exception it does not
    catch. *)
Definition try_except {S A} (m : M S A) (h : E -> option (M S A)) : M S A :=
  fun s => match m s with
           | (Ok a, s') => (Ok a, s')
           | (Raise e, s') =>
               match h e with Some k => k s' | None => (Raise e, s') end
           end.

(** [try: m except <h e> else: k]: exceptions of [k] are not caught. *)
Definition try_else {S A B} (m : M S A) (h : E -> option (M S B)) (k : A -> M S B) : M S B :=
  fun s => match m s with
           | (Ok a, s') => k a s'
           | (Raise e, s') =>
               match h e with Some k' => k' s' | None => (Raise e, s') end
           end.

(** [try: m finally: f]. *)
Definition try_finally {S A} (m : M S A) (f : M S unit) : M S A :=
  fun s => match m s with
           | (r, s') => match f s' with
                        | (Ok _, s'') => (r, s'')
                        | (Raise e, s'') => (Raise e, s'')
                        end
           end.

(** [for x in l: f(x)]. *)
Fixpoint mfor {S A} (l : list A) (f : A -> M S unit) : M S unit :=
  match l with
  | [] => ret tt
  | x :: l' => bind (f x) (fun _ => mfor l' f)
  end.

(** A [for] loop that rebinds a local variable in each iteration. *)
Fixpoint mfold {S A B} (l : list A) (b : B) (f : B -> A -> M S B) : M S B :=
  match l with
  | [] => ret b
  | x :: l' => bind (f b x) (fun b' => mfold l' b' f)
  end.

(** A list comprehension [[f(x) for x in l]]. *)
Fixpoint mmap {S A B} (f : A -> M S B) (l : list A) : M S (list B) :=
  match l with
  | [] => ret []
  | x :: l' => bind (f x) (fun y => bind (mmap f l') (fun ys => ret (y :: ys)))
  end.
End Monad.
Arguments res : clear implicits.
Arguments M : clear implicits.

Notation "'let!' x := m 'in' k" := (bind m (fun x => k))
  (at level 10, x name, m at level 100, k at level 200) : py_scope.
Notation "'let!' ' p := m 'in' k" := (bind m (fun p => k))
  (at level 10, p strict pattern, m at level 100, k at level 200) : py_scope.
Notation "m ;;; k" := (bind m (fun _ => k))
  (at level 199, k at level 200, right associativity) : py_scope.
Notation "'let?' x := m 'in' k" := (rbind m (fun x => k))
  (at level 10, x name, m at level 100, k at level 200) : py_scope.
Notation "'let?' ' p := m 'in' k" := (rbind m (fun p => k))
  (at level 10, p strict pattern, m at level 100, k at level 200) : py_scope.
Open Scope py_scope.

(** [if c: raise e] *)
Definition raise_if {E S} (c : bool) (e : E) : M E S unit :=
  if c then raise e else ret tt.
(** [if c: m] *)
Definition when {E S} (c : bool) (m : M E S unit) : M E S unit :=
  if c then m else ret tt.

Section Monad_lemmas.
Context {E S : Type}.
Implicit Types s : S.

Lemma bind_Ok {A B} (m : M E S A) (f : A -> M E S B) s b s' :
  bind m f s = (Ok b, s') <-> exists a s1, m s = (Ok a, s1) /\ f a s1 = (Ok b, s').
Proof.
  unfold bind. destruct (m s) as [[a|e] s1]; split.
  - eauto.
  - intros (a' & s1' & [= -> ->] & H). exact H.
  - discriminate.
  - intros (? & ? & [=] & _).
Qed.

Lemma bind_Raise {A B} (m : M E S A) (f : A -> M E S B) s e s' :
  bind m f s = (Raise e, s') <->
  m s = (Raise e, s') \/ exists a s1, m s = (Ok a, s1) /\ f a s1 = (Raise e, s').
Proof.
  unfold bind. destruct (m s) as [[a|e'] s1]; split.
  - eauto.
  - intros [[=]|(a' & s1' & [= -> ->] & H)]. exact H.
  - intros [= -> ->]. by left.
  - intros [[= -> ->]|(? & ? & [=] & _)]. done.
Qed.

Lemma bind_assoc {A B C} (m : M E S A) (f : A -> M E S B) (g : B -> M E S C) s :
  bind (bind m f) g s = bind m (fun a => bind (f a) g) s.
Proof. unfold bind. by destruct (m s) as [[|]]. Qed.

Lemma raise_if_Ok c (e : E) s u s' :
  raise_if c e s = (Ok u, s') <-> c = false /\ s' = s.
Proof.
  destruct c, u; unfold raise_if, raise, ret; cbn; split.
  all: first [intros [= <-]; done | intros [? ->]; done | intros [=] | intros [[=] _]].
Qed.

Lemma raise_if_Raise c (e e' : E) s s' :
  raise_if c e s = (Raise e', s') <-> c = true /\ e' = e /\ s' = s.
Proof.
  destruct c; unfold raise_if, raise, ret; cbn; split.
  all: first [intros [= <- <-]; done | intros (_ & -> & ->); done | intros [=] | intros ([=] & _)].
Qed.

Lemma mfor_app {A} (l1 l2 : list A) (f : A -> M E S unit) s :
  mfor (l1 ++ l2) f s = bind (mfor l1 f) (fun _ => mfor l2 f) s.
Proof.
  revert s. induction l1 as [|x l1 IH]; intros s; [done|].
  cbn. rewrite bind_assoc. unfold bind at 1 2. destruct (f x s) as [[?|?] ?]; [apply IH|done].
Qed.

(** The rule for a loop: an invariant of the body is an invariant of the loop. *)
Lemma mfor_inv {A} (P : S -> Prop) (l : list A) (f : A -> M E S unit) s r s' :
  (forall x s0 r0 s1, x ∈ l -> P s0 -> f x s0 = (r0, s1) -> P s1) ->
  P s -> mfor l f s = (r, s') -> P s'.
Proof.
  revert s. induction l as [|x l IH]; intros s Hf HP; cbn.
  - by intros [= _ <-].
  - unfold bind. destruct (f x s) as [[u|e] s1] eqn:Hx.
    + intros H. refine (IH s1 _ _ H); [|eapply Hf; eauto; set_solver].
      intros y s0 r0 s2 Hy. apply Hf. set_solver.
    + intros [= _ <-]. eapply Hf; eauto. set_solver.
Qed.
End Monad_lemmas.

(** ** Computations that leave the state alone *)
Class Reads {E S A} (m : M E S A) : Prop :=
  reads : forall s r s', m s = (r, s') -> s' = s.

Section Reads.
Context {E S : Type}.
#[export] Instance ret_reads {A} (a : A) : Reads (E := E) (S := S) (ret a).
Proof. by intros s r s' [= _ <-]. Qed.
#[export] Instance raise_reads {A} (e : E) : Reads (S := S) (A := A) (raise e).
Proof. by intros s r s' [= _ <-]. Qed.
#[export] Instance lift_reads {A} (x : res E A) : Reads (S := S) (lift x).
Proof. by intros s r s' [= _ <-]. Qed.
#[export] Instance gets_reads {A} (f : S -> A) : Reads (E := E) (gets f).
Proof. by intros s r s' [= _ <-]. Qed.
#[export] Instance raise_if_reads c (e : E) : Reads (S := S) (raise_if c e).
Proof. by destruct c; intros s r s' [= _ <-]. Qed.
#[export] Instance if_reads {A} (c : bool) (m1 m2 : M E S A) :
  Reads m1 -> Reads m2 -> Reads (if c then m1 else m2).
Proof. by destruct c. Qed.
#[export] Instance when_reads c (m : M E S unit) : Reads m -> Reads (when c m).
Proof. intros. unfold when. apply _. Qed.
#[export] Instance bind_reads {A B} (m : M E S A) (f : A -> M E S B) :
  Reads m -> (forall a, Reads (f a)) -> Reads (bind m f).
Proof.
  intros Hm Hf s r s'. unfold bind. destruct (m s) as [[a|e] s1] eqn:Hs;
    apply Hm in Hs as ->; [apply Hf|by intros [= _ <-]].
Qed.
#[export] Instance mmap_reads {A B} (f : A -> M E S B) l : (forall a, Reads (f a)) -> Reads (mmap f l).
Proof. intros Hf. induction l; cbn; apply _. Qed.
#[export] Instance mfor_reads {A} (f : A -> M E S unit) l : (forall a, Reads (f a)) -> Reads (mfor l f).
Proof. intros Hf. induction l; cbn; apply _. Qed.
#[export] Instance mfold_reads {A B} (f : B -> A -> M E S B) l b :
  (forall b a, Reads (f b a)) -> Reads (mfold l b f).
Proof. intros Hf. revert b. induction l; intros b; cbn; apply _. Qed.
Lemma try_except_reads {A} (m : M E S A) h :
  Reads m -> (forall e k, h e = Some k -> Reads k) -> Reads (try_except m h).
Proof.
  intros Hm Hh s r s'. unfold try_except. destruct (m s) as [[a|e] s1] eqn:Hs;
    apply Hm in Hs as ->; [by intros [= _ <-]|].
  destruct (h e) as [k|] eqn:Hk; [by eapply Hh|by intros [= _ <-]].
Qed.
End Reads.

(** After a computation that only reads, the state is the one before it. *)
Ltac reads_subst :=
  repeat match goal with
  | H : ?m ?s = (?r, ?s') |- _ =>
      is_var s'; assert_fails (constr_eq s s');
      let E := fresh in
      assert (E : s' = s) by (refine (reads (m := m) _ _ _ H)); subst s'
  end.

#[export] Hint Rewrite @bind_Ok @bind_Raise @raise_if_Ok @raise_if_Raise : py.
Create HintDb py_inv.

(** ** Symbolic execution of the monad

    [py_step] takes apart one hypothesis about a run; [py_inv] repeats it. *)
Ltac py_step :=
  match goal with
  | H : bind _ _ _ = (Ok _, _) |- _ =>
      let Hl := fresh "Hm" in let Hr := fresh "Hk" in
      let a := fresh "a" in let s := fresh "s" in
      apply bind_Ok in H as (a & s & Hl & Hr)
  | H : bind _ _ _ = (Raise _, _) |- _ =>
      let Hl := fresh "Hm" in let Hr := fresh "Hk" in
      let a := fresh "a" in let s := fresh "s" in
      apply bind_Raise in H as [Hl|(a & s & Hl & Hr)]
  | H : ret _ _ = _ |- _ => unfold ret in H; simplify_eq
  | H : raise _ _ = _ |- _ => unfold raise in H; simplify_eq
  | H : get _ = _ |- _ => unfold get in H; simplify_eq
  | H : gets _ _ = _ |- _ => unfold gets in H; simplify_eq
  | H : modify _ _ = _ |- _ => unfold modify in H; simplify_eq
  | H : lift _ _ = _ |- _ => unfold lift in H; simplify_eq
  | H : raise_if _ _ _ = (Ok _, _) |- _ => apply raise_if_Ok in H as [H ->]
  | H : raise_if _ _ _ = (Raise _, _) |- _ => apply raise_if_Raise in H as (H & -> & ->)
  end.
Ltac py_inv := repeat (py_step; simplify_eq/=).

(** Case analysis on the scrutinee of the first [match] or [if] in the goal. *)
Ltac case_head :=
  match goal with
  | |- context [match ?x with _ => _ end] => destruct x eqn:?
  end.

(** The elements of a literal list, one by one. *)
Ltac elem_cases H :=
  lazymatch type of H with
  | _ ∈ [] => exfalso; by apply not_elem_of_nil in H
  | _ ∈ _ :: _ => apply elem_of_cons in H as [H|H]; [simplify_eq/=|elem_cases H]
  end.

(** ** Association lists: Python dictionaries whose iteration order is visible *)
Section Assoc.
Context {V : Type}.
Implicit Types (k : string) (v : V) (d : list (string * V)).

Fixpoint aget k d : option V :=
  match d with
  | [] => None
  | (k', v) :: d' => if String.eqb k k' then Some v else aget k d'
  end.

(** [d[k] = v]: replaces in place, or appends a new key. *)
Fixpoint aset k v d : list (string * V) :=
  match d with
  | [] => [(k, v)]
  | (k', v') :: d' => if String.eqb k k' then (k, v) :: d' else (k', v') :: aset k v d'
  end.

(** [d.pop(k, None)] *)
Fixpoint adel k d : list (string * V) :=
  match d with
  | [] => []
  | (k', v) :: d' => if String.eqb k k' then adel k d' else (k', v) :: adel k d'
  end.

(** [d.update(e)] *)
Definition aupdate d (e : list (string * V)) : list (string * V) :=
  foldl (fun acc kv => aset kv.1 kv.2 acc) d e.

Lemma aget_aset k k' v d : aget k (aset k' v d) = if String.eqb k k' then Some v else aget k d.
Proof.
  induction d as [|[k1 v1] d IH]; cbn; [done|].
  destruct (String.eqb_spec k' k1) as [->|]; cbn.
  - by destruct (String.eqb k k1).
  - rewrite IH. destruct (String.eqb_spec k k1), (String.eqb_spec k k'); congruence.
Qed.

Lemma aget_aset_eq k v d : aget k (aset k v d) = Some v.
Proof. by rewrite aget_aset, String.eqb_refl. Qed.

Lemma aget_aset_ne k k' v d : k <> k' -> aget k (aset k' v d) = aget k d.
Proof. intros H. rewrite aget_aset. by destruct (String.eqb_spec k k'). Qed.

Lemma aget_adel k k' d : aget k (adel k' d) = if String.eqb k k' then None else aget k d.
Proof.
  induction d as [|[k1 v1] d IH]; cbn; [by destruct (String.eqb k k')|].
  destruct (String.eqb_spec k' k1) as [->|]; cbn; rewrite IH.
  - by destruct (String.eqb_spec k k1).
  - destruct (String.eqb_spec k k1), (String.eqb_spec k k'); congruence.
Qed.

Lemma aget_Some_elem k v d : aget k d = Some v -> (k, v) ∈ d.
Proof.
  induction d as [|[k1 v1] d IH]; cbn; [done|].
  destruct (String.eqb_spec k k1); intros H; simplify_eq; set_solver.
Qed.

Lemma aget_None_elem k d : aget k d = None <-> k ∉ d.*1.
Proof.
  induction d as [|[k1 v1] d IH]; cbn; [set_solver|].
  destruct (String.eqb_spec k k1); set_solver.
Qed.

Lemma aget_elem_NoDup k v d : NoDup d.*1 -> (k, v) ∈ d -> aget k d = Some v.
Proof.
  induction d as [|[k1 v1] d IH]; cbn; [set_solver|].
  intros [Hn Hd]%NoDup_cons [Hin|Hin]%elem_of_cons; simplify_eq.
  - by rewrite String.eqb_refl.
  - destruct (String.eqb_spec k k1) as [->|]; [|by apply IH].
    exfalso. apply Hn. apply list_elem_of_fmap. by exists (k1, v).
Qed.

Lemma aset_keys k v d : k ∈ d.*1 -> (aset k v d).*1 = d.*1.
Proof.
  induction d as [|[k1 v1] d IH]; cbn; [set_solver|].
  destruct (String.eqb_spec k k1) as [->|]; cbn; [done|].
  intros [?|?]%elem_of_cons; [done|]. by rewrite IH.
Qed.

Lemma aset_keys_new k v d : k ∉ d.*1 -> aset k v d = d ++ [(k, v)].
Proof.
  induction d as [|[k1 v1] d IH]; cbn; [done|].
  intros Hn. destruct (String.eqb_spec k k1) as [->|]; [set_solver|].
  rewrite IH; [done|set_solver].
Qed.

Lemma aset_NoDup k v d : NoDup d.*1 -> NoDup (aset k v d).*1.
Proof.
  intros Hd. destruct (decide (k ∈ d.*1)) as [Hin|Hn].
  - by rewrite aset_keys.
  - rewrite aset_keys_new, fmap_app by done. apply NoDup_app. split_and!; [done| |].
    + cbn. set_solver.
    + cbn. apply NoDup_singleton.
Qed.

Lemma aset_elem_keys k k' v d : k ∈ (aset k' v d).*1 <-> k = k' \/ k ∈ d.*1.
Proof.
  destruct (decide (k' ∈ d.*1)) as [Hin|Hn].
  - rewrite aset_keys by done. naive_solver.
  - rewrite aset_keys_new, fmap_app by done. set_solver.
Qed.

Lemma aget_aupdate k d e :
  NoDup e.*1 -> aget k (aupdate d e) = match aget k e with Some v => Some v | None => aget k d end.
Proof.
  unfold aupdate. revert d. induction e as [|[k1 v1] e IH]; intros d; [done|].
  cbn [foldl fst snd]. intros [Hn Hd]%NoDup_cons. rewrite IH by done. cbn.
  rewrite aget_aset.
  destruct (String.eqb_spec k k1) as [->|]; [|done].
  by rewrite (proj2 (aget_None_elem k1 e) Hn).
Qed.
End Assoc.

#[export] Hint Rewrite @aget_aset_eq : py.
#[export] Hint Resolve aset_NoDup : py_inv.
