(* ===== verification/PyStr.v ===== *)
(** * Python strings

    The methods of Python's [str] the program uses, on Rocq strings: prefix and
    suffix tests, [split], [join], [strip], [replace], [partition], [lower],
    reversal, and the conversions [int(s)] and [str(n)] between integers and
    decimal numerals. *)
From Stdlib Require Import ZArith Lia Ascii String DecimalString DecimalZ.
From stdpp Require Import base option numbers strings sets list.
From S2P Require Import Prelude.
Local Open Scope string_scope.

#[global] Arguments String.append : simpl nomatch.

(** ** Prefixes, suffixes, slices *)

(** [s[n:]] for [0 <= n]. *)
Fixpoint sdrop (n : nat) (s : string) : string :=
  match n, s with
  | O, _ => s
  | S n', String _ s' => sdrop n' s'
  | S _, EmptyString => EmptyString
  end.

(** [s[:n]] for [0 <= n]. *)
Fixpoint stake (n : nat) (s : string) : string :=
  match n, s with
  | S n', String a s' => String a (stake n' s')
  | _, _ => EmptyString
  end.

(** [s.startswith(p)] *)
Definition startswith (p s : string) : bool := String.prefix p s.

(** [s[-n:]] for [0 < n]. *)
Definition slast (n : nat) (s : string) : string := sdrop (String.length s - n) s.

(** [s.endswith(p)] *)
Definition endswith (p s : string) : bool :=
  (String.length p <=? String.length s)%nat && String.eqb (slast (String.length p) s) p.

(** [c in s], for a character. *)
Fixpoint has_char (c : ascii) (s : string) : bool :=
  match s with
  | EmptyString => false
  | String a s' => Ascii.eqb a c || has_char c s'
  end.

(** [s.count(c)], for a character. *)
Fixpoint count_char (c : ascii) (s : string) : nat :=
  match s with
  | EmptyString => 0
  | String a s' => (if Ascii.eqb a c then 1 else 0) + count_char c s'
  end.

(** [s[::-1]] *)
Fixpoint srev (s : string) : string :=
  match s with
  | EmptyString => EmptyString
  | String a s' => srev s' ++ String a EmptyString
  end.

(** [s[:-1]] *)
Definition drop_last (s : string) : string := String.substring 0 (String.length s - 1) s.

(** ** Splitting and joining *)

(** [s.split(c)], for a one-character separator. *)
Fixpoint split_char (c : ascii) (s : string) : list string :=
  match s with
  | EmptyString => [EmptyString]
  | String a s' =>
      if Ascii.eqb a c then EmptyString :: split_char c s'
      else match split_char c s' with
           | [] => [String a EmptyString]
           | w :: ws => String a w :: ws
           end
  end.

(** [sep.join(l)] *)
Fixpoint join (sep : string) (l : list string) : string :=
  match l with
  | [] => EmptyString
  | [w] => w
  | w :: l' => w ++ sep ++ join sep l'
  end.

(** [s.partition(c)]: the text before the first [c], whether there is one, and
    the text after it. *)
Fixpoint partition_char (c : ascii) (s : string) : string * bool * string :=
  match s with
  | EmptyString => (EmptyString, false, EmptyString)
  | String a s' =>
      if Ascii.eqb a c then (EmptyString, true, s')
      else let '(h, b, t) := partition_char c s' in (String a h, b, t)
  end.

(** ** Stripping *)

Fixpoint lstrip (p : ascii -> bool) (s : string) : string :=
  match s with
  | EmptyString => EmptyString
  | String a s' => if p a then lstrip p s' else s
  end.

Fixpoint rstrip (p : ascii -> bool) (s : string) : string :=
  match s with
  | EmptyString => EmptyString
  | String a s' =>
      match rstrip p s' with
      | EmptyString => if p a then EmptyString else String a EmptyString
      | t => String a t
      end
  end.

Definition strip (p : ascii -> bool) (s : string) : string := rstrip p (lstrip p s).

(** [s.strip()]: ASCII white space. *)
Definition is_space (a : ascii) : bool :=
  let n := nat_of_ascii a in ((9 <=? n) && (n <=? 13) || (n =? 32))%nat.

(** ** Replacing *)

(** [s.replace(old, new)] for a non-empty [old]; [skip] counts the characters of
    a match still to be passed over. *)
Fixpoint replace_from (old new : string) (skip : nat) (s : string) : string :=
  match s with
  | EmptyString => EmptyString
  | String a s' =>
      match skip with
      | S k => replace_from old new k s'
      | O => if startswith old s then new ++ replace_from old new (String.length old - 1) s'
             else String a (replace_from old new 0 s')
      end
  end.
Definition replace (old new s : string) : string := replace_from old new 0 s.

(** [s.replace(c, new, 1)] for a character. *)
Fixpoint replace_first (c : ascii) (new s : string) : string :=
  match s with
  | EmptyString => EmptyString
  | String a s' => if Ascii.eqb a c then new ++ s' else String a (replace_first c new s')
  end.

(** ** Characters *)

Definition in_range (lo hi a : ascii) : bool :=
  ((nat_of_ascii lo <=? nat_of_ascii a) && (nat_of_ascii a <=? nat_of_ascii hi))%nat.
Definition is_upper : ascii -> bool := in_range "A" "Z".
Definition is_lower : ascii -> bool := in_range "a" "z".
Definition is_digit : ascii -> bool := in_range "0" "9".

Definition lower_char (a : ascii) : ascii :=
  if is_upper a then ascii_of_nat (nat_of_ascii a + 32) else a.

(** [s.lower()] on ASCII text. *)
Fixpoint lower (s : string) : string :=
  match s with
  | EmptyString => EmptyString
  | String a s' => String (lower_char a) (lower s')
  end.

Fixpoint sforall (p : ascii -> bool) (s : string) : bool :=
  match s with
  | EmptyString => true
  | String a s' => p a && sforall p s'
  end.

(** ** Integers and numerals *)

(** [str(n)] *)
Definition str_of_Z (n : Z) : string := NilZero.string_of_int (Z.to_int n).

(** [int(s)]: [None] stands for ValueError. White space around the numeral and
    one sign are accepted. *)
Definition int_of_str (s : string) : option Z :=
  let t := strip is_space s in
  let digits t := option_map Z.of_uint (NilZero.uint_of_string t) in
  match t with
  | String "-" t' => option_map Z.opp (digits t')
  | String "+" t' => digits t'
  | _ => digits t
  end.

Arguments has_char _%_char _%_string.
Arguments count_char _%_char _%_string.
Arguments split_char _%_char _%_string.
Arguments partition_char _%_char _%_string.
Arguments replace_first _%_char (_ _)%_string.
Arguments in_range (_ _ _)%_char.
Arguments replace (_ _ _)%_string.
Arguments join _%_string _.

(** ** Lemmas *)

Lemma sapp_assoc (s t u : string) : (s ++ t) ++ u = s ++ t ++ u.
Proof. induction s as [|a s IH]; cbn; congruence. Qed.

Lemma sapp_nil_r (s : string) : s ++ "" = s.
Proof. induction s as [|a s IH]; cbn; congruence. Qed.

Lemma slength_app (s t : string) :
  String.length (s ++ t) = (String.length s + String.length t)%nat.
Proof. induction s as [|a s IH]; cbn; congruence. Qed.

Lemma sdrop_app (s t : string) : sdrop (String.length s) (s ++ t) = t.
Proof. by induction s as [|a s IH]. Qed.

Lemma startswith_app (p s : string) : startswith p s = true <-> exists t, s = p ++ t.
Proof.
  unfold startswith. revert s. induction p as [|a p IH]; intros s; cbn.
  - split; [by exists s | by destruct s].
  - destruct s as [|b s]; [split; [done | by intros [t [=]]]|].
    cbn [String.prefix]. destruct (ascii_dec a b) as [->|Hne].
    + rewrite IH. split; intros [t Ht]; exists t; [by rewrite Ht | by injection Ht].
    + split; [done|]. intros [t [= ? ?]]. congruence.
Qed.

Lemma sdrop_split (n : nat) (s : string) :
  (n <= String.length s)%nat -> exists p, String.length p = n /\ s = p ++ sdrop n s.
Proof.
  revert s. induction n as [|n IH]; intros s Hn.
  - by exists "".
  - destruct s as [|a s]; cbn in *; [lia|].
    destruct (IH s) as (p & Hp & Hs); [lia|]. exists (String a p). cbn. split; congruence.
Qed.

Lemma endswith_app (p s : string) : endswith p s = true <-> exists t, s = t ++ p.
Proof.
  unfold endswith, slast. rewrite andb_true_iff, Nat.leb_le, String.eqb_eq. split.
  - intros [Hlen Hd].
    destruct (sdrop_split (String.length s - String.length p) s) as (t & _ & Ht); [lia|].
    exists t. congruence.
  - intros [t ->]. rewrite slength_app. split; [lia|].
    replace (String.length t + String.length p - String.length p)%nat
      with (String.length t) by lia.
    apply sdrop_app.
Qed.

Lemma split_char_nonempty c s : split_char c s <> [].
Proof.
  destruct s as [|a s]; cbn; [done|]. destruct (Ascii.eqb a c); [done|].
  by destruct (split_char c s).
Qed.

(** Joining the pieces of a split gives the string back. *)
Lemma join_split_char c s : join (String c "") (split_char c s) = s.
Proof.
  induction s as [|a s IH]; cbn; [done|].
  destruct (Ascii.eqb_spec a c) as [->|Hne].
  - pose proof (split_char_nonempty c s) as Hn. cbn.
    destruct (split_char c s) eqn:Hs; [done|]. cbn in *. by rewrite IH.
  - destruct (split_char c s) as [|w ws] eqn:Hs; [by pose proof (split_char_nonempty c s)|].
    destruct ws; cbn in *; congruence.
Qed.

Lemma has_char_app c s t : has_char c (s ++ t) = has_char c s || has_char c t.
Proof. induction s as [|a s IH]; cbn; [done|]. by rewrite IH, orb_assoc. Qed.

Lemma split_char_app c w s :
  has_char c w = false -> split_char c (w ++ String c s) = w :: split_char c s.
Proof.
  induction w as [|a w IH]; cbn.
  - by rewrite Ascii.eqb_refl.
  - intros [Ha Hw]%orb_false_iff. rewrite Ha, IH; done.
Qed.

Lemma split_char_cat c p s : split_char c (p ++ String c s) = app (split_char c p) (split_char c s).
Proof.
  induction p as [|a p IH]; cbn; [by rewrite Ascii.eqb_refl|].
  destruct (Ascii.eqb a c); rewrite IH; [done|].
  destruct (split_char c p) as [|w ws] eqn:Hp; [by destruct (split_char_nonempty c p)|done].
Qed.

Lemma join_app sep l1 l2 :
  l1 <> [] -> l2 <> [] -> join sep (app l1 l2) = join sep l1 ++ sep ++ join sep l2.
Proof.
  intros H1 H2. induction l1 as [|w l1 IH]; [done|]. destruct l1 as [|w' l1].
  - cbn. by destruct l2.
  - change (join sep (app (w :: w' :: l1) l2)) with (w ++ sep ++ join sep (app (w' :: l1) l2)).
    rewrite IH by done. cbn [join]. by rewrite !sapp_assoc.
Qed.

Lemma split_char_word c w : has_char c w = false -> split_char c w = [w].
Proof.
  induction w as [|a w IH]; cbn; [done|].
  intros [Ha Hw]%orb_false_iff. rewrite Ha, IH; done.
Qed.

Lemma split_char_pieces c s w : w ∈ split_char c s -> has_char c w = false.
Proof.
  revert w. induction s as [|a s IH]; intros w; cbn.
  - by intros ->%list_elem_of_singleton.
  - destruct (Ascii.eqb a c) eqn:Ha.
    + intros [->|H]%elem_of_cons; [done|by apply IH].
    + pose proof (split_char_nonempty c s) as Hn.
      destruct (split_char c s) as [|w' ws]; [done|].
      intros [->|H]%elem_of_cons; cbn; [|apply IH; set_solver].
      rewrite Ha, (IH w'); [done|set_solver].
Qed.

Lemma partition_char_app c h t :
  has_char c h = false -> partition_char c (h ++ String c t) = (h, true, t).
Proof.
  induction h as [|a h IH]; cbn.
  - by rewrite Ascii.eqb_refl.
  - intros [Ha Hh]%orb_false_iff. rewrite Ha, IH; done.
Qed.

Lemma srev_app s t : srev (s ++ t) = srev t ++ srev s.
Proof.
  induction s as [|a s IH]; cbn; [by rewrite sapp_nil_r|]. by rewrite IH, sapp_assoc.
Qed.

Lemma srev_involutive s : srev (srev s) = s.
Proof. induction s as [|a s IH]; cbn; [done|]. by rewrite srev_app, IH. Qed.

Lemma count_char_0 c s : count_char c s = 0%nat <-> has_char c s = false.
Proof.
  induction s as [|a s IH]; cbn; [done|].
  destruct (Ascii.eqb a c); cbn; [done|]. by rewrite <- IH.
Qed.

(** ** Round trip of numerals *)

Definition no_space : string -> bool := sforall (fun a => negb (is_space a)).

Lemma rstrip_no_space s : no_space s = true -> rstrip is_space s = s.
Proof.
  unfold no_space. induction s as [|a s IH]; cbn; [done|].
  intros [Ha%negb_true_iff Hs]%andb_true_iff. rewrite IH by done.
  destruct s; [by rewrite Ha|done].
Qed.

Lemma strip_no_space s : no_space s = true -> strip is_space s = s.
Proof.
  intros H. unfold strip. assert (lstrip is_space s = s) as ->.
  - destruct s as [|a s]; cbn in *; [done|].
    apply andb_true_iff in H as [Ha%negb_true_iff _]. by rewrite Ha.
  - by apply rstrip_no_space.
Qed.

Lemma digits_no_space d : no_space (NilEmpty.string_of_uint d) = true.
Proof. unfold no_space. induction d; cbn; auto. Qed.

Lemma digits_not_sign d a s :
  NilZero.string_of_uint d = String a s -> a <> "-"%char /\ a <> "+"%char.
Proof. destruct d; cbn; intros [= <- _]; done. Qed.

Lemma uint_str_no_space d : no_space (NilZero.string_of_uint d) = true.
Proof. destruct d; [done|apply digits_no_space..]. Qed.

Lemma int_of_str_of_Z n : int_of_str (str_of_Z n) = Some n.
Proof.
  assert (Hz : forall u, u <> Decimal.Nil ->
            NilZero.uint_of_string (NilZero.string_of_uint u) = Some u).
  { intros u Hu. by rewrite NilZero.usu. }
  unfold int_of_str, str_of_Z.
  rewrite <- (DecimalZ.of_to n) at 2.
  destruct (Z.to_int n) as [u|u] eqn:Hn; cbn [NilZero.string_of_int].
  - assert (Hu : u <> Decimal.Nil).
    { intros ->. destruct n; cbn in Hn; try done. injection Hn as Hn.
      by apply (DecimalPos.Unsigned.to_uint_nonnil p). }
    rewrite strip_no_space by apply uint_str_no_space.
    destruct (NilZero.string_of_uint u) as [|a s] eqn:Hs.
    { exfalso. specialize (Hz u Hu). by rewrite Hs in Hz. }
    destruct (digits_not_sign u a s Hs) as [Hm Hp].
    assert (Ho : option_map Z.of_uint (NilZero.uint_of_string (String a s)) = Some (Z.of_uint u)).
    { rewrite <- Hs. by rewrite Hz. }
    destruct a as [[] [] [] [] [] [] [] []]; first [exact Ho | congruence].
  - assert (Hu : u <> Decimal.Nil).
    { intros ->. destruct n; cbn in Hn; try done. injection Hn as Hn.
      by apply (DecimalPos.Unsigned.to_uint_nonnil p). }
    rewrite strip_no_space; [|cbn; apply uint_str_no_space].
    cbn. rewrite Hz by done. done.
Qed.

#[export] Hint Rewrite @sapp_assoc @sapp_nil_r @slength_app @srev_involutive @join_split_char
  @int_of_str_of_Z : py.
