(* ===== verification/Exceptions.v ===== *)
(** * Exceptions (designate/exceptions.py)

    The exception classes as constructors. A family of classes with a common
    base class that callers catch ([BadRequest], [Forbidden], [Duplicate],
    [NotFound], [Failed]) is one constructor with the member as its argument, so
    [except exceptions.NotFound] is a match on [NotFound _]. The built-in and
    library exceptions the program raises or catches come last. Messages are
    presentation and are left out. *)
From Stdlib Require Import ZArith.
From stdpp Require Import base option.
From S2P Require Import Prelude.

(** Subclasses of [BadRequest]; [BR_Base] is the class itself. *)
Inductive bad_request : Set :=
| BR_Base | EmptyRequestBody | InvalidUUID | InvalidRecord | NetworkEndpointNotFound
| MarkerNotFound | DesignateValueError | InvalidMarker | InvalidSortDir | InvalidLimit
| InvalidSortKey | InvalidJson | NoneIpAddress | InvalidOperation | UnsupportedAccept
| UnsupportedContentType | NeedView | LastServerDeleteNotAllowed.

(** Subclasses of [Forbidden]. *)
Inductive forbidden : Set :=
| F_Base | IllegalChildZone | IllegalParentZone | IncorrectZoneTransferKey.

(** Subclasses of [Duplicate]. *)
Inductive duplicate : Set :=
| D_Base | DuplicateServiceStatus | DuplicateQuota | DuplicateServer | DuplicateTsigKey
| DuplicateZone | DuplicateAcl | DuplicateTld | DuplicateRecordSet | DuplicateRecord
| DuplicateBlacklist | DuplicatePoolManagerStatus | DuplicatePool | DuplicatePoolAttribute
| DuplicatePoolNsRecord | DuplicatePoolNameserver | DuplicatePoolTarget
| DuplicatePoolTargetOption | DuplicatePoolTargetMaster | DuplicatePoolAlsoNotify
| DuplicateZoneImport | DuplicateZoneExport | DuplicateViewDuplicate | DuplicateZdnsViewInfo
| DuplicateViewZdnsView | DuplicateView | DuplicateZoneTransferRequest
| DuplicateZoneTransferAccept | DuplicateZoneAttribute | DuplicateZoneMaster.

(** Subclasses of [NotFound]. *)
Inductive not_found : Set :=
| NF_Base | ServiceStatusNotFound | QuotaNotFound | ServerNotFound | TsigKeyNotFound
| BlacklistNotFound | ZoneNotFound | AclNotFound | ZoneMasterNotFound | ZoneAttributeNotFound
| TldNotFound | RecordSetNotFound | RecordNotFound | ReportNotFound
| PoolManagerStatusNotFound | PoolNotFound | NoValidPoolFound | PoolAttributeNotFound
| PoolNsRecordNotFound | PoolNameserverNotFound | PoolTargetNotFound
| PoolTargetOptionNotFound | PoolTargetMasterNotFound | PoolAlsoNotifyNotFound
| ZoneTransferRequestNotFound | ZoneTransferAcceptNotFound | ZoneImportNotFound
| ZoneExportNotFound | ViewNotFound | ViewAclNotFound | AclsIsNone | ParamsIsNotLegal
| AclidsMustBeList | CreateViewFailed.

(** Subclasses of [Failed]. *)
Inductive failed : Set := Failed_Base | AllFailed | PartlyFailed.

(** Subclasses of [ConfigurationError]. *)
Inductive configuration_error : Set :=
| CE_Base | NoFiltersConfigured | NoServersConfigured | MultiplePoolsFound
| NoPoolTargetsConfigured.

(** Exceptions of the language, of the standard library and of the libraries the
    program catches by name. *)
Inductive builtin_exc : Set :=
| PyException        (* a bare [Exception] *)
| PyValueError | PyTypeError | PyKeyError | PyIndexError | PyAttributeError
| PyNotImplementedError | PyZeroDivision | PyAssertionError | PyUnboundLocalError
| DBDeadlock | DBDuplicateEntry | InvalidRequest
| Blocked            (* no exception: the thread waits for a lock for ever *)
| ToozError | GroupNotCreated | MessagingTimeout | MessagingException
| DnsTimeout | DnsBadResponse | DnsFormError | SocketError | SocketEAGAIN
| Cancelled          (* concurrent.futures.CancelledError *)
| EventletTimeout (own : bool).

Inductive exc : Set :=
| Backend | NSD4SlaveBackendError
| RelationNotLoaded | AdapterNotFound | NotImplemented | XFRFailure
| ConfigurationError (c : configuration_error)
| UnknownFailure | CommunicationFailure | NeutronCommunicationFailure
| OverQuota | QuotaResourceUnknown | InvalidObject
| BadRequest (b : bad_request)
| NotEqual | NoChange
| InvalidZoneName | InvalidAclName | InvalidRecordSetName | InvalidRecordSetLocation
| InvaildZoneTransfer | InvalidTTL | ZoneHasSubZone
| Forbidden (f : forbidden)
| Duplicate (d : duplicate)
| MethodNotAllowed
| NotFound (n : not_found)
| Failed (f : failed)
| ZdnsErrMessage | AclUsedByView
| Py (b : builtin_exc).

(** The HTTP status an API fault carries, [error_code], with inheritance. *)
Definition error_code (e : exc) : option Z :=
  match e with
  | Backend | NSD4SlaveBackendError | Py _ => None
  | CommunicationFailure | NeutronCommunicationFailure => Some 504%Z
  | OverQuota => Some 413%Z
  | InvalidObject => Some 400%Z
  | BadRequest NetworkEndpointNotFound => Some 403%Z
  | BadRequest UnsupportedAccept => Some 406%Z
  | BadRequest UnsupportedContentType => Some 415%Z
  | BadRequest _ => Some 400%Z
  | InvalidZoneName | InvalidAclName | InvalidRecordSetName | InvalidRecordSetLocation
  | InvaildZoneTransfer | InvalidTTL | ZoneHasSubZone => Some 400%Z
  | Forbidden _ => Some 403%Z
  | Duplicate _ => Some 409%Z
  | MethodNotAllowed => Some 405%Z
  | NotFound _ => Some 404%Z
  | _ => Some 500%Z
  end.

#[global] Instance bad_request_eq_dec : EqDecision bad_request.
Proof. solve_decision. Defined.
#[global] Instance forbidden_eq_dec : EqDecision forbidden.
Proof. solve_decision. Defined.
#[global] Instance duplicate_eq_dec : EqDecision duplicate.
Proof. solve_decision. Defined.
#[global] Instance not_found_eq_dec : EqDecision not_found.
Proof. solve_decision. Defined.
#[global] Instance failed_eq_dec : EqDecision failed.
Proof. solve_decision. Defined.
#[global] Instance configuration_error_eq_dec : EqDecision configuration_error.
Proof. solve_decision. Defined.
#[global] Instance builtin_exc_eq_dec : EqDecision builtin_exc.
Proof. solve_decision. Defined.
#[global] Instance exc_eq_dec : EqDecision exc.
Proof. solve_decision. Defined.

(** Results and computations of the program: exceptions are [exc]. *)
Abbreviation R := (res exc).
Abbreviation P := (M exc).

(** [except exceptions.<class>] handlers. *)
Definition on {A} (e0 : exc) (k : A) (e : exc) : option A :=
  if bool_decide (e = e0) then Some k else None.
Definition on_any {A} (k : A) (e : exc) : option A := Some k.
(** [except Exception]: a thread that waits for ever, or is interrupted by a
    timeout, does not come here. *)
Definition except_exception {A} (k : exc -> A) (e : exc) : option A :=
  match e with Py Blocked | Py (EventletTimeout _) => None | _ => Some (k e) end.

#[export] Instance try_on_reads {S A} (m k : P S A) e :
  Reads m -> Reads k -> Reads (try_except m (on e k)).
Proof.
  intros Hm Hk. apply try_except_reads; [done|]. unfold on. intros e' k'.
  by case_bool_decide; intros [= <-].
Qed.

(** A computation whose failures [except Exception] catches. *)
Definition caught (e : exc) : Prop := e <> Py Blocked /\ forall own, e <> Py (EventletTimeout own).
Class Catchable {S A} (m : P S A) : Prop :=
  raises_caught : forall w e w', m w = (Raise e, w') -> caught e.

Lemma except_exception_caught {A} (k : exc -> A) e : caught e -> except_exception k e = Some (k e).
Proof.
  intros [Hb Ht].
  destruct e as [| | | | | |?| | | | | | |?| | | | | | | | | |?|?| |?|?| | |[]]; try done.
  by destruct (Ht own).
Qed.

#[export] Instance ret_catchable {S A} (a : A) : Catchable (S := S) (ret a).
Proof. by intros w e w' [=]. Qed.
#[export] Instance bind_catchable {S A B} (m : P S A) (f : A -> P S B) :
  Catchable m -> (forall a, Catchable (f a)) -> Catchable (bind m f).
Proof. intros Hm Hf w e w'. rewrite bind_Raise. intros [?|(a & w1 & _ & ?)]; [by eapply Hm|by eapply Hf]. Qed.
