(* ===== verification/PyNum.v ===== *)
(** * Python's inexact arithmetic on counts and percentages

    [float] (IEEE binary64) and [decimal.Decimal] (28 significant digits) both
    round the exact quotient to a fixed number of significant digits, half to
    even. [round_sig b p n d] is that rounding of [n / d] to [p] digits in base
    [b]; a rounded value is kept as a numerator and a power of the base. *)
From Stdlib Require Import ZArith Lia.
From stdpp Require Import base option numbers list.
From S2P Require Import Prelude.
Local Open Scope Z_scope.

Section Rounding.
Variables (b p : Z).

(** The nearest integer to [n / d], ties to even. *)
Definition round_half_even (n d : Z) : Z :=
  let q := n / d in
  let r := n mod d in
  if 2 * r <? d then q
  else if d <? 2 * r then q + 1
  else if Z.even q then q else q + 1.

(** The largest [e >= 0] with [d * b^e <= n], counted from [e0]. *)
Fixpoint ilog_up (fuel : nat) (n d e0 : Z) : Z :=
  match fuel with
  | O => e0
  | S fuel' => if d * b <=? n then ilog_up fuel' n (d * b) (e0 + 1) else e0
  end.

(** The largest [e <= 0] with [d <= n * b^(-e)], counted from [e0]. *)
Fixpoint ilog_down (fuel : nat) (n d e0 : Z) : Z :=
  match fuel with
  | O => e0
  | S fuel' => if n <? d then ilog_down fuel' (n * b) d (e0 - 1) else e0
  end.

(** [floor (log_b (n / d))]. *)
Definition ilog (n d : Z) : Z :=
  if d <=? n then ilog_up (Z.to_nat (Z.log2 n + 1)) n d 0
  else ilog_down (Z.to_nat (Z.log2 d + 1)) n d 0.

(** [n / d] rounded to [p] significant digits, as (numerator, denominator). *)
Definition round_sig (n d : Z) : Z * Z :=
  if n =? 0 then (0, 1)
  else
    let k := p - 1 - ilog n d in
    if 0 <=? k then (round_half_even (n * b ^ k) d, b ^ k)
    else (round_half_even n (d * b ^ (- k)) * b ^ (- k), 1).

Lemma rhe_bounds n d : 0 < d -> n / d <= round_half_even n d <= n / d + 1.
Proof. intros Hd. unfold round_half_even. repeat case_match; lia. Qed.

Lemma rhe_ge n d t : 0 < d -> t * d <= n -> t <= round_half_even n d.
Proof.
  intros Hd Ht. pose proof (rhe_bounds n d Hd).
  assert (t <= n / d) by (apply Z.div_le_lower_bound; lia). lia.
Qed.

Lemma rhe_lt n d t : 0 < d -> n < t * d -> d < 2 * (t * d - n) -> round_half_even n d < t.
Proof.
  intros Hd Hlt Hgap. pose proof (rhe_bounds n d Hd) as Hb.
  pose proof (Z.div_mod n d ltac:(lia)) as Hdm.
  pose proof (Z.mod_pos_bound n d Hd) as Hr.
  assert (Hq : n / d < t) by (apply Z.div_lt_upper_bound; lia).
  destruct (decide (n / d = t - 1)) as [Heq|]; [|lia].
  unfold round_half_even. case_match; [lia|].
  rewrite Z.ltb_ge in *. nia.
Qed.

Lemma rhe_le n d t : 0 < d -> n <= t * d -> round_half_even n d <= t.
Proof.
  intros Hd Ht. pose proof (rhe_bounds n d Hd) as Hb.
  pose proof (Z.div_mod n d ltac:(lia)) as Hdm. pose proof (Z.mod_pos_bound n d Hd) as Hr.
  assert (Hq : n / d <= t) by (apply Z.div_le_upper_bound; lia).
  destruct (decide (n / d = t)) as [Heq|]; [|lia].
  assert (Hr0 : n mod d = 0) by nia.
  unfold round_half_even. rewrite Hr0. case_match; [lia|]. rewrite Z.ltb_ge in *. lia.
Qed.

Lemma rhe_gt n d t : 0 < d -> t * d < n -> d < 2 * (n - t * d) -> t < round_half_even n d.
Proof.
  intros Hd Hlt Hgap. pose proof (rhe_bounds n d Hd) as Hb.
  pose proof (Z.div_mod n d ltac:(lia)) as Hdm. pose proof (Z.mod_pos_bound n d Hd) as Hr.
  assert (Hq : t <= n / d) by (apply Z.div_le_lower_bound; lia).
  destruct (decide (n / d = t)) as [Heq|]; [|lia].
  unfold round_half_even. case_match; [rewrite Z.ltb_lt in *; nia|]. case_match; [lia|].
  rewrite Z.ltb_ge in *. nia.
Qed.

Lemma rhe_exact n d : 0 < d -> n mod d = 0 -> round_half_even n d = n / d.
Proof. intros Hd Hr. unfold round_half_even. rewrite Hr. case_match; [done|]. lia. Qed.

Hypothesis b_ge_2 : 2 <= b.

Lemma ilog_up_spec fuel n d e0 :
  0 < d -> d <= n ->
  exists j, 0 <= j /\ ilog_up fuel n d e0 = e0 + j /\ d * b ^ j <= n.
Proof.
  revert d e0. induction fuel as [|fuel IH]; intros d e0 Hd Hn; cbn.
  - exists 0. rewrite Z.pow_0_r. lia.
  - destruct (Z.leb_spec (d * b) n) as [Hle|].
    + destruct (IH (d * b) (e0 + 1)) as (j & Hj & -> & Hb); [nia|lia|].
      exists (j + 1). rewrite Z.pow_add_r, Z.pow_1_r by lia. split_and!; [lia..|nia].
    + exists 0. rewrite Z.pow_0_r. lia.
Qed.

Lemma ilog_down_le fuel n d e0 : ilog_down fuel n d e0 <= e0.
Proof.
  revert n e0. induction fuel as [|fuel IH]; intros n e0; cbn; [lia|].
  case_match; [|lia]. specialize (IH (n * b) (e0 - 1)). lia.
Qed.

Lemma ilog_up_fuel fuel n d e0 :
  0 < d -> n < d * 2 ^ Z.of_nat fuel -> n < d * b ^ (ilog_up fuel n d e0 - e0 + 1).
Proof.
  revert d e0. induction fuel as [|fuel IH]; intros d e0 Hd Hn; cbn.
  - rewrite Z.sub_diag, Z.pow_1_r. cbn in Hn. nia.
  - rewrite Nat2Z.inj_succ, Z.pow_succ_r in Hn by lia.
    destruct (Z.leb_spec (d * b) n) as [Hle|].
    + specialize (IH (d * b) (e0 + 1) ltac:(nia)).
      destruct (ilog_up_spec fuel n (d * b) (e0 + 1)) as (i & Hi & He & _); [nia|lia|].
      rewrite He in *. replace (e0 + 1 + i - e0 + 1) with (Z.succ (i + 1)) by lia.
      replace (e0 + 1 + i - (e0 + 1) + 1) with (i + 1) in IH by lia.
      rewrite Z.pow_succ_r by lia. assert (0 < 2 ^ Z.of_nat fuel) by lia. nia.
    + rewrite Z.sub_diag, Z.pow_1_r. lia.
Qed.

(** The fuel of [ilog] is enough: its result is exact above one. *)
Lemma ilog_spec n d : 0 < d -> d <= n -> d * b ^ ilog n d <= n < d * b ^ (ilog n d + 1).
Proof.
  intros Hd Hle. unfold ilog. rewrite (proj2 (Z.leb_le d n) Hle).
  pose proof (ilog_up_fuel (Z.to_nat (Z.log2 n + 1)) n d 0 Hd) as Hf.
  destruct (ilog_up_spec (Z.to_nat (Z.log2 n + 1)) n d 0 Hd Hle) as (i & Hi & He & Hb).
  rewrite He in *. split; [exact Hb|].
  replace (0 + i - 0 + 1) with (0 + i + 1) in Hf by lia. apply Hf.
  rewrite Z2Nat.id by (pose proof (Z.log2_nonneg n); lia).
  pose proof (Z.log2_spec n ltac:(lia)) as [_ Hl]. rewrite Z.add_1_r. nia.
Qed.

(** A quotient below [b^j] has fewer than [j + 1] digits before the point. *)
Lemma ilog_lt n d j : 0 < d -> 0 < n -> 0 < j -> n < d * b ^ j -> ilog n d < j.
Proof.
  intros Hd Hn Hj Hlt. unfold ilog. destruct (Z.leb_spec d n) as [Hle|].
  - destruct (ilog_up_spec (Z.to_nat (Z.log2 n + 1)) n d 0 Hd Hle) as (i & Hi & -> & Hb).
    destruct (Z.le_gt_cases j i) as [Hji|]; [|lia].
    assert (b ^ j <= b ^ i) by (apply Z.pow_le_mono_r; lia). nia.
  - pose proof (ilog_down_le (Z.to_nat (Z.log2 d + 1)) n d 0). lia.
Qed.

Lemma round_sig_den n d : 0 < (round_sig n d).2.
Proof.
  unfold round_sig. case_match; [done|]. case_match; cbn; [|lia].
  rewrite Z.leb_le in *. apply Z.pow_pos_nonneg; lia.
Qed.

(** Rounding keeps the comparison with an integer, as long as the quotient, in
    lower terms, leaves enough digits after the point to separate it from that
    integer. *)
Lemma round_sig_ge_iff_scaled c n0 d0 j t :
  0 < c -> 0 < d0 -> 0 <= n0 -> 0 < j -> j <= p -> n0 < d0 * b ^ j -> d0 < 2 * b ^ (p - j) ->
  let '(m, e) := round_sig (c * n0) (c * d0) in t * e <= m <-> t * d0 <= n0.
Proof.
  intros Hc Hd Hn Hj Hp Hlt Hgap. unfold round_sig.
  destruct (Z.eqb_spec (c * n0) 0) as [Hz|Hn0].
  { assert (n0 = 0) as -> by nia. nia. }
  assert (Hl : ilog (c * n0) (c * d0) < j) by (apply ilog_lt; nia).
  set (k := p - 1 - ilog (c * n0) (c * d0)) in *.
  destruct (Z.leb_spec 0 k) as [Hk|]; [|lia].
  assert (Hbk : b ^ (p - j) <= b ^ k) by (apply Z.pow_le_mono_r; lia).
  assert (Hbp : 0 < b ^ k) by (apply Z.pow_pos_nonneg; lia).
  split; intros H.
  - destruct (Z.le_gt_cases (t * d0) n0) as [|Hgt]; [done|].
    assert (round_half_even (c * n0 * b ^ k) (c * d0) < t * b ^ k); [|lia].
    assert (Hcb : 0 < c * b ^ k) by nia.
    apply rhe_lt; [nia| |].
    { replace (t * b ^ k * (c * d0)) with (c * b ^ k * (t * d0)) by ring. nia. }
    replace (t * b ^ k * (c * d0) - c * n0 * b ^ k) with (c * b ^ k * (t * d0 - n0)) by ring.
    apply Z.lt_le_trans with (c * b ^ k * 2); [|nia].
    rewrite <- Z.mul_assoc. apply Z.mul_lt_mono_pos_l; lia.
  - apply rhe_ge; [nia|].
    replace (t * b ^ k * (c * d0)) with (c * b ^ k * (t * d0)) by ring.
    replace (c * n0 * b ^ k) with (c * b ^ k * n0) by ring. apply Z.mul_le_mono_nonneg_l; nia.
Qed.

Lemma round_sig_le_iff_scaled c n0 d0 j t :
  0 < c -> 0 < d0 -> 0 <= n0 -> 0 < j -> j <= p -> n0 < d0 * b ^ j -> d0 < 2 * b ^ (p - j) ->
  let '(m, e) := round_sig (c * n0) (c * d0) in m <= t * e <-> n0 <= t * d0.
Proof.
  intros Hc Hd Hn Hj Hp Hlt Hgap. unfold round_sig.
  destruct (Z.eqb_spec (c * n0) 0) as [Hz|Hn0].
  { assert (n0 = 0) as -> by nia. nia. }
  assert (Hl : ilog (c * n0) (c * d0) < j) by (apply ilog_lt; nia).
  set (k := p - 1 - ilog (c * n0) (c * d0)) in *.
  destruct (Z.leb_spec 0 k) as [Hk|]; [|lia].
  assert (Hbk : b ^ (p - j) <= b ^ k) by (apply Z.pow_le_mono_r; lia).
  assert (Hbp : 0 < b ^ k) by (apply Z.pow_pos_nonneg; lia).
  assert (Hcb : 0 < c * b ^ k) by nia.
  assert (Ht : t * b ^ k * (c * d0) = c * b ^ k * (t * d0)) by ring.
  assert (Hm : c * n0 * b ^ k = c * b ^ k * n0) by ring.
  split; intros H.
  - destruct (Z.le_gt_cases n0 (t * d0)) as [|Hgt]; [done|].
    assert (t * b ^ k < round_half_even (c * n0 * b ^ k) (c * d0)); [|lia].
    apply rhe_gt; rewrite ?Ht, ?Hm; [nia|by apply Z.mul_lt_mono_pos_l|].
    rewrite <- Z.mul_sub_distr_l. apply Z.lt_le_trans with (c * b ^ k * 2); [|nia].
    rewrite <- Z.mul_assoc. apply Z.mul_lt_mono_pos_l; lia.
  - apply rhe_le; rewrite ?Ht, ?Hm; [nia|]. apply Z.mul_le_mono_nonneg_l; lia.
Qed.

Lemma round_sig_ge_iff n d j t :
  0 < d -> 0 <= n -> 0 < j -> j <= p -> n < d * b ^ j -> d < 2 * b ^ (p - j) ->
  let '(m, c) := round_sig n d in t * c <= m <-> t * d <= n.
Proof.
  intros. pose proof (round_sig_ge_iff_scaled 1 n d j t) as H'. rewrite !Z.mul_1_l in H'.
  apply H'; lia.
Qed.

Lemma ilog_down_spec fuel n d e0 :
  0 < n -> d <= n * 2 ^ Z.of_nat fuel -> exists i, 0 <= i /\ ilog_down fuel n d e0 = e0 - i /\
    d <= n * b ^ i /\ (0 < i -> n * b ^ (i - 1) < d).
Proof.
  revert n e0. induction fuel as [|fuel IH]; intros n e0 Hn Hd; cbn.
  - exists 0. cbn in Hd. rewrite Z.pow_0_r. split_and!; lia.
  - rewrite Nat2Z.inj_succ, Z.pow_succ_r in Hd by lia. destruct (Z.ltb_spec n d) as [Hlt|Hge].
    + assert (Hp : 0 < 2 ^ Z.of_nat fuel) by lia.
      destruct (IH (n * b) (e0 - 1)) as (i & Hi & -> & Hle & Hmin); [nia|nia|].
      exists (i + 1). rewrite Z.pow_add_r, Z.pow_1_r by lia. split_and!; [lia..|nia|].
      intros _. replace (i + 1 - 1) with i by lia. destruct (Z.eq_dec i 0) as [->|].
      * rewrite Z.pow_0_r. lia.
      * replace (b ^ i) with (b * b ^ (i - 1)); [specialize (Hmin ltac:(lia)); lia|].
        rewrite <- Z.pow_succ_r by lia. f_equal. lia.
    + exists 0. rewrite Z.pow_0_r. split_and!; lia.
Qed.

(** What [ilog] promises on either side of one. *)
Lemma ilog_cases n d :
  0 < d -> 0 < n ->
  (0 <= ilog n d /\ d * b ^ ilog n d <= n < d * b ^ (ilog n d + 1)) \/
  (ilog n d < 0 /\ d <= n * b ^ (- ilog n d) /\ n * b ^ (- ilog n d - 1) < d).
Proof.
  intros Hd Hn. destruct (Z.le_gt_cases d n) as [Hle|Hlt].
  - left. split; [|by apply ilog_spec]. unfold ilog. rewrite (proj2 (Z.leb_le d n) Hle).
    destruct (ilog_up_spec (Z.to_nat (Z.log2 n + 1)) n d 0 Hd Hle) as (i & Hi & -> & _). lia.
  - right. unfold ilog. rewrite (proj2 (Z.leb_gt d n) Hlt).
    destruct (ilog_down_spec (Z.to_nat (Z.log2 d + 1)) n d 0 Hn) as (i & Hi & -> & Hle & Hmin).
    + rewrite Z2Nat.id by (pose proof (Z.log2_nonneg d); lia).
      pose proof (Z.log2_spec d Hd) as [_ Hl]. rewrite Z.add_1_r. nia.
    + destruct (Z.eq_dec i 0) as [->|]; [rewrite Z.pow_0_r in Hle; lia|].
      replace (- (0 - i)) with i by lia. split_and!; [lia|done|]. apply Hmin. lia.
Qed.

(** A quotient that already has at most [p] digits is not changed. *)
Lemma round_sig_exact n d j q :
  0 < d -> 0 < n -> 0 <= j -> n * b ^ j = q * d -> q < b ^ p ->
  let '(m, c) := round_sig n d in m * d = n * c.
Proof.
  intros Hd Hn Hj Hq Hlt. unfold round_sig.
  destruct (Z.eqb_spec n 0) as [->|_]; [lia|].
  assert (Hbj : 0 < b ^ j) by (apply Z.pow_pos_nonneg; lia).
  assert (Hp0 : 0 <= p).
  { destruct (Z.le_gt_cases 0 p); [done|]. rewrite Z.pow_neg_r in Hlt by lia. nia. }
  set (L := ilog n d) in *.
  assert (Hjk : j <= p - 1 - L).
  { destruct (ilog_cases n d Hd Hn) as [(HL & Hlo & _)|(HL & Hlo & _)]; fold L in HL, Hlo.
    - assert (b ^ (L + j) < b ^ p); [|assert (L + j < p); [|lia]].
      + rewrite Z.pow_add_r by lia. assert (d * (b ^ L * b ^ j) < d * b ^ p); nia.
      + by apply (Z.pow_lt_mono_r_iff b); [lia..|].
    - assert (b ^ j < b ^ (p - L)); [|assert (j < p - L); [|lia]].
      + replace (p - L) with (p + - L) by lia. rewrite Z.pow_add_r by lia.
        assert (Hb : 0 < b ^ (- L)) by (apply Z.pow_pos_nonneg; lia).
        set (B := b ^ (- L)) in *. set (J := b ^ j) in *. set (Q := b ^ p) in *.
        apply Z.mul_lt_mono_pos_l with d; [done|].
        apply Z.le_lt_trans with (q * d * B); [rewrite <- Hq; nia|].
        replace (d * (Q * B)) with (Q * (d * B)) by ring. replace (q * d * B) with (q * (d * B)) by ring.
        apply Z.mul_lt_mono_pos_r; nia.
      + by apply (Z.pow_lt_mono_r_iff b); [lia..|]. }
  set (k := p - 1 - L) in *.
  destruct (Z.leb_spec 0 k) as [Hk|]; [|lia].
  assert (n * b ^ k = (q * b ^ (k - j)) * d) as Hnk.
  { replace (b ^ k) with (b ^ j * b ^ (k - j)) by (rewrite <- Z.pow_add_r by lia; f_equal; lia).
    nia. }
  rewrite rhe_exact by (done || (rewrite Hnk; apply Z.mod_mul; lia)).
  rewrite Hnk, Z.div_mul by lia. lia.
Qed.
End Rounding.

(** ** binary64 *)

(** [float(n)] for a non-negative integer. *)
Definition float_of_Z (n : Z) : Z * Z := round_sig 2 53 n 1.
(** [k * x] for an integer [k]. *)
Definition float_mul_Z (k : Z) (x : Z * Z) : Z * Z := round_sig 2 53 (k * x.1) x.2.
(** [x / y] *)
Definition float_div (x y : Z * Z) : Z * Z := round_sig 2 53 (x.1 * y.2) (x.2 * y.1).

(** ** Decimal, with the default context: 28 digits *)

(** [Decimal(x) / Decimal(y)] for integers. *)
Definition decimal_div (x y : Z) : Z * Z := round_sig 10 28 x y.
(** [x * Decimal(k)] *)
Definition decimal_mul (x : Z * Z) (k : Z) : Z * Z := round_sig 10 28 (x.1 * k) x.2.

Lemma float_exact n k c :
  0 <= n -> 0 < c -> n < 2 ^ 53 -> n = k * c ->
  let '(m, e) := round_sig 2 53 n c in m * c = n * e /\ 0 < e.
Proof.
  intros Hn Hc Hlt Hk. pose proof (round_sig_den 2 53 ltac:(lia) n c) as Hden.
  destruct (decide (n = 0)) as [->|].
  - by cbn.
  - pose proof (round_sig_exact 2 53 ltac:(lia) n c 0 k Hc ltac:(lia) ltac:(lia)
      ltac:(lia) ltac:(nia)) as H.
    destruct (round_sig 2 53 n c). by split.
Qed.

(** An integer of at most 53 bits, and its product by a small one, are floats. *)
Lemma float_of_Z_exact n : 0 <= n < 2 ^ 53 -> let '(m, e) := float_of_Z n in m = n * e /\ 0 < e.
Proof.
  intros Hn. pose proof (float_exact n n 1 ltac:(lia) ltac:(lia) ltac:(lia) ltac:(lia)) as H.
  unfold float_of_Z. destruct (round_sig 2 53 n 1). lia.
Qed.
Lemma float_mul_exact k n m e :
  0 <= k * n < 2 ^ 53 -> m = n * e -> 0 < e ->
  let '(m', e') := float_mul_Z k (m, e) in m' = k * n * e' /\ 0 < e'.
Proof.
  intros Hk -> He. unfold float_mul_Z. cbn [fst snd]. rewrite Z.mul_assoc.
  set (x := k * n) in *. clearbody x.
  pose proof (round_sig_den 2 53 ltac:(lia) (x * e) e) as Hden.
  destruct (decide (x = 0)) as [->|Hx]; [unfold round_sig; rewrite Z.mul_0_l; split; [done|lia]|].
  assert (Hxe : 0 < x * e) by (apply Z.mul_pos_pos; lia).
  pose proof (round_sig_exact 2 53 ltac:(lia) (x * e) e 0 x He Hxe ltac:(lia)
    ltac:(lia) ltac:(lia)) as H.
  destruct (round_sig 2 53 _ e). split; [|done]. cbn in Hden. nia.
Qed.

(** The float [k * float(n) / float(d)] against an integer. *)
Lemma float_quotient_ge k n d j t :
  0 < d < 2 ^ 46 -> 0 <= k * n -> 0 < j <= 7 -> k * n < d * 2 ^ j -> 0 <= n < 2 ^ 53 ->
  let '(m, e) := float_div (float_mul_Z k (float_of_Z n)) (float_of_Z d) in
  t * e <= m <-> t * d <= k * n.
Proof.
  intros Hd Hkn Hj Hlt Hn.
  assert (Hj2 : 2 ^ j <= 2 ^ 7) by (apply Z.pow_le_mono_r; lia).
  assert (Hj3 : 2 ^ 46 <= 2 ^ (53 - j)) by (apply Z.pow_le_mono_r; lia).
  pose proof (float_of_Z_exact n ltac:(lia)) as Hx. destruct (float_of_Z n) as [m1 e1].
  destruct Hx as [Hm1 He1].
  pose proof (float_mul_exact k n m1 e1 ltac:(nia) Hm1 He1) as Hy.
  destruct (float_mul_Z k (m1, e1)) as [m2 e2]. destruct Hy as [Hm2 He2].
  pose proof (float_of_Z_exact d ltac:(lia)) as Hz. destruct (float_of_Z d) as [m3 e3].
  destruct Hz as [Hm3 He3]. unfold float_div. cbn [fst snd].
  pose proof (round_sig_ge_iff_scaled 2 53 ltac:(lia) (e2 * e3) (k * n) d j t) as H.
  replace (e2 * e3 * (k * n)) with (m2 * e3) in H by nia.
  replace (e2 * e3 * d) with (e2 * m3) in H by nia.
  apply H; try lia; nia.
Qed.

(** The float [float(n) / float(d)] against an integer, from both sides. *)
Lemma float_div_compare n d t :
  0 <= n < 2 ^ 26 -> 0 < d < 2 ^ 26 ->
  let '(m, e) := float_div (float_of_Z n) (float_of_Z d) in
  0 < e /\ (t * e <= m <-> t * d <= n) /\ (m <= t * e <-> n <= t * d).
Proof.
  intros Hn Hd.
  pose proof (float_of_Z_exact n ltac:(lia)) as Hx. destruct (float_of_Z n) as [m1 e1].
  pose proof (float_of_Z_exact d ltac:(lia)) as Hy. destruct (float_of_Z d) as [m2 e2].
  destruct Hx as [Hm1 He1], Hy as [Hm2 He2]. unfold float_div. cbn [fst snd].
  assert (He : 0 < e1 * e2) by (apply Z.mul_pos_pos; lia).
  pose proof (round_sig_ge_iff_scaled 2 53 ltac:(lia) (e1 * e2) n d 26 t He) as Hge.
  pose proof (round_sig_le_iff_scaled 2 53 ltac:(lia) (e1 * e2) n d 26 t He) as Hle.
  replace (e1 * e2 * n) with (m1 * e2) in * by (rewrite Hm1; ring).
  replace (e1 * e2 * d) with (e1 * m2) in * by (rewrite Hm2; ring).
  pose proof (round_sig_den 2 53 ltac:(lia) (m1 * e2) (e1 * m2)) as Hden.
  assert (n < d * 2 ^ 26) by nia.
  destruct (round_sig 2 53 _ _) as [m e]. split_and!; [exact Hden|apply Hge; lia|apply Hle; lia].
Qed.

(** [Decimal(n) / Decimal(d) * Decimal(100)] reaches an integer exactly when
    [100 * n] reaches that many times [d]. *)
Definition decimal_percentage (n d : Z) : Z * Z := decimal_mul (decimal_div n d) 100.

Lemma decimal_quotient n d :
  0 < n < 10 ^ 9 -> 0 < d < 10 ^ 9 ->
  exists M k, decimal_div n d = (M, 10 ^ k) /\ 18 <= k /\ 0 < M <= 10 ^ 28 /\
    forall t, t * 10 ^ (k - 2) <= M <-> t * d <= 100 * n.
Proof.
  intros Hn Hd. unfold decimal_div, round_sig. destruct (Z.eqb_spec n 0); [lia|].
  set (L := ilog 10 n d). assert (HL : L < 9) by (apply ilog_lt; lia).
  set (k := 28 - 1 - L). destruct (Z.leb_spec 0 k) as [Hk|]; [|lia].
  exists (round_half_even (n * 10 ^ k) d), k. split; [done|]. split; [lia|].
  assert (Hpow : 10 ^ k = 100 * 10 ^ (k - 2)).
  { replace k with (2 + (k - 2)) at 1 by lia. rewrite Z.pow_add_r by lia. lia. }
  assert (H16 : 10 ^ 16 <= 10 ^ (k - 2)) by (apply Z.pow_le_mono_r; lia).
  split; [split|].
  - apply Z.lt_le_trans with 1; [lia|]. apply rhe_ge; [lia|]. nia.
  - apply rhe_le; [lia|]. destruct (ilog_cases 10 ltac:(lia) n d) as [(H0 & _ & Hup)|(H0 & _ & Hup)];
      [lia..| |]; fold L in H0, Hup.
    + replace (10 ^ 28) with (10 ^ (L + 1) * 10 ^ k) by (rewrite <- Z.pow_add_r by lia; f_equal; lia).
      assert (H0k : 0 < 10 ^ k) by lia. clearbody k. generalize dependent (10 ^ (L + 1)). generalize dependent (10 ^ k).
      clear. intros. nia.
    + replace (10 ^ k) with (10 ^ (- L - 1) * 10 ^ 28) by (rewrite <- Z.pow_add_r by lia; f_equal; lia). nia.
  - intros t. rewrite Hpow. split; intros Ht.
    + destruct (Z.le_gt_cases (t * d) (100 * n)) as [|Hgt]; [done|].
      assert (round_half_even (n * (100 * 10 ^ (k - 2))) d < t * 10 ^ (k - 2)); [|lia].
      apply rhe_lt; [lia|nia|].
      replace (t * 10 ^ (k - 2) * d - n * (100 * 10 ^ (k - 2))) with (10 ^ (k - 2) * (t * d - 100 * n)) by ring. nia.
    + apply rhe_ge; [lia|]. nia.
Qed.

Lemma decimal_percentage_ge n d t :
  0 <= n < 10 ^ 9 -> 0 < d < 10 ^ 9 ->
  let '(m, e) := decimal_percentage n d in t * e <= m <-> t * d <= 100 * n.
Proof.
  intros Hn Hd. unfold decimal_percentage, decimal_mul.
  destruct (Z.eq_dec n 0) as [->|Hn0]; [change (t * 1 <= 0 <-> t * d <= 0); split; nia|].
  destruct (decimal_quotient n d) as (M & k & -> & Hk & HM & Hcmp); [lia|done|]. cbn [fst snd].
  assert (Hpow : 10 ^ k = 100 * 10 ^ (k - 2)).
  { replace k with (2 + (k - 2)) at 1 by lia. rewrite Z.pow_add_r by lia. lia. }
  assert (Hpow' : 10 ^ (k - 2) = 10 * 10 ^ (k - 3)).
  { replace (k - 2) with (1 + (k - 3)) by lia. rewrite Z.pow_add_r by lia. lia. }
  assert (H0 : 0 < 10 ^ (k - 3)) by (apply Z.pow_pos_nonneg; lia).
  pose proof (round_sig_den 10 28 ltac:(lia) (M * 100) (10 ^ k)) as He.
  assert (Hx : let '(m, e) := round_sig 10 28 (M * 100) (10 ^ k) in m * 10 ^ k = M * 100 * e).
  { destruct (Z.eq_dec M (10 ^ 28)) as [->|].
    - apply (round_sig_exact 10 28 ltac:(lia) _ _ (k - 3) (10 ^ 27)); try lia.
    - apply (round_sig_exact 10 28 ltac:(lia) _ _ (k - 2) M); try lia. }
  destruct (round_sig 10 28 (M * 100) (10 ^ k)) as [m e]. cbn in He.
  rewrite <- Hcmp. rewrite Hpow in Hx. split; intros; nia.
Qed.
