(* ===== verification/Values.v ===== *)
(** * Python values

    The dynamic values the program stores in its objects, in database rows and
    in query criteria. An object of designate/objects is a value too: its class,
    the attributes that are set, the names in [_obj_changes] and the dictionary
    [_obj_original_values]. *)
From Stdlib Require Import ZArith Lia String.
From stdpp Require Import base option numbers strings sets list.
From S2P Require Import Prelude PyStr.
Local Open Scope string_scope.

Inductive pyval : Type :=
| PNone
| PBool (b : bool)
| PInt (z : Z)
| PStr (s : string)
| PList (l : list pyval)
| PDict (d : list (string * pyval))
| PObj (cls : string) (fields : list (string * pyval)) (changes : list string)
       (originals : list (string * pyval)).

(** Induction over values with the hypothesis for every element. *)
Section Induction.
Variable P : pyval -> Prop.
Hypothesis HNone : P PNone.
Hypothesis HBool : forall b, P (PBool b).
Hypothesis HInt : forall z, P (PInt z).
Hypothesis HStr : forall s, P (PStr s).
Hypothesis HList : forall l, Forall P l -> P (PList l).
Hypothesis HDict : forall d, Forall (fun kv => P kv.2) d -> P (PDict d).
Hypothesis HObj : forall c f ch og,
  Forall (fun kv => P kv.2) f -> Forall (fun kv => P kv.2) og -> P (PObj c f ch og).

Fixpoint pyval_ind' (v : pyval) : P v :=
  let dict := fix dict (d : list (string * pyval)) : Forall (fun kv => P kv.2) d :=
    match d with
    | [] => Forall_nil_2 _
    | (k, w) :: d' => Forall_cons_2 _ (k, w) d' (pyval_ind' w) (dict d')
    end in
  match v with
  | PNone => HNone
  | PBool b => HBool b
  | PInt z => HInt z
  | PStr s => HStr s
  | PList l =>
      HList l ((fix go (l : list pyval) : Forall P l :=
        match l with
        | [] => Forall_nil_2 _
        | w :: l' => Forall_cons_2 _ w l' (pyval_ind' w) (go l')
        end) l)
  | PDict d => HDict d (dict d)
  | PObj c f ch og => HObj c f ch og (dict f) (dict og)
  end.
End Induction.

(** [bool(v)] *)
Definition truthy (v : pyval) : bool :=
  match v with
  | PNone => false
  | PBool b => b
  | PInt z => negb (z =? 0)%Z
  | PStr s => negb (String.eqb s "")
  | PList l => match l with [] => false | _ => true end
  | PDict d => match d with [] => false | _ => true end
  | PObj _ _ _ _ => true
  end.

(** [a == b]. Booleans are integers; dictionaries compare without order; objects
    compare by class, attributes, changed names and original values, as their
    [__eq__] does through [to_primitive]. *)
Definition num_of (v : pyval) : option Z :=
  match v with
  | PBool b => Some (if b then 1 else 0)%Z
  | PInt z => Some z
  | _ => None
  end.

Definition mem_str (k : string) (l : list string) : bool := existsb (String.eqb k) l.
Definition same_names (l1 l2 : list string) : bool :=
  forallb (fun k => mem_str k l2) l1 && forallb (fun k => mem_str k l1) l2.

Fixpoint py_eq (a b : pyval) : bool :=
  let dict_eq := fun (d1 d2 : list (string * pyval)) =>
    (length d1 =? length d2)%nat &&
    (fix go (d : list (string * pyval)) : bool :=
       match d with
       | [] => true
       | (k, v) :: d' =>
           match aget k d2 with Some w => py_eq v w | None => false end && go d'
       end) d1 in
  match a, b with
  | PNone, PNone => true
  | PStr s, PStr t => String.eqb s t
  | PList l1, PList l2 =>
      (fix go (l1 l2 : list pyval) : bool :=
         match l1, l2 with
         | [], [] => true
         | x :: l1', y :: l2' => py_eq x y && go l1' l2'
         | _, _ => false
         end) l1 l2
  | PDict d1, PDict d2 => dict_eq d1 d2
  | PObj c1 f1 ch1 o1, PObj c2 f2 ch2 o2 =>
      String.eqb c1 c2 && dict_eq f1 f2 && same_names ch1 ch2 && dict_eq o1 o2
  | _, _ => match num_of a, num_of b with Some x, Some y => (x =? y)%Z | _, _ => false end
  end.

(** The first level of a value has no key twice, at every depth: what holds of
    every Python value, whose dictionaries and attribute tables are maps. *)
Fixpoint wf_val (v : pyval) : Prop :=
  let all := fix all (d : list (string * pyval)) : Prop :=
    match d with [] => True | (_, w) :: d' => wf_val w /\ all d' end in
  match v with
  | PList l => (fix go (l : list pyval) : Prop :=
                  match l with [] => True | w :: l' => wf_val w /\ go l' end) l
  | PDict d => NoDup d.*1 /\ all d
  | PObj _ f _ o => NoDup f.*1 /\ NoDup o.*1 /\ all f /\ all o
  | _ => True
  end.

Lemma mem_str_elem k l : mem_str k l = true <-> k ∈ l.
Proof.
  unfold mem_str. rewrite existsb_exists. split.
  - intros (x & Hx & ->%String.eqb_eq). by apply list_elem_of_In.
  - intros H. exists k. split; [by apply list_elem_of_In | apply String.eqb_refl].
Qed.

Lemma same_names_refl l : same_names l l = true.
Proof.
  unfold same_names. rewrite andb_diag. apply forallb_forall.
  intros x Hx. apply mem_str_elem. by apply list_elem_of_In.
Qed.

Lemma py_eq_num a b x y :
  num_of a = Some x -> num_of b = Some y -> py_eq a b = (x =? y)%Z.
Proof. destruct a, b; cbn; congruence. Qed.

Lemma dict_eq_refl (d0 d : list (string * pyval)) :
  Forall (fun kv => wf_val kv.2 -> py_eq kv.2 kv.2 = true) d ->
  (forall kv, kv ∈ d -> wf_val kv.2) ->
  (forall k v, (k, v) ∈ d -> aget k d0 = Some v) ->
  (fix go (d : list (string * pyval)) : bool :=
     match d with
     | [] => true
     | (k, v) :: d' =>
         match aget k d0 with Some w => py_eq v w | None => false end && go d'
     end) d = true.
Proof.
  induction 1 as [|[k v] d Hv _ IH]; intros Hw Hd; [done|].
  rewrite (Hd k v) by set_solver. cbn in Hv.
  rewrite Hv by (apply (Hw (k, v)); set_solver). cbn.
  apply IH; intros; [apply Hw|apply Hd]; set_solver.
Qed.

Lemma wf_all_elem (d : list (string * pyval)) kv :
  (fix all (d : list (string * pyval)) : Prop :=
     match d with [] => True | (_, w) :: d' => wf_val w /\ all d' end) d ->
  kv ∈ d -> wf_val kv.2.
Proof.
  induction d as [|[k v] d IH]; [set_solver|].
  intros [Hv Hd] [->|Hin]%elem_of_cons; auto.
Qed.

(** A well-formed value equals itself. *)
Lemma py_eq_refl v : wf_val v -> py_eq v v = true.
Proof.
  induction v as [|b|z|s|l IH|d IH|c f ch og IHf IHo] using pyval_ind'; cbn [py_eq wf_val].
  - done.
  - intros _. apply Z.eqb_refl.
  - intros _. apply Z.eqb_refl.
  - intros _. apply String.eqb_refl.
  - induction IH as [|x l Hx _ IHl]; [done|]. intros [Hw Hl].
    by rewrite Hx, IHl.
  - intros [Hn Ha]. rewrite Nat.eqb_refl. cbn. apply dict_eq_refl; [done|..].
    + intros kv. by apply wf_all_elem.
    + intros k w. by apply aget_elem_NoDup.
  - intros (Hf & Ho & Haf & Hao). rewrite String.eqb_refl, same_names_refl, !Nat.eqb_refl. cbn.
    rewrite !dict_eq_refl; try done; try (intros kv; by apply wf_all_elem).
    all: intros k w; by apply aget_elem_NoDup.
Qed.

(** Whether [json.dumps] takes a value; it knows no objects of Designate. *)
Fixpoint jsonable (v : pyval) : bool :=
  match v with
  | PObj _ _ _ _ => false
  | PList l => forallb jsonable l
  | PDict d => forallb (fun kv => jsonable kv.2) d
  | _ => true
  end.
(** Values without structure: what a column of a table holds. *)
Definition scalar (v : pyval) : bool :=
  match v with PNone | PBool _ | PInt _ | PStr _ => true | _ => false end.

Lemma py_eq_str s t : py_eq (PStr s) (PStr t) = String.eqb s t.
Proof. done. Qed.
Lemma py_eq_int x y : py_eq (PInt x) (PInt y) = (x =? y)%Z.
Proof. done. Qed.

#[export] Hint Rewrite py_eq_str py_eq_int : py.
