(* ===== verification/Objects.v ===== *)
(** * Designate objects (designate/objects/base.py)

    An object keeps, beside the attributes that are set, the names changed since
    it was loaded ([_obj_changes]) and the values those attributes had
    ([_obj_original_values]). The class table [FIELDS] is the argument
    [registry]; the tables of the concrete classes are in [Classes]. *)
From Stdlib Require Import ZArith Lia String.
From stdpp Require Import base option numbers strings sets list sorting.
From S2P Require Import Prelude PyStr Exceptions Values.
Local Open Scope string_scope.

(** The JSON-schema keywords of a field. *)
Record schema := {
  s_types : list string;
  s_format : option string;
  s_minimum : option Z;
  s_maximum : option Z;
  s_max_length : option Z;
  s_enum : list string;
}.

(** One entry of a [FIELDS] table. *)
Record field := {
  f_schema : option schema;
  f_relation : option string;       (* relation_cls, when 'relation' is True *)
  f_required : bool;
  f_immutable : bool;
  f_read_only : bool;
}.

(** What [DesignateObjectMetaclass] records of a class: its merged [FIELDS], and
    for a list class the class of its items. *)
Record klass := {
  k_fields : list (string * field);
  k_item : option string;           (* LIST_ITEM_TYPE *)
  k_attribute_list : bool;          (* AttributeListObjectMixin *)
}.

Section Objects.
Variable registry : string -> option klass.

Definition fields_of (cls : string) : list (string * field) :=
  match registry cls with Some k => k_fields k | None => [] end.
Definition in_FIELDS (cls name : string) : bool := mem_str name (fields_of cls).*1.
Definition is_relation (cls name : string) : bool :=
  match aget name (fields_of cls) with
  | Some f => match f_relation f with Some _ => true | None => false end
  | None => false
  end.
Definition is_list_class (cls : string) : bool :=
  match registry cls with
  | Some k => match k_item k with Some _ => true | None => false end
  | None => false
  end.

(** [obj_attr_is_set] *)
Definition obj_attr_is_set (o : pyval) (name : string) : bool :=
  match o with
  | PObj _ f _ _ => match aget name f with Some _ => true | None => false end
  | _ => false
  end.

(** The getter [make_class_properties] installs, with [_obj_check_relation]. *)
Definition getattr (o : pyval) (name : string) : R pyval :=
  match o with
  | PObj c f _ _ =>
      if negb (in_FIELDS c name) then Raise (Py PyAttributeError)
      else match aget name f with
           | Some v => Ok v
           | None => if is_relation c name then Raise RelationNotLoaded else Ok PNone
           end
  | _ => Raise (Py PyAttributeError)
  end.

Definition add_name (name : string) (l : list string) : list string :=
  if mem_str name l then l else app l [name].

(** The setter [make_class_properties] installs, behind [__setattr__]. *)
Definition setattr (o : pyval) (name : string) (v : pyval) : R pyval :=
  match o with
  | PObj c f ch og =>
      if negb (in_FIELDS c name) then Raise (Py PyAttributeError)
      else
        match aget name f with
        | None => Ok (PObj c (aset name v f) (add_name name ch) og)
        | Some cur =>
            let differs := negb (py_eq v cur) in
            let ch' := if differs then add_name name ch else ch in
            let og' :=
              if differs && negb (mem_str name og.*1) then aset name cur og else og in
            Ok (PObj c (aset name v f) ch' og')
        end
  | _ => Raise (Py PyAttributeError)
  end.

(** [update]: setattr for each item, in order. *)
Fixpoint update (o : pyval) (values : list (string * pyval)) : R pyval :=
  match values with
  | [] => Ok o
  | (k, v) :: rest => let? o' := setattr o k v in update o' rest
  end.

(** [cls(kwargs)] *)
Fixpoint init_from (o : pyval) (cls : string) (kwargs : list (string * pyval)) : R pyval :=
  match kwargs with
  | [] => Ok o
  | (k, v) :: rest =>
      if in_FIELDS cls k then let? o' := setattr o k v in init_from o' cls rest
      else Raise (Py PyTypeError)
  end.

(** [ListObjectMixin.__init__] gives a list object an empty, unchanged
    [objects]. *)
Definition new_obj (cls : string) (kwargs : list (string * pyval)) : R pyval :=
  let? o := init_from (PObj cls [] [] []) cls kwargs in
  if is_list_class cls && negb (mem_str "objects" kwargs.*1) then
    match o with
    | PObj c f ch og =>
        Ok (PObj c (aset "objects" (PList []) f)
              (filter (fun n => negb (String.eqb n "objects")) ch) (adel "objects" og))
    | _ => Ok o
    end
  else Ok o.

(** [obj_what_changed]; a list object has changed when one of its items has. *)
Definition own_changes (o : pyval) : list string :=
  match o with PObj _ _ ch _ => ch | _ => [] end.
Definition obj_what_changed (o : pyval) : list string :=
  match o with
  | PObj c f ch _ =>
      if is_list_class c then
        match aget "objects" f with
        | Some (PList items) =>
            if existsb (fun i => match own_changes i with [] => false | _ => true end) items
            then add_name "objects" ch else ch
        | _ => ch
        end
      else ch
  | _ => []
  end.

(** [obj_get_changes] *)
Fixpoint collect (o : pyval) (names : list string) : R (list (string * pyval)) :=
  match names with
  | [] => Ok []
  | n :: rest =>
      let? v := getattr o n in
      let? d := collect o rest in
      Ok ((n, v) :: d)
  end.
Definition obj_get_changes (o : pyval) : R (list (string * pyval)) :=
  collect o (obj_what_changed o).

(** [obj_reset_changes(fields)]; the empty list is [None]. *)
Definition obj_reset_changes (o : pyval) (fields : list string) : pyval :=
  match o with
  | PObj c f ch og =>
      match fields with
      | [] => PObj c f [] []
      | _ => PObj c f (filter (fun n => negb (mem_str n fields)) ch)
               (foldl (fun acc n => adel n acc) og fields)
      end
  | v => v
  end.

(** [obj_get_original_value] *)
Definition obj_get_original_value (o : pyval) (name : string) : R pyval :=
  match o with
  | PObj _ f _ og =>
      match aget name og with
      | Some v => Ok v
      | None => if obj_attr_is_set o name then getattr o name else Raise (Py PyKeyError)
      end
  | _ => Raise (Py PyAttributeError)
  end.

(** [DictObjectMixin.get]; [default] is [None] for [NotSpecifiedSentinel]. *)
Definition obj_get (o : pyval) (name : string) (default : option pyval) : R pyval :=
  match o with
  | PObj c _ _ _ =>
      if negb (in_FIELDS c name) then Raise (Py PyAttributeError)
      else match default with
           | Some d => if obj_attr_is_set o name then getattr o name else Ok d
           | None => getattr o name
           end
  | _ => Raise (Py PyAttributeError)
  end.

(** The attributes that are set, in the order of [FIELDS]:
    [DictObjectMixin.items]. *)
Definition in_order {A} (cls : string) (f : list (string * A)) : list (string * A) :=
  omap (fun n => match aget n f with Some v => Some (n, v) | None => None end)
    (fields_of cls).*1.
Definition items (o : pyval) : list (string * pyval) :=
  match o with PObj c f _ _ => in_order c f | _ => [] end.

(** [ListObjectMixin.objects] *)
Definition list_objects (o : pyval) : list pyval :=
  match o with
  | PObj _ f _ _ => match aget "objects" f with Some (PList l) => l | _ => [] end
  | _ => []
  end.

(** [AttributeListObjectMixin.get] *)
Fixpoint attr_list_get (l : list pyval) (key : string) : option pyval :=
  match l with
  | [] => None
  | PObj _ f _ _ :: rest =>
      match aget "key" f with
      | Some (PStr k) =>
          if String.eqb k key then Some (default PNone (aget "value" f))
          else attr_list_get rest key
      | _ => attr_list_get rest key
      end
  | _ :: rest => attr_list_get rest key
  end.

(** [__deepcopy__]: a new object of the class, each set attribute set on it,
    and [_obj_changes] copied. A new list object starts with [objects = []], so
    setting a non-empty [objects] records that empty list as its original. *)
Definition fresh_originals (c : string) (f : list (string * pyval)) : list (string * pyval) :=
  match aget "objects" f with
  | Some (PList (_ :: _)) => if is_list_class c then [("objects", PList [])] else []
  | _ => []
  end.
Fixpoint deepcopy (v : pyval) : pyval :=
  match v with
  | PList l => PList (map deepcopy l)
  | PDict d => PDict (map (fun kv => (kv.1, deepcopy kv.2)) d)
  | PObj c f ch _ => PObj c (in_order c (map (fun kv => (kv.1, deepcopy kv.2)) f)) ch
                       (fresh_originals c f)
  | w => w
  end.

(** ** Serialisation *)

Definition prim_name := "designate_object.name".
Definition prim_data := "designate_object.data".
Definition prim_changes := "designate_object.changes".
Definition prim_originals := "designate_object.original_values".

Definition str_le (a b : string) : bool := String.leb a b.
Fixpoint insert_name (n : string) (l : list string) : list string :=
  match l with
  | [] => [n]
  | m :: l' => if str_le n m then n :: l else m :: insert_name n l'
  end.
Definition sort_names (l : list string) : list string := foldr insert_name [] l.

(** [to_primitive]; a list object serialises its [objects] one by one. *)
Fixpoint to_primitive (v : pyval) : pyval :=
  match v with
  | PObj c f ch og =>
      let sub := fun k w =>
        match w with
        | PObj _ _ _ _ => to_primitive w
        | PList l => if is_list_class c && String.eqb k "objects"
                     then PList (map to_primitive l) else w
        | _ => w
        end in
      PDict [ (prim_name, PStr c);
              (prim_data, PDict (in_order c (map (fun kv => (kv.1, sub kv.1 kv.2)) f)));
              (prim_changes, PList (map PStr (sort_names ch)));
              (prim_originals, PDict og) ]
  | w => w
  end.

(** [to_dict], and [to_list] for a list object. *)
Fixpoint to_dict (v : pyval) : pyval :=
  match v with
  | PObj c f _ _ =>
      let sub := fun k w =>
        match w with
        | PObj _ _ _ _ => to_dict w
        | PList l => if is_list_class c && String.eqb k "objects" then PList (map to_dict l) else w
        | _ => w
        end in
      let data := map (fun kv => (kv.1, sub kv.1 kv.2)) f in
      if is_list_class c then default (PList []) (aget "objects" data) else PDict (in_order c data)
  | w => w
  end.

(** [parse_strtime], for the fields whose schema has format date-time, is a
    function of oslo.utils. *)
Variable parse_strtime : pyval -> R pyval.

Definition is_date_time (cls name : string) : bool :=
  match aget name (fields_of cls) with
  | Some f => match f_schema f with
              | Some s => bool_decide (s_format s = Some "date-time")
              | None => false
              end
  | None => false
  end.

Definition names_of (v : pyval) : list string :=
  match v with
  | PList l => omap (fun x => match x with PStr s => Some s | _ => None end) l
  | _ => []
  end.
Definition is_primitive_obj (v : pyval) : bool :=
  match v with
  | PDict d => match aget prim_name d with Some _ => true | None => false end
  | _ => false
  end.

(** [from_primitive] and [_obj_from_primitive]; [fuel] bounds the nesting. *)
(** [setattr(instance, field, value)] for each item of the data, converted. *)
Fixpoint load_data (conv : string -> pyval -> R pyval) (o : pyval)
    (data : list (string * pyval)) : R pyval :=
  match data with
  | [] => Ok o
  | (k, w) :: rest =>
      let? w' := conv k w in
      let? o' := setattr o k w' in
      load_data conv o' rest
  end.
Fixpoint rmap {A B} (f : A -> R B) (l : list A) : R (list B) :=
  match l with
  | [] => Ok []
  | x :: l' => let? y := f x in let? ys := rmap f l' in Ok (y :: ys)
  end.

(** A plain value of the data: parsed when its field is a date-time. *)
Definition load_plain (cls k : string) (w : pyval) : R pyval :=
  if is_list_class cls then Ok w
  else if negb (in_FIELDS cls k) then Raise (Py PyKeyError)
  else match w with
       | PNone => Ok w
       | _ => if is_date_time cls k then parse_strtime w else Ok w
       end.

Definition load_value (rec : pyval -> R pyval) (cls k : string) (w : pyval) : R pyval :=
  match w with
  | PList l =>
      if is_list_class cls && String.eqb k "objects"
      then let? l' := rmap rec l in Ok (PList l')
      else load_plain cls k w
  | PDict _ => if is_primitive_obj w then rec w else load_plain cls k w
  | _ => load_plain cls k w
  end.

Fixpoint from_primitive (fuel : nat) (v : pyval) : R pyval :=
  match fuel, v with
  | S fuel', PDict d =>
      match aget prim_name d, aget prim_data d, aget prim_changes d, aget prim_originals d with
      | Some (PStr cls), Some (PDict data), Some ch, Some (PDict og) =>
          match registry cls with
          | None => Raise (Py PyKeyError)
          | Some _ =>
              let? o := new_obj cls [] in
              let? o := load_data (load_value (from_primitive fuel') cls) o data in
              match o with
              | PObj c f _ _ => Ok (PObj c f (names_of ch) og)
              | _ => Raise (Py PyTypeError)
              end
          end
      | _, _, _, _ => Raise (Py PyKeyError)
      end
  | _, _ => Raise (Py PyTypeError)
  end.

(** The nesting of a value: enough fuel for [from_primitive]. *)
Fixpoint depth (v : pyval) : nat :=
  match v with
  | PList l => S (foldr (fun w n => Nat.max (depth w) n) 0%nat l)
  | PObj _ f _ _ => S (foldr (fun kv n => Nat.max (depth kv.2) n) 0%nat f)
  | _ => 1%nat
  end.

(** Objects as the program builds them: attributes in the order of [FIELDS],
    [_obj_changes] listed in order, list objects with their [objects] first,
    and date-time attributes unset or None. *)
Definition plain_value (cls k : string) (w : pyval) : Prop :=
  is_primitive_obj w = false /\
  (is_list_class cls = true \/ w = PNone \/ is_date_time cls k = false).

Fixpoint canonical (v : pyval) : Prop :=
  match v with
  | PObj c f ch og =>
      is_Some (registry c) /\ NoDup f.*1 /\ in_order c f = f /\ sort_names ch = ch /\
      (if is_list_class c
       then exists l rest, f = ("objects", PList l) :: rest /\ in_FIELDS c "objects" = true
       else True) /\
      (fix all (f : list (string * pyval)) : Prop :=
         match f with
         | [] => True
         | (k, w) :: f' =>
             match w with
             | PObj _ _ _ _ => canonical w
             | PList l =>
                 if is_list_class c && String.eqb k "objects"
                 then (fix each (l : list pyval) : Prop :=
                         match l with
                         | [] => True
                         | x :: l' => canonical x /\ each l'
                         end) l
                 else plain_value c k w
             | _ => plain_value c k w
             end /\ all f'
         end) f
  | _ => False
  end.
End Objects.

(** ** Change tracking *)
Section Tracking.
Variable registry : string -> option klass.
Notation setattr := (setattr registry).
Notation update := (update registry).

(** Values on which [==] is equality: what the columns of a table hold, apart
    from booleans, which [==] identifies with 0 and 1. *)
Definition discrete (v : pyval) : Prop :=
  match v with PNone | PInt _ | PStr _ => True | _ => False end.

Lemma py_eq_discrete v w : discrete v -> discrete w -> py_eq v w = true <-> v = w.
Proof.
  destruct v, w; cbn; try done; intros _ _.
  - rewrite Z.eqb_eq. naive_solver.
  - rewrite String.eqb_eq. naive_solver.
Qed.

Lemma add_name_elem n m l : n ∈ add_name m l <-> n = m \/ n ∈ l.
Proof.
  unfold add_name. destruct (mem_str m l) eqn:Hm.
  - apply mem_str_elem in Hm. naive_solver.
  - set_solver.
Qed.

(** What tracking promises of attribute [n], which was [Some v0] or unset when
    the object was loaded. *)
Definition tracked (v0 : option pyval) (n : string) (o : pyval) : Prop :=
  match o with
  | PObj c f ch og =>
      match v0 with
      | Some v =>
          (n ∉ ch /\ aget n og = None /\ aget n f = Some v) \/
          (n ∈ ch /\ aget n og = Some v /\ is_Some (aget n f))
      | None => (n ∈ ch /\ is_Some (aget n f)) \/ (n ∉ ch /\ aget n og = None /\ aget n f = None)
      end
  | _ => False
  end.

Lemma setattr_tracked v0 n o k v o' :
  (k = n -> discrete v) -> match v0 with Some w => discrete w | None => True end ->
  tracked v0 n o -> setattr o k v = Ok o' -> tracked v0 n o'.
Proof.
  destruct o as [| | | | | |c f ch og]; try done. cbn [Objects.setattr].
  destruct (in_FIELDS registry c k); cbn [negb]; [|done]. intros Hv H0 Ht.
  destruct (aget k f) as [cur|] eqn:Hk; intros [= <-]; cbn [tracked] in *; rewrite ?aget_aset.
  - destruct (String.eqb_spec n k) as [->|Hne].
    + destruct v0 as [w|].
      * destruct Ht as [(Hc & Ho & Hf)|(Hc & Ho & Hf)]; rewrite Hk in Hf; simplify_eq.
        -- destruct (py_eq v w) eqn:He; cbn.
           ++ left. apply py_eq_discrete in He; [|auto..]. naive_solver.
           ++ right. rewrite add_name_elem.
              destruct (mem_str k og.*1) eqn:Hm; cbn.
              ** apply mem_str_elem in Hm. by apply aget_None_elem in Ho.
              ** rewrite aget_aset_eq. naive_solver.
        -- right. assert (mem_str k og.*1 = true) as ->.
           { apply mem_str_elem. destruct (decide (k ∈ og.*1)) as [|Hn]; [done|].
             apply aget_None_elem in Hn. congruence. }
           rewrite andb_false_r. split_and!; [|done|eauto].
           case_match; [by apply add_name_elem; right|done].
      * destruct Ht as [[Hc Hf]|(_ & _ & Hf)]; [|congruence].
        left. split; [|eauto]. case_match; [by apply add_name_elem; right|done].
    + assert (Hch : n ∈ (if negb (py_eq v cur) then add_name k ch else ch) <-> n ∈ ch).
      { destruct (negb (py_eq v cur)); [|done]. rewrite add_name_elem. naive_solver. }
      assert (Hog : aget n (if negb (py_eq v cur) && negb (mem_str k og.*1)
                            then aset k cur og else og) = aget n og).
      { destruct (negb (py_eq v cur) && _); [by apply aget_aset_ne|done]. }
      destruct v0; rewrite Hch, Hog; exact Ht.
  - destruct (String.eqb_spec n k) as [->|Hne].
    + rewrite Hk in Ht. destruct v0 as [w|].
      * destruct Ht as [(_ & _ & Hf)|(_ & _ & [? Hf])]; congruence.
      * left. rewrite add_name_elem. split; [by left|eauto].
    + destruct v0; rewrite add_name_elem; naive_solver.
Qed.

Lemma update_tracked v0 n o values o' :
  (forall v, (n, v) ∈ values -> discrete v) ->
  match v0 with Some w => discrete w | None => True end ->
  tracked v0 n o -> update o values = Ok o' -> tracked v0 n o'.
Proof.
  intros Hd H0. revert o. induction values as [|[k v] values IH]; intros o Ht; cbn.
  - by intros [= <-].
  - destruct (setattr o k v) as [o1|] eqn:Hs; cbn; [|done].
    apply IH; [set_solver|]. eapply setattr_tracked; [|done..].
    intros ->. apply Hd. set_solver.
Qed.

Lemma setattr_class o k v o' : setattr o k v = Ok o' ->
  exists c f ch og f' ch' og', o = PObj c f ch og /\ o' = PObj c f' ch' og' /\
                               in_FIELDS registry c k = true.
Proof.
  destruct o; try done. cbn. destruct (in_FIELDS registry cls k) eqn:Hf; cbn; [|done].
  case_match; intros [= <-]; naive_solver.
Qed.

Lemma setattr_changes_names o k v o' n :
  setattr o k v = Ok o' -> n ∈ own_changes o' -> n = k \/ n ∈ own_changes o.
Proof.
  destruct o; try done. cbn. destruct (in_FIELDS registry cls k); cbn; [|done].
  destruct (aget k fields); intros [= <-]; cbn.
  - case_match; [by rewrite add_name_elem|by right].
  - by rewrite add_name_elem.
Qed.

Lemma update_changes_names o values o' n :
  update o values = Ok o' -> n ∈ own_changes o' -> n ∈ values.*1 \/ n ∈ own_changes o.
Proof.
  revert o. induction values as [|[k v] values IH]; intros o; cbn.
  - intros [= <-]. by right.
  - destruct (setattr o k v) as [o1|] eqn:Hs; cbn; [|done].
    intros Hu Hn. destruct (IH o1 Hu Hn) as [|Ho1]; [set_solver|].
    destruct (setattr_changes_names _ _ _ _ _ Hs Ho1) as [->|]; set_solver.
Qed.

Lemma update_class o values o' :
  update o values = Ok o' ->
  forall c f ch og, o = PObj c f ch og -> exists f' ch' og', o' = PObj c f' ch' og'.
Proof.
  revert o. induction values as [|[k v] values IH]; intros o; cbn.
  - intros [= <-]. naive_solver.
  - destruct (setattr o k v) as [o1|] eqn:Hs; cbn; [|done].
    apply setattr_class in Hs as (c1 & f1 & ch1 & og1 & f2 & ch2 & og2 & -> & -> & _).
    intros Hu c f ch og [= <- <- <- <-]. by eapply IH.
Qed.

(** Change tracking. Whatever attributes are assigned, in whatever order,
    after an object is loaded from storage: an attribute that was loaded still
    reports the loaded value as its original value; an attribute not listed by
    [obj_what_changed] still has its loaded value, so writing only the listed
    columns back loses nothing; and only assigned attributes are listed. *)
Theorem change_tracking c f values o' n v :
  is_list_class registry c = false ->
  aget n f = Some v -> discrete v -> (forall w, (n, w) ∈ values -> discrete w) ->
  in_FIELDS registry c n = true ->
  update (PObj c f [] []) values = Ok o' ->
  obj_get_original_value registry o' n = Ok v /\
  (n ∉ obj_what_changed registry o' -> getattr registry o' n = Ok v) /\
  (n ∈ obj_what_changed registry o' -> n ∈ values.*1).
Proof.
  intros Hl Hf Hv Hvs HF Hu.
  assert (Ht : tracked (Some v) n o').
  { eapply update_tracked; [done|exact Hv| |exact Hu]. left. set_solver. }
  destruct (update_class _ _ _ Hu c f [] [] eq_refl) as (f' & ch' & og' & ->).
  cbn [tracked obj_what_changed obj_get_original_value obj_attr_is_set getattr] in *.
  rewrite Hl, HF. cbn [negb].
  split_and!.
  - destruct Ht as [(_ & Ho & Hg)|(_ & Ho & _)]; rewrite Ho; [by rewrite Hg|done].
  - intros Hn. destruct Ht as [(_ & _ & ->)|(Hc & _)]; [done|]. by destruct Hn.
  - intros Hn. destruct (update_changes_names _ _ _ n Hu Hn); [done|set_solver].
Qed.
End Tracking.

(** ** Copies *)
Section Copies.
Variable registry : string -> option klass.

Lemma deepcopy_scalar v : scalar v = true -> deepcopy registry v = v.
Proof. by destruct v. Qed.

(** Copying an object keeps its class, attributes and changed names, and
    loses the original values: the copy reports the current value of every
    attribute as its original value, and an object with a recorded original
    value is not equal to its own deep copy. *)
Theorem deepcopy_forgets_originals c f ch og :
  is_list_class registry c = false -> in_order registry c f = f ->
  NoDup f.*1 -> (forall kv, kv ∈ f -> scalar kv.2 = true) ->
  deepcopy registry (PObj c f ch og) = PObj c f ch [] /\
  (og <> [] -> py_eq (PObj c f ch og) (deepcopy registry (PObj c f ch og)) = false) /\
  (forall n v, aget n f = Some v -> in_FIELDS registry c n = true ->
     obj_get_original_value registry (deepcopy registry (PObj c f ch og)) n = Ok v).
Proof.
  intros Hl Hord Hnd Hs.
  assert (Hd : deepcopy registry (PObj c f ch og) = PObj c f ch []).
  { cbn [deepcopy].
    assert (Hm : map (fun kv : string * pyval => (kv.1, deepcopy registry kv.2)) f = f).
    { clear Hord Hnd. induction f as [|[k v] f IH]; [done|]. cbn.
      rewrite deepcopy_scalar, IH; [done|set_solver|]. apply (Hs (k, v)). set_solver. }
    rewrite Hm, Hord. unfold fresh_originals. rewrite Hl.
    by destruct (aget "objects" f) as [[| | | |[]| |]|]. }
  rewrite Hd. split_and!; [done| |].
  - intros Hog. cbn [py_eq]. rewrite String.eqb_refl. cbn [andb].
    destruct og; [done|]. cbn. by rewrite !andb_false_r.
  - intros n v Hv HF. cbn. by rewrite Hv, HF.
Qed.
End Copies.

(** ** Serialisation round trip *)
Section RoundTrip.
Variable registry : string -> option klass.
Variable parse_strtime : pyval -> R pyval.
Notation from_primitive := (from_primitive registry parse_strtime).
Notation to_primitive := (to_primitive registry).
Notation canonical := (canonical registry).

(** What [to_primitive] writes for one attribute. *)
Definition sub_primitive (c k : string) (w : pyval) : pyval :=
  match w with
  | PObj _ _ _ _ => to_primitive w
  | PList l => if is_list_class registry c && String.eqb k "objects"
               then PList (map to_primitive l) else w
  | _ => w
  end.

Lemma aget_map {A B} (g : string -> A -> B) n (f : list (string * A)) :
  aget n (map (fun kv => (kv.1, g kv.1 kv.2)) f) = g n <$> aget n f.
Proof.
  induction f as [|[k v] f IH]; [done|]. cbn.
  destruct (String.eqb_spec n k) as [->|]; [done|apply IH].
Qed.

Lemma in_order_map {A B} (g : string -> A -> B) c (f : list (string * A)) :
  in_order registry c (map (fun kv => (kv.1, g kv.1 kv.2)) f) =
  map (fun kv => (kv.1, g kv.1 kv.2)) (in_order registry c f).
Proof.
  unfold in_order. induction (fields_of registry c).*1 as [|n l IH]; [done|]. cbn.
  rewrite aget_map. destruct (aget n f); cbn; by rewrite IH.
Qed.

Lemma to_primitive_obj c f ch og :
  in_order registry c f = f ->
  to_primitive (PObj c f ch og) =
  PDict [ (prim_name, PStr c);
          (prim_data, PDict (map (fun kv => (kv.1, sub_primitive c kv.1 kv.2)) f));
          (prim_changes, PList (map PStr (sort_names ch)));
          (prim_originals, PDict og) ].
Proof.
  intros Hf. cbn [Objects.to_primitive].
  change (fun kv : string * pyval => (kv.1, _)) with
    (fun kv : string * pyval => (kv.1, sub_primitive c kv.1 kv.2)).
  rewrite (in_order_map (sub_primitive c)), Hf. done.
Qed.

Lemma load_data_app conv c g ch og (f : list (string * pyval)) :
  NoDup (g.*1 ++ f.*1) ->
  (forall k w, (k, w) ∈ f -> conv k (sub_primitive c k w) = Ok w /\ in_FIELDS registry c k = true) ->
  exists ch' og',
    load_data registry conv (PObj c g ch og)
      (map (fun kv => (kv.1, sub_primitive c kv.1 kv.2)) f) = Ok (PObj c (g ++ f) ch' og').
Proof.
  revert g ch og. induction f as [|[k w] f IH]; intros g ch og Hnd Hc;
    cbn [map load_data fst snd].
  - rewrite app_nil_r. eauto.
  - destruct (Hc k w) as [Hw HF]; [set_solver|]. rewrite Hw. cbn [rbind setattr].
    rewrite HF. cbn [negb].
    assert (Hk : k ∉ g.*1).
    { apply NoDup_app in Hnd as (_ & Hd & _). intros Hin. apply (Hd k Hin). cbn. set_solver. }
    rewrite (proj2 (aget_None_elem k g) Hk). rewrite aset_keys_new by done. cbn [rbind].
    destruct (IH (g ++ [(k, w)])%list (add_name k ch) og) as (ch' & og' & HE).
    + rewrite fmap_app, <- app_assoc. exact Hnd.
    + intros k' w' Hin. apply Hc. set_solver.
    + exists ch', og'. rewrite HE. by rewrite <- app_assoc.
Qed.

Lemma names_of_strs l : names_of (PList (map PStr l)) = l.
Proof. cbn. induction l as [|x l IH]; cbn; congruence. Qed.

Lemma in_order_FIELDS {A} c (f : list (string * A)) k w :
  in_order registry c f = f -> (k, w) ∈ f -> in_FIELDS registry c k = true.
Proof.
  intros <-. unfold in_order, in_FIELDS. intros (n & Hn & Heq)%list_elem_of_omap.
  destruct (aget n f); simplify_eq. by apply mem_str_elem.
Qed.

Lemma load_plain_value c k w rec :
  plain_value registry c k w -> in_FIELDS registry c k = true ->
  (forall l, w = PList l -> is_list_class registry c && String.eqb k "objects" = false) ->
  (match w with PObj _ _ _ _ => False | _ => True end) ->
  load_value registry parse_strtime rec c k (sub_primitive c k w) = Ok w.
Proof.
  intros [Hp Hd] HF Hl Ho.
  assert (Hs : sub_primitive c k w = w).
  { destruct w; try done. cbn. by rewrite (Hl l eq_refl). }
  rewrite Hs.
  assert (Hplain : load_plain registry parse_strtime c k w = Ok w).
  { unfold load_plain. destruct (is_list_class registry c) eqn:Hlc; [done|]. rewrite HF. cbn.
    destruct Hd as [?|[->|Hd]]; [done..|]. rewrite Hd. by destruct w. }
  destruct w; cbn [load_value]; try done; [by rewrite (Hl l eq_refl)|by rewrite Hp].
Qed.

Definition round_trips (v : pyval) : Prop :=
  forall fuel, canonical v -> (depth v <= fuel)%nat -> from_primitive fuel (to_primitive v) = Ok v.

Lemma rmap_round_trips fuel l :
  Forall round_trips l ->
  (fix each (l : list pyval) : Prop :=
     match l with [] => True | x :: l' => canonical x /\ each l' end) l ->
  (forall x, x ∈ l -> depth x <= fuel)%nat ->
  rmap (from_primitive fuel) (map to_primitive l) = Ok l.
Proof.
  induction 1 as [|x l Hx _ IH]; [done|]. intros [Hc Hl] Hd. cbn [map rmap].
  rewrite (Hx fuel) by (done || (apply Hd; set_solver)). cbn [rbind].
  rewrite IH; [done..|]. intros y Hy. apply Hd. set_solver.
Qed.

Lemma depth_elem (f : list (string * pyval)) k w :
  (k, w) ∈ f -> (depth w <= foldr (fun kv n => Nat.max (depth kv.2) n) 0 f)%nat.
Proof.
  induction f as [|[k' w'] f IH]; [set_solver|].
  intros [?|Hin]%elem_of_cons; simplify_eq; cbn; [lia|]. specialize (IH Hin). lia.
Qed.

Lemma depth_list_elem (l : list pyval) w :
  w ∈ l -> (depth w <= foldr (fun w n => Nat.max (depth w) n) 0 l)%nat.
Proof.
  induction l as [|w' l IH]; [set_solver|].
  intros [->|Hin]%elem_of_cons; cbn; [lia|]. specialize (IH Hin). lia.
Qed.

Lemma new_obj_nil c :
  new_obj registry c [] =
  Ok (PObj c (if is_list_class registry c then [("objects", PList [])] else []) [] []).
Proof. unfold new_obj. cbn. by destruct (is_list_class registry c). Qed.

(** An object loads back when each of its attributes does. *)
Lemma from_primitive_obj c f ch og fuel :
  is_Some (registry c) -> NoDup f.*1 -> in_order registry c f = f -> sort_names ch = ch ->
  (if is_list_class registry c
   then exists l rest, f = ("objects", PList l) :: rest /\ in_FIELDS registry c "objects" = true
   else True) ->
  (forall k w, (k, w) ∈ f ->
     load_value registry parse_strtime (from_primitive fuel) c k (sub_primitive c k w) = Ok w) ->
  from_primitive (S fuel) (to_primitive (PObj c f ch og)) = Ok (PObj c f ch og).
Proof.
  intros [kl Hr] Hnd Hord Hch Hl Hld. rewrite to_primitive_obj by done.
  cbn -[load_data new_obj names_of]. rewrite Hr, new_obj_nil. cbn [rbind].
  assert (Hconv : forall k w, (k, w) ∈ f ->
    load_value registry parse_strtime (from_primitive fuel) c k (sub_primitive c k w) = Ok w /\
    in_FIELDS registry c k = true).
  { intros k w Hin. split; [by apply Hld|]. by eapply in_order_FIELDS. }
  assert (exists ch' og', load_data registry
    (load_value registry parse_strtime (from_primitive fuel) c)
    (PObj c (if is_list_class registry c then [("objects", PList [])] else []) [] [])
    (map (fun kv => (kv.1, sub_primitive c kv.1 kv.2)) f) = Ok (PObj c f ch' og'))
    as (ch' & og' & ->).
  - destruct (is_list_class registry c) eqn:Hlc.
    + destruct Hl as (l & rest & -> & HF). cbn [map fst snd load_data].
      rewrite (proj1 (Hconv "objects" (PList l) ltac:(set_solver))). cbn [rbind setattr].
      rewrite HF. cbn.
      apply (load_data_app _ c [("objects", PList l)]); [exact Hnd|].
      intros k w Hin. apply Hconv. set_solver.
    + by apply (load_data_app _ c []).
  - cbn [rbind]. by rewrite names_of_strs, Hch.
Qed.

(** What [canonical] gives for one attribute. *)
Lemma canonical_attr c f ch og k w :
  canonical (PObj c f ch og) -> (k, w) ∈ f ->
  match w with
  | PObj _ _ _ _ => canonical w
  | PList l =>
      if is_list_class registry c && String.eqb k "objects"
      then (fix each (l : list pyval) : Prop :=
              match l with [] => True | x :: l' => canonical x /\ each l' end) l
      else plain_value registry c k w
  | _ => plain_value registry c k w
  end.
Proof.
  cbn [Objects.canonical]. intros (_ & _ & _ & _ & _ & Hall). revert Hall.
  induction f as [|[k' w'] f IH]; [set_solver|].
  intros [Hw Hf] [Heq|Hin]%elem_of_cons; [|by apply IH]. simplify_eq. exact Hw.
Qed.

(** Round trip. Serialising an object (nested objects and list objects
    included) and loading the result gives the object back: class, attributes,
    changed names and original values. *)
Theorem primitive_round_trip v fuel :
  canonical v -> (depth v <= fuel)%nat -> from_primitive fuel (to_primitive v) = Ok v.
Proof.
  assert (HR : round_trips v /\ (forall l, v = PList l -> Forall round_trips l)); [|by apply HR].
  induction v as [|b|z|s|l IH|d IH|c f ch og IHf _] using pyval_ind'; split; try (by intros ? []); try done.
  - intros l' [= <-]. eapply Forall_impl; [exact IH|]. by intros x [Hx _].
  - intros fuel0 Hc Hd. destruct fuel0 as [|n]; [cbn in Hd; lia|]. cbn [depth] in Hd.
    pose proof Hc as (Hr & Hnd & Hord & Hch & Hl & _).
    apply from_primitive_obj; try done. intros k w Hin.
    pose proof (canonical_attr _ _ _ _ _ _ Hc Hin) as Hw.
    pose proof (depth_elem _ _ _ Hin) as Hdw.
    pose proof (in_order_FIELDS _ _ _ _ Hord Hin) as HF.
    rewrite Forall_forall in IHf. destruct (IHf _ Hin) as [IHw IHl]. cbn in IHw, IHl.
    destruct w as [|b|z|s|l|d|c' f' ch' og']; try (apply load_plain_value; done).
    + destruct (is_list_class registry c && String.eqb k "objects") eqn:Hb.
      * unfold load_value, sub_primitive. rewrite Hb.
        rewrite (rmap_round_trips n l (IHl l eq_refl) Hw); [done|].
        intros x Hx. pose proof (depth_list_elem _ _ Hx). cbn in Hdw. lia.
      * apply load_plain_value; try done; by intros ? [= <-].
    + cbn [sub_primitive].
      assert (Hp : from_primitive n (to_primitive (PObj c' f' ch' og')) = Ok (PObj c' f' ch' og')).
      { apply IHw; [exact Hw|lia]. }
      rewrite <- Hp. reflexivity.
Qed.
End RoundTrip.
