(* ===== verification/Utils.v ===== *)
(** * Helpers (designate/utils.py)

    Serial numbers, TXT quoting, dictionary merging, UUID checks, host and port
    splitting and the checking of paging parameters. The clock and the options of
    [cfg.CONF] are arguments. *)
From Stdlib Require Import ZArith Lia Ascii String.
From stdpp Require Import base option numbers strings sets list.
From S2P Require Import Prelude PyStr Exceptions Values.
Local Open Scope string_scope.

(** [six.MAXSIZE] on a 64-bit host. *)
Definition MAXSIZE : Z := (2 ^ 63 - 1)%Z.

(** [increment_serial]; [now] is [timeutils.utcnow_ts()]. *)
Definition increment_serial (now serial : Z) : Z :=
  if (now <=? serial)%Z then (serial + 1)%Z else now.

(** ** [quote_string] *)
Definition dq : ascii := ascii_of_nat 34.
Definition dqs : string := String dq "".
Definition esc_dq : string := String "\" dqs.

Definition starts_quoted (part : string) : bool := startswith dqs part.
(** [part[-1:] == QUOTE and part[-2:] != BACKSLASH QUOTE] *)
Definition ends_quoted (part : string) : bool :=
  String.eqb (slast 1 part) dqs && negb (String.eqb (slast 2 part) esc_dq).

(** One iteration of the loop over the words: the finished parts and the open
    quoted sentence. *)
Definition quote_word (st : list string * option string) (part : string) :
    list string * option string :=
  let '(outparts, tmp) := st in
  if String.eqb part "" then (outparts, tmp)
  else if starts_quoted part && ends_quoted part
  then (app outparts [strip (Ascii.eqb dq) part], tmp)
  else if starts_quoted part then (outparts, Some (sdrop 1 part))
  else match tmp with
       | Some t =>
           if ends_quoted part
           then (app outparts [t ++ " " ++ strip (Ascii.eqb dq) part], None)
           else (outparts, Some (t ++ " " ++ part))
       | None => (app outparts [part], tmp)
       end.

Definition quote_string (s : string) : string :=
  let '(outparts, tmp) := foldl quote_word ([], None) (split_char " " s) in
  let outparts := match tmp with Some t => app outparts [t] | None => outparts end in
  let outparts := map (replace esc_dq dqs) outparts in
  let outparts := map (replace dqs esc_dq) outparts in
  dqs ++ join (dqs ++ " " ++ dqs) outparts ++ dqs.

(** ** [deep_dict_merge]; [deepcopy] of a plain value is the value. *)
Fixpoint deep_dict_merge (a : list (string * pyval)) (b : pyval) : pyval :=
  match b with
  | PDict d =>
      PDict ((fix go (d : list (string * pyval)) (result : list (string * pyval)) :=
        match d with
        | [] => result
        | (k, v) :: d' =>
            go d' (match aget k result with
                   | Some (PDict r) => aset k (deep_dict_merge r v) result
                   | _ => aset k v result
                   end)
        end) d a)
  | _ => b
  end.

(** ** UUIDs *)
Definition is_hex_lower (c : ascii) : bool := is_digit c || in_range "a" "f" c.

(** [str(uuid.UUID(val)) == val] holds of the canonical form only: five groups
    of lower-case hexadecimal digits. *)
Definition uuid_groups : list nat := [8; 4; 4; 4; 12]%nat.
Definition is_uuid_like (val : pyval) : bool :=
  match val with
  | PStr s =>
      let groups := split_char "-" s in
      bool_decide (map String.length groups = uuid_groups) &&
      forallb (sforall is_hex_lower) groups
  | _ => false
  end.

(** [validate_uuid(check)(f)(args)]; [arg_spec] are the names of the parameters
    of the wrapped controller method. *)
Fixpoint index_of (name : string) (l : list string) : option nat :=
  match l with
  | [] => None
  | x :: l' => if String.eqb name x then Some O else option_map S (index_of name l')
  end.
Fixpoint check_uuids (check arg_spec : list string) (args : list pyval) : R unit :=
  match check with
  | [] => Ok tt
  | name :: rest =>
      match index_of name arg_spec with
      | None => Raise (Py PyValueError)
      | Some pos =>
          match args !! pos with
          | None => Raise (Py PyIndexError)
          | Some v => if is_uuid_like v then check_uuids rest arg_spec args
                      else Raise (BadRequest InvalidUUID)
          end
      end
  end.
Definition validate_uuid (check arg_spec : list string) {A} (f : list pyval -> R A)
    (args : list pyval) : R A :=
  if negb (length arg_spec =? length args)%nat then Raise (NotFound NF_Base)
  else if (length args <=? length check)%nat then Raise (NotFound NF_Base)
  else let? _ := check_uuids check arg_spec args in f args.

(** [extract_priority_from_data] *)
Definition extract_priority_from_data (recordset_type data : string) : R (option Z * string) :=
  if mem_str recordset_type ["MX"; "SRV"] then
    let '(p, _, d) := partition_char " " data in
    match int_of_str p with
    | Some n => Ok (Some n, d)
    | None => Raise (Py PyValueError)
    end
  else Ok (None, data).

(** [split_host_port] *)
Definition split_host_port (s : string) (default_port : Z) : string * Z :=
  let '(host, found, port) := partition_char ":" s in
  if found then
    match int_of_str port with
    | Some p => (host, p)
    | None => (s, default_port)
    end
  else (s, default_port).

(** ** [get_paging_params] *)
Definition int_of_val (v : pyval) : R Z :=
  match v with
  | PInt z => Ok z
  | PBool b => Ok (if b then 1 else 0)%Z
  | PStr s => match int_of_str s with Some z => Ok z | None => Raise (Py PyValueError) end
  | _ => Raise (Py PyTypeError)
  end.

Definition check_limit (limit : pyval) (max_limit : Z) : R pyval :=
  if match limit with PStr s => String.eqb (lower s) "max" | _ => false end
  then Ok (PInt max_limit)
  else if truthy limit then
    match int_of_val limit with
    | Ok n => if (n <=? 0)%Z || (MAXSIZE <? n)%Z then Raise (BadRequest InvalidLimit)
              else Ok limit
    | Raise e => Raise (if bool_decide (e = Py PyValueError) then BadRequest InvalidLimit else e)
    end
  else Ok limit.

Record paging := { marker : pyval; limit : pyval; sort_key : pyval; sort_dir : pyval }.

Definition get_paging_params (all_tenants : bool) (default_limit max_limit : Z)
    (params : list (string * pyval)) (sort_keys : option (list string)) : R paging :=
  let pop k d := default d (aget k params) in
  let marker := pop "marker" PNone in
  let sort_key := pop "sort_key" PNone in
  let sort_dir := pop "sort_dir" PNone in
  let? limit := check_limit (pop "limit" (PInt default_limit)) max_limit in
  if truthy sort_dir && negb (py_eq sort_dir (PStr "asc") || py_eq sort_dir (PStr "desc"))
  then Raise (BadRequest InvalidSortDir)
  else match sort_keys with
  | None => Ok {| marker := marker; limit := limit; sort_key := PNone; sort_dir := PNone |}
  | Some keys =>
      if truthy sort_key && negb (existsb (fun k => py_eq sort_key (PStr k)) keys)
      then Raise (BadRequest InvalidSortKey)
      else Ok {| marker := marker; limit := limit;
                 sort_key := if py_eq sort_key (PStr "tenant_id") && negb all_tenants
                             then PNone else sort_key;
                 sort_dir := sort_dir |}
  end.

(** ** Serial numbers *)

(** A new serial is the least number that is neither behind the clock nor
    equal to or behind the old serial, so a zone whose serial is incremented at
    each change never shows the same serial twice, whatever the clock does. *)
Theorem increment_serial_least now serial :
  (serial < increment_serial now serial)%Z /\ (now <= increment_serial now serial)%Z /\
  forall n, (serial < n)%Z -> (now <= n)%Z -> (increment_serial now serial <= n)%Z.
Proof. unfold increment_serial. destruct (Z.leb_spec now serial); split_and!; intros; lia. Qed.

(** ** Quoting *)

(** Every double quote of [s] is preceded by a backslash; [prev] says whether the
    character before [s] is one. *)
Fixpoint escaped (prev : bool) (s : string) : bool :=
  match s with
  | EmptyString => true
  | String a s' => (negb (Ascii.eqb a dq) || prev) && escaped (Ascii.eqb a "\") s'
  end.

Lemma replace_dq_cons a s :
  replace dqs esc_dq (String a s) =
  if Ascii.eqb a dq then String "\" (String dq (replace dqs esc_dq s))
  else String a (replace dqs esc_dq s).
Proof.
  unfold replace. cbn [replace_from]. unfold startswith, dqs. cbn [String.prefix].
  destruct (ascii_dec dq a) as [<-|Hne].
  - rewrite Ascii.eqb_refl. by destruct s.
  - destruct (Ascii.eqb_spec a dq); [congruence|done].
Qed.

Lemma replace_escaped s prev : escaped prev (replace dqs esc_dq s) = true.
Proof.
  revert prev. induction s as [|a s IH]; intros prev; [done|]. rewrite replace_dq_cons.
  destruct (Ascii.eqb a dq) eqn:Ha; cbn -[replace].
  - apply IH.
  - by rewrite Ha, IH.
Qed.

(** Whatever the input, a quoted string is a sequence of character strings
    in double quotes, separated by spaces, in which every inner double quote
    comes after a backslash. *)
Theorem quote_string_escaped s :
  exists parts, quote_string s = dqs ++ join (dqs ++ " " ++ dqs) parts ++ dqs /\
                Forall (fun p => escaped false p = true) parts.
Proof.
  unfold quote_string. destruct (foldl quote_word ([], None) (split_char " " s)) as [out tmp].
  eexists. split; [reflexivity|].
  apply Forall_forall. intros p (q & -> & _)%list_elem_of_fmap. apply replace_escaped.
Qed.

(** ** Hosts and ports *)

Lemma partition_char_none c s : has_char c s = false -> (partition_char c s).1.2 = false.
Proof.
  induction s as [|a s IH]; cbn; [done|]. intros [Ha Hs]%orb_false_iff. rewrite Ha.
  specialize (IH Hs). by destruct (partition_char c s) as [[h b] t].
Qed.

(** An address printed as host:port is read back exactly, for every port; a
    text without a colon, and a text whose part after the first colon is no
    integer (an IPv6 address), is taken whole, with the default port. *)
Theorem split_host_port_spec host rest port d :
  has_char ":" host = false ->
  split_host_port (host ++ ":" ++ str_of_Z port) d = (host, port) /\
  split_host_port host d = (host, d) /\
  (int_of_str rest = None -> split_host_port (host ++ ":" ++ rest) d = (host ++ ":" ++ rest, d)).
Proof.
  intros Hh. unfold split_host_port. split_and!.
  - cbn [String.append]. rewrite partition_char_app by done. by rewrite int_of_str_of_Z.
  - pose proof (partition_char_none _ _ Hh) as Hn.
    destruct (partition_char ":" host) as [[h b] t]. cbn in Hn. by subst b.
  - intros Hr. cbn [String.append]. rewrite partition_char_app by done. by rewrite Hr.
Qed.

Lemma split_host_port_spec_witness :
  has_char ":" "" = false /\
  split_host_port "::1" 53 = ("::1", 53%Z).
Proof.
  split; [reflexivity|].
  destruct (split_host_port_spec "" ":1" 53 53 eq_refl) as (_ & _ & H). exact (H eq_refl).
Defined.

(** ** Paging *)

Lemma check_limit_Ok l m l' :
  check_limit l m = Ok l' ->
  l' = PInt m \/ truthy l' = false \/ (exists n, int_of_val l' = Ok n /\ 1 <= n <= MAXSIZE)%Z.
Proof.
  unfold check_limit. case_match; [intros [= <-]; by left|].
  destruct (truthy l) eqn:Ht; [|intros [= <-]; by right; left].
  destruct (int_of_val l) as [n|e] eqn:Hi; [|done].
  destruct (_ || _) eqn:Hb; [done|]. intros [= <-]. right; right. exists n.
  apply orb_false_iff in Hb as [Hb1%Z.leb_gt Hb2%Z.ltb_ge]. split; [done|lia].
Qed.

Lemma py_eq_PStr v s : py_eq v (PStr s) = true -> v = PStr s.
Proof. destruct v; cbn; try done; by intros ->%String.eqb_eq. Qed.

(** When the paging parameters are accepted, the limit is the configured
    maximum, or denotes an integer from 1 to [MAXSIZE], or is absent; the sort
    direction, if any, is one of asc and desc; and the sort key, if any, is one
    of the keys the caller allows, and is tenant_id only for a context that may
    see all tenants. *)
Theorem get_paging_params_checked at_ dl ml params keys p :
  get_paging_params at_ dl ml params keys = Ok p ->
  (limit p = PInt ml \/ truthy (limit p) = false \/
   exists n, int_of_val (limit p) = Ok n /\ 1 <= n <= MAXSIZE)%Z /\
  (truthy (sort_dir p) = true -> sort_dir p = PStr "asc" \/ sort_dir p = PStr "desc") /\
  (truthy (sort_key p) = true -> exists ks k, keys = Some ks /\ k ∈ ks /\ sort_key p = PStr k /\
     (k = "tenant_id" -> at_ = true)).
Proof.
  unfold get_paging_params. destruct (check_limit _ ml) as [l|] eqn:Hl; cbn [rbind]; [|done].
  set (sk := default PNone (aget "sort_key" params)).
  set (sd := default PNone (aget "sort_dir" params)).
  destruct (truthy sd && _) eqn:Hd; [done|].
  assert (Hdir : truthy sd = true -> sd = PStr "asc" \/ sd = PStr "desc").
  { intros Ht. rewrite Ht in Hd. cbn in Hd. apply negb_false_iff, orb_true_iff in Hd.
    destruct Hd as [Hd|Hd]; apply py_eq_PStr in Hd; auto. }
  destruct keys as [ks|]; [|intros [= <-]; cbn; split_and!; [by eapply check_limit_Ok|done..]].
  destruct (truthy sk && _) eqn:Hk; [done|]. intros [= <-]. cbn.
  split_and!; [by eapply check_limit_Ok|done|].
  destruct (py_eq sk (PStr "tenant_id") && negb at_) eqn:Hten; [done|].
  intros Ht. rewrite Ht in Hk. cbn in Hk.
  apply negb_false_iff, existsb_exists in Hk as (k & Hin & Hk).
  apply py_eq_PStr in Hk. exists ks, k. split_and!; [done|by apply list_elem_of_In|done|].
  intros ->. rewrite Hk in Hten. cbn in Hten. by apply negb_false_iff.
Qed.

Lemma get_paging_params_checked_witness :
  get_paging_params false 20 1000 [("limit", PStr "5"); ("sort_key", PStr "name")]
    (Some ["name"]) = Ok {| marker := PNone; limit := PStr "5"; sort_key := PStr "name";
                            sort_dir := PNone |} /\
  (exists n, int_of_val (PStr "5") = Ok n /\ 1 <= n <= MAXSIZE)%Z.
Proof.
  split; [reflexivity|].
  destruct (get_paging_params_checked false 20 1000
    [("limit", PStr "5"); ("sort_key", PStr "name")] (Some ["name"]) _ eq_refl)
    as ([H|[H|H]] & _); [discriminate H|discriminate H|exact H].
Defined.

(** ** Merging *)

(** The value at a path of keys. *)
Fixpoint dget (path : list string) (v : pyval) : option pyval :=
  match path, v with
  | [], _ => Some v
  | k :: p, PDict d => match aget k d with Some w => dget p w | None => None end
  | _, _ => None
  end.
Definition is_dict (v : pyval) : bool := match v with PDict _ => true | _ => false end.

(** What the merge does at one key. *)
Definition merge_entry (r : option pyval) (v : pyval) : pyval :=
  match r with Some (PDict w) => deep_dict_merge w v | _ => v end.

Lemma deep_dict_merge_lookup a d :
  NoDup d.*1 ->
  exists m, deep_dict_merge a (PDict d) = PDict m /\
    forall k, aget k m = match aget k d with
                         | Some v => Some (merge_entry (aget k a) v)
                         | None => aget k a
                         end.
Proof.
  cbn [deep_dict_merge]. revert a. induction d as [|[k1 v1] d IH]; intros a.
  - intros _. by exists a.
  - intros [Hn Hd]%NoDup_cons. edestruct IH as (m & Hm & Hl); [done|].
    eexists. split; [exact Hm|]. intros k. rewrite Hl. cbn [aget].
    destruct (String.eqb_spec k k1) as [->|Hne].
      cbn in Hn. rewrite (proj2 (aget_None_elem k1 d) Hn). unfold merge_entry.
      destruct (aget k1 a) as [[]|]; by rewrite aget_aset_eq.
    + assert (aget k (match aget k1 a with
                      | Some (PDict r) => aset k1 (deep_dict_merge r v1) a
                      | _ => aset k1 v1 a end) = aget k a) as ->; [|done].
      destruct (aget k1 a) as [[]|]; by apply aget_aset_ne.
Qed.

(** Merging two dictionaries of settings keeps every leaf of the second, at
    its path, whatever the first holds there; and a value of the first stays at
    its path as long as the second says nothing along that path. *)
Theorem deep_dict_merge_paths path a b v :
  wf_val (PDict b) ->
  (dget path (PDict b) = Some v -> is_dict v = false ->
   dget path (deep_dict_merge a (PDict b)) = Some v) /\
  (forall k, aget k b = None -> dget (k :: path) (deep_dict_merge a (PDict b)) =
                                dget (k :: path) (PDict a)).
Proof.
  revert a b. induction path as [|k path IH]; intros a b Hwf.
  - split; [by intros [= <-]|]. intros k Hk.
    destruct (deep_dict_merge_lookup a b (proj1 Hwf)) as (m & -> & Hl).
    cbn [dget]. by rewrite Hl, Hk.
  - destruct (deep_dict_merge_lookup a b (proj1 Hwf)) as (m & -> & Hl). split.
    + cbn [dget]. rewrite Hl. destruct (aget k b) as [w|] eqn:Hk; [|done].
      intros Hw Hv. unfold merge_entry.
      destruct (aget k a) as [[| | | | |r|]|]; try done.
      assert (Hww : wf_val w).
      { apply aget_Some_elem in Hk. eapply (wf_all_elem b (k, w)); [apply Hwf|done]. }
      destruct w as [| | | | |d|]; [done..| |done].
      exact (proj1 (IH r d Hww) Hw Hv).
    + intros k' Hk'. cbn [dget]. by rewrite Hl, Hk'.
Qed.

Lemma deep_dict_merge_paths_witness :
  dget ["a"; "b"] (deep_dict_merge [("a", PDict [("b", PInt 1); ("c", PInt 2)])]
                     (PDict [("a", PDict [("b", PInt 9)])])) = Some (PInt 9).
Proof.
  refine (proj1 (deep_dict_merge_paths ["a"; "b"] [("a", PDict [("b", PInt 1); ("c", PInt 2)])]
                   [("a", PDict [("b", PInt 9)])] (PInt 9) _) eq_refl eq_refl).
  cbn. repeat split; repeat constructor; set_solver.
Defined.
