(* ===== verification/Classes.v ===== *)
(** * The object classes (designate/objects/*.py)

    The [FIELDS] tables of the classes the modelled components use, the merging of
    tables that [make_class_properties] performs and the class registry, with the
    properties of single objects: the status of a record set and the master
    look-up of a zone. The theorems of [Objects] are applied here at concrete
    objects. *)
From Stdlib Require Import ZArith Lia Ascii String DecimalString.
From stdpp Require Import base option numbers strings sets list.
From S2P Require Import Prelude PyStr Exceptions Values Objects Utils.
Local Open Scope string_scope.

(** ** Building the entries of a table *)
Definition typed (types : list string) : schema :=
  {| s_types := types; s_format := None; s_minimum := None; s_maximum := None;
     s_max_length := None; s_enum := [] |}.
Definition with_format (f : string) (s : schema) : schema :=
  {| s_types := s_types s; s_format := Some f; s_minimum := s_minimum s;
     s_maximum := s_maximum s; s_max_length := s_max_length s; s_enum := s_enum s |}.
Definition with_min (n : Z) (s : schema) : schema :=
  {| s_types := s_types s; s_format := s_format s; s_minimum := Some n;
     s_maximum := s_maximum s; s_max_length := s_max_length s; s_enum := s_enum s |}.
Definition with_max (n : Z) (s : schema) : schema :=
  {| s_types := s_types s; s_format := s_format s; s_minimum := s_minimum s;
     s_maximum := Some n; s_max_length := s_max_length s; s_enum := s_enum s |}.
Definition with_max_length (n : Z) (s : schema) : schema :=
  {| s_types := s_types s; s_format := s_format s; s_minimum := s_minimum s;
     s_maximum := s_maximum s; s_max_length := Some n; s_enum := s_enum s |}.
Definition with_enum (l : list string) (s : schema) : schema :=
  {| s_types := s_types s; s_format := s_format s; s_minimum := s_minimum s;
     s_maximum := s_maximum s; s_max_length := s_max_length s; s_enum := l |}.

Definition untyped : field :=
  {| f_schema := None; f_relation := None; f_required := false; f_immutable := false;
     f_read_only := false |}.
Definition column (s : schema) : field :=
  {| f_schema := Some s; f_relation := None; f_required := false; f_immutable := false;
     f_read_only := false |}.
Definition relation (cls : string) (req : bool) : field :=
  {| f_schema := None; f_relation := Some cls; f_required := req; f_immutable := false;
     f_read_only := false |}.
Definition required (f : field) : field :=
  {| f_schema := f_schema f; f_relation := f_relation f; f_required := true;
     f_immutable := f_immutable f; f_read_only := f_read_only f |}.
Definition immutable (f : field) : field :=
  {| f_schema := f_schema f; f_relation := f_relation f; f_required := f_required f;
     f_immutable := true; f_read_only := f_read_only f |}.
Definition read_only (f : field) : field :=
  {| f_schema := f_schema f; f_relation := f_relation f; f_required := f_required f;
     f_immutable := f_immutable f; f_read_only := true |}.

(** ** The tables *)

Definition ListObjectMixin_FIELDS : list (string * field) := [
    ("objects", relation "" false) ].

Definition PersistentObjectMixin_FIELDS : list (string * field) := [
    ("id", read_only (column (with_format "uuid" (typed ["string"]))));
    ("created_at", read_only (column (with_format "date-time" (typed ["string"]))));
    ("updated_at", read_only (column (with_format "date-time" (typed ["string"; "null"]))));
    ("version", read_only (column (typed ["integer"]))) ].

Definition SoftDeleteObjectMixin_FIELDS : list (string * field) := [
    ("deleted", read_only (column (typed ["string"; "integer"])));
    ("deleted_at", read_only (column (with_format "date-time" (typed ["string"; "null"])))) ].

Definition PagedListObjectMixin_FIELDS : list (string * field) := [
    ("total_count", column (typed ["integer"])) ].

Definition Zone_FIELDS : list (string * field) := [
    ("shard", column (with_max 4095 (with_min 0 (typed ["integer"]))));
    ("tenant_id", immutable (column (typed ["string"])));
    ("name", immutable (required (column (with_max_length 255 (with_format "domainname" (typed ["string"]))))));
    ("email", column (with_max_length 255 (with_format "email" (typed ["string"]))));
    ("ttl", column (with_max 2147483647 (with_min 1 (typed ["integer"; "null"]))));
    ("refresh", read_only (column (with_max 2147483647 (with_min 0 (typed ["integer"])))));
    ("retry", read_only (column (with_max 2147483647 (with_min 0 (typed ["integer"])))));
    ("expire", read_only (column (with_max 2147483647 (with_min 0 (typed ["integer"])))));
    ("minimum", read_only (column (with_max 2147483647 (with_min 0 (typed ["integer"])))));
    ("parent_zone_id", read_only (column (with_format "uuid" (typed ["string"; "null"]))));
    ("serial", read_only (column (with_max 4294967295 (with_min 1 (typed ["integer"])))));
    ("description", column (with_max_length 160 (typed ["string"; "null"])));
    ("status", read_only (column (with_enum ["ACTIVE"; "PENDING"; "ERROR"; "DELETED"; "SUCCESS"; "NO_ZONE"] (typed ["string"]))));
    ("action", read_only (column (with_enum ["CREATE"; "DELETE"; "UPDATE"; "NONE"] (typed ["string"]))));
    ("pool_id", immutable (column (with_format "uuid" (typed ["string"]))));
    ("view_id", column (typed ["string"; "null"]));
    ("recordsets", relation "RecordSetList" false);
    ("attributes", relation "ZoneAttributeList" false);
    ("masters", relation "ZoneMasterList" false);
    ("type", immutable (column (with_enum ["SECONDARY"; "PRIMARY"] (typed ["string"]))));
    ("transferred_at", read_only (column (with_format "date-time" (typed ["string"; "null"]))));
    ("delayed_notify", column (typed ["boolean"])) ].

Definition ZoneAttribute_FIELDS : list (string * field) := [
    ("zone_id", column (with_format "uuid" (typed ["string"])));
    ("key", required (column (with_max_length 50 (typed ["string"]))));
    ("value", required (column (with_max_length 50 (typed ["string"])))) ].

Definition ZoneMaster_FIELDS : list (string * field) := [
    ("zone_id", untyped);
    ("host", column (with_format "ip-or-host" (typed ["string"])));
    ("port", column (with_max 65535 (with_min 1 (typed ["integer"])))) ].

Definition ZoneTransferRequest_FIELDS : list (string * field) := [
    ("key", column (with_max_length 160 (typed ["string"])));
    ("zone_id", immutable (column (with_format "uuid" (typed ["string"]))));
    ("description", column (with_max_length 160 (typed ["string"; "null"])));
    ("tenant_id", read_only (column (typed ["string"])));
    ("target_tenant_id", immutable (column (typed ["string"; "null"])));
    ("status", column (with_enum ["ACTIVE"; "PENDING"; "DELETED"; "ERROR"; "COMPLETE"] (typed ["string"])));
    ("zone_name", read_only (column (with_max_length 255 (typed ["string"; "null"])))) ].

Definition ZoneTransferAccept_FIELDS : list (string * field) := [
    ("zone_transfer_request_id", immutable (column (with_format "uuid" (typed ["string"]))));
    ("tenant_id", read_only (column (typed ["string"])));
    ("status", read_only (column (with_enum ["ACTIVE"; "PENDING"; "DELETED"; "ERROR"; "COMPLETE"] (typed ["string"]))));
    ("key", required (column (with_max_length 160 (typed ["string"]))));
    ("zone_id", immutable (column (with_format "uuid" (typed ["string"])))) ].

Definition ZoneImport_FIELDS : list (string * field) := [
    ("status", read_only (column (with_enum ["ACTIVE"; "PENDING"; "DELETED"; "ERROR"; "COMPLETE"] (typed ["string"]))));
    ("task_type", read_only (column (with_enum ["IMPORT"] (typed ["string"]))));
    ("tenant_id", read_only (column (typed ["string"])));
    ("message", read_only (column (with_max_length 160 (typed ["string"; "null"]))));
    ("zone_id", read_only (column (with_format "uuid" (typed ["string"])))) ].

Definition ZoneExport_FIELDS : list (string * field) := [
    ("status", read_only (column (with_enum ["ACTIVE"; "PENDING"; "DELETED"; "ERROR"; "COMPLETE"] (typed ["string"]))));
    ("task_type", read_only (column (with_enum ["EXPORT"] (typed ["string"]))));
    ("tenant_id", read_only (column (typed ["string"])));
    ("location", read_only (column (with_max_length 160 (typed ["string"; "null"]))));
    ("message", read_only (column (with_max_length 160 (typed ["string"; "null"]))));
    ("zone_id", read_only (column (with_format "uuid" (typed ["string"])))) ].

Definition RecordSet_FIELDS : list (string * field) := [
    ("shard", column (with_max 4095 (with_min 0 (typed ["integer"]))));
    ("tenant_id", read_only (column (typed ["string"])));
    ("zone_id", column (with_format "uuid" (typed ["string"])));
    ("records_ext", immutable (column (typed [])));
    ("zone_name", read_only (column (with_max_length 255 (with_format "domainname" (typed ["string"])))));
    ("name", immutable (required (column (with_max_length 255 (with_format "hostname" (typed ["string"]))))));
    ("type", immutable (required (column (typed ["string"]))));
    ("ttl", required (column (with_max 2147483647 (with_min 1 (typed ["integer"; "null"])))));
    ("description", required (column (with_max_length 160 (typed ["string"; "null"]))));
    ("records", relation "RecordList" true) ].

Definition Record_FIELDS : list (string * field) := [
    ("shard", column (with_max 4095 (with_min 0 (typed ["integer"]))));
    ("data", untyped);
    ("zone_id", column (with_format "uuid" (typed ["string"])));
    ("managed", column (typed ["boolean"]));
    ("managed_resource_type", column (with_max_length 160 (typed ["string"; "null"])));
    ("managed_resource_id", column (with_format "uuid" (typed ["string"; "null"])));
    ("managed_plugin_name", column (with_max_length 160 (typed ["string"; "null"])));
    ("managed_plugin_type", column (with_max_length 160 (typed ["string"; "null"])));
    ("hash", column (with_max_length 32 (typed ["string"])));
    ("description", column (with_max_length 160 (typed ["string"; "null"])));
    ("status", column (with_enum ["ACTIVE"; "PENDING"; "ERROR"; "DELETED"; "SUCCESS"; "NO_ZONE"] (typed ["string"])));
    ("tenant_id", column (typed ["string"]));
    ("recordset_id", column (with_format "uuid" (typed ["string"])));
    ("managed_tenant_id", column (typed ["string"; "null"]));
    ("managed_resource_region", column (with_max_length 160 (typed ["string"; "null"])));
    ("managed_extra", column (with_max_length 160 (typed ["string"; "null"])));
    ("action", column (with_enum ["CREATE"; "DELETE"; "UPDATE"; "NONE"] (typed ["string"])));
    ("serial", column (with_max 4294967295 (with_min 1 (typed ["integer"])))) ].

Definition Pool_FIELDS : list (string * field) := [
    ("name", immutable (required (column (with_max_length 50 (typed ["string"])))));
    ("description", column (with_max_length 160 (typed ["string"; "null"])));
    ("tenant_id", immutable (column (with_max_length 36 (typed ["string"; "null"]))));
    ("provisioner", column (with_max_length 160 (typed ["string"; "null"])));
    ("attributes", relation "PoolAttributeList" false);
    ("ns_records", relation "PoolNsRecordList" true);
    ("nameservers", relation "PoolNameserverList" false);
    ("targets", relation "PoolTargetList" false);
    ("also_notifies", relation "PoolAlsoNotifyList" false) ].

Definition PoolAttribute_FIELDS : list (string * field) := [
    ("pool_id", column (with_format "uuid" (typed ["string"])));
    ("key", required (column (with_max_length 50 (typed ["string"]))));
    ("value", required (column (with_max_length 50 (typed ["string"])))) ].

Definition PoolNsRecord_FIELDS : list (string * field) := [
    ("pool_id", column (with_format "uuid" (typed ["string"])));
    ("priority", required (column (with_max 10000 (with_min 1 (typed ["integer"])))));
    ("hostname", immutable (required (column (with_max_length 255 (with_format "domainname" (typed ["string"])))))) ].

Definition PoolNameserver_FIELDS : list (string * field) := [
    ("pool_id", column (with_format "uuid" (typed ["string"])));
    ("host", column (with_format "ip-or-host" (typed ["string"])));
    ("port", column (with_max 65535 (with_min 1 (typed ["integer"])))) ].

Definition PoolTarget_FIELDS : list (string * field) := [
    ("pool_id", column (with_format "uuid" (typed ["string"])));
    ("type", untyped);
    ("tsigkey_id", column (with_format "uuid" (typed ["string"; "null"])));
    ("description", column (with_max_length 160 (typed ["string"; "null"])));
    ("masters", relation "PoolTargetMasterList" false);
    ("options", relation "PoolTargetOptionList" false);
    ("backend", untyped) ].

Definition PoolTargetMaster_FIELDS : list (string * field) := [
    ("pool_target_id", column (with_format "uuid" (typed ["string"])));
    ("host", column (with_format "ip-or-host" (typed ["string"])));
    ("port", column (with_max 65535 (with_min 1 (typed ["integer"])))) ].

Definition PoolTargetOption_FIELDS : list (string * field) := [
    ("pool_target_id", column (with_format "uuid" (typed ["string"])));
    ("key", required (column (with_max_length 255 (typed ["string"]))));
    ("value", required (column (with_max_length 255 (typed ["string"])))) ].

Definition PoolAlsoNotify_FIELDS : list (string * field) := [
    ("pool_id", column (with_format "uuid" (typed ["string"])));
    ("host", column (with_format "ip-or-host" (typed ["string"])));
    ("port", column (with_max 65535 (with_min 1 (typed ["integer"])))) ].

Definition PoolManagerStatus_FIELDS : list (string * field) := [
    ("nameserver_id", required (column (with_format "uuid" (typed ["string"]))));
    ("zone_id", required (column (with_format "uuid" (typed ["string"]))));
    ("status", column (with_enum ["ACTIVE"; "PENDING"; "ERROR"] (typed ["string"; "null"])));
    ("serial_number", column (with_max 4294967295 (with_min 0 (typed ["integer"]))));
    ("action", column (with_enum ["CREATE"; "DELETE"; "UPDATE"; "NONE"] (typed ["string"]))) ].

Definition ServiceStatus_FIELDS : list (string * field) := [
    ("service_name", column (typed ["string"]));
    ("hostname", column (typed ["string"]));
    ("heartbeated_at", column (with_format "date-time" (typed ["string"; "null"])));
    ("status", column (with_enum ["UP"; "DOWN"; "WARNING"] (typed ["string"])));
    ("stats", column (typed ["object"]));
    ("capabilities", column (typed ["object"])) ].

Definition Quota_FIELDS : list (string * field) := [
    ("tenant_id", untyped);
    ("resource", untyped);
    ("hard_limit", untyped) ].

Definition Tld_FIELDS : list (string * field) := [
    ("name", immutable (required (column (with_max_length 255 (with_format "tldname" (typed ["string"]))))));
    ("description", column (with_max_length 160 (typed ["string"; "null"]))) ].

Definition Blacklist_FIELDS : list (string * field) := [
    ("pattern", required (column (with_max_length 255 (with_format "regex" (typed ["string"])))));
    ("description", column (with_max_length 160 (typed ["string"; "null"]))) ].

Definition TsigKey_FIELDS : list (string * field) := [
    ("name", required (column (with_max_length 160 (with_format "domainnamne" (typed ["string"])))));
    ("algorithm", required (column (with_enum ["hmac-md5"; "hmac-sha1"; "hmac-sha224"; "hmac-sha256"; "hmac-sha384"; "hmac-sha512"] (typed ["string"]))));
    ("secret", required (column (with_max_length 160 (typed ["string"]))));
    ("scope", required (column (with_enum ["POOL"; "ZONE"] (typed ["string"]))));
    ("resource_id", read_only (required (column (with_format "uuid" (typed ["string"]))))) ].

Definition View_FIELDS : list (string * field) := [
    ("tenant_id", immutable (column (typed ["string"])));
    ("name", immutable (required (column (with_max_length 255 (typed ["string"])))));
    ("pool_id", immutable (column (with_format "uuid" (typed ["string"])))) ].

Definition ZdnsRecord_FIELDS : list (string * field) := [
    ("name", column (typed ["string"]));
    ("ttl", column (typed ["string"]));
    ("rdata", column (typed ["string"]));
    ("type", column (typed ["string"]));
    ("klass", column (typed ["string"]));
    ("rr_id", column (typed ["string"]));
    ("action", column (typed ["string"])) ].

Definition RecordAssociation_FIELDS : list (string * field) := [
    ("record_id", column (typed ["string"]));
    ("zdns_record_id", column (typed ["string"])) ].

Definition Acl_FIELDS : list (string * field) := [
    ("tenant_id", immutable (column (typed ["string"])));
    ("name", immutable (required (column (with_max_length 255 (with_format "domainname" (typed ["string"]))))));
    ("pool_id", immutable (column (with_format "uuid" (typed ["string"]))));
    ("networks", column (with_format "ip-or-host" (typed ["string"]))) ].

Definition ZdnsViewInfo_FIELDS : list (string * field) := [
    ("name", immutable (column (with_max_length 255 (typed ["string"]))));
    ("dns64s", column (typed ["string"]));
    ("owners", column (typed ["string"]));
    ("fail_forwarder", column (typed ["string"]));
    ("current_users", column (typed ["string"]));
    ("priority", column (typed ["string"]));
    ("query_source", column (typed ["string"]));
    ("href", column (typed ["string"]));
    ("zones", column (typed ["string"]));
    ("comment", column (typed ["string"])) ].

(** The format of the address is a list of two formats. *)
Definition FloatingIP_FIELDS : list (string * field) := [
    ("address", column (typed ["string"]));
    ("description", column (with_max_length 160 (typed ["string"; "null"])));
    ("id", column (with_format "uuid" (typed ["string"])));
    ("ptrdname", column (with_format "domainname" (typed ["string"; "null"])));
    ("ttl", column (with_max 2147483647 (with_min 1 (typed ["integer"; "null"]))));
    ("region", column (typed ["string"; "null"]));
    ("action", column (with_enum ["CREATE"; "DELETE"; "UPDATE"; "NONE"] (typed ["string"])));
    ("status", column (with_enum ["ACTIVE"; "PENDING"; "ERROR"] (typed ["string"]))) ].

Definition Tenant_FIELDS : list (string * field) := [
    ("id", untyped);
    ("zone_count", untyped);
    ("zones", untyped) ].

Definition ValidationError_FIELDS : list (string * field) := [
    ("path", untyped);
    ("message", untyped);
    ("validator", untyped);
    ("validator_value", untyped);
    ("raw", untyped) ].

(** ** The registry *)

(** [make_class_properties]: the tables of the super-classes, then the class's
    own. *)
Definition merge_fields (supers : list (list (string * field))) (own : list (string * field)) :
    list (string * field) :=
  aupdate (foldl aupdate [] supers) own.

Definition dict_class (own : list (string * field)) : klass :=
  {| k_fields := merge_fields [PersistentObjectMixin_FIELDS] own;
     k_item := None; k_attribute_list := false |}.
Definition list_class (item : string) : klass :=
  {| k_fields := merge_fields [ListObjectMixin_FIELDS] [];
     k_item := Some item; k_attribute_list := false |}.
Definition paged_class (item : string) : klass :=
  {| k_fields := merge_fields [ListObjectMixin_FIELDS; PagedListObjectMixin_FIELDS] [];
     k_item := Some item; k_attribute_list := false |}.
Definition attr_class (item : string) : klass :=
  {| k_fields := merge_fields [ListObjectMixin_FIELDS] [];
     k_item := Some item; k_attribute_list := true |}.

(** [DesignateObject._obj_classes] *)
Definition classes : list (string * klass) := [
  ("Zone", {| k_fields := merge_fields [SoftDeleteObjectMixin_FIELDS; PersistentObjectMixin_FIELDS]
                            Zone_FIELDS;
              k_item := None; k_attribute_list := false |});
  ("ZoneList", paged_class "Zone");
  ("ZoneAttribute", dict_class ZoneAttribute_FIELDS);
  ("ZoneAttributeList", attr_class "ZoneAttribute");
  ("ZoneMaster", dict_class ZoneMaster_FIELDS);
  ("ZoneMasterList", list_class "ZoneMaster");
  ("ZoneTransferRequest", dict_class ZoneTransferRequest_FIELDS);
  ("ZoneTransferRequestList", list_class "ZoneTransferRequest");
  ("ZoneTransferAccept", dict_class ZoneTransferAccept_FIELDS);
  ("ZoneTransferAcceptList", paged_class "ZoneTransferAccept");
  ("ZoneImport", dict_class ZoneImport_FIELDS);
  ("ZoneImportList", paged_class "ZoneImport");
  ("ZoneExport", dict_class ZoneExport_FIELDS);
  ("ZoneExportList", paged_class "ZoneExport");
  ("RecordSet", dict_class RecordSet_FIELDS);
  ("RecordSetList", paged_class "RecordSet");
  ("Record", dict_class Record_FIELDS);
  ("RecordList", list_class "Record");
  ("Pool", dict_class Pool_FIELDS);
  ("PoolList", list_class "Pool");
  ("PoolAttribute", dict_class PoolAttribute_FIELDS);
  ("PoolAttributeList", attr_class "PoolAttribute");
  ("PoolNsRecord", dict_class PoolNsRecord_FIELDS);
  ("PoolNsRecordList", list_class "PoolNsRecord");
  ("PoolNameserver", dict_class PoolNameserver_FIELDS);
  ("PoolNameserverList", list_class "PoolNameserver");
  ("PoolTarget", dict_class PoolTarget_FIELDS);
  ("PoolTargetList", list_class "PoolTarget");
  ("PoolTargetMaster", dict_class PoolTargetMaster_FIELDS);
  ("PoolTargetMasterList", list_class "PoolTargetMaster");
  ("PoolTargetOption", dict_class PoolTargetOption_FIELDS);
  ("PoolTargetOptionList", attr_class "PoolTargetOption");
  ("PoolAlsoNotify", dict_class PoolAlsoNotify_FIELDS);
  ("PoolAlsoNotifyList", list_class "PoolAlsoNotify");
  ("PoolManagerStatus", dict_class PoolManagerStatus_FIELDS);
  ("PoolManagerStatusList", list_class "PoolManagerStatus");
  ("ServiceStatus", dict_class ServiceStatus_FIELDS);
  ("ServiceStatusList", list_class "ServiceStatus");
  ("Quota", dict_class Quota_FIELDS);
  ("QuotaList", list_class "Quota");
  ("Tld", dict_class Tld_FIELDS);
  ("TldList", list_class "Tld");
  ("Blacklist", dict_class Blacklist_FIELDS);
  ("BlacklistList", list_class "Blacklist");
  ("TsigKey", dict_class TsigKey_FIELDS);
  ("TsigKeyList", list_class "TsigKey");
  ("View", {| k_fields := merge_fields [SoftDeleteObjectMixin_FIELDS; PersistentObjectMixin_FIELDS]
                            View_FIELDS;
              k_item := None; k_attribute_list := false |});
  ("ViewList", paged_class "View");
  ("Acl", {| k_fields := merge_fields [SoftDeleteObjectMixin_FIELDS; PersistentObjectMixin_FIELDS]
                           Acl_FIELDS;
             k_item := None; k_attribute_list := false |});
  ("AclList", paged_class "Acl");
  ("ZdnsViewInfo", {| k_fields := merge_fields [SoftDeleteObjectMixin_FIELDS; PersistentObjectMixin_FIELDS]
                                    ZdnsViewInfo_FIELDS;
                      k_item := None; k_attribute_list := false |});
  ("ZdnsViewInfoList", paged_class "ZdnsViewInfo");
  ("FloatingIP", dict_class FloatingIP_FIELDS);
  ("FloatingIPList", list_class "FloatingIP");
  ("Tenant", {| k_fields := Tenant_FIELDS; k_item := None; k_attribute_list := false |});
  ("TenantList", list_class "Tenant");
  ("ValidationError", {| k_fields := ValidationError_FIELDS; k_item := None; k_attribute_list := false |});
  ("ValidationErrorList", list_class "ValidationError");
  ("ZdnsRecord", dict_class ZdnsRecord_FIELDS);
  ("RecordAssociation", dict_class RecordAssociation_FIELDS) ].
Definition registry (cls : string) : option klass := aget cls classes.

(** ** Properties of single objects *)

Definition str_attr (o : pyval) (name : string) : string :=
  match getattr registry o name with Ok (PStr s) => s | _ => "" end.
Definition int_attr (o : pyval) (name : string) : Z :=
  match getattr registry o name with Ok (PInt z) => z | _ => 0%Z end.

(** [RecordSet.status], over the statuses of the records. *)
Definition worse (status record_status : string) : string :=
  if String.eqb record_status "ERROR"
     || (String.eqb record_status "PENDING" && negb (String.eqb status "ERROR"))
     || negb (String.eqb status "PENDING")
  then record_status else status.
Definition recordset_status (records : list pyval) : string :=
  foldl worse "ACTIVE" (map (fun r => str_attr r "status") records).

(** [RecordSet.managed] *)
Definition recordset_managed (records : list pyval) : bool :=
  existsb (fun r => match getattr registry r "managed" with Ok v => truthy v | _ => false end)
    records.

(** [RecordSet.action] *)
Definition recordset_action (records : list pyval) : string := "NONE".

(** [ZoneMaster.to_data] *)
Definition master_to_data (m : pyval) : R string :=
  match m with
  | PObj _ f _ _ =>
      match aget "host" f, aget "port" f with
      | Some (PStr h), Some (PInt p) => Ok (h ++ ":" ++ str_of_Z p)
      | Some _, Some _ => Raise (Py PyTypeError)
      | _, _ => Raise (Py PyKeyError)
      end
  | _ => Raise (Py PyAttributeError)
  end.

(** [Zone.get_master_by_ip]; [None] is [False]. *)
Fixpoint find_master (masters : list pyval) (host : string) : R (option pyval) :=
  match masters with
  | [] => Ok None
  | srv :: rest =>
      let? data := master_to_data srv in
      if String.eqb host (split_host_port data 53).1 then Ok (Some srv)
      else find_master rest host
  end.
Definition get_master_by_ip (zone : pyval) (host : string) : R (option pyval) :=
  let? masters := getattr registry zone "masters" in
  find_master (list_objects masters) host.

(** ** The worst status of the records *)

Lemma foldl_worse_pending l : "ERROR" ∉ l -> foldl worse "PENDING" l = "PENDING".
Proof.
  induction l as [|s l IH]; [done|]. intros [Hs Hl]%not_elem_of_cons. cbn [foldl].
  assert (worse "PENDING" s = "PENDING") as ->; [|by apply IH].
  unfold worse. destruct (String.eqb_spec s "ERROR"); [congruence|].
  by destruct (String.eqb_spec s "PENDING").
Qed.

(** The status of a record set. Without records in ERROR, a record set is
    PENDING exactly when one of its records is, and ACTIVE when all are. The
    records' order decides otherwise: a record in ERROR that is followed by an
    ACTIVE record leaves the record set ACTIVE, although the status is meant to
    be the worst one. *)
Theorem recordset_status_spec records :
  let statuses := map (fun r => str_attr r "status") records in
  ((forall s, s ∈ statuses -> s = "ACTIVE" \/ s = "PENDING") ->
     recordset_status records = if mem_str "PENDING" statuses then "PENDING" else "ACTIVE") /\
  (forall before e a, records = app before [e; a] -> str_attr e "status" = "ERROR" ->
     str_attr a "status" = "ACTIVE" -> recordset_status records = "ACTIVE").
Proof.
  intros statuses. split.
  - unfold recordset_status. fold statuses. clearbody statuses.
    induction statuses as [|s l IH]; [done|]. intros H. cbn [foldl mem_str existsb].
    destruct (H s) as [->| ->]; [set_solver| |].
    + apply IH. set_solver.
    + apply foldl_worse_pending. intros Hin. destruct (H "ERROR"); set_solver.
  - intros before e a -> He Ha. unfold recordset_status. rewrite map_app, foldl_app. cbn.
    by rewrite He, Ha.
Qed.

(** ** Masters *)

Lemma uint_of_string_colon s : has_char ":" s = true -> NilEmpty.uint_of_string s = None.
Proof.
  induction s as [|a s IH]; [done|]. cbn [has_char NilEmpty.uint_of_string].
  intros [->%Ascii.eqb_eq|H]%orb_true_iff; [by destruct (NilEmpty.uint_of_string s)|].
  rewrite (IH H). by destruct a as [[] [] [] [] [] [] [] []].
Qed.

Lemma strip_colon s : has_char ":" s = true -> has_char ":" (strip is_space s) = true.
Proof.
  intros H. unfold strip. assert (Hl : has_char ":" (lstrip is_space s) = true).
  - induction s as [|a s IH]; [done|]. cbn [lstrip]. destruct (is_space a) eqn:Ha; [|done].
    apply IH. cbn [has_char] in H. apply orb_true_iff in H as [->%Ascii.eqb_eq|]; done.
  - revert Hl. generalize (lstrip is_space s). clear. intros s.
    induction s as [|a s IH]; [done|]. cbn [has_char rstrip].
    intros [Ha|Hs]%orb_true_iff.
    + apply Ascii.eqb_eq in Ha as ->. destruct (rstrip is_space s); cbn; done.
    + specialize (IH Hs). destruct (rstrip is_space s); [done|]. cbn in *.
      by rewrite IH, orb_true_r.
Qed.

Lemma int_of_str_colon s : has_char ":" s = true -> int_of_str s = None.
Proof.
  intros H. unfold int_of_str. pose proof (strip_colon s H) as Ht.
  assert (Hd : forall t, has_char ":" t = true -> NilZero.uint_of_string t = None).
  { intros t Hc. destruct t; [done|]. by apply uint_of_string_colon. }
  destruct (strip is_space s) as [|a t]; [done|].
  assert (Hmain : option_map Z.of_uint (NilZero.uint_of_string (String a t)) = None).
  { by rewrite Hd. }
  assert (Hrest : a <> ":"%char -> NilZero.uint_of_string t = None).
  { intros Hne. apply Hd. cbn in Ht. apply orb_true_iff in Ht as [Heq|]; [|done].
    by apply Ascii.eqb_eq in Heq. }
  destruct a as [[] [] [] [] [] [] [] []]; try exact Hmain; by rewrite Hrest.
Qed.

(** The master's address as [get_master_by_ip] reads it. *)
Lemma split_to_data h p :
  (split_host_port (h ++ ":" ++ str_of_Z p) 53).1 =
  if has_char ":" h then h ++ ":" ++ str_of_Z p else h.
Proof.
  destruct (has_char ":" h) eqn:Hh.
  - assert (Hp : exists a b, has_char ":" a = false /\ h = a ++ String ":" b).
    { revert Hh. clear. induction h as [|c h IH]; [done|]. cbn.
      destruct (Ascii.eqb_spec c ":") as [->|Hne]; cbn.
      - intros _. by exists "", h.
      - intros (a & b & Ha & ->)%IH. exists (String c a), b. split; [|done]. cbn.
        rewrite Ha. by destruct (Ascii.eqb_spec c ":"). }
    destruct Hp as (a & b & Ha & ->). rewrite sapp_assoc. cbn [String.append].
    unfold split_host_port. rewrite partition_char_app by done.
    rewrite int_of_str_colon; [done|]. rewrite has_char_app. cbn. by rewrite orb_true_r.
  - destruct (split_host_port_spec h "" p 53 Hh) as [-> _]. done.
Qed.

(** A master with an address: its host and port are set. *)
Definition is_master (m : pyval) : Prop :=
  exists f ch og h p, m = PObj "ZoneMaster" f ch og /\
    aget "host" f = Some (PStr h) /\ aget "port" f = Some (PInt p).
Definition address (m : pyval) : string :=
  let host := str_attr m "host" in
  if has_char ":" host then host ++ ":" ++ str_of_Z (int_attr m "port") else host.

Lemma master_address m :
  is_master m -> exists d, master_to_data m = Ok d /\ (split_host_port d 53).1 = address m.
Proof.
  intros (f & ch & og & h & p & -> & Hh & Hp). unfold master_to_data, address, str_attr, int_attr.
  cbn [getattr]. change (in_FIELDS registry "ZoneMaster" "host") with true.
  change (in_FIELDS registry "ZoneMaster" "port") with true. cbn [negb].
  rewrite Hh, Hp. eexists. split; [reflexivity|]. apply split_to_data.
Qed.

(** Looking up the master that sent a NOTIFY gives the first master whose
    address is the host. A master with a colon in its host (an IPv6 address) is
    compared together with its port, so it is never found by its address. *)
Theorem get_master_by_ip_spec zone l host c f ch og :
  getattr registry zone "masters" = Ok (PObj c f ch og) -> aget "objects" f = Some (PList l) ->
  (forall m, m ∈ l -> is_master m) ->
  get_master_by_ip zone host = Ok (find (fun m => String.eqb host (address m)) l).
Proof.
  intros Hz Ho Hl. unfold get_master_by_ip. rewrite Hz. cbn [rbind list_objects]. rewrite Ho.
  clear Hz Ho. induction l as [|m l IH]; [done|]. cbn [find_master find].
  destruct (master_address m) as (d & -> & Hd); [apply Hl; set_solver|]. cbn [rbind].
  rewrite Hd. destruct (String.eqb host (address m)); [done|]. apply IH. set_solver.
Qed.

Definition example_master (host : string) : pyval :=
  PObj "ZoneMaster" [("host", PStr host); ("port", PInt 53)] [] [].
Definition example_secondary : pyval :=
  PObj "Zone" [("name", PStr "example.org.");
               ("masters", PObj "ZoneMasterList"
                  [("objects", PList [example_master "::1"; example_master "192.0.2.1"])] [] [])]
    [] [].
Lemma get_master_by_ip_spec_witness :
  get_master_by_ip example_secondary "192.0.2.1" = Ok (Some (example_master "192.0.2.1")) /\
  get_master_by_ip example_secondary "::1" = Ok None.
Proof.
  assert (H : forall m, m ∈ [example_master "::1"; example_master "192.0.2.1"] -> is_master m).
  { intros m [->|[->|[]%not_elem_of_nil]%elem_of_cons]%elem_of_cons; by repeat eexists. }
  split.
  - exact (get_master_by_ip_spec example_secondary _ "192.0.2.1" _ _ _ _ eq_refl eq_refl H).
  - exact (get_master_by_ip_spec example_secondary _ "::1" _ _ _ _ eq_refl eq_refl H).
Defined.

(** ** Failures of attribute accesses *)
#[export] Instance getattr_catchable {S} o n : Catchable (S := S) (lift (getattr registry o n)).
Proof.
  intros w e w'. unfold lift, getattr. destruct o as [| | | | | |c f ch og]; try by intros [= <- <-].
  destruct (negb _); [by intros [= <- <-]|]. destruct (aget n f); [done|].
  destruct (is_relation registry c n); [by intros [= <- <-]|done].
Qed.
#[export] Instance setattr_catchable {S} o n v : Catchable (S := S) (lift (setattr registry o n v)).
Proof.
  intros w e w'. unfold lift, setattr. destruct o as [| | | | | |c f ch og]; try by intros [= <- <-].
  destruct (negb _); [by intros [= <- <-]|]. by destruct (aget n f).
Qed.

(** ** The theorems of [Objects] at a zone *)

Definition example_zone_fields : list (string * pyval) :=
  [("id", PStr "z1"); ("tenant_id", PStr "t1"); ("name", PStr "example.org.");
   ("serial", PInt 1); ("status", PStr "ACTIVE")].
Definition example_zone : pyval := PObj "Zone" example_zone_fields [] [].

Lemma change_tracking_witness :
  exists o', update registry example_zone [("status", PStr "PENDING"); ("serial", PInt 2);
                                           ("status", PStr "ACTIVE")] = Ok o' /\
  obj_get_original_value registry o' "status" = Ok (PStr "ACTIVE").
Proof.
  eexists. split; [vm_compute; reflexivity|].
  refine (proj1 (change_tracking registry "Zone" example_zone_fields
    [("status", PStr "PENDING"); ("serial", PInt 2); ("status", PStr "ACTIVE")] _ "status"
    (PStr "ACTIVE") eq_refl _ I _ eq_refl _)); [| |vm_compute; reflexivity].
  - reflexivity.
  - intros w Hw. elem_cases Hw; exact I.
Defined.

Lemma deepcopy_forgets_originals_witness :
  py_eq (PObj "Zone" [("id", PStr "z1"); ("name", PStr "b.")] ["name"] [("name", PStr "a.")])
    (deepcopy registry
       (PObj "Zone" [("id", PStr "z1"); ("name", PStr "b.")] ["name"] [("name", PStr "a.")])) = false.
Proof.
  refine (proj1 (proj2 (deepcopy_forgets_originals registry "Zone"
    [("id", PStr "z1"); ("name", PStr "b.")] ["name"] [("name", PStr "a.")] _ _ _ _)) _).
  - reflexivity.
  - vm_compute. reflexivity.
  - repeat constructor; set_solver.
  - intros kv Hkv. elem_cases Hkv; reflexivity.
  - discriminate.
Defined.

Definition example_recordset : pyval :=
  PObj "RecordSet"
    [("id", PStr "r1"); ("name", PStr "www.example.org.");
     ("records", PObj "RecordList"
        [("objects", PList [PObj "Record" [("data", PStr "192.0.2.1")] ["data"] []])] [] [])]
    ["name"] [("name", PStr "old.example.org.")].
Lemma primitive_round_trip_witness :
  from_primitive registry (fun v => Ok v) 10 (to_primitive registry example_recordset) =
  Ok example_recordset.
Proof.
  apply (primitive_round_trip registry (fun v => Ok v) example_recordset 10).
  - vm_compute.
    repeat match goal with
           | |- _ /\ _ => split
           | |- NoDup _ => constructor
           | |- exists _ _, _ = _ /\ _ => repeat eexists
           | |- is_Some _ => eexists
           end; try reflexivity; try set_solver.
    all: try (right; right; reflexivity).
  - vm_compute. lia.
Defined.
