(* ===== verification/ObjectLists.v ===== *)
(** * Objects that behave as lists, and objects from dictionaries
      (designate/objects/base.py)

    [ListObjectMixin] forwards the list operations to the Python list in its
    attribute [objects], behind the back of the setter: they leave [_obj_changes]
    alone. [obj_what_changed] makes up for it only where an item has changes of its
    own. *)
From Stdlib Require Import ZArith Lia String.
From stdpp Require Import base option numbers strings sets list.
From S2P Require Import Prelude PyStr Exceptions Values Objects Classes.
Local Open Scope string_scope.

(** ** [ListObjectMixin] *)

Definition with_objects (o : pyval) (l : list pyval) : pyval :=
  match o with
  | PObj c f ch og => PObj c (aset "objects" (PList l) f) ch og
  | v => v
  end.
(** Python's index into a list of a length: negative ones count from the end. *)
Definition py_index (len : nat) (index : Z) : option nat :=
  if (0 <=? index)%Z && (index <? Z.of_nat len)%Z then Some (Z.to_nat index)
  else if (index <? 0)%Z && (- Z.of_nat len <=? index)%Z then Some (Z.to_nat (Z.of_nat len + index))
  else None.
Definition len_ (o : pyval) : nat := length (list_objects o).
Definition getitem (o : pyval) (index : Z) : R pyval :=
  match py_index (len_ o) index with
  | Some i => match list_objects o !! i with Some v => Ok v | None => Raise (Py PyIndexError) end
  | None => Raise (Py PyIndexError)
  end.
(** Where a bound of a slice falls. *)
Definition slice_bound (len : nat) (b : Z) : nat :=
  if (b <? 0)%Z then Z.to_nat (Z.of_nat len + b) else Nat.min len (Z.to_nat b).
Definition getslice (o : pyval) (first last : Z) : R pyval :=
  match o with
  | PObj c _ _ _ =>
      let? new_obj := new_obj registry c [] in
      let a := slice_bound (len_ o) first in
      let? new_obj := setattr registry new_obj "objects"
        (PList (take (slice_bound (len_ o) last - a) (drop a (list_objects o)))) in
      Ok (obj_reset_changes new_obj [])
  | _ => Raise (Py PyTypeError)
  end.
Definition setitem (o : pyval) (index : Z) (v : pyval) : R pyval :=
  match py_index (len_ o) index with
  | Some i => Ok (with_objects o (<[i := v]> (list_objects o)))
  | None => Raise (Py PyIndexError)
  end.
Definition contains (o v : pyval) : bool := existsb (fun x => py_eq x v) (list_objects o).
Definition append (o v : pyval) : pyval := with_objects o (app (list_objects o) [v]).
Definition extend (o : pyval) (l : list pyval) : pyval := with_objects o (app (list_objects o) l).
Definition pop (o : pyval) (index : Z) : R (pyval * pyval) :=
  match py_index (len_ o) index with
  | Some i => match list_objects o !! i with
              | Some v => Ok (v, with_objects o (delete i (list_objects o)))
              | None => Raise (Py PyIndexError)
              end
  | None => Raise (Py PyIndexError)
  end.
Definition insert_at (o : pyval) (index : Z) (v : pyval) : pyval :=
  let i := slice_bound (len_ o) index in
  with_objects o (app (take i (list_objects o)) (v :: drop i (list_objects o))).
Fixpoint position (l : list pyval) (v : pyval) : option nat :=
  match l with
  | [] => None
  | x :: rest => if py_eq x v then Some O else option_map S (position rest v)
  end.
Definition index (o v : pyval) : R nat :=
  match position (list_objects o) v with Some i => Ok i | None => Raise (Py PyValueError) end.
Definition remove (o v : pyval) : R pyval :=
  let? i := index o v in Ok (with_objects o (delete i (list_objects o))).
Definition count (o v : pyval) : nat := length (filter (fun x => py_eq x v = true) (list_objects o)).

(** ** From dictionaries *)

(** [from_dict] and [from_list] call each other through the classes of the
    relations; [fuel] bounds how deep the classes nest. *)
Definition relation_cls (c name : string) : option string :=
  match aget name (fields_of registry c) with Some f => f_relation f | None => None end.
Definition attribute_items (v : pyval) : R (list pyval) :=
  match v with
  | PDict d => Ok (map (fun kv => PDict [("key", PStr kv.1); ("value", kv.2)]) d)
  | _ => Raise (Py PyAttributeError)
  end.
(** [_dict.items()], of a dictionary or an object *)
Definition items_of (v : pyval) : option (list (string * pyval)) :=
  match v with
  | PDict d => Some d
  | PObj c _ _ _ => if is_list_class registry c then None else Some (items registry v)
  | _ => None
  end.
Definition is_attribute_list (c : string) : bool :=
  match registry c with Some k => k_attribute_list k | None => false end.
Fixpoint from_dict (fuel : nat) (c : string) (v : pyval) : R pyval :=
  match fuel with
  | O => Raise (Py Blocked)
  | S fuel =>
      let of_list cls l :=
        match registry cls with
        | Some {| k_item := Some item |} =>
            let? instance := new_obj registry cls [] in
            let? items := rmap (from_dict fuel item) l in
            Ok (extend instance items)
        | _ => Raise (Py PyNotImplementedError)
        end in
      let of_value cls w :=
        match w with PList l => of_list cls l | _ => from_dict fuel cls w end in
      if is_attribute_list c then
        let? l := attribute_items v in
        let? instances := of_list c l in of_list c (list_objects instances)
      else
        match items_of v with
        | Some d =>
            let? instance := new_obj registry c [] in
            foldl (fun acc kv =>
                     let? instance := acc in
                     let? w := (match relation_cls c kv.1 with
                                | Some cls => of_value cls kv.2
                                | None => Ok kv.2
                                end) in
                     setattr registry instance kv.1 w)
              (Ok instance) d
        | None => Raise (Py PyAttributeError)
        end
  end.
Definition from_list (fuel : nat) (c : string) (l : list pyval) : R pyval :=
  match registry c with
  | Some {| k_item := Some item |} =>
      let? instance := new_obj registry c [] in
      let? items := rmap (from_dict fuel item) l in
      Ok (extend instance items)
  | _ => Raise (Py PyNotImplementedError)
  end.

(** ** Lemmas *)

Lemma list_objects_with c f ch og l : list_objects (with_objects (PObj c f ch og) l) = l.
Proof. cbn. by rewrite aget_aset_eq. Qed.
Lemma append_changes c f ch og v :
  own_changes (append (PObj c f ch og) v) = ch.
Proof. done. Qed.

(** ** Comprehensions that may fail *)
Lemma rmap_length {A B} (f : A -> R B) l l' : rmap f l = Ok l' -> length l' = length l.
Proof.
  revert l'. induction l as [|x l IH]; intros l'; cbn [rmap]; [by intros [= <-]|].
  destruct (f x); cbn [rbind]; [|done]. destruct (rmap f l) as [ys|]; cbn [rbind]; [|done]. intros [= <-].
  cbn. by rewrite (IH ys).
Qed.
Lemma rmap_Forall2 {A B} (f : A -> R B) l l' : rmap f l = Ok l' -> Forall2 (fun x y => f x = Ok y) l l'.
Proof.
  revert l'. induction l as [|x l IH]; intros l'; cbn [rmap]; [intros [= <-]; constructor|].
  destruct (f x) as [y|] eqn:Hx; cbn [rbind]; [|done]. destruct (rmap f l) as [ys|]; cbn [rbind]; [|done].
  intros [= <-]. constructor; [done|]. by apply IH.
Qed.
Lemma rmap_intro {A B} (f : A -> R B) l l' : Forall2 (fun x y => f x = Ok y) l l' -> rmap f l = Ok l'.
Proof. induction 1 as [|x y l l' Hx _ IH]; cbn [rmap]; [done|]. by rewrite Hx, IH. Qed.
Lemma rmap_ext {A B} (f g : A -> R B) l : (forall x, x ∈ l -> f x = g x) -> rmap f l = rmap g l.
Proof.
  induction l as [|x l IH]; intros Hfg; cbn [rmap]; [done|].
  rewrite Hfg by set_solver. by rewrite IH by set_solver.
Qed.

(** ** Attributes after an assignment *)
Lemma setattr_getattr o k v o' n :
  setattr registry o k v = Ok o' ->
  getattr registry o' n = if String.eqb n k then Ok v else getattr registry o n.
Proof.
  destruct o as [| | | | | |c f ch og]; try done. cbn [setattr].
  destruct (in_FIELDS registry c k) eqn:Hk; cbn [negb]; [|done].
  assert (Hget : forall ch' og', getattr registry (PObj c (aset k v f) ch' og') n =
    if String.eqb n k then Ok v else getattr registry (PObj c f ch og) n).
  { intros ch' og'. cbn [getattr]. rewrite aget_aset. destruct (String.eqb_spec n k) as [->|]; [|done].
    by rewrite Hk. }
  destruct (aget k f); intros [= <-]; apply Hget.
Qed.
