(* ===== verification/World.v ===== *)
(** * The world a request runs in (designate/context.py, designate/policy.py)

    The request context and its policy checks, and the state that the operations
    of central, storage and the workers share: the database, the messages sent to
    other services, the locks held by the thread. What the environment decides
    (the policy rules, the identifiers uuid4 draws, the configuration) is the
    class [Env]. *)
From Stdlib Require Import ZArith Lia String.
From stdpp Require Import base option numbers strings sets list.
From S2P Require Import Prelude PyStr Exceptions Values.
Local Open Scope string_scope.

(** [DesignateContext] *)
Record context := {
  tenant : option string;
  user : option string;
  is_admin : bool;
  roles : list string;
  original_tenant : option string;
  all_tenants : bool;
  abandon : bool;
  edit_managed_records : bool;
  hide_counts : bool;
  show_deleted : bool;
  tsigkey_id : option string;
}.

Definition with_all_tenants (v : bool) (c : context) : context :=
  {| tenant := tenant c; user := user c; is_admin := is_admin c; roles := roles c;
     original_tenant := original_tenant c; all_tenants := v; abandon := abandon c;
     edit_managed_records := edit_managed_records c; hide_counts := hide_counts c;
     show_deleted := show_deleted c; tsigkey_id := tsigkey_id c |}.
Definition with_abandon (v : bool) (c : context) : context :=
  {| tenant := tenant c; user := user c; is_admin := is_admin c; roles := roles c;
     original_tenant := original_tenant c; all_tenants := all_tenants c; abandon := v;
     edit_managed_records := edit_managed_records c; hide_counts := hide_counts c;
     show_deleted := show_deleted c; tsigkey_id := tsigkey_id c |}.
Definition with_edit_managed (v : bool) (c : context) : context :=
  {| tenant := tenant c; user := user c; is_admin := is_admin c; roles := roles c;
     original_tenant := original_tenant c; all_tenants := all_tenants c; abandon := abandon c;
     edit_managed_records := v; hide_counts := hide_counts c;
     show_deleted := show_deleted c; tsigkey_id := tsigkey_id c |}.
Definition with_show_deleted (v : bool) (c : context) : context :=
  {| tenant := tenant c; user := user c; is_admin := is_admin c; roles := roles c;
     original_tenant := original_tenant c; all_tenants := all_tenants c; abandon := abandon c;
     edit_managed_records := edit_managed_records c; hide_counts := hide_counts c;
     show_deleted := v; tsigkey_id := tsigkey_id c |}.
Definition with_admin (c : context) : context :=
  {| tenant := tenant c; user := user c; is_admin := true; roles := app (roles c) ["admin"];
     original_tenant := original_tenant c; all_tenants := all_tenants c; abandon := abandon c;
     edit_managed_records := edit_managed_records c; hide_counts := hide_counts c;
     show_deleted := show_deleted c; tsigkey_id := tsigkey_id c |}.
Definition with_tenant (t original : option string) (c : context) : context :=
  {| tenant := t; user := user c; is_admin := is_admin c; roles := roles c;
     original_tenant := original; all_tenants := all_tenants c; abandon := abandon c;
     edit_managed_records := edit_managed_records c; hide_counts := hide_counts c;
     show_deleted := show_deleted c; tsigkey_id := tsigkey_id c |}.

(** The environment. *)
Class Env := {
  (* the policy rules: rule, context, target *)
  enforce : string -> context -> list (string * pyval) -> bool;
  (* the n-th identifier [uuid.uuid4] draws: its hexadecimal digits. The column type
     UUID takes identifiers with and without dashes for the same, so the model
     leaves the dashes out. *)
  uuid4 : nat -> string;
  (* integer and string options of cfg.CONF *)
  conf_int : string -> Z;
  conf_str : string -> string;
  (* [re.search(pattern, string)], for the patterns operators store; [None] when
     the search takes too long *)
  re_search : string -> string -> option bool;
  (* the option service:central.min_ttl, which has no default *)
  min_ttl : option Z;
  (* [hashlib.md5(data).hexdigest()] *)
  md5_hex : string -> string;
}.

(** A message sent to another service, or a notification emitted. *)
Inductive message :=
| Cast (target method : string) (args : list pyval)
| Notify (event_type : string) (payload : list pyval).

(** The other services: the answer to the last message of the log. *)
Class Services := {
  reply : list message -> R pyval;
}.

Abbreviation row := (list (string * pyval)).
Abbreviation db := (list (string * list row)).

Record world := {
  w_db : db;
  w_uuids : nat;                    (* how many identifiers were drawn *)
  w_now : Z;                        (* the clock, in seconds *)
  w_sent : list message;            (* oldest first *)
  w_zone_locks : list string;       (* zones locked by any thread *)
  w_held : list string;             (* ZONE_LOCKS.held of this thread *)
  w_tx : list db;                   (* the open transactions: the database each began with *)
  w_doomed : bool;                  (* a nested rollback has happened *)
  w_retry_held : bool;              (* RETRY_STATE.held of this thread *)
  w_retries : nat;                  (* RETRY_STATE.retries *)
  w_nstack : nat;                   (* NOTIFICATION_BUFFER.stack *)
  w_nqueue : list message;          (* NOTIFICATION_BUFFER.queue, left end first *)
}.

Definition set_db (d : db) (w : world) : world :=
  {| w_db := d; w_uuids := w_uuids w; w_now := w_now w; w_sent := w_sent w; w_zone_locks :=
     w_zone_locks w; w_held := w_held w; w_tx := w_tx w; w_doomed := w_doomed w; w_retry_held
     := w_retry_held w; w_retries := w_retries w; w_nstack := w_nstack w; w_nqueue := w_nqueue
     w |}.
Definition set_uuids (n : nat) (w : world) : world :=
  {| w_db := w_db w; w_uuids := n; w_now := w_now w; w_sent := w_sent w; w_zone_locks :=
     w_zone_locks w; w_held := w_held w; w_tx := w_tx w; w_doomed := w_doomed w; w_retry_held
     := w_retry_held w; w_retries := w_retries w; w_nstack := w_nstack w; w_nqueue := w_nqueue
     w |}.
Definition set_sent (l : list message) (w : world) : world :=
  {| w_db := w_db w; w_uuids := w_uuids w; w_now := w_now w; w_sent := l; w_zone_locks :=
     w_zone_locks w; w_held := w_held w; w_tx := w_tx w; w_doomed := w_doomed w; w_retry_held
     := w_retry_held w; w_retries := w_retries w; w_nstack := w_nstack w; w_nqueue := w_nqueue
     w |}.
Definition set_locks (all : list string) (held : list string) (w : world) : world :=
  {| w_db := w_db w; w_uuids := w_uuids w; w_now := w_now w; w_sent := w_sent w;
     w_zone_locks := all; w_held := held; w_tx := w_tx w; w_doomed := w_doomed w; w_retry_held
     := w_retry_held w; w_retries := w_retries w; w_nstack := w_nstack w; w_nqueue := w_nqueue
     w |}.
Definition set_tx (d : db) (tx : list db) (doomed : bool) (w : world) : world :=
  {| w_db := d; w_uuids := w_uuids w; w_now := w_now w; w_sent := w_sent w; w_zone_locks :=
     w_zone_locks w; w_held := w_held w; w_tx := tx; w_doomed := doomed; w_retry_held :=
     w_retry_held w; w_retries := w_retries w; w_nstack := w_nstack w; w_nqueue := w_nqueue w
     |}.
Definition set_retry (held : bool) (n : nat) (w : world) : world :=
  {| w_db := w_db w; w_uuids := w_uuids w; w_now := w_now w; w_sent := w_sent w;
     w_zone_locks := w_zone_locks w; w_held := w_held w; w_tx := w_tx w; w_doomed := w_doomed
     w; w_retry_held := held; w_retries := n; w_nstack := w_nstack w; w_nqueue := w_nqueue w
     |}.
Definition set_buffer (n : nat) (q : list message) (w : world) : world :=
  {| w_db := w_db w; w_uuids := w_uuids w; w_now := w_now w; w_sent := w_sent w;
     w_zone_locks := w_zone_locks w; w_held := w_held w; w_tx := w_tx w; w_doomed := w_doomed
     w; w_retry_held := w_retry_held w; w_retries := w_retries w; w_nstack := n; w_nqueue := q
     |}.

Section Context.
Context `{Env}.

(** [policy.check(rule, context, target)], raising Forbidden. *)
Definition check (rule : string) (c : context) (target : list (string * pyval)) : R unit :=
  if enforce rule c target then Ok tt else Raise (Forbidden F_Base).

(** The setters of the context: a flag is raised only if policy allows it. *)
Definition set_all_tenants (v : bool) (c : context) : R context :=
  let? _ := if v then check "all_tenants" c [] else Ok tt in Ok (with_all_tenants v c).
Definition set_abandon (v : bool) (c : context) : R context :=
  let? _ := if v then check "abandon_zone" c [] else Ok tt in Ok (with_abandon v c).
Definition set_edit_managed (v : bool) (c : context) : R context :=
  let? _ := if v then check "edit_managed_records" c [] else Ok tt in Ok (with_edit_managed v c).

(** [deepcopy]: the constructor runs the setters again. *)
Definition ctx_deepcopy (c : context) : R context :=
  let c0 := with_all_tenants false (with_abandon false (with_edit_managed false c)) in
  let? c1 := set_all_tenants (all_tenants c) c0 in
  let? c2 := set_abandon (abandon c) c1 in
  set_edit_managed (edit_managed_records c) c2.

(** [elevated]; [None] for [show_deleted] keeps it. *)
Definition elevated (show : option bool) (all edit : bool) (c : context) : R context :=
  let? c1 := ctx_deepcopy c in
  let c2 := with_admin c1 in
  let c3 := match show with Some v => with_show_deleted v c2 | None => c2 end in
  let? c4 := if all then set_all_tenants true c3 else Ok c3 in
  if edit then set_edit_managed true c4 else Ok c4.

(** [sudo] *)
Definition sudo (t : option string) (c : context) : R context :=
  let? _ := check "use_sudo" c [] in Ok (with_tenant t (tenant c) c).

(** [get_admin_context(all_tenants=...)]; the policy check runs in the
    constructor. *)
Definition get_admin_context (all : bool) : R context :=
  set_all_tenants all
    {| tenant := None; user := None; is_admin := true; roles := ["admin"];
       original_tenant := None; all_tenants := false; abandon := false;
       edit_managed_records := false; hide_counts := false; show_deleted := false;
       tsigkey_id := None |}.

(** [utils.generate_uuid()] *)
Definition generate_uuid : P world string :=
  let! n := gets w_uuids in
  modify (set_uuids (S n)) ;;; ret (uuid4 n).
(** [timeutils.utcnow_ts()], which also stands for [utcnow()]. *)
Definition utcnow : P world Z := gets w_now.
(** [rpcapi.<method>(args)] *)
Definition send (m : message) : P world unit :=
  modify (fun w => set_sent (app (w_sent w) [m]) w).

(** A call of another service and its answer. *)
Definition call `{Services} (target method : string) (args : list pyval) : P world pyval :=
  send (Cast target method args) ;;; let! said := gets w_sent in lift (reply said).

(** A context can see all tenants, or act on managed records, only if the
    policy allowed it: whatever copies and elevations produced the context, the
    flag is raised only in a context whose rule was enforced. *)
Theorem elevated_checked show all edit c c' :
  elevated show all edit c = Ok c' ->
  (all_tenants c' = true -> exists c0, enforce "all_tenants" c0 [] = true) /\
  (edit_managed_records c' = true -> exists c0, enforce "edit_managed_records" c0 [] = true) /\
  is_admin c' = true /\ "admin" ∈ roles c' /\ tenant c' = tenant c /\
  (all_tenants c = true -> all_tenants c' = true).
Proof.
  unfold elevated, ctx_deepcopy, set_all_tenants, set_abandon, set_edit_managed, check.
  destruct c as [t u a r o [] [] [] h s k]; cbn.
  all: repeat (case_match; cbn; try discriminate); intros [= <-]; cbn.
  all: split_and!; try done; try (intros _; eexists; eassumption); try set_solver.
Qed.
End Context.

(** Services whose failures [except Exception] catches. *)
Class LiveServices `{Services} := { reply_comes : forall h e, reply h = Raise e -> caught e }.
#[export] Instance call_catchable `{LiveServices} target method args : Catchable (call target method args).
Proof.
  intros w e w' Hrun. pose proof (f_equal fst Hrun) as Hr. cbn in Hr. by apply reply_comes in Hr.
Qed.

Definition open_env : Env :=
  {| enforce := fun _ _ _ => true; uuid4 := fun n => str_of_Z (Z.of_nat n);
     conf_int := fun _ => 0%Z; conf_str := fun s => s; re_search := fun _ _ => Some false; min_ttl := None;
     md5_hex := fun s => s |}.
Lemma elevated_checked_witness :
  exists c', @elevated open_env None true false
    {| tenant := Some "t"; user := None; is_admin := false; roles := []; original_tenant := None;
       all_tenants := false; abandon := false; edit_managed_records := false; hide_counts := false;
       show_deleted := false; tsigkey_id := None |} = Ok c' /\
  exists c0, @enforce open_env "all_tenants" c0 [] = true.
Proof.
  eexists. split; [vm_compute; reflexivity|].
  exact (proj1 (@elevated_checked open_env None true false
    {| tenant := Some "t"; user := None; is_admin := false; roles := []; original_tenant := None;
       all_tenants := false; abandon := false; edit_managed_records := false; hide_counts := false;
       show_deleted := false; tsigkey_id := None |} _ eq_refl) eq_refl).
Defined.
