(* ===== verification/Decorators.v ===== *)
(** * The decorators of the service methods
      (designate/storage/__init__.py, designate/central/service.py)

    [retry] and [transaction] wrap the methods that write to the database;
    [synchronized_zone] admits one operation per zone; [notification] queues what
    the outermost call emits. A decorated method is a computation over its
    arguments, which [retry] deep-copies for each attempt. *)
From Stdlib Require Import ZArith Lia Ascii String.
From stdpp Require Import base option numbers strings sets list.
From S2P Require Import Prelude PyStr Exceptions Values Objects Classes World.
Local Open Scope string_scope.

(** ** [retry] *)

(** [_retry_on_deadlock] *)
Definition _retry_on_deadlock (e : exc) : bool := bool_decide (e = Py DBDeadlock).

Section Retry.
Context {A : Type}.
(** [cb], and the number of attempts. *)
Variable cb : exc -> bool.
Variable retries : nat.

(** The loop of the outermost wrapper; [fuel] bounds the attempts that are left,
    and [retries] attempts are enough. *)
Fixpoint retry_loop (fuel : nat) (attempt : P world A) : P world A := fun w =>
  match attempt w with
  | (Ok a, w1) => (Ok a, w1)
  | (Raise e, w1) =>
      let w2 := set_retry (w_retry_held w1) (S (w_retries w1)) w1 in
      if (retries <=? w_retries w2)%nat then (Raise e, w2)
      else if negb (cb e) then (Raise e, w2)
      else match fuel with
           | O => (Raise (Py Blocked), w2)
           | S fuel' => retry_loop fuel' attempt w2
           end
  end.

Definition retry (f : list pyval -> P world A) (args : list pyval) : P world A := fun w =>
  let attempt := f (map (deepcopy registry) args) in
  if w_retry_held w then attempt w
  else match retry_loop retries attempt (set_retry true (w_retries w) w) with
       | (r, w1) => (r, set_retry false 0 w1)
       end.
End Retry.

(** ** [transaction] *)

(** The session: a subtransaction remembers the database the outermost one began
    with; a nested rollback restores it and makes the enclosing commits fail. *)
Definition begin : P world unit := fun w =>
  let start := match w_tx w with d :: _ => d | [] => w_db w end in
  (Ok tt, set_tx (w_db w) (start :: w_tx w) (w_doomed w) w).
Definition commit : P world unit := fun w =>
  if w_doomed w then (Raise (Py InvalidRequest), w)
  else (Ok tt, set_tx (w_db w) (tail (w_tx w)) false w).
Definition rollback : P world unit := fun w =>
  match w_tx w with
  | [] => (Ok tt, w)
  | d :: rest => (Ok tt, set_tx d rest (match rest with [] => false | _ => true end) w)
  end.

Definition transaction_wrapper {A} (f : list pyval -> P world A) (args : list pyval) : P world A :=
  fun w =>
  match bind begin (fun _ => bind (f args) (fun a => bind commit (fun _ => ret a))) w with
  | (Ok a, w1) => (Ok a, w1)
  | (Raise e, w1) => (Raise e, (rollback w1).2)
  end.
Definition transaction {A} (f : list pyval -> P world A) (args : list pyval) : P world A :=
  retry _retry_on_deadlock 50 (transaction_wrapper f) args.

(** ** [synchronized_zone] *)

(** The identifier an argument gives, by the class of the argument. *)
Definition zone_id_of_arg (arg : pyval) : pyval :=
  match arg with
  | PObj c _ _ _ =>
      if String.eqb c "Zone" then match getattr registry arg "id" with Ok v => v | _ => PNone end
      else if mem_str c ["RecordSet"; "Record"; "ZoneTransferRequest"; "ZoneTransferAccept"]
      then match getattr registry arg "zone_id" with Ok v => v | _ => PNone end
      else PNone
  | _ => PNone
  end.
Fixpoint first_zone_id (args : list pyval) : pyval :=
  match args with
  | [] => PNone
  | a :: rest => match zone_id_of_arg a with PNone => first_zone_id rest | v => v end
  end.
(** The zone a call operates on, from its positional arguments after the
    context; the default [zone_arg=1] is the first of them. *)
Definition zone_id_of (args : list pyval) : pyval :=
  match first_zone_id args with
  | PNone => match args with
             | PObj c f ch og :: _ =>
                 if String.eqb c "Zone" then zone_id_of_arg (PObj c f ch og) else PObj c f ch og
             | v :: _ => v
             | [] => PNone
             end
  | v => v
  end.
(** ['%s' % zone_id], the name of the lock. *)
Definition lock_name (v : pyval) : string :=
  match v with PStr s => s | PInt z => str_of_Z z | _ => "None" end.

Definition remove_name (n : string) (l : list string) : list string :=
  filter (fun x => x <> n) l.
(** [with lockutils.lock(name)]: the lock is released however the body ends. *)
Definition with_lock {A} (name : string) (m : P world A) : P world A := fun w =>
  if mem_str name (w_zone_locks w) then (Raise (Py Blocked), w)
  else match m (set_locks (name :: w_zone_locks w) (w_held w) w) with
       | (r, w1) => (r, set_locks (remove_name name (w_zone_locks w1)) (w_held w1) w1)
       end.

Definition synchronized_zone {A} (new_zone : bool) (f : list pyval -> P world A)
    (args : list pyval) : P world A :=
  let zone_id := zone_id_of args in
  if negb new_zone && match zone_id with PNone => true | _ => false end
  then raise (Py PyException)
  else
    let! held := gets w_held in
    if mem_str (lock_name zone_id) held then f args
    else with_lock (lock_name zone_id)
      (modify (fun w => set_locks (w_zone_locks w) (lock_name zone_id :: w_held w) w) ;;;
       let! result := f args in
       modify (fun w => set_locks (w_zone_locks w) (remove_name (lock_name zone_id) (w_held w)) w) ;;;
       ret result).

(** ** [notification] *)
Section Notification.
(** The payloads the configured plugin makes of a result. *)
Variable payloads : string -> pyval -> list pyval -> list pyval.

Definition notification (notification_type : string) (f : list pyval -> P world pyval)
    (args : list pyval) : P world pyval := fun w =>
  let w0 := set_buffer (S (w_nstack w)) (w_nqueue w) w in
  let '(r, w1) :=
    match f args w0 with
    | (Ok result, w1) =>
        let queue := foldl (fun q p => Notify notification_type [p] :: q) (w_nqueue w1)
                       (payloads notification_type result args) in
        (Ok result, set_buffer (w_nstack w1) queue w1)
    | (Raise e, w1) => (Raise e, w1)
    end in
  (* finally *)
  let stack := pred (w_nstack w1) in
  let w2 := set_buffer stack (w_nqueue w1) w1 in
  (r, if (stack =? 0)%nat
      then set_buffer stack [] (set_sent (app (w_sent w2) (w_nqueue w2)) w2)
      else w2).
End Notification.
(** The default plugin emits the result. *)
Definition default_payloads (notification_type : string) (result : pyval) (args : list pyval) :
    list pyval := [result].

(** ** Retries *)
Section Retry_facts.
Context {A : Type}.
Variables (cb : exc -> bool) (attempt : P world A).

(** [k] attempts fail, each with an exception to retry on. *)
Inductive failing : nat -> world -> world -> Prop :=
| failing_0 w : failing 0 w w
| failing_S k w w1 w' e :
    attempt w = (Raise e, w1) -> cb e = true ->
    failing k (set_retry (w_retry_held w1) (S (w_retries w1)) w1) w' -> failing (S k) w w'.

(** An attempt leaves the state of the wrapper alone. *)
Hypothesis attempt_retries : forall w r w1, w_retry_held w = true -> attempt w = (r, w1) ->
  w_retries w1 = w_retries w /\ w_retry_held w1 = true.

Lemma retry_loop_ends retries fuel w r w' :
  w_retry_held w = true -> (w_retries w + fuel = retries)%nat -> (0 < fuel)%nat ->
  retry_loop cb retries fuel attempt w = (r, w') ->
  exists k w0 w1, (k < fuel)%nat /\ failing k w w0 /\ w_retry_held w0 = true /\ attempt w0 = (r, w1) /\
    match r with
    | Ok _ => w' = w1
    | Raise e => (cb e = false \/ S k = fuel) /\ w' = set_retry (w_retry_held w1) (S (w_retries w1)) w1
    end.
Proof.
  revert w. induction fuel as [|fuel IH]; intros w Hheld Hw Hpos; [lia|].
  cbn [retry_loop]. destruct (attempt w) as [[a|e] w1] eqn:Ha.
  - intros [= <- <-]. exists 0%nat, w, w1. split_and!; [lia|constructor|done..].
  - destruct (attempt_retries _ _ _ Hheld Ha) as [Hr Hh1].
    set (w2 := set_retry (w_retry_held w1) (S (w_retries w1)) w1).
    assert (Hw2 : w_retries w2 = S (w_retries w)) by (cbn; by rewrite Hr).
    destruct (Nat.leb_spec retries (w_retries w2)) as [Hle|Hlt].
    { intros [= <- <-]. exists 0%nat, w, w1.
      split_and!; [lia|constructor|done|done| |done..]. right. lia. }
    destruct (cb e) eqn:Hcb; cbn [negb].
    + intros Hrun. destruct (IH w2 Hh1 ltac:(lia) ltac:(lia) Hrun) as (k & w0 & w3 & Hk & Hf & Hh0 & Hr3 & Hres).
      exists (S k), w0, w3. split_and!; [lia|by eapply failing_S|done|done|].
      destruct r as [a|e']; [done|]. destruct Hres as [[?|?] ?]; split; [by left|done|right; lia|done].
    + intros [= <- <-]. exists 0%nat, w, w1.
      split_and!; [lia|constructor|done|done|by left|done..].
Qed.
Lemma retry_loop_spec retries fuel w r w' :
  w_retry_held w = true -> (w_retries w + fuel = retries)%nat -> (0 < fuel)%nat ->
  retry_loop cb retries fuel attempt w = (r, w') ->
  exists k w0 w1, (k < fuel)%nat /\ failing k w w0 /\ w_retry_held w0 = true /\ attempt w0 = (r, w1) /\
    match r with
    | Ok _ => w' = w1
    | Raise e => (cb e = false \/ S k = fuel) /\ w_db w' = w_db w1 /\ w_tx w' = w_tx w1 /\
                 w_doomed w' = w_doomed w1
    end.
Proof.
  intros H1 H2 H3 H4. destruct (retry_loop_ends _ _ _ _ _ H1 H2 H3 H4) as (k & w0 & w1 & Hk & Hf & Hh & Ha & Hr).
  exists k, w0, w1. split_and!; [done..|]. destruct r; [done|]. by destruct Hr as [? ->].
Qed.
End Retry_facts.

(** The decorators' own state is as it was: the open transactions and, inside an
    outer [retry], its counters. *)
Definition same_session (w w' : world) : Prop :=
  w_tx w' = w_tx w /\
  (w_retry_held w = true -> w_retries w' = w_retries w /\ w_retry_held w' = true).
Lemma same_session_refl w : same_session w w.
Proof. done. Qed.
Lemma same_session_trans w1 w2 w3 : same_session w1 w2 -> same_session w2 w3 -> same_session w1 w3.
Proof.
  intros [T1 R1] [T2 R2]. split; [congruence|]. intros Hh. destruct (R1 Hh) as [H1 H2].
  destruct (R2 H2) as [-> H4]. done.
Qed.
Class Balanced {A} (m : P world A) : Prop :=
  balanced_session : forall w r w', m w = (r, w') -> same_session w w'.
#[local] Hint Resolve same_session_refl : core.

(** What is built of balanced steps is balanced. *)
#[export] Instance reads_balanced {A} (m : P world A) : Reads m -> Balanced m | 5.
Proof. by intros Hm w r w' ->%Hm. Qed.
#[export] Instance bind_balanced {A B} (m : P world A) (f : A -> P world B) :
  Balanced m -> (forall a, Balanced (f a)) -> Balanced (bind m f).
Proof.
  intros Hm Hf w r w'. unfold bind. destruct (m w) as [[a|e] w1] eqn:Hw; apply Hm in Hw.
  - intros H%Hf. by eapply same_session_trans.
  - by intros [= _ <-].
Qed.
Lemma try_except_balanced {A} (m : P world A) h :
  Balanced m -> (forall e k, h e = Some k -> Balanced k) -> Balanced (try_except m h).
Proof.
  intros Hm Hh w r w'. unfold try_except. destruct (m w) as [[a|e] w1] eqn:Hw; apply Hm in Hw.
  - by intros [= _ <-].
  - destruct (h e) as [k|] eqn:Hk; [|by intros [= _ <-]]. intros H.
    eapply same_session_trans; [exact Hw|exact (Hh _ _ Hk _ _ _ H)].
Qed.
#[export] Instance try_on_balanced {A} (m k : P world A) e :
  Balanced m -> Balanced k -> Balanced (try_except m (on e k)).
Proof.
  intros Hm Hk. apply try_except_balanced; [done|]. unfold on. intros e' k'.
  by case_bool_decide; intros [= <-].
Qed.
#[export] Instance try_except_exception_balanced {A} (m : P world A) k :
  Balanced m -> (forall e, Balanced (k e)) -> Balanced (try_except m (except_exception k)).
Proof.
  intros Hm Hk. apply try_except_balanced; [done|]. unfold except_exception. intros e k'.
  repeat case_match; intros [= <-]; apply Hk.
Qed.
Lemma try_else_balanced {A B} (m : P world A) (h : exc -> option (P world B)) k :
  Balanced m -> (forall e k, h e = Some k -> Balanced k) -> (forall a, Balanced (k a)) ->
  Balanced (try_else m h k).
Proof.
  intros Hm Hh Hk w r w'. unfold try_else. destruct (m w) as [[a|e] w1] eqn:Hw; apply Hm in Hw.
  - intros H%Hk. by eapply same_session_trans.
  - destruct (h e) as [k'|] eqn:Hhe; [|by intros [= _ <-]]. intros H.
    eapply same_session_trans; [exact Hw|exact (Hh _ _ Hhe _ _ _ H)].
Qed.
#[export] Instance set_db_balanced (f : world -> db) : Balanced (modify (fun w => set_db (f w) w)).
Proof. by intros w r w' [= _ <-]. Qed.
#[export] Instance set_locks_balanced (f g : world -> list string) :
  Balanced (modify (fun w => set_locks (f w) (g w) w)).
Proof. by intros w r w' [= _ <-]. Qed.
#[export] Instance send_balanced m : Balanced (send m).
Proof. by intros w r w' [= _ <-]. Qed.
#[export] Instance generate_uuid_balanced `{Env} : Balanced generate_uuid.
Proof. by intros w r w' [= _ <-]. Qed.
#[export] Instance if_balanced {A} (c : bool) (m1 m2 : P world A) :
  Balanced m1 -> Balanced m2 -> Balanced (if c then m1 else m2).
Proof. by destruct c. Qed.
#[export] Instance when_balanced c (m : P world unit) : Balanced m -> Balanced (when c m).
Proof. intros. unfold when. apply _. Qed.
#[export] Instance mmap_balanced {A B} (f : A -> P world B) l :
  (forall a, Balanced (f a)) -> Balanced (mmap f l).
Proof. intros Hf. induction l; cbn; apply _. Qed.
#[export] Instance mfor_balanced {A} (f : A -> P world unit) l :
  (forall a, Balanced (f a)) -> Balanced (mfor l f).
Proof. intros Hf. induction l; cbn; apply _. Qed.
#[export] Instance mfold_balanced {A B} (f : B -> A -> P world B) l b :
  (forall b a, Balanced (f b a)) -> Balanced (mfold l b f).
Proof. intros Hf. revert b. induction l; intros b; cbn; apply _. Qed.

(** Balance by structure. *)
Ltac balanced :=
  repeat lazymatch goal with
  | |- Balanced (bind _ _) => apply bind_balanced; [|intros]
  | |- Balanced (when _ _) => apply when_balanced
  | |- Balanced (mmap _ _) => apply mmap_balanced; intros
  | |- Balanced (mfor _ _) => apply mfor_balanced; intros
  | |- Balanced (mfold _ _ _) => apply mfold_balanced; intros
  | |- Balanced (try_except _ (on _ _)) => apply try_on_balanced
  | |- Balanced (match _ with _ => _ end) => case_match
  | |- Balanced _ => apply _
  end.

(** Nested transactions compose: a decorated method is balanced when its body
    is. *)
Lemma transaction_wrapper_balanced {A} (f : list pyval -> P world A) args :
  (forall args, Balanced (f args)) -> Balanced (transaction_wrapper f args).
Proof.
  intros Hb w r w'. unfold transaction_wrapper, begin, commit, rollback, bind, ret.
  destruct (f args _) as [r1 w1] eqn:Hf. destruct (Hb _ _ _ _ Hf) as [Ht Hr]. cbn in Ht, Hr.
  destruct r1; [destruct (w_doomed w1)|]; cbn; rewrite ?Ht; cbn; by intros [= <- <-].
Qed.
Lemma retry_loop_tx {A} cb retries fuel (attempt : P world A) w r w' :
  Balanced attempt -> retry_loop cb retries fuel attempt w = (r, w') -> w_tx w' = w_tx w.
Proof.
  intros Hb. revert w. induction fuel as [|fuel IH]; intros w; cbn [retry_loop];
    destruct (attempt w) as [[a|e] w1] eqn:Ha; destruct (Hb _ _ _ Ha) as [Ht _]; try (by intros [= <- <-]).
  - repeat case_match; by intros [= <- <-].
  - case_match; [by intros [= <- <-]|]. case_match; [by intros [= <- <-]|]. intros Hr%IH. by rewrite Hr.
Qed.
#[export] Instance transaction_balanced {A} (f : list pyval -> P world A) args :
  (forall args, Balanced (f args)) -> Balanced (transaction f args).
Proof.
  intros Hb. unfold transaction. intros w r w'. unfold retry.
  set (attempt := transaction_wrapper f (map (deepcopy registry) args)).
  assert (Ha : Balanced attempt) by (by apply transaction_wrapper_balanced).
  destruct (w_retry_held w) eqn:Hh; [intros Hr; exact (Ha _ _ _ Hr)|].
  destruct (retry_loop _ _ _ _ _) as [r1 w1] eqn:Hrun. intros [= <- <-].
  split; [exact (retry_loop_tx _ _ _ _ _ _ _ Ha Hrun)|congruence].
Qed.

Section Transaction.
Context {A : Type} (f : list pyval -> P world A).
Hypothesis f_balanced : forall args, Balanced (f args).

(** One attempt of an outermost transaction. *)
Lemma wrapper_outermost args w r w' :
  w_tx w = [] -> w_doomed w = false -> transaction_wrapper f args w = (r, w') ->
  w_tx w' = [] /\ w_doomed w' = false /\
  match r with Ok _ => True | Raise _ => w_db w' = w_db w end.
Proof.
  intros Htx Hd. unfold transaction_wrapper, begin, commit, rollback, bind, ret. rewrite Htx.
  set (w0 := set_tx (w_db w) [w_db w] (w_doomed w) w).
  destruct (f args w0) as [r1 w1] eqn:Hf.
  destruct (f_balanced _ _ _ _ Hf) as [Ht1 Hr1]. cbn in Ht1, Hr1. destruct r1 as [a|e].
  - destruct (w_doomed w1) eqn:Hd1.
    + rewrite Ht1. intros [= <- <-]. by split_and!.
    + rewrite Ht1. intros [= <- <-]. by split_and!.
  - rewrite Ht1. intros [= <- <-]. by split_and!.
Qed.

Lemma failing_outermost cb args k w w' :
  failing cb (transaction_wrapper f args) k w w' -> w_tx w = [] -> w_doomed w = false ->
  w_tx w' = [] /\ w_doomed w' = false /\ w_db w' = w_db w.
Proof.
  induction 1 as [w|k w w1 w' e Ha _ _ IH]; [done|]. intros Htx Hd.
  destruct (wrapper_outermost _ _ _ _ Htx Hd Ha) as (Ht1 & Hd1 & Hdb).
  destruct (IH Ht1 Hd1) as (H1 & H2 & H3). split_and!; [done..|]. rewrite H3. exact Hdb.
Qed.

(** How an outermost transaction runs. *)
Lemma transaction_spec args w r w' :
  w_tx w = [] -> w_doomed w = false -> w_retry_held w = false -> w_retries w = 0%nat ->
  transaction f args w = (r, w') ->
  w_tx w' = [] /\ w_doomed w' = false /\ w_retry_held w' = false /\ w_retries w' = 0%nat /\
  exists k w0 w1, (k < 50)%nat /\ w_db w0 = w_db w /\ w_db w1 = w_db w' /\
    failing _retry_on_deadlock (transaction_wrapper f (map (deepcopy registry) args)) k
      (set_retry true 0 w) w0 /\
    transaction_wrapper f (map (deepcopy registry) args) w0 = (r, w1) /\
    match r with
    | Ok _ => True
    | Raise e => w_db w' = w_db w /\ (e <> Py DBDeadlock \/ k = 49%nat)
    end.
Proof.
  intros Htx Hd Hh Hr. unfold transaction, retry. rewrite Hh, Hr.
  set (attempt := transaction_wrapper f (map (deepcopy registry) args)).
  destruct (retry_loop _ 50 50 attempt (set_retry true 0 w)) as [r1 w2] eqn:Hrun.
  intros [= <- <-].
  assert (Hatt : forall w r w1, w_retry_held w = true -> attempt w = (r, w1) ->
                   w_retries w1 = w_retries w /\ w_retry_held w1 = true).
  { intros v r0 v1 Hv Ha. exact (proj2 (transaction_wrapper_balanced f _ f_balanced _ _ _ Ha) Hv). }
  destruct (retry_loop_spec _ _ Hatt 50 50 (set_retry true 0 w) _ _ eq_refl eq_refl ltac:(lia) Hrun)
    as (k & w0 & w1 & Hk & Hf & _ & Hlast & Hres).
  destruct (failing_outermost _ _ _ _ _ Hf Htx Hd) as (Ht0 & Hd0 & Hdb0).
  destruct (wrapper_outermost _ _ _ _ Ht0 Hd0 Hlast) as (Ht1 & Hd1 & Hdb1).
  cbn in Hdb0. destruct r1 as [a|e].
  - subst w2. split_and!; try done. exists k, w0, w1. by split_and!.
  - destruct Hres as (Hcb & Hw1 & Hw2 & Hw3). cbn. rewrite Hw2, Hw3.
    split_and!; try done. exists k, w0, w1. rewrite Hw1. split_and!; try done.
    + congruence.
    + destruct Hcb as [Hcb|Hcb]; [left|right; lia].
    intros ->. discriminate Hcb.
Qed.
(** The short form: it changes nothing, or its body returned. *)
Lemma transaction_outermost args w r w' :
  w_tx w = [] -> w_doomed w = false -> w_retry_held w = false -> w_retries w = 0%nat ->
  transaction f args w = (r, w') ->
  match r with
  | Raise _ => w_db w' = w_db w
  | Ok a => exists v v', w_db v = w_db w /\ f (map (deepcopy registry) args) v = (Ok a, v') /\ w_db w' = w_db v'
  end.
Proof.
  intros Htx Hd Hh Hr Hrun.
  destruct (transaction_spec _ _ _ _ Htx Hd Hh Hr Hrun)
    as (_ & _ & _ & _ & k & w0 & w1 & _ & Hdb0 & Hdb1 & _ & Hlast & Hres).
  destruct r as [a|e]; [|exact (proj1 Hres)]. unfold transaction_wrapper in Hlast.
  destruct (bind begin _ w0) as [[a'|e] w2] eqn:Hb; [|done]. injection Hlast as -> ->.
  apply bind_Ok in Hb as (u & v & Hbegin & Hb). apply bind_Ok in Hb as (a' & v' & Hbody & Hb).
  apply bind_Ok in Hb as (u' & v2 & Hcommit & Hret). injection Hret as -> ->. injection Hbegin as _ <-.
  eexists _, v'. split_and!; [|exact Hbody|]; [exact Hdb0|]. rewrite <- Hdb1.
  unfold commit in Hcommit. destruct (w_doomed v'); [done|]. by injection Hcommit as _ <-.
Qed.

(** The calls of the body itself, told without the wrappers: it gets copies of the arguments
    and finds the database as it is, with one transaction open; [ended] is the world that the
    last call left, with the database [d] and everything of the decorators put back. *)
Definition call_body (args : list pyval) (v : world) : res exc A * world :=
  f (map (deepcopy registry) args) (set_tx (w_db v) [w_db v] false v).
Definition ended (d : db) (v : world) : world := set_retry false 0 (set_tx d [] false v).
Inductive deadlocks (args : list pyval) : nat -> world -> world -> Prop :=
| deadlocks_0 w : deadlocks args 0 w w
| deadlocks_S k w v w' :
    call_body args w = (Raise (Py DBDeadlock), v) ->
    deadlocks args k (set_retry true (S (w_retries v)) (set_tx (w_db w) [] false v)) w' -> deadlocks args (S k) w w'.

Lemma wrapper_call args w : w_tx w = [] -> w_doomed w = false -> w_retry_held w = true ->
  exists v, call_body args w = ((call_body args w).1, v) /\ w_retry_held v = true /\
    transaction_wrapper f (map (deepcopy registry) args) w =
    match (call_body args w).1 with
    | Ok a => if w_doomed v then (Raise (Py InvalidRequest), set_tx (w_db w) [] false v) else (Ok a, set_tx (w_db v) [] false v)
    | Raise e => (Raise e, set_tx (w_db w) [] false v)
    end.
Proof.
  intros Htx Hd Hh. unfold transaction_wrapper, call_body, begin, commit, rollback, bind, ret. rewrite Htx, Hd.
  destruct (f _ _) as [r1 v] eqn:Hf. exists v. destruct (f_balanced _ _ _ _ Hf) as [Ht Hr]. cbn in Ht, Hr.
  split_and!; [done|by apply Hr|]. cbn [fst]. destruct r1; [destruct (w_doomed v)|]; by rewrite Ht.
Qed.
Lemma failing_deadlocks args k w w' :
  failing _retry_on_deadlock (transaction_wrapper f (map (deepcopy registry) args)) k w w' ->
  w_tx w = [] -> w_doomed w = false -> w_retry_held w = true ->
  deadlocks args k w w' /\ w_tx w' = [] /\ w_doomed w' = false /\ w_retry_held w' = true.
Proof.
  induction 1 as [w|k w w1 w' e Ha Hcb _ IH]; intros Htx Hd Hh; [by split; [constructor|]|].
  assert (e = Py DBDeadlock) as -> by (by apply bool_decide_eq_true in Hcb).
  destruct (wrapper_call args w Htx Hd Hh) as (v & Hv & Hhv & Hw). rewrite Hw in Ha. clear Hw.
  destruct (call_body args w).1 as [a|e]; [destruct (w_doomed v); discriminate|]. injection Ha as -> <-.
  cbn in IH. rewrite Hhv in IH. destruct (IH eq_refl eq_refl eq_refl) as [IH1 IH2]. split; [|done]. by eapply deadlocks_S.
Qed.

(** C1: a transaction is all or nothing, and bounded. Called outside any other
    transaction, a decorated method calls its body at most fifty times, each time on copies
    of the arguments and on the database as it was before the call; all calls but the last
    raised a deadlock. When the last one returns, so does the method, and the database is the
    one the body left, with all its changes; but when an inner transaction was rolled back on
    the way and the body went on regardless, the commit is refused and the database is the one
    before the call. When the last one raises, the method raises the same, which was no
    deadlock or the fiftieth, and the database is the one before the call. All else is as the
    last call of the body left it, and no transaction or retry stays open. *)
Theorem transaction_atomic args w r w' :
  w_tx w = [] -> w_doomed w = false -> w_retry_held w = false -> w_retries w = 0%nat ->
  transaction f args w = (r, w') ->
  exists k w0 v, (k < 50)%nat /\ deadlocks args k (set_retry true 0 w) w0 /\ w_db w0 = w_db w /\
    call_body args w0 = ((call_body args w0).1, v) /\
    match (call_body args w0).1 with
    | Ok a => if w_doomed v then r = Raise (Py InvalidRequest) /\ w' = ended (w_db w) v else r = Ok a /\ w' = ended (w_db v) v
    | Raise e => r = Raise e /\ w' = ended (w_db w) v /\ (e <> Py DBDeadlock \/ k = 49%nat)
    end.
Proof.
  intros Htx Hd Hh Hr. unfold transaction, retry. rewrite Hh, Hr.
  set (attempt := transaction_wrapper f (map (deepcopy registry) args)).
  destruct (retry_loop _ 50 50 attempt (set_retry true 0 w)) as [r1 w2] eqn:Hrun. intros [= <- <-].
  assert (Hatt : forall w r w1, w_retry_held w = true -> attempt w = (r, w1) ->
                   w_retries w1 = w_retries w /\ w_retry_held w1 = true).
  { intros v r0 v1 Hv Ha. exact (proj2 (transaction_wrapper_balanced f _ f_balanced _ _ _ Ha) Hv). }
  destruct (retry_loop_ends _ _ Hatt 50 50 (set_retry true 0 w) _ _ eq_refl eq_refl ltac:(lia) Hrun)
    as (k & w0 & w1 & Hk & Hf & _ & Hlast & Hres).
  destruct (failing_outermost _ _ _ _ _ Hf Htx Hd) as (_ & _ & Hdb0).
  destruct (failing_deadlocks _ _ _ _ Hf Htx Hd eq_refl) as (Hdl & Ht0 & Hd0 & Hh0).
  destruct (wrapper_call args w0 Ht0 Hd0 Hh0) as (v & Hv & Hhv & Hw). fold attempt in Hw. rewrite Hw, Hdb0 in Hlast.
  exists k, w0, v. split_and!; [done..|]. destruct (call_body args w0).1 as [a|e].
  - destruct (w_doomed v); injection Hlast as <- <-; [by destruct Hres as [_ ->]|by rewrite Hres].
  - injection Hlast as <- <-. destruct Hres as [Hcb ->]. split_and!; [done..|].
    destruct Hcb as [Hcb|Hcb]; [left; by intros ->|right; lia].
Qed.
End Transaction.

#[export] Instance with_lock_balanced {A} name (m : P world A) : Balanced m -> Balanced (with_lock name m).
Proof.
  intros Hm w r w'. unfold with_lock. destruct (mem_str _ _); [by intros [= _ <-]|].
  destruct (m _) as [r1 w1] eqn:Hr. apply Hm in Hr. by intros [= _ <-].
Qed.
#[export] Instance synchronized_zone_balanced {A} new_zone (f : list pyval -> P world A) args :
  (forall args, Balanced (f args)) -> Balanced (synchronized_zone new_zone f args).
Proof.
  intros Hf. unfold synchronized_zone. case_match; [apply _|]. apply bind_balanced; [apply _|intros held].
  apply if_balanced; [apply _|]. apply with_lock_balanced, bind_balanced; [apply _|intros _].
  apply bind_balanced; [apply _|intros a]. apply bind_balanced; [apply _|intros _]. apply _.
Qed.
#[export] Instance notification_balanced payloads ty f args :
  (forall args, Balanced (f args)) -> Balanced (notification payloads ty f args).
Proof.
  intros Hf w r w'. unfold notification. destruct (f args _) as [[a|e] w1] eqn:Hr; apply Hf in Hr; cbn;
    case_match; by intros [= _ <-].
Qed.

(** ** Locks *)
Section Locks.
Context {A : Type} (f : list pyval -> P world A).
(** The body releases the locks it takes. *)
Hypothesis f_locks : forall args w r w', f args w = (r, w') ->
  w_zone_locks w' = w_zone_locks w /\ w_held w' = w_held w.

Lemma remove_cons n l : n ∉ l -> remove_name n (n :: l) = l.
Proof.
  intros Hn. unfold remove_name. rewrite filter_cons, decide_False by naive_solver.
  induction l as [|x l IH]; [done|]. rewrite filter_cons, decide_True, IH; set_solver.
Qed.

(** One operation per zone. A call on a zone that no thread holds runs its
    body while the zone is locked, and releases the lock at the end, however the
    body ends; a call on a zone another thread has locked waits. But when the
    body raises, the zone stays in the thread's own set of held zones, and every
    later call of that thread on the zone runs without taking the lock, even
    while another thread holds it. *)
Theorem synchronized_zone_spec new_zone args z w :
  zone_id_of args = PStr z -> z ∉ w_held w ->
  let body := f args (set_locks (z :: w_zone_locks w) (z :: w_held w) w) in
  let run := synchronized_zone new_zone f args in
  (z ∈ w_zone_locks w -> run w = (Raise (Py Blocked), w)) /\
  (z ∉ w_zone_locks w ->
     (run w).1 = body.1 /\
     w_zone_locks (run w).2 = w_zone_locks w /\ w_db (run w).2 = w_db body.2 /\
     match body.1 with
     | Ok _ => w_held (run w).2 = w_held w
     | Raise _ => w_held (run w).2 = z :: w_held w /\
         forall other, w_held other = w_held (run w).2 -> run other = f args other
     end).
Proof.
  intros Hz Hnot body run. unfold run, synchronized_zone. rewrite Hz. cbn [lock_name].
  rewrite andb_false_r. unfold gets, bind at 1. cbn.
  assert (Hm : mem_str z (w_held w) = false).
  { destruct (mem_str z (w_held w)) eqn:Hm; [|done]. by apply mem_str_elem in Hm. }
  rewrite Hm. unfold with_lock. split.
  - intros Hin. by rewrite (proj2 (mem_str_elem _ _) Hin).
  - intros Hout.
    assert (Hl : mem_str z (w_zone_locks w) = false).
    { destruct (mem_str z (w_zone_locks w)) eqn:Hl; [|done]. by apply mem_str_elem in Hl. }
    rewrite Hl. unfold bind, modify, ret. cbn.
    change (set_locks (z :: w_zone_locks w) (z :: w_held w)
              (set_locks (z :: w_zone_locks w) (w_held w) w))
      with (set_locks (z :: w_zone_locks w) (z :: w_held w) w).
    subst body. destruct (f args (set_locks (z :: w_zone_locks w) (z :: w_held w) w)) as [r w1] eqn:Hf.
    destruct (f_locks _ _ _ _ Hf) as [Hl1 Hh1]. cbn in Hl1, Hh1.
    destruct r as [a|e]; cbn; rewrite Hl1, Hh1, remove_cons by done; [split_and!; try done; by apply remove_cons|].
    split_and!; try done. intros other Ho.
    rewrite Ho. cbn. by rewrite String.eqb_refl.
Qed.
End Locks.

(** ** Notifications *)

(** Notifications leave in reverse. Around a body that queued some messages,
    the outermost call sends its own notification first and then the queued ones,
    newest first, although they are meant to go out in order; when the body
    raises, the messages it had queued are sent all the same. A nested call sends
    nothing and only queues. *)
Theorem notification_order ty f args w r w1 :
  f args (set_buffer (S (w_nstack w)) (w_nqueue w) w) = (r, w1) -> w_nstack w1 = S (w_nstack w) ->
  let w' := (notification default_payloads ty f args w).2 in
  let own := match r with Ok result => [Notify ty [result]] | Raise _ => [] end in
  (notification default_payloads ty f args w).1 = r /\
  w_nstack w' = w_nstack w /\ w_db w' = w_db w1 /\
  (w_nstack w = 0%nat -> w_sent w' = app (w_sent w1) (app own (w_nqueue w1)) /\ w_nqueue w' = []) /\
  (w_nstack w <> 0%nat -> w_sent w' = w_sent w1 /\ w_nqueue w' = app own (w_nqueue w1)).
Proof.
  intros Hf Hs. unfold notification, default_payloads. rewrite Hf.
  destruct r as [a|e]; cbn; rewrite Hs; cbn; destruct (w_nstack w); cbn; split_and!; try done.
Qed.

(** ** The theorems at concrete methods *)

Definition plain_world (d : db) : world :=
  {| w_db := d; w_uuids := 0; w_now := 1000; w_sent := []; w_zone_locks := []; w_held := [];
     w_tx := []; w_doomed := false; w_retry_held := false; w_retries := 0;
     w_nstack := 0; w_nqueue := [] |}.
(** A method that writes and then finds a deadlock. *)
Definition deadlocking (args : list pyval) : P world unit :=
  modify (set_db [("zones", [])]) ;;; raise (Py DBDeadlock).
Lemma deadlocking_balanced args : Balanced (deadlocking args).
Proof. intros w r w'. unfold deadlocking, modify, bind, raise. by intros [= <- <-]. Qed.

(** A method that writes and returns. *)
Definition writing (args : list pyval) : P world nat := modify (set_db [("zones", [])]) ;;; ret 7.
Lemma writing_balanced args : Balanced (writing args).
Proof. intros w r w'. unfold writing, modify, bind, ret. by intros [= <- <-]. Qed.

Lemma transaction_atomic_witness :
  (exists w', transaction deadlocking [] (plain_world []) = (Raise (Py DBDeadlock), w') /\ w_db w' = []) /\
  (exists w', transaction writing [] (plain_world []) = (Ok 7, w') /\ w_db w' = [("zones", [])]).
Proof.
  split.
  - assert (Hr : (transaction deadlocking [] (plain_world [])).1 = Raise (Py DBDeadlock)) by (vm_compute; reflexivity).
    destruct (transaction deadlocking [] (plain_world [])) as [r w'] eqn:Hrun. cbn [fst] in Hr. subst r. exists w'. split; [reflexivity|].
    destruct (transaction_atomic deadlocking deadlocking_balanced [] (plain_world []) _ w'
      eq_refl eq_refl eq_refl eq_refl Hrun) as (k & w0 & v & _ & _ & _ & _ & H).
    cbn [call_body deadlocking bind modify raise fst] in H. destruct H as (_ & -> & _). reflexivity.
  - assert (Hr : (transaction writing [] (plain_world [])).1 = Ok 7) by (vm_compute; reflexivity).
    destruct (transaction writing [] (plain_world [])) as [r w'] eqn:Hrun. cbn [fst] in Hr. subst r. exists w'. split; [reflexivity|].
    destruct (transaction_atomic writing writing_balanced [] (plain_world []) _ w'
      eq_refl eq_refl eq_refl eq_refl Hrun) as (k & w0 & v & _ & _ & _ & Hc & H).
    cbn in Hc. injection Hc as <-. cbn in H. destruct H as [_ ->]. reflexivity.
Defined.

Definition failing_method (args : list pyval) : P world unit := raise (Py PyException).
Lemma synchronized_zone_spec_witness :
  let w' := (synchronized_zone false failing_method [PStr "z1"] (plain_world [])).2 in
  w_held w' = ["z1"] /\
  synchronized_zone false failing_method [PStr "z1"] (set_locks ["z1"] (w_held w') w') =
  failing_method [PStr "z1"] (set_locks ["z1"] (w_held w') w').
Proof.
  assert (Hf : forall args w r w', failing_method args w = (r, w') ->
            w_zone_locks w' = w_zone_locks w /\ w_held w' = w_held w).
  { by intros args w r w' [= <- <-]. }
  destruct (synchronized_zone_spec failing_method Hf false [PStr "z1"] "z1" (plain_world [])
    eq_refl ltac:(apply not_elem_of_nil)) as [_ H].
  destruct (H ltac:(apply not_elem_of_nil)) as (_ & _ & _ & Hheld & Hrun).
  split; [exact Hheld|]. apply Hrun. reflexivity.
Defined.

Definition quiet_method (args : list pyval) : P world pyval := ret (PStr "done").
Definition outer_method (args : list pyval) : P world pyval :=
  notification default_payloads "a" quiet_method args ;;;
  notification default_payloads "b" quiet_method args ;;; ret PNone.
Lemma notification_order_witness :
  w_sent (notification default_payloads "c" outer_method [] (plain_world [])).2 =
  [Notify "c" [PNone]; Notify "b" [PStr "done"]; Notify "a" [PStr "done"]].
Proof.
  destruct (notification_order "c" outer_method [] (plain_world []) (Ok PNone)
    (outer_method [] (set_buffer 1 [] (plain_world []))).2 eq_refl eq_refl)
    as (_ & _ & _ & H & _).
  destruct (H eq_refl) as [Hs _]. rewrite Hs. reflexivity.
Defined.
