(* ===== verification/Sql.v ===== *)
(** * The generic storage operations (designate/sqlalchemy/base.py, utils.py)

    [_create], [_find], [_update], [_delete] and what they build their queries
    from: criteria, tenant and soft-delete filters, version increments, ordering
    and pagination. A query is a syntax tree; the database engine decides only how
    two values compare and what LIKE matches, and is the class [SqlEngine]. *)
From Stdlib Require Import ZArith Lia Ascii String Sorting.Permutation.
From stdpp Require Import base option numbers strings sets list.
From S2P Require Import Prelude PyStr Exceptions Values Objects Classes World.
Local Open Scope string_scope.

(** ** Tables and queries *)

(** Where an insert takes a column that is not given from. *)
Inductive col_default :=
| DConst (v : pyval)
| DConf (option : string)
| DUuid
| DNow
| DShard (id_col : string).

Record table := {
  t_name : string;
  t_columns : list (string * option col_default);
  t_onupdate : list string;          (* columns set to the clock by an UPDATE *)
  t_unique : list (list string);     (* unique constraints beside the key *)
}.
Definition has_column (t : table) (c : string) : bool := mem_str c (t_columns t).*1.

Inductive sql_op := OEq | ONe | OLe | OLt | OGe | OGt.
Inductive clause :=
| Cmp (col : string) (op : sql_op) (v : pyval)
| Like (col : string) (pattern : string)
| Between (col : string) (lo hi : pyval)
| In (col : string) (vs : list pyval)
| IsNull (col : string)
| AnyOf (cs : list clause)
| AllOf (cs : list clause).

Record query := {
  q_where : list clause;
  q_order : list (string * bool);    (* column, ascending *)
  q_limit : option Z;
}.
Definition select_all : query := {| q_where := []; q_order := []; q_limit := None |}.
Definition where_ (q : query) (c : clause) : query :=
  {| q_where := app (q_where q) [c]; q_order := q_order q; q_limit := q_limit q |}.

(** How the database compares values and matches patterns. *)
Class SqlEngine := {
  collate : pyval -> pyval -> comparison;
  like : string -> string -> bool;   (* pattern, text *)
}.

Section Engine.
Context `{SqlEngine}.

Definition cell (r : row) (c : string) : pyval := default PNone (aget c r).
Definition compare_op (op : sql_op) (v w : pyval) : bool :=
  match v, w with
  | PNone, _ | _, PNone => false
  | _, _ =>
      match op, collate v w with
      | OEq, Eq | OLe, Eq | OGe, Eq | OLe, Lt | OLt, Lt | ONe, Lt
      | OGe, Gt | OGt, Gt | ONe, Gt => true
      | _, _ => false
      end
  end.
Fixpoint holds (r : row) (c : clause) : bool :=
  match c with
  | Cmp n op v => compare_op op (cell r n) v
  | Like n p => match cell r n with PStr s => like p s | _ => false end
  | Between n lo hi => compare_op OGe (cell r n) lo && compare_op OLe (cell r n) hi
  | In n vs => existsb (compare_op OEq (cell r n)) vs
  | IsNull n => match cell r n with PNone => true | _ => false end
  | AnyOf cs => existsb (holds r) cs
  | AllOf cs => forallb (holds r) cs
  end.
Definition selects (q : query) (r : row) : bool := forallb (holds r) (q_where q).

(** ORDER BY: a stable sort on the keys. *)
Fixpoint key_le (order : list (string * bool)) (a b : row) : bool :=
  match order with
  | [] => true
  | (c, asc) :: rest =>
      match collate (cell a c) (cell b c) with
      | Eq => key_le rest a b
      | Lt => asc
      | Gt => negb asc
      end
  end.
Fixpoint insert_row (order : list (string * bool)) (r : row) (l : list row) : list row :=
  match l with
  | [] => [r]
  | x :: l' => if key_le order r x then r :: l else x :: insert_row order r l'
  end.
Definition order_rows (order : list (string * bool)) (l : list row) : list row :=
  foldr (insert_row order) [] l.
Definition run (q : query) (rows : list row) : list row :=
  let sorted := order_rows (q_order q) (filter (fun r => selects q r = true) rows) in
  match q_limit q with Some n => take (Z.to_nat n) sorted | None => sorted end.
End Engine.

(** ** Building queries *)

(** [column == value]: SQLAlchemy writes IS NULL for None. *)
Definition col_eq (c : string) (v : pyval) : clause :=
  match v with PNone => IsNull c | _ => Cmp c OEq v end.

Definition percent : ascii := "%"%char.
Definition strip_spaces : string -> string := strip (Ascii.eqb " ").

(** The clause [_apply_criterion] adds for one entry of the criterion. *)
Definition criterion_clause (name : string) (value : pyval) : R clause :=
  match value with
  | PStr s =>
      if has_char percent s then Ok (Like name s)
      else if startswith "!" s then Ok (Cmp name ONe (PStr (sdrop 1 s)))
      else if startswith "<=" s then Ok (Cmp name OLe (PStr (sdrop 2 s)))
      else if startswith "<" s then Ok (Cmp name OLt (PStr (sdrop 1 s)))
      else if startswith ">=" s then Ok (Cmp name OGe (PStr (sdrop 2 s)))
      else if startswith ">" s then Ok (Cmp name OGt (PStr (sdrop 1 s)))
      else if startswith "BETWEEN" s then
        let '(_, found, range) := partition_char " " s in
        if negb found then Raise (Py PyIndexError)
        else match map strip_spaces (split_char "," (strip_spaces range)) with
             | lo :: hi :: _ => Ok (Between name (PStr lo) (PStr hi))
             | _ => Raise (Py PyIndexError)
             end
      else Ok (Cmp name OEq value)
  | PList vs => Ok (In name vs)
  | _ => Ok (col_eq name value)
  end.

Fixpoint _apply_criterion (t : table) (q : query) (criterion : list (string * pyval)) : R query :=
  match criterion with
  | [] => Ok q
  | (name, value) :: rest =>
      if negb (has_column t name) then Raise (Py PyAttributeError)
      else let? c := criterion_clause name value in
           _apply_criterion t (where_ q c) rest
  end.

Definition tenant_val (c : context) : pyval :=
  match tenant c with Some t => PStr t | None => PNone end.
Definition _apply_tenant_criteria (ctx : context) (t : table) (q : query)
    (include_null_tenant : bool) : query :=
  if has_column t "tenant_id" && negb (all_tenants ctx) then
    let own := col_eq "tenant_id" (tenant_val ctx) in
    where_ q (if include_null_tenant then AnyOf [own; IsNull "tenant_id"] else own)
  else q.

Definition _apply_deleted_criteria (ctx : context) (t : table) (q : query) : query :=
  if has_column t "deleted" && negb (show_deleted ctx)
  then where_ q (Cmp "deleted" OEq (PStr "0")) else q.

(** [sort_query]; every key is sorted in the same direction. *)
Fixpoint sort_query (t : table) (q : query) (sort_keys : list string) (sort_dir : string) : R query :=
  match sort_keys with
  | [] => Ok q
  | k :: rest =>
      if negb (mem_str sort_dir ["asc"; "desc"]) then Raise (Py PyValueError)
      else if negb (has_column t k) then Raise (BadRequest InvalidSortKey)
      else sort_query t
             {| q_where := q_where q;
                q_order := app (q_order q) [(k, String.eqb sort_dir "asc")];
                q_limit := q_limit q |} rest sort_dir
  end.

(** The rows after the marker: for some key, equal to it on the keys before and
    past it on that key. *)
Fixpoint after_marker (sort_keys : list string) (prefix : list clause) (op : sql_op)
    (marker : row) : list clause :=
  match sort_keys with
  | [] => []
  | k :: rest =>
      AllOf (app prefix [Cmp k op (cell marker k)]) ::
      after_marker rest (app prefix [col_eq k (cell marker k)]) op marker
  end.

(** [paginate_query]; [limit] is [PNone] for no limit. *)
Definition paginate_query (t : table) (q : query) (limit : pyval) (sort_keys : list string)
    (marker : option row) (sort_dir : string) : R query :=
  let? q := sort_query t q sort_keys sort_dir in
  let q := match marker with
           | Some m => where_ q (AnyOf (after_marker sort_keys []
                                          (if String.eqb sort_dir "desc" then OLt else OGt) m))
           | None => q
           end in
  match limit with
  | PNone => Ok q
  | _ => let? n := Utils.int_of_val limit in
         Ok {| q_where := q_where q; q_order := q_order q; q_limit := Some n |}
  end.

(** ** Executing statements *)
Section Session.
Context `{Env} `{SqlEngine}.

Definition rows_of (d : db) (t : table) : list row := default [] (aget (t_name t) d).
Definition set_rows (t : table) (rows : list row) (d : db) : db := aset (t_name t) rows d.

(** SELECT *)
Definition execute_select (t : table) (q : query) : P world (list row) :=
  let! d := gets w_db in ret (run q (rows_of d t)).

(** [default_shard]: the first three hexadecimal digits of an identifier. *)
Definition hex_digit (c : ascii) : Z :=
  let n := Z.of_nat (nat_of_ascii c) in
  if (n <=? 57)%Z then (n - 48)%Z else (n - 87)%Z.
Definition default_shard (id : string) : Z :=
  foldl (fun acc c => acc * 16 + hex_digit c)%Z 0%Z (list_ascii_of_string (stake 3 id)).

(** A default may depend on the values given and on the defaults before it. *)
Definition default_value (d : option col_default) (r : row) : P world pyval :=
  match d with
  | None => ret PNone
  | Some (DConst v) => ret v
  | Some (DConf o) => ret (PInt (conf_int o))
  | Some DUuid => let! u := generate_uuid in ret (PStr u)
  | Some DNow => let! n := utcnow in ret (PInt n)
  | Some (DShard c) =>
      match cell r c with PStr id => ret (PInt (default_shard id)) | _ => raise (Py PyTypeError) end
  end.
(** The row an INSERT stores: the given values, and the defaults of the rest. *)
Fixpoint fill (cols : list (string * option col_default)) (values r : row) : P world row :=
  match cols with
  | [] => ret r
  | (c, d) :: rest =>
      let! v := match aget c values with Some v => ret v | None => default_value d (app values r) end in
      fill rest values (app r [(c, v)])
  end.

(** Two rows clash on a unique constraint when all its columns are equal. *)
Definition clash (r r' : row) (cols : list string) : bool :=
  forallb (fun c => compare_op OEq (cell r c) (cell r' c)) cols.
Definition violates (t : table) (r : row) (others : list row) : bool :=
  existsb (fun r' => existsb (clash r r') (["id"] :: t_unique t)) others.

(** INSERT: the key of the new row. *)
Definition execute_insert (t : table) (values : row) : P world pyval :=
  let! r := fill (t_columns t) values [] in
  let! d := gets w_db in
  if violates t r (rows_of d t) then raise (Py DBDuplicateEntry)
  else modify (fun w => set_db (set_rows t (app (rows_of d t) [r]) d) w) ;;; ret (cell r "id").

(** UPDATE: assigns the values, then the columns with an onupdate function that
    were not given; the number of rows matched. *)
Definition assign (t : table) (values : row) (incr : bool) (now : Z) (r : row) : row :=
  let r := aupdate r values in
  let r := if incr then
             match cell r "version" with PInt n => aset "version" (PInt (n + 1)) r | _ => r end
           else r in
  foldl (fun r c => if mem_str c values.*1 then r else aset c (PInt now) r) r (t_onupdate t).
Fixpoint update_rows (t : table) (f : row -> row) (p : row -> bool) (before rows : list row) :
    R (list row * nat) :=
  match rows with
  | [] => Ok ([], O)
  | r :: rest =>
      if p r then
        let r' := f r in
        if violates t r' (app before rest) then Raise (Py DBDuplicateEntry)
        else let? '(l, n) := update_rows t f p (app before [r']) rest in Ok (r' :: l, S n)
      else let? '(l, n) := update_rows t f p (app before [r]) rest in Ok (r :: l, n)
  end.
Definition execute_update (t : table) (q : query) (values : row) (incr : bool) : P world nat :=
  let! now := utcnow in
  let! d := gets w_db in
  let! '(rows, n) := lift (update_rows t (assign t values incr now) (selects q) [] (rows_of d t)) in
  modify (fun w => set_db (set_rows t rows d) w) ;;; ret n.

(** DELETE: the number of rows deleted. *)
Definition execute_delete (t : table) (q : query) : P world nat :=
  let! d := gets w_db in
  let rows := rows_of d t in
  let keep := filter (fun r => selects q r = false) rows in
  modify (fun w => set_db (set_rows t keep d) w) ;;;
  ret (length rows - length keep)%nat.
End Session.

(** ** Objects and rows *)
Section Crud.
Context `{Env} `{SqlEngine}.

(** [_set_object_from_model], without extra values. *)
Fixpoint load_columns (names : list string) (model : row) (o : pyval) : R pyval :=
  match names with
  | [] => Ok o
  | n :: rest =>
      match aget n model with
      | Some v => let? o' := setattr registry o n v in load_columns rest model o'
      | None => load_columns rest model o
      end
  end.
Definition class_of (o : pyval) : string := match o with PObj c _ _ _ => c | _ => "" end.
(** A deleted row is refetched as None, which has no columns. *)
Definition _set_object_from_model (o : pyval) (model : option row) : R pyval :=
  let? o' := match model with
             | Some m => load_columns (fields_of registry (class_of o)).*1 m o
             | None => Ok o
             end in
  Ok (obj_reset_changes o' []).
(** [_set_listobject_from_models] *)
Definition _set_listobject_from_models (list_cls cls : string) (models : list row) : R pyval :=
  let? l := rmap (fun m => _set_object_from_model (PObj cls [] [] []) (Some m)) models in
  Ok (PObj list_cls [("objects", PList l)] [] []).

Definition by_id (id : pyval) : query := where_ select_all (col_eq "id" id).
Definition without (skip : list string) (values : row) : row :=
  foldl (fun acc n => adel n acc) values skip.

(** [_create] *)
Definition _create (t : table) (obj : pyval) (exc_dup : exc) (skip_values : list string)
    (extra_values : row) : P world pyval :=
  let! values := lift (obj_get_changes registry obj) in
  let values := aupdate (without skip_values values) extra_values in
  let! key := try_except (execute_insert t values) (on (Py DBDuplicateEntry) (raise exc_dup)) in
  let! rows := execute_select t (by_id key) in
  lift (_set_object_from_model obj (head rows)).

(** [_update] *)
Definition _update (ctx : context) (t : table) (obj : pyval) (exc_dup exc_notfound : exc)
    (skip_values : list string) : P world pyval :=
  let! values := lift (obj_get_changes registry obj) in
  let values := without skip_values values in
  let! id := lift (getattr registry obj "id") in
  let q := _apply_tenant_criteria ctx t (by_id id) true in
  let q := _apply_deleted_criteria ctx t q in
  let! n := try_except (execute_update t q values (has_column t "version"))
              (on (Py DBDuplicateEntry) (raise exc_dup)) in
  raise_if (negb (n =? 1)%nat) exc_notfound ;;;
  let! rows := execute_select t (by_id id) in
  lift (_set_object_from_model obj (head rows)).

(** [_delete] *)
Definition _delete (ctx : context) (t : table) (obj : pyval) (exc_notfound : exc)
    (hard_delete : bool) : P world pyval :=
  let! id := lift (getattr registry obj "id") in
  if has_column t "deleted" && negb hard_delete then
    let! now := utcnow in
    match id with
    | PStr s =>
        let! obj := lift (update registry obj
                      [("deleted", PStr (replace "-" "" s)); ("deleted_at", PInt now);
                       ("action", PStr "NONE"); ("status", PStr "DELETED")]) in
        _update ctx t obj (Py PyTypeError) exc_notfound []
    | _ => raise (Py PyAttributeError)
    end
  else
    let q := _apply_tenant_criteria ctx t (by_id id) true in
    let q := _apply_deleted_criteria ctx t q in
    let! n := execute_delete t q in
    raise_if (negb (n =? 1)%nat) exc_notfound ;;;
    let! rows := execute_select t (by_id id) in
    lift (_set_object_from_model obj (head rows)).

(** [check_marker] *)
Definition check_marker (t : table) (marker : pyval) : P world row :=
  let! rows := execute_select t (by_id marker) in
  match rows with
  | m :: _ => ret m
  | [] => raise (BadRequest MarkerNotFound)
  end.

Record page := { p_marker : pyval; p_limit : pyval; p_sort_key : pyval; p_sort_dir : pyval }.
Definition no_page : page :=
  {| p_marker := PNone; p_limit := PNone; p_sort_key := PNone; p_sort_dir := PNone |}.
(** [sort_key or default] *)
Definition or_str (v : pyval) (d : string) : string :=
  match v with PStr s => if String.eqb s "" then d else s | _ => d end.

(** The query of [_find], before execution. *)
Definition find_query (ctx : context) (t : table) (base : query)
    (criterion : list (string * pyval)) (apply_tenant : bool) : R query :=
  let? q := _apply_criterion t base criterion in
  let q := if apply_tenant then _apply_tenant_criteria ctx t q true else q in
  Ok (_apply_deleted_criteria ctx t q).

(** [_find(one=True)] *)
Definition _find_one (ctx : context) (t : table) (cls : string) (exc_notfound : exc)
    (criterion : list (string * pyval)) (apply_tenant : bool) : P world pyval :=
  let! q := lift (find_query ctx t select_all criterion apply_tenant) in
  let! results := execute_select t
    {| q_where := q_where q; q_order := q_order q; q_limit := Some 2%Z |} in
  match results with
  | [r] => lift (_set_object_from_model (PObj cls [] [] []) (Some r))
  | _ => raise exc_notfound
  end.

(** A ValueError while the page is computed is raised as the program's own. *)
Definition value_error (e : exc) : exc :=
  if bool_decide (e = Py PyValueError) then BadRequest DesignateValueError else e.
Definition mapped_errors {A} (r : R A) : R A :=
  match r with Raise e => Raise (value_error e) | Ok a => Ok a end.

(** [_find(one=False)] *)
Definition _find (ctx : context) (t : table) (cls list_cls : string)
    (criterion : list (string * pyval)) (pg : page) (apply_tenant : bool) : P world pyval :=
  let sort_key := or_str (p_sort_key pg) "created_at" in
  let sort_dir := or_str (p_sort_dir pg) "asc" in
  let! q := lift (find_query ctx t select_all criterion apply_tenant) in
  let! marker := match p_marker pg with
                 | PNone => ret None
                 | m => let! r := check_marker t m in ret (Some r)
                 end in
  let! q := lift (mapped_errors (paginate_query t q (p_limit pg) [sort_key; "id"] marker sort_dir)) in
  let! results := execute_select t q in
  lift (_set_listobject_from_models list_cls cls results).

(** [select([func.count(table.c.id)])] with the same filters. *)
Definition count_where (t : table) (q : query) : P world Z :=
  let! rows := execute_select t q in ret (Z.of_nat (length rows)).
Definition _count (ctx : context) (t : table) (criterion : list (string * pyval)) : P world Z :=
  let! q := lift (find_query ctx t select_all criterion true) in
  count_where t q.
End Crud.
