(* ===== verification/SqlFacts.v ===== *)
(** * What the generic storage operations guarantee

    The laws of the database engine ([SqlLaws]) with a reference engine that
    satisfies them; what the criteria select; isolation of tenants; the frame of
    updates; completeness of pagination. *)
From Stdlib Require Import ZArith Lia Ascii String Sorting.Permutation.
From stdpp Require Import base option numbers strings sets list.
From S2P Require Import Prelude PyStr Exceptions Values Objects Classes World Sql.
Local Open Scope string_scope.

(** What the program relies on: values compare by a total preorder that tells
    strings and integers apart. *)
Class SqlLaws `{SqlEngine} := {
  collate_opp : forall a b, collate b a = CompOpp (collate a b);
  collate_trans : forall c a b d, collate a b = c -> collate b d = c -> collate a d = c;
  collate_Eq : forall a b d, collate a b = Eq -> collate a d = collate b d;
  collate_str : forall s t, collate (PStr s) (PStr t) = Eq <-> s = t;
  collate_int : forall x y, collate (PInt x) (PInt y) = (x ?= y)%Z;
}.

(** ** What a query selects *)
(** ** Attributes of an object of a given class *)

Definition is_obj (cls : string) (o : pyval) : Prop := exists f ch og, o = PObj cls f ch og.
Definition fields_of_obj (o : pyval) : list (string * pyval) :=
  match o with PObj _ f _ _ => f | _ => [] end.

(** An attribute that is no relation can always be read. *)
Lemma getattr_plain cls o n :
  is_obj cls o -> in_FIELDS registry cls n = true -> is_relation registry cls n = false ->
  getattr registry o n = Ok (cell (fields_of_obj o) n).
Proof.
  intros (f & ch & og & ->) Hin Hrel. cbn. rewrite Hin. cbn. unfold cell.
  destruct (aget n f); [done|]. by rewrite Hrel.
Qed.

Lemma setattr_field cls o n v :
  is_obj cls o -> in_FIELDS registry cls n = true ->
  exists o', setattr registry o n v = Ok o' /\ is_obj cls o' /\
    fields_of_obj o' = aset n v (fields_of_obj o).
Proof.
  intros (f & ch & og & ->) Hin. cbn. rewrite Hin. cbn.
  destruct (aget n f); eexists; (split; [reflexivity|]); (split; [by do 3 eexists|done]).
Qed.

Section Queries.
Context `{Env} `{SqlEngine}.

Lemma selects_where q c r : selects (where_ q c) r = selects q r && holds r c.
Proof. unfold selects, where_. cbn. rewrite forallb_app. cbn. by rewrite andb_true_r. Qed.

(** The rows a criterion describes. *)
Definition matches (criterion : list (string * pyval)) (r : row) : bool :=
  forallb (fun kv => match criterion_clause kv.1 kv.2 with
                     | Ok c => holds r c
                     | Raise _ => false
                     end) criterion.
(** The rows a context may see. *)
Definition tenant_ok (ctx : context) (t : table) (r : row) : bool :=
  negb (has_column t "tenant_id" && negb (all_tenants ctx)) ||
  (holds r (col_eq "tenant_id" (tenant_val ctx)) || holds r (IsNull "tenant_id")).
Definition live (ctx : context) (t : table) (r : row) : bool :=
  negb (has_column t "deleted" && negb (show_deleted ctx)) || holds r (Cmp "deleted" OEq (PStr "0")).

Lemma apply_criterion_spec t q criterion q' :
  _apply_criterion t q criterion = Ok q' ->
  q_order q' = q_order q /\ q_limit q' = q_limit q /\
  forall r, selects q' r = selects q r && matches criterion r.
Proof.
  revert q. induction criterion as [|[n v] criterion IH]; intros q; cbn.
  - intros [= <-]. split_and!; [done..|]. intros r. by rewrite andb_true_r.
  - destruct (has_column t n); cbn; [|done].
    destruct (criterion_clause n v) as [c|]; cbn; [|done].
    intros (Ho & Hl & Hs)%IH. split_and!; [exact Ho|exact Hl|].
    intros r. rewrite Hs, selects_where. by rewrite andb_assoc.
Qed.

Lemma apply_tenant_spec ctx t q r :
  selects (_apply_tenant_criteria ctx t q true) r = selects q r && tenant_ok ctx t r.
Proof.
  unfold _apply_tenant_criteria, tenant_ok.
  destruct (has_column t "tenant_id" && negb (all_tenants ctx)); [|by rewrite andb_true_r].
  rewrite selects_where. cbn. by rewrite orb_false_r.
Qed.

Lemma apply_deleted_spec ctx t q r :
  selects (_apply_deleted_criteria ctx t q) r = selects q r && live ctx t r.
Proof.
  unfold _apply_deleted_criteria, live.
  destruct (has_column t "deleted" && negb (show_deleted ctx)); [|by rewrite andb_true_r].
  by rewrite selects_where.
Qed.

Lemma apply_tenant_plain ctx t q b :
  q_order (_apply_tenant_criteria ctx t q b) = q_order q /\
  q_limit (_apply_tenant_criteria ctx t q b) = q_limit q.
Proof. unfold _apply_tenant_criteria. by destruct (_ && _). Qed.
Lemma apply_deleted_plain ctx t q :
  q_order (_apply_deleted_criteria ctx t q) = q_order q /\
  q_limit (_apply_deleted_criteria ctx t q) = q_limit q.
Proof. unfold _apply_deleted_criteria. by destruct (_ && _). Qed.

(** The rows a find with this context and criterion may return. *)
Definition wanted (ctx : context) (t : table) (criterion : list (string * pyval))
    (apply_tenant : bool) (r : row) : bool :=
  matches criterion r && (negb apply_tenant || tenant_ok ctx t r) && live ctx t r.

Lemma find_query_spec ctx t criterion at_ q :
  find_query ctx t select_all criterion at_ = Ok q ->
  q_order q = [] /\ q_limit q = None /\ forall r, selects q r = wanted ctx t criterion at_ r.
Proof.
  unfold find_query. destruct (_apply_criterion t select_all criterion) as [q1|] eqn:Hc;
    cbn [rbind]; [|done]. intros [= <-].
  apply apply_criterion_spec in Hc as (Ho & Hl & Hs).
  destruct (apply_deleted_plain ctx t
    (if at_ then _apply_tenant_criteria ctx t q1 true else q1)) as [-> ->].
  destruct (apply_tenant_plain ctx t q1 true) as [Ho' Hl'].
  cbn in Ho, Hl. split_and!; [destruct at_; congruence..|].
  intros r. rewrite apply_deleted_spec. unfold wanted. f_equal.
  destruct at_; [rewrite apply_tenant_spec|]; rewrite Hs; cbn; by rewrite ?andb_true_r.
Qed.

Lemma order_rows_nil l : order_rows [] l = l.
Proof. unfold order_rows. induction l as [|r l IH]; [done|]. cbn. rewrite IH. by destruct l. Qed.

Lemma insert_row_perm order r l : Permutation (insert_row order r l) (r :: l).
Proof.
  induction l as [|x l IH]; [done|]. cbn. destruct (key_le order r x); [done|].
  rewrite IH. apply perm_swap.
Qed.
Lemma order_rows_perm order l : Permutation (order_rows order l) l.
Proof.
  unfold order_rows. induction l as [|r l IH]; [done|]. cbn. by rewrite insert_row_perm, IH.
Qed.

Lemma filter_ext_bool (f g : row -> bool) (l : list row) :
  (forall r, f r = g r) -> filter (fun r => f r = true) l = filter (fun r => g r = true) l.
Proof. intros Hfg. apply list_filter_iff. intros r. by rewrite Hfg. Qed.

(** [_find_one] in one equation: exactly one wanted row, or the exception. *)
Lemma find_one_eq ctx t cls nf criterion at_ w :
  is_Some (match find_query ctx t select_all criterion at_ with Ok q => Some q | _ => None end) ->
  _find_one ctx t cls nf criterion at_ w =
  match filter (fun r => wanted ctx t criterion at_ r = true) (rows_of (w_db w) t) with
  | [r] => (_set_object_from_model (PObj cls [] [] []) (Some r), w)
  | _ => (Raise nf, w)
  end.
Proof.
  intros [q Hq]. destruct (find_query ctx t select_all criterion at_) as [q'|] eqn:Hf; [|done].
  clear Hq q. rename q' into q. unfold _find_one, bind, lift. rewrite Hf.
  unfold execute_select, bind, gets, ret, run. cbn [q_where q_order q_limit].
  apply find_query_spec in Hf as (Ho & _ & Hs). rewrite Ho, order_rows_nil.
  change (selects {| q_where := q_where q; q_order := []; q_limit := Some 2%Z |})
    with (selects q).
  rewrite (filter_ext_bool _ _ _ Hs).
  by destruct (filter _ (rows_of (w_db w) t)) as [|r [|r' l]].
Qed.

Lemma find_one_Ok ctx t cls nf criterion at_ w o w' :
  _find_one ctx t cls nf criterion at_ w = (Ok o, w') ->
  w' = w /\ exists r, filter (fun r => wanted ctx t criterion at_ r = true) (rows_of (w_db w) t) = [r] /\
    _set_object_from_model (PObj cls [] [] []) (Some r) = Ok o.
Proof.
  intros Hf. destruct (find_query ctx t select_all criterion at_) as [q|e] eqn:Hq.
  - rewrite find_one_eq in Hf by (rewrite Hq; eauto).
    destruct (filter _ (rows_of (w_db w) t)) as [|r [|r' l]]; try done.
    injection Hf as Hf <-. eauto.
  - unfold _find_one, bind, lift in Hf. by rewrite Hq in Hf.
Qed.
End Queries.

(** ** Rows and objects *)
Section Loading.
Context `{Env} `{SqlEngine}.

(** The attributes an object loaded from a row has. *)
Lemma load_columns_spec names model c f ch og o' :
  load_columns names model (PObj c f ch og) = Ok o' ->
  exists f' ch' og', o' = PObj c f' ch' og' /\
    forall n, aget n f' = if mem_str n names
                          then match aget n model with Some v => Some v | None => aget n f end
                          else aget n f.
Proof.
  revert f ch og. induction names as [|n names IH]; intros f ch og.
  - intros [= <-]. by do 3 eexists.
  - cbn [load_columns]. destruct (aget n model) as [v|] eqn:Hv.
    + destruct (setattr registry (PObj c f ch og) n v) as [o1|] eqn:Hs; cbn [rbind]; [|done].
      assert (Hs1 : exists ch1 og1, o1 = PObj c (aset n v f) ch1 og1).
      { revert Hs. cbn [setattr]. destruct (in_FIELDS registry c n); cbn [negb]; [|done].
        destruct (aget n f); intros [= <-]; eauto. }
      destruct Hs1 as (ch1 & og1 & ->).
      intros (f' & ch' & og' & -> & Hf)%IH. do 3 eexists. split; [done|].
      intros m. rewrite Hf. cbn [mem_str existsb].
      destruct (String.eqb_spec m n) as [->|Hne]; cbn.
      * rewrite Hv, aget_aset_eq. by destruct (mem_str n names).
      * by rewrite aget_aset_ne.
    + intros (f' & ch' & og' & -> & Hf)%IH. do 3 eexists. split; [done|].
      intros m. rewrite Hf. cbn [mem_str existsb].
      destruct (String.eqb_spec m n) as [->|Hne]; cbn; [|done].
      rewrite Hv. by destruct (mem_str n names).
Qed.

Lemma set_object_spec c f ch og r o :
  _set_object_from_model (PObj c f ch og) (Some r) = Ok o ->
  exists f', o = PObj c f' [] [] /\
    forall n, aget n f' = if mem_str n (fields_of registry c).*1
                          then match aget n r with Some v => Some v | None => aget n f end
                          else aget n f.
Proof.
  unfold _set_object_from_model. cbn [class_of].
  destruct (load_columns _ r _) as [o1|] eqn:Hl; cbn [rbind]; [|done]. intros [= <-].
  apply load_columns_spec in Hl as (f' & ch' & og' & -> & Hf). by exists f'.
Qed.

(** The row behind a found object. *)
Definition loaded_from (t : table) (cls : string) (r : row) (o : pyval) : Prop :=
  exists f, o = PObj cls f [] [] /\
    forall n, in_FIELDS registry cls n = true -> aget n f = aget n r.

Lemma set_object_loaded t cls r o :
  _set_object_from_model (PObj cls [] [] []) (Some r) = Ok o -> loaded_from t cls r o.
Proof.
  intros (f & -> & Hf)%set_object_spec. exists f. split; [done|].
  intros n Hn. rewrite Hf. unfold in_FIELDS in Hn. rewrite Hn. by destruct (aget n r).
Qed.

(** C2: a look-up of one object changes nothing; it succeeds only when a single
    row satisfies the criterion among the rows the context may see, and the
    object carries exactly that row's columns. A context without the
    all-tenants flag never obtains a row of another tenant, and a context
    without the show-deleted flag never obtains a deleted one. *)
Theorem find_one_isolation ctx t cls nf criterion w o w' :
  _find_one ctx t cls nf criterion true w = (Ok o, w') ->
  w' = w /\ exists r, r ∈ rows_of (w_db w) t /\ loaded_from t cls r o /\
    matches criterion r = true /\
    (forall r', r' ∈ rows_of (w_db w) t -> wanted ctx t criterion true r' = true -> r' = r) /\
    (has_column t "tenant_id" = true -> all_tenants ctx = false ->
       compare_op OEq (cell r "tenant_id") (tenant_val ctx) = true \/ cell r "tenant_id" = PNone) /\
    (has_column t "deleted" = true -> show_deleted ctx = false ->
       compare_op OEq (cell r "deleted") (PStr "0") = true).
Proof.
  intros (-> & r & Hr & Ho)%find_one_Ok. split; [done|]. exists r.
  assert (Hin : r ∈ filter (fun r => wanted ctx t criterion true r = true) (rows_of (w_db w) t)).
  { rewrite Hr. set_solver. }
  apply list_elem_of_filter in Hin as [Hw Hin].
  pose proof Hw as Hw'. unfold wanted in Hw'. cbn [negb orb] in Hw'.
  apply andb_true_iff in Hw' as [[Hm Hten]%andb_true_iff Hl].
  split_and!; [done|by apply set_object_loaded|done|..].
  - intros r' Hin' Hw''.
    assert (Hf : r' ∈ filter (fun r => wanted ctx t criterion true r = true) (rows_of (w_db w) t)).
    { by apply list_elem_of_filter. }
    rewrite Hr in Hf. set_solver.
  - intros Ht Ha. unfold tenant_ok in Hten. rewrite Ht, Ha in Hten. cbn [andb negb orb] in Hten.
    apply orb_true_iff in Hten as [Hten|Hten].
    + unfold col_eq in Hten. destruct (tenant_val ctx); try (by left); cbn in Hten;
        right; by destruct (cell r "tenant_id").
    + right. cbn in Hten. by destruct (cell r "tenant_id").
  - intros Hd Hs. unfold live in Hl. rewrite Hd, Hs in Hl. exact Hl.
Qed.
End Loading.

(** ** Updates *)
Section Updates.
Context `{Env} `{SqlEngine}.

Lemma update_rows_spec t f p before rows rows' n :
  update_rows t f p before rows = Ok (rows', n) ->
  rows' = map (fun r => if p r then f r else r) rows /\
  n = length (filter (fun r => p r = true) rows).
Proof.
  revert before rows' n. induction rows as [|r rows IH]; intros before rows' n; cbn [update_rows].
  - by intros [= <- <-].
  - rewrite filter_cons. cbn [map]. destruct (p r) eqn:Hp.
    + destruct (violates t (f r) (app before rows)); [done|].
      destruct (update_rows t f p (app before [f r]) rows) as [[l k]|] eqn:Hu; cbn [rbind]; [|done].
      intros [= <- <-]. apply IH in Hu as [-> ->]. by rewrite decide_True.
    + destruct (update_rows t f p (app before [r]) rows) as [[l k]|] eqn:Hu; cbn [rbind]; [|done].
      intros [= <- <-]. apply IH in Hu as [-> ->]. by rewrite decide_False.
Qed.

Lemma rows_of_set_rows t rows d : rows_of (set_rows t rows d) t = rows.
Proof. unfold rows_of, set_rows. by rewrite aget_aset_eq. Qed.
Lemma rows_of_set_other t t' rows d :
  t_name t' <> t_name t -> rows_of (set_rows t rows d) t' = rows_of d t'.
Proof. intros Hne. unfold rows_of, set_rows. by rewrite aget_aset_ne. Qed.

Lemma execute_update_spec t q values incr w r w' :
  execute_update t q values incr w = (r, w') ->
  match r with
  | Ok n =>
      n = length (filter (fun r => selects q r = true) (rows_of (w_db w) t)) /\
      w' = set_db (set_rows t (map (fun r => if selects q r then assign t values incr (w_now w) r
                                             else r) (rows_of (w_db w) t)) (w_db w)) w
  | Raise _ => w' = w
  end.
Proof.
  unfold execute_update, utcnow, gets, bind, lift, modify, ret.
  destruct (update_rows _ _ _ [] _) as [[rows n]|e] eqn:Hu; intros [= <- <-]; [|done].
  apply update_rows_spec in Hu as [-> ->]. done.
Qed.

Lemma aget_adel_all skip k (d : row) :
  aget k (without skip d) = if mem_str k skip then None else aget k d.
Proof.
  unfold without. revert d. induction skip as [|s skip IH]; intros d; [done|].
  cbn [foldl mem_str existsb]. rewrite IH, aget_adel.
  destruct (mem_str k skip) eqn:Hm; unfold mem_str in Hm; rewrite Hm.
  - by rewrite orb_true_r.
  - by destruct (String.eqb k s).
Qed.

(** The rows an update of an object may touch. *)
Definition target (ctx : context) (t : table) (id : pyval) (r : row) : bool :=
  holds r (col_eq "id" id) && tenant_ok ctx t r && live ctx t r.

Lemma target_query ctx t id r :
  selects (_apply_deleted_criteria ctx t (_apply_tenant_criteria ctx t (by_id id) true)) r =
  target ctx t id r.
Proof.
  rewrite apply_deleted_spec, apply_tenant_spec. unfold by_id, target. by rewrite selects_where.
Qed.

(** The frame of an update. Whether it succeeds or raises, no other table
    changes, and in the object's own table a row keeps every column unless it
    has the object's id, belongs to the context's tenant (or to none, or the
    context sees all tenants) and is not deleted (or deleted rows are shown).
    When it succeeds, there was exactly one such row, and it received exactly
    the changed attributes that are not skipped. *)
Theorem update_frame ctx t obj dup nf skip id w res w' :
  getattr registry obj "id" = Ok id ->
  _update ctx t obj dup nf skip w = (res, w') ->
  (forall t', t_name t' <> t_name t -> rows_of (w_db w') t' = rows_of (w_db w) t') /\
  (exists g, rows_of (w_db w') t = map g (rows_of (w_db w) t) /\
     (forall r, target ctx t id r = false -> g r = r) /\
     (forall o, res = Ok o ->
        exists changes, obj_get_changes registry obj = Ok changes /\
        length (filter (fun r => target ctx t id r = true) (rows_of (w_db w) t)) = 1%nat /\
        forall r, target ctx t id r = true ->
          g r = assign t (without skip changes) (has_column t "version") (w_now w) r)).
Proof.
  intros Hid. unfold _update. unfold bind at 1, lift at 1.
  destruct (obj_get_changes registry obj) as [changes|e] eqn:Hch.
  2: { intros [= <- <-]. split; [done|]. exists (fun r => r).
       split_and!; [by rewrite map_id|done|done]. }
  unfold bind at 1, lift at 1. rewrite Hid.
  set (q := _apply_deleted_criteria ctx t (_apply_tenant_criteria ctx t (by_id id) true)).
  assert (Hq : forall r, selects q r = target ctx t id r) by (intros; apply target_query).
  unfold bind at 1, try_except.
  destruct (execute_update t q (without skip changes) (has_column t "version") w)
    as [[n|e] w1] eqn:Hu; apply execute_update_spec in Hu; cbn in Hu.
  2: { subst w1. intros Hr.
       assert (w' = w /\ forall o, res <> Ok o) as [-> Hres].
       { unfold on, raise in Hr. destruct (bool_decide _); by injection Hr as <- <-. }
       split; [done|]. exists (fun r => r). split_and!; [by rewrite map_id|done|].
       intros o Ho. by destruct (Hres o). }
  destruct Hu as [-> ->].
  set (g := fun r => if selects q r then assign t (without skip changes) (has_column t "version")
                                           (w_now w) r else r).
  intros Hr.
  assert (Hw : w_db w' = set_rows t (map g (rows_of (w_db w) t)) (w_db w)).
  { revert Hr. unfold raise_if, raise, ret, bind, execute_select, gets, lift.
    destruct (negb _); intros [= <- <-]; done. }
  assert (Hn : forall o, res = Ok o ->
    length (filter (fun r => target ctx t id r = true) (rows_of (w_db w) t)) = 1%nat).
  { intros o ->. revert Hr. unfold raise_if, raise, bind.
    rewrite (filter_ext_bool _ _ _ Hq).
    destruct (Nat.eqb_spec (length (filter (fun r => target ctx t id r = true)
      (rows_of (w_db w) t))) 1); cbn [negb]; [done|]. intros [=]. }
  rewrite Hw. split; [intros t' Hne; by apply rows_of_set_other|].
  exists g. split; [apply rows_of_set_rows|]. split.
  - intros r Ht. unfold g. by rewrite Hq, Ht.
  - intros o Ho. exists changes. split_and!; [done|by apply (Hn o)|].
    intros r Ht. unfold g. by rewrite Hq, Ht.
Qed.
End Updates.

(** ** Ordering and pagination *)
Section Pages.
Context `{SqlLaws}.

Lemma collate_Eq_r a b d : collate b d = Eq -> collate a b = collate a d.
Proof.
  intros Hbd. rewrite (collate_opp b a), (collate_opp d a). f_equal. by apply collate_Eq.
Qed.

Lemma key_le_trans order a b d :
  key_le order a b = true -> key_le order b d = true -> key_le order a d = true.
Proof.
  induction order as [|[c asc] order IH]; [done|]. cbn [key_le].
  destruct (collate (cell a c) (cell b c)) eqn:Hab.
  - rewrite (collate_Eq _ _ (cell d c) Hab). destruct (collate (cell b c) (cell d c)); auto.
  - intros Ha. destruct (collate (cell b c) (cell d c)) eqn:Hbd; intros Hb.
    + by rewrite <- (collate_Eq_r _ _ _ Hbd), Hab.
    + by rewrite (collate_trans Lt _ _ _ Hab Hbd).
    + by destruct asc.
  - intros Ha. destruct (collate (cell b c) (cell d c)) eqn:Hbd; intros Hb.
    + by rewrite <- (collate_Eq_r _ _ _ Hbd), Hab.
    + by destruct asc.
    + by rewrite (collate_trans Gt _ _ _ Hab Hbd).
Qed.

Lemma key_le_total order a b : key_le order a b = false -> key_le order b a = true.
Proof.
  induction order as [|[c asc] order IH]; [done|]. cbn [key_le].
  rewrite (collate_opp (cell a c) (cell b c)).
  destruct (collate (cell a c) (cell b c)); cbn; [exact IH|..]; by destruct asc.
Qed.

Inductive sorted_rows (order : list (string * bool)) : list row -> Prop :=
| sorted_nil : sorted_rows order []
| sorted_cons r l : (forall x, x ∈ l -> key_le order r x = true) -> sorted_rows order l ->
                    sorted_rows order (r :: l).

Lemma insert_row_elem order x r l : x ∈ insert_row order r l <-> x = r \/ x ∈ l.
Proof. by rewrite (insert_row_perm order r l), elem_of_cons. Qed.

Lemma insert_row_sorted order r l : sorted_rows order l -> sorted_rows order (insert_row order r l).
Proof.
  induction 1 as [|x l Hx Hl IH]; cbn [insert_row]; [repeat constructor; set_solver|].
  destruct (key_le order r x) eqn:Hr; constructor; [|by constructor| |done].
  - intros y [->|Hy]%elem_of_cons; [done|]. eapply key_le_trans; [done|auto].
  - intros y [->|Hy]%insert_row_elem; [by apply key_le_total|auto].
Qed.
Lemma order_rows_sorted order l : sorted_rows order (order_rows order l).
Proof. induction l as [|r l IH]; [constructor|]. by apply insert_row_sorted. Qed.

Definition pick (B : row -> bool) (l : list row) : list row := filter (fun r => B r = true) l.

Lemma pick_cons B r l : pick B (r :: l) = if B r then r :: pick B l else pick B l.
Proof. unfold pick. rewrite filter_cons. by destruct (B r). Qed.
Lemma pick_elem B r l : r ∈ pick B l <-> B r = true /\ r ∈ l.
Proof. unfold pick. by rewrite list_elem_of_filter. Qed.

Lemma insert_row_head order r l :
  (forall x, x ∈ l -> key_le order r x = true) -> insert_row order r l = r :: l.
Proof. destruct l as [|x l]; [done|]. cbn. intros Hl. rewrite Hl; [done|set_solver]. Qed.

Lemma filter_insert order (B : row -> bool) r l :
  sorted_rows order l ->
  pick B (insert_row order r l) = if B r then insert_row order r (pick B l) else pick B l.
Proof.
  induction 1 as [|x l Hx Hl IH]; cbn [insert_row].
  - rewrite pick_cons. by destruct (B r).
  - destruct (key_le order r x) eqn:Hr.
    + rewrite pick_cons. destruct (B r) eqn:HB; [|done].
      rewrite insert_row_head; [done|].
      intros y [_ [->|Hy]%elem_of_cons]%pick_elem; [done|].
      eapply key_le_trans; [exact Hr|auto].
    + rewrite !pick_cons, IH. destruct (B x), (B r); try done. cbn [insert_row]. by rewrite Hr.
Qed.
Lemma order_filter order (B : row -> bool) l :
  order_rows order (pick B l) = pick B (order_rows order l).
Proof.
  unfold order_rows. induction l as [|r l IH]; [done|]. rewrite pick_cons. cbn [foldr].
  rewrite filter_insert by apply order_rows_sorted.
  destruct (B r); [cbn [foldr]; by rewrite IH|done].
Qed.

Lemma compare_op_nonnull op v w : v <> PNone -> w <> PNone ->
  compare_op op v w = match op, collate v w with
                      | OEq, Eq | OLe, Eq | OGe, Eq | OLe, Lt | OLt, Lt | ONe, Lt
                      | OGe, Gt | OGt, Gt | ONe, Gt => true
                      | _, _ => false
                      end.
Proof. by destruct v, w. Qed.

(** Rows with values in both sort columns. *)
Definition sortable (k : string) (r : row) : Prop :=
  cell r k <> PNone /\ exists s, cell r "id" = PStr s.

Lemma after_marker_spec k (asc : bool) m r :
  sortable k m -> sortable k r ->
  holds r (AnyOf (after_marker [k; "id"] [] (if asc then OGt else OLt) m)) =
  negb (key_le [(k, asc); ("id", asc)] r m).
Proof.
  intros [Hmk [mi Hmi]] [Hrk [ri Hri]]. cbn [after_marker app holds existsb forallb].
  rewrite Hmi, Hri. cbn [col_eq].
  assert (Hce : holds r (col_eq k (cell m k)) = compare_op OEq (cell r k) (cell m k)).
  { unfold col_eq. by destruct (cell m k). }
  rewrite Hce, !andb_true_r, orb_false_r, !compare_op_nonnull by congruence.
  cbn [key_le]. rewrite Hmi, Hri.
  destruct (collate (cell r k) (cell m k)), (collate (PStr ri) (PStr mi)), asc; reflexivity.
Qed.

Lemma key_le_refl order r : key_le order r r = true.
Proof. destruct (key_le order r r) eqn:Hr; [done|]. rewrite <- Hr. by apply key_le_total. Qed.

Lemma sorted_split order pre m post :
  sorted_rows order (app pre (m :: post)) ->
  (forall r, r ∈ pre -> key_le order r m = true) /\ (forall r, r ∈ post -> key_le order m r = true).
Proof.
  induction pre as [|x pre IH]; cbn [app]; intros Hs; inversion Hs as [|? ? Hx Hl]; subst.
  - split; [set_solver|done].
  - apply IH in Hl as [Hpre Hpost]. split; [|done].
    intros r [->|Hr]%elem_of_cons; [apply Hx; set_solver|auto].
Qed.

Lemma pick_none (B : row -> bool) l : (forall r, r ∈ l -> B r = false) -> pick B l = [].
Proof.
  induction l as [|r l IH]; [done|]. intros Hl. rewrite pick_cons, Hl, IH; [done|set_solver..].
Qed.
Lemma pick_all (B : row -> bool) l : (forall r, r ∈ l -> B r = true) -> pick B l = l.
Proof.
  induction l as [|r l IH]; [done|]. intros Hl. rewrite pick_cons, Hl, IH; [done|set_solver..].
Qed.
Lemma pick_app B l l' : pick B (app l l') = app (pick B l) (pick B l').
Proof. apply filter_app. Qed.
Lemma pick_pick B C l : pick B (pick C l) = pick (fun r => B r && C r) l.
Proof.
  unfold pick. rewrite list_filter_filter. apply list_filter_iff. intros r.
  symmetry. apply andb_true_iff.
Qed.

Lemma key_le_distinct k asc m r :
  sortable k m -> sortable k r -> cell r "id" <> cell m "id" ->
  key_le [(k, asc); ("id", asc)] m r = true -> key_le [(k, asc); ("id", asc)] r m = false.
Proof.
  intros [_ [mi Hmi]] [_ [ri Hri]] Hne. cbn [key_le]. rewrite Hmi, Hri in *.
  rewrite (collate_opp (cell m k) (cell r k)), (collate_opp (PStr mi) (PStr ri)).
  destruct (collate (PStr mi) (PStr ri)) eqn:Hc.
  - apply collate_str in Hc. congruence.
  - by destruct (collate (cell m k) (cell r k)), asc.
  - by destruct (collate (cell m k) (cell r k)), asc.
Qed.

(** Pages. Take the rows a query selects, in the order of the sort key and
    the id, in either direction. The page that follows any row of that
    sequence, asked for with the row as marker and a limit, consists of exactly
    the next rows of the sequence: following markers visits every row once. *)
Theorem pages_complete t q q' k (asc : bool) rows limit n pre m post :
  let dir := if asc then "asc" else "desc" in
  let full := order_rows [(k, asc); ("id", asc)] (filter (fun r => selects q r = true) rows) in
  q_order q = [] -> (forall r, r ∈ rows -> sortable k r) ->
  NoDup (map (fun r => cell r "id") full) ->
  full = app pre (m :: post) ->
  Utils.int_of_val limit = Ok n ->
  paginate_query t q limit [k; "id"] (Some m) dir = Ok q' ->
  run q' rows = take (Z.to_nat n) post.
Proof.
  intros dir full Ho Hs Hnd Hfull Hn. unfold paginate_query.
  destruct (sort_query t q [k; "id"] dir) as [q1|] eqn:Hq1; cbn [rbind]; [|done].
  assert (Hq : q_where q1 = q_where q /\ q_order q1 = [(k, asc); ("id", asc)]).
  { revert Hq1. cbn [sort_query]. destruct (negb (mem_str dir _)); [done|].
    destruct (negb (has_column t k)); [done|]. destruct (negb (has_column t "id")); [done|].
    intros [= <-]. cbn. rewrite Ho. unfold dir. by destruct asc. }
  destruct Hq as [Hwh Hord].
  assert (Hop : (if String.eqb dir "desc" then OLt else OGt) = (if asc then OGt else OLt)).
  { unfold dir. by destruct asc. }
  rewrite Hop. intros Hq'.
  assert (q' = {| q_where := app (q_where q)
                    [AnyOf (after_marker [k; "id"] [] (if asc then OGt else OLt) m)];
                  q_order := [(k, asc); ("id", asc)]; q_limit := Some n |}) as ->.
  { revert Hq'. destruct limit; rewrite ?Hn; try discriminate Hn;
      unfold where_; rewrite Hwh, Hord; cbn; by intros [= <-]. }
  unfold run. cbn [q_order q_limit]. f_equal.
  set (B := fun r => holds r (AnyOf (after_marker [k; "id"] [] (if asc then OGt else OLt) m))).
  rewrite (filter_ext_bool _ (fun r : row => B r && selects q r)).
  2: { intros r. unfold selects. cbn [q_where]. rewrite forallb_app. cbn [forallb].
       rewrite andb_true_r. apply andb_comm. }
  transitivity (pick B full).
  { unfold full. change (filter (fun r => selects q r = true) rows) with (pick (selects q) rows).
    by rewrite <- order_filter, pick_pick. }
  assert (Hsort : sorted_rows [(k, asc); ("id", asc)] full) by apply order_rows_sorted.
  assert (Hfs : forall r, r ∈ full -> sortable k r).
  { intros r Hr. unfold full in Hr. rewrite order_rows_perm in Hr.
    apply list_elem_of_filter in Hr as [_ Hr]. auto. }
  assert (HB : forall r, r ∈ full -> B r = negb (key_le [(k, asc); ("id", asc)] r m)).
  { intros r Hr. apply after_marker_spec; [|auto]. apply Hfs. rewrite Hfull. set_solver. }
  rewrite Hfull in HB, Hsort, Hnd, Hfs |- *. apply sorted_split in Hsort as [Hpre Hpost].
  rewrite pick_app, pick_cons, (pick_none B pre), (pick_all B post).
  - rewrite HB by set_solver. by rewrite key_le_refl.
  - intros r Hr. rewrite HB by set_solver. apply negb_true_iff.
    apply (key_le_distinct k); [apply Hfs; set_solver..| |by apply Hpost].
    intros Heq. rewrite map_app in Hnd. apply NoDup_app in Hnd as (_ & _ & Hnd).
    cbn in Hnd. apply NoDup_cons in Hnd as [Hnin _]. apply Hnin.
    apply list_elem_of_fmap. exists r. by split.
  - intros r Hr. rewrite HB by set_solver. by rewrite Hpre.
Qed.
End Pages.
