(* ===== verification/Rows.v ===== *)
(** * Rows with identifiers, and objects written back to them

    What an insertion, a selection by identifier and an update of a loaded object do to the rows
    of a table whose identifiers are different: one row is added, found or replaced, and the
    others stay. *)
From Stdlib Require Import ZArith Lia Ascii String.
From stdpp Require Import base option numbers strings sets list.
From S2P Require Import Prelude PyStr Exceptions Values Objects Utils Classes World Sql SqlFacts.
Local Open Scope string_scope.

(** Goals about the names of concrete columns *)
Ltac decided := apply (bool_decide_unpack _); reflexivity.

(** ** The types of columns
    What a column takes, and gives back as it was: identifiers as their 32 hexadecimal digits
    (the model leaves the dashes out),
    the names of an enumeration, signed integers of 32 bits, texts up to a length, dictionaries
    that JSON can write, times; NULL when it is nullable. What a column does with any other
    value, refuse, cut or convert it, is up to the database and not modelled: the theorems on
    tables with types are about calls that keep to them. *)
Inductive column_type := CUuid | CEnum (names : list string) | CInteger | CString (length : nat) | CJson | CDateTime.
Definition is_uuid_hex (s : string) : bool := (String.length s =? 32)%nat && sforall is_hex_lower s.
Definition takes (column : column_type * bool) (v : pyval) : bool :=
  match v with
  | PNone => column.2
  | _ =>
      match column.1, v with
      | CUuid, PStr s => is_uuid_hex s
      | CEnum names, PStr s => mem_str s names
      | CInteger, PInt z => (- 2 ^ 31 <=? z)%Z && (z <? 2 ^ 31)%Z
      | CString n, PStr s => (String.length s <=? n)%nat
      | CJson, PDict _ => jsonable v
      | CDateTime, PInt _ => true
      | _, _ => false
      end
  end.
Definition column_takes (types : list (string * (column_type * bool))) (name : string) (v : pyval) : Prop :=
  match aget name types with Some c => takes c v = true | None => False end.
(** A name that [_apply_criterion] takes for a value, not for a pattern *)
Definition plain (s : string) : Prop := forall n, criterion_clause n (PStr s) = Ok (Cmp n OEq (PStr s)).
Lemma uuid_plain s : is_uuid_hex s = true -> plain s.
Proof.
  unfold is_uuid_hex. rewrite andb_true_iff, Nat.eqb_eq. intros [Hl Hs] n. unfold criterion_clause.
  assert (Hp : has_char percent s = false).
  { clear Hl. induction s as [|c s IH]; [done|]. cbn in Hs |- *. apply andb_true_iff in Hs as [Hc Hs]. rewrite IH by done.
    destruct (Ascii.eqb_spec c percent) as [->|]; [discriminate Hc|done]. }
  rewrite Hp. destruct s as [|c s]; [done|]. cbn in Hs. apply andb_true_iff in Hs as [Hc _]. unfold startswith.
  destruct c as [[] [] [] [] [] [] [] []]; first [discriminate Hc|reflexivity].
Qed.

Section Rows.
Context `{Env} `{SqlLaws}.
Lemma eq_str s t : compare_op OEq (PStr s) (PStr t) = (s =? t).
Proof.
  cbn. destruct (String.eqb_spec s t) as [->|Hn]; [by rewrite (proj2 (collate_str t t) eq_refl)|].
  destruct (collate (PStr s) (PStr t)) eqn:E; [by apply collate_str in E|done..].
Qed.
(** ** Rows by their identifiers *)
Definition unlike (i : string) (l : list row) : Prop := forall y, y ∈ l -> exists j, cell y "id" = PStr j /\ j <> i.
Lemma unlike_compare i l y : unlike i l -> y ∈ l ->
  compare_op OEq (cell y "id") (PStr i) = false /\ compare_op OEq (PStr i) (cell y "id") = false.
Proof. intros Hu (j & -> & Hj)%Hu. rewrite !eq_str. split; by apply String.eqb_neq. Qed.
Lemma ids_unlike l ids i : map (fun y => cell y "id") l = map PStr ids -> i ∉ ids -> unlike i l.
Proof.
  intros E Hi y Hy. assert (Hc : cell y "id" ∈ map PStr ids) by (rewrite <- E; apply list_elem_of_fmap; eauto).
  apply list_elem_of_fmap in Hc as (j & -> & Hj). exists j. split; [done|]. by intros ->.
Qed.
Lemma others_unlike pre x post ids : map (fun y => cell y "id") (app pre (x :: post)) = map PStr ids -> NoDup ids ->
  exists i, cell x "id" = PStr i /\ unlike i (app pre post).
Proof.
  intros E Hn. rewrite map_app in E. cbn in E. symmetry in E. apply map_eq_app in E as (l1 & l2 & -> & E1 & E2).
  destruct l2 as [|i l2]; [done|]. cbn in E2. injection E2 as Ei E2. exists i. split; [done|].
  apply (ids_unlike _ (app l1 l2)); [by rewrite !map_app, E1, E2|]. apply NoDup_app in Hn as (Hn1 & Hn2 & Hn3). apply NoDup_cons in Hn3 as [Hn3 _].
  intros [Hi|Hi]%elem_of_app; [|done]. by apply (Hn2 i Hi); left.
Qed.
Lemma violates_unlike t x i l : cell x "id" = PStr i -> unlike i l ->
  (forall y, y ∈ l -> existsb (clash x y) (t_unique t) = false) -> violates t x l = false.
Proof.
  intros Hx Hu Hc. unfold violates. apply not_true_is_false. intros (y & Hy & Hv)%existsb_exists. apply list_elem_of_In in Hy.
  cbn [existsb] in Hv. rewrite Hc in Hv by done. change (compare_op OEq (cell x "id") (cell y "id") && true || false = true) in Hv.
  by rewrite Hx, (proj2 (unlike_compare i l y Hu Hy)) in Hv.
Qed.
Lemma select_unlike i pre x post : cell x "id" = PStr i -> unlike i (app pre post) -> run (by_id (PStr i)) (app pre (x :: post)) = [x].
Proof.
  intros Hx Hu. unfold run. cbn [q_limit q_order by_id where_ select_all]. rewrite order_rows_nil.
  assert (Hf : forall l, (forall y, y ∈ l -> y ∈ app pre post) -> filter (fun y => selects (by_id (PStr i)) y = true) l = []).
  { induction l as [|y l IH]; intros Hl; [done|]. rewrite filter_cons, decide_False; [apply IH; set_solver|].
    change (~ (compare_op OEq (cell y "id") (PStr i) && true = true)).
    rewrite (proj1 (unlike_compare i _ y Hu (Hl y ltac:(by left)))). done. }
  rewrite filter_app, filter_cons, !Hf by set_solver. cbn [app]. rewrite decide_True; [done|].
  change (compare_op OEq (cell x "id") (PStr i) && true = true). by rewrite Hx, eq_str, String.eqb_refl.
Qed.
Lemma update_rows_one t f p before pre x post :
  (forall y, y ∈ app pre post -> p y = false) -> p x = true -> violates t (f x) (app before (app pre post)) = false ->
  update_rows t f p before (app pre (x :: post)) = Ok (app pre (f x :: post), 1%nat).
Proof.
  intros Hp Hx. revert before. induction pre as [|y pre IH]; intros before Hv; cbn [app update_rows].
  - cbn in Hv. rewrite Hx, Hv.
    assert (Hr : forall l before, (forall y, y ∈ l -> p y = false) -> update_rows t f p before l = Ok (l, O)).
    { clear. induction l as [|y l IH]; intros before Hl; [done|]. cbn. rewrite Hl by by left. rewrite IH; [done|set_solver]. }
    rewrite Hr; [done|]. intros y Hy. apply Hp. set_solver.
  - rewrite Hp by set_solver. rewrite IH; [done|set_solver|]. by rewrite <- app_assoc.
Qed.

(** The identifiers of the rows are different, and those that are drawn later will be. *)
Definition identified (t : table) (w : world) : Prop :=
  exists ids, map (fun y => cell y "id") (rows_of (w_db w) t) = map PStr ids /\ NoDup ids /\
    forall n, w_uuids w <= n -> uuid4 n ∉ ids.
Lemma identified_added t w x : (forall n m, uuid4 n = uuid4 m -> n = m) -> identified t w -> cell x "id" = PStr (uuid4 (w_uuids w)) ->
  identified t (set_db (set_rows t (app (rows_of (w_db w) t) [x]) (w_db w)) (set_uuids (S (w_uuids w)) w)).
Proof.
  intros Hfresh (ids & Hids & Hnd & Hf) Hx. exists (app ids [uuid4 (w_uuids w)]). cbn [w_db set_db w_uuids set_uuids]. split_and!.
  - rewrite rows_of_set_rows, !map_app, Hids. cbn. by rewrite Hx.
  - apply NoDup_app. split_and!; [done| |apply NoDup_singleton]. intros i Hin ->%list_elem_of_singleton. by apply (Hf (w_uuids w)) in Hin.
  - intros n Hn. rewrite elem_of_app, list_elem_of_singleton. intros [Hin|Hin]; [by apply (Hf n) in Hin; [|lia]|].
    apply Hfresh in Hin. lia.
Qed.
Lemma identified_replaced t w pre x x' post : identified t w -> rows_of (w_db w) t = app pre (x :: post) -> cell x' "id" = cell x "id" ->
  identified t (set_db (set_rows t (app pre (x' :: post)) (w_db w)) w).
Proof.
  intros (ids & Hids & Hnd & Hf) Hw Hx. exists ids. cbn [w_db set_db w_uuids]. split_and!; [|done|done].
  rewrite rows_of_set_rows, <- Hids, Hw, !map_app. cbn. by rewrite Hx.
Qed.
Lemma identified_removed t w pre x post : identified t w -> rows_of (w_db w) t = app pre (x :: post) ->
  identified t (set_db (set_rows t (app pre post) (w_db w)) w).
Proof.
  intros (ids & Hids & Hnd & Hf) Hw. rewrite Hw, map_app in Hids. symmetry in Hids.
  apply map_eq_app in Hids as (l1 & l2 & -> & E1 & E2). destruct l2 as [|i l2]; [done|]. injection E2 as _ E2.
  exists (app l1 l2). cbn [w_db set_db w_uuids]. split_and!.
  - by rewrite rows_of_set_rows, !map_app, E1, E2.
  - apply NoDup_app in Hnd as (? & Hd & Hn). apply NoDup_cons in Hn as [_ ?]. apply NoDup_app. split_and!; [done| |done]. set_solver.
  - intros n Hn Hin. apply (Hf n Hn). set_solver.
Qed.
Lemma identified_at t w pre x post : identified t w -> rows_of (w_db w) t = app pre (x :: post) ->
  exists i, cell x "id" = PStr i /\ unlike i (app pre post).
Proof. intros (ids & Hids & Hnd & _) Hw. rewrite Hw in Hids. by eapply others_unlike. Qed.
Lemma identified_new t w : identified t w -> unlike (uuid4 (w_uuids w)) (rows_of (w_db w) t).
Proof. intros (ids & Hids & _ & Hf). apply (ids_unlike _ ids); [done|]. by apply Hf. Qed.

(** ** Filters with one result *)
Lemma filter_one (p : row -> bool) l x : filter (fun y => p y = true) l = [x] ->
  exists pre post, l = app pre (x :: post) /\ p x = true /\ forall y, y ∈ app pre post -> p y = false.
Proof.
  induction l as [|y l IH]; [done|]. rewrite filter_cons. destruct (p y) eqn:Hp.
  - rewrite decide_True by done. intros [= -> Hl]. exists [], l. split_and!; [done|done|]. intros z Hz. apply not_true_is_false. intros Ht.
    assert (Hin : z ∈ filter (fun y => p y = true) l) by by apply list_elem_of_filter. rewrite Hl in Hin. by apply elem_of_nil in Hin.
  - rewrite decide_False by done. intros (pre & post & -> & Hx & Ho)%IH. exists (y :: pre), post. split_and!; [done|done|].
    intros z [->|Hz]%elem_of_cons; [done|by apply Ho].
Qed.
Lemma filter_app_one (p : row -> bool) pre x post : (forall y, y ∈ app pre post -> p y = false) ->
  filter (fun y => p y = true) (app pre (x :: post)) = if p x then [x] else [].
Proof.
  intros Ho. assert (Hn : forall l, (forall y, y ∈ l -> p y = false) -> filter (fun y => p y = true) l = []).
  { induction l as [|y l IH]; intros Hl; [done|]. rewrite filter_cons, decide_False; [apply IH; set_solver|by rewrite Hl by by left]. }
  rewrite filter_app, filter_cons, !Hn by set_solver. cbn. destruct (p x); [by rewrite decide_True|by rewrite decide_False].
Qed.
(** ** Objects *)
Lemma load_columns_Ok names m c f ch og : (forall n, n ∈ names -> in_FIELDS registry c n = true) ->
  exists f' ch' og', load_columns names m (PObj c f ch og) = Ok (PObj c f' ch' og').
Proof.
  revert f ch og. induction names as [|n names IH]; intros f ch og Hn; [by do 3 eexists|].
  cbn [load_columns]. destruct (aget n m) as [v|]; [|apply IH; set_solver].
  cbn [setattr]. rewrite Hn by by left. cbn [negb]. destruct (aget n f); cbn [rbind]; apply IH; set_solver.
Qed.
Lemma set_object_Ok c f ch og m : exists f', _set_object_from_model (PObj c f ch og) m = Ok (PObj c f' [] []).
Proof.
  unfold _set_object_from_model. destruct m as [m|]; [|by eexists]. cbn [class_of].
  destruct (load_columns_Ok (fields_of registry c).*1 m c f ch og) as (f' & ch' & og' & ->); [|by eexists].
  intros n Hn. unfold in_FIELDS. by apply mem_str_elem.
Qed.
(** Assigning attributes to an object: each has its value, and is listed as changed or had an equal one. *)
Lemma add_name_NoDup n l : NoDup l -> NoDup (add_name n l).
Proof.
  intros Hd. unfold add_name. destruct (mem_str n l) eqn:Hm; [done|]. apply NoDup_app. split_and!; [done| |apply NoDup_singleton].
  intros m Hin ->%list_elem_of_singleton. apply mem_str_elem in Hin. congruence.
Qed.
Lemma setattr_reads c f ch og k v o : setattr registry (PObj c f ch og) k v = Ok o ->
  exists f' ch' og', o = PObj c f' ch' og' /\ f' = aset k v f /\ (forall n, n ∈ ch' -> n = k \/ n ∈ ch) /\ (NoDup ch -> NoDup ch') /\ (forall n, n ∈ ch -> n ∈ ch') /\
    (k ∈ ch' \/ exists cur, aget k f = Some cur /\ py_eq v cur = true).
Proof.
  cbn [setattr]. destruct (in_FIELDS registry c k); [|done]. cbn [negb]. destruct (aget k f) as [cur|] eqn:Hk; intros [= <-].
  - do 3 eexists. split; [done|]. split; [done|]. destruct (py_eq v cur) eqn:He; cbn [negb].
    + split; [by right|]. split; [done|]. split; [done|]. right. by exists cur.
    + split; [intros n Hn; by apply (add_name_elem registry) in Hn|]. split; [by apply add_name_NoDup|]. split; [intros n Hn; apply (add_name_elem registry); by right|]. left. apply (add_name_elem registry). by left.
  - do 3 eexists. split; [done|]. split; [done|]. split; [intros n Hn; by apply (add_name_elem registry) in Hn|]. split; [by apply add_name_NoDup|].
    split; [intros n Hn; apply (add_name_elem registry); by right|]. left. apply (add_name_elem registry). by left.
Qed.
Lemma update_reads values c f ch og o : NoDup values.*1 -> update registry (PObj c f ch og) values = Ok o ->
  exists f' ch' og', o = PObj c f' ch' og' /\ (forall n, aget n f' = match aget n values with Some v => Some v | None => aget n f end) /\
    (forall n, n ∈ ch' -> n ∈ values.*1 \/ n ∈ ch) /\ (NoDup ch -> NoDup ch') /\ (forall n, n ∈ ch -> n ∈ ch') /\
    (forall n v, (n, v) ∈ values -> n ∈ ch' \/ exists cur, aget n f = Some cur /\ py_eq v cur = true).
Proof.
  revert f ch og. induction values as [|[k v] values IH]; intros f ch og Hd; cbn [update].
  - intros [= <-]. do 3 eexists. split; [done|]. split_and!; [done|set_solver|done|done|intros ? ? []%elem_of_nil].
  - destruct (setattr registry _ k v) as [o1|] eqn:Hs; cbn [rbind]; [|done].
    apply NoDup_cons in Hd as [Hk Hd]. apply setattr_reads in Hs as (f1 & ch1 & og1 & -> & -> & Hc1 & Hc0 & Hc2 & Hc3).
    intros (f' & ch' & og' & -> & Hf & Hn1 & Hn0 & Hn2 & Hn3)%IH; [|done]. do 3 eexists. split; [done|]. cbn [aget list_fmap fmap fst]. split_and!.
    + intros n. rewrite Hf, aget_aset. destruct (String.eqb_spec n k) as [->|]; [|done].
      replace (aget k values) with (None (A:=pyval)); [done|]. symmetry. by apply aget_None_elem.
    + intros n [Hn|Hn]%Hn1; [left; by right|]. apply Hc1 in Hn as [->|]; [left; by left|by right].
    + intros Hnd. by apply Hn0, Hc0.
    + eauto.
    + intros n w [[= -> ->]|Hw]%elem_of_cons.
      * destruct Hc3 as [Hc|Hc]; [left; by apply Hn2|by right].
      * destruct (Hn3 n w Hw) as [|(cur & Hcur & He)]; [by left|right]. exists cur. split; [|done].
        rewrite aget_aset_ne in Hcur; [done|]. intros ->. apply Hk, list_elem_of_fmap. by exists (k, w).
Qed.
Lemma update_Ok c f ch og values : (forall n, n ∈ values.*1 -> in_FIELDS registry c n = true) ->
  exists o, update registry (PObj c f ch og) values = Ok o.
Proof.
  revert f ch og. induction values as [|[k v] values IH]; intros f ch og Hn; [by eexists|]. cbn [update].
  destruct (setattr registry (PObj c f ch og) k v) as [o1|] eqn:Hs.
  - cbn [rbind]. apply setattr_reads in Hs as (f1 & ch1 & og1 & -> & _). apply IH. set_solver.
  - cbn [setattr] in Hs. rewrite Hn in Hs by by left. cbn in Hs. by destruct (aget k f).
Qed.
Lemma collect_reads o names g : (forall n, n ∈ names -> exists v, g n = Some v /\ getattr registry o n = Ok v) ->
  exists d, collect registry o names = Ok d /\ d.*1 = names /\ forall n, aget n d = if mem_str n names then g n else None.
Proof.
  induction names as [|k names IH]; intros Hg; [by exists []|].
  destruct (Hg k ltac:(by left)) as (v & Hv & Hk). destruct IH as (d & Hd & Hn & Hr); [set_solver|].
  exists ((k, v) :: d). cbn [collect]. rewrite Hk, Hd. split; [done|]. split; [cbn; by rewrite Hn|]. intros n. cbn [aget mem_str existsb].
  destruct (String.eqb_spec n k) as [->|]; [done|]. by rewrite Hr.
Qed.
(** ** Statements by identifier *)
Lemma assign_cell t d incr now x n : NoDup d.*1 -> n <> "version" -> n ∉ t_onupdate t ->
  cell (assign t d incr now x) n = match aget n d with Some v => v | None => cell x n end.
Proof.
  intros Hd Hv Hn. unfold assign.
  assert (Hfold : forall l y, n ∉ l -> cell (foldl (fun y c => if mem_str c d.*1 then y else aset c (PInt now) y) y l) n = cell y n).
  { induction l as [|c l IH]; intros y Hl; [done|]. cbn [foldl]. rewrite IH by set_solver.
    destruct (mem_str c d.*1); [done|]. unfold cell. rewrite aget_aset_ne; [done|set_solver]. }
  rewrite Hfold by done. transitivity (cell (aupdate x d) n).
  - destruct incr; [|done]. destruct (cell (aupdate x d) "version"); try done. unfold cell. by rewrite aget_aset_ne.
  - unfold cell. rewrite aget_aupdate by done. by destruct (aget n d).
Qed.
Lemma execute_update_one t d incr w pre x post i : rows_of (w_db w) t = app pre (x :: post) -> cell x "id" = PStr i -> unlike i (app pre post) ->
  let x' := assign t d incr (w_now w) x in cell x' "id" = PStr i -> (forall y, y ∈ app pre post -> existsb (clash x' y) (t_unique t) = false) ->
  execute_update t (by_id (PStr i)) d incr w = (Ok 1%nat, set_db (set_rows t (app pre (x' :: post)) (w_db w)) w).
Proof.
  intros Hw Hi Hu x' Hx' Hc. unfold execute_update, utcnow, gets, bind, lift, modify, ret. rewrite Hw.
  rewrite update_rows_one; [done| | |].
  - intros y Hy. change (compare_op OEq (cell y "id") (PStr i) && true = false). by rewrite (proj1 (unlike_compare i _ y Hu Hy)).
  - change (compare_op OEq (cell x "id") (PStr i) && true = true). by rewrite Hi, eq_str, String.eqb_refl.
  - by apply (violates_unlike _ _ i).
Qed.
Lemma execute_delete_one t w pre x post i : rows_of (w_db w) t = app pre (x :: post) -> cell x "id" = PStr i -> unlike i (app pre post) ->
  execute_delete t (by_id (PStr i)) w = (Ok 1%nat, set_db (set_rows t (app pre post) (w_db w)) w).
Proof.
  intros Hw Hi Hu. unfold execute_delete, gets, bind, modify, ret. rewrite Hw.
  assert (Hs : forall y, y ∈ app pre post -> selects (by_id (PStr i)) y = false).
  { intros y Hy. change (compare_op OEq (cell y "id") (PStr i) && true = false). by rewrite (proj1 (unlike_compare i _ y Hu Hy)). }
  assert (Hx : selects (by_id (PStr i)) x = true).
  { change (compare_op OEq (cell x "id") (PStr i) && true = true). by rewrite Hi, eq_str, String.eqb_refl. }
  assert (Hk : forall l : list row, (forall y, y ∈ l -> y ∈ app pre post) -> filter (fun y => selects (by_id (PStr i)) y = false) l = l).
  { induction l as [|y l IH]; intros Hl; [done|]. rewrite filter_cons, decide_True by (apply Hs, Hl; by left). f_equal. apply IH. set_solver. }
  rewrite filter_app, filter_cons, decide_False by congruence. rewrite !Hk by set_solver.
  rewrite !length_app. cbn. by replace (length pre + S (length post) - (length pre + length post)) with 1 by lia.
Qed.

(** Writing back an object that was loaded from a row and then assigned to *)
Lemma update_loaded ctx t cls dup nf w pre x post f values :
  has_column t "tenant_id" = false -> has_column t "deleted" = false -> is_list_class registry cls = false ->
  in_FIELDS registry cls "id" = true -> "id" ∉ t_onupdate t ->
  NoDup values.*1 -> (forall n, n ∈ values.*1 -> in_FIELDS registry cls n = true) -> "id" ∉ values.*1 ->
  identified t w -> rows_of (w_db w) t = app pre (x :: post) -> loaded_from t cls x (PObj cls f [] []) ->
  exists obj x', update registry (PObj cls f [] []) values = Ok obj /\ getattr registry obj "id" = Ok (cell x "id") /\
    (forall n v, (n, v) ∈ values -> n <> "version" -> n ∉ t_onupdate t -> cell x' n = v \/ cell x' n = cell x n /\ py_eq v (cell x n) = true) /\
    (forall n, n ∉ values.*1 -> n <> "version" -> n ∉ t_onupdate t -> cell x' n = cell x n) /\
    ((forall y, y ∈ app pre post -> existsb (clash x' y) (t_unique t) = false) ->
     exists o, _update ctx t obj dup nf [] w = (Ok o, set_db (set_rows t (app pre (x' :: post)) (w_db w)) w)).
Proof.
  intros Htn Hdl Hls Hidf Hidu Hkeys HF Hnid Hident Hw (f0 & [= <-] & Hf).
  destruct (identified_at t w pre x post Hident Hw) as (i & Hi & Hu).
  destruct (update_Ok cls f [] [] values HF) as [o Ho].
  destruct (update_reads _ _ _ _ _ _ Hkeys Ho) as (f' & ch' & og' & -> & Hf' & Hin & Hdc & _ & Hch).
  assert (Hchn : forall n, n ∈ ch' -> n ∈ values.*1) by (intros n [?|[]%elem_of_nil]%Hin; done).
  destruct (collect_reads (PObj cls f' ch' og') ch' (fun n => aget n f')) as (d & Hd & Hdn & Hr).
  { intros n Hn. apply Hchn in Hn. pose proof (HF n Hn) as HFn. apply list_elem_of_fmap in Hn as ([k v] & -> & Hv). cbn [fst] in *. exists v.
    assert (E : aget k f' = Some v) by (rewrite Hf'; by rewrite (aget_elem_NoDup k v _ Hkeys Hv)).
    split; [exact E|]. unfold getattr. rewrite HFn. cbn [negb]. by rewrite E. }
  assert (Hid : aget "id" f' = Some (PStr i)).
  { rewrite Hf', (proj2 (aget_None_elem "id" values) Hnid), Hf by done. unfold cell in Hi. destruct (aget "id" x); [by f_equal|done]. }
  set (x' := assign t d (has_column t "version") (w_now w) x).
  assert (Hdk : NoDup d.*1) by (rewrite Hdn; apply Hdc, NoDup_nil_2).
  assert (Hg : forall n, n <> "version" -> n ∉ t_onupdate t -> cell x' n = match (if mem_str n ch' then aget n f' else None) with Some v => v | None => cell x n end).
  { intros n Hn1 Hn2. rewrite <- Hr. by apply assign_cell. }
  assert (Hnot : forall n, n ∉ values.*1 -> mem_str n ch' = false).
  { intros n Hn. destruct (mem_str n ch') eqn:Hm; [|done]. apply mem_str_elem in Hm. by apply Hchn in Hm. }
  exists (PObj cls f' ch' og'), x'. split_and!; [exact Ho|unfold getattr; rewrite Hidf, Hid; cbn [negb]; by rewrite Hi| | |].
  - intros n v Hv Hn1 Hn2. rewrite Hg by done.
    assert (E : aget n f' = Some v) by (rewrite Hf'; by rewrite (aget_elem_NoDup n v _ Hkeys Hv)). rewrite E.
    destruct (Hch n v Hv) as [Hc|(cur & Hcur & He)]; [rewrite (proj2 (mem_str_elem n ch') Hc); by left|].
    destruct (mem_str n ch'); [by left|]. right. split; [done|]. unfold cell. rewrite <- Hf, Hcur; [done|].
    apply HF, list_elem_of_fmap. by exists (n, v).
  - intros n Hn Hn1 Hn2. by rewrite Hg, Hnot by done.
  - intros Hc. assert (Hxi : cell x' "id" = PStr i) by (by rewrite Hg, Hnot by done).
    unfold _update, bind, lift, try_except.
    assert (obj_get_changes registry (PObj cls f' ch' og') = Ok d) as -> by (unfold obj_get_changes, obj_what_changed; by rewrite Hls).
    cbv beta iota. change (without [] d) with d. unfold getattr. rewrite Hidf, Hid. cbn [negb].
    assert (Hq : _apply_deleted_criteria ctx t (_apply_tenant_criteria ctx t (by_id (PStr i)) true) = by_id (PStr i)).
    { unfold _apply_deleted_criteria, _apply_tenant_criteria. by rewrite Htn, Hdl. }
    cbv beta iota. rewrite Hq, (execute_update_one t d _ w pre x post i) by done. cbv beta iota. unfold raise_if, execute_select, bind, gets, ret. cbn [negb Nat.eqb].
    match goal with |- context [_set_object_from_model _ ?m] => destruct (set_object_Ok cls f' ch' og' m) as [f2 E2] end. rewrite E2. by eexists.
Qed.
End Rows.

(** ** An environment that counts: its identifiers are strokes *)
Fixpoint ones (n : nat) : string := match n with O => "" | S n => String "1" (ones n) end.
Lemma ones_length n : String.length (ones n) = n.
Proof. induction n as [|n IH]; [done|]. cbn. by rewrite IH. Qed.
Lemma ones_inj n m : ones n = ones m -> n = m.
Proof. intros E%(f_equal String.length). by rewrite !ones_length in E. Qed.
Definition counting_env : Env :=
  {| enforce := fun _ _ _ => true; uuid4 := fun n => ones (S n); conf_int := fun _ => 0%Z; conf_str := fun o => o;
     re_search := fun _ _ => None; min_ttl := None; md5_hex := fun s => s |}.
Lemma counting_fresh n m : @uuid4 counting_env n = @uuid4 counting_env m -> n = m.
Proof. intros E%ones_inj. lia. Qed.
