(* ===== verification/ObjectTypes.v ===== *)
(** * The types of objects

    The objects the program handles have the attributes their class declares: an
    object of a class sets only names in its FIELDS, each once, and what it records
    of changes is about attributes that are set. Every operation on objects keeps
    this, and storage gives back nothing else. *)
From Stdlib Require Import ZArith Lia Ascii String.
From stdpp Require Import base option numbers strings sets list.
From S2P Require Import Prelude PyStr Exceptions Values Objects Classes World Sql SqlFacts.
Local Open Scope string_scope.

Record well_typed (cls : string) (f : list (string * pyval)) (ch : list string) (og : list (string * pyval)) : Prop := {
  declared : forall n, n ∈ f.*1 -> in_FIELDS registry cls n = true;
  set_once : NoDup f.*1;
  changes_set : forall n, n ∈ ch -> n ∈ f.*1;
  originals_set : forall n, n ∈ og.*1 -> n ∈ f.*1;
}.
Definition typed (cls : string) (o : pyval) : Prop := exists f ch og, o = PObj cls f ch og /\ well_typed cls f ch og.
(** As it was loaded. *)
Definition unchanged (o : pyval) : Prop := match o with PObj _ _ ch og => ch = [] /\ og = [] | _ => False end.

Lemma typed_obj cls o : typed cls o -> is_obj cls o.
Proof. intros (f & ch & og & -> & _). by do 3 eexists. Qed.
Lemma typed_new cls : typed cls (PObj cls [] [] []).
Proof. do 3 eexists. split; [done|]. split; cbn; try constructor; by intros n ?%not_elem_of_nil. Qed.

(** ** Operations on objects *)
Lemma setattr_typed cls o n v o' : typed cls o -> setattr registry o n v = Ok o' -> typed cls o'.
Proof.
  intros (f & ch & og & -> & [Hd Hn Hc Ho]). cbn [setattr].
  destruct (in_FIELDS registry cls n) eqn:Hin; cbn [negb]; [|done].
  assert (Hd' : forall m, m ∈ (aset n v f).*1 -> in_FIELDS registry cls m = true).
  { intros m [->|Hm]%aset_elem_keys; [done|by apply Hd]. }
  assert (Hadd : forall m, m ∈ add_name n ch -> m ∈ (aset n v f).*1).
  { intros m [->|Hm]%(add_name_elem registry); apply aset_elem_keys; [by left|right; by apply Hc]. }
  destruct (aget n f) as [cur|] eqn:Hcur; intros [= <-]; do 3 eexists; (split; [done|]);
    (split; [done|by apply aset_NoDup|intros m Hm|intros m Hm]).
  - destruct (negb _); [by apply Hadd|]. apply aset_elem_keys. right. by apply Hc.
  - apply aset_elem_keys. destruct (_ && _); [|right; by apply Ho].
    apply aset_elem_keys in Hm as [->|Hm]; [by left|right; by apply Ho].
  - by apply Hadd.
  - apply aset_elem_keys. right. by apply Ho.
Qed.
Lemma update_typed cls o values o' : typed cls o -> update registry o values = Ok o' -> typed cls o'.
Proof.
  revert o. induction values as [|[k v] values IH]; intros o Ho; cbn [update]; [by intros [= <-]|].
  destruct (setattr registry o k v) as [o1|] eqn:Hs; cbn [rbind]; [|done]. apply IH. by eapply setattr_typed.
Qed.
Lemma FIELDS_NoDup cls : NoDup (fields_of registry cls).*1.
Proof.
  unfold fields_of, registry. destruct (aget cls classes) as [k|] eqn:Hk; [|constructor].
  apply aget_Some_elem in Hk.
  assert (Hall : Forall (fun x => NoDup (k_fields x.2).*1) classes).
  { apply (bool_decide_eq_true_1 (Forall (fun x => NoDup (k_fields x.2).*1) classes)). vm_compute. reflexivity. }
  exact (proj1 (Forall_forall _ _) Hall _ Hk).
Qed.
Lemma in_order_keys {A} cls (f : list (string * A)) n :
  n ∈ (in_order registry cls f).*1 <-> in_FIELDS registry cls n = true /\ n ∈ f.*1.
Proof.
  unfold in_order, in_FIELDS. rewrite mem_str_elem. rewrite list_elem_of_fmap. split.
  - intros ([m w] & -> & (k & Hk & Hm)%list_elem_of_omap). destruct (aget k f) as [x|] eqn:Hx; [|done].
    injection Hm as -> ->. split; [done|]. apply aget_Some_elem in Hx. apply list_elem_of_fmap. by exists (m, w).
  - intros [Hin Hf]. destruct (aget n f) as [w|] eqn:Hw; [|by apply aget_None_elem in Hw].
    exists (n, w). split; [done|]. apply list_elem_of_omap. exists n. split; [done|]. by rewrite Hw.
Qed.
Lemma in_order_NoDup {A} cls (f : list (string * A)) : NoDup (in_order registry cls f).*1.
Proof.
  unfold in_order. pose proof (FIELDS_NoDup cls) as Hn. revert Hn.
  generalize (fields_of registry cls).*1. intros l. induction 1 as [|n l Hn Hl IH]; cbn; [constructor|].
  destruct (aget n f) as [w|]; cbn; [|done]. constructor; [|done].
  intros ([m x] & -> & (k & Hk & Hm)%list_elem_of_omap)%list_elem_of_fmap.
  destruct (aget k f); [|done]. by injection Hm as -> ->.
Qed.
Lemma deepcopy_typed cls o : typed cls o -> typed cls (deepcopy registry o).
Proof.
  intros (f & ch & og & -> & [Hd Hn Hc Ho]). cbn [deepcopy].
  set (f' := map _ f). assert (Hkeys : f'.*1 = f.*1) by (unfold f'; by rewrite map_map).
  do 3 eexists. split; [done|]. split.
  - by intros n [? _]%in_order_keys.
  - apply in_order_NoDup.
  - intros n Hin%Hc. apply in_order_keys. rewrite Hkeys. auto.
  - intros n. unfold fresh_originals. destruct (aget "objects" f) as [v|] eqn:Hobj; [|by intros ?%not_elem_of_nil].
    assert (Hin : "objects" ∈ (in_order registry cls f').*1).
    { apply in_order_keys. rewrite Hkeys. apply aget_Some_elem in Hobj.
      assert ("objects" ∈ f.*1) by (apply list_elem_of_fmap; by exists ("objects", v)). auto. }
    destruct v as [| | | |[|? ?]| |]; try (by intros ?%not_elem_of_nil).
    destruct (is_list_class registry cls); [|by intros ?%not_elem_of_nil].
    cbn. by intros [->|?%not_elem_of_nil]%elem_of_cons.
Qed.
Lemma reset_typed cls o : typed cls o -> typed cls (obj_reset_changes o []) /\ unchanged (obj_reset_changes o []).
Proof.
  intros (f & ch & og & -> & [Hd Hn Hc Ho]). split; [|done]. do 3 eexists. split; [done|].
  split; [done|done|by intros n ?%not_elem_of_nil..].
Qed.

(** ** What storage gives back *)
Section Storage.
Context `{Env} `{SqlEngine}.

Lemma lift_Ok {A} (r : R A) (w : world) a w' : lift r w = (Ok a, w') -> r = Ok a.
Proof. by intros [= ->]. Qed.
Lemma load_columns_typed cls names model o o' :
  typed cls o -> load_columns names model o = Ok o' -> typed cls o'.
Proof.
  revert o. induction names as [|n names IH]; intros o Ho; cbn [load_columns]; [by intros [= <-]|].
  destruct (aget n model) as [v|]; [|by apply IH].
  destruct (setattr registry o n v) as [o1|] eqn:Hs; cbn [rbind]; [|done]. apply IH. by eapply setattr_typed.
Qed.
Lemma set_object_typed cls o model o' :
  typed cls o -> _set_object_from_model o model = Ok o' -> typed cls o' /\ unchanged o'.
Proof.
  intros Ho. unfold _set_object_from_model. destruct model as [m|]; cbn [rbind].
  - destruct (load_columns _ m o) as [o1|] eqn:Hl; cbn [rbind]; [|done]. intros [= <-].
    apply reset_typed. by eapply load_columns_typed.
  - intros [= <-]. by apply reset_typed.
Qed.
Lemma set_list_typed list_cls cls models o :
  _set_listobject_from_models list_cls cls models = Ok o ->
  exists l, o = PObj list_cls [("objects", PList l)] [] [] /\ Forall (fun x => typed cls x /\ unchanged x) l.
Proof.
  unfold _set_listobject_from_models. destruct (rmap _ models) as [l|] eqn:Hl; cbn [rbind]; [|done].
  intros [= <-]. exists l. split; [done|]. revert l Hl.
  induction models as [|m models IH]; intros l; cbn [rmap]; [by intros [= <-]|].
  destruct (_set_object_from_model (PObj cls [] [] []) (Some m)) as [x|] eqn:Hx; cbn [rbind]; [|done].
  destruct (rmap _ models) as [xs|]; cbn [rbind]; [|done]. intros [= <-].
  constructor; [|by apply IH]. eapply set_object_typed; [|exact Hx]. apply typed_new.
Qed.
Lemma _update_typed cls ctx t o dup nf skip w o' w' :
  typed cls o -> _update ctx t o dup nf skip w = (Ok o', w') -> typed cls o' /\ unchanged o'.
Proof.
  intros Ho (values & w1 & _ & Hr)%bind_Ok. apply bind_Ok in Hr as (id & w2 & _ & Hr).
  apply bind_Ok in Hr as (n & w3 & _ & Hr). apply bind_Ok in Hr as (? & w4 & _ & Hr).
  apply bind_Ok in Hr as (rows & w5 & _ & Hr). injection Hr as Hr _. by eapply set_object_typed.
Qed.
Lemma _delete_typed cls ctx t o nf hard w o' w' :
  typed cls o -> _delete ctx t o nf hard w = (Ok o', w') -> typed cls o' /\ unchanged o'.
Proof.
  intros Ho (id & w1 & _ & Hr)%bind_Ok. destruct (has_column t "deleted" && negb hard).
  - apply bind_Ok in Hr as (now & w2 & _ & Hr). destruct id; try done.
    apply bind_Ok in Hr as (o1 & w3 & Hu & Hr). apply lift_Ok in Hu.
    eapply _update_typed; [|exact Hr]. by eapply update_typed.
  - apply bind_Ok in Hr as (n & w2 & _ & Hr). apply bind_Ok in Hr as (? & w3 & _ & Hr).
    apply bind_Ok in Hr as (rows & w4 & _ & Hr). injection Hr as Hr _. by eapply set_object_typed.
Qed.

(** Objects are well typed, wherever they come from. Whatever the database
    holds, an object that storage creates, changes, deletes or finds is of the
    class asked for, sets declared attributes only, each once, and counts as
    unchanged; so do all objects of a list that it finds. Copies, which the retry
    decorator makes of every argument, and assignments keep this. And in a
    well-typed object every declared attribute that is no relation can be read and
    every declared attribute can be assigned: neither raises. *)
Theorem storage_objects_typed ctx t cls :
  (forall o dup skip extra w o' w', typed cls o ->
     _create t o dup skip extra w = (Ok o', w') -> typed cls o' /\ unchanged o') /\
  (forall o dup nf skip w o' w', typed cls o ->
     _update ctx t o dup nf skip w = (Ok o', w') -> typed cls o' /\ unchanged o') /\
  (forall o nf hard w o' w', typed cls o ->
     _delete ctx t o nf hard w = (Ok o', w') -> typed cls o' /\ unchanged o') /\
  (forall nf c at_ w o w', _find_one ctx t cls nf c at_ w = (Ok o, w') -> typed cls o /\ unchanged o) /\
  (forall list_cls c pg at_ w o w', _find ctx t cls list_cls c pg at_ w = (Ok o, w') ->
     exists l, o = PObj list_cls [("objects", PList l)] [] [] /\ Forall (fun x => typed cls x /\ unchanged x) l) /\
  (forall o, typed cls o -> typed cls (deepcopy registry o) /\
     forall n, in_FIELDS registry cls n = true ->
       (is_relation registry cls n = false -> exists v, getattr registry o n = Ok v) /\
       forall v, exists o', setattr registry o n v = Ok o' /\ typed cls o').
Proof.
  split_and!.
  - intros o dup skip extra w o' w' Ho (values & w1 & _ & Hr)%bind_Ok.
    apply bind_Ok in Hr as (key & w2 & _ & Hr). apply bind_Ok in Hr as (rows & w3 & _ & Hr).
    injection Hr as Hr _. by eapply set_object_typed.
  - intros. by eapply _update_typed.
  - intros. by eapply _delete_typed.
  - intros nf c at_ w o w' (q & w1 & _ & Hr)%bind_Ok. apply bind_Ok in Hr as (rows & w2 & _ & Hr).
    destruct rows as [|r [|]]; try done. injection Hr as Hr _.
    eapply set_object_typed; [apply typed_new|exact Hr].
  - intros list_cls c pg at_ w o w' (q & w1 & _ & Hr)%bind_Ok. apply bind_Ok in Hr as (m & w2 & _ & Hr).
    apply bind_Ok in Hr as (q' & w3 & _ & Hr). apply bind_Ok in Hr as (rows & w4 & _ & Hr).
    injection Hr as Hr _. by eapply set_list_typed.
  - intros o Ho. split; [by apply deepcopy_typed|]. intros n Hn. pose proof (typed_obj _ _ Ho) as Hobj. split.
    + intros Hrel. eexists. by apply (getattr_plain cls).
    + intros v. destruct (setattr_field cls o n v Hobj Hn) as (o' & Hs & _). exists o'.
      split; [done|]. by eapply setattr_typed.
Qed.
End Storage.
