(* ===== verification/Rrdata.v ===== *)
(** * Resource record data (designate/objects/rrdata_*.py)

    One class per record type, with the fields it adds to Record, the text form of
    its data and its parser. The text form is what a user sends and what is
    stored. *)
From Stdlib Require Import ZArith Lia Ascii String DecimalString.
From stdpp Require Import base option numbers strings sets list.
From S2P Require Import Prelude PyStr Exceptions.
Local Open Scope string_scope.

Inductive rtype := A | AAAA | CNAME | MX | NS | PTR | SOA | SPF | SRV | SSHFP | TXT.
#[global] Instance rtype_eq_dec : EqDecision rtype.
Proof. solve_decision. Defined.

Inductive rdata :=
| AData (address : string)
| AAAAData (address : string)
| CNAMEData (cname : string)
| MXData (priority : Z) (exchange : string)
| NSData (nsdname : string)
| PTRData (ptrdname : string)
| SOAData (mname rname : string) (serial refresh retry expire minimum : Z)
| SPFData (txt_data : string)
| SRVData (priority weight port : Z) (target : string)
| SSHFPData (algorithm fp_type : Z) (fingerprint : string)
| TXTData (txt_data : string).

Definition type_of (r : rdata) : rtype :=
  match r with
  | AData _ => A | AAAAData _ => AAAA | CNAMEData _ => CNAME | MXData _ _ => MX | NSData _ => NS | PTRData _ => PTR
  | SOAData _ _ _ _ _ _ _ => SOA | SPFData _ => SPF | SRVData _ _ _ _ => SRV | SSHFPData _ _ _ => SSHFP
  | TXTData _ => TXT
  end.
(** [obj_cls_from_name], for the names of record types *)
Definition rtype_of_name (name : string) : option rtype :=
  aget name
    [("A", A); ("AAAA", AAAA); ("CNAME", CNAME); ("MX", MX); ("NS", NS); ("PTR", PTR); ("SOA", SOA); ("SPF", SPF);
     ("SRV", SRV); ("SSHFP", SSHFP); ("TXT", TXT)].

(** ["..." % values] of strings *)
Definition words (l : list string) : string := join " " l.
(** [_to_string] *)
Definition _to_string (r : rdata) : string :=
  match r with
  | AData address | AAAAData address => address
  | CNAMEData cname => cname
  | MXData priority exchange => words [str_of_Z priority; exchange]
  | NSData nsdname => nsdname
  | PTRData ptrdname => ptrdname
  | SOAData mname rname serial refresh retry expire minimum =>
      words [mname; rname; str_of_Z serial; str_of_Z refresh; str_of_Z retry; str_of_Z expire; str_of_Z minimum]
  | SPFData txt_data | TXTData txt_data => txt_data
  | SRVData priority weight port target => words [str_of_Z priority; str_of_Z weight; target; str_of_Z port]
  | SSHFPData algorithm fp_type fingerprint => words [str_of_Z algorithm; str_of_Z fp_type; fingerprint]
  end.

Definition int (s : string) : R Z := match int_of_str s with Some n => Ok n | None => Raise (Py PyValueError) end.
(** [repr] of an integer: a long one, past 64 bits, ends in L. *)
Definition repr_int (n : Z) : string :=
  str_of_Z n ++ (if (n <? - 2 ^ 63)%Z || (2 ^ 63 - 1 <? n)%Z then "L" else "").
Definition canonical (s : string) : R Z :=
  let? n := int s in if String.eqb (repr_int n) s then Ok n else Raise (Py PyValueError).

(** [_from_string], by type; too few or too many values to unpack are a ValueError. *)
Definition unpack {B} : R B := Raise (Py PyValueError).
Definition mx_from_string (value : string) : R rdata :=
  match split_char " " value with
  | [priority; exchange] => let? n := canonical priority in Ok (MXData n exchange)
  | _ => unpack
  end.
Definition soa_from_string (value : string) : R rdata :=
  match split_char " " value with
  | [mname; rname; serial; refresh; retry; expire; minimum] =>
      let? serial := int serial in let? refresh := int refresh in let? retry := int retry in
      let? expire := int expire in let? minimum := int minimum in
      Ok (SOAData mname rname serial refresh retry expire minimum)
  | _ => unpack
  end.
Definition srv_from_string (value : string) : R rdata :=
  match split_char " " value with
  | [priority; weight; port; target] =>
      let? priority := int priority in let? weight := int weight in let? port := int port in
      Ok (SRVData priority weight port target)
  | _ => unpack
  end.
Definition sshfp_from_string (value : string) : R rdata :=
  match split_char " " value with
  | [algorithm; fp_type; fingerprint] =>
      let? a := canonical algorithm in let? f := canonical fp_type in Ok (SSHFPData a f fingerprint)
  | _ => unpack
  end.
Definition _from_string (t : rtype) (value : string) : R rdata :=
  match t with
  | A => Ok (AData value)
  | AAAA => Ok (AAAAData value)
  | CNAME => Ok (CNAMEData value)
  | MX => mx_from_string value
  | NS => Ok (NSData value)
  | PTR => Ok (PTRData value)
  | SOA => soa_from_string value
  | SPF => Ok (SPFData value)
  | SRV => srv_from_string value
  | SSHFP => sshfp_from_string value
  | TXT => Ok (TXTData value)
  end.

(** [get_recordset_schema_changes]: the format of the name of the record set. *)
Definition get_recordset_schema_changes (t : rtype) : option string :=
  match t with NS => Some "ns-hostname" | SRV => Some "srv-hostname" | _ => None end.

(** ** Round trips *)

(** A name holds no space; an integer that the parser wants in canonical form fits
    into 64 bits. *)
Definition small (n : Z) : Prop := (- 2 ^ 63 <= n < 2 ^ 63)%Z.
Definition word (s : string) : Prop := has_char " " s = false.
Definition parsable (r : rdata) : Prop :=
  match r with
  | MXData priority exchange => small priority /\ word exchange
  | SOAData mname rname _ _ _ _ _ => word mname /\ word rname
  | SRVData _ _ _ target => word target
  | SSHFPData algorithm fp_type fingerprint => small algorithm /\ small fp_type /\ word fingerprint
  | _ => True
  end.

Lemma int_str n : int (str_of_Z n) = Ok n.
Proof. unfold int. by rewrite int_of_str_of_Z. Qed.
Lemma canonical_str n : small n -> canonical (str_of_Z n) = Ok n.
Proof.
  intros Hn. unfold canonical. rewrite int_str. cbn [rbind]. unfold repr_int, small in *.
  replace ((n <? - 2 ^ 63)%Z || (2 ^ 63 - 1 <? n)%Z) with false by lia. rewrite sapp_nil_r.
  by rewrite String.eqb_refl.
Qed.
Lemma canonical_Ok s n : canonical s = Ok n -> small n -> str_of_Z n = s.
Proof.
  unfold canonical. destruct (int s) as [m|]; cbn [rbind]; [|done]. destruct (String.eqb_spec (repr_int m) s) as [<-|]; [|done].
  intros [= ->] Hn. unfold repr_int, small in *.
  replace ((n <? - 2 ^ 63)%Z || (2 ^ 63 - 1 <? n)%Z) with false by lia. by rewrite sapp_nil_r.
Qed.
Lemma no_space_word s : no_space s = true -> word s.
Proof.
  unfold no_space, word. induction s as [|a s IH]; cbn; [done|]. intros [Ha Hs]%andb_true_iff.
  destruct (Ascii.eqb_spec a " ") as [->|Hne]; [done|by apply IH].
Qed.
Lemma str_of_Z_word n : word (str_of_Z n).
Proof.
  unfold str_of_Z. destruct (Z.to_int n) as [u|u]; cbn [NilZero.string_of_int].
  - apply no_space_word, uint_str_no_space.
  - apply no_space_word. exact (uint_str_no_space u).
Qed.
Lemma split_words l : Forall word l -> l <> [] -> split_char " " (words l) = l.
Proof.
  induction 1 as [|w l Hw Hl IH]; [done|]. intros _. destruct l as [|w' l]; [by apply split_char_word|].
  change (words (w :: w' :: l)) with (w ++ String " " (words (w' :: l))). rewrite split_char_app by done. by rewrite IH.
Qed.
Lemma words_split s l : split_char " " s = l -> words l = s.
Proof. intros <-. apply join_split_char. Qed.
#[local] Hint Resolve str_of_Z_word : words.
Ltac split_fields := rewrite split_words by (repeat constructor; auto with words).

(** C39: what is printed parses back. The text of a record of any type but SRV parses
    to the very record; the SRV text puts the target before the port where the
    parser wants the port, so it raises a ValueError unless the target is a numeral,
    and then port and target are exchanged. The other way, the text of a record that
    parses is the text that was given, for every type whose parser insists on
    canonical integers or has none. *)
Theorem rdata_round_trip r :
  parsable r ->
  match r with
  | SRVData priority weight port target =>
      _from_string SRV (_to_string r) =
        (let? n := int target in Ok (SRVData priority weight n (str_of_Z port)))
  | _ => _from_string (type_of r) (_to_string r) = Ok r
  end /\
  (type_of r ∉ [SOA; SRV] -> forall s, _from_string (type_of r) s = Ok r -> _to_string r = s).
Proof.
  intros Hr. split.
  - destruct r; cbn [_to_string _from_string type_of parsable] in *; try done; destruct_and?;
      unfold mx_from_string, soa_from_string, srv_from_string, sshfp_from_string; split_fields; cbn;
      by rewrite ?canonical_str, ?int_str.
  - intros Hty s. destruct r; cbn [_to_string _from_string type_of parsable] in *; try (by intros [= ->]);
      try (exfalso; set_solver); destruct_and?; unfold mx_from_string, sshfp_from_string; destruct (split_char " " s) as [|f1 [|f2 [|f3 [|]]]] eqn:Hs; try done;
      apply words_split in Hs; subst s.
    + destruct (canonical f1) as [n|] eqn:Hn; cbn [rbind]; [|done]. intros [= -> ->]. by rewrite (canonical_Ok f1).
    + destruct (canonical f1) as [n|] eqn:Hn; cbn [rbind]; [|done].
      destruct (canonical f2) as [m|] eqn:Hm; cbn [rbind]; [|done]. intros [= -> -> ->].
      by rewrite (canonical_Ok f1), (canonical_Ok f2).
Qed.

(** The text of an SRV record is refused, that of an SOA record comes back. *)
Lemma rdata_round_trip_witness :
  let soa := SOAData "ns.a." "x.a." 5 6 7 8 9 in
  let srv := SRVData 0 5 5060 "sip.a." in
  _from_string SOA (_to_string soa) = Ok soa /\ _to_string srv = "0 5 sip.a. 5060" /\
  _from_string SRV (_to_string srv) = Raise (Py PyValueError).
Proof.
  cbv zeta. split; [|split; [reflexivity|]].
  - exact (proj1 (rdata_round_trip (SOAData "ns.a." "x.a." 5 6 7 8 9) (conj eq_refl eq_refl))).
  - exact (proj1 (rdata_round_trip (SRVData 0 5 5060 "sip.a.") eq_refl)).
Defined.
