(* ===== verification/Formats.v ===== *)
(** * Format checks (designate/schema/format.py)

    The formats of the object schemas. The regular expressions of the source are
    values of [regex], with the constructs they use and Python's matching as the
    enumeration of the ways to match; they are written as in the source. *)
From Stdlib Require Import ZArith Lia Ascii String.
From stdpp Require Import base option numbers strings sets list.
From S2P Require Import Prelude PyStr Values.
Local Open Scope string_scope.

(** ** Regular expressions *)
Inductive regex :=
| Eps
| Char (p : ascii -> bool)
| Cat (r1 r2 : regex)
| Alt (r1 r2 : regex)
| Rep (r : regex) (min : nat) (max : option nat)   (* r{min,max}; no max: at least min *)
| NotAhead (r : regex)                             (* (?!r) *)
| NotBehind (p : ascii -> bool)                    (* (?<!c), one character *)
| AtStart | AtEnd.

(** A place in the text: what is before it, last character first, and after it. *)
Abbreviation place := (list ascii * list ascii)%type.

Fixpoint repeated (f : place -> list place) (min max : nat) (s : place) : list place :=
  app (if (min =? 0)%nat then [s] else [])
    (match max with O => [] | S max => concat (map (repeated f (pred min) max) (f s)) end).
(** The places where a match that begins at a place can end. Without a maximum there
    are at most as many repetitions as characters: no body here is empty. *)
Fixpoint ends (r : regex) (s : place) : list place :=
  match r with
  | Eps => [s]
  | Char p => match s.2 with a :: after => if p a then [(a :: s.1, after)] else [] | [] => [] end
  | Cat r1 r2 => concat (map (ends r2) (ends r1 s))
  | Alt r1 r2 => app (ends r1 s) (ends r2 s)
  | Rep r min max => repeated (ends r) min (default (length s.2) max) s
  | NotAhead r => match ends r s with [] => [s] | _ => [] end
  | NotBehind p => match s.1 with a :: _ => if p a then [] else [s] | [] => [s] end
  | AtStart => match s.1 with [] => [s] | _ => [] end
  | AtEnd => match s.2 with [] => [s] | _ => [] end
  end.
(** [re.match(r, s)] *)
Definition re_match (r : regex) (s : string) : bool :=
  match ends r ([], list_ascii_of_string s) with [] => false | _ => true end.

(** ** The expressions of the source *)
Definition chr (c : ascii) : regex := Char (Ascii.eqb c).
Definition cats : list regex -> regex := foldr Cat Eps.
Fixpoint alts (l : list regex) : regex :=
  match l with [] => NotAhead Eps | [r] => r | r :: l => Alt r (alts l) end.
Definition opt (r : regex) : regex := Rep r 0 (Some 1%nat).
Definition times (n : nat) (r : regex) : regex := Rep r n (Some n).
Definition plus (r : regex) : regex := Rep r 1 None.
Definition lit (s : string) : regex := cats (map chr (list_ascii_of_string s)).
Definition range (lo hi : ascii) : regex := Char (in_range lo hi).
Definition alnum (a : ascii) : bool := is_upper a || is_lower a || is_digit a.
(** [[A-Za-z0-9_\-]] *)
Definition name_char (a : ascii) : bool := alnum a || Ascii.eqb a "_" || Ascii.eqb a "-".
Definition is_hex (a : ascii) : bool := is_digit a || in_range "a" "f" a || in_range "A" "F" a.
(** [.] *)
Definition not_newline (a : ascii) : bool := negb (Ascii.eqb a "010").
(** [(?!.{255,})] *)
Definition below_255 : regex := NotAhead (Rep (Char not_newline) 255 None).
Definition dash : ascii -> bool := Ascii.eqb "-".
(** [(?!\-)[A-Za-z0-9_\-]{1,63}] *)
Definition undashed : regex := Cat (NotAhead (Char dash)) (Rep (Char name_char) 1 (Some 63%nat)).
(** [(?!\-)[A-Za-z0-9_\-]{1,63}(?<!\-)] *)
Definition label : regex := Cat undashed (NotBehind dash).
(** [(?:(?!\-)[A-Za-z0-9_\-]{1,63}(?<!\-)\.)] *)
Definition dotted_label : regex := Cat label (chr ".").

Definition RE_ZONENAME : regex := cats [AtStart; below_255; plus dotted_label; AtEnd].
Definition RE_HOSTNAME : regex :=
  cats [AtStart; below_255;
        plus (cats [Alt (Cat AtStart (chr "*")) undashed; NotBehind dash; chr "."]); AtEnd].
Definition RE_SRV_HOST_NAME : regex :=
  cats [AtStart; Cat (NotAhead (Char dash)) (times 2 (cats [chr "_"; Rep (Char name_char) 1 (Some 63%nat); chr "."]));
        below_255; plus dotted_label; AtEnd].
Definition RE_TLDNAME : regex :=
  cats [AtStart; below_255; label; Rep (Cat (chr ".") label) 0 None; AtEnd].
Definition hex (n : nat) : regex := times n (Char is_hex).
Definition uuid_parts : regex := cats [hex 8; chr "-"; hex 4; chr "-"; hex 4; chr "-"; hex 4; chr "-"; hex 12].
Definition RE_UUID : regex := cats [AtStart; uuid_parts; AtEnd].
Definition digit : regex := range "0" "9".
(** [25[0-5]|2[0-4][0-9]|[01]?[0-9][0-9]?] *)
Definition octet : regex :=
  alts [Cat (lit "25") (range "0" "5"); cats [chr "2"; range "0" "4"; digit];
        cats [opt (range "0" "1"); digit; opt digit]].
Definition port_number : regex :=
  alts [Cat (lit "6553") (range "0" "5"); cats [lit "655"; range "0" "2"; digit]; cats [lit "65"; range "0" "4"; digit; digit];
        cats [chr "6"; range "0" "4"; times 3 digit]; Cat (range "1" "5") (times 4 digit);
        Cat (range "1" "9") (Rep digit 0 (Some 3%nat)); chr "0"].
Definition RE_IP_AND_PORT : regex :=
  cats [AtStart; times 3 (Cat octet (chr ".")); octet; opt (Cat (chr ":") port_number); AtEnd].
Definition region_char (a : ascii) : bool := alnum a || Ascii.eqb a "." || Ascii.eqb a "-" || Ascii.eqb a "_".
Definition RE_FIP_ID : regex := cats [AtStart; Rep (Char region_char) 1 (Some 100%nat); chr ":"; uuid_parts; AtEnd].
Definition RE_SSHFP_FINGERPRINT : regex :=
  cats [AtStart; Alt (Rep (Char is_hex) 10 (Some 40%nat)) (hex 64); AtEnd].

(** ** The checks *)
Section Checks.
(** [str(netaddr.IPAddress(s, version))]; [None] when it raises. *)
Variable ip_address : Z -> string -> option string.

(** What is not a string passes. *)
Definition on_string (f : string -> bool) (instance : pyval) : bool :=
  match instance with PStr s => f s | _ => true end.
Definition is_ipv4 : pyval -> bool := on_string (fun s =>
  match ip_address 4 s with
  | Some canonical => String.eqb canonical s && negb (String.eqb s "0.0.0.0")
  | None => false
  end).
Definition is_ipv6 : pyval -> bool := on_string (fun s => match ip_address 6 s with Some _ => true | None => false end).
Definition is_hostname : pyval -> bool := on_string (re_match RE_HOSTNAME).
Definition is_ns_hostname : pyval -> bool := on_string (re_match RE_ZONENAME).
Definition is_ip_or_host : pyval -> bool := on_string (fun s =>
  re_match RE_ZONENAME s || is_ipv4 (PStr s) || is_ipv6 (PStr s)).
Definition is_zonename : pyval -> bool := on_string (re_match RE_ZONENAME).
Definition is_srv_hostname : pyval -> bool := on_string (re_match RE_SRV_HOST_NAME).
Definition is_txt_data : pyval -> bool := on_string (fun s => negb (endswith "\" s)).
Definition is_tldname : pyval -> bool := on_string (re_match RE_TLDNAME).
Definition is_email : pyval -> bool := on_string (fun s =>
  (count_char "@" s =? 1)%nat && re_match RE_ZONENAME (replace_first "@" "." s ++ ".")).
Definition is_sshfp_fingerprint : pyval -> bool := on_string (re_match RE_SSHFP_FINGERPRINT).
Definition is_uuid : pyval -> bool := on_string (re_match RE_UUID).
Definition is_floating_ip_id : pyval -> bool := on_string (re_match RE_FIP_ID).
Definition is_ip_and_port : pyval -> bool := on_string (re_match RE_IP_AND_PORT).

(** [draft4_format_checker]: the checks by format, of those the module adds. *)
Definition draft4_format_checker : list (string * (pyval -> bool)) :=
  [("ipv4", is_ipv4); ("ipv6", is_ipv6); ("hostname", is_hostname); ("ns-hostname", is_ns_hostname);
   ("ip-or-host", is_ip_or_host); ("domainname", is_zonename); ("zonename", is_zonename);
   ("srv-hostname", is_srv_hostname); ("txt-data", is_txt_data); ("tldname", is_tldname); ("email", is_email);
   ("sshfp", is_sshfp_fingerprint); ("uuid", is_uuid); ("floating-ip-id", is_floating_ip_id);
   ("ipandport", is_ip_and_port)].
End Checks.

Example zonename_examples :
  map (fun s => is_zonename (PStr s)) ["example.org."; "example.org"; "-a.org."; "a-.org."; "a..org."; "."; "*.a."; "_a.b."]
  = [true; false; false; false; false; false; false; true].
Proof. vm_compute. reflexivity. Qed.
Example hostname_examples :
  map (fun s => is_hostname (PStr s)) ["*.example.org."; "a.*.org."; "*"; "example.org."] = [true; false; false; true].
Proof. vm_compute. reflexivity. Qed.
Example other_examples :
  is_uuid (PStr "01234567-89ab-cdef-ABCD-0123456789ab") = true /\ is_uuid (PStr "0123456789abcdefABCD0123456789ab") = false /\
  is_ip_and_port (PStr "192.0.2.1:53") = true /\ is_ip_and_port (PStr "192.0.2.1:65536") = false /\
  is_ip_and_port (PStr "256.0.2.1") = false /\ is_email (PStr "a@b.org") = true /\ is_email (PStr "a@b@c") = false /\
  is_srv_hostname (PStr "_sip._tcp.a.org.") = true /\ is_srv_hostname (PStr "sip._tcp.a.org.") = false /\
  is_tldname (PStr "co.uk") = true /\ is_tldname (PStr "co.uk.") = false.
Proof. vm_compute. by split_and!. Qed.

(** ** What a zone name is *)

(** Labels of 1 to 63 characters that neither begin nor end with a dash. *)
Definition label_ok (l : list ascii) : Prop :=
  (1 <= length l <= 63)%nat /\ Forall (fun a => name_char a = true) l /\
  head l <> Some "-"%char /\ last l <> Some "-"%char.
Definition dotted (labels : list (list ascii)) : list ascii := concat (map (fun l => app l ["."%char]) labels).

Lemma concat_elem {B C} (f : B -> list C) l x : x ∈ concat (map f l) <-> exists y, y ∈ l /\ x ∈ f y.
Proof.
  rewrite list_elem_of_In, in_concat. split.
  - intros (c & Hc & Hx). apply in_map_iff in Hc as (y & <- & Hy). exists y. by rewrite !list_elem_of_In.
  - intros (y & Hy & Hx). exists (f y). split; [|by apply list_elem_of_In]. apply in_map_iff. exists y. by rewrite <- list_elem_of_In.
Qed.
Lemma ends_cats r rs s e : e ∈ ends (cats (r :: rs)) s <-> exists m, m ∈ ends r s /\ e ∈ ends (cats rs) m.
Proof. cbn [cats foldr ends]. apply concat_elem. Qed.
Lemma ends_chr c b a e : e ∈ ends (chr c) (b, a) <-> exists a', a = c :: a' /\ e = (c :: b, a').
Proof.
  cbn [ends chr fst snd]. destruct a as [|x a]; [split; [by intros ?%not_elem_of_nil|by intros (? & ? & _)]|].
  destruct (Ascii.eqb_spec c x) as [->|Hne].
  - rewrite list_elem_of_singleton. split; [intros ->; by exists a|by intros (a' & [= ->] & ->)].
  - split; [by intros ?%not_elem_of_nil|]. intros (? & [= -> _] & _). done.
Qed.

(** A repetition reads one piece after the other. [reads s l e] says that the body
    goes from [s] to [e] over the pieces [l]. *)
Section Repetition.
Context {B : Type} (f : place -> list place) (ok : B -> Prop) (chars : B -> list ascii).
Hypothesis body : forall b a e,
  e ∈ f (b, a) <-> exists x, ok x /\ exists a', a = app (chars x) a' /\ e = (app (rev (chars x)) b, a').
Lemma repeated_elem min max b a e :
  e ∈ repeated f min max (b, a) <->
  exists l, (min <= length l <= max)%nat /\ Forall ok l /\
    exists a', a = app (concat (map chars l)) a' /\ e = (app (rev (concat (map chars l))) b, a').
Proof.
  revert min b a. induction max as [|max IH]; intros min b a; cbn [repeated]; rewrite elem_of_app.
  - split.
    + intros [He|He]; [|by apply not_elem_of_nil in He]. destruct (Nat.eqb_spec min 0); [|by apply not_elem_of_nil in He].
      apply list_elem_of_singleton in He as ->. exists []. split; [cbn; lia|]. split; [constructor|]. by exists a.
    + intros (l & Hl & _ & a' & -> & ->). destruct l; [|cbn in Hl; lia]. left.
      cbn in Hl. destruct (Nat.eqb_spec min 0); [set_solver|lia].
  - rewrite concat_elem. split.
    + intros [He|((b1 & a1) & Hf & He)].
      * destruct (Nat.eqb_spec min 0); [|by apply not_elem_of_nil in He].
        apply list_elem_of_singleton in He as ->. exists []. split; [cbn; lia|]. split; [constructor|]. by exists a.
      * apply body in Hf as (x & Hx & a' & -> & [= -> ->]). apply IH in He as (l & Hl & Hok & a2 & -> & ->).
        exists (x :: l). split; [cbn; lia|]. split; [by constructor|]. exists a2. cbn [map concat].
        rewrite <- app_assoc, rev_app_distr, <- app_assoc. done.
    + intros (l & Hl & Hok & a' & -> & ->). destruct l as [|x l].
      { left. cbn in Hl. destruct (Nat.eqb_spec min 0); [set_solver|lia]. }
      right. apply Forall_cons in Hok as [Hx Hok]. cbn [map concat length] in *.
      exists (app (rev (chars x)) b, app (concat (map chars l)) a'). split.
      * apply body. exists x. split; [done|]. eexists. by rewrite <- app_assoc.
      * apply IH. exists l. split; [lia|]. split; [done|]. exists a'. split; [done|].
        by rewrite rev_app_distr, <- app_assoc.
Qed.
End Repetition.

Lemma char_body p b a e :
  e ∈ ends (Char p) (b, a) <-> exists x, p x = true /\ exists a', a = app [x] a' /\ e = (app (rev [x]) b, a').
Proof.
  cbn [ends fst snd]. destruct a as [|x a]; [split; [by intros ?%not_elem_of_nil|by intros (? & _ & ? & ? & _)]|].
  destruct (p x) eqn:Hp.
  - rewrite list_elem_of_singleton. split; [intros ->; exists x; split; [done|by exists a]|].
    by intros (y & _ & a' & [= <- <-] & ->).
  - split; [by intros ?%not_elem_of_nil|]. intros (y & Hy & a' & [= <- _] & _). congruence.
Qed.
Lemma concat_singletons {B} (l : list B) : concat (map (fun x => [x]) l) = l.
Proof. induction l as [|x l IH]; [done|]. cbn. by rewrite IH. Qed.
Lemma chars_elem p min max b a e :
  e ∈ ends (Rep (Char p) min max) (b, a) <->
  exists l, (min <= length l <= default (length a) max)%nat /\ Forall (fun x => p x = true) l /\
    exists a', a = app l a' /\ e = (app (rev l) b, a').
Proof.
  change (ends (Rep (Char p) min max) (b, a)) with (repeated (ends (Char p)) min (default (length a) max) (b, a)).
  rewrite (repeated_elem _ (fun x => p x = true) (fun x => [x]) (char_body p)). by setoid_rewrite concat_singletons.
Qed.
Lemma head_app_ne {B} (l : list B) l' : l <> [] -> head (app l l') = head l.
Proof. by destruct l. Qed.

Lemma ends_Cat r1 r2 s e : e ∈ ends (Cat r1 r2) s <-> exists m, m ∈ ends r1 s /\ e ∈ ends r2 m.
Proof. apply concat_elem. Qed.
Lemma ends_NotAhead r s e : e ∈ ends (NotAhead r) s <-> e = s /\ ends r s = [].
Proof.
  cbn [ends]. destruct (ends r s); [rewrite list_elem_of_singleton; naive_solver|].
  split; [by intros ?%not_elem_of_nil|naive_solver].
Qed.
Lemma not_ahead_dash b a e : e ∈ ends (NotAhead (Char dash)) (b, a) <-> e = (b, a) /\ head a <> Some "-"%char.
Proof.
  cbn [ends fst snd]. destruct a as [|x a]; cbn [head]; [rewrite list_elem_of_singleton; naive_solver|].
  unfold dash. destruct (Ascii.eqb_spec "-" x) as [<-|Hne].
  - split; [by intros ?%not_elem_of_nil|naive_solver].
  - rewrite list_elem_of_singleton. naive_solver congruence.
Qed.
Lemma not_behind_dash l b a e :
  l <> [] -> e ∈ ends (NotBehind dash) (app (rev l) b, a) <-> e = (app (rev l) b, a) /\ last l <> Some "-"%char.
Proof.
  intros Hne. destruct l as [|x l _] using rev_ind; [done|]. rewrite rev_app_distr, last_snoc. cbn [rev app ends fst].
  unfold dash. destruct (Ascii.eqb_spec "-" x) as [<-|Hx].
  - split; [by intros ?%not_elem_of_nil|naive_solver].
  - rewrite list_elem_of_singleton. naive_solver congruence.
Qed.

Lemma dotted_label_body b a e :
  e ∈ ends dotted_label (b, a) <->
  exists l, label_ok l /\ exists a', a = app (app l ["."%char]) a' /\ e = (app (rev (app l ["."%char])) b, a').
Proof.
  unfold dotted_label, label, undashed. rewrite ends_Cat. setoid_rewrite ends_Cat. setoid_rewrite ends_Cat. split.
  - intros (m & (m1 & (m2 & [-> Hhead]%not_ahead_dash & Hm1) & Hm) & He).
    apply chars_elem in Hm1 as (l & Hlen & Hl & a' & -> & ->). cbn [default from_option id] in Hlen.
    assert (Hne : l <> []) by (destruct l; [cbn in Hlen; lia|done]). rewrite head_app_ne in Hhead by done.
    apply not_behind_dash in Hm as [-> Hlast]; [|done]. apply ends_chr in He as (a2 & -> & ->).
    exists l. split; [done|]. exists a2. rewrite <- app_assoc, rev_app_distr. done.
  - intros (l & (Hlen & Hl & Hhead & Hlast) & a' & -> & ->).
    assert (Hne : l <> []) by (destruct l; [cbn in Hlen; lia|done]).
    exists (app (rev l) b, "."%char :: a'). split.
    + exists (app (rev l) b, "."%char :: a'). split; [|by apply not_behind_dash].
      exists (b, app (app l ["."%char]) a'). rewrite <- app_assoc. split.
      * apply not_ahead_dash. by rewrite head_app_ne.
      * apply chars_elem. by exists l; split; [|split; [|exists ("."%char :: a')]].
    + apply ends_chr. exists a'. by rewrite rev_app_distr.
Qed.
Lemma dotted_labels b a e :
  e ∈ ends (plus dotted_label) (b, a) <->
  exists labels, labels <> [] /\ Forall label_ok labels /\
    exists a', a = app (dotted labels) a' /\ e = (app (rev (dotted labels)) b, a').
Proof.
  change (ends (plus dotted_label) (b, a)) with (repeated (ends dotted_label) 1 (length a) (b, a)).
  rewrite (repeated_elem _ label_ok (fun l => app l ["."%char]) dotted_label_body). split.
  - intros (ls & Hlen & Hok & Hrest). exists ls. split; [by destruct ls; [cbn in Hlen; lia|]|by split].
  - intros (ls & Hne & Hok & a' & Ha & He). exists ls. split; [|by split; [|exists a']].
    split; [destruct ls; [done|cbn; lia]|]. subst a. rewrite length_app. unfold dotted.
    assert (Hcount : forall l : list (list ascii), (length l <= length (concat (map (fun l => app l ["."%char]) l)))%nat).
    { intros l. induction l as [|x l IH]; [done|]. cbn. rewrite !length_app. cbn. lia. }
    specialize (Hcount ls). lia.
Qed.

Lemma nonempty_ends r s : ends r s <> [] <-> exists e, e ∈ ends r s.
Proof.
  destruct (ends r s) as [|e l]; split; [done|intros [e He]; by apply not_elem_of_nil in He| |done].
  intros _. exists e. apply elem_of_cons. by left.
Qed.
Lemma dotted_one_line labels : Forall label_ok labels -> Forall (fun x => not_newline x = true) (dotted labels).
Proof.
  unfold dotted. induction 1 as [|l ls (_ & Hl & _) _ IH]; [constructor|]. cbn [map concat].
  apply Forall_app_2; [apply Forall_app_2; [|by repeat constructor]|done].
  eapply Forall_impl; [exact Hl|]. intros x Hx. unfold not_newline. by destruct (Ascii.eqb_spec x "010") as [->|].
Qed.
Lemma below_255_dotted labels :
  Forall label_ok labels ->
  ends (Rep (Char not_newline) 255 None) ([], dotted labels) = [] <-> (length (dotted labels) < 255)%nat.
Proof.
  intros Hline%dotted_one_line.
  assert (Hin : ends (Rep (Char not_newline) 255 None) ([], dotted labels) <> [] <-> (255 <= length (dotted labels))%nat).
  { rewrite nonempty_ends. setoid_rewrite chars_elem. cbn [default from_option id]. split.
    - intros (e & l & Hl & _ & a' & Heq & _). rewrite Heq, length_app. lia.
    - intros Hl. eexists. exists (dotted labels). split; [lia|]. split; [done|]. exists []. by rewrite app_nil_r. }
  rewrite Nat.lt_nge, <- Hin. destruct (ends _ ([], dotted labels)); split; auto; intros Hno; exfalso; by apply Hno.
Qed.
Lemma zonename_ends a :
  (exists e, e ∈ ends RE_ZONENAME ([], a)) <->
  ends (Rep (Char not_newline) 255 None) ([], a) = [] /\
  exists labels, labels <> [] /\ Forall label_ok labels /\ a = dotted labels.
Proof.
  unfold RE_ZONENAME. do 4 setoid_rewrite ends_cats. split.
  - intros (e & m1 & Hm1 & m2 & Hm2 & m3 & Hm3 & m4 & Hm4 & _). cbn in Hm1. apply list_elem_of_singleton in Hm1 as ->.
    apply ends_NotAhead in Hm2 as [-> H255]. split; [done|].
    apply dotted_labels in Hm3 as (labels & Hne & Hok & a' & Ha & ->). exists labels. split_and!; [done..|].
    cbn in Hm4. destruct a'; [by rewrite app_nil_r in Ha|by apply not_elem_of_nil in Hm4].
  - intros [H255 (labels & Hne & Hok & Ha)]. exists (app (rev (dotted labels)) [], []), ([], a). split; [by apply elem_of_cons; left|].
    exists ([], a). split; [by apply ends_NotAhead|].
    exists (app (rev (dotted labels)) [], []). split.
    + apply dotted_labels. exists labels. split_and!; [done..|]. exists []. by rewrite app_nil_r.
    + exists (app (rev (dotted labels)) [], []). split; by apply elem_of_cons; left.
Qed.

(** The expression for zone names accepts exactly the well-formed absolute names:
    one label or more, each followed by a dot, each of 1 to 63 letters, digits,
    underscores and dashes and with no dash at either end, fewer than 255 characters
    in all. *)
Theorem zonename_spec s :
  is_zonename (PStr s) = true <->
  exists labels, labels <> [] /\ Forall label_ok labels /\ list_ascii_of_string s = dotted labels /\
    (length (dotted labels) < 255)%nat.
Proof.
  cbn [is_zonename on_string]. unfold re_match. set (a := list_ascii_of_string s).
  transitivity (ends RE_ZONENAME ([], a) <> []); [by destruct (ends RE_ZONENAME ([], a))|].
  rewrite nonempty_ends, zonename_ends. split.
  - intros (H255 & labels & Hne & Hok & Ha). exists labels. split_and!; [done..|]. rewrite Ha in H255. by apply below_255_dotted.
  - intros (labels & Hne & Hok & Ha & Hlen). split; [|by exists labels]. rewrite Ha. by apply below_255_dotted.
Qed.
