(* ===== verification/Validation.v ===== *)
(** * Validation of objects (objects/base.py, zone.py, recordset.py)

    What the objects check themselves, around the JSON schema: which masters and
    which attributes a zone of its type may have; whether the data of every record
    parses, and where in the list of records an error of the schema belongs. What
    jsonschema finds in an object is a parameter. *)
From Stdlib Require Import ZArith Lia Ascii String.
From stdpp Require Import base option numbers strings sets list.
From S2P Require Import Prelude PyStr Exceptions Values Objects Classes Rrdata Formats.
Local Open Scope string_scope.

(** [ValidationError]; messages are left out. *)
Record verror := { path : list pyval; validator : string }.
(** [validate]: it returns, or raises InvalidObject with errors, or another exception. *)
Inductive verdict := Valid | Invalid (errors : list verror) | Fails (e : exc).

Section Base.
(** [_obj_validator.iter_errors], with the schema of the class of the object *)
Variable iter_errors : pyval -> list verror.

(** [DesignateObject.validate] *)
Definition validate (o : pyval) : verdict :=
  match iter_errors (to_dict registry o) with [] => Valid | errors => Invalid errors end.
(** [is_valid] *)
Definition is_valid (o : pyval) : bool := match validate o with Valid => true | _ => false end.

(** [Zone.validate] *)
Definition type_error (v : string) : verror := {| path := [PStr "type"]; validator := v |}.
Definition validate_secondary (zone : pyval) : verdict :=
  match getattr registry zone "masters" with
  | Raise RelationNotLoaded => Invalid [type_error "required"]
  | Raise e => Fails e
  | Ok masters =>
      let errors :=
        app (match masters with
             | PNone => [type_error "required"]
             | m => match list_objects m with [] => [type_error "required"] | _ => [] end
             end)
            (if mem_str "ttl" (obj_what_changed registry zone) then [type_error "not_allowed"] else []) in
      match errors with [] => validate zone | _ => Invalid errors end
  end.
Definition validate_zone (zone : pyval) : verdict :=
  match getattr registry zone "type" with
  | Raise e => Fails e
  | Ok type =>
      if py_eq type (PStr "PRIMARY") then
        if obj_attr_is_set zone "masters" then
          match getattr registry zone "masters" with
          | Ok masters => match list_objects masters with [] => validate zone | _ => Invalid [type_error "maxItems"] end
          | Raise e => Fails e
          end
        else validate zone
      else if py_eq type (PStr "SECONDARY") then validate_secondary zone
      else validate zone
  end.
End Base.

(** ** Record sets *)
Section RecordSets.
(** The record types the service supports. *)
Variable supported_record_type : list string.
(** What the schema finds in the record set, with the format that the type gives the
    name and with records of the type. *)
Variable iter_errors : option string -> list rdata -> list verror.

(** Parsing the data of the records: those that parse, and the indices and errors of
    the others. *)
Definition parse_error (i : nat) : verror := {| path := [PStr "records"; PInt (Z.of_nat i)]; validator := "format" |}.
Fixpoint parse_records (t : rtype) (i : nat) (records : list string) : list rdata * list nat :=
  match records with
  | [] => ([], [])
  | data :: rest =>
      let '(parsed, error_indexes) := parse_records t (S i) rest in
      match _from_string t data with
      | Ok r => (r :: parsed, error_indexes)
      | Raise _ => (parsed, i :: error_indexes)
      end
  end.

(** Putting the index of an error of the schema right: the schema did not see the
    records that failed to parse. [increment] lives on from error to error. *)
Fixpoint skip (fuel : nat) (error_indexes : list nat) (i : nat) : nat :=
  match fuel with
  | O => i
  | S fuel => if bool_decide (i ∈ error_indexes) then skip fuel error_indexes (S i) else i
  end.
Definition fix_index (error_indexes : list nat) (increment i : nat) : nat * nat :=
  let i' := skip (S (length error_indexes)) error_indexes (i + increment) in (i', (i' - i)%nat).
Fixpoint fix_indexes (error_indexes : list nat) (increment : nat) (l : list nat) : list nat :=
  match l with
  | [] => []
  | i :: rest => let '(i', increment) := fix_index error_indexes increment i in
                 i' :: fix_indexes error_indexes increment rest
  end.
(** The same for errors: only those with an integer as the second step of their path
    have an index. *)
Fixpoint fix_errors (error_indexes : list nat) (increment : nat) (l : list verror) : list verror :=
  match l with
  | [] => []
  | e :: rest =>
      match path e with
      | p :: PInt i :: more =>
          let '(i', increment) := fix_index error_indexes increment (Z.to_nat i) in
          {| path := p :: PInt (Z.of_nat i') :: more; validator := validator e |} :: fix_errors error_indexes increment rest
      | _ => e :: fix_errors error_indexes increment rest
      end
  end.

(** [RecordSet.validate]: the verdict, and the records the object is left with. *)
Inductive records_left := Original | Typed (l : list rdata).
Definition _validate_fail : verdict := Invalid [{| path := [PStr "recordset"; PStr "type"]; validator := "value" |}].
Definition validate_recordset (type : string) (records : list string) : verdict * records_left :=
  match rtype_of_name type with
  | None => (_validate_fail, Original)
  | Some t =>
      if negb (mem_str type supported_record_type) then (_validate_fail, Original)
      else
        let '(parsed, error_indexes) := parse_records t 0 records in
        let errors := map parse_error error_indexes in
        match iter_errors (get_recordset_schema_changes t) parsed with
        | [] => match errors with
                | [] => (Valid, Original)
                | _ => (Invalid errors, Typed parsed)
                end
        | found => (Invalid (app (fix_errors error_indexes 0 found) errors), Typed parsed)
        end
  end.
End RecordSets.

(** ** Where errors belong *)
Section Indexes.
Variable bad : list nat.

(** How many records that parsed there are before a place. *)
Definition parsed_before (q : nat) : nat := length (filter (fun i => i ∉ bad) (seq 0 q)).
Lemma parsed_before_S q : parsed_before (S q) = (parsed_before q + if bool_decide (q ∈ bad) then 0 else 1)%nat.
Proof.
  unfold parsed_before. rewrite seq_S, filter_app, length_app. rewrite (filter_cons _ (0 + q)%nat), filter_nil. cbn [Nat.add].
  case_bool_decide; case_decide; cbn; tauto || lia.
Qed.
Lemma parsed_before_add q d : (parsed_before (q + d) <= parsed_before q + d)%nat.
Proof.
  induction d as [|d IH]; [rewrite Nat.add_0_r; lia|]. rewrite Nat.add_succ_r, parsed_before_S. case_bool_decide; lia.
Qed.

Lemma skip_spec fuel i :
  (length (filter (fun x => (i <= x)%nat) (remove_dups bad)) < fuel)%nat ->
  let q := skip fuel bad i in
  (i <= q)%nat /\ q ∉ bad /\ parsed_before q = parsed_before i.
Proof.
  revert i. induction fuel as [|fuel IH]; intros i Hfuel; [lia|]. cbn [skip]. case_bool_decide as Hin; [|done].
  destruct (IH (S i)) as (Hle & Hq & Hf).
  - assert (Hlen : (length (filter (fun x => (S i <= x)%nat) (remove_dups bad)) <
                    length (filter (fun x => (i <= x)%nat) (remove_dups bad)))%nat); [|lia].
    assert (Hin' : i ∈ remove_dups bad) by by apply elem_of_remove_dups.
    pose proof (NoDup_remove_dups bad) as Hnd. revert Hin' Hnd. generalize (remove_dups bad). clear.
    induction l as [|x l IH]; intros Hin Hnd; [by apply not_elem_of_nil in Hin|].
    apply NoDup_cons in Hnd as [Hx Hnd]. rewrite !filter_cons. apply elem_of_cons in Hin as [<-|Hin].
    + rewrite decide_False by lia. rewrite decide_True by lia. cbn.
      assert (Hmono : forall l', (length (filter (fun x => (S i <= x)%nat) l') <= length (filter (fun x => (i <= x)%nat) l'))%nat).
      { clear. intros l'. induction l' as [|y l' IH]; [done|]. rewrite !filter_cons. repeat case_decide; cbn; lia. }
      specialize (Hmono l). lia.
    + specialize (IH Hin Hnd). repeat case_decide; cbn; lia.
  - split_and!; [lia|done|]. rewrite Hf, parsed_before_S. rewrite bool_decide_true by done. lia.
Qed.
Lemma fix_index_spec increment i :
  let '(q, increment') := fix_index bad increment i in
  q ∉ bad /\ parsed_before q = parsed_before (i + increment) /\ q = (i + increment')%nat.
Proof.
  unfold fix_index. destruct (skip_spec (S (length bad)) (i + increment)) as (Hle & Hq & Hf).
  - assert (Hlen : (length (filter (fun x => (i + increment <= x)%nat) (remove_dups bad)) <= length bad)%nat); [|lia].
    etransitivity; [apply length_filter|]. induction bad as [|x l IH]; [done|]. cbn. case_decide; cbn; lia.
  - split_and!; [done..|lia].
Qed.

(** The indices of errors as the schema reports them: in order, and, when every record
    up to the last one reported is in error, without gaps. *)
Fixpoint ascending (from : nat) (l : list nat) : Prop :=
  match l with [] => True | i :: l => (from <= i)%nat /\ ascending i l end.
Fixpoint gapless (next : nat) (l : list nat) : Prop :=
  match l with [] => True | i :: l => (i <= next)%nat /\ gapless (S i) l end.

Lemma fix_indexes_before increment from l :
  ascending from l -> (forall d, parsed_before (from + d + increment) <= from + d)%nat ->
  Forall2 (fun i q => q ∉ bad /\ (parsed_before q <= i)%nat) l (fix_indexes bad increment l).
Proof.
  revert increment from. induction l as [|i l IH]; intros increment from Hl Hinv; cbn [fix_indexes]; [constructor|].
  destruct Hl as [Hi Hl]. pose proof (fix_index_spec increment i) as Hfix.
  destruct (fix_index bad increment i) as [q increment']. destruct Hfix as (Hq & Hf & Hqi).
  pose proof (Hinv (i - from)%nat) as Hstart. replace (from + (i - from))%nat with i in Hstart by lia.
  constructor; [split; [done|lia]|]. apply (IH increment' i Hl). intros d.
  replace (i + d + increment')%nat with (q + d)%nat by lia. pose proof (parsed_before_add q d). lia.
Qed.
Lemma fix_indexes_exact increment from next l :
  ascending from l -> gapless next l -> (from <= next <= S from)%nat ->
  (forall i, (from <= i <= next)%nat -> parsed_before (i + increment) = i) ->
  Forall2 (fun i q => q ∉ bad /\ parsed_before q = i) l (fix_indexes bad increment l).
Proof.
  revert increment from next. induction l as [|i l IH]; intros increment from next Hl Hg Hn Hinv; cbn [fix_indexes]; [constructor|].
  destruct Hl as [Hi Hl]. destruct Hg as [Hin Hg]. pose proof (fix_index_spec increment i) as Hfix.
  destruct (fix_index bad increment i) as [q increment']. destruct Hfix as (Hq & Hf & Hqi).
  rewrite (Hinv i) in Hf by lia. constructor; [done|]. apply (IH increment' i (S i) Hl Hg ltac:(lia)).
  intros j Hj. destruct (decide (j = i)) as [->|Hne]; [by rewrite <- Hqi|]. assert (j = S i) as -> by lia.
  replace (S i + increment')%nat with (S q) by lia. rewrite parsed_before_S, bool_decide_false by done. lia.
Qed.

(** An error of the schema is never put down to a record that failed to parse, and
    never to a record after the one it is about; and it is put down to the right one,
    the one with as many parsed records before it as the schema counted, provided
    that every record up to the last one with an error has an error. (Without that
    it need not be: see [wrong_record].) *)
Theorem error_indexes_restored l :
  ascending 0 l ->
  Forall2 (fun i q => q ∉ bad /\ (parsed_before q <= i)%nat) l (fix_indexes bad 0 l) /\
  (gapless 0 l -> Forall2 (fun i q => q ∉ bad /\ parsed_before q = i) l (fix_indexes bad 0 l)).
Proof.
  intros Hl. split.
  - apply (fix_indexes_before 0 0 l Hl). intros d. pose proof (parsed_before_add 0 d). cbn in *.
    rewrite Nat.add_0_r. change (parsed_before 0) with 0%nat in *. lia.
  - intros Hg. apply (fix_indexes_exact 0 0 0 l Hl Hg ltac:(lia)). intros i Hi. by assert (i = 0%nat) as -> by lia.
Qed.
End Indexes.

(** The first record does not parse, the second is fine, the third breaks the schema:
    the error is put down to the second. *)
Example wrong_record : fix_indexes [0%nat] 0 [1%nat] = [1%nat].
Proof. reflexivity. Qed.
Lemma error_indexes_restored_witness :
  fix_indexes [0; 2]%nat 0 [0; 0; 1]%nat = [1; 1; 3]%nat /\
  Forall2 (fun i q => q ∉ [0; 2]%nat /\ parsed_before [0; 2]%nat q = i) [0; 0; 1]%nat [1; 1; 3]%nat.
Proof.
  split; [reflexivity|].
  refine (proj2 (error_indexes_restored [0; 2]%nat [0; 0; 1]%nat _) _); cbn; lia.
Defined.

(** ** What a verdict means *)
Section Verdicts.
Variable supported_record_type : list string.
Variable iter_errors : option string -> list rdata -> list verror.

Lemma parse_records_spec t i records :
  let '(parsed, error_indexes) := parse_records t i records in
  parsed = omap (fun data => match _from_string t data with Ok r => Some r | Raise _ => None end) records /\
  (forall k, k ∈ error_indexes <-> (i <= k)%nat /\ exists data e, records !! (k - i)%nat = Some data /\ _from_string t data = Raise e).
Proof.
  revert i. induction records as [|data records IH]; intros i; cbn [parse_records].
  { split; [done|]. intros k. split; [by intros ?%not_elem_of_nil|]. intros (_ & data & e & Hd & _). by rewrite lookup_nil in Hd. }
  specialize (IH (S i)). destruct (parse_records t (S i) records) as [parsed error_indexes]. destruct IH as [-> Hk].
  assert (Hrest : forall k, k ∈ error_indexes <-> (i < k)%nat /\ exists d e, (data :: records) !! (k - i)%nat = Some d /\ _from_string t d = Raise e).
  { intros k. rewrite Hk. split; intros [Hle (d & e & Hd & He)]; (split; [lia|]); exists d, e; (split; [|done]).
    - by replace (k - i)%nat with (S (k - S i))%nat by lia.
    - by replace (k - i)%nat with (S (k - S i))%nat in Hd by lia. }
  cbn [omap list_omap]. destruct (_from_string t data) as [r|e] eqn:Hd; (split; [done|]); intros k; rewrite ?elem_of_cons, Hrest.
  - split; intros [Hle Hex]; [by split; [lia|]|]. split; [|done].
    destruct (decide (i = k)) as [->|]; [|lia]. rewrite Nat.sub_diag in Hex. cbn in Hex. destruct Hex as (? & ? & [= <-] & ?). congruence.
  - split.
    + intros [->|[Hle Hex]]; [|split; [lia|done]]. split; [lia|]. exists data, e. by rewrite Nat.sub_diag.
    + intros [Hle Hex]. destruct (decide (k = i)) as [->|]; [by left|right]. split; [lia|done].
Qed.

(** All records parse exactly when none is in error; then the parsed ones are theirs. *)
Definition parsed_as (t : rtype) (records : list string) (parsed : list rdata) : Prop :=
  Forall2 (fun data r => _from_string t data = Ok r) records parsed.
Lemma parsed_as_omap t records parsed :
  parsed_as t records parsed ->
  parsed = omap (fun data => match _from_string t data with Ok r => Some r | Raise _ => None end) records.
Proof. induction 1 as [|data r l l' Hr _ IH]; [done|]. cbn [omap list_omap]. by rewrite Hr, IH. Qed.
Lemma parse_records_all t records :
  (parse_records t 0 records).2 = [] <-> parsed_as t records (parse_records t 0 records).1.
Proof.
  pose proof (parse_records_spec t 0 records) as Hparse. destruct (parse_records t 0 records) as [parsed bad].
  destruct Hparse as [-> Hbad]. cbn. split.
  - intros ->.
    assert (Hok : forall k data, records !! k = Some data -> exists r, _from_string t data = Ok r).
    { intros k data Hk. destruct (_from_string t data) as [r|e] eqn:He; [by eexists|]. exfalso.
      apply (not_elem_of_nil k), Hbad. split; [lia|]. exists data, e. by rewrite Nat.sub_0_r. }
    clear Hbad. unfold parsed_as. induction records as [|data l IH]; [constructor|]. destruct (Hok 0%nat data eq_refl) as [r Hr].
    cbn [omap list_omap]. rewrite Hr. constructor; [done|]. apply IH. intros k. exact (Hok (S k)).
  - intros Hl. destruct bad as [|k bad]; [done|]. exfalso.
    destruct (proj1 (Hbad k) ltac:(apply elem_of_cons; by left)) as (_ & data & e & Hk & He). rewrite Nat.sub_0_r in Hk.
    destruct (Forall2_lookup_l _ _ _ _ _ Hl Hk) as (r & _ & Hr). congruence.
Qed.

Lemma validate_recordset_Valid type records :
  (validate_recordset supported_record_type iter_errors type records).1 = Valid ->
  exists t parsed, rtype_of_name type = Some t /\ type ∈ supported_record_type /\ parsed_as t records parsed /\
    iter_errors (get_recordset_schema_changes t) parsed = [].
Proof.
  unfold validate_recordset. destruct (rtype_of_name type) as [t|]; [|done].
  destruct (mem_str type supported_record_type) eqn:Hsup; cbn [negb]; [|done]. apply mem_str_elem in Hsup.
  pose proof (parse_records_all t records) as Hall. destruct (parse_records t 0 records) as [parsed bad]. cbn [fst snd] in Hall.
  destruct (iter_errors _ parsed) eqn:Hit; [|done]. destruct bad; [|done]. intros _. exists t, parsed. split_and!; [done..|by apply Hall|done].
Qed.

(** C40: a record set is valid exactly when its type is a supported record type, the data
    of all its records parses as that type, and the schema finds nothing in the
    parsed records; only then it keeps its records. In every other case errors are
    reported; and if the type was right, the object is left with the parsed records
    in place of its own, without those that did not parse. *)
Theorem recordset_validity type records :
  let run := validate_recordset supported_record_type iter_errors type records in
  (run.1 = Valid <->
     exists t parsed, rtype_of_name type = Some t /\ type ∈ supported_record_type /\
       parsed_as t records parsed /\
       iter_errors (get_recordset_schema_changes t) parsed = []) /\
  (run.1 = Valid -> run.2 = Original) /\
  (run.1 <> Valid ->
     (exists errors, run.1 = Invalid errors /\ errors <> []) /\
     forall t, rtype_of_name type = Some t -> type ∈ supported_record_type ->
       run.2 = Typed (omap (fun data => match _from_string t data with Ok r => Some r | Raise _ => None end) records)).
Proof.
  unfold validate_recordset. destruct (rtype_of_name type) as [t|].
  2:{ cbn. split; [split; [done|by intros (? & ? & ? & _)]|]. split; [done|]. intros _. split; [|done]. by eexists. }
  destruct (mem_str type supported_record_type) eqn:Hsup; cbn [negb].
  2:{ cbn. assert (Hno : type ∉ supported_record_type) by (intros Hin%mem_str_elem; congruence).
      split; [split; [done|by intros (? & ? & _ & ? & _)]|]. split; [done|]. intros _. split; [by eexists|done]. }
  apply mem_str_elem in Hsup. pose proof (parse_records_all t records) as Hall.
  assert (Hparsed : (parse_records t 0 records).1 =
    omap (fun data => match _from_string t data with Ok r => Some r | Raise _ => None end) records).
  { pose proof (parse_records_spec t 0 records) as Hspec. destruct (parse_records t 0 records). by destruct Hspec. }
  destruct (parse_records t 0 records) as [parsed bad]. cbn [fst snd] in Hall, Hparsed.
  assert (Hvalid : forall t' parsed', Some t = Some t' -> parsed_as t' records parsed' ->
    t' = t /\ parsed' = parsed /\ bad = []).
  { intros t' parsed' [= <-] Hl. assert (parsed' = parsed) as -> by (rewrite Hparsed; by apply parsed_as_omap).
    split_and!; [done..|by apply Hall]. }
  destruct (iter_errors (get_recordset_schema_changes t) parsed) as [|v vs] eqn:Hit; [destruct bad as [|k bad]|]; cbn.
  - split; [|by split]. split; [intros _|done]. exists t, parsed. split_and!; [done..|by apply Hall|done].
  - split; [split; [done|]|].
    { intros (t' & p' & Ht & _ & Hl & _). by destruct (Hvalid t' p' Ht Hl) as (_ & _ & ?). }
    split; [done|]. intros _. split; [by eexists|]. intros ? [= <-] _. by rewrite Hparsed.
  - split; [split; [done|]|].
    { intros (t' & p' & Ht & _ & Hl & Hnil). destruct (Hvalid t' p' Ht Hl) as (-> & -> & _). congruence. }
    split; [done|]. intros _. split; [|intros ? [= <-] _; by rewrite Hparsed].
    eexists. split; [done|]. destruct v as [p ?]. destruct p as [|? [|[] ?]]; cbn; try done.
Qed.
End Verdicts.

(** Of two MX records one does not parse: it is lost. *)
Lemma recordset_validity_witness :
  let run := validate_recordset ["A"; "MX"] (fun _ _ => []) "MX" ["10 mail.a."; "mail.a."] in
  run.1 <> Valid /\ run.2 = Typed [MXData 10 "mail.a."].
Proof.
  cbv zeta. assert (Hno : (validate_recordset ["A"; "MX"] (fun _ _ => []) "MX" ["10 mail.a."; "mail.a."]).1 <> Valid)
    by (vm_compute; discriminate).
  split; [exact Hno|].
  refine (proj2 (proj2 (proj2 (recordset_validity ["A"; "MX"] (fun _ _ => []) "MX" ["10 mail.a."; "mail.a."])) Hno) MX eq_refl _).
  apply elem_of_cons. right. apply elem_of_cons. by left.
Defined.
