(* ===== verification/AdapterTables.v ===== *)
(** * The tables of the adapters (designate/objects/adapters/)

    An adapter says, in its dictionary [MODIFICATIONS], which attributes of a class
    of objects appear in a format, under which names, and which of them a request may
    set. The formats are API_v2, the JSON of the HTTP interface, and YAML, the files
    of the pool administration. *)
From Stdlib Require Import ZArith Lia String.
From stdpp Require Import base option numbers strings sets list.
From S2P Require Import Prelude PyStr Exceptions Values Objects Classes.
Local Open Scope string_scope.

(** One entry of [fields]: an absent read_only or protected counts as true. *)
Record prop := {
  p_rename : option string; p_immutable : bool; p_read_only : bool; p_protected : bool;
}.
Record options := { o_links : bool; o_resource_name : string; o_collection_name : string }.
Record modifications := { m_fields : list (string * prop); m_options : option options }.

Definition plain : prop :=
  {| p_rename := None; p_immutable := false; p_read_only := true; p_protected := true |}.
Definition renamed (name : string) (p : prop) : prop :=
  {| p_rename := Some name; p_immutable := p_immutable p; p_read_only := p_read_only p;
     p_protected := p_protected p |}.
Definition fixed (p : prop) : prop :=
  {| p_rename := p_rename p; p_immutable := true; p_read_only := p_read_only p;
     p_protected := p_protected p |}.
Definition writable (p : prop) : prop :=
  {| p_rename := p_rename p; p_immutable := p_immutable p; p_read_only := false;
     p_protected := p_protected p |}.
Definition unprotected (p : prop) : prop :=
  {| p_rename := p_rename p; p_immutable := p_immutable p; p_read_only := p_read_only p;
     p_protected := false |}.
Definition opts (links : bool) (resource collection : string) : options :=
  {| o_links := links; o_resource_name := resource; o_collection_name := collection |}.
Definition modify (fields : list (string * prop)) (o : option options) : modifications :=
  {| m_fields := fields; m_options := o |}.

(** ** [MODIFICATIONS] *)

Definition BlacklistAPIv2Adapter_MODIFICATIONS : modifications := modify [
    ("id", plain);
    ("pattern", writable plain);
    ("description", writable plain);
    ("created_at", plain);
    ("updated_at", plain) ] (Some (opts true "blacklist" "blacklists")).
Definition BlacklistListAPIv2Adapter_MODIFICATIONS : modifications := modify [] (Some (opts true "blacklist" "blacklists")).
Definition ZoneAPIv2Adapter_MODIFICATIONS : modifications := modify [
    ("id", plain);
    ("pool_id", plain);
    ("project_id", renamed "tenant_id" plain);
    ("name", fixed plain);
    ("view_id", fixed plain);
    ("email", writable plain);
    ("description", writable plain);
    ("ttl", writable plain);
    ("serial", plain);
    ("status", plain);
    ("action", plain);
    ("version", plain);
    ("attributes", fixed plain);
    ("type", fixed plain);
    ("masters", plain);
    ("created_at", plain);
    ("updated_at", plain);
    ("transferred_at", plain) ] (Some (opts true "zone" "zones")).
Definition ZoneListAPIv2Adapter_MODIFICATIONS : modifications := modify [] (Some (opts true "zone" "zones")).
Definition AclAPIv2Adapter_MODIFICATIONS : modifications := modify [
    ("id", plain);
    ("pool_id", writable plain);
    ("tenant_id", plain);
    ("name", fixed plain);
    ("networks", writable plain) ] (Some (opts true "acl" "acls")).
Definition AclListAPIv2Adapter_MODIFICATIONS : modifications := modify [] (Some (opts true "acl" "acls")).
Definition ZoneAttributeAPIv2Adapter_MODIFICATIONS : modifications := modify [
    ("key", writable plain);
    ("value", writable plain) ] (Some (opts false "pool_attribute" "pool_attributes")).
Definition ZoneAttributeListAPIv2Adapter_MODIFICATIONS : modifications := modify [] (Some (opts false "zone_attribute" "zone_attributes")).
Definition ZoneMasterAPIv2Adapter_MODIFICATIONS : modifications := modify [
    ("value", writable plain) ] (Some (opts false "domain_master" "domain_masters")).
Definition ZoneMasterListAPIv2Adapter_MODIFICATIONS : modifications := modify [] (Some (opts false "domain_master" "domain_masters")).
Definition FloatingIPAPIv2Adapter_MODIFICATIONS : modifications := modify [
    ("id", renamed "key" plain);
    ("description", writable plain);
    ("address", plain);
    ("ptrdname", writable plain);
    ("ttl", writable plain);
    ("action", plain);
    ("status", plain) ] (Some (opts true "floatingip" "floatingips")).
Definition FloatingIPListAPIv2Adapter_MODIFICATIONS : modifications := modify [] (Some (opts true "floatingip" "floatingips")).
Definition RecordAPIv2Adapter_MODIFICATIONS : modifications := modify [
    ("data", writable plain) ] (Some (opts false "record" "records")).
Definition RecordListAPIv2Adapter_MODIFICATIONS : modifications := modify [] (Some (opts false "record" "records")).
Definition RecordSetAPIv2Adapter_MODIFICATIONS : modifications := modify [
    ("id", plain);
    ("zone_id", plain);
    ("project_id", renamed "tenant_id" plain);
    ("name", fixed plain);
    ("zone_name", plain);
    ("type", fixed (renamed "type" plain));
    ("records", writable plain);
    ("description", writable plain);
    ("ttl", writable plain);
    ("status", plain);
    ("action", plain);
    ("version", plain);
    ("created_at", plain);
    ("updated_at", plain);
    ("records_ext", plain) ] (Some (opts true "recordset" "recordsets")).
Definition RecordSetListAPIv2Adapter_MODIFICATIONS : modifications := modify [] (Some (opts true "recordset" "recordsets")).
Definition PoolAPIv2Adapter_MODIFICATIONS : modifications := modify [
    ("id", plain);
    ("project_id", fixed (renamed "tenant_id" plain));
    ("name", writable plain);
    ("description", writable plain);
    ("attributes", writable plain);
    ("ns_records", writable plain);
    ("created_at", plain);
    ("updated_at", plain) ] (Some (opts true "pool" "pools")).
Definition PoolListAPIv2Adapter_MODIFICATIONS : modifications := modify [] (Some (opts true "pool" "pools")).
Definition PoolAttributeAPIv2Adapter_MODIFICATIONS : modifications := modify [
    ("key", writable plain);
    ("value", writable plain) ] (Some (opts false "pool_attribute" "pool_attributes")).
Definition PoolAttributeListAPIv2Adapter_MODIFICATIONS : modifications := modify [] (Some (opts false "pool_attribute" "pool_attributes")).
Definition PoolNsRecordAPIv2Adapter_MODIFICATIONS : modifications := modify [
    ("priority", writable plain);
    ("hostname", writable plain) ] (Some (opts false "ns_record" "ns_records")).
Definition PoolNsRecordListAPIv2Adapter_MODIFICATIONS : modifications := modify [] (Some (opts false "ns_record" "ns_records")).
Definition TldAPIv2Adapter_MODIFICATIONS : modifications := modify [
    ("id", plain);
    ("name", writable plain);
    ("description", writable plain);
    ("created_at", plain);
    ("updated_at", plain) ] (Some (opts true "tld" "tlds")).
Definition TldListAPIv2Adapter_MODIFICATIONS : modifications := modify [] (Some (opts true "tld" "tlds")).
Definition TsigKeyAPIv2Adapter_MODIFICATIONS : modifications := modify [
    ("id", plain);
    ("name", writable plain);
    ("algorithm", writable plain);
    ("secret", writable plain);
    ("scope", writable plain);
    ("resource_id", writable plain);
    ("created_at", plain);
    ("updated_at", plain) ] (Some (opts true "tsigkey" "tsigkeys")).
Definition TsigKeyListAPIv2Adapter_MODIFICATIONS : modifications := modify [] (Some (opts true "tsigkey" "tsigkeys")).
Definition QuotaAPIv2Adapter_MODIFICATIONS : modifications := modify [
    ("resource", writable plain);
    ("hard_limit", writable plain) ] (Some (opts true "quota" "quotas")).
Definition QuotaListAPIv2Adapter_MODIFICATIONS : modifications := modify [] (Some (opts true "quota" "quotas")).
Definition ServiceStatusAPIv2Adapter_MODIFICATIONS : modifications := modify [
    ("id", plain);
    ("hostname", plain);
    ("service_name", plain);
    ("status", plain);
    ("stats", plain);
    ("capabilities", plain);
    ("heartbeated_at", plain);
    ("created_at", plain);
    ("updated_at", plain) ] (Some (opts true "service_status" "service_statuses")).
Definition ServiceStatusListAPIv2Adapter_MODIFICATIONS : modifications := modify [] (Some (opts true "service_status" "service_statuses")).
Definition ZoneTransferAcceptAPIv2Adapter_MODIFICATIONS : modifications := modify [
    ("id", plain);
    ("zone_transfer_request_id", fixed plain);
    ("project_id", renamed "tenant_id" plain);
    ("key", writable plain);
    ("status", plain);
    ("zone_id", plain);
    ("created_at", plain);
    ("updated_at", plain) ] (Some (opts true "transfer_accept" "transfer_accepts")).
Definition ZoneTransferAcceptListAPIv2Adapter_MODIFICATIONS : modifications := modify [] (Some (opts true "transfer_accept" "transfer_accepts")).
Definition ZoneTransferRequestAPIv2Adapter_MODIFICATIONS : modifications := modify [
    ("id", unprotected plain);
    ("zone_id", unprotected (fixed plain));
    ("project_id", renamed "tenant_id" plain);
    ("target_project_id", fixed (renamed "target_tenant_id" plain));
    ("description", unprotected (writable plain));
    ("key", plain);
    ("status", unprotected plain);
    ("zone_name", unprotected (fixed plain));
    ("created_at", plain);
    ("updated_at", plain) ] (Some (opts true "transfer_request" "transfer_requests")).
Definition ZoneTransferRequestListAPIv2Adapter_MODIFICATIONS : modifications := modify [] (Some (opts true "transfer_request" "transfer_requests")).
Definition ValidationErrorAPIv2Adapter_MODIFICATIONS : modifications := modify [
    ("path", plain);
    ("message", plain);
    ("validator", plain);
    ("validator_value", plain) ] (Some (opts false "error" "errors")).
Definition ValidationErrorListAPIv2Adapter_MODIFICATIONS : modifications := modify [] (Some (opts false "error" "errors")).
Definition ZoneImportAPIv2Adapter_MODIFICATIONS : modifications := modify [
    ("id", plain);
    ("status", plain);
    ("message", plain);
    ("zone_id", plain);
    ("project_id", renamed "tenant_id" plain);
    ("created_at", plain);
    ("updated_at", plain);
    ("version", plain) ] (Some (opts true "import" "imports")).
Definition ZoneImportListAPIv2Adapter_MODIFICATIONS : modifications := modify [] (Some (opts true "import" "imports")).
Definition ZoneExportAPIv2Adapter_MODIFICATIONS : modifications := modify [
    ("id", plain);
    ("status", plain);
    ("message", plain);
    ("location", plain);
    ("zone_id", plain);
    ("project_id", renamed "tenant_id" plain);
    ("created_at", plain);
    ("updated_at", plain);
    ("version", plain) ] (Some (opts true "export" "exports")).
Definition ZoneExportListAPIv2Adapter_MODIFICATIONS : modifications := modify [] (Some (opts true "export" "exports")).
Definition ViewAPIv2Adapter_MODIFICATIONS : modifications := modify [
    ("id", fixed plain);
    ("pool_id", fixed plain);
    ("project_id", renamed "tenant_id" plain);
    ("name", fixed plain) ] (Some (opts true "view" "views")).
Definition ViewListAPIv2Adapter_MODIFICATIONS : modifications := modify [] (Some (opts true "view" "views")).
Definition PoolYAMLAdapter_MODIFICATIONS : modifications := modify [
    ("id", writable plain);
    ("name", writable plain);
    ("description", writable plain);
    ("attributes", writable plain);
    ("ns_records", writable plain);
    ("nameservers", writable plain);
    ("targets", writable plain);
    ("also_notifies", writable plain) ] None.
Definition PoolListYAMLAdapter_MODIFICATIONS : modifications := modify [] None.
Definition PoolAttributeYAMLAdapter_MODIFICATIONS : modifications := modify [
    ("key", writable plain);
    ("value", writable plain) ] None.
Definition PoolAttributeListYAMLAdapter_MODIFICATIONS : modifications := modify [] None.
Definition PoolAlsoNotifyYAMLAdapter_MODIFICATIONS : modifications := modify [
    ("host", writable plain);
    ("port", writable plain) ] None.
Definition PoolAlsoNotifyListYAMLAdapter_MODIFICATIONS : modifications := modify [] None.
Definition PoolNameserverYAMLAdapter_MODIFICATIONS : modifications := modify [
    ("host", writable plain);
    ("port", writable plain) ] None.
Definition PoolNameserverListYAMLAdapter_MODIFICATIONS : modifications := modify [] None.
Definition PoolNsRecordYAMLAdapter_MODIFICATIONS : modifications := modify [
    ("priority", writable plain);
    ("hostname", writable plain) ] None.
Definition PoolNsRecordListYAMLAdapter_MODIFICATIONS : modifications := modify [] None.
Definition PoolTargetYAMLAdapter_MODIFICATIONS : modifications := modify [
    ("type", writable plain);
    ("tsigkey_id", writable plain);
    ("description", writable plain);
    ("masters", writable plain);
    ("options", writable plain) ] None.
Definition PoolTargetListYAMLAdapter_MODIFICATIONS : modifications := modify [] None.
Definition PoolTargetMasterYAMLAdapter_MODIFICATIONS : modifications := modify [
    ("host", writable plain);
    ("port", writable plain) ] None.
Definition PoolTargetMasterListYAMLAdapter_MODIFICATIONS : modifications := modify [] None.
Definition PoolTargetOptionYAMLAdapter_MODIFICATIONS : modifications := modify [
    ("key", writable plain);
    ("value", writable plain) ] None.
Definition PoolTargetOptionListYAMLAdapter_MODIFICATIONS : modifications := modify [] None.
(** [DesignateAdapter._adapter_classes] *)
Definition adapter_classes : list ((string * string) * modifications) := [
  (("API_v2", "Blacklist"), BlacklistAPIv2Adapter_MODIFICATIONS);
  (("API_v2", "BlacklistList"), BlacklistListAPIv2Adapter_MODIFICATIONS);
  (("API_v2", "Zone"), ZoneAPIv2Adapter_MODIFICATIONS);
  (("API_v2", "ZoneList"), ZoneListAPIv2Adapter_MODIFICATIONS);
  (("API_v2", "Acl"), AclAPIv2Adapter_MODIFICATIONS);
  (("API_v2", "AclList"), AclListAPIv2Adapter_MODIFICATIONS);
  (("API_v2", "ZoneAttribute"), ZoneAttributeAPIv2Adapter_MODIFICATIONS);
  (("API_v2", "ZoneAttributeList"), ZoneAttributeListAPIv2Adapter_MODIFICATIONS);
  (("API_v2", "ZoneMaster"), ZoneMasterAPIv2Adapter_MODIFICATIONS);
  (("API_v2", "ZoneMasterList"), ZoneMasterListAPIv2Adapter_MODIFICATIONS);
  (("API_v2", "FloatingIP"), FloatingIPAPIv2Adapter_MODIFICATIONS);
  (("API_v2", "FloatingIPList"), FloatingIPListAPIv2Adapter_MODIFICATIONS);
  (("API_v2", "Record"), RecordAPIv2Adapter_MODIFICATIONS);
  (("API_v2", "RecordList"), RecordListAPIv2Adapter_MODIFICATIONS);
  (("API_v2", "RecordSet"), RecordSetAPIv2Adapter_MODIFICATIONS);
  (("API_v2", "RecordSetList"), RecordSetListAPIv2Adapter_MODIFICATIONS);
  (("API_v2", "Pool"), PoolAPIv2Adapter_MODIFICATIONS);
  (("API_v2", "PoolList"), PoolListAPIv2Adapter_MODIFICATIONS);
  (("API_v2", "PoolAttribute"), PoolAttributeAPIv2Adapter_MODIFICATIONS);
  (("API_v2", "PoolAttributeList"), PoolAttributeListAPIv2Adapter_MODIFICATIONS);
  (("API_v2", "PoolNsRecord"), PoolNsRecordAPIv2Adapter_MODIFICATIONS);
  (("API_v2", "PoolNsRecordList"), PoolNsRecordListAPIv2Adapter_MODIFICATIONS);
  (("API_v2", "Tld"), TldAPIv2Adapter_MODIFICATIONS);
  (("API_v2", "TldList"), TldListAPIv2Adapter_MODIFICATIONS);
  (("API_v2", "TsigKey"), TsigKeyAPIv2Adapter_MODIFICATIONS);
  (("API_v2", "TsigKeyList"), TsigKeyListAPIv2Adapter_MODIFICATIONS);
  (("API_v2", "Quota"), QuotaAPIv2Adapter_MODIFICATIONS);
  (("API_v2", "QuotaList"), QuotaListAPIv2Adapter_MODIFICATIONS);
  (("API_v2", "ServiceStatus"), ServiceStatusAPIv2Adapter_MODIFICATIONS);
  (("API_v2", "ServiceStatusList"), ServiceStatusListAPIv2Adapter_MODIFICATIONS);
  (("API_v2", "ZoneTransferAccept"), ZoneTransferAcceptAPIv2Adapter_MODIFICATIONS);
  (("API_v2", "ZoneTransferAcceptList"), ZoneTransferAcceptListAPIv2Adapter_MODIFICATIONS);
  (("API_v2", "ZoneTransferRequest"), ZoneTransferRequestAPIv2Adapter_MODIFICATIONS);
  (("API_v2", "ZoneTransferRequestList"), ZoneTransferRequestListAPIv2Adapter_MODIFICATIONS);
  (("API_v2", "ValidationError"), ValidationErrorAPIv2Adapter_MODIFICATIONS);
  (("API_v2", "ValidationErrorList"), ValidationErrorListAPIv2Adapter_MODIFICATIONS);
  (("API_v2", "ZoneImport"), ZoneImportAPIv2Adapter_MODIFICATIONS);
  (("API_v2", "ZoneImportList"), ZoneImportListAPIv2Adapter_MODIFICATIONS);
  (("API_v2", "ZoneExport"), ZoneExportAPIv2Adapter_MODIFICATIONS);
  (("API_v2", "ZoneExportList"), ZoneExportListAPIv2Adapter_MODIFICATIONS);
  (("API_v2", "View"), ViewAPIv2Adapter_MODIFICATIONS);
  (("API_v2", "ViewList"), ViewListAPIv2Adapter_MODIFICATIONS);
  (("YAML", "Pool"), PoolYAMLAdapter_MODIFICATIONS);
  (("YAML", "PoolList"), PoolListYAMLAdapter_MODIFICATIONS);
  (("YAML", "PoolAttribute"), PoolAttributeYAMLAdapter_MODIFICATIONS);
  (("YAML", "PoolAttributeList"), PoolAttributeListYAMLAdapter_MODIFICATIONS);
  (("YAML", "PoolAlsoNotify"), PoolAlsoNotifyYAMLAdapter_MODIFICATIONS);
  (("YAML", "PoolAlsoNotifyList"), PoolAlsoNotifyListYAMLAdapter_MODIFICATIONS);
  (("YAML", "PoolNameserver"), PoolNameserverYAMLAdapter_MODIFICATIONS);
  (("YAML", "PoolNameserverList"), PoolNameserverListYAMLAdapter_MODIFICATIONS);
  (("YAML", "PoolNsRecord"), PoolNsRecordYAMLAdapter_MODIFICATIONS);
  (("YAML", "PoolNsRecordList"), PoolNsRecordListYAMLAdapter_MODIFICATIONS);
  (("YAML", "PoolTarget"), PoolTargetYAMLAdapter_MODIFICATIONS);
  (("YAML", "PoolTargetList"), PoolTargetListYAMLAdapter_MODIFICATIONS);
  (("YAML", "PoolTargetMaster"), PoolTargetMasterYAMLAdapter_MODIFICATIONS);
  (("YAML", "PoolTargetMasterList"), PoolTargetMasterListYAMLAdapter_MODIFICATIONS);
  (("YAML", "PoolTargetOption"), PoolTargetOptionYAMLAdapter_MODIFICATIONS);
  (("YAML", "PoolTargetOptionList"), PoolTargetOptionListYAMLAdapter_MODIFICATIONS) ].

(** The format and the class of objects identify an adapter. *)
Definition find_adapter (format cls : string) : option modifications :=
  match find (fun a => String.eqb a.1.1 format && String.eqb a.1.2 cls) adapter_classes with
  | Some a => Some a.2
  | None => None
  end.
