(* ===== verification/Adapters.v ===== *)
(** * Adapters between objects and their formats (designate/objects/adapters/)

    [render] makes the JSON of the HTTP interface, or the YAML of a pool file, of an
    object; [parse] puts what a request says into an object, if the request may say
    it. Both find the adapter of the object at hand in the registry of [AdapterTables]
    and go down into the objects it is related to; [fuel] bounds how deep classes nest,
    and [nesting] levels are enough for every class. [parse] returns the object it
    was given, changed; an exception leaves that object half changed, and no caller
    looks at it again. *)
From Stdlib Require Import ZArith Lia Ascii String.
From stdpp Require Import base option numbers strings sets list.
From S2P Require Import Prelude PyStr Exceptions Values Objects Utils Classes ObjectLists World AdapterTables.
Local Open Scope string_scope.

(** ** Values *)

(** ["%s" % v], for the values that occur in links. *)
Definition show (v : pyval) : string :=
  match v with
  | PStr s => s
  | PInt z => str_of_Z z
  | PBool b => if b then "True" else "False"
  | _ => "None"
  end.
(** [str(v)]: of values with a text of their own. *)
Definition py_str (v : pyval) : R string :=
  match v with
  | PList _ | PDict _ | PObj _ _ _ _ => Raise (Py PyNotImplementedError)
  | v => Ok (show v)
  end.
Definition class_of (o : pyval) : string := match o with PObj c _ _ _ => c | _ => show o end.
(** [bool(v)]: an empty list object counts as false. *)
Definition holds (v : pyval) : bool :=
  match v with
  | PObj c _ _ _ => negb (is_list_class registry c) || negb (length (list_objects v) =? 0)%nat
  | v => truthy v
  end.

(** [getattr(o, name)], with the properties the classes define themselves. *)
Definition related_records (o : pyval) : R (list pyval) :=
  let? records := getattr registry o "records" in Ok (list_objects records).
Definition pgetattr (o : pyval) (name : string) : R pyval :=
  if String.eqb (class_of o) "RecordSet" && String.eqb name "status" then
    let? l := related_records o in Ok (PStr (recordset_status l))
  else if String.eqb (class_of o) "RecordSet" && String.eqb name "action" then
    Ok (PStr (recordset_action []))
  else if String.eqb (class_of o) "RecordSet" && String.eqb name "managed" then
    let? l := related_records o in Ok (PBool (recordset_managed l))
  else if String.eqb (class_of o) "FloatingIP" && String.eqb name "key" then
    let? region := getattr registry o "region" in
    let? id := getattr registry o "id" in Ok (PStr (show region ++ ":" ++ show id))
  else getattr registry o name.
(** [getattr(o, name, default)] *)
Definition getattr_or (o : pyval) (name : string) (default : pyval) : R pyval :=
  match pgetattr o name with
  | Raise (Py PyAttributeError) => Ok default
  | r => r
  end.

(** [datetime.strftime(obj, DATETIME_FORMAT)]; a point of time is a number of seconds
    since 1970. *)
Definition civil (days : Z) : Z * Z * Z :=
  let z := (days + 719468)%Z in
  let era := (z / 146097)%Z in
  let doe := (z - era * 146097)%Z in
  let yoe := ((doe - doe / 1460 + doe / 36524 - doe / 146096) / 365)%Z in
  let doy := (doe - (365 * yoe + yoe / 4 - yoe / 100))%Z in
  let mp := ((5 * doy + 2) / 153)%Z in
  let day := (doy - (153 * mp + 2) / 5 + 1)%Z in
  let month := (if mp <? 10 then mp + 3 else mp - 9)%Z in
  ((yoe + era * 400 + (if month <=? 2 then 1 else 0))%Z, month, day).
Fixpoint pad (n : nat) (s : string) : string :=
  match n with
  | O => s
  | S n => if (String.length s <=? n)%nat then String "0" (pad n s) else s
  end.
Definition strftime (v : pyval) : R pyval :=
  match v with
  | PInt t =>
      let '(year, month, day) := civil (t / 86400) in
      let s := (t mod 86400)%Z in
      Ok (PStr (pad 4 (str_of_Z year) ++ "-" ++ pad 2 (str_of_Z month) ++ "-" ++ pad 2 (str_of_Z day)
                ++ "T" ++ pad 2 (str_of_Z (s / 3600)) ++ ":" ++ pad 2 (str_of_Z (s mod 3600 / 60)) ++ ":"
                ++ pad 2 (str_of_Z (s mod 60)) ++ ".000000"))
  | _ => Raise (Py PyTypeError)
  end.

(** [DesignateAdapter.get_object_adapter] *)
Definition get_object_adapter (format cls : string) : R modifications :=
  match find_adapter format cls with Some m => Ok m | None => Raise AdapterNotFound end.
Definition obj_key_of (kp : string * prop) : string := default kp.1 (p_rename kp.2).
Definition item_class (c : string) : option string :=
  match registry c with Some k => k_item k | None => None end.
Definition new (cls : string) : R pyval := new_obj registry cls [].
Definition is_v2 (format : string) : bool := String.eqb format "API_v2".

(** ** Links *)

(** What the links use of a request; [host_url] may fail. *)
Record http_request := {
  r_path : string; r_GET : list (string * string); r_host_url : option string;
}.
Definition parts (request : http_request) : list string :=
  split_char "/" (lstrip (Ascii.eqb "/") (r_path request)).

(** [_get_path]; [None] when the collection does not occur in the path. *)
Fixpoint path_to (collection : string) (parts : list string) (item_path : string) : option string :=
  match parts with
  | [] => None
  | part :: rest =>
      if String.eqb part collection then Some (item_path ++ "/" ++ part)
      else path_to collection rest (item_path ++ "/" ++ part)
  end.
(** [RecordSetAPIv2Adapter._get_path] *)
Fixpoint recordset_path_to (to_insert : string) (insert_zones : bool) (parts : list string)
    (item_path : string) : option string :=
  match parts with
  | [] => None
  | part :: rest =>
      if String.eqb part "recordsets" then Some (item_path ++ "/" ++ part)
      else if insert_zones && String.eqb part "v2"
      then recordset_path_to to_insert false rest (item_path ++ "/v2/" ++ to_insert)
      else recordset_path_to to_insert insert_zones rest (item_path ++ "/" ++ part)
  end.
Definition recordset_path (request : http_request) (o : pyval) : R (option string) :=
  if mem_str "zones" (parts request) then Ok (recordset_path_to "" false (parts request) "")
  else let? zone_id := pgetattr o "zone_id" in
       Ok (recordset_path_to ("zones/" ++ show zone_id) true (parts request) "").
Definition _get_path (m : modifications) (request : http_request) (o : pyval) : R (option string) :=
  let c := class_of o in
  if String.eqb c "RecordSet" then recordset_path request o
  else if String.eqb c "ZoneTransferRequest" then Ok (Some "/v2/zones/tasks/transfer_requests")
  else if String.eqb c "ZoneExport" then Ok (Some "/v2/zones/tasks/exports")
  else match m_options m with
       | Some opt => Ok (path_to (o_collection_name opt) (parts request) "")
       | None => Raise (Py PyKeyError)
       end.
Definition show_path (p : option string) : string := default "None" p.

Section Render.
Context `{Env}.

Definition BASE_URI : string := rstrip (Ascii.eqb "/") (conf_str "service:api.api_base_uri").
Definition base_uri (request : http_request) : string :=
  if negb (conf_int "service:api.enable_host_header" =? 0)%Z
  then default BASE_URI (r_host_url request) else BASE_URI.

(** [_get_resource_links], of floating IPs their own *)
Definition _get_resource_links (m : modifications) (o : pyval) (request : http_request) : R pyval :=
  let? path := _get_path m request o in
  if String.eqb (class_of o) "FloatingIP" then
    let? key := pgetattr o "key" in
    Ok (PDict [("self", PStr (BASE_URI ++ show_path path ++ "/" ++ show key))])
  else
    let? id := pgetattr o "id" in
    Ok (PDict [("self", PStr (base_uri request ++ show_path path ++ "/" ++ show id))]).

(** [urlencode] *)
Definition hex_digit (n : nat) : ascii :=
  if (n <? 10)%nat then ascii_of_nat (48 + n) else ascii_of_nat (55 + n).
Definition unreserved (a : ascii) : bool :=
  is_upper a || is_lower a || PyStr.is_digit a || Ascii.eqb a "_" || Ascii.eqb a "." || Ascii.eqb a "-".
Fixpoint quote_plus (s : string) : string :=
  match s with
  | "" => ""
  | String a s =>
      if unreserved a then String a (quote_plus s)
      else if Ascii.eqb a " " then String "+" (quote_plus s)
      else String "%" (String (hex_digit (nat_of_ascii a / 16)) (String (hex_digit (nat_of_ascii a mod 16)) (quote_plus s)))
  end.
Definition urlencode (params : list (string * string)) : string :=
  join "&" (map (fun kv => quote_plus kv.1 ++ "=" ++ quote_plus kv.2) params).

(** [_get_collection_href] *)
Definition _get_collection_href (m : modifications) (o : pyval) (request : http_request)
    (params : list (string * string)) : R string :=
  let? path := _get_path m request o in
  Ok (rstrip (Ascii.eqb "?") (base_uri request ++ show_path path ++ "?" ++ urlencode params)).
(** The limit of a page: that of the request, or the default. *)
Definition page_limit (request : http_request) : R Z :=
  match aget "limit" (r_GET request) with
  | Some limit =>
      if String.eqb (lower limit) "max" then Ok (conf_int "service:api.max_limit_v2")
      else match int_of_str limit with Some n => Ok n | None => Raise (BadRequest DesignateValueError) end
  | None => Ok (conf_int "service:api.default_limit_v2")
  end.
(** [_get_collection_links], with [_get_next_href] *)
Definition _get_collection_links (m : modifications) (o : pyval) (request : http_request) : R pyval :=
  let? self := _get_collection_href m o request (r_GET request) in
  let? limit := page_limit request in
  if (limit =? Z.of_nat (length (list_objects o)))%Z then
    let? last := getitem o (-1) in
    let? id := pgetattr last "id" in
    let? next := _get_collection_href m o request (aset "marker" (show id) (r_GET request)) in
    Ok (PDict [("self", PStr self); ("next", PStr next)])
  else Ok (PDict [("self", PStr self)]).

(** ** Rendering *)

(** The keyword arguments the controllers pass along. *)
Record kwargs := {
  k_request : option http_request; k_context : option context; k_failed_object : option pyval;
}.

Definition is_integer_field (c name : string) : bool :=
  match aget name (fields_of registry c) with
  | Some f => match f_schema f with Some s => bool_decide (s_types s = ["integer"]) | None => false end
  | None => false
  end.

Section Fields.
Variable render : string -> pyval -> R pyval.

(** One entry of the loop of [_render_object]. *)
Definition render_value (format c obj_key : string) (obj : pyval) : R (option pyval) :=
  match relation_cls c obj_key with
  | Some rc =>
      let? _ := get_object_adapter format rc in
      let? v := render format obj in Ok (Some v)
  | None =>
      if is_v2 format then
        match obj with
        | PNone => Ok (Some PNone)
        | _ => if is_date_time registry c obj_key then let? v := strftime obj in Ok (Some v)
               else Ok (Some obj)
        end
      else if is_integer_field c obj_key then let? n := int_of_val obj in Ok (Some (PInt n))
      else match obj with
           | PNone => Ok None
           | _ => let? s := py_str obj in Ok (Some (PStr s))
           end
  end.
Definition render_field (format : string) (o : pyval) (kp : string * prop) :
    R (option (string * pyval)) :=
  let? obj := match p_rename kp.2 with
              | Some n => pgetattr o n
              | None => getattr_or o kp.1 PNone
              end in
  let? v := render_value format (class_of o) (obj_key_of kp) obj in
  Ok (match v with Some v => Some (kp.1, v) | None => None end).
Definition render_fields (format : string) (m : modifications) (o : pyval) : R (list (string * pyval)) :=
  let? l := rmap (render_field format o) (m_fields m) in Ok (omap id l).

(** [APIv2Adapter._render_object]: the fields, and the links. *)
Definition with_links (format : string) (m : modifications) (kw : kwargs) (o : pyval)
    (obj : list (string * pyval)) : R (list (string * pyval)) :=
  match is_v2 format, m_options m, k_request kw with
  | true, Some opt, Some request =>
      if o_links opt then let? l := _get_resource_links m o request in Ok (aset "links" l obj)
      else Ok obj
  | _, _, _ => Ok obj
  end.
Definition render_default (format : string) (m : modifications) (kw : kwargs) (o : pyval) :
    R (list (string * pyval)) :=
  let? obj := render_fields format m o in with_links format m kw o obj.

(** [obj['links'][name] = v] *)
Definition set_link (name : string) (v : string) (obj : list (string * pyval)) : R (list (string * pyval)) :=
  match aget "links" obj with
  | Some (PDict l) => Ok (aset "links" (PDict (aset name (PStr v) l)) obj)
  | _ => Raise (Py PyKeyError)
  end.
Definition item (name : string) (obj : list (string * pyval)) : R pyval :=
  match aget name obj with Some v => Ok v | None => Raise (Py PyKeyError) end.

(** [ZoneMasterAPIv2Adapter._render_object] *)
Definition render_master (o : pyval) : R pyval :=
  let? port := getattr registry o "port" in
  let? host := getattr registry o "host" in
  match port with
  | PInt 53 => Ok host
  | PInt p => if obj_attr_is_set o "host" then Ok (PStr (show host ++ ":" ++ str_of_Z p))
              else Raise (Py PyKeyError)
  | _ => Raise (Py PyTypeError)
  end.
(** [s.split(sep)[0]] *)
Definition before_first (sep s : string) : string :=
  match String.index 0 sep s with Some i => stake i s | None => s end.
(** [ZoneExportAPIv2Adapter._render_object]: the address of the export, after the
    scheme, below the part of the link to itself before the path of exports. *)
Definition export_link (kw : kwargs) (obj : list (string * pyval)) : R (list (string * pyval)) :=
  let? location := item "location" obj in
  match location with
  | PStr l =>
      if startswith "designate://" l then
        match aget "links" obj with
        | Some (PDict links) =>
            match aget "self" links with
            | Some (PStr self) =>
                set_link "export"
                  (before_first "/v2/zones/tasks/exports" self ++ "/"
                   ++ before_first "://" (sdrop (String.length "designate://") l)) obj
            | _ => Raise (Py PyKeyError)
            end
        | _ => Raise (Py PyKeyError)
        end
      else Ok obj
  | PNone => Ok obj
  | v => if truthy v then Raise (Py PyAttributeError) else Ok obj
  end.
(** [ZoneTransferRequestAPIv2Adapter._render_object]: others only see what is not
    protected. *)
Definition hide_protected (m : modifications) (kw : kwargs) (o : pyval) (obj : list (string * pyval)) :
    R (list (string * pyval)) :=
  let? tenant_id := getattr registry o "tenant_id" in
  match k_context kw with
  | None => Raise (Py PyKeyError)
  | Some ctx =>
      match check "get_zone_transfer_request_detailed" ctx [("tenant_id", tenant_id)] with
      | Ok _ => Ok obj
      | Raise (Forbidden _) =>
          Ok (foldl (fun acc kp => if p_protected kp.2 then adel kp.1 acc else acc) obj (m_fields m))
      | Raise e => Raise e
      end
  end.

(** [_render_object] of a class. *)
Definition _render_object (format : string) (m : modifications) (kw : kwargs) (o : pyval) : R pyval :=
  let c := class_of o in
  let obj := render_default format m kw o in
  if mem_str c ["ZoneAttribute"; "PoolAttribute"; "PoolTargetOption"] then
    let? key := getattr registry o "key" in
    let? value := getattr registry o "value" in
    if is_v2 format then Ok (PDict [(show key, value)])
    else let? k := py_str key in let? v := py_str value in Ok (PDict [(k, PStr v)])
  else if negb (is_v2 format) then let? d := obj in Ok (PDict d)
  else if String.eqb c "Record" then getattr registry o "data"
  else if String.eqb c "ZoneMaster" then render_master o
  else if String.eqb c "ServiceStatus" then
    let? d := obj in
    let? id := item "id" d in
    let? d := set_link "self" (BASE_URI ++ "/v2/service_statuses/" ++ show id) d in Ok (PDict d)
  else if String.eqb c "ZoneExport" then
    let? d := obj in let? d := export_link kw d in Ok (PDict d)
  else if String.eqb c "ZoneImport" then
    let? d := obj in
    let? zone_id := item "zone_id" d in
    match zone_id with
    | PNone => Ok (PDict d)
    | _ => let? d := set_link "zone" (BASE_URI ++ "/v2/zones/" ++ show zone_id) d in Ok (PDict d)
    end
  else if String.eqb c "ZoneTransferAccept" then
    let? d := obj in
    let? zone_id := item "zone_id" d in
    let? d := set_link "zone" (BASE_URI ++ "/v2/zones/" ++ show zone_id) d in Ok (PDict d)
  else if String.eqb c "ZoneTransferRequest" then
    let? d := obj in let? d := hide_protected m kw o d in Ok (PDict d)
  else let? d := obj in Ok (PDict d).

(** Lists of attributes become one dictionary. *)
Definition merge_rendered (l : list pyval) : R pyval :=
  let? d := foldl (fun acc v => let? d := acc in
                                match v with PDict e => Ok (aupdate d e) | _ => Raise (Py PyTypeError) end)
              (Ok []) l in
  Ok (PDict d).
Definition quota_entry (o : pyval) : R (string * pyval) :=
  let? resource := getattr registry o "resource" in
  let? hard_limit := getattr registry o "hard_limit" in Ok (show resource, hard_limit).
(** [APIv2Adapter._render_list]: the items, links and metadata. *)
Definition render_collection (m : modifications) (kw : kwargs) (o : pyval) (items : list pyval) : R pyval :=
  match m_options m with
  | None => Raise (Py PyKeyError)
  | Some opt =>
      let r_list := [(o_collection_name opt, PList items)] in
      let? r_list := (match k_request kw with
                      | Some request =>
                          if o_links opt then
                            let? l := _get_collection_links m o request in Ok (aset "links" l r_list)
                          else Ok r_list
                      | None => Ok r_list
                      end) in
      if in_FIELDS registry (class_of o) "total_count" then
        let? n := getattr registry o "total_count" in
        Ok (PDict (aset "metadata" (PDict (match n with PNone => [] | _ => [("total_count", n)] end)) r_list))
      else Ok (PDict r_list)
  end.
(** [_render_list] of a class. *)
Definition _render_list (format : string) (m : modifications) (kw : kwargs) (o : pyval) : R pyval :=
  let c := class_of o in
  let objects := list_objects o in
  let rendered := rmap (fun x => let? _ := get_object_adapter format (class_of x) in render format x) objects in
  if mem_str c ["ZoneAttributeList"; "PoolAttributeList"; "PoolTargetOptionList"] then
    let? l := rendered in merge_rendered l
  else if negb (is_v2 format) then let? l := rendered in Ok (PList l)
  else if String.eqb c "RecordList" then
    let? l := rmap (fun x => getattr registry x "data") objects in Ok (PList l)
  else if String.eqb c "ZoneMasterList" then let? l := rendered in Ok (PList l)
  else if String.eqb c "QuotaList" then
    let? l := rmap quota_entry objects in Ok (PDict (aupdate [] l))
  else if String.eqb c "PoolNsRecordList" then
    let? l := rendered in
    let? d := render_collection m kw o l in
    match d with PDict d => item "ns_records" d | _ => Raise (Py PyTypeError) end
  else let? l := rendered in render_collection m kw o l.
End Fields.

(** ** Errors *)

(** [_rename_path_segment]: the name of the request for the name of an attribute, and
    the adapter for the rest of the path. *)
Definition adapter := (string * modifications)%type.
Definition adapter_of (format cls : string) : R adapter :=
  let? m := get_object_adapter format cls in Ok (cls, m).
Fixpoint rename_loop (descend : string -> string -> R (pyval * adapter)) (a : adapter) (cls : string)
    (fields : list (string * prop)) (segment : string) : R (pyval * adapter) :=
  match fields with
  | [] => Ok (PStr segment, a)
  | (key, p) :: rest =>
      match relation_cls cls segment with
      | Some rc => descend segment rc
      | None => rename_loop descend a cls rest
                  (if bool_decide (p_rename p = Some segment) then key else segment)
      end
  end.
Fixpoint _rename_path_segment (fuel : nat) (a : adapter) (cls : string) (segment : pyval) : R (pyval * adapter) :=
  match fuel with
  | O => Raise (Py Blocked)
  | S fuel =>
      match item_class a.1 with
      | Some i => let? a := adapter_of "API_v2" i in Ok (segment, a)
      | None =>
          match segment with
          | PStr s =>
              rename_loop (fun s rc => let? a := adapter_of "API_v2" rc in
                                       _rename_path_segment fuel a rc (PStr s)) a cls (m_fields a.2) s
          | _ => Ok (segment, a)
          end
      end
  end.
(** [_rename_path]: [object] stays the failed object all the way down. *)
Fixpoint rename_segments (a : adapter) (cls : string) (path : list pyval) : R (list pyval) :=
  match path with
  | [] => Ok []
  | segment :: rest =>
      let? ' (s, a) := _rename_path_segment 2 a cls segment in
      let? l := rename_segments a cls rest in Ok (s :: l)
  end.
Definition _rename_path (cls : string) (path : list pyval) : R (list pyval) :=
  let? a := adapter_of "API_v2" cls in rename_segments a cls path.

(** [REQUIRED_RE.match(message).group(1)] *)
Definition quote : ascii := ascii_of_nat 39.
Definition is_word (a : ascii) : bool := is_upper a || is_lower a || PyStr.is_digit a || Ascii.eqb a "_".
Definition required_name (message : string) : R string :=
  match message with
  | String q rest =>
      let '(name, _, after) := partition_char quote rest in
      if Ascii.eqb q quote && sforall is_word name && startswith " is a required property" after
         && has_char quote rest
      then Ok name else Raise (Py PyAttributeError)
  | "" => Raise (Py PyAttributeError)
  end.
(** [ValidationErrorAPIv2Adapter._render_object] *)
Definition render_error (kw : kwargs) (error : pyval) (error_dict : list (string * pyval)) : R pyval :=
  let? path := item "path" error_dict in
  match path with
  | PList path =>
      let? path := (match aget "validator" error_dict with
                    | Some (PStr "required") =>
                        let? message := getattr registry error "message" in
                        let? name := required_name (show message) in Ok (app path [PStr name])
                    | _ => Ok path
                    end) in
      match k_failed_object kw with
      | Some failed => let? path := _rename_path (class_of failed) path in
                       Ok (PDict (aset "path" (PList path) error_dict))
      | None => Raise (Py PyKeyError)
      end
  | _ => Raise (Py PyAttributeError)
  end.

(** [DesignateAdapter.render] *)
Definition nesting : nat := 6.
Fixpoint render (fuel : nat) (kw : kwargs) (format : string) (o : pyval) : R pyval :=
  match fuel with
  | O => Raise (Py Blocked)
  | S fuel =>
      let? m := get_object_adapter format (class_of o) in
      if is_list_class registry (class_of o) then _render_list (render fuel kw) format m kw o
      else if is_v2 format && String.eqb (class_of o) "ValidationError" then
        let? d := render_default (render fuel kw) format m kw o in render_error kw o d
      else _render_object (render fuel kw) format m kw o
  end.
End Render.

(** ** Parsing *)

Section Parse.
(** The order in which a set of Python gives its members. *)
Variable set_iter : list pyval -> list pyval.

(** What [for item in values] goes through. *)
Fixpoint characters (s : string) : list pyval :=
  match s with "" => [] | String a s => PStr (String a "") :: characters s end.
Definition iterate (values : pyval) : R (list pyval) :=
  match values with
  | PList l => Ok l
  | PDict d => Ok (map (fun kv => PStr kv.1) d)
  | PStr s => Ok (characters s)
  | _ => Raise (Py PyTypeError)
  end.
Definition entries (values : pyval) : R (list (string * pyval)) :=
  match values with PDict d => Ok d | _ => Raise (Py PyAttributeError) end.

(** The members of a set, in the order they were first added; lists and dictionaries
    cannot be members. *)
Definition member (v : pyval) (l : list pyval) : bool := existsb (fun x => py_eq x v) l.
Definition set_add (acc : R (list pyval)) (v : pyval) : R (list pyval) :=
  let? l := acc in
  match v with
  | PList _ | PDict _ => Raise (Py PyTypeError)
  | _ => Ok (if member v l then l else app l [v])
  end.
Definition to_set (l : list pyval) : R (list pyval) := foldl set_add (Ok []) l.
Definition difference (a b : list pyval) : list pyval := filter (fun v => member v b = false) a.

Section Fields.
Variable parse : string -> pyval -> pyval -> R pyval.

(** May a request give this value to this attribute? *)
Definition refused (output : pyval) (kp : string * prop) (value : pyval) : R bool :=
  let obj_key := obj_key_of kp in
  if p_immutable kp.2 then
    let? current := getattr_or output obj_key (PBool false) in
    if holds current then let? current := pgetattr output obj_key in Ok (negb (py_eq current value))
    else Ok false
  else if p_read_only kp.2 then
    let? current := pgetattr output obj_key in Ok (negb (py_eq current value))
  else Ok false.
Definition parse_value (format : string) (output : pyval) (obj_key : string) (value : pyval) : R pyval :=
  match relation_cls (class_of output) obj_key with
  | Some rc =>
      let? obj := new rc in
      let? _ := get_object_adapter format rc in
      parse format value obj
  | None => Ok value
  end.
(** The loop of [_parse_object], with the keys in error. *)
Fixpoint parse_fields (format : string) (m : modifications) (values : list (string * pyval))
    (output : pyval) (error_keys : list string) : R (pyval * list string) :=
  match values with
  | [] => Ok (output, error_keys)
  | (key, value) :: rest =>
      match aget key (m_fields m) with
      | None => parse_fields format m rest output (app error_keys [key])
      | Some p =>
          let? bad := refused output (key, p) value in
          if bad then Ok (output, app error_keys [key])
          else
            let? w := parse_value format output (obj_key_of (key, p)) value in
            let? output := setattr registry output (obj_key_of (key, p)) w in
            parse_fields format m rest output error_keys
      end
  end.
Definition parse_default (format : string) (m : modifications) (values : list (string * pyval))
    (output : pyval) : R pyval :=
  let? ' (output, error_keys) := parse_fields format m values output [] in
  match error_keys, m_options m with
  | [], _ => Ok output
  | _, Some _ => Raise InvalidObject
  | _, None => Raise (Py PyKeyError)
  end.

(** [ZoneAPIv2Adapter._parse_object] *)
Definition parse_related (format name cls : string) (values : list (string * pyval)) (o : pyval) : R pyval :=
  match aget name values with
  | Some v => let? l := new cls in
              let? l := parse format v l in setattr registry o name l
  | None => Ok o
  end.
Definition parse_zone (format : string) (m : modifications) (values : list (string * pyval)) (o : pyval) : R pyval :=
  let? o := parse_related format "masters" "ZoneMasterList" values o in
  let? o := parse_related format "attributes" "ZoneAttributeList" values o in
  parse_default format m (adel "attributes" (adel "masters" values)) o.

(** [RecordSetAPIv2Adapter._parse_object] *)
Definition with_records (recordset : pyval) : R pyval :=
  match getattr registry recordset "records" with
  | Raise RelationNotLoaded => let? l := new "RecordList" in setattr registry recordset "records" l
  | Raise e => Raise e
  | Ok _ => Ok recordset
  end.
Definition data_of (record : pyval) : R pyval := getattr registry record "data".
Definition new_record (data : pyval) : R pyval := new_obj registry "Record" [("data", data)].
Definition merge_records (records : list pyval) (original_records new_records : list pyval) : R pyval :=
  let records_to_add := set_iter (difference new_records original_records) in
  let records_to_rm := difference original_records new_records in
  let? kept := rmap (fun r => let? d := data_of r in
                              Ok (if member d records_to_rm then [] else [r])) records in
  let? added := rmap new_record records_to_add in
  let? l := new "RecordList" in
  Ok (extend l (app (concat kept) added)).
Definition parse_recordset (format : string) (m : modifications) (values : list (string * pyval))
    (recordset : pyval) : R pyval :=
  let? recordset := with_records recordset in
  let? records := related_records recordset in
  let? original := rmap data_of records in
  let? original_records := to_set original in
  match aget "records" values with
  | Some (PList l) =>
      let? new_records := to_set l in
      let? merged := merge_records records original_records new_records in
      let? recordset := setattr registry recordset "records" merged in
      parse_default format m (adel "records" values) recordset
  | Some _ => Raise InvalidObject
  | None => parse_default format m values recordset
  end.

(** [_parse_object] of attributes: the last entry wins. *)
Definition parse_attribute (values : list (string * pyval)) (o : pyval) : R pyval :=
  foldl (fun acc kv => let? o := acc in
                       let? o := setattr registry o "key" (PStr kv.1) in
                       setattr registry o "value" kv.2) (Ok o) values.
(** [_parse_object] of a class. *)
Definition _parse_object (format : string) (m : modifications) (values output : pyval) : R pyval :=
  let c := class_of output in
  if mem_str c ["ZoneAttribute"; "PoolAttribute"; "PoolTargetOption"] then
    let? d := entries values in parse_attribute d output
  else if is_v2 format && String.eqb c "Record" then setattr registry output "data" values
  else if is_v2 format && String.eqb c "ZoneMaster" then
    match values with
    | PStr s =>
        let '(host, port) := split_host_port s 53 in
        let? o := setattr registry output "host" (PStr host) in setattr registry o "port" (PInt port)
    | _ => Raise (Py PyAttributeError)
    end
  else
    let? d := entries values in
    if is_v2 format && String.eqb c "Zone" then parse_zone format m d output
    else if is_v2 format && String.eqb c "RecordSet" then parse_recordset format m d output
    else parse_default format m d output.

(** [_parse_list]: every item into a new object. *)
Definition parse_item (format item : string) (value : pyval) : R pyval :=
  let? o := new item in
  let? _ := get_object_adapter format item in
  parse format value o.
Definition _parse_list (format : string) (values output : pyval) : R pyval :=
  let c := class_of output in
  match item_class c with
  | None => Raise (Py PyAttributeError)
  | Some i =>
      if mem_str c ["ZoneAttributeList"; "PoolAttributeList"; "PoolTargetOptionList"] then
        let? d := entries values in
        let? l := rmap (fun kv => parse_item format i (PDict [kv])) d in Ok (extend output l)
      else if is_v2 format && String.eqb c "QuotaList" then
        let? d := entries values in
        let? l := rmap (fun kv => from_dict 1 i (PDict [("resource", PStr kv.1); ("hard_limit", kv.2)])) d in
        Ok (extend output l)
      else
        let? items := iterate values in
        let? l := rmap (parse_item format i) items in Ok (extend output l)
  end.
End Fields.

(** [DesignateAdapter.parse]: whatever goes wrong is an invalid object. *)
Definition as_invalid (e : exc) : exc := match e with Py Blocked => e | _ => InvalidObject end.
Fixpoint parse (fuel : nat) (format : string) (values output : pyval) : R pyval :=
  match fuel with
  | O => Raise (Py Blocked)
  | S fuel =>
      match (let? m := get_object_adapter format (class_of output) in
             if is_list_class registry (class_of output) then _parse_list (parse fuel) format values output
             else _parse_object (parse fuel) format m values output) with
      | Ok o => Ok o
      | Raise e => Raise (as_invalid e)
      end
  end.
End Parse.
