(* ===== verification/AdaptersFacts.v ===== *)
(** * What requests may do to objects (designate/objects/adapters/)

    Whatever a request contains, parsing it gives the object or reports an invalid
    one. A request changes an attribute only if the tables of the adapter let it, and
    the records of a record set become the requested ones, those that stay keeping
    their identity. A pool survives its YAML file. *)
From Stdlib Require Import ZArith Lia String.
From stdpp Require Import base option numbers strings sets list.
From S2P Require Import Prelude PyStr Exceptions Values Objects Utils Classes ObjectLists World ObjectTypes AdapterTables Adapters.
Local Open Scope string_scope.

(** ** Enough fuel *)

(** A computation that does not run out of fuel. *)
Class Unblocked {A} (r : R A) : Prop := unblocked : r <> Raise (Py Blocked).
#[export] Hint Mode Unblocked - ! : typeclass_instances.

#[export] Instance unblocked_ok {A} (a : A) : Unblocked (Ok a).
Proof. done. Qed.
#[export] Instance unblocked_raise {A} e : e <> Py Blocked -> Unblocked (@Raise exc A e).
Proof. intros He [= ->]. done. Qed.
#[export] Instance unblocked_rbind {A B} (r : R A) (f : A -> R B) :
  Unblocked r -> (forall a, Unblocked (f a)) -> Unblocked (rbind r f).
Proof. intros Hr Hf. destruct r as [a|e]; cbn; [apply Hf|]. intros [= ->]. by apply Hr. Qed.
#[export] Instance unblocked_rmap {A B} (f : A -> R B) l :
  (forall a, Unblocked (f a)) -> Unblocked (rmap f l).
Proof. intros Hf. induction l as [|x l IH]; cbn [rmap]; apply _. Qed.
Lemma unblocked_fold {A B} (f : R B -> A -> R B) l acc :
  Unblocked acc -> (forall acc a, Unblocked acc -> Unblocked (f acc a)) -> Unblocked (foldl f acc l).
Proof. intros Hacc Hf. revert acc Hacc. induction l as [|x l IH]; intros acc Hacc; cbn [foldl]; [done|]. by apply IH, Hf. Qed.
#[export] Hint Extern 2 (_ <> Py Blocked) => discriminate : typeclass_instances.
(** The exception of a step is that of the whole. *)
Lemma unblocked_of {A B} (r : R A) e : r = Raise e -> Unblocked r -> Unblocked (Raise e : R B).
Proof. intros -> Hr. apply unblocked_raise. intros ->. by apply Hr. Qed.
(** Case analysis down to the leaves. *)
Ltac unblock := repeat first [apply _ | apply unblocked_rbind; [|intros] | case_match].

#[export] Instance unblocked_getattr o n : Unblocked (getattr registry o n).
Proof. destruct o; cbn [getattr]; unblock. Qed.
#[export] Instance unblocked_setattr o n v : Unblocked (setattr registry o n v).
Proof. destruct o; cbn [setattr]; unblock. Qed.
#[export] Instance unblocked_pgetattr o n : Unblocked (pgetattr o n).
Proof. unfold pgetattr, related_records. unblock. Qed.
#[export] Instance unblocked_getattr_or o n d : Unblocked (getattr_or o n d).
Proof.
  unfold getattr_or. pose proof (unblocked_pgetattr o n) as Hp.
  destruct (pgetattr o n) as [|[]]; try apply _. by destruct b; try apply _.
Qed.
#[export] Instance unblocked_new_obj c kw : Unblocked (new_obj registry c kw).
Proof.
  unfold new_obj. apply unblocked_rbind; [|intros; unblock].
  generalize (PObj c [] [] []) as o. induction kw as [|[k v] kw IH]; intros o; cbn [init_from]; unblock.
Qed.
#[export] Instance unblocked_adapter format c : Unblocked (get_object_adapter format c).
Proof. unfold get_object_adapter. unblock. Qed.
#[export] Instance unblocked_entries v : Unblocked (entries v).
Proof. destruct v; cbn; unblock. Qed.
#[export] Instance unblocked_iterate v : Unblocked (iterate v).
Proof. destruct v; cbn; unblock. Qed.
#[export] Instance unblocked_new c : Unblocked (new c).
Proof. unfold new. unblock. Qed.
#[export] Instance unblocked_to_set l : Unblocked (to_set l).
Proof. apply unblocked_fold; [apply _|]. intros acc v Hacc. unfold set_add. apply _ || (apply unblocked_rbind; [done|intros; unblock]). Qed.

(** How deep a class nests: a level more than the classes of its relations and items. *)
Definition parts_of (c : string) : list string :=
  app (omap (fun nf => f_relation nf.2) (fields_of registry c)) (match item_class c with Some i => [i] | None => [] end).
Fixpoint depth (fuel : nat) (c : string) : nat :=
  match fuel with
  | O => O
  | S fuel => S (foldr (fun p n => Nat.max (depth fuel p) n) O (parts_of c))
  end.
Definition rank (c : string) : nat := depth nesting c.
Lemma rank_parts c p : p ∈ parts_of c -> rank p < rank c.
Proof.
  destruct (registry c) as [k|] eqn:Hk.
  - assert (Hall : Forall (fun x => Forall (fun p => rank p < rank x.1) (parts_of x.1)) classes).
    { apply (bool_decide_eq_true_1 (Forall (fun x => Forall (fun p => rank p < rank x.1) (parts_of x.1)) classes)).
      vm_compute. reflexivity. }
    apply aget_Some_elem in Hk. rewrite Forall_forall in Hall. specialize (Hall _ Hk).
    rewrite Forall_forall in Hall. apply Hall.
  - unfold parts_of, fields_of, item_class. rewrite Hk. cbn. by intros ?%not_elem_of_nil.
Qed.
Lemma rank_bound c : rank c <= nesting.
Proof.
  destruct (registry c) as [k|] eqn:Hk.
  - assert (Hall : Forall (fun x => rank x.1 <= nesting) classes).
    { apply (bool_decide_eq_true_1 (Forall (fun x => rank x.1 <= nesting) classes)). vm_compute. reflexivity. }
    apply aget_Some_elem in Hk. rewrite Forall_forall in Hall. apply (Hall _ Hk).
  - unfold rank, nesting. cbn [depth]. unfold parts_of, fields_of, item_class. rewrite Hk. cbn. lia.
Qed.
Lemma relation_part c n rc : relation_cls c n = Some rc -> rc ∈ parts_of c.
Proof.
  unfold relation_cls, parts_of. destruct (aget n (fields_of registry c)) as [f|] eqn:Hf; [|done]. intros Hr.
  apply elem_of_app. left. apply list_elem_of_omap. exists (n, f). split; [by apply aget_Some_elem|done].
Qed.
Lemma item_part c i : item_class c = Some i -> i ∈ parts_of c.
Proof. unfold parts_of. intros ->. apply elem_of_app. right. by apply list_elem_of_singleton. Qed.

Lemma new_class c o : new c = Ok o -> class_of o = c.
Proof. unfold new, new_obj. cbn. destruct (is_list_class registry c); cbn; by intros [= <-]. Qed.
Lemma setattr_same_class o k v o' : setattr registry o k v = Ok o' -> class_of o' = class_of o.
Proof. by intros (c & f & ch & og & f' & ch' & og' & -> & -> & _)%setattr_class. Qed.

Section Unblocked.
Variable set_iter : list pyval -> list pyval.
Variable parse : string -> pyval -> pyval -> R pyval.
Variable fuel : nat.
Hypothesis parse_unblocked : forall format v o, rank (class_of o) <= fuel -> Unblocked (parse format v o).

Lemma unblocked_part format v c p : rank c <= S fuel -> p ∈ parts_of c -> Unblocked (let? o := new p in parse format v o).
Proof.
  intros Hc Hp. destruct (new p) as [o|e] eqn:Hn; cbn [rbind].
  - apply parse_unblocked. rewrite (new_class _ _ Hn). apply rank_parts in Hp. lia.
  - by apply (unblocked_of _ _ Hn), _.
Qed.
Lemma unblocked_parse_value format o k v : rank (class_of o) <= S fuel -> Unblocked (parse_value parse format o k v).
Proof.
  intros Ho. unfold parse_value. destruct (relation_cls _ k) as [rc|] eqn:Hr; [|apply _].
  destruct (new rc) as [obj|e] eqn:Hn; cbn [rbind]; [|by apply (unblocked_of _ _ Hn), _].
  apply unblocked_rbind; [apply _|]. intros _. apply parse_unblocked. rewrite (new_class _ _ Hn).
  apply relation_part, rank_parts in Hr. lia.
Qed.
Lemma unblocked_refused o kp v : Unblocked (refused o kp v).
Proof. unfold refused. unblock. Qed.
Lemma unblocked_parse_fields format m values o errs :
  rank (class_of o) <= S fuel -> Unblocked (parse_fields parse format m values o errs).
Proof.
  revert o errs. induction values as [|[k v] values IH]; intros o errs Ho; cbn [parse_fields]; [apply _|].
  destruct (aget k (m_fields m)) as [p|]; [|by apply IH].
  apply unblocked_rbind; [apply unblocked_refused|]. intros [|]; [apply _|].
  destruct (parse_value _ _ _ _ _) as [w|e] eqn:Hw; cbn [rbind].
  - destruct (setattr _ _ _ _) as [o'|e'] eqn:Hs; cbn [rbind]; [|by apply (unblocked_of _ _ Hs), _].
    apply IH. by rewrite (setattr_same_class _ _ _ _ Hs).
  - by apply (unblocked_of _ _ Hw), unblocked_parse_value.
Qed.
Lemma unblocked_parse_default format m values o :
  rank (class_of o) <= S fuel -> Unblocked (parse_default parse format m values o).
Proof. intros Ho. apply unblocked_rbind; [by apply unblocked_parse_fields|]. intros [? errs]. unblock. Qed.
Lemma unblocked_parse_related format name cls values o :
  rank (class_of o) <= S fuel -> rank cls <= fuel -> Unblocked (parse_related parse format name cls values o).
Proof.
  intros Ho Hc. unfold parse_related. destruct (aget name values); [|apply _].
  destruct (new cls) as [l|e] eqn:Hn; cbn [rbind]; [|by apply (unblocked_of _ _ Hn), _].
  apply unblocked_rbind; [|apply _]. apply parse_unblocked. by rewrite (new_class _ _ Hn).
Qed.
Lemma parse_related_class format name cls values o o' :
  parse_related parse format name cls values o = Ok o' -> class_of o' = class_of o.
Proof.
  unfold parse_related. destruct (aget name values); [|by intros [= <-]].
  destruct (new cls); cbn [rbind]; [|done]. destruct (parse _ _ _); cbn [rbind]; [|done]. apply setattr_same_class.
Qed.
Lemma unblocked_parse_zone format m values o :
  class_of o = "Zone" -> rank (class_of o) <= S fuel -> Unblocked (parse_zone parse format m values o).
Proof.
  intros Hc Ho. unfold parse_zone.
  assert (rank "ZoneMasterList" <= fuel /\ rank "ZoneAttributeList" <= fuel) as [Hm Ha].
  { rewrite Hc in Ho. revert Ho. vm_compute. lia. }
  destruct (parse_related _ _ _ _ _ _) as [o1|e] eqn:H1; cbn [rbind];
    [|by apply (unblocked_of _ _ H1), unblocked_parse_related].
  apply parse_related_class in H1. rewrite <- H1 in Ho.
  destruct (parse_related _ _ _ _ _ o1) as [o2|e] eqn:H2; cbn [rbind];
    [|by apply (unblocked_of _ _ H2), unblocked_parse_related].
  apply parse_related_class in H2. rewrite <- H2 in Ho. by apply unblocked_parse_default.
Qed.
Lemma unblocked_merge_records records a b : Unblocked (merge_records set_iter records a b).
Proof. unfold merge_records, data_of, new_record. unblock. Qed.
Lemma with_records_class o o' : with_records o = Ok o' -> class_of o' = class_of o.
Proof.
  unfold with_records. destruct (getattr registry o "records") as [|[]]; try done; [by intros [= <-]|].
  destruct (new "RecordList"); cbn [rbind]; [|done]. apply setattr_same_class.
Qed.
Lemma unblocked_with_records o : Unblocked (with_records o).
Proof.
  unfold with_records. pose proof (unblocked_getattr o "records") as Hg.
  destruct (getattr registry o "records") as [|[]]; apply _.
Qed.
Lemma unblocked_parse_recordset format m values o :
  rank (class_of o) <= S fuel -> Unblocked (parse_recordset set_iter parse format m values o).
Proof.
  intros Ho. unfold parse_recordset.
  destruct (with_records o) as [o1|e] eqn:H1; cbn [rbind]; [|apply (unblocked_of _ _ H1), unblocked_with_records].
  apply with_records_class in H1. rewrite <- H1 in Ho.
  apply unblocked_rbind; [unfold related_records; apply _|]. intros records.
  apply unblocked_rbind; [unfold data_of; apply _|]. intros original. apply unblocked_rbind; [apply _|]. intros originals.
  destruct (aget "records" values) as [v|]; [|by apply unblocked_parse_default].
  destruct v; try apply _. apply unblocked_rbind; [apply _|]. intros new_records.
  apply unblocked_rbind; [apply unblocked_merge_records|]. intros merged.
  destruct (setattr _ _ _ _) as [o2|e] eqn:H2; cbn [rbind]; [|by apply (unblocked_of _ _ H2), _].
  apply setattr_same_class in H2. rewrite <- H2 in Ho. by apply unblocked_parse_default.
Qed.
Lemma unblocked_parse_attribute values o : Unblocked (parse_attribute values o).
Proof. apply unblocked_fold; [apply _|]. intros acc kv Hacc. apply unblocked_rbind; [done|apply _]. Qed.
Lemma unblocked_parse_object format m values o :
  rank (class_of o) <= S fuel -> Unblocked (_parse_object set_iter parse format m values o).
Proof.
  intros Ho. unfold _parse_object.
  destruct (mem_str _ _); [apply unblocked_rbind; [apply _|intros; apply unblocked_parse_attribute]|].
  destruct (_ && _); [apply _|]. destruct (_ && _).
  { destruct values; try apply _. destruct (split_host_port _ _). apply _. }
  apply unblocked_rbind; [apply _|]. intros d. destruct (is_v2 format); cbn [andb]; [|by apply unblocked_parse_default].
  destruct (String.eqb_spec (class_of o) "Zone") as [Hz|_]; [by apply unblocked_parse_zone|].
  destruct (String.eqb _ _); [by apply unblocked_parse_recordset|by apply unblocked_parse_default].
Qed.
Lemma unblocked_parse_item format c i v : rank c <= S fuel -> i ∈ parts_of c -> Unblocked (parse_item parse format i v).
Proof.
  intros Hc Hi. unfold parse_item. destruct (new i) as [o|e] eqn:Hn; cbn [rbind]; [|by apply (unblocked_of _ _ Hn), _].
  apply unblocked_rbind; [apply _|]. intros _. apply parse_unblocked. rewrite (new_class _ _ Hn).
  apply rank_parts in Hi. lia.
Qed.
Lemma unblocked_quota kv : Unblocked (from_dict 1 "Quota" (PDict [("resource", PStr kv.1); ("hard_limit", kv.2)])).
Proof. destruct kv as [k v]. cbn. apply _. Qed.
Lemma unblocked_parse_list format values o :
  rank (class_of o) <= S fuel -> Unblocked (_parse_list parse format values o).
Proof.
  intros Ho. unfold _parse_list. destruct (item_class (class_of o)) as [i|] eqn:Hi; [|apply _].
  pose proof (item_part _ _ Hi) as Hp.
  assert (Hitem : forall v, Unblocked (parse_item parse format i v)) by (intros; by eapply unblocked_parse_item).
  destruct (mem_str _ _); [apply _|]. destruct (is_v2 format); cbn [andb]; [|apply _].
  destruct (String.eqb_spec (class_of o) "QuotaList") as [Hq|_]; [|apply _].
  rewrite Hq in Hi. injection Hi as <-. apply unblocked_rbind; [apply _|]. intros d.
  apply unblocked_rbind; [|apply _]. apply unblocked_rmap. apply unblocked_quota.
Qed.
End Unblocked.

Lemma as_invalid_other e : e <> Py Blocked -> as_invalid e = InvalidObject.
Proof. destruct e; try done. destruct b; done. Qed.
Lemma parse_unblocked set_iter fuel format values o :
  rank (class_of o) <= fuel -> Unblocked (parse set_iter fuel format values o).
Proof.
  revert format values o. induction fuel as [|fuel IH]; intros format values o Ho.
  { exfalso. unfold rank, nesting in Ho. cbn [depth] in Ho. lia. }
  cbn [parse]. match goal with |- Unblocked (match ?r with _ => _ end) => assert (Hr : Unblocked r) end.
  { apply unblocked_rbind; [apply _|]. intros m.
    destruct (is_list_class _ _); [by apply (unblocked_parse_list _ _ IH)|by apply (unblocked_parse_object _ _ _ IH)]. }
  revert Hr. destruct (let? m := _ in _) as [o'|e]; intros Hr; [apply _|]. apply unblocked_raise.
  rewrite as_invalid_other; [done|]. intros ->. by apply Hr.
Qed.

(** Whatever a request contains, the parser gives the object or says that it is
    invalid: no other exception gets out, and classes never nest deeper than the fuel. *)
Theorem parse_answers set_iter format values o :
  (exists o', parse set_iter nesting format values o = Ok o') \/
  parse set_iter nesting format values o = Raise InvalidObject.
Proof.
  pose proof (parse_unblocked set_iter nesting format values o (rank_bound _)) as Hu. revert Hu.
  unfold nesting at 1 2 3. cbn [parse]. destruct (let? m := _ in _) as [o'|e]; [by left; eexists|]. intros Hu. right.
  f_equal. apply as_invalid_other. intros ->. by apply Hu.
Qed.

(** ** What a request may change *)

(** The value stays, up to Python's equality, or stays unset. *)
Definition kept (before after : R pyval) : Prop :=
  before = after \/ exists v w, before = Ok v /\ after = Ok w /\ py_eq v w = true.
Definition was_empty (before : R pyval) : Prop := exists v, before = Ok v /\ holds v = false.
Inductive permission := Never | Once | Always.
#[export] Instance permission_eq_dec : EqDecision permission.
Proof. solve_decision. Defined.
Definition permitted (p : permission) (before after : R pyval) : Prop :=
  match p with
  | Never => kept before after
  | Once => kept before after \/ was_empty before
  | Always => True
  end.
Definition permission_in (p : prop) : permission :=
  if p_immutable p then Once else if p_read_only p then Never else Always.
(** What the table of a class says of an attribute. *)
Definition attributes_of (m : modifications) : list (string * permission) :=
  map (fun kp => (obj_key_of kp, permission_in kp.2)) (m_fields m).
Definition table_permission (m : modifications) (n : string) : permission :=
  default Never (aget n (attributes_of m)).
(** The attributes that the parser of a class sets in its own way. *)
Definition own_parts (c : string) : list string :=
  if String.eqb c "Zone" then ["masters"; "attributes"]
  else if String.eqb c "RecordSet" then ["records"] else [].
Definition permission_of (c : string) (m : modifications) (n : string) : permission :=
  if mem_str n (own_parts c) then Always else table_permission m n.
(** The classes that read a request by their table. *)
Definition by_table (c : string) : bool :=
  negb (is_list_class registry c)
  && negb (mem_str c ["ZoneAttribute"; "PoolAttribute"; "PoolTargetOption"; "Record"; "ZoneMaster"]).

(** The tables name an attribute once, and a relation is writable or has its own parser. *)
Definition well_made (c : string) (m : modifications) : bool :=
  bool_decide (NoDup (attributes_of m).*1) &&
  forallb (fun kp => match relation_cls c (obj_key_of kp) with
                     | Some _ => mem_str kp.1 (own_parts c) && mem_str (obj_key_of kp) (own_parts c)
                                 || bool_decide (permission_in kp.2 = Always)
                     | None => true
                     end
                     && negb (mem_str (obj_key_of kp) (own_parts c) && negb (mem_str kp.1 (own_parts c))))
          (m_fields m).
Lemma tables_well_made :
  Forall (fun a => a.1.1 = "API_v2" -> well_made a.1.2 a.2 = true) adapter_classes.
Proof.
  apply (bool_decide_eq_true_1 (Forall (fun a => a.1.1 = "API_v2" -> well_made a.1.2 a.2 = true) adapter_classes)).
  vm_compute. reflexivity.
Qed.
Lemma find_adapter_elem format c m : find_adapter format c = Some m -> ((format, c), m) ∈ adapter_classes.
Proof.
  unfold find_adapter. destruct (find _ adapter_classes) as [[[f c'] m']|] eqn:Hf; [|done]. intros [= ->].
  apply find_some in Hf as [Hin [Hf Hc]%andb_prop]. cbn in Hf, Hc. apply String.eqb_eq in Hf as ->, Hc as ->.
  by apply list_elem_of_In.
Qed.
Lemma v2_well_made c m : find_adapter "API_v2" c = Some m -> well_made c m = true.
Proof.
  intros Hf%find_adapter_elem. pose proof tables_well_made as Hall. rewrite Forall_forall in Hall.
  by apply (Hall _ Hf).
Qed.
(** Properties the classes compute are no attributes. *)
Lemma pgetattr_field o n : in_FIELDS registry (class_of o) n = true -> pgetattr o n = getattr registry o n.
Proof.
  intros Hin. unfold pgetattr.
  repeat match goal with
  | |- (if ?b then _ else _) = _ =>
      let Hc := fresh "Hc" in destruct b eqn:Hc;
      [exfalso; apply andb_prop in Hc as [Hc ->%String.eqb_eq]; apply String.eqb_eq in Hc; rewrite Hc in Hin;
       by vm_compute in Hin|]
  end.
  done.
Qed.
Lemma setattr_in_FIELDS o k v o' : setattr registry o k v = Ok o' -> in_FIELDS registry (class_of o) k = true.
Proof. by intros (c & f & ch & og & f' & ch' & og' & -> & -> & ?)%setattr_class. Qed.
Lemma getattr_field c f ch og n :
  in_FIELDS registry c n = true -> getattr registry (PObj c f ch og) n <> Raise (Py PyAttributeError).
Proof. cbn [getattr]. intros ->. cbn [negb]. by repeat case_match. Qed.

(** A value that is not refused is one that may be set. *)
Lemma refused_permitted o kp v o' :
  refused o kp v = Ok false -> setattr registry o (obj_key_of kp) v = Ok o' ->
  permitted (permission_in kp.2) (getattr registry o (obj_key_of kp)) (Ok v).
Proof.
  unfold refused, permission_in, getattr_or. intros Hr Hs. pose proof (setattr_in_FIELDS _ _ _ _ Hs) as Hin.
  apply setattr_class in Hs as (c & f & ch & og & _ & _ & _ & -> & _ & _).
  pose proof (getattr_field _ f ch og _ Hin) as Hg. rewrite (pgetattr_field _ _ Hin) in Hr.
  destruct (getattr registry (PObj c f ch og) (obj_key_of kp)) as [cur|e] eqn:Hcur;
    destruct (p_immutable kp.2); [| | |]; cbn [rbind permitted] in *.
  - destruct (holds cur) eqn:Hh; [left|right; by exists cur].
    right. exists cur, v. split_and!; [done..|]. destruct (py_eq cur v); [done|]. by injection Hr.
  - destruct (p_read_only kp.2); [|done]. right. exists cur, v. split_and!; [done..|].
    cbn in Hr. destruct (py_eq cur v); [done|]. by injection Hr.
  - exfalso. destruct e; try done. by destruct b.
  - by destruct (p_read_only kp.2).
Qed.

Section Permitted.
Variable parse : string -> pyval -> pyval -> R pyval.
Variable m : modifications.

Lemma parse_fields_errors values o errs o' errs' :
  parse_fields parse "API_v2" m values o errs = Ok (o', errs') -> exists more, errs' = app errs more.
Proof.
  revert o errs. induction values as [|[k v] values IH]; intros o errs; cbn [parse_fields].
  { intros [= _ ->]. exists []. by rewrite app_nil_r. }
  destruct (aget k (m_fields m)) as [p|].
  - destruct (refused _ _ _) as [[|]|]; cbn [rbind]; [by intros [= _ <-]; eexists| |done].
    destruct (parse_value _ _ _ _ _); cbn [rbind]; [|done]. destruct (setattr _ _ _ _); cbn [rbind]; [|done]. apply IH.
  - intros [more ->]%IH. exists (k :: more). by rewrite <- app_assoc.
Qed.

Lemma obj_key_unique k1 p1 k2 p2 :
  NoDup (attributes_of m).*1 -> (k1, p1) ∈ m_fields m -> (k2, p2) ∈ m_fields m ->
  obj_key_of (k1, p1) = obj_key_of (k2, p2) -> k1 = k2 /\ p1 = p2.
Proof.
  unfold attributes_of. rewrite <- list_fmap_compose. intros Hd H1 H2 He.
  apply list_elem_of_lookup in H1 as [i Hi]. apply list_elem_of_lookup in H2 as [j Hj].
  assert (i = j) as ->; [|rewrite Hi in Hj; by injection Hj].
  apply (NoDup_lookup _ i j (obj_key_of (k1, p1)) Hd); rewrite list_lookup_fmap.
  - by rewrite Hi.
  - rewrite Hj. cbn [fmap option_fmap option_map compose fst]. by rewrite He.
Qed.

(** One attribute for each key, set if it may be. *)
Lemma parse_fields_permitted c values o o' n :
  well_made c m = true -> class_of o = c -> NoDup values.*1 -> (forall k, k ∈ values.*1 -> k ∉ own_parts c) ->
  parse_fields parse "API_v2" m values o [] = Ok (o', []) ->
  getattr registry o' n = getattr registry o n \/
  exists k p v, (k, v) ∈ values /\ (k, p) ∈ m_fields m /\ obj_key_of (k, p) = n /\
    permitted (permission_in p) (getattr registry o n) (getattr registry o' n).
Proof.
  intros Hw. pose proof Hw as [Hd%bool_decide_eq_true Hall]%andb_prop. rewrite forallb_forall in Hall.
  revert o. induction values as [|[k v] values IH]; intros o Hc Hk Hown; cbn [parse_fields].
  { intros [= <-]. by left. }
  apply NoDup_cons in Hk as [Hk Hks].
  destruct (aget k (m_fields m)) as [p|] eqn:Hp; [|by intros [more ?]%parse_fields_errors].
  destruct (refused _ _ _) as [[|]|] eqn:Hr; cbn [rbind]; [done| |done].
  destruct (parse_value _ _ _ _ _) as [w|] eqn:Hv; cbn [rbind]; [|done].
  destruct (setattr _ _ _ _) as [o1|] eqn:Hs; cbn [rbind]; [|done].
  intros Hrest. apply aget_Some_elem in Hp.
  destruct (IH o1) as [Hsame|(k2 & p2 & v2 & Hin2 & Hp2 & Hn2 & Hperm)]; try done.
  { by rewrite (setattr_same_class _ _ _ _ Hs). }
  { intros k' Hk'. apply Hown. cbn. by right. }
  - rewrite (setattr_getattr _ _ _ _ n Hs) in Hsame.
    destruct (String.eqb_spec n (obj_key_of (k, p))) as [->|]; [|by left]. right.
    exists k, p, v. split_and!; [by left|done..|]. rewrite Hsame.
    specialize (Hall _ (proj1 (list_elem_of_In _ _) Hp)). apply andb_prop in Hall as [Hall _]. cbn [fst snd] in Hall.
    unfold parse_value in Hv. rewrite Hc in Hv. destruct (relation_cls c (obj_key_of (k, p))) as [rc|].
    + assert (Hko : mem_str k (own_parts c) = false).
      { destruct (mem_str k (own_parts c)) eqn:He; [|done]. apply mem_str_elem in He. exfalso. eapply Hown; [|exact He]. by left. }
      rewrite Hko in Hall. cbn in Hall. apply bool_decide_eq_true in Hall. cbn in Hall. by rewrite Hall.
    + injection Hv as <-. by apply (refused_permitted _ (k, p) _ o1).
  - right. exists k2, p2, v2. split_and!; [by right|done..|].
    rewrite (setattr_getattr _ _ _ _ n Hs) in Hperm. destruct (String.eqb_spec n (obj_key_of (k, p))) as [He|]; [|done].
    exfalso. apply Hk. destruct (obj_key_unique k2 p2 k p) as [<- _]; [done..|by rewrite Hn2|].
    apply list_elem_of_fmap. by exists (k2, v2).
Qed.
End Permitted.

Lemma permission_of_entry m k p n :
  NoDup (attributes_of m).*1 -> (k, p) ∈ m_fields m -> obj_key_of (k, p) = n -> table_permission m n = permission_in p.
Proof.
  intros Hd Hin <-. unfold table_permission.
  rewrite (aget_elem_NoDup _ (permission_in p) _ Hd); [done|].
  unfold attributes_of. apply list_elem_of_fmap. by exists (k, p).
Qed.
Lemma permitted_refl p r : permitted p r r.
Proof. destruct p; cbn; [by left|by left; left|done]. Qed.
Lemma parse_default_permitted parse c m values o o' n :
  well_made c m = true -> class_of o = c -> NoDup values.*1 -> (forall k, k ∈ values.*1 -> k ∉ own_parts c) ->
  parse_default parse "API_v2" m values o = Ok o' ->
  permitted (table_permission m n) (getattr registry o n) (getattr registry o' n).
Proof.
  intros Hw Hc Hk Hown. unfold parse_default.
  destruct (parse_fields _ _ _ _ _ _) as [[o1 errs]|] eqn:Hp; cbn [rbind]; [|done].
  destruct errs; [|by destruct (m_options m)]. intros [= <-].
  destruct (parse_fields_permitted _ _ c values o o1 n Hw Hc Hk Hown Hp) as [->|(k & p & v & _ & Hin & Hn & Hperm)].
  - apply permitted_refl.
  - apply andb_prop in Hw as [Hd%bool_decide_eq_true _]. by rewrite (permission_of_entry m k p n Hd Hin Hn).
Qed.
Lemma parse_related_other parse name cls values o o' n :
  parse_related parse "API_v2" name cls values o = Ok o' -> n <> name ->
  class_of o' = class_of o /\ getattr registry o' n = getattr registry o n.
Proof.
  intros Hp Hn. split; [by eapply parse_related_class|]. revert Hp. unfold parse_related.
  destruct (aget name values); [|by intros [= <-]].
  destruct (new cls); cbn [rbind]; [|done]. destruct (parse _ _ _); cbn [rbind]; [|done].
  intros Hs. rewrite (setattr_getattr _ _ _ _ n Hs). by destruct (String.eqb_spec n name).
Qed.
Lemma with_records_other o o' n :
  with_records o = Ok o' -> n <> "records" ->
  class_of o' = class_of o /\ getattr registry o' n = getattr registry o n.
Proof.
  intros Hw Hn. split; [by apply with_records_class|]. revert Hw. unfold with_records.
  destruct (getattr registry o "records") as [|[]]; try done; [by intros [= <-]|].
  destruct (new "RecordList"); cbn [rbind]; [|done].
  intros Hs. rewrite (setattr_getattr _ _ _ _ n Hs). by destruct (String.eqb_spec n "records").
Qed.
Lemma adel_keys {V} k k' (d : list (string * V)) : k ∈ (adel k' d).*1 <-> k <> k' /\ k ∈ d.*1.
Proof.
  induction d as [|[k0 v] d IH]; cbn [adel fmap list_fmap fst]; [set_solver|].
  destruct (String.eqb_spec k' k0) as [->|]; cbn [fmap list_fmap fst]; set_solver.
Qed.
Lemma adel_NoDup {V} k (d : list (string * V)) : NoDup d.*1 -> NoDup (adel k d).*1.
Proof.
  induction d as [|[k0 v] d IH]; cbn [adel fmap list_fmap fst]; [done|]. intros [Hn Hd]%NoDup_cons.
  destruct (String.eqb k k0); cbn [fmap list_fmap fst]; [by apply IH|].
  apply NoDup_cons. split; [|by apply IH]. by intros [_ ?]%adel_keys.
Qed.

Lemma parse_zone_permitted parse m values o o' n :
  well_made "Zone" m = true -> class_of o = "Zone" -> NoDup values.*1 -> n <> "masters" -> n <> "attributes" ->
  parse_zone parse "API_v2" m values o = Ok o' ->
  permitted (table_permission m n) (getattr registry o n) (getattr registry o' n).
Proof.
  intros Hw Hc Hk Hnm Hna. unfold parse_zone.
  destruct (parse_related _ _ _ _ _ o) as [o1|] eqn:H1; cbn [rbind]; [|done].
  destruct (parse_related _ _ _ _ _ o1) as [o2|] eqn:H2; cbn [rbind]; [|done].
  destruct (parse_related_other _ _ _ _ _ _ _ H1 Hnm) as [Hc1 <-].
  destruct (parse_related_other _ _ _ _ _ _ _ H2 Hna) as [Hc2 <-].
  apply (parse_default_permitted _ "Zone"); [done|congruence|by do 2 apply adel_NoDup|].
  intros k [Hka [Hkm _]%adel_keys]%adel_keys. cbn. set_solver.
Qed.
Lemma parse_recordset_permitted set_iter parse m values o o' n :
  well_made "RecordSet" m = true -> class_of o = "RecordSet" -> NoDup values.*1 -> n <> "records" ->
  parse_recordset set_iter parse "API_v2" m values o = Ok o' ->
  permitted (table_permission m n) (getattr registry o n) (getattr registry o' n).
Proof.
  intros Hw Hc Hk Hn. unfold parse_recordset.
  destruct (with_records o) as [o1|] eqn:H1; cbn [rbind]; [|done].
  destruct (with_records_other _ _ _ H1 Hn) as [Hc1 <-]. rewrite <- Hc1 in Hc. clear H1 Hc1.
  destruct (related_records o1); cbn [rbind]; [|done]. destruct (rmap data_of _); cbn [rbind]; [|done].
  destruct (to_set _); cbn [rbind]; [|done].
  destruct (aget "records" values) as [v|] eqn:Hv.
  - destruct v; try done. destruct (to_set l); cbn [rbind]; [|done].
    destruct (merge_records _ _ _ _) as [merged|]; cbn [rbind]; [|done].
    destruct (setattr registry o1 "records" merged) as [o2|] eqn:H2; cbn [rbind]; [|done].
    pose proof (setattr_getattr _ _ _ _ n H2) as Hg. destruct (String.eqb_spec n "records"); [done|]. rewrite <- Hg.
    apply (parse_default_permitted _ "RecordSet"); [done| |by apply adel_NoDup|].
    + by rewrite (setattr_same_class _ _ _ _ H2).
    + intros k [Hkr _]%adel_keys. cbn. set_solver.
  - apply (parse_default_permitted _ "RecordSet"); [done..|].
    intros k Hin. cbn. rewrite list_elem_of_singleton. intros ->. by apply aget_None_elem in Hv.
Qed.

(** C13: a request changes an attribute of an object only as the table of its adapter
    says: never when the attribute is read-only, and when it is immutable only while it
    is empty. The exception are the masters and the attributes of a zone, which its
    parser sets before it looks at the table, where the attributes are immutable and
    the masters read-only. *)
Theorem request_permitted set_iter values o o' m n :
  by_table (class_of o) = true -> find_adapter "API_v2" (class_of o) = Some m -> NoDup values.*1 ->
  parse set_iter nesting "API_v2" (PDict values) o = Ok o' ->
  permitted (permission_of (class_of o) m n) (getattr registry o n) (getattr registry o' n).
Proof.
  intros [Hl%negb_true_iff Hb%negb_true_iff]%andb_prop Hm Hk. pose proof (v2_well_made _ _ Hm) as Hw.
  unfold nesting. cbn [parse]. unfold get_object_adapter. rewrite Hm, Hl. cbn [rbind]. unfold permission_of.
  destruct (mem_str n (own_parts (class_of o))) eqn:Hn; [by intros _|].
  unfold _parse_object. cbn [entries rbind is_v2 String.eqb Ascii.eqb Bool.eqb andb].
  change (is_v2 "API_v2") with true. cbn [andb].
  destruct (mem_str (class_of o) ["ZoneAttribute"; "PoolAttribute"; "PoolTargetOption"]) eqn:Ha.
  { exfalso. apply mem_str_elem in Ha. cbn [app] in Ha. elem_cases Ha; rewrite Ha in Hb; by vm_compute in Hb. }
  destruct (String.eqb_spec (class_of o) "Record") as [Hr|_]; [rewrite Hr in Hb; by vm_compute in Hb|].
  destruct (String.eqb_spec (class_of o) "ZoneMaster") as [Hr|_]; [rewrite Hr in Hb; by vm_compute in Hb|].
  destruct (String.eqb_spec (class_of o) "Zone") as [Hz|Hnz].
  { rewrite Hz in Hw, Hn. destruct (parse_zone _ _ _ _ _) as [o1|] eqn:Hp; [|done]. intros [= <-].
    cbn in Hn. eapply parse_zone_permitted; [exact Hw|exact Hz|exact Hk|intros ->; done|intros ->; done|exact Hp]. }
  destruct (String.eqb_spec (class_of o) "RecordSet") as [Hr|Hnr].
  { rewrite Hr in Hw, Hn. destruct (parse_recordset _ _ _ _ _ _) as [o1|] eqn:Hp; [|done]. intros [= <-].
    cbn in Hn. eapply parse_recordset_permitted; [exact Hw|exact Hr|exact Hk|by intros ->|exact Hp]. }
  destruct (parse_default _ _ _ _ _) as [o1|] eqn:Hp; [|done]. intros [= <-].
  eapply parse_default_permitted; [exact Hw|done|exact Hk| |exact Hp].
  intros k _. unfold own_parts. destruct (String.eqb_spec (class_of o) "Zone"); [done|].
  destruct (String.eqb_spec (class_of o) "RecordSet"); [done|]. by apply not_elem_of_nil.
Qed.

Definition example_request_zone : pyval :=
  PObj "Zone" [("id", PStr "1"); ("tenant_id", PStr "t"); ("name", PStr "example.org."); ("email", PStr "a@example.org")] [] [].
Lemma request_permitted_witness :
  let values := [("email", PStr "b@example.org"); ("project_id", PStr "t"); ("view_id", PStr "v")] in
  by_table "Zone" = true /\ find_adapter "API_v2" "Zone" = Some ZoneAPIv2Adapter_MODIFICATIONS /\ NoDup values.*1 /\
  exists o', parse (fun l => l) nesting "API_v2" (PDict values) example_request_zone = Ok o' /\
    getattr registry o' "email" = Ok (PStr "b@example.org") /\ getattr registry o' "view_id" = Ok (PStr "v") /\
    forall n, permitted (permission_of "Zone" ZoneAPIv2Adapter_MODIFICATIONS n)
                (getattr registry example_request_zone n) (getattr registry o' n).
Proof.
  intros values. assert (Hd : NoDup values.*1) by (apply (bool_decide_eq_true_1 _); by vm_compute).
  assert (exists o', parse (fun l => l) nesting "API_v2" (PDict values) example_request_zone = Ok o' /\
    getattr registry o' "email" = Ok (PStr "b@example.org") /\ getattr registry o' "view_id" = Ok (PStr "v")) as (o' & Hp & He & Hv).
  { eexists. split_and!; vm_compute; reflexivity. }
  split_and!; [by vm_compute|by vm_compute|done|]. exists o'. split_and!; [done..|]. intros n.
  apply (request_permitted (fun l => l) values example_request_zone o' ZoneAPIv2Adapter_MODIFICATIONS n);
    [by vm_compute|by vm_compute|done|done].
Defined.

(** ** The records of a record set *)

Lemma member_str d l : member (PStr d) (map PStr l) = bool_decide (d ∈ l).
Proof.
  unfold member. induction l as [|x l IH]; [done|]. cbn [map existsb]. rewrite IH, py_eq_str.
  destruct (String.eqb_spec x d) as [->|]; cbn [orb]; [|apply bool_decide_ext; set_solver].
  symmetry. apply bool_decide_eq_true. by left.
Qed.
Lemma to_set_str l :
  exists l', to_set (map PStr l) = Ok (map PStr l') /\ NoDup l' /\ forall d, d ∈ l' <-> d ∈ l.
Proof.
  enough (Hgen : forall acc, NoDup acc -> exists l', foldl set_add (Ok (map PStr acc)) (map PStr l) = Ok (map PStr l') /\
    NoDup l' /\ forall d, d ∈ l' <-> d ∈ acc \/ d ∈ l).
  { destruct (Hgen [] (NoDup_nil_2)) as (l' & Hl & Hd & Hin). exists l'. split_and!; [done..|]. intros d. rewrite Hin. set_solver. }
  induction l as [|x l IH]; intros acc Hacc; cbn [map foldl].
  { exists acc. split_and!; [done..|]. set_solver. }
  unfold set_add at 2. cbn [rbind]. rewrite member_str. case_bool_decide as Hx.
  - destruct (IH acc Hacc) as (l' & Hl & Hd & Hin). exists l'. split_and!; [done..|]. intros d. rewrite Hin. set_solver.
  - change [PStr x] with (map PStr [x]). rewrite <- map_app.
    destruct (IH (app acc [x])) as (l' & Hl & Hd & Hin).
    { apply NoDup_app. split_and!; [done| |apply NoDup_singleton]. set_solver. }
    exists l'. split_and!; [done..|]. intros d. rewrite Hin. set_solver.
Qed.
Lemma difference_str a b : difference (map PStr a) (map PStr b) = map PStr (filter (fun d => d ∉ b) a).
Proof.
  unfold difference. induction a as [|x a IH]; cbn [map]; [done|]. rewrite !filter_cons, member_str, IH.
  do 2 case_decide; try done; exfalso; rewrite ?bool_decide_eq_false in *; naive_solver.
Qed.

Definition fresh_record (d : string) : pyval := PObj "Record" [("data", PStr d)] ["data"] [].
Lemma new_records_str l : rmap new_record (map PStr l) = Ok (map fresh_record l).
Proof. induction l as [|d l IH]; cbn [map rmap]; [done|]. by rewrite IH. Qed.

(** Records with data that is wanted. *)
Definition has_data (wanted : list string) (r : pyval) : bool :=
  match data_of r with Ok (PStr d) => bool_decide (d ∈ wanted) | _ => false end.
Lemma kept_records old olds rm :
  rmap data_of old = Ok (map PStr olds) ->
  exists l, rmap (fun r => let? d := data_of r in Ok (if member d (map PStr rm) then [] else [r])) old = Ok l /\
    concat l = filter (fun r => has_data rm r = false) old.
Proof.
  revert olds. induction old as [|r old IH]; intros olds; cbn [rmap]; [by exists []|].
  destruct (data_of r) as [v|] eqn:Hr; cbn [rbind]; [|done].
  destruct (rmap data_of old) as [vs|] eqn:Hvs; cbn [rbind]; [|done]. intros [= Hmap].
  destruct olds as [|d olds]; [done|]. cbn in Hmap. injection Hmap as -> ->.
  destruct (IH olds eq_refl) as (l & -> & Hl). cbn [rbind]. rewrite member_str. eexists. split; [done|].
  cbn [concat]. rewrite Hl, filter_cons.
  assert (has_data rm r = bool_decide (d ∈ rm)) as -> by (unfold has_data; by rewrite Hr).
  by case_bool_decide; case_decide.
Qed.

Lemma filter_agree {A} (P Q : A -> Prop) `{!forall x, Decision (P x), !forall x, Decision (Q x)} (l : list A) :
  (forall x, x ∈ l -> P x <-> Q x) -> filter P l = filter Q l.
Proof.
  induction l as [|x l IH]; intros Hpq; [done|]. rewrite !filter_cons, IH by set_solver.
  specialize (Hpq x ltac:(by left)). do 2 case_decide; naive_solver.
Qed.
Lemma merge_records_str set_iter old olds originals wanted :
  (forall l, set_iter l ≡ₚ l) -> rmap data_of old = Ok (map PStr olds) ->
  (forall d, d ∈ originals <-> d ∈ olds) -> NoDup wanted ->
  exists added merged, merge_records set_iter old (map PStr originals) (map PStr wanted) = Ok merged /\
    list_objects merged = app (filter (fun r => has_data wanted r = true) old) (map fresh_record added) /\
    NoDup added /\ forall d, d ∈ added <-> d ∈ wanted /\ d ∉ olds.
Proof.
  intros Hperm Hold Horig Hd. unfold merge_records. rewrite !difference_str.
  destruct (Permutation_map_inv _ _ (Hperm (map PStr (filter (fun d => d ∉ originals) wanted)))) as (added & -> & Hadded).
  destruct (kept_records old olds (filter (fun d => d ∉ wanted) originals) Hold) as (l & -> & Hl).
  rewrite new_records_str. cbn [rbind]. rewrite Hl. exists added. eexists. split_and!; [done| | |].
  - change (list_objects _) with (app (filter (fun r => has_data (filter (fun d => d ∉ wanted) originals) r = false) old) (map fresh_record added)).
    f_equal. apply filter_agree. intros r Hr%list_elem_of_lookup. destruct Hr as [i Hi].
    apply rmap_Forall2 in Hold. destruct (Forall2_lookup_l _ _ _ _ _ Hold Hi) as (v & Hv & Hdata).
    rewrite list_lookup_fmap in Hv. destruct (olds !! i) as [d|] eqn:Hi'; [|done]. injection Hv as <-.
    apply list_elem_of_lookup_2 in Hi'. unfold has_data. rewrite Hdata.
    rewrite bool_decide_eq_false, bool_decide_eq_true, list_elem_of_filter, Horig.
    destruct (decide (d ∈ wanted)); naive_solver.
  - rewrite <- Hadded. by apply NoDup_filter.
  - intros d. rewrite <- Hadded, list_elem_of_filter, Horig. naive_solver.
Qed.

(** After the records are merged, the rest of the request leaves them alone. *)
Lemma parse_default_records parse m values o o' :
  well_made "RecordSet" m = true -> class_of o = "RecordSet" -> NoDup values.*1 -> "records" ∉ values.*1 ->
  parse_default parse "API_v2" m values o = Ok o' -> getattr registry o' "records" = getattr registry o "records".
Proof.
  intros Hw Hc Hk Hr. unfold parse_default.
  destruct (parse_fields _ _ _ _ _ _) as [[o1 errs]|] eqn:Hp; cbn [rbind]; [|done].
  destruct errs; [|by destruct (m_options m)]. intros [= <-].
  assert (Hown : forall k, k ∈ values.*1 -> k ∉ own_parts "RecordSet").
  { intros k Hin. cbn. rewrite list_elem_of_singleton. by intros ->. }
  destruct (parse_fields_permitted _ _ _ _ _ _ "records" Hw Hc Hk Hown Hp) as [|(k & p & v & Hin & Hp' & Hn & _)]; [done|].
  exfalso. apply andb_prop in Hw as [_ Hall]. rewrite forallb_forall in Hall.
  specialize (Hall _ (proj1 (list_elem_of_In _ _) Hp')). apply andb_prop in Hall as [_ Hall].
  rewrite Hn in Hall. cbn in Hall. rewrite negb_involutive in Hall.
  destruct (String.eqb_spec k "records") as [->|]; [|done]. apply Hr.
  apply list_elem_of_fmap. by exists ("records", v).
Qed.

Lemma parse_S set_iter fuel format values output :
  parse set_iter (S fuel) format values output =
  match (let? m := get_object_adapter format (class_of output) in
         if is_list_class registry (class_of output) then _parse_list (parse set_iter fuel) format values output
         else _parse_object set_iter (parse set_iter fuel) format m values output) with
  | Ok o => Ok o
  | Raise e => Raise (as_invalid e)
  end.
Proof. done. Qed.
Lemma parse_is_parse_recordset set_iter values rs rs' :
  class_of rs = "RecordSet" -> parse set_iter nesting "API_v2" (PDict values) rs = Ok rs' ->
  exists parser, parse_recordset set_iter parser "API_v2" RecordSetAPIv2Adapter_MODIFICATIONS values rs = Ok rs'.
Proof.
  intros Hc. change nesting with (S 5). rewrite parse_S, Hc.
  change (get_object_adapter "API_v2" "RecordSet") with (@Ok exc _ RecordSetAPIv2Adapter_MODIFICATIONS). cbn [rbind].
  change (is_list_class registry "RecordSet") with false. cbn match.
  unfold _parse_object. rewrite Hc. cbn [entries rbind].
  change (mem_str "RecordSet" ["ZoneAttribute"; "PoolAttribute"; "PoolTargetOption"]) with false.
  change (is_v2 "API_v2") with true. cbn [andb].
  change (String.eqb "RecordSet" "Record") with false. change (String.eqb "RecordSet" "ZoneMaster") with false.
  change (String.eqb "RecordSet" "Zone") with false. change (String.eqb "RecordSet" "RecordSet") with true. cbn match.
  intros H. exists (parse set_iter 5). revert H. by destruct (parse_recordset _ _ _ _ _ _).
Qed.

(** The records of a record set become exactly the requested ones, whatever the
    order in which sets are gone through: the records whose data is wanted stay the
    objects they were, in their order, and every other wanted datum gets one new
    record, behind them. *)
Theorem recordset_records_as_requested set_iter values rs rs' wanted old olds :
  (forall l, set_iter l ≡ₚ l) -> class_of rs = "RecordSet" -> NoDup values.*1 ->
  aget "records" values = Some (PList (map PStr wanted)) ->
  related_records rs = Ok old -> rmap data_of old = Ok (map PStr olds) ->
  parse set_iter nesting "API_v2" (PDict values) rs = Ok rs' ->
  exists added, NoDup added /\ (forall d, d ∈ added <-> d ∈ wanted /\ d ∉ olds) /\
    related_records rs' = Ok (app (filter (fun r => has_data wanted r = true) old) (map fresh_record added)).
Proof.
  intros Hperm Hc Hk Hwanted Hold Holds (parser & Hp)%parse_is_parse_recordset; [|done].
  pose proof (v2_well_made "RecordSet" _ eq_refl) as Hw. revert Hp. unfold parse_recordset.
  assert (with_records rs = Ok rs) as ->.
  { unfold with_records. revert Hold. unfold related_records. by destruct (getattr registry rs "records"). }
  cbn [rbind]. rewrite Hold. cbn [rbind]. rewrite Holds. cbn [rbind].
  destruct (to_set_str olds) as (originals & -> & _ & Horig). cbn [rbind]. rewrite Hwanted.
  destruct (to_set_str wanted) as (news & -> & Hnews & Hnew). cbn [rbind].
  destruct (merge_records_str set_iter old olds originals news) as (added & merged & -> & Hmerged & Hadded & Hin); [done..|].
  cbn [rbind]. destruct (setattr registry rs "records" merged) as [o2|] eqn:Hs; cbn [rbind]; [|done].
  intros Hrest. exists added. split_and!; [done|intros d; by rewrite Hin, Hnew|].
  apply parse_default_records in Hrest; [|done|by rewrite (setattr_same_class _ _ _ _ Hs)|by apply adel_NoDup|by intros [? _]%adel_keys].
  unfold related_records. rewrite Hrest, (setattr_getattr _ _ _ _ _ Hs), String.eqb_refl. cbn [rbind].
  rewrite Hmerged. do 2 f_equal. apply filter_agree. intros r _. unfold has_data.
  destruct (data_of r) as [[]|]; try done. by rewrite !bool_decide_eq_true, Hnew.
Qed.

Definition example_request_recordset : pyval :=
  PObj "RecordSet" [("name", PStr "www.example.org."); ("type", PStr "A");
    ("records", PObj "RecordList" [("objects", PList
      [PObj "Record" [("id", PStr "1"); ("data", PStr "192.0.2.1")] [] [];
       PObj "Record" [("id", PStr "2"); ("data", PStr "192.0.2.2")] [] []])] [] [])] [] [].
Lemma recordset_records_as_requested_witness :
  let values := [("ttl", PInt 300); ("records", PList [PStr "192.0.2.3"; PStr "192.0.2.2"])] in
  exists rs' added, parse (fun l => reverse l) nesting "API_v2" (PDict values) example_request_recordset = Ok rs' /\
    NoDup added /\ (forall d, d ∈ added <-> d ∈ ["192.0.2.3"; "192.0.2.2"] /\ d ∉ ["192.0.2.1"; "192.0.2.2"]) /\
    related_records rs' = Ok (app [PObj "Record" [("id", PStr "2"); ("data", PStr "192.0.2.2")] [] []] (map fresh_record added)).
Proof.
  intros values. assert (exists o', parse (fun l => reverse l) nesting "API_v2" (PDict values) example_request_recordset = Ok o')
    as [rs' Hp] by (eexists; vm_compute; reflexivity).
  destruct (recordset_records_as_requested (fun l => reverse l) values example_request_recordset rs'
    ["192.0.2.3"; "192.0.2.2"] [PObj "Record" [("id", PStr "1"); ("data", PStr "192.0.2.1")] [] [];
       PObj "Record" [("id", PStr "2"); ("data", PStr "192.0.2.2")] [] []] ["192.0.2.1"; "192.0.2.2"]) as (added & Hd & Hin & Hr);
    [intros l; apply reverse_Permutation|by vm_compute|apply (bool_decide_eq_true_1 _); by vm_compute|by vm_compute..|exact Hp|].
  exists rs', added. split_and!; [exact Hp|done..|]. exact Hr.
Defined.

(** ** Errors speak of the request *)

Definition names_request (c : string) (m : modifications) : bool :=
  forallb (fun kp => match _rename_path c [PStr (obj_key_of kp)] with
                     | Ok [PStr s] => String.eqb s kp.1
                     | _ => false
                     end) (m_fields m).
(** Where an error is about an attribute, its path names the key of the request. *)
Theorem error_paths_name_keys c m k p :
  find_adapter "API_v2" c = Some m -> item_class c = None -> (k, p) ∈ m_fields m ->
  _rename_path c [PStr (obj_key_of (k, p))] = Ok [PStr k].
Proof.
  intros Hf%find_adapter_elem Hi Hk.
  assert (Hall : Forall (fun a => a.1.1 = "API_v2" -> item_class a.1.2 = None -> names_request a.1.2 a.2 = true) adapter_classes).
  { apply (bool_decide_eq_true_1 (Forall (fun a => a.1.1 = "API_v2" -> item_class a.1.2 = None -> names_request a.1.2 a.2 = true) adapter_classes)).
    vm_compute. reflexivity. }
  rewrite Forall_forall in Hall. specialize (Hall _ Hf eq_refl Hi). cbn [fst snd] in Hall.
  unfold names_request in Hall. rewrite forallb_forall in Hall.
  specialize (Hall _ (proj1 (list_elem_of_In _ _) Hk)). cbn [fst] in Hall.
  destruct (_rename_path c [PStr (obj_key_of (k, p))]) as [[|[| | |s| | |] [|]]|]; try done.
  by apply String.eqb_eq in Hall as ->.
Qed.
