(* ===== verification/AdaptersYaml.v ===== *)
(** * The YAML file of a pool (designate/objects/adapters/yaml/)

    What a pool says, as plain data, with the relation between the data and an
    object; and that rendering a pool into its file and parsing the file into a new
    pool gives an object that says the same. *)
From Stdlib Require Import ZArith Lia String.
From stdpp Require Import base option numbers strings sets list.
From S2P Require Import Prelude PyStr Exceptions Values Objects Utils Classes ObjectLists World ObjectTypes AdapterTables Adapters AdaptersFacts.
Local Open Scope string_scope.

(** ** The data *)
Record target_data := {
  t_type : string; t_tsigkey_id : option string; t_description : option string;
  t_masters : list (string * Z); t_options : list (string * string);
}.
Record pool_data := {
  d_id : string; d_name : string; d_description : option string;
  d_attributes : list (string * string); d_ns_records : list (Z * string);
  d_nameservers : list (string * Z); d_targets : list target_data;
  d_also_notifies : list (string * Z);
}.
Definition opt (v : option string) : pyval := match v with Some s => PStr s | None => PNone end.

(** An object says that an attribute has a value. *)
Definition says (o : pyval) (n : string) (v : pyval) : Prop := getattr registry o n = Ok v.
Definition of_class (c : string) (o : pyval) : Prop := exists f ch og, o = PObj c f ch og.
(** An attribute is a list object, its items related one by one to data. *)
Definition says_list {A} (o : pyval) (n cls : string) (item : A -> pyval -> Prop) (l : list A) : Prop :=
  exists lo, says o n lo /\ of_class cls lo /\ Forall2 item l (list_objects lo).
Definition is_endpoint (cls : string) (d : string * Z) (o : pyval) : Prop :=
  of_class cls o /\ says o "host" (PStr d.1) /\ says o "port" (PInt d.2).
Definition is_ns_record (d : Z * string) (o : pyval) : Prop :=
  of_class "PoolNsRecord" o /\ says o "priority" (PInt d.1) /\ says o "hostname" (PStr d.2).
Definition is_attribute (cls : string) (d : string * string) (o : pyval) : Prop :=
  of_class cls o /\ says o "key" (PStr d.1) /\ says o "value" (PStr d.2).
Definition is_target (d : target_data) (o : pyval) : Prop :=
  of_class "PoolTarget" o /\ says o "type" (PStr (t_type d)) /\ says o "tsigkey_id" (opt (t_tsigkey_id d)) /\
  says o "description" (opt (t_description d)) /\
  says_list o "masters" "PoolTargetMasterList" (is_endpoint "PoolTargetMaster") (t_masters d) /\
  says_list o "options" "PoolTargetOptionList" (is_attribute "PoolTargetOption") (t_options d).
Definition is_pool (d : pool_data) (o : pyval) : Prop :=
  of_class "Pool" o /\ says o "id" (PStr (d_id d)) /\ says o "name" (PStr (d_name d)) /\
  says o "description" (opt (d_description d)) /\
  says_list o "attributes" "PoolAttributeList" (is_attribute "PoolAttribute") (d_attributes d) /\
  says_list o "ns_records" "PoolNsRecordList" is_ns_record (d_ns_records d) /\
  says_list o "nameservers" "PoolNameserverList" (is_endpoint "PoolNameserver") (d_nameservers d) /\
  says_list o "targets" "PoolTargetList" is_target (d_targets d) /\
  says_list o "also_notifies" "PoolAlsoNotifyList" (is_endpoint "PoolAlsoNotify") (d_also_notifies d).
(** Dictionaries have no key twice. *)
Definition good_target (d : target_data) : Prop := NoDup (t_options d).*1.
Definition good_pool (d : pool_data) : Prop := NoDup (d_attributes d).*1 /\ Forall good_target (d_targets d).

(** ** The file *)
Definition endpoint_yaml (d : string * Z) : pyval := PDict [("host", PStr d.1); ("port", PInt d.2)].
Definition ns_record_yaml (d : Z * string) : pyval := PDict [("priority", PInt d.1); ("hostname", PStr d.2)].
Definition attributes_yaml (l : list (string * string)) : pyval := PDict (map (fun d => (d.1, PStr d.2)) l).
Definition opt_yaml (n : string) (v : option string) : list (string * pyval) :=
  match v with Some s => [(n, PStr s)] | None => [] end.
Definition target_yaml (d : target_data) : pyval :=
  PDict (("type", PStr (t_type d)) :: app (opt_yaml "tsigkey_id" (t_tsigkey_id d))
    (app (opt_yaml "description" (t_description d))
       [("masters", PList (map endpoint_yaml (t_masters d))); ("options", attributes_yaml (t_options d))])).
Definition pool_yaml (d : pool_data) : pyval :=
  PDict (("id", PStr (d_id d)) :: ("name", PStr (d_name d)) :: app (opt_yaml "description" (d_description d))
    [("attributes", attributes_yaml (d_attributes d)); ("ns_records", PList (map ns_record_yaml (d_ns_records d)));
     ("nameservers", PList (map endpoint_yaml (d_nameservers d))); ("targets", PList (map target_yaml (d_targets d)));
     ("also_notifies", PList (map endpoint_yaml (d_also_notifies d)))]).

(** ** Rendering *)
Section Rendering.
Context `{Env}.
Variable kw : kwargs.

Lemma render_S fuel format o :
  render (S fuel) kw format o =
  let? m := get_object_adapter format (class_of o) in
  if is_list_class registry (class_of o) then _render_list (render fuel kw) format m kw o
  else if is_v2 format && String.eqb (class_of o) "ValidationError" then
    let? d := render_default (render fuel kw) format m kw o in render_error kw o d
  else _render_object (render fuel kw) format m kw o.
Proof. done. Qed.

(** An object rendered by its table, field by field. *)
Lemma render_by_table fuel o c m d d' :
  of_class c o -> find_adapter "YAML" c = Some m -> is_list_class registry c = false ->
  mem_str c ["ZoneAttribute"; "PoolAttribute"; "PoolTargetOption"] = false ->
  render_fields (render fuel kw) "YAML" m o = Ok d' -> d' = d -> render (S fuel) kw "YAML" o = Ok (PDict d).
Proof.
  intros (f & ch & og & ->) Hm Hl Ha Hd <-. rewrite render_S. cbn [class_of]. unfold get_object_adapter. rewrite Hm.
  cbn [rbind]. rewrite Hl. change (is_v2 "YAML") with false. cbn [andb]. unfold _render_object. cbn [class_of].
  rewrite Ha. change (is_v2 "YAML") with false. cbn [negb]. unfold render_default. rewrite Hd. cbn [rbind].
  unfold with_links. change (is_v2 "YAML") with false. done.
Qed.
(** A list of objects. *)
Lemma render_items {A} fuel lo cls (item : A -> pyval -> Prop) (l : list A) y :
  of_class cls lo -> is_Some (find_adapter "YAML" cls) -> is_list_class registry cls = true ->
  mem_str cls ["ZoneAttributeList"; "PoolAttributeList"; "PoolTargetOptionList"] = false ->
  Forall2 item l (list_objects lo) ->
  (forall d o, item d o -> is_Some (find_adapter "YAML" (class_of o)) /\ render fuel kw "YAML" o = Ok (y d)) ->
  render (S fuel) kw "YAML" lo = Ok (PList (map y l)).
Proof.
  intros (f & ch & og & Hlo) [m Hm] Hl Ha Hitems Hy. rewrite render_S.
  assert (class_of lo = cls) as -> by (by rewrite Hlo). unfold get_object_adapter at 1. rewrite Hm. cbn [rbind]. rewrite Hl.
  unfold _render_list. assert (class_of lo = cls) as -> by (by rewrite Hlo). rewrite Ha.
  change (is_v2 "YAML") with false. cbn [negb]. rewrite (rmap_intro _ _ (map y l)); [done|].
  clear Hlo. induction Hitems as [|d o l' objs Hdo _ IH]; cbn [map]; constructor; [|exact IH].
  destruct (Hy d o Hdo) as [[m' Hm'] Hr]. unfold get_object_adapter. by rewrite Hm'.
Qed.
Lemma merge_rendered_attributes (l : list (string * string)) :
  NoDup l.*1 -> merge_rendered (map (fun d => PDict [(d.1, PStr d.2)]) l) = Ok (attributes_yaml l).
Proof.
  intros Hd. unfold merge_rendered, attributes_yaml.
  enough (Hgen : forall acc, NoDup (acc.*1 ++ l.*1) ->
    foldl (fun acc v => let? d := acc in match v with PDict e => Ok (aupdate d e) | _ => Raise (Py PyTypeError) end)
      (Ok acc) (map (fun d => PDict [(d.1, PStr d.2)]) l) = Ok (app acc (map (fun d => (d.1, PStr d.2)) l))).
  { by rewrite (Hgen []). }
  clear Hd. induction l as [|[k v] l IH]; intros acc Hd; cbn [map foldl rbind]; [by rewrite app_nil_r|].
  cbn [aupdate foldl fst snd]. cbn [fmap list_fmap fst] in Hd. rewrite aset_keys_new.
  - rewrite IH, <- app_assoc; [done|]. rewrite fmap_app, <- app_assoc. cbn. exact Hd.
  - apply NoDup_app in Hd as (_ & Hd & _). intros Hin. apply (Hd _ Hin). by left.
Qed.
Lemma render_attributes fuel lo cls item (l : list (string * string)) :
  of_class cls lo -> (cls = "PoolAttributeList" /\ item = "PoolAttribute" \/ cls = "PoolTargetOptionList" /\ item = "PoolTargetOption") ->
  Forall2 (is_attribute item) l (list_objects lo) -> NoDup l.*1 ->
  render (S (S fuel)) kw "YAML" lo = Ok (attributes_yaml l).
Proof.
  intros (f & ch & og & Hlo) Hcls Hitems Hd. rewrite render_S.
  assert (class_of lo = cls) as Hc by (by rewrite Hlo). rewrite Hc. clear Hlo.
  assert (get_object_adapter "YAML" cls = Ok (modify [] None) /\ is_list_class registry cls = true /\
          mem_str cls ["ZoneAttributeList"; "PoolAttributeList"; "PoolTargetOptionList"] = true /\
          mem_str item ["ZoneAttribute"; "PoolAttribute"; "PoolTargetOption"] = true /\
          is_list_class registry item = false /\ is_Some (find_adapter "YAML" item)) as (-> & -> & Hm & Hi & Hil & [m Hf]).
  { destruct Hcls as [[-> ->]|[-> ->]]; split_and!; try (by vm_compute); eexists; vm_compute; reflexivity. }
  cbn [rbind]. unfold _render_list. rewrite Hc, Hm. rewrite (rmap_intro _ _ (map (fun d => PDict [(d.1, PStr d.2)]) l)).
  { cbn [rbind]. by rewrite merge_rendered_attributes. }
  clear Hc Hd. induction Hitems as [|d o l' objs Hdo _ IH]; cbn [map]; constructor; [|exact IH].
  destruct Hdo as ((f' & ch' & og' & ->) & Hk & Hv). cbn [class_of]. unfold get_object_adapter. rewrite Hf. cbn [rbind].
  rewrite render_S. cbn [class_of]. unfold get_object_adapter. rewrite Hf. cbn [rbind]. rewrite Hil.
  change (is_v2 "YAML") with false. cbn [andb]. unfold _render_object. cbn [class_of]. rewrite Hi, Hk. cbn [rbind].
  rewrite Hv. cbn [rbind]. change (is_v2 "YAML") with false. done.
Qed.

(** One field. *)
Lemma says_pgetattr o n v : says o n v -> pgetattr o n = Ok v.
Proof.
  unfold says. intros Hv. rewrite pgetattr_field; [done|].
  destruct o as [| | | | | |c f ch og]; try done. cbn in *. by destruct (in_FIELDS registry c n).
Qed.
Lemma render_field_value fuel c o n v r :
  of_class c o -> says o n v -> render_value (render fuel kw) "YAML" c n v = Ok r ->
  render_field (render fuel kw) "YAML" o (n, writable plain) = Ok (match r with Some w => Some (n, w) | None => None end).
Proof.
  intros (f & ch & og & ->) Hs%says_pgetattr Hr. unfold render_field. cbn [writable plain p_rename fst snd].
  unfold getattr_or. rewrite Hs. cbn [rbind class_of].
  change (obj_key_of (n, writable plain)) with n. by rewrite Hr.
Qed.
Lemma render_str fuel c n v :
  relation_cls c n = None -> is_integer_field c n = false ->
  render_value (render fuel kw) "YAML" c n (opt v) = Ok (match v with Some s => Some (PStr s) | None => None end).
Proof. intros Hr Hi. unfold render_value. rewrite Hr, Hi. change (is_v2 "YAML") with false. by destruct v. Qed.
Lemma render_int fuel c n z :
  relation_cls c n = None -> is_integer_field c n = true ->
  render_value (render fuel kw) "YAML" c n (PInt z) = Ok (Some (PInt z)).
Proof. intros Hr Hi. unfold render_value. rewrite Hr, Hi. by change (is_v2 "YAML") with false. Qed.
Lemma render_relation fuel c n cls v y :
  relation_cls c n = Some cls -> is_Some (find_adapter "YAML" cls) -> render fuel kw "YAML" v = Ok y ->
  render_value (render fuel kw) "YAML" c n v = Ok (Some y).
Proof. intros Hr [m Hm] Hv. unfold render_value, get_object_adapter. rewrite Hr, Hm. cbn [rbind]. by rewrite Hv. Qed.
Lemma render_fields_cons fuel m o kp rest r l :
  m_fields m = kp :: rest -> render_field (render fuel kw) "YAML" o kp = Ok r ->
  render_fields (render fuel kw) "YAML" (modify rest (m_options m)) o = Ok l ->
  render_fields (render fuel kw) "YAML" m o = Ok (match r with Some w => w :: l | None => l end).
Proof.
  unfold render_fields. intros -> Hr. cbn [rmap modify m_fields]. rewrite Hr. cbn [rbind].
  destruct (rmap _ rest); cbn [rbind]; [|done]. intros [= <-]. by destruct r.
Qed.
End Rendering.

(** The fields of a table one after the other. *)
Ltac render_table :=
  repeat (eapply render_fields_cons; [reflexivity| |]); [..|reflexivity].
Ltac classes := vm_compute; reflexivity.
Ltac has_adapter := eexists; vm_compute; reflexivity.

Section Rendered.
Context `{Env}.
Variable kw : kwargs.

Lemma render_endpoint fuel cls d o :
  cls = "PoolNameserver" \/ cls = "PoolTargetMaster" \/ cls = "PoolAlsoNotify" -> is_endpoint cls d o ->
  is_Some (find_adapter "YAML" (class_of o)) /\ render (S fuel) kw "YAML" o = Ok (endpoint_yaml d).
Proof.
  intros Hcls (Hc & Hh & Hp). split.
  - destruct Hc as (f & ch & og & ->). cbn [class_of]. destruct Hcls as [->|[->| ->]]; has_adapter.
  - destruct Hcls as [->|[->| ->]]; (eapply render_by_table; [exact Hc|classes|classes|classes|render_table|];
      [eapply render_field_value; [exact Hc|exact Hh|]; apply (render_str kw fuel _ _ (Some d.1)); classes
      |eapply render_field_value; [exact Hc|exact Hp|]; apply render_int; classes|reflexivity]).
Qed.
Lemma render_ns_record fuel d o :
  is_ns_record d o ->
  is_Some (find_adapter "YAML" (class_of o)) /\ render (S fuel) kw "YAML" o = Ok (ns_record_yaml d).
Proof.
  intros (Hc & Hp & Hh). split; [destruct Hc as (f & ch & og & ->); has_adapter|].
  eapply render_by_table; [exact Hc|classes|classes|classes|render_table|].
  - eapply render_field_value; [exact Hc|exact Hp|]. apply render_int; classes.
  - eapply render_field_value; [exact Hc|exact Hh|]. apply (render_str kw fuel _ _ (Some d.2)); classes.
  - reflexivity.
Qed.
Lemma render_list {A} fuel o n cls (item : A -> pyval -> Prop) l y c :
  of_class c o -> says_list o n cls item l -> relation_cls c n = Some cls ->
  is_Some (find_adapter "YAML" cls) -> is_list_class registry cls = true ->
  mem_str cls ["ZoneAttributeList"; "PoolAttributeList"; "PoolTargetOptionList"] = false ->
  (forall d o, item d o -> is_Some (find_adapter "YAML" (class_of o)) /\ render fuel kw "YAML" o = Ok (y d)) ->
  render_field (render (S fuel) kw) "YAML" o (n, writable plain) = Ok (Some (n, PList (map y l))).
Proof.
  intros Hc (lo & Hs & Hlo & Hitems) Hr Ha Hl Hm Hy.
  apply (render_field_value kw _ c o n lo (Some (PList (map y l))) Hc Hs), (render_relation kw _ _ _ cls); [done..|].
  by eapply render_items.
Qed.
Lemma render_attribute_list fuel o n cls item l c :
  of_class c o -> says_list o n cls (is_attribute item) l -> relation_cls c n = Some cls ->
  (cls = "PoolAttributeList" /\ item = "PoolAttribute" \/ cls = "PoolTargetOptionList" /\ item = "PoolTargetOption") ->
  NoDup l.*1 ->
  render_field (render (S (S fuel)) kw) "YAML" o (n, writable plain) = Ok (Some (n, attributes_yaml l)).
Proof.
  intros Hc (lo & Hs & Hlo & Hitems) Hr Hcls Hd.
  apply (render_field_value kw _ c o n lo (Some (attributes_yaml l)) Hc Hs), (render_relation kw _ _ _ cls);
    [done| |by eapply render_attributes].
  destruct Hcls as [[-> _]|[-> _]]; has_adapter.
Qed.
Lemma render_text fuel c o n v :
  of_class c o -> says o n (opt v) -> relation_cls c n = None -> is_integer_field c n = false ->
  render_field (render fuel kw) "YAML" o (n, writable plain) = Ok (match v with Some s => Some (n, PStr s) | None => None end).
Proof.
  intros Hc Hs Hr Hi. rewrite (render_field_value kw _ c o n _ _ Hc Hs (render_str kw fuel c n v Hr Hi)). by destruct v.
Qed.

Lemma render_target fuel d o :
  is_target d o -> good_target d ->
  is_Some (find_adapter "YAML" (class_of o)) /\ render (S (S (S fuel))) kw "YAML" o = Ok (target_yaml d).
Proof.
  intros (Hc & Ht & Hk & Hd & Hm & Ho) Hgood. split; [destruct Hc as (f & ch & og & ->); has_adapter|].
  eapply render_by_table; [exact Hc|classes|classes|classes|render_table|].
  - apply (render_text _ "PoolTarget" o "type" (Some (t_type d))); [done..|classes|classes].
  - apply (render_text _ "PoolTarget" o _ _ Hc Hk); classes.
  - apply (render_text _ "PoolTarget" o _ _ Hc Hd); classes.
  - eapply render_list; [exact Hc|exact Hm|classes|has_adapter|classes|classes|].
    intros d' o' Hi. apply (render_endpoint fuel "PoolTargetMaster"); [by right; left|done].
  - eapply render_attribute_list; [exact Hc|exact Ho|classes|by right|done].
  - unfold target_yaml, opt_yaml. by destruct (t_tsigkey_id d), (t_description d).
Qed.
Lemma says_list_with {A} (P : A -> Prop) o n cls item l :
  Forall P l -> says_list o n cls item l -> says_list o n cls (fun d o => item d o /\ P d) l.
Proof.
  intros Hl (lo & Hs & Hlo & Hitems). exists lo. split_and!; [done..|].
  induction Hitems; inversion Hl; subst; constructor; auto.
Qed.
Lemma render_pool fuel d o :
  is_pool d o -> good_pool d -> render (S (S (S (S (S fuel))))) kw "YAML" o = Ok (pool_yaml d).
Proof.
  intros (Hc & Hi & Hn & Hd & Ha & Hns & Hnm & Ht & Hal) [Hga Hgt].
  eapply render_by_table; [exact Hc|classes|classes|classes|render_table|].
  - apply (render_text _ "Pool" o "id" (Some (d_id d))); [done..|classes|classes].
  - apply (render_text _ "Pool" o "name" (Some (d_name d))); [done..|classes|classes].
  - apply (render_text _ "Pool" o _ _ Hc Hd); classes.
  - eapply render_attribute_list; [exact Hc|exact Ha|classes|by left|done].
  - eapply render_list; [exact Hc|exact Hns|classes|has_adapter|classes|classes|]. apply render_ns_record.
  - eapply render_list; [exact Hc|exact Hnm|classes|has_adapter|classes|classes|].
    intros d' o' Hi'. apply (render_endpoint _ "PoolNameserver"); [by left|done].
  - eapply render_list; [exact Hc|exact (says_list_with _ _ _ _ _ _ Hgt Ht)|classes|has_adapter|classes|classes|].
    intros d' o' [Hd' Hg']. by apply render_target.
  - eapply render_list; [exact Hc|exact Hal|classes|has_adapter|classes|classes|].
    intros d' o' Hi'. apply (render_endpoint _ "PoolAlsoNotify"); [by right; right|done].
  - unfold pool_yaml, opt_yaml. by destruct (d_description d).
Qed.
End Rendered.

(** ** Parsing *)
Section Parsing.
Variable set_iter : list pyval -> list pyval.

Definition endpoint_obj (cls : string) (d : string * Z) : pyval :=
  PObj cls [("host", PStr d.1); ("port", PInt d.2)] ["host"; "port"] [].
Definition ns_record_obj (d : Z * string) : pyval :=
  PObj "PoolNsRecord" [("priority", PInt d.1); ("hostname", PStr d.2)] ["priority"; "hostname"] [].
Definition attribute_obj (cls : string) (d : string * string) : pyval :=
  PObj cls [("key", PStr d.1); ("value", PStr d.2)] ["key"; "value"] [].
Definition list_obj (cls : string) (l : list pyval) : pyval := PObj cls [("objects", PList l)] [] [].
Definition parse_yaml (fuel : nat) : pyval -> pyval -> R pyval := parse set_iter fuel "YAML".

Lemma parse_items {A} fuel cls i y (obj : A -> pyval) l :
  item_class cls = Some i -> is_Some (find_adapter "YAML" cls) -> is_Some (find_adapter "YAML" i) ->
  mem_str cls ["ZoneAttributeList"; "PoolAttributeList"; "PoolTargetOptionList"] = false -> new i = Ok (PObj i [] [] []) ->
  (forall d, parse_yaml fuel (y d) (PObj i [] [] []) = Ok (obj d)) ->
  parse_yaml (S fuel) (PList (map y l)) (list_obj cls []) = Ok (list_obj cls (map obj l)).
Proof.
  intros Hi [m Hm] [m' Hm'] Ha Hn Hy. unfold parse_yaml in *. rewrite parse_S. unfold list_obj at 1 2 3 4. cbn [class_of].
  unfold get_object_adapter at 1. rewrite Hm. cbn [rbind].
  assert (is_list_class registry cls = true) as ->.
  { revert Hi. unfold item_class, is_list_class. destruct (registry cls) as [k|]; [|done]. by intros ->. }
  unfold _parse_list. cbn [class_of list_obj]. rewrite Hi, Ha. change (is_v2 "YAML") with false. cbn [andb iterate rbind].
  rewrite (rmap_intro _ _ (map obj l)); [done|].
  induction l as [|d l IH]; cbn [map]; constructor; [|exact IH].
  unfold parse_item. rewrite Hn. cbn [rbind]. unfold get_object_adapter. rewrite Hm'. cbn [rbind]. apply Hy.
Qed.
Lemma parse_attributes fuel cls i l :
  cls = "PoolAttributeList" /\ i = "PoolAttribute" \/ cls = "PoolTargetOptionList" /\ i = "PoolTargetOption" ->
  parse_yaml (S (S fuel)) (attributes_yaml l) (list_obj cls []) = Ok (list_obj cls (map (attribute_obj i) l)).
Proof.
  intros Hcls. unfold parse_yaml. rewrite parse_S. unfold list_obj at 1 2 3 4. cbn [class_of].
  assert (get_object_adapter "YAML" cls = Ok (modify [] None) /\ is_list_class registry cls = true /\ item_class cls = Some i /\
    mem_str cls ["ZoneAttributeList"; "PoolAttributeList"; "PoolTargetOptionList"] = true) as (-> & -> & Hi & Ha).
  { destruct Hcls as [[-> ->]|[-> ->]]; split_and!; by vm_compute. }
  cbn [rbind]. unfold _parse_list. cbn [class_of list_obj]. rewrite Hi, Ha. cbn [entries rbind attributes_yaml].
  rewrite (rmap_intro _ _ (map (attribute_obj i) l)); [done|]. clear Ha Hi.
  induction l as [|d l IH]; cbn [map]; constructor; [|exact IH].
  generalize (parse_S set_iter fuel). intros Hs. unfold parse_item.
  destruct Hcls as [[_ ->]|[_ ->]]; cbn [new rbind]; vm_compute (new _); vm_compute (get_object_adapter _ _);
    cbn [rbind]; rewrite Hs; clear Hs; generalize (parse set_iter fuel); intros p; destruct d; vm_compute; reflexivity.
Qed.

(** An object whose fields need no further parser. *)
Ltac parse_leaf := intros d; unfold parse_yaml; rewrite parse_S; generalize (parse set_iter); intros p; vm_compute; reflexivity.
Lemma parse_endpoint fuel cls d :
  cls = "PoolNameserver" \/ cls = "PoolTargetMaster" \/ cls = "PoolAlsoNotify" ->
  parse_yaml (S fuel) (endpoint_yaml d) (PObj cls [] [] []) = Ok (endpoint_obj cls d).
Proof. intros [->|[->| ->]]; revert d; parse_leaf. Qed.
Lemma parse_ns_record fuel d : parse_yaml (S fuel) (ns_record_yaml d) (PObj "PoolNsRecord" [] [] []) = Ok (ns_record_obj d).
Proof. revert d. parse_leaf. Qed.

Definition target_fields (d : target_data) : list (string * pyval) :=
  ("type", PStr (t_type d)) :: app (opt_yaml "tsigkey_id" (t_tsigkey_id d))
    (app (opt_yaml "description" (t_description d))
       [("masters", list_obj "PoolTargetMasterList" (map (endpoint_obj "PoolTargetMaster") (t_masters d)));
        ("options", list_obj "PoolTargetOptionList" (map (attribute_obj "PoolTargetOption") (t_options d)))]).
Definition target_obj (d : target_data) : pyval := PObj "PoolTarget" (target_fields d) (target_fields d).*1 [].
Lemma parse_target fuel d :
  parse_yaml (S (S (S fuel))) (target_yaml d) (PObj "PoolTarget" [] [] []) = Ok (target_obj d).
Proof.
  assert (parse_yaml (S (S fuel)) (PList (map endpoint_yaml (t_masters d))) (list_obj "PoolTargetMasterList" []) =
    Ok (list_obj "PoolTargetMasterList" (map (endpoint_obj "PoolTargetMaster") (t_masters d)))) as Hm.
  { apply (parse_items _ _ "PoolTargetMaster"); [done|has_adapter|has_adapter|done|done|].
    intros d'. apply parse_endpoint. by right; left. }
  assert (parse_yaml (S (S fuel)) (attributes_yaml (t_options d)) (list_obj "PoolTargetOptionList" []) =
    Ok (list_obj "PoolTargetOptionList" (map (attribute_obj "PoolTargetOption") (t_options d)))) as Ho.
  { apply parse_attributes. by right. }
  unfold parse_yaml at 1. rewrite parse_S. unfold target_obj, target_fields, target_yaml, parse_yaml in *.
  revert Hm Ho. generalize (parse set_iter (S (S fuel))). intros p.
  generalize (PList (map endpoint_yaml (t_masters d))), (attributes_yaml (t_options d)),
    (map (endpoint_obj "PoolTargetMaster") (t_masters d)), (map (attribute_obj "PoolTargetOption") (t_options d)).
  destruct d as [t k ds ms os]. cbn [t_type t_tsigkey_id t_description]. clear ms os. intros ym yo lm lo.
  destruct k, ds; vm_compute; intros -> ->; reflexivity.
Qed.

Definition pool_fields (d : pool_data) : list (string * pyval) :=
  ("id", PStr (d_id d)) :: ("name", PStr (d_name d)) :: app (opt_yaml "description" (d_description d))
    [("attributes", list_obj "PoolAttributeList" (map (attribute_obj "PoolAttribute") (d_attributes d)));
     ("ns_records", list_obj "PoolNsRecordList" (map ns_record_obj (d_ns_records d)));
     ("nameservers", list_obj "PoolNameserverList" (map (endpoint_obj "PoolNameserver") (d_nameservers d)));
     ("targets", list_obj "PoolTargetList" (map target_obj (d_targets d)));
     ("also_notifies", list_obj "PoolAlsoNotifyList" (map (endpoint_obj "PoolAlsoNotify") (d_also_notifies d)))].
Definition pool_obj (d : pool_data) : pyval := PObj "Pool" (pool_fields d) (pool_fields d).*1 [].
Lemma parse_pool fuel d :
  parse_yaml (S (S (S (S (S fuel))))) (pool_yaml d) (PObj "Pool" [] [] []) = Ok (pool_obj d).
Proof.
  assert (parse_yaml (S (S (S (S fuel)))) (attributes_yaml (d_attributes d)) (list_obj "PoolAttributeList" []) =
    Ok (list_obj "PoolAttributeList" (map (attribute_obj "PoolAttribute") (d_attributes d)))) as Ha.
  { apply parse_attributes. by left. }
  assert (parse_yaml (S (S (S (S fuel)))) (PList (map ns_record_yaml (d_ns_records d))) (list_obj "PoolNsRecordList" []) =
    Ok (list_obj "PoolNsRecordList" (map ns_record_obj (d_ns_records d)))) as Hns.
  { apply (parse_items _ _ "PoolNsRecord"); [done|has_adapter|has_adapter|done|done|]. apply parse_ns_record. }
  assert (parse_yaml (S (S (S (S fuel)))) (PList (map endpoint_yaml (d_nameservers d))) (list_obj "PoolNameserverList" []) =
    Ok (list_obj "PoolNameserverList" (map (endpoint_obj "PoolNameserver") (d_nameservers d)))) as Hnm.
  { apply (parse_items _ _ "PoolNameserver"); [done|has_adapter|has_adapter|done|done|].
    intros d'. apply parse_endpoint. by left. }
  assert (parse_yaml (S (S (S (S fuel)))) (PList (map target_yaml (d_targets d))) (list_obj "PoolTargetList" []) =
    Ok (list_obj "PoolTargetList" (map target_obj (d_targets d)))) as Ht.
  { apply (parse_items _ _ "PoolTarget"); [done|has_adapter|has_adapter|done|done|]. apply parse_target. }
  assert (parse_yaml (S (S (S (S fuel)))) (PList (map endpoint_yaml (d_also_notifies d))) (list_obj "PoolAlsoNotifyList" []) =
    Ok (list_obj "PoolAlsoNotifyList" (map (endpoint_obj "PoolAlsoNotify") (d_also_notifies d)))) as Hal.
  { apply (parse_items _ _ "PoolAlsoNotify"); [done|has_adapter|has_adapter|done|done|].
    intros d'. apply parse_endpoint. by right; right. }
  unfold parse_yaml at 1. rewrite parse_S. unfold pool_obj, pool_fields, pool_yaml, parse_yaml in *.
  revert Ha Hns Hnm Ht Hal. generalize (parse set_iter (S (S (S (S fuel))))). intros p.
  generalize (attributes_yaml (d_attributes d)), (PList (map ns_record_yaml (d_ns_records d))),
    (PList (map endpoint_yaml (d_nameservers d))), (PList (map target_yaml (d_targets d))),
    (PList (map endpoint_yaml (d_also_notifies d))), (map (attribute_obj "PoolAttribute") (d_attributes d)),
    (map ns_record_obj (d_ns_records d)), (map (endpoint_obj "PoolNameserver") (d_nameservers d)),
    (map target_obj (d_targets d)), (map (endpoint_obj "PoolAlsoNotify") (d_also_notifies d)).
  generalize (d_id d), (d_name d), (d_description d). clear. intros id name ds ya yns ynm yt yal la lns lnm lt lal.
  destruct ds; vm_compute; intros -> -> -> -> ->; reflexivity.
Qed.

(** The new objects say the same. *)
Ltac of_class_now := do 3 eexists; reflexivity.
Lemma says_items {A} o n cls (item : A -> pyval -> Prop) obj l :
  says o n (list_obj cls (map obj l)) -> (forall d, item d (obj d)) -> says_list o n cls item l.
Proof.
  intros Hs Hi. eexists. split_and!; [exact Hs|of_class_now|].
  change (list_objects _) with (map obj l). clear Hs. induction l; cbn [map]; constructor; [apply Hi|done].
Qed.
Lemma endpoint_obj_says cls d :
  cls = "PoolNameserver" \/ cls = "PoolTargetMaster" \/ cls = "PoolAlsoNotify" -> is_endpoint cls d (endpoint_obj cls d).
Proof. intros [->|[->| ->]]; (split_and!; [of_class_now|vm_compute; reflexivity..]). Qed.
Lemma attribute_obj_says cls d :
  cls = "PoolAttribute" \/ cls = "PoolTargetOption" -> is_attribute cls d (attribute_obj cls d).
Proof. intros [->| ->]; (split_and!; [of_class_now|vm_compute; reflexivity..]). Qed.
Lemma ns_record_obj_says d : is_ns_record d (ns_record_obj d).
Proof. split_and!; [of_class_now|vm_compute; reflexivity..]. Qed.
Lemma target_obj_says d : is_target d (target_obj d).
Proof.
  split_and!; [of_class_now|by vm_compute|unfold says, target_obj, target_fields; by destruct (t_tsigkey_id d), (t_description d)..| |].
  - eapply says_items; [|intros d'; apply endpoint_obj_says; by right; left].
    unfold says, target_obj, target_fields. by destruct (t_tsigkey_id d), (t_description d).
  - eapply says_items; [|intros d'; apply attribute_obj_says; by right].
    unfold says, target_obj, target_fields. by destruct (t_tsigkey_id d), (t_description d).
Qed.
Lemma pool_obj_says d : is_pool d (pool_obj d).
Proof.
  split_and!; [of_class_now|by vm_compute|by vm_compute|unfold says, pool_obj, pool_fields; by destruct (d_description d)|..];
    (eapply says_items; [unfold says, pool_obj, pool_fields; destruct (d_description d); reflexivity|]).
  - intros d'. apply attribute_obj_says. by left.
  - apply ns_record_obj_says.
  - intros d'. apply endpoint_obj_says. by left.
  - apply target_obj_says.
  - intros d'. apply endpoint_obj_says. by right; right.
Qed.
End Parsing.

(** C16: a pool survives its YAML file: rendering a pool that says some data gives the
    file of that data, and parsing the file into a new pool gives an object that says
    the same, in all its attributes, name servers, NS records, targets with their
    options and masters, and notified servers. *)
Theorem pool_yaml_round_trip `{Env} kw set_iter d o :
  is_pool d o -> good_pool d ->
  render nesting kw "YAML" o = Ok (pool_yaml d) /\
  exists o', parse set_iter nesting "YAML" (pool_yaml d) (PObj "Pool" [] [] []) = Ok o' /\ is_pool d o'.
Proof.
  intros Ho Hd. split; [by apply render_pool|]. exists (pool_obj d). split; [apply parse_pool|apply pool_obj_says].
Qed.

Definition example_pool_data : pool_data := {|
  d_id := "794ccc2cd75144feb57f8894c9f5c842"; d_name := "default"; d_description := None;
  d_attributes := [("type", "internal"); ("service_tier", "GOLD")]; d_ns_records := [(1%Z, "ns1.example.org.")];
  d_nameservers := [("192.0.2.1", 53%Z)];
  d_targets := [{| t_type := "bind9"; t_tsigkey_id := None; t_description := Some "BIND";
                   t_masters := [("192.0.2.2", 5354%Z)]; t_options := [("host", "192.0.2.1"); ("port", "53")] |}];
  d_also_notifies := [] |}.
Definition no_kwargs : kwargs := {| k_request := None; k_context := None; k_failed_object := None |}.
Lemma pool_yaml_round_trip_witness :
  is_pool example_pool_data (pool_obj example_pool_data) /\ good_pool example_pool_data /\
  @render open_env nesting no_kwargs "YAML" (pool_obj example_pool_data) = Ok (pool_yaml example_pool_data) /\
  exists o', parse (fun l => l) nesting "YAML" (pool_yaml example_pool_data) (PObj "Pool" [] [] []) = Ok o' /\
    is_pool example_pool_data o'.
Proof.
  assert (Hp : is_pool example_pool_data (pool_obj example_pool_data)) by apply pool_obj_says.
  assert (Hg : good_pool example_pool_data).
  { split; [apply (bool_decide_eq_true_1 _); by vm_compute|]. constructor; [|constructor].
    unfold good_target. apply (bool_decide_eq_true_1 _). by vm_compute. }
  split; [exact Hp|]. split; [exact Hg|]. apply (@pool_yaml_round_trip open_env no_kwargs (fun l => l) _ _ Hp Hg).
Defined.
