(* ===== verification/Api.v ===== *)
(** * The way in and out of the HTTP interface (designate/api/middleware.py)

    A request passes through a pipeline of middleware: its context is made from its
    headers, maintenance turns it away, and whatever goes wrong further in becomes an
    answer in JSON. What the layers share and change, the context and the parameters
    in the environment of the request, is the state [astate]; an exception of this
    layer is a [fault], which also carries the message, the errors and the object that
    the classes of exceptions.py keep. *)
From Stdlib Require Import ZArith Lia Ascii String.
From stdpp Require Import base option numbers strings sets list.
From S2P Require Import Prelude PyStr Exceptions Values Objects Utils Classes ObjectLists World AdapterTables Adapters.
Local Open Scope string_scope.

(** ** The types of the exceptions (exceptions.py) *)

Definition bad_request_type (e : bad_request) : string :=
  match e with
  | BR_Base => "bad_request"
  | EmptyRequestBody => "empty_request_body"
  | InvalidUUID => "invalid_uuid"
  | InvalidRecord => "invalid_record"
  | NetworkEndpointNotFound => "no_endpoint"
  | MarkerNotFound => "marker_not_found"
  | DesignateValueError => "value_error"
  | InvalidMarker => "invalid_marker"
  | InvalidSortDir => "invalid_sort_dir"
  | InvalidLimit => "invalid_limit"
  | InvalidSortKey => "invalid_sort_key"
  | InvalidJson => "invalid_json"
  | NoneIpAddress => "none_ip_address"
  | InvalidOperation => "invalid_operation"
  | UnsupportedAccept => "unsupported_accept"
  | UnsupportedContentType => "unsupported_content_type"
  | NeedView => "attributes_need_view"
  | LastServerDeleteNotAllowed => "last_server_delete_not_allowed"
  end.
Definition forbidden_type (e : forbidden) : string :=
  match e with
  | F_Base => "forbidden"
  | IllegalChildZone => "illegal_child"
  | IllegalParentZone => "illegal_parent"
  | IncorrectZoneTransferKey => "invalid_key"
  end.
Definition duplicate_type (e : duplicate) : string :=
  match e with
  | D_Base => "duplicate"
  | DuplicateServiceStatus => "duplicate_service_status"
  | DuplicateQuota => "duplicate_quota"
  | DuplicateServer => "duplicate_server"
  | DuplicateTsigKey => "duplicate_tsigkey"
  | DuplicateZone => "duplicate_zone"
  | DuplicateAcl => "duplicate_acl"
  | DuplicateTld => "duplicate_tld"
  | DuplicateRecordSet => "duplicate_recordset"
  | DuplicateRecord => "duplicate_record"
  | DuplicateBlacklist => "duplicate_blacklist"
  | DuplicatePoolManagerStatus => "duplication_pool_manager_status"
  | DuplicatePool => "duplicate_pool"
  | DuplicatePoolAttribute => "duplicate_pool_attribute"
  | DuplicatePoolNsRecord => "duplicate_pool_ns_record"
  | DuplicatePoolNameserver => "duplicate_pool_nameserver"
  | DuplicatePoolTarget => "duplicate_pool_target"
  | DuplicatePoolTargetOption => "duplicate_pool_target_option"
  | DuplicatePoolTargetMaster => "duplicate_pool_target_master"
  | DuplicatePoolAlsoNotify => "duplicate_pool_also_notify"
  | DuplicateZoneImport => "duplicate_zone_import"
  | DuplicateZoneExport => "duplicate_zone_export"
  | DuplicateViewDuplicate => "duplicate_view_export"
  | DuplicateZdnsViewInfo => "duplicate_zdns_view_info"
  | DuplicateViewZdnsView => "duplicate_view_zdns_view_association"
  | DuplicateView => "duplicate_view"
  | DuplicateZoneTransferRequest => "duplicate_zone_transfer_request"
  | DuplicateZoneTransferAccept => "duplicate_zone_transfer_accept"
  | DuplicateZoneAttribute => "duplicate_zone_attribute"
  | DuplicateZoneMaster => "duplicate_zone_attribute"
  end.
Definition not_found_type (e : not_found) : string :=
  match e with
  | NF_Base => "not_found"
  | ServiceStatusNotFound => "service_status_not_found"
  | QuotaNotFound => "quota_not_found"
  | ServerNotFound => "server_not_found"
  | TsigKeyNotFound => "tsigkey_not_found"
  | BlacklistNotFound => "blacklist_not_found"
  | ZoneNotFound => "zone_not_found"
  | AclNotFound => "acl_not_found"
  | ZoneMasterNotFound => "zone_master_not_found"
  | ZoneAttributeNotFound => "zone_attribute_not_found"
  | TldNotFound => "tld_not_found"
  | RecordSetNotFound => "recordset_not_found"
  | RecordNotFound => "record_not_found"
  | ReportNotFound => "report_not_found"
  | PoolManagerStatusNotFound => "pool_manager_status_not_found"
  | PoolNotFound => "pool_not_found"
  | NoValidPoolFound => "no_valid_pool_found"
  | PoolAttributeNotFound => "pool_attribute_not_found"
  | PoolNsRecordNotFound => "pool_ns_record_not_found"
  | PoolNameserverNotFound => "pool_nameserver_not_found"
  | PoolTargetNotFound => "pool_target_not_found"
  | PoolTargetOptionNotFound => "pool_target_option_not_found"
  | PoolTargetMasterNotFound => "pool_target_master_not_found"
  | PoolAlsoNotifyNotFound => "pool_also_notify_not_found"
  | ZoneTransferRequestNotFound => "zone_transfer_request_not_found"
  | ZoneTransferAcceptNotFound => "zone_transfer_accept_not_found"
  | ZoneImportNotFound => "zone_import_not_found"
  | ZoneExportNotFound => "zone_export_not_found"
  | ViewNotFound => "view_not_found"
  | ViewAclNotFound => "view_acl_not_found"
  | AclsIsNone => "acl_ids_is_none"
  | ParamsIsNotLegal => "params_is_not_legal"
  | AclidsMustBeList => "acl_ids_must_be_list"
  | CreateViewFailed => "create_view_failed"
  end.
Definition failed_type (e : failed) : string :=
  match e with
  | Failed_Base => "create_failed"
  | AllFailed => "all record-create failed"
  | PartlyFailed => "some record-create failed"
  end.
Definition configuration_error_type (e : configuration_error) : string :=
  match e with
  | CE_Base => "configuration_error"
  | NoFiltersConfigured => "no_filters_configured"
  | NoServersConfigured => "no_servers_configured"
  | MultiplePoolsFound => "multiple_pools_found"
  | NoPoolTargetsConfigured => "no_pool_targets_configured"
  end.
Definition error_type (e : exc) : option string :=
  match e with
  | RelationNotLoaded => Some "relation_not_loaded"
  | AdapterNotFound => Some "adapter_not_found"
  | UnknownFailure => Some "unknown_failure"
  | CommunicationFailure => Some "communication_failure"
  | NeutronCommunicationFailure => Some "neutron_communication_failure"
  | OverQuota => Some "over_quota"
  | QuotaResourceUnknown => Some "quota_resource_unknown"
  | InvalidObject => Some "invalid_object"
  | NotEqual => Some "udn_record_count not equals record in db"
  | NoChange => Some "No changes"
  | InvalidZoneName => Some "invalid_zone_name"
  | InvalidAclName => Some "invalid_acl_name"
  | InvalidRecordSetName => Some "invalid_recordset_name"
  | InvalidRecordSetLocation => Some "invalid_recordset_location"
  | InvaildZoneTransfer => Some "invalid_zone_transfer_request"
  | InvalidTTL => Some "invalid_ttl"
  | ZoneHasSubZone => Some "zone_has_sub_zone"
  | MethodNotAllowed => Some "method_not_allowed"
  | ZdnsErrMessage => Some "Equipment Internal Error"
  | AclUsedByView => Some "acl used by view"
  | ConfigurationError c => Some (configuration_error_type c)
  | BadRequest c => Some (bad_request_type c)
  | Forbidden c => Some (forbidden_type c)
  | Duplicate c => Some (duplicate_type c)
  | NotFound c => Some (not_found_type c)
  | Failed c => Some (failed_type c)
  | _ => None
  end.
(** Subclasses of [exceptions.Base]. *)
Definition is_base (e : exc) : bool :=
  match e with Backend | NSD4SlaveBackendError | Py _ => false | _ => true end.

(** ** Requests, answers, faults *)

Record http := {
  h_headers : list (string * string); h_url : string; h_client_addr : option string;
  h_request_id : pyval; h_environ : list (string * string);
}.
Record response := { status : Z; r_headers : list (string * string); r_body : pyval }.
Record fault := { f_exc : exc; f_message : pyval; f_errors : pyval; f_object : pyval }.
Definition bare (e : exc) : fault := {| f_exc := e; f_message := PNone; f_errors := PNone; f_object := PNone |}.

(** What the layers change: the world, and of the request the context, the
    parameters, the path and the scheme. *)
Record astate := {
  a_world : world; a_context : option context; a_GET : list (string * string);
  a_path_info : string; a_url_scheme : string;
}.
Definition A (T : Type) := M fault astate T.
Definition set_context (c : context) (get : list (string * string)) (s : astate) : astate :=
  {| a_world := a_world s; a_context := Some c; a_GET := get; a_path_info := a_path_info s;
     a_url_scheme := a_url_scheme s |}.
Definition set_path (p : string) (s : astate) : astate :=
  {| a_world := a_world s; a_context := a_context s; a_GET := a_GET s; a_path_info := p;
     a_url_scheme := a_url_scheme s |}.
Definition set_scheme (p : string) (s : astate) : astate :=
  {| a_world := a_world s; a_context := a_context s; a_GET := a_GET s; a_path_info := a_path_info s;
     a_url_scheme := p |}.
Definition set_world (w : world) (s : astate) : astate :=
  {| a_world := w; a_context := a_context s; a_GET := a_GET s; a_path_info := a_path_info s;
     a_url_scheme := a_url_scheme s |}.
Definition faulty {T} (r : R T) : A T := fun s =>
  (match r with Ok a => Ok a | Raise e => Raise (bare e) end, s).
Definition in_world {T} (m : P world T) : A T := fun s =>
  let '(r, w) := m (a_world s) in
  (match r with Ok a => Ok a | Raise e => Raise (bare e) end, set_world w s).
Definition plain_response (n : Z) : response := {| status := n; r_headers := []; r_body := PStr "" |}.

(** The base class of oslo.middleware: an answer of [process_request] is the answer,
    otherwise the application is asked. *)
Class OsloMiddleware := {
  call_middleware : A (option response) -> A response -> A response;
  answered process app s r s' :
    process s = (Ok (Some r), s') -> call_middleware process app s = (Ok r, s');
  passed_on process app s s' :
    process s = (Ok None, s') -> call_middleware process app s = app s';
  broken process app s f s' :
    process s = (Raise f, s') -> call_middleware process app s = (Raise f, s');
}.

Section Middleware.
Context `{Env}.
(** [strutils.bool_from_string], and whether [json.loads] takes a text *)
Variable bool_from_string : string -> bool.
Variable json_loads : string -> R pyval.
(** the text of an exception, [str(e)] *)
Variable str_of : fault -> string.

Definition header (request : http) (name : string) : option string := aget name (h_headers request).
(** [headers.get(name)] counts as true. *)
Definition header_set (request : http) (name : string) : option string :=
  match header request name with Some "" => None | v => v end.
Definition conf_flag (o : string) : bool := negb (conf_int o =? 0)%Z.

(** ** [ContextMiddleware] *)

(** The context and the parameters while the context is made. *)
Definition X := P (context * list (string * string)).
Definition on_context (f : context -> R context) : X unit := fun s =>
  match f s.1 with Ok c => (Ok tt, (c, s.2)) | Raise e => (Raise e, s) end.
Definition with_hide_counts (v : bool) (c : context) : context :=
  {| tenant := tenant c; user := user c; is_admin := is_admin c; roles := roles c;
     original_tenant := original_tenant c; all_tenants := all_tenants c; abandon := abandon c;
     edit_managed_records := edit_managed_records c; hide_counts := v;
     show_deleted := show_deleted c; tsigkey_id := tsigkey_id c |}.
(** [request.GET.pop(i)], when it is there: the parameters are a multiple dictionary,
    which loses the first of them. *)
Fixpoint drop_first (name : string) (get : list (string * string)) : list (string * string) :=
  match get with
  | [] => []
  | (k, v) :: get => if String.eqb name k then get else (k, v) :: drop_first name get
  end.
Definition pop_param (name : string) : X (option string) := fun s =>
  match aget name s.2 with
  | Some v => (Ok (Some v), (s.1, drop_first name s.2))
  | None => (Ok None, s)
  end.

Definition _extract_sudo (request : http) : X unit :=
  match header_set request "X-Auth-Sudo-Tenant-ID", header_set request "X-Auth-Sudo-Project-ID" with
  | Some t, _ => on_context (sudo (Some t))
  | None, Some t => on_context (sudo (Some t))
  | None, None => ret tt
  end.
Definition all_tenants_param (name : string) : X unit :=
  let! v := pop_param name in
  match v with Some v => on_context (set_all_tenants (bool_from_string v)) | None => ret tt end.
Definition _extract_all_projects (request : http) : X unit :=
  on_context (set_all_tenants false) ;;;
  match header_set request "X-Auth-All-Projects" with
  | Some v => on_context (set_all_tenants (bool_from_string v))
  | None => ret tt
  end ;;;
  mfor ["all_projects"; "all_tenants"] all_tenants_param.
Definition _extract_dns_hide_counts (request : http) : X unit :=
  on_context (fun c => Ok (with_hide_counts false c)) ;;;
  match header_set request "OpenStack-DNS-Hide-Counts" with
  | Some v => on_context (fun c => Ok (with_hide_counts (bool_from_string v) c))
  | None => ret tt
  end.
Definition _extract_edit_managed_records (request : http) : X unit :=
  on_context (set_edit_managed false) ;;;
  let! v := pop_param "edit_managed_records" in
  match v, header_set request "X-Designate-Edit-Managed-Records" with
  | Some v, _ => on_context (set_edit_managed (bool_from_string v))
  | None, Some v => on_context (set_edit_managed (bool_from_string v))
  | None, None => ret tt
  end.
Definition extractions (request : http) : X unit :=
  _extract_sudo request ;;; _extract_all_projects request ;;;
  _extract_edit_managed_records request ;;; _extract_dns_hide_counts request.

(** [make_context]: whatever happens after the constructor, the request gets the
    context as it is then. *)
Definition new_context (t u : option string) (rs : list string) (all : bool) : R context :=
  set_all_tenants all
    {| tenant := t; user := u; is_admin := false; roles := rs; original_tenant := None;
       all_tenants := false; abandon := false; edit_managed_records := false; hide_counts := false;
       show_deleted := false; tsigkey_id := None |}.
Definition make_context (request : http) (t u : option string) (rs : list string) (all : bool) : A unit :=
  let! ctxt := faulty (new_context t u rs all) in
  fun s =>
    let '(r, (ctxt, get)) := extractions request (ctxt, a_GET s) in
    (match r with Ok _ => Ok tt | Raise e => Raise (bare e) end, set_context ctxt get s).

(** [KeystoneContextMiddleware.process_request]. The status of the identity is compared
    by [is] with a literal, which no header is. *)
Definition is_the_literal (header : string) : bool := false.
Definition is_forbidden (f : fault) : bool := match f_exc f with Forbidden _ => true | _ => false end.
Definition keystone_request (request : http) : A (option response) :=
  let unauthorized := ret (Some (plain_response 401)) in
  if match header request "X-Identity-Status" with Some v => is_the_literal v | None => false end
  then unauthorized
  else match header request "X-Tenant-ID" with
       | None => unauthorized
       | Some tenant_id =>
           match header_set request "X-Service-Catalog" with
           | Some c => faulty (json_loads c) ;;; ret tt
           | None => ret tt
           end ;;;
           let! roles := faulty (match header request "X-Roles" with
                                 | Some r => Ok (split_char "," r)
                                 | None => Raise (Py PyAttributeError)
                                 end) in
           try_except
             (make_context request (Some tenant_id) (header request "X-User-ID") roles false ;;; ret None)
             (fun f => if is_forbidden f then Some (ret (Some (plain_response 403))) else None)
       end.
(** [NoAuthContextMiddleware.process_request] *)
Definition noauth_request (request : http) : A (option response) :=
  make_context request
    (Some (default "noauth-project" (header request "X-Auth-Project-ID")))
    (Some (default "noauth-user" (header request "X-Auth-User-ID")))
    (split_char "," (default "admin" (header request "X-Roles"))) false ;;; ret None.
(** [TestContextMiddleware.process_request] *)
Definition test_request (default_tenant default_user : option string) (request : http) : A (option response) :=
  let or_ v d := match v with Some v => Some v | None => d end in
  make_context request
    (or_ (header request "X-Test-Tenant-ID") default_tenant)
    (or_ (header request "X-Test-User-ID") default_user) []
    (bool_from_string (default "False" (header request "X-Test-All-Tenants"))) ;;; ret None.

(** ** [MaintenanceMiddleware], [NormalizeURIMiddleware], [SSLMiddleware] *)
Definition maintenance_request : A (option response) :=
  if negb (conf_flag "service:api.maintenance_mode") then ret None
  else
    let! ctxt := gets a_context in
    if match ctxt with Some c => mem_str (conf_str "service:api.maintenance_mode_role") (roles c) | None => false end
    then ret None
    else ret (Some {| status := 503; r_headers := [("Retry-After", "60")]; r_body := PStr "" |}).
Definition normalize_uri (application : A response) : A response :=
  Prelude.modify (fun s => set_path (rstrip (Ascii.eqb "/") (a_path_info s)) s) ;;; application.
Fixpoint upper (s : string) : string :=
  match s with
  | "" => ""
  | String a s => String (if is_lower a then ascii_of_nat (nat_of_ascii a - 32) else a) (upper s)
  end.
Definition ssl_request (request : http) : A (option response) :=
  let name := "HTTP_" ++ replace "-" "_" (upper (conf_str "service:api.secure_proxy_ssl_header")) in
  Prelude.modify (fun s => set_scheme (default (a_url_scheme s) (aget name (h_environ request))) s) ;;;
  let override := conf_str "service:api.override_proto" in
  Prelude.modify (fun s => if String.eqb override "" then s else set_scheme override s) ;;; ret None.

(** ** Faults *)

(** [notifications.send_api_fault] *)
Definition send_api_fault (url : string) (code : Z) (f : fault) : A unit :=
  if conf_flag "notify_api_faults"
  then in_world (send (Notify "dns.api.fault" [PStr url; PStr (str_of f); PInt code]))
  else ret tt.
Definition json_headers : list (string * string) := [("Content-Type", "application/json")].
(** The end of both handlers: the identifier of the request, the notification, and the
    answer, which has to be JSON. *)
Definition fault_response (request : http) (f : fault) (n code : Z) (body : list (string * pyval)) : A response :=
  let! ctxt := gets a_context in
  let! body := (match ctxt with
                | Some _ => send_api_fault (h_url request) code f ;;;
                            ret (aset "request_id" (h_request_id request) body)
                | None => ret body
                end) in
  if jsonable (PDict body) then ret {| status := n; r_headers := json_headers; r_body := PDict body |}
  else raise (bare (Py PyTypeError)).

(** [_format_error] of version 1 calls a zone a domain. *)
Definition format_error_v1 (body : list (string * pyval)) : list (string * pyval) :=
  match aget "type" body with
  | Some (PStr t) => aset "type" (PStr (replace "zone" "domain" t)) body
  | _ => body
  end.
(** [FaultWrapperMiddleware._handle_exception] *)
Definition setdefault (name : string) (v : pyval) (body : list (string * pyval)) : list (string * pyval) :=
  match aget name body with Some _ => body | None => aset name v body end.
Definition _handle_exception (format_error : list (string * pyval) -> list (string * pyval)) (request : http)
    (f : fault) (n : Z) (body : list (string * pyval)) : A response :=
  fault_response request f n n
    (format_error (setdefault "type" (PStr "unknown") (setdefault "code" (PInt n) body))).
(** What the handlers of [__call__] start the answer with. *)
Definition fault_status (e : exc) : Z :=
  match e with
  | Py MessagingTimeout => 504
  | _ => if is_base e then default 500%Z (error_code e) else 500
  end.
Definition entry (name : string) (v : pyval) : list (string * pyval) := if holds v then [(name, v)] else [].
Definition fault_body (f : fault) : list (string * pyval) :=
  match f_exc f with
  | Py MessagingTimeout => [("code", PInt 504); ("type", PStr "timeout")]
  | e =>
      if is_base e then
        ("code", PInt (fault_status e)) ::
        app (match error_type e with Some t => [("type", PStr t)] | None => [] end)
            (app (entry "message" (f_message f)) (entry "errors" (f_errors f)))
      else []
  end.
(** [FaultWrapperMiddleware.__call__] *)
Definition caught_fault (f : fault) : bool :=
  match f_exc f with Py Blocked | Py (EventletTimeout _) => false | _ => true end.
Definition fault_wrapper format_error (request : http) (application : A response) : A response :=
  try_except application
    (fun f => if caught_fault f
              then Some (_handle_exception format_error request f (fault_status (f_exc f)) (fault_body f))
              else None).

(** [ValidationErrorMiddleware.__call__], with [_handle_errors] *)
Definition has_validation_errors (f : fault) : bool :=
  bool_decide (f_exc f = InvalidObject)
  && match f_errors f with PObj "ValidationErrorList" _ _ _ => true | _ => false end.
Definition _handle_errors (api_version : string) (request : http) (f : fault) : A response :=
  let! rendered := faulty (render nesting
    {| k_request := None; k_context := None; k_failed_object := Some (f_object f) |} api_version (f_errors f)) in
  let code := default 500%Z (error_code (f_exc f)) in
  fault_response request f code code
    [("code", PInt code); ("type", PStr (default "unknown" (error_type (f_exc f)))); ("errors", rendered)].
Definition validation_errors (api_version : string) (request : http) (application : A response) : A response :=
  try_except application
    (fun f => if has_validation_errors f then Some (_handle_errors api_version request f) else None).

(** ** The pipeline *)

(** [auth_pipeline_factory]: the last name is the application, the filters are put
    around it from the last to the first. *)
Definition auth_pipeline (filters : list (A response -> A response)) (app : A response) : A response :=
  foldl (fun app filter => filter app) app (reverse filters).
Context `{OsloMiddleware}.
Definition processing (process : A (option response)) (application : A response) : A response :=
  call_middleware process application.
(** The pipelines of version 2, behind the middleware of other projects. *)
Definition keystone_v2 (authtoken : A response -> A response) (request : http) : list (A response -> A response) :=
  [fault_wrapper id request; validation_errors "API_v2" request; authtoken;
   processing (keystone_request request); processing maintenance_request; normalize_uri].
Definition noauth_v2 (request : http) : list (A response -> A response) :=
  [fault_wrapper id request; validation_errors "API_v2" request;
   processing (noauth_request request); processing maintenance_request; normalize_uri].
Definition keystone_v1 (authtoken : A response -> A response) (request : http) : list (A response -> A response) :=
  [authtoken; processing (keystone_request request); processing maintenance_request;
   validation_errors "API_v1" request; fault_wrapper format_error_v1 request; normalize_uri].
End Middleware.
