(* ===== verification/ApiFacts.v ===== *)
(** * The middleware of the HTTP interface is sound

    Whatever goes wrong behind the fault wrapper becomes an answer with the status of
    the exception ([every_request_answered]); the application is reached only with a
    context the headers and the policy allow, and not during maintenance
    ([application_reached_authorised]). *)
From Stdlib Require Import ZArith Lia Ascii String.
From stdpp Require Import base option numbers strings sets list.
From S2P Require Import Prelude PyStr Exceptions Values Objects Utils Classes ObjectLists World Decorators AdapterTables Adapters Api.
Local Open Scope string_scope.

(** The pipeline is the composition of its filters. *)
Lemma auth_pipeline_cons filter filters app :
  auth_pipeline (filter :: filters) app = filter (auth_pipeline filters app).
Proof. unfold auth_pipeline. by rewrite reverse_cons, foldl_app. Qed.
Lemma auth_pipeline_nil app : auth_pipeline [] app = app.
Proof. done. Qed.

(** The statuses the interface promises, by families of exceptions. *)
Definition promised_status (e : exc) : Z :=
  match e with
  | Py MessagingTimeout | CommunicationFailure | NeutronCommunicationFailure => 504
  | BadRequest NetworkEndpointNotFound | Forbidden _ => 403
  | BadRequest UnsupportedAccept => 406
  | BadRequest UnsupportedContentType => 415
  | BadRequest _ | InvalidObject | InvalidZoneName | InvalidAclName | InvalidRecordSetName
  | InvalidRecordSetLocation | InvaildZoneTransfer | InvalidTTL | ZoneHasSubZone => 400
  | NotFound _ => 404
  | MethodNotAllowed => 405
  | Duplicate _ => 409
  | OverQuota => 413
  | _ => 500
  end%Z.
Lemma fault_status_promised e : fault_status e = promised_status e.
Proof. destruct e; cbn; repeat case_match; simplify_eq; try done. Qed.
Lemma promised_status_bounds e : (400 <= promised_status e < 600)%Z.
Proof. destruct e; cbn; repeat case_match; lia. Qed.
Definition fault_type (e : exc) : string :=
  match e with Py MessagingTimeout => "timeout" | _ => default "unknown" (error_type e) end.

Lemma aget_setdefault k n v b :
  aget k (setdefault n v b) = if String.eqb k n then Some (default v (aget n b)) else aget k b.
Proof.
  unfold setdefault. destruct (String.eqb_spec k n) as [->|Hk], (aget n b) eqn:Hg; rewrite ?aget_aset, ?Hg; try done.
  - by rewrite String.eqb_refl.
  - by rewrite (proj2 (String.eqb_neq k n) Hk).
Qed.
Lemma aget_entries k n n' v v' : k <> n -> k <> n' -> aget k (app (entry n v) (entry n' v')) = None.
Proof.
  intros Hk%String.eqb_neq Hk'%String.eqb_neq. unfold entry.
  destruct (holds v), (holds v'); cbn; rewrite ?Hk, ?Hk'; done.
Qed.
(** Every body a fault starts with carries its code and its type, or neither. *)
Lemma fault_body_code f : default (PInt (fault_status (f_exc f))) (aget "code" (fault_body f)) = PInt (fault_status (f_exc f)).
Proof. unfold fault_body, fault_status. destruct (f_exc f) as [| | | | | | | | | | | | | | | | | | | | | | | | | | | | | |b]; try done. by destruct b. Qed.
Lemma fault_body_type f : default (PStr "unknown") (aget "type" (fault_body f)) = PStr (fault_type (f_exc f)).
Proof.
  unfold fault_body, fault_type.
  destruct (f_exc f) as [| | | | | | | | | | | | | | | | | | | | | | | | | | | | | |b]; cbn -[entry];
    rewrite ?aget_entries by done; try done; by destruct b.
Qed.
Lemma fault_body_request_id f : aget "request_id" (fault_body f) = None.
Proof.
  unfold fault_body.
  destruct (f_exc f) as [| | | | | | | | | | | | | | | | | | | | | | | | | | | | | |b]; cbn -[entry];
    rewrite ?aget_entries by done; try done; by destruct b.
Qed.
(** The message and the errors of an exception of Designate go out when there are any. *)
Definition shown (f : fault) (v : pyval) : option pyval := if is_base (f_exc f) && holds v then Some v else None.
Lemma fault_body_message f : aget "message" (fault_body f) = shown f (f_message f).
Proof.
  unfold fault_body, shown, entry.
  destruct (f_exc f) as [| | | | | | | | | | | | | | | | | | | | | | | | | | | | | |b]; cbn -[holds]; try (by destruct b);
    destruct (holds (f_message f)), (holds (f_errors f)); done.
Qed.
Lemma fault_body_errors f : aget "errors" (fault_body f) = shown f (f_errors f).
Proof.
  unfold fault_body, shown, entry.
  destruct (f_exc f) as [| | | | | | | | | | | | | | | | | | | | | | | | | | | | | |b]; cbn -[holds]; try (by destruct b);
    destruct (holds (f_message f)), (holds (f_errors f)); done.
Qed.

Section Faults.
Context `{Env}.
Variable str_of : fault -> string.

(** What the answer to a fault says, and what reporting it changes: a notification is sent if
    they are wanted and the request has come as far as to have a context. *)
Definition sayable (request : http) (f : fault) (s : astate) : bool :=
  default true (jsonable <$> shown f (f_message f)) && default true (jsonable <$> shown f (f_errors f)) &&
  (if a_context s then jsonable (h_request_id request) else true).
Definition answers (request : http) (f : fault) (s : astate) (a : response) : Prop :=
  status a = promised_status (f_exc f) /\ r_headers a = [("Content-Type", "application/json")] /\
  exists body, r_body a = PDict body /\
    aget "code" body = Some (PInt (promised_status (f_exc f))) /\
    aget "type" body = Some (PStr (fault_type (f_exc f))) /\
    aget "message" body = shown f (f_message f) /\
    aget "errors" body = shown f (f_errors f) /\
    aget "request_id" body = (if a_context s then Some (h_request_id request) else None).
Definition reported (request : http) (f : fault) (s : astate) : astate :=
  if a_context s then
    if conf_flag "notify_api_faults" then
      set_world (set_sent (app (w_sent (a_world s))
        [Notify "dns.api.fault" [PStr (h_url request); PStr (str_of f); PInt (promised_status (f_exc f))]]) (a_world s)) s
    else s
  else s.
Definition answer_body (request : http) (f : fault) (s : astate) : list (string * pyval) :=
  let body := setdefault "type" (PStr "unknown") (setdefault "code" (PInt (promised_status (f_exc f))) (fault_body f)) in
  if a_context s then aset "request_id" (h_request_id request) body else body.

Lemma fault_response_spec request f body s :
  let body' := if a_context s then aset "request_id" (h_request_id request) body else body in
  fault_response str_of request f (promised_status (f_exc f)) (promised_status (f_exc f)) body s =
  (if jsonable (PDict body') then Ok {| status := promised_status (f_exc f); r_headers := json_headers; r_body := PDict body' |}
   else Raise (bare (Py PyTypeError)), reported request f s).
Proof.
  unfold fault_response, reported, bind, gets, ret, raise, send_api_fault, in_world, send, modify.
  destruct (a_context s); [destruct (conf_flag _)|]; cbn -[jsonable]; by destruct (jsonable _).
Qed.
Lemma jsonable_aset n v d : jsonable v = true -> jsonable (PDict d) = true -> jsonable (PDict (aset n v d)) = true.
Proof.
  intros Hv. cbn. induction d as [|[k x] d IH]; cbn; [by rewrite Hv|]. intros [Hx Hd]%andb_true_iff.
  destruct (_ =? _); cbn; [by rewrite Hv|]. by rewrite Hx, IH.
Qed.
Lemma jsonable_elem n v d : jsonable (PDict d) = true -> aget n d = Some v -> jsonable v = true.
Proof.
  cbn. induction d as [|[k x] d IH]; cbn; [done|]. intros [Hx Hd]%andb_true_iff.
  destruct (_ =? _); [by intros [= <-]|by apply IH].
Qed.
Lemma answer_body_said request f s :
  let body := answer_body request f s in
  aget "code" body = Some (PInt (promised_status (f_exc f))) /\
  aget "type" body = Some (PStr (fault_type (f_exc f))) /\
  aget "message" body = shown f (f_message f) /\ aget "errors" body = shown f (f_errors f) /\
  aget "request_id" body = (if a_context s then Some (h_request_id request) else None).
Proof.
  unfold answer_body. destruct (a_context s);
    repeat (rewrite aget_aset || rewrite aget_setdefault); cbn [String.eqb Ascii.eqb Bool.eqb];
    rewrite ?fault_body_type, ?fault_body_request_id, ?fault_body_message, ?fault_body_errors, <- ?fault_status_promised, ?fault_body_code; done.
Qed.
Lemma answer_body_jsonable request f s : jsonable (PDict (answer_body request f s)) = sayable request f s.
Proof.
  apply Bool.eq_iff_eq_true. split.
  - intros Hj. destruct (answer_body_said request f s) as (_ & _ & Hm & He & Hr). unfold sayable.
    rewrite <- Hm, <- He. pose proof (fun n v => jsonable_elem n v _ Hj) as Hx.
    destruct (aget "message" _) eqn:Em; cbn; [rewrite (Hx _ _ Em)|]; cbn;
      (destruct (aget "errors" _) eqn:Ee; cbn; [rewrite (Hx _ _ Ee)|]; cbn); destruct (a_context s); try done; by apply (Hx "request_id").
  - unfold sayable, answer_body. intros [[Hm He]%andb_true_iff Hr]%andb_true_iff.
    assert (Hb : jsonable (PDict (fault_body f)) = true).
    { unfold fault_body, shown, entry in *.
      destruct (f_exc f) as [| | | | | | | | | | | | | | | | | | | | | | | | | | | | | |b]; cbn -[holds] in *; try (by destruct b);
        destruct (holds (f_message f)), (holds (f_errors f)); cbn in *; rewrite ?Hm, ?He; done. }
    assert (Hs : forall n v d, jsonable v = true -> jsonable (PDict d) = true -> jsonable (PDict (setdefault n v d)) = true).
    { intros n v d Hv Hd. unfold setdefault. destruct (aget n d); [done|by apply jsonable_aset]. }
    destruct (a_context s); [apply jsonable_aset; [done|]|]; apply Hs, Hs; done.
Qed.

(** C15: A request of version 2 is always answered: what its pipeline does not answer
    itself, an exception of any filter or of the application, becomes an answer with
    the status of its family, between 400 and 599, and a JSON body with that status, the type
    its class declares, the message and the errors of an exception of Designate, and the
    identifier of the request once it has a context; and the fault is notified when that is
    configured, which is the only change. Only what JSON cannot express, as a list of errors that
    are objects, is a TypeError instead. The wrapper lets through what [except Exception] does
    not catch. *)
Theorem every_request_answered filters application request s :
  let '(r, s1) := auth_pipeline filters application s in
  let '(answer, s2) :=
    auth_pipeline (fault_wrapper str_of id request :: filters) application s in
  match r with
  | Ok a => answer = Ok a /\ s2 = s1
  | Raise f =>
      if caught_fault f
      then s2 = reported request f s1 /\
        if sayable request f s1
        then exists a, answer = Ok a /\ answers request f s1 a /\ (400 <= status a < 600)%Z
        else answer = Raise (bare (Py PyTypeError))
      else answer = Raise f /\ s2 = s1
  end.
Proof.
  rewrite auth_pipeline_cons. unfold fault_wrapper, try_except.
  destruct (auth_pipeline filters application s) as [[a|f] s1]; [done|].
  destruct (caught_fault f); [|done]. unfold _handle_exception. rewrite fault_status_promised, fault_response_spec.
  split; [done|]. fold (answer_body request f s1). unfold id. fold (answer_body request f s1). rewrite answer_body_jsonable.
  destruct (sayable request f s1); [|done]. eexists. split; [done|]. split; [|apply promised_status_bounds].
  split; [done|]. split; [done|]. eexists. split; [done|]. apply answer_body_said.
Qed.
End Faults.

Section Authorisation.
Context `{Env}.
Variable bool_from_string : string -> bool.
Variable json_loads : string -> R pyval.

(** A flag of a context that only the policy raises: a context of the same caller was
    checked against the rule. *)
Definition same_caller (c c' : context) : Prop :=
  tenant c' = tenant c /\ user c' = user c /\ roles c' = roles c /\ is_admin c' = is_admin c /\
  original_tenant c' = original_tenant c.
Definition allowed (rule : string) (c : context) : Prop :=
  exists c0, same_caller c c0 /\ enforce rule c0 [] = true.
Lemma same_caller_refl c : same_caller c c.
Proof. done. Qed.
#[local] Hint Resolve same_caller_refl : core.
Lemma same_caller_trans c1 c2 c3 : same_caller c1 c2 -> same_caller c2 c3 -> same_caller c1 c3.
Proof. unfold same_caller. intros (<-&<-&<-&<-&<-). auto. Qed.

(** What a step of the extraction does to a context and to the parameters: those not
    named stay. *)
Definition keeps_params (names : list string) (get get' : list (string * string)) : Prop :=
  forall n, n ∉ names -> aget n get' = aget n get.
Lemma keeps_refl names get : keeps_params names get get.
Proof. done. Qed.
Lemma keeps_trans names g1 g2 g3 : keeps_params names g1 g2 -> keeps_params names g2 g3 -> keeps_params names g1 g3.
Proof. intros H1 H2 n Hn. by rewrite H2, H1. Qed.
#[local] Hint Resolve keeps_refl : core.
Lemma drop_first_keeps names n get : n ∈ names -> keeps_params names get (drop_first n get).
Proof.
  intros Hn k Hk. induction get as [|[k' v] get IH]; cbn; [done|].
  assert (k <> n) by (intros ->; done).
  destruct (String.eqb_spec n k') as [->|]; cbn; [|by rewrite IH].
  by rewrite (proj2 (String.eqb_neq k k')).
Qed.
Lemma pop_param_spec names n c get :
  n ∈ names -> exists v get', pop_param n (c, get) = (Ok v, (c, get')) /\ keeps_params names get get'.
Proof.
  intros Hn. unfold pop_param; cbn. destruct (aget n get); repeat eexists; auto using drop_first_keeps.
Qed.

(** The parameters the extraction takes out. *)
Definition taken : list string := ["all_projects"; "all_tenants"; "edit_managed_records"].
(** The context is of the caller [c0], its flags are allowed, and nothing but the
    parameters [taken] is gone. *)
Definition legitimate (c0 : context) (get0 : list (string * string)) (s : context * list (string * string)) : Prop :=
  same_caller c0 s.1 /\ (all_tenants s.1 = true -> allowed "all_tenants" s.1) /\
  (edit_managed_records s.1 = true -> allowed "edit_managed_records" s.1) /\
  abandon s.1 = false /\ show_deleted s.1 = false /\ keeps_params taken get0 s.2.

(** Steps that keep a property of the state, whether they return or raise. *)
Definition keeps {T} (I : context * list (string * string) -> Prop) (m : X T) : Prop := forall s, I s -> I (m s).2.
Lemma keeps_ret {T} I (a : T) : keeps I (ret a).
Proof. by intros s Hs. Qed.
Lemma keeps_bind {T U} I (m : X T) (k : T -> X U) : keeps I m -> (forall a, keeps I (k a)) -> keeps I (bind m k).
Proof.
  intros Hm Hk s Hs. unfold bind. specialize (Hm s Hs). destruct (m s) as [[a|e] s']; [by apply Hk|done].
Qed.
Lemma keeps_mfor {T} I (l : list T) (f : T -> X unit) : (forall x, x ∈ l -> keeps I (f x)) -> keeps I (mfor l f).
Proof.
  induction l as [|x l IH]; intros Hf; cbn; [by apply keeps_ret|].
  apply keeps_bind; [by apply Hf; left|]. intros _. apply IH. intros y Hy. by apply Hf; right.
Qed.
Lemma keeps_on_context c0 get0 f :
  (forall c get c', legitimate c0 get0 (c, get) -> f c = Ok c' -> legitimate c0 get0 (c', get)) ->
  keeps (legitimate c0 get0) (on_context f).
Proof. intros Hf [c get] Hs. unfold on_context; cbn. destruct (f c) eqn:Hc; [by eapply Hf|done]. Qed.
Lemma keeps_pop c0 get0 n : n ∈ taken -> keeps (legitimate c0 get0) (pop_param n).
Proof.
  intros Hn [c get] (?&?&?&?&?&Hk). destruct (pop_param_spec taken n c get Hn) as (v & get' & -> & Hk').
  split_and!; cbn; try done. by eapply keeps_trans.
Qed.

Lemma allowed_caller rule c c' : same_caller c c' -> allowed rule c -> allowed rule c'.
Proof.
  intros (E1&E2&E3&E4&E5) (c0 & (F1&F2&F3&F4&F5) & Hc). exists c0.
  split; [unfold same_caller; by rewrite E1, E2, E3, E4, E5|done].
Qed.
Lemma keeps_all_tenants c0 get0 v : keeps (legitimate c0 get0) (on_context (set_all_tenants v)).
Proof.
  apply keeps_on_context. intros c get c' (Hc & Ha & He & Hb & Hd & Hk). unfold set_all_tenants, check.
  cbn in *. destruct v; cbn; [destruct (enforce "all_tenants" c []) eqn:Hp; [|discriminate]|]; cbn; intros [= <-];
    (split_and!; [done| |by intros Hm; apply (allowed_caller _ c); [|apply He]|done..]); try done.
  intros _. exists c. by split.
Qed.
Lemma keeps_edit_managed c0 get0 v : keeps (legitimate c0 get0) (on_context (set_edit_managed v)).
Proof.
  apply keeps_on_context. intros c get c' (Hc & Ha & He & Hb & Hd & Hk). unfold set_edit_managed, check.
  cbn in *. destruct v; cbn; [destruct (enforce "edit_managed_records" c []) eqn:Hp; [|discriminate]|]; cbn; intros [= <-];
    (split_and!; [done|by intros Hm; apply (allowed_caller _ c); [|apply Ha]| |done..]); try done.
  intros _. exists c. by split.
Qed.
Lemma keeps_hide_counts c0 get0 v : keeps (legitimate c0 get0) (on_context (fun c => Ok (with_hide_counts v c))).
Proof.
  apply keeps_on_context. intros c get c' (Hc & Ha & He & Hb & Hd & Hk) [= <-]. cbn in *.
  split_and!; [done|intros Hm; apply (allowed_caller _ c); [done|by apply Ha]
                   |intros Hm; apply (allowed_caller _ c); [done|by apply He]|done..].
Qed.
#[local] Hint Resolve keeps_ret keeps_bind keeps_pop keeps_all_tenants keeps_edit_managed keeps_hide_counts : core.

Lemma keeps_all_param c0 get0 n : n ∈ taken -> keeps (legitimate c0 get0) (all_tenants_param bool_from_string n).
Proof. intros Hn. apply keeps_bind; [auto|]. intros v. case_match; auto. Qed.
Lemma extractions_legitimate request c0 get0 :
  keeps (legitimate c0 get0)
    (_extract_all_projects bool_from_string request ;;; _extract_edit_managed_records bool_from_string request ;;;
     _extract_dns_hide_counts bool_from_string request).
Proof.
  apply keeps_bind; [|intros _; apply keeps_bind; [|intros _]]; (apply keeps_bind; [by auto|intros _]).
  - apply keeps_bind; [case_match; auto|]. intros _. apply keeps_mfor. intros n Hn. apply keeps_all_param. set_solver.
  - apply keeps_bind; [apply keeps_pop; set_solver|]. intros v. repeat case_match; auto.
  - case_match; auto.
Qed.

(** Only the policy refuses a step. *)
Definition by_policy {T} (m : X T) : Prop := forall s e s', m s = (Raise e, s') -> e = Forbidden F_Base.
Lemma by_policy_ret {T} (a : T) : by_policy (ret a).
Proof. intros s e s' [=]. Qed.
Lemma by_policy_bind {T U} (m : X T) (k : T -> X U) : by_policy m -> (forall a, by_policy (k a)) -> by_policy (bind m k).
Proof. intros Hm Hk s e s' [Hr|(a & s1 & _ & Hr)]%bind_Raise; [by eapply Hm|by eapply Hk]. Qed.
Lemma by_policy_mfor {T} (l : list T) (f : T -> X unit) : (forall x, by_policy (f x)) -> by_policy (mfor l f).
Proof. intros Hf. induction l; cbn; [by apply by_policy_ret|]. by apply by_policy_bind; [|intros _]. Qed.
Lemma by_policy_pop n : by_policy (pop_param n).
Proof. intros s e s'. unfold pop_param. by case_match. Qed.
Lemma by_policy_on_context f : (forall c e, f c = Raise e -> e = Forbidden F_Base) -> by_policy (on_context f).
Proof. intros Hf s e s'. unfold on_context. destruct (f s.1) eqn:Hc; intros [= <- <-]. by eapply Hf. Qed.
Lemma check_by_policy rule c e : check rule c [] = Raise e -> e = Forbidden F_Base.
Proof. unfold check. case_match; by intros [=]. Qed.
#[local] Hint Resolve by_policy_ret by_policy_pop by_policy_bind by_policy_mfor : core.
Lemma by_policy_setter rule v (f : context -> context) :
  by_policy (on_context (fun c => let? _ := (if v : bool then check rule c [] else Ok tt) in Ok (f c))).
Proof.
  apply by_policy_on_context. intros c e. destruct v; cbn; [|done].
  destruct (check rule c []) eqn:Hc; cbn; intros [= <-]. by eapply check_by_policy.
Qed.
Lemma by_policy_all v : by_policy (on_context (set_all_tenants v)).
Proof. exact (by_policy_setter "all_tenants" v (with_all_tenants v)). Qed.
Lemma by_policy_edit v : by_policy (on_context (set_edit_managed v)).
Proof. exact (by_policy_setter "edit_managed_records" v (with_edit_managed v)). Qed.
Lemma by_policy_sudo t : by_policy (on_context (sudo t)).
Proof. exact (by_policy_setter "use_sudo" true (fun c => with_tenant t (tenant c) c)). Qed.
Lemma by_policy_hide v : by_policy (on_context (fun c => Ok (with_hide_counts v c))).
Proof. by apply by_policy_on_context. Qed.
#[local] Hint Resolve by_policy_all by_policy_edit by_policy_sudo by_policy_hide : core.
Lemma extractions_by_policy request : by_policy (extractions bool_from_string request).
Proof.
  unfold extractions, _extract_sudo, _extract_all_projects, _extract_edit_managed_records, _extract_dns_hide_counts.
  repeat first [ apply by_policy_bind; [|intros ?] | apply by_policy_mfor; intros ? | case_match | solve [auto] ].
Qed.

(** ** The caller of a request *)

Definition sudo_header (request : http) : option string :=
  match header_set request "X-Auth-Sudo-Tenant-ID" with
  | None => header_set request "X-Auth-Sudo-Project-ID"
  | v => v
  end.
(** A context acts for the tenant the keystone middleware named, or, where the policy
    lets that tenant, for the one its caller asked for; its roles are the caller's; it
    sees all tenants or touches managed records only where the policy lets it. *)
Definition authorised (request : http) (c : context) : Prop :=
  exists t rs, header request "X-Tenant-ID" = Some t /\ header request "X-Roles" = Some rs /\
  roles c = split_char "," rs /\ user c = header request "X-User-ID" /\ is_admin c = false /\
  ((tenant c = Some t /\ original_tenant c = None /\ sudo_header request = None) \/
   (tenant c = sudo_header request /\ original_tenant c = Some t /\
    exists c0, tenant c0 = Some t /\ user c0 = user c /\ roles c0 = roles c /\ enforce "use_sudo" c0 [] = true)) /\
  (all_tenants c = true -> allowed "all_tenants" c) /\
  (edit_managed_records c = true -> allowed "edit_managed_records" c) /\
  abandon c = false /\ show_deleted c = false.

Lemma extract_sudo_spec request c get s1 :
  _extract_sudo request (c, get) = (Ok tt, s1) ->
  s1 = (c, get) /\ sudo_header request = None \/
  enforce "use_sudo" c [] = true /\ exists t, sudo_header request = Some t /\
  s1 = (with_tenant (Some t) (tenant c) c, get).
Proof.
  unfold _extract_sudo, sudo_header, on_context, sudo, check.
  destruct (header_set request "X-Auth-Sudo-Tenant-ID"), (header_set request "X-Auth-Sudo-Project-ID");
    try (by intros [= <-]; left); (destruct (enforce _ _ _); [|discriminate]); intros [= <-]; right; eauto.
Qed.
Lemma extractions_authorised request t rs c0 get c' get' :
  header request "X-Tenant-ID" = Some t -> header request "X-Roles" = Some rs ->
  new_context (Some t) (header request "X-User-ID") (split_char "," rs) false = Ok c0 ->
  extractions bool_from_string request (c0, get) = (Ok tt, (c', get')) ->
  authorised request c' /\ keeps_params taken get get'.
Proof.
  intros Ht Hrs [= <-] ([] & s1 & Hsudo%extract_sudo_spec & Hrest)%bind_Ok.
  assert (Hl : legitimate s1.1 get s1).
  { destruct Hsudo as [[-> _]|(_ & u & _ & ->)]; split_and!; try done; apply same_caller_refl. }
  apply (extractions_legitimate request) in Hl. unfold X in *. rewrite Hrest in Hl.
  destruct Hl as ((E1&E2&E3&E4&E5) & Ha & He & Hb & Hd & Hk). cbn in *. split; [|done].
  exists t, rs. split; [done|]. split; [done|]. rewrite E1, E2, E3, E4, E5.
  destruct Hsudo as [[-> Hn]|(Hp & u & Hu & ->)]; cbn; split_and!; try done; [by left|right].
  split_and!; [done..|]. eexists. by split_and!; [| | |exact Hp].
Qed.

(** The headers keystone should have set, and did not. *)
Definition malformed (request : http) (f : fault) : Prop :=
  (header request "X-Roles" = None /\ f = bare (Py PyAttributeError)) \/
  exists c e, header_set request "X-Service-Catalog" = Some c /\ json_loads c = Raise e /\ f = bare e.
Lemma keystone_request_spec request s :
  let '(r, s') := keystone_request bool_from_string json_loads request s in
  match r with
  | Ok None => exists c get, s' = set_context c get s /\ authorised request c /\ keeps_params taken (a_GET s) get
  | Ok (Some a) => a_world s' = a_world s /\ (a = plain_response 401 \/ a = plain_response 403)
  | Raise f => a_world s' = a_world s /\ malformed request f
  end.
Proof.
  unfold keystone_request, is_the_literal.
  replace (match header request "X-Identity-Status" with Some _ => false | None => false end) with false by by case_match.
  destruct (header request "X-Tenant-ID") as [t|] eqn:Ht; [|cbn; auto].
  unfold bind, faulty, try_except, make_context, new_context; cbn -[extractions header header_set].
  destruct (header_set request "X-Service-Catalog") as [cat|] eqn:Hcat; cbn -[extractions header header_set];
    [destruct (json_loads cat) eqn:Hj; cbn -[extractions header header_set]; [|by split; [|right; eauto]]|].
  all: destruct (header request "X-Roles") as [rs|] eqn:Hrs; cbn -[extractions header header_set];
    [|by split; [|left]].
  all: destruct (extractions bool_from_string request _) as [[[]|e] [c get]] eqn:Hx; cbn;
    [exists c, get; split; [done|]; by eapply extractions_authorised; [..|exact Hx]
    |apply extractions_by_policy in Hx as ->; cbn; auto].
Qed.

Context `{!OsloMiddleware}.
Lemma processing_spec process app s :
  processing process app s =
  match process s with
  | (Ok (Some a), s') => (Ok a, s')
  | (Ok None, s') => app s'
  | (Raise f, s') => (Raise f, s')
  end.
Proof.
  unfold processing. destruct (process s) as [[[a|]|f] s'] eqn:Hp;
    [by apply answered|by apply passed_on|by apply broken].
Qed.
(** Answers of the pipeline itself: the caller is unknown or refused, or the service is
    under maintenance. *)
Definition turned_away (a : response) : Prop :=
  a = plain_response 401 \/ a = plain_response 403 \/
  (conf_flag "service:api.maintenance_mode" = true /\ status a = 503%Z /\ r_headers a = [("Retry-After", "60")]).
Definition may_enter (c : context) : Prop :=
  conf_flag "service:api.maintenance_mode" = true -> conf_str "service:api.maintenance_mode_role" ∈ roles c.
Lemma mem_str_true_elem k l : mem_str k l = true -> k ∈ l.
Proof. unfold mem_str. intros (x & Hx%list_elem_of_In & ->%String.eqb_eq)%existsb_exists. done. Qed.
Lemma maintenance_spec c get s :
  let '(r, s') := maintenance_request (set_context c get s) in
  s' = set_context c get s /\
  match r with Ok None => may_enter c | Ok (Some a) => turned_away a | Raise _ => False end.
Proof.
  unfold maintenance_request. destruct (conf_flag "service:api.maintenance_mode") eqn:Hf; cbn;
    [|split; [done|intros Hm; by rewrite Hf in Hm]].
  unfold bind, gets; cbn. destruct (mem_str _ _) eqn:Hm; cbn; split; try done.
  - intros _. by apply mem_str_true_elem.
  - right; right. by split_and!.
Qed.

(** C14: Behind the authentication of keystone the application is reached only for a
    caller whose tenant, user and roles the headers name: it acts for another tenant, for
    all of them or on managed records only if the policy allows that caller to, it is
    never an administrator, it loses only the parameters the context took, its path
    has no trailing slash, and during maintenance it has the role that may pass.
    Every other request is turned away with 401, 403 or 503, or breaks off for
    headers keystone does not send, before the application or the world is touched. *)
Theorem application_reached_authorised request application s :
  let '(r, s') := auth_pipeline
    [processing (keystone_request bool_from_string json_loads request); processing maintenance_request; normalize_uri]
    application s in
  (exists c get,
     application (set_path (rstrip (Ascii.eqb "/") (a_path_info s)) (set_context c get s)) = (r, s') /\
     authorised request c /\ keeps_params taken (a_GET s) get /\ may_enter c) \/
  (a_world s' = a_world s /\
   match r with Ok a => turned_away a | Raise f => malformed request f end).
Proof.
  rewrite !auth_pipeline_cons, auth_pipeline_nil, processing_spec.
  pose proof (keystone_request_spec request s) as Hk.
  destruct (keystone_request _ _ request s) as [[[a|]|f] s1].
  - destruct Hk as [Hw Ha]. right. split; [done|]. unfold turned_away. tauto.
  - destruct Hk as (c & get & -> & Hc & Hget). rewrite processing_spec.
    pose proof (maintenance_spec c get s) as Hm.
    destruct (maintenance_request (set_context c get s)) as [[[a|]|f] s2]; destruct Hm as [-> Hm]; [by right| |done].
    destruct (normalize_uri application _) as [r s'] eqn:Happ. left. exists c, get. by rewrite <- Happ.
  - by right.
Qed.
End Authorisation.

(** oslo.middleware as it is documented. *)
#[export] Instance documented_middleware : OsloMiddleware.
Proof.
  refine {| call_middleware := fun process app s =>
    match process s with
    | (Ok (Some a), s') => (Ok a, s')
    | (Ok None, s') => app s'
    | (Raise f, s') => (Raise f, s')
    end |}; intros * ->; done.
Defined.

(** A request of keystone that asks to act for another tenant, and an application that
    tells who it acted for. *)
Definition demo_request : http :=
  {| h_headers := [("X-Tenant-ID", "t1"); ("X-User-ID", "u1"); ("X-Roles", "member,dns");
                   ("X-Auth-Sudo-Tenant-ID", "t2")];
     h_url := "/v2/zones/"; h_client_addr := None; h_request_id := PStr "req"; h_environ := [] |}.
Definition demo_application : A response := fun s =>
  match a_context s with
  | Some c => (Ok {| status := 200; r_headers := [];
                     r_body := PStr (String.append (default "" (tenant c)) (a_path_info s)) |},
               set_world (set_uuids 1 (a_world s)) s)
  | None => (Raise (bare Backend), s)
  end.
Definition demo_astate : astate :=
  {| a_world := plain_world []; a_context := None; a_GET := [("all_tenants", "1"); ("limit", "5")];
     a_path_info := "/v2/zones/"; a_url_scheme := "http" |}.
Definition as_bool (v : string) : bool := String.eqb v "1".
Definition demo_run : res fault response * astate :=
  auth_pipeline
    [processing (@keystone_request open_env as_bool (fun _ => Ok PNone) demo_request);
     processing (@maintenance_request open_env); normalize_uri] demo_application demo_astate.
Lemma application_reached_authorised_witness :
  (exists c, demo_run.1 = Ok {| status := 200; r_headers := []; r_body := PStr "t2/v2/zones" |} /\
    @authorised open_env demo_request c) /\
  a_GET demo_run.2 = [("limit", "5")].
Proof.
  split; [|by vm_compute].
  destruct (@application_reached_authorised open_env as_bool (fun _ => Ok PNone) documented_middleware
              demo_request demo_application demo_astate) as [(c & get & Happ & Hc & _)|[Hw _]].
  - exists c. split; [|exact Hc]. reflexivity.
  - discriminate Hw.
Defined.
