(* ===== verification/Rpc.v ===== *)
(** * The remote interfaces of the services (the rpcapi.py files and the services they call)

    A client method takes its arguments the way Python binds them and sends them by
    name; the service binds the names to the parameters of its method. The tables are
    the signatures on both sides; [clients_understood] compares them. *)
From Stdlib Require Import ZArith Lia String.
From stdpp Require Import base option numbers strings sets list.
From S2P Require Import Prelude PyStr Exceptions Values World.
Local Open Scope string_scope.

(** ** Binding arguments *)

(** Parameters with their defaults. *)
Abbreviation params := (list (string * option pyval)).
Definition req (names : list string) : params := map (fun n => (n, None)) names.
Definition paged : params :=
  [("criterion", Some PNone); ("marker", Some PNone); ("limit", Some PNone); ("sort_key", Some PNone);
   ("sort_dir", Some PNone)].

(** How Python binds the arguments of a call: those given by position come first; one
    too many, a name twice, an unknown name or a missing one is a TypeError. *)
Fixpoint bind_rest (ps : params) (kw : list (string * pyval)) : R (list (string * pyval)) :=
  match ps with
  | [] => match kw with [] => Ok [] | _ => Raise (Py PyTypeError) end
  | (n, d) :: ps =>
      match aget n kw, d with
      | Some v, _ | None, Some v => let? rest := bind_rest ps (adel n kw) in Ok ((n, v) :: rest)
      | None, None => Raise (Py PyTypeError)
      end
  end.
Fixpoint bind_args (ps : params) (pos : list pyval) (kw : list (string * pyval)) : R (list (string * pyval)) :=
  match pos, ps with
  | [], _ => bind_rest ps kw
  | _, [] => Raise (Py PyTypeError)
  | v :: pos, (n, _) :: ps =>
      if bool_decide (n ∈ kw.*1) then Raise (Py PyTypeError)
      else let? rest := bind_args ps pos kw in Ok ((n, v) :: rest)
  end.

(** ** Clients and services *)

Inductive call_kind := Call | Cast_.
(** What goes over the wire. *)
Record rpc := { rpc_kind : call_kind; rpc_method : string; rpc_args : list (string * pyval) }.
Definition invoke (client : list (string * (call_kind * params))) (name : string)
    (pos : list pyval) (kw : list (string * pyval)) : R rpc :=
  match aget name client with
  | None => Raise (Py PyAttributeError)
  | Some (kind, ps) =>
      let? args := bind_args ps pos kw in Ok {| rpc_kind := kind; rpc_method := name; rpc_args := args |}
  end.
(** The service has no such method, or calls it with the names of the message. *)
Definition receive (service : list (string * params)) (m : rpc) : R (list (string * pyval)) :=
  match aget (rpc_method m) service with
  | None => Raise (Py PyAttributeError)
  | Some ps => bind_args ps [] (rpc_args m)
  end.

(** ** The tables *)

Definition central_client_quotas : list (string * (call_kind * params)) := [
  ("get_absolute_limits", (Call, req []));
  ("get_quotas", (Call, req ["tenant_id"]));
  ("get_quota", (Call, req ["tenant_id"; "resource"]));
  ("set_quota", (Call, req ["tenant_id"; "resource"; "hard_limit"]));
  ("reset_quotas", (Call, req ["tenant_id"]));
  ("create_tsigkey", (Call, req ["tsigkey"]));
  ("find_tsigkeys", (Call, paged));
  ("get_tsigkey", (Call, req ["tsigkey_id"]));
  ("update_tsigkey", (Call, req ["tsigkey"]));
  ("delete_tsigkey", (Call, req ["tsigkey_id"]));
  ("find_tenants", (Call, req []));
  ("get_tenant", (Call, req ["tenant_id"]));
  ("count_tenants", (Call, req []))
].
Definition central_client_zones : list (string * (call_kind * params)) := [
  ("create_acl", (Call, req ["acl"]));
  ("create_zdns_acl", (Call, req ["acl"; "response"]));
  ("get_acl", (Call, req ["acl_id"]));
  ("find_acls", (Call, paged));
  ("update_acl", (Call, req ["acl"]));
  ("update_zdns_acl", (Call, req ["acl"; "values"]));
  ("delete_acl", (Call, req ["acl_id"]));
  ("delete_zdns_acl", (Call, req ["acl"]));
  ("create_zone", (Call, req ["zone"]));
  ("create_zdns_zone", (Call, req ["zone"; "response"]));
  ("get_zone", (Call, req ["zone_id"]));
  ("get_zone_ns_records", (Call, req ["zone_id"]));
  ("find_zones", (Call, paged));
  ("find_zone", (Call, [("criterion", Some PNone)]));
  ("update_zone", (Call, app (req ["zone"]) [("increment_serial", Some (PBool true))]));
  ("update_zdns_zone", (Call, req ["zone"; "response"]));
  ("delete_zone", (Call, req ["zone_id"]));
  ("delete_zdns_zone", (Call, req ["zone"]));
  ("purge_zones", (Call, app (req ["criterion"]) [("limit", Some PNone)]));
  ("count_zones", (Call, [("criterion", Some PNone)]));
  ("touch_zone", (Call, req ["zone_id"]))
].
Definition central_client_records : list (string * (call_kind * params)) := [
  ("create_tld", (Call, req ["tld"]));
  ("find_tlds", (Call, paged));
  ("get_tld", (Call, req ["tld_id"]));
  ("update_tld", (Call, req ["tld"]));
  ("delete_tld", (Call, req ["tld_id"]));
  ("create_recordset", (Call, req ["zone_id"; "recordset"]));
  ("get_recordset", (Call, req ["zone_id"; "recordset_id"]));
  ("get_record_association", (Call, req ["record_id"]));
  ("get_zdns_record", (Call, req ["zdns_record_id"]));
  ("find_recordsets", (Call, app paged [("force_index", Some (PBool false))]));
  ("find_recordset", (Call, [("criterion", Some PNone)]));
  ("export_zone", (Call, req ["zone_id"]));
  ("update_recordset", (Call, app (req ["recordset"]) [("increment_serial", Some (PBool true))]));
  ("create_zdns_record", (Call, req ["zone"; "zdns_record"]));
  ("update_recordset_callback", (Call, req ["zone"; "recordset"]));
  ("update_zdns_record", (Call, req ["zdns_record"]));
  ("delete_recordset",
    (Call, app (req ["zone_id"; "recordset_id"]) [("increment_serial", Some (PBool true))]));
  ("count_recordsets", (Call, [("criterion", Some PNone)]));
  ("create_record",
    (Call, app (req ["zone_id"; "recordset"; "record"]) [("increment_serial", Some (PBool false))]));
  ("get_record", (Call, req ["zone_id"; "recordset_id"; "record_id"]));
  ("find_records", (Call, paged));
  ("find_record", (Call, [("criterion", Some PNone)]));
  ("update_record", (Call, app (req ["record"]) [("increment_serial", Some (PBool true))]));
  ("delete_record",
    (Call, app (req ["zone_id"; "recordset_id"; "record_id"]) [("increment_serial", Some (PBool true))]));
  ("count_records", (Call, [("criterion", Some PNone)]))
].
Definition central_client_names : list (string * (call_kind * params)) := [
  ("count_report", (Call, [("criterion", Some PNone)]));
  ("sync_zones", (Call, req []));
  ("sync_zone", (Call, req ["zone_id"]));
  ("sync_record", (Call, req ["zone_id"; "recordset_id"; "record_id"]));
  ("list_floatingips", (Call, req []));
  ("get_floatingip", (Call, req ["region"; "floatingip_id"]));
  ("update_floatingip", (Call, req ["region"; "floatingip_id"; "values"]));
  ("create_blacklist", (Call, req ["blacklist"]));
  ("get_blacklist", (Call, req ["blacklist_id"]));
  ("find_blacklists", (Call, paged));
  ("find_blacklist", (Call, req ["criterion"]));
  ("update_blacklist", (Call, req ["blacklist"]));
  ("delete_blacklist", (Call, req ["blacklist_id"]))
].
Definition central_client_pools : list (string * (call_kind * params)) := [
  ("create_pool", (Call, req ["pool"]));
  ("find_pools", (Call, paged));
  ("find_pool", (Call, [("criterion", Some PNone)]));
  ("get_pool", (Call, req ["pool_id"]));
  ("update_pool", (Call, req ["pool"]));
  ("delete_pool", (Call, req ["pool_id"]));
  ("update_status", (Call, req ["zone_id"; "status"; "serial"]));
  ("update_zone_status", (Call, req ["zone"]));
  ("update_recordset_status", (Call, req ["recordset"; "action"; "status"]));
  ("update_record_status", (Call, req ["record"; "action"; "status"]))
].
Definition central_client_transfers : list (string * (call_kind * params)) := [
  ("create_zone_transfer_request", (Call, req ["zone_transfer_request"]));
  ("get_zone_transfer_request", (Call, req ["zone_transfer_request_id"]));
  ("find_zone_transfer_requests", (Call, paged));
  ("find_zone_transfer_request", (Call, req ["zone_transfer_request"]));
  ("update_zone_transfer_request", (Call, req ["zone_transfer_request"]));
  ("delete_zone_transfer_request", (Call, req ["zone_transfer_request_id"]));
  ("create_zone_transfer_accept", (Call, req ["zone_transfer_accept"]));
  ("get_zone_transfer_accept", (Call, req ["zone_transfer_accept_id"]));
  ("find_zone_transfer_accepts", (Call, paged));
  ("find_zone_transfer_accept", (Call, req ["zone_transfer_accept"]));
  ("update_zone_transfer_accept", (Call, req ["zone_transfer_accept"]));
  ("delete_zone_transfer_accept", (Call, req ["zone_transfer_accept_id"]));
  ("xfr_zone", (Call, req ["zone_id"]))
].
Definition central_client_imports : list (string * (call_kind * params)) := [
  ("create_zone_import", (Call, req ["request_body"]));
  ("find_zone_imports", (Call, paged));
  ("get_zone_import", (Call, req ["zone_import_id"]));
  ("update_zone_import", (Call, req ["zone_import"]));
  ("delete_zone_import", (Call, req ["zone_import_id"]));
  ("create_zone_export", (Call, req ["zone_id"]));
  ("find_zone_exports", (Call, paged));
  ("get_zone_export", (Call, req ["zone_export_id"]));
  ("update_zone_export", (Call, req ["zone_export"]));
  ("delete_zone_export", (Call, req ["zone_export_id"]));
  ("find_service_status", (Call, [("criterion", Some PNone)]));
  ("find_service_statuses", (Call, paged));
  ("update_service_status", (Cast_, req ["service_status"]));
  ("create_view", (Call, req ["view"; "acl_ids"]));
  ("delete_view", (Call, req ["view_id"]));
  ("get_view", (Call, req ["view_id"]));
  ("find_views", (Call, paged));
  ("find_view_acls", (Call, req ["view_id"]));
  ("update_view", (Call, req ["id"; "acl_ids"]));
  ("create_zdns_view_info", (Call, req ["zdns_view_info"; "view"]));
  ("update_zdns_view_info", (Call, req ["zdns_view_info"; "view"]));
  ("delete_zdns_view_info", (Call, req ["view"]))
].
Definition central_client : list (string * (call_kind * params)) :=
  concat [central_client_quotas;
   central_client_zones; central_client_records; central_client_names; central_client_pools;
   central_client_transfers; central_client_imports].
Definition worker_client : list (string * (call_kind * params)) := [
  ("create_zone", (Call, req ["zone"]));
  ("update_zone", (Call, req ["zone"]));
  ("delete_zone", (Call, req ["zone"]));
  ("recover_shard", (Call, req ["begin"; "end"]));
  ("start_zone_export", (Cast_, req ["zone"; "export"]));
  ("create_recordset", (Call, req ["zone"; "recordset"]));
  ("delete_recordset", (Call, req ["zone"; "recordset"]));
  ("update_recordset", (Call, req ["zone"; "recordset"]));
  ("create_record", (Call, req ["zone"; "record"; "recordset"]));
  ("delete_record", (Call, req ["zone"; "record"; "recordset"]));
  ("update_record", (Call, req ["zone"; "record"; "recordset"]));
  ("create_view", (Call, req ["view"; "acls"]));
  ("delete_view", (Call, req ["view"]));
  ("update_view", (Call, req ["view"; "acls"]));
  ("create_acl", (Call, req ["acl"]));
  ("delete_acl", (Call, req ["acl"]));
  ("update_acl", (Call, req ["acl"]))
].
Definition pool_manager_client : list (string * (call_kind * params)) := [
  ("target_sync", (Call, req ["pool_id"; "target_id"; "timestamp"]));
  ("create_zone", (Cast_, req ["zone"]));
  ("delete_zone", (Cast_, req ["zone"]));
  ("update_zone", (Cast_, req ["zone"]));
  ("update_status", (Cast_, req ["zone"; "nameserver"; "status"; "actual_serial"]))
].
Definition mdns_client : list (string * (call_kind * params)) := [
  ("notify_zone_changed",
    (Cast_, req ["zone"; "host"; "port"; "timeout"; "retry_interval"; "max_retries"; "delay"]));
  ("poll_for_serial_number",
    (Cast_, req ["zone"; "nameserver"; "timeout"; "retry_interval"; "max_retries"; "delay"]));
  ("get_serial_number",
    (Call, req ["zone"; "host"; "port"; "timeout"; "retry_interval"; "max_retries"; "delay"]));
  ("perform_zone_xfr", (Cast_, req ["zone"]))
].
Definition central_service : list (string * params) := [
  ("get_absolute_limits", req []);
  ("get_quotas", req ["tenant_id"]);
  ("get_quota", req ["tenant_id"; "resource"]);
  ("set_quota", req ["tenant_id"; "resource"; "hard_limit"]);
  ("reset_quotas", req ["tenant_id"]);
  ("create_tld", req ["tld"]);
  ("find_tlds", paged);
  ("get_tld", req ["tld_id"]);
  ("update_tld", req ["tld"]);
  ("delete_tld", req ["tld_id"]);
  ("create_tsigkey", req ["tsigkey"]);
  ("find_tsigkeys", paged);
  ("get_tsigkey", req ["tsigkey_id"]);
  ("update_tsigkey", req ["tsigkey"]);
  ("delete_tsigkey", req ["tsigkey_id"]);
  ("find_tenants", req []);
  ("get_tenant", req ["tenant_id"]);
  ("count_tenants", req []);
  ("create_acl", req ["acl"]);
  ("get_acl", req ["acl_id"]);
  ("find_acls", paged);
  ("update_acl", req ["acl"]);
  ("create_zdns_acl", req ["acl"; "response"]);
  ("delete_acl", req ["acl_id"]);
  ("delete_zdns_acl", req ["acl"]);
  ("delete_acl_asso", req ["acl"]);
  ("update_zdns_acl", req ["acl"; "values"]);
  ("create_zone", req ["zone"]);
  ("create_default_record", req ["zone"]);
  ("get_zone", req ["zone_id"]);
  ("get_zone_ns_records", [("zone_id", Some PNone); ("criterion", Some PNone)]);
  ("find_zones", paged);
  ("find_zone", [("criterion", Some PNone)]);
  ("update_zone", app (req ["zone"]) [("increment_serial", Some (PBool true))]);
  ("delete_zone", req ["zone_id"]);
  ("purge_zones", app (req ["criterion"]) [("limit", Some PNone)]);
  ("xfr_zone", req ["zone_id"]);
  ("count_zones", [("criterion", Some PNone)]);
  ("count_report", [("criterion", Some PNone)]);
  ("touch_zone", req ["zone_id"]);
  ("create_recordset", req ["zone_id"; "recordset"]);
  ("get_recordset", req ["zone_id"; "recordset_id"]);
  ("find_recordsets", app paged [("force_index", Some (PBool false))]);
  ("find_recordset", [("criterion", Some PNone)]);
  ("export_zone", req ["zone_id"]);
  ("update_recordset", app (req ["recordset"]) [("increment_serial", Some (PBool true))]);
  ("do_update", req ["zone"; "recordset"; "dealwith_nochange"]);
  ("format_validate", req ["records"]);
  ("update_recordset_callback", req ["zone"; "recordset"]);
  ("update_zdns_record", req ["zdns_record"]);
  ("create_zdns_record", req ["zone"; "zdns_record"]);
  ("delete_recordset", app (req ["zone_id"; "recordset_id"]) [("increment_serial", Some (PBool true))]);
  ("count_recordsets", [("criterion", Some PNone)]);
  ("create_record", app (req ["zone_id"; "recordset"; "record"]) [("increment_serial", Some (PBool false))]);
  ("get_record", req ["zone_id"; "recordset_id"; "record_id"]);
  ("get_record_association", req ["record_id"]);
  ("get_zdns_record", req ["zdns_record_id"]);
  ("find_records", paged);
  ("find_record", [("criterion", Some PNone)]);
  ("update_record", app (req ["record"]) [("increment_serial", Some (PBool true))]);
  ("delete_record", app (req ["zone_id"; "recordset_id"; "record_id"]) [("increment_serial", Some (PBool true))]);
  ("count_records", [("criterion", Some PNone)]);
  ("sync_zones", req []);
  ("sync_zone", req ["zone_id"]);
  ("sync_record", req ["zone_id"; "recordset_id"; "record_id"]);
  ("ping", req []);
  ("list_floatingips", req []);
  ("get_floatingip", req ["region"; "floatingip_id"]);
  ("update_floatingip", req ["region"; "floatingip_id"; "values"]);
  ("create_blacklist", req ["blacklist"]);
  ("get_blacklist", req ["blacklist_id"]);
  ("find_blacklists", paged);
  ("find_blacklist", req ["criterion"]);
  ("update_blacklist", req ["blacklist"]);
  ("delete_blacklist", req ["blacklist_id"]);
  ("create_pool", req ["pool"]);
  ("find_pools", paged);
  ("find_pool", [("criterion", Some PNone)]);
  ("get_pool", req ["pool_id"]);
  ("update_pool", req ["pool"]);
  ("delete_pool", req ["pool_id"]);
  ("update_status", req ["zone_id"; "status"; "serial"]);
  ("update_zone_status", req ["zone"]);
  ("update_recordset_status", req ["recordset"; "action"; "status"]);
  ("update_record_status", req ["record"; "action"; "status"]);
  ("create_zone_transfer_request", req ["zone_transfer_request"]);
  ("get_zone_transfer_request", req ["zone_transfer_request_id"]);
  ("find_zone_transfer_requests", paged);
  ("find_zone_transfer_request", req ["criterion"]);
  ("update_zone_transfer_request", req ["zone_transfer_request"]);
  ("delete_zone_transfer_request", req ["zone_transfer_request_id"]);
  ("create_zone_transfer_accept", req ["zone_transfer_accept"]);
  ("get_zone_transfer_accept", req ["zone_transfer_accept_id"]);
  ("find_zone_transfer_accepts", paged);
  ("find_zone_transfer_accept", req ["criterion"]);
  ("update_zone_transfer_accept", req ["zone_transfer_accept"]);
  ("delete_zone_transfer_accept", req ["zone_transfer_accept_id"]);
  ("create_zone_import", req ["request_body"]);
  ("find_zone_imports", paged);
  ("get_zone_import", req ["zone_import_id"]);
  ("update_zone_import", req ["zone_import"]);
  ("delete_zone_import", req ["zone_import_id"]);
  ("create_zone_export", req ["zone_id"]);
  ("find_zone_exports", paged);
  ("get_zone_export", req ["zone_export_id"]);
  ("update_zone_export", req ["zone_export"]);
  ("delete_zone_export", req ["zone_export_id"]);
  ("find_service_statuses", paged);
  ("find_service_status", [("criterion", Some PNone)]);
  ("update_service_status", req ["service_status"]);
  ("create_view", req ["view"; "acl_ids"]);
  ("delete_view", req ["view_id"]);
  ("get_view", req ["view_id"]);
  ("find_views", paged);
  ("update_view", req ["id"; "acl_ids"]);
  ("create_zdns_view_info", req ["zdns_view_info"; "view"]);
  ("update_zdns_view_info", req ["zdns_view_info"; "view"]);
  ("find_view_acls", req ["view_id"]);
  ("create_zdns_zone", req ["zone"; "response"]);
  ("delete_zdns_zone", req ["zone"]);
  ("update_zdns_zone", req ["zone"; "response"])
].
Definition worker_service : list (string * params) := [
  ("create_zone", req ["zone"]);
  ("update_zone", req ["zone"]);
  ("delete_zone", req ["zone"]);
  ("recover_shard", req ["begin"; "end"]);
  ("start_zone_export", req ["zone"; "export"]);
  ("create_recordset", req ["zone"; "recordset"]);
  ("delete_recordset", req ["zone"; "recordset"]);
  ("update_recordset", req ["zone"; "recordset"]);
  ("create_record", req ["zone"; "record"; "recordset"]);
  ("delete_record", req ["zone"; "record"; "recordset"]);
  ("update_record", req ["zone"; "record"; "recordset"]);
  ("create_view", req ["view"; "acls"]);
  ("delete_view", req ["view"]);
  ("update_view", req ["acls"; "view"]);
  ("create_acl", req ["acl"]);
  ("update_acl", req ["acl"]);
  ("delete_acl", req ["acl"])
].
Definition pool_manager_service : list (string * params) := [
  ("target_sync", req ["pool_id"; "target_id"; "timestamp"]);
  ("create_zone", req ["zone"]);
  ("update_zone", req ["zone"]);
  ("delete_zone", req ["zone"]);
  ("update_status", req ["zone"; "nameserver"; "status"; "actual_serial"])
].
Definition notify_endpoint : list (string * params) := [
  ("notify_zone_changed", req ["zone"; "host"; "port"; "timeout"; "retry_interval"; "max_retries"; "delay"]);
  ("poll_for_serial_number", req ["zone"; "nameserver"; "timeout"; "retry_interval"; "max_retries"; "delay"]);
  ("get_serial_number", req ["zone"; "host"; "port"; "timeout"; "retry_interval"; "max_retries"; "delay"])
].
Definition xfr_endpoint : list (string * params) := [
  ("perform_zone_xfr", req ["zone"])
].
(** The endpoints of mdns, [Service._rpc_endpoints]; the name spaces share no name. *)
Definition mdns_endpoints : list (string * params) := app notify_endpoint xfr_endpoint.

(** ** Topics *)

(** The pool manager listens on a topic per pool. *)
Definition pool_topic (topic pool_id : string) : string := topic ++ "." ++ pool_id.
(** [MdnsAPI.notify_zone_changed] sends nothing when the worker does the notifying. *)
Definition notify_zone_changed (worker_notify worker_enabled : bool) (pos : list pyval) (kw : list (string * pyval))
    : R (option rpc) :=
  if worker_notify && worker_enabled then Ok None
  else let? m := invoke mdns_client "notify_zone_changed" pos kw in Ok (Some m).

(** ** Every message is understood *)

Section Binding.
Implicit Types (ps : params) (kw : list (string * pyval)).

Lemma bind_rest_names ps kw b : bind_rest ps kw = Ok b -> b.*1 = ps.*1.
Proof.
  revert kw b. induction ps as [|[n d] ps IH]; intros kw b; cbn.
  - by destruct kw; intros [= <-].
  - destruct (aget n kw), d; try done; destruct (bind_rest ps (adel n kw)) eqn:Hr; cbn; intros [= <-]; cbn;
      f_equal; by eapply IH.
Qed.
Lemma bind_args_names ps pos kw b : bind_args ps pos kw = Ok b -> b.*1 = ps.*1.
Proof.
  revert ps b. induction pos as [|v pos IH]; intros [|[n d] ps] b; cbn [bind_args]; try apply bind_rest_names; try done.
  case_bool_decide; [done|]. destruct (bind_args ps pos kw) eqn:Hr; cbn; intros [= <-]; cbn. f_equal. by eapply IH.
Qed.
Lemma adel_names n k kw : n ∈ (adel k kw).*1 <-> n <> k /\ n ∈ kw.*1.
Proof.
  pose proof (aget_adel n k kw) as Ha. destruct (String.eqb_spec n k) as [->|Hn].
  - apply aget_None_elem in Ha. split; [done|]. by intros [].
  - split.
    + intros Hi. split; [done|]. destruct (aget n kw) eqn:Hk; [apply aget_Some_elem in Hk; apply list_elem_of_fmap; by exists (n, p)|].
      by apply aget_None_elem in Ha.
    + intros [_ Hi]. destruct (aget n kw) eqn:Hk; [|by apply aget_None_elem in Hk].
      apply aget_Some_elem in Ha. apply list_elem_of_fmap. by exists (n, p).
Qed.
(** Names that the parameters cover, and that cover the required ones, are bound, each
    to its value. *)
Lemma bind_rest_covers ps kw :
  NoDup ps.*1 -> (forall n, n ∈ kw.*1 -> n ∈ ps.*1) -> (forall n, (n, None) ∈ ps -> n ∈ kw.*1) ->
  exists b, bind_rest ps kw = Ok b /\ forall n v, aget n kw = Some v -> aget n b = Some v.
Proof.
  revert kw. induction ps as [|[n d] ps IH]; intros kw Hnd Hsub Hreq; cbn.
  - destruct kw as [|[k v] kw]; [by exists []|]. specialize (Hsub k ltac:(left)). by apply not_elem_of_nil in Hsub.
  - apply NoDup_cons in Hnd as [Hn Hnd].
    destruct (IH (adel n kw)) as (b & Hb & Hget); [done|..].
    + intros k [Hk Hi]%adel_names. apply Hsub in Hi. apply elem_of_cons in Hi as [->|Hi]; done.
    + intros k Hk. apply adel_names. split; [|by apply Hreq; right].
      intros ->. apply Hn. apply list_elem_of_fmap. by exists (n, None).
    + assert (Hlook : forall w, (aget n kw = Some w \/ aget n kw = None) -> forall k v, aget k kw = Some v -> aget k ((n, w) :: b) = Some v).
      { intros w Hw k v Hk. cbn. destruct (String.eqb_spec k n) as [->|Hne]; [destruct Hw; congruence|].
        apply Hget. rewrite aget_adel. by rewrite (proj2 (String.eqb_neq k n)). }
      rewrite Hb. destruct (aget n kw) as [v|] eqn:Hv; [|destruct d as [v|]]; cbn.
      * exists ((n, v) :: b). split; [done|]. apply Hlook. by left.
      * exists ((n, v) :: b). split; [done|]. apply Hlook. by right.
      * apply aget_None_elem in Hv. destruct Hv. apply Hreq. left.
Qed.
Lemma bind_rest_requires ps kw b n : NoDup ps.*1 -> bind_rest ps kw = Ok b -> (n, None) ∈ ps -> n ∈ kw.*1.
Proof.
  revert kw b. induction ps as [|[m d] ps IH]; intros kw b Hnd; cbn; [intros _ Hi; by apply not_elem_of_nil in Hi|].
  apply NoDup_cons in Hnd as [_ Hnd]. intros Hb [[= <- <-]|Hi]%elem_of_cons.
  - destruct (aget n kw) eqn:Hk; [|done]. apply aget_Some_elem in Hk. apply list_elem_of_fmap. by exists (n, p).
  - destruct (aget m kw), d; try done; destruct (bind_rest ps (adel m kw)) eqn:Hr; try done;
      apply (IH _ _ Hnd Hr), adel_names in Hi; tauto.
Qed.
End Binding.

(** The clients and what answers them. *)
Definition interfaces : list (list (string * (call_kind * params)) * list (string * params)) :=
  [(central_client, central_service); (worker_client, worker_service);
   (pool_manager_client, pool_manager_service); (mdns_client, mdns_endpoints)].
(** Client methods whose messages no service takes: two name a parameter the service
    does not have, one a method it does not have. *)
Definition misunderstood : list string :=
  ["find_zone_transfer_request"; "find_zone_transfer_accept"; "delete_zdns_view_info"].

(** A service method takes the names of a client method, and needs no other. *)
Definition required (ps : params) : list string := omap (fun '(n, d) => match d with None => Some n | Some _ => None end) ps.
Definition distinct (l : list string) : bool := bool_decide (NoDup l).
Definition takes (ps : params) (names : list string) : bool :=
  distinct ps.*1 && forallb (fun n => mem_str n ps.*1) names && forallb (fun n => mem_str n names) (required ps).
Definition conforms (service : list (string * params)) (name : string) (names : list string) : bool :=
  match aget name service with
  | Some ps => if mem_str name misunderstood
               then distinct ps.*1 && negb (forallb (fun n => mem_str n names) (required ps))
               else takes ps names
  | None => mem_str name misunderstood
  end.
Lemma interfaces_conform :
  forallb (fun '(client, service) => forallb (fun '(name, (_, ps)) => conforms service name ps.*1) client) interfaces = true.
Proof. by vm_compute. Qed.

Lemma mem_str_spec k l : mem_str k l = true <-> k ∈ l.
Proof.
  unfold mem_str. rewrite existsb_exists. split.
  - intros (x & Hx & ->%String.eqb_eq). by apply list_elem_of_In.
  - intros Hk. exists k. split; [by apply list_elem_of_In|apply String.eqb_refl].
Qed.
Lemma forallb_elem {A} (p : A -> bool) (l : list A) x : forallb p l = true -> x ∈ l -> p x = true.
Proof. rewrite forallb_forall. intros Hp Hx. apply Hp. by apply list_elem_of_In. Qed.
Lemma required_spec ps n : (n, None) ∈ ps -> n ∈ required ps.
Proof. intros Hn. apply list_elem_of_omap. by exists (n, None). Qed.
Lemma takes_covers ps kw :
  takes ps kw.*1 = true ->
  exists b, bind_rest ps kw = Ok b /\ forall n v, aget n kw = Some v -> aget n b = Some v.
Proof.
  unfold takes. intros [[Hd%bool_decide_eq_true Hs]%andb_true_iff Hr]%andb_true_iff.
  apply bind_rest_covers; [done|..]; intros n Hn; apply mem_str_spec.
  - exact (forallb_elem _ _ n Hs Hn).
  - exact (forallb_elem _ _ n Hr (required_spec _ _ Hn)).
Qed.
Lemma lacks_fails ps kw :
  distinct ps.*1 = true -> forallb (fun n => mem_str n kw.*1) (required ps) = false -> bind_rest ps kw = Raise (Py PyTypeError).
Proof.
  intros Hd%bool_decide_eq_true Hl. destruct (bind_rest ps kw) as [b|e] eqn:Hb.
  - assert (Hall : forallb (fun n => mem_str n kw.*1) (required ps) = true); [|congruence].
    apply forallb_forall. intros n ([k d] & Hk & Hn)%list_elem_of_In%list_elem_of_omap. destruct d; simplify_eq/=.
    apply mem_str_spec. by eapply bind_rest_requires.
  - f_equal. clear -Hb. revert kw Hb. induction ps as [|[n d] ps IH]; intros kw; cbn; [by destruct kw; intros [=]|].
    destruct (aget n kw), d; try (by intros [=]); destruct (bind_rest ps (adel n kw)) eqn:Hr; cbn; intros [= <-];
      by eapply IH.
Qed.

(** C18: A message that a client method of central, the worker, the pool manager or mdns
    sends, however its arguments were given, is taken by the method of the same name in
    the service: each argument is bound to the parameter of its name, whatever the order
    on either side, and the parameters left get their defaults. The exceptions are three
    methods of the client of central, whose messages the service never takes. *)
Theorem clients_understood client service name pos kw m :
  (client, service) ∈ interfaces -> invoke client name pos kw = Ok m ->
  match receive service m with
  | Ok args =>
      name ∉ misunderstood /\ (exists ps, aget name service = Some ps /\ args.*1 = ps.*1) /\
      forall n v, aget n (rpc_args m) = Some v -> aget n args = Some v
  | Raise e => name ∈ misunderstood /\ (e = Py PyTypeError \/ e = Py PyAttributeError)
  end.
Proof.
  intros Hi. unfold invoke. destruct (aget name client) as [[kind cps]|] eqn:Hc; [|done].
  destruct (bind_args cps pos kw) as [sent|] eqn:Hb; cbn; [|done]. intros [= <-].
  apply bind_args_names in Hb. unfold receive; cbn.
  pose proof (forallb_elem _ _ _ interfaces_conform Hi) as Hall; cbn in Hall.
  apply (forallb_elem _ _ (name, (kind, cps))) in Hall; [|by apply aget_Some_elem]. cbn in Hall.
  unfold conforms in Hall. rewrite <- Hb in Hall.
  destruct (aget name service) as [ps|] eqn:Hs; [|split; [by apply mem_str_spec|by right]].
  replace (bind_args ps [] sent) with (bind_rest ps sent) by by destruct ps.
  destruct (mem_str name misunderstood) eqn:Hm.
  - apply andb_true_iff in Hall as [Hd Hl%negb_true_iff]. rewrite (lacks_fails _ _ Hd Hl).
    split; [by apply mem_str_spec|by left].
  - destruct (takes_covers _ _ Hall) as (b & Hbind & Hget). rewrite Hbind. split_and!; [|eauto using bind_rest_names|done].
    intros Hin%mem_str_spec. congruence.
Qed.
Lemma clients_understood_witness :
  invoke worker_client "update_view" [PStr "v"] [("acls", PList [PStr "a"])] =
    Ok {| rpc_kind := Call; rpc_method := "update_view"; rpc_args := [("view", PStr "v"); ("acls", PList [PStr "a"])] |} /\
  receive worker_service
    {| rpc_kind := Call; rpc_method := "update_view"; rpc_args := [("view", PStr "v"); ("acls", PList [PStr "a"])] |} =
    Ok [("acls", PList [PStr "a"]); ("view", PStr "v")] /\
  "update_view" ∉ misunderstood.
Proof.
  split; [reflexivity|]. split; [reflexivity|].
  apply (clients_understood worker_client worker_service "update_view" [PStr "v"] [("acls", PList [PStr "a"])] _
    ltac:(right; left) eq_refl).
Defined.
