(* ===== verification/Interfaces.v ===== *)
(** * Drivers and their interfaces (the base classes of the plug-ins)

    The abstract methods of the storage, of the backends of the pool manager and of the
    agent, of quotas and of the status cache, with their parameters, and those of every
    driver. A driver has to bind the arguments of a call the way its interface does. *)
From Stdlib Require Import ZArith Lia String.
From stdpp Require Import base option numbers strings sets list.
From S2P Require Import Prelude PyStr Exceptions Values World Rpc.
Local Open Scope string_scope.

Definition Storage_from_create_quota : list (string * params) := [
  ("create_quota", req ["context"; "quota"]);
  ("get_quota", req ["context"; "quota_id"]);
  ("find_quotas", app (req ["context"]) paged);
  ("find_quota", req ["context"; "criterion"]);
  ("update_quota", req ["context"; "quota"]);
  ("delete_quota", req ["context"; "quota_id"]);
  ("create_tld", req ["context"; "tld"]);
  ("get_tld", req ["context"; "tld_id"]);
  ("find_tlds", app (req ["context"]) paged);
  ("find_tld", req ["context"; "criterion"]);
  ("update_tld", req ["context"; "tld"]);
  ("delete_tld", req ["context"; "tld_id"]);
  ("create_tsigkey", req ["context"; "tsigkey"])
].
Definition Storage_from_find_tsigkeys : list (string * params) := [
  ("find_tsigkeys", app (req ["context"]) paged);
  ("get_tsigkey", req ["context"; "tsigkey_id"]);
  ("update_tsigkey", req ["context"; "tsigkey"]);
  ("delete_tsigkey", req ["context"; "tsigkey_id"]);
  ("find_tenants", req ["context"]);
  ("get_tenant", req ["context"; "tenant_id"]);
  ("count_tenants", req ["context"]);
  ("create_acl", req ["context"; "acl"]);
  ("find_acls", app (req ["context"]) paged);
  ("get_acl", req ["context"; "acl_id"]);
  ("update_acl", req ["context"; "acl"]);
  ("delete_acl", req ["context"; "acl_id"]);
  ("create_zone", req ["context"; "zone"])
].
Definition Storage_from_get_zone : list (string * params) := [
  ("get_zone", req ["context"; "zone_id"]);
  ("find_zones", app (req ["context"]) paged);
  ("find_zone", req ["context"; "criterion"]);
  ("update_zone", req ["context"; "zone"]);
  ("delete_zone", req ["context"; "zone_id"]);
  ("purge_zone", req ["context"; "zone"]);
  ("count_zones", app (req ["context"]) [("criterion", Some PNone)]);
  ("create_recordset", req ["context"; "zone_id"; "recordset"]);
  ("get_recordset", req ["context"; "recordset_id"]);
  ("find_recordsets", app (req ["context"]) (app paged [("force_index", Some (PBool false))]));
  ("find_recordsets_axfr", app (req ["context"]) [("criterion", Some PNone)]);
  ("find_recordset", req ["context"; "criterion"]);
  ("update_recordset", req ["context"; "recordset"])
].
Definition Storage_from_delete_recordset : list (string * params) := [
  ("delete_recordset", req ["context"; "recordset_id"]);
  ("count_recordsets", app (req ["context"]) [("criterion", Some PNone)]);
  ("create_record", req ["context"; "zone_id"; "recordset_id"; "record"]);
  ("get_record", req ["context"; "record_id"]);
  ("find_records", app (req ["context"]) paged);
  ("find_record", req ["context"; "criterion"]);
  ("update_record", req ["context"; "record"]);
  ("delete_record", req ["context"; "record_id"]);
  ("count_records", app (req ["context"]) [("criterion", Some PNone)]);
  ("create_blacklist", req ["context"; "blacklist"]);
  ("get_blacklist", req ["context"; "blacklist_id"]);
  ("find_blacklists", app (req ["context"]) paged)
].
Definition Storage_from_find_blacklist : list (string * params) := [
  ("find_blacklist", req ["context"; "criterion"]);
  ("update_blacklist", req ["context"; "blacklist"]);
  ("delete_blacklist", req ["context"; "blacklist_id"]);
  ("create_pool", req ["context"; "pool"]);
  ("find_pools", app (req ["context"]) paged);
  ("find_pool", req ["context"; "criterion"]);
  ("get_pool", req ["context"; "pool_id"]);
  ("update_pool", req ["context"; "pool"]);
  ("delete_pool", req ["context"; "pool_id"]);
  ("create_pool_attribute", req ["context"; "pool_id"; "pool_attribute"]);
  ("find_pool_attributes", app (req ["context"]) paged);
  ("find_pool_attribute", req ["context"; "criterion"]);
  ("get_pool_attribute", req ["context"; "pool_attribute_id"])
].
Definition Storage_from_update_pool_attribute : list (string * params) := [
  ("update_pool_attribute", req ["context"; "pool_attribute"]);
  ("delete_pool_attribute", req ["context"; "pool_attribute_id"]);
  ("create_zone_import", req ["context"; "zone_import"]);
  ("get_zone_import", req ["context"; "zone_import_id"]);
  ("find_zone_imports", app (req ["context"]) paged);
  ("find_zone_import", req ["context"; "criterion"]);
  ("update_zone_import", req ["context"; "zone_import"]);
  ("delete_zone_import", req ["context"; "zone_import_id"]);
  ("create_zone_export", req ["context"; "zone_export"]);
  ("get_zone_export", req ["context"; "zone_export_id"]);
  ("find_zone_exports", app (req ["context"]) paged);
  ("find_zone_export", req ["context"; "criterion"]);
  ("update_zone_export", req ["context"; "zone_export"])
].
Definition Storage_from_delete_zone_export : list (string * params) := [
  ("delete_zone_export", req ["context"; "zone_export_id"]);
  ("find_service_statuses", app (req ["context"]) paged);
  ("find_service_status", req ["context"; "criterion"]);
  ("update_service_status", req ["context"; "service_status"])
].
Definition Storage_interface : list (string * params) :=
  concat [Storage_from_create_quota;
    Storage_from_find_tsigkeys;
    Storage_from_get_zone;
    Storage_from_delete_recordset;
    Storage_from_find_blacklist;
    Storage_from_update_pool_attribute;
    Storage_from_delete_zone_export].
Definition SQLAlchemyStorage_methods : list (string * params) := [
  ("get_name", req []);
  ("create_quota", req ["context"; "quota"]);
  ("get_quota", req ["context"; "quota_id"]);
  ("find_quotas", app (req ["context"]) paged);
  ("find_quota", req ["context"; "criterion"]);
  ("update_quota", req ["context"; "quota"]);
  ("delete_quota", req ["context"; "quota_id"]);
  ("create_tld", req ["context"; "tld"]);
  ("get_tld", req ["context"; "tld_id"]);
  ("find_tlds", app (req ["context"]) paged);
  ("find_tld", req ["context"; "criterion"]);
  ("update_tld", req ["context"; "tld"]);
  ("delete_tld", req ["context"; "tld_id"]);
  ("create_tsigkey", req ["context"; "tsigkey"]);
  ("get_tsigkey", req ["context"; "tsigkey_id"]);
  ("find_tsigkeys", app (req ["context"]) paged);
  ("find_tsigkey", req ["context"; "criterion"]);
  ("update_tsigkey", req ["context"; "tsigkey"]);
  ("delete_tsigkey", req ["context"; "tsigkey_id"]);
  ("find_tenants", req ["context"]);
  ("get_tenant", req ["context"; "tenant_id"]);
  ("count_tenants", req ["context"]);
  ("get_zone_asso", req ["context"; "value"]);
  ("create_acl", req ["context"; "acl"]);
  ("update_acl", req ["context"; "acl"]);
  ("find_acls", app (req ["context"]) paged);
  ("find_acl", req ["context"; "criterion"]);
  ("get_acl", req ["context"; "acl_id"]);
  ("delete_acl", req ["context"; "acl_id"]);
  ("create_zdns_acl", req ["context"; "acl"]);
  ("create_acl_asso", req ["context"; "acl"]);
  ("delete_zdns_acl", req ["context"; "acl"]);
  ("delete_acl_asso", req ["context"; "acl"]);
  ("update_zdns_acl", req ["context"; "acl"; "values"]);
  ("get_acl_asso", req ["context"; "value"]);
  ("get_acl_view_asso", req ["context"; "value"]);
  ("create_zone", req ["context"; "zone"]);
  ("get_zone", req ["context"; "zone_id"]);
  ("find_zones", app (req ["context"]) paged);
  ("find_zone", req ["context"; "criterion"]);
  ("update_zone", req ["context"; "zone"]);
  ("delete_zone", req ["context"; "zone_id"]);
  ("purge_zone", req ["context"; "zone"]);
  ("purge_zones", req ["context"; "criterion"; "limit"]);
  ("count_zones", app (req ["context"]) [("criterion", Some PNone)]);
  ("create_zone_attribute", req ["context"; "zone_id"; "zone_attribute"]);
  ("get_zone_attributes", req ["context"; "zone_attribute_id"]);
  ("find_zone_attributes", app (req ["context"]) paged);
  ("find_zone_attribute", req ["context"; "criterion"]);
  ("update_zone_attribute", req ["context"; "zone_attribute"]);
  ("delete_zone_attribute", req ["context"; "zone_attribute_id"]);
  ("create_zone_master", req ["context"; "zone_id"; "zone_master"]);
  ("get_zone_masters", req ["context"; "zone_attribute_id"]);
  ("find_zone_masters", app (req ["context"]) paged);
  ("find_zone_master", req ["context"; "criterion"]);
  ("update_zone_master", req ["context"; "zone_master"]);
  ("delete_zone_master", req ["context"; "zone_master_id"]);
  ("find_recordsets_axfr", app (req ["context"]) [("criterion", Some PNone)]);
  ("create_recordset", req ["context"; "zone_id"; "recordset"]);
  ("create_zdns_record", req ["context"; "zdns_record"]);
  ("create_record_association", req ["context"; "record_association"]);
  ("find_recordsets_export", app (req ["context"]) [("criterion", Some PNone)]);
  ("get_recordset", req ["context"; "recordset_id"]);
  ("find_recordsets", app (req ["context"]) (app paged [("force_index", Some (PBool false))]));
  ("find_recordset", req ["context"; "criterion"]);
  ("update_zdns_record_in_storage", req ["context"; "zdns_record"]);
  ("update_recordset", req ["context"; "recordset"]);
  ("delete_recordset", req ["context"; "recordset_id"]);
  ("count_recordsets", app (req ["context"]) [("criterion", Some PNone)]);
  ("create_record", req ["context"; "zone_id"; "recordset_id"; "record"]);
  ("get_record", req ["context"; "record_id"]);
  ("get_record_association", req ["context"; "record_id"]);
  ("get_zdns_record", req ["context"; "zdns_record_id"]);
  ("find_records", app (req ["context"]) paged);
  ("find_record", req ["context"; "criterion"]);
  ("update_record", req ["context"; "record"]);
  ("delete_record", req ["context"; "record_id"]);
  ("delete_zdns_record", req ["context"; "id"]);
  ("delete_record_association", req ["context"; "record_id"]);
  ("count_records", app (req ["context"]) [("criterion", Some PNone)]);
  ("create_blacklist", req ["context"; "blacklist"]);
  ("get_blacklist", req ["context"; "blacklist_id"]);
  ("find_blacklists", app (req ["context"]) paged);
  ("find_blacklist", req ["context"; "criterion"]);
  ("update_blacklist", req ["context"; "blacklist"]);
  ("delete_blacklist", req ["context"; "blacklist_id"]);
  ("create_pool", req ["context"; "pool"]);
  ("get_pool", req ["context"; "pool_id"]);
  ("find_pools", app (req ["context"]) paged);
  ("find_pool", req ["context"; "criterion"]);
  ("update_pool", req ["context"; "pool"]);
  ("delete_pool", req ["context"; "pool_id"]);
  ("create_pool_attribute", req ["context"; "pool_id"; "pool_attribute"]);
  ("get_pool_attribute", req ["context"; "pool_attribute_id"]);
  ("find_pool_attributes", app (req ["context"]) paged);
  ("find_pool_attribute", req ["context"; "criterion"]);
  ("update_pool_attribute", req ["context"; "pool_attribute"]);
  ("delete_pool_attribute", req ["context"; "pool_attribute_id"]);
  ("create_pool_ns_record", req ["context"; "pool_id"; "pool_ns_record"]);
  ("get_pool_ns_record", req ["context"; "pool_ns_record_id"]);
  ("find_pool_ns_records", app (req ["context"]) paged);
  ("find_pool_ns_record", req ["context"; "criterion"]);
  ("update_pool_ns_record", req ["context"; "pool_ns_record"]);
  ("delete_pool_ns_record", req ["context"; "pool_ns_record_id"]);
  ("create_pool_nameserver", req ["context"; "pool_id"; "pool_nameserver"]);
  ("get_pool_nameserver", req ["context"; "pool_nameserver_id"]);
  ("find_pool_nameservers", app (req ["context"]) paged);
  ("find_pool_nameserver", req ["context"; "criterion"]);
  ("update_pool_nameserver", req ["context"; "pool_nameserver"]);
  ("delete_pool_nameserver", req ["context"; "pool_nameserver_id"]);
  ("create_pool_target", req ["context"; "pool_id"; "pool_target"]);
  ("get_pool_target", req ["context"; "pool_target_id"]);
  ("find_pool_targets", app (req ["context"]) paged);
  ("find_pool_target", req ["context"; "criterion"]);
  ("update_pool_target", req ["context"; "pool_target"]);
  ("delete_pool_target", req ["context"; "pool_target_id"]);
  ("create_pool_target_option", req ["context"; "pool_target_id"; "pool_target_option"]);
  ("get_pool_target_option", req ["context"; "pool_target_option_id"]);
  ("find_pool_target_options", app (req ["context"]) paged);
  ("find_pool_target_option", req ["context"; "criterion"]);
  ("update_pool_target_option", req ["context"; "pool_target_option"]);
  ("delete_pool_target_option", req ["context"; "pool_target_option_id"]);
  ("create_pool_target_master", req ["context"; "pool_target_id"; "pool_target_master"]);
  ("get_pool_target_master", req ["context"; "pool_target_master_id"]);
  ("find_pool_target_masters", app (req ["context"]) paged);
  ("find_pool_target_master", req ["context"; "criterion"]);
  ("update_pool_target_master", req ["context"; "pool_target_master"]);
  ("delete_pool_target_master", req ["context"; "pool_target_master_id"]);
  ("create_pool_also_notify", req ["context"; "pool_id"; "pool_also_notify"]);
  ("get_pool_also_notify", req ["context"; "pool_also_notify_id"]);
  ("find_pool_also_notifies", app (req ["context"]) paged);
  ("find_pool_also_notify", req ["context"; "criterion"]);
  ("update_pool_also_notify", req ["context"; "pool_also_notify"]);
  ("delete_pool_also_notify", req ["context"; "pool_also_notify_id"]);
  ("create_zone_transfer_request", req ["context"; "zone_transfer_request"]);
  ("find_zone_transfer_requests", app (req ["context"]) paged);
  ("get_zone_transfer_request", req ["context"; "zone_transfer_request_id"]);
  ("find_zone_transfer_request", req ["context"; "criterion"]);
  ("update_zone_transfer_request", req ["context"; "zone_transfer_request"]);
  ("delete_zone_transfer_request", req ["context"; "zone_transfer_request_id"]);
  ("count_zone_transfer_accept", app (req ["context"]) [("criterion", Some PNone)]);
  ("create_zone_transfer_accept", req ["context"; "zone_transfer_accept"]);
  ("find_zone_transfer_accepts", app (req ["context"]) paged);
  ("get_zone_transfer_accept", req ["context"; "zone_transfer_accept_id"]);
  ("find_zone_transfer_accept", req ["context"; "criterion"]);
  ("update_zone_transfer_accept", req ["context"; "zone_transfer_accept"]);
  ("delete_zone_transfer_accept", req ["context"; "zone_transfer_accept_id"]);
  ("create_zone_import", req ["context"; "zone_import"]);
  ("get_zone_import", req ["context"; "zone_import_id"]);
  ("find_zone_imports", app (req ["context"]) paged);
  ("find_zone_import", req ["context"; "criterion"]);
  ("update_zone_import", req ["context"; "zone_import"]);
  ("delete_zone_import", req ["context"; "zone_import_id"]);
  ("create_zone_export", req ["context"; "zone_export"]);
  ("get_zone_export", req ["context"; "zone_export_id"]);
  ("find_zone_exports", app (req ["context"]) paged);
  ("find_zone_export", req ["context"; "criterion"]);
  ("update_zone_export", req ["context"; "zone_export"]);
  ("delete_zone_export", req ["context"; "zone_export_id"]);
  ("count_zone_tasks", app (req ["context"]) [("criterion", Some PNone)]);
  ("find_service_status", req ["context"; "criterion"]);
  ("find_service_statuses", app (req ["context"]) paged);
  ("create_service_status", req ["context"; "service_status"]);
  ("update_service_status", req ["context"; "service_status"]);
  ("create_view", req ["context"; "view"]);
  ("delete_view", req ["context"; "view_id"]);
  ("get_view", req ["context"; "view_id"]);
  ("find_views", app (req ["context"]) paged);
  ("update_view", req ["context"; "view"]);
  ("create_zdns_view_info", req ["context"; "zdns_view_info"; "view"]);
  ("create_view_zdns_view", req ["context"; "view_zdns_view"]);
  ("update_zdns_view_info", req ["context"; "obj"; "zdns_view_info"]);
  ("find_view_zdns_view", req ["context"; "view"]);
  ("delete_view_zdns_view", req ["context"; "view"]);
  ("get_zdns_view_info", req ["context"; "id"]);
  ("delete_zdns_view_info", req ["context"; "zdns_view_info"]);
  ("create_view_acl", req ["context"; "view_acl"]);
  ("find_view_acls", req ["context"; "view_id"]);
  ("delete_view_acl", req ["context"; "view_acl"]);
  ("find_zdns_view_infos", app (req ["context"]) paged);
  ("ping", req ["context"]);
  ("create_zdns_zone", req ["context"; "zone"]);
  ("create_zone_asso", req ["context"; "zone"]);
  ("delete_zdns_zone", req ["context"; "zone"]);
  ("delete_zone_asso", req ["context"; "zone"]);
  ("update_zdns_zone", req ["context"; "zone"; "values"]);
  ("get_records_by_zone_id", req ["context"; "zone_id"]);
  ("begin", req []);
  ("commit", req []);
  ("rollback", req [])
].
Definition Backend_interface : list (string * params) := [
  ("create_zone", req ["context"; "zone"]);
  ("delete_zone", req ["context"; "zone"])
].
Definition CMSBackend_methods : list (string * params) := [
  ("get_client", req []);
  ("create_zone", req ["context"; "zone"; "view_name"]);
  ("delete_zone", req ["context"; "zone"; "view_name"]);
  ("update_zone", req ["context"; "zone"; "view_name"]);
  ("create_record", req ["context"; "zone"; "record"; "recordset"; "view_name"]);
  ("update_record", req ["context"; "zone"; "record"; "recordset"; "view_name"]);
  ("delete_record", req ["context"; "zone"; "rr_id"; "view_name"]);
  ("create_view", req ["context"; "view"; "acls"]);
  ("delete_view", req ["context"; "view"]);
  ("update_view", req ["context"; "view"; "acls"]);
  ("create_acl", req ["context"; "acl"]);
  ("delete_acl", req ["context"; "acl"]);
  ("update_acl", req ["context"; "acl"]);
  ("check_response", req ["response"]);
  ("start", req []);
  ("stop", req []);
  ("ping", req ["context"])
].
Definition Bind9Backend_methods : list (string * params) := [
  ("create_zone", req ["context"; "zone"]);
  ("delete_zone", req ["context"; "zone"]);
  ("start", req []);
  ("stop", req []);
  ("update_zone", req ["context"; "zone"]);
  ("ping", req ["context"])
].
Definition AkamaiBackend_methods : list (string * params) := [
  ("get_cfg_opts", req []);
  ("create_zone", req ["context"; "zone"]);
  ("delete_zone", req ["context"; "zone"]);
  ("start", req []);
  ("stop", req []);
  ("update_zone", req ["context"; "zone"]);
  ("ping", req ["context"])
].
Definition DesignateBackend_methods : list (string * params) := [
  ("create_zone", req ["context"; "zone"]);
  ("delete_zone", req ["context"; "zone"]);
  ("start", req []);
  ("stop", req []);
  ("update_zone", req ["context"; "zone"]);
  ("ping", req ["context"])
].
Definition DynECTBackend_methods : list (string * params) := [
  ("get_cfg_opts", req []);
  ("get_client", req []);
  ("create_zone", req ["context"; "zone"]);
  ("delete_zone", req ["context"; "zone"]);
  ("start", req []);
  ("stop", req []);
  ("update_zone", req ["context"; "zone"]);
  ("ping", req ["context"])
].
Definition FakeBackend_methods : list (string * params) := [
  ("create_zone", req ["context"; "zone"]);
  ("delete_zone", req ["context"; "zone"]);
  ("start", req []);
  ("stop", req []);
  ("update_zone", req ["context"; "zone"]);
  ("ping", req ["context"])
].
Definition NSD4Backend_methods : list (string * params) := [
  ("create_zone", req ["context"; "zone"]);
  ("delete_zone", req ["context"; "zone"]);
  ("start", req []);
  ("stop", req []);
  ("update_zone", req ["context"; "zone"]);
  ("ping", req ["context"])
].
Definition PDNS4Backend_methods : list (string * params) := [
  ("create_zone", req ["context"; "zone"]);
  ("delete_zone", req ["context"; "zone"]);
  ("start", req []);
  ("stop", req []);
  ("update_zone", req ["context"; "zone"]);
  ("ping", req ["context"])
].
Definition PowerDNSBackend_methods : list (string * params) := [
  ("get_cfg_opts", req []);
  ("get_session", req []);
  ("create_zone", req ["context"; "zone"]);
  ("delete_zone", req ["context"; "zone"]);
  ("start", req []);
  ("stop", req []);
  ("update_zone", req ["context"; "zone"]);
  ("ping", req ["context"])
].
Definition InfobloxBackend_methods : list (string * params) := [
  ("create_zone", req ["context"; "zone"]);
  ("delete_zone", req ["context"; "zone"]);
  ("ping", req ["context"]);
  ("start", req []);
  ("stop", req []);
  ("update_zone", req ["context"; "zone"])
].
Definition AgentPoolBackend_methods : list (string * params) := [
  ("create_zone", req ["context"; "zone"]);
  ("update_zone", req ["context"; "zone"]);
  ("delete_zone", req ["context"; "zone"]);
  ("start", req []);
  ("stop", req []);
  ("ping", req ["context"])
].
Definition AgentBackend_interface : list (string * params) := [
  ("find_zone_serial", req ["zone_name"]);
  ("create_zone", req ["zone"]);
  ("update_zone", req ["zone"]);
  ("delete_zone", req ["zone_name"])
].
Definition agent_Bind9Backend_methods : list (string * params) := [
  ("get_cfg_opts", req []);
  ("start", req []);
  ("find_zone_serial", req ["zone_name"]);
  ("create_zone", req ["zone"]);
  ("update_zone", req ["zone"]);
  ("delete_zone", req ["zone_name"]);
  ("stop", req [])
].
Definition agent_DenominatorBackend_methods : list (string * params) := [
  ("get_cfg_opts", req []);
  ("start", req []);
  ("stop", req []);
  ("find_zone_serial", req ["zone_name"]);
  ("create_zone", req ["zone"]);
  ("update_zone", req ["zone"]);
  ("delete_zone", req ["zone_name"])
].
Definition agent_DjbdnsBackend_methods : list (string * params) := [
  ("get_cfg_opts", req []);
  ("start", req []);
  ("find_zone_serial", req ["zone_name"]);
  ("create_zone", req ["zone"]);
  ("update_zone", req ["zone"]);
  ("delete_zone", req ["zone_name"]);
  ("stop", req [])
].
Definition agent_FakeBackend_methods : list (string * params) := [
  ("start", req []);
  ("stop", req []);
  ("find_zone_serial", req ["zone_name"]);
  ("create_zone", req ["zone"]);
  ("update_zone", req ["zone"]);
  ("delete_zone", req ["zone_name"])
].
Definition agent_GdnsdBackend_methods : list (string * params) := [
  ("get_cfg_opts", req []);
  ("start", req []);
  ("find_zone_serial", req ["zone_name"]);
  ("create_zone", req ["zone"]);
  ("update_zone", req ["zone"]);
  ("delete_zone", req ["zone_name"]);
  ("stop", req [])
].
Definition agent_Knot2Backend_methods : list (string * params) := [
  ("get_cfg_opts", req []);
  ("start", req []);
  ("find_zone_serial", req ["zone_name"]);
  ("create_zone", req ["zone"]);
  ("update_zone", req ["zone"]);
  ("delete_zone", req ["zone_name"]);
  ("stop", req [])
].
Definition agent_MSDNSBackend_methods : list (string * params) := [
  ("get_cfg_opts", req []);
  ("start", req []);
  ("find_zone_serial", req ["zone_name"]);
  ("create_zone", req ["zone"]);
  ("update_zone", req ["zone"]);
  ("delete_zone", req ["zone_name"]);
  ("stop", req [])
].
Definition Quota_interface : list (string * params) := [
  ("_get_quotas", req ["context"; "tenant_id"])
].
Definition StorageQuota_methods : list (string * params) := [
  ("_get_quotas", req ["context"; "tenant_id"]);
  ("get_quota", req ["context"; "tenant_id"; "resource"]);
  ("set_quota", req ["context"; "tenant_id"; "resource"; "hard_limit"]);
  ("reset_quotas", req ["context"; "tenant_id"]);
  ("get_quotas", req ["context"; "tenant_id"]);
  ("get_default_quotas", req ["context"])
].
Definition NoopQuota_methods : list (string * params) := [
  ("_get_quotas", req ["context"; "tenant_id"]);
  ("get_quotas", req ["context"; "tenant_id"]);
  ("get_default_quotas", req ["context"]);
  ("get_quota", req ["context"; "tenant_id"; "resource"]);
  ("set_quota", req ["context"; "tenant_id"; "resource"; "hard_limit"]);
  ("reset_quotas", req ["context"; "tenant_id"])
].
Definition PoolManagerCache_interface : list (string * params) := [
  ("clear", req ["context"; "pool_manager_status"]);
  ("store", req ["context"; "pool_manager_status"]);
  ("retrieve", req ["context"; "nameserver_id"; "zone_id"; "action"])
].
Definition MemcachePoolManagerCache_methods : list (string * params) := [
  ("get_name", req []);
  ("clear", req ["context"; "pool_manager_status"]);
  ("store", req ["context"; "pool_manager_status"]);
  ("retrieve", req ["context"; "nameserver_id"; "zone_id"; "action"])
].
Definition NoopPoolManagerCache_methods : list (string * params) := [
  ("get_name", req []);
  ("clear", req ["context"; "pool_manager_status"]);
  ("store", req ["context"; "pool_manager_status"]);
  ("retrieve", req ["context"; "nameserver_id"; "zone_id"; "action"])
].
Definition SQLAlchemyPoolManagerCache_methods : list (string * params) := [
  ("get_name", req []);
  ("clear", req ["context"; "pool_manager_status"]);
  ("store", req ["context"; "pool_manager_status"]);
  ("retrieve", req ["context"; "nameserver_id"; "zone_id"; "action"])
].
Definition Backend_drivers : list (string * list (string * params)) := [
  ("CMSBackend", CMSBackend_methods);
  ("Bind9Backend", Bind9Backend_methods);
  ("AkamaiBackend", AkamaiBackend_methods);
  ("DesignateBackend", DesignateBackend_methods);
  ("DynECTBackend", DynECTBackend_methods);
  ("FakeBackend", FakeBackend_methods);
  ("NSD4Backend", NSD4Backend_methods);
  ("PDNS4Backend", PDNS4Backend_methods);
  ("PowerDNSBackend", PowerDNSBackend_methods);
  ("InfobloxBackend", InfobloxBackend_methods);
  ("AgentPoolBackend", AgentPoolBackend_methods)
].
Definition AgentBackend_drivers : list (string * list (string * params)) := [
  ("Bind9Backend", agent_Bind9Backend_methods);
  ("DenominatorBackend", agent_DenominatorBackend_methods);
  ("DjbdnsBackend", agent_DjbdnsBackend_methods);
  ("FakeBackend", agent_FakeBackend_methods);
  ("GdnsdBackend", agent_GdnsdBackend_methods);
  ("Knot2Backend", agent_Knot2Backend_methods);
  ("MSDNSBackend", agent_MSDNSBackend_methods)
].
Definition Quota_drivers : list (string * list (string * params)) := [
  ("StorageQuota", StorageQuota_methods);
  ("NoopQuota", NoopQuota_methods)
].
Definition PoolManagerCache_drivers : list (string * list (string * params)) := [
  ("MemcachePoolManagerCache", MemcachePoolManagerCache_methods);
  ("NoopPoolManagerCache", NoopPoolManagerCache_methods);
  ("SQLAlchemyPoolManagerCache", SQLAlchemyPoolManagerCache_methods)
].

(** ** Conformance *)

(** A driver takes every call that its interface allows, and reads its arguments the
    same way. *)
Definition implements (interface driver : list (string * params)) : Prop :=
  forall method ps pos kw args, aget method interface = Some ps -> bind_args ps pos kw = Ok args ->
  exists ps', aget method driver = Some ps' /\ bind_args ps' pos kw = Ok args.
(** The same constants, the same parameters. *)
Definition same_default (d d' : option pyval) : bool :=
  match d, d' with
  | None, None | Some PNone, Some PNone => true
  | Some (PBool x), Some (PBool y) => Bool.eqb x y
  | Some (PInt x), Some (PInt y) => Z.eqb x y
  | Some (PStr x), Some (PStr y) => String.eqb x y
  | _, _ => false
  end.
Fixpoint same_params (ps ps' : params) : bool :=
  match ps, ps' with
  | [], [] => true
  | (n, d) :: ps, (n', d') :: ps' => String.eqb n n' && same_default d d' && same_params ps ps'
  | _, _ => false
  end.
Lemma same_default_eq d d' : same_default d d' = true -> d = d'.
Proof.
  destruct d as [[]|], d' as [[]|]; cbn; try done; intros Heq; do 2 f_equal;
    [by apply Bool.eqb_prop|by apply Z.eqb_eq|by apply String.eqb_eq].
Qed.
Lemma same_params_eq ps ps' : same_params ps ps' = true -> ps = ps'.
Proof.
  revert ps'; induction ps as [|[n d] ps IH]; intros [|[n' d'] ps']; cbn; try done.
  intros [[->%String.eqb_eq ->%same_default_eq]%andb_prop ->%IH]%andb_prop. done.
Qed.
Definition conforms (interface driver : list (string * params)) : bool :=
  forallb (fun m => match aget m.1 driver with Some ps => same_params m.2 ps | None => false end) interface.
Lemma conforms_implements interface driver : conforms interface driver = true -> implements interface driver.
Proof.
  intros Hc method ps pos kw args Hm Hb. exists ps. split; [|done]. unfold conforms in Hc.
  rewrite forallb_forall in Hc. pose proof (aget_Some_elem _ _ _ Hm) as Hin. apply list_elem_of_In in Hin.
  specialize (Hc (method, ps) Hin). cbn in Hc. destruct (aget method driver) as [ps'|]; [|done].
  by rewrite (same_params_eq _ _ Hc).
Qed.

(** Every plug-in interface with its drivers, but for the one of the ZDNS servers. *)
Definition conforming : list (list (string * params) * list (string * params)) :=
  (Storage_interface, SQLAlchemyStorage_methods) ::
  app (map (fun d => (Backend_interface, d.2)) (filter (fun d => d.1 <> "CMSBackend") Backend_drivers))
    (app (map (fun d => (AgentBackend_interface, d.2)) AgentBackend_drivers)
      (app (map (fun d => (Quota_interface, d.2)) Quota_drivers)
           (map (fun d => (PoolManagerCache_interface, d.2)) PoolManagerCache_drivers))).
Lemma drivers_conform : forallb (fun c => conforms c.1 c.2) conforming = true.
Proof. vm_compute. reflexivity. Qed.

(** The calls of the worker's zone task: a context, a zone and the name of a view. *)
Definition zone_calls : list string := ["create_zone"; "update_zone"; "delete_zone"].
Definition takes_view (driver : list (string * params)) : bool :=
  forallb (fun m => match aget m driver with
                    | Some ps => match bind_args ps [PNone; PNone; PNone] [] with Ok _ => true | Raise _ => false end
                    | None => false
                    end) zone_calls.
(** Whether a call of three arguments binds does not depend on the arguments. *)
Lemma binds_any ps a b c a' b' c' :
  match bind_args ps [a; b; c] [] with Ok _ => true | Raise _ => false end =
  match bind_args ps [a'; b'; c'] [] with Ok _ => true | Raise _ => false end.
Proof.
  destruct ps as [|[n1 d1] [|[n2 d2] [|[n3 d3] ps]]]; cbn; repeat case_bool_decide; try done.
  by destruct (bind_args ps [] []).
Qed.

(** Every driver of the storage, the agent's backends, the quotas and the status cache
    takes the calls that its interface allows, and reads their arguments the same way; so
    does every backend of the pool manager but the one of the ZDNS servers. That one is
    the only backend that the worker can call: the zone task passes the name of a view to
    each of its methods, which no other backend takes. *)
Theorem drivers_implement :
  (forall interface driver, (interface, driver) ∈ conforming -> implements interface driver) /\
  (forall name driver, (name, driver) ∈ Backend_drivers ->
     (name = "CMSBackend" <->
      forall method ctx zone view, method ∈ zone_calls ->
        exists ps args, aget method driver = Some ps /\ bind_args ps [ctx; zone; view] [] = Ok args) /\
     (name = "CMSBackend" -> ~ implements Backend_interface driver)).
Proof.
  split.
  - intros interface driver Hin. apply conforms_implements. pose proof drivers_conform as Hall.
    rewrite forallb_forall in Hall. by apply (Hall (interface, driver)), list_elem_of_In.
  - intros name driver Hin.
    assert (Htakes : takes_view driver = bool_decide (name = "CMSBackend")).
    { unfold Backend_drivers in Hin. elem_cases Hin; by vm_compute. }
    split; [split|].
    + intros Hname. rewrite (bool_decide_eq_true_2 _ Hname) in Htakes. unfold takes_view in Htakes.
      rewrite forallb_forall in Htakes. intros method ctx zone view Hm%list_elem_of_In%Htakes.
      destruct (aget method driver) as [ps|]; [|done]. rewrite (binds_any _ _ _ _ ctx zone view) in Hm.
      destruct (bind_args ps _ _) as [args|] eqn:Hb; [|done]. by exists ps, args.
    + intros Hall. assert (Ht : takes_view driver = true).
      { unfold takes_view. apply forallb_forall. intros method Hm%list_elem_of_In.
        destruct (Hall method PNone PNone PNone Hm) as (ps & args & -> & ->). done. }
      rewrite Ht in Htakes. by symmetry in Htakes; apply bool_decide_eq_true in Htakes.
    + intros -> Himp. unfold Backend_drivers in Hin. elem_cases Hin; try done.
      destruct (Himp "create_zone" (req ["context"; "zone"]) [PNone; PNone] [] [("context", PNone); ("zone", PNone)]
        eq_refl eq_refl) as (ps & Hps & Hb).
      vm_compute in Hps. injection Hps as <-. vm_compute in Hb. discriminate Hb.
Qed.
Lemma drivers_implement_witness :
  implements Quota_interface StorageQuota_methods /\
  exists ps args, aget "delete_zone" CMSBackend_methods = Some ps /\
    bind_args ps [PNone; PStr "zone"; PStr "default"] [] = Ok args.
Proof.
  split.
  - apply (proj1 drivers_implement). apply list_elem_of_In. unfold conforming. vm_compute. tauto.
  - apply (proj1 (proj1 (proj2 drivers_implement "CMSBackend" CMSBackend_methods ltac:(apply list_elem_of_In; by left))) eq_refl).
    apply list_elem_of_In. vm_compute. tauto.
Defined.
