(* ===== verification/ApiV2.v ===== *)
(** * The controllers of version 2 (designate/api/v2/controllers/)

    Every handler reads the request, asks central over its client ([Rpc]) and renders
    the answer with the adapters ([Adapters]). A handler runs in the monad [A] of the
    middleware: its messages are in the log of the world, its failures are faults. The
    router of pecan finds the handler and checks content types; bodies are parsed by a
    JSON parser. *)
From Stdlib Require Import ZArith Lia Ascii String.
From stdpp Require Import base option numbers strings sets list.
From S2P Require Import Prelude PyStr Exceptions Values Objects Utils Classes ObjectLists World Rrdata Formats Validation AdapterTables Adapters Api Rpc.
Local Open Scope string_scope.

(** What the schemas of the objects say, in jsonschema: the errors of an object, of a
    record set whose records have been parsed, and of one whose data are no strings;
    and the message of an error. *)
Class Schemas := {
  object_errors : pyval -> list verror;
  recordset_errors : pyval -> option string -> list rdata -> list verror;
  odd_data_errors : pyval -> list verror;
  message_of : verror -> string;
  supported_record_type : list string;
}.

Record rest_request := {
  q_http : http; q_path : string; q_host_url : option string; q_content_type : string; q_body : string;
}.

Section Controllers.
Context `{Env} `{Services} `{Schemas}.
Variable set_iter : list pyval -> list pyval.
(** [json.load]; [None] is a ValueError *)
Variable json_load : string -> option pyval.
Variable request : rest_request.

(** ** Requests (patches.py, rest.py, common.py) *)

(** [Request.body_dict] *)
Definition JSON_TYPES : list string := ["application/json"; "application/json-patch+json"].
Definition body_dict : A pyval := faulty (
  if mem_str (q_content_type request) JSON_TYPES then
    match json_load (q_body request) with
    | Some PNone => Raise (BadRequest EmptyRequestBody)
    | Some v => Ok v
    | None => Raise (BadRequest (if String.eqb (q_body request) "" then EmptyRequestBody else InvalidJson))
    end
  else Raise (BadRequest UnsupportedContentType)).
(** [request.environ['context']] *)
Definition the_context : A context := fun s =>
  match a_context s with Some c => (Ok c, s) | None => (Raise (bare (Py PyKeyError)), s) end.
(** What the model keeps of a context that is sent along, [to_dict]. *)
Definition opt_str (v : option string) : pyval := match v with Some s => PStr s | None => PNone end.
Definition context_dict (c : context) : pyval :=
  PDict [("user", opt_str (user c)); ("tenant", opt_str (tenant c)); ("is_admin", PBool (is_admin c));
         ("roles", PList (map PStr (roles c))); ("show_deleted", PBool (show_deleted c));
         ("original_tenant", opt_str (original_tenant c)); ("all_tenants", PBool (all_tenants c));
         ("abandon", PBool (abandon c)); ("edit_managed_records", PBool (edit_managed_records c));
         ("tsigkey_id", opt_str (tsigkey_id c)); ("hide_counts", PBool (hide_counts c))].
(** [self.central_api.<method>(context, ...)] *)
Definition central (method : string) (args : list pyval) : A pyval :=
  let! ctxt := the_context in
  let! m := faulty (invoke central_client method args []) in
  in_world (call "central" (rpc_method m) (context_dict ctxt :: (rpc_args m).*2)).
(** [@utils.validate_uuid]: the names of all parameters and their values. *)
Definition uuids (args : list (string * string)) : A unit :=
  faulty (validate_uuid args.*1 ("self" :: args.*1) (fun _ => Ok tt) (PNone :: map PStr args.*2)).

(** [_apply_filter_params]; of the names that are not accepted one is enough. *)
Definition filter_value (v : pyval) : R pyval :=
  match v with PStr s => Ok (PStr (replace "*" "%" s)) | _ => Raise (Py PyAttributeError) end.
Fixpoint filter_loop (params : list (string * pyval)) (accepted : list string) (criterion : list (string * pyval))
    (invalid : list string) : R (list (string * pyval)) :=
  match params with
  | [] => match invalid with [] => Ok criterion | _ => Raise (BadRequest BR_Base) end
  | (k, v) :: rest =>
      if mem_str k accepted then let? w := filter_value v in filter_loop rest accepted (aset k w criterion) invalid
      else filter_loop rest accepted criterion (app invalid [k])
  end.
Definition _apply_filter_params (params : list (string * pyval)) (accepted : list string)
    (criterion : list (string * pyval)) : R (list (string * pyval)) := filter_loop params accepted criterion [].
(** [get_paging_params] takes its parameters out of [params]. *)
Definition paging_params (params : list (string * pyval)) (keys : list string) :
    A (paging * list (string * pyval)) :=
  let! ctxt := the_context in
  let! p := faulty (get_paging_params (all_tenants ctxt) (conf_int "service:api.default_limit_v2")
                      (conf_int "service:api.max_limit_v2") params (Some keys)) in
  ret (p, adel "sort_dir" (adel "sort_key" (adel "limit" (adel "marker" params)))).
Definition page_args (criterion : list (string * pyval)) (p : paging) : list pyval :=
  [PDict criterion; marker p; limit p; sort_key p; sort_dir p].
(** What every [get_all] with filters starts with. *)
Definition filtered (keys filters : list string) (params : list (string * pyval)) : A (list (string * pyval) * paging) :=
  let! '(p, rest) := paging_params params keys in
  let! criterion := faulty (_apply_filter_params rest filters []) in ret (criterion, p).

(** [retrieve_matched_rrsets] *)
Definition retrieve_matched_rrsets (keys : list string) (zone_id : option string) (params : list (string * pyval)) : A pyval :=
  match zone_id with Some z => central "get_zone" [PStr z] ;;; ret tt | None => ret tt end ;;;
  let! '(criterion, p) := filtered keys ["name"; "type"; "ttl"; "data"; "status"; "description"] params in
  match zone_id with
  | Some z => central "find_recordsets" (app (page_args (aset "zone_id" (PStr z) criterion) p) [PBool false])
  | None => central "find_recordsets" (app (page_args criterion p) [PBool true])
  end.
(** [get_rrset_canonical_location] *)
Definition get_rrset_canonical_location (zone_id rrset_id : string) : string :=
  default "" (q_host_url request) ++ "/v2/zones/" ++ zone_id ++ "/recordsets/" ++ rrset_id.

(** ** Objects and answers *)

Definition http_request_of : A http_request :=
  gets (fun s => {| r_path := q_path request; r_GET := a_GET s; r_host_url := q_host_url request |}).
(** [DesignateAdapter.render('API_v2', o, request=..., context=...)] *)
Definition render_with (kw : option context) (o : pyval) : A pyval :=
  let! r := http_request_of in
  faulty (render nesting {| k_request := Some r; k_context := kw; k_failed_object := None |} "API_v2" o).
Definition render_v2 (o : pyval) : A pyval := render_with None o.
Definition render_plain (o : pyval) : A pyval :=
  faulty (render nesting {| k_request := None; k_context := None; k_failed_object := None |} "API_v2" o).
Definition parse_v2 (body o : pyval) : A pyval := faulty (Adapters.parse set_iter nesting "API_v2" body o).
Definition new_v2 (c : string) : A pyval := faulty (Adapters.new c).
Definition attr (o : pyval) (name : string) : A pyval := faulty (getattr registry o name).
(** [v[name]] and [len(v)] *)
Definition subscript (v : pyval) (name : string) : R pyval :=
  match v with
  | PDict d => match aget name d with Some w => Ok w | None => Raise (Py PyKeyError) end
  | PObj _ _ _ _ => getattr registry v name
  | _ => Raise (Py PyTypeError)
  end.
Definition len_of (v : pyval) : R Z :=
  match v with
  | PList l => Ok (Z.of_nat (length l))
  | PDict d => Ok (Z.of_nat (length d))
  | PStr s => Ok (Z.of_nat (String.length s))
  | PObj c _ _ _ => if is_list_class registry c then Ok (Z.of_nat (length (list_objects v))) else Raise (Py PyTypeError)
  | _ => Raise (Py PyTypeError)
  end.
(** [d.has_key(name)] *)
Definition has_key (v : pyval) (name : string) : R bool :=
  match v with PDict d => Ok (mem_str name d.*1) | _ => Raise (Py PyAttributeError) end.
(** [d[name] = v] *)
Definition set_item (d : pyval) (name : string) (v : pyval) : R pyval :=
  match d with PDict d => Ok (PDict (aset name v d)) | _ => Raise (Py PyTypeError) end.

(** [validate]: the errors become an InvalidObject with the object. *)
Definition error_object (e : verror) : pyval :=
  PObj "ValidationError"
    [("path", PList (path e)); ("message", PStr (message_of e)); ("validator", PStr (validator e))]
    ["path"; "message"; "validator"] [].
Definition error_list (l : list verror) : pyval :=
  PObj "ValidationErrorList" [("objects", PList (map error_object l))] [] [].
Definition by_verdict (v : verdict) (valid o : pyval) : A pyval :=
  match v with
  | Valid => ret valid
  | Invalid errors => raise {| f_exc := InvalidObject; f_message := PStr "Provided object does not match schema";
                               f_errors := error_list errors; f_object := o |}
  | Fails e => raise (bare e)
  end.
(** The data of the records, when they are strings. *)
Fixpoint strings (l : list pyval) : option (list string) :=
  match l with
  | [] => Some []
  | PStr s :: l => option_map (cons s) (strings l)
  | _ => None
  end.
Definition validate_rrset (o : pyval) : A pyval :=
  let! type := attr o "type" in
  let! records := attr o "records" in
  let! data := faulty (rmap data_of (list_objects records)) in
  let! again := faulty (setattr registry o "records" (deepcopy registry records)) in
  match strings data with
  | Some data =>
      by_verdict (fst (validate_recordset supported_record_type (recordset_errors o) (show type) data)) again o
  | None => by_verdict (match odd_data_errors o with [] => Valid | l => Invalid l end) again o
  end.
Definition validated (o : pyval) : A pyval :=
  let c := class_of o in
  if String.eqb c "RecordSet" then validate_rrset o
  else if String.eqb c "Zone" then by_verdict (validate_zone object_errors o) o o
  else by_verdict (validate object_errors o) o o.

Definition answer (n : Z) (body : pyval) : A response :=
  ret {| status := n; r_headers := []; r_body := body |}.
(** An answer whose Location is the link of the body to itself. *)
Definition located (n : Z) (body : pyval) : A response :=
  let! links := faulty (subscript body "links") in
  let! self := faulty (subscript links "self") in
  ret {| status := n; r_headers := [("Location", show self)]; r_body := body |}.
(** [raise NotImplemented('json-patch not implemented')] calls a constant. *)
Definition no_json_patch : A unit :=
  raise_if (String.eqb (q_content_type request) "application/json-patch+json") (bare (Py PyTypeError)).

(** ** Simple resources *)

(** A resource shown, listed, created, changed: the shapes that the handlers below
    share. *)
Definition show_one (method name id : string) : A pyval := uuids [(name, id)] ;;; central method [PStr id].
Definition list_all (method : string) (keys filters : list string) (params : list (string * pyval)) : A pyval :=
  let! '(criterion, p) := filtered keys filters params in central method (page_args criterion p).
Definition parsed_and_valid (body o : pyval) : A pyval :=
  let! o := parse_v2 body o in validated o.
Definition rendered (n : Z) (o : pyval) : A response := let! body := render_v2 o in answer n body.
Definition rendered_located (n : Z) (o : pyval) : A response := let! body := render_v2 o in located n body.

(** blacklists.py *)
Definition Blacklists_SORT_KEYS := ["created_at"; "id"; "updated_at"; "pattern"].
Definition Blacklists_get_one (blacklist_id : string) : A response :=
  let! blacklist := show_one "get_blacklist" "blacklist_id" blacklist_id in rendered 200 blacklist.
Definition Blacklists_get_all (params : list (string * pyval)) : A response :=
  let! blacklists := list_all "find_blacklists" Blacklists_SORT_KEYS ["pattern"] params in rendered 200 blacklists.
Definition Blacklists_post_all : A response :=
  let! body := body_dict in
  let! blacklist := new_v2 "Blacklist" in
  let! blacklist := parsed_and_valid body blacklist in
  let! blacklist := central "create_blacklist" [blacklist] in rendered_located 201 blacklist.
Definition Blacklists_patch_one (blacklist_id : string) : A response :=
  uuids [("blacklist_id", blacklist_id)] ;;;
  let! body := body_dict in
  no_json_patch ;;;
  let! blacklist := central "get_blacklist" [PStr blacklist_id] in
  let! blacklist := parsed_and_valid body blacklist in
  let! blacklist := central "update_blacklist" [blacklist] in rendered 200 blacklist.
Definition Blacklists_delete_one (blacklist_id : string) : A response :=
  show_one "delete_blacklist" "blacklist_id" blacklist_id ;;; answer 204 (PStr "").

(** pools.py *)
Definition Pools_SORT_KEYS := ["created_at"; "id"; "updated_at"; "name"].
Definition Pools_get_one (pool_id : string) : A response :=
  let! pool := show_one "get_pool" "pool_id" pool_id in rendered 200 pool.
Definition Pools_get_all (params : list (string * pyval)) : A response :=
  let! pools := list_all "find_pools" Pools_SORT_KEYS ["name"] params in rendered 200 pools.
Definition Pools_post_all : A response :=
  let! body := body_dict in
  let! pool := new_v2 "Pool" in
  let! pool := parsed_and_valid body pool in
  let! pool := central "create_pool" [pool] in rendered_located 201 pool.
Definition Pools_patch_one (pool_id : string) : A response :=
  uuids [("pool_id", pool_id)] ;;;
  let! body := body_dict in
  no_json_patch ;;;
  let! pool := central "get_pool" [PStr pool_id] in
  let! pool := parsed_and_valid body pool in
  let! pool := central "update_pool" [pool] in rendered 202 pool.
Definition Pools_delete_one (pool_id : string) : A response :=
  show_one "delete_pool" "pool_id" pool_id ;;; answer 204 (PStr "").

(** tlds.py *)
Definition Tlds_SORT_KEYS := ["created_at"; "id"; "updated_at"; "name"].
Definition Tlds_get_one (tld_id : string) : A response :=
  let! tld := show_one "get_tld" "tld_id" tld_id in rendered 200 tld.
Definition Tlds_get_all (params : list (string * pyval)) : A response :=
  let! tlds := list_all "find_tlds" Tlds_SORT_KEYS ["name"] params in rendered 200 tlds.
Definition Tlds_post_all : A response :=
  let! body := body_dict in
  let! tld := new_v2 "Tld" in
  let! tld := parsed_and_valid body tld in
  let! tld := central "create_tld" [tld] in rendered_located 201 tld.
Definition Tlds_patch_one (tld_id : string) : A response :=
  uuids [("tld_id", tld_id)] ;;;
  let! body := body_dict in
  no_json_patch ;;;
  let! tld := central "get_tld" [PStr tld_id] in
  let! tld := parsed_and_valid body tld in
  let! tld := central "update_tld" [tld] in rendered 200 tld.
Definition Tlds_delete_one (tld_id : string) : A response :=
  show_one "delete_tld" "tld_id" tld_id ;;; answer 204 (PStr "").

(** tsigkeys.py *)
Definition TsigKeys_SORT_KEYS := ["created_at"; "id"; "updated_at"; "name"].
Definition TsigKeys_get_one (tsigkey_id : string) : A response :=
  let! tsigkey := show_one "get_tsigkey" "tsigkey_id" tsigkey_id in rendered 200 tsigkey.
Definition TsigKeys_get_all (params : list (string * pyval)) : A response :=
  let! tsigkeys := list_all "find_tsigkeys" TsigKeys_SORT_KEYS ["name"; "algorithm"; "scope"] params in
  rendered 200 tsigkeys.
Definition TsigKeys_post_all : A response :=
  let! body := body_dict in
  let! tsigkey := new_v2 "TsigKey" in
  let! tsigkey := parsed_and_valid body tsigkey in
  let! tsigkey := central "create_tsigkey" [tsigkey] in rendered_located 201 tsigkey.
Definition TsigKeys_patch_one (tsigkey_id : string) : A response :=
  uuids [("tsigkey_id", tsigkey_id)] ;;;
  let! body := body_dict in
  no_json_patch ;;;
  let! tsigkey := central "get_tsigkey" [PStr tsigkey_id] in
  let! tsigkey := parsed_and_valid body tsigkey in
  let! tsigkey := central "update_tsigkey" [tsigkey] in rendered 200 tsigkey.
Definition TsigKeys_delete_one (tsigkey_id : string) : A response :=
  show_one "delete_tsigkey" "tsigkey_id" tsigkey_id ;;; answer 204 (PStr "").

(** service_status.py: the paging parameters are checked and forgotten *)
Definition ServiceStatus_SORT_KEYS := ["created_at"; "id"; "updated_at"; "hostname"; "service_name"; "status"].
Definition ServiceStatus_get_all (params : list (string * pyval)) : A response :=
  let! '(criterion, _) := filtered ServiceStatus_SORT_KEYS ["hostname"; "service_name"; "status"] params in
  let! service_statuses := central "find_service_statuses" [PDict criterion] in rendered 200 service_statuses.
Definition ServiceStatus_get_one (service_id : string) : A response :=
  uuids [("service_id", service_id)] ;;;
  let! service_status := central "find_service_status" [PDict [("id", PStr service_id)]] in
  rendered 200 service_status.

(** quotas.py, with [QuotaList.from_dict] *)
Definition quota_list (quotas : pyval) : R pyval :=
  match quotas with
  | PDict d =>
      let? l := new_obj registry "QuotaList" [] in
      let? items := rmap (fun kv =>
        let? item := new_obj registry "Quota" [] in
        let? item := setattr registry item "resource" (PStr kv.1) in
        setattr registry item "hard_limit" kv.2) d in
      Ok (extend l items)
  | _ => Raise (Py PyAttributeError)
  end.
Definition quotas_of (tenant_id : pyval) : A response :=
  let! quotas := central "get_quotas" [tenant_id] in
  let! quotas := faulty (quota_list quotas) in
  let! body := render_plain quotas in answer 200 body.
Definition Quotas_get_all : A response :=
  let! ctxt := the_context in quotas_of (opt_str (tenant ctxt)).
Definition Quotas_get_one (tenant_id : string) : A response := quotas_of (PStr tenant_id).
Definition Quotas_patch_one (tenant_id : string) : A response :=
  let! body := body_dict in
  let! quotas := new_v2 "QuotaList" in
  let! quotas := parse_v2 body quotas in
  mfor (list_objects quotas) (fun quota =>
    let! resource := attr quota "resource" in
    let! hard_limit := attr quota "hard_limit" in
    central "set_quota" [PStr tenant_id; resource; hard_limit] ;;; ret tt) ;;;
  quotas_of (PStr tenant_id).
Definition Quotas_delete_one (tenant_id : string) : A response :=
  central "reset_quotas" [PStr tenant_id] ;;; answer 204 (PStr "").

(** limits.py *)
Definition Limits_get_all : A response :=
  let! absolute_limits := central "get_absolute_limits" [] in
  let limit name := faulty (subscript absolute_limits name) in
  let! zones := limit "zones" in
  let! zone_recordsets := limit "zone_recordsets" in
  let! zone_records := limit "zone_records" in
  let! recordset_records := limit "recordset_records" in
  answer 200 (PDict
    [("max_zones", zones); ("max_zone_recordsets", zone_recordsets); ("max_zone_records", zone_records);
     ("max_recordset_records", recordset_records);
     ("min_ttl", match min_ttl with Some n => PInt n | None => PNone end);
     ("max_zone_name_length", PInt (conf_int "service:central.max_zone_name_len"));
     ("max_recordset_name_length", PInt (conf_int "service:central.max_recordset_name_len"));
     ("max_page_limit", PInt (conf_int "service:api.max_limit_v2"))]).

(** errors.py *)
Definition Errors_not_found : A response := raise {| f_exc := NotFound NF_Base;
  f_message := PStr "resource not found"; f_errors := PNone; f_object := PNone |}.
Definition Errors_method_not_allowed : A response := raise (bare MethodNotAllowed).

(** floatingips.py: a key is [<region>:<uuid>]; the dollar of its pattern also matches
    before a last line feed. *)
Definition region_char (a : ascii) : bool :=
  is_upper a || is_lower a || PyStr.is_digit a || Ascii.eqb a "." || Ascii.eqb a "-" || Ascii.eqb a "_".
Definition hex_char (a : ascii) : bool :=
  PyStr.is_digit a || existsb (Ascii.eqb a) ["a"; "b"; "c"; "d"; "e"; "f"; "A"; "B"; "C"; "D"; "E"; "F"]%char.
Definition is_fip_uuid (s : string) : bool :=
  bool_decide (map String.length (split_char "-" s) = [8; 4; 4; 4; 12])
  && forallb (sforall hex_char) (split_char "-" s).
Definition line_feed : ascii := ascii_of_nat 10.
Definition chomp (s : string) : string :=
  match String.get (String.length s - 1) s with
  | Some a => if Ascii.eqb a line_feed then String.substring 0 (String.length s - 1) s else s
  | None => s
  end.
Definition fip_key_to_data (key : string) : R (string * string) :=
  let '(region, found, id) := partition_char ":" key in
  if found && sforall region_char region && (1 <=? String.length region)%nat && (String.length region <=? 100)%nat
     && is_fip_uuid (chomp id)
  then Ok (region, chomp id) else Raise (BadRequest BR_Base).
Definition FloatingIP_get_all (params : list (string * pyval)) : A response :=
  let! fips := central "list_floatingips" [] in rendered 200 fips.
(** The handler around [body_dict] re-raises every error it can get. *)
Definition FloatingIP_patch_one (fip_key : string) : A response :=
  let! body := body_dict in
  let! '(region, id_) := faulty (fip_key_to_data fip_key) in
  let! fip := new_v2 "FloatingIP" in
  let! fip := parsed_and_valid body fip in
  let! fip := central "update_floatingip" [PStr region; PStr id_; fip] in
  if holds fip then rendered 202 fip else answer 202 PNone.
Definition FloatingIP_get_one (fip_key : string) : A response :=
  let! '(region, id_) := faulty (fip_key_to_data fip_key) in
  let! fip := central "get_floatingip" [PStr region; PStr id_] in rendered 200 fip.

(** ** ACLs and views (acls/__init__.py, view/__init__.py) *)

(** [re.search(u'^[_a-zA-Z0-9\u4e00-\u9fa5]+$', name)], on the UTF-8 text of the name. *)
Definition code_of (a b c : ascii) : Z :=
  (4096 * (Z.of_nat (nat_of_ascii a) - 224) + 64 * (Z.of_nat (nat_of_ascii b) - 128)
   + (Z.of_nat (nat_of_ascii c) - 128))%Z.
Definition is_ideograph (a b c : ascii) : bool :=
  (224 <=? nat_of_ascii a)%nat && (nat_of_ascii a <=? 239)%nat
  && (128 <=? nat_of_ascii b)%nat && (nat_of_ascii b <=? 191)%nat
  && (128 <=? nat_of_ascii c)%nat && (nat_of_ascii c <=? 191)%nat
  && (19968 <=? code_of a b c)%Z && (code_of a b c <=? 40869)%Z.
Fixpoint name_chars (s : string) : bool :=
  match s with
  | "" => true
  | String a rest =>
      if is_upper a || is_lower a || PyStr.is_digit a || Ascii.eqb a "_" then name_chars rest
      else match rest with
           | String b (String c rest) => is_ideograph a b c && name_chars rest
           | _ => false
           end
  end.
Definition legal_name (v : pyval) : R bool :=
  match v with
  | PStr s => Ok (negb (String.eqb (chomp s) "") && name_chars (chomp s))
  | _ => Raise (Py PyTypeError)
  end.

Definition Acls_SORT_KEYS := ["id"; "pool_id"; "name"; "tenant_id"; "networks"].
Definition Acls_get_one (acl_id : string) : A response :=
  let! acl := show_one "get_acl" "acl_id" acl_id in rendered 200 acl.
Definition Acls_get_all (params : list (string * pyval)) : A response :=
  let! acls := list_all "find_acls" Acls_SORT_KEYS ["name"; "pool_id"; "tenant_id"; "networks"] params in
  rendered 200 acls.
Definition Acls_post_all : A response :=
  let! acl := body_dict in
  let! name := faulty (subscript acl "name") in
  let! legal := faulty (legal_name name) in
  raise_if (negb legal) (bare InvalidAclName) ;;;
  let! o := new_v2 "Acl" in
  let! acl := parse_v2 acl o in
  let! acl := central "create_acl" [acl] in rendered_located 201 acl.
Definition Acls_delete_one (acl_id : string) : A response :=
  show_one "delete_acl" "acl_id" acl_id ;;; answer 202 (PStr "").
Definition Acls_patch_one (acl_id : string) : A response :=
  uuids [("acl_id", acl_id)] ;;;
  let! body := body_dict in
  let! acl := central "get_acl" [PStr acl_id] in
  no_json_patch ;;;
  let! acl := parse_v2 body acl in
  let! acl := central "update_acl" [acl] in rendered 200 acl.

Definition View_SORT_KEYS := ["id"; "name"; "tenant_id"; "pool_id"].
(** The identifiers of the ACLs of a rendered view. *)
Definition elements (v : pyval) : R (list pyval) :=
  match v with
  | PList l => Ok l
  | PObj c _ _ _ => if is_list_class registry c then Ok (list_objects v) else Raise (Py PyTypeError)
  | _ => Raise (Py PyTypeError)
  end.
Definition with_acl_ids (view : pyval) : A pyval :=
  let! id := faulty (subscript view "id") in
  let! view_acls := central "find_view_acls" [id] in
  let! view_acls := faulty (elements view_acls) in
  let! acl_ids := faulty (rmap (fun a => subscript a "acl_id") view_acls) in
  faulty (set_item view "acl_ids" (PList acl_ids)).
Definition View_get_one (view_id : string) : A response :=
  let! view := show_one "get_view" "view_id" view_id in
  let! view := render_v2 view in
  let! view := with_acl_ids view in answer 200 view.
Definition View_get_all (params : list (string * pyval)) : A response :=
  let! views := list_all "find_views" View_SORT_KEYS ["name"; "pool_id"; "acl_id"; "tenant_id"] params in
  let! body := render_v2 views in
  let! l := faulty (subscript body "views") in
  let! l := faulty (elements l) in
  let! l := mmap with_acl_ids l in
  let! body := faulty (set_item body "views" (PList l)) in answer 200 body.
Definition is_list (v : pyval) : bool := match v with PList _ => true | _ => false end.
Definition drop_key (name : string) (v : pyval) : pyval :=
  match v with PDict d => PDict (adel name d) | _ => v end.
Definition View_post_all : A response :=
  let! view := body_dict in
  let! there := faulty (has_key view "acl_ids") in
  raise_if (negb there) (bare (NotFound AclsIsNone)) ;;;
  let! name := faulty (subscript view "name") in
  let! legal := faulty (legal_name name) in
  raise_if (negb legal) (bare (NotFound ParamsIsNotLegal)) ;;;
  let! acl_ids := faulty (subscript view "acl_ids") in
  raise_if (negb (is_list acl_ids)) (bare (NotFound AclidsMustBeList)) ;;;
  let! o := new_v2 "View" in
  let! view := parsed_and_valid (drop_key "acl_ids" view) o in
  let! created := central "create_view" [view; acl_ids] in
  let! created := faulty (elements created) in
  match created with
  | [] => raise (bare (Py PyIndexError))
  | view :: _ =>
      let! body := render_v2 view in
      let! r := located 200 body in
      let! body := faulty (set_item body "acl_ids" acl_ids) in
      ret {| status := status r; r_headers := r_headers r; r_body := body |}
  end.
Definition View_patch_one (view_id : string) : A response :=
  uuids [("view_id", view_id)] ;;;
  let! body := body_dict in
  let! there := faulty (has_key body "acl_ids") in
  raise_if (negb there) (bare (NotFound AclsIsNone)) ;;;
  let! acl_ids := faulty (subscript body "acl_ids") in
  raise_if (negb (is_list acl_ids)) (bare (NotFound AclidsMustBeList)) ;;;
  let! view := central "update_view" [PStr view_id; acl_ids] in
  let! view := render_v2 view in
  let! view := faulty (set_item view "acl_ids" acl_ids) in answer 200 view.
Definition View_delete_one (view_id : string) : A response :=
  show_one "delete_view" "view_id" view_id ;;; answer 202 (PStr "").

(** ** Zones (zones/__init__.py, nameservers.py) *)

Definition Zones_SORT_KEYS := ["created_at"; "id"; "updated_at"; "name"; "tenant_id"; "serial"; "ttl"; "status"].
Definition Zones_get_one (zone_id : string) : A response :=
  let! zone := show_one "get_zone" "zone_id" zone_id in rendered 200 zone.
Definition Zones_get_all (params : list (string * pyval)) : A response :=
  let! zones := list_all "find_zones" Zones_SORT_KEYS
                  ["name"; "type"; "email"; "status"; "description"; "ttl"] params in rendered 200 zones.
(** The defaults of a request for a zone: an address made from its name, and the type. *)
Definition zone_defaults (zone : pyval) : R pyval :=
  match zone with
  | PDict d =>
      let? d := (if mem_str "email" d.*1 then Ok d
                 else match aget "name" d with
                      | None => Raise (Py PyKeyError)
                      | Some (PStr name) => Ok (aset "email" (PStr ("example@" ++ drop_last name)) d)
                      | Some _ => Raise (Py PyTypeError)
                      end) in
      Ok (PDict (if mem_str "type" d.*1 then d else aset "type" (PStr "PRIMARY") d))
  | _ => Raise (Py PyAttributeError)
  end.
Definition pending_or (n : Z) (status : pyval) : Z := if py_eq status (PStr "PENDING") then 202%Z else n.
Definition Zones_post_all : A response :=
  let! body := body_dict in
  let! zone := faulty (zone_defaults body) in
  let! o := new_v2 "Zone" in
  let! zone := parsed_and_valid zone o in
  let! type := attr zone "type" in
  let! zone := (if py_eq type (PStr "SECONDARY")
                then faulty (setattr registry zone "email" (PStr (conf_str "service:central.managed_resource_email")))
                else ret zone) in
  let! zone := central "create_zone" [zone] in
  let! status := attr zone "status" in
  rendered_located (pending_or 201 status) zone.
Definition Zones_patch_one (zone_id : string) : A response :=
  uuids [("zone_id", zone_id)] ;;;
  let! body := body_dict in
  let! zone := central "get_zone" [PStr zone_id] in
  let! action := attr zone "action" in
  raise_if (py_eq action (PStr "DELETE")) (bare (BadRequest BR_Base)) ;;;
  no_json_patch ;;;
  let! zone := parsed_and_valid body zone in
  let! zone := (if mem_str "attributes" (obj_what_changed registry zone)
                then faulty (setattr registry zone "transferred_at" PNone) else ret zone) in
  let! type := attr zone "type" in
  raise_if (py_eq type (PStr "SECONDARY") && mem_str "email" (obj_what_changed registry zone)) (bare InvalidObject) ;;;
  let! zone := central "update_zone" [zone; PBool false] in
  let! status := attr zone "status" in
  rendered (pending_or 200 status) zone.
Definition Zones_delete_one (zone_id : string) : A response :=
  show_one "delete_zone" "zone_id" zone_id ;;; answer 202 (PStr "").
Definition NameServers_get_all (zone_id : string) : A response :=
  let! ns_records := central "get_zone_ns_records" [PStr zone_id] in
  let! body := render_v2 ns_records in answer 200 (PDict [("nameservers", body)]).

(** ** Record sets (zones/recordsets.py, recordsets.py) *)

Definition RecordSets_SORT_KEYS :=
  ["created_at"; "id"; "updated_at"; "zone_id"; "tenant_id"; "name"; "type"; "ttl"; "records"].
Definition RecordSets_get_one (zone_id recordset_id : string) : A response :=
  uuids [("zone_id", zone_id); ("recordset_id", recordset_id)] ;;;
  let! recordset := central "get_recordset" [PStr zone_id; PStr recordset_id] in rendered 200 recordset.
(** The records of a listed record set, with their identifiers. *)
Definition record_entry (record : pyval) : R pyval :=
  let? id := getattr registry record "id" in
  let? data := getattr registry record "data" in Ok (PDict [("record_id", id); ("data", data)]).
Definition with_records_ext (recordset : pyval) : A pyval :=
  let! id := attr recordset "id" in
  let! records := central "find_records" [PDict [("recordset_id", id)]] in
  let! records := faulty (elements records) in
  let! record_ret := faulty (rmap record_entry records) in
  faulty (setattr registry recordset "records_ext" (PList record_ret)).
Definition RecordSets_get_all (zone_id : string) (params : list (string * pyval)) : A response :=
  uuids [("zone_id", zone_id)] ;;;
  let! recordsets := retrieve_matched_rrsets RecordSets_SORT_KEYS (Some zone_id) params in
  let! l := faulty (elements recordsets) in
  let! l := mmap with_records_ext l in
  rendered 200 (with_objects recordsets l).
Definition RecordSets_post_all (zone_id : string) : A response :=
  uuids [("zone_id", zone_id)] ;;;
  let! body := body_dict in
  let! records_exist := faulty (has_key body "records") in
  raise_if (negb records_exist) (bare (BadRequest BR_Base)) ;;;
  let! record_len := faulty (let? records := subscript body "records" in len_of records) in
  let! o := new_v2 "RecordSet" in
  let! recordset := parsed_and_valid body o in
  raise_if (record_len =? 0)%Z (bare (BadRequest BR_Base)) ;;;
  let! type := attr recordset "type" in
  raise_if (py_eq type (PStr "SOA")) (bare (BadRequest BR_Base)) ;;;
  let! recordset := (if py_eq type (PStr "NS") then ret recordset
                     else central "create_recordset" [PStr zone_id; recordset]) in
  let! created := faulty (let? ext := getattr registry recordset "records_ext" in len_of ext) in
  let! asked := faulty (let? records := getattr registry recordset "records" in len_of records) in
  if (created =? asked)%Z then
    let! body := render_v2 recordset in
    let! body := faulty (set_item body "status" (PStr "ACTIVE")) in
    located 200 body
  else raise (bare (Failed (if (created =? 0)%Z then AllFailed else PartlyFailed))).
(** A required member of the body. *)
Definition required_key (body : pyval) (name : string) : A unit :=
  let! there := faulty (has_key body name) in raise_if (negb there) (bare (BadRequest BR_Base)).
Definition is_managed (recordset : pyval) : A bool :=
  let! records := attr recordset "records" in ret (recordset_managed (list_objects records)).
(** The NS record set of the zone itself stays. *)
Definition refuse_root_ns (zone_id : string) (recordset type : pyval) : A unit :=
  if py_eq type (PStr "NS") then
    let! zone := central "get_zone" [PStr zone_id] in
    let! name := attr recordset "name" in
    let! zone_name := attr zone "name" in
    raise_if (py_eq name zone_name) (bare (BadRequest BR_Base))
  else ret tt.
Definition RecordSets_put_one (zone_id recordset_id : string) : A response :=
  uuids [("zone_id", zone_id); ("recordset_id", recordset_id)] ;;;
  let! ctxt := the_context in
  let! body := body_dict in
  required_key body "ttl" ;;; required_key body "description" ;;; required_key body "records" ;;;
  let! record_len := faulty (let? records := subscript body "records" in len_of records) in
  raise_if (record_len =? 0)%Z (bare (BadRequest BR_Base)) ;;;
  let! recordset := central "get_recordset" [PStr zone_id; PStr recordset_id] in
  let! managed := is_managed recordset in
  raise_if (managed && negb (edit_managed_records ctxt)) (bare (BadRequest BR_Base)) ;;;
  let! type := attr recordset "type" in
  raise_if (py_eq type (PStr "SOA")) (bare (BadRequest BR_Base)) ;;;
  refuse_root_ns zone_id recordset type ;;;
  let! recordset := parse_v2 body recordset in
  let! recordset := central "update_recordset" [recordset] in rendered 200 recordset.
Definition RecordSets_delete_one (zone_id recordset_id : string) : A response :=
  uuids [("zone_id", zone_id); ("recordset_id", recordset_id)] ;;;
  let! recordset := central "get_recordset" [PStr zone_id; PStr recordset_id] in
  let! type := attr recordset "type" in
  raise_if (py_eq type (PStr "SOA")) (bare (BadRequest BR_Base)) ;;;
  central "delete_recordset" [PStr zone_id; PStr recordset_id] ;;; answer 202 (PStr "").

Definition RecordSetsView_SORT_KEYS := ["created_at"; "updated_at"; "zone_id"; "tenant_id"; "name"; "type"; "ttl"].
Definition RecordSetsView_get_one (recordset_id : string) : A response :=
  uuids [("recordset_id", recordset_id)] ;;;
  let! rrset := central "get_recordset" [PNone; PStr recordset_id] in
  let! zone_id := attr rrset "zone_id" in
  ret {| status := 301; r_headers := [("Location", get_rrset_canonical_location (show zone_id) recordset_id)];
         r_body := PStr "" |}.
Definition RecordSetsView_get_all (params : list (string * pyval)) : A response :=
  let! recordsets := retrieve_matched_rrsets RecordSetsView_SORT_KEYS None params in rendered 200 recordsets.

(** ** Tasks of zones (zones/tasks/) *)

(** abandon.py: the flag of the context goes along with the call. *)
Definition allow_abandon : A unit := fun s =>
  match a_context s with
  | None => (Raise (bare (Py PyKeyError)), s)
  | Some c => match set_abandon true c with
              | Ok c => (Ok tt, set_context c (a_GET s) s)
              | Raise e => (Raise (bare e), s)
              end
  end.
Definition Abandon_post_all (zone_id : string) : A response :=
  uuids [("zone_id", zone_id)] ;;;
  allow_abandon ;;;
  let! zone := central "delete_zone" [PStr zone_id] in
  let! deleted_at := attr zone "deleted_at" in
  answer (if truthy deleted_at then 204 else 500) (PStr "").
Definition Abandon_get_all (zone_id : string) : A response := uuids [("zone_id", zone_id)] ;;; answer 405 PNone.

(** xfr.py *)
Definition Xfr_post_all (zone_id : string) : A response :=
  uuids [("zone_id", zone_id)] ;;;
  central "get_zone" [PStr zone_id] ;;;
  central "xfr_zone" [PStr zone_id] ;;; answer 202 (PStr "").

(** exports.py *)
Definition tasks_SORT_KEYS := ["created_at"; "id"; "updated_at"].
Definition ZoneExport_get_all (export_id : string) : A response :=
  uuids [("export_id", export_id)] ;;;
  let! ctxt := the_context in
  faulty (check "zone_export" ctxt [("tenant_id", opt_str (tenant ctxt))]) ;;;
  let! export := central "get_zone_export" [PStr export_id] in
  let! location := attr export "location" in
  if match location with PStr l => startswith "designate://" l | _ => false end then
    let! zone_id := attr export "zone_id" in
    let! text := central "export_zone" [zone_id] in answer 200 text
  else raise (bare (BadRequest BR_Base)).
Definition ZoneExportCreate_post_all (zone_id : string) : A response :=
  let! zone_export := show_one "create_zone_export" "zone_id" zone_id in rendered_located 202 zone_export.
Definition ZoneExports_get_one (export_id : string) : A response :=
  let! zone_export := show_one "get_zone_export" "export_id" export_id in rendered 200 zone_export.
Definition ZoneExports_get_all (params : list (string * pyval)) : A response :=
  let! zone_exports := list_all "find_zone_exports" tasks_SORT_KEYS ["status"; "message"; "zone_id"] params in
  rendered 200 zone_exports.
Definition ZoneExports_delete_one (zone_export_id : string) : A response :=
  show_one "delete_zone_export" "zone_export_id" zone_export_id ;;; answer 204 (PStr "").

(** imports.py *)
Definition ZoneImport_get_one (import_id : string) : A response :=
  let! zone_import := show_one "get_zone_import" "import_id" import_id in rendered 200 zone_import.
Definition ZoneImport_get_all (params : list (string * pyval)) : A response :=
  let! zone_imports := list_all "find_zone_imports" tasks_SORT_KEYS ["status"; "message"; "zone_id"] params in
  rendered 200 zone_imports.
Definition ZoneImport_post_all : A response :=
  raise_if (negb (String.eqb (q_content_type request) "text/dns")) (bare (BadRequest UnsupportedContentType)) ;;;
  let! zone_import := central "create_zone_import" [PStr (q_body request)] in rendered_located 202 zone_import.
Definition ZoneImport_delete_one (zone_import_id : string) : A response :=
  show_one "delete_zone_import" "zone_import_id" zone_import_id ;;; answer 204 (PStr "").

(** transfer_accepts.py *)
Definition TransferAccepts_get_one (transfer_accept_id : string) : A response :=
  let! accepts := show_one "get_zone_transfer_accept" "transfer_accept_id" transfer_accept_id in rendered 200 accepts.
Definition TransferAccepts_get_all (params : list (string * pyval)) : A response :=
  let! ctxt := the_context in
  let! accepts := list_all "find_zone_transfer_accepts" tasks_SORT_KEYS ["status"] params in
  let! body := render_with (Some ctxt) accepts in answer 200 body.
Definition TransferAccepts_post_all : A response :=
  let! body := body_dict in
  let! o := new_v2 "ZoneTransferAccept" in
  let! accept := parsed_and_valid body o in
  let! accept := central "create_zone_transfer_accept" [accept] in rendered_located 201 accept.

(** transfer_requests.py: an empty body is an empty dictionary; the name and the
    identifier are those of the zone. *)
Definition TransferRequests_get_one (zone_transfer_request_id : string) : A response :=
  let! transfer_request := show_one "get_zone_transfer_request" "zone_transfer_request_id" zone_transfer_request_id in
  let! ctxt := the_context in
  let! body := render_with (Some ctxt) transfer_request in answer 200 body.
Definition TransferRequests_get_all (params : list (string * pyval)) : A response :=
  let! ctxt := the_context in
  let! requests := list_all "find_zone_transfer_requests" tasks_SORT_KEYS ["status"] params in
  let! body := render_with (Some ctxt) requests in answer 200 body.
Definition TransferRequests_post_all (zone_id : string) : A response :=
  uuids [("zone_id", zone_id)] ;;;
  let! ctxt := the_context in
  let! body := try_except body_dict
    (fun f => if bool_decide (f_exc f = BadRequest EmptyRequestBody) then Some (ret (PDict [])) else None) in
  let! zone := central "get_zone" [PStr zone_id] in
  let! name := attr zone "name" in
  let! body := faulty (set_item body "zone_name" name) in
  let! body := faulty (set_item body "zone_id" (PStr zone_id)) in
  let! o := new_v2 "ZoneTransferRequest" in
  let! transfer_request := parsed_and_valid body o in
  let! transfer_request := central "create_zone_transfer_request" [transfer_request] in
  let! body := render_with (Some ctxt) transfer_request in located 201 body.
Definition TransferRequests_patch_one (zone_transfer_request_id : string) : A response :=
  uuids [("zone_transfer_request_id", zone_transfer_request_id)] ;;;
  let! ctxt := the_context in
  let! body := body_dict in
  no_json_patch ;;;
  let! transfer_request := central "get_zone_transfer_request" [PStr zone_transfer_request_id] in
  let! transfer_request := parsed_and_valid body transfer_request in
  let! transfer_request := central "update_zone_transfer_request" [transfer_request] in
  let! body := render_with (Some ctxt) transfer_request in answer 200 body.
Definition TransferRequests_delete_one (zone_transfer_request_id : string) : A response :=
  show_one "delete_zone_transfer_request" "zone_transfer_request_id" zone_transfer_request_id ;;; answer 204 (PStr "").
End Controllers.

(** ** Routing (rest.py) *)

(** Where a request goes: to a method of the controller with the rest of the path, on
    to another controller, or to an error. *)
Inductive routing := Handled (method : string) (rest : list string) | Lookup (name : string) (rest : list string) | Abort (code : Z).

Section Routing.
(** pecan finds the first exposed method of a list of names *)
Variable _find_controller : list string -> option string.
(** [getattr(self, name, None)]: whether the attribute is a bound method; [None] when
    there is none, or a false one *)
Variable attribute : string -> option bool.

Definition _handle (verb_all verb_one verb : string) (remainder : list string) : routing :=
  if bool_decide (remainder = [] \/ remainder = [""]) then
    match _find_controller [verb_all; verb] with
    | Some c => Handled c []
    | None => Abort 405
    end
  else
    let one := match _find_controller [verb_one; verb] with
               | Some c => Handled c remainder
               | None => Abort 405
               end in
    match remainder with
    | name :: rest => match attribute name with Some false => Lookup name rest | _ => one end
    | [] => one
    end.
Definition _handle_post := _handle "post_all" "post_one" "post".
Definition _handle_patch := _handle "patch_all" "patch_one" "patch".
Definition _handle_put := _handle "put_all" "put_one" "put".
Definition _handle_delete := _handle "delete_all" "delete_one" "delete".
End Routing.
