(* ===== verification/ApiV2Facts.v ===== *)
(** * What the controllers of version 2 ask of central

    Reading requests send no writes ([gets_send_no_writes]); only objects that were
    parsed from the request and found valid are stored ([stored_objects_valid]); a
    record set is changed only after all the checks of its handler
    ([put_recordset_guarded]). *)
From Stdlib Require Import ZArith Lia Ascii String.
From stdpp Require Import base option numbers strings sets list.
From S2P Require Import Prelude PyStr Exceptions Values Objects Utils Classes ObjectLists World Decorators Rrdata Formats Validation AdapterTables Adapters Api Rpc ApiV2.
Local Open Scope string_scope.

(** ** Traces *)

(** The messages a run of a handler adds to the log satisfy [P]; nothing else of the
    world changes. *)
Definition Emits (P : message -> Prop) {T} (m : A T) (s : astate) : Prop :=
  exists sent, a_world (m s).2 = set_sent (app (w_sent (a_world s)) sent) (a_world s) /\ Forall P sent.

Section Traces.
Context (P : message -> Prop).
Lemma set_sent_same w : set_sent (app (w_sent w) []) w = w.
Proof. rewrite app_nil_r. by destruct w. Qed.
Lemma emits_quiet {T} (m : A T) s : a_world (m s).2 = a_world s -> Emits P m s.
Proof. intros Hw. exists []. rewrite Hw, set_sent_same. by split; [|apply Forall_nil]. Qed.
Lemma emits_ret {T} (a : T) s : Emits P (ret a) s.
Proof. by apply emits_quiet. Qed.
Lemma emits_raise {T} f s : Emits P (raise f : A T) s.
Proof. by apply emits_quiet. Qed.
Lemma emits_raise_if b f s : Emits P (raise_if b f : A unit) s.
Proof. apply emits_quiet. by destruct b. Qed.
Lemma emits_gets {T} (f : astate -> T) s : Emits P (gets f) s.
Proof. by apply emits_quiet. Qed.
Lemma emits_faulty {T} (r : R T) s : Emits P (faulty r) s.
Proof. by apply emits_quiet. Qed.
Lemma emits_bind {T U} (m : A T) (k : T -> A U) s :
  Emits P m s -> (forall a s1, m s = (Ok a, s1) -> Emits P (k a) s1) -> Emits P (bind m k) s.
Proof.
  intros (sent & Hw & Hp) Hk. unfold Emits, bind. destruct (m s) as [[a|f] s1]; cbn in *; [|by exists sent].
  destruct (Hk a s1 eq_refl) as (sent' & Hw' & Hp'). exists (app sent sent').
  rewrite Hw', Hw, app_assoc. split; [by destruct (a_world s)|by apply Forall_app].
Qed.
Lemma emits_mmap {T U} (f : T -> A U) l s : (forall x s, Emits P (f x) s) -> Emits P (mmap f l) s.
Proof.
  intros Hf. revert s. induction l as [|x l IH]; intros s; cbn; [apply emits_ret|].
  apply emits_bind; [done|]. intros y s1 _. apply emits_bind; [done|]. intros ys s2 _. apply emits_ret.
Qed.
Lemma emits_try {T} (m : A T) h s :
  Emits P m s -> (forall f k s1, h f = Some k -> Emits P k s1) -> Emits P (try_except m h) s.
Proof.
  intros (sent & Hw & Hp) Hh. unfold Emits, try_except. destruct (m s) as [[a|f] s1]; cbn in *; [by exists sent|].
  destruct (h f) as [k|] eqn:Hf; [|by exists sent].
  destruct (Hh f k s1 Hf) as (sent' & Hw' & Hp'). exists (app sent sent').
  rewrite Hw', Hw, app_assoc. split; [by destruct (a_world s)|by apply Forall_app].
Qed.
End Traces.
#[export] Hint Resolve emits_ret emits_raise emits_raise_if emits_gets emits_faulty : emits.

Section Handlers.
Context `{Env} `{Services} `{Schemas}.
Variable set_iter : list pyval -> list pyval.
Variable json_load : string -> option pyval.
Variable request : rest_request.

Lemma the_context_spec s c s1 : the_context s = (Ok c, s1) -> a_context s = Some c /\ s1 = s.
Proof. unfold the_context. by case_match; intros [= -> ->]. Qed.
Lemma emits_context P s : Emits P the_context s.
Proof. apply emits_quiet. unfold the_context. by case_match. Qed.
Lemma invoke_method client name pos m : invoke client name pos [] = Ok m -> rpc_method m = name.
Proof.
  unfold invoke. destruct (aget name client) as [[kind ps]|]; [|done].
  destruct (bind_args ps pos []); cbn; by intros [= <-].
Qed.
Lemma emits_in_world P {T} (w : M exc world T) s :
  (exists sent, (w (a_world s)).2 = set_sent (app (w_sent (a_world s)) sent) (a_world s) /\ Forall P sent) ->
  Emits P (in_world w) s.
Proof.
  intros (sent & Hw & Hp). exists sent. unfold in_world. destruct (w (a_world s)) as [r w']; cbn in *. by subst.
Qed.
(** A call to central is one message, with the context of the request. *)
Lemma emits_central P method args s :
  (forall c m, a_context s = Some c -> invoke central_client method args [] = Ok m ->
     P (Cast "central" method (context_dict c :: (rpc_args m).*2))) ->
  Emits P (central method args) s.
Proof.
  intros Hp. unfold central. apply emits_bind; [apply emits_context|].
  intros c s1 [Hc ->]%the_context_spec. apply emits_bind; [apply emits_faulty|].
  intros m s1 Hm. unfold faulty in Hm. destruct (invoke central_client method args []) as [m'|] eqn:Hi; [|done].
  injection Hm as -> <-. apply emits_in_world. exists [Cast "central" (rpc_method m) (context_dict c :: (rpc_args m).*2)].
  split; [reflexivity|]. apply Forall_singleton. rewrite (invoke_method _ _ _ _ Hi). by apply Hp.
Qed.
Lemma emits_body_dict P s : Emits P (body_dict json_load request) s.
Proof. apply emits_faulty. Qed.
Lemma emits_by_verdict P v a b s : Emits P (by_verdict v a b) s.
Proof. destruct v; cbn; auto with emits. Qed.
End Handlers.
#[export] Hint Resolve emits_context emits_body_dict emits_by_verdict : emits.

Ltac head_of t := lazymatch t with ?f _ => head_of f | _ => t end.
(** Walks through a handler; [sent] proves what is left about each message. *)
Ltac emits_step sent :=
  first
    [ solve [auto with emits]
    | simple apply emits_bind; [|intros ? ? ?]
    | simple apply emits_mmap; intros ? ?
    | simple apply emits_try; [|intros ? ? ? ?; repeat case_match; simplify_eq/=]
    | simple apply emits_central; intros ? ? ? ?; sent
    | match goal with |- Emits _ (match ?x with _ => _ end) _ => destruct x eqn:? end
    | match goal with |- Emits _ ?m _ => let h := head_of m in unfold h end ].

Section Reading.
Context `{Env} `{Services} `{Schemas}.
Variable set_iter : list pyval -> list pyval.
Variable json_load : string -> option pyval.
Variable request : rest_request.

(** Calls of central that only look something up. *)
Definition reads (m : message) : bool :=
  match m with
  | Cast target method _ =>
      String.eqb target "central" && existsb (fun p => startswith p method) ["get_"; "find_"; "list_"; "export_"]
  | Notify _ _ => false
  end.
(** The handlers of GET, with an identifier or two and parameters. *)
Definition get_handlers (id id' : string) (params : list (string * pyval)) : list (A response) :=
  [Blacklists_get_one request id; Blacklists_get_all request params;
   Pools_get_one request id; Pools_get_all request params;
   Tlds_get_one request id; Tlds_get_all request params;
   TsigKeys_get_one request id; TsigKeys_get_all request params;
   ServiceStatus_get_all request params; ServiceStatus_get_one request id;
   Quotas_get_all; Quotas_get_one id; Limits_get_all; FloatingIP_get_all request params; FloatingIP_get_one request id;
   Acls_get_one request id; Acls_get_all request params; View_get_one request id; View_get_all request params;
   Zones_get_one request id; Zones_get_all request params; NameServers_get_all request id;
   RecordSets_get_one request id id'; RecordSets_get_all request id params;
   RecordSetsView_get_one request id; RecordSetsView_get_all request params; Abandon_get_all id;
   ZoneExport_get_all id; ZoneExports_get_one request id; ZoneExports_get_all request params;
   ZoneImport_get_one request id; ZoneImport_get_all request params;
   TransferAccepts_get_one request id; TransferAccepts_get_all request params;
   TransferRequests_get_one request id; TransferRequests_get_all request params].

(** Whatever a reading request asks for, the messages its handler sends only look
    things up, and it changes nothing else of the world: no GET handler of version 2
    can create, change or delete anything, however it ends. *)
Theorem gets_send_no_writes id id' params handler s :
  handler ∈ get_handlers id id' params -> Emits (fun m => reads m = true) handler s.
Proof.
  intros Hin. unfold get_handlers in Hin. elem_cases Hin; repeat emits_step ltac:(reflexivity).
Qed.
End Reading.

(** What the steps of a handler have in common that only look at the request *)
Section Steps.
Context `{Env} `{Services}.
Variable json_load : string -> option pyval.
Variable request : rest_request.
Lemma faulty_Ok {T} (r : R T) s a s1 : faulty r s = (Ok a, s1) -> r = Ok a /\ s1 = s.
Proof. unfold faulty. destruct r; by intros [= <- <-]. Qed.
Lemma raise_if_passes b f s a s1 : (raise_if b f : A unit) s = (Ok a, s1) -> b = false /\ s1 = s.
Proof. destruct b; cbn; [done|]. by intros [= _ <-]. Qed.
Lemma required_key_Ok body n s a s1 :
  required_key body n s = (Ok a, s1) -> s1 = s /\ exists d, body = PDict d /\ n ∈ d.*1.
Proof.
  intros (there & s2 & [Ht ->]%faulty_Ok & [Hb ->]%raise_if_passes)%bind_Ok. split; [done|].
  destruct body as [| | | | |d|]; try done. injection Ht as <-. exists d. split; [done|].
  apply negb_false_iff in Hb. by apply mem_str_spec.
Qed.
Lemma body_dict_Ok s b s1 :
  body_dict json_load request s = (Ok b, s1) -> s1 = s /\ body_dict json_load request = faulty (Ok b).
Proof. unfold body_dict. by intros [-> ->]%faulty_Ok. Qed.
End Steps.

Section Storing.
Context `{Env} `{Services} `{Schemas}.
Variable set_iter : list pyval -> list pyval.
Variable json_load : string -> option pyval.
Variable request : rest_request.

(** The requests of central that hand over an object: those that create one, with its class,
    and those that change one, with the request that looks it up. *)
Definition creates : list (string * string) :=
  [("create_blacklist", "Blacklist"); ("create_pool", "Pool"); ("create_tld", "Tld"); ("create_tsigkey", "TsigKey");
   ("create_view", "View"); ("create_zone", "Zone"); ("create_recordset", "RecordSet"); ("create_acl", "Acl");
   ("create_zone_transfer_accept", "ZoneTransferAccept"); ("create_zone_transfer_request", "ZoneTransferRequest");
   ("update_floatingip", "FloatingIP")].
Definition changes : list (string * string) :=
  [("update_blacklist", "get_blacklist"); ("update_pool", "get_pool"); ("update_tld", "get_tld");
   ("update_tsigkey", "get_tsigkey"); ("update_zone", "get_zone"); ("update_recordset", "get_recordset");
   ("update_acl", "get_acl"); ("update_zone_transfer_request", "get_zone_transfer_request")].
(** Those that are sent without validation *)
Definition unvalidated : list string := ["create_acl"; "update_acl"; "update_recordset"].
Definition stored (m : message) : option (string * pyval) :=
  match m with
  | Cast "central" method (_ :: args) =>
      if mem_str method (app creates.*1 changes.*1)
      then pair method <$> (if mem_str method ["update_floatingip"; "create_recordset"] then last args else head args)
      else None
  | _ => None
  end.

(** What passes the validation of its class: jsonschema finds no error in it; a primary zone has
    no masters, and a secondary one has some and no new TTL; a record set has a supported type,
    all its data parses as that, and jsonschema finds no error in the parsed records. *)
Definition acceptable_zone (o : pyval) : Prop :=
  object_errors (to_dict registry o) = [] /\
  exists type, getattr registry o "type" = Ok type /\
    (py_eq type (PStr "PRIMARY") = true -> obj_attr_is_set o "masters" = true ->
     exists masters, getattr registry o "masters" = Ok masters /\ list_objects masters = []) /\
    (py_eq type (PStr "PRIMARY") = false -> py_eq type (PStr "SECONDARY") = true ->
     "ttl" ∉ obj_what_changed registry o /\ exists masters, getattr registry o "masters" = Ok masters /\ list_objects masters <> []).
Definition acceptable_data (o : pyval) (type : pyval) (data : list pyval) : Prop :=
  (exists texts t parsed, data = map PStr texts /\ rtype_of_name (show type) = Some t /\ show type ∈ supported_record_type /\
     parsed_as t texts parsed /\ recordset_errors o (get_recordset_schema_changes t) parsed = []) \/
  ((forall texts, data <> map PStr texts) /\ odd_data_errors o = []).
Definition acceptable (o o' : pyval) : Prop :=
  if class_of o =? "RecordSet" then
    exists type records data, getattr registry o "type" = Ok type /\ getattr registry o "records" = Ok records /\
      rmap data_of (list_objects records) = Ok data /\ acceptable_data o type data /\
      setattr registry o "records" (deepcopy registry records) = Ok o'
  else if class_of o =? "Zone" then acceptable_zone o /\ o' = o
  else object_errors (to_dict registry o) = [] /\ o' = o.

(** Where an object comes from: the JSON of the request, [b]; the values that are parsed, [v];
    the object they are parsed into, [o0], which is new or what central has, asked in the state
    the request found; the parsed object [o1], the validated one [o2], and the one that is
    sent. The handlers add defaults to a new zone, name the zone of a transfer request, keep the
    ACLs of a view apart, and set an attribute of zones afterwards. *)
Variables (id id' : string) (s : astate).
Definition request_body (method : string) (b : pyval) : Prop :=
  q_content_type request ∈ JSON_TYPES /\
  (json_load (q_body request) = Some b /\ b <> PNone \/
   method = "create_zone_transfer_request" /\ b = PDict [] /\
     (json_load (q_body request) = Some PNone \/ json_load (q_body request) = None /\ q_body request = "")).
Definition parsed_values (method : string) (b v : pyval) : Prop :=
  if method =? "create_zone" then
    exists d d', b = PDict d /\ v = PDict d' /\ (forall n, n <> "email" -> n <> "type" -> aget n d' = aget n d) /\
      aget "type" d' = Some (default (PStr "PRIMARY") (aget "type" d)) /\
      (aget "email" d' = aget "email" d \/
       aget "email" d = None /\ exists name, aget "name" d = Some (PStr name) /\ aget "email" d' = Some (PStr ("example@" ++ drop_last name)))
  else if method =? "create_view" then exists d, b = PDict d /\ v = PDict (adel "acl_ids" d)
  else if method =? "create_zone_transfer_request" then
    exists d zone name, b = PDict d /\ (central "get_zone" [PStr id] s).1 = Ok zone /\ getattr registry zone "name" = Ok name /\
      v = PDict (aset "zone_id" (PStr id) (aset "zone_name" name d))
  else v = b.
Definition parsed_into (method : string) (o0 : pyval) : Prop :=
  match aget method creates, aget method changes with
  | Some cls, _ => new_obj registry cls [] = Ok o0
  | None, Some getter => (central getter (map PStr (if method =? "update_recordset" then [id; id'] else [id])) s).1 = Ok o0
  | None, None => False
  end.
Definition sent_as (method : string) (o2 o : pyval) : Prop :=
  if method =? "create_zone" then
    exists type, getattr registry o2 "type" = Ok type /\
      if py_eq type (PStr "SECONDARY")
      then setattr registry o2 "email" (PStr (conf_str "service:central.managed_resource_email")) = Ok o else o = o2
  else if method =? "update_zone" then
    if mem_str "attributes" (obj_what_changed registry o2) then setattr registry o2 "transferred_at" PNone = Ok o else o = o2
  else o = o2.
Definition requested (method : string) (o : pyval) : Prop :=
  exists b v o0 o1 o2, request_body method b /\ parsed_values method b v /\ parsed_into method o0 /\
    Adapters.parse set_iter nesting "API_v2" v o0 = Ok o1 /\
    (if mem_str method unvalidated then o2 = o1 else acceptable o1 o2) /\ sent_as method o2 o.

Lemma by_verdict_Ok v a o s0 o2 s1 : by_verdict v a o s0 = (Ok o2, s1) -> v = Valid /\ o2 = a.
Proof. destruct v; cbn; try done. by intros [= <- _]. Qed.
Lemma validate_Valid o : validate object_errors o = Valid -> object_errors (to_dict registry o) = [].
Proof. unfold validate. by destruct (object_errors _). Qed.
Lemma validate_zone_Valid o : validate_zone object_errors o = Valid -> acceptable_zone o.
Proof.
  unfold validate_zone, acceptable_zone. destruct (getattr registry o "type") as [type|]; [|done].
  destruct (py_eq type (PStr "PRIMARY")) eqn:Hp.
  - destruct (obj_attr_is_set o "masters") eqn:Hm.
    + destruct (getattr registry o "masters") as [masters|]; [|done]. destruct (list_objects masters) eqn:Hl; [|done].
      intros Hv%validate_Valid. split; [done|]. exists type. split_and!; [done|eauto|congruence].
    + intros Hv%validate_Valid. split; [done|]. exists type. split_and!; [done|congruence..].
  - destruct (py_eq type (PStr "SECONDARY")) eqn:Hs.
    + unfold validate_secondary. destruct (getattr registry o "masters") as [masters|[]]; try done.
      destruct (mem_str "ttl" (obj_what_changed registry o)) eqn:Ht.
      { destruct masters as [| | | | | |c0 f0 ch0 og0]; try done. by destruct (list_objects _). }
      intros Hv. assert (Hne : list_objects masters <> [] /\ validate object_errors o = Valid).
      { destruct masters; try done. all: destruct (list_objects _) eqn:Hl; try done; by rewrite Hl in *. }
      destruct Hne as [Hne Hvv%validate_Valid]. split; [done|]. exists type. split_and!; [done|congruence|]. intros _ _. split; [|eauto].
      intros Hin%mem_str_elem. congruence.
    + intros Hv%validate_Valid. split; [done|]. exists type. split_and!; [done|congruence..].
Qed.
Lemma strings_spec l : match strings l with Some texts => l = map PStr texts | None => forall texts, l <> map PStr texts end.
Proof.
  induction l as [|v l IH]; cbn; [done|]. destruct v; try (by intros []).
  destruct (strings l); cbn; [by subst|]. intros [|x texts]; [done|]. intros [= -> E]. by apply (IH texts).
Qed.
Lemma validated_acceptable o s0 o2 s1 : validated o s0 = (Ok o2, s1) -> acceptable o o2.
Proof.
  unfold validated, acceptable. destruct (_ =? _).
  - unfold validate_rrset. intros (type & ? & [Ht ->]%faulty_Ok & Hr)%bind_Ok.
    apply bind_Ok in Hr as (records & ? & [Hrec ->]%faulty_Ok & Hr). apply bind_Ok in Hr as (data & ? & [Hd ->]%faulty_Ok & Hr).
    apply bind_Ok in Hr as (again & ? & [Ha ->]%faulty_Ok & Hr). exists type, records, data.
    assert (Hv : acceptable_data o type data /\ o2 = again).
    { unfold acceptable_data. pose proof (strings_spec data) as Hs. destruct (strings data) as [texts|].
      - apply by_verdict_Ok in Hr as [Hv ->]. split; [|done]. left. apply validate_recordset_Valid in Hv as (t & parsed & ? & ? & ? & ?). by exists texts, t, parsed.
      - apply by_verdict_Ok in Hr as [Hv ->]. split; [|done]. right. split; [done|]. by destruct (odd_data_errors o). }
    destruct Hv as [Hv ->]. by split_and!.
  - destruct (_ =? _); intros [Hv ->]%by_verdict_Ok; split; try done; [by apply validate_zone_Valid|by apply validate_Valid].
Qed.

Lemma body_spec method s0 b s1 : body_dict json_load request s0 = (Ok b, s1) -> request_body method b /\ s1 = s0.
Proof.
  unfold body_dict. intros [Hb ->]%faulty_Ok. split; [|done]. unfold request_body.
  destruct (mem_str _ _) eqn:Hm; [|done]. apply mem_str_elem in Hm. split; [done|]. left.
  destruct (json_load _) as [v|]; [|by destruct (_ =? _)]. destruct v; try done; by injection Hb as <-.
Qed.
Lemma body_or_empty_spec s0 b s1 :
  try_except (body_dict json_load request)
    (fun f => if bool_decide (f_exc f = BadRequest EmptyRequestBody) then Some (ret (PDict [])) else None) s0 = (Ok b, s1) ->
  request_body "create_zone_transfer_request" b /\ s1 = s0.
Proof.
  unfold try_except. destruct (body_dict json_load request s0) as [[b'|f] s'] eqn:Hb.
  - intros [= <- <-]. by eapply body_spec.
  - destruct (bool_decide _) eqn:He; [|done]. intros [= <- <-]. apply bool_decide_eq_true in He.
    unfold body_dict, faulty in Hb. unfold request_body. destruct (mem_str _ _) eqn:Hm; [|simplify_eq/=].
    apply mem_str_elem in Hm. destruct (json_load _) as [v|].
    + destruct v; simplify_eq/=. split; [|done]. split; [done|]. right. auto.
    + destruct (String.eqb_spec (q_body request) "") as [E|]; simplify_eq/=. split; [|done]. split; [done|]. right. auto.
Qed.
Lemma keys_aget n (d : list (string * pyval)) : n ∈ d.*1 <-> aget n d <> None.
Proof. rewrite aget_None_elem. split; [by intros H4 []|]. intros Hn. by destruct (decide (n ∈ d.*1)). Qed.
Lemma zone_defaults_spec b v : zone_defaults b = Ok v -> parsed_values "create_zone" b v.
Proof.
  unfold zone_defaults, parsed_values. cbn [String.eqb Ascii.eqb Bool.eqb]. destruct b as [| | | | |d|]; try done.
  assert (Hset : forall n (d0 : list (string * pyval)), mem_str n d0.*1 = true -> exists w, aget n d0 = Some w).
  { intros n d0 Hm%mem_str_elem. destruct (aget n d0) eqn:E; [eauto|]. by apply aget_None_elem in E. }
  assert (Hun : forall n (d0 : list (string * pyval)), mem_str n d0.*1 = false -> aget n d0 = None).
  { intros n d0 Hm. apply aget_None_elem. intros Hin%mem_str_elem. congruence. }
  destruct (mem_str "email" d.*1) eqn:He; cbn [rbind].
  - intros [= <-]. exists d. destruct (mem_str "type" d.*1) eqn:Ht; eexists; (split; [done|]); (split; [done|]).
    + destruct (Hset _ _ Ht) as [w Hw]. rewrite Hw. split_and!; [done..|by left].
    + rewrite (Hun _ _ Ht), aget_aset_eq. split_and!; [|done|left; by rewrite aget_aset_ne]. intros n _ Hn. by rewrite aget_aset_ne.
  - destruct (aget "name" d) as [[| | |name| | |]|] eqn:Hn; cbn [rbind]; try done.
    remember ("example@" ++ drop_last name) as addr eqn:Haddr. intros [= <-]. exists d.
    assert (Ht' : mem_str "type" (aset "email" (PStr addr) d).*1 = mem_str "type" d.*1).
    { apply Bool.eq_iff_eq_true. rewrite !mem_str_elem, !keys_aget. by rewrite aget_aset_ne. }
    rewrite Ht'. destruct (mem_str "type" d.*1) eqn:Ht; eexists; (split; [done|]); (split; [done|]).
    + destruct (Hset _ _ Ht) as [w Hw]. rewrite aget_aset_ne, Hw by done. split_and!; [intros n Hne _; by rewrite aget_aset_ne|done|].
      right. split; [by apply Hun|]. exists name. by rewrite aget_aset_eq, Haddr.
    + rewrite (Hun _ _ Ht), aget_aset_eq. split_and!; [intros n Hne Hnt; by rewrite !aget_aset_ne|done|].
      right. split; [by apply Hun|]. exists name. by rewrite aget_aset_ne, aget_aset_eq, Haddr.
Qed.

Definition storing_handlers : list (A response) :=
  [Blacklists_post_all set_iter json_load request; Blacklists_patch_one set_iter json_load request id;
   Pools_post_all set_iter json_load request; Pools_patch_one set_iter json_load request id;
   Tlds_post_all set_iter json_load request; Tlds_patch_one set_iter json_load request id;
   TsigKeys_post_all set_iter json_load request; TsigKeys_patch_one set_iter json_load request id;
   FloatingIP_patch_one set_iter json_load request id; Acls_post_all set_iter json_load request;
   Acls_patch_one set_iter json_load request id; View_post_all set_iter json_load request;
   Zones_post_all set_iter json_load request; Zones_patch_one set_iter json_load request id;
   RecordSets_post_all set_iter json_load request id; RecordSets_put_one set_iter json_load request id id';
   TransferAccepts_post_all set_iter json_load request;
   TransferRequests_post_all set_iter json_load request id; TransferRequests_patch_one set_iter json_load request id].

(** What a handler has found out when it sends: the states of the steps that only look at the
    request are the one it started in. *)
Lemma uuids_Ok l s0 a s1 : uuids l s0 = (Ok a, s1) -> s1 = s0.
Proof. unfold uuids. by intros [_ ->]%faulty_Ok. Qed.
Lemma parsed_and_valid_Ok v o0 s0 o2 s1 : parsed_and_valid set_iter v o0 s0 = (Ok o2, s1) ->
  exists o1, Adapters.parse set_iter nesting "API_v2" v o0 = Ok o1 /\ acceptable o1 o2.
Proof. intros (o1 & s2 & [Hp ->]%faulty_Ok & Hv%validated_acceptable)%bind_Ok. eauto. Qed.
(** The facts a run leaves, in terms of the state it began in *)
Ltac settle_states :=
  repeat match goal with
  | Hr : uuids _ _ = (Ok _, _) |- _ => apply uuids_Ok in Hr as ->
  | Hr : faulty _ _ = (Ok _, _) |- _ => apply faulty_Ok in Hr as [Hr ->]
  | Hr : raise_if _ _ _ = (Ok _, _) |- _ => apply raise_if_passes in Hr as [_ ->]
  | Hr : no_json_patch _ _ = (Ok _, _) |- _ => apply raise_if_passes in Hr as [_ ->]
  | Hr : the_context _ = (Ok _, _) |- _ => apply the_context_spec in Hr as [_ ->]
  | Hr : required_key _ _ _ = (Ok _, _) |- _ => apply required_key_Ok in Hr as [-> _]
  | Hr : new_v2 _ _ = (Ok _, _) |- _ => apply faulty_Ok in Hr as [Hr ->]
  | Hr : parse_v2 _ _ _ _ = (Ok _, _) |- _ => apply faulty_Ok in Hr as [Hr ->]
  | Hr : attr _ _ _ = (Ok _, _) |- _ => apply faulty_Ok in Hr as [Hr ->]
  | Hr : (ret _ : A _) _ = (Ok _, _) |- _ => injection Hr as <- <-
  | Hr : try_except (body_dict _ _) _ _ = (Ok _, _) |- _ => apply body_or_empty_spec in Hr as [Hr ->]
  | Hr : (if ?b then faulty _ else ret _) _ = (Ok _, _) |- _ => destruct b eqn:?
  end.
Ltac request_made :=
  match goal with
  | Hi : invoke central_client _ _ [] = Ok ?m |- _ => vm_compute in Hi; injection Hi as <-; first [by intros ? ? [=]|intros ? ? [= <- <-]; settle_states]
  end.

Lemma view_values b v there : has_key b "acl_ids" = Ok there -> drop_key "acl_ids" b = v -> parsed_values "create_view" b v.
Proof. destruct b; try done. intros _ <-. by eexists. Qed.
Lemma transfer_values b zone name b1 v s1 : central "get_zone" [PStr id] s = (Ok zone, s1) -> getattr registry zone "name" = Ok name ->
  set_item b "zone_name" name = Ok b1 -> set_item b1 "zone_id" (PStr id) = Ok v -> parsed_values "create_zone_transfer_request" b v.
Proof.
  intros Hc Hn. destruct b as [| | | | |d|]; try done. intros [= <-] [= <-]. exists d, zone, name. by rewrite Hc.
Qed.
(** The object a handler sends is put together from what its run has found out. *)
Ltac put_together :=
  lazymatch goal with
  | |- request_body _ _ => assumption
  | |- parsed_into _ _ =>
      first [assumption | match goal with Hc : central _ _ s = (Ok ?o0, _) |- parsed_into _ ?o0 => exact (f_equal fst Hc) end]
  | |- Adapters.parse _ _ _ _ _ = _ => assumption
  | |- parsed_values _ _ _ => first [reflexivity | by apply zone_defaults_spec | by eapply view_values | by eapply transfer_values]
  | |- sent_as _ _ _ => first [reflexivity | eexists; split; [eassumption|]; by case_match | unfold sent_as; cbn [String.eqb Ascii.eqb Bool.eqb]; by case_match]
  | |- _ => first [assumption | reflexivity]
  end.
Ltac made :=
  match goal with
  | |- requested ?M _ =>
      repeat match goal with Hb : body_dict _ _ _ = (Ok _, _) |- _ => apply (body_spec M) in Hb as [Hb ->] end;
      match goal with
      | Hb : request_body M ?b, Hp : parsed_and_valid _ ?v ?o0 _ = (Ok ?o2, _) |- _ =>
          apply parsed_and_valid_Ok in Hp as (o1 & Hp & Hv); exists b, v, o0, o1, o2
      | Hb : request_body M ?b, Hp : Adapters.parse _ _ _ ?v ?o0 = Ok ?o2 |- _ => exists b, v, o0, o2, o2
      end; split_and!; put_together
  end.

(** C17: What the controllers of version 2 ask central to store was requested. Every message that
    creates or changes an object hands over what the adapter made of the JSON body of the
    request, parsed into a new object of the class or into the one that central has under the
    identifier of the path, and that then passed the validation of its class, with no error of
    jsonschema; except for ACLs and for changed record sets, which are parsed and sent without
    validation. What the handlers add is the defaults of a new zone, the zone of a transfer
    request, and the address and the time of transfer of a zone. *)
Theorem stored_objects_valid handler :
  handler ∈ storing_handlers ->
  Emits (fun m => forall method o, stored m = Some (method, o) -> requested method o) handler s.
Proof.
  intros Hin. unfold storing_handlers in Hin. elem_cases Hin; repeat emits_step ltac:(idtac; request_made; made).
Qed.
End Storing.

Section Updating.
Context `{Env} `{Services} `{Schemas}.
Variable set_iter : list pyval -> list pyval.
Variable json_load : string -> option pyval.
Variable request : rest_request.

Lemma central_context method args s a s1 : central method args s = (Ok a, s1) -> a_context s1 = a_context s.
Proof.
  intros (c & ? & [_ ->]%the_context_spec & (m & ? & [_ ->]%faulty_Ok & Hc)%bind_Ok)%bind_Ok.
  revert Hc. unfold in_world. destruct (call _ _ _ (a_world s)) as [[v|e] w]; by intros [= _ <-].
Qed.
Lemma is_managed_Ok o s b s1 :
  is_managed o s = (Ok b, s1) ->
  s1 = s /\ exists records, getattr registry o "records" = Ok records /\ b = recordset_managed (list_objects records).
Proof. intros (records & s2 & [Hr ->]%faulty_Ok & [= <- <-])%bind_Ok. eauto. Qed.

(** A recorded answer of central. *)
Definition answers_with (method : string) (args : list pyval) (a : pyval) : Prop :=
  exists s s1, central method args s = (Ok a, s1).
Lemma refuse_root_ns_Ok zone_id o type s a s1 :
  refuse_root_ns zone_id o type s = (Ok a, s1) ->
  a_context s1 = a_context s /\
  (py_eq type (PStr "NS") = true ->
   exists zone name zone_name, answers_with "get_zone" [PStr zone_id] zone /\
     getattr registry o "name" = Ok name /\ getattr registry zone "name" = Ok zone_name /\ py_eq name zone_name = false).
Proof.
  unfold refuse_root_ns. destruct (py_eq type (PStr "NS")); [|by intros [= _ <-]].
  intros (zone & s2 & Hz & (name & ? & [Hn ->]%faulty_Ok & (zname & ? & [Hzn ->]%faulty_Ok & [He ->]%raise_if_passes)%bind_Ok)%bind_Ok)%bind_Ok.
  split; [by eapply central_context|]. intros _. exists zone, name, zname. split; [by exists s, s2|done].
Qed.
(** The record set may be changed by a caller with this context. *)
Definition open_to_change (c : context) (zone_id : string) (old : pyval) : Prop :=
  (exists records, getattr registry old "records" = Ok records /\
     (recordset_managed (list_objects records) = true -> edit_managed_records c = true)) /\
  exists type, getattr registry old "type" = Ok type /\ py_eq type (PStr "SOA") = false /\
    (py_eq type (PStr "NS") = true ->
     exists zone name zone_name, answers_with "get_zone" [PStr zone_id] zone /\
       getattr registry old "name" = Ok name /\ getattr registry zone "name" = Ok zone_name /\
       py_eq name zone_name = false).
(** The body has a time to live, a description and records. *)
Definition complete_body (d : list (string * pyval)) : Prop :=
  "ttl" ∈ d.*1 /\ "description" ∈ d.*1 /\
  exists records n, aget "records" d = Some records /\ len_of records = Ok n /\ n <> 0%Z.
Definition may_update (c : context) (zone_id recordset_id : string) (m : message) : Prop :=
  forall args, m = Cast "central" "update_recordset" args ->
  exists d old new, body_dict json_load request = faulty (Ok (PDict d)) /\ complete_body d /\
    answers_with "get_recordset" [PStr zone_id; PStr recordset_id] old /\ open_to_change c zone_id old /\
    Adapters.parse set_iter nesting "API_v2" (PDict d) old = Ok new /\
    args = [context_dict c; new; PBool true].

(** The handler that changes a record set asks central for the update only when the
    body has a time to live, a description and at least one record; the record set that
    central returned is not an SOA, not the NS record set of the zone itself, and not
    managed, unless the context may edit managed records; and what it sends, with the
    context of the request, is that record set changed by the adapter as the body says.
    Otherwise it only reads. *)
Theorem put_recordset_guarded zone_id recordset_id s c :
  a_context s = Some c ->
  Emits (may_update c zone_id recordset_id) (RecordSets_put_one set_iter json_load request zone_id recordset_id) s.
Proof.
  intros Hc. unfold RecordSets_put_one.
  apply emits_bind; [apply emits_faulty|intros _ ? [_ ->]%faulty_Ok].
  apply emits_bind; [apply emits_context|intros c' ? [Hc' ->]%the_context_spec]. simplify_eq.
  apply emits_bind; [apply emits_body_dict|intros body ? [-> Hbody]%body_dict_Ok].
  apply emits_bind; [solve [repeat emits_step idtac]|intros _ ? [-> (d & -> & Httl)]%required_key_Ok].
  apply emits_bind; [solve [repeat emits_step idtac]|intros _ ? [-> (? & [= <-] & Hdesc)]%required_key_Ok].
  apply emits_bind; [solve [repeat emits_step idtac]|intros _ ? [-> _]%required_key_Ok].
  apply emits_bind; [apply emits_faulty|intros n ? [Hlen ->]%faulty_Ok].
  apply emits_bind; [apply emits_raise_if|intros _ ? [Hn%Z.eqb_neq ->]%raise_if_passes].
  apply emits_bind; [by apply emits_central|intros old s1 Hold].
  pose proof (central_context _ _ _ _ _ Hold) as Hc1.
  apply emits_bind; [solve [repeat emits_step idtac]|intros managed ? [-> (records & Hrec & ->)]%is_managed_Ok].
  apply emits_bind; [apply emits_raise_if|intros _ ? [Hman ->]%raise_if_passes].
  apply emits_bind; [apply emits_faulty|intros type ? [Htype ->]%faulty_Ok].
  apply emits_bind; [apply emits_raise_if|intros _ ? [Hsoa ->]%raise_if_passes].
  apply emits_bind; [solve [repeat emits_step ltac:(by intros)]|intros _ s2 [Hc2 Hns]%refuse_root_ns_Ok].
  apply emits_bind; [apply emits_faulty|intros new ? [Hnew ->]%faulty_Ok].
  apply emits_bind; [|intros ? ? _; unfold rendered; repeat emits_step idtac].
  apply emits_central. intros c' m Hc' Hi args [= <-].
  vm_compute in Hi. injection Hi as <-. exists d, old, new. split_and!; try done.
  - split_and!; [done..|]. destruct (aget "records" d) as [v|] eqn:Hr; cbn in Hlen; rewrite ?Hr in Hlen; [|done].
    by exists v, n.
  - by exists s, s1.
  - split; [exists records; split; [done|]; intros Hm; rewrite Hm in Hman; by destruct (edit_managed_records c)|].
    by exists type.
  - repeat f_equal. congruence.
Qed.
End Updating.

(** ** Examples *)

(** A central that knows one view, one record set, and takes what it is given. *)
Definition demo_recordset : pyval :=
  PObj "RecordSet"
    [("id", PStr "5ba5fa1a-31ae-4f4e-8f7b-a9b0a3d0d3a5"); ("zone_id", PStr "5ba5fa1a-31ae-4f4e-8f7b-a9b0a3d0d3a6");
     ("tenant_id", PStr "t"); ("name", PStr "www.example.org."); ("zone_name", PStr "example.org.");
     ("type", PStr "A"); ("ttl", PInt 60);
     ("records", PObj "RecordList" [("objects", PList [
        PObj "Record" [("id", PStr "1"); ("data", PStr "192.0.2.1"); ("managed", PBool false)] [] []])] [] [])] [] [].
Definition demo_services : Services :=
  {| reply := fun log =>
       match last log with
       | Some (Cast _ "get_recordset" _) => Ok demo_recordset
       | Some (Cast _ "get_tld" _) => Ok (PObj "Tld" [("id", PStr "1"); ("name", PStr "org")] [] [])
       | Some (Cast _ _ (_ :: o :: _)) => Ok o
       | _ => Ok PNone
       end |}.
Definition demo_schemas : Schemas :=
  {| object_errors := fun _ => []; recordset_errors := fun _ _ _ => []; odd_data_errors := fun _ => [];
     message_of := fun _ => ""; supported_record_type := ["A"] |}.
Definition demo_json (text : string) : option pyval :=
  if String.eqb text "put"
  then Some (PDict [("ttl", PInt 300); ("description", PNone); ("records", PList [PStr "192.0.2.9"])])
  else Some (PDict [("name", PStr "com")]).
Definition demo_rest (text : string) : rest_request :=
  {| q_http := {| h_headers := []; h_url := ""; h_client_addr := None; h_request_id := PNone; h_environ := [] |}; q_path := "/v2/zones/"; q_host_url := Some "http://localhost";
     q_content_type := "application/json"; q_body := text |}.
Definition demo_id : string := "5ba5fa1a-31ae-4f4e-8f7b-a9b0a3d0d3a5".
Definition demo_ctx : context :=
  {| tenant := Some "t"; user := None; is_admin := false; roles := []; original_tenant := None;
     all_tenants := false; abandon := false; edit_managed_records := false; hide_counts := false;
     show_deleted := false; tsigkey_id := None |}.
Definition demo_state : astate :=
  {| a_world := plain_world []; a_context := Some demo_ctx; a_GET := []; a_path_info := "/v2/zones"; a_url_scheme := "http" |}.
(** The methods central was asked for. *)
Definition asked {T} (m : A T) : list string :=
  omap (fun m => match m with Cast _ method _ => Some method | Notify _ _ => None end) (w_sent (a_world (m demo_state).2)).

Lemma put_recordset_guarded_witness :
  let put := @RecordSets_put_one open_env demo_services (fun l => l) demo_json (demo_rest "put") demo_id demo_id in
  asked put = ["get_recordset"; "update_recordset"] /\
  Emits (@may_update demo_services (fun l => l) demo_json (demo_rest "put") demo_ctx demo_id demo_id) put demo_state.
Proof.
  intros put. split; [by vm_compute|].
  exact (@put_recordset_guarded open_env demo_services (fun l => l) demo_json (demo_rest "put") demo_id demo_id demo_state
           demo_ctx eq_refl).
Defined.
Lemma gets_send_no_writes_witness :
  let get := @Tlds_get_one open_env demo_services (demo_rest "") demo_id in
  asked get = ["get_tld"] /\ Emits (fun m => reads m = true) get demo_state.
Proof.
  intros get. split; [by vm_compute|].
  apply (@gets_send_no_writes open_env demo_services (demo_rest "") demo_id demo_id []).
  unfold get_handlers. do 4 right. left.
Defined.
Lemma stored_objects_valid_witness :
  let post := @Tlds_post_all open_env demo_services demo_schemas (fun l => l) demo_json (demo_rest "post") in
  asked post = ["create_tld"] /\
  Emits (fun m => forall method o, stored m = Some (method, o) ->
    @requested open_env demo_services demo_schemas (fun l => l) demo_json (demo_rest "post") demo_id demo_id demo_state method o) post demo_state.
Proof.
  intros post. split; [by vm_compute|].
  apply (@stored_objects_valid open_env demo_services demo_schemas (fun l => l) demo_json (demo_rest "post") demo_id demo_id).
  unfold storing_handlers. do 4 right. left.
Defined.
