(* ===== verification/ApiV1.v ===== *)
(** * Version 1 of the API (designate/api/v1/, designate/schema/)

    Flask finds the handler of a route, after its converters have checked the identifiers of
    the path; handlers ask central by the same client as those of version 2 and render with
    JSON schemas: [properties] is what the rendering reads of the schemas under
    resources/schemas/v1/, the class [V1Schemas] what jsonschema says of values. *)
From Stdlib Require Import ZArith Lia Ascii String.
From stdpp Require Import base option numbers strings sets list.
From S2P Require Import Prelude PyStr Exceptions Values Objects Utils Classes ObjectLists World Rrdata Formats Validation AdapterTables Adapters Api Rpc ApiV2.
Local Open Scope string_scope.

(** ** Schemas (schema/__init__.py) *)
Inductive subschema := Plain | ArrayOf (items : list (string * subschema)) | ObjectOf (properties : list (string * subschema)).
Definition plain_properties (names : list string) : list (string * subschema) := map (fun n => (n, Plain)) names.
Definition domain_properties := plain_properties ["id"; "name"; "email"; "ttl"; "serial"; "description"; "created_at"; "updated_at"].
Definition server_properties := plain_properties ["id"; "name"; "created_at"; "updated_at"].
Definition tsigkey_properties := plain_properties ["id"; "name"; "algorithm"; "secret"].
Definition record_properties :=
  plain_properties ["id"; "domain_id"; "name"; "type"; "data"; "priority"; "ttl"; "description"; "created_at"; "updated_at"].
Definition limits_properties :=
  [("limits", ObjectOf [("absolute", ObjectOf (plain_properties ["maxDomains"; "maxDomainRecords"]))])].
Definition list_of (name : string) (item : list (string * subschema)) := [(name, ArrayOf item)].
(** [instance.get(name, None)], of a dictionary or an object *)
Definition get_or_none (instance : pyval) (name : string) : R pyval :=
  match instance with
  | PDict d => Ok (default PNone (aget name d))
  | PObj c _ _ _ => if is_list_class registry c then Raise (Py PyAttributeError) else obj_get registry instance name (Some PNone)
  | _ => Raise (Py PyAttributeError)
  end.
(** [Schema.filter] with [_filter_array] *)
Definition elements (v : pyval) : R (list pyval) :=
  match v with
  | PList l => Ok l
  | PObj c _ _ _ => if is_list_class registry c then Ok (list_objects v) else Raise (Py PyTypeError)
  | _ => Raise (Py PyTypeError)
  end.
Fixpoint filter_by (s : subschema) (v : pyval) : R pyval :=
  let properties_of := fix properties_of (ps : list (string * subschema)) (instance : pyval) : R (list (string * pyval)) :=
    match ps with
    | [] => Ok []
    | (name, sub) :: ps =>
        let? sv := get_or_none instance name in
        let? fv := filter_by sub sv in
        let? rest := properties_of ps instance in
        Ok ((name, fv) :: rest)
    end in
  match s with
  | Plain => Ok v
  | ObjectOf ps => let? d := properties_of ps v in Ok (PDict d)
  | ArrayOf ps =>
      let? l := elements v in
      let? ds := rmap (fun i => let? d := properties_of ps i in Ok (PDict d)) l in Ok (PList ds)
  end.
Definition filter (ps : list (string * subschema)) (instance : pyval) : R pyval := filter_by (ObjectOf ps) instance.
(** The errors of a value against a schema by its name, in jsonschema. *)
Class V1Schemas := v1_errors : string -> pyval -> list (verror * string).

Section Handlers.
Context `{Env} `{Services} `{V1Schemas}.
(** flask's reading of a body, [None] when it is no JSON *)
Variable json_load : string -> option pyval.
Variable request : rest_request.
(** [[service:central] default_pool_id] *)
Variable default_pool_id : string.

(** [validate]: every error with its path, its message and the rule that failed *)
Definition error_entry (e : verror * string) : pyval :=
  PDict [("path", PStr (join "." (map show (Validation.path e.1)))); ("message", PStr e.2); ("validator", PStr (validator e.1))].
Definition validate (name : string) (v : pyval) : A unit :=
  match v1_errors name v with
  | [] => ret tt
  | errors => raise {| f_exc := InvalidObject; f_message := PStr "Provided object does not match schema";
                       f_errors := PList (map error_entry errors); f_object := PNone |}
  end.
(** [flask.request.json] *)
Definition json : A pyval :=
  match json_load (q_body request) with Some v => ret v | None => raise (bare (BadRequest BR_Base)) end.
(** [DesignateRequest.__init__] *)
Definition check_request (method : string) (accepts_json : option bool) : A unit :=
  raise_if (mem_str method ["POST"; "PUT"; "PATCH"] && negb (q_content_type request =? "application/json"))
    (bare (BadRequest UnsupportedContentType)) ;;;
  raise_if (match accepts_json with Some b => negb b | None => false end) (bare (BadRequest UnsupportedAccept)).
(** [UUIDConverter.to_python]: a path whose identifier is none has no handler *)
Definition to_python (value : string) : option string := if is_uuid_like (PStr value) then Some value else None.
(** [_json_error], the answer to an exception of werkzeug with its code or to another *)
Definition _json_error (http_code : option Z) : response :=
  let code := default 500%Z http_code in
  {| status := code; r_headers := [];
     r_body := PDict (("code", PInt code) :: if (code =? 405)%Z then [("type", PStr "invalid_method")] else []) |}.
(** [load_values]: only what is valid, and nothing else allowed. Iterating over a list or a
    string, the loop subscripts it with the valid keys it meets. *)
Definition load_values (valid_keys : list string) : A (list (string * pyval)) :=
  let! values := json in
  match values with
  | PDict d =>
      raise_if (existsb (fun kv => negb (mem_str kv.1 valid_keys)) d) (bare InvalidObject) ;;; ret d
  | PList l =>
      raise_if (existsb (fun v => match v with PStr k => mem_str k valid_keys | _ => false end) l) (bare (Py PyTypeError)) ;;;
      raise_if (0 <? length l)%nat (bare InvalidObject) ;;; ret []
  | PStr s => raise_if (negb (s =? "")) (bare InvalidObject) ;;; ret []
  | _ => raise (bare (Py PyTypeError))
  end.
(** [flask.jsonify(...)]. [response.status_int] is an attribute flask does not read: the
    status stays 200. *)
Definition jsonify (ps : list (string * subschema)) (v : pyval) : A response :=
  let! body := faulty (filter ps v) in ret {| status := 200; r_headers := []; r_body := body |}.
Definition jsonify_located (ps : list (string * subschema)) (v : pyval) (url : string) : A response :=
  let! body := faulty (filter ps v) in
  let! id := faulty (subscript v "id") in
  ret {| status := 200; r_headers := [("Location", url ++ show id)]; r_body := body |}.
Definition empty_response : A response := ret {| status := 200; r_headers := []; r_body := PStr "" |}.
(** [d.update(values)] *)
Definition dict_update (d values : pyval) : R pyval :=
  match d, values with
  | PDict d, PDict v => Ok (PDict (foldl (fun acc kv => aset kv.1 kv.2 acc) d v))
  | _, _ => Raise (Py PyTypeError)
  end.
Definition obj_update (o values : pyval) : R pyval :=
  match values with PDict v => update registry o v | _ => Raise (Py PyAttributeError) end.

(** ** Domains (domains.py) *)
Definition live_primary (domain_id : string) : pyval :=
  PDict [("id", PStr domain_id); ("type", PStr "PRIMARY"); ("action", PStr "!DELETE")].
Definition find_live_primary (domain_id : string) : A pyval := central "find_zone" [live_primary domain_id].
Definition create_domain : A response :=
  let! values := load_values ["name"; "email"; "ttl"; "description"] in
  validate "domain" (PDict values) ;;;
  let! zone := faulty (new_obj registry "Zone" (aset "type" (PStr "PRIMARY") values)) in
  let! domain := central "create_zone" [zone] in
  jsonify_located domain_properties domain "/v1/domains/".
Definition get_domains : A response :=
  let! domains := central "find_zones" [PDict [("type", PStr "PRIMARY"); ("action", PStr "!DELETE")]] in
  jsonify (list_of "domains" domain_properties) (PDict [("domains", domains)]).
Definition get_domain (domain_id : string) : A response :=
  let! domain := find_live_primary domain_id in jsonify domain_properties domain.
Definition update_domain (domain_id : string) : A response :=
  let! values := json in
  let! domain := find_live_primary domain_id in
  let! domain_data := faulty (filter domain_properties domain) in
  let! domain_data := faulty (dict_update domain_data values) in
  validate "domain" domain_data ;;;
  let! domain := faulty (obj_update domain values) in
  let! domain := central "update_zone" [domain] in
  jsonify domain_properties domain.
Definition delete_domain (domain_id : string) : A response :=
  find_live_primary domain_id ;;; central "delete_zone" [PStr domain_id] ;;; empty_response.
(** [_pool_ns_record_to_server], a Server as the dictionary of its attributes *)
Definition _pool_ns_record_to_server (ns : pyval) : R pyval :=
  let? id := getattr registry ns "id" in
  let? created_at := getattr registry ns "created_at" in
  let? updated_at := getattr registry ns "updated_at" in
  let? version := getattr registry ns "version" in
  let? hostname := getattr registry ns "hostname" in
  Ok (PDict [("id", id); ("created_at", created_at); ("updated_at", updated_at); ("version", version); ("name", hostname)]).
Definition jsonify_servers (l : list pyval) : A response :=
  let! servers := faulty (rmap _pool_ns_record_to_server l) in
  jsonify (list_of "servers" server_properties) (PDict [("servers", PList servers)]).
Definition get_domain_servers (domain_id : string) : A response :=
  find_live_primary domain_id ;;;
  let! nameservers := central "get_zone_ns_records" [PStr domain_id] in
  let! l := faulty (elements nameservers) in jsonify_servers l.

(** ** Limits (limits.py) *)
Definition get_limits : A response :=
  let! limits := central "get_absolute_limits" [] in
  let! zones := faulty (subscript limits "zones") in
  let! records := faulty (subscript limits "zone_records") in
  jsonify limits_properties
    (PDict [("limits", PDict [("absolute", PDict [("maxDomains", zones); ("maxDomainRecords", records)])])]).

(** ** Records (records.py) *)

(** [_find_recordset], [_find_or_create_recordset]: no handler uses them any more *)
Definition _find_recordset (domain_id : string) (name type : pyval) : A pyval :=
  central "find_recordset" [PDict [("zone_id", PStr domain_id); ("name", name); ("type", type)]].
Definition _find_or_create_recordset (domain_id : string) (name type ttl : pyval) : A pyval :=
  find_live_primary domain_id ;;;
  try_except
    (let! recordset := faulty (new_obj registry "RecordSet" [("name", name); ("type", type); ("ttl", ttl)]) in
     central "create_recordset" [PStr domain_id; recordset])
    (fun f => match f_exc f with Duplicate DuplicateRecordSet => Some (_find_recordset domain_id name type) | _ => None end).
(** [_extract_record_values]: data and description, with a priority before the data *)
Definition _extract_record_values (values : list (string * pyval)) : R (list (string * pyval)) :=
  let entry n := match aget n values with Some v => [(n, v)] | None => [] end in
  let record_values := app (entry "data") (entry "description") in
  let with_priority p :=
    match aget "data" record_values with
    | Some data => Ok (aset "data" (PStr (str_of_Z p ++ " " ++ show data)) record_values)
    | None => Raise (Py PyKeyError)
    end in
  match aget "priority" values with
  | None | Some PNone => Ok record_values
  | Some (PInt p) => with_priority p
  | Some (PBool b) => with_priority (if b then 1%Z else 0%Z)
  | Some _ => Raise (Py PyTypeError)
  end.
Definition _extract_recordset_values (values : list (string * pyval)) : list (string * pyval) :=
  concat (map (fun n => match aget n values with Some v => [(n, v)] | None => [] end) ["name"; "type"; "ttl"]).
Definition _format_record_v1 (record recordset : pyval) : R pyval :=
  let d := items registry record in
  let? type := getattr registry recordset "type" in
  match aget "data" d, aget "zone_id" d with
  | Some data, Some zone_id =>
      let? pd := extract_priority_from_data (show type) (show data) in
      let? name := getattr registry recordset "name" in
      let? ttl := getattr registry recordset "ttl" in
      let d := aset "data" (PStr (snd pd)) (aset "priority" (match fst pd with Some p => PInt p | None => PNone end) d) in
      let d := adel "zone_id" (aset "domain_id" zone_id d) in
      Ok (PDict (aset "ttl" ttl (aset "type" type (aset "name" name d))))
  | _, _ => Raise (Py PyKeyError)
  end.
Definition need_dict (v : pyval) : A (list (string * pyval)) :=
  match v with PDict d => ret d | _ => raise (bare (Py PyTypeError)) end.
Definition create_record (domain_id : string) : A response :=
  let! values := json in
  let! type := faulty (subscript values "type") in
  raise_if (py_eq type (PStr "SOA")) (bare (BadRequest BR_Base)) ;;;
  let! recordset_id := faulty (subscript values "recordset_id") in
  let! recordset_db := central "get_recordset" [PStr domain_id; recordset_id] in
  let! name := attr recordset_db "name" in
  let! type := attr recordset_db "type" in
  let! ttl := attr recordset_db "ttl" in
  let! d := need_dict values in
  let d := adel "recordset_id" (aset "ttl" ttl (aset "type" type (aset "name" name d))) in
  validate "record" (PDict d) ;;;
  let! kwargs := faulty (_extract_record_values d) in
  let! record := faulty (new_obj registry "Record" kwargs) in
  let! record := central "create_record" [PStr domain_id; recordset_db; record] in
  let! record := faulty (_format_record_v1 record recordset_db) in
  jsonify_located record_properties record ("/v1/domains/" ++ domain_id ++ "/records/").
Definition get_records (domain_id : string) : A response :=
  central "get_zone" [PStr domain_id] ;;;
  let! recordsets := central "find_recordsets" [PDict [("zone_id", PStr domain_id)]] in
  let! rrsets := faulty (elements recordsets) in
  let! records := mmap (fun rrset =>
    let! records := attr rrset "records" in
    let! l := faulty (elements records) in
    faulty (rmap (fun r => _format_record_v1 r rrset) l)) rrsets in
  jsonify (list_of "records" record_properties) (PDict [("records", PList (concat records))]).
Definition record_criterion (domain_id record_id : string) : pyval :=
  PDict [("zone_id", PStr domain_id); ("id", PStr record_id)].
Definition find_record (domain_id record_id : string) : A pyval := central "find_record" [record_criterion domain_id record_id].
Definition get_record (domain_id record_id : string) : A response :=
  central "get_zone" [PStr domain_id] ;;;
  let! record := find_record domain_id record_id in
  let! recordset_id := faulty (subscript record "recordset_id") in
  let! recordset := central "get_recordset" [PStr domain_id; recordset_id] in
  let! record := faulty (_format_record_v1 record recordset) in
  jsonify record_properties record.
Definition update_record (domain_id record_id : string) : A response :=
  let! values := json in
  find_live_primary domain_id ;;;
  let! record := find_record domain_id record_id in
  let! managed := attr record "managed" in
  let! ctxt := the_context in
  raise_if (truthy managed && negb (edit_managed_records ctxt)) (bare (BadRequest BR_Base)) ;;;
  let! recordset_id := attr record "recordset_id" in
  let! recordset := central "get_recordset" [PStr domain_id; recordset_id] in
  let! formatted := faulty (_format_record_v1 record recordset) in
  let! record_data := faulty (filter record_properties formatted) in
  let! record_data := faulty (dict_update record_data values) in
  validate "record" record_data ;;;
  let! d := need_dict values in
  let! changes := faulty (_extract_record_values d) in
  let! record := faulty (update registry record changes) in
  let! record := central "update_record" [record] in
  let! recordset := faulty (update registry recordset (_extract_recordset_values d)) in
  let! recordset :=
    if (0 <? length (obj_what_changed registry recordset))%nat then central "update_recordset" [recordset] else ret recordset in
  let! record := faulty (_format_record_v1 record recordset) in
  jsonify record_properties record.
Definition _delete_recordset_if_empty (domain_id : string) (recordset_id : pyval) : A unit :=
  let! recordset := central "find_recordset" [PDict [("id", recordset_id)]] in
  let! records := attr recordset "records" in
  let! l := faulty (elements records) in
  if (length l =? 0)%nat then central "delete_recordset" [PStr domain_id; recordset_id] ;;; ret tt else ret tt.
Definition delete_record (domain_id record_id : string) : A response :=
  find_live_primary domain_id ;;;
  let! record := find_record domain_id record_id in
  let! managed := attr record "managed" in
  raise_if (match managed with PBool b => b | _ => false end) (bare (BadRequest BR_Base)) ;;;
  let! recordset_id := attr record "recordset_id" in
  let! record := central "delete_record" [PStr domain_id; recordset_id; PStr record_id] in
  let! recordset_id := attr record "recordset_id" in
  _delete_recordset_if_empty domain_id recordset_id ;;;
  empty_response.

(** ** Servers (servers.py): the name server records of the default pool *)
Definition get_default_pool : A pyval := central "get_pool" [PStr default_pool_id].
Definition ns_records_of (pool : pyval) : A (pyval * list pyval) :=
  let! ns_records := attr pool "ns_records" in
  let! l := faulty (elements ns_records) in ret (ns_records, l).
(** The pool with other name server records in its list: the list is changed in place. *)
Definition with_ns_records (pool ns_records : pyval) : pyval :=
  match pool with PObj c f ch og => PObj c (aset "ns_records" ns_records f) ch og | v => v end.
(** The first record with an attribute of a value *)
Fixpoint find_at (name : string) (v : pyval) (l : list pyval) : R (option (nat * pyval)) :=
  match l with
  | [] => Ok None
  | ns :: l =>
      let? w := getattr registry ns name in
      if py_eq w v then Ok (Some (O, ns))
      else let? r := find_at name v l in Ok (option_map (fun '(i, x) => (S i, x)) r)
  end.
Definition on_duplicate {T} (k : A T) (m : A T) : A T :=
  try_except m (fun f => match f_exc f with Duplicate DuplicatePoolAttribute => Some k | _ => None end).
Definition create_server : A response :=
  let! values := json in
  validate "server" values ;;;
  let! name := faulty (subscript values "name") in
  let! ns_record := faulty (ObjectLists.from_dict nesting "PoolNsRecord" (PDict [("priority", PInt 10); ("hostname", name)])) in
  let! pool := get_default_pool in
  let! '(ns_records, _) := ns_records_of pool in
  let! updated_pool := on_duplicate (raise (bare (Duplicate DuplicateServer)))
    (central "update_pool" [with_ns_records pool (append ns_records ns_record)]) in
  let! '(_, l) := ns_records_of updated_pool in
  let! created := faulty (find_at "hostname" name l) in
  match created with
  | None => raise (bare (Py PyUnboundLocalError))
  | Some (_, created_ns_record) =>
      let! server := faulty (_pool_ns_record_to_server created_ns_record) in
      jsonify_located server_properties server "/v1/servers/"
  end.
Definition get_servers : A response :=
  let! pool := get_default_pool in let! '(_, l) := ns_records_of pool in jsonify_servers l.
(** The record of the default pool with an identifier, its place, and the pool *)
Definition find_server (server_id : string) : A (pyval * pyval * nat * pyval) :=
  let! pool := get_default_pool in
  let! '(ns_records, l) := ns_records_of pool in
  let! found := faulty (find_at "id" (PStr server_id) l) in
  match found with
  | None => raise (bare (NotFound ServerNotFound))
  | Some (i, ns) => ret (pool, ns_records, i, ns)
  end.
Definition get_server (server_id : string) : A response :=
  let! '(_, _, _, nameserver) := find_server server_id in
  let! server := faulty (_pool_ns_record_to_server nameserver) in
  jsonify server_properties server.
Definition update_server (server_id : string) : A response :=
  let! values := json in
  let! '(pool, ns_records, index, _) := find_server server_id in
  let! '(nameserver, ns_records) := faulty (pop ns_records (Z.of_nat index)) in
  let! name := faulty (subscript values "name") in
  let! nameserver := faulty (update registry nameserver [("hostname", name)]) in
  let! server := faulty (_pool_ns_record_to_server nameserver) in
  let! server_data := faulty (filter server_properties server) in
  let! server_data := faulty (dict_update server_data values) in
  validate "server" server_data ;;;
  central "update_pool" [with_ns_records pool (append ns_records nameserver)] ;;;
  jsonify server_properties server.
Definition delete_server (server_id : string) : A response :=
  let! '(pool, ns_records, index, _) := find_server server_id in
  let! '(_, ns_records) := faulty (pop ns_records (Z.of_nat index)) in
  central "update_pool" [with_ns_records pool ns_records] ;;;
  empty_response.

(** ** Keys (tsigkeys.py): those of the default pool *)
Definition pool_scope : list (string * pyval) := [("scope", PStr "POOL"); ("resource_id", PStr default_pool_id)].
Definition key_criterion (tsigkey_id : string) : pyval := PDict (app pool_scope [("id", PStr tsigkey_id)]).
Definition create_tsigkey : A response :=
  let! values := json in
  validate "tsigkey" values ;;;
  let! tsigkey := faulty (ObjectLists.from_dict nesting "TsigKey" values) in
  let! tsigkey := faulty (update registry tsigkey pool_scope) in
  let! tsigkey := central "create_tsigkey" [tsigkey] in
  jsonify_located tsigkey_properties tsigkey "/v1/tsigkeys/".
Definition get_tsigkeys : A response :=
  let! tsigkeys := central "find_tsigkeys" [PDict pool_scope] in
  jsonify (list_of "tsigkeys" tsigkey_properties) (PDict [("tsigkeys", tsigkeys)]).
(** It renders the list that [find_tsigkeys] returns. *)
Definition get_tsigkey (tsigkey_id : string) : A response :=
  let! tsigkey := central "find_tsigkeys" [key_criterion tsigkey_id] in jsonify tsigkey_properties tsigkey.
Definition update_tsigkey (tsigkey_id : string) : A response :=
  let! values := json in
  let! tsigkey := central "find_tsigkey" [key_criterion tsigkey_id] in
  let! tsigkey_data := faulty (filter tsigkey_properties tsigkey) in
  let! tsigkey_data := faulty (dict_update tsigkey_data values) in
  validate "tsigkey" tsigkey_data ;;;
  let! tsigkey := faulty (obj_update tsigkey values) in
  let! tsigkey := central "update_tsigkey" [tsigkey] in
  jsonify tsigkey_properties tsigkey.
Definition delete_tsigkey (tsigkey_id : string) : A response :=
  central "find_tsigkeys" [key_criterion tsigkey_id] ;;;
  central "delete_tsigkey" [PStr tsigkey_id] ;;;
  empty_response.

(** ** Extensions (extensions/quotas.py, sync.py, touch.py, reports.py, diagnostics.py) *)
Definition KEYS_TO_SWAP : list (string * string) :=
  [("zones", "domains"); ("zone_records", "domain_records"); ("zone_recordsets", "domain_recordsets");
   ("recordset_records", "recordset_records"); ("api_export_size", "api_export_size")].
Definition KEYS_TO_SWAP_REVERSE : list (string * string) :=
  [("domains", "zones"); ("domain_records", "zone_records"); ("domain_recordsets", "zone_recordsets");
   ("recordset_records", "recordset_records"); ("api_export_size", "api_export_size")].
Definition swap_keys (quotas : list (string * pyval)) (reverse : bool) : R (list (string * pyval)) :=
  rmap (fun '(k, v) => match aget k (if reverse then KEYS_TO_SWAP_REVERSE else KEYS_TO_SWAP) with
                       | Some k' => Ok (k', v)
                       | None => Raise (Py PyKeyError)
                       end) quotas.
Definition respond (v : pyval) : A response := ret {| status := 200; r_headers := []; r_body := v |}.
Definition ping_host (topic host : string) : A response :=
  let! ctxt := the_context in
  let! pong := in_world (call (topic ++ "." ++ host) "ping" [context_dict ctxt]) in respond pong.
Definition get_quotas (tenant_id : string) : A response :=
  let! quotas := central "get_quotas" [PStr tenant_id] in
  let! d := need_dict quotas in
  let! quotas := faulty (swap_keys d false) in respond (PDict quotas).
Definition set_quota (tenant_id : string) : A response :=
  let! values := json in
  let! d := need_dict values in
  let! values := faulty (swap_keys d true) in
  mfor values (fun '(resource, hard_limit) => central "set_quota" [PStr tenant_id; PStr resource; hard_limit] ;;; ret tt) ;;;
  get_quotas tenant_id.
Definition reset_quotas (tenant_id : string) : A response := central "reset_quotas" [PStr tenant_id] ;;; empty_response.
Definition touch_domain (domain_id : string) : A response := central "touch_zone" [PStr domain_id] ;;; empty_response.
Definition sync_domains : A response := central "sync_zones" [] ;;; empty_response.
Definition sync_domain (domain_id : string) : A response := central "sync_zone" [PStr domain_id] ;;; empty_response.
Definition sync_record (domain_id record_id : string) : A response :=
  let! record := central "find_record" [PDict [("id", PStr record_id)]] in
  let! recordset_id := faulty (subscript record "recordset_id") in
  central "sync_record" [PStr domain_id; recordset_id; PStr record_id] ;;; empty_response.
Definition reports_tenants : A response :=
  let! tenants := central "find_tenants" [] in respond (PDict [("tenants", tenants)]).
Definition reports_tenant (tenant_id : string) : A response := let! tenant := central "get_tenant" [PStr tenant_id] in respond tenant.
Definition reports_counts : A response :=
  let! tenants := central "count_tenants" [] in
  let! domains := central "count_zones" [] in
  let! records := central "count_records" [] in
  respond (PDict [("tenants", tenants); ("domains", domains); ("records", records)]).
Definition reports_counts_tenants : A response := let! count := central "count_tenants" [] in respond (PDict [("tenants", count)]).
Definition reports_counts_domains : A response := let! count := central "count_zones" [] in respond (PDict [("domains", count)]).
Definition reports_counts_records : A response := let! count := central "count_records" [] in respond (PDict [("records", count)]).
End Handlers.
