(* ===== verification/ApiV1Facts.v ===== *)
(** * Version 1 of the API: theorems *)
From Stdlib Require Import ZArith Lia String.
From stdpp Require Import base option numbers strings sets list.
From S2P Require Import Prelude PyStr Exceptions Values Objects Utils Classes ObjectLists World Rrdata Formats Validation AdapterTables Adapters Api ApiFacts Rpc ApiV2 ApiV2Facts ApiV1.
Local Open Scope string_scope.

Section V1.
Context `{Env} `{Services} `{V1Schemas}.
Variable json_load : string -> option pyval.
Variable request : rest_request.

Lemma emits_json P s : Emits P (json json_load request) s.
Proof. apply emits_quiet. unfold json. by case_match. Qed.
Lemma emits_validate P name v s : Emits P (validate name v) s.
Proof. apply emits_quiet. unfold validate. by case_match. Qed.
Lemma emits_need_dict P v s : Emits P (need_dict v) s.
Proof. apply emits_quiet. by destruct v. Qed.
Lemma json_Ok s v s1 : json json_load request s = (Ok v, s1) -> s1 = s.
Proof. unfold json. case_match; by intros [= _ <-]. Qed.
Lemma validate_Ok name v s u s1 : validate name v s = (Ok u, s1) -> s1 = s /\ v1_errors name v = [].
Proof. unfold validate. destruct (v1_errors name v); by intros [= _ <-]. Qed.
Lemma need_dict_Ok v s d s1 : need_dict v s = (Ok d, s1) -> s1 = s /\ v = PDict d.
Proof. destruct v; try done. by intros [= <- <-]. Qed.

Lemma emits_weaken (P Q : message -> Prop) {T} (m : A T) s : (forall x, P x -> Q x) -> Emits P m s -> Emits Q m s.
Proof. intros HPQ (sent & Hs & Hp). exists sent. split; [done|]. by eapply Forall_impl. Qed.

(** What a changing request may send to central: it looks for the zone among the primary
    zones that are not being deleted, and everything else follows an answer; records are
    updated and deleted as they were found in the zone, unless they are managed. *)
Definition found_zone (domain_id : string) : Prop := exists zone, answers_with "find_zone" [live_primary domain_id] zone.
Definition asks_zone (c : context) (domain_id : string) (m : message) : Prop :=
  m = Cast "central" "find_zone" [context_dict c; live_primary domain_id].
Definition guarded (c : context) (domain_id record_id : string) (m : message) : Prop :=
  asks_zone c domain_id m \/
  (found_zone domain_id /\
   (forall args, m = Cast "central" "update_record" args ->
      exists record managed changes new,
        answers_with "find_record" [record_criterion domain_id record_id] record /\
        getattr registry record "managed" = Ok managed /\
        (truthy managed = true -> edit_managed_records c = true) /\
        update registry record changes = Ok new /\ args = [context_dict c; new; PBool true]) /\
   (forall args, m = Cast "central" "delete_record" args ->
      exists record recordset_id,
        answers_with "find_record" [record_criterion domain_id record_id] record /\
        getattr registry record "managed" <> Ok (PBool true) /\
        getattr registry record "recordset_id" = Ok recordset_id /\
        args = [context_dict c; PStr domain_id; recordset_id; PStr record_id; PBool true])).

Lemma asks_zone_first c domain_id record_id s :
  a_context s = Some c -> Emits (guarded c domain_id record_id) (find_live_primary domain_id) s.
Proof.
  intros Hc. apply emits_central. intros c' m Hc' Hi. simplify_eq.
  vm_compute in Hi. injection Hi as <-. by left.
Qed.
Lemma found_Ok domain_id s zone s1 :
  find_live_primary domain_id s = (Ok zone, s1) -> found_zone domain_id /\ a_context s1 = a_context s.
Proof. intros Hz. split; [by exists zone, s, s1|by eapply central_context]. Qed.
(** The messages that are neither an update nor a deletion of a record. *)
Lemma guarded_other c domain_id record_id m :
  found_zone domain_id -> (forall args, m <> Cast "central" "update_record" args) ->
  (forall args, m <> Cast "central" "delete_record" args) -> guarded c domain_id record_id m.
Proof. intros Hf Hu Hd. right. split_and!; [done|intros args Hm; by destruct (Hu args)|intros args Hm; by destruct (Hd args)]. Qed.
End V1.

Ltac v1_other :=
  match goal with
  | Hi : invoke central_client _ _ [] = Ok _ |- _ =>
      vm_compute in Hi; injection Hi as <-; apply guarded_other; [assumption|intros ? [=]|intros ? [=]]
  end.
#[export] Hint Resolve emits_json emits_validate emits_need_dict : emits.

Section Guarded.
Context `{Env} `{Services} `{V1Schemas}.
Variable json_load : string -> option pyval.
Variable request : rest_request.

Lemma update_record_guarded domain_id record_id s c :
  a_context s = Some c -> Emits (guarded c domain_id record_id) (update_record json_load request domain_id record_id) s.
Proof.
  intros Hc. unfold update_record.
  apply emits_bind; [apply emits_json|intros values ? ->%json_Ok].
  apply emits_bind; [by apply asks_zone_first|intros zone s1 [Hf Hc1]%found_Ok].
  apply emits_bind; [apply emits_central; intros; v1_other|intros record s2 Hrec].
  pose proof (central_context _ _ _ _ _ Hrec) as Hc2.
  apply emits_bind; [apply emits_faulty|intros managed ? [Hm ->]%faulty_Ok].
  apply emits_bind; [apply emits_context|intros c' ? [Hc' ->]%the_context_spec].
  apply emits_bind; [apply emits_raise_if|intros _ ? [Hok ->]%raise_if_passes].
  apply emits_bind; [apply emits_faulty|intros recordset_id ? [_ ->]%faulty_Ok].
  apply emits_bind; [apply emits_central; intros; v1_other|intros recordset s3 Hrs].
  pose proof (central_context _ _ _ _ _ Hrs) as Hc3.
  do 3 (apply emits_bind; [apply emits_faulty|intros ? ? [_ ->]%faulty_Ok]).
  apply emits_bind; [apply emits_validate|intros _ ? [-> _]%validate_Ok].
  apply emits_bind; [apply emits_need_dict|intros d ? [-> ->]%need_dict_Ok].
  apply emits_bind; [apply emits_faulty|intros changes ? [_ ->]%faulty_Ok].
  apply emits_bind; [apply emits_faulty|intros new ? [Hnew ->]%faulty_Ok].
  apply emits_bind.
  - apply emits_central. intros c2 m Hc2' Hi. vm_compute in Hi. injection Hi as <-.
    right. split_and!; [done| |intros ? [=]]. intros args [= <-].
    exists record, managed, changes, new. split_and!; [by exists s1, s2|done| |done|].
    + intros Ht. rewrite Ht in Hok. replace c' with c in Hok by congruence. by destruct (edit_managed_records c).
    + replace c2 with c by congruence. done.
  - intros ? ? _. apply emits_bind; [apply emits_faulty|intros rs ? [_ ->]%faulty_Ok].
    apply emits_bind; [|intros ? ? _; unfold jsonify; repeat emits_step idtac].
    case_match; [|solve [auto with emits]]. apply emits_central; intros; v1_other.
Qed.
Lemma delete_record_guarded domain_id record_id s c :
  a_context s = Some c -> Emits (guarded c domain_id record_id) (delete_record domain_id record_id) s.
Proof.
  intros Hc. unfold delete_record.
  apply emits_bind; [by apply asks_zone_first|intros zone s1 [Hf Hc1]%found_Ok].
  apply emits_bind; [apply emits_central; intros; v1_other|intros record s2 Hrec].
  pose proof (central_context _ _ _ _ _ Hrec) as Hc2.
  apply emits_bind; [apply emits_faulty|intros managed ? [Hm ->]%faulty_Ok].
  apply emits_bind; [apply emits_raise_if|intros _ ? [Hok ->]%raise_if_passes].
  apply emits_bind; [apply emits_faulty|intros recordset_id ? [Hid ->]%faulty_Ok].
  apply emits_bind.
  - apply emits_central. intros c2 m Hc2' Hi. vm_compute in Hi. injection Hi as <-.
    right. split_and!; [done|intros ? [=]|]. intros args [= <-].
    exists record, recordset_id. split_and!; [by exists s1, s2| |done|].
    + rewrite Hm. by intros [= ->].
    + replace c2 with c by congruence. done.
  - intros ? ? _. apply emits_bind; [apply emits_faulty|intros ? ? [_ ->]%faulty_Ok].
    unfold _delete_recordset_if_empty, empty_response. repeat emits_step ltac:(idtac; v1_other).
Qed.

Lemma update_domain_guarded domain_id record_id s c :
  a_context s = Some c -> Emits (guarded c domain_id record_id) (update_domain json_load request domain_id) s.
Proof.
  intros Hc. unfold update_domain.
  apply emits_bind; [apply emits_json|intros values ? ->%json_Ok].
  apply emits_bind; [by apply asks_zone_first|intros zone s1 [Hf Hc1]%found_Ok].
  unfold jsonify. repeat emits_step ltac:(idtac; v1_other).
Qed.
Lemma delete_domain_guarded domain_id record_id s c :
  a_context s = Some c -> Emits (guarded c domain_id record_id) (delete_domain domain_id) s.
Proof.
  intros Hc. unfold delete_domain.
  apply emits_bind; [by apply asks_zone_first|intros zone s1 [Hf Hc1]%found_Ok].
  unfold empty_response. repeat emits_step ltac:(idtac; v1_other).
Qed.
Lemma get_domain_servers_guarded domain_id record_id s c :
  a_context s = Some c -> Emits (guarded c domain_id record_id) (get_domain_servers domain_id) s.
Proof.
  intros Hc. unfold get_domain_servers.
  apply emits_bind; [by apply asks_zone_first|intros zone s1 [Hf Hc1]%found_Ok].
  unfold jsonify_servers, jsonify. repeat emits_step ltac:(idtac; v1_other).
Qed.
Definition names_method (m : message) (method : string) : Prop := exists args, m = Cast "central" method args.
Lemma create_record_asks domain_id s :
  Emits (fun m => names_method m "get_recordset" \/ names_method m "create_record") (create_record json_load request domain_id) s.
Proof.
  unfold create_record, jsonify_located.
  repeat emits_step ltac:(idtac; match goal with
    | Hi : invoke central_client ?method _ [] = Ok _ |- _ => first [left; by eexists|right; by eexists] end).
Qed.
(** The requests of version 1 that change or delete a domain or a record of it, and the one
    for its servers, first ask for the domain among the primary zones that are not being
    deleted, and send nothing else unless central has answered; a record is updated only as it
    was found in that zone, changed, and when it is not managed or the context may edit managed
    records, and deleted only when it is not managed. The creation of a record is the exception:
    it does not look for the zone at all. *)
Theorem v1_changes_guarded domain_id record_id s c :
  a_context s = Some c ->
  (forall handler,
     handler ∈ [update_domain json_load request domain_id; delete_domain domain_id; get_domain_servers domain_id;
                update_record json_load request domain_id record_id; delete_record domain_id record_id] ->
     Emits (guarded c domain_id record_id) handler s) /\
  Emits (fun m => ~ names_method m "find_zone") (create_record json_load request domain_id) s.
Proof.
  intros Hc. split.
  - intros handler Hin. elem_cases Hin;
      [by apply update_domain_guarded|by apply delete_domain_guarded|by apply get_domain_servers_guarded
      |by apply update_record_guarded|by apply delete_record_guarded].
  - eapply emits_weaken; [|apply create_record_asks]. intros m [[args ->]|[args ->]] [args' [=]].
Qed.

(** The request for one key renders a list of keys, and never answers, as long as central
    answers with a list of them. *)
Lemma get_tsigkey_never_answers pool_id tsigkey_id s r s1 :
  (forall said, exists f ch og, reply said = Ok (PObj "TsigKeyList" f ch og)) ->
  get_tsigkey pool_id tsigkey_id s <> (Ok r, s1).
Proof.
  intros Hl (v & s2 & Hc & (b & s3 & [Hb ->]%faulty_Ok & _)%bind_Ok)%bind_Ok.
  unfold central in Hc. apply bind_Ok in Hc as (c & ? & [_ ->]%the_context_spec & Hc).
  apply bind_Ok in Hc as (m & ? & [_ ->]%faulty_Ok & Hcall). unfold in_world, call, bind, send, modify, gets, lift in Hcall.
  destruct (Hl (w_sent (set_sent (app (w_sent (a_world s)) [Cast "central" (rpc_method m) (context_dict c :: (rpc_args m).*2)]) (a_world s)))) as (f & ch & og & Hr).
  cbn in Hcall, Hr. rewrite Hr in Hcall. injection Hcall as <- <-. by vm_compute in Hb.
Qed.
End Guarded.

(** ** An example *)
Definition v1_record : pyval :=
  PObj "Record" [("id", PStr demo_id); ("zone_id", PStr demo_id); ("recordset_id", PStr demo_id);
                 ("data", PStr "192.0.2.1"); ("managed", PBool false)] [] [].
Definition v1_services : Services :=
  {| World.reply := fun log =>
       match last log with
       | Some (Cast _ "find_zone" _) => Ok (PObj "Zone" [("id", PStr demo_id); ("name", PStr "example.org.")] [] [])
       | Some (Cast _ "find_record" _) => Ok v1_record
       | Some (Cast _ "get_recordset" _) => Ok demo_recordset
       | Some (Cast _ "update_record" (_ :: o :: _)) => Ok o
       | _ => Ok PNone
       end |}.
Definition v1_schemas : V1Schemas := fun _ _ => [].
Definition v1_json (_ : string) : option pyval := Some (PDict [("data", PStr "192.0.2.9")]).
Lemma v1_changes_guarded_witness :
  let put := @update_record v1_services v1_schemas v1_json (demo_rest "") demo_id demo_id in
  asked put = ["find_zone"; "find_record"; "get_recordset"; "update_record"] /\
  Emits (@guarded v1_services demo_ctx demo_id demo_id) put demo_state.
Proof.
  intros put. split; [by vm_compute|].
  destruct (@v1_changes_guarded v1_services v1_schemas v1_json (demo_rest "") demo_id demo_id demo_state demo_ctx eq_refl) as [Hall _].
  apply Hall. do 3 right. left.
Defined.
