(* ===== verification/Admin.v ===== *)
(** * The admin API (designate/api/admin/)

    The controllers of quotas, reports, exports and the synchronisation of targets, which ask
    central and the pool manager over their clients, and the views that turn what they answer
    into JSON, with the links between pages. Handlers run in the monad [A] of the middleware. *)
From Stdlib Require Import ZArith Lia Ascii String.
From stdpp Require Import base option numbers strings sets list.
From S2P Require Import Prelude PyStr Exceptions Values Objects Utils Classes World Adapters Api Rpc ApiV2 ApiV2Facts.
Local Open Scope string_scope.

Section Admin.
Context `{Env} `{Services}.
Variable json_load : string -> option pyval.
Variable request : rest_request.

(** ** Views (views/base.py) *)
Definition base_uri : string := rstrip (Ascii.eqb "/") (conf_str "service:api.api_base_uri").
(** [_get_base_href] of a collection: the address up to its name *)
Definition _get_base_href (name : string) : string := rstrip (Ascii.eqb "?") (base_uri ++ "/v2/" ++ name).
Definition _get_resource_href (base : string) (item : pyval) : R string :=
  let? id := subscript item "id" in Ok (rstrip (Ascii.eqb "?") (base ++ "/" ++ show id)).
Definition _get_resource_links (base : string) (item : pyval) : R pyval :=
  let? self := _get_resource_href base item in Ok (PDict [("self", PStr self)]).
(** [_get_collection_href]; the extra parameters go into those of the request, for good. *)
Definition _get_collection_href (base : string) (extra : list (string * string)) : A string := fun s =>
  let params := foldl (fun d kv => aset kv.1 kv.2 d) (a_GET s) extra in
  (Ok (rstrip (Ascii.eqb "?") (base ++ "?" ++ urlencode params)),
   match a_context s with Some c => set_context c params s | None => s end).
(** The default limit of a page can be [None]. *)
Variable default_limit_admin : option Z.
Definition page_limit (get : list (string * string)) : R (option Z) :=
  match aget "limit" get with
  | Some limit =>
      if lower limit =? "max" then Ok (Some (conf_int "service:api.max_limit_admin"))
      else match int_of_str limit with Some n => Ok (Some n) | None => Raise (BadRequest DesignateValueError) end
  | None => Ok default_limit_admin
  end.
Definition last_id (items : list pyval) : R string :=
  match last items with Some item => let? id := subscript item "id" in Ok (show id) | None => Raise (Py PyIndexError) end.
Definition _get_collection_links (base : string) (items : list pyval) : A pyval :=
  let! self := _get_collection_href base [] in
  let! get := gets a_GET in
  let! limit := faulty (page_limit get) in
  if bool_decide (limit = Some (Z.of_nat (length items))) then
    let! id := faulty (last_id items) in
    let! next := _get_collection_href base [("marker", id)] in
    ret (PDict [("self", PStr self); ("next", PStr next)])
  else ret (PDict [("self", PStr self)]).
Definition wants_detail : A bool :=
  gets (fun s => match aget "detail" (a_GET s) with Some d => d =? "yes" | None => false end).
(** [list], [show] with the two representations of an item *)
Definition view_list (base name : string) (show_basic show_detail : pyval -> R pyval) (items : list pyval) : A pyval :=
  let! links := _get_collection_links base items in
  let! detail := wants_detail in
  let! l := faulty (rmap (if detail then show_detail else show_basic) items) in
  ret (PDict [("links", links); ("metadata", PDict []); (name, PList l)]).
Definition view_show (name : string) (show_basic show_detail : pyval -> R pyval) (item : pyval) : A pyval :=
  let! detail := wants_detail in
  let! shown := faulty ((if detail then show_detail else show_basic) item) in
  ret (PDict [(name, shown)]).
(** [_load]: every key has to be one of the valid ones. An array is indexed with the first of
    its elements that is one, and the characters of a string are none. *)
Definition _load (name : string) (valid_keys : list string) (body : pyval) : R (list (string * pyval)) :=
  let? item := subscript body name in
  let none_of (n : nat) : R (list (string * pyval)) := if (n =? 0)%nat then Ok [] else Raise InvalidObject in
  match item with
  | PDict d => if forallb (fun kv => mem_str kv.1 valid_keys) d then Ok d else Raise InvalidObject
  | PList l => if existsb (fun k => existsb (fun v => py_eq (PStr v) k) valid_keys) l then Raise (Py PyTypeError) else none_of (length l)
  | PStr s => none_of (String.length s)
  | _ => Raise (Py PyTypeError)
  end.

(** ** Quotas (extensions/quotas.py) *)
Definition quota_keys : list string := ["zone_records"; "zone_recordsets"; "zones"; "recordset_records"; "api_export_size"].
Definition quota_basic (quota : pyval) : R pyval :=
  let? l := rmap (fun k => let? v := subscript quota k in Ok (k, v))
              ["api_export_size"; "zones"; "zone_records"; "zone_recordsets"; "recordset_records"] in
  Ok (PDict l).
(** [context.all_tenants = True], which the policy has to allow *)
Definition see_all_tenants : A unit := fun s =>
  match a_context s with
  | Some c => match set_all_tenants true c with
              | Ok c' => (Ok tt, set_context c' (a_GET s) s)
              | Raise e => (Raise (bare e), s)
              end
  | None => (Raise (bare (Py PyKeyError)), s)
  end.
(** [schema.Schema('admin', 'quota')]: whether jsonschema finds no error *)
Variable quota_schema : pyval -> bool.
Definition shown_quotas (tenant_id : string) : A response :=
  let! quotas := central "get_quotas" [PStr tenant_id] in
  let! body := view_show "quota" quota_basic quota_basic quotas in answer 200 body.
Definition AdminQuotas_get_one (tenant_id : string) : A response := see_all_tenants ;;; shown_quotas tenant_id.
Definition set_each (tenant_id : string) (values : list (string * pyval)) : A unit :=
  mfor values (fun '(resource, hard_limit) => central "set_quota" [PStr tenant_id; PStr resource; hard_limit] ;;; ret tt).
Definition AdminQuotas_patch_one (tenant_id : string) : A response :=
  see_all_tenants ;;;
  let! body := body_dict json_load request in
  raise_if (negb (quota_schema body)) (bare InvalidObject) ;;;
  let! values := faulty (_load "quota" quota_keys body) in
  set_each tenant_id values ;;; shown_quotas tenant_id.
Definition AdminQuotas_delete_one (tenant_id : string) : A response :=
  see_all_tenants ;;; central "reset_quotas" [PStr tenant_id] ;;; answer 204 (PStr "").

(** ** Reports (extensions/counts.py, tenants.py, views/extensions/reports.py) *)
Definition counts_view (counts : pyval) : A response := answer 200 (PDict [("counts", counts)]).
Definition Counts_get_all : A response := let! counts := central "count_report" [] in counts_view counts.
Definition Counts_get_one (criterion : string) : A response :=
  let! counts := central "count_report" [PStr criterion] in counts_view counts.
Definition tenants_href : string := rstrip (Ascii.eqb "?") (base_uri ++ "/v2/reports/tenants").
Definition tenant_basic (tenant : pyval) : R pyval :=
  let? n := subscript tenant "zone_count" in let? id := subscript tenant "id" in
  let? links := _get_resource_links tenants_href tenant in
  Ok (PDict [("zone_count", n); ("id", id); ("links", links)]).
Definition tenant_detail (tenant : pyval) : R pyval :=
  let? n := subscript tenant "zone_count" in let? zones := subscript tenant "zones" in let? id := subscript tenant "id" in
  let? links := _get_resource_links tenants_href tenant in
  Ok (PDict [("zones_count", n); ("zones", zones); ("id", id); ("links", links)]).
Definition items_of_list (v : pyval) : R (list pyval) :=
  match v with PList l => Ok l | PObj _ _ _ _ => Ok (list_objects v) | _ => Raise (Py PyTypeError) end.
Definition Tenants_get_all : A response :=
  let! tenants := central "find_tenants" [] in
  let! items := faulty (items_of_list tenants) in
  let! body := view_list tenants_href "tenants" tenant_basic tenant_detail items in answer 200 body.
Definition Tenants_get_one (tenant_id : string) : A response :=
  let! tenant := central "get_tenant" [PStr tenant_id] in
  let! body := faulty (tenant_detail tenant) in answer 200 body.

(** ** Exports and targets (extensions/export.py, target_sync.py) *)
Definition Export_get_one (zone_id : string) : A response :=
  uuids [("zone_id", zone_id)] ;;;
  let! ctxt := the_context in
  faulty (check "zone_export" ctxt []) ;;;
  let! zones := central "export_zone" [PStr zone_id] in answer 200 zones.
(** [pool_mgr_api.target_sync], at the topic of the pool *)
Definition pool_manager (pool_id : string) (method : string) (args : list pyval) : A pyval :=
  let! ctxt := the_context in
  let! m := faulty (invoke pool_manager_client method args []) in
  in_world (call (pool_topic "pool_manager" pool_id) (rpc_method m) (context_dict ctxt :: (rpc_args m).*2)).
(** [f not in body] *)
Fixpoint within (sub s : string) : bool := startswith sub s || match s with EmptyString => false | String _ s' => within sub s' end.
Definition lacks_field (body : pyval) (f : string) : R bool :=
  match body with
  | PDict d => Ok (negb (mem_str f d.*1))
  | PList l => Ok (negb (existsb (py_eq (PStr f)) l))
  | PStr s => Ok (negb (within f s))
  | _ => Raise (Py PyTypeError)
  end.
Definition TargetSync_post_all : A response :=
  let! body := body_dict json_load request in
  mfor ["target_id"; "timestamp"] (fun f =>
    let! lacks := faulty (lacks_field body f) in raise_if lacks (bare (BadRequest BR_Base))) ;;;
  let! timestamp := faulty (subscript body "timestamp") in
  raise_if (negb match timestamp with PInt n => (0 <=? n)%Z | PBool _ => true | _ => false end) (bare (BadRequest BR_Base)) ;;;
  let pool_id := conf_str "service:pool_manager.pool_id" in
  let! target_id := faulty (subscript body "target_id") in
  let! message := pool_manager pool_id "target_sync" [PStr pool_id; target_id; timestamp] in
  answer 200 (PDict [("message", message)]).
End Admin.

(** ** Theorems *)
Section Checked.
Context `{Env} `{Services}.
Variable json_load : string -> option pyval.
Variable request : rest_request.
Variable quota_schema : pyval -> bool.
Abbreviation patch := (AdminQuotas_patch_one json_load request quota_schema).

(** What a change of quotas may send: the limits of a body that passed every check, in the
    context of the request with the sight of all tenants, and a look-up. *)
Inductive quota_message (c : context) (tenant_id : string) : message -> Prop :=
| limit_set c' body d k v s1 s2 :
    set_all_tenants true c = Ok c' -> body_dict json_load request s1 = (Ok body, s2) -> quota_schema body = true ->
    subscript body "quota" = Ok (PDict d) -> Forall (fun kv => mem_str kv.1 quota_keys = true) d -> (k, v) ∈ d ->
    quota_message c tenant_id (Cast "central" "set_quota" [context_dict c'; PStr tenant_id; PStr k; v])
| limits_read c' : set_all_tenants true c = Ok c' -> quota_message c tenant_id (Cast "central" "get_quotas" [context_dict c'; PStr tenant_id]).

Lemma see_all_spec s r s' : see_all_tenants s = (r, s') ->
  a_world s' = a_world s /\ forall u c, r = Ok u -> a_context s = Some c -> exists c', set_all_tenants true c = Ok c' /\ a_context s' = Some c'.
Proof.
  unfold see_all_tenants. destruct (a_context s) as [c|] eqn:Hc; [|intros [= <- <-]; done].
  destruct (set_all_tenants true c) as [c'|e] eqn:Ha; intros [= <- <-]; [|done]. split; [done|]. intros u c1 _ [= <-]. by exists c'.
Qed.
Lemma central_keeps method args s r s' : central method args s = (r, s') -> a_context s' = a_context s.
Proof.
  unfold central, bind, the_context. destruct (a_context s) as [c|] eqn:Hc; [|by intros [= <- <-]].
  unfold faulty. destruct (invoke central_client method args []) as [m|e]; [|by intros [= <- <-]].
  unfold in_world. destruct (call _ _ _ (a_world s)) as [r1 w1]. by intros [= <- <-].
Qed.
Lemma load_Ok body d : _load "quota" quota_keys body = Ok d ->
  (d <> [] -> subscript body "quota" = Ok (PDict d)) /\ Forall (fun kv => mem_str kv.1 quota_keys = true) d.
Proof.
  unfold _load. destruct (subscript body "quota") as [[]|]; cbn [rbind]; try done.
  - destruct (_ =? _)%nat; [|done]. by intros [= <-].
  - destruct (existsb _ _); [done|]. destruct (_ =? _)%nat; [|done]. by intros [= <-].
  - destruct (forallb _ _) eqn:Hf; intros [= <-]. split; [done|]. apply Forall_forall. intros kv Hkv.
    rewrite forallb_forall in Hf. apply Hf. by apply list_elem_of_In.
Qed.
Lemma emits_see_all P s : Emits P see_all_tenants s.
Proof. apply emits_quiet. destruct (see_all_tenants s) as [r s'] eqn:E. exact (proj1 (see_all_spec _ _ _ E)). Qed.
Lemma emits_mfor_in P {X} (l : list X) (f : X -> A unit) (I : astate -> Prop) s :
  I s -> (forall x s1, x ∈ l -> I s1 -> Emits P (f x) s1 /\ forall r s2, f x s1 = (r, s2) -> I s2) -> Emits P (mfor l f) s.
Proof.
  revert s. induction l as [|x l IH]; intros s Hs Hf; cbn [mfor]; [apply emits_ret|].
  destruct (Hf x s ltac:(by left) Hs) as [He Hi]. apply emits_bind; [done|]. intros u s1 Hx. apply IH; [by eapply Hi|].
  intros y s2 Hy. apply Hf. by right.
Qed.
Lemma faulty_keeps {T} (r : R T) s a s1 : faulty r s = (Ok a, s1) -> r = Ok a /\ s1 = s.
Proof. unfold faulty. destruct r; by intros [= <- <-]. Qed.

(** Quotas are changed all together or not at all, as far as the request goes: nothing is sent
    unless the policy lets the caller see all tenants, the schema accepts the body and every key
    is that of a quota; then each limit is sent as it was given, for the tenant of the address,
    and the quotas are read for the answer. *)
Theorem admin_quotas_checked tenant_id s c :
  a_context s = Some c -> Emits (quota_message c tenant_id) (patch tenant_id) s.
Proof.
  intros Hc. unfold AdminQuotas_patch_one. apply emits_bind; [apply emits_see_all|]. intros u s1 Hs1.
  destruct (see_all_spec _ _ _ Hs1) as [_ Hs]. destruct (Hs u c eq_refl Hc) as (c' & Ha & Hc1). clear Hs Hs1 u.
  assert (Hget : forall s2, a_context s2 = Some c' -> Emits (quota_message c tenant_id) (shown_quotas tenant_id) s2).
  { intros s2 Hc2. unfold shown_quotas. apply emits_bind; [|intros ? ? ?; unfold view_show, wants_detail; repeat emits_step idtac].
    apply emits_central. intros c2 m Hc2' Hi. vm_compute in Hi. injection Hi as <-. replace c2 with c' by congruence. by apply limits_read. }
  apply emits_bind; [apply emits_body_dict|]. intros body s2 Hb. assert (s2 = s1) as -> by (by apply faulty_keeps in Hb as [_ ->]).
  apply emits_bind; [apply emits_raise_if|]. intros u s2 Hq.
  assert (quota_schema body = true /\ s2 = s1) as [Hschema ->] by (unfold raise_if in Hq; destruct (quota_schema body); cbn in Hq; [split; [done|]; unfold ret in Hq; by inversion Hq|unfold raise in Hq; discriminate]). clear Hq u.
  apply emits_bind; [apply emits_faulty|]. intros values s2 [[Hsub Hall]%load_Ok ->]%faulty_keeps.
  apply emits_bind.
  - unfold set_each. apply (emits_mfor_in _ _ _ (fun s3 => a_context s3 = Some c')); [done|].
    intros [k v] s3 Hkv Hc3. split.
    + apply emits_bind; [|intros; apply emits_ret]. apply emits_central. intros c2 m Hc2 Hi. vm_compute in Hi. injection Hi as <-.
      replace c2 with c' by congruence. eapply limit_set; try done. apply Hsub. by intros ->; apply not_elem_of_nil in Hkv.
    + intros r s4 Er. unfold bind in Er. destruct (central _ _ s3) as [[a|e] s5] eqn:E; injection Er as _ <-; apply central_keeps in E; congruence.
  - intros u s2 E. apply Hget.
    assert (Hk : forall l s3 r s4, set_each tenant_id l s3 = (r, s4) -> a_context s4 = a_context s3).
    { induction l as [|[k v] l IH]; intros s3 r s4; unfold set_each; cbn [mfor]; [by intros [= <- <-]|].
      unfold bind at 1 2. destruct (central _ _ s3) as [[a|e] s5] eqn:Ec; [|intros [= <- <-]; by apply central_keeps in Ec].
      cbn. intros El. apply IH in El. by rewrite El, (central_keeps _ _ _ _ _ Ec). }
    by rewrite (Hk _ _ _ _ E).
Qed.
End Checked.
