(* ===== verification/Manage.v ===== *)
(** * Commands of designate-manage (designate/manage/pool.py, manage/tlds.py)

    The commands run with the admin context, in the monad [A] of the API: they ask central over
    its client. YAML and CSV files are read and written by libraries; a command returns what it
    writes, prints or reports, or that it exits with status 1. *)
From Stdlib Require Import ZArith Lia Ascii String.
From stdpp Require Import base option numbers strings sets list.
From S2P Require Import Prelude PyStr Exceptions Values Objects Utils Classes ObjectLists World Rrdata Formats Validation AdapterTables Adapters Api Rpc AdaptersFacts AdaptersYaml ApiV2 ApiV2Facts.
Local Open Scope string_scope.

(** [Ended]: the end of a command; [Exit1]: [sys.exit(1)] *)
Inductive ended (T : Type) := Ended (t : T) | Exit1.
Arguments Ended {T} _.
Arguments Exit1 {T}.

Section Commands.
Context `{Env} `{Services} `{Schemas}.
Variable set_iter : list pyval -> list pyval.
(** ["%s" % pool] *)
Variable text_of : pyval -> string.

Definition on_timeout {T} (m : A (ended T)) : A (ended T) :=
  try_except m (fun f => match f_exc f with Py MessagingTimeout => Some (ret Exit1) | _ => None end).
(** [DesignateAdapter.render('YAML', o)], [DesignateAdapter.parse('YAML', xpool, pool)] *)
Definition render_yaml (o : pyval) : A pyval :=
  faulty (render nesting {| k_request := None; k_context := None; k_failed_object := None |} "YAML" o).
Definition parse_yaml (xpool pool : pyval) : A pyval := faulty (Adapters.parse set_iter nesting "YAML" xpool pool).
Definition iterated (v : pyval) : A (list pyval) :=
  match v with
  | PList l => ret l
  | PObj c _ _ _ => if is_list_class registry c then ret (list_objects v) else raise (bare (Py PyTypeError))
  | _ => raise (bare (Py PyTypeError))
  end.

(** ** Pools (PoolCommands) *)
Definition found_pools : A (ended pyval) :=
  on_timeout (let! pools := central "find_pools" [] in ret (Ended pools)).
Definition generate_file : A (ended pyval) :=
  let! pools := found_pools in
  match pools with Exit1 => ret Exit1 | Ended pools => let! y := render_yaml pools in ret (Ended y) end.
Definition show_config (pool_id : string) : A (ended pyval) :=
  on_timeout (let! pool := central "find_pool" [PDict [("id", PStr pool_id)]] in
              let! y := render_yaml pool in ret (Ended y)).

(** *** What export_from_config reads of the configuration (Pool.from_config) *)
Record pool_conf := {
  c_targets : list (string * (string * list string * list (string * string)));  (* type, masters, options *)
  c_nameservers : list (string * (string * Z));
  c_also_notifies : list string;
}.
Variable CONF_pool : string -> pool_conf.
Variable CONF_host : string.
Definition host_port (s : string) : pyval :=
  let '(host, port) := split_host_port s 53 in PDict [("host", PStr host); ("port", PInt port)].
Definition from_config (pool_id : string) : R pyval :=
  let c := CONF_pool pool_id in
  from_dict nesting "Pool" (PDict [
    ("id", PStr pool_id); ("description", PStr ("Pool built from configuration on " ++ CONF_host));
    ("targets", PList (map (fun '(id, (type, masters, options)) =>
       PDict [("id", PStr id); ("type", PStr type); ("masters", PList (map host_port masters));
              ("options", PList (map (fun '(k, v) => PDict [("key", PStr k); ("value", PStr v)]) options))]) (c_targets c)));
    ("nameservers", PList (map (fun '(id, (host, port)) =>
       PDict [("id", PStr id); ("host", PStr host); ("port", PInt port)]) (c_nameservers c)));
    ("also_notifies", PList (map host_port (c_also_notifies c)))]).
Definition export_one (pool : pyval) : A pyval :=
  let! id := attr pool "id" in
  let! r_pool := faulty (from_config (show id)) in
  let! ns_records := attr pool "ns_records" in
  let! attributes := attr pool "attributes" in
  faulty (update registry r_pool [("id", id); ("ns_records", ns_records); ("attributes", attributes)]).
Definition export_from_config : A (ended pyval) :=
  let! pools := found_pools in
  match pools with
  | Exit1 => ret Exit1
  | Ended pools =>
      let! l := iterated pools in
      let! r_pools := mmap export_one l in
      let! empty := faulty (Adapters.new "PoolList") in
      let! y := render_yaml (foldl append empty r_pools) in ret (Ended y)
  end.

(** *** update: the pools as a file describes them *)
(** [ns_record.validate()]: the first that is not valid ends the command. *)
Fixpoint all_valid (l : list pyval) : A bool :=
  match l with
  | [] => ret true
  | ns_record :: l =>
      match Validation.validate object_errors ns_record with
      | Valid => all_valid l
      | Invalid _ => ret false
      | Fails e => raise (bare e)
      end
  end.
Definition ns_records_valid (pool : pyval) : A (ended pyval) :=
  let! ns_records := attr pool "ns_records" in
  let! l := iterated ns_records in
  let! valid := all_valid l in
  ret (if valid then Ended pool else Exit1).
Definition then_ {T U} (m : A (ended T)) (k : T -> A (ended U)) : A (ended U) :=
  let! e := m in match e with Ended t => k t | Exit1 => ret Exit1 end.
(** [except exceptions.PoolNotFound: ... except MessagingTimeout: ...] of one try *)
Definition pool_handlers {T} (create : A (ended T)) (m : A (ended T)) : A (ended T) :=
  try_except m (fun f => match f_exc f with
                         | NotFound PoolNotFound => Some create
                         | Py MessagingTimeout => Some (ret Exit1)
                         | _ => None
                         end).
(** The pool of a description that has an identifier, [None]: a bad one; or of its name *)
Definition existing_pool (xpool : pyval) : A (option pyval) :=
  let! with_id := faulty (has_key xpool "id") in
  if with_id then
    try_except (let! id := faulty (subscript xpool "id") in let! pool := central "get_pool" [id] in ret (Some pool))
      (fun f => match f_exc f with
                | Py Blocked | Py (EventletTimeout _) => None
                | _ => Some (faulty (subscript xpool "name") ;;; ret None)
                end)
  else
    let! name := faulty (subscript xpool "name") in
    let! pool := central "find_pool" [PDict [("name", name)]] in ret (Some pool).
(** One description; the lines of the output it adds. *)
Definition update_one (dry_run : bool) (xpool : pyval) : A (ended (list string)) :=
  pool_handlers
    (let! new := faulty (Adapters.new "Pool") in
     let! pool := parse_yaml xpool new in
     then_ (ns_records_valid pool) (fun pool =>
       if dry_run then ret (Ended ["Create Pool: " ++ text_of pool])
       else central "create_pool" [pool] ;;; ret (Ended [])))
    (let! found := existing_pool xpool in
     match found with
     | None => ret (Ended [])
     | Some pool =>
         let! pool := parse_yaml xpool pool in
         then_ (ns_records_valid pool) (fun pool =>
           if dry_run then ret (Ended ["Update Pool: " ++ text_of pool])
           else central "update_pool" [pool] ;;; ret (Ended []))
     end).
Fixpoint each {X} (f : X -> A (ended (list string))) (l : list X) : A (ended (list string)) :=
  match l with
  | [] => ret (Ended [])
  | x :: l => then_ (f x) (fun lines => then_ (each f l) (fun more => ret (Ended (app lines more))))
  end.
Definition delete_one (dry_run : bool) (name : pyval) : A (ended (list string)) :=
  on_timeout
    (let! p := central "find_pool" [PDict [("name", name)]] in
     if dry_run then ret (Ended ["Delete Pool: " ++ text_of p])
     else let! id := attr p "id" in central "delete_pool" [id] ;;; ret (Ended [])).
(** [pools_in_db - pools_in_yaml] *)
Fixpoint distinct (l : list pyval) : list pyval :=
  match l with [] => [] | v :: l => v :: List.filter (fun w => negb (py_eq w v)) (distinct l) end.
Definition without (l l' : list pyval) : list pyval := List.filter (fun v => negb (existsb (py_eq v) l')) (distinct l).
Definition delete_others (dry_run : bool) (xpools : list pyval) : A (ended (list string)) :=
  let! pools := central "find_pools" [] in
  let! l := iterated pools in
  let! pools_in_db := mmap (fun pool => attr pool "name") l in
  let! pools_in_yaml := mmap (fun xpool => faulty (subscript xpool "name")) xpools in
  each (delete_one dry_run) (set_iter (without pools_in_db pools_in_yaml)).
Definition update (xpools : pyval) (delete dry_run : bool) : A (ended (list string)) :=
  let! xpools := iterated xpools in
  let heading := if dry_run then ["The following changes will occur:"; "*********************************"] else [] in
  then_ (each (update_one dry_run) xpools) (fun changes =>
  then_ (if delete then delete_others dry_run xpools else ret (Ended [])) (fun deletions =>
    ret (Ended ("" :: app heading (app changes deletions))))).

(** ** TLDs (TLDCommands) *)
(** A row of csv.DictReader: with a name, perhaps a description and further fields *)
Record tld_line := { l_name : pyval; l_description : pyval; extra_fields : list string }.
Definition line_of (row : list string) : tld_line :=
  match row with
  | [] => {| l_name := PNone; l_description := PNone; extra_fields := [] |}
  | [n] => {| l_name := PStr n; l_description := PNone; extra_fields := [] |}
  | n :: d :: l => {| l_name := PStr n; l_description := PStr d; extra_fields := l |}
  end.
(** Empty rows are passed over. *)
Definition lines_of (rows : list (list string)) : list tld_line :=
  map line_of (List.filter (fun row => match row with [] => false | _ => true end) rows).
(** [repr] of a list of strings, as [str.format] prints it *)
Variable repr_list : list string -> string.
Definition _convert_tld_dict_to_str (line : tld_line) : string :=
  let entry k v := "'" ++ k ++ "': '" ++ v ++ "', " in
  let part k v := if truthy v then entry k (show v) else "" in
  let dict_str := part "name" (l_name line) ++ part "description" (l_description line) ++
                  match extra_fields line with [] => "" | l => entry "extra_fields" (repr_list l) end in
  "{" ++ rstrip (fun c => Ascii.eqb c " " || Ascii.eqb c ",") dict_str ++ "}".
(** Whether the TLD was added, or the line of the error *)
Definition _validate_and_create_tld (line : tld_line) : A (option string) :=
  if negb (is_tldname (l_name line)) then ret (Some ("InvalidTld --> " ++ _convert_tld_dict_to_str line))
  else if match l_description line with PStr d => (160 <? String.length d)%nat | _ => false end
  then ret (Some ("InvalidDescription --> " ++ _convert_tld_dict_to_str line))
  else
    try_except
      (let! tld := faulty (from_dict nesting "Tld" (PDict [("name", l_name line); ("description", l_description line)])) in
       central "create_tld" [tld] ;;; ret None)
      (fun f => match f_exc f with
                | Duplicate DuplicateTld => Some (ret (Some ("DuplicateTld --> " ++ _convert_tld_dict_to_str line)))
                | _ => None
                end).
Definition import_line (acc : nat * list string) (line : tld_line) : A (nat * list string) :=
  let '(tlds_added, error_lines) := acc in
  match extra_fields line with
  | _ :: _ => ret (tlds_added, app error_lines ["InvalidLine --> " ++ _convert_tld_dict_to_str line])
  | [] =>
      let! error := _validate_and_create_tld line in
      match error with
      | Some e => ret (tlds_added, app error_lines [e])
      | None => ret (S tlds_added, error_lines)
      end
  end.
(** [from_file] on the rows of the file, [None] when there is no file: the number of TLDs added,
    and the errors, which are sorted for the report *)
Variable sorted : list string -> list string.
Definition from_file (rows : option (list (list string))) : A (nat * list string) :=
  match rows with
  | None => raise (bare (Py PyException))
  | Some rows =>
      let! '(tlds_added, error_lines) := mfold (lines_of rows) (O, []) import_line in
      ret (tlds_added, sorted error_lines)
  end.
End Commands.

(** * Commands of designate-manage: theorems *)
Section Pools.
Context `{Env} `{Services} `{Schemas}.
Variable set_iter : list pyval -> list pyval.
Variable text_of : pyval -> string.

(** ** What an update of the pools may send *)
Definition listed_in (v : pyval) (l : list pyval) : Prop := v = PList l \/ exists c f ch og, v = PObj c f ch og /\ l = list_objects v.
(** Every name server record of the pool has passed its validation. *)
Definition servers_valid (pool : pyval) : Prop :=
  exists ns l, getattr registry pool "ns_records" = Ok ns /\ listed_in ns l /\
    Forall (fun r => Validation.validate object_errors r = Valid) l.
Definition unnamed (xpools : list pyval) (name : pyval) : Prop :=
  forall xpool v, xpool ∈ xpools -> subscript xpool "name" = Ok v -> py_eq name v = false.
Inductive allowed (xpools : list pyval) (delete dry_run : bool) : message -> Prop :=
| reading m : reads m = true -> allowed xpools delete dry_run m
| storing method c xpool old pool :
    dry_run = false -> method ∈ ["create_pool"; "update_pool"] -> xpool ∈ xpools ->
    Adapters.parse set_iter nesting "YAML" xpool old = Ok pool -> servers_valid pool ->
    allowed xpools delete dry_run (Cast "central" method [context_dict c; pool])
| deleting c name p id :
    dry_run = false -> delete = true -> unnamed xpools name ->
    answers_with "find_pool" [PDict [("name", name)]] p -> getattr registry p "id" = Ok id ->
    allowed xpools delete dry_run (Cast "central" "delete_pool" [context_dict c; id]).

Section Allowed.
Variables (xpools : list pyval) (delete dry_run : bool).
Abbreviation Safe m s := (Emits (allowed xpools delete dry_run) m s).

Lemma safe_iterated v s : Safe (iterated v) s.
Proof. apply emits_quiet. unfold iterated. destruct v; try done. by case_match. Qed.
Lemma iterated_Ok v s l s1 : iterated v s = (Ok l, s1) -> s1 = s /\ listed_in v l.
Proof.
  unfold iterated. destruct v; try done; [by intros [= <- <-]; split; [|left]|].
  case_match; [|done]. intros [= <- <-]. split; [done|]. right. by eexists _, _, _, _.
Qed.
Lemma safe_valid l s : Safe (all_valid l) s.
Proof. apply emits_quiet. induction l as [|r l IH]; [done|]. cbn. by case_match. Qed.
Lemma all_valid_Ok l s s1 : all_valid l s = (Ok true, s1) -> s1 = s /\ Forall (fun r => Validation.validate object_errors r = Valid) l.
Proof.
  induction l as [|r l IH]; cbn; [by intros [= <-]|]. case_match; [|done..].
  intros [-> Hl]%IH. split; [done|by constructor].
Qed.
Lemma safe_servers pool s : Safe (ns_records_valid pool) s.
Proof.
  unfold ns_records_valid. apply emits_bind; [apply emits_faulty|]. intros ns s1 _.
  apply emits_bind; [apply safe_iterated|]. intros l s2 _. apply emits_bind; [apply safe_valid|]. intros [] s3 _; auto with emits.
Qed.
Lemma servers_Ok pool s p s1 : ns_records_valid pool s = (Ok (Ended p), s1) -> p = pool /\ servers_valid pool.
Proof.
  intros (ns & s2 & Hn & (l & s3 & [-> Hl]%iterated_Ok & (b & s4 & Hv & E)%bind_Ok)%bind_Ok)%bind_Ok.
  destruct b; [|done]. injection E as <- <-. split; [done|]. apply all_valid_Ok in Hv as [_ Hv].
  exists ns, l. split_and!; [|done..]. unfold attr, faulty in Hn. destruct (getattr registry pool "ns_records") as [w|]; by inversion Hn.
Qed.
Lemma safe_then {T U} (m : A (ended T)) (k : T -> A (ended U)) s :
  Safe m s -> (forall t s1, m s = (Ok (Ended t), s1) -> Safe (k t) s1) -> Safe (then_ m k) s.
Proof. intros Hm Hk. apply emits_bind; [done|]. intros [t|] s1 E; [by apply Hk|auto with emits]. Qed.
Lemma safe_each {X} (f : X -> A (ended (list string))) l s :
  (forall x s1, x ∈ l -> Safe (f x) s1) -> Safe (each f l) s.
Proof.
  revert s. induction l as [|x l IH]; intros s Hf; cbn; [auto with emits|].
  apply safe_then; [apply Hf; by left|]. intros lines s1 _.
  apply safe_then; [apply IH; intros; apply Hf; by right|]. intros more s2 _. auto with emits.
Qed.
Lemma safe_reading method args s : existsb (fun p => startswith p method) ["get_"; "find_"; "list_"; "export_"] = true ->
  Safe (central method args) s.
Proof. intros Hr. apply emits_central. intros c m _ _. by apply reading. Qed.
Lemma emits_if P (b : bool) {T} (m k : A T) s : (b = true -> Emits P m s) -> (b = false -> Emits P k s) -> Emits P (if b then m else k) s.
Proof. destruct b; auto. Qed.
(** A pool that is stored was parsed from its description and found valid. *)
Lemma safe_store method xpool old pool s s1 p s2 :
  dry_run = false -> method ∈ ["create_pool"; "update_pool"] -> xpool ∈ xpools ->
  parse_yaml set_iter xpool old s = (Ok pool, s1) -> ns_records_valid pool s1 = (Ok (Ended p), s2) ->
  Safe (central method [p]) s2.
Proof.
  intros Hd Hm Hin Hp Hv. apply servers_Ok in Hv as [-> Hv].
  unfold parse_yaml, faulty in Hp. destruct (Adapters.parse _ _ _ _ _) as [pool'|] eqn:Ep; [|done]. injection Hp as -> _.
  apply emits_central. intros c m _ Hi.
  replace (rpc_args m).*2 with [pool]; [by eapply storing|].
  elem_cases Hm; vm_compute in Hi; by injection Hi as <-.
Qed.
Lemma safe_parsed method line xpool old s :
  method ∈ ["create_pool"; "update_pool"] -> xpool ∈ xpools ->
  Safe (let! pool := parse_yaml set_iter xpool old in
        then_ (ns_records_valid pool) (fun pool =>
          if dry_run then ret (Ended [line pool]) else central method [pool] ;;; ret (Ended (@nil string)))) s.
Proof.
  intros Hm Hin. apply emits_bind; [apply emits_faulty|]. intros pool s1 Hp.
  apply safe_then; [apply safe_servers|]. intros p s2 Hv. apply emits_if; [auto with emits|intros Hd].
  apply emits_bind; [|auto with emits]. by eapply safe_store.
Qed.
Lemma safe_existing xpool s : Safe (existing_pool xpool) s.
Proof.
  unfold existing_pool. apply emits_bind; [apply emits_faulty|]. intros [] s1 _.
  - apply emits_try.
    + apply emits_bind; [apply emits_faulty|]. intros id s2 _.
      apply emits_bind; [by apply safe_reading|]. auto with emits.
    + intros f k s2 Hk. assert (Hq : k = (faulty (subscript xpool "name") ;;; ret None)) by (repeat case_match; by inversion Hk).
      subst k.
      apply emits_bind; [apply emits_faulty|]. auto with emits.
  - apply emits_bind; [apply emits_faulty|]. intros name s2 _. apply emits_bind; [by apply safe_reading|]. auto with emits.
Qed.
Lemma safe_handlers {T} (create m : A (ended T)) s : Safe m s -> (forall s1, Safe create s1) -> Safe (pool_handlers create m) s.
Proof.
  intros Hm Hc. apply emits_try; [done|]. intros f k s1 Hk. repeat case_match; simplify_eq/=; auto with emits.
Qed.
Lemma safe_update_one xpool s : xpool ∈ xpools -> Safe (update_one set_iter text_of dry_run xpool) s.
Proof.
  intros Hin. apply safe_handlers.
  - apply emits_bind; [apply safe_existing|]. intros [pool|] s1 _; [|auto with emits].
    apply (safe_parsed "update_pool" (fun pool => "Update Pool: " ++ text_of pool)); [set_solver|done].
  - intros s1. apply emits_bind; [apply emits_faulty|]. intros new s2 _.
    apply (safe_parsed "create_pool" (fun pool => "Create Pool: " ++ text_of pool)); [set_solver|done].
Qed.
Lemma pool_attr_Ok o n s v s1 : attr o n s = (Ok v, s1) -> getattr registry o n = Ok v /\ s1 = s.
Proof. unfold attr, faulty. destruct (getattr registry o n); by inversion 1. Qed.
Lemma safe_delete_one name s : delete = true -> unnamed xpools name -> Safe (delete_one text_of dry_run name) s.
Proof.
  intros Hd Hn. apply emits_try; [|intros f k s1 Hk; repeat case_match; simplify_eq/=; auto with emits].
  apply emits_bind; [by apply safe_reading|]. intros p s1 Hp. apply emits_if; [auto with emits|intros Hr].
  apply emits_bind; [apply emits_faulty|]. intros id s2 [Hid ->]%pool_attr_Ok.
  apply emits_bind; [|auto with emits]. apply emits_central. intros c m _ Hi.
  replace (rpc_args m).*2 with [id] by (vm_compute in Hi; by injection Hi as <-).
  apply (deleting _ _ _ _ name p); try done. by exists s, s1.
Qed.
Lemma distinct_subset l v : v ∈ distinct l -> v ∈ l.
Proof.
  induction l as [|w l IH]; [done|]. cbn. intros [->|H']%elem_of_cons; [by left|right].
  apply IH. apply list_elem_of_In. apply list_elem_of_In, filter_In in H' as [H' _]. done.
Qed.
Lemma names_Ok ys l s s1 : mmap (fun xpool => faulty (subscript xpool "name")) l s = (Ok ys, s1) ->
  forall xpool v, xpool ∈ l -> subscript xpool "name" = Ok v -> v ∈ ys.
Proof.
  revert s ys. induction l as [|x l IH]; intros s ys E xpool v Hin Hv; [by apply not_elem_of_nil in Hin|].
  apply bind_Ok in E as (y & s2 & Hy & (ys' & s3 & Hys & E)%bind_Ok). injection E as <- <-.
  unfold faulty in Hy. apply elem_of_cons in Hin as [->|Hin].
  - rewrite Hv in Hy. injection Hy as -> _. by left.
  - right. by eapply IH.
Qed.
Lemma safe_delete_others s : (forall l, set_iter l ≡ₚ l) -> delete = true -> Safe (delete_others set_iter text_of dry_run xpools) s.
Proof.
  intros Hset Hd. unfold delete_others. apply emits_bind; [by apply safe_reading|]. intros pools s1 _.
  apply emits_bind; [apply safe_iterated|]. intros l s2 _.
  apply emits_bind; [apply emits_mmap; intros; apply emits_faulty|]. intros db s3 _.
  apply emits_bind; [apply emits_mmap; intros; apply emits_faulty|]. intros yaml s4 Hy.
  apply safe_each. intros name s5 Hin. apply safe_delete_one; [done|]. intros xpool v Hx Hv.
  rewrite Hset in Hin. unfold without in Hin. apply list_elem_of_In, filter_In in Hin as [_ Hn].
  apply negb_true_iff in Hn. destruct (py_eq name v) eqn:E; [|done]. rewrite <- Hn. symmetry. apply existsb_exists. exists v.
  split; [|done]. apply list_elem_of_In. by eapply names_Ok.
Qed.
End Allowed.

(** C26: what designate-manage pool update asks of central, however it ends. A dry run sends
    requests that only look things up. Otherwise a pool is created or updated only as it was
    parsed from its description in the file, and only when all its name server records have
    passed their validation; a pool is deleted only when deletion was asked for, when its name
    is that of no description, and by the identifier that central has for this name. *)
Theorem pool_update_guarded xpools l delete dry_run s :
  (forall l, set_iter l ≡ₚ l) -> listed_in xpools l ->
  Emits (allowed l delete dry_run) (update set_iter text_of xpools delete dry_run) s /\
  (dry_run = true -> Emits (fun m => reads m = true) (update set_iter text_of xpools delete dry_run) s).
Proof.
  intros Hset Hl.
  assert (Ha : forall dry_run, Emits (allowed l delete dry_run) (update set_iter text_of xpools delete dry_run) s).
  { clear dry_run. intros dry_run. unfold update. apply emits_bind; [apply safe_iterated|]. intros l' s1 E.
    apply iterated_Ok in E as [-> Hl'].
    replace l' with l by (destruct Hl as [->|(? & ? & ? & ? & -> & ->)], Hl' as [?|(? & ? & ? & ? & ? & ->)]; by simplify_eq).
    apply safe_then; [apply safe_each; intros; by apply safe_update_one|]. intros changes s2 _.
    apply safe_then; [|auto with emits]. destruct delete eqn:Hd; [|auto with emits]. by apply safe_delete_others. }
  split; [done|]. intros ->. destruct (Ha true) as (sent & Hs & Hp). exists sent. split; [done|].
  eapply Forall_impl; [exact Hp|]. by intros m [m' Hr| |].
Qed.
End Pools.

(** ** TLDs *)
Section Tlds.
Context `{Env} `{Services}.
Variables (repr_list : list string -> string) (sorted : list string -> list string).
(** A TLD is sent only with a valid name and a description that is not too long. *)
Inductive valid_tld : message -> Prop :=
| tld_sent c name description tld :
    is_tldname name = true -> (forall d, description = PStr d -> String.length d <= 160) ->
    from_dict nesting "Tld" (PDict [("name", name); ("description", description)]) = Ok tld ->
    valid_tld (Cast "central" "create_tld" [context_dict c; tld]).
Lemma create_tld_valid line s : Emits valid_tld (_validate_and_create_tld repr_list line) s.
Proof.
  unfold _validate_and_create_tld. destruct (is_tldname (l_name line)) eqn:Hn; cbn [negb]; [|auto with emits].
  apply emits_if; [auto with emits|intros Hd]. apply emits_try.
  - apply emits_bind; [apply emits_faulty|]. intros tld s1 Ht. apply emits_bind; [|auto with emits].
    apply emits_central. intros c m _ Hi. vm_compute in Hi. injection Hi as <-.
    apply (tld_sent c (l_name line) (l_description line)); [done| |].
    + intros d Ed. rewrite Ed in Hd. by apply Nat.ltb_ge in Hd.
    + unfold faulty in Ht. destruct (from_dict _ _ _); by inversion Ht.
  - intros f k s1 Hk. repeat case_match; simplify_eq/=; auto with emits.
Qed.
Lemma import_line_counts acc line s acc' s' : import_line repr_list acc line s = (Ok acc', s') ->
  acc'.1 + length acc'.2 = S (acc.1 + length acc.2).
Proof.
  destruct acc as [n errs]. unfold import_line. destruct (extra_fields line).
  - intros ([e|] & s1 & _ & E)%bind_Ok; injection E as <- <-; cbn; rewrite ?length_app; cbn; lia.
  - intros [= <- <-]. cbn. rewrite length_app. cbn. lia.
Qed.
Lemma import_counts l acc s acc' s' : mfold l acc (import_line repr_list) s = (Ok acc', s') ->
  acc'.1 + length acc'.2 = length l + (acc.1 + length acc.2).
Proof.
  revert acc s. induction l as [|line l IH]; intros acc s; cbn; [by intros [= <- <-]|].
  intros (acc1 & s1 & E1 & E2)%bind_Ok. apply import_line_counts in E1. apply IH in E2. lia.
Qed.
Lemma import_valid l acc s : Emits valid_tld (mfold l acc (import_line repr_list)) s.
Proof.
  revert acc s. induction l as [|line l IH]; intros acc s; cbn; [auto with emits|].
  apply emits_bind; [|intros; apply IH]. destruct acc as [n errs]. unfold import_line.
  destruct (extra_fields line); [|auto with emits].
  apply emits_bind; [apply create_tld_valid|]. intros [] s1 _; auto with emits.
Qed.
(** The import of a file of TLDs accounts for every row that is not empty, as added or with an
    error, when it returns; whether it does or not, it sends TLDs with valid names and
    descriptions only. *)
Theorem tld_import_accounted rows s :
  (forall l, sorted l ≡ₚ l) ->
  Emits valid_tld (from_file repr_list sorted (Some rows)) s /\
  forall n errors s', from_file repr_list sorted (Some rows) s = (Ok (n, errors), s') ->
    n + length errors = length (List.filter (fun row => match row with [] => false | _ => true end) rows).
Proof.
  intros Hsort. split.
  - apply emits_bind; [apply import_valid|]. intros [n errs] s1 _. auto with emits.
  - intros n errors s' ([n' errs] & s1 & E & E2)%bind_Ok. injection E2 as <- <- _.
    apply import_counts in E. cbn in E. rewrite Hsort. unfold lines_of in E. rewrite length_map in E. lia.
Qed.
End Tlds.

(** ** An example: a new pool is created, and one that the file does not name is deleted *)
Definition pools_file : list pyval :=
  [match pool_yaml example_pool_data with PDict d => PDict (adel "id" d) | v => v end].
Definition old_pool : pyval := PObj "Pool" [("id", PStr "7"); ("name", PStr "old")] [] [].
Definition manage_services : Services :=
  {| World.reply := fun log =>
       match last log with
       | Some (Cast _ "find_pool" _) => if (length log =? 1)%nat then Raise (NotFound PoolNotFound) else Ok old_pool
       | Some (Cast _ "find_pools" _) => Ok (PObj "PoolList" [("objects", PList [old_pool])] [] [])
       | _ => Ok PNone
       end |}.
Lemma pool_update_guarded_witness :
  let run dry_run := @Manage.update manage_services demo_schemas (fun l => l) class_of (PList pools_file) true dry_run in
  asked (run false) = ["find_pool"; "create_pool"; "find_pools"; "find_pool"; "delete_pool"] /\
  Emits (@allowed manage_services demo_schemas (fun l => l) pools_file true true) (run true) demo_state.
Proof.
  intros run. split; [by vm_compute|].
  apply (@pool_update_guarded manage_services demo_schemas (fun l => l) class_of (PList pools_file) pools_file true true demo_state); [done|by left].
Defined.
