(* ===== verification/Notifications.v ===== *)
(** * Notification plugins (designate/notifications.py)

    What central announces of an operation: [Default] its result, [Audit] the names it was
    about and each attribute that it changed, read off the arguments of the method, which keep
    their changes because transactions work on copies. *)
From Stdlib Require Import ZArith Lia Ascii String.
From stdpp Require Import base option numbers strings sets list.
From S2P Require Import Prelude PyStr Exceptions Values Objects Utils Classes ObjectLists World Decorators Adapters.
Local Open Scope string_scope.

(** ** Default *)
Definition Default_emit (notification_type : string) (result : pyval) (args : list pyval) : R (list pyval) := Ok [result].

(** ** Audit *)
(** [hasattr(arg, name)], with the attribute: every exception counts as missing *)
Definition has_attr (arg : pyval) (name : string) : option pyval :=
  match getattr registry arg name with Ok v => Some v | Raise _ => None end.
Definition is_instance (arg : pyval) (c : string) : bool := match arg with PObj c' _ _ _ => c' =? c | _ => false end.
Definition known (v : pyval) : option pyval := match v with PNone => None | v => Some v end.
(** The first argument that names it: an attribute of an object of the class, or one called so *)
Fixpoint first_named (c own other : string) (args : list pyval) : R pyval :=
  match args with
  | [] => Ok PNone
  | arg :: args =>
      let? own_value := if is_instance arg c then getattr registry arg own else Ok PNone in
      match known own_value, match has_attr arg other with Some v => known v | None => None end with
      | Some v, _ | None, Some v => Ok v
      | None, None => first_named c own other args
      end
  end.
Definition zone_name (arglist : list pyval) (result : pyval) : R pyval := first_named "Zone" "name" "zone_name" (app arglist [result]).
Definition zone_id (arglist : list pyval) (result : pyval) : R pyval := first_named "Zone" "id" "zone_id" (app arglist [result]).
Fixpoint recordset_name_in (args : list pyval) : R pyval :=
  match args with
  | [] => Ok PNone
  | arg :: args =>
      let? name := if is_instance arg "RecordSet" then getattr registry arg "name" else Ok PNone in
      match known name with Some v => Ok v | None => recordset_name_in args end
  end.
Definition recordset_name (arglist : list pyval) (result : pyval) : R pyval := recordset_name_in (app arglist [result]).

Record change := { c_field : option string; c_old : option string; c_new : option string }.
(** [' '.join(...)] of data, which have to be strings *)
Definition joined (data : list pyval) : R string :=
  let? l := rmap (fun v => match v with PStr s => Ok s | _ => Raise (Py PyTypeError) end) data in Ok (join " " l).
Definition records_of (v : pyval) : R (list pyval) :=
  match v with
  | PList l => Ok l
  | PObj c _ _ _ => if is_list_class registry c then Ok (list_objects v) else Raise (Py PyTypeError)
  | _ => Raise (Py PyTypeError)
  end.
Definition data_item (v : pyval) : R pyval :=
  match v with
  | PDict d => match aget "data" d with Some w => Ok w | None => Raise (Py PyKeyError) end
  | v => getattr registry v "data"
  end.
Definition recordset_data (arglist : list pyval) (result : pyval) : R (list change) :=
  if negb (is_instance result "RecordSet") then Ok []
  else match List.find (fun arg => is_instance arg "RecordSet") arglist with
       | None => Ok []
       | Some arg =>
           if negb (mem_str "records" (obj_what_changed registry arg)) then Ok []
           else
             let? original_rrs := obj_get_original_value registry arg "records" in
             let? old := records_of original_rrs in
             let? old := rmap data_item old in
             let? old_value := joined old in
             let? records := getattr registry result "records" in
             let? new := records_of records in
             let? new := rmap (fun rr => getattr registry rr "data") new in
             let? new_value := joined new in
             if old_value =? new_value then Ok []
             else Ok [{| c_field := Some "records"; c_old := Some old_value; c_new := Some new_value |}]
       end.
(** A value of one of the types (int, float, bool, str, NoneType) *)
Definition plain_value (v : pyval) : bool := match v with PNone | PBool _ | PInt _ | PStr _ => true | _ => false end.
Definition field_change (arg : pyval) (name : string) : R (list change) :=
  if name =? "records" then Ok []
  else
    let? old_value := obj_get_original_value registry arg name in
    let? new_value := getattr registry arg name in
    let '(old_value, new_value) :=
      if plain_value old_value && plain_value new_value then (old_value, new_value) else (PNone, PNone) in
    if py_eq old_value new_value then Ok []
    else Ok [{| c_field := Some name; c_old := Some (show old_value); c_new := Some (show new_value) |}].
Definition changes_of (arg : pyval) : R (list change) :=
  match arg with
  | PObj _ _ _ _ => let? l := rmap (field_change arg) (obj_what_changed registry arg) in Ok (concat l)
  | _ => Ok []
  end.
Definition other_data (arglist : list pyval) : R (list change) :=
  let? l := rmap changes_of arglist in Ok (concat l).
Definition blank_event : list change := [{| c_field := None; c_old := None; c_new := None |}].
Fixpoint contains (sub s : string) : bool :=
  startswith sub s || match s with EmptyString => false | String _ s' => contains sub s' end.
Definition gather_changes (arglist : list pyval) (result : pyval) (notification_type : string) : R (list change) :=
  if contains "update" notification_type then
    let? other := other_data arglist in
    let? data := if notification_type =? "dns.recordset.update" then recordset_data arglist result else Ok [] in
    Ok (app other data)
  else if contains "create" notification_type then
    if notification_type =? "dns.recordset.create" then recordset_data arglist result else Ok blank_event
  else Ok blank_event.
Definition text (v : option string) : pyval := match v with Some s => PStr s | None => PNone end.
(** [emit]; the items are the tuple of the positional and the dictionary of the other arguments *)
Definition arglist_of (items : list pyval) : list pyval :=
  concat (map (fun item => match item with PList l => l | PDict d => d.*2 | _ => [] end) items).
Definition payload (zone_name zone_id recordset_name : pyval) (c : change) : pyval :=
  PDict [("zone_name", zone_name); ("zone_id", zone_id); ("recordset_name", recordset_name);
         ("old_data", text (c_old c)); ("new_data", text (c_new c)); ("changed_field", text (c_field c))].
Definition Audit_emit (notification_type : string) (result : pyval) (items : list pyval) : R (list pyval) :=
  let arglist := arglist_of items in
  let? changes := gather_changes arglist result notification_type in
  rmap (fun c => let? zn := zone_name arglist result in let? zi := zone_id arglist result in
                 let? rn := recordset_name arglist result in Ok (payload zn zi rn c)) changes.

(** ** An audit is the difference *)
Section Audit.
Lemma rmap_concat {A B} (f : A -> R (list B)) (g : A -> list B) l : (forall x, x ∈ l -> f x = Ok (g x)) -> rmap f l = Ok (map g l).
Proof.
  induction l as [|x l IH]; [done|]. intros Hf. cbn. rewrite Hf by by left. cbn. rewrite IH; [done|]. intros y Hy. apply Hf. by right.
Qed.
(** Assigned values on stored ones: the fields that differ, with both values. *)
Definition difference (f : list (string * pyval)) (o : pyval) (name : string) : list change :=
  match aget name f, getattr registry o name with
  | Some v, Ok w => if (name =? "records") || py_eq v w then [] else [{| c_field := Some name; c_old := Some (show v); c_new := Some (show w) |}]
  | _, _ => []
  end.
Lemma discrete_plain v : discrete v -> plain_value v = true.
Proof. by destruct v. Qed.
Definition discrete_at (n : string) (o : pyval) : Prop :=
  match o with PObj _ f _ _ => forall w, aget n f = Some w -> discrete w | _ => True end.
Lemma setattr_discrete n o k v o' :
  (k = n -> discrete v) -> discrete_at n o -> setattr registry o k v = Ok o' -> discrete_at n o'.
Proof.
  destruct o as [| | | | | |c f ch og]; try done. cbn [Objects.setattr discrete_at]. intros Hv Hd.
  destruct (in_FIELDS registry c k); cbn [negb]; [|done].
  assert (Hd' : forall w, aget n (aset k v f) = Some w -> discrete w).
  { intros w. rewrite aget_aset. destruct (String.eqb_spec n k) as [->|]; [intros [= <-]; by apply Hv|apply Hd]. }
  destruct (aget k f); intros [= <-]; exact Hd'.
Qed.
Lemma update_discrete n values o o' :
  (forall w, (n, w) ∈ values -> discrete w) -> discrete_at n o -> update registry o values = Ok o' -> discrete_at n o'.
Proof.
  intros Hd. revert o. induction values as [|[k v] values IH]; intros o Ho; cbn; [by intros [= <-]|].
  destruct (setattr registry o k v) as [o1|] eqn:Hs; cbn; [|done].
  apply IH; [set_solver|]. eapply setattr_discrete; [|done..]. intros ->. apply Hd. set_solver.
Qed.
Lemma field_change_spec c f values o' n v :
  is_list_class registry c = false -> in_FIELDS registry c n = true -> aget n f = Some v -> discrete v ->
  (forall w, (n, w) ∈ values -> discrete w) -> update registry (PObj c f [] []) values = Ok o' ->
  field_change o' n = Ok (difference f o' n) /\
  (n ∉ obj_what_changed registry o' -> difference f o' n = []).
Proof.
  intros Hl HF Hf Hv Hd Hu.
  assert (Ht : tracked (Some v) n o').
  { eapply update_tracked; [done|exact Hv| |exact Hu]. left. set_solver. }
  assert (Hdo : discrete_at n o').
  { eapply update_discrete; [exact Hd| |exact Hu]. cbn. intros w Hw. congruence. }
  destruct (update_class _ _ _ _ Hu c f [] [] eq_refl) as (f' & ch' & og' & ->).
  assert (Hw : exists w, aget n f' = Some w /\ discrete w).
  { destruct Ht as [(_ & _ & Hg)|(_ & _ & [w Hg])]; eauto. }
  destruct Hw as (w & Hw & Hdw).
  assert (Hg : getattr registry (PObj c f' ch' og') n = Ok w) by (cbn; by rewrite HF, Hw).
  assert (Ho : obj_get_original_value registry (PObj c f' ch' og') n = Ok v).
  { cbn. destruct Ht as [(_ & Ho & Hg')|(_ & Ho & _)]; rewrite Ho; [|done]. rewrite Hg'. cbn. by rewrite HF. }
  unfold difference. rewrite Hf, Hg. split.
  - unfold field_change. destruct (n =? "records"); [done|]. rewrite Ho, Hg. cbn.
    rewrite (discrete_plain v), (discrete_plain w) by done. cbn. by destruct (py_eq v w).
  - intros Hn. cbn [tracked obj_what_changed] in *. rewrite Hl in Hn.
    destruct Ht as [(_ & _ & Hg')|(Hc & _)]; [|by destruct Hn]. rewrite Hw in Hg'. injection Hg' as ->.
    rewrite (proj2 (py_eq_discrete registry v v Hv Hv) eq_refl). by rewrite orb_true_r.
Qed.
Lemma gather_one o g result :
  (exists c f ch og, o = PObj c f ch og) -> (forall n, n ∈ obj_what_changed registry o -> field_change o n = Ok (g n)) ->
  gather_changes [o] result "dns.zone.update" = Ok (concat (map g (obj_what_changed registry o))).
Proof.
  intros (c & f & ch & og & ->) Hg. unfold gather_changes.
  assert (contains "update" "dns.zone.update" = true) as -> by reflexivity.
  assert (("dns.zone.update" =? "dns.recordset.update") = false) as -> by reflexivity.
  unfold other_data. cbn [rmap changes_of]. rewrite (rmap_concat _ g) by exact Hg. cbn. by rewrite !app_nil_r.
Qed.
Lemma elem_concat_map {A B} (g : A -> list B) l x : x ∈ concat (map g l) <-> exists n, n ∈ l /\ x ∈ g n.
Proof.
  rewrite list_elem_of_In, in_concat. setoid_rewrite in_map_iff. setoid_rewrite list_elem_of_In. naive_solver.
Qed.

(** C28: The audit of an update is exactly the difference between what was stored and what was
    assigned. An object of any class but a list, loaded with plain values and then updated with
    plain values of attributes it has, gives the changes of the attributes (the records of a
    record set are announced apart) whose value is no longer the loaded one, each with the
    loaded and the new value written out: every attribute that differs is announced, and nothing
    is announced of one that was assigned the value it had, or that was assigned and then
    assigned back. *)
Theorem audit_is_difference c f values o' result :
  is_list_class registry c = false ->
  Forall (fun '(n, v) => in_FIELDS registry c n = true /\ discrete v) f ->
  Forall (fun '(n, v) => n ∈ f.*1 /\ discrete v) values ->
  update registry (PObj c f [] []) values = Ok o' ->
  exists changes, gather_changes [o'] result "dns.zone.update" = Ok changes /\
    forall x, x ∈ changes <-> exists n, n ∈ f.*1 /\ x ∈ difference f o' n.
Proof.
  intros Hl Hf Hvs Hu. rewrite Forall_forall in Hf, Hvs.
  assert (Hfield : forall n, n ∈ f.*1 -> field_change o' n = Ok (difference f o' n) /\
                                       (n ∉ obj_what_changed registry o' -> difference f o' n = [])).
  { intros n Hn. destruct (aget n f) as [v|] eqn:Hv; [|by apply aget_None_elem in Hv].
    destruct (Hf _ (aget_Some_elem _ _ _ Hv)) as [HF Hd].
    eapply field_change_spec; [done..| |done]. intros w Hw. by apply (Hvs _ Hw). }
  assert (Hnames : forall n, n ∈ obj_what_changed registry o' -> n ∈ f.*1).
  { intros n Hn. destruct (update_class _ _ _ _ Hu c f [] [] eq_refl) as (f' & ch' & og' & ->).
    cbn [obj_what_changed] in Hn. rewrite Hl in Hn.
    destruct (update_changes_names _ _ _ _ n Hu Hn) as [Hv|Hv]; [|set_solver].
    apply list_elem_of_fmap in Hv as ([k w] & -> & Hv). by apply (Hvs _ Hv). }
  exists (concat (map (difference f o') (obj_what_changed registry o'))).
  split; [apply gather_one; [|intros n Hn; by apply Hfield, Hnames]; destruct (update_class _ _ _ _ Hu c f [] [] eq_refl) as (x1 & x2 & x3 & Hx); eauto|].
  intros x. rewrite elem_concat_map. split.
  - intros (n & Hn & Hx). exists n. split; [by apply Hnames|done].
  - intros (n & Hn & Hx). exists n. split; [|done].
    destruct (decide (n ∈ obj_what_changed registry o')) as [|Hc]; [done|].
    destruct (Hfield n Hn) as [_ He]. rewrite He in Hx by done. by apply not_elem_of_nil in Hx.
Qed.
End Audit.

Definition stored_zone : list (string * pyval) := [("name", PStr "example.org."); ("ttl", PInt 3600); ("email", PStr "a@example.org")].
Definition assigned : list (string * pyval) := [("ttl", PInt 60); ("email", PStr "b@example.org"); ("email", PStr "a@example.org")].
Lemma audit_is_difference_witness :
  exists o' changes, update registry (PObj "Zone" stored_zone [] []) assigned = Ok o' /\
    gather_changes [o'] PNone "dns.zone.update" = Ok changes /\
    forall x, x ∈ changes <-> exists n, n ∈ stored_zone.*1 /\ x ∈ difference stored_zone o' n.
Proof.
  eexists. edestruct (audit_is_difference "Zone" stored_zone assigned) as (changes & Hg & Hx);
    [reflexivity| | | |exists changes; split; [|exact (conj Hg Hx)]]; [..|vm_compute; reflexivity].
  - repeat constructor.
  - repeat constructor; cbn; set_solver.
  - vm_compute; reflexivity.
Defined.
Example audited : gather_changes [match update registry (PObj "Zone" stored_zone [] []) assigned with Ok o => o | Raise _ => PNone end]
  PNone "dns.zone.update" = Ok [{| c_field := Some "ttl"; c_old := Some "3600"; c_new := Some "60" |}].
Proof. vm_compute. reflexivity. Qed.
