(* ===== verification/Tables.v ===== *)
(** * The tables (designate/storage/impl_sqlalchemy/tables.py)

    Columns with the source of their defaults, columns set on update, and unique
    constraints; the constraint of quotas is the one of the migrations. Foreign
    keys, NOT NULL and the types of the columns are left to the database, which may
    refuse, cut or convert a value they do not take; the types of service_statuses are
    in [Heartbeat], those of pool_manager_statuses in [SqlCache], where theorems are
    about the values written. A reference engine and a
    reference environment, used to evaluate the model on examples, follow. *)
From Stdlib Require Import ZArith Lia Ascii String.
From stdpp Require Import base option numbers strings sets list.
From S2P Require Import Prelude PyStr Exceptions Values Objects Classes World Sql SqlFacts ObjectTypes.
Local Open Scope string_scope.

(** The types of its columns are [Heartbeat.service_status_types]. *)
Definition service_status_table : table := {|
  t_name := "service_statuses";
  t_columns := [
    ("id", Some DUuid);
    ("created_at", Some DNow);
    ("updated_at", None);
    ("service_name", None);
    ("hostname", None);
    ("heartbeated_at", None);
    ("status", None);
    ("stats", None);
    ("capabilities", None) ];
  t_onupdate := ["updated_at"];
  t_unique := [] |}.

Definition quotas_table : table := {|
  t_name := "quotas";
  t_columns := [
    ("id", Some DUuid);
    ("version", Some (DConst (PInt 1)));
    ("created_at", Some DNow);
    ("updated_at", None);
    ("tenant_id", None);
    ("resource", None);
    ("hard_limit", None) ];
  t_onupdate := ["updated_at"];
  t_unique := [["tenant_id"; "resource"]] |}.

Definition tlds_table : table := {|
  t_name := "tlds";
  t_columns := [
    ("id", Some DUuid);
    ("version", Some (DConst (PInt 1)));
    ("created_at", Some DNow);
    ("updated_at", None);
    ("name", None);
    ("description", None) ];
  t_onupdate := ["updated_at"];
  t_unique := [["name"]] |}.

Definition zones_table : table := {|
  t_name := "zones";
  t_columns := [
    ("id", Some DUuid);
    ("version", Some (DConst (PInt 1)));
    ("created_at", Some DNow);
    ("updated_at", None);
    ("deleted", Some (DConst (PStr "0")));
    ("deleted_at", None);
    ("shard", Some (DShard "id"));
    ("tenant_id", None);
    ("name", None);
    ("email", None);
    ("description", None);
    ("type", None);
    ("transferred_at", None);
    ("ttl", Some (DConf "default_ttl"));
    ("serial", Some DNow);
    ("refresh", Some (DConf "default_soa_refresh_min"));
    ("retry", Some (DConf "default_soa_retry"));
    ("expire", Some (DConf "default_soa_expire"));
    ("minimum", Some (DConf "default_soa_minimum"));
    ("status", Some (DConst (PStr "PENDING")));
    ("parent_zone_id", None);
    ("action", Some (DConst (PStr "CREATE")));
    ("pool_id", None);
    ("view_id", None);
    ("reverse_name", None);
    ("delayed_notify", Some (DConst (PBool false))) ];
  t_onupdate := ["updated_at"];
  t_unique := [["name"; "deleted"; "pool_id"]] |}.

Definition zone_attributes_table : table := {|
  t_name := "zone_attributes";
  t_columns := [
    ("id", Some DUuid);
    ("version", Some (DConst (PInt 1)));
    ("created_at", Some DNow);
    ("updated_at", None);
    ("key", None);
    ("value", None);
    ("zone_id", None) ];
  t_onupdate := ["updated_at"];
  t_unique := [["key"; "value"; "zone_id"]] |}.

Definition zone_masters_table : table := {|
  t_name := "zone_masters";
  t_columns := [
    ("id", Some DUuid);
    ("version", Some (DConst (PInt 1)));
    ("created_at", Some DNow);
    ("updated_at", None);
    ("host", None);
    ("port", None);
    ("zone_id", None) ];
  t_onupdate := ["updated_at"];
  t_unique := [["host"; "port"; "zone_id"]] |}.

Definition recordsets_table : table := {|
  t_name := "recordsets";
  t_columns := [
    ("id", Some DUuid);
    ("version", Some (DConst (PInt 1)));
    ("created_at", Some DNow);
    ("updated_at", None);
    ("zone_shard", Some (DShard "zone_id"));
    ("tenant_id", None);
    ("zone_id", None);
    ("name", None);
    ("type", None);
    ("ttl", None);
    ("description", None);
    ("reverse_name", Some (DConst (PStr ""))) ];
  t_onupdate := ["updated_at"];
  t_unique := [["zone_id"; "name"; "type"]] |}.

Definition records_table : table := {|
  t_name := "records";
  t_columns := [
    ("id", Some DUuid);
    ("version", Some (DConst (PInt 1)));
    ("created_at", Some DNow);
    ("updated_at", None);
    ("zone_shard", Some (DShard "zone_id"));
    ("tenant_id", None);
    ("zone_id", None);
    ("recordset_id", None);
    ("data", None);
    ("description", None);
    ("hash", None);
    ("managed", Some (DConst (PBool false)));
    ("managed_extra", None);
    ("managed_plugin_type", None);
    ("managed_plugin_name", None);
    ("managed_resource_type", None);
    ("managed_resource_region", None);
    ("managed_resource_id", None);
    ("managed_tenant_id", None);
    ("status", Some (DConst (PStr "PENDING")));
    ("action", Some (DConst (PStr "CREATE")));
    ("serial", Some (DConst (PInt 1))) ];
  t_onupdate := ["updated_at"];
  t_unique := [["hash"]] |}.

Definition zdns_record_table : table := {|
  t_name := "zdns_record_info_t";
  t_columns := [
    ("id", Some DUuid);
    ("name", None);
    ("rr_id", None);
    ("type", None);
    ("ttl", None);
    ("rdata", None);
    ("klass", None) ];
  t_onupdate := [];
  t_unique := [] |}.

Definition record_association_table : table := {|
  t_name := "records_zdns_record_associations";
  t_columns := [
    ("id", Some DUuid);
    ("record_id", None);
    ("zdns_record_id", None) ];
  t_onupdate := [];
  t_unique := [] |}.

Definition tsigkeys_table : table := {|
  t_name := "tsigkeys";
  t_columns := [
    ("id", Some DUuid);
    ("version", Some (DConst (PInt 1)));
    ("created_at", Some DNow);
    ("updated_at", None);
    ("name", None);
    ("algorithm", None);
    ("secret", None);
    ("scope", None);
    ("resource_id", None) ];
  t_onupdate := ["updated_at"];
  t_unique := [["name"]] |}.

Definition blacklists_table : table := {|
  t_name := "blacklists";
  t_columns := [
    ("id", Some DUuid);
    ("version", Some (DConst (PInt 1)));
    ("created_at", Some DNow);
    ("updated_at", None);
    ("pattern", None);
    ("description", None) ];
  t_onupdate := ["updated_at"];
  t_unique := [["pattern"]] |}.

Definition pools_table : table := {|
  t_name := "pools";
  t_columns := [
    ("id", Some DUuid);
    ("created_at", Some DNow);
    ("updated_at", None);
    ("version", Some (DConst (PInt 1)));
    ("name", None);
    ("description", None);
    ("tenant_id", None);
    ("provisioner", Some (DConst (PStr "UNMANAGED"))) ];
  t_onupdate := ["updated_at"];
  t_unique := [["name"]] |}.

Definition pool_attributes_table : table := {|
  t_name := "pool_attributes";
  t_columns := [
    ("id", Some DUuid);
    ("created_at", Some DNow);
    ("updated_at", None);
    ("version", Some (DConst (PInt 1)));
    ("key", None);
    ("value", None);
    ("pool_id", None) ];
  t_onupdate := ["updated_at"];
  t_unique := [] |}.

Definition pool_ns_records_table : table := {|
  t_name := "pool_ns_records";
  t_columns := [
    ("id", Some DUuid);
    ("created_at", Some DNow);
    ("updated_at", None);
    ("version", Some (DConst (PInt 1)));
    ("pool_id", None);
    ("priority", None);
    ("hostname", None) ];
  t_onupdate := ["updated_at"];
  t_unique := [["pool_id"; "hostname"]] |}.

Definition pool_nameservers_table : table := {|
  t_name := "pool_nameservers";
  t_columns := [
    ("id", Some DUuid);
    ("version", Some (DConst (PInt 1)));
    ("created_at", Some DNow);
    ("updated_at", None);
    ("pool_id", None);
    ("host", None);
    ("port", None) ];
  t_onupdate := ["updated_at"];
  t_unique := [["pool_id"; "host"; "port"]] |}.

Definition pool_targets_table : table := {|
  t_name := "pool_targets";
  t_columns := [
    ("id", Some DUuid);
    ("version", Some (DConst (PInt 1)));
    ("created_at", Some DNow);
    ("updated_at", None);
    ("pool_id", None);
    ("type", None);
    ("tsigkey_id", None);
    ("description", None) ];
  t_onupdate := ["updated_at"];
  t_unique := [] |}.

Definition pool_target_masters_table : table := {|
  t_name := "pool_target_masters";
  t_columns := [
    ("id", Some DUuid);
    ("version", Some (DConst (PInt 1)));
    ("created_at", Some DNow);
    ("updated_at", None);
    ("pool_target_id", None);
    ("host", None);
    ("port", None) ];
  t_onupdate := ["updated_at"];
  t_unique := [["pool_target_id"; "host"; "port"]] |}.

Definition pool_target_options_table : table := {|
  t_name := "pool_target_options";
  t_columns := [
    ("id", Some DUuid);
    ("version", Some (DConst (PInt 1)));
    ("created_at", Some DNow);
    ("updated_at", None);
    ("pool_target_id", None);
    ("key", None);
    ("value", None) ];
  t_onupdate := ["updated_at"];
  t_unique := [["pool_target_id"; "key"]] |}.

Definition pool_also_notifies_table : table := {|
  t_name := "pool_also_notifies";
  t_columns := [
    ("id", Some DUuid);
    ("version", Some (DConst (PInt 1)));
    ("created_at", Some DNow);
    ("updated_at", None);
    ("pool_id", None);
    ("host", None);
    ("port", None) ];
  t_onupdate := ["updated_at"];
  t_unique := [["pool_id"; "host"; "port"]] |}.

Definition zone_transfer_requests_table : table := {|
  t_name := "zone_transfer_requests";
  t_columns := [
    ("id", Some DUuid);
    ("version", Some (DConst (PInt 1)));
    ("created_at", Some DNow);
    ("updated_at", None);
    ("zone_id", None);
    ("key", None);
    ("description", None);
    ("tenant_id", None);
    ("target_tenant_id", None);
    ("status", Some (DConst (PStr "ACTIVE"))) ];
  t_onupdate := ["updated_at"];
  t_unique := [] |}.

Definition zone_transfer_accepts_table : table := {|
  t_name := "zone_transfer_accepts";
  t_columns := [
    ("id", Some DUuid);
    ("version", Some (DConst (PInt 1)));
    ("created_at", Some DNow);
    ("updated_at", None);
    ("zone_id", None);
    ("zone_transfer_request_id", None);
    ("tenant_id", None);
    ("status", Some (DConst (PStr "ACTIVE"))) ];
  t_onupdate := ["updated_at"];
  t_unique := [] |}.

Definition zone_tasks_table : table := {|
  t_name := "zone_tasks";
  t_columns := [
    ("id", Some DUuid);
    ("created_at", Some DNow);
    ("updated_at", None);
    ("version", Some (DConst (PInt 1)));
    ("tenant_id", None);
    ("zone_id", None);
    ("task_type", None);
    ("message", None);
    ("status", Some (DConst (PStr "ACTIVE")));
    ("location", None) ];
  t_onupdate := ["updated_at"];
  t_unique := [] |}.

Definition acls_table : table := {|
  t_name := "acl";
  t_columns := [
    ("id", Some DUuid);
    ("pool_id", None);
    ("tenant_id", None);
    ("networks", None);
    ("name", None) ];
  t_onupdate := [];
  t_unique := [["networks"]; ["name"]] |}.

Definition zdns_acls_table : table := {|
  t_name := "zdns_acl_info_t";
  t_columns := [
    ("id", Some DUuid);
    ("networks", None);
    ("name", None);
    ("current_users", None);
    ("href", None);
    ("comment", None) ];
  t_onupdate := [];
  t_unique := [] |}.

Definition acl_associations_table : table := {|
  t_name := "acl_zdns_acl_associations";
  t_columns := [
    ("id", Some DUuid);
    ("acl_id", Some (DConst (PInt 1)));
    ("zdns_acl_id", Some (DConst (PInt 1))) ];
  t_onupdate := [];
  t_unique := [] |}.

Definition view_acl_table : table := {|
  t_name := "view_acl_associations";
  t_columns := [
    ("id", Some DUuid);
    ("view_id", Some (DConst (PInt 1)));
    ("acl_id", Some (DConst (PInt 1))) ];
  t_onupdate := [];
  t_unique := [] |}.

Definition zdns_zones_table : table := {|
  t_name := "zdns_zones_info_t";
  t_columns := [
    ("id", Some DUuid);
    ("name", None);
    ("owners", None);
    ("current_users", None);
    ("slaves", None);
    ("renewal", Some (DConst (PStr "no")));
    ("default_ttl", None);
    ("zone_content", None);
    ("masters", None);
    ("ad_controller", None);
    ("comment", None);
    ("rrs", None) ];
  t_onupdate := [];
  t_unique := [] |}.

Definition zone_associations_table : table := {|
  t_name := "zones_zdns_zone_associations";
  t_columns := [
    ("id", Some DUuid);
    ("zone_id", Some (DConst (PInt 1)));
    ("zdns_zone_id", Some (DConst (PInt 1))) ];
  t_onupdate := [];
  t_unique := [] |}.

Definition view_table : table := {|
  t_name := "view";
  t_columns := [
    ("id", Some DUuid);
    ("tenant_id", Some (DConst (PStr "")));
    ("name", None);
    ("pool_id", None) ];
  t_onupdate := [];
  t_unique := [] |}.

Definition zdns_view_info_t_table : table := {|
  t_name := "zdns_view_info_t";
  t_columns := [
    ("id", Some DUuid);
    ("name", None);
    ("dns64s", None);
    ("owners", None);
    ("fail_forwarder", None);
    ("current_users", None);
    ("priority", None);
    ("query_source", None);
    ("href", None);
    ("zones", None);
    ("comment", None) ];
  t_onupdate := [];
  t_unique := [] |}.

Definition view_zdns_view_associations_table : table := {|
  t_name := "view_zdns_view_associations";
  t_columns := [
    ("id", Some DUuid);
    ("view_id", Some (DConst (PInt 1)));
    ("zdns_view_id", Some (DConst (PInt 1))) ];
  t_onupdate := [];
  t_unique := [] |}.

(** ** A reference engine *)

Definition ref_rank (v : pyval) : Z :=
  match v with
  | PNone => 0 | PBool _ => 1 | PInt _ => 2 | PStr _ => 3 | PList _ => 4 | PDict _ => 5
  | PObj _ _ _ _ => 6
  end%Z.
Definition ref_collate (a b : pyval) : comparison :=
  match a, b with
  | PBool x, PBool y => (Z.b2z x ?= Z.b2z y)%Z
  | PInt x, PInt y => (x ?= y)%Z
  | PStr s, PStr t => String.compare s t
  | _, _ => (ref_rank a ?= ref_rank b)%Z
  end.
(** LIKE: '%' matches any text and '_' any character. *)
Fixpoint ref_like (p s : string) : bool :=
  match p with
  | EmptyString => String.eqb s ""
  | String a p' =>
      if Ascii.eqb a "%" then
        (fix any (s : string) : bool :=
           ref_like p' s || match s with EmptyString => false | String _ s' => any s' end) s
      else match s with
           | EmptyString => false
           | String b s' => (Ascii.eqb a "_" || Ascii.eqb a b) && ref_like p' s'
           end
  end.
Definition ref_engine : SqlEngine := {| collate := ref_collate; like := ref_like |}.

Lemma ascii_compare_trans c a b d :
  Ascii.compare a b = c -> Ascii.compare b d = c -> Ascii.compare a d = c.
Proof.
  unfold Ascii.compare. destruct c; rewrite ?N.compare_eq_iff, ?N.compare_lt_iff, ?N.compare_gt_iff; lia.
Qed.
Lemma ascii_compare_refl a : Ascii.compare a a = Eq.
Proof. unfold Ascii.compare. apply N.compare_refl. Qed.
Lemma string_compare_Eq s t : String.compare s t = Eq <-> s = t.
Proof. split; [apply String.compare_eq_iff|]. intros ->. induction t as [|a t IH]; [done|]. cbn. by rewrite ascii_compare_refl. Qed.
Lemma string_compare_trans c s t u :
  String.compare s t = c -> String.compare t u = c -> String.compare s u = c.
Proof.
  revert t u. induction s as [|a s IH]; intros [|b t] [|d u]; cbn; try congruence.
  destruct (Ascii.compare a b) eqn:Hab, (Ascii.compare b d) eqn:Hbd; intros H1 H2; subst.
  - rewrite (ascii_compare_trans Eq a b d Hab Hbd). by eapply IH.
  - apply Ascii.compare_eq_iff in Hab as ->. by rewrite Hbd.
  - apply Ascii.compare_eq_iff in Hab as ->. by rewrite Hbd.
  - apply Ascii.compare_eq_iff in Hbd as ->. by rewrite Hab.
  - by rewrite (ascii_compare_trans Lt a b d Hab Hbd).
  - done.
  - apply Ascii.compare_eq_iff in Hbd as ->. by rewrite Hab.
  - done.
  - by rewrite (ascii_compare_trans Gt a b d Hab Hbd).
Qed.

Lemma Zcompare_trans_any c x y z : (x ?= y)%Z = c -> (y ?= z)%Z = c -> (x ?= z)%Z = c.
Proof. destruct c; rewrite ?Z.compare_eq_iff, ?Z.compare_lt_iff, ?Z.compare_gt_iff; lia. Qed.
Lemma ref_collate_rank a b : ref_rank a <> ref_rank b -> ref_collate a b = (ref_rank a ?= ref_rank b)%Z.
Proof. by destruct a, b. Qed.
Lemma ref_collate_le a b c : ref_collate a b = c -> (ref_rank a ?= ref_rank b)%Z = c \/ ref_rank a = ref_rank b.
Proof. destruct (Z.eq_dec (ref_rank a) (ref_rank b)); [by right|]. rewrite ref_collate_rank; auto. Qed.

#[local] Instance ref_laws : @SqlLaws ref_engine.
Proof.
  split; cbn.
  - intros a b. destruct a, b; cbn; try done; try apply Z.compare_antisym; apply String.compare_antisym.
  - intros c a b d Hab Hbd.
    destruct a, b, d; cbn in *; subst; try congruence; try done;
      try (by eapply Zcompare_trans_any); by eapply string_compare_trans.
  - intros a b d Hab.
    destruct a, b; cbn in *; try discriminate;
      try (apply Z.compare_eq_iff in Hab); try (apply string_compare_Eq in Hab); subst; try done.
    all: destruct d; cbn; try done; by rewrite ?Hab.
  - apply string_compare_Eq.
  - done.
Qed.

(** ** A reference environment *)

Definition ref_uuid (n : nat) : string := "000" ++ str_of_Z (Z.of_nat n).
Definition ref_env : Env := {|
  enforce := fun rule c target => true;
  uuid4 := ref_uuid;
  conf_int := fun o => if String.eqb o "default_ttl" then 3600 else 10;
  conf_str := fun o => o;
  re_search := fun p s => Some (startswith p s); min_ttl := None;
  md5_hex := fun s => s;
|}%Z.

Definition ref_context : context :=
  {| tenant := Some "t1"; user := None; is_admin := false; roles := []; original_tenant := None;
     all_tenants := false; abandon := false; edit_managed_records := false;
     hide_counts := false; show_deleted := false; tsigkey_id := None |}.
Definition ref_world (d : db) : world :=
  {| w_db := d; w_uuids := 0; w_now := 1000; w_sent := []; w_zone_locks := []; w_held := [];
     w_tx := []; w_doomed := false; w_retry_held := false; w_retries := 0;
     w_nstack := 0; w_nqueue := [] |}.

(** ** The theorems on the generic operations at concrete tables *)

Definition tld_row (id name : string) (created : Z) : row :=
  [("id", PStr id); ("version", PInt 1); ("created_at", PInt created); ("updated_at", PNone);
   ("name", PStr name); ("description", PNone)].
Definition quota_row (id tenant resource : string) (limit : Z) : row :=
  [("id", PStr id); ("version", PInt 1); ("created_at", PInt 1); ("updated_at", PNone);
   ("tenant_id", PStr tenant); ("resource", PStr resource); ("hard_limit", PInt limit)].
Definition quota_db : db :=
  [("quotas", [quota_row "q1" "t1" "zones" 5; quota_row "q2" "t2" "zones" 7])].

Lemma find_one_isolation_witness :
  let w := ref_world quota_db in
  exists o, @_find_one ref_engine ref_context quotas_table "Quota" (NotFound QuotaNotFound)
    [("resource", PStr "zones")] true w = (Ok o, w) /\
  exists r, loaded_from quotas_table "Quota" r o.
Proof.
  cbn zeta. eexists. split; [vm_compute; reflexivity|].
  destruct (@find_one_isolation ref_engine ref_context quotas_table "Quota"
    (NotFound QuotaNotFound) [("resource", PStr "zones")] (ref_world quota_db) _ _
    ltac:(vm_compute; reflexivity)) as (_ & r & _ & Hr & _).
  exists r. exact Hr.
Defined.

Definition example_quota : pyval :=
  PObj "Quota" [("id", PStr "q1"); ("hard_limit", PInt 9)] ["hard_limit"] [("hard_limit", PInt 5)].
Lemma update_frame_witness :
  let w := ref_world quota_db in
  let res := @_update ref_engine ref_context quotas_table example_quota
    (Duplicate DuplicateQuota) (NotFound QuotaNotFound) [] w in
  getattr registry example_quota "id" = Ok (PStr "q1") /\
  exists g, rows_of (w_db res.2) quotas_table = map g (rows_of quota_db quotas_table).
Proof.
  cbn zeta. split; [reflexivity|].
  destruct (@update_frame ref_engine ref_context quotas_table example_quota
    (Duplicate DuplicateQuota) (NotFound QuotaNotFound) [] (PStr "q1") (ref_world quota_db)
    _ _ eq_refl (surjective_pairing _)) as (_ & g & Hg & _).
  exists g. exact Hg.
Defined.

Lemma storage_objects_typed_witness :
  let res := @_update ref_engine ref_context quotas_table example_quota
    (Duplicate DuplicateQuota) (NotFound QuotaNotFound) [] (ref_world quota_db) in
  exists o, res.1 = Ok o /\ typed "Quota" o /\ unchanged o /\ typed "Quota" (deepcopy registry o).
Proof.
  cbn zeta. set (res := _update _ _ _ _ _ _ _).
  assert (Ht : typed "Quota" example_quota).
  { do 3 eexists. split; [reflexivity|].
    split; cbn.
    - intros n Hn. elem_cases Hn; reflexivity.
    - repeat (constructor; [intros Hin; elem_cases Hin|]); constructor.
    - intros n Hn. elem_cases Hn. right; left.
    - intros n Hn. elem_cases Hn. right; left. }
  pose (o := match res.1 with Ok o => o | Raise _ => PNone end).
  assert (Hrun : res = (Ok o, res.2)) by (vm_compute; reflexivity).
  destruct (@storage_objects_typed ref_env ref_engine ref_context quotas_table "Quota") as (_ & Hup & _ & _ & _ & Hops).
  destruct (Hup _ _ _ _ _ _ _ Ht Hrun) as [Ho Hc].
  exists o. split; [by rewrite Hrun|]. split; [exact Ho|]. split; [exact Hc|]. exact (proj1 (Hops o Ho)).
Defined.

Definition tld_rows : list row := [tld_row "c" "org." 3; tld_row "a" "com." 1; tld_row "b" "net." 1].
Lemma pages_complete_witness :
  exists q', @paginate_query tlds_table select_all (PInt 1) ["created_at"; "id"]
               (Some (tld_row "a" "com." 1)) "asc" = Ok q' /\
             @run ref_engine q' tld_rows = [tld_row "b" "net." 1].
Proof.
  eexists. split; [vm_compute; reflexivity|].
  refine (@pages_complete ref_engine ref_laws tlds_table select_all _ "created_at" true
    tld_rows (PInt 1) 1 [] (tld_row "a" "com." 1) [tld_row "b" "net." 1; tld_row "c" "org." 3]
    eq_refl _ _ _ eq_refl _); try (vm_compute; reflexivity).
  - intros r Hr. unfold tld_rows in Hr. elem_cases Hr; (split; [discriminate|eexists; reflexivity]).
  - change (NoDup [PStr "a"; PStr "b"; PStr "c"]).
    repeat (constructor; [intros Hin; elem_cases Hin|]); constructor.
Defined.
