(* ===== verification/SqlCache.v ===== *)
(** * The status cache in a database (designate/pool_manager/cache/impl_sqlalchemy/)

    The driver of the status cache that keeps its statuses in a table of a database of its own,
    one row for a name server, a zone and an action. It is stricter than the driver on
    memcached: it stores a new status only where there is none. *)
From Stdlib Require Import ZArith Lia Ascii String.
From stdpp Require Import base option numbers strings sets list.
From S2P Require Import Prelude PyStr Exceptions Values Objects Utils Classes World Sql SqlFacts Rows Tables.
Local Open Scope string_scope.

(** ** The table (tables.py): its columns, and below their types *)
Definition pool_manager_statuses : table := {|
  t_name := "pool_manager_statuses";
  t_columns := [
    ("id", Some DUuid);
    ("version", Some (DConst (PInt 1)));
    ("created_at", Some DNow);
    ("updated_at", None);
    ("nameserver_id", None);
    ("zone_id", None);
    ("action", None);
    ("status", None);
    ("serial_number", None) ];
  t_onupdate := ["updated_at"];
  t_unique := [["nameserver_id"; "zone_id"; "action"]] |}.
Definition UPDATE_STATUSES : list string := ["SUCCESS"; "ERROR"].
Definition UPDATE_ACTIONS : list string := ["CREATE"; "DELETE"; "UPDATE"].
(** The types of the columns, and whether they are nullable *)
Definition pool_manager_status_types : list (string * (column_type * bool)) := [
  ("id", (CUuid, false));
  ("version", (CInteger, false));
  ("created_at", (CDateTime, true));
  ("updated_at", (CDateTime, true));
  ("nameserver_id", (CUuid, false));
  ("zone_id", (CUuid, false));
  ("action", (CEnum UPDATE_ACTIONS, false));
  ("status", (CEnum UPDATE_STATUSES, true));
  ("serial_number", (CInteger, false)) ].

(** ** The driver (SQLAlchemyPoolManagerCache) *)
Section Driver.
Context `{Env} `{SqlEngine}.
Definition Sql_retrieve (ctx : context) (nameserver_id zone_id action : pyval) : P world pyval :=
  _find_one ctx pool_manager_statuses "PoolManagerStatus" (NotFound PoolManagerStatusNotFound)
    [("nameserver_id", nameserver_id); ("zone_id", zone_id); ("action", action)] true.
Definition Sql_clear (ctx : context) (pool_manager_status : pyval) : P world unit :=
  let! id := lift (getattr registry pool_manager_status "id") in
  let! pool_manager_status :=
    if truthy id then ret pool_manager_status
    else
      let! nameserver_id := lift (getattr registry pool_manager_status "nameserver_id") in
      let! zone_id := lift (getattr registry pool_manager_status "zone_id") in
      let! action := lift (getattr registry pool_manager_status "action") in
      Sql_retrieve ctx nameserver_id zone_id action in
  _delete ctx pool_manager_statuses pool_manager_status (NotFound PoolManagerStatusNotFound) false ;;; ret tt.
(** The status, as it is afterwards *)
Definition Sql_store (ctx : context) (pool_manager_status : pyval) : P world pyval :=
  let! id := lift (getattr registry pool_manager_status "id") in
  if truthy id then
    _update ctx pool_manager_statuses pool_manager_status (Duplicate DuplicatePoolManagerStatus) (NotFound PoolManagerStatusNotFound) []
  else _create pool_manager_statuses pool_manager_status (Duplicate DuplicatePoolManagerStatus) [] [].

(** What the pool manager does with it: a new status ([_build_status_object]), and one that is
    looked up and changed ([update_status]) *)
Definition key : Type := string * string * string.
Definition status_object (k : key) (status serial_number : pyval) : R pyval :=
  new_obj registry "PoolManagerStatus"
    [("nameserver_id", PStr k.1.1); ("zone_id", PStr k.1.2); ("status", status); ("serial_number", serial_number); ("action", PStr k.2)].
Inductive cache_call := Retrieve (k : key) | StoreNew (k : key) (status : pyval) (serial : Z)
                      | Change (k : key) (status : pyval) (serial : Z) | Clear (k : key).
Definition reading (o : pyval) : P world (pyval * pyval) :=
  let! status := lift (getattr registry o "status") in
  let! serial := lift (getattr registry o "serial_number") in ret (status, serial).
Definition call_cache (ctx : context) (c : cache_call) : P world (pyval * pyval) :=
  match c with
  | Retrieve (ns, z, a) => let! o := Sql_retrieve ctx (PStr ns) (PStr z) (PStr a) in reading o
  | StoreNew k status serial =>
      let! o := lift (status_object k status (PInt serial)) in
      Sql_store ctx o ;;; ret (PNone, PNone)
  | Change (ns, z, a) status serial =>
      let! o := Sql_retrieve ctx (PStr ns) (PStr z) (PStr a) in
      let! o := lift (update registry o [("status", status); ("serial_number", PInt serial)]) in
      Sql_store ctx o ;;; ret (PNone, PNone)
  | Clear k =>
      let! o := lift (status_object k PNone (PInt 0)) in
      Sql_clear ctx o ;;; ret (PNone, PNone)
  end.
End Driver.

(** ** Theorems: a map that is told apart from one that is written to *)
(** The specification: what is known of each key. *)
Abbreviation spec := (key -> option (pyval * pyval)).
Definition put (k : key) (v : option (pyval * pyval)) (m : spec) : spec := fun k' => if decide (k' = k) then v else m k'.
Definition spec_call (c : cache_call) (m : spec) : res exc (pyval * pyval) * spec :=
  match c with
  | Retrieve k => match m k with Some v => (Ok v, m) | None => (Raise (NotFound PoolManagerStatusNotFound), m) end
  | StoreNew k status serial =>
      match m k with
      | Some _ => (Raise (Duplicate DuplicatePoolManagerStatus), m)
      | None => (Ok (PNone, PNone), put k (Some (status, PInt serial)) m)
      end
  | Change k status serial =>
      match m k with
      | Some _ => (Ok (PNone, PNone), put k (Some (status, PInt serial)) m)
      | None => (Raise (NotFound PoolManagerStatusNotFound), m)
      end
  | Clear k =>
      match m k with
      | Some _ => (Ok (PNone, PNone), put k None m)
      | None => (Raise (NotFound PoolManagerStatusNotFound), m)
      end
  end.
Fixpoint calls {St} (step : cache_call -> St -> res exc (pyval * pyval) * St) (l : list cache_call) (st : St) : list (res exc (pyval * pyval)) :=
  match l with [] => [] | c :: l => let '(r, st) := step c st in r :: calls step l st end.
Definition after {St} (step : cache_call -> St -> res exc (pyval * pyval) * St) (l : list cache_call) (st : St) : St :=
  foldl (fun st c => (step c st).2) st l.
(** The values of a call: what it looks for, and what it would write *)
Definition call_key (c : cache_call) : key :=
  match c with Retrieve k | StoreNew k _ _ | Change k _ _ | Clear k => k end.
Definition call_value (c : cache_call) : pyval * pyval :=
  match c with StoreNew _ s n | Change _ s n => (s, PInt n) | _ => (PNone, PInt 0) end.
(** The columns of a row, by name *)
Definition cells_of (k : key) (v : pyval * pyval) : list (string * pyval) :=
  [("nameserver_id", PStr k.1.1); ("zone_id", PStr k.1.2); ("action", PStr k.2); ("status", v.1); ("serial_number", v.2)].
(** The table takes the values of the call. *)
Definition table_takes (k : key) (v : pyval * pyval) : Prop :=
  Forall (fun nv => column_takes pool_manager_status_types nv.1 nv.2) (cells_of k v).
Definition good_call (c : cache_call) : Prop := table_takes (call_key c) (call_value c).

Section Refinement.
Context `{Env} `{SqlLaws}.
Hypothesis uuid4_fresh : forall n m, uuid4 n = uuid4 m -> n = m.
Hypothesis uuid4_text : forall n, uuid4 n <> "".
Variable ctx : context.
Abbreviation rows w := (rows_of (w_db w) pool_manager_statuses).
Definition plain_key (k : key) : Prop := plain k.1.1 /\ plain k.1.2 /\ plain k.2.
Definition status_value (v : pyval) : Prop := match v with PNone | PStr _ => True | _ => False end.
Lemma good_key k v : table_takes k v -> plain_key k.
Proof.
  unfold table_takes, cells_of. rewrite !Forall_cons. intros (Ha & Hb & Hc & _). split_and!; [by apply uuid_plain..|].
  change (mem_str k.2 UPDATE_ACTIONS = true) in Hc. apply mem_str_elem in Hc. intros n. unfold UPDATE_ACTIONS in Hc.
  repeat (apply elem_of_cons in Hc as [Hc|Hc]; [rewrite Hc; reflexivity|]). by apply elem_of_nil in Hc.
Qed.
Lemma good_status k v : table_takes k v -> status_value v.1.
Proof. unfold table_takes, cells_of. rewrite !Forall_cons. intros (_ & _ & _ & Hd & _). cbn [fst snd] in Hd. by destruct v.1. Qed.
(** A row of a key: identifiers and actions are text, a status is text or NULL, a serial a number. *)
Definition row_of (k : key) (v : pyval * pyval) (x : row) : Prop :=
  cell x "nameserver_id" = PStr k.1.1 /\ cell x "zone_id" = PStr k.1.2 /\ cell x "action" = PStr k.2 /\
  cell x "status" = v.1 /\ status_value v.1 /\ exists n, v.2 = PInt n /\ cell x "serial_number" = PInt n.
Record tidy (w : world) (l : list (key * (pyval * pyval))) : Prop := {
  ids_differ : identified pool_manager_statuses w;
  ids_text : forall x, x ∈ rows w -> cell x "id" <> PStr "";
  rows_hold : Forall2 (fun kv x => row_of kv.1 kv.2 x) l (rows w);
  keys_differ : NoDup l.*1;
  values_taken : Forall (fun kv => table_takes kv.1 kv.2) l;
}.
Definition agrees (l : list (key * (pyval * pyval))) (m : spec) : Prop :=
  forall k v, (k, v) ∈ l <-> m k = Some v.

Definition has_key (k : key) (x : row) : bool :=
  compare_op OEq (cell x "nameserver_id") (PStr k.1.1) && compare_op OEq (cell x "zone_id") (PStr k.1.2) &&
  compare_op OEq (cell x "action") (PStr k.2).
Lemma has_key_row k k' v x : row_of k' v x -> has_key k x = bool_decide (k' = k).
Proof.
  intros (Ha & Hb & Hc & _). unfold has_key. rewrite Ha, Hb, Hc, !eq_str.
  destruct k as [[a b] c], k' as [[a' b'] c']. cbn [fst snd].
  destruct (String.eqb_spec a' a) as [->|], (String.eqb_spec b' b) as [->|], (String.eqb_spec c' c) as [->|]; cbn; symmetry;
    first [by apply bool_decide_eq_true|apply bool_decide_eq_false; congruence].
Qed.
Lemma retrieve_eq k w : plain_key k -> Sql_retrieve ctx (PStr k.1.1) (PStr k.1.2) (PStr k.2) w =
  match filter (fun x => has_key k x = true) (rows w) with
  | [x] => (_set_object_from_model (PObj "PoolManagerStatus" [] [] []) (Some x), w)
  | _ => (Raise (NotFound PoolManagerStatusNotFound), w)
  end.
Proof.
  intros (Ha & Hb & Hc). unfold Sql_retrieve. rewrite find_one_eq.
  - erewrite filter_ext_bool; [reflexivity|]. intros x. unfold wanted, matches, has_key. cbn [forallb fst snd].
    rewrite Ha, Hb, Hc. cbn. by rewrite !andb_true_r, andb_assoc.
  - unfold find_query. cbn [_apply_criterion]. rewrite Ha, Hb, Hc. cbn. eauto.
Qed.
(** The rows with a key: the one of the key, or none *)
Lemma no_key k (l : list (key * (pyval * pyval))) r : Forall2 (fun kv x => row_of kv.1 kv.2 x) l r -> k ∉ l.*1 -> forall y, y ∈ r -> has_key k y = false.
Proof.
  induction 1 as [|kv x l r Hx Hl IH]; intros Hk y Hy; [by apply elem_of_nil in Hy|]. cbn in Hk.
  apply elem_of_cons in Hy as [->|Hy]; [|apply IH; [set_solver|done]].
  rewrite (has_key_row k _ _ _ Hx). apply bool_decide_eq_false. set_solver.
Qed.
Lemma key_row k v w l : tidy w l -> (k, v) ∈ l -> exists l1 l2 pre x post,
  l = app l1 ((k, v) :: l2) /\ rows w = app pre (x :: post) /\ row_of k v x /\ has_key k x = true /\
  Forall2 (fun kv x => row_of kv.1 kv.2 x) l1 pre /\ Forall2 (fun kv x => row_of kv.1 kv.2 x) l2 post /\
  (forall y, y ∈ app pre post -> has_key k y = false).
Proof.
  intros [_ _ Hr Hd _] (l1 & l2 & ->)%list_elem_of_split.
  apply Forall2_app_inv_l in Hr as (pre & r2 & Hpre & Hr & Hw). apply Forall2_cons_inv_l in Hr as (x & post & Hx & Hpost & ->).
  exists l1, l2, pre, x, post. split_and!; [done..| | | |].
  - rewrite (has_key_row k _ _ _ Hx). by apply bool_decide_eq_true.
  - done.
  - done.
  - apply (no_key k (app l1 l2)); [by apply Forall2_app|]. rewrite fmap_app in Hd |- *. cbn in Hd.
    apply NoDup_app in Hd as (_ & Hd & Hd2). apply NoDup_cons in Hd2 as [Hd2 _]. intros [Hi|Hi]%elem_of_app; [|done].
    apply (Hd k Hi). by left.
Qed.
(** Looking up: the object of the row, or the exception *)
Definition object_of (k : key) (v : pyval * pyval) (x : row) (o : pyval) : Prop :=
  exists f, o = PObj "PoolManagerStatus" f [] [] /\ loaded_from pool_manager_statuses "PoolManagerStatus" x o.
Lemma retrieve_known k v w l : tidy w l -> plain_key k -> (k, v) ∈ l -> exists o x pre post,
  Sql_retrieve ctx (PStr k.1.1) (PStr k.1.2) (PStr k.2) w = (Ok o, w) /\ rows w = app pre (x :: post) /\ row_of k v x /\ object_of k v x o.
Proof.
  intros Hw Hk Hin. destruct (key_row k v w l Hw Hin) as (l1 & l2 & pre & x & post & -> & E & Hx & Hxk & _ & _ & Ho).
  destruct (set_object_Ok "PoolManagerStatus" [] [] [] (Some x)) as [f Hf].
  exists (PObj "PoolManagerStatus" f [] []), x, pre, post. split; [|split_and!; [done|done|]].
  - rewrite retrieve_eq, E, (filter_app_one (has_key k)), Hxk by done. by rewrite Hf.
  - exists f. split; [done|]. by apply set_object_loaded.
Qed.
Lemma retrieve_unknown k w l : tidy w l -> plain_key k -> k ∉ l.*1 ->
  Sql_retrieve ctx (PStr k.1.1) (PStr k.1.2) (PStr k.2) w = (Raise (NotFound PoolManagerStatusNotFound), w).
Proof.
  intros Hw Hk Hn. rewrite retrieve_eq by done. pose proof (no_key k l _ (rows_hold _ _ Hw) Hn) as Hno.
  replace (filter _ (rows w)) with ([] : list row); [done|]. symmetry. clear -Hno.
  induction (rows w) as [|y r IH]; [done|]. rewrite filter_cons, decide_False; [apply IH; set_solver|]. rewrite Hno; [done|by left].
Qed.
Lemma getattr_cell x f n : loaded_from pool_manager_statuses "PoolManagerStatus" x (PObj "PoolManagerStatus" f [] []) ->
  in_FIELDS registry "PoolManagerStatus" n = true -> is_relation registry "PoolManagerStatus" n = false ->
  getattr registry (PObj "PoolManagerStatus" f [] []) n = Ok (cell x n).
Proof. intros (f0 & [= <-] & Hf) Hn Hr. unfold getattr. rewrite Hn, Hr, Hf by done. cbn [negb]. unfold cell. by destruct (aget n x). Qed.
Lemma reading_spec k v x o w : row_of k v x -> object_of k v x o -> reading o w = (Ok v, w).
Proof.
  intros (_ & _ & _ & Hs & _ & n & Hv & Hn) (f & -> & Hf). unfold reading, bind, lift, ret.
  rewrite !(getattr_cell x f) by done. rewrite Hs, Hn, <- Hv. by destruct v.
Qed.

(** *** A new status *)
Definition fresh_values (k : key) (status : pyval) (n : Z) : row :=
  [("nameserver_id", PStr k.1.1); ("zone_id", PStr k.1.2); ("status", status); ("serial_number", PInt n); ("action", PStr k.2)].
Definition fresh (k : key) (status : pyval) (n : Z) : pyval := PObj "PoolManagerStatus" (fresh_values k status n) (fresh_values k status n).*1 [].
Lemma status_object_eq k status n : status_object k status (PInt n) = Ok (fresh k status n).
Proof. reflexivity. Qed.
Definition new_row (k : key) (status : pyval) (n : Z) (w : world) : row :=
  [("id", PStr (uuid4 (w_uuids w))); ("version", PInt 1); ("created_at", PInt (w_now w)); ("updated_at", PNone);
   ("nameserver_id", PStr k.1.1); ("zone_id", PStr k.1.2); ("action", PStr k.2); ("status", status); ("serial_number", PInt n)].
Lemma new_row_of k status n w : status_value status -> row_of k (status, PInt n) (new_row k status n w).
Proof. intros Hs. repeat split; [done|]. by exists n. Qed.
Lemma clash_key k v x k' v' y : row_of k v x -> row_of k' v' y -> existsb (clash x y) (t_unique pool_manager_statuses) = bool_decide (k' = k).
Proof.
  intros Hx Hy. cbn [existsb t_unique pool_manager_statuses]. rewrite orb_false_r. unfold clash. cbn [forallb].
  destruct Hx as (Ha & Hb & Hc & _), Hy as (Ha' & Hb' & Hc' & _).
  rewrite Ha, Hb, Hc, Ha', Hb', Hc', !eq_str.
  destruct k as [[a b] c], k' as [[a' b'] c']. cbn [fst snd].
  destruct (String.eqb_spec a a') as [->|], (String.eqb_spec b b') as [->|], (String.eqb_spec c c') as [->|]; cbn; symmetry;
    first [by apply bool_decide_eq_true|apply bool_decide_eq_false; congruence].
Qed.
Lemma no_clash k v x (l : list (key * (pyval * pyval))) r : row_of k v x -> Forall2 (fun kv x => row_of kv.1 kv.2 x) l r -> k ∉ l.*1 ->
  forall y, y ∈ r -> existsb (clash x y) (t_unique pool_manager_statuses) = false.
Proof.
  intros Hx. induction 1 as [|kv y l r Hy Hl IH]; intros Hk z Hz; [by apply elem_of_nil in Hz|]. cbn in Hk.
  apply elem_of_cons in Hz as [->|Hz]; [|apply IH; [set_solver|done]].
  rewrite (clash_key k v x _ _ _ Hx Hy). apply bool_decide_eq_false. set_solver.
Qed.
Lemma insert_new k status n w : execute_insert pool_manager_statuses (fresh_values k status n) w =
  (if violates pool_manager_statuses (new_row k status n w) (rows w) then raise (Py DBDuplicateEntry)
   else modify (set_db (set_rows pool_manager_statuses (app (rows w) [new_row k status n w]) (w_db w))) ;;; ret (PStr (uuid4 (w_uuids w))))
    (set_uuids (S (w_uuids w)) w).
Proof. reflexivity. Qed.
Definition with_row (x : row) (w : world) : world :=
  set_db (set_rows pool_manager_statuses (app (rows w) [x]) (w_db w)) (set_uuids (S (w_uuids w)) w).
Lemma tidy_uuids w l : tidy w l -> tidy (set_uuids (S (w_uuids w)) w) l.
Proof.
  intros [(ids & Hi1 & Hi2 & Hi3) Ht Hr Hd Hv]. split; [|done..]. exists ids. split_and!; [done|done|]. intros n Hn. apply Hi3. cbn in Hn. lia.
Qed.
Lemma tidy_added k status n w l : tidy w l -> k ∉ l.*1 -> table_takes k (status, PInt n) ->
  tidy (with_row (new_row k status n w) w) (app l [(k, (status, PInt n))]).
Proof.
  intros [Hi Ht Hr Hd Hv] Hk Hs. pose proof (good_status _ _ Hs) as Hst. assert (E : rows (with_row (new_row k status n w) w) = app (rows w) [new_row k status n w]) by apply rows_of_set_rows.
  split.
  - apply identified_added; [apply uuid4_fresh|done|done].
  - rewrite E. intros x [Hx|Hx]%elem_of_app; [by apply Ht|]. apply list_elem_of_singleton in Hx as ->. intros Hid. injection Hid. apply uuid4_text.
  - rewrite E. apply Forall2_app; [done|]. constructor; [by apply new_row_of|constructor].
  - rewrite fmap_app. apply NoDup_app. split_and!; [done| |apply NoDup_singleton]. intros k' Hk' ->%list_elem_of_singleton. done.
  - apply Forall_app. split; [done|]. by apply Forall_singleton.
Qed.
Lemma store_new k status n w l : tidy w l -> status_value status ->
  (k ∈ l.*1 -> Sql_store ctx (fresh k status n) w = (Raise (Duplicate DuplicatePoolManagerStatus), set_uuids (S (w_uuids w)) w)) /\
  (k ∉ l.*1 -> exists o, Sql_store ctx (fresh k status n) w = (Ok o, with_row (new_row k status n w) w)).
Proof.
  intros Hw Hs.
  assert (E : Sql_store ctx (fresh k status n) w = _create pool_manager_statuses (fresh k status n) (Duplicate DuplicatePoolManagerStatus) [] [] w) by reflexivity.
  rewrite E. clear E. unfold _create, bind, lift, try_except.
  change (obj_get_changes registry (fresh k status n)) with (Ok (E:=exc) (fresh_values k status n)). cbv beta iota.
  change (aupdate (without [] (fresh_values k status n)) []) with (fresh_values k status n). rewrite insert_new.
  pose proof (new_row_of k status n w Hs) as Hn. split.
  - intros ([k1 v] & -> & Hin)%list_elem_of_fmap. cbn [fst] in *. destruct (key_row _ v w l Hw Hin) as (_ & _ & pre & x & post & _ & Er & Hx & _).
    assert (violates pool_manager_statuses (new_row k1 status n w) (rows w) = true) as ->; [|done].
    unfold violates. apply existsb_exists. exists x. split; [apply list_elem_of_In; rewrite Er; set_solver|].
    cbn [existsb]. apply orb_true_iff. right. rewrite (clash_key k1 _ _ k1 v x Hn Hx). by apply bool_decide_eq_true.
  - intros Hk. rewrite (violates_unlike _ _ (uuid4 (w_uuids w))); [|done|by apply identified_new, Hw|].
    2: { apply (no_clash k (status, PInt n) _ l); [done|apply Hw|done]. }
    unfold execute_select, modify, bind, gets, ret.
    match goal with |- exists o, (_set_object_from_model _ ?m, _) = _ =>
      destruct (set_object_Ok "PoolManagerStatus" (fresh_values k status n) (fresh_values k status n).*1 [] m) as [f E] end.
    exists (PObj "PoolManagerStatus" f [] []). unfold fresh. by rewrite E.
Qed.

(** *** A status that is there: changed, or cleared *)
Lemma same_value v c : status_value v \/ (exists n, v = PInt n) -> status_value c \/ (exists n, c = PInt n) -> py_eq v c = true -> v = c.
Proof.
  intros Hv Hc. apply py_eq_discrete; [exact registry|..].
  - destruct Hv as [Hv|[n ->]]; [by destruct v|done].
  - destruct Hc as [Hc|[n ->]]; [by destruct c|done].
Qed.
Lemma truthy_id i : PStr i <> PStr "" -> truthy (PStr i) = true.
Proof. intros Hi. cbn. destruct (String.eqb_spec i ""); [by subst|done]. Qed.
Lemma tidy_replaced w l1 k v v' l2 pre x x' post : tidy w (app l1 ((k, v) :: l2)) -> rows w = app pre (x :: post) ->
  Forall2 (fun kv x => row_of kv.1 kv.2 x) l1 pre -> Forall2 (fun kv x => row_of kv.1 kv.2 x) l2 post ->
  row_of k v' x' -> table_takes k v' -> cell x' "id" = cell x "id" ->
  tidy (set_db (set_rows pool_manager_statuses (app pre (x' :: post)) (w_db w)) w) (app l1 ((k, v') :: l2)).
Proof.
  intros [Hi Ht Hr Hd Hv] E Hpre Hpost Hx' Htk Hid.
  assert (Ew : rows (set_db (set_rows pool_manager_statuses (app pre (x' :: post)) (w_db w)) w) = app pre (x' :: post)) by apply rows_of_set_rows.
  split.
  - by eapply identified_replaced.
  - rewrite Ew. intros y Hy. rewrite E in Ht. apply elem_of_app in Hy as [Hy|[->|Hy]%elem_of_cons]; [apply Ht; set_solver| |apply Ht; set_solver].
    rewrite Hid. apply Ht. set_solver.
  - rewrite Ew. apply Forall2_app; [done|]. by constructor.
  - rewrite fmap_app in Hd |- *. exact Hd.
  - apply Forall_app in Hv as [Hv1 Hv2]. apply Forall_cons in Hv2 as [_ Hv2]. apply Forall_app. split; [done|]. by constructor.
Qed.
Lemma tidy_removed w l1 k v l2 pre x post : tidy w (app l1 ((k, v) :: l2)) -> rows w = app pre (x :: post) ->
  Forall2 (fun kv x => row_of kv.1 kv.2 x) l1 pre -> Forall2 (fun kv x => row_of kv.1 kv.2 x) l2 post ->
  tidy (set_db (set_rows pool_manager_statuses (app pre post) (w_db w)) w) (app l1 l2).
Proof.
  intros [Hi Ht Hr Hd Hv] E Hpre Hpost.
  assert (Ew : rows (set_db (set_rows pool_manager_statuses (app pre post) (w_db w)) w) = app pre post) by apply rows_of_set_rows.
  split.
  - by eapply identified_removed.
  - rewrite Ew. intros y Hy. apply Ht. rewrite E. set_solver.
  - rewrite Ew. by apply Forall2_app.
  - rewrite fmap_app in Hd |- *. apply NoDup_app in Hd as (Hd1 & Hd2 & Hd3). apply NoDup_cons in Hd3 as [_ Hd3].
    apply NoDup_app. split_and!; [done| |done]. intros k' Hk Hk'. apply (Hd2 k' Hk). by right.
  - apply Forall_app in Hv as [Hv1 Hv2]. apply Forall_cons in Hv2 as [_ Hv2]. by apply Forall_app.
Qed.
(** The object of the row of a key, and where the row is *)
Lemma retrieve_at k v w l : tidy w l -> plain_key k -> (k, v) ∈ l -> exists f l1 l2 pre x post i,
  Sql_retrieve ctx (PStr k.1.1) (PStr k.1.2) (PStr k.2) w = (Ok (PObj "PoolManagerStatus" f [] []), w) /\
  loaded_from pool_manager_statuses "PoolManagerStatus" x (PObj "PoolManagerStatus" f [] []) /\
  l = app l1 ((k, v) :: l2) /\ rows w = app pre (x :: post) /\ row_of k v x /\
  Forall2 (fun kv x => row_of kv.1 kv.2 x) l1 pre /\ Forall2 (fun kv x => row_of kv.1 kv.2 x) l2 post /\
  cell x "id" = PStr i /\ truthy (PStr i) = true /\ unlike i (app pre post).
Proof.
  intros Hw Hk Hin. destruct (key_row k v w l Hw Hin) as (l1 & l2 & pre & x & post & -> & E & Hx & Hxk & Hpre & Hpost & Ho).
  destruct (set_object_Ok "PoolManagerStatus" [] [] [] (Some x)) as [f Hf].
  destruct (identified_at _ w pre x post (ids_differ _ _ Hw) E) as (i & Hi & Hu).
  exists f, l1, l2, pre, x, post, i. split_and!; try done.
  - rewrite retrieve_eq, E, (filter_app_one (has_key k)), Hxk by done. by rewrite Hf.
  - by apply set_object_loaded.
  - apply truthy_id. rewrite <- Hi. apply (ids_text _ _ Hw). rewrite E. set_solver.
Qed.
Lemma change_known k v status n w l : tidy w l -> plain_key k -> (k, v) ∈ l -> table_takes k (status, PInt n) -> exists w' l1 l2,
  call_cache ctx (Change k status n) w = (Ok (PNone, PNone), w') /\ l = app l1 ((k, v) :: l2) /\ tidy w' (app l1 ((k, (status, PInt n)) :: l2)).
Proof.
  intros Hw Hk Hin Htk. pose proof (good_status _ _ Htk) as Hs. destruct (retrieve_at k v w l Hw Hk Hin) as (f & l1 & l2 & pre & x & post & i & Hr & Hf & -> & E & Hx & Hpre & Hpost & Hi & Hti & Hu).
  destruct (update_loaded ctx pool_manager_statuses "PoolManagerStatus" (Duplicate DuplicatePoolManagerStatus) (NotFound PoolManagerStatusNotFound)
    w pre x post f [("status", status); ("serial_number", PInt n)]) as (obj & x' & Hup & Hoi & Hnew & Hold & Hupd); try done.
  { decided. }
  { decided. }
  { intros m Hm. cbn in Hm. repeat (apply elem_of_cons in Hm as [->|Hm]; [reflexivity|]). by apply elem_of_nil in Hm. }
  { decided. }
  { apply Hw. }
  assert (Hx' : row_of k (status, PInt n) x').
  { destruct Hx as (Ha & Hb & Hc & Hst & Hsv & m & Hv & Hm). unfold row_of. cbn [fst snd].
    rewrite (Hold "nameserver_id"), (Hold "zone_id"), (Hold "action") by decided. split_and!; [done..| |done|exists n; split; [done|]].
    - destruct (Hnew "status" status) as [->|[-> He]]; [by left|done|decided|done|].
      symmetry. apply same_value; [by left|rewrite Hst; by left|done].
    - destruct (Hnew "serial_number" (PInt n)) as [->|[-> He]]; [by right; left|done|decided|done|].
      symmetry. apply same_value; [right; by eexists|rewrite Hm; right; by eexists|done]. }
  assert (Hno : forall y, y ∈ app pre post -> existsb (clash x' y) (t_unique pool_manager_statuses) = false).
  { apply (no_clash k (status, PInt n) x' (app l1 l2)); [done|by apply Forall2_app|]. pose proof (keys_differ _ _ Hw) as Hd. rewrite fmap_app in Hd |- *.
    apply NoDup_app in Hd as (_ & Hd & Hd2). apply NoDup_cons in Hd2 as [Hd2 _]. intros [Hk'|Hk']%elem_of_app; [|done]. apply (Hd k Hk'). by left. }
  destruct (Hupd Hno) as [o Ho].
  exists (set_db (set_rows pool_manager_statuses (app pre (x' :: post)) (w_db w)) w), l1, l2. split; [|split; [done|]].
  - destruct k as [[ns z] a]. cbn [call_cache fst snd] in *. unfold bind, lift. rewrite Hr, Hup. unfold Sql_store, bind, lift.
    rewrite Hoi, Hi, Hti. by rewrite Ho.
  - eapply tidy_replaced; try done. apply Hold; decided.
Qed.
Lemma clear_known k v w l : tidy w l -> plain_key k -> (k, v) ∈ l -> exists w' l1 l2,
  call_cache ctx (Clear k) w = (Ok (PNone, PNone), w') /\ l = app l1 ((k, v) :: l2) /\ tidy w' (app l1 l2).
Proof.
  intros Hw Hk Hin. destruct (retrieve_at k v w l Hw Hk Hin) as (f & l1 & l2 & pre & x & post & i & Hr & Hf & -> & E & Hx & Hpre & Hpost & Hi & Hti & Hu).
  exists (set_db (set_rows pool_manager_statuses (app pre post) (w_db w)) w), l1, l2. split; [|split; [done|by eapply tidy_removed]].
  assert (Ec : call_cache ctx (Clear k) w =
    bind (bind (Sql_retrieve ctx (PStr k.1.1) (PStr k.1.2) (PStr k.2)) (fun o => _delete ctx pool_manager_statuses o (NotFound PoolManagerStatusNotFound) false))
      (fun _ => ret (PNone, PNone)) w).
  { unfold call_cache. rewrite status_object_eq. unfold Sql_clear. unfold bind, lift, ret.
    change (getattr registry (fresh k PNone 0) "id") with (Ok (E:=exc) PNone). cbv beta iota. change (truthy PNone) with false. cbv beta iota.
    change (getattr registry (fresh k PNone 0) "nameserver_id") with (Ok (E:=exc) (PStr k.1.1)).
    change (getattr registry (fresh k PNone 0) "zone_id") with (Ok (E:=exc) (PStr k.1.2)).
    change (getattr registry (fresh k PNone 0) "action") with (Ok (E:=exc) (PStr k.2)). cbv beta iota.
    destruct (Sql_retrieve _ _ _ _ w) as [[o|e] w1]; [|done]. by destruct (_delete _ _ _ _ _ w1) as [[]]. }
  rewrite Ec. clear Ec. unfold bind at 1 2. rewrite Hr. unfold _delete, bind, lift.
  rewrite (getattr_cell x f) by done. rewrite Hi. cbv beta iota. change (has_column pool_manager_statuses "deleted") with false. cbn [andb].
  assert (Hq : _apply_deleted_criteria ctx pool_manager_statuses (_apply_tenant_criteria ctx pool_manager_statuses (by_id (PStr i)) true) = by_id (PStr i)) by reflexivity.
  rewrite Hq, (execute_delete_one _ w pre x post i) by done. cbv beta iota. unfold raise_if, execute_select, bind, gets, ret. cbn [negb Nat.eqb].
  match goal with |- context [_set_object_from_model _ ?m] => destruct (set_object_Ok "PoolManagerStatus" f [] [] m) as [f2 E2] end. by rewrite E2.
Qed.

(** *** Every call *)
Lemma agrees_in l m k : agrees l m -> k ∈ l.*1 -> exists v, (k, v) ∈ l /\ m k = Some v.
Proof. intros Ha ([k' v] & -> & Hin)%list_elem_of_fmap. exists v. split; [done|by apply Ha]. Qed.
Lemma agrees_out l m k : agrees l m -> k ∉ l.*1 -> m k = None.
Proof. intros Ha Hk. destruct (m k) as [v|] eqn:E; [|done]. apply Ha in E. destruct Hk. apply list_elem_of_fmap. by exists (k, v). Qed.
Lemma agrees_put l l' m k o : agrees l m -> (forall k' v, k' <> k -> (k', v) ∈ l' <-> (k', v) ∈ l) -> (forall v, (k, v) ∈ l' <-> o = Some v) ->
  agrees l' (put k o m).
Proof. intros Ha Hn Hk k' v. unfold put. destruct (decide (k' = k)) as [->|Hne]; [apply Hk|]. rewrite Hn by done. apply Ha. Qed.
Lemma call_step c w l m : tidy w l -> agrees l m -> good_call c -> exists r w' l' m',
  call_cache ctx c w = (r, w') /\ spec_call c m = (r, m') /\ tidy w' l' /\ agrees l' m'.
Proof.
  intros Hw Ha Hg. pose proof (good_key _ _ Hg) as Hk. pose proof (good_status _ _ Hg) as Hs. unfold good_call in Hg. destruct (decide (call_key c ∈ l.*1)) as [Hin|Hout].
  - destruct (agrees_in l m _ Ha Hin) as (v & Hv & Hm).
    assert (Huniq : forall l1 l2, l = app l1 ((call_key c, v) :: l2) -> forall v', (call_key c, v') ∉ app l1 l2).
    { intros l1 l2 -> v' Hv'. pose proof (keys_differ _ _ Hw) as Hd. rewrite fmap_app in Hd. cbn in Hd.
      apply NoDup_app in Hd as (_ & Hd & Hd2). apply NoDup_cons in Hd2 as [Hd2 _].
      apply elem_of_app in Hv' as [Hv'|Hv']; [apply (Hd (call_key c)); [|by left]|apply Hd2]; apply list_elem_of_fmap; by exists (call_key c, v'). }
    destruct c as [k|k status n|k status n|k]; cbn [call_key call_value spec_call fst snd] in *; rewrite Hm.
    + destruct (retrieve_known k v w l Hw Hk Hv) as (o & x & _ & _ & Hr & _ & Hx & Ho). exists (Ok v), w, l, m. split; [|done].
      destruct k as [[ns z] a]. unfold call_cache, bind. cbn [fst snd] in Hr. rewrite Hr. by eapply reading_spec.
    + destruct (store_new k status n w l Hw Hs) as [Hd _]. exists (Raise (Duplicate DuplicatePoolManagerStatus)), (set_uuids (S (w_uuids w)) w), l, m.
      split; [|split; [done|split; [by apply tidy_uuids|done]]]. unfold call_cache. rewrite status_object_eq. unfold bind, lift. by rewrite (Hd Hin).
    + destruct (change_known k v status n w l Hw Hk Hv Hg) as (w' & l1 & l2 & Hc & -> & Ht). do 4 eexists. split; [exact Hc|].
      split; [done|]. split; [exact Ht|]. eapply agrees_put; [exact Ha|set_solver|]. intros v'. specialize (Huniq l1 l2 eq_refl v').
      rewrite elem_of_app, elem_of_cons. rewrite elem_of_app in Huniq. naive_solver.
    + destruct (clear_known k v w l Hw Hk Hv) as (w' & l1 & l2 & Hc & -> & Ht). do 4 eexists. split; [exact Hc|].
      split; [done|]. split; [exact Ht|]. eapply agrees_put; [exact Ha|set_solver|]. intros v'. specialize (Huniq l1 l2 eq_refl v'). naive_solver.
  - pose proof (agrees_out l m _ Ha Hout) as Hm.
    destruct c as [k|k status n|k status n|k]; cbn [call_key call_value spec_call fst snd] in *; rewrite Hm.
    + pose proof (retrieve_unknown k w l Hw Hk Hout) as Hr. do 4 eexists. split; [|done]. destruct k as [[ns z] a]. unfold call_cache, bind.
      cbn [fst snd] in Hr. by rewrite Hr.
    + destruct (store_new k status n w l Hw Hs) as [_ Hd]. destruct (Hd Hout) as [o Ho]. do 4 eexists.
      split; [unfold call_cache; rewrite status_object_eq; unfold bind, lift; by rewrite Ho|]. split; [done|].
      split; [by apply (tidy_added k status n w l)|]. eapply agrees_put; [exact Ha|set_solver|]. intros v'.
      rewrite elem_of_app, list_elem_of_singleton. split; [intros [Hv|[= ->]]; [|done]|intros [= ->]; by right].
      destruct Hout. apply list_elem_of_fmap. by exists (k, v').
    + pose proof (retrieve_unknown k w l Hw Hk Hout) as Hr. do 4 eexists. split; [|done]. destruct k as [[ns z] a]. unfold call_cache, bind.
      cbn [fst snd] in Hr. by rewrite Hr.
    + pose proof (retrieve_unknown k w l Hw Hk Hout) as Hr. do 4 eexists. split; [|done]. unfold call_cache. rewrite status_object_eq.
      unfold Sql_clear, bind, lift, ret.
      change (getattr registry (fresh k PNone 0) "id") with (Ok (E:=exc) PNone). cbv beta iota. change (truthy PNone) with false. cbv beta iota.
      change (getattr registry (fresh k PNone 0) "nameserver_id") with (Ok (E:=exc) (PStr k.1.1)).
      change (getattr registry (fresh k PNone 0) "zone_id") with (Ok (E:=exc) (PStr k.1.2)).
      change (getattr registry (fresh k PNone 0) "action") with (Ok (E:=exc) (PStr k.2)). cbv beta iota. by rewrite Hr.
Qed.

Lemma typed_rows w l x : tidy w l -> x ∈ rows w -> exists k v,
  table_takes k v /\ Forall (fun nv => cell x nv.1 = nv.2) (cells_of k v).
Proof.
  intros [_ _ Hr _ Hv] [i Hi]%list_elem_of_lookup.
  destruct (Forall2_lookup_r _ _ _ _ _ Hr Hi) as ([k v] & Hin%list_elem_of_lookup_2 & Ha & Hb & Hc & Hs & _ & n & Hn & Hm).
  rewrite Forall_forall in Hv. apply Hv in Hin. exists k, v. split; [done|].
  unfold cells_of. cbn [fst snd] in Hn. rewrite Hn. by repeat constructor.
Qed.

(** C29: the status cache in a database is a map that tells storing from changing. Whatever is
    looked up, stored, changed and cleared, in any order, with values the columns take (a name
    server and a zone by their identifiers, an action and a status of their enumerations or no
    status, a serial of 31 bits and a sign), every call is answered as by a map from (name server,
    zone, action) to the status and serial stored last: a status that was looked up can be
    changed and is found again as it was written, keys never meet, and clearing forgets; and
    nothing is written that the columns do not take. Storing a new status where there is one
    raises DuplicatePoolManagerStatus and keeps the old one, where the driver on memcached
    overwrites it; the pool manager stores a new status, without looking, each time it creates
    a zone. *)
Theorem sql_cache_refines_map cs w l m :
  tidy w l -> agrees l m -> Forall good_call cs ->
  calls (call_cache ctx) cs w = calls spec_call cs m /\
  forall x, x ∈ rows (after (call_cache ctx) cs w) ->
    Forall (fun n => column_takes pool_manager_status_types n (cell x n)) ["nameserver_id"; "zone_id"; "action"; "status"; "serial_number"].
Proof.
  intros Hw Ha Hc. revert w l m Hw Ha. induction Hc as [|c cs Hg Hc IH]; intros w l m Hw Ha.
  - split; [done|]. intros x Hx. destruct (typed_rows w l x Hw Hx) as (k & v & Hk & Hv).
    unfold table_takes, cells_of in Hk, Hv. rewrite !Forall_cons in Hk, Hv. cbn [fst snd] in Hk, Hv.
    destruct Hv as (Ha' & Hb & Hc & Hd & He & _). rewrite !Forall_cons, Ha', Hb, Hc, Hd, He. naive_solver.
  - destruct (call_step c w l m Hw Ha Hg) as (r & w' & l' & m' & E1 & E2 & Hw' & Ha'). destruct (IH w' l' m' Hw' Ha') as [Hq1 Hq2].
    unfold after in *. cbn [calls foldl]. rewrite E1, E2. split; [by f_equal|exact Hq2].
Qed.
End Refinement.

(** ** An example: a status stored twice *)
#[local] Existing Instance counting_env.
#[local] Existing Instance ref_engine.
#[local] Existing Instance ref_laws.
Definition cache_key : key := ("794ccc2cd75141feb57f8894c9f5c842", "a86dba58004347ccbb9e71f8be4b1c1c", "CREATE").
Definition cache_calls : list cache_call :=
  [StoreNew cache_key PNone 0; Change cache_key (PStr "SUCCESS") 7; Retrieve cache_key; StoreNew cache_key PNone 0; Clear cache_key; Retrieve cache_key].
Lemma sql_cache_refines_map_witness :
  calls (call_cache ref_context) cache_calls (ref_world []) =
  [Ok (PNone, PNone); Ok (PNone, PNone); Ok (PStr "SUCCESS", PInt 7); Raise (Duplicate DuplicatePoolManagerStatus);
   Ok (PNone, PNone); Raise (NotFound PoolManagerStatusNotFound)].
Proof.
  destruct (@sql_cache_refines_map counting_env ref_engine ref_laws counting_fresh ltac:(intros n; discriminate) ref_context
    cache_calls (ref_world []) [] (fun _ => None)) as [E _].
  - split; [|intros x Hx; by apply elem_of_nil in Hx|constructor|constructor|constructor].
    exists []. split_and!; [reflexivity|constructor|intros n _ Hn; by apply elem_of_nil in Hn].
  - intros k v. split; [intros Hn; by apply elem_of_nil in Hn|discriminate].
  - repeat constructor.
  - rewrite E. vm_compute. reflexivity.
Defined.
