(* ===== verification/Storage.v ===== *)
(** * The storage of zones, record sets and their relatives
      (designate/storage/impl_sqlalchemy/__init__.py)

    Most resources have the same six operations over one table; a [resource]
    names what differs. Zones, record sets, records, pools, pool targets and zone
    transfers have operations of their own. An object that an operation mutates
    is returned by it. *)
From Stdlib Require Import ZArith Lia Ascii String.
From stdpp Require Import base option numbers strings sets list.
From S2P Require Import Prelude PyStr Exceptions Values Objects Classes World Sql Tables.
Local Open Scope string_scope.

(** A resource: its table, its classes, its exceptions, and the column that
    names the owner of the resource, set by the create operation. *)
Record resource := {
  r_table : table;
  r_cls : string;
  r_list : string;
  r_dup : exc;
  r_nf : exc;
  r_parent : option string;
}.

Definition quota_methods : resource :=
  {| r_table := quotas_table; r_cls := "Quota"; r_list := "QuotaList";
     r_dup := Duplicate DuplicateQuota; r_nf := NotFound QuotaNotFound; r_parent := None |}.
Definition tld_methods : resource :=
  {| r_table := tlds_table; r_cls := "Tld"; r_list := "TldList";
     r_dup := Duplicate DuplicateTld; r_nf := NotFound TldNotFound; r_parent := None |}.
Definition tsigkey_methods : resource :=
  {| r_table := tsigkeys_table; r_cls := "TsigKey"; r_list := "TsigKeyList";
     r_dup := Duplicate DuplicateTsigKey; r_nf := NotFound TsigKeyNotFound; r_parent := None |}.
Definition zone_attribute_methods : resource :=
  {| r_table := zone_attributes_table; r_cls := "ZoneAttribute"; r_list := "ZoneAttributeList";
     r_dup := Duplicate DuplicateZoneAttribute; r_nf := NotFound ZoneAttributeNotFound;
     r_parent := Some "zone_id" |}.
Definition zone_master_methods : resource :=
  {| r_table := zone_masters_table; r_cls := "ZoneMaster"; r_list := "ZoneMasterList";
     r_dup := Duplicate DuplicateZoneMaster; r_nf := NotFound ZoneMasterNotFound;
     r_parent := Some "zone_id" |}.
Definition blacklist_methods : resource :=
  {| r_table := blacklists_table; r_cls := "Blacklist"; r_list := "BlacklistList";
     r_dup := Duplicate DuplicateBlacklist; r_nf := NotFound BlacklistNotFound; r_parent := None |}.
Definition pool_attribute_methods : resource :=
  {| r_table := pool_attributes_table; r_cls := "PoolAttribute"; r_list := "PoolAttributeList";
     r_dup := Duplicate DuplicatePoolAttribute; r_nf := NotFound PoolAttributeNotFound;
     r_parent := Some "pool_id" |}.
Definition pool_ns_record_methods : resource :=
  {| r_table := pool_ns_records_table; r_cls := "PoolNsRecord"; r_list := "PoolNsRecordList";
     r_dup := Duplicate DuplicatePoolNsRecord; r_nf := NotFound PoolNsRecordNotFound;
     r_parent := Some "pool_id" |}.
Definition pool_nameserver_methods : resource :=
  {| r_table := pool_nameservers_table; r_cls := "PoolNameserver"; r_list := "PoolNameserverList";
     r_dup := Duplicate DuplicatePoolNameserver; r_nf := NotFound PoolNameserverNotFound;
     r_parent := Some "pool_id" |}.
Definition pool_target_option_methods : resource :=
  {| r_table := pool_target_options_table; r_cls := "PoolTargetOption";
     r_list := "PoolTargetOptionList"; r_dup := Duplicate DuplicatePoolTargetOption;
     r_nf := NotFound PoolTargetOptionNotFound; r_parent := Some "pool_target_id" |}.
Definition pool_target_master_methods : resource :=
  {| r_table := pool_target_masters_table; r_cls := "PoolTargetMaster";
     r_list := "PoolTargetMasterList"; r_dup := Duplicate DuplicatePoolTargetMaster;
     r_nf := NotFound PoolTargetMasterNotFound; r_parent := Some "pool_target_id" |}.
Definition pool_also_notify_methods : resource :=
  {| r_table := pool_also_notifies_table; r_cls := "PoolAlsoNotify"; r_list := "PoolAlsoNotifyList";
     r_dup := Duplicate DuplicatePoolAlsoNotify; r_nf := NotFound PoolAlsoNotifyNotFound;
     r_parent := Some "pool_id" |}.
Definition zone_transfer_accept_methods : resource :=
  {| r_table := zone_transfer_accepts_table; r_cls := "ZoneTransferAccept";
     r_list := "ZoneTransferAcceptList"; r_dup := Duplicate DuplicateZoneTransferAccept;
     r_nf := NotFound ZoneTransferAcceptNotFound; r_parent := None |}.
Definition service_status_methods : resource :=
  {| r_table := service_status_table; r_cls := "ServiceStatus"; r_list := "ServiceStatusList";
     r_dup := Duplicate DuplicateServiceStatus; r_nf := NotFound ServiceStatusNotFound;
     r_parent := None |}.

Section Storage.
Context `{Env} `{SqlEngine}.

Abbreviation criterion := (list (string * pyval)).

(** ** The operations of a resource *)
Section Resource.
Variable rs : resource.
Definition find_one (ctx : context) (c : criterion) : P world pyval :=
  _find_one ctx (r_table rs) (r_cls rs) (r_nf rs) c true.
Definition find_all (ctx : context) (c : criterion) (pg : page) : P world pyval :=
  _find ctx (r_table rs) (r_cls rs) (r_list rs) c pg true.
Definition get_by_id (ctx : context) (id : pyval) : P world pyval := find_one ctx [("id", id)].
Definition create_in (parent obj : pyval) : P world pyval :=
  let! obj := match r_parent rs with
              | Some col => lift (setattr registry obj col parent)
              | None => ret obj
              end in
  _create (r_table rs) obj (r_dup rs) [] [].
Definition create (obj : pyval) : P world pyval := create_in PNone obj.
Definition update_obj (ctx : context) (obj : pyval) : P world pyval :=
  _update ctx (r_table rs) obj (r_dup rs) (r_nf rs) [].
Definition delete_by_id (ctx : context) (id : pyval) : P world pyval :=
  let! obj := get_by_id ctx id in
  _delete ctx (r_table rs) obj (r_nf rs) false.
End Resource.

(** ** Attributes of objects *)
Definition attr (o : pyval) (n : string) : P world pyval := lift (getattr registry o n).
Definition str_of (v : pyval) : P world string :=
  match v with PStr s => ret s | _ => raise (Py PyAttributeError) end.
Definition set_attr (o : pyval) (n : string) (v : pyval) : P world pyval :=
  lift (setattr registry o n v).
Definition empty_list (cls : string) : P world pyval := lift (new_obj registry cls []).
(** The same list object after its items were mutated. *)
Definition with_items (l : pyval) (items : list pyval) : pyval :=
  match l with PObj c f ch og => PObj c (aset "objects" (PList items) f) ch og | v => v end.
(** An attribute whose items were mutated in place: nothing is recorded as
    changed. *)
Definition with_attr_items (o : pyval) (n : string) (items : list pyval) : pyval :=
  match o with
  | PObj c f ch og =>
      match aget n f with
      | Some l => PObj c (aset n (with_items l items) f) ch og
      | None => o
      end
  | v => v
  end.
Definition items_of (o : pyval) (n : string) : P world (list pyval) :=
  let! l := attr o n in ret (list_objects l).

(** Create the items of a relation of a new object, or give it an empty one. *)
Definition create_items (rs : resource) (parent_id obj : pyval) (n : string) : P world pyval :=
  if obj_attr_is_set obj n then
    let! l := items_of obj n in
    let! l' := mmap (create_in rs parent_id) l in
    ret (with_attr_items obj n l')
  else let! e := empty_list (r_list rs) in set_attr obj n e.

(** An item without an id in its attributes and originals is new. *)
Definition is_new (i : pyval) : P world bool :=
  match obj_get_original_value registry i "id" with
  | Ok _ => ret false
  | Raise e => if bool_decide (e = Py PyKeyError) then ret true else raise e
  end.
Definition not_in (l : list pyval) (v : pyval) : bool := negb (existsb (py_eq v) l).

(** Bring the stored items of a relation in line with the object's: delete the
    stored ones it does not have, update those it has, create the new ones. *)
Definition sync_items (ctx : context) (rs : resource) (parent_id obj : pyval) (n : string) :
    P world pyval :=
  match r_parent rs with
  | None => ret obj
  | Some col =>
      let! stored := find_all rs ctx [(col, parent_id)] no_page in
      let! have := mmap (fun i => attr i "id") (list_objects stored) in
      let! items := items_of obj n in
      let! keep := mmap (fun i => attr i "id") items in
      let! news := mmap is_new items in
      mfor (filter (fun i => not_in keep i = true) have)
        (fun i => delete_by_id rs ctx i ;;; ret tt) ;;;
      let! items := mmap (fun '(i, b) => if (b : bool) then ret i else update_obj rs ctx i)
                      (zip items news) in
      let! items := mmap (fun '(i, b) => if (b : bool) then create_in rs parent_id i else ret i)
                      (zip items news) in
      ret (with_attr_items obj n items)
  end.

(** [_rname_check]: a name that starts with a wildcard is looked up reversed. *)
Definition _rname_check (c : criterion) : R criterion :=
  match aget "name" c with
  | None => Ok c
  | Some (PStr s) =>
      if startswith "*" s then Ok (aset "reverse_name" (PStr (srev s)) (adel "name" c)) else Ok c
  | Some _ => Raise (Py PyAttributeError)
  end.

(** ** Zones *)

(** [_load_relations] of [_find_zones] *)
Definition load_zone_relations (ctx : context) (zone : pyval) : P world pyval :=
  let! ty := attr zone "type" in
  let! id := attr zone "id" in
  let! masters := if py_eq ty (PStr "SECONDARY")
                  then find_all zone_master_methods ctx [("zone_id", id)] no_page
                  else empty_list "ZoneMasterList" in
  let! zone := set_attr zone "masters" masters in
  let! attributes := find_all zone_attribute_methods ctx
                       [("zone_id", id); ("key", PStr "!master")] no_page in
  let! zone := set_attr zone "attributes" attributes in
  ret (obj_reset_changes zone ["masters"; "attributes"]).

Definition find_zone (ctx : context) (c : criterion) : P world pyval :=
  let! c := lift (_rname_check c) in
  let! zone := _find_one ctx zones_table "Zone" (NotFound ZoneNotFound) c true in
  load_zone_relations ctx zone.
Definition count_zones (ctx : context) (c : criterion) : P world Z := _count ctx zones_table c.
Definition find_zones (ctx : context) (c : criterion) (pg : page) : P world pyval :=
  let! c := lift (_rname_check c) in
  let! zones := _find ctx zones_table "Zone" "ZoneList" c pg true in
  let! n := count_zones ctx c in
  let! zones := set_attr zones "total_count" (PInt n) in
  let! l := mmap (load_zone_relations ctx) (list_objects zones) in
  ret (with_items zones l).
Definition get_zone (ctx : context) (id : pyval) : P world pyval := find_zone ctx [("id", id)].

Definition create_zone (ctx : context) (zone : pyval) : P world pyval :=
  let! name := attr zone "name" in
  let! name := str_of name in
  let! zone := _create zones_table zone (Duplicate DuplicateZone)
                 ["attributes"; "recordsets"; "masters"] [("reverse_name", PStr (srev name))] in
  let! id := attr zone "id" in
  let! zone := create_items zone_attribute_methods id zone "attributes" in
  let! zone := create_items zone_master_methods id zone "masters" in
  ret (obj_reset_changes zone ["masters"; "attributes"]).

Definition delete_zone (ctx : context) (id : pyval) : P world pyval :=
  let! zone := find_zone ctx [("id", id)] in
  _delete ctx zones_table zone (NotFound ZoneNotFound) false.
Definition purge_zone (ctx : context) (zone : pyval) : P world pyval :=
  _delete ctx zones_table zone (NotFound ZoneNotFound) true.

(** [_walk_up_zones]; [steps] is [max_steps]. *)
Definition parent_id (zone : pyval) : pyval :=
  match getattr registry zone "parent_zone_id" with Ok v => v | Raise _ => PNone end.
Fixpoint walk_up (steps : nat) (current : pyval) (zones_by_id : list (string * pyval)) : R pyval :=
  match parent_id current with
  | PStr p =>
      match aget p zones_by_id with
      | Some parent =>
          match steps with
          | O | 1%nat => Raise (Forbidden IllegalParentZone)
          | S steps' => walk_up steps' parent zones_by_id
          end
      | None => Ok (PStr p)
      end
  | v => Ok v
  end.
Definition MAXIMUM_SUBZONE_DEPTH : nat := 128.
Definition _walk_up_zones (current : pyval) (zones_by_id : list (string * pyval)) : R pyval :=
  walk_up MAXIMUM_SUBZONE_DEPTH current zones_by_id.

(** [purge_zones]; the second component of the result is the number of zones
    purged, None when there were none. *)
Definition zones_by_id (zones : list pyval) : list (string * pyval) :=
  foldl (fun acc z => match getattr registry z "id" with
                      | Ok (PStr s) => aset s z acc
                      | _ => acc
                      end) [] zones.
Definition purge_one (ctx : context) (by_id_ : list (string * pyval)) (zone : pyval) :
    P world unit :=
  let! surviving := lift (_walk_up_zones zone by_id_) in
  let! id := attr zone "id" in
  execute_update zones_table (where_ select_all (col_eq "parent_zone_id" id))
    [("parent_zone_id", surviving)] false ;;;
  purge_zone ctx zone ;;; ret tt.
Definition purge_zones (ctx : context) (c : criterion) (limit : pyval) : P world pyval :=
  let ctx := if mem_str "deleted" c.*1 then with_show_deleted true ctx else ctx in
  let! zones := find_zones ctx c {| p_marker := PNone; p_limit := limit;
                                    p_sort_key := PNone; p_sort_dir := PNone |} in
  match list_objects zones with
  | [] => ret PNone
  | l => mfor l (purge_one ctx (zones_by_id l)) ;;; ret (PInt (Z.of_nat (length l)))
  end.

(** ** Records *)
Definition find_record (ctx : context) (c : criterion) : P world pyval :=
  _find_one ctx records_table "Record" (NotFound RecordNotFound) c true.
Definition find_records (ctx : context) (c : criterion) (pg : page) : P world pyval :=
  _find ctx records_table "Record" "RecordList" c pg true.
Definition get_record (ctx : context) (id : pyval) : P world pyval := find_record ctx [("id", id)].

(** [_recalculate_record_hash] *)
Definition text (v : pyval) : string :=
  match v with PStr s => s | PInt z => str_of_Z z | _ => "None" end.
Definition _recalculate_record_hash (record : pyval) : P world pyval :=
  let! rs := attr record "recordset_id" in
  let! d := attr record "data" in
  ret (PStr (md5_hex (text rs ++ ":" ++ text d))).

Definition create_record (ctx : context) (zone_id recordset_id record : pyval) : P world pyval :=
  let! zone := find_zone ctx [("id", zone_id)] in
  let! t := attr zone "tenant_id" in
  let! record := set_attr record "tenant_id" t in
  let! record := set_attr record "zone_id" zone_id in
  let! record := set_attr record "recordset_id" recordset_id in
  let! h := _recalculate_record_hash record in
  let! record := set_attr record "hash" h in
  _create records_table record (Duplicate DuplicateRecord) [] [].
Definition update_record (ctx : context) (record : pyval) : P world pyval :=
  let! record := match obj_what_changed registry record with
                 | [] => ret record
                 | _ => let! h := _recalculate_record_hash record in set_attr record "hash" h
                 end in
  _update ctx records_table record (Duplicate DuplicateRecord) (NotFound RecordNotFound) [].
Definition delete_record (ctx : context) (id : pyval) : P world pyval :=
  let! record := find_record ctx [("id", id)] in
  _delete ctx records_table record (NotFound RecordNotFound) false.

(** ** The backend's own records and their association with records *)
Definition get_record_association (ctx : context) (record_id : pyval) : P world pyval :=
  let! s := str_of record_id in
  _find_one ctx record_association_table "RecordAssociation" (NotFound RecordNotFound)
    [("record_id", PStr (replace "-" "" s))] true.
Definition get_zdns_record (ctx : context) (id : pyval) : P world pyval :=
  _find_one ctx zdns_record_table "ZdnsRecord" (NotFound RecordNotFound) [("id", id)] true.
Definition delete_zdns_record (ctx : context) (id : pyval) : P world pyval :=
  let! zdns_record := get_zdns_record ctx id in
  _delete ctx zdns_record_table zdns_record (NotFound RecordNotFound) false.
Definition delete_record_association (ctx : context) (record_id : pyval) : P world pyval :=
  let! association := _find_one ctx record_association_table "RecordAssociation"
                        (NotFound RecordNotFound) [("record_id", record_id)] true in
  _delete ctx record_association_table association (NotFound RecordNotFound) false.
(** These two insert a dictionary as it is; on a duplicate the message of the error
    asks the dictionary for [obj_name], which it has not. *)
Definition insert_dict (t : table) (values : row) : P world unit :=
  try_except (execute_insert t values ;;; ret tt) (on (Py DBDuplicateEntry) (raise (Py PyAttributeError))).
Definition create_zdns_record (zdns_record : row) : P world unit := insert_dict zdns_record_table zdns_record.
Definition create_record_association (association : row) : P world unit :=
  insert_dict record_association_table association.
Definition update_zdns_record_in_storage (ctx : context) (zdns_record : pyval) : P world pyval :=
  _update ctx zdns_record_table zdns_record (Duplicate DuplicateRecordSet) (NotFound RecordSetNotFound) [].

(** ** Record sets *)

(** The join of record sets with their zones, of which only those that are not
    deleted count: the name of the zone. *)
Definition zone_of (d : db) (rs : row) : option row :=
  head (filter (fun z => compare_op OEq (cell z "id") (cell rs "zone_id") = true /\
                         compare_op OEq (cell z "deleted") (PStr "0") = true)
          (rows_of d zones_table)).
Definition in_live_zone (d : db) (rs : row) : bool :=
  match zone_of d rs with Some _ => true | None => false end.

(** [_find_recordsets(one=True)] *)
Definition find_recordset (ctx : context) (c : criterion) : P world pyval :=
  let! c := lift (_rname_check c) in
  let c := match aget "zones_deleted" c with
           | Some v => if truthy v then c else adel "zones_deleted" c
           | None => c
           end in
  let! q := lift (find_query ctx recordsets_table select_all c true) in
  let! d := gets w_db in
  match filter (fun r => selects q r && in_live_zone d r = true) (rows_of d recordsets_table) with
  | [r] =>
      let! rs := lift (_set_object_from_model (PObj "RecordSet" [] [] []) (Some r)) in
      let! id := attr rs "id" in
      let! records := find_records ctx [("recordset_id", id)] no_page in
      let! rs := set_attr rs "records" records in
      ret (obj_reset_changes rs ["records"])
  | _ => raise (NotFound RecordSetNotFound)
  end.
(** [get_recordset]: the dashes of the identifier do not count. *)
Definition get_recordset (ctx : context) (id : pyval) : P world pyval :=
  let! s := str_of id in find_recordset ctx [("id", PStr (replace "-" "" s))].

(** [_find_recordsets_with_records]: [pairs] are the rows of the inner query, a
    record set with its zone once for each matching record when records are
    filtered. *)
Definition record_criterion (c : criterion) : criterion :=
  omap (fun n => match aget n c with
                 | Some PNone | None => None
                 | Some v => Some (n, v)
                 end) ["data"; "status"].
Definition rs_columns : list string :=
  ["id"; "version"; "created_at"; "updated_at"; "tenant_id"; "zone_id"; "name"; "type"; "ttl";
   "description"].
Definition r_columns : list string :=
  ["id"; "version"; "created_at"; "updated_at"; "tenant_id"; "zone_id"; "recordset_id"; "data";
   "description"; "hash"; "managed"; "managed_plugin_name"; "managed_resource_type";
   "managed_resource_region"; "managed_resource_id"; "managed_tenant_id"; "status"; "action";
   "serial"].
Definition copy_columns (names : list string) (r : row) (o : pyval) : R pyval :=
  update registry o (map (fun n => (n, cell r n)) names).
Definition build_rrset (d : db) (rs : row) : R pyval :=
  let? o := copy_columns rs_columns rs (PObj "RecordSet" [] [] []) in
  let? o := setattr registry o "zone_name"
              (match zone_of d rs with Some z => cell z "name" | None => PNone end) in
  let o := obj_reset_changes o ["zone_name"] in
  let? l := rmap (fun r => copy_columns r_columns r (PObj "Record" [] [] []))
              (filter (fun r => compare_op OEq (cell r "recordset_id") (cell rs "id") = true)
                 (rows_of d records_table)) in
  setattr registry o "records" (PObj "RecordList" [("objects", PList l)] [] []).
Definition matching_records (d : db) (c : criterion) (rs : row) : R nat :=
  let? q := _apply_criterion records_table select_all c in
  Ok (length (filter (fun r => compare_op OEq (cell r "recordset_id") (cell rs "id") = true /\
                               selects q r = true) (rows_of d records_table))).
Fixpoint dedup_rows (seen : list pyval) (l : list row) : list row :=
  match l with
  | [] => []
  | r :: l' => if not_in seen (cell r "id") then r :: dedup_rows (cell r "id" :: seen) l'
               else dedup_rows seen l'
  end.
Definition find_recordsets (ctx : context) (c : criterion) (pg : page) : P world pyval :=
  let! c := lift (_rname_check c) in
  let c := match aget "zones_deleted" c with
           | Some v => if truthy v then c else adel "zones_deleted" c
           | None => c
           end in
  let sort_key := or_str (p_sort_key pg) "created_at" in
  let sort_dir := or_str (p_sort_dir pg) "asc" in
  let rc := record_criterion c in
  let filtering := existsb (fun n => truthy (default PNone (aget n c))) ["data"; "status"] in
  let c := adel "status" (adel "data" c) in
  let! marker := match p_marker pg with
                 | PNone => ret None
                 | m => let! r := check_marker recordsets_table m in ret (Some r)
                 end in
  let! pq := lift (mapped_errors (paginate_query recordsets_table select_all (p_limit pg)
                                    [sort_key; "id"] marker sort_dir)) in
  let! d := gets w_db in
  let! q := lift (_apply_criterion recordsets_table
                    (_apply_tenant_criteria ctx recordsets_table select_all false) c) in
  let q := _apply_deleted_criteria ctx recordsets_table q in
  let wanted := filter (fun r => selects q r && in_live_zone d r = true)
                  (rows_of d recordsets_table) in
  let! pairs := if filtering
                then let! ll := lift (rmap (fun r => let? n := matching_records d rc r in
                                                     Ok (repeat r n)) wanted) in
                     ret (concat ll)
                else ret wanted in
  match run pq pairs with
  | [] => let! e := empty_list "RecordSetList" in set_attr e "total_count" (PInt 0)
  | page_ =>
      let ids := map (fun r => cell r "id") page_ in
      let order := {| q_where := [In "id" ids]; q_order := q_order pq; q_limit := None |} in
      let! l := lift (rmap (build_rrset d) (run order (rows_of d recordsets_table))) in
      let total := if hide_counts ctx then PNone
                   else PInt (Z.of_nat (length (dedup_rows [] pairs))) in
      set_attr (PObj "RecordSetList" [("objects", PList l)] [] []) "total_count" total
  end.

Definition create_recordset (ctx : context) (zone_id recordset : pyval) : P world pyval :=
  let! zone := find_zone ctx [("id", zone_id)] in
  let! t := attr zone "tenant_id" in
  let! recordset := set_attr recordset "tenant_id" t in
  let! recordset := set_attr recordset "zone_id" zone_id in
  let! name := attr recordset "name" in
  let! name := str_of name in
  _create recordsets_table recordset (Duplicate DuplicateRecordSet) ["records"]
    [("reverse_name", PStr (srev name))].
Definition update_recordset (ctx : context) (recordset : pyval) : P world pyval :=
  _update ctx recordsets_table recordset (Duplicate DuplicateRecordSet)
    (NotFound RecordSetNotFound) ["records"].
Definition delete_recordset (ctx : context) (id : pyval) : P world pyval :=
  let! recordset := find_recordset ctx [("id", id)] in
  _delete ctx recordsets_table recordset (NotFound RecordSetNotFound) false.

(** [count_recordsets] and [count_records]: joined with the live zones. *)
Definition count_in_live_zones (ctx : context) (t : table) (c : criterion) : P world Z :=
  let! q := lift (find_query ctx t select_all c true) in
  let! d := gets w_db in
  ret (Z.of_nat (length (filter (fun r => selects q r && in_live_zone d r = true) (rows_of d t)))).
Definition count_recordsets (ctx : context) (c : criterion) : P world Z :=
  count_in_live_zones ctx recordsets_table c.
Definition count_records (ctx : context) (c : criterion) : P world Z :=
  count_in_live_zones ctx records_table c.

(** [update_zone]: the attributes, the masters and, when they are set, the
    record sets of the zone follow the object; a new owner takes over the
    records and record sets. *)
Definition update_zone_recordset (ctx : context) (zone_id : pyval) (existing : list pyval)
    (rrset : pyval) : P world (pyval * pyval) :=
  let! n := attr rrset "name" in
  let! ty := attr rrset "type" in
  let same := fun e => match getattr registry e "name", getattr registry e "type" with
                       | Ok n', Ok ty' => py_eq n n' && py_eq ty ty'
                       | _, _ => false
                       end in
  match find same (rev existing) with
  | Some current =>
      let! current := lift (update registry current (items registry rrset)) in
      let! l := attr rrset "records" in
      let! current := set_attr current "records" l in
      let! current := update_recordset ctx current in
      let! id := attr current "id" in
      ret (rrset, id)
  | None =>
      let! rrset := create_recordset ctx zone_id rrset in
      let! id := attr rrset "id" in
      ret (rrset, id)
  end.
Definition update_zone_recordsets (ctx : context) (zone : pyval) : P world pyval :=
  let! zone_id := attr zone "id" in
  let! ty := attr zone "type" in
  let! l := find_recordsets ctx [("zone_id", zone_id)] no_page in
  let existing := list_objects l in
  let! rrsets := items_of zone "recordsets" in
  let! done := mmap (update_zone_recordset ctx zone_id existing) rrsets in
  let keep := done.*2 in
  when (py_eq ty (PStr "SECONDARY"))
    (let! ids := mmap (fun i => attr i "id") existing in
     mfor (filter (fun i => not_in keep i = true) ids)
       (fun i => delete_recordset ctx i ;;; ret tt)) ;;;
  ret (with_attr_items zone "recordsets" done.*1).
Definition update_zone (ctx : context) (zone : pyval) : P world pyval :=
  let tenant_id_changed := mem_str "tenant_id" (obj_what_changed registry zone) in
  let! zone := _update ctx zones_table zone (Duplicate DuplicateZone) (NotFound ZoneNotFound)
                 ["attributes"; "recordsets"; "masters"] in
  let! id := attr zone "id" in
  let! zone := if obj_attr_is_set zone "attributes"
               then sync_items ctx zone_attribute_methods id zone "attributes" else ret zone in
  let! zone := if obj_attr_is_set zone "masters"
               then sync_items ctx zone_master_methods id zone "masters" else ret zone in
  let! zone := if obj_attr_is_set zone "recordsets"
               then update_zone_recordsets ctx zone else ret zone in
  let! t := attr zone "tenant_id" in
  when tenant_id_changed
    (let q := where_ select_all (col_eq "zone_id" id) in
     execute_update records_table q [("tenant_id", t)] false ;;;
     execute_update recordsets_table q [("tenant_id", t)] false ;;; ret tt) ;;;
  ret zone.

(** ** Pools *)
Definition load_target_relations (ctx : context) (target : pyval) : P world pyval :=
  let! id := attr target "id" in
  let! options := find_all pool_target_option_methods ctx [("pool_target_id", id)] no_page in
  let! target := set_attr target "options" options in
  let! masters := find_all pool_target_master_methods ctx [("pool_target_id", id)] no_page in
  let! target := set_attr target "masters" masters in
  ret (obj_reset_changes target ["options"; "masters"]).
Definition find_pool_targets (ctx : context) (c : criterion) (pg : page) : P world pyval :=
  let! l := _find ctx pool_targets_table "PoolTarget" "PoolTargetList" c pg true in
  let! ts := mmap (load_target_relations ctx) (list_objects l) in
  ret (with_items l ts).
Definition find_pool_target (ctx : context) (c : criterion) : P world pyval :=
  let! t := _find_one ctx pool_targets_table "PoolTarget" (NotFound PoolTargetNotFound) c true in
  load_target_relations ctx t.
Definition create_pool_target (ctx : context) (pool_id target : pyval) : P world pyval :=
  let! target := set_attr target "pool_id" pool_id in
  let! target := _create pool_targets_table target (Duplicate DuplicatePoolTarget)
                   ["options"; "masters"] [] in
  let! id := attr target "id" in
  let! target := create_items pool_target_option_methods id target "options" in
  let! target := create_items pool_target_master_methods id target "masters" in
  ret (obj_reset_changes target ["options"; "masters"]).
Definition update_pool_target (ctx : context) (target : pyval) : P world pyval :=
  let! target := _update ctx pool_targets_table target (Duplicate DuplicatePoolTarget)
                   (NotFound PoolTargetNotFound) ["options"; "masters"] in
  let! id := attr target "id" in
  let! target := if obj_attr_is_set target "options"
                 then sync_items ctx pool_target_option_methods id target "options"
                 else ret target in
  let! target := if obj_attr_is_set target "masters"
                 then sync_items ctx pool_target_master_methods id target "masters"
                 else ret target in
  find_pool_target ctx [("id", id)].
Definition delete_pool_target (ctx : context) (id : pyval) : P world pyval :=
  let! target := find_pool_target ctx [("id", id)] in
  _delete ctx pool_targets_table target (NotFound PoolTargetNotFound) false.

Definition load_pool_relations (ctx : context) (pool : pyval) : P world pyval :=
  let! id := attr pool "id" in
  let c := [("pool_id", id)] in
  let! l := find_all pool_attribute_methods ctx c no_page in
  let! pool := set_attr pool "attributes" l in
  let! l := find_all pool_ns_record_methods ctx c no_page in
  let! pool := set_attr pool "ns_records" l in
  let! l := find_all pool_nameserver_methods ctx c no_page in
  let! pool := set_attr pool "nameservers" l in
  let! l := find_pool_targets ctx c no_page in
  let! pool := set_attr pool "targets" l in
  let! l := find_all pool_also_notify_methods ctx c no_page in
  let! pool := set_attr pool "also_notifies" l in
  ret (obj_reset_changes pool ["attributes"; "ns_records"; "nameservers"; "targets";
                               "also_notifies"]).
Definition find_pool (ctx : context) (c : criterion) : P world pyval :=
  let! p := _find_one ctx pools_table "Pool" (NotFound PoolNotFound) c true in
  load_pool_relations ctx p.
Definition find_pools (ctx : context) (c : criterion) (pg : page) : P world pyval :=
  let! l := _find ctx pools_table "Pool" "PoolList" c pg true in
  let! ps := mmap (load_pool_relations ctx) (list_objects l) in
  ret (with_items l ps).
Definition get_pool (ctx : context) (id : pyval) : P world pyval := find_pool ctx [("id", id)].
Definition delete_pool (ctx : context) (id : pyval) : P world pyval :=
  let! pool := find_pool ctx [("id", id)] in
  _delete ctx pools_table pool (NotFound PoolNotFound) false.
Definition create_pool (ctx : context) (pool : pyval) : P world pyval :=
  let! pool := _create pools_table pool (Duplicate DuplicatePool)
                 ["attributes"; "ns_records"; "nameservers"; "targets"; "also_notifies"] [] in
  let! id := attr pool "id" in
  let! pool := create_items pool_attribute_methods id pool "attributes" in
  let! pool := create_items pool_ns_record_methods id pool "ns_records" in
  let! pool := create_items pool_nameserver_methods id pool "nameservers" in
  let! pool := if obj_attr_is_set pool "targets" then
                 let! l := items_of pool "targets" in
                 let! l' := mmap (create_pool_target ctx id) l in
                 ret (with_attr_items pool "targets" l')
               else let! e := empty_list "PoolTargetList" in set_attr pool "targets" e in
  let! pool := create_items pool_also_notify_methods id pool "also_notifies" in
  ret (obj_reset_changes pool ["attributes"; "ns_records"; "nameservers"; "targets";
                               "also_notifies"]).
(** The case ['targets'] of [_update_pool_items]. *)
Definition sync_targets (ctx : context) (pool_id pool : pyval) : P world unit :=
  let! stored := find_pool_targets ctx [("pool_id", pool_id)] no_page in
  let! have := mmap (fun i => attr i "id") (list_objects stored) in
  let! its := items_of pool "targets" in
  let! keep := mmap (fun i => attr i "id") its in
  let! news := mmap is_new its in
  mfor (filter (fun i => not_in keep i = true) have)
    (fun i => delete_pool_target ctx i ;;; ret tt) ;;;
  mfor (zip its news)
    (fun '(i, b) => if (b : bool) then ret tt else update_pool_target ctx i ;;; ret tt) ;;;
  mfor (zip its news)
    (fun '(i, b) => if (b : bool) then create_pool_target ctx pool_id i ;;; ret tt else ret tt).
Definition update_pool (ctx : context) (pool : pyval) : P world pyval :=
  let! pool := _update ctx pools_table pool (Duplicate DuplicatePool) (NotFound PoolNotFound)
                 ["attributes"; "ns_records"; "nameservers"; "targets"; "also_notifies"] in
  let! id := attr pool "id" in
  let step := fun rs n => when (obj_attr_is_set pool n) (sync_items ctx rs id pool n ;;; ret tt) in
  step pool_attribute_methods "attributes" ;;;
  step pool_ns_record_methods "ns_records" ;;;
  step pool_nameserver_methods "nameservers" ;;;
  when (obj_attr_is_set pool "targets") (sync_targets ctx id pool) ;;;
  step pool_also_notify_methods "also_notifies" ;;;
  find_pool ctx [("id", id)].

(** ** Zone transfers *)

(** [_find_zone_transfer_requests]: owned by, or addressed to, the tenant; the
    name of the zone is joined in. *)
Definition transfer_query (ctx : context) : query :=
  if all_tenants ctx then select_all
  else where_ select_all (AnyOf [col_eq "tenant_id" (tenant_val ctx);
                                 col_eq "target_tenant_id" (tenant_val ctx)]).
Definition zone_name_of (d : db) (r : row) : option pyval :=
  match filter (fun z => compare_op OEq (cell z "id") (cell r "zone_id") = true)
          (rows_of d zones_table) with
  | z :: _ => Some (cell z "name")
  | [] => None
  end.
Definition joined (d : db) (rows : list row) : list row :=
  omap (fun r => match zone_name_of d r with Some n => Some (aset "zone_name" n r) | None => None end)
    rows.
Definition find_zone_transfer_request (ctx : context) (c : criterion) : P world pyval :=
  let! q := lift (_apply_criterion zone_transfer_requests_table (transfer_query ctx) c) in
  let! d := gets w_db in
  match filter (fun r => selects q r = true) (joined d (rows_of d zone_transfer_requests_table)) with
  | [r] => lift (_set_object_from_model (PObj "ZoneTransferRequest" [] [] []) (Some r))
  | _ => raise (NotFound ZoneTransferRequestNotFound)
  end.
Definition get_zone_transfer_request (ctx : context) (id : pyval) : P world pyval :=
  find_zone_transfer_request ctx [("id", id)].
(** Only one active request per zone. *)
Definition create_zone_transfer_request (ctx : context) (request : pyval) : P world pyval :=
  let! zone_id := attr request "zone_id" in
  try_else (find_zone_transfer_request ctx [("zone_id", zone_id); ("status", PStr "ACTIVE")])
    (on (NotFound ZoneTransferRequestNotFound)
       (_create zone_transfer_requests_table request
          (Duplicate DuplicateZoneTransferRequest) [] []))
    (fun _ => raise (Duplicate DuplicateZoneTransferRequest)).
Definition update_zone_transfer_request (ctx : context) (request : pyval) : P world pyval :=
  _update ctx zone_transfer_requests_table request
    (Duplicate DuplicateZoneTransferRequest) (NotFound ZoneTransferRequestNotFound) ["zone_name"].
Definition delete_zone_transfer_request (ctx : context) (id : pyval) : P world pyval :=
  let! request := find_zone_transfer_request ctx [("id", id)] in
  _delete ctx zone_transfer_requests_table request (NotFound ZoneTransferRequestNotFound) false.
End Storage.
