(* ===== verification/StorageFacts.v ===== *)
(** * What the storage of zones guarantees

    Walking up a hierarchy of zones ends and finds the surviving ancestor; a
    purge leaves no zone behind whose parent is gone. *)
From Stdlib Require Import ZArith Lia Ascii String.
From stdpp Require Import base option numbers strings sets list.
From S2P Require Import Prelude PyStr Exceptions Values Objects Classes World Decorators Sql SqlFacts Rows Tables Storage.
Local Open Scope string_scope.

(** ** Queries leave the world alone *)
Section Reading.
Context `{Env} `{SqlEngine}.
#[export] Instance attr_reads o n : Reads (attr o n).
Proof. unfold attr. apply _. Qed.
#[export] Instance set_attr_reads o n v : Reads (set_attr o n v).
Proof. unfold set_attr. apply _. Qed.
#[export] Instance str_of_reads v : Reads (str_of v).
Proof. destruct v; apply _. Qed.
#[export] Instance execute_select_reads t q : Reads (execute_select t q).
Proof. unfold execute_select. apply _. Qed.
#[export] Instance find_one_reads ctx t cls nf c at_ : Reads (_find_one ctx t cls nf c at_).
Proof.
  unfold _find_one. repeat (apply bind_reads; [apply _|intros]). destruct a0 as [|r [|]]; apply _.
Qed.
#[export] Instance check_marker_reads t m : Reads (check_marker t m).
Proof. unfold check_marker. apply bind_reads; [apply _|]. intros [|]; apply _. Qed.
#[export] Instance _find_reads ctx t cls l c pg at_ : Reads (_find ctx t cls l c pg at_).
Proof.
  unfold _find. apply bind_reads; [apply _|intros q].
  apply bind_reads; [destruct (p_marker pg); apply _|intros m]. apply _.
Qed.
#[export] Instance _count_reads ctx t c : Reads (_count ctx t c).
Proof. unfold _count, count_where. apply _. Qed.
#[export] Instance resource_find_one_reads rs ctx c : Reads (find_one rs ctx c).
Proof. unfold find_one. apply _. Qed.
#[export] Instance resource_find_all_reads rs ctx c pg : Reads (find_all rs ctx c pg).
Proof. unfold find_all. apply _. Qed.
#[export] Instance load_zone_relations_reads ctx z : Reads (load_zone_relations ctx z).
Proof. unfold load_zone_relations, empty_list. apply _. Qed.
#[export] Instance find_zone_reads ctx c : Reads (find_zone ctx c).
Proof. unfold find_zone. apply _. Qed.
#[export] Instance count_zones_reads ctx c : Reads (count_zones ctx c).
Proof. unfold count_zones. apply _. Qed.
#[export] Instance find_zones_reads ctx c pg : Reads (find_zones ctx c pg).
Proof. unfold find_zones. apply _. Qed.
#[export] Instance get_zone_reads ctx id : Reads (get_zone ctx id).
Proof. unfold get_zone. apply _. Qed.
#[export] Instance count_recordsets_reads ctx c : Reads (count_recordsets ctx c).
Proof. unfold count_recordsets, count_in_live_zones, count_where. apply _. Qed.
#[export] Instance count_records_reads ctx c : Reads (count_records ctx c).
Proof. unfold count_records, count_in_live_zones, count_where. apply _. Qed.
#[export] Instance load_target_relations_reads ctx t : Reads (load_target_relations ctx t).
Proof. unfold load_target_relations. apply _. Qed.
#[export] Instance find_pool_targets_reads ctx c pg : Reads (find_pool_targets ctx c pg).
Proof. unfold find_pool_targets. apply _. Qed.
#[export] Instance load_pool_relations_reads ctx p : Reads (load_pool_relations ctx p).
Proof. unfold load_pool_relations. apply _. Qed.
#[export] Instance find_pool_reads ctx c : Reads (find_pool ctx c).
Proof. unfold find_pool. apply _. Qed.
#[export] Instance find_pools_reads ctx c pg : Reads (find_pools ctx c pg).
Proof. unfold find_pools. apply _. Qed.
#[export] Instance get_pool_reads ctx id : Reads (get_pool ctx id).
Proof. unfold get_pool. apply _. Qed.
#[export] Instance find_recordsets_reads ctx c pg : Reads (find_recordsets ctx c pg).
Proof.
  unfold find_recordsets. apply bind_reads; [apply _|intros c'].
  apply bind_reads; [destruct (p_marker pg); apply _|intros m].
  repeat (apply bind_reads; [apply _|intros]). destruct (run _ _); unfold empty_list; apply _.
Qed.
#[export] Instance zone_transfer_request_reads ctx c : Reads (find_zone_transfer_request ctx c).
Proof.
  unfold find_zone_transfer_request. repeat (apply bind_reads; [apply _|intros]).
  repeat case_match; apply _.
Qed.
End Reading.

(** ** Writes leave the session's bookkeeping alone *)
Section Balance.
Context `{Env} `{SqlEngine}.
#[local] Hint Constants Opaque : typeclass_instances.
#[export] Instance execute_insert_balanced t v : Balanced (execute_insert t v).
Proof.
  unfold execute_insert. apply bind_balanced; [|intros; balanced].
  generalize (@nil (string * pyval)). induction (t_columns t) as [|[c d] cols IH]; intros r; cbn [fill]; [apply _|].
  apply bind_balanced; [|intros; apply IH]. destruct (aget c v); [apply _|].
  unfold default_value. destruct d as [[]|]; unfold utcnow; balanced.
Qed.
#[export] Instance execute_update_balanced t q v i : Balanced (execute_update t q v i).
Proof. unfold execute_update, utcnow. balanced. Qed.
#[export] Instance execute_delete_balanced t q : Balanced (execute_delete t q).
Proof. unfold execute_delete. balanced. Qed.
#[export] Instance _create_balanced t o e s x : Balanced (_create t o e s x).
Proof. unfold _create. balanced. Qed.
#[export] Instance _update_balanced ctx t o e n s : Balanced (_update ctx t o e n s).
Proof. unfold _update. balanced. Qed.
#[export] Instance _delete_balanced ctx t o e h : Balanced (_delete ctx t o e h).
Proof. unfold _delete, utcnow. balanced. Qed.
#[export] Instance create_in_balanced rs p o : Balanced (create_in rs p o).
Proof. unfold create_in. balanced. Qed.
#[export] Instance create_balanced rs o : Balanced (create rs o).
Proof. unfold create. apply _. Qed.
#[export] Instance update_obj_balanced ctx rs o : Balanced (update_obj rs ctx o).
Proof. unfold update_obj. apply _. Qed.
#[export] Instance delete_by_id_balanced ctx rs i : Balanced (delete_by_id rs ctx i).
Proof. unfold delete_by_id, get_by_id. balanced. Qed.
#[export] Instance items_of_reads o n : Reads (items_of o n).
Proof. unfold items_of. apply _. Qed.
#[export] Instance is_new_reads i : Reads (is_new i).
Proof. unfold is_new. repeat case_match; apply _. Qed.
#[export] Instance sync_items_balanced ctx rs p o n : Balanced (sync_items ctx rs p o n).
Proof. unfold sync_items. balanced. Qed.
#[export] Instance find_record_reads ctx c : Reads (find_record ctx c).
Proof. unfold find_record. apply _. Qed.
#[export] Instance find_records_reads ctx c pg : Reads (find_records ctx c pg).
Proof. unfold find_records. apply _. Qed.
#[export] Instance find_recordset_reads ctx c : Reads (find_recordset ctx c).
Proof. unfold find_recordset. repeat (apply bind_reads; [apply _|intros]). repeat case_match; apply _. Qed.
#[export] Instance get_recordset_reads ctx c : Reads (get_recordset ctx c).
Proof. unfold get_recordset. apply _. Qed.
#[export] Instance recalculate_hash_reads r : Reads (_recalculate_record_hash r).
Proof. unfold _recalculate_record_hash. apply _. Qed.
#[export] Instance create_record_balanced ctx z rs r : Balanced (create_record ctx z rs r).
Proof. unfold create_record. balanced. Qed.
#[export] Instance update_record_balanced ctx r : Balanced (update_record ctx r).
Proof. unfold update_record. balanced. Qed.
#[export] Instance create_recordset_balanced ctx z r : Balanced (create_recordset ctx z r).
Proof. unfold create_recordset. balanced. Qed.
#[export] Instance update_recordset_balanced ctx r : Balanced (update_recordset ctx r).
Proof. unfold update_recordset. balanced. Qed.
#[export] Instance delete_recordset_balanced ctx i : Balanced (delete_recordset ctx i).
Proof. unfold delete_recordset. balanced. Qed.
#[export] Instance delete_record_balanced ctx i : Balanced (delete_record ctx i).
Proof. unfold delete_record. balanced. Qed.
#[export] Instance delete_zone_balanced ctx i : Balanced (delete_zone ctx i).
Proof. unfold delete_zone. balanced. Qed.
#[export] Instance update_zone_recordsets_balanced ctx z : Balanced (update_zone_recordsets ctx z).
Proof. unfold update_zone_recordsets, update_zone_recordset. balanced. Qed.
#[export] Instance update_zone_balanced ctx z : Balanced (update_zone ctx z).
Proof. unfold update_zone. balanced. Qed.
#[export] Instance update_transfer_request_balanced ctx z : Balanced (update_zone_transfer_request ctx z).
Proof. unfold update_zone_transfer_request. apply _. Qed.
#[export] Instance get_transfer_request_reads ctx z : Reads (get_zone_transfer_request ctx z).
Proof. unfold get_zone_transfer_request. apply _. Qed.
End Balance.

(** ** Walking up *)

(** [climbs by z n r]: from [z], [n] steps to parents in [by] lead to a zone
    whose parent [r] is not in it. *)
Inductive climbs (by_id_ : list (string * pyval)) : pyval -> nat -> pyval -> Prop :=
| climb_end z :
    (forall p, parent_id z = PStr p -> aget p by_id_ = None) -> climbs by_id_ z 0 (parent_id z)
| climb_step z p q n r :
    parent_id z = PStr p -> aget p by_id_ = Some q -> climbs by_id_ q n r -> climbs by_id_ z (S n) r.

Lemma walk_up_climbs by_id_ z n r k :
  climbs by_id_ z n r ->
  walk_up (S k) z by_id_ = if (n <=? k)%nat then Ok r else Raise (Forbidden IllegalParentZone).
Proof.
  intros Hc. revert k. induction Hc as [z Hz|z p q n r Hp Hq Hc IH]; intros k; cbn [walk_up].
  - destruct (parent_id z) as [| | |p| | |] eqn:Hz'; try done. by rewrite (Hz p).
  - rewrite Hp, Hq. destruct k as [|k]; [done|]. apply IH.
Qed.

Lemma walk_up_Ok by_id_ k z r :
  walk_up (S k) z by_id_ = Ok r -> exists n, (n <= k)%nat /\ climbs by_id_ z n r.
Proof.
  revert z. induction k as [|k IH]; intros z; cbn [walk_up].
  - destruct (parent_id z) as [| | |p| | |] eqn:Hz; try (intros [= <-]; exists 0%nat; split; [lia|];
      rewrite <- Hz; constructor; congruence).
    destruct (aget p by_id_) eqn:Hp; [done|]. intros [= <-]. exists 0%nat. split; [lia|].
    rewrite <- Hz. constructor. intros p'. rewrite Hz. by intros [= <-].
  - destruct (parent_id z) as [| | |p| | |] eqn:Hz; try (intros [= <-]; exists 0%nat; split; [lia|];
      rewrite <- Hz; constructor; congruence).
    destruct (aget p by_id_) eqn:Hp.
    + intros (n & Hn & Hc)%IH. exists (S n). split; [lia|]. by econstructor.
    + intros [= <-]. exists 0%nat. split; [lia|].
      rewrite <- Hz. constructor. intros p'. rewrite Hz. by intros [= <-].
Qed.

(** Walking up a hierarchy always ends. It returns the parent of the topmost
    ancestor among the given zones when that is less than 128 steps up, and
    reports an illegal parent otherwise, in particular when the parents form a
    loop. *)
Theorem walk_up_zones_spec z by_id_ :
  (forall n r, climbs by_id_ z n r ->
     _walk_up_zones z by_id_ =
     if (n <? 128)%nat then Ok r else Raise (Forbidden IllegalParentZone)) /\
  ((forall n r, ~ climbs by_id_ z n r) ->
     _walk_up_zones z by_id_ = Raise (Forbidden IllegalParentZone)) /\
  (forall r, _walk_up_zones z by_id_ = Ok r ->
     exists n, (n < 128)%nat /\ climbs by_id_ z n r /\
       forall p, r = PStr p -> aget p by_id_ = None).
Proof.
  unfold _walk_up_zones, MAXIMUM_SUBZONE_DEPTH. split_and!.
  - intros n r Hc. by rewrite (walk_up_climbs _ _ _ _ 127 Hc).
  - intros Hn. destruct (walk_up 128 z by_id_) as [r|e] eqn:Hw.
    + apply walk_up_Ok in Hw as (n & _ & Hc). by destruct (Hn n r).
    + assert (He : forall k z e, walk_up k z by_id_ = Raise e -> e = Forbidden IllegalParentZone).
      { clear. induction k as [|k IH]; intros z e; cbn [walk_up];
          destruct (parent_id z); try done; (destruct (aget s by_id_); [|done]); [congruence|].
        destruct k; [congruence|]. apply IH. }
      by rewrite (He _ _ _ Hw).
  - intros r Hw. apply (walk_up_Ok _ 127) in Hw as (n & Hn & Hc). exists n. split_and!; [lia|done|].
    clear Hn. induction Hc as [z Hz|]; [by intros p Hp; apply Hz|done].
Qed.

Definition example_child (id : string) (parent : pyval) : pyval :=
  PObj "Zone" [("id", PStr id); ("parent_zone_id", parent)] [] [].
Lemma walk_up_zones_spec_witness :
  _walk_up_zones (example_child "c" (PStr "b"))
    [("b", example_child "b" (PStr "a"))] = Ok (PStr "a") /\
  _walk_up_zones (example_child "c" (PStr "c"))
    [("c", example_child "c" (PStr "c"))] = Raise (Forbidden IllegalParentZone).
Proof.
  split.
  - refine (proj1 (walk_up_zones_spec _ _) 1%nat (PStr "a") _).
    apply (climb_step _ _ "b" (example_child "b" (PStr "a"))); [reflexivity..|].
    apply (climb_end _ (example_child "b" (PStr "a"))). intros p [= <-]. reflexivity.
  - refine (proj1 (proj2 (walk_up_zones_spec _ _)) _). intros n r Hc.
    assert (Hloop : forall z, climbs [("c", example_child "c" (PStr "c"))] z n r ->
              z <> example_child "c" (PStr "c")).
    { clear Hc. induction 1 as [z Hend|z p q m r' Hp Hq _ IH]; intros ->.
      - discriminate (Hend "c" eq_refl).
      - injection Hp as <-. injection Hq as <-. exact (IH eq_refl). }
    exact (Hloop _ Hc eq_refl).
Defined.

(** ** Purging *)
Section Purge.
Context `{Env} `{SqlLaws}.

Lemma compare_str s t : compare_op OEq (PStr s) (PStr t) = String.eqb s t.
Proof.
  cbn. destruct (collate (PStr s) (PStr t)) eqn:Hc.
  - apply collate_str in Hc as ->. by rewrite String.eqb_refl.
  - destruct (String.eqb_spec s t) as [->|]; [|done].
    by rewrite (proj2 (collate_str t t) eq_refl) in Hc.
  - destruct (String.eqb_spec s t) as [->|]; [|done].
    by rewrite (proj2 (collate_str t t) eq_refl) in Hc.
Qed.

Definition zone_rows (w : world) : list row := rows_of (w_db w) zones_table.
Definition str_or_null (v : pyval) : Prop := v = PNone \/ exists s, v = PStr s.

(** What a purge does to the hierarchy, told on the rows: [surviving rows gone p q] says that [q]
    is the nearest of [p], its parent, the parent of that and so on that is not among the
    identifiers [gone]. *)
Inductive surviving (rows : list row) (gone : list string) : pyval -> pyval -> Prop :=
| survives p : (forall s, p = PStr s -> s ∉ gone) -> surviving rows gone p p
| passes s r q : s ∈ gone -> r ∈ rows -> cell r "id" = PStr s ->
    surviving rows gone (cell r "parent_zone_id") q -> surviving rows gone (PStr s) q.
Definition among (gone : list string) (r : row) : bool :=
  match cell r "id" with PStr s => mem_str s gone | _ => false end.
Definition adopted (rows : list row) (gone : list string) (r r' : row) : Prop :=
  surviving rows gone (cell r "parent_zone_id") (cell r' "parent_zone_id") /\
  forall n, n <> "parent_zone_id" -> n <> "updated_at" -> cell r' n = cell r n.
Definition distinct_ids (rows : list row) : Prop := exists ids, map (fun r => cell r "id") rows = map PStr ids /\ NoDup ids.

Lemma lift_inv {A} (r : R A) (w : world) a w' : lift r w = (Ok a, w') -> r = Ok a /\ w' = w.
Proof. by intros [= -> <-]. Qed.

(** *** The zones that are found *)
Definition zone_like (r : row) (z : pyval) : Prop :=
  is_obj "Zone" z /\ cell (fields_of_obj z) "id" = cell r "id" /\ cell (fields_of_obj z) "parent_zone_id" = cell r "parent_zone_id".
Lemma zone_like_reads r z : zone_like r z -> getattr registry z "id" = Ok (cell r "id") /\ parent_id z = cell r "parent_zone_id".
Proof.
  intros (Ho & Hi & Hp). unfold parent_id. rewrite (getattr_plain "Zone") by done. rewrite (getattr_plain "Zone" z "parent_zone_id") by done.
  by rewrite Hi, Hp.
Qed.
Lemma set_attr_like r z n v w z' w' : zone_like r z -> in_FIELDS registry "Zone" n = true -> n <> "id" -> n <> "parent_zone_id" ->
  set_attr z n v w = (Ok z', w') -> zone_like r z'.
Proof.
  intros (Ho & Hi & Hp) Hn Hn1 Hn2 Hs. destruct (setattr_field "Zone" z n v Ho Hn) as (o & E & Ho' & Hf).
  unfold set_attr, lift in Hs. rewrite E in Hs. injection Hs as <- _. unfold zone_like. rewrite Hf. unfold cell in *. rewrite !aget_aset_ne by done. done.
Qed.
Lemma load_relations_like ctx r z w z' w' : zone_like r z -> load_zone_relations ctx z w = (Ok z', w') -> zone_like r z'.
Proof.
  intros Hz. unfold load_zone_relations. intros (ty & w1 & _ & Hr)%bind_Ok. apply bind_Ok in Hr as (id & w2 & _ & Hr).
  apply bind_Ok in Hr as (ms & w3 & _ & Hr). apply bind_Ok in Hr as (z1 & w4 & Hn1 & Hr). apply set_attr_like with (r := r) in Hn1; [|done..].
  apply bind_Ok in Hr as (ats & w5 & _ & Hr). apply bind_Ok in Hr as (z2 & w6 & Hn2 & Hr). apply set_attr_like with (r := r) in Hn2; [|done..].
  injection Hr as <- _. destruct Hn2 as ((f & ch & og & ->) & ? & ?). split; [by do 3 eexists|done].
Qed.
Lemma loaded_like r z : loaded_from zones_table "Zone" r z -> zone_like r z.
Proof.
  intros (f & -> & Hf). split; [by do 3 eexists|]. cbn [fields_of_obj]. unfold cell. by rewrite !Hf by done.
Qed.
Lemma rmap_elem {A B} (f : A -> R B) l l' y : rmap f l = Ok l' -> y ∈ l' -> exists x, x ∈ l /\ f x = Ok y.
Proof.
  revert l'. induction l as [|x l IH]; intros l'; cbn [rmap]; [intros [= <-] []%elem_of_nil|].
  destruct (f x) as [z|] eqn:Hx; cbn [rbind]; [|done]. destruct (rmap f l) as [l1|]; cbn [rbind]; [|done]. intros [= <-].
  intros [->|Hy]%elem_of_cons; [exists x; split; [by left|done]|]. destruct (IH l1 eq_refl Hy) as (x' & ? & ?). exists x'. split; [by right|done].
Qed.
Lemma mmap_elem {A B} (f : A -> P world B) l w l' w' y : mmap f l w = (Ok l', w') -> y ∈ l' -> exists x w1 w2, x ∈ l /\ f x w1 = (Ok y, w2).
Proof.
  revert w l'. induction l as [|x l IH]; intros w l'; cbn [mmap]; [intros [= <- _] []%elem_of_nil|].
  intros (z & w1 & Hz & Hr)%bind_Ok. apply bind_Ok in Hr as (l1 & w2 & Hl & Hr). injection Hr as <- <-.
  intros [->|Hy]%elem_of_cons; [exists x, w, w1; split; [by left|done]|]. destruct (IH _ _ Hl Hy) as (x' & v1 & v2 & ? & ?).
  exists x', v1, v2. split; [by right|done].
Qed.
Lemma run_elem q rows r : r ∈ run q rows -> r ∈ rows.
Proof.
  unfold run. intros Hr. assert (Hs : r ∈ order_rows (q_order q) (filter (fun r => selects q r = true) rows)).
  { destruct (q_limit q); [|done]. by apply elem_of_take in Hr as (i & Hi & _); apply list_elem_of_lookup_2 in Hi. }
  rewrite (order_rows_perm (q_order q)) in Hs. by apply list_elem_of_filter in Hs as [_ ?].
Qed.
Lemma find_zones_like ctx c pg w zs w' z : find_zones ctx c pg w = (Ok zs, w') -> z ∈ list_objects zs -> exists r, r ∈ zone_rows w /\ zone_like r z.
Proof.
  unfold find_zones. intros (c' & w1 & Hc & Hr)%bind_Ok Hz. apply lift_inv in Hc as [Hc ->]. apply bind_Ok in Hr as (zones & w2 & Hf & Hr).
  apply bind_Ok in Hr as (n & w3 & _ & Hr). apply bind_Ok in Hr as (z2 & w4 & Hset & Hr). apply bind_Ok in Hr as (l & w5 & Hm & Hr).
  injection Hr as <- _.
  unfold _find in Hf. apply bind_Ok in Hf as (q & v1 & Hq & Hf). apply lift_inv in Hq as [Hq ->]. apply bind_Ok in Hf as (m & v2 & Hmk & Hf).
  assert (v2 = w) as ->. { destruct (p_marker pg); try (injection Hmk as _ <-; done); apply bind_Ok in Hmk as (? & ? & Hck & Hret); apply reads in Hck; injection Hret as _ <-; done. }
  apply bind_Ok in Hf as (q' & v3 & Hq' & Hf). apply lift_inv in Hq' as [Hq' ->]. apply bind_Ok in Hf as (rows & v4 & Hs & Hf).
  injection Hs as <- <-. apply lift_inv in Hf as [Hf _]. unfold _set_listobject_from_models in Hf.
  destruct (rmap _ _) as [l0|] eqn:Hl0; cbn [rbind] in Hf; [|done]. injection Hf as <-.
  assert (Hz2 : exists ch og, z2 = PObj "ZoneList" (aset "total_count" (PInt n) [("objects", PList l0)]) ch og).
  { unfold set_attr in Hset. apply lift_inv in Hset as [Hset _]. cbn in Hset. injection Hset as <-. by do 2 eexists. }
  destruct Hz2 as (ch & og & ->). cbn in Hm, Hz. destruct (mmap_elem _ _ _ _ _ _ Hm Hz) as (z0 & u1 & u2 & Hz0 & Hload).
  destruct (rmap_elem _ _ _ _ Hl0 Hz0) as (r & Hr & Ho). exists r. split; [by eapply run_elem|].
  eapply load_relations_like; [|exact Hload]. by apply loaded_like, set_object_loaded.
Qed.

(** *** The zones by their identifiers *)
Lemma zones_by_id_some l s z : aget s (zones_by_id l) = Some z -> z ∈ l /\ getattr registry z "id" = Ok (PStr s).
Proof.
  unfold zones_by_id. assert (Hg : forall acc, (forall s z, aget s acc = Some z -> z ∈ l /\ getattr registry z "id" = Ok (PStr s)) ->
    forall l', (forall z, z ∈ l' -> z ∈ l) -> forall s z,
    aget s (foldl (fun acc z => match getattr registry z "id" with Ok (PStr s) => aset s z acc | _ => acc end) acc l') = Some z ->
    z ∈ l /\ getattr registry z "id" = Ok (PStr s)).
  { intros acc Hacc l'. revert acc Hacc. induction l' as [|y l' IH]; intros acc Hacc Hin s' z'; cbn [foldl]; [apply Hacc|].
    apply IH; [|set_solver]. intros s1 z1. destruct (getattr registry y "id") as [[]|] eqn:Hy; try apply Hacc.
    rewrite aget_aset. destruct (String.eqb_spec s1 s0) as [->|]; [intros [= <-]; set_solver|apply Hacc]. }
  by apply Hg.
Qed.
Lemma zones_by_id_in l s z : z ∈ l -> getattr registry z "id" = Ok (PStr s) -> is_Some (aget s (zones_by_id l)).
Proof.
  unfold zones_by_id. intros Hz Hs. assert (Hg : forall l acc, z ∈ l \/ is_Some (aget s acc) ->
    is_Some (aget s (foldl (fun acc z => match getattr registry z "id" with Ok (PStr s) => aset s z acc | _ => acc end) acc l))).
  { clear l Hz. induction l as [|y l IH]; intros acc Hor; cbn [foldl]; [by destruct Hor as [[]%elem_of_nil|]|]. apply IH.
    destruct Hor as [[->|Hl]%elem_of_cons|Ha]; [right|by left|right].
    - rewrite Hs, aget_aset, String.eqb_refl. by eexists.
    - destruct (getattr registry y "id") as [[]|]; try done. rewrite aget_aset. destruct (s =? s0); [by eexists|done]. }
  apply Hg. by left.
Qed.

Lemma filter_all (p : row -> bool) (l : list row) : (forall r, r ∈ l -> p r = false) -> filter (fun r => p r = false) l = l.
Proof.
  induction l as [|r l IH]; intros Hp; [done|]. rewrite filter_cons, decide_True by (apply Hp; by left). f_equal. apply IH. set_solver.
Qed.
Lemma filter_split (p q pq : row -> bool) (l : list row) : (forall r, pq r = p r || q r) ->
  filter (fun r => pq r = false) l = filter (fun r => q r = false) (filter (fun r => p r = false) l).
Proof.
  intros E. induction l as [|r l IH]; [done|]. rewrite !filter_cons. specialize (E r). destruct (p r); cbn in E.
  - by rewrite decide_False, (decide_False (P := true = false)) by congruence.
  - rewrite (decide_True (P := false = false)), filter_cons by done. destruct (q r).
    + by rewrite decide_False, (decide_False (P := true = false)) by congruence.
    + rewrite decide_True, (decide_True (P := false = false)) by done. by rewrite IH.
Qed.
Lemma Forall2_filter_map (R R' : row -> row -> Prop) (p : row -> bool) (g : row -> row) l l' :
  (forall a b, R a b -> R' a (g b) /\ p (g b) = p a) -> Forall2 R l l' ->
  Forall2 R' (filter (fun r => p r = false) l) (filter (fun r => p r = false) (map g l')).
Proof.
  intros Hr. induction 1 as [|a b l l' Hab _ IH]; [constructor|]. cbn [map]. rewrite !filter_cons. destruct (Hr a b Hab) as [Hab' ->].
  destruct (p a); [by rewrite !(decide_False (P := true = false))|]. rewrite !(decide_True (P := false = false)) by done. by constructor.
Qed.
Lemma distinct_ids_cons r l : distinct_ids (r :: l) <-> exists i, cell r "id" = PStr i /\ unlike i l /\ distinct_ids l.
Proof.
  split.
  - intros (ids & E & Hn). destruct ids as [|i ids]; [done|]. injection E as Ei E. apply NoDup_cons in Hn as [Hi Hn].
    exists i. split_and!; [done|by apply (ids_unlike l ids)|by exists ids].
  - intros (i & Hi & Hu & ids & E & Hn). exists (i :: ids). cbn. rewrite Hi, E. split; [done|]. apply NoDup_cons. split; [|done]. intros Hin.
    assert (Hc : PStr i ∈ map (fun r => cell r "id") l) by (rewrite E; apply list_elem_of_fmap; eauto).
    apply list_elem_of_fmap in Hc as (y & Hy & Hyl). destruct (Hu y Hyl) as (j & Hj & Hji). congruence.
Qed.
Lemma distinct_ids_filter (p : row -> bool) l : distinct_ids l -> distinct_ids (filter (fun r => p r = false) l).
Proof.
  induction l as [|r l IH]; intros Hd; [done|]. pose proof Hd as (i & Hi & Hu & Hl)%distinct_ids_cons. rewrite filter_cons.
  destruct (decide _); [|by apply IH]. apply distinct_ids_cons. exists i. split_and!; [done| |by apply IH].
  intros y [_ Hy]%list_elem_of_filter. by apply Hu.
Qed.
Lemma distinct_ids_Forall2 (R : row -> row -> Prop) l l' : (forall r r', R r r' -> cell r' "id" = cell r "id") ->
  distinct_ids l -> Forall2 R l l' -> distinct_ids l'.
Proof.
  intros Hr (ids & E & Hn) Hf. exists ids. split; [|done]. rewrite <- E. clear E. induction Hf as [|a b l l' Hab _ IH]; [done|]. cbn. by rewrite IH, (Hr a b).
Qed.
Lemma ids_of_zones rows l : distinct_ids rows -> (forall z, z ∈ l -> exists r, r ∈ rows /\ zone_like r z) ->
  exists gone, map (fun z => getattr registry z "id") l = map (fun s => Ok (PStr s)) gone.
Proof.
  intros (ids & E & _) Hl. induction l as [|z l IH]; [by exists []|]. destruct IH as [gone Hg]; [set_solver|].
  destruct (Hl z ltac:(by left)) as (r & Hr & [Hi _]%zone_like_reads).
  assert (Hc : cell r "id" ∈ map PStr ids) by (rewrite <- E; apply list_elem_of_fmap; eauto).
  apply list_elem_of_fmap in Hc as (s & Hs & _). exists (s :: gone). cbn. by rewrite Hi, Hs, Hg.
Qed.

(** *** One step, on the rows *)
Definition reparent (s : string) (surviving : pyval) (now : Z) (r : row) : row :=
  if holds r (col_eq "parent_zone_id" (PStr s)) then assign zones_table [("parent_zone_id", surviving)] false now r else r.
Lemma reparent_cells s v now (r : row) : str_or_null (cell r "parent_zone_id") ->
  cell (reparent s v now r) "parent_zone_id" = (if py_eq (cell r "parent_zone_id") (PStr s) then v else cell r "parent_zone_id") /\
  forall n, n <> "parent_zone_id" -> n <> "updated_at" -> cell (reparent s v now r) n = cell r n.
Proof.
  unfold reparent. cbn [col_eq holds]. intros Hn.
  assert (Ha : forall n, n <> "updated_at" -> cell (assign zones_table [("parent_zone_id", v)] false now r) n =
            if n =? "parent_zone_id" then v else cell r n).
  { intros n Hu. unfold assign, aupdate. cbn [foldl fst snd]. change (t_onupdate zones_table) with ["updated_at"]. cbn [foldl].
    change (mem_str "updated_at" [("parent_zone_id", v)].*1) with false. cbn match. unfold cell. rewrite aget_aset_ne, aget_aset by done.
    by destruct (n =? "parent_zone_id"). }
  destruct (compare_op _ _ _) eqn:Hc.
  - destruct Hn as [Hn|[p Hp]]; [by rewrite Hn in Hc|]. rewrite Hp, compare_str in Hc. rewrite Hp, py_eq_str, Hc. split; [by rewrite Ha|].
    intros n Hn1 Hn2. rewrite Ha by done. by apply String.eqb_neq in Hn1 as ->.
  - split; [|done]. destruct Hn as [Hn|[p Hp]]; [by rewrite Hn|]. rewrite Hp, compare_str in Hc. by rewrite Hp, py_eq_str, Hc.
Qed.
Lemma hard_delete_rows ctx zone nf s w o w' : getattr registry zone "id" = Ok (PStr s) -> distinct_ids (zone_rows w) ->
  _delete ctx zones_table zone nf true w = (Ok o, w') -> zone_rows w' = filter (fun r => among [s] r = false) (zone_rows w).
Proof.
  intros Hid (ids & Hids & Hnd). unfold _delete. intros (i & w1 & Hi & Hr)%bind_Ok. apply lift_inv in Hi as [Hi ->].
  rewrite Hid in Hi. injection Hi as <-.
  change (has_column zones_table "deleted" && negb true) with false in Hr. cbn match in Hr.
  set (q := _apply_deleted_criteria ctx zones_table (_apply_tenant_criteria ctx zones_table (by_id (PStr s)) true)) in Hr.
  apply bind_Ok in Hr as (n & w2 & Hd & Hr). unfold execute_delete, bind, gets, modify, ret in Hd. injection Hd as <- <-.
  apply bind_Ok in Hr as (u & w3 & Hn & Hr). unfold raise_if in Hn. destruct (negb _) eqn:Hne in Hn; [done|]. injection Hn as _ <-.
  apply negb_false_iff, Nat.eqb_eq in Hne.
  assert (w' = set_db (set_rows zones_table (filter (fun r => selects q r = false) (zone_rows w)) (w_db w)) w) as ->.
  { apply bind_Ok in Hr as (rows & w4 & Hs & Hr). injection Hs as _ <-. by apply lift_inv in Hr as [_ ->]. }
  unfold zone_rows at 1. cbn [w_db set_db]. rewrite rows_of_set_rows.
  assert (Hsel : forall r, selects q r = true -> holds r (col_eq "id" (PStr s)) = true).
  { intros r Hr'. unfold q in Hr'. rewrite target_query in Hr'. unfold target in Hr'. by apply andb_true_iff in Hr' as [[Hr' _]%andb_true_iff _]. }
  fold (zone_rows w) in Hne. destruct (filter (fun r => selects q r = true) (zone_rows w)) as [|x l] eqn:Hx.
  { exfalso. rewrite (filter_all (selects q)) in Hne; [lia|]. intros r Hin. apply not_true_iff_false. intros Ht.
    assert (Hf : r ∈ filter (fun r => selects q r = true) (zone_rows w)) by (by apply list_elem_of_filter). rewrite Hx in Hf. by apply elem_of_nil in Hf. }
  assert (Hin : x ∈ filter (fun r => selects q r = true) (zone_rows w)) by (rewrite Hx; by left).
  apply list_elem_of_filter in Hin as [Hxs Hin]. clear Hx l. apply list_elem_of_split in Hin as (pre & post & E). rewrite E in *.
  destruct (others_unlike _ _ _ _ Hids Hnd) as (j & Hj & Hu).
  assert (j = s) as ->. { apply Hsel in Hxs. cbn [col_eq holds] in Hxs. rewrite Hj, compare_str in Hxs. by apply String.eqb_eq. }
  assert (Hkeep : forall r, r ∈ app pre post -> selects q r = false /\ among [s] r = false).
  { intros r Hr'. destruct (Hu r Hr') as (k & Hk & Hks). split.
    - apply not_true_iff_false. intros Ht%Hsel. cbn [col_eq holds] in Ht. rewrite Hk, compare_str in Ht. apply String.eqb_eq in Ht. congruence.
    - unfold among. rewrite Hk. cbn. apply String.eqb_neq in Hks. by rewrite Hks. }
  rewrite !filter_app, !filter_cons. rewrite (decide_False (P := selects q x = false)) by congruence.
  rewrite (decide_False (P := among [s] x = false)) by (unfold among; rewrite Hj; cbn; by rewrite String.eqb_refl).
  rewrite !filter_all; [done|intros r Hr'; apply Hkeep; set_solver..].
Qed.
Lemma purge_one_rows ctx by_id_ z s w w' :
  getattr registry z "id" = Ok (PStr s) -> distinct_ids (zone_rows w) ->
  purge_one ctx by_id_ z w = (Ok tt, w') ->
  exists v now, _walk_up_zones z by_id_ = Ok v /\
    zone_rows w' = filter (fun r => among [s] r = false) (map (reparent s v now) (zone_rows w)).
Proof.
  intros Hid Hd. unfold purge_one. intros (v & w0 & Hv & Hr)%bind_Ok. apply lift_inv in Hv as [Hv ->].
  apply bind_Ok in Hr as (i & w0 & Hi & Hr). apply lift_inv in Hi as [Hi ->]. rewrite Hid in Hi. injection Hi as <-.
  set (q := where_ select_all (col_eq "parent_zone_id" (PStr s))) in Hr.
  apply bind_Ok in Hr as (n & w1 & Hu & Hr). apply execute_update_spec in Hu as [_ ->].
  apply bind_Ok in Hr as (o & w2 & Hp & Hr). injection Hr as <-.
  assert (E : zone_rows (set_db (set_rows zones_table (map (fun r0 => if selects q r0 then assign zones_table [("parent_zone_id", v)] false (w_now w) r0 else r0)
                (rows_of (w_db w) zones_table)) (w_db w)) w) = map (reparent s v (w_now w)) (zone_rows w)).
  { unfold zone_rows. cbn [w_db set_db]. rewrite rows_of_set_rows. apply map_ext. intros r. unfold reparent, q. by rewrite selects_where. }
  exists v, (w_now w). split; [done|]. rewrite <- E. eapply hard_delete_rows; [done| |exact Hp].
  rewrite E. destruct Hd as (ids & Hids & Hnd). exists ids. split; [|done]. rewrite <- Hids, map_map. apply map_ext. intros r. unfold reparent.
  destruct (holds _ _); [|done]. rewrite assign_cell; [done|apply NoDup_singleton|done|decided].
Qed.

Lemma walk_up_str_or_null by_id_ z v :
  _walk_up_zones z by_id_ = Ok v -> str_or_null (parent_id z) ->
  (forall s y, aget s by_id_ = Some y -> str_or_null (parent_id y)) -> str_or_null v.
Proof.
  intros Hw Hz Hb. apply (walk_up_Ok _ 127) in Hw as (n & _ & Hc).
  induction Hc as [|z p q n r _ Hq _ IH]; [done|]. apply IH. eauto.
Qed.

(** *** The whole purge *)
Section Loop.
Variables (ctx : context) (rows : list row) (l : list pyval) (gone : list string).
Notation by_id_ := (zones_by_id l).
Hypothesis l_rows : forall z, z ∈ l -> exists r, r ∈ rows /\ zone_like r z.
Hypothesis l_ids : map (fun z => getattr registry z "id") l = map (fun s => Ok (PStr s)) gone.
Hypothesis rows_parents : forall r, r ∈ rows -> str_or_null (cell r "parent_zone_id").

Lemma gone_zone s : s ∈ gone -> exists z, z ∈ l /\ getattr registry z "id" = Ok (PStr s).
Proof.
  intros Hs. assert (Hin : Ok (PStr s) ∈ map (fun z => getattr registry z "id") l) by (rewrite l_ids; apply list_elem_of_fmap; eauto).
  apply list_elem_of_fmap in Hin as (z & Hz & Hin). eauto.
Qed.
Lemma zone_gone z s : z ∈ l -> getattr registry z "id" = Ok (PStr s) -> s ∈ gone.
Proof.
  intros Hz Hs. assert (Hin : Ok (PStr s) ∈ map (fun s => Ok (E:=exc) (PStr s)) gone) by (rewrite <- l_ids, <- Hs; apply list_elem_of_fmap; eauto).
  by apply list_elem_of_fmap in Hin as (s' & [= ->] & Hin).
Qed.
Lemma by_id_gone s : aget s by_id_ = None <-> s ∉ gone.
Proof.
  split.
  - intros Hn (z & Hz & Hs)%gone_zone. destruct (zones_by_id_in l s z Hz Hs). congruence.
  - intros Hn. destruct (aget s by_id_) as [z|] eqn:E; [|done]. apply zones_by_id_some in E as [Hz Hs]. by destruct (Hn (zone_gone z s Hz Hs)).
Qed.
Lemma climbs_surviving z n q : climbs by_id_ z n q -> surviving rows gone (parent_id z) q.
Proof.
  induction 1 as [z Hz|z p y n q Hp Hy _ IH]; [apply survives; intros s Hs; by apply by_id_gone, Hz|]. rewrite Hp.
  apply zones_by_id_some in Hy as [Hyl Hyi]. destruct (l_rows y Hyl) as (r & Hr & [Hi Hpar]%zone_like_reads).
  eapply (passes _ _ p r); [by eapply zone_gone|done|congruence|]. by rewrite <- Hpar.
Qed.

(** What holds when the zones of [past] have been purged. *)
Definition settled (past : list string) (r r' : row) : Prop :=
  (forall n, n <> "parent_zone_id" -> n <> "updated_at" -> cell r' n = cell r n) /\ str_or_null (cell r' "parent_zone_id") /\
  ((exists s z, cell r "parent_zone_id" = PStr s /\ z ∈ l /\ getattr registry z "id" = Ok (PStr s) /\
      _walk_up_zones z by_id_ = Ok (cell r' "parent_zone_id")) \/
   (cell r' "parent_zone_id" = cell r "parent_zone_id" /\ forall s, s ∈ past -> cell r "parent_zone_id" <> PStr s)).
Definition purged_so_far (past : list string) (w1 : world) : Prop :=
  Forall2 (settled past) (filter (fun r => among past r = false) rows) (zone_rows w1).

Lemma settled_step past z s v now r r' : z ∈ l -> getattr registry z "id" = Ok (PStr s) -> _walk_up_zones z by_id_ = Ok v ->
  settled past r r' -> settled (app past [s]) r (reparent s v now r').
Proof.
  intros Hz Hs Hv (Hcells & Hstr & Hcase). destruct (reparent_cells s v now r' Hstr) as [Hp Hn]. unfold settled. rewrite Hp. split_and!.
  - intros n Hn1 Hn2. by rewrite Hn, Hcells.
  - destruct (py_eq _ _); [|done]. destruct (l_rows z Hz) as (r0 & Hr0 & [_ Hpar]%zone_like_reads).
    eapply walk_up_str_or_null; [exact Hv|rewrite Hpar; by apply rows_parents|]. intros s1 y [Hy _]%zones_by_id_some.
    destruct (l_rows y Hy) as (r1 & Hr1 & [_ ->]%zone_like_reads). by apply rows_parents.
  - destruct (py_eq (cell r' "parent_zone_id") (PStr s)) eqn:Heq.
    + assert (Hrs : cell r' "parent_zone_id" = PStr s).
      { destruct Hstr as [E|[p E]]; rewrite E in Heq |- *; [done|]. rewrite py_eq_str in Heq. by apply String.eqb_eq in Heq as ->. }
      left. destruct Hcase as [(s1 & y & _ & _ & _ & Hy)|[Hsame _]]; [|exists s, z; split_and!; [congruence|done..]].
      exfalso. apply walk_up_zones_spec in Hy as (_ & _ & _ & Hnone). specialize (Hnone s Hrs).
      destruct (zones_by_id_in l s z Hz Hs). congruence.
    + destruct Hcase as [Hleft|[Hsame Hpast]]; [by left|]. right. split; [done|]. intros s1 [Hn1|Hn1%list_elem_of_singleton]%elem_of_app; [by apply Hpast|subst s1].
      intros E. rewrite Hsame, E, py_eq_str, String.eqb_refl in Heq. done.
Qed.
Lemma among_app past s r : among (app past [s]) r = among past r || among [s] r.
Proof.
  unfold among. destruct (cell r "id"); try done. unfold mem_str. rewrite existsb_app. done.
Qed.
Lemma purge_loop past rest w w' : distinct_ids rows -> (forall z, z ∈ rest -> z ∈ l) ->
  purged_so_far past w -> mfor rest (purge_one ctx by_id_) w = (Ok tt, w') ->
  exists news, map (fun z => getattr registry z "id") rest = map (fun s => Ok (PStr s)) news /\ purged_so_far (app past news) w'.
Proof.
  intros Hd. revert past w. induction rest as [|z rest IH]; intros past w Hin Hi; cbn [mfor].
  { intros [= <-]. exists []. split; [done|]. by rewrite app_nil_r. }
  intros ([] & w1 & Hz & Hrest)%bind_Ok. assert (Hzl : z ∈ l) by (apply Hin; by left).
  assert (Hs : exists s, getattr registry z "id" = Ok (PStr s)).
  { assert (E : getattr registry z "id" ∈ map (fun s => Ok (E:=exc) (PStr s)) gone) by (rewrite <- l_ids; apply list_elem_of_fmap; eauto).
    apply list_elem_of_fmap in E as (s & -> & _). by exists s. }
  destruct Hs as [s Hs].
  assert (Hdw : distinct_ids (zone_rows w)).
  { eapply distinct_ids_Forall2; [|by apply distinct_ids_filter, Hd|exact Hi]. intros r r' (Hc & _). by apply Hc. }
  destruct (purge_one_rows ctx by_id_ z s w w1 Hs Hdw Hz) as (v & now & Hv & Hrows).
  destruct (IH (app past [s]) w1) as (news & Hn & Hp); [set_solver| |done|].
  - unfold purged_so_far. rewrite Hrows. rewrite (filter_split (among past) (among [s])) by (intros r; apply among_app).
    apply Forall2_filter_map with (R := settled past); [|exact Hi]. intros r r' Hr. split; [by eapply settled_step|].
    destruct Hr as (Hc & Hstr & _). unfold among. rewrite (proj2 (reparent_cells s v now r' Hstr)) by done. by rewrite Hc.
  - exists (s :: news). cbn [map]. rewrite Hs, Hn. split; [done|]. by rewrite <- app_assoc in Hp.
Qed.
Lemma settled_adopted r r' : settled gone r r' -> adopted rows gone r r'.
Proof.
  intros (Hc & _ & Hcase). split; [|done]. destruct Hcase as [(s & z & -> & Hz & Hs & Hw)|[-> Hpast]].
  - apply walk_up_zones_spec in Hw as (n & _ & Hcl & _). apply climbs_surviving in Hcl.
    destruct (l_rows z Hz) as (r0 & Hr0 & [Hi Hpar]%zone_like_reads). rewrite Hpar in Hcl.
    eapply (passes _ _ s r0); [by eapply zone_gone|done|congruence|done].
  - apply survives. intros s Hs Hin. by apply (Hpast s).
Qed.
End Loop.

(** C8: a purge deletes and reparents. When a purge returns, exactly the zones that the criterion
    finds for the context are gone, which then sees deleted zones if the criterion speaks of
    deletion, and their number is returned. The rows of all other zones are still there, in
    their order, and differ in nothing but the time of the update and their parent: that is the
    nearest of the old parent and its ancestors that was not purged, or null when the last of
    them had no parent; so no zone refers to a purged one. *)
Theorem purge_reparents ctx c limit w n w' :
  distinct_ids (zone_rows w) -> (forall r, r ∈ zone_rows w -> str_or_null (cell r "parent_zone_id")) ->
  purge_zones ctx c limit w = (Ok n, w') ->
  exists zones gone,
    find_zones (if mem_str "deleted" c.*1 then with_show_deleted true ctx else ctx) c
      {| p_marker := PNone; p_limit := limit; p_sort_key := PNone; p_sort_dir := PNone |} w = (Ok zones, w) /\
    map (fun z => getattr registry z "id") (list_objects zones) = map (fun s => Ok (PStr s)) gone /\
    n = match gone with [] => PNone | _ => PInt (Z.of_nat (length gone)) end /\
    Forall2 (adopted (zone_rows w) gone) (filter (fun r => among gone r = false) (zone_rows w)) (zone_rows w').
Proof.
  intros Hd Hp. unfold purge_zones. cbv zeta. intros (zones & w1 & Hf & Hr)%bind_Ok.
  assert (w1 = w) as -> by by eapply find_zones_reads.
  assert (Hl : forall z, z ∈ list_objects zones -> exists r, r ∈ zone_rows w /\ zone_like r z) by (intros z Hz; by eapply find_zones_like).
  destruct (ids_of_zones (zone_rows w) (list_objects zones) Hd Hl) as (gone & Hgone).
  exists zones, gone. split; [exact Hf|]. split; [exact Hgone|].
  assert (Hlen : length gone = length (list_objects zones)) by (apply (f_equal length) in Hgone; rewrite !length_map in Hgone; done).
  assert (Hstart : purged_so_far (zone_rows w) (list_objects zones) [] w).
  { unfold purged_so_far. rewrite filter_all by (intros r _; unfold among; by destruct (cell r "id")). apply Forall_Forall2_diag, Forall_forall.
    intros r Hin. unfold settled. split_and!; [done|by apply Hp|]. right. split; [done|]. intros s []%elem_of_nil. }
  assert (Hdone : mfor (list_objects zones) (purge_one (if mem_str "deleted" c.*1 then with_show_deleted true ctx else ctx) (zones_by_id (list_objects zones))) w = (Ok tt, w') /\
    n = match gone with [] => PNone | _ => PInt (Z.of_nat (length gone)) end).
  { destruct (list_objects zones) as [|z l]; [destruct gone; [|done]; by injection Hr as <- <-|].
    apply bind_Ok in Hr as ([] & w1 & Hr & E). injection E as <- <-. destruct gone; [done|]. by rewrite Hlen. }
  destruct Hdone as [Hrun ->]. split; [done|].
  destruct (purge_loop _ (zone_rows w) (list_objects zones) gone Hl Hgone Hp [] _ w w' Hd (fun z Hz => Hz) Hstart Hrun) as (news & Hnews & Hfin).
  assert (news = gone) as ->.
  { rewrite Hgone in Hnews. clear -Hnews. revert news Hnews. induction gone as [|s gone IH]; intros [|s' news]; cbn; try done.
    intros [= -> E]. f_equal. by apply IH. }
  eapply Forall2_impl; [exact Hfin|]. intros r r' Hs. by eapply settled_adopted.
Qed.
End Purge.

(** Three zones, the middle one deleted. *)
Definition example_zone_row (id : string) (parent : pyval) (deleted : string) : row :=
  [("id", PStr id); ("version", PInt 1); ("created_at", PInt 1); ("updated_at", PNone);
   ("deleted", PStr deleted); ("tenant_id", PStr "t1"); ("name", PStr (id ++ "."));
   ("type", PStr "PRIMARY"); ("parent_zone_id", parent)].
Definition purge_db : db :=
  [("zones", [example_zone_row "a" PNone "0"; example_zone_row "b" (PStr "a") "b";
              example_zone_row "c" (PStr "b") "0"])].
Definition purge_run : res exc pyval * world :=
  @purge_zones ref_engine ref_context [("deleted", PStr "!0")] PNone (ref_world purge_db).
Lemma purge_reparents_witness :
  map (fun r => (cell r "id", cell r "parent_zone_id")) (zone_rows purge_run.2) = [(PStr "a", PNone); (PStr "c", PStr "a")] /\
  exists gone, Forall2 (adopted (zone_rows (ref_world purge_db)) gone)
    (filter (fun r => among gone r = false) (zone_rows (ref_world purge_db))) (zone_rows purge_run.2).
Proof.
  split; [vm_compute; reflexivity|].
  assert (Hd : distinct_ids (zone_rows (ref_world purge_db))).
  { exists ["a"; "b"; "c"]. split; [reflexivity|]. apply (bool_decide_unpack _). reflexivity. }
  assert (Hp : forall y, y ∈ zone_rows (ref_world purge_db) -> str_or_null (cell y "parent_zone_id")).
  { apply Forall_forall.
    change (zone_rows (ref_world purge_db)) with
      [example_zone_row "a" PNone "0"; example_zone_row "b" (PStr "a") "b";
       example_zone_row "c" (PStr "b") "0"].
    apply Forall_cons_2; [by left|]. apply Forall_cons_2; [right; by exists "a"|].
    apply Forall_cons_2; [right; by exists "b"|]. apply Forall_nil_2. }
  assert (Hrun : purge_run = (Ok (PInt 1), purge_run.2)) by (vm_compute; reflexivity).
  destruct (@purge_reparents ref_engine ref_laws ref_context [("deleted", PStr "!0")] PNone
    (ref_world purge_db) (PInt 1) purge_run.2 Hd Hp Hrun) as (zones & gone & _ & _ & _ & H).
  exists gone. exact H.
Defined.
