(* ===== verification/StorageZdns.v ===== *)
(** * The storage of ACLs, views, zone tasks and of the backend's own rows
      (designate/storage/impl_sqlalchemy/__init__.py, second half)

    ACLs and views have the operations of a [resource]; the rows that mirror what
    the ZDNS backend answered, and the associations that lead to them, are written
    and read as plain dictionaries. Zone imports and exports share one table. *)
From Stdlib Require Import ZArith Lia Ascii String.
From stdpp Require Import base option numbers strings sets list.
From S2P Require Import Prelude PyStr Exceptions Values Objects Classes World Sql Tables Storage.
Local Open Scope string_scope.

Definition acl_methods : resource :=
  {| r_table := acls_table; r_cls := "Acl"; r_list := "AclList";
     r_dup := Duplicate DuplicateAcl; r_nf := NotFound AclNotFound; r_parent := None |}.
Definition view_methods : resource :=
  {| r_table := view_table; r_cls := "View"; r_list := "ViewList";
     r_dup := Duplicate DuplicateViewDuplicate; r_nf := NotFound ViewNotFound; r_parent := None |}.
Definition zone_import_methods : resource :=
  {| r_table := zone_tasks_table; r_cls := "ZoneImport"; r_list := "ZoneImportList";
     r_dup := Duplicate DuplicateZoneImport; r_nf := NotFound ZoneImportNotFound; r_parent := None |}.
Definition zone_export_methods : resource :=
  {| r_table := zone_tasks_table; r_cls := "ZoneExport"; r_list := "ZoneExportList";
     r_dup := Duplicate DuplicateZoneExport; r_nf := NotFound ZoneExportNotFound; r_parent := None |}.

Section StorageZdns.
Context `{Env} `{SqlEngine}.

(** ** Tenants *)

(** The zones a query sees, by tenant: the tenants in the order they first occur. *)
Definition visible_zones (ctx : context) (q : query) : query :=
  _apply_deleted_criteria ctx zones_table (_apply_tenant_criteria ctx zones_table q true).
Fixpoint group_count (rows : list row) (acc : list (pyval * Z)) : list (pyval * Z) :=
  match rows with
  | [] => acc
  | r :: rest =>
      let t := cell r "tenant_id" in
      group_count rest
        (if existsb (fun x => py_eq x.1 t) acc
         then map (fun x => if py_eq x.1 t then (x.1, x.2 + 1)%Z else x) acc
         else app acc [(t, 1%Z)])
  end.
Definition tenant_obj (fields : list (string * pyval)) : P world pyval := lift (new_obj registry "Tenant" fields).
Definition find_tenants (ctx : context) : P world pyval :=
  let! rows := execute_select zones_table (visible_zones ctx select_all) in
  let! l := mmap (fun x => tenant_obj [("id", x.1); ("zone_count", PInt x.2)]) (group_count rows []) in
  ret (obj_reset_changes (PObj "TenantList" [("objects", PList l)] [] []) []).
Definition get_tenant (ctx : context) (tenant_id : pyval) : P world pyval :=
  let! rows := execute_select zones_table (where_ (visible_zones ctx select_all) (col_eq "tenant_id" tenant_id)) in
  tenant_obj [("id", tenant_id); ("zone_count", PInt (Z.of_nat (length rows)));
              ("zones", PList (map (fun r => cell r "name") rows))].
(** COUNT(DISTINCT tenant_id): NULLs do not count. *)
Definition count_tenants (ctx : context) : P world Z :=
  let! rows := execute_select zones_table (visible_zones ctx select_all) in
  ret (Z.of_nat (length (filter (fun x => negb (py_eq x.1 PNone) = true) (group_count rows [])))).

(** ** ACLs and views *)
Definition create_acl (ctx : context) (acl : pyval) : P world pyval :=
  let! t := lift (obj_get registry acl "tenant_id" None) in
  let! acl := (if truthy t then ret acl else set_attr acl "tenant_id" (tenant_val ctx)) in
  create acl_methods acl.
Definition get_view (ctx : context) (view_id : pyval) : P world pyval :=
  let! id := str_of view_id in get_by_id view_methods ctx (PStr (replace "-" "" id)).
(** [update_view] names the exceptions of zones. *)
Definition update_view (ctx : context) (view : pyval) : P world pyval :=
  _update ctx view_table view (Duplicate DuplicateZone) (NotFound ViewNotFound) [].

(** ** Dictionaries *)

(** [_update_zdns_view], [_update_zdns_zone], [_update_zdns_acl] *)
Definition update_dict (t : table) (id : pyval) (values : row) : P world unit :=
  try_except (execute_update t (by_id id) values false ;;; ret tt)
    (on (Py DBDuplicateEntry) (raise (Py PyAttributeError))).
(** [_delete_zdns_view], [_delete_zdns_zone], [_delete_zone_asso], [_delete_acl_asso], [_delete_zdns_acl] *)
Definition delete_where (t : table) (column : string) (value : pyval) : P world unit :=
  execute_delete t (where_ select_all (col_eq column value)) ;;; ret tt.
(** [_find_asso]; [None] is the empty result list it returns. *)
Definition _find_asso (t : table) (column : string) (value : pyval) : P world (option row) :=
  let! q := lift (paginate_query t (where_ select_all (col_eq column value)) (PInt 1) [] None "asc") in
  let! results := execute_select t q in ret (head results).
(** [_find_zdns_view]: no row is an IndexError. *)
Definition _find_zdns_view (t : table) (column : string) (value : pyval) : P world row :=
  let! r := _find_asso t column value in
  match r with Some r => ret r | None => raise (Py PyIndexError) end.
(** [_find_view_acls], [_get_records_by_zone_id] *)
Definition find_where (t : table) (column : string) (value : pyval) : P world (list row) :=
  execute_select t (where_ select_all (col_eq column value)).

Definition create_zdns_acl (acl : row) : P world unit := insert_dict zdns_acls_table acl.
Definition create_acl_asso (asso : row) : P world unit := insert_dict acl_associations_table asso.
Definition delete_zdns_acl (id : pyval) : P world unit := delete_where zdns_acls_table "id" id.
Definition delete_acl_asso (acl : pyval) : P world unit :=
  let! id := attr acl "id" in delete_where acl_associations_table "acl_id" id.
Definition update_zdns_acl (id : pyval) (values : row) : P world unit := update_dict zdns_acls_table id values.
Definition get_acl_asso (acl : pyval) : P world (option row) :=
  let! id := attr acl "id" in _find_asso acl_associations_table "acl_id" id.
Definition get_acl_view_asso (acl_id : pyval) : P world (option row) := _find_asso view_acl_table "acl_id" acl_id.

Definition create_zdns_zone (zone : row) : P world unit := insert_dict zdns_zones_table zone.
Definition create_zone_asso (asso : row) : P world unit := insert_dict zone_associations_table asso.
Definition delete_zdns_zone (id : pyval) : P world unit := delete_where zdns_zones_table "id" id.
Definition delete_zone_asso (zone : pyval) : P world unit :=
  let! id := attr zone "id" in delete_where zone_associations_table "zone_id" id.
Definition update_zdns_zone (id : pyval) (values : row) : P world unit := update_dict zdns_zones_table id values.
Definition get_zone_asso (zone : pyval) : P world (option row) :=
  let! id := attr zone "id" in _find_asso zone_associations_table "zone_id" id.

(** Lists among the values are joined. *)
Definition join_lists (values : row) : R row :=
  rmap (fun kv => match kv.2 with
                  | PList l => let? ss := rmap (fun v => match v with PStr s => Ok s | _ => Raise (Py PyTypeError) end) l in
                               Ok (kv.1, PStr (join "," ss))
                  | _ => Ok kv
                  end) values.
Definition create_zdns_view_info (info : row) : P world unit :=
  let! info := lift (join_lists info) in insert_dict zdns_view_info_t_table info.
Definition create_view_zdns_view (asso : row) : P world unit := insert_dict view_zdns_view_associations_table asso.
Definition update_zdns_view_info (id : pyval) (values : row) : P world unit :=
  update_dict zdns_view_info_t_table id values.
Definition find_view_zdns_view (view : pyval) : P world row :=
  let! id := attr view "id" in _find_zdns_view view_zdns_view_associations_table "view_id" id.
Definition delete_view_zdns_view (view : pyval) : P world unit :=
  let! id := attr view "id" in delete_where view_zdns_view_associations_table "view_id" id.
Definition get_zdns_view_info (id : pyval) : P world row := _find_zdns_view zdns_view_info_t_table "id" id.
Definition delete_zdns_view_info (id : pyval) : P world unit := delete_where zdns_view_info_t_table "id" id.
Definition find_zdns_view_infos (ctx : context) : P world pyval :=
  _find ctx zdns_view_info_t_table "ZdnsViewInfo" "ZdnsViewInfoList" []
    {| p_marker := PNone; p_limit := PNone; p_sort_key := PStr "priority"; p_sort_dir := PNone |} true.
Definition create_view_acl (view_acl : row) : P world unit := insert_dict view_acl_table view_acl.
Definition find_view_acls (view_id : pyval) : P world (list row) := find_where view_acl_table "view_id" view_id.
Definition delete_view_acl (view_acl : row) : P world unit := delete_where view_acl_table "id" (cell view_acl "id").
Definition get_records_by_zone_id (zone_id : pyval) : P world (list row) := find_where records_table "zone_id" zone_id.

(** ** Zone tasks *)
Section Tasks.
Variables (rs : resource) (task_type : string).
Definition of_type (c : list (string * pyval)) : list (string * pyval) := aset "task_type" (PStr task_type) c.
Definition count_zone_tasks (ctx : context) (c : list (string * pyval)) : P world Z := _count ctx zone_tasks_table c.
Definition find_task (ctx : context) (c : list (string * pyval)) : P world pyval := find_one rs ctx (of_type c).
Definition get_task (ctx : context) (id : pyval) : P world pyval := find_task ctx [("id", id)].
Definition find_tasks (ctx : context) (c : list (string * pyval)) (pg : page) : P world pyval :=
  let! tasks := find_all rs ctx (of_type c) pg in
  let! n := count_zone_tasks ctx (of_type c) in
  set_attr tasks "total_count" (PInt n).
Definition delete_task (ctx : context) (id : pyval) : P world pyval :=
  let! task := get_task ctx id in _delete ctx zone_tasks_table task (r_nf rs) false.
End Tasks.

(** ** Raw rows of record sets with their records *)

(** The join: every record with its record set, in the order of the column. *)
Definition join_records (d : db) (keep : row -> bool) : list (row * row) :=
  concat (map (fun rc =>
    map (fun rs => (rs, rc))
      (filter (fun rs => compare_op OEq (cell rs "id") (cell rc "recordset_id") = true)
         (rows_of d recordsets_table)))
    (filter (fun rc => keep rc = true) (rows_of d records_table))).
Fixpoint insert_pair (order : list (string * bool)) (p : row * row) (l : list (row * row)) : list (row * row) :=
  match l with
  | [] => [p]
  | x :: l' => if key_le order p.1 x.1 then p :: l else x :: insert_pair order p l'
  end.
Definition order_pairs (order : list (string * bool)) (l : list (row * row)) : list (row * row) :=
  foldr (insert_pair order) [] l.
(** [_select_raw] of the join; no tenant criterion is applied. *)
Definition _select_raw (ctx : context) (c : list (string * pyval)) (keep : row -> bool) (order_by : string)
    (columns : row * row -> list pyval) : P world (list (list pyval)) :=
  let! q := lift (_apply_criterion recordsets_table select_all c) in
  let q := _apply_deleted_criteria ctx recordsets_table q in
  let! d := gets w_db in
  ret (map columns (order_pairs [(order_by, true)]
         (filter (fun p => selects q p.1 = true) (join_records d keep)))).
Definition find_recordsets_axfr (ctx : context) (c : list (string * pyval)) : P world (list (list pyval)) :=
  let! c := lift (_rname_check c) in
  _select_raw ctx c (fun rc => compare_op ONe (cell rc "action") (PStr "DELETE")) "id"
    (fun ' (rs, rc) => [cell rs "id"; cell rs "type"; cell rs "ttl"; cell rs "name"; cell rc "data"; cell rc "action"]).
Definition find_recordsets_export (ctx : context) (c : list (string * pyval)) : P world (list (list pyval)) :=
  _select_raw ctx c (fun _ => true) "created_at"
    (fun ' (rs, rc) => [cell rs "name"; cell rs "ttl"; cell rs "type"; cell rc "data"]).
End StorageZdns.
