(* ===== verification/Quota.v ===== *)
(** * Quotas (designate/quota/base.py, designate/quota/impl_storage.py)

    The limits of a tenant are the configured defaults, overridden by the rows
    stored for the tenant. *)
From Stdlib Require Import ZArith Lia Ascii String.
From stdpp Require Import base option numbers strings sets list.
From S2P Require Import Prelude PyStr Exceptions Values Objects Classes World Decorators Sql SqlFacts Tables Storage.
Local Open Scope string_scope.

Section Quota.
Context `{Env} `{SqlEngine}.

(** [get_default_quotas] *)
Definition get_default_quotas : list (string * Z) :=
  [("zones", conf_int "quota_zones");
   ("zone_recordsets", conf_int "quota_zone_recordsets");
   ("zone_records", conf_int "quota_zone_records");
   ("recordset_records", conf_int "quota_recordset_records");
   ("api_export_size", conf_int "quota_api_export_size")].

(** [StorageQuota._get_quotas] *)
Definition quota_entry (q : pyval) : P world (string * Z) :=
  let! r := attr q "resource" in
  let! r := str_of r in
  let! l := attr q "hard_limit" in
  match l with PInt z => ret (r, z) | _ => raise (Py PyTypeError) end.
Definition _get_quotas (ctx : context) (tenant_id : pyval) : P world (list (string * Z)) :=
  let! quotas := find_all quota_methods ctx [("tenant_id", tenant_id)] no_page in
  let! l := mmap quota_entry (list_objects quotas) in
  ret (aupdate [] l).

(** [Quota.get_quotas] *)
Definition get_quotas (ctx : context) (tenant_id : pyval) : P world (list (string * Z)) :=
  let! own := _get_quotas ctx tenant_id in
  ret (aupdate get_default_quotas own).

(** [Quota.limit_check]: the values, in the order the dictionary gives them. *)
Fixpoint check_values (quotas values : list (string * Z)) : R unit :=
  match values with
  | [] => Ok tt
  | (resource, value) :: rest =>
      match aget resource quotas with
      | Some limit => if (limit <=? value)%Z then Raise OverQuota else check_values quotas rest
      | None => Raise QuotaResourceUnknown
      end
  end.
Definition limit_check (ctx : context) (tenant_id : pyval) (values : list (string * Z)) :
    P world unit :=
  let! quotas := get_quotas ctx tenant_id in
  lift (check_values quotas values).

(** [StorageQuota.get_quota] *)
Definition get_quota (ctx : context) (tenant_id : pyval) (resource : string) :
    P world (list (string * pyval)) :=
  let! ctx := lift (ctx_deepcopy ctx) in
  let! ctx := lift (set_all_tenants true ctx) in
  let! quota := find_one quota_methods ctx [("tenant_id", tenant_id); ("resource", PStr resource)] in
  let! l := attr quota "hard_limit" in
  ret [(resource, l)].

(** [StorageQuota.set_quota], inside its transaction. *)
Definition set_quota_ (ctx : context) (tenant_id : pyval) (resource : string) (hard_limit : pyval) :
    P world (list (string * pyval)) :=
  let! ctx := lift (ctx_deepcopy ctx) in
  let! ctx := lift (set_all_tenants true ctx) in
  if negb (mem_str resource get_default_quotas.*1) then raise QuotaResourceUnknown
  else
    try_except
      (let! quota := lift (new_obj registry "Quota"
                       [("tenant_id", tenant_id); ("resource", PStr resource);
                        ("hard_limit", hard_limit)]) in
       create quota_methods quota ;;; ret tt)
      (fun e => match e with
                | Duplicate _ => Some
                    (let! quota := find_one quota_methods ctx
                                     [("tenant_id", tenant_id); ("resource", PStr resource)] in
                     let! quota := set_attr quota "hard_limit" hard_limit in
                     update_obj quota_methods ctx quota ;;; ret tt)
                | _ => None
                end) ;;;
    ret [(resource, hard_limit)].
Definition set_quota (ctx : context) (tenant_id : pyval) (resource : string) (hard_limit : pyval) :
    P world (list (string * pyval)) :=
  transaction (fun args => match args with
                           | [t; l] => set_quota_ ctx t resource l
                           | _ => raise (Py PyTypeError)
                           end) [tenant_id; hard_limit].

(** [StorageQuota.reset_quotas] *)
Definition reset_quotas_ (ctx : context) (tenant_id : pyval) : P world unit :=
  let! ctx := lift (ctx_deepcopy ctx) in
  let! ctx := lift (set_all_tenants true ctx) in
  let! quotas := find_all quota_methods ctx [("tenant_id", tenant_id)] no_page in
  mfor (list_objects quotas)
    (fun q => let! id := attr q "id" in delete_by_id quota_methods ctx id ;;; ret tt).
Definition reset_quotas (ctx : context) (tenant_id : pyval) : P world unit :=
  transaction (fun args => match args with
                           | [t] => reset_quotas_ ctx t
                           | _ => raise (Py PyTypeError)
                           end) [tenant_id].

(** ** What the check guarantees *)

Lemma check_values_spec quotas values :
  match check_values quotas values with
  | Ok _ => forall r v, (r, v) ∈ values -> exists l, aget r quotas = Some l /\ (v < l)%Z
  | Raise e => exists before r v after, values = app before ((r, v) :: after) /\
      (forall r' v', (r', v') ∈ before -> exists l, aget r' quotas = Some l /\ (v' < l)%Z) /\
      ((e = OverQuota /\ exists l, aget r quotas = Some l /\ (l <= v)%Z) \/
       (e = QuotaResourceUnknown /\ aget r quotas = None))
  end.
Proof.
  induction values as [|[r v] values IH]; cbn [check_values]; [set_solver|].
  destruct (aget r quotas) as [l|] eqn:Hr.
  - destruct (Z.leb_spec l v).
    + exists [], r, v, values. split_and!; [done|set_solver|]. left. eauto.
    + assert (Hhead : forall r' v', (r', v') = (r, v) -> exists l, aget r' quotas = Some l /\ (v' < l)%Z).
      { intros r' v' [= -> ->]. eauto. }
      destruct (check_values quotas values) as [u|e].
      * intros r' v' [Heq|Hin]%elem_of_cons; [by apply Hhead|by apply IH].
      * destruct IH as (before & r1 & v1 & after & -> & Hb & Hcase).
        exists ((r, v) :: before), r1, v1, after. split_and!; [done| |done].
        intros r' v' [Heq|Hin]%elem_of_cons; [by apply Hhead|by apply Hb].
  - exists [], r, v, values. split_and!; [done|set_solver|]. by right.
Qed.

Lemma mmap_pure_world {A B} (g : A -> P world B) l w r w' :
  (forall a w r w', g a w = (r, w') -> w' = w) -> mmap g l w = (r, w') -> w' = w.
Proof.
  intros Hg. revert w r w'. induction l as [|a l IH]; intros w r w'; cbn; [by intros [= _ <-]|].
  unfold bind, ret. destruct (g a w) as [[b|e] w1] eqn:Ha; apply Hg in Ha as ->.
  - destruct (mmap g l w) as [[bs|e] w2] eqn:Hl; apply IH in Hl as ->; by intros [= _ <-].
  - by intros [= _ <-].
Qed.

(** A look-up of a page changes nothing. *)
Lemma find_all_world rs ctx c pg w r w' : find_all rs ctx c pg w = (r, w') -> w' = w.
Proof.
  unfold find_all, _find, check_marker, execute_select, bind, lift, gets, ret, raise.
  destruct (find_query _ _ _ _ _); [|by intros [= _ <-]].
  destruct (p_marker pg); repeat case_match; simplify_eq; by intros [= _ <-].
Qed.

Lemma quota_entry_world q w r w' : quota_entry q w = (r, w') -> w' = w.
Proof.
  unfold quota_entry, attr, str_of, bind, lift, ret, raise.
  repeat case_match; simplify_eq; by intros [= _ <-].
Qed.

Lemma get_quotas_spec ctx t w quotas w' :
  get_quotas ctx t w = (Ok quotas, w') ->
  w' = w /\ exists own, _get_quotas ctx t w = (Ok own, w) /\ NoDup own.*1 /\
    forall r, aget r quotas = match aget r own with
                              | Some l => Some l
                              | None => aget r get_default_quotas
                              end.
Proof.
  unfold get_quotas. intros (own & w1 & Hown & Hr)%bind_Ok. unfold ret in Hr. simplify_eq.
  assert (Hw : w' = w /\ NoDup own.*1).
  { unfold _get_quotas in Hown. apply bind_Ok in Hown as (qs & w1 & Hq & Hown).
    apply bind_Ok in Hown as (l & w2 & Hl & Hown). unfold ret in Hown. simplify_eq.
    apply find_all_world in Hq as ->. apply mmap_pure_world in Hl as ->; [|apply quota_entry_world].
    split; [done|]. unfold aupdate. generalize (NoDup_nil_2 (A := string)).
    change (@nil string) with ((@nil (string * Z)).*1). generalize (@nil (string * Z)).
    induction l as [|kv l IH]; intros acc Hacc; [done|]. cbn. apply IH. by apply aset_NoDup. }
  destruct Hw as [-> Hnd]. split; [done|]. exists own. split_and!; [done..|].
  intros r. by rewrite aget_aupdate.
Qed.

(** A limit check passes only if every value is below its limit, which is the
    tenant's own one where a row sets it and the configured default otherwise; it
    changes nothing. When it fails with over-quota, a value reached its limit,
    and all values looked at before were below theirs. *)
Theorem limit_check_spec ctx t values w r w' own :
  _get_quotas ctx t w = (Ok own, w) -> limit_check ctx t values w = (r, w') ->
  let limit res := match aget res own with
                   | Some l => Some l
                   | None => aget res get_default_quotas
                   end in
  w' = w /\
  match r with
  | Ok _ => forall res v, (res, v) ∈ values -> exists l, limit res = Some l /\ (v < l)%Z
  | Raise e => exists before res v after, values = app before ((res, v) :: after) /\
      (forall res' v', (res', v') ∈ before -> exists l, limit res' = Some l /\ (v' < l)%Z) /\
      ((e = OverQuota /\ exists l, limit res = Some l /\ (l <= v)%Z) \/
       (e = QuotaResourceUnknown /\ limit res = None))
  end.
Proof.
  intros Hown Hc limit. unfold limit_check in Hc. unfold bind at 1 in Hc.
  destruct (get_quotas ctx t w) as [[quotas|e] w1] eqn:Hq.
  - apply get_quotas_spec in Hq as (-> & own' & Hown' & _ & Hl).
    rewrite Hown in Hown'. injection Hown' as <-. unfold lift in Hc. injection Hc as <- <-.
    split; [done|]. pose proof (check_values_spec quotas values) as Hs.
    assert (Hlim : forall res, aget res quotas = limit res) by exact Hl. clearbody limit.
    destruct (check_values quotas values) as [u|e].
    + intros res v Hin. rewrite <- Hlim. by apply Hs.
    + destruct Hs as (b & res & v & a & Hv & Hb & Hcase). exists b, res, v, a.
      rewrite <- Hlim. split_and!; [done| |done]. intros res' v' Hin. rewrite <- Hlim. by apply Hb.
  - unfold get_quotas, bind in Hq. rewrite Hown in Hq. discriminate Hq.
Qed.
End Quota.

Lemma limit_check_spec_witness :
  @limit_check ref_env ref_engine ref_context (PStr "t1") [("zones", 4%Z)] (ref_world quota_db) =
    (Ok tt, ref_world quota_db) /\
  exists l, (4 < l)%Z /\ aget "zones" [("zones", 5%Z)] = Some l.
Proof.
  assert (Hrun : @limit_check ref_env ref_engine ref_context (PStr "t1") [("zones", 4%Z)]
                   (ref_world quota_db) = (Ok tt, ref_world quota_db)) by (vm_compute; reflexivity).
  split; [exact Hrun|].
  destruct (@limit_check_spec ref_env ref_engine ref_context (PStr "t1") [("zones", 4%Z)]
    (ref_world quota_db) _ _ [("zones", 5%Z)] ltac:(vm_compute; reflexivity) Hrun) as [_ H].
  destruct (H "zones" 4%Z (list_elem_of_here _ _)) as (l & Hl & Hlt). cbn in Hl.
  exists l. split; [exact Hlt|exact Hl].
Defined.
