(* ===== verification/Scheduler.v ===== *)
(** * The pool scheduler (designate/scheduler/)

    Filters narrow the list of pools one after the other; a zone is scheduled to
    the only pool left. *)
From Stdlib Require Import ZArith Lia Ascii String.
From stdpp Require Import base option numbers strings sets list.
From S2P Require Import Prelude PyStr Exceptions Values Objects Classes World Sql SqlFacts Tables Storage.
Local Open Scope string_scope.

(** The filters a deployment can enable, by their names. *)
Inductive filter_kind :=
| AttributeFilter | DefaultPoolFilter | FallbackFilter | InDoubtDefaultPoolFilter
| PoolIDAttributeFilter | RandomFilter.

Section Scheduler.
Context `{Env} `{SqlEngine}.

(** [strutils.bool_from_string], None where the default is returned, and the
    index [random.choice] draws from a list of the given length. *)
Variable bool_from_string : pyval -> option bool.
Variable random_choice : nat -> nat.
Hypothesis random_choice_lt : forall n, (0 < n)%nat -> (random_choice n < n)%nat.

Definition default_pool : pyval :=
  PObj "Pool" [("id", PStr (conf_str "default_pool_id"))] ["id"] [].

(** [AttributeListObjectMixin.to_dict] *)
Definition attributes_dict (l : list pyval) : list (string * pyval) :=
  foldl (fun acc i => match getattr registry i "key" with
                      | Ok (PStr k) =>
                          aset k (match getattr registry i "value" with Ok v => v | _ => PNone end) acc
                      | _ => acc
                      end) [] l.
Definition attributes_of (o : pyval) : R (list (string * pyval)) :=
  match getattr registry o "attributes" with
  | Ok l => Ok (attributes_dict (list_objects l))
  | Raise RelationNotLoaded => Ok []
  | Raise e => Raise e
  end.

(** [evaluate_pool] *)
Definition as_bool (v : pyval) : pyval :=
  match bool_from_string v with Some b => PBool b | None => v end.
Definition evaluate_pool (zone_attributes : list (string * pyval)) (pool : pyval) : R bool :=
  let? pool_attributes := attributes_of pool in
  Ok (forallb (fun kv => match aget kv.1 pool_attributes with Some _ => true | None => false end)
        zone_attributes &&
      forallb (fun kv => match aget kv.1 pool_attributes with
                         | Some p => py_eq (as_bool p) (as_bool kv.2)
                         | None => false
                         end) zone_attributes).

Definition contains (pools : list pyval) (pool : pyval) : bool :=
  existsb (fun p => py_eq p pool) pools.

(** The method [filter] of each class of filters. *)
Definition AttributeFilter_filter (pools : list pyval) (zone : pyval) : P world (list pyval) :=
  let! zone_attributes := lift (attributes_of zone) in
  let! flags := lift (rmap (evaluate_pool zone_attributes) pools) in
  ret (map fst (filter (fun x => x.2 = true) (zip pools flags))).
Definition DefaultPoolFilter_filter : P world (list pyval) := ret [default_pool].
Definition FallbackFilter_filter (pools : list pyval) : P world (list pyval) :=
  match pools with [] => ret [default_pool] | _ => ret pools end.
Definition InDoubtDefaultPoolFilter_filter (ctx : context) (pools : list pyval) : P world (list pyval) :=
  if (1 <? length pools)%nat then
    fun w => match get_pool ctx (PStr (conf_str "default_pool_id")) w with
             | (Ok pool, w1) => (Ok (if contains pools pool then [pool] else pools), w1)
             | (Raise _, w1) => (Ok pools, w1)
             end
  else ret pools.
Definition PoolIDAttributeFilter_filter (ctx : context) (pools : list pyval) (zone : pyval) :
    P world (list pyval) :=
  match getattr registry zone "attributes" with
  | Raise RelationNotLoaded => ret pools
  | Raise e => raise e
  | Ok l =>
      match attr_list_get (list_objects l) "pool_id" with
      | Some pool_id =>
          if truthy pool_id then
            fun w => match get_pool ctx pool_id w with
                     | (Ok pool, w1) =>
                         bind (lift (check "zone_create_forced_pool" ctx (items registry pool)))
                           (fun _ => ret (if contains pools pool then [pool] else pools)) w1
                     | (Raise _, w1) => (Ok [], w1)
                     end
          else ret pools
      | None => ret pools
      end
  end.
Definition RandomFilter_filter (pools : list pyval) : P world (list pyval) :=
  match pools with
  | [] => ret pools
  | p :: _ => ret [nth (random_choice (length pools)) pools p]
  end.
Definition run_filter (k : filter_kind) (ctx : context) (pools : list pyval) (zone : pyval) :
    P world (list pyval) :=
  match k with
  | AttributeFilter => AttributeFilter_filter pools zone
  | DefaultPoolFilter => DefaultPoolFilter_filter
  | FallbackFilter => FallbackFilter_filter pools
  | InDoubtDefaultPoolFilter => InDoubtDefaultPoolFilter_filter ctx pools
  | PoolIDAttributeFilter => PoolIDAttributeFilter_filter ctx pools zone
  | RandomFilter => RandomFilter_filter pools
  end.

(** [Scheduler.schedule_zone] *)
Definition schedule_zone (filters : list filter_kind) (ctx : context) (zone : pyval) :
    P world pyval :=
  let! l := find_pools ctx [] no_page in
  match filters with
  | [] => raise (ConfigurationError NoFiltersConfigured)
  | _ =>
      let! pools := mfold filters (list_objects l) (fun pools k => run_filter k ctx pools zone) in
      match pools with
      | [] => raise (NotFound NoValidPoolFound)
      | [pool] => attr pool "id"
      | _ => raise (ConfigurationError MultiplePoolsFound)
      end
  end.

(** ** What scheduling guarantees *)

Definition selecting (k : filter_kind) : bool :=
  match k with DefaultPoolFilter => false | FallbackFilter => false | _ => true end.

(** A filter keeps pools of its input, apart from the two that insert the
    configured default pool, and from a stored pool that equals one of them. *)
Lemma run_filter_keeps k ctx pools zone w pools' w' :
  run_filter k ctx pools zone w = (Ok pools', w') ->
  forall p, p ∈ pools' ->
    p ∈ pools \/ contains pools p = true \/ (selecting k = false /\ p = default_pool).
Proof.
  unfold run_filter, AttributeFilter_filter, DefaultPoolFilter_filter, FallbackFilter_filter,
    InDoubtDefaultPoolFilter_filter, PoolIDAttributeFilter_filter, RandomFilter_filter.
  destruct k; cbn [selecting].
  - intros (za & w1 & _ & Hr)%bind_Ok. apply bind_Ok in Hr as (flags & w2 & _ & Hr).
    unfold ret in Hr. simplify_eq. intros p (x & -> & Hx)%list_elem_of_fmap.
    left. apply list_elem_of_filter in Hx as [_ Hx]. destruct x as [a b].
    by apply elem_of_zip_l in Hx.
  - intros [= <- <-] p Hp. apply list_elem_of_singleton in Hp as ->. auto.
  - destruct pools as [|p0 pools]; intros [= <- <-] p Hp; [|by left].
    apply list_elem_of_singleton in Hp as ->. auto.
  - destruct (1 <? length pools)%nat; [|intros [= <- <-]; auto].
    destruct (get_pool _ _ w) as [[pool|e] w1]; intros [= <- <-] p Hp; [|by left].
    destruct (contains pools pool) eqn:Hc; [|by left].
    apply list_elem_of_singleton in Hp as ->. auto.
  - destruct (getattr registry zone "attributes") as [l|e].
    2: { destruct e; try (intros [=]; done). intros [= <- <-]. auto. }
    destruct (attr_list_get _ _) as [id|]; [|intros [= <- <-]; auto].
    destruct (truthy id); [|intros [= <- <-]; auto].
    destruct (get_pool _ _ w) as [[pool|e] w1]; [|intros [= <- <-]; set_solver].
    intros (u & w2 & _ & Hr)%bind_Ok. unfold ret in Hr. injection Hr as <- <-.
    intros p Hp. destruct (contains pools pool) eqn:Hc; [|by left].
    apply list_elem_of_singleton in Hp as ->. auto.
  - destruct pools as [|p0 pools]; intros [= <- <-] p Hp; [by left|].
    apply list_elem_of_singleton in Hp as ->. left. apply list_elem_of_In.
    change (List.In (nth (random_choice (length (p0 :: pools))) (p0 :: pools) p0) (p0 :: pools)).
    apply nth_In, random_choice_lt. cbn. lia.
Qed.

(** Two pools that compare equal have the same identifier. *)
Definition pool_id (p : pyval) : option pyval :=
  match p with PObj _ f _ _ => aget "id" f | _ => None end.

Lemma dict_eq_lookup (d0 d : list (string * pyval)) k v :
  (fix go (d : list (string * pyval)) : bool :=
     match d with
     | [] => true
     | (k, v) :: d' =>
         match aget k d0 with Some w => py_eq v w | None => false end && go d'
     end) d = true ->
  aget k d = Some v -> exists w, aget k d0 = Some w /\ py_eq v w = true.
Proof.
  induction d as [|[k' v'] d IH]; [done|]. intros [Hh Ht]%andb_true_iff. cbn [aget].
  destruct (String.eqb_spec k k') as [->|]; [|by apply IH]. intros [= <-].
  destruct (aget k' d0) as [w|]; [by exists w|done].
Qed.

Lemma py_eq_pool_id p q s : py_eq p q = true -> pool_id p = Some (PStr s) -> pool_id q = Some (PStr s).
Proof.
  destruct p as [| | | | | |c f ch og]; try done. destruct q as [| | | | | |c' f' ch' og']; try done.
  cbn [py_eq pool_id].
  intros [[[_ [_ Hf]%andb_true_iff]%andb_true_iff _]%andb_true_iff _]%andb_true_iff Hid.
  destruct (dict_eq_lookup _ _ _ _ Hf Hid) as (w & -> & Hw).
  destruct w; try done. cbn in Hw. by apply String.eqb_eq in Hw as ->.
Qed.

Lemma contains_id pools pool :
  contains pools pool = true ->
  (forall p, p ∈ pools -> exists s, pool_id p = Some (PStr s)) ->
  exists p, p ∈ pools /\ pool_id pool = pool_id p.
Proof.
  unfold contains. intros (p & Hin & Heq)%existsb_exists Hids. apply list_elem_of_In in Hin.
  exists p. split; [done|]. destruct (Hids p Hin) as [s Hs].
  by rewrite (py_eq_pool_id _ _ _ Heq Hs), Hs.
Qed.

(** The pools a zone may end up in: the stored ones the context sees, and the
    configured default when a filter that inserts it is enabled. *)
Definition candidate (filters : list filter_kind) (stored : list pyval) (id : option pyval) : Prop :=
  (exists p, p ∈ stored /\ pool_id p = id) \/
  (exists k, k ∈ filters /\ selecting k = false /\ id = Some (PStr (conf_str "default_pool_id"))).

Lemma filters_keep filters all stored ctx zone pools w pools' w' :
  (forall k, k ∈ filters -> k ∈ all) ->
  (forall p, p ∈ pools -> candidate all stored (pool_id p) /\ exists s, pool_id p = Some (PStr s)) ->
  mfold filters pools (fun pools k => run_filter k ctx pools zone) w = (Ok pools', w') ->
  forall p, p ∈ pools' -> candidate all stored (pool_id p) /\ exists s, pool_id p = Some (PStr s).
Proof.
  revert pools w. induction filters as [|k filters IH]; intros pools w Hall Hp; cbn [mfold].
  - intros [= <- <-]. exact Hp.
  - intros (pools1 & w1 & Hk & Hr)%bind_Ok. refine (IH pools1 w1 _ _ Hr); [set_solver|].
    intros p Hp1. destruct (run_filter_keeps _ _ _ _ _ _ _ Hk p Hp1) as [Hin|[Hc|[Hs ->]]].
    + by apply Hp.
    + destruct (contains_id _ _ Hc) as (q & Hq & ->); [intros q Hq; by apply Hp|by apply Hp].
    + split; [|by eexists]. right. exists k. split_and!; [apply Hall; set_solver|done..].
Qed.

(** Scheduling. A zone is only ever scheduled to a pool that is stored and
    visible to the request, or to the configured default pool when a filter that
    inserts it is enabled; with filters that only select, the pool exists. When
    no filter is configured the schedule is refused. *)
Theorem schedule_zone_spec filters ctx zone w id w' l w1 :
  find_pools ctx [] no_page w = (Ok l, w1) ->
  (forall p, p ∈ list_objects l -> exists s, pool_id p = Some (PStr s)) ->
  schedule_zone filters ctx zone w = (Ok id, w') ->
  filters <> [] /\ candidate filters (list_objects l) (Some id) /\
  ((forall k, k ∈ filters -> selecting k = true) ->
     exists p, p ∈ list_objects l /\ pool_id p = Some id).
Proof.
  intros Hl Hids. unfold schedule_zone. intros (l' & w2 & Hl' & Hr)%bind_Ok.
  rewrite Hl in Hl'. injection Hl' as <- <-.
  assert (Hne : filters <> []) by (by intros ->). split; [done|].
  assert (Hc : candidate filters (list_objects l) (Some id)).
  { destruct filters as [|k0 rest]; [done|].
    apply bind_Ok in Hr as (pools & w3 & Hf & Hr).
    destruct pools as [|pool [|? ?]]; [done| |done].
    destruct (filters_keep (k0 :: rest) (k0 :: rest) (list_objects l) _ _ _ _ _ _
      (fun k Hk => Hk) (fun p Hp => conj (or_introl (ex_intro _ p (conj Hp eq_refl))) (Hids p Hp))
      Hf pool (list_elem_of_here _ _)) as [Hcand [s Hs]].
    unfold attr, lift in Hr. destruct pool as [| | | | | |c f ch og]; try done.
    cbn [getattr pool_id] in Hr, Hs, Hcand. rewrite Hs in Hr, Hcand.
    destruct (negb (in_FIELDS registry c "id")); [done|]. injection Hr as <- _. exact Hcand. }
  split; [done|]. intros Hsel. destruct Hc as [|(k & Hk & Hs & _)]; [done|].
  by rewrite Hsel in Hs.
Qed.
End Scheduler.

(** ** Two pools, and a zone that asks for one of them *)
Definition pool_row (id name : string) : row :=
  [("id", PStr id); ("created_at", PInt 1); ("updated_at", PNone); ("version", PInt 1);
   ("name", PStr name); ("description", PNone); ("tenant_id", PNone)].
Definition pool_db : db := [("pools", [pool_row "p1" "gold"; pool_row "p2" "silver"])].
Definition asking_zone : pyval :=
  PObj "Zone" [("attributes", PObj "ZoneAttributeList" [("objects", PList
    [PObj "ZoneAttribute" [("key", PStr "pool_id"); ("value", PStr "p2")] [] []])] [] [])] [] [].
Lemma schedule_zone_spec_witness :
  let run := @schedule_zone ref_env ref_engine (fun _ => None) (fun _ => 0%nat)
               [PoolIDAttributeFilter] ref_context asking_zone (ref_world pool_db) in
  run.1 = Ok (PStr "p2") /\
  exists l w1, @find_pools ref_engine ref_context [] no_page (ref_world pool_db) = (Ok l, w1) /\
    exists p, p ∈ list_objects l /\ pool_id p = Some (PStr "p2").
Proof.
  set (run := @schedule_zone _ _ _ _ _ _ _ _).
  assert (Hrun : run = (Ok (PStr "p2"), run.2)) by (vm_compute; reflexivity).
  split; [by rewrite Hrun|].
  set (fp := @find_pools ref_engine ref_context [] no_page (ref_world pool_db)).
  set (l := match fp.1 with Ok l => l | Raise _ => PNone end).
  assert (Hl : fp = (Ok l, fp.2)) by (vm_compute; reflexivity).
  exists l, fp.2. split; [exact Hl|].
  assert (Hids : Forall (fun p => exists s, pool_id p = Some (PStr s)) (list_objects l)).
  { vm_compute. repeat (apply Forall_cons_2; [eexists; reflexivity|]). apply Forall_nil_2. }
  destruct (@schedule_zone_spec ref_env ref_engine (fun _ => None) (fun _ => 0%nat)
    (fun n Hn => Hn) [PoolIDAttributeFilter] ref_context asking_zone (ref_world pool_db)
    (PStr "p2") run.2 l fp.2 Hl (proj1 (Forall_forall _ _) Hids) Hrun) as (_ & _ & Hex).
  apply Hex. intros k Hk. by apply list_elem_of_singleton in Hk as ->.
Defined.
