(* ===== verification/Worker.v ===== *)
(** * The worker (designate/worker/tasks/zone.py, base.py; worker/processing.py,
      utils.py, service.py)

    The tasks that carry a change of a zone to the pool's target and find out
    whether it arrived. A task shares the zone object with the tasks it starts
    ([t_zone]). What the worker asks of others (central and the backends over
    RPC, name servers over DNS) is written to the log of the world, oldest first;
    [reply] is the answer, which may depend on everything said so far. How long
    the tasks wait between two attempts is not modelled. *)
From Stdlib Require Import ZArith Lia String.
From stdpp Require Import base option numbers strings sets list.
From S2P Require Import Prelude PyStr PyNum Exceptions Values Objects Utils Classes World Sql Storage Quota.
Local Open Scope string_scope.

(** The thread pool: the order in which it runs [n] tasks, as positions; a task
    that was cancelled before it started is missing. *)
Class ThreadPool := {
  schedule : list message -> nat -> list nat;
}.

Record tstate := { t_world : world; t_zone : pyval }.
Abbreviation T := (P tstate).

(** ** Thresholds *)

(** [percentage], a float *)
Definition percentage (part whole : Z) : Z * Z :=
  if (whole =? 0)%Z then (0, 1)%Z
  else float_div (float_mul_Z 100 (float_of_Z part)) (float_of_Z whole).
(** [_compare_threshold]; the threshold is an integer option. *)
Definition _compare_threshold (threshold successes total : Z) : bool :=
  let '(m, c) := percentage successes total in (threshold * c <=? m)%Z.

(** ** Poll results *)

Record DNSQueryResult := {
  positives : Z; no_zones : Z; consensus_serial : Z;
  results : option (list (option Z));      (* [None] is the integer 0 *)
}.

Definition parse_step (delete : bool) (zone_serial : Z) (acc : Z * Z * Z) (result : option Z) :
    Z * Z * Z :=
  let '(positives, no_zones, low_serial) := acc in
  match result with
  | None => acc
  | Some serial =>
      if delete then
        if (serial =? 0)%Z then ((positives + 1)%Z, (no_zones + 1)%Z, low_serial) else acc
      else if (zone_serial <=? serial)%Z then
        ((positives + 1)%Z, no_zones,
         if (low_serial =? 0)%Z || (serial <? low_serial)%Z then serial else low_serial)
      else if (serial =? 0)%Z then (positives, (no_zones + 1)%Z, low_serial) else acc
  end.
Definition parse_query_results (l : list (option Z)) (zone : pyval) : DNSQueryResult :=
  let '(p, n, low) :=
    foldl (parse_step (String.eqb (str_attr zone "action") "DELETE") (int_attr zone "serial"))
      (0, 0, 0)%Z l in
  {| positives := p; no_zones := n; consensus_serial := low; results := Some l |}.

Section Worker.
Context `{Env} `{SqlEngine} `{Services} `{ThreadPool}.

(** ** Talking to others *)

Definition with_zone (z : pyval) (s : tstate) : tstate := {| t_world := t_world s; t_zone := z |}.
Definition on_world {A} (m : P world A) : T A := fun s =>
  let '(r, w) := m (t_world s) in (r, {| t_world := w; t_zone := t_zone s |}).
Definition central (method : string) (args : list pyval) : T pyval := on_world (call "central" method args).
Definition zone : T pyval := gets t_zone.
Definition zone_setattr (name : string) (v : pyval) : T unit := fun s =>
  match setattr registry (t_zone s) name v with
  | Ok z => (Ok tt, with_zone z s)
  | Raise e => (Raise e, s)
  end.
(** A bare [except]. *)
Definition except_all {A} (k : exc -> A) (e : exc) : option A :=
  match e with Py Blocked => None | _ => Some (k e) end.

(** [UpdateStatus] *)
Definition UpdateStatus : T unit := let! z := zone in central "update_zone_status" [z] ;;; ret tt.

(** ** [Executor.run] *)
Fixpoint run_scheduled {A} (tasks : list (T A)) (order : list nat) (done : list (nat * res exc A)) :
    tstate -> list (nat * res exc A) * tstate :=
  match order with
  | [] => fun s => (done, s)
  | i :: rest => fun s =>
      match tasks !! i with
      | Some task => let '(r, s') := task s in run_scheduled tasks rest ((i, r) :: done) s'
      | None => run_scheduled tasks rest done s
      end
  end.
Definition result_of {A} (done : list (nat * res exc A)) (i : nat) : R A :=
  match find (fun ir => (ir.1 =? i)%nat) done with
  | Some (_, r) => r
  | None => Raise (Py Cancelled)
  end.
Definition executor_run {A} (tasks : list (T A)) : T (list A) := fun s =>
  let order := schedule (w_sent (t_world s)) (length tasks) in
  let '(done, s') := run_scheduled tasks order [] s in
  (rmap (result_of done) (seq 0 (length tasks)), s').

(** ** Create, update, delete *)

(** The backend of a target. *)
Definition backend (target : pyval) (method : string) (args : list pyval) : T pyval :=
  on_world (call (str_attr target "id") method args).

(** [ZoneActionOnTarget] *)
Definition ZoneActionOnTarget (action : string) (target : pyval) : T bool :=
  try_except
    ((if String.eqb action "CREATE" then
        let! z := zone in backend target "create_zone" [z] ;;; zone_setattr "status" (PStr "SUCCESS")
      else if String.eqb action "UPDATE" then
        let! z := zone in backend target "update_zone" [z] ;;; zone_setattr "status" (PStr "SUCCESS")
      else if String.eqb action "DELETE" then
        let! z := zone in backend target "delete_zone" [z] ;;; zone_setattr "status" (PStr "SUCCESS")
      else ret tt) ;;;
     UpdateStatus ;;; ret true)
    (except_exception (fun e =>
       zone_setattr "status" (PStr "ERROR") ;;; UpdateStatus ;;; raise e)).

(** [ZoneActor]; [None] is what [_threshold_met] returns for [False]. *)
Definition ZoneActor_threshold_met (results : option (list bool)) : T (option bool) :=
  match results with
  | None => zone_setattr "status" (PStr "ERROR") ;;; UpdateStatus ;;; ret None
  | Some _ => zone_setattr "status" (PStr "SUCCESS") ;;; UpdateStatus ;;; ret (Some true)
  end.
Definition ZoneActor_execute (pool : pyval) : T (list bool) :=
  let! z := zone in
  let! targets := lift (getattr registry pool "targets") in
  executor_run (map (ZoneActionOnTarget (str_attr z "action")) (list_objects targets)).
Definition ZoneActor (pool : pyval) : T (option bool) :=
  try_except
    (let! z := zone in
     raise_if (negb (mem_str (str_attr z "action") ["CREATE"; "UPDATE"; "DELETE"])) (Py PyException) ;;;
     let! results := ZoneActor_execute pool in
     ZoneActor_threshold_met (Some results))
    (except_all (fun e => ZoneActor_threshold_met None ;;; raise e)).

(** [ZoneAction]; the target is the pool's first, [pool.targets[0]]. The view is
    looked up before the [try]. *)
Definition first_target (pool : pyval) : R pyval :=
  let? targets := getattr registry pool "targets" in
  match list_objects targets with t :: _ => Ok t | [] => Raise (Py PyIndexError) end.
Definition zone_view_name : T pyval :=
  let! z := zone in
  let! view_id := lift (obj_get registry z "view_id" None) in
  if truthy view_id then
    let! view := central "get_view" [view_id] in lift (getattr registry view "name")
  else ret (PStr "default").
Definition zone_action_body (target : pyval) (action : string) (view_name : pyval) : T unit :=
  (if String.eqb action "CREATE" then
     let! z := zone in
     let! response := backend target "create_zone" [z; view_name] in
     let! z := zone in central "create_zdns_zone" [z; response] ;;; ret tt
   else if String.eqb action "UPDATE" then
     let! z := zone in
     let! response := backend target "update_zone" [z; view_name] in
     let! z := zone in central "update_zdns_zone" [z; response] ;;; ret tt
   else if String.eqb action "DELETE" then
     let! z := zone in
     backend target "delete_zone" [z; view_name] ;;;
     let! z := zone in central "delete_zdns_zone" [z] ;;; ret tt
   else ret tt) ;;;
  zone_setattr "status" (PStr "SUCCESS") ;;; UpdateStatus.
Definition ZoneAction (pool : pyval) (action : string) : T bool :=
  let! target := lift (first_target pool) in
  let! view_name := zone_view_name in
  try_except (zone_action_body target action view_name ;;; ret true)
    (except_exception (fun e =>
       zone_setattr "status" (PStr "ERROR") ;;; UpdateStatus ;;; raise e)).

(** ** Polling *)

(** [get_serial]: the answer section of the response, as a list of record sets,
    each a list of serials. *)
Definition get_serial (zone_name host port : pyval) : P world Z :=
  let! resp := call "dns" "SOA" [zone_name; host; port] in
  match resp with
  | PList [] => ret 0%Z
  | PList (PList [] :: _) => ret 0%Z
  | PList (PList (PInt serial :: _) :: _) => ret serial
  | _ => raise (Py PyAttributeError)
  end.

(** [PollForZone] *)
Definition PollForZone (ns : pyval) : T (option Z) :=
  let! z := zone in
  try_except
    (let! name := lift (getattr registry z "name") in
     let! host := lift (getattr registry ns "host") in
     let! port := lift (getattr registry ns "port") in
     let! serial := on_world (get_serial name host port) in ret (Some serial))
    (except_exception (fun _ => ret None)).

(** [ZonePoller]. [rounds] counts down [range(0, max_retries)]. *)
Definition threshold_percentage : Z := conf_int "service:worker.threshold_percentage".
Definition max_retries : Z := conf_int "service:worker.poll_max_retries".
Fixpoint poll_rounds (nameservers : list pyval) (rounds : nat) (query_result : DNSQueryResult) :
    T DNSQueryResult :=
  match rounds with
  | O => ret query_result
  | S rounds' =>
      let! l := executor_run (map PollForZone nameservers) in
      let! z := zone in
      let query_result := parse_query_results l z in
      if _compare_threshold threshold_percentage (positives query_result) (Z.of_nat (length l))
      then ret query_result
      else poll_rounds nameservers rounds' query_result
  end.
Definition _do_poll (pool : pyval) : T DNSQueryResult :=
  let! nameservers := lift (getattr registry pool "nameservers") in
  poll_rounds (list_objects nameservers) (Z.to_nat max_retries)
    {| positives := 0; no_zones := 0; consensus_serial := 0; results := None |}.
Definition _threshold_met (action : string) (q : DNSQueryResult) : R (bool * string) :=
  match results q with
  | None => Raise (Py PyTypeError)
  | Some l =>
      let total := Z.of_nat (length l) in
      if negb (_compare_threshold threshold_percentage (total - no_zones q) total)
         && negb (String.eqb action "DELETE")
      then Ok (false, "NO_ZONE")
      else if negb (_compare_threshold threshold_percentage (positives q) total)
      then Ok (false, "ERROR")
      else Ok (true, "SUCCESS")
  end.
Definition _on_failure (error_status : string) : T bool :=
  zone_setattr "status" (PStr error_status) ;;;
  when (String.eqb error_status "NO_ZONE") (zone_setattr "action" (PStr "CREATE")) ;;;
  ret false.
Definition _on_success (q : DNSQueryResult) (status : string) : T bool :=
  zone_setattr "status" (PStr status) ;;;
  zone_setattr "serial" (PInt (consensus_serial q)) ;;;
  ret true.
Definition ZonePoller (pool : pyval) : T bool :=
  let! q := _do_poll pool in
  let! z := zone in
  let! ' (success, status) := lift (_threshold_met (str_attr z "action") q) in
  let! result := (if (success : bool) then _on_success q status else _on_failure status) in
  UpdateStatus ;;; ret result.

(** ** Record sets and records: these tasks leave the zone alone *)

Definition validate_action (action : string) : P world unit :=
  raise_if (negb (mem_str action ["CREATE"; "UPDATE"; "DELETE"])) (Py PyException).
Definition on_backend (target : pyval) (method : string) (args : list pyval) : P world pyval :=
  call (str_attr target "id") method args.
(** What central makes of its database meanwhile is not in the world of the worker: the answer is a
    parameter. *)
Definition on_central (method : string) (args : list pyval) : P world pyval := call "central" method args.

(** [RecordSetAction], with [UpdateRecordSetStatus] *)
Definition UpdateRecordSetStatus (recordset : pyval) (action status : string) : P world unit :=
  on_central "update_recordset_status" [recordset; PStr action; PStr status] ;;; ret tt.
Definition RecordSetAction (pool zone recordset : pyval) (action : string) : P world bool :=
  let! target := lift (first_target pool) in
  validate_action action ;;;
  try_except
    ((if String.eqb action "CREATE" then on_backend target "create_recordset" [zone; recordset]
      else if String.eqb action "UPDATE" then on_backend target "update_recordset" [zone; recordset]
      else on_backend target "delete_recordset" [zone; recordset]) ;;;
     UpdateRecordSetStatus recordset action "SUCCESS" ;;; ret true)
    (except_exception (fun e => UpdateRecordSetStatus recordset action "ERROR" ;;; raise e)).

(** [RecordAction], with [UpdateRecordStatus]. The local variable [response] is
    what the backend answered, or [None] before it did. *)
Definition UpdateRecordStatus (record : pyval) (action status : string) : P world unit :=
  on_central "update_record_status" [record; PStr action; PStr status] ;;; ret tt.
(** [response.get('id')] *)
Definition response_id (response : pyval) : P world pyval :=
  match response with PDict d => ret (default PNone (aget "id" d)) | _ => raise (Py PyAttributeError) end.
Definition zone_view (zone : pyval) : P world pyval :=
  let! view_id := lift (getattr registry zone "view_id") in
  let! view := on_central "get_view" [view_id] in lift (getattr registry view "name").
Definition stored_zdns_record (record : pyval) : P world pyval :=
  let! id := lift (getattr registry record "id") in
  let! association := on_central "get_record_association" [id] in
  let! zdns_id := lift (getattr registry association "zdns_record_id") in
  on_central "get_zdns_record" [zdns_id].
(** A step that may fail after the backend has answered. *)
Definition answered (response : pyval) (m : P world unit) : P world (pyval * option exc) := fun w =>
  match m w with
  | (Ok _, w') => (Ok (response, None), w')
  | (Raise e, w') => match except_exception (fun e => Ok (response, Some e)) e with
                     | Some r => (r, w')
                     | None => (Raise e, w')
                     end
  end.
Definition record_create (target zone record recordset : pyval) : P world (pyval * option exc) :=
  let! view_name := zone_view zone in
  let! response := on_backend target "create_record" [zone; record; recordset; view_name] in
  answered response
    (let! rr_id := response_id response in
     let! name := lift (getattr registry recordset "name") in
     let! ttl := lift (getattr registry recordset "ttl") in
     let! id := lift (getattr registry record "id") in
     let! data := lift (getattr registry record "data") in
     let! type := lift (getattr registry recordset "type") in
     on_central "create_zdns_record" [zone;
       PDict [("rr_id", rr_id); ("name", name); ("ttl", ttl); ("record_id", id);
              ("rdata", data); ("type", type); ("klass", PStr "IN")]] ;;; ret tt).
Definition record_update (target zone record recordset : pyval) : P world (pyval * option exc) :=
  let! view_name := zone_view zone in
  let! zdns := stored_zdns_record record in
  let! data := lift (getattr registry record "data") in
  let! zdns := lift (setattr registry zdns "rdata" data) in
  let! ttl := lift (getattr registry recordset "ttl") in
  let! zdns := lift (setattr registry zdns "ttl" ttl) in
  let! response := on_backend target "update_record" [zone; zdns; recordset; view_name] in
  answered response
    (on_central "update_recordset_callback" [zone; recordset] ;;;
     let! rr_id := response_id response in
     let! zdns := lift (setattr registry zdns "rr_id" rr_id) in
     on_central "update_zdns_record" [zdns] ;;; ret tt).
Definition record_delete (target zone record : pyval) : P world (pyval * option exc) :=
  let! view_name := zone_view zone in
  let! zdns := stored_zdns_record record in
  let! rr_id := lift (getattr registry zdns "rr_id") in
  let! response := on_backend target "delete_record" [zone; rr_id; view_name] in
  ret (response, None).
Definition RecordAction (pool zone record : pyval) (action : string) (recordset : pyval) :
    P world pyval :=
  let! target := lift (first_target pool) in
  validate_action action ;;;
  let run := if String.eqb action "CREATE" then record_create target zone record recordset
             else if String.eqb action "UPDATE" then record_update target zone record recordset
             else record_delete target zone record in
  let failed (response : pyval) :=
    UpdateRecordStatus record action "ERROR" ;;; ret response in
  let! ' (response, failure) :=
    try_except run (except_exception (fun e => ret (PNone, Some e))) in
  match failure with
  | Some e => failed response
  | None => try_except (UpdateRecordStatus record action "SUCCESS" ;;; ret response)
              (except_exception (fun _ => failed response))
  end.

(** ** [RecoverShard]: what hangs in an undesirable state *)

Definition max_prop_time (timeout retries interval delay : Z) : Z :=
  (timeout * retries + retries * interval + delay)%Z.
Definition task_max_prop_time : Z :=
  max_prop_time (conf_int "service:worker.poll_timeout") max_retries
    (conf_int "service:worker.poll_retry_interval") (conf_int "service:worker.poll_delay").
Definition between (begin_shard end_shard : Z) : pyval :=
  PStr ("BETWEEN " ++ str_of_Z begin_shard ++ "," ++ str_of_Z end_shard).
Definition error_criterion (begin_shard end_shard : Z) : list (string * pyval) :=
  [("shard", between begin_shard end_shard); ("status", PStr "ERROR")].
Definition stale_criterion (begin_shard end_shard current : Z) : list (string * pyval) :=
  [("shard", between begin_shard end_shard); ("status", PStr "PENDING");
   ("serial", PStr ("<" ++ str_of_Z (current - task_max_prop_time)))].
Definition _get_zones (ctx : context) (begin_shard end_shard : Z) : P world (list pyval) :=
  let! error_zones := find_zones ctx (error_criterion begin_shard end_shard) no_page in
  let! now := utcnow in
  let current := increment_serial now 0 in
  let! stale_zones := find_zones ctx (stale_criterion begin_shard end_shard current) no_page in
  ret (app (list_objects error_zones) (list_objects stale_zones)).
Definition recover (zone : pyval) : P world unit :=
  let action := str_attr zone "action" in
  if String.eqb action "CREATE" then call "worker" "create_zone" [zone] ;;; ret tt
  else if String.eqb action "UPDATE" then call "worker" "update_zone" [zone] ;;; ret tt
  else if String.eqb action "DELETE" then call "worker" "delete_zone" [zone] ;;; ret tt
  else ret tt.
Definition RecoverShard (ctx : context) (begin_shard end_shard : Z) : P world unit :=
  let! zones := _get_zones ctx begin_shard end_shard in
  mfor zones recover.

(** ** [ExportZone] *)

Definition _determine_export_method (ctx : context) (export : pyval) (size : Z) : P world pyval :=
  let set o n v := lift (setattr registry o n (PStr v)) in
  if negb (conf_int "service:worker.export_synchronous" =? 0)%Z then
    let located :=
      let! id := lift (getattr registry export "id") in
      let! export := set export "location"
        ("designate://v2/zones/tasks/exports/" ++ text id ++ "/export") in
      set export "status" "COMPLETE" in
    try_else
      (limit_check ctx (tenant_val ctx) [("api_export_size", size)])
      (fun e => match e with
                | OverQuota => Some (let! export := set export "status" "ERROR" in
                                     set export "message" "Zone is too large to export")
                | _ => None
                end)
      (fun _ => located)
  else
    let! export := set export "status" "ERROR" in
    set export "message" "No suitable method for export".
Definition ExportZone (ctx : context) (zone export : pyval) : P world unit :=
  let! id := lift (getattr registry zone "id") in
  let! count := count_recordsets ctx [("zone_id", id)] in
  let! export := _determine_export_method ctx export count in
  on_central "update_zone_export" [export] ;;; ret tt.

(** ** The service *)

(** The state of the service: the pools it has loaded. *)
Record sstate := { s_world : world; s_pools : list (string * pyval) }.

(** [load_pool]: ask until there is a pool with targets; [fuel] bounds the
    questions. *)
Definition retry_load (e : exc) : bool :=
  bool_decide (e = NotFound PoolNotFound) || bool_decide (e = Py MessagingTimeout).
Definition pool_targets (pool : pyval) : R (list pyval) :=
  let? targets := getattr registry pool "targets" in Ok (list_objects targets).
Definition ask_pool (pool_id : string) : P world (option pyval) :=
  let! pool := on_central "get_pool" [PStr pool_id] in
  let! targets := lift (pool_targets pool) in
  ret (match targets with [] => None | _ => Some pool end).
Fixpoint load_pool (fuel : nat) (pool_id : string) : P world pyval := fun w =>
  match fuel with
  | O => (Raise (Py Blocked), w)
  | S fuel' =>
      match ask_pool pool_id w with
      | (Ok (Some pool), w') => (Ok pool, w')
      | (Ok None, w') => load_pool fuel' pool_id w'
      | (Raise e, w') => if retry_load e then load_pool fuel' pool_id w' else (Raise e, w')
      end
  end.

(** [_setup_target_backends]; a backend is made for each target. *)
Definition _setup_target_backends (pool : pyval) : R pyval :=
  let? targets := pool_targets pool in
  match targets with [] => Raise (ConfigurationError NoPoolTargetsConfigured) | _ => Ok pool end.

(** [get_pool] *)
Definition get_pool (fuel : nat) (pool_id : string) : P sstate pyval := fun s =>
  match aget pool_id (s_pools s) with
  | Some pool => (Ok pool, s)
  | None =>
      match bind (load_pool fuel pool_id) (fun pool => lift (_setup_target_backends pool)) (s_world s) with
      | (Ok pool, w) => (Ok pool, {| s_world := w; s_pools := aset pool_id pool (s_pools s) |})
      | (Raise e, w) => (Raise e, {| s_world := w; s_pools := s_pools s |})
      end
  end.
Definition on_service {A} (m : P world A) : P sstate A := fun s =>
  let '(r, w) := m (s_world s) in (r, {| s_world := w; s_pools := s_pools s |}).

(** A task of one zone, run alone. *)
Definition run_task {A} (zone : pyval) (task : T A) : P world (list A) := fun w =>
  let '(r, s) := task {| t_world := w; t_zone := zone |} in
  (match r with Ok a => Ok [a] | Raise e => Raise e end, t_world s).
Definition pool_id_of (o : pyval) : P sstate string :=
  match getattr registry o "pool_id" with Ok v => ret (text v) | Raise e => raise e end.

Definition recordset_records (recordset : pyval) : list pyval :=
  match getattr registry recordset "records" with Ok l => list_objects l | Raise _ => [] end.

(** [_do_zone_action], [_do_recordset_action], [_do_record_action] *)
Definition _do_zone_action (fuel : nat) (zone : pyval) : P sstate (list bool) :=
  let! id := pool_id_of zone in
  let! pool := get_pool fuel id in
  on_service (run_task zone (ZoneAction pool (str_attr zone "action"))).
Definition _do_recordset_action (fuel : nat) (zone recordset : pyval) : P sstate (list bool) :=
  let! id := pool_id_of zone in
  let! pool := get_pool fuel id in
  let! r := on_service (RecordSetAction pool zone recordset
              (recordset_action (recordset_records recordset))) in
  ret [r].
Definition _do_record_action (fuel : nat) (zone record recordset : pyval) : P sstate (list pyval) :=
  let! id := pool_id_of zone in
  let! pool := get_pool fuel id in
  let! r := on_service (RecordAction pool zone record (str_attr record "action") recordset) in
  ret [r].
End Worker.
