(* ===== verification/WorkerFacts.v ===== *)
(** * Theorems about the worker

    Thresholds computed with floats are exact; what a poll concludes and reports;
    what the tasks report when something fails. *)
From Stdlib Require Import ZArith Lia String.
From stdpp Require Import base option numbers strings sets list.
From S2P Require Import Prelude PyStr PyNum Exceptions Values Objects Utils Classes World Sql SqlFacts Tables Storage Quota Worker.
Local Open Scope string_scope.

(** ** Thresholds *)

(** The float comparison decides the exact one. The percentage of [successes]
    in [total] reaches the threshold exactly when [100 * successes] is at least
    [threshold * total]: no rounding turns a missed threshold into a met one or
    the other way round, for any count a pool can have. An empty total counts as
    zero per cent. *)
Theorem compare_threshold_exact threshold successes total :
  (0 <= successes <= total)%Z -> (total < 2 ^ 46)%Z ->
  _compare_threshold threshold successes total = true <->
  (if (total =? 0)%Z then threshold <= 0 else threshold * total <= 100 * successes)%Z.
Proof.
  intros Hs Ht. unfold _compare_threshold, percentage.
  destruct (Z.eqb_spec total 0) as [->|Hn]; [rewrite Z.leb_le; lia|].
  pose proof (float_quotient_ge 100 successes total 7 threshold ltac:(lia) ltac:(lia) ltac:(lia)
    ltac:(lia) ltac:(lia)) as H.
  destruct (float_div _ _) as [m e]. by rewrite Z.leb_le.
Qed.
Lemma compare_threshold_exact_witness :
  (0 <= 2 <= 3)%Z /\ _compare_threshold 66 2 3 = true /\ _compare_threshold 67 2 3 = false.
Proof.
  split; [lia|]. pose proof (compare_threshold_exact 66 2 3 ltac:(lia) ltac:(lia)) as H1.
  pose proof (compare_threshold_exact 67 2 3 ltac:(lia) ltac:(lia)) as H2.
  cbn [Z.eqb Pos.eqb] in H1, H2. split; [apply H1; lia|].
  destruct (_compare_threshold 67 2 3); [|done]. exfalso. pose proof (proj1 H2 eq_refl). lia.
Defined.

(** ** What the answers of a round say *)

(** How many of the name servers answered with a serial that satisfies [p]. *)
Fixpoint answering (p : Z -> bool) (l : list (option Z)) : Z :=
  match l with
  | [] => 0
  | Some z :: l' => (if p z then 1 else 0) + answering p l'
  | None :: l' => answering p l'
  end%Z.
(** The serials that satisfy [p]. *)
Definition answers (p : Z -> bool) (l : list (option Z)) : list Z :=
  filter (fun z => p z = true) (omap id l).

Lemma answering_bounds p l : (0 <= answering p l <= Z.of_nat (length l))%Z.
Proof.
  induction l as [|[z|] l IH]; cbn [answering length]; [lia| |lia].
  destruct (p z); lia.
Qed.
Lemma answering_app p l1 l2 : answering p (app l1 l2) = (answering p l1 + answering p l2)%Z.
Proof. induction l1 as [|[z|] l1 IH]; cbn; lia. Qed.

Definition is_zero (z : Z) : bool := (z =? 0)%Z.
Definition reaches (serial z : Z) : bool := (serial <=? z)%Z.

(** [low] is the least of the answers in [l] that reach [serial], 0 without one. *)
Definition consensus (serial : Z) (l : list (option Z)) (low : Z) : Prop :=
  (answering (reaches serial) l = 0%Z /\ low = 0%Z) \/
  (Some low ∈ l /\ (serial <= low)%Z /\ forall z, Some z ∈ l -> (serial <= z)%Z -> (low <= z)%Z).

Lemma parse_update serial l p n low :
  (0 < serial)%Z -> foldl (parse_step false serial) (0, 0, 0)%Z l = (p, n, low) ->
  p = answering (reaches serial) l /\ n = answering is_zero l /\ consensus serial l low.
Proof.
  intros Hs. revert p n low. induction l as [|r l IH] using rev_ind; intros p n low.
  - cbn. intros [= <- <- <-]. split_and!; [done..|by left].
  - rewrite foldl_app, !answering_app. cbn [foldl].
    destruct (foldl _ _ l) as [[p0 n0] low0].
    destruct (IH _ _ _ eq_refl) as (-> & -> & Hc). cbn. unfold consensus, reaches, is_zero in *.
    setoid_rewrite answering_app.
    destruct r as [z|]; cbn.
    2:{ intros [= <- <- <-]. rewrite !Z.add_0_r. split_and!; try done.
        destruct Hc as [?|(? & ? & Hmin)]; [by left|right]. split_and!; [set_solver|done|].
        intros z [?|[=]%list_elem_of_singleton]%elem_of_app. by apply Hmin. }
    destruct (Z.leb_spec serial z) as [Hle|Hlt].
    + intros [= <- <- <-]. destruct (Z.eqb_spec z 0); [lia|]. split_and!; [lia..|right].
      destruct Hc as [[Hno ->]|(Hin & Hle0 & Hmin)].
      * cbn. split_and!; [set_solver|done|].
        intros y [Hy|[= ->]%list_elem_of_singleton]%elem_of_app Hley; [exfalso|lia].
        revert Hno Hy Hley. clear. induction l as [|[x|] l IH]; cbn; [set_solver| |set_solver].
        pose proof (answering_bounds (fun z => (serial <=? z)%Z) l).
        destruct (Z.leb_spec serial x); intros; [lia|].
        apply elem_of_cons in Hy as [[= ->]|Hy]; [lia|]. by apply IH.
      * destruct (Z.eqb_spec low0 0); [lia|]. cbn.
        destruct (Z.ltb_spec z low0).
        -- split_and!; [apply elem_of_app; right; by apply list_elem_of_singleton|lia|].
           intros y [Hy|[= ->]%list_elem_of_singleton]%elem_of_app Hley; [|lia].
           specialize (Hmin y Hy Hley). lia.
        -- split_and!; [apply elem_of_app; by left|lia|].
           intros y [Hy|[= ->]%list_elem_of_singleton]%elem_of_app Hley; [by apply Hmin|lia].
    + intros Heq. assert (p = answering (fun z => (serial <=? z)%Z) l /\
                          n = (answering (fun z => (z =? 0)%Z) l + (if (z =? 0)%Z then 1 else 0))%Z /\
                          low = low0) as (-> & -> & ->).
      { destruct (z =? 0)%Z; injection Heq as <- <- <-; split_and!; lia. }
      split_and!; [lia|lia|]. destruct Hc as [[Hno ->]|(Hin & Hle0 & Hmin)].
      * left. split; [lia|done].
      * right. split_and!; [set_solver|done|].
        intros y [Hy|[= ->]%list_elem_of_singleton]%elem_of_app Hley; [by apply Hmin|lia].
Qed.

Lemma parse_delete serial l p n low :
  foldl (parse_step true serial) (0, 0, 0)%Z l = (p, n, low) ->
  p = answering is_zero l /\ n = answering is_zero l /\ low = 0%Z.
Proof.
  revert p n low. induction l as [|r l IH] using rev_ind; intros p n low.
  - cbn. by intros [= <- <- <-].
  - rewrite foldl_app, !answering_app. cbn [foldl].
    destruct (foldl _ _ l) as [[p0 n0] low0].
    destruct (IH _ _ _ eq_refl) as (-> & -> & ->). unfold is_zero. cbn.
    destruct r as [z|]; cbn; [destruct (z =? 0)%Z|]; intros [= <- <- <-]; split_and!; lia.
Qed.

(** ** Talking to others *)

(** A run of the pool in which no task fails runs every task. *)
Class LivePool `{ThreadPool} := {
  schedule_all : forall h n, schedule h n ≡ₚ seq 0 n;
}.

(** The state with more messages in the log. *)
Definition with_log (s : tstate) (l : list message) : tstate :=
  {| t_world := set_sent (app (w_sent (t_world s)) l) (t_world s); t_zone := t_zone s |}.
Lemma with_log_app s l1 l2 : with_log (with_log s l1) l2 = with_log s (app l1 l2).
Proof. unfold with_log. cbn. by rewrite <- app_assoc. Qed.
Lemma with_log_nil s : with_log s [] = s.
Proof. destruct s as [[] ?]. unfold with_log, set_sent. cbn. by rewrite app_nil_r. Qed.

Section Polling.
Context `{Env} `{SqlEngine} `{LiveServices} `{LivePool}.

Lemma on_world_call s target method args :
  on_world (call target method args) s =
  (reply (app (w_sent (t_world s)) [Cast target method args]), with_log s [Cast target method args]).
Proof. done. Qed.

Lemma except_exception_comes {A} (k : exc -> A) e h :
  reply h = Raise e -> except_exception k e = Some (k e).
Proof.
  intros Hr. destruct (reply_comes h e Hr) as [Hb Ht].
  destruct e as [| | | | | |?| | | | | | |?| | | | | | | | | |?|?| |?|?| | |[]]; try done.
  by destruct (Ht own).
Qed.

Definition query_for (z ns : pyval) : message :=
  Cast "dns" "SOA" [cell (fields_of_obj z) "name"; cell (fields_of_obj ns) "host";
                    cell (fields_of_obj ns) "port"].
(** What the worker makes of the response to a query; [None] is no usable
    answer. *)
Definition serial_of (r : R pyval) : option Z :=
  match r with
  | Ok (PList []) => Some 0%Z
  | Ok (PList (PList [] :: _)) => Some 0%Z
  | Ok (PList (PList (PInt serial :: _) :: _)) => Some serial
  | _ => None
  end.
(** [r] is what a query of [ns] gave. *)
Definition answer_of (z ns : pyval) (r : option Z) : Prop :=
  exists h, r = serial_of (reply (app h [query_for z ns])).

Lemma PollForZone_run ns s :
  is_obj "Zone" (t_zone s) -> is_obj "PoolNameserver" ns ->
  PollForZone ns s =
  (Ok (serial_of (reply (app (w_sent (t_world s)) [query_for (t_zone s) ns]))),
   with_log s [query_for (t_zone s) ns]).
Proof.
  intros Hz Hns. unfold PollForZone, zone, gets, bind at 1, try_except.
  rewrite (getattr_plain "Zone" _ "name" Hz) by reflexivity.
  rewrite (getattr_plain _ _ "host" Hns) by reflexivity.
  rewrite (getattr_plain _ _ "port" Hns) by reflexivity.
  unfold lift, bind at 1 2 3. unfold bind at 1, on_world at 1, get_serial. unfold bind at 1.
  change (call "dns" "SOA" _ (t_world s)) with
    (reply (app (w_sent (t_world s)) [query_for (t_zone s) ns]),
     t_world (with_log s [query_for (t_zone s) ns])).
  destruct (reply _) as [v|e] eqn:Hr.
  - destruct v as [| | | |[|[| | | |[|[| |z| | | |] ?]| |] ?]| |]; reflexivity.
  - cbn. rewrite (except_exception_comes _ e _ Hr). reflexivity.
Qed.

(** ** One round *)
#[local] Arguments PollForZone : simpl never.
Section Round.
Variables (z : pyval) (nss : list pyval).
Hypothesis z_zone : is_obj "Zone" z.
Hypothesis nss_ok : Forall (is_obj "PoolNameserver") nss.

Definition messages_of (order : list nat) : list message :=
  omap (fun i => query_for z <$> nss !! i) order.
Definition entry_ok (e : nat * res exc (option Z)) : Prop :=
  exists ns r, nss !! e.1 = Some ns /\ e.2 = Ok r /\ answer_of z ns r.

Lemma run_scheduled_polls order done s :
  t_zone s = z -> Forall entry_ok done ->
  exists done', run_scheduled (map PollForZone nss) order done s = (done', with_log s (messages_of order)) /\
    Forall entry_ok done' /\
    forall i, (i ∈ order /\ (i < length nss)%nat) \/ i ∈ done.*1 -> i ∈ done'.*1.
Proof.
  revert done s. induction order as [|i order IH]; intros done s Hs Hd; cbn.
  - exists done. rewrite with_log_nil. split_and!; [done..|]. intros i [[Hi _]|Hi]; [|done].
    by apply not_elem_of_nil in Hi.
  - rewrite list_lookup_fmap. destruct (nss !! i) as [ns|] eqn:Hi; cbn.
    + rewrite PollForZone_run; [|by rewrite Hs|].
      2:{ eapply Forall_lookup_1 in nss_ok; eauto. }
      rewrite Hs. destruct (IH ((i, Ok (serial_of (reply (app (w_sent (t_world s)) [query_for z ns])))) :: done)
        (with_log s [query_for z ns])) as (done' & Hrun & Hok & Hcov); [done| |].
      { constructor; [|done]. exists ns. eexists. split_and!; [done..|]. by eexists. }
      exists done'. rewrite Hrun, with_log_app. split_and!; [done..|].
      intros j [[[->|Hj]%elem_of_cons Hlt]|Hj]; apply Hcov; [right; left|by left|right; by right].
    + destruct (IH done s Hs Hd) as (done' & Hrun & Hok & Hcov). exists done'. split_and!; [done..|].
      intros j [[[->|Hj]%elem_of_cons Hlt]|Hj]; apply Hcov; [|by left|by right].
      apply lookup_ge_None in Hi. lia.
Qed.

Lemma result_of_covered done i :
  Forall entry_ok done -> i ∈ done.*1 -> exists ns r, nss !! i = Some ns /\
    result_of done i = Ok r /\ answer_of z ns r.
Proof.
  unfold result_of. induction 1 as [|[j r] done (ns & v & Hj & Hr & Ha) _ IH]; cbn.
  - intros Hi. by apply not_elem_of_nil in Hi.
  - destruct (Nat.eqb_spec j i) as [->|Hne].
    + intros _. exists ns, v. cbn in *. by rewrite Hr.
    + intros [->|Hi]%elem_of_cons; [done|]. by apply IH.
Qed.

Lemma rmap_answers {A} (f : nat -> R A) (Q : pyval -> A -> Prop) (l : list pyval) k :
  (forall i ns, l !! i = Some ns -> exists r, f (k + i)%nat = Ok r /\ Q ns r) ->
  exists rs, rmap f (seq k (length l)) = Ok rs /\ Forall2 Q l rs.
Proof.
  revert k. induction l as [|ns l IH]; intros k Hf; cbn.
  - exists []. by split.
  - destruct (Hf 0%nat ns eq_refl) as (r & Hr & HQ). rewrite Nat.add_0_r in Hr. rewrite Hr. cbn.
    destruct (IH (S k)) as (rs & Hrs & HQs).
    { intros i ns' Hi. destruct (Hf (S i) ns' Hi) as (r' & Hr' & HQ').
      exists r'. by rewrite Nat.add_succ_r in Hr'. }
    rewrite Hrs. cbn. exists (r :: rs). split; [done|]. by constructor.
Qed.

Lemma omap_permutation {A B} (f : A -> option B) (l l' : list A) : l ≡ₚ l' -> omap f l ≡ₚ omap f l'.
Proof.
  induction 1 as [|x l l' _ IH|x y l|l1 l2 l3 _ IH1 _ IH2]; cbn; [done| | |by etransitivity].
  - destruct (f x); [by f_equiv|done].
  - destruct (f x), (f y); try done. apply Permutation_swap.
Qed.

Lemma messages_of_seq l k :
  omap (fun i => query_for z <$> l !! (i - k)%nat) (seq k (length l)) = map (query_for z) l.
Proof.
  revert k. induction l as [|ns l IH]; intros k; [done|]. cbn. rewrite Nat.sub_diag. cbn.
  f_equal. rewrite <- (IH (S k)). apply list_omap_ext, Forall2_same_length_lookup_2; [done|].
  intros i x y Hx Hy. rewrite Hx in Hy. injection Hy as <-.
  apply lookup_seq in Hx as [-> Hlt]. by replace (S k + i - k)%nat with (S (S k + i - S k))%nat by lia.
Qed.

(** A round asks every name server once, in some order, and puts the answers
    together in the order of the servers. *)
Lemma poll_round s :
  t_zone s = z ->
  exists l ms, executor_run (map PollForZone nss) s = (Ok l, with_log s ms) /\
    ms ≡ₚ map (query_for z) nss /\ Forall2 (answer_of z) nss l.
Proof.
  intros Hs. unfold executor_run. rewrite length_map.
  set (order := schedule _ _).
  assert (Ho : order ≡ₚ seq 0 (length nss)) by apply schedule_all.
  destruct (run_scheduled_polls order [] s Hs (Forall_nil_2 _)) as (done' & Hrun & Hok & Hcov).
  rewrite Hrun. destruct (rmap_answers (result_of done') (answer_of z) nss 0) as (rs & Hrs & HQ).
  { intros i ns Hi. destruct (result_of_covered done' i Hok) as (ns' & r & Hi' & Hr & Ha).
    - apply Hcov. left. apply lookup_lt_Some in Hi. split; [|done].
      rewrite Ho. apply elem_of_seq. lia.
    - rewrite Hi in Hi'. injection Hi' as <-. by exists r. }
  exists rs, (messages_of order). rewrite Hrs. split_and!; [done| |done].
  unfold messages_of. rewrite (omap_permutation _ _ _ Ho), <- (messages_of_seq nss 0).
  erewrite list_omap_ext; [reflexivity|].
  apply Forall2_same_length_lookup_2; [done|]. intros i x y Hx Hy. rewrite Hx in Hy.
  injection Hy as <-. by rewrite Nat.sub_0_r.
Qed.
End Round.

(** ** The rounds *)

(** Enough of [total], computed with integers. *)
Definition enough (n total : Z) : bool :=
  if (total =? 0)%Z then (threshold_percentage <=? 0)%Z
  else (threshold_percentage * total <=? 100 * n)%Z.
Lemma compare_enough n total :
  (0 <= n <= total)%Z -> (total < 2 ^ 46)%Z ->
  _compare_threshold threshold_percentage n total = enough n total.
Proof.
  intros Hn Ht. apply eq_true_iff_eq. rewrite compare_threshold_exact by done.
  unfold enough. destruct (total =? 0)%Z; by rewrite Z.leb_le.
Qed.

(** The name servers where the change has arrived. *)
Definition deleting (z : pyval) : bool := String.eqb (str_attr z "action") "DELETE".
Definition arrived (z : pyval) (l : list (option Z)) : Z :=
  answering (if deleting z then is_zero else reaches (int_attr z "serial")) l.

Lemma parse_counts z l :
  (0 < int_attr z "serial")%Z ->
  positives (parse_query_results l z) = arrived z l /\
  no_zones (parse_query_results l z) = answering is_zero l /\
  results (parse_query_results l z) = Some l /\
  if deleting z then consensus_serial (parse_query_results l z) = 0%Z
  else consensus (int_attr z "serial") l (consensus_serial (parse_query_results l z)).
Proof.
  intros Hs. unfold parse_query_results, arrived. fold (deleting z).
  destruct (foldl _ _ l) as [[p n] low] eqn:Hf. cbn. destruct (deleting z).
  - apply parse_delete in Hf as (-> & -> & ->). by split_and!.
  - apply parse_update in Hf as (-> & -> & ?); [|done]. by split_and!.
Qed.

Lemma poll_rounds_spec z nss rounds q s :
  is_obj "Zone" z -> Forall (is_obj "PoolNameserver") nss -> (0 < int_attr z "serial")%Z ->
  (Z.of_nat (length nss) < 2 ^ 46)%Z -> t_zone s = z -> (0 < rounds)%nat ->
  exists k l ms, (0 < k <= rounds)%nat /\
    poll_rounds nss rounds q s = (Ok (parse_query_results l z), with_log s ms) /\
    length ms = (k * length nss)%nat /\ Forall2 (answer_of z) nss l /\
    (k = rounds \/ enough (arrived z l) (Z.of_nat (length nss)) = true).
Proof.
  intros Hz Hns Hser Hlen. revert q s. induction rounds as [|rounds IH]; intros q s Hs Hr; [lia|].
  cbn [poll_rounds]. unfold bind at 1.
  destruct (poll_round z nss Hz Hns s Hs) as (l & ms & Hrun & Hms & Hl). rewrite Hrun.
  assert (Hlm : length ms = length nss) by (rewrite Hms; apply length_map).
  assert (Hll : length l = length nss) by (symmetry; by eapply Forall2_length).
  unfold zone, gets, bind at 1. cbn [t_zone with_log]. rewrite Hs.
  destruct (parse_counts z l Hser) as (Hp & _).
  rewrite Hp, Hll, compare_enough; [|unfold arrived; rewrite <- Hll; apply answering_bounds|done].
  destruct (enough _ _) eqn:He.
  - exists 1%nat, l, ms. split_and!; [lia..|done|lia|done|by right].
  - destruct rounds as [|rounds].
    + exists 1%nat, l, ms. split_and!; [lia..|done|lia|done|by left].
    + destruct (IH (parse_query_results l z) (with_log s ms)) as (k & l' & ms' & Hk & Hrun' & Hlen' & Hl' & Hend);
        [done|lia|].
      exists (S k), l', (app ms ms'). rewrite Hrun', with_log_app, length_app.
      split_and!; [lia..|done|lia|done|]. destruct Hend as [->|?]; [by left|by right].
Qed.

(** The verdict of a round. *)
Definition verdict (z : pyval) (l : list (option Z)) : string :=
  let total := Z.of_nat (length l) in
  if negb (deleting z) && negb (enough (total - answering is_zero l) total) then "NO_ZONE"
  else if enough (arrived z l) total then "SUCCESS" else "ERROR".

Lemma threshold_met_verdict z l :
  (0 < int_attr z "serial")%Z -> (Z.of_nat (length l) < 2 ^ 46)%Z ->
  _threshold_met (str_attr z "action") (parse_query_results l z) =
  Ok (String.eqb (verdict z l) "SUCCESS", verdict z l).
Proof.
  intros Hs Hlen. destruct (parse_counts z l Hs) as (Hp & Hn & Hr & _).
  unfold _threshold_met. rewrite Hr, Hp, Hn. fold (deleting z).
  pose proof (answering_bounds is_zero l). rewrite !compare_enough by (done || lia || apply answering_bounds).
  unfold verdict. rewrite andb_comm.
  destruct (negb (deleting z) && _); [done|]. by destruct (enough (arrived z l) _).
Qed.

(** What becomes of the zone. *)
Definition concluded (z z' : pyval) (l : list (option Z)) : Prop :=
  let status := verdict z l in
  let field := cell (fields_of_obj z') in
  field "status" = PStr status /\
  field "action" = (if String.eqb status "NO_ZONE" then PStr "CREATE" else cell (fields_of_obj z) "action") /\
  if String.eqb status "SUCCESS"
  then exists low, field "serial" = PInt low /\
       if deleting z then low = 0%Z else consensus (int_attr z "serial") l low
  else field "serial" = cell (fields_of_obj z) "serial".

Lemma conclude z l s :
  is_obj "Zone" z -> t_zone s = z -> (0 < int_attr z "serial")%Z ->
  let ok := String.eqb (verdict z l) "SUCCESS" in
  exists z', (if ok then _on_success (parse_query_results l z) (verdict z l)
              else _on_failure (verdict z l)) s = (Ok ok, with_zone z' s) /\ concluded z z' l.
Proof.
  intros Hz Hs Hser ok. destruct (parse_counts z l Hser) as (_ & _ & _ & Hc).
  destruct (setattr_field "Zone" z "status" (PStr (verdict z l)) Hz eq_refl) as (z1 & Hs1 & Hz1 & Hf1).
  unfold concluded, cell. subst ok. destruct (String.eqb_spec (verdict z l) "SUCCESS") as [Hv|Hv].
  - destruct (setattr_field "Zone" z1 "serial" (PInt (consensus_serial (parse_query_results l z))) Hz1 eq_refl)
      as (z2 & Hs2 & Hz2 & Hf2).
    exists z2. unfold _on_success, zone_setattr, bind at 1. rewrite Hs, Hs1. unfold bind. cbn [t_zone with_zone].
    rewrite Hs2, Hf2, Hf1, Hv. cbn. rewrite !aget_aset. cbn. split_and!; [done..|].
    eexists. split; [done|]. exact Hc.
  - unfold _on_failure, zone_setattr, bind at 1. rewrite Hs, Hs1. unfold bind, when.
    destruct (String.eqb_spec (verdict z l) "NO_ZONE") as [Hn|Hn].
    + destruct (setattr_field "Zone" z1 "action" (PStr "CREATE") Hz1 eq_refl) as (z2 & Hs2 & Hz2 & Hf2).
      exists z2. cbn [t_zone with_zone]. rewrite Hs2, Hf2, Hf1. rewrite !aget_aset. cbn. by split_and!.
    + exists z1. rewrite Hf1, !aget_aset. cbn. by split_and!.
Qed.

(** C5: what polling concludes and reports. The poller asks every name server of
    the pool at most [max_retries] times, and stops after the first round in
    which enough of them (the threshold percentage, exactly) show the change: a
    serial that is the zone's or newer, or, for a deletion, no zone. The last
    round decides: NO_ZONE, which asks for the zone to be created again, when too
    few servers have the zone; else SUCCESS when enough of them show the change,
    and the zone's serial becomes the lowest of the serials that reach it; else
    ERROR. Whatever the servers answer, or fail to answer, exactly one status
    report goes to central, last, and the poll changes nothing else. *)
Theorem zone_poller_spec pool z nss nl s :
  t_zone s = z -> is_obj "Zone" z -> (0 < int_attr z "serial")%Z ->
  getattr registry pool "nameservers" = Ok nl -> list_objects nl = nss ->
  Forall (is_obj "PoolNameserver") nss -> (Z.of_nat (length nss) < 2 ^ 46)%Z ->
  (0 < max_retries)%Z ->
  exists k l ms z', let log := app (app (w_sent (t_world s)) ms) [Cast "central" "update_zone_status" [z']] in
    (0 < k <= Z.to_nat max_retries)%nat /\ length ms = (k * length nss)%nat /\
    Forall2 (answer_of z) nss l /\
    (k = Z.to_nat max_retries \/ enough (arrived z l) (Z.of_nat (length nss)) = true) /\
    concluded z z' l /\
    ZonePoller pool s =
      (match reply log with Ok _ => Ok (String.eqb (verdict z l) "SUCCESS") | Raise e => Raise e end,
       {| t_world := set_sent log (t_world s); t_zone := z' |}).
Proof.
  intros Hs Hz Hser Hnl Hnss Hns Hlen Hret.
  destruct (poll_rounds_spec z nss (Z.to_nat max_retries)
    {| positives := 0; no_zones := 0; consensus_serial := 0; results := None |} s
    Hz Hns Hser Hlen Hs ltac:(lia)) as (k & l & ms & Hk & Hrun & Hms & Hl & Hend).
  assert (Hll : length l = length nss) by (symmetry; by eapply Forall2_length).
  destruct (conclude z l (with_log s ms) Hz Hs Hser) as (z' & Hc & Hconc).
  exists k, l, ms, z'. split_and!; [lia|lia|done..|].
  unfold ZonePoller, _do_poll. unfold bind at 1 2, lift at 1. rewrite Hnl, Hnss, Hrun.
  unfold zone, gets, bind at 1. cbn [t_zone with_log]. rewrite Hs.
  rewrite threshold_met_verdict by (done || lia).
  unfold lift at 1, bind at 1. unfold bind at 1. rewrite Hc.
  unfold UpdateStatus, central, zone, gets, bind at 1 2 3. rewrite on_world_call. cbn [t_zone t_world with_zone with_log w_sent].
  destruct (reply _); reflexivity.
Qed.

(** ** Changes of a zone *)

(** The requests a successful change makes. *)
Definition carried (target : pyval) (action : string) (z view response : pyval) : list message :=
  let b := str_attr target "id" in
  if String.eqb action "CREATE" then
    [Cast b "create_zone" [z; view]; Cast "central" "create_zdns_zone" [z; response]]
  else if String.eqb action "UPDATE" then
    [Cast b "update_zone" [z; view]; Cast "central" "update_zdns_zone" [z; response]]
  else if String.eqb action "DELETE" then
    [Cast b "delete_zone" [z; view]; Cast "central" "delete_zdns_zone" [z]]
  else [].
Definition report (z : pyval) : message := Cast "central" "update_zone_status" [z].

(** What is left of the state after a step that talks to others. *)
Definition only_log (s s' : tstate) : Prop := exists l, s' = with_log s l.

(** By cases on the next answer. *)
Ltac case_reply v e Hr :=
  lazymatch goal with |- context [reply ?h] => destruct (reply h) as [v|e] eqn:Hr end.

Lemma report_run s :
  exists r, UpdateStatus s = (r, with_log s [report (t_zone s)]) /\
    match r with Ok _ => True | Raise e => exists h, reply h = Raise e end.
Proof.
  unfold UpdateStatus, central, zone, gets, bind at 1 2. rewrite on_world_call.
  destruct (reply _) as [v|e] eqn:Hr; [by exists (Ok tt)|]. exists (Raise e). split; [done|by eexists].
Qed.

Lemma requests_run target action view s :
  exists l r,
    (if String.eqb action "CREATE" then
       let! z := zone in
       let! response := backend target "create_zone" [z; view] in
       let! z := zone in central "create_zdns_zone" [z; response] ;;; ret tt
     else if String.eqb action "UPDATE" then
       let! z := zone in
       let! response := backend target "update_zone" [z; view] in
       let! z := zone in central "update_zdns_zone" [z; response] ;;; ret tt
     else if String.eqb action "DELETE" then
       let! z := zone in
       backend target "delete_zone" [z; view] ;;;
       let! z := zone in central "delete_zdns_zone" [z] ;;; ret tt
     else ret tt) s = (r, with_log s l) /\
    match r with
    | Ok _ => exists response, l = carried target action (t_zone s) view response
    | Raise e => exists h, reply h = Raise e
    end.
Proof.
  unfold carried, backend, central, zone, gets, bind.
  destruct (String.eqb action "CREATE"); [|destruct (String.eqb action "UPDATE"); [|destruct (String.eqb action "DELETE")]].
  4: by exists [], (Ok tt); rewrite with_log_nil; split; [|by exists PNone].
  all: rewrite on_world_call; case_reply v e Hr;
    [|by eexists; exists (Raise e); split; [reflexivity|eexists; exact Hr]].
  all: rewrite on_world_call; case_reply v' e Hr'; rewrite with_log_app;
    [by eexists; exists (Ok tt); split; [reflexivity|exists v]
    |by eexists; exists (Raise e); split; [reflexivity|by eexists]].
Qed.

Lemma zone_action_body_run target action view s :
  is_obj "Zone" (t_zone s) ->
  exists r s', zone_action_body target action view s = (r, s') /\ is_obj "Zone" (t_zone s') /\
    match r with
    | Ok _ => exists response, cell (fields_of_obj (t_zone s')) "status" = PStr "SUCCESS" /\
        t_world s' = t_world (with_log s (app (carried target action (t_zone s) view response)
                                            [report (t_zone s')]))
    | Raise e => (exists h, reply h = Raise e) /\ w_db (t_world s') = w_db (t_world s)
    end.
Proof.
  intros Hz. unfold zone_action_body.
  destruct (requests_run target action view s) as (l & r & Hrun & Hr).
  unfold bind at 1. rewrite Hrun. destruct r as [u|e]; [|by do 2 eexists; split_and!].
  destruct Hr as [response ->].
  destruct (setattr_field "Zone" _ "status" (PStr "SUCCESS") Hz eq_refl) as (z' & Hset & Hz' & Hf).
  unfold zone_setattr, bind. cbn [t_zone with_log]. rewrite Hset.
  set (s1 := with_zone z' _). destruct (report_run s1) as (r & Hrep & Hr).
  rewrite Hrep. do 2 eexists. split; [reflexivity|]. split; [exact Hz'|].
  destruct r as [[]|e]; [|by split]. exists response. cbn [t_zone with_log s1 with_zone]. split.
  - unfold cell. by rewrite Hf, aget_aset_eq.
  - cbn. unfold set_sent. cbn. by rewrite app_assoc.
Qed.

Lemma zone_view_run s :
  is_obj "Zone" (t_zone s) ->
  exists r s1, zone_view_name s = (r, s1) /\ only_log s s1 /\
    match r with Ok _ => True | Raise e =>
      exists view_id, s1 = with_log s [Cast "central" "get_view" [view_id]] end.
Proof.
  intros (f & ch & og & Hz). unfold zone_view_name, zone, gets, bind at 1. unfold bind at 1, lift at 1.
  assert (Hid : exists id, obj_get registry (t_zone s) "view_id" None = Ok id).
  { rewrite Hz. cbn. by destruct (aget "view_id" f); eexists. }
  destruct Hid as [id ->]. destruct (truthy id).
  2:{ exists (Ok (PStr "default")), s. split_and!; [done|exists []; by rewrite with_log_nil|done]. }
  unfold bind, central. rewrite on_world_call. case_reply v e Hr.
  - unfold lift. do 2 eexists. split_and!; [reflexivity|by eexists|].
    destruct (getattr registry v "name"); [done|by eexists].
  - do 2 eexists. split_and!; [reflexivity|by eexists|by eexists].
Qed.

(** C4: no change of a zone goes unreported, once it is tried. When the pool has
    a target and the zone's view can be looked up, the last thing a zone action
    does is to report a status to central: SUCCESS when it returns, after the
    requests to the backend and to central that the action calls for, and ERROR
    when it raises, whichever request failed, the report of success included.
    But the look-up of the view comes before all that: when it fails, the action
    raises and central hears nothing. *)
Theorem zone_action_reports pool target action s :
  is_obj "Zone" (t_zone s) -> first_target pool = Ok target ->
  let '(r, s') := ZoneAction pool action s in
  w_db (t_world s') = w_db (t_world s) /\
  match zone_view_name s with
  | (Raise e, s1) => r = Raise e /\ s' = s1 /\ t_zone s' = t_zone s /\
      exists view_id, w_sent (t_world s') = app (w_sent (t_world s)) [Cast "central" "get_view" [view_id]]
  | (Ok view, s1) => exists before,
      w_sent (t_world s') = app before [report (t_zone s')] /\
      match r with
      | Ok b => b = true /\ cell (fields_of_obj (t_zone s')) "status" = PStr "SUCCESS" /\
          exists response, before = app (w_sent (t_world s1)) (carried target action (t_zone s) view response)
      | Raise _ => cell (fields_of_obj (t_zone s')) "status" = PStr "ERROR"
      end
  end.
Proof.
  intros Hz Ht. unfold ZoneAction. unfold bind at 1, lift at 1. rewrite Ht. unfold bind at 1.
  destruct (zone_view_run s Hz) as (r & s1 & Hrun & [l Hs1] & Hr). rewrite Hrun. destruct r as [view|e]; [clear Hr|].
  2:{ destruct Hr as [id Hr]. clear Hs1. subst s1. split_and!; [done..|by exists id]. }
  unfold try_except. unfold bind at 1.
  assert (Hz1 : is_obj "Zone" (t_zone s1)) by by subst s1.
  destruct (zone_action_body_run target action view s1 Hz1) as (r & s2 & Hbody & Hz2 & Hr).
  rewrite Hbody. destruct r as [u|e].
  - destruct Hr as (response & Hst & Hw). cbn. rewrite Hw. subst s1. split; [done|].
    eexists. split; [cbn; by rewrite app_assoc|]. split_and!; [done..|]. exists response. done.
  - destruct Hr as [[h Hr] Hdb]. rewrite (except_exception_comes _ e h Hr).
    destruct (setattr_field "Zone" _ "status" (PStr "ERROR") Hz2 eq_refl) as (z' & Hset & Hz' & Hf).
    unfold zone_setattr, bind. rewrite Hset. destruct (report_run (with_zone z' s2)) as (r & Hrep & _).
    rewrite Hrep. subst s1.
    destruct r; cbn; (split; [exact Hdb|]); eexists; (split; [reflexivity|]);
      unfold cell; by rewrite Hf, aget_aset_eq.
Qed.

(** ** Records *)

#[local] Instance answered_catchable response m : Catchable m -> Catchable (answered response m).
Proof.
  intros Hm w e w'. unfold answered. destruct (m w) as [[u|f] w1] eqn:Hr; [done|].
  by rewrite (except_exception_caught _ f (Hm _ _ _ Hr)).
Qed.
#[local] Instance response_id_catchable response : Catchable (response_id response).
Proof. intros w e w'. destruct response; cbn; intros [=]; by subst. Qed.
#[local] Typeclasses Transparent on_backend on_central zone_view stored_zdns_record.

Definition record_report (record : pyval) (action status : string) : message :=
  Cast "central" "update_record_status" [record; PStr action; PStr status].
Lemma record_report_run record action status w :
  UpdateRecordStatus record action status w =
  (match reply (app (w_sent w) [record_report record action status]) with
   | Ok _ => Ok tt | Raise e => Raise e end,
   set_sent (app (w_sent w) [record_report record action status]) w).
Proof.
  unfold UpdateRecordStatus, on_central, bind at 1. unfold call at 1, send, modify, gets, bind, lift. cbn.
  fold (record_report record action status). by destruct (reply _).
Qed.

(** A record action never fails towards its caller. For a pool with a target
    and a proper action, the last thing it does is to report to central; it
    reports SUCCESS and returns what the backend answered, or it reports ERROR
    and returns all the same, with [None] when the backend never answered. It
    raises only if that last report is itself refused. *)
Theorem record_action_reports pool target zone record action recordset w :
  first_target pool = Ok target -> action ∈ ["CREATE"; "UPDATE"; "DELETE"] ->
  let '(r, w') := RecordAction pool zone record action recordset w in
  exists before status, w_sent w' = app before [record_report record action status] /\
    ((status = "SUCCESS" /\ exists response, r = Ok response) \/
     (status = "ERROR" /\
      match r with
      | Ok _ => True
      | Raise e => reply (w_sent w') = Raise e
      end)).
Proof.
  intros Ht Ha. unfold RecordAction. unfold bind at 1, lift. rewrite Ht.
  unfold validate_action. rewrite (proj2 (mem_str_elem _ _) Ha). cbn [negb raise_if]. unfold bind at 1, ret at 1.
  cbv zeta. set (run := if String.eqb action "CREATE" then _ else _).
  assert (Hrun : Catchable run).
  { subst run. destruct (String.eqb action "CREATE"); [|destruct (String.eqb action "UPDATE")];
      unfold record_create, record_update, record_delete, zone_view, stored_zdns_record, on_backend, on_central;
      apply _. }
  unfold bind at 1, try_except at 1.
  destruct (run w) as [[[response failure]|e] w1] eqn:Hr; cbv beta iota zeta.
  2:{ rewrite (except_exception_caught _ e (Hrun _ _ _ Hr)). cbv beta iota. unfold ret at 1, bind.
      rewrite record_report_run. destruct (reply _) eqn:Hrep; (eexists _, "ERROR"; split; [reflexivity|by right]). }
  destruct failure as [e|].
  { unfold bind. rewrite record_report_run.
    destruct (reply _) eqn:Hrep; (eexists _, "ERROR"; split; [reflexivity|by right]). }
  unfold try_except, bind. rewrite record_report_run. destruct (reply _) as [v|e] eqn:Hrep.
  { eexists _, "SUCCESS". split; [reflexivity|]. left. split; [done|by eexists]. }
  rewrite (except_exception_comes _ e _ Hrep). rewrite record_report_run.
  case_reply v e' Hrep'; (eexists _, "ERROR"; split; [reflexivity|by right]).
Qed.

(** ** Record sets *)

(** The worker refuses every change of a record set. The action it reads off
    a record set is always NONE, which is not one it accepts; so, whatever central
    asked for, the request raises before the backend is called, and no status is
    reported. *)
Theorem recordset_actions_refused fuel zone recordset pool target s s1 :
  bind (pool_id_of zone) (get_pool fuel) s = (Ok pool, s1) -> first_target pool = Ok target ->
  _do_recordset_action fuel zone recordset s = (Raise (Py PyException), s1).
Proof.
  intros Hp Ht. unfold _do_recordset_action. revert Hp. unfold bind at 1 2.
  destruct (pool_id_of zone s) as [[id|e] s0]; [|done]. intros Hp. unfold bind at 1. rewrite Hp.
  unfold on_service, bind at 1, RecordSetAction. unfold bind at 1, lift. rewrite Ht. by destruct s1.
Qed.

(** ** Loading a pool *)

(** [k] questions for the pool are answered with nothing to go on with. *)
Inductive waiting (pool_id : string) : nat -> world -> world -> Prop :=
| waiting_0 w : waiting pool_id 0 w w
| waiting_S k w r w1 w2 : ask_pool pool_id w = (r, w1) ->
    match r with Ok o => o = None | Raise e => retry_load e = true end ->
    waiting pool_id k w1 w2 -> waiting pool_id (S k) w w2.

Lemma ask_pool_Some pool_id w pool w1 :
  ask_pool pool_id w = (Ok (Some pool), w1) -> exists t l, pool_targets pool = Ok (t :: l).
Proof.
  unfold ask_pool, bind, lift. destruct (on_central _ _ w) as [[v|e] w0]; [|done].
  destruct (pool_targets v) as [[|t l]|e] eqn:Hl; intros [=]; subst. by exists t, l.
Qed.

(** Loading a pool waits for the pool and for nothing else. As long as central
    does not know the pool, knows no target of it or does not answer in time, the
    worker asks again; the first other answer ends the wait, after one question
    more than there were such answers: a pool with targets is the result, ready
    to be used, and any other error is raised. *)
Theorem load_pool_waits pool_id k w w0 r w1 fuel :
  waiting pool_id k w w0 -> ask_pool pool_id w0 = (r, w1) -> (k < fuel)%nat ->
  match r with Ok o => o <> None | Raise e => retry_load e = false end ->
  match r with
  | Ok (Some pool) => load_pool fuel pool_id w = (Ok pool, w1) /\ _setup_target_backends pool = Ok pool
  | Ok None => False
  | Raise e => load_pool fuel pool_id w = (Raise e, w1)
  end.
Proof.
  intros Hw. revert fuel. induction Hw as [w|k w r0 w2 w3 Hask Hr0 _ IH]; intros fuel Ha Hk Hr.
  - destruct fuel as [|fuel]; [lia|]. cbn [load_pool]. rewrite Ha.
    destruct r as [[pool|]|e]; [|done|by rewrite Hr]. split; [done|].
    destruct (ask_pool_Some _ _ _ _ Ha) as (t & l & Hl). unfold _setup_target_backends. by rewrite Hl.
  - destruct fuel as [|fuel]; [lia|]. cbn [load_pool]. rewrite Hask.
    destruct r0 as [o|e]; [subst o|rewrite Hr0]; apply IH; (done || lia).
Qed.
End Polling.

(** ** The theorems in a concrete environment *)

#[local] Instance demo_env : Env :=
  {| enforce := fun _ _ _ => true; uuid4 := fun n => str_of_Z (Z.of_nat n);
     conf_int := fun name =>
       if String.eqb name "service:worker.threshold_percentage" then 100%Z
       else if String.eqb name "service:worker.poll_max_retries" then 3%Z else 0%Z;
     conf_str := fun s => s; re_search := fun _ _ => Some false; min_ttl := None; md5_hex := fun s => s |}.
Definition list_of (cls : string) (items : list pyval) : pyval := PObj cls [("objects", PList items)] [] [].
Definition demo_target : pyval := PObj "PoolTarget" [("id", PStr "t1")] [] [].
Definition demo_server (host : string) : pyval :=
  PObj "PoolNameserver" [("host", PStr host); ("port", PInt 53)] [] [].
Definition demo_pool : pyval :=
  PObj "Pool" [("id", PStr "p1"); ("targets", list_of "PoolTargetList" [demo_target]);
               ("nameservers", list_of "PoolNameserverList" [demo_server "ns1"; demo_server "ns2"])] [] [].
Definition demo_zone : pyval :=
  PObj "Zone" [("name", PStr "example.org."); ("pool_id", PStr "p1"); ("serial", PInt 5);
               ("action", PStr "UPDATE"); ("status", PStr "PENDING")] [] [].
(** Central has the pool from the second question on; the name servers are at
    serial 7, and the first answer of [ns2] comes too late; the backend refuses. *)
Definition demo_reply (h : list message) : R pyval :=
  match last h with
  | Some (Cast "central" "get_pool" _) =>
      if (length h <=? 1)%nat then Raise (NotFound PoolNotFound) else Ok demo_pool
  | Some (Cast "dns" _ [_; PStr host; _]) =>
      if String.eqb host "ns2" && (length h <=? 2)%nat then Raise (Py DnsTimeout)
      else Ok (PList [PList [PInt 7]])
  | Some (Cast "t1" _ _) => Raise Backend
  | _ => Ok PNone
  end.
#[local] Instance demo_services : Services := {| reply := demo_reply |}.
#[local] Instance demo_threads : ThreadPool := {| schedule := fun _ n => seq 0 n |}.
Lemma demo_reply_caught h e : demo_reply h = Raise e -> caught e.
Proof.
  unfold demo_reply. intros H. repeat (case_match; simplify_eq); split; try done; by intros own.
Qed.
#[local] Instance demo_live : LiveServices := {| reply_comes := demo_reply_caught |}.
#[local] Instance demo_live_pool : LivePool := {| schedule_all := fun _ _ => reflexivity _ |}.
Definition demo_world : world := ref_world [].
Definition demo_tstate : tstate := {| t_world := demo_world; t_zone := demo_zone |}.

Lemma demo_zone_ok : is_obj "Zone" demo_zone.
Proof. do 3 eexists; reflexivity. Qed.

Lemma zone_poller_spec_witness :
  exists k l z', (0 < k <= 3)%nat /\ concluded demo_zone z' l /\
    (ZonePoller demo_pool demo_tstate).1 = Ok (String.eqb (verdict demo_zone l) "SUCCESS").
Proof.
  assert (Hns : Forall (is_obj "PoolNameserver") [demo_server "ns1"; demo_server "ns2"]).
  { repeat constructor; unfold is_obj; do 3 eexists; reflexivity. }
  destruct (zone_poller_spec demo_pool demo_zone
    [demo_server "ns1"; demo_server "ns2"] _ demo_tstate eq_refl demo_zone_ok ltac:(vm_compute; reflexivity)
    ltac:(vm_compute; reflexivity) eq_refl Hns ltac:(cbn; lia) ltac:(vm_compute; reflexivity))
    as (k & l & ms & z' & Hk & _ & _ & _ & Hc & Hrun).
  exists k, l, z'. split; [exact Hk|]. split; [exact Hc|]. rewrite Hrun. cbn [fst].
  unfold reply, demo_services, demo_reply. rewrite last_snoc. reflexivity.
Defined.

(** The run itself: two rounds, five messages, and the consensus is 7. *)
Example demo_poll :
  let '(r, s) := ZonePoller demo_pool demo_tstate in
  r = Ok true /\ length (w_sent (t_world s)) = 5%nat /\ int_attr (t_zone s) "serial" = 7%Z.
Proof. vm_compute. by split_and!. Qed.

Lemma zone_action_reports_witness :
  let '(r, s) := ZoneAction demo_pool "UPDATE" demo_tstate in
  r = Raise Backend /\ exists before, w_sent (t_world s) = app before [report (t_zone s)].
Proof.
  pose proof (zone_action_reports demo_pool demo_target "UPDATE" demo_tstate demo_zone_ok eq_refl) as H.
  destruct (ZoneAction demo_pool "UPDATE" demo_tstate) as [r s] eqn:Hr.
  assert (Hr' : r = Raise Backend) by (apply (f_equal fst) in Hr; vm_compute in Hr; by rewrite <- Hr).
  split; [exact Hr'|]. destruct H as [_ H]. vm_compute in H. destruct H as (before & H & _).
  exists before. exact H.
Defined.

Definition demo_recordset : pyval :=
  PObj "RecordSet" [("name", PStr "www.example.org."); ("type", PStr "A"); ("ttl", PNone)] [] [].
Definition demo_record : pyval := PObj "Record" [("id", PStr "r1"); ("data", PStr "192.0.2.1")] [] [].
Lemma record_action_reports_witness :
  let '(r, w) := RecordAction demo_pool demo_zone demo_record "DELETE" demo_recordset demo_world in
  r = Ok PNone /\ exists before status, w_sent w = app before [record_report demo_record "DELETE" status].
Proof.
  pose proof (record_action_reports demo_pool demo_target demo_zone demo_record "DELETE" demo_recordset
    demo_world eq_refl ltac:(set_solver)) as H.
  destruct (RecordAction demo_pool demo_zone demo_record "DELETE" demo_recordset demo_world) as [r w] eqn:Hr.
  assert (Hr' : r = Ok PNone) by (apply (f_equal fst) in Hr; vm_compute in Hr; by rewrite <- Hr).
  split; [exact Hr'|]. destruct H as (before & status & H & _). exists before, status. exact H.
Defined.

Definition demo_sstate : sstate := {| s_world := demo_world; s_pools := [("p1", demo_pool)] |}.
Lemma recordset_actions_refused_witness :
  _do_recordset_action 1 demo_zone demo_recordset demo_sstate = (Raise (Py PyException), demo_sstate).
Proof.
  apply (recordset_actions_refused 1 demo_zone demo_recordset demo_pool demo_target); vm_compute; reflexivity.
Defined.

Lemma load_pool_waits_witness :
  exists w1, load_pool 2 "p1" demo_world = (Ok demo_pool, w1).
Proof.
  pose (w0 := (ask_pool "p1" demo_world).2). pose (w1 := (ask_pool "p1" w0).2).
  exists w1.
  assert (Hw : waiting "p1" 1 demo_world w0).
  { apply (waiting_S "p1" 0 demo_world (Raise (NotFound PoolNotFound)) w0 w0); [reflexivity..|constructor]. }
  exact (proj1 (load_pool_waits "p1" 1 demo_world w0 (Ok (Some demo_pool)) w1 2 Hw eq_refl
    ltac:(lia) ltac:(discriminate))).
Defined.
