(* ===== verification/Central.v ===== *)
(** * Central: what may be stored, and what becomes of it
      (designate/central/service.py)

    The checks on names, places, limits and owners that come before a zone or a
    record set is stored; the life cycle of zones; the status reports of the
    workers; the transfer of zones between tenants. *)
From Stdlib Require Import ZArith Lia Ascii String.
From stdpp Require Import base option numbers strings sets list.
From S2P Require Import Prelude PyStr Exceptions Values Objects Utils Classes World Decorators Sql Storage Quota Scheduler.
Local Open Scope string_scope.

Definition dot : ascii := "."%char.
Definition strip_dots : string -> string := strip (Ascii.eqb dot).
Definition rstrip_dots : string -> string := rstrip (Ascii.eqb dot).

(** ** The status of a zone or a record *)

(** What a report changes: the action, the status, and whether the object is to be
    deleted. *)
Record life := { l_action : string; l_status : string }.
Definition _update_zone_or_record_status (o : life) (o_serial : Z) (status : string) (serial : Z) :
    life * bool :=
  if String.eqb status "SUCCESS" then
    if mem_str (l_action o) ["CREATE"; "UPDATE"] && mem_str (l_status o) ["PENDING"; "ERROR"]
       && (o_serial <=? serial)%Z
    then ({| l_action := "NONE"; l_status := "ACTIVE" |}, false)
    else if String.eqb (l_action o) "DELETE" && mem_str (l_status o) ["PENDING"; "ERROR"]
            && (o_serial <=? serial)%Z
    then ({| l_action := "NONE"; l_status := "DELETED" |}, true)
    else (o, false)
  else if String.eqb status "ERROR" then
    if String.eqb (l_status o) "PENDING" && ((o_serial <=? serial)%Z || (serial =? 0)%Z)
    then ({| l_action := l_action o; l_status := "ERROR" |}, false)
    else (o, false)
  else if String.eqb status "NO_ZONE" then ({| l_action := "NONE"; l_status := "DELETED" |}, true)
  else (o, false).

Section Central.
Context `{Env} `{SqlEngine} `{Services}.
(** What the scheduler's filters take from outside the source. *)
Variable bool_from_string : pyval -> option bool.
Variable random_choice : nat -> nat.
Variable scheduler_filters : list filter_kind.

Definition truthy_list (l : pyval) : bool := match list_objects l with [] => false | _ => true end.
(** [except Exception] around a computation that no other thread can hold up. *)
Definition on_exception {A} (k : A) (e : exc) : option A :=
  match e with Py Blocked | Py (EventletTimeout _) => None | _ => Some k end.

(** ** Names *)

(** [_is_blacklisted_zone_name]; a pattern that takes too long to match ends the
    search like one that matches. *)
Fixpoint matches_any (patterns : list string) (zone_name : string) : bool :=
  match patterns with
  | [] => false
  | p :: rest =>
      match re_search p zone_name with
      | Some false => matches_any rest zone_name
      | Some true => true
      | None => true
      end
  end.
Definition _is_blacklisted_zone_name (ctx : context) (zone_name : string) : P world bool :=
  let! blacklists := find_all blacklist_methods ctx [] no_page in
  ret (matches_any (map (fun b => str_attr b "pattern") (list_objects blacklists)) zone_name).

(** [_is_valid_zone_name]. [find_tlds] gets an empty dictionary for the context,
    which the look-up never reads. *)
Definition check_tld (ctx : context) (zone_name last_label : string) : P world unit :=
  try_except (find_one tld_methods ctx [("name", PStr last_label)] ;;; ret tt)
    (on (NotFound TldNotFound) (raise InvalidZoneName)) ;;;
  try_else (find_one tld_methods ctx [("name", PStr (lower (rstrip_dots zone_name)))])
    (on (NotFound TldNotFound) (ret tt))
    (fun _ => raise InvalidZoneName).
Definition _is_valid_zone_name (ctx : context) (zone_name : string) : P world unit :=
  raise_if (conf_int "service:central.max_zone_name_len" <? Z.of_nat (String.length zone_name))%Z
    InvalidZoneName ;;;
  let zone_labels := split_char dot (strip_dots zone_name) in
  raise_if (length zone_labels <=? 1)%nat InvalidZoneName ;;;
  let! tlds := find_all tld_methods ctx [] no_page in
  when (truthy_list tlds) (check_tld ctx zone_name (List.last zone_labels "")) ;;;
  let! blacklisted := _is_blacklisted_zone_name ctx zone_name in
  raise_if (blacklisted && negb (enforce "use_blacklisted_zone" ctx [])) InvalidZoneName.

(** [_is_valid_recordset_name] *)
Definition _is_valid_recordset_name (zone_name recordset_name : string) : R unit :=
  if negb (endswith "." recordset_name) then Raise (Py PyValueError)
  else if (conf_int "service:central.max_recordset_name_len" <? Z.of_nat (String.length recordset_name))%Z
  then Raise InvalidRecordSetName
  else if negb (String.eqb recordset_name zone_name) && negb (endswith ("." ++ zone_name) recordset_name)
  then Raise InvalidRecordSetLocation
  else Ok tt.

(** [_is_valid_recordset_placement] *)
Definition _is_valid_recordset_placement (ctx : context) (zone : pyval)
    (recordset_name recordset_type : string) (recordset_id : pyval) : P world unit :=
  raise_if (String.eqb recordset_type "CNAME" && String.eqb recordset_name (str_attr zone "name"))
    InvalidRecordSetLocation ;;;
  let! zone_id := attr zone "id" in
  let criterion := app [("zone_id", zone_id); ("name", PStr recordset_name)]
                     (if String.eqb recordset_type "CNAME" then [] else [("type", PStr "CNAME")]) in
  let! recordsets := find_recordsets ctx criterion no_page in
  match list_objects recordsets with
  | [] => ret tt
  | [rs] => let! id := attr rs "id" in
            raise_if (negb (py_eq id recordset_id)) InvalidRecordSetLocation
  | _ => raise InvalidRecordSetLocation
  end.

(** [_is_valid_recordset_placement_subzone] *)
Fixpoint in_child_zone (children : list pyval) (recordset_name : string) : R unit :=
  match children with
  | [] => Ok tt
  | child :: rest =>
      match _is_valid_recordset_name (str_attr child "name") recordset_name with
      | Raise _ => in_child_zone rest recordset_name
      | Ok _ => Raise InvalidRecordSetLocation
      end
  end.
Definition _is_valid_recordset_placement_subzone (ctx : context) (zone : pyval)
    (recordset_name : string) : P world unit :=
  let! ctx := lift (elevated None true false ctx) in
  if String.eqb (str_attr zone "name") recordset_name then ret tt
  else
    let! zone_id := attr zone "id" in
    let! child_zones := find_zones ctx [("parent_zone_id", zone_id)] no_page in
    lift (in_child_zone (list_objects child_zones) recordset_name).

(** [_is_valid_recordset_records] *)
Definition _is_valid_recordset_records (recordset : pyval) : R unit :=
  match getattr registry recordset "records" with
  | Ok l => if (1 <? length (list_objects l))%nat && String.eqb (str_attr recordset "type") "CNAME"
            then Raise (BadRequest BR_Base) else Ok tt
  | Raise (Py PyAttributeError) | Raise RelationNotLoaded => Ok tt
  | Raise e => Raise e
  end.

(** [_is_valid_ttl] *)
Definition _is_valid_ttl (ctx : context) (ttl : Z) : R unit :=
  match min_ttl with
  | Some m => if (ttl <? m)%Z
              then match check "use_low_ttl" ctx [] with
                   | Raise (Forbidden _) => Raise InvalidTTL
                   | r => r
                   end
              else Ok tt
  | None => Ok tt
  end.
Definition check_ttl (ctx : context) (ttl : pyval) : P world unit :=
  match ttl with
  | PNone => ret tt
  | PInt n => lift (_is_valid_ttl ctx n)
  | _ => raise (Py PyTypeError)
  end.

(** [_validate_recordset] *)
Definition _validate_recordset (ctx : context) (zone recordset : pyval) : P world unit :=
  let! id := attr recordset "id" in
  let! ttl := (if negb (truthy id) then attr recordset "ttl"
               else let! changes := lift (obj_get_changes registry recordset) in
                    ret (default PNone (aget "ttl" changes))) in
  check_ttl ctx ttl ;;;
  let! name := attr recordset "name" in
  let! name := str_of name in
  lift (_is_valid_recordset_name (str_attr zone "name") name) ;;;
  _is_valid_recordset_placement ctx zone name (str_attr recordset "type") id ;;;
  _is_valid_recordset_placement_subzone ctx zone name ;;;
  lift (_is_valid_recordset_records recordset).

(** ** Zones above and below *)

(** [_is_subzone]: the zones the name lies in, the closest first. *)
Fixpoint search_parents (ctx : context) (pool_id : pyval) (labels : list string) : P world (option pyval) :=
  match labels with
  | [] => ret None
  | _ :: [] => ret None
  | _ :: rest =>
      try_except
        (let! zone := find_zone ctx [("pool_id", pool_id); ("name", PStr (join "." rest))] in
         ret (Some zone))
        (on (NotFound ZoneNotFound) (search_parents ctx pool_id rest))
  end.
Definition _is_subzone (ctx : context) (zone_name : string) (pool_id : pyval) : P world (option pyval) :=
  let! ctx := lift (elevated None true false ctx) in
  search_parents ctx pool_id (split_char dot zone_name).

(** [_is_superzone] *)
Definition _is_superzone (ctx : context) (zone_name : string) (pool_id : pyval) : P world (list pyval) :=
  let! ctx := lift (elevated None true false ctx) in
  let! subzones := find_zones ctx [("name", PStr ("%." ++ zone_name)); ("pool_id", pool_id)] no_page in
  ret (list_objects subzones).

Definition _get_pool_ns_records (ctx : context) (pool_id : pyval) : P world (list pyval) :=
  let! ctx := lift (elevated None true false ctx) in
  let! pool := get_pool ctx pool_id in
  let! l := attr pool "ns_records" in ret (list_objects l).

(** ** Quotas *)
Definition _enforce_zone_quota (ctx : context) (tenant_id : pyval) : P world unit :=
  let! count := count_zones ctx [("tenant_id", tenant_id)] in
  limit_check ctx tenant_id [("zones", count)].
Definition _enforce_recordset_quota (ctx : context) (zone : pyval) : P world unit :=
  let! zone_id := attr zone "id" in
  let! count := count_recordsets ctx [("zone_id", zone_id)] in
  let! tenant_id := attr zone "tenant_id" in
  limit_check ctx tenant_id [("zone_recordsets", count)].
Definition _enforce_record_quota (ctx : context) (zone recordset : pyval) : P world unit :=
  let! records := attr recordset "records" in
  if recordset_managed (list_objects records) then ret tt
  else
    let! zone_id := attr zone "id" in
    let! zone_records := count_records ctx [("zone_id", zone_id); ("managed", PBool false)] in
    let! id := attr recordset "id" in
    let! recordset_records := count_records ctx [("recordset_id", id); ("managed", PBool false)] in
    let adjusted := (zone_records - recordset_records + Z.of_nat (length (list_objects records)))%Z in
    let! tenant_id := attr zone "tenant_id" in
    limit_check ctx tenant_id [("zone_records", adjusted)] ;;;
    limit_check ctx tenant_id [("recordset_records", recordset_records)].

(** [_create_recordset_in_storage], inside its transaction. *)
Definition create_recordset_in_storage (ctx : context) (zone recordset : pyval) : P world pyval :=
  _enforce_recordset_quota ctx zone ;;;
  _validate_recordset ctx zone recordset ;;;
  let! zone_id := attr zone "id" in
  create_recordset ctx zone_id recordset.

(** ** Creating a zone *)

(** [create_zone], up to the call of [_create_zone]: the zone as it will be stored
    and the zones that will become its children. *)
Definition check_subzones (zone : pyval) (subzones : list pyval) : P world unit :=
  let! tenant_id := attr zone "tenant_id" in
  mfor subzones (fun subzone =>
    let! t := attr subzone "tenant_id" in
    raise_if (negb (py_eq t tenant_id)) (Forbidden IllegalParentZone)).
Definition create_zone_checks (ctx : context) (zone : pyval) : P world (pyval * list pyval) :=
  let! own := attr zone "tenant_id" in
  let! zone := set_attr zone "tenant_id" (if truthy own then own else tenant_val ctx) in
  let! tenant_id := attr zone "tenant_id" in
  let! name_ := attr zone "name" in
  lift (check "create_zone" ctx [("tenant_id", tenant_id); ("zone_name", name_)]) ;;;
  _enforce_zone_quota ctx tenant_id ;;;
  let! name := str_of name_ in
  _is_valid_zone_name ctx name ;;;
  let! ttl := attr zone "ttl" in
  check_ttl ctx ttl ;;;
  let! pool_id := schedule_zone bool_from_string random_choice scheduler_filters ctx zone in
  let! zone := set_attr zone "pool_id" pool_id in
  let! parent_zone := _is_subzone ctx name pool_id in
  let! zone := (match parent_zone with
                | Some parent =>
                    let! t := attr parent "tenant_id" in
                    if py_eq t tenant_id
                    then let! id := attr parent "id" in set_attr zone "parent_zone_id" id
                    else raise (Forbidden IllegalChildZone)
                | None => ret zone
                end) in
  let! subzones := _is_superzone ctx name pool_id in
  check_subzones zone subzones ;;;
  let! ns_records := _get_pool_ns_records ctx pool_id in
  raise_if (length ns_records =? 0)%nat (ConfigurationError NoServersConfigured) ;;;
  ret (zone, subzones).
End Central.
