(* ===== verification/CentralZones.v ===== *)
(** * Central: the life of a zone (designate/central/service.py)

    Changing, touching and deleting a zone; what the status reports of the workers
    and of the pool manager do to it and to its records; zone transfers. Methods
    that the source decorates are given twice: the body, and the method with its
    decorators. *)
From Stdlib Require Import ZArith Lia Ascii String.
From stdpp Require Import base option numbers strings sets list.
From S2P Require Import Prelude PyStr Exceptions Values Objects Utils Classes World Decorators Sql Storage Quota Scheduler Central Tables.
Local Open Scope string_scope.

Section Zones.
Context `{Env} `{SqlEngine} `{Services}.
(** The payloads of the configured notification plugin. *)
Variable payloads : string -> pyval -> list pyval -> list pyval.

(** A method of one argument. *)
Definition unary {A} (f : pyval -> P world A) (args : list pyval) : P world A :=
  match args with [x] => f x | _ => raise (Py PyTypeError) end.

Definition zone_target (zone_id zone : pyval) : P world (list (string * pyval)) :=
  let! name := attr zone "name" in
  let! tenant_id := attr zone "tenant_id" in
  ret [("zone_id", zone_id); ("zone_name", name); ("tenant_id", tenant_id)].
Definition check_policy (rule : string) (ctx : context) (target : list (string * pyval)) : P world unit :=
  lift (check rule ctx target).

(** [get_zone] *)
Definition get_zone_checked (ctx : context) (zone_id : pyval) : P world pyval :=
  let! zone := get_zone ctx zone_id in
  let! target := zone_target zone_id zone in
  check_policy "get_zone" ctx target ;;; ret zone.

(** ** Serial numbers and the SOA record *)

(** [_build_soa_record] *)
Definition _build_soa_record (zone : pyval) (ns_records : list pyval) : R pyval :=
  match ns_records with
  | [] => Raise (Py PyIndexError)
  | ns :: _ =>
      let? hostname := getattr registry ns "hostname" in
      let? email := getattr registry zone "email" in
      match email with
      | PStr e =>
          let n k := str_of_Z (int_attr zone k) in
          Ok (PStr (text hostname ++ " " ++ replace "@" "." e ++ ". " ++ n "serial" ++ " " ++ n "refresh"
                    ++ " " ++ n "retry" ++ " " ++ n "expire" ++ " " ++ n "minimum"))
      | _ => Raise (Py PyAttributeError)
      end
  end.

(** [_update_recordset_in_storage] without a new serial, inside its
    transaction. *)
Definition touch_record (serial record : pyval) : P world pyval :=
  if String.eqb (str_attr record "action") "DELETE" then ret record
  else let! record := set_attr record "action" (PStr "UPDATE") in
       let! record := set_attr record "status" (PStr "PENDING") in
       set_attr record "serial" serial.
Definition store_recordset (ctx : context) (zone recordset : pyval) : P world pyval :=
  let! records := attr recordset "records" in
  let! recordset :=
    (if truthy_list records then
       let! serial := attr zone "serial" in
       let! l := mmap (touch_record serial) (list_objects records) in
       let recordset := with_attr_items recordset "records" l in
       _enforce_record_quota ctx zone recordset ;;; ret recordset
     else ret recordset) in
  update_recordset ctx recordset.
Definition update_recordset_in_storage (ctx : context) (zone recordset : pyval) : P world pyval :=
  _validate_recordset ctx zone recordset ;;; store_recordset ctx zone recordset.

(** [_update_soa] *)
Definition _update_soa (ctx : context) (zone : pyval) : P world unit :=
  if negb (String.eqb (str_attr zone "type") "PRIMARY") then ret tt
  else
    let! pool_id := attr zone "pool_id" in
    let! ns_records := _get_pool_ns_records ctx pool_id in
    let! zone_id := attr zone "id" in
    check_policy "find_recordset" ctx [("tenant_id", tenant_val ctx)] ;;;
    let! soa := find_recordset ctx [("zone_id", zone_id); ("type", PStr "SOA")] in
    let! records := attr soa "records" in
    let! data := lift (_build_soa_record zone ns_records) in
    match list_objects records with
    | [] => raise (Py PyIndexError)
    | r :: rest =>
        let! r := set_attr r "data" data in
        transaction (unary (update_recordset_in_storage ctx zone))
          [with_attr_items soa "records" (r :: rest)] ;;; ret tt
    end.

(** [_increment_zone_serial] *)
Definition _increment_zone_serial (ctx : context) (zone : pyval) (set_delayed_notify : bool) :
    P world pyval :=
  let! now := utcnow in
  let! zone := set_attr zone "serial" (PInt (increment_serial now (int_attr zone "serial"))) in
  let! zone := (if set_delayed_notify then set_attr zone "delayed_notify" (PBool true) else ret zone) in
  let! zone := update_zone ctx zone in
  _update_soa ctx zone ;;; ret zone.

(** ** Changes *)

(** [_update_zone_in_storage], inside its transaction. *)
Definition update_zone_in_storage (ctx : context) (increment set_delayed_notify : bool) (zone : pyval) :
    P world pyval :=
  let! zone := set_attr zone "action" (PStr "UPDATE") in
  let! zone := set_attr zone "status" (PStr "PENDING") in
  if increment then _increment_zone_serial ctx zone set_delayed_notify
  else update_zone ctx zone.

(** [_get_origin_zone] *)
Definition _get_origin_zone (ctx : context) (zone : pyval) : P world pyval :=
  let zone := deepcopy registry zone in
  let! changes := lift (obj_get_changes registry zone) in
  let! id := attr zone "id" in
  let! origin := get_zone_checked ctx id in
  mfold changes.*1 zone (fun zone key => let! v := attr origin key in set_attr zone key v).

(** [_update_zone] *)
Definition _update_zone (ctx : context) (increment : bool) (changes : list (string * pyval)) (zone : pyval) :
    P world pyval :=
  let! origin_zone := _get_origin_zone ctx zone in
  let! zone := transaction (unary (update_zone_in_storage ctx increment false)) [zone] in
  when (match aget "masters" changes with Some _ => true | None => false end)
    (send (Cast "mdns" "perform_zone_xfr" [zone])) ;;;
  try_except (call "worker" "update_zone" [zone] ;;; ret tt)
    (fun e => match e with
              | Py Blocked => None
              | _ => Some (update_zone ctx origin_zone ;;; raise e)
              end) ;;;
  let! id := attr zone "id" in get_zone_checked ctx id.

(** [update_zone] *)
Definition update_zone_body (ctx : context) (increment : bool) (zone : pyval) : P world pyval :=
  let original n := lift (obj_get_original_value registry zone n) in
  let! zone_id := original "id" in
  let! name := original "name" in
  let! tenant_id := original "tenant_id" in
  check_policy "update_zone" ctx
    [("zone_id", zone_id); ("zone_name", name); ("tenant_id", tenant_id)] ;;;
  let! changes := lift (obj_get_changes registry zone) in
  raise_if (mem_str "tenant_id" changes.*1) (BadRequest BR_Base) ;;;
  raise_if (mem_str "name" changes.*1) (BadRequest BR_Base) ;;;
  check_ttl ctx (default PNone (aget "ttl" changes)) ;;;
  _update_zone ctx increment changes zone.
Definition central_update_zone (ctx : context) (increment : bool) (zone : pyval) : P world pyval :=
  notification payloads "dns.domain.update" (notification payloads "dns.zone.update"
    (synchronized_zone false (unary (update_zone_body ctx increment)))) [zone].

(** [touch_zone] *)
Definition touch_zone_in_storage (ctx : context) (zone : pyval) : P world pyval :=
  _increment_zone_serial ctx zone false.
Definition touch_zone_body (ctx : context) (zone_id : pyval) : P world pyval :=
  let! zone := get_zone ctx zone_id in
  let! target := zone_target zone_id zone in
  check_policy "touch_zone" ctx target ;;;
  transaction (unary (touch_zone_in_storage ctx)) [zone] ;;;
  call "worker" "update_zone" [zone] ;;; ret zone.
Definition touch_zone (ctx : context) (zone_id : pyval) : P world pyval :=
  notification payloads "dns.zone.touch" (synchronized_zone false (unary (touch_zone_body ctx))) [zone_id].

(** ** Deletion *)

(** [_delete_zone_in_storage], inside its transaction. *)
Definition delete_zone_in_storage (ctx : context) (zone : pyval) : P world pyval :=
  let! zone := set_attr zone "action" (PStr "DELETE") in
  let! zone := set_attr zone "status" (PStr "PENDING") in
  update_zone ctx zone.
(** [delete_zone] *)
Definition delete_zone_body (ctx : context) (zone_id : pyval) : P world pyval :=
  let! zone := get_zone ctx zone_id in
  let! target := zone_target zone_id zone in
  check_policy (if abandon ctx then "abandon_zone" else "delete_zone") ctx target ;;;
  let! children := count_zones ctx [("parent_zone_id", zone_id)] in
  raise_if (0 <? children)%Z ZoneHasSubZone ;;;
  if abandon ctx then let! id := attr zone "id" in delete_zone ctx id
  else
    let! zone := transaction (unary (delete_zone_in_storage ctx)) [zone] in
    call "worker" "delete_zone" [zone] ;;; ret zone.
Definition central_delete_zone (ctx : context) (zone_id : pyval) : P world pyval :=
  notification payloads "dns.domain.delete" (notification payloads "dns.zone.delete"
    (synchronized_zone false (unary (delete_zone_body ctx)))) [zone_id].

(** ** Status reports *)

Definition with_life (action status o : pyval) : P world pyval :=
  let! o := set_attr o "action" action in set_attr o "status" status.
Definition settle : pyval -> P world pyval := with_life (PStr "NONE") (PStr "ACTIVE").

(** Delete a record, and its record set when it was the last one. *)
Definition drop_empty_recordset (ctx : context) (record : pyval) : P world unit :=
  let! rs_id := attr record "recordset_id" in
  let! recordset := get_recordset ctx rs_id in
  let! l := attr recordset "records" in
  when (negb (truthy_list l))
    (let! id := attr recordset "id" in delete_recordset ctx id ;;; ret tt).
Definition drop_record (ctx : context) (record : pyval) : P world unit :=
  let! id := attr record "id" in
  delete_record ctx id ;;; drop_empty_recordset ctx record.

(** [_delete_record_with_zone_delete] *)
Definition strip_dashes (v : pyval) : P world pyval :=
  let! s := str_of v in ret (PStr (replace "-" "" s)).
Definition _delete_record_with_zone_delete (ctx : context) (record : pyval) : P world unit :=
  let! id := attr record "id" in
  let! association := get_record_association ctx id in
  let! id' := strip_dashes id in
  delete_record_association ctx id' ;;;
  drop_record ctx record ;;;
  let! zdns_id := attr association "zdns_record_id" in
  let! zdns_id := strip_dashes zdns_id in
  delete_zdns_record ctx zdns_id ;;; ret tt.

(** [update_zone_status]: the report of a worker. *)
Definition settle_record (ctx : context) (action status : string) (record : pyval) : P world unit :=
  if String.eqb action "CREATE" then
    if String.eqb status "SUCCESS" then
      let! record := settle record in update_record ctx record ;;; ret tt
    else if String.eqb status "ERROR" then drop_record ctx record
    else ret tt
  else if String.eqb action "DELETE" then
    when (String.eqb status "SUCCESS") (_delete_record_with_zone_delete ctx record)
  else ret tt.
Definition settle_zone (ctx : context) (action status : string) (zone : pyval) : P world pyval :=
  let! id := attr zone "id" in
  let remove := delete_zone ctx id ;;; ret zone in
  let keep := let! zone := settle zone in update_zone ctx zone ;;; ret zone in
  if String.eqb status "SUCCESS" then if String.eqb action "DELETE" then remove else keep
  else if String.eqb status "ERROR" then if String.eqb action "CREATE" then remove else keep
  else ret zone.
Definition update_zone_status (ctx : context) (zone : pyval) : P world pyval :=
  let! id := attr zone "id" in
  let status := str_attr zone "status" in
  let action := str_attr zone "action" in
  let! records := find_records ctx [("zone_id", id)] no_page in
  mfor (list_objects records) (settle_record ctx action status) ;;;
  settle_zone ctx action status zone.

(** [update_status]: the report of the pool manager, with the consensus serial. *)
Definition life_of (o : pyval) : life := {| l_action := str_attr o "action"; l_status := str_attr o "status" |}.
Definition apply_report (status : string) (serial : Z) (o : pyval) : P world (pyval * bool) :=
  let '(l, deleted) := _update_zone_or_record_status (life_of o) (int_attr o "serial") status serial in
  let! o := with_life (PStr (l_action l)) (PStr (l_status l)) o in ret (o, deleted).
Definition report_criterion (zone_id : pyval) (status : string) (serial : Z) : list (string * pyval) :=
  let up_to := PStr ("<=" ++ str_of_Z serial) in
  app [("zone_id", zone_id)]
    (if String.eqb status "SUCCESS"
     then [("status", PList [PStr "PENDING"; PStr "ERROR"]); ("serial", up_to)]
     else if String.eqb status "ERROR" && (serial =? 0)%Z then [("status", PStr "PENDING")]
     else if String.eqb status "ERROR" then [("status", PStr "PENDING"); ("serial", up_to)]
     else []).
Definition _update_record_status (ctx : context) (zone_id : pyval) (status : string) (serial : Z) :
    P world unit :=
  let! records := find_records ctx (report_criterion zone_id status serial) no_page in
  mfor (list_objects records) (fun record =>
    let! ' (record, deleted) := apply_report status serial record in
    when (match obj_what_changed registry record with [] => false | _ => true end)
      (update_record ctx record ;;; ret tt) ;;;
    when deleted (drop_record ctx record)).
Definition _update_zone_status (ctx : context) (zone_id : pyval) (status : string) (serial : Z) :
    P world pyval :=
  let! zone := get_zone ctx zone_id in
  let! ' (zone, deleted) := apply_report status serial zone in
  when (negb (String.eqb (str_attr zone "status") "DELETED")) (update_zone ctx zone ;;; ret tt) ;;;
  when deleted (let! id := attr zone "id" in delete_zone ctx id ;;; ret tt) ;;;
  ret zone.
Definition update_status_body (ctx : context) (status : string) (serial : Z) (zone_id : pyval) : P world pyval :=
  _update_record_status ctx zone_id status serial ;;;
  _update_zone_status ctx zone_id status serial.
Definition update_status (ctx : context) (zone_id : pyval) (status : string) (serial : Z) : P world pyval :=
  notification payloads "dns.domain.update" (notification payloads "dns.zone.update"
    (transaction (unary (update_status_body ctx status serial)))) [zone_id].

(** ** Transfers *)

(** [create_zone_transfer_request]; the key is eight random characters. *)
Definition create_transfer_request_body (key : string) (ctx : context) (request : pyval) : P world pyval :=
  let! zone_id := attr request "zone_id" in
  let! zone := get_zone_checked ctx zone_id in
  raise_if (String.eqb (str_attr zone "action") "DELETE") (BadRequest BR_Base) ;;;
  let! owner := attr zone "tenant_id" in
  check_policy "create_zone_transfer_request" ctx [("tenant_id", owner)] ;;;
  let! request := set_attr request "key" (PStr key) in
  let! tenant_id := attr request "tenant_id" in
  let! request := (match tenant_id with
                   | PNone => set_attr request "tenant_id" (tenant_val ctx)
                   | _ => ret request
                   end) in
  create_zone_transfer_request ctx request.
Definition central_create_zone_transfer_request (key : string) (ctx : context) (request : pyval) :
    P world pyval :=
  notification payloads "dns.zone_transfer_request.create"
    (transaction (unary (create_transfer_request_body key ctx))) [request].

(** [get_zone_transfer_request] *)
Definition get_transfer_request (ctx : context) (id : pyval) : P world pyval :=
  let! elevated_context := lift (elevated None true false ctx) in
  let! request := get_zone_transfer_request elevated_context id in
  let! target_tenant := attr request "target_tenant_id" in
  let! tenant_id := attr request "tenant_id" in
  check_policy "get_zone_transfer_request" ctx
    [("target_tenant_id", target_tenant); ("tenant_id", tenant_id)] ;;;
  ret request.

(** [create_zone_transfer_accept] *)
Definition hand_over (ctx : context) (zone_id tenant_id : pyval) : P world unit :=
  let! zone := get_zone ctx zone_id in
  raise_if (String.eqb (str_attr zone "action") "DELETE") (BadRequest BR_Base) ;;;
  let! zone := set_attr zone "tenant_id" tenant_id in
  update_zone ctx zone ;;; ret tt.
Definition update_accept (ctx : context) (accept : pyval) : P world pyval :=
  update_obj zone_transfer_accept_methods ctx accept.
Definition create_transfer_accept_body (ctx : context) (accept : pyval) : P world pyval :=
  let! elevated_context := lift (elevated None true false ctx) in
  let! request_id := attr accept "zone_transfer_request_id" in
  let! request := get_transfer_request ctx request_id in
  let! zone_id := attr request "zone_id" in
  let! accept := set_attr accept "zone_id" zone_id in
  raise_if (negb (String.eqb (str_attr request "status") "ACTIVE")) InvaildZoneTransfer ;;;
  let! key := attr request "key" in
  let! given := attr accept "key" in
  raise_if (negb (py_eq key given)) (Forbidden IncorrectZoneTransferKey) ;;;
  let! target_tenant := attr request "target_tenant_id" in
  check_policy "create_zone_transfer_accept" ctx [("target_tenant_id", target_tenant)] ;;;
  let! tenant_id := attr accept "tenant_id" in
  let! accept := (match tenant_id with
                  | PNone => set_attr accept "tenant_id" (tenant_val ctx)
                  | _ => ret accept
                  end) in
  let! new_owner := attr accept "tenant_id" in
  let! created := create zone_transfer_accept_methods accept in
  try_else (hand_over elevated_context zone_id new_owner)
    (fun e => on_exception
       (let! created := set_attr created "status" (PStr "ERROR") in
        update_accept ctx created ;;; raise e) e)
    (fun _ =>
       let! created := set_attr created "status" (PStr "COMPLETE") in
       let! request := set_attr request "status" (PStr "COMPLETE") in
       let! created := update_accept ctx created in
       update_zone_transfer_request elevated_context request ;;;
       ret created).
Definition create_zone_transfer_accept (ctx : context) (accept : pyval) : P world pyval :=
  notification payloads "dns.zone_transfer_accept.create"
    (transaction (unary (create_transfer_accept_body ctx))) [accept].
End Zones.
