(* ===== verification/CentralFacts.v ===== *)
(** * Theorems about central: names, places, owners and limits

    What the checks before a zone or a record set is stored guarantee, and that a
    refusal leaves nothing behind. *)
From Stdlib Require Import ZArith Lia Ascii String.
From stdpp Require Import base option numbers strings sets list.
From S2P Require Import Prelude PyStr Exceptions Values Objects Utils Classes World Decorators Sql SqlFacts Tables Storage StorageFacts Quota Scheduler Central.
Local Open Scope string_scope.

(** ** Status reports *)

Definition unsettled (o : life) : Prop :=
  l_action o ∈ ["CREATE"; "UPDATE"; "DELETE"] /\ l_status o ∈ ["PENDING"; "ERROR"].
(** Where an object ends up when its action succeeds. *)
Definition settled (action : string) : life :=
  {| l_action := "NONE"; l_status := if String.eqb action "DELETE" then "DELETED" else "ACTIVE" |}.
Definition receive (o_serial : Z) (o : life) (report : string * Z) : life :=
  (_update_zone_or_record_status o o_serial report.1 report.2).1.
(** A report of success that is not about an older serial, a report of an error
    that is not, or that has no serial. *)
Definition success_for (o_serial : Z) (report : string * Z) : bool :=
  String.eqb report.1 "SUCCESS" && (o_serial <=? report.2)%Z.
Definition error_for (o_serial : Z) (report : string * Z) : bool :=
  String.eqb report.1 "ERROR" && ((o_serial <=? report.2)%Z || (report.2 =? 0)%Z).

Lemma receive_settled o_serial action report :
  report.1 ∈ ["SUCCESS"; "ERROR"] -> receive o_serial (settled action) report = settled action.
Proof.
  destruct report as [status serial]. unfold receive, settled. cbn [fst snd].
  intros Hs. elem_cases Hs; cbn; by destruct (String.eqb action "DELETE").
Qed.

Lemma receive_unsettled o_serial o report :
  unsettled o -> report.1 ∈ ["SUCCESS"; "ERROR"] ->
  receive o_serial o report =
  if success_for o_serial report then settled (l_action o)
  else if error_for o_serial report then {| l_action := l_action o; l_status := "ERROR" |} else o.
Proof.
  destruct report as [status serial], o as [a st]. intros [Ha Hs] Hr. cbn in Ha, Hs, Hr.
  unfold receive, success_for, error_for. cbn [fst snd].
  elem_cases Hr; elem_cases Ha; elem_cases Hs; cbn;
    destruct (o_serial <=? serial)%Z; cbn; try done; by destruct (serial =? 0)%Z.
Qed.

(** C35: reports of success and error converge, in whatever order they arrive. A
    zone or record with an action under way ends up settled (active, or deleted
    for a deletion) exactly when one of the reports is a success that is not about
    an older serial, however many errors come before or after it; otherwise it is
    in error exactly when it was, or a current error was reported; a report about
    an older serial changes nothing. *)
Theorem reports_converge o_serial o reports :
  unsettled o -> Forall (fun r => r.1 ∈ ["SUCCESS"; "ERROR"]) reports ->
  foldl (receive o_serial) o reports =
  if existsb (success_for o_serial) reports then settled (l_action o)
  else if existsb (error_for o_serial) reports then {| l_action := l_action o; l_status := "ERROR" |}
  else o.
Proof.
  intros Ho Hall. revert o Ho. induction Hall as [|r reports Hr Hall IH]; intros o Ho; [done|].
  cbn [foldl existsb]. rewrite receive_unsettled by done.
  destruct (success_for o_serial r); cbn [orb].
  - clear IH. induction Hall as [|r' reports Hr' _ IH]; [done|]. cbn [foldl].
    by rewrite receive_settled.
  - destruct (error_for o_serial r); cbn [orb]; [|by rewrite IH].
    rewrite IH by (destruct Ho; split; [done|set_solver]). cbn [l_action].
    destruct (existsb (success_for o_serial) reports); [done|].
    by destruct (existsb (error_for o_serial) reports).
Qed.
Lemma reports_converge_witness :
  let o := {| l_action := "UPDATE"; l_status := "PENDING" |} in
  foldl (receive 7) o [("ERROR", 7%Z); ("SUCCESS", 6%Z); ("SUCCESS", 8%Z); ("ERROR", 0%Z)] = settled "UPDATE" /\
  foldl (receive 7) o [("SUCCESS", 6%Z); ("ERROR", 3%Z)] = o.
Proof.
  cbn zeta. split.
  - rewrite (reports_converge 7 {| l_action := "UPDATE"; l_status := "PENDING" |}
      [("ERROR", 7%Z); ("SUCCESS", 6%Z); ("SUCCESS", 8%Z); ("ERROR", 0%Z)]); [reflexivity|split; set_solver|].
    repeat constructor; set_solver.
  - rewrite (reports_converge 7 {| l_action := "UPDATE"; l_status := "PENDING" |}
      [("SUCCESS", 6%Z); ("ERROR", 3%Z)]); [reflexivity|split; set_solver|].
    repeat constructor; set_solver.
Defined.

(** ** Names *)

Lemma endswith_dot_zone zone name :
  endswith ("." ++ zone) name = true <->
  exists p, name = p ++ "." ++ zone.
Proof. apply endswith_app. Qed.

(** The labels of a name below a zone are its own and then the zone's. *)
Lemma labels_below zone name :
  (String.eqb name zone || endswith ("." ++ zone) name) = true <->
  exists ls, split_char dot name = app ls (split_char dot zone).
Proof.
  rewrite orb_true_iff, String.eqb_eq, endswith_dot_zone. split.
  - intros [->|[p ->]]; [by exists []|]. exists (split_char dot p). apply split_char_cat.
  - intros [ls Hls]. rewrite <- (join_split_char dot name), Hls.
    destruct ls as [|l ls]; [left; apply join_split_char|right].
    exists (join "." (l :: ls)). change (String dot "") with ".".
    rewrite join_app by (done || apply split_char_nonempty).
    pose proof (join_split_char dot zone) as Hz. change (String dot "") with "." in Hz. by rewrite Hz.
Qed.

Section Checks.
Context `{Env} `{SqlEngine} `{Services}.

(** What names a zone takes in. The name of a record set is accepted exactly
    when it is fully qualified, not too long, and the labels of the zone's name
    are its last labels: ends of labels, not of strings, decide, so a name that
    merely ends with the same characters is refused. The three ways to fail raise
    three different errors, in this order. *)
Theorem recordset_name_accepted zone name :
  let below := exists ls, split_char dot name = app ls (split_char dot zone) in
  let fits := (Z.of_nat (String.length name) <= conf_int "service:central.max_recordset_name_len")%Z in
  let qualified := exists p, name = p ++ "." in
  (_is_valid_recordset_name zone name = Ok tt <-> qualified /\ fits /\ below) /\
  (_is_valid_recordset_name zone name = Raise (Py PyValueError) <-> ~ qualified) /\
  (_is_valid_recordset_name zone name = Raise InvalidRecordSetName <-> qualified /\ ~ fits) /\
  (_is_valid_recordset_name zone name = Raise InvalidRecordSetLocation <-> qualified /\ fits /\ ~ below).
Proof.
  cbv zeta. rewrite <- endswith_app, <- labels_below, <- Z.ltb_ge. unfold _is_valid_recordset_name.
  destruct (endswith "." name), (_ <? _)%Z, (String.eqb name zone), (endswith ("." ++ zone) name); cbn;
    split_and!; naive_solver.
Qed.

(** ** The checks only look *)
#[export] Instance limit_check_reads ctx t values : Reads (limit_check ctx t values).
Proof.
  unfold limit_check, get_quotas, _get_quotas, quota_entry.
  repeat first [apply _ | apply bind_reads; [|intros] | apply mmap_reads; intros
               | progress case_match].
Qed.
#[export] Instance run_filter_reads bfs rc k ctx pools zone : Reads (run_filter bfs rc k ctx pools zone).
Proof.
  unfold run_filter, AttributeFilter_filter, DefaultPoolFilter_filter, FallbackFilter_filter,
    InDoubtDefaultPoolFilter_filter, PoolIDAttributeFilter_filter, RandomFilter_filter.
  destruct k; try apply _.
  - destruct pools; apply _.
  - destruct (1 <? length pools)%nat; [|apply _]. intros w r w'.
    destruct (get_pool _ _ w) as [[pool|e] w1] eqn:Hp; apply get_pool_reads in Hp as ->; by intros [= _ <-].
  - destruct (getattr registry zone "attributes") as [l|[]]; try apply _.
    destruct (attr_list_get _ _) as [id|]; [|apply _]. destruct (truthy id); [|apply _].
    intros w r w'. destruct (get_pool _ _ w) as [[pool|e] w1] eqn:Hp; apply get_pool_reads in Hp as ->.
    + by apply bind_reads; [apply _|intros; apply _].
    + by intros [= _ <-].
  - destruct pools; apply _.
Qed.
#[export] Instance schedule_zone_reads bfs rc filters ctx zone : Reads (schedule_zone bfs rc filters ctx zone).
Proof.
  unfold schedule_zone. apply bind_reads; [apply _|intros l]. destruct filters; [apply _|].
  apply bind_reads; [apply _|intros pools]. destruct pools as [|p [|]]; apply _.
Qed.
#[export] Instance check_ttl_reads ctx ttl : Reads (check_ttl ctx ttl).
Proof. destruct ttl; apply _. Qed.
#[export] Instance check_tld_reads ctx n l : Reads (check_tld ctx n l).
Proof.
  unfold check_tld. apply bind_reads; [apply _|intros _]. intros w r w'. unfold try_else.
  destruct (find_one _ _ _ w) as [[o|e] w1] eqn:Hf; apply (resource_find_one_reads tld_methods) in Hf as ->.
  - by intros [= _ <-].
  - unfold on. case_bool_decide; by intros [= _ <-].
Qed.
#[export] Instance zone_name_reads ctx n : Reads (_is_valid_zone_name ctx n).
Proof. unfold _is_valid_zone_name, _is_blacklisted_zone_name. apply _. Qed.
#[export] Instance search_parents_reads ctx pool_id labels : Reads (search_parents ctx pool_id labels).
Proof.
  induction labels as [|l labels IH]; [apply _|]. cbn [search_parents]. destruct labels; apply _.
Qed.
#[export] Instance is_subzone_reads ctx n p : Reads (_is_subzone ctx n p).
Proof. unfold _is_subzone. apply _. Qed.
#[export] Instance is_superzone_reads ctx n p : Reads (_is_superzone ctx n p).
Proof. unfold _is_superzone. apply _. Qed.
#[export] Instance ns_records_reads ctx p : Reads (_get_pool_ns_records ctx p).
Proof. unfold _get_pool_ns_records. apply _. Qed.
#[export] Instance placement_reads ctx zone n ty id : Reads (_is_valid_recordset_placement ctx zone n ty id).
Proof.
  unfold _is_valid_recordset_placement. repeat (apply bind_reads; [apply _|intros]).
  destruct (list_objects _) as [|rs [|]]; apply _.
Qed.
#[export] Instance placement_subzone_reads ctx zone n :
  Reads (_is_valid_recordset_placement_subzone ctx zone n).
Proof. unfold _is_valid_recordset_placement_subzone. apply _. Qed.
#[export] Instance validate_recordset_reads ctx zone rs : Reads (_validate_recordset ctx zone rs).
Proof. unfold _validate_recordset. apply _. Qed.
#[export] Instance record_quota_reads ctx zone rs : Reads (_enforce_record_quota ctx zone rs).
Proof. unfold _enforce_record_quota. apply _. Qed.
#[export] Instance create_zone_checks_reads bfs rc filters ctx zone :
  Reads (create_zone_checks bfs rc filters ctx zone).
Proof.
  unfold create_zone_checks, _enforce_zone_quota, check_subzones.
  repeat first [apply _ | apply bind_reads; [|intros] | progress case_match].
Qed.

(** ** Zones above *)

(** A new zone hangs below its closest ancestor. The search goes up the
    labels of the name, one at a time, and stops at the first stored zone of the
    pool, whoever owns it: that zone is found, and no closer name is one; [None]
    means that no proper ancestor is stored. It always ends, and it changes
    nothing. *)
Theorem is_subzone_closest ctx ctx' name pool_id w :
  elevated None true false ctx = Ok ctx' ->
  let labels := split_char dot name in
  let look i := (find_zone ctx' [("pool_id", pool_id); ("name", PStr (join "." (drop i labels)))] w).1 in
  let absent i := look i = Raise (NotFound ZoneNotFound) in
  let '(r, w') := _is_subzone ctx name pool_id w in
  w' = w /\
  match r with
  | Ok (Some z) => exists i, (1 <= i < length labels)%nat /\ look i = Ok z /\
      forall j, (1 <= j < i)%nat -> absent j
  | Ok None => forall j, (1 <= j < length labels)%nat -> absent j
  | Raise e => exists i, (1 <= i < length labels)%nat /\ look i = Raise e /\ ~ absent i /\
      forall j, (1 <= j < i)%nat -> absent j
  end.
Proof.
  intros Hel labels look absent. unfold _is_subzone, bind at 1, lift. rewrite Hel. fold labels.
  assert (Hgen : forall n, (n <= length labels)%nat -> (forall j, (1 <= j <= n)%nat -> absent j) ->
    let '(r, w') := search_parents ctx' pool_id (drop n labels) w in
    w' = w /\
    match r with
    | Ok (Some z) => exists i, (1 <= i < length labels)%nat /\ look i = Ok z /\
        forall j, (1 <= j < i)%nat -> absent j
    | Ok None => forall j, (1 <= j < length labels)%nat -> absent j
    | Raise e => exists i, (1 <= i < length labels)%nat /\ look i = Raise e /\ ~ absent i /\
        forall j, (1 <= j < i)%nat -> absent j
    end).
  2:{ apply (Hgen 0%nat); [lia|]. intros j Hj. lia. }
  intros n. remember (length labels - n)%nat as k eqn:Hk. revert n Hk.
  induction k as [|k IH]; intros n Hk Hn Habs.
  { rewrite drop_ge by lia. cbn. split; [done|]. intros j Hj. apply Habs. lia. }
  destruct (drop n labels) as [|l rest] eqn:Hd.
  { apply (f_equal length) in Hd. rewrite length_drop in Hd. cbn in Hd. lia. }
  assert (Hrest : drop (S n) labels = rest).
  { rewrite <- Nat.add_1_r, <- drop_drop, Hd. done. }
  cbn [search_parents]. destruct rest as [|l' rest].
  { cbn. split; [done|]. intros j Hj. apply Habs. apply (f_equal length) in Hrest.
    rewrite length_drop in Hrest. cbn in Hrest. lia. }
  rewrite <- Hrest. unfold try_except, bind at 1.
  pose proof (find_zone_reads ctx' [("pool_id", pool_id); ("name", PStr (join "." (drop (S n) labels)))] w) as Hread.
  assert (Hlen : (S n < length labels)%nat).
  { apply (f_equal length) in Hrest. rewrite length_drop in Hrest. cbn in Hrest. lia. }
  destruct (find_zone ctx' _ w) as [[z|e] w1] eqn:Hf; rewrite (Hread _ _ eq_refl); clear Hread.
  { cbn. split; [done|]. exists (S n). split_and!; [lia|lia|unfold look; by rewrite Hf|].
    intros j Hj. apply Habs. lia. }
  unfold on. case_bool_decide as He.
  - apply IH; [lia|lia|]. intros j Hj. destruct (decide (j = S n)) as [->|]; [|apply Habs; lia].
    unfold absent, look. by rewrite Hf, He.
  - split; [done|]. exists (S n). split_and!; [lia|lia|unfold look; by rewrite Hf| |].
    + unfold absent, look. rewrite Hf. cbn. congruence.
    + intros j Hj. apply Habs. lia.
Qed.

(** ** Creating a zone *)

Lemma check_Ok rule ctx target (w : world) u w' :
  lift (check rule ctx target) w = (Ok u, w') -> enforce rule ctx target = true /\ w' = w.
Proof. unfold lift, check. destruct (enforce rule ctx target); intros [=]; by subst. Qed.

Lemma zone_name_accepted ctx name w u w' :
  _is_valid_zone_name ctx name w = (Ok u, w') ->
  (Z.of_nat (String.length name) <= conf_int "service:central.max_zone_name_len")%Z /\
  (1 < length (split_char dot (strip_dots name)))%nat.
Proof. unfold _is_valid_zone_name. intros Hr. py_inv. apply Z.ltb_ge in Hm. apply Nat.leb_gt in Hm0. done. Qed.

Definition same_owner (tenant o : pyval) : Prop :=
  exists t, getattr registry o "tenant_id" = Ok t /\ py_eq t tenant = true.

Lemma check_subzones_Ok zone subzones tenant w u w' :
  getattr registry zone "tenant_id" = Ok tenant ->
  check_subzones zone subzones w = (Ok u, w') -> Forall (same_owner tenant) subzones.
Proof.
  intros Ht. unfold check_subzones, attr. unfold bind at 1, lift at 1. rewrite Ht.
  revert w. induction subzones as [|z l IH]; intros w; [done|]. cbn [mfor].
  intros (v & w1 & Hz & Hrest)%bind_Ok. apply bind_Ok in Hz as (t & w2 & Hl & Hi).
  injection Hl as Hl <-. apply raise_if_Ok in Hi as [Hi%negb_false_iff ->].
  constructor; [|by eapply IH]. by exists t.
Qed.


(** The parent of a new zone: the closest zone above it, of the same owner. *)
Definition parent_ok (tenant zone : pyval) (parent : option pyval) : Prop :=
  match parent with
  | Some p => same_owner tenant p /\
      exists id, getattr registry p "id" = Ok id /\ cell (fields_of_obj zone) "parent_zone_id" = id
  | None => True
  end.

Lemma set_attr_Ok cls o n v w o' w' :
  set_attr o n v w = (Ok o', w') -> is_obj cls o -> in_FIELDS registry cls n = true ->
  w' = w /\ is_obj cls o' /\ fields_of_obj o' = aset n v (fields_of_obj o).
Proof.
  unfold set_attr, lift. intros [= Hs <-] Ho Hin.
  destruct (setattr_field cls o n v Ho Hin) as (o1 & Hs1 & Ho1 & Hf). rewrite Hs in Hs1.
  by injection Hs1 as <-.
Qed.

Lemma attr_Ok cls o n (w : world) v w' :
  attr o n w = (Ok v, w') -> is_obj cls o -> in_FIELDS registry cls n = true ->
  is_relation registry cls n = false -> v = cell (fields_of_obj o) n /\ w' = w.
Proof.
  intros Hr Ho Hin Hrel. revert Hr. unfold attr, lift. rewrite (getattr_plain cls) by done. by intros [= <- <-].
Qed.
Lemma cell_aset n m v (f : row) : cell (aset m v f) n = if String.eqb n m then v else cell f n.
Proof. unfold cell. rewrite aget_aset. by destruct (String.eqb n m). Qed.

(** The parent step. *)
Lemma parent_step zone tenant parent w zone' w' :
  is_obj "Zone" zone ->
  match parent with
  | Some p =>
      let! t := attr p "tenant_id" in
      if py_eq t tenant
      then let! id := attr p "id" in set_attr zone "parent_zone_id" id
      else raise (Forbidden IllegalChildZone)
  | None => ret zone
  end w = (Ok zone', w') ->
  parent_ok tenant zone' parent /\ is_obj "Zone" zone' /\ w' = w /\
  forall n, n <> "parent_zone_id" -> cell (fields_of_obj zone') n = cell (fields_of_obj zone) n.
Proof.
  intros Hz. destruct parent as [p|]; [|by intros [= <- <-]].
  intros (t & w1 & Ht & Hr)%bind_Ok. injection Ht as Ht <-.
  destruct (py_eq t tenant) eqn:He; [|done].
  apply bind_Ok in Hr as (id & w2 & Hid & Hr). injection Hid as Hid <-.
  destruct (set_attr_Ok "Zone" _ _ _ _ _ _ Hr Hz eq_refl) as (-> & Hz' & Hf).
  split_and!; [|done..|].
  - split; [by exists t|]. exists id. by rewrite Hf, cell_aset.
  - intros n Hn. rewrite Hf, cell_aset. by destruct (String.eqb_spec n "parent_zone_id").
Qed.

(** C3: a zone that is created has its place. If the checks before a creation
    pass, the creating tenant (the one the zone names, else the caller's) is
    allowed to create it and below its limit of zones; the name has more than one
    label and is not too long; the closest stored zone above, if there is one,
    belongs to the same tenant and becomes the parent; all stored zones below
    belong to the same tenant; and the pool the scheduler chose has name servers.
    Passed or failed, the checks leave no trace: a refused creation changes
    nothing. *)
Theorem create_zone_checks_sound bfs rc filters ctx zone w r w' :
  is_obj "Zone" zone -> create_zone_checks bfs rc filters ctx zone w = (r, w') ->
  w' = w /\
  match r with
  | Raise _ => True
  | Ok (zone', subzones) =>
      let field := cell (fields_of_obj zone') in
      let own := cell (fields_of_obj zone) "tenant_id" in
      let tenant := field "tenant_id" in
      tenant = (if truthy own then own else tenant_val ctx) /\
      enforce "create_zone" ctx [("tenant_id", tenant); ("zone_name", field "name")] = true /\
      (exists count, count_zones ctx [("tenant_id", tenant)] w = (Ok count, w) /\
                     limit_check ctx tenant [("zones", count)] w = (Ok tt, w)) /\
      (exists name, field "name" = PStr name /\
         (Z.of_nat (String.length name) <= conf_int "service:central.max_zone_name_len")%Z /\
         (1 < length (split_char dot (strip_dots name)))%nat /\
         (exists parent, _is_subzone ctx name (field "pool_id") w = (Ok parent, w) /\
                         parent_ok tenant zone' parent) /\
         _is_superzone ctx name (field "pool_id") w = (Ok subzones, w)) /\
      Forall (same_owner tenant) subzones /\
      exists ns, _get_pool_ns_records ctx (field "pool_id") w = (Ok ns, w) /\ ns <> []
  end.
Proof.
  intros Hz Hrun. split; [by eapply create_zone_checks_reads|].
  destruct r as [[zone' subzones]|]; [|done]. unfold create_zone_checks in Hrun.
  apply bind_Ok in Hrun as (own & w1 & Hown & Hrun).
  destruct (attr_Ok "Zone" _ _ _ _ _ Hown Hz eq_refl eq_refl) as [-> ->].
  apply bind_Ok in Hrun as (zone1 & w1 & Hset & Hrun).
  destruct (set_attr_Ok "Zone" _ _ _ _ _ _ Hset Hz eq_refl) as (-> & Hz1 & Hf1).
  apply bind_Ok in Hrun as (tenant & w1 & Ht & Hrun).
  destruct (attr_Ok "Zone" _ _ _ _ _ Ht Hz1 eq_refl eq_refl) as [-> ->]. clear Hown Hset Ht.
  apply bind_Ok in Hrun as (name_ & w1 & Hn & Hrun).
  destruct (attr_Ok "Zone" _ _ _ _ _ Hn Hz1 eq_refl eq_refl) as [-> ->]. clear Hn.
  set (tenant := cell (fields_of_obj zone1) "tenant_id") in *.
  apply bind_Ok in Hrun as (? & w1 & [Hpol ->]%check_Ok & Hrun).
  apply bind_Ok in Hrun as ([] & w1 & Hq & Hrun).
  apply bind_Ok in Hq as (count & w2 & Hcount & Hlim).
  apply bind_Ok in Hrun as (name & w3 & Hname & Hrun).
  apply bind_Ok in Hrun as (? & w4 & Hvalid & Hrun).
  apply bind_Ok in Hrun as (ttl & w5 & Httl & Hrun).
  apply bind_Ok in Hrun as (? & w6 & Hcheck & Hrun).
  apply bind_Ok in Hrun as (pool_id & w7 & Hpool & Hrun).
  apply bind_Ok in Hrun as (zone2 & w8 & Hset & Hrun).
  destruct (set_attr_Ok "Zone" _ _ _ _ _ _ Hset Hz1 eq_refl) as (-> & Hz2 & Hf2). clear Hset.
  apply bind_Ok in Hrun as (parent & w8 & Hparent & Hrun).
  apply bind_Ok in Hrun as (zone3 & w9 & Hstep & Hrun).
  destruct (parent_step _ _ _ _ _ _ Hz2 Hstep) as (Hpar & Hz3 & -> & Hf3). clear Hstep.
  apply bind_Ok in Hrun as (subs & w9 & Hsuper & Hrun).
  apply bind_Ok in Hrun as (? & w10 & Hsubs & Hrun).
  apply bind_Ok in Hrun as (ns & w11 & Hns & Hrun).
  apply bind_Ok in Hrun as (? & w12 & [Hlen ->]%raise_if_Ok & Hrun). injection Hrun as <- <- <-.
  assert (Hname' : cell (fields_of_obj zone1) "name" = PStr name).
  { destruct (cell (fields_of_obj zone1) "name"); try done. by injection Hname as ->. }
  pose proof (zone_name_accepted _ _ _ _ _ Hvalid) as [Hfits Hlabels].
  reads_subst.
  assert (Htenant3 : cell (fields_of_obj zone3) "tenant_id" = tenant).
  { rewrite Hf3 by done. by rewrite Hf2, cell_aset. }
  assert (Hname3 : cell (fields_of_obj zone3) "name" = PStr name).
  { rewrite Hf3 by done. by rewrite Hf2, cell_aset. }
  assert (Hpool3 : cell (fields_of_obj zone3) "pool_id" = pool_id).
  { rewrite Hf3 by done. by rewrite Hf2, cell_aset. }
  cbv zeta. rewrite Htenant3, Hname3, Hpool3, <- Hname'. split_and!.
  - subst tenant. by rewrite Hf1, cell_aset.
  - done.
  - by exists count.
  - exists name. split_and!; try done. by exists parent.
  - eapply check_subzones_Ok; [|exact Hsubs]. rewrite (getattr_plain "Zone") by done. by rewrite Htenant3.
  - exists ns. split; [done|]. by destruct ns.
Qed.
End Checks.

(** ** A zone below another one of the same tenant *)
Definition zone_row (id tenant name : string) (parent : pyval) : row :=
  [("id", PStr id); ("version", PInt 1); ("created_at", PInt 1); ("updated_at", PNone);
   ("deleted", PStr "0"); ("deleted_at", PNone); ("shard", PInt 0); ("tenant_id", PStr tenant);
   ("name", PStr name); ("email", PStr "a@b.org"); ("type", PStr "PRIMARY"); ("ttl", PInt 300);
   ("serial", PInt 5); ("status", PStr "ACTIVE"); ("action", PStr "NONE"); ("pool_id", PStr "p1");
   ("parent_zone_id", parent)].
Definition ns_record_row (id pool : string) : row :=
  [("id", PStr id); ("version", PInt 1); ("created_at", PInt 1); ("updated_at", PNone);
   ("pool_id", PStr pool); ("priority", PInt 1); ("hostname", PStr "ns1.org.")].
Definition zones_db : db :=
  [("pools", [pool_row "p1" "gold"]); ("pool_ns_records", [ns_record_row "n1" "p1"]);
   ("zones", [zone_row "z1" "t1" "b.org." PNone; zone_row "z2" "t1" "x.b.org." (PStr "z1")])].
Definition new_zone : pyval :=
  PObj "Zone" [("name", PStr "a.b.org."); ("type", PStr "PRIMARY"); ("ttl", PNone)] [] [].

#[local] Existing Instances ref_env ref_engine.
Lemma create_zone_checks_sound_witness :
  exists zone', (create_zone_checks (fun _ => None) (fun _ => 0%nat) [FallbackFilter] ref_context new_zone
                   (ref_world zones_db)).1 = Ok (zone', []) /\
    cell (fields_of_obj zone') "parent_zone_id" = PStr "z1" /\
    enforce "create_zone" ref_context [("tenant_id", PStr "t1"); ("zone_name", PStr "a.b.org.")] = true.
Proof.
  set (run := create_zone_checks _ _ _ _ _ _).
  pose (zone' := match run.1 with Ok (z, _) => z | Raise _ => PNone end).
  assert (Hrun : run = (Ok (zone', []), run.2)) by (vm_compute; reflexivity).
  exists zone'. split; [by rewrite Hrun|]. split; [vm_compute; reflexivity|].
  assert (Hz : is_obj "Zone" new_zone) by (do 3 eexists; reflexivity).
  destruct (create_zone_checks_sound (fun _ => None) (fun _ => 0%nat) [FallbackFilter] ref_context new_zone
    (ref_world zones_db) _ _ Hz Hrun) as [_ (_ & Hp & _)].
  vm_compute in Hp. vm_compute. exact Hp.
Defined.

Lemma is_subzone_closest_witness :
  exists z, (_is_subzone ref_context "a.b.org." (PStr "p1") (ref_world zones_db)).1 = Ok (Some z) /\
    str_attr z "id" = "z1" /\ (_is_subzone ref_context "a.b.org." (PStr "p1") (ref_world zones_db)).2 = ref_world zones_db.
Proof.
  assert (Hel : exists ctx', elevated None true false ref_context = Ok ctx') by (eexists; vm_compute; reflexivity).
  destruct Hel as [ctx' Hel].
  pose proof (is_subzone_closest ref_context ctx' "a.b.org." (PStr "p1") (ref_world zones_db) Hel) as H.
  set (run := _is_subzone _ _ _ _) in *.
  pose (z := match run.1 with Ok (Some z) => z | _ => PNone end).
  assert (Hrun : run = (Ok (Some z), run.2)) by (vm_compute; reflexivity).
  exists z. rewrite Hrun in H. cbv zeta beta iota in H. split; [by rewrite Hrun|]. split; [vm_compute; reflexivity|].
  rewrite Hrun. exact (proj1 H).
Defined.
