(* ===== verification/CentralZonesFacts.v ===== *)
(** * Theorems about the life of zones

    Deletion and changes are guarded; what a failed change looks like afterwards;
    transfers are all or nothing. *)
From Stdlib Require Import ZArith Lia Ascii String.
From stdpp Require Import base option numbers strings sets list.
From S2P Require Import Prelude PyStr Exceptions Values Objects Utils Classes World Decorators Sql SqlFacts Tables Storage StorageFacts Quota Scheduler Central CentralZones CentralFacts.
Local Open Scope string_scope.

(** An identifier a criterion takes literally. *)
Definition plain_id (id : string) : Prop :=
  forall n, criterion_clause n (PStr id) = Ok (Cmp n OEq (PStr id)).

Section Facts.
Context `{Env} `{SqlEngine} `{Services}.

Lemma count_zones_rows ctx id w :
  plain_id id ->
  count_zones ctx [("parent_zone_id", PStr id)] w =
  (Ok (Z.of_nat (length (filter (fun r => wanted ctx zones_table [("parent_zone_id", PStr id)] true r = true)
                           (rows_of (w_db w) zones_table)))), w).
Proof.
  intros Hid. unfold count_zones, _count, count_where, execute_select, bind, lift, gets, ret.
  destruct (find_query ctx zones_table select_all [("parent_zone_id", PStr id)] true) as [q|e] eqn:Hq.
  - destruct (find_query_spec _ _ _ _ _ Hq) as (Ho & Hl & Hs). unfold run. rewrite Ho, Hl, order_rows_nil.
    by rewrite (filter_ext_bool _ _ _ Hs).
  - unfold find_query in Hq. cbn [_apply_criterion] in Hq.
    change (has_column zones_table "parent_zone_id") with true in Hq. cbn [negb] in Hq.
    by rewrite Hid in Hq.
Qed.

#[export] Instance zone_target_reads id zone : Reads (zone_target id zone).
Proof. unfold zone_target. apply _. Qed.
#[export] Instance check_policy_reads rule ctx target : Reads (check_policy rule ctx target).
Proof. unfold check_policy. apply _. Qed.
#[export] Instance get_zone_checked_reads ctx id : Reads (get_zone_checked ctx id).
Proof. unfold get_zone_checked. apply _. Qed.

(** C10: no zone is deleted over the head of its children. A deletion, or an
    abandonment, only gets as far as changing anything when the zone is stored and
    visible, policy allows it, and no live zone visible to the caller names the
    zone as its parent; in every other case it raises and changes nothing. The
    children that count are the visible ones: a child that belongs to another
    tenant, as after the transfer of one of the two, does not stop the deletion. *)
Theorem delete_zone_guarded ctx id w r w' :
  plain_id id -> delete_zone_body ctx (PStr id) w = (r, w') ->
  (exists e, r = Raise e /\ w' = w) \/
  (exists zone target,
     get_zone ctx (PStr id) w = (Ok zone, w) /\ zone_target (PStr id) zone w = (Ok target, w) /\
     enforce (if abandon ctx then "abandon_zone" else "delete_zone") ctx target = true /\
     forall child, child ∈ rows_of (w_db w) zones_table ->
       wanted ctx zones_table [("parent_zone_id", PStr id)] true child = false).
Proof.
  intros Hid. unfold delete_zone_body. unfold bind at 1.
  destruct (get_zone ctx (PStr id) w) as [[zone|e] w1] eqn:Hz; apply get_zone_reads in Hz as Hw; subst w1.
  2:{ intros [= <- <-]. left. by eexists. }
  unfold bind at 1. destruct (zone_target (PStr id) zone w) as [[target|e] w1] eqn:Ht;
    apply zone_target_reads in Ht as Hw; subst w1.
  2:{ intros [= <- <-]. left. by eexists. }
  unfold check_policy, check. unfold bind at 1, lift.
  destruct (enforce _ ctx target) eqn:He; [|intros [= <- <-]; left; by eexists].
  unfold bind at 1. rewrite count_zones_rows by done. set (l := filter _ _).
  unfold bind at 1. destruct (0 <? Z.of_nat (length l))%Z eqn:Hn; cbn [raise_if].
  { intros [= <- <-]. left. by eexists. }
  intros _. right. exists zone, target. split_and!; [done..|].
  intros child Hc. apply not_true_iff_false. intros Hw.
  assert (Hin : child ∈ l) by (apply list_elem_of_filter; done).
  destruct l; [by apply not_elem_of_nil in Hin|apply Z.ltb_ge in Hn; cbn [length] in Hn; lia].
Qed.

(** A change of a zone cannot move it. An update only gets as far as changing
    anything when policy allows it for the zone as it was before the caller's
    changes, and the changes leave the owner and the name alone; in every other
    case it raises and changes nothing. *)
Theorem update_zone_guarded ctx increment zone w r w' :
  update_zone_body ctx increment zone w = (r, w') ->
  (exists e, r = Raise e /\ w' = w) \/
  (exists id name tenant changes,
     obj_get_original_value registry zone "id" = Ok id /\
     obj_get_original_value registry zone "name" = Ok name /\
     obj_get_original_value registry zone "tenant_id" = Ok tenant /\
     enforce "update_zone" ctx [("zone_id", id); ("zone_name", name); ("tenant_id", tenant)] = true /\
     obj_get_changes registry zone = Ok changes /\
     "tenant_id" ∉ changes.*1 /\ "name" ∉ changes.*1 /\
     _update_zone ctx increment changes zone w = (r, w')).
Proof.
  unfold update_zone_body, check_policy, check. unfold bind, lift.
  destruct (obj_get_original_value registry zone "id") as [id|e]; [|intros [= <- <-]; left; by eexists].
  destruct (obj_get_original_value registry zone "name") as [name|e]; [|intros [= <- <-]; left; by eexists].
  destruct (obj_get_original_value registry zone "tenant_id") as [t|e]; [|intros [= <- <-]; left; by eexists].
  destruct (enforce _ _ _) eqn:He; [|intros [= <- <-]; left; by eexists].
  destruct (obj_get_changes registry zone) as [changes|e]; [|intros [= <- <-]; left; by eexists].
  unfold raise_if. destruct (mem_str "tenant_id" changes.*1) eqn:Ht; [intros [= <- <-]; left; by eexists|].
  destruct (mem_str "name" changes.*1) eqn:Hn; [intros [= <- <-]; left; by eexists|].
  unfold ret. destruct (check_ttl ctx _ w) as [[u|e] w1] eqn:Hc; apply check_ttl_reads in Hc as ->.
  2:{ intros [= <- <-]. left. by eexists. }
  intros Hr. right. exists id, name, t, changes. split_and!; try done.
  - intros Hin%mem_str_elem. congruence.
  - intros Hin%mem_str_elem. congruence.
Qed.

(** ** Reports of the workers *)

Lemma settle_update_records ctx status l w :
  mfor l (settle_record ctx "UPDATE" status) w = (Ok tt, w).
Proof. induction l as [|r l IH]; [done|]. cbn [mfor]. unfold bind, settle_record at 1. exact IH. Qed.

Lemma aset_over {V} k k' (x v v' : V) (d : list (string * V)) :
  k <> k' -> k ∈ d.*1 -> aset k v (aset k' v' (aset k x d)) = aset k v (aset k' v' d).
Proof.
  intros Hk. induction d as [|[k1 v1] d IH]; cbn; [set_solver|].
  intros Hin. destruct (String.eqb_spec k k1) as [->|Hne]; cbn.
  - destruct (String.eqb_spec k' k1) as [->|]; [done|]. cbn. by rewrite String.eqb_refl.
  - apply elem_of_cons in Hin as [?|Hin]; [done|].
    destruct (String.eqb_spec k' k1) as [->|]; cbn.
    + destruct (String.eqb_spec k k1); [done|]. f_equal. clear IH Hk Hne n.
      induction d as [|[k2 v2] d IH]; cbn in *; [set_solver|].
      destruct (String.eqb_spec k k2) as [->|]; cbn; [by rewrite String.eqb_refl|].
      destruct (String.eqb_spec k k2); [done|]. f_equal. apply IH. set_solver.
    + destruct (String.eqb_spec k k1); [done|]. f_equal. by apply IH.
Qed.

(** The report of a worker on a zone: the status it sets. *)
Definition reported (status : string) (z : pyval) : R pyval := setattr registry z "status" (PStr status).

(** The zone [settle] makes, whatever was reported. *)
Definition settled_zone (f : list (string * pyval)) (ch : list string) (og : list (string * pyval))
    (s0 : pyval) : pyval :=
  let og1 := if mem_str "status" og.*1 then og else aset "status" s0 og in
  PObj "Zone" (aset "status" (PStr "ACTIVE") (aset "action" (PStr "NONE") f))
    (add_name "action" (add_name "status" ch))
    (if mem_str "action" og1.*1 then og1 else aset "action" (PStr "UPDATE") og1).

Lemma mem_add_name n m l : mem_str n (add_name m l) = String.eqb n m || mem_str n l.
Proof.
  apply eq_true_iff_eq. rewrite orb_true_iff, String.eqb_eq, !mem_str_elem, (add_name_elem registry). done.
Qed.
Lemma mem_aset_keys {V} k k' (v : V) d :
  mem_str k (aset k' v d).*1 = String.eqb k k' || mem_str k d.*1.
Proof.
  apply eq_true_iff_eq. rewrite orb_true_iff, String.eqb_eq, !mem_str_elem, aset_elem_keys. done.
Qed.

Lemma settle_reported f ch og s0 status z w :
  aget "status" f = Some (PStr s0) -> aget "action" f = Some (PStr "UPDATE") ->
  s0 <> status -> status <> "ACTIVE" -> reported status (PObj "Zone" f ch og) = Ok z ->
  settle z w = (Ok (settled_zone f ch og (PStr s0)), w) /\
  str_attr z "status" = status /\ str_attr z "action" = "UPDATE" /\
  getattr registry z "id" = getattr registry (PObj "Zone" f ch og) "id".
Proof.
  intros Hs Ha Hne Hact. unfold reported, setattr.
  change (in_FIELDS registry "Zone" "status") with true. cbn [negb]. rewrite Hs.
  rewrite py_eq_str, (proj2 (String.eqb_neq status s0)) by congruence. cbn [negb andb].
  intros [= <-]. split_and!.
  - unfold settle, with_life, set_attr, bind, lift. unfold setattr at 1.
    change (in_FIELDS registry "Zone" "action") with true. cbn [negb].
    rewrite aget_aset. cbn [String.eqb Ascii.eqb Bool.eqb]. rewrite Ha. cbn [py_eq negb andb].
    change (negb (String.eqb "NONE" "UPDATE")) with true. cbn [andb].
    unfold setattr. change (in_FIELDS registry "Zone" "status") with true. cbn [negb].
    rewrite !aget_aset. cbn [String.eqb Ascii.eqb Bool.eqb].
    rewrite py_eq_str, (proj2 (String.eqb_neq "ACTIVE" status)) by congruence. cbn [negb andb].
    unfold settled_zone. do 3 f_equal.
    + apply aset_over; [done|]. apply aget_Some_elem in Hs. apply list_elem_of_fmap. by exists ("status", PStr s0).
    + unfold add_name at 1. by rewrite !mem_add_name.
    + set (og1 := if negb (mem_str "status" og.*1) then _ else og).
      assert (Hog : og1 = if mem_str "status" og.*1 then og else aset "status" (PStr s0) og).
      { unfold og1. by destruct (mem_str "status" og.*1). }
      assert (Hin : mem_str "status" og1.*1 = true).
      { rewrite Hog. destruct (mem_str "status" og.*1) eqn:Hm; [done|]. by rewrite mem_aset_keys. }
      rewrite <- Hog. destruct (mem_str "action" og1.*1); cbn [negb]; [by rewrite Hin|].
      rewrite mem_aset_keys, Hin. by rewrite orb_true_r.
  - unfold str_attr, getattr. change (in_FIELDS registry "Zone" "status") with true. cbn [negb].
    by rewrite aget_aset_eq.
  - unfold str_attr, getattr. change (in_FIELDS registry "Zone" "action") with true. cbn [negb].
    rewrite aget_aset. cbn [String.eqb Ascii.eqb Bool.eqb]. by rewrite Ha.
  - unfold getattr. change (in_FIELDS registry "Zone" "id") with true. cbn [negb].
    by rewrite aget_aset.
Qed.

(** Central cannot tell a failed update from one that succeeded. When the
    worker reports that the UPDATE of a zone ended in ERROR, central does exactly
    what it does when the update ended in SUCCESS: it stores the zone as ACTIVE
    with nothing to do. So the recovery, which looks for zones in ERROR, never
    finds an update that failed. *)
Theorem failed_update_recorded_active ctx f ch og s0 ok err w :
  aget "status" f = Some (PStr s0) -> aget "action" f = Some (PStr "UPDATE") ->
  s0 ∉ ["SUCCESS"; "ERROR"] ->
  reported "SUCCESS" (PObj "Zone" f ch og) = Ok ok -> reported "ERROR" (PObj "Zone" f ch og) = Ok err ->
  update_zone_status ctx err w = update_zone_status ctx ok w /\
  forall z w', update_zone_status ctx err w = (Ok z, w') ->
    cell (fields_of_obj z) "status" = PStr "ACTIVE" /\ cell (fields_of_obj z) "action" = PStr "NONE".
Proof.
  intros Hs Ha Hs0 Hok Herr.
  assert (Hgen : forall status z, status ∈ ["SUCCESS"; "ERROR"] -> reported status (PObj "Zone" f ch og) = Ok z ->
    update_zone_status ctx z w =
    (let! id := attr (PObj "Zone" f ch og) "id" in
     find_records ctx [("zone_id", id)] no_page ;;;
     let z := settled_zone f ch og (PStr s0) in update_zone ctx z ;;; ret z) w).
  { intros status z Hin Hr.
    assert (Hne : s0 <> status) by (intros ->; done).
    assert (Hact : status <> "ACTIVE") by (intros ->; elem_cases Hin).
    pose proof (fun v => settle_reported f ch og s0 status z v Hs Ha Hne Hact Hr) as Hset.
    destruct (Hset w) as (_ & Hst & Hac & Hid).
    unfold update_zone_status, attr. unfold bind at 1, lift at 1. rewrite Hid, Hst, Hac.
    unfold bind at 4, lift. destruct (getattr registry (PObj "Zone" f ch og) "id") as [id|e] eqn:Hid1; [|done].
    unfold bind at 1 3. destruct (find_records _ _ _ w) as [[l|e] w2]; [|done].
    unfold bind at 1. rewrite settle_update_records. unfold settle_zone, attr. unfold bind at 1, lift.
    rewrite Hid. elem_cases Hin; cbn; unfold bind at 1; by rewrite (proj1 (Hset w2)). }
  rewrite (Hgen "ERROR" err), (Hgen "SUCCESS" ok) by (done || set_solver). split; [done|].
  intros z w' (id & w1 & _ & Hr)%bind_Ok. apply bind_Ok in Hr as (l & w2 & _ & Hr).
  apply bind_Ok in Hr as (z1 & w3 & _ & Hr). injection Hr as <- _.
  unfold settled_zone, cell. cbn [fields_of_obj]. rewrite !aget_aset. done.
Qed.

(** ** Transfers *)
#[local] Hint Constants Opaque : typeclass_instances.
#[export] Instance transfer_request_reads ctx id : Reads (get_transfer_request ctx id).
Proof. unfold get_transfer_request. apply _. Qed.
#[export] Instance hand_over_balanced ctx id t : Balanced (hand_over ctx id t).
Proof. unfold hand_over. balanced. Qed.
#[export] Instance update_accept_balanced ctx a : Balanced (update_accept ctx a).
Proof. unfold update_accept. apply _. Qed.
#[export] Instance transfer_accept_balanced ctx accept : Balanced (create_transfer_accept_body ctx accept).
Proof.
  unfold create_transfer_accept_body. balanced.
  all: apply try_else_balanced; [apply _| |intros; balanced].
  all: intros e k; unfold on_exception; intros Hk; repeat (case_match; simplify_eq); balanced.
Qed.
#[export] Instance unary_balanced {A} (f : pyval -> P world A) args :
  (forall x, Balanced (f x)) -> Balanced (unary f args).
Proof. intros Hf. unfold unary. destruct args as [|x [|]]; [apply _|apply Hf|apply _]. Qed.

(** What an accepted transfer has passed. *)
Definition transfer_checked (ctx : context) (accept : pyval) (v : world) : Prop :=
  exists request_id request key given target,
    getattr registry accept "zone_transfer_request_id" = Ok request_id /\
    get_transfer_request ctx request_id v = (Ok request, v) /\
    str_attr request "status" = "ACTIVE" /\
    getattr registry request "key" = Ok key /\ py_eq key given = true /\
    (exists accept' zone_id, setattr registry accept "zone_id" zone_id = Ok accept' /\
       getattr registry request "zone_id" = Ok zone_id /\ getattr registry accept' "key" = Ok given) /\
    getattr registry request "target_tenant_id" = Ok target /\
    enforce "create_zone_transfer_accept" ctx [("target_tenant_id", target)] = true.

Lemma transfer_body_Ok ctx accept v created v' :
  create_transfer_accept_body ctx accept v = (Ok created, v') -> transfer_checked ctx accept v.
Proof.
  unfold create_transfer_accept_body, attr, set_attr.
  intros (ectx & v1 & [= Hel <-] & Hr)%bind_Ok.
  apply bind_Ok in Hr as (request_id & v1 & [= Hid <-] & Hr).
  apply bind_Ok in Hr as (request & v1 & Hreq & Hr).
  assert (v1 = v) as -> by (by eapply transfer_request_reads).
  apply bind_Ok in Hr as (zone_id & v1 & [= Hzid <-] & Hr).
  apply bind_Ok in Hr as (accept' & v1 & [= Hset <-] & Hr).
  apply bind_Ok in Hr as (u & v1 & [Hst%negb_false_iff ->]%raise_if_Ok & Hr).
  apply bind_Ok in Hr as (key & v1 & [= Hkey <-] & Hr).
  apply bind_Ok in Hr as (given & v1 & [= Hgiven <-] & Hr).
  apply bind_Ok in Hr as (u' & v1 & [Heq%negb_false_iff ->]%raise_if_Ok & Hr).
  apply bind_Ok in Hr as (target & v1 & [= Htarget <-] & Hr).
  apply bind_Ok in Hr as (u'' & v1 & [Hpol ->]%check_Ok & _).
  exists request_id, request, key, given, target. apply String.eqb_eq in Hst.
  split_and!; try done. by exists accept', zone_id.
Qed.

(** C7: a zone changes hands completely or not at all, and only against the key. A
    transfer that is accepted was active, was opened with the key the acceptor
    gave, and was allowed by policy for the tenant it is addressed to. A transfer
    that fails, at whatever point, leaves the whole database as it was; so the
    ERROR that the method stores on the acceptance before it raises is never
    seen. *)
Theorem transfer_all_or_nothing ctx accept w r w' :
  w_tx w = [] -> w_doomed w = false -> w_retry_held w = false -> w_retries w = 0%nat ->
  transaction (unary (create_transfer_accept_body ctx)) [accept] w = (r, w') ->
  match r with
  | Raise _ => w_db w' = w_db w
  | Ok _ => exists v, w_db v = w_db w /\ transfer_checked ctx (deepcopy registry accept) v
  end.
Proof.
  intros Htx Hd Hh Hr Hrun.
  pose proof (transaction_outermost _ _ _ _ _ _ Htx Hd Hh Hr Hrun) as Hres.
  destruct r as [created|e]; [|exact Hres]. destruct Hres as (v & v' & Hdb & Hbody & _).
  exists v. split; [exact Hdb|]. exact (transfer_body_Ok _ _ _ _ _ Hbody).
Qed.
End Facts.

(** ** The theorems at concrete zones *)
#[local] Existing Instances ref_env ref_engine.
#[local] Instance quiet_services : Services := {| reply := fun _ => Ok PNone |}.
Definition is_Ok {A} (r : R A) : bool := match r with Ok _ => true | Raise _ => false end.

Lemma delete_zone_guarded_witness :
  let run := delete_zone_body ref_context (PStr "z1") (ref_world zones_db) in
  exists e, run.1 = Raise e /\ run.2 = ref_world zones_db.
Proof.
  cbv zeta. set (run := delete_zone_body _ _ _).
  assert (Hid : plain_id "z1") by (intros n; reflexivity).
  destruct (delete_zone_guarded ref_context "z1" (ref_world zones_db) run.1 run.2 Hid (surjective_pairing run))
    as [(e & He & Hw)|(zone & target & _ & _ & _ & Hnone)]; [by exists e|exfalso].
  specialize (Hnone (zone_row "z2" "t1" "x.b.org." (PStr "z1"))). vm_compute in Hnone.
  by discriminate Hnone; right; left.
Defined.

(** A child of another tenant does not stop the deletion, and is left behind. *)
Definition orphaning_db : db :=
  [("zones", [zone_row "z1" "t1" "b.org." PNone; zone_row "z2" "t2" "x.b.org." (PStr "z1")])].
Example orphaning_deletion :
  let run := delete_zone_body ref_context (PStr "z1") (ref_world orphaning_db) in
  is_Ok run.1 = true /\
  existsb (fun r => py_eq (cell r "parent_zone_id") (PStr "z1")) (rows_of (w_db run.2) zones_table) = true.
Proof. vm_compute. by split. Qed.

Lemma update_zone_guarded_witness :
  let zone := PObj "Zone" [("id", PStr "z1"); ("name", PStr "c.org."); ("tenant_id", PStr "t1")] ["name"]
                [("name", PStr "b.org.")] in
  let run := update_zone_body ref_context false zone (ref_world zones_db) in
  exists e, run.1 = Raise e /\ run.2 = ref_world zones_db.
Proof.
  cbv zeta. set (run := update_zone_body _ _ _ _).
  destruct (update_zone_guarded ref_context false
    (PObj "Zone" [("id", PStr "z1"); ("name", PStr "c.org."); ("tenant_id", PStr "t1")] ["name"]
       [("name", PStr "b.org.")]) (ref_world zones_db) run.1 run.2 (surjective_pairing run))
    as [H|(id & name & tenant & changes & _ & _ & _ & _ & Hc & _ & Hname & _)]; [exact H|exfalso].
  vm_compute in Hc. injection Hc as <-. apply Hname. by left.
Defined.

Definition pending_fields : list (string * pyval) :=
  [("id", PStr "z1"); ("name", PStr "b.org."); ("tenant_id", PStr "t1"); ("type", PStr "PRIMARY");
   ("status", PStr "PENDING"); ("action", PStr "UPDATE")].
Lemma failed_update_recorded_active_witness :
  exists ok err, reported "SUCCESS" (PObj "Zone" pending_fields [] []) = Ok ok /\
    reported "ERROR" (PObj "Zone" pending_fields [] []) = Ok err /\
    update_zone_status ref_context err (ref_world zones_db) = update_zone_status ref_context ok (ref_world zones_db) /\
    is_Ok (update_zone_status ref_context err (ref_world zones_db)).1 = true.
Proof.
  do 2 eexists. split; [reflexivity|]. split; [reflexivity|]. split; [|vm_compute; reflexivity].
  exact (proj1 (failed_update_recorded_active ref_context pending_fields [] [] "PENDING" _ _ (ref_world zones_db)
    eq_refl eq_refl ltac:(set_solver) eq_refl eq_refl)).
Defined.

Definition request_row : row :=
  [("id", PStr "q1"); ("version", PInt 1); ("created_at", PInt 1); ("updated_at", PNone);
   ("tenant_id", PStr "t0"); ("target_tenant_id", PStr "t1"); ("zone_id", PStr "z9"); ("key", PStr "K");
   ("description", PNone); ("status", PStr "ACTIVE")].
Definition transfer_db (action : string) : db :=
  [("zone_transfer_requests", [request_row]); ("zone_transfer_accepts", []);
   ("zones", [aset "action" (PStr action) (zone_row "z9" "t0" "b.org." PNone)])].
Definition accept_of (key : string) : pyval :=
  PObj "ZoneTransferAccept" [("zone_transfer_request_id", PStr "q1"); ("key", PStr key)]
    ["zone_transfer_request_id"; "key"] [].
#[local] Abbreviation accept_run key action :=
  (transaction (unary (create_transfer_accept_body ref_context)) [accept_of key] (ref_world (transfer_db action))).
Lemma transfer_all_or_nothing_witness :
  (is_Ok (accept_run "K" "NONE").1 = true /\
   exists v, w_db v = transfer_db "NONE" /\ transfer_checked ref_context (deepcopy registry (accept_of "K")) v) /\
  (is_Ok (accept_run "K" "DELETE").1 = false /\ w_db (accept_run "K" "DELETE").2 = transfer_db "DELETE").
Proof.
  split.
  - assert (Hok : is_Ok (accept_run "K" "NONE").1 = true) by (vm_compute; reflexivity).
    split; [exact Hok|].
    pose proof (transfer_all_or_nothing ref_context (accept_of "K") (ref_world (transfer_db "NONE"))
      (accept_run "K" "NONE").1 (accept_run "K" "NONE").2 eq_refl eq_refl eq_refl eq_refl
      (surjective_pairing (accept_run "K" "NONE"))) as H.
    destruct (accept_run "K" "NONE").1; [exact H|discriminate Hok].
  - assert (Hno : is_Ok (accept_run "K" "DELETE").1 = false) by (vm_compute; reflexivity).
    split; [exact Hno|].
    pose proof (transfer_all_or_nothing ref_context (accept_of "K") (ref_world (transfer_db "DELETE"))
      (accept_run "K" "DELETE").1 (accept_run "K" "DELETE").2 eq_refl eq_refl eq_refl eq_refl
      (surjective_pairing (accept_run "K" "DELETE"))) as H.
    destruct (accept_run "K" "DELETE").1; [discriminate Hno|exact H].
Defined.
