(* ===== verification/CentralRecords.v ===== *)
(** * Central: record sets and records (designate/central/service.py)

    Creating, changing and deleting record sets and records, what the reports of
    the worker do to them, the records every new zone gets, and the second half of
    the creation of a zone. A decorated method appears as a body and with its
    decorators. *)
From Stdlib Require Import ZArith Lia Ascii String.
From stdpp Require Import base option numbers strings sets list.
From S2P Require Import Prelude PyStr Exceptions Values Objects Utils Classes World Decorators Sql Tables Storage StorageZdns Quota Scheduler Central CentralZones.
Local Open Scope string_scope.

(** [base64.b64encode] *)
Definition b64_digit (n : N) : ascii :=
  match String.get (N.to_nat n) "ABCDEFGHIJKLMNOPQRSTUVWXYZabcdefghijklmnopqrstuvwxyz0123456789+/" with
  | Some c => c
  | None => "="%char
  end.
Definition b64_group (a b c : N) : list ascii :=
  let n := (a * 65536 + b * 256 + c)%N in
  map (fun k => b64_digit (N.modulo (N.shiftr n k) 64)) [18; 12; 6; 0]%N.
Fixpoint b64_chars (l : list ascii) : list ascii :=
  match l with
  | [] => []
  | [a] => app (take 2 (b64_group (N_of_ascii a) 0 0)) ["="%char; "="%char]
  | [a; b] => app (take 3 (b64_group (N_of_ascii a) (N_of_ascii b) 0)) ["="%char]
  | a :: b :: c :: rest => app (b64_group (N_of_ascii a) (N_of_ascii b) (N_of_ascii c)) (b64_chars rest)
  end.
Definition b64encode (s : string) : string := string_of_list_ascii (b64_chars (list_ascii_of_string s)).
Example b64_3600 : b64encode "3600" = "MzYwMA==". Proof. reflexivity. Qed.

Definition binary {A} (f : pyval -> pyval -> P world A) (args : list pyval) : P world A :=
  match args with [x; y] => f x y | _ => raise (Py PyTypeError) end.
Definition ternary {A} (f : pyval -> pyval -> pyval -> P world A) (args : list pyval) : P world A :=
  match args with [x; y; z] => f x y z | _ => raise (Py PyTypeError) end.

Section Records.
Context `{Env} `{SqlEngine} `{Services}.
Variable payloads : string -> pyval -> list pyval -> list pyval.

(** [self.zone_api.<method>(...)], and the test [response[0] is not None]. The answer is a
    parameter; what the worker makes of the database by calling central back is only followed
    where it matters, in [delete_recordset]. *)
Definition zone_api (method : string) (args : list pyval) : P world pyval := call "worker" method args.
Definition accepted (response : pyval) : R bool :=
  match response with
  | PList (PNone :: _) => Ok false
  | PList (_ :: _) => Ok true
  | PList [] => Raise (Py PyIndexError)
  | _ => Raise (Py PyTypeError)
  end.
Definition ask_worker (method : string) (zone record recordset : pyval) : P world bool :=
  let! response := zone_api method [zone; record; recordset] in lift (accepted response).

(** Looking up, with the caller's own tenant in the policy check. *)
Definition own_target (ctx : context) : list (string * pyval) := [("tenant_id", tenant_val ctx)].
Definition central_find_records (ctx : context) (c : list (string * pyval)) (pg : page) : P world pyval :=
  check_policy "find_records" ctx (own_target ctx) ;;; find_records ctx c pg.
Definition central_find_record (ctx : context) (c : list (string * pyval)) : P world pyval :=
  check_policy "find_record" ctx (own_target ctx) ;;; find_record ctx c.
Definition central_find_recordsets (ctx : context) (c : list (string * pyval)) (pg : page) : P world pyval :=
  check_policy "find_recordsets" ctx (own_target ctx) ;;; find_recordsets ctx c pg.
Definition central_find_recordset (ctx : context) (c : list (string * pyval)) : P world pyval :=
  check_policy "find_recordset" ctx (own_target ctx) ;;; find_recordset ctx c.
Definition criterion_tenant (c : list (string * pyval)) : list (string * pyval) :=
  [("tenant_id", default PNone (aget "tenant_id" c))].
Definition central_count_recordsets (ctx : context) (c : list (string * pyval)) : P world Z :=
  check_policy "count_recordsets" ctx (criterion_tenant c) ;;; count_recordsets ctx c.
Definition central_count_records (ctx : context) (c : list (string * pyval)) : P world Z :=
  check_policy "count_records" ctx (criterion_tenant c) ;;; count_records ctx c.

(** [get_recordset] *)
Definition with_zone_name (zone recordset : pyval) : P world pyval :=
  let! name := attr zone "name" in
  let! recordset := set_attr recordset "zone_name" name in
  ret (obj_reset_changes recordset ["zone_name"]).
Definition same_id (a b : pyval) (e : exc) : P world unit := raise_if (negb (py_eq a b)) e.
Definition central_get_recordset (ctx : context) (zone_id recordset_id : pyval) : P world pyval :=
  let! recordset := get_recordset ctx recordset_id in
  let! owner := attr recordset "zone_id" in
  let! zone := (if truthy zone_id then
                  let! zone := get_zone ctx zone_id in
                  let! id := attr zone "id" in
                  same_id id owner (NotFound RecordSetNotFound) ;;; ret zone
                else get_zone ctx owner) in
  let! z := attr zone "id" in
  let! name := attr zone "name" in
  let! id := attr recordset "id" in
  let! tenant_id := attr zone "tenant_id" in
  check_policy "get_recordset" ctx
    [("zone_id", z); ("zone_name", name); ("recordset_id", id); ("tenant_id", tenant_id)] ;;;
  with_zone_name zone recordset.

(** ** Storing *)

(** [_create_recordset_in_storage] and [_create_record_in_storage], as transactions. *)
Definition _create_recordset_in_storage (ctx : context) (zone recordset : pyval) : P world (pyval * pyval) :=
  transaction (binary (fun zone recordset =>
    let! recordset := create_recordset_in_storage ctx zone recordset in ret (recordset, zone))) [zone; recordset].
Definition with_change (action : string) (zone record : pyval) : P world pyval :=
  let! record := set_attr record "action" (PStr action) in
  let! record := set_attr record "status" (PStr "PENDING") in
  let! serial := attr zone "serial" in
  set_attr record "serial" serial.
Definition create_record_in_storage (ctx : context) (zone recordset record : pyval) : P world (pyval * pyval) :=
  _enforce_record_quota ctx zone recordset ;;;
  let! record := with_change "CREATE" zone record in
  let! zone_id := attr zone "id" in
  let! recordset_id := attr recordset "id" in
  let! record := create_record ctx zone_id recordset_id record in ret (record, zone).
Definition _create_record_in_storage (ctx : context) (zone recordset record : pyval) : P world (pyval * pyval) :=
  transaction (ternary (create_record_in_storage ctx)) [zone; recordset; record].
(** [_update_record_in_storage], [_delete_record_in_storage] *)
Definition change_record_in_storage (ctx : context) (increment : bool) (action : string) (zone record : pyval) :
    P world (pyval * pyval) :=
  let! zone := (if increment then transaction (unary (update_zone_in_storage ctx increment false)) [zone] else ret zone) in
  let! record := with_change action zone record in
  let! record := update_record ctx record in ret (record, zone).
Definition _update_record_in_storage (ctx : context) (increment : bool) (zone record : pyval) : P world (pyval * pyval) :=
  transaction (binary (change_record_in_storage ctx increment "UPDATE")) [zone; record].
Definition _delete_record_in_storage (ctx : context) (increment : bool) (zone record : pyval) : P world (pyval * pyval) :=
  transaction (binary (change_record_in_storage ctx increment "DELETE")) [zone; record].
(** [_update_recordset_in_storage] with a new serial *)
Definition update_recordset_incremented (ctx : context) (set_delayed_notify : bool) (zone recordset : pyval) :
    P world (pyval * pyval) :=
  _validate_recordset ctx zone recordset ;;;
  let! zone := transaction (unary (update_zone_in_storage ctx true set_delayed_notify)) [zone] in
  let! recordset := store_recordset ctx zone recordset in ret (recordset, zone).
Definition _delete_recordset_in_storage (ctx : context) (zone recordset : pyval) : P world (pyval * pyval) :=
  transaction (binary (fun zone recordset =>
    let! id := attr recordset "id" in
    let! recordset := delete_recordset ctx id in ret (recordset, zone))) [zone; recordset].

(** ** The backend's records *)

(** [_create_zdns_recordset_in_storage]; the dictionary is changed in place. *)
Definition create_zdns_recordset_in_storage (zdns_record : row) : P world unit :=
  let! record_id := strip_dashes (cell zdns_record "record_id") in
  let! id := generate_uuid in
  create_zdns_record (aset "id" (PStr id) (adel "record_id" zdns_record)) ;;;
  create_record_association [("record_id", record_id); ("zdns_record_id", PStr (replace "-" "" id))].
Definition central_create_zdns_record (zdns_record : row) : P world unit := create_zdns_recordset_in_storage zdns_record.
Definition update_zdns_record (ctx : context) (zdns_record : pyval) : P world unit :=
  update_zdns_record_in_storage ctx zdns_record ;;; ret tt.
(** [_delete_record_association] *)
Definition _delete_record_association (ctx : context) (record : pyval) : P world pyval :=
  transaction (unary (fun record =>
    let! id := attr record "id" in
    let! id := strip_dashes id in delete_record_association ctx id)) [record].

(** ** Reports of the worker *)

(** [update_recordset_status] *)
Definition settle_and_store (ctx : context) (record : pyval) : P world unit :=
  let! record := settle record in update_record ctx record ;;; ret tt.
Definition settle_of_recordset (ctx : context) (action status : string) (record : pyval) : P world unit :=
  if String.eqb action "CREATE" then
    if String.eqb status "ERROR" then drop_record ctx record else settle_and_store ctx record
  else if String.eqb action "DELETE" then
    if String.eqb status "SUCCESS" then drop_record ctx record else settle_and_store ctx record
  else when (String.eqb status "SUCCESS") (settle_and_store ctx record).
Definition update_recordset_status (ctx : context) (recordset : pyval) (action status : string) : P world unit :=
  let! id := attr recordset "id" in
  let! records := find_records ctx [("recordset_id", id)] no_page in
  mfor (list_objects records) (settle_of_recordset ctx action status).
(** [update_record_status] *)
Definition update_record_status (ctx : context) (record : pyval) (action status : string) : P world unit :=
  let! id := attr record "id" in
  let! record_id := strip_dashes id in
  find_records ctx [("id", record_id)] no_page ;;;
  if String.eqb action "CREATE" then
    if String.eqb status "ERROR" then delete_record ctx record_id ;;; ret tt else settle_and_store ctx record
  else if String.eqb action "DELETE" then
    when (String.eqb status "SUCCESS")
      (let! association := _delete_record_association ctx record in
       let! zdns_id := attr association "zdns_record_id" in
       delete_zdns_record ctx zdns_id ;;;
       delete_record ctx record_id ;;; ret tt)
  else when (String.eqb status "SUCCESS") (settle_and_store ctx record).

(** ** Record sets *)

(** No change while the zone is being deleted. *)
Definition not_deleting (zone : pyval) : P world unit :=
  raise_if (String.eqb (str_attr zone "action") "DELETE") (BadRequest BR_Base).
Definition unmanaged (ctx : context) (recordset : pyval) : P world unit :=
  let! records := items_of recordset "records" in
  raise_if (recordset_managed records && negb (edit_managed_records ctx)) (BadRequest BR_Base).
Definition record_summary (record : pyval) : P world pyval :=
  let! id := attr record "id" in
  let! data := attr record "data" in ret (PDict [("record_id", id); ("data", data)]).

(** [create_recordset]: the records are stored one by one, and a record set that is
    left without any is deleted again. *)
Definition create_one_record (ctx : context) (recordset : pyval) (acc : pyval * list pyval) (record : pyval) :
    P world (pyval * list pyval) :=
  let '(zone, record_ret) := acc in
  let! ' (record_db, zone) := _create_record_in_storage ctx zone recordset record in
  let! ok := ask_worker "create_record" zone record_db recordset in
  if ok : bool then let! d := record_summary record_db in ret (zone, app record_ret [d])
  else ret (zone, record_ret).
Definition create_recordset_body (ctx : context) (zone_id recordset : pyval) : P world pyval :=
  let! zone := get_zone ctx zone_id in
  not_deleting zone ;;;
  let! zone_name := attr zone "name" in
  let! zone_type := attr zone "type" in
  let! name := attr recordset "name" in
  let! tenant_id := attr zone "tenant_id" in
  check_policy "create_recordset" ctx
    [("zone_id", zone_id); ("zone_name", zone_name); ("zone_type", zone_type); ("recordset_name", name);
     ("tenant_id", tenant_id)] ;;;
  let! ' (recordset, zone) := _create_recordset_in_storage ctx zone recordset in
  let! records := items_of recordset "records" in
  let! ' (zone, record_ret) := mfold records (zone, []) (create_one_record ctx recordset) in
  let! id := attr recordset "id" in
  let! exist := find_records ctx [("recordset_id", id)] no_page in
  match list_objects exist with
  | [] => delete_recordset ctx id ;;; set_attr recordset "records_ext" (PList record_ret)
  | _ =>
      let! zone_name := attr zone "name" in
      let! recordset := set_attr recordset "zone_name" zone_name in
      let! recordset := set_attr recordset "records_ext" (PList record_ret) in
      ret (obj_reset_changes recordset ["zone_name"])
  end.
Definition central_create_recordset (ctx : context) (zone_id recordset : pyval) : P world pyval :=
  notification payloads "dns.recordset.create"
    (synchronized_zone false (binary (create_recordset_body ctx))) [zone_id; recordset].

(** [do_update]: what the caller asks for is written in the data of each record, as
    [op;id;data]. *)
Definition semicolon : ascii := ";"%char.
Definition ops_of (record : pyval) : P world (list string) :=
  let! data := attr record "data" in
  let! data := str_of data in ret (split_char semicolon data).
(** [format_validate] *)
Definition well_formed (values : list string) : bool :=
  match values with
  | [op; id; data] =>
      if String.eqb op "create" then String.eqb id ""
      else if mem_str op ["update"; "nochange"] then true
      else String.eqb op "delete" && negb (String.eqb data "")
  | _ => false
  end.
Definition format_validate (records : list pyval) : P world unit :=
  mfor records (fun record =>
    let! values := ops_of record in raise_if (negb (well_formed values)) (BadRequest InvalidRecord)).
Definition is_create (values : list string) : bool :=
  match values with op :: _ => String.eqb op "create" | [] => false end.
(** One record: the record as it is in the record set afterwards, whether the
    request counts as done, and the zone. [around r] is the record set with [r] in
    the place of the record. *)
Definition update_one (ctx : context) (dealwith_nochange : bool) (around : pyval -> pyval) (zone record : pyval) :
    P world (pyval * bool * pyval) :=
  let! values := ops_of record in
  match values with
  | op :: id :: data :: _ =>
      let change (method : string) :=
        let! record := set_attr record "action" (PStr "UPDATE") in
        let! record := set_attr record "id" (PStr id) in
        let! record := set_attr record "data" (PStr data) in
        let! ok := ask_worker method zone record (around record) in ret (record, ok, zone) in
      if String.eqb op "create" then
        let! record := set_attr record "data" (PStr data) in
        let! ' (record_db, zone) := _create_record_in_storage ctx zone (around record) record in
        let! record_db := set_attr record_db "action" (PStr "CREATE") in
        let! ok := ask_worker "create_record" zone record_db (around record) in ret (record, ok, zone)
      else if String.eqb op "update" then change "update_record"
      else if String.eqb op "nochange" then
        if dealwith_nochange then change "update_record" else ret (record, true, zone)
      else if String.eqb op "delete" then
        let! record := set_attr record "action" (PStr "DELETE") in
        let! record := set_attr record "id" (PStr id) in
        let! ok := ask_worker "delete_record" zone record (around record) in ret (record, ok, zone)
      else ret (record, false, zone)
  | _ => raise (Py PyIndexError)
  end.
Fixpoint update_each (ctx : context) (dealwith_nochange : bool) (recordset zone : pyval) (pre post : list pyval)
    (successes : nat) : P world (pyval * nat) :=
  match post with
  | [] => ret (zone, successes)
  | record :: post' =>
      let around := fun r => with_attr_items recordset "records" (app pre (r :: post')) in
      let! ' (record, ok, zone) := update_one ctx dealwith_nochange around zone record in
      update_each ctx dealwith_nochange recordset zone (app pre [record]) post'
        (if ok : bool then S successes else successes)
  end.
(** [AllFailed] when nothing was done, [PartlyFailed] when not everything was. *)
Definition outcome {A} (successes total : nat) (done : P world A) : P world A :=
  if (successes =? total)%nat then done
  else if (successes =? 0)%nat then raise (Failed AllFailed)
  else raise (Failed PartlyFailed).
Definition do_update (ctx : context) (dealwith_nochange : bool) (zone recordset : pyval) : P world pyval :=
  let! id := attr recordset "id" in
  let! record_count_db := count_records ctx [("recordset_id", id)] in
  let! records := items_of recordset "records" in
  let! ops := mmap ops_of records in
  let create_count := length (filter (fun v => is_create v = true) ops) in
  raise_if (negb (Z.of_nat (length records) - Z.of_nat create_count =? record_count_db)%Z) NotEqual ;;;
  try_except (format_validate records)
    (fun e => match e with Py Blocked => None | _ => Some (raise (BadRequest InvalidRecord)) end) ;;;
  let! ' (zone, successes) := update_each ctx dealwith_nochange recordset zone [] records 0 in
  outcome successes (length records)
    (let! zone_id := attr zone "id" in
     let! recordset := central_get_recordset ctx zone_id id in
     let! stored := central_find_records ctx [("recordset_id", id)] no_page in
     let! l := mmap record_summary (list_objects stored) in
     set_attr recordset "records_ext" (PList l)).

(** [update_recordset]: with a new TTL every record goes to the worker, else only
    those that change. *)
Definition update_all_records (ctx : context) (zone recordset : pyval) : P world pyval :=
  let! id := attr recordset "id" in
  let! all_records := central_find_records ctx [("recordset_id", id)] no_page in
  let! oks := mmap (fun record =>
    let! record := set_attr record "action" (PStr "UPDATE") in
    ask_worker "update_record" zone record recordset) (list_objects all_records) in
  outcome (length (filter (fun b => b = true) oks)) (length oks)
    (let! zone_id := attr zone "id" in central_get_recordset ctx zone_id id).
Definition immutable_recordset (changes : list string) : P world unit :=
  raise_if (mem_str "tenant_id" changes) (BadRequest BR_Base) ;;;
  raise_if (mem_str "zone_id" changes || mem_str "zone_name" changes) (BadRequest BR_Base) ;;;
  raise_if (mem_str "type" changes) (BadRequest BR_Base).
Definition update_recordset_body (ctx : context) (recordset : pyval) : P world pyval :=
  let! zone_id := lift (obj_get_original_value registry recordset "zone_id") in
  let! zone := get_zone ctx zone_id in
  let! changes := lift (obj_get_changes registry recordset) in
  immutable_recordset changes.*1 ;;;
  not_deleting zone ;;;
  let! zone_type := attr zone "type" in
  let! original_id := lift (obj_get_original_value registry recordset "id") in
  let! zone_name := attr zone "name" in
  let! tenant_id := attr zone "tenant_id" in
  check_policy "update_recordset" ctx
    [("zone_id", zone_id); ("zone_type", zone_type); ("recordset_id", original_id); ("zone_name", zone_name);
     ("tenant_id", tenant_id)] ;;;
  unmanaged ctx recordset ;;;
  let! ttl_input := attr recordset "ttl" in
  let! id := attr recordset "id" in
  let! stored := get_recordset ctx id in
  let! ttl_db := attr stored "ttl" in
  let! records := items_of recordset "records" in
  if negb (py_eq ttl_input ttl_db) then
    match records with
    | [] => update_all_records ctx zone recordset
    | _ => do_update ctx true zone recordset
    end
  else
    match records with
    | [] => raise NoChange
    | _ => do_update ctx false zone recordset
    end.
Definition central_update_recordset (ctx : context) (recordset : pyval) : P world pyval :=
  notification payloads "dns.recordset.update"
    (synchronized_zone false (unary (update_recordset_body ctx))) [recordset].

(** [_get_origin_recordset], [_update_recordset], [update_recordset_callback] *)
Definition _get_origin_recordset (ctx : context) (zone recordset : pyval) : P world pyval :=
  let recordset := deepcopy registry recordset in
  let! changes := lift (obj_get_changes registry recordset) in
  let! zone_id := attr zone "id" in
  let! id := attr recordset "id" in
  let! origin := central_get_recordset ctx zone_id id in
  mfold changes.*1 recordset (fun recordset key => let! v := attr origin key in set_attr recordset key v).
Definition _update_recordset (ctx : context) (zone recordset : pyval) : P world pyval :=
  let! origin_recordset := _get_origin_recordset ctx zone recordset in
  let! ' (recordset, zone) :=
    transaction (binary (fun zone recordset =>
      let! recordset := update_recordset_in_storage ctx zone recordset in ret (recordset, zone))) [zone; recordset] in
  try_except (zone_api "update_recordset" [zone; recordset] ;;; ret tt)
    (fun e => match e with
              | Py Blocked => None
              | _ => Some (update_recordset ctx origin_recordset ;;; raise e)
              end) ;;;
  let! zone_id := attr zone "id" in
  let! id := attr recordset "id" in central_get_recordset ctx zone_id id.

(** [delete_recordset] *)
Definition recordset_target (zone_id zone recordset : pyval) : P world (list (string * pyval)) :=
  let! zone_name := attr zone "name" in
  let! zone_type := attr zone "type" in
  let! id := attr recordset "id" in
  let! tenant_id := attr zone "tenant_id" in
  ret [("zone_id", zone_id); ("zone_name", zone_name); ("zone_type", zone_type); ("recordset_id", id);
       ("tenant_id", tenant_id)].
(** The worker answers the call that deletes a record after it has reported the deletion to
    central, which deletes the row of the record meanwhile ([update_record_status]). So the call
    is a parameter here, that may do anything to the database. *)
Section DeleteRecordset.
Variable zone_api_delete_record : pyval -> pyval -> pyval -> P world pyval.
Definition delete_recordset_body (ctx : context) (zone_id recordset_id : pyval) : P world unit :=
  let! zone := get_zone ctx zone_id in
  let! recordset := get_recordset ctx recordset_id in
  let! id := attr zone "id" in
  let! owner := attr recordset "zone_id" in
  same_id id owner (NotFound RecordSetNotFound) ;;;
  not_deleting zone ;;;
  let! target := recordset_target zone_id zone recordset in
  check_policy "delete_recordset" ctx target ;;;
  unmanaged ctx recordset ;;;
  let! records_db := central_find_records ctx [("recordset_id", recordset_id)] no_page in
  let! oks := mmap (fun record =>
    let! record := set_attr record "action" (PStr "DELETE") in
    let! response := zone_api_delete_record zone record recordset in lift (accepted response)) (list_objects records_db) in
  outcome (length (filter (fun b => b = true) oks)) (length oks)
    (_delete_recordset_in_storage ctx zone recordset ;;; ret tt).
Definition central_delete_recordset (ctx : context) (zone_id recordset_id : pyval) : P world unit :=
  transaction (binary (delete_recordset_body ctx)) [zone_id; recordset_id].
End DeleteRecordset.

(** ** Records *)
Definition record_target (zone_id zone recordset_id recordset record_id : pyval) : P world (list (string * pyval)) :=
  let! zone_name := attr zone "name" in
  let! zone_type := attr zone "type" in
  let! name := attr recordset "name" in
  let! tenant_id := attr zone "tenant_id" in
  ret [("zone_id", zone_id); ("zone_name", zone_name); ("zone_type", zone_type); ("recordset_id", recordset_id);
       ("recordset_name", name); ("record_id", record_id); ("tenant_id", tenant_id)].

(** [create_record]; it does not increment the serial. *)
Definition create_record_body (ctx : context) (zone_id recordset record : pyval) : P world pyval :=
  let! zone := get_zone ctx zone_id in
  not_deleting zone ;;;
  let! recordset_id := attr recordset "id" in
  let! target := record_target zone_id zone recordset_id recordset PNone in
  check_policy "create_record" ctx (adel "record_id" target) ;;;
  let! ' (record, zone) := _create_record_in_storage ctx zone recordset record in
  zone_api "create_record" [zone; record; recordset] ;;; ret record.
Definition central_create_record (ctx : context) (zone_id recordset record : pyval) : P world pyval :=
  notification payloads "dns.record.create"
    (synchronized_zone false (ternary (create_record_body ctx))) [zone_id; recordset; record].

(** The zone, the record set and the record, which belong together. *)
Definition belongs (zone recordset record : pyval) : P world unit :=
  let! z := attr zone "id" in
  let! rz := attr record "zone_id" in
  same_id z rz (NotFound RecordNotFound) ;;;
  let! rs := attr recordset "id" in
  let! rrs := attr record "recordset_id" in
  same_id rs rrs (NotFound RecordNotFound).
(** [get_record] *)
Definition central_get_record (ctx : context) (zone_id recordset_id record_id : pyval) : P world pyval :=
  let! zone := get_zone ctx zone_id in
  let! recordset := get_recordset ctx recordset_id in
  let! record := get_record ctx record_id in
  belongs zone recordset record ;;;
  let! id := attr record "id" in
  let! target := record_target zone_id zone recordset_id recordset id in
  check_policy "get_record" ctx (adel "zone_type" target) ;;; ret record.

(** [update_record] *)
Definition immutable_record (changes : list string) : P world unit :=
  raise_if (mem_str "tenant_id" changes) (BadRequest BR_Base) ;;;
  raise_if (mem_str "zone_id" changes) (BadRequest BR_Base) ;;;
  raise_if (mem_str "recordset_id" changes) (BadRequest BR_Base).
Definition update_record_body (ctx : context) (record : pyval) : P world pyval :=
  let original n := lift (obj_get_original_value registry record n) in
  let! zone_id := original "zone_id" in
  let! zone := get_zone ctx zone_id in
  not_deleting zone ;;;
  let! recordset_id := original "recordset_id" in
  let! recordset := get_recordset ctx recordset_id in
  let! changes := lift (obj_get_changes registry record) in
  immutable_record changes.*1 ;;;
  let! id := original "id" in
  let! target := record_target zone_id zone recordset_id recordset id in
  check_policy "update_record" ctx target ;;;
  unmanaged ctx recordset ;;;
  let! record := set_attr record "action" (PStr "UPDATE") in
  zone_api "update_record" [zone; record; recordset] ;;; ret record.
Definition central_update_record (ctx : context) (record : pyval) : P world pyval :=
  notification payloads "dns.record.update"
    (synchronized_zone false (unary (update_record_body ctx))) [record].

(** [delete_record] *)
Definition delete_record_body (ctx : context) (zone_id recordset_id record_id : pyval) : P world pyval :=
  let! zone := get_zone ctx zone_id in
  not_deleting zone ;;;
  let! recordset := get_recordset ctx recordset_id in
  let! record := get_record ctx record_id in
  belongs zone recordset record ;;;
  let! id := attr record "id" in
  let! target := record_target zone_id zone recordset_id recordset id in
  check_policy "delete_record" ctx target ;;;
  unmanaged ctx recordset ;;;
  let! record := set_attr record "action" (PStr "DELETE") in
  zone_api "delete_record" [zone; record; recordset] ;;; ret record.
Definition central_delete_record (ctx : context) (zone_id recordset_id record_id : pyval) : P world pyval :=
  notification payloads "dns.record.delete"
    (synchronized_zone false (ternary (delete_record_body ctx))) [zone_id; recordset_id; record_id].
End Records.
