(* ===== verification/CentralViews.v ===== *)
(** * Central: ACLs, views and the rows of the ZDNS backend
      (designate/central/service.py)

    ACLs and views are created in storage and on the backend; what the backend
    answers is mirrored in dictionaries, and the priorities of the views are kept
    in a row. *)
From Stdlib Require Import ZArith Lia Ascii String.
From stdpp Require Import base option numbers strings sets list.
From S2P Require Import Prelude PyStr Exceptions Values Objects Utils Classes World Decorators Sql Tables Storage StorageZdns Quota Scheduler Central CentralZones CentralRecords.
Local Open Scope string_scope.

Section Views.
Context `{Env} `{SqlEngine} `{Services}.
Variable payloads : string -> pyval -> list pyval -> list pyval.

Definition comma : ascii := ","%char.
(** [x[key]] of a dictionary or an object. *)
Definition item (v : pyval) (key : string) : R pyval :=
  match v with
  | PDict d => match aget key d with Some x => Ok x | None => Raise (Py PyKeyError) end
  | PObj _ _ _ _ => getattr registry v key
  | _ => Raise (Py PyTypeError)
  end.
Definition pop (key : string) (d : row) : R row :=
  match aget key d with Some _ => Ok (adel key d) | None => Raise (Py PyKeyError) end.
Definition dict_arg {A} (f : row -> P world A) : list pyval -> P world A :=
  unary (fun v => match v with PDict d => f d | _ => raise (Py PyTypeError) end).
(** [asso["column"]] of what [_find_asso] returns. *)
Definition asso_item (asso : option row) (column : string) : R pyval :=
  match asso with
  | Some r => match aget column r with Some v => Ok v | None => Raise (Py PyKeyError) end
  | None => Raise (Py PyTypeError)
  end.
(** [raise] in a handler for every exception. *)
Definition undo {A} (m : P world A) (cleanup : P world unit) : P world A :=
  try_except m (fun e => match e with Py Blocked => None | _ => Some (cleanup ;;; raise e) end).

(** ** ACLs *)
Definition networks_of (acl : pyval) : P world (list string) :=
  let! v := attr acl "networks" in
  match v with
  | PList l => lift (rmap (fun x => match x with PStr s => Ok s | _ => Raise (Py PyTypeError) end) l)
  | _ => raise (Py PyTypeError)
  end.
(** No network at all, or an empty one, is refused. *)
Definition checked_networks (acl : pyval) : P world (list string) :=
  let! l := networks_of acl in
  raise_if (match l with [] => true | _ => false end || existsb (fun s => String.eqb s "") l)
    (BadRequest NoneIpAddress) ;;;
  ret l.
Definition split_networks (acl : pyval) : P world pyval :=
  let! v := attr acl "networks" in
  let! s := str_of v in set_attr acl "networks" (PList (map PStr (split_char comma s))).
Definition create_acl_body (ctx : context) (acl : pyval) : P world pyval :=
  check_policy "create_acl" ctx [] ;;;
  let! networks := checked_networks acl in
  let! acl := set_attr acl "networks" (PStr (join "," networks)) in
  let! acl := transaction (unary (create_acl ctx)) [acl] in
  let! acl := split_networks acl in
  undo (zone_api "create_acl" [acl] ;;; ret tt)
    (transaction (unary (fun acl => let! id := attr acl "id" in delete_by_id acl_methods ctx id)) [acl] ;;; ret tt) ;;;
  ret acl.
Definition central_create_acl (ctx : context) (acl : pyval) : P world pyval :=
  notification payloads "dns.acl.create" (unary (create_acl_body ctx)) [acl].
Definition get_acl (ctx : context) (acl_id : pyval) : P world pyval :=
  check_policy "get_acl" ctx [] ;;; get_by_id acl_methods ctx acl_id.
Definition by_name (pg : page) : page :=
  match p_sort_key pg with
  | PNone => {| p_marker := p_marker pg; p_limit := p_limit pg; p_sort_key := PStr "name"; p_sort_dir := p_sort_dir pg |}
  | _ => pg
  end.
Definition find_acls (ctx : context) (c : list (string * pyval)) (pg : page) : P world pyval :=
  check_policy "find_acls" ctx (own_target ctx) ;;; find_all acl_methods ctx c (by_name pg).
(** [_get_origin_acl] *)
Definition _get_origin_acl (ctx : context) (acl : pyval) : P world pyval :=
  let acl := deepcopy registry acl in
  let! changes := lift (obj_get_changes registry acl) in
  let! id := attr acl "id" in
  let! origin := get_acl ctx id in
  mfold changes.*1 acl (fun acl key => let! v := attr origin key in set_attr acl key v).
Definition _update_acl_in_storage (ctx : context) (acl : pyval) : P world pyval :=
  transaction (unary (update_obj acl_methods ctx)) [acl].
Definition update_acl (ctx : context) (acl : pyval) : P world pyval :=
  let! original_id := lift (obj_get_original_value registry acl "id") in
  check_policy "update_acl" ctx [("acl_id", original_id)] ;;;
  let! networks := checked_networks acl in
  let! origin_acl := _get_origin_acl ctx acl in
  let! acl := set_attr acl "networks" (PStr (join "," networks)) in
  let! acl := _update_acl_in_storage ctx acl in
  let! acl := split_networks acl in
  try_except (zone_api "update_acl" [acl] ;;; ret tt)
    (except_exception (fun e => _update_acl_in_storage ctx origin_acl ;;; raise e)) ;;;
  ret acl.
(** [delete_acl]: an ACL that a view uses stays. *)
Definition delete_acl_body (ctx : context) (acl_id : pyval) : P world pyval :=
  check_policy "delete_acl" ctx [("acl_id", acl_id)] ;;;
  let! acl := get_acl ctx acl_id in
  let! view := get_acl_view_asso acl_id in
  raise_if (match view with Some _ => true | None => false end) AclUsedByView ;;;
  zone_api "delete_acl" [acl] ;;;
  delete_by_id acl_methods ctx acl_id.
Definition delete_acl (ctx : context) (acl_id : pyval) : P world pyval :=
  transaction (unary (delete_acl_body ctx)) [acl_id].

(** ** The rows of the backend, for ACLs *)
Definition rrs_count (response : row) : R row :=
  match aget "rrs" response with
  | Some v => let? n := item v "count" in Ok (aset "rrs" n response)
  | None => Ok response
  end.
Definition create_zdns_acl (ctx : context) (acl : pyval) (response : row) : P world unit :=
  let! id := generate_uuid in
  let! response := lift (join_lists (aset "id" (PStr id) response)) in
  let! response := lift (rrs_count response) in
  StorageZdns.create_zdns_acl response ;;;
  let! acl_id := attr acl "id" in
  create_acl_asso [("acl_id", acl_id); ("zdns_acl_id", PStr id)].
Definition delete_zdns_acl (ctx : context) (acl : pyval) : P world unit :=
  let! asso := get_acl_asso acl in
  let! id := lift (asso_item asso "zdns_acl_id") in
  delete_acl_asso acl ;;; StorageZdns.delete_zdns_acl id.
Definition update_zdns_acl (ctx : context) (acl : pyval) (values : row) : P world unit :=
  let! asso := get_acl_asso acl in
  let! id := lift (asso_item asso "zdns_acl_id") in
  let! values := lift (pop "id" values) in
  let! values := lift (pop "network_count" values) in
  let! values := lift (join_lists values) in
  StorageZdns.update_zdns_acl id values.

(** ** Views *)

(** [get_view] *)
Definition central_get_view (ctx : context) (view_id : pyval) : P world pyval :=
  let! view := get_view ctx view_id in
  let! name := attr view "name" in
  let! tenant_id := attr view "tenant_id" in
  check_policy "get_view" ctx [("view_id", view_id); ("view_name", name); ("tenant_id", tenant_id)] ;;;
  ret view.
Definition find_views (ctx : context) (c : list (string * pyval)) (pg : page) : P world pyval :=
  check_policy "find_views" ctx (own_target ctx) ;;; find_all view_methods ctx c (by_name pg).

Definition acl_names (fetch : pyval -> P world pyval) (acl_ids : list pyval) : P world (list pyval) :=
  mmap (fun id => let! acl := fetch id in attr acl "name") acl_ids.
Definition add_view_acls (view_id : pyval) (acl_ids : list pyval) : P world unit :=
  mfor acl_ids (fun acl_id => create_view_acl [("view_id", view_id); ("acl_id", acl_id)]).
(** [_update_zdns_view_info_storage]: only the priority is written. *)
Definition _update_zdns_view_info_storage (info : pyval) : P world unit :=
  let! id := lift (item info "id") in
  let! id := strip_dashes id in
  let! priority := lift (item info "priority") in
  update_zdns_view_info id [("priority", priority)].
Definition shift_priority (delta : Z) (info : pyval) : P world unit :=
  let! priority := attr info "priority" in
  match priority with
  | PInt n => let! info := set_attr info "priority" (PInt (n + delta)) in _update_zdns_view_info_storage info
  | _ => raise (Py PyTypeError)
  end.
(** [create_view]: the new view comes first, the others move down. *)
Definition create_view_body (ctx : context) (acl_ids : list pyval) (view : pyval) : P world pyval :=
  check_policy "create_view" ctx [] ;;;
  let! view := set_attr view "tenant_id" (tenant_val ctx) in
  let! acls := acl_names (get_by_id acl_methods ctx) acl_ids in
  let! response := zone_api "create_view" [view; PList acls] in
  let! created := (match response with
                   | PList (v :: _) => ret v
                   | PList [] => raise (Py PyIndexError)
                   | _ => raise (Py PyTypeError)
                   end) in
  let! view_id := lift (item created "id") in
  add_view_acls view_id acl_ids ;;;
  let! infos := find_zdns_view_infos ctx in
  mfor (list_objects infos) (fun info =>
    let! n := attr info "name" in
    let! name := lift (item created "name") in
    when (negb (py_eq n name)) (shift_priority 1 info)) ;;;
  ret response.
Definition create_view (ctx : context) (view : pyval) (acl_ids : list pyval) : P world pyval :=
  notification payloads "dns.view.create" (unary (create_view_body ctx acl_ids)) [view].

(** [a > b] of integers and None, which is less than every integer. *)
Definition py_gt (a b : pyval) : R bool :=
  match a, b with
  | PInt x, PInt y => Ok (y <? x)%Z
  | PInt _, PNone => Ok true
  | PNone, (PInt _ | PNone) => Ok false
  | _, _ => Raise (Py PyTypeError)
  end.
(** [_delete_zdns_view_info]: the views behind the deleted one move up. *)
Definition _delete_zdns_view_info (ctx : context) (view : pyval) : P world unit :=
  let! asso := find_view_zdns_view view in
  delete_view_zdns_view view ;;;
  let! info := get_zdns_view_info (cell asso "zdns_view_id") in
  delete_zdns_view_info (cell asso "zdns_view_id") ;;;
  let! infos := find_zdns_view_infos ctx in
  mfor (list_objects infos) (fun other =>
    let! n := attr other "priority" in
    let! behind := lift (py_gt n (cell info "priority")) in
    when behind (shift_priority (-1) other)).

(** The rows of the backend, for zones. *)
Definition create_zdns_zone (ctx : context) (zone : pyval) (response : row) : P world unit :=
  let! id := generate_uuid in
  let! response := lift (join_lists (aset "id" (PStr id) response)) in
  StorageZdns.create_zdns_zone (adel "rrs" response) ;;;
  let! zone_id := attr zone "id" in
  create_zone_asso [("zone_id", zone_id); ("zdns_zone_id", PStr id)].
Definition delete_zdns_zone (ctx : context) (zone : pyval) : P world unit :=
  let! asso := get_zone_asso zone in
  let! id := lift (asso_item asso "zdns_zone_id") in
  delete_zone_asso zone ;;; StorageZdns.delete_zdns_zone id.
Definition update_zdns_zone (ctx : context) (zone : pyval) (response : row) : P world unit :=
  let! asso := get_zone_asso zone in
  let! id := lift (asso_item asso "zdns_zone_id") in
  let! response := mfold ["id"; "zone_type"; "dsprimary"; "update_controller"] response
                     (fun d key => lift (pop key d)) in
  let! response := lift (join_lists response) in
  StorageZdns.update_zdns_zone id (adel "rrs" response).

(** [delete_view]; the zones of the view go with it. *)
Definition central_find_zones (ctx : context) (c : list (string * pyval)) (pg : page) : P world pyval :=
  check_policy "find_zones" ctx (own_target ctx) ;;; find_zones ctx c pg.
Definition delete_view_body (ctx : context) (view_id : pyval) : P world pyval :=
  let! view := get_view ctx view_id in
  zone_api "delete_view" [view] ;;;
  let! view_acls := find_view_acls view_id in
  mfor view_acls delete_view_acl ;;;
  _delete_zdns_view_info ctx view ;;;
  let! id := attr view "id" in
  let! view := delete_by_id view_methods ctx id in
  let! id := attr view "id" in
  let! zones := central_find_zones ctx [("view_id", id)] no_page in
  mfor (list_objects zones) (fun zone =>
    delete_zdns_zone ctx zone ;;;
    let! zone := with_life (PStr "DELETE") (PStr "SUCCESS") zone in
    update_zone_status ctx zone ;;; ret tt) ;;;
  ret view.
Definition delete_view (ctx : context) (view_id : pyval) : P world pyval :=
  notification payloads "dns.view.delete" (unary (delete_view_body ctx)) [view_id].

(** [update_view]: other ACLs for a view. *)
Definition update_view_body (ctx : context) (acl_ids : list pyval) (id : pyval) : P world pyval :=
  let! view := central_get_view ctx id in
  let! acls := acl_names (get_acl ctx) acl_ids in
  zone_api "update_view" [view; PList acls] ;;;
  let! view_acls := find_view_acls id in
  mfor view_acls delete_view_acl ;;;
  add_view_acls id acl_ids ;;;
  ret view.
Definition central_update_view (ctx : context) (id : pyval) (acl_ids : list pyval) : P world pyval :=
  notification payloads "dns.view.update" (unary (update_view_body ctx acl_ids)) [id].

(** [create_zdns_view_info], called back by the worker. *)
Definition create_zdns_view_info (ctx : context) (info : row) (view : pyval) : P world pyval :=
  StorageZdns.create_zdns_view_info info ;;;
  let! view := create view_methods view in
  let! asso_id := generate_uuid in
  let! view_id := attr view "id" in
  transaction (dict_arg create_view_zdns_view)
    [PDict [("id", PStr asso_id); ("view_id", view_id); ("zdns_view_id", cell info "id")]] ;;;
  ret view.
Definition central_update_zdns_view_info (info : row) : P world unit :=
  transaction (dict_arg (fun info =>
    let! info := lift (join_lists info) in _update_zdns_view_info_storage (PDict info))) [PDict info].
End Views.
