(* ===== verification/CentralCreate.v ===== *)
(** * Central: how a zone comes about (designate/central/service.py)

    The name servers of a zone, the record sets every new zone gets, the second
    half of [create_zone] and the whole method; zone transfers from a master;
    counting and reports; diagnostics; imports and exports. *)
From Stdlib Require Import ZArith Lia Ascii String.
From stdpp Require Import base option numbers strings sets list.
From S2P Require Import Prelude PyStr Exceptions Values Objects Utils Classes World Decorators Sql Tables Storage StorageZdns Quota Scheduler Central CentralZones CentralRecords CentralViews.
Local Open Scope string_scope.

Section Create.
Context `{Env} `{SqlEngine} `{Services}.
Variable payloads : string -> pyval -> list pyval -> list pyval.
(** What the scheduler's filters take from outside the source. *)
Variable bool_from_string : pyval -> option bool.
Variable random_choice : nat -> nat.
Variable scheduler_filters : list filter_kind.

(** [get_zone_ns_records] *)
Definition get_zone_ns_records (ctx : context) (zone_id : pyval) : P world (list pyval) :=
  let! pool_id :=
    (match zone_id with
     | PNone => check_policy "get_zone_ns_records" ctx [] ;;; ret (PStr (conf_str "service:central.default_pool_id"))
     | _ =>
         let! zone := get_zone ctx zone_id in
         let! target := zone_target zone_id zone in
         let! pool_id := attr zone "pool_id" in
         check_policy "get_zone_ns_records" ctx target ;;; ret pool_id
     end) in
  _get_pool_ns_records ctx pool_id.

(** ** The record sets of the service itself *)
Definition managed_record (data : pyval) : P world pyval :=
  lift (new_obj registry "Record" [("data", data); ("managed", PBool true)]).
Definition record_list (records : list pyval) : P world pyval :=
  lift (new_obj registry "RecordList" [("objects", PList records)]).

(** [_create_soa], [_create_ns] *)
Definition create_managed (ctx : context) (zone : pyval) (type : string) (data : list pyval) : P world pyval :=
  let! records := mmap managed_record data in
  let! records := record_list records in
  let! name := attr zone "name" in
  let! recordset := lift (new_obj registry "RecordSet" [("name", name); ("type", PStr type); ("records", records)]) in
  let! ' (recordset, zone) := _create_recordset_in_storage ctx zone recordset in ret recordset.
Definition _create_soa (ctx : context) (zone : pyval) : P world pyval :=
  let! pool_id := attr zone "pool_id" in
  let! ns_records := _get_pool_ns_records ctx pool_id in
  let! data := lift (_build_soa_record zone ns_records) in
  create_managed ctx zone "SOA" [data].
Definition _create_ns (ctx : context) (zone : pyval) (ns_records : list pyval) : P world pyval :=
  if negb (String.eqb (str_attr zone "type") "PRIMARY") then ret PNone
  else create_managed ctx zone "NS" ns_records.

(** [_add_ns], [_delete_ns] *)
Definition managed_recordset (recordset : pyval) : P world bool :=
  let! records := items_of recordset "records" in ret (recordset_managed records).
Definition store_ns (ctx : context) (zone recordset : pyval) : P world unit :=
  transaction (binary (update_recordset_incremented ctx true)) [zone; recordset] ;;; ret tt.
Definition ns_criterion (zone_id : pyval) : list (string * pyval) := [("zone_id", zone_id); ("type", PStr "NS")].
Definition _add_ns (ctx : context) (ns_record zone : pyval) : P world unit :=
  let! zone_id := attr zone "id" in
  let! recordsets := central_find_recordsets ctx (ns_criterion zone_id) no_page in
  let! flags := mmap managed_recordset (list_objects recordsets) in
  match map fst (filter (fun x => x.2 = true) (zip (list_objects recordsets) flags)) with
  | [] => _create_ns ctx zone [ns_record] ;;; ret tt
  | [recordset] =>
      let! records := items_of recordset "records" in
      let! record := managed_record ns_record in
      store_ns ctx zone (with_attr_items recordset "records" (app records [record]))
  | _ => raise (NotFound RecordSetNotFound)
  end.
(** [list.remove] of every record with the data, in turn: the first equal one. *)
Fixpoint remove_first (x : pyval) (l : list pyval) : list pyval :=
  match l with [] => [] | y :: l' => if py_eq y x then l' else y :: remove_first x l' end.
Definition _delete_ns (ctx : context) (ns_record zone : pyval) : P world unit :=
  let! zone_id := attr zone "id" in
  let! recordset := central_find_recordset ctx (ns_criterion zone_id) in
  let! records := items_of recordset "records" in
  let! left := mfold (map (deepcopy registry) records) records (fun left record =>
    let! data := attr record "data" in ret (if py_eq data ns_record then remove_first record left else left)) in
  store_ns ctx zone (with_attr_items recordset "records" left).

(** [_create_default_a], [_create_default_ns]: a record set with one record, which
    is at once taken for created. *)
Definition mirror (rr_id : string) (recordset record : pyval) : P world row :=
  let! name := attr recordset "name" in
  let! ttl := attr recordset "ttl" in
  let! record_id := attr record "id" in
  let! rdata := attr record "data" in
  let! type := attr recordset "type" in
  ret [("rr_id", PStr rr_id); ("name", name); ("ttl", ttl); ("record_id", record_id); ("rdata", rdata);
       ("type", type); ("klass", PStr "IN")].
Definition create_default (ctx : context) (zone : pyval) (name type data : string) : P world pyval :=
  let! record := managed_record (PStr data) in
  let! records := record_list [record] in
  let! ttl := attr zone "ttl" in
  let! recordset := lift (new_obj registry "RecordSet"
                      [("name", PStr name); ("type", PStr type); ("records", records); ("ttl", ttl)]) in
  let rr_id := join "$" [name; type; data; b64encode (text ttl)] in
  let! ' (recordset, zone) := _create_recordset_in_storage ctx zone recordset in
  let! items := items_of recordset "records" in
  mfold items zone (fun zone data =>
    let! ' (record, zone) := _create_record_in_storage ctx zone recordset data in
    let! zdns_record := mirror rr_id recordset record in
    central_create_zdns_record zdns_record ;;; ret zone) ;;;
  update_recordset_status ctx recordset "CREATE" "SUCCESS" ;;;
  ret recordset.
Definition zone_name (zone : pyval) : P world string := let! name := attr zone "name" in str_of name.
Definition _create_default_a (ctx : context) (zone : pyval) : P world pyval :=
  let! name := zone_name zone in create_default ctx zone ("ns." ++ name) "A" "127.0.0.1".
Definition _create_default_ns (ctx : context) (zone : pyval) : P world pyval :=
  let! name := zone_name zone in create_default ctx zone name "NS" ("ns." ++ name).
Definition create_default_record (ctx : context) (zone : pyval) : P world unit :=
  transaction (unary (fun zone => _create_default_ns ctx zone ;;; _create_default_a ctx zone ;;; ret tt)) [zone].

(** ** [create_zone] *)

(** [_create_zone_in_storage]: the record sets that come with the zone, without
    their records. *)
Definition create_zone_in_storage (ctx : context) (zone : pyval) : P world pyval :=
  let! zone := with_life (PStr "CREATE") (PStr "PENDING") zone in
  let! zone := create_zone ctx zone in
  let! id := attr zone "id" in
  get_zone_ns_records ctx id ;;;
  when (obj_attr_is_set zone "recordsets")
    (let! rrsets := items_of zone "recordsets" in
     mfor rrsets (fun rrset => _create_recordset_in_storage ctx zone rrset ;;; ret tt)) ;;;
  ret zone.
(** [_create_zone] *)
Definition _create_zone (ctx : context) (zone : pyval) (subzones : list pyval) : P world pyval :=
  let! serial := attr zone "serial" in
  let! zone := (if String.eqb (str_attr zone "type") "SECONDARY" && py_eq serial PNone
                then set_attr zone "serial" (PInt 1) else ret zone) in
  let! attributes := items_of zone "attributes" in
  let view_id := default PNone (attr_list_get attributes "view_id") in
  let! zone := (if truthy view_id then central_get_view ctx view_id ;;; set_attr zone "view_id" view_id
                else raise (BadRequest NeedView)) in
  let! zone := transaction (unary (create_zone_in_storage ctx)) [zone] in
  zone_api "create_zone" [zone] ;;;
  let! id := attr zone "id" in
  let! zone := get_zone_checked ctx id in
  create_default_record ctx zone ;;;
  mfor subzones (fun subzone =>
    let! id := attr zone "id" in
    let! subzone := set_attr subzone "parent_zone_id" id in
    central_update_zone payloads ctx true subzone ;;; ret tt) ;;;
  ret zone.
Definition create_zone_body (ctx : context) (zone : pyval) : P world pyval :=
  let! ' (zone, subzones) := create_zone_checks bool_from_string random_choice scheduler_filters ctx zone in
  _create_zone ctx zone subzones.
Definition central_create_zone (ctx : context) (zone : pyval) : P world pyval :=
  notification payloads "dns.domain.create" (notification payloads "dns.zone.create"
    (synchronized_zone true (unary (create_zone_body ctx)))) [zone].

(** ** Looking up, counting *)
Definition central_find_zone (ctx : context) (c : list (string * pyval)) : P world pyval :=
  check_policy "find_zone" ctx (own_target ctx) ;;; find_zone ctx c.
Definition central_count_zones (ctx : context) (c : list (string * pyval)) : P world Z :=
  check_policy "count_zones" ctx (criterion_tenant c) ;;; count_zones ctx c.
Definition central_purge_zones (ctx : context) (c : list (string * pyval)) (limit : pyval) : P world pyval :=
  check_policy "purge_zones" ctx c ;;; purge_zones ctx c limit.
Definition central_find_tenants (ctx : context) : P world pyval :=
  check_policy "find_tenants" ctx [] ;;; find_tenants ctx.
Definition central_get_tenant (ctx : context) (tenant_id : pyval) : P world pyval :=
  check_policy "get_tenant" ctx [("tenant_id", tenant_id)] ;;; get_tenant ctx tenant_id.
Definition central_count_tenants (ctx : context) : P world Z :=
  check_policy "count_tenants" ctx [] ;;; count_tenants ctx.
(** [count_report] *)
Definition count_report (ctx : context) (criterion : pyval) : P world pyval :=
  let report d := ret (PList [PDict d]) in
  match criterion with
  | PNone =>
      let! zones := central_count_zones ctx [] in
      let! records := central_count_records ctx [] in
      let! tenants := central_count_tenants ctx in
      report [("zones", PInt zones); ("records", PInt records); ("tenants", PInt tenants)]
  | PStr s =>
      if String.eqb s "zones" then let! n := central_count_zones ctx [] in report [("zones", PInt n)]
      else if String.eqb s "zones_delayed_notify" then
        let! n := central_count_zones ctx [("delayed_notify", PBool true)] in
        report [("zones_delayed_notify", PInt n)]
      else if String.eqb s "records" then let! n := central_count_records ctx [] in report [("records", PInt n)]
      else if String.eqb s "tenants" then let! n := central_count_tenants ctx in report [("tenants", PInt n)]
      else raise (NotFound ReportNotFound)
  | _ => raise (NotFound ReportNotFound)
  end.

(** [xfr_zone]: ask one of the masters, and transfer when it is ahead. [pick] is
    [random.choice]. *)
Definition serial_of_answer (v : pyval) : R pyval :=
  match v with PList [_; serial; _] => Ok serial | _ => Raise (Py PyTypeError) end.
Definition xfr_zone (pick : nat -> nat) (ctx : context) (zone_id : pyval) : P world unit :=
  let! zone := get_zone ctx zone_id in
  let! target := zone_target zone_id zone in
  check_policy "xfr_zone" ctx target ;;;
  raise_if (negb (String.eqb (str_attr zone "type") "SECONDARY")) (BadRequest BR_Base) ;;;
  let! masters := items_of zone "masters" in
  match masters !! pick (length masters) with
  | None => raise (Py PyIndexError)
  | Some srv =>
      let! host := attr srv "host" in
      let! port := attr srv "port" in
      let! answer := call "mdns" "get_serial_number" [zone; host; port; PInt 3; PInt 1; PInt 3; PInt 0] in
      let! serial := lift (serial_of_answer answer) in
      let! current := attr zone "serial" in
      let! ahead := lift (py_gt serial current) in
      when ahead (send (Cast "mdns" "perform_zone_xfr" [zone]))
  end.

(** ** Diagnostics *)
Definition _sync_zone (zone : pyval) : P world unit := send (Cast "pool_manager" "update_zone" [zone]).
Definition sync_zones (ctx : context) : P world (list (pyval * pyval)) :=
  transaction (fun _ =>
    check_policy "diagnostics_sync_zones" ctx [] ;;;
    let! zones := find_zones ctx [] no_page in
    mmap (fun zone => _sync_zone zone ;;; let! id := attr zone "id" in ret (id, PNone)) (list_objects zones)) [].
Definition sync_zone (ctx : context) (zone_id : pyval) : P world unit :=
  transaction (unary (fun zone_id =>
    let! zone := get_zone ctx zone_id in
    let! target := zone_target zone_id zone in
    check_policy "diagnostics_sync_zone" ctx target ;;; _sync_zone zone)) [zone_id].
Definition sync_record (ctx : context) (zone_id recordset_id record_id : pyval) : P world unit :=
  transaction (ternary (fun zone_id recordset_id record_id =>
    let! zone := get_zone ctx zone_id in
    let! recordset := get_recordset ctx recordset_id in
    let! target := record_target zone_id zone recordset_id recordset record_id in
    check_policy "diagnostics_sync_record" ctx (adel "zone_type" target) ;;;
    zone_api "update_zone" [zone] ;;; ret tt)) [zone_id; recordset_id; record_id].
End Create.
