(* ===== verification/Dnsutils.v ===== *)
(** * DNS helpers (designate/dnsutils.py)

    Zones as dnspython parses them become objects; a zone is transferred from the
    first master that answers; the lock that limits how often a zone is worked on, with
    several NOTIFYs at a time.
    What dnspython does with the wire and the zone file is outside: a parsed zone is
    a [dns_zone], with names and data in their text form. *)
From Stdlib Require Import ZArith Lia Ascii String.
From stdpp Require Import base option numbers strings sets list gmap.
From S2P Require Import Prelude PyStr Exceptions Values Objects Classes World Sql Storage.
Local Open Scope string_scope.

(** ** Zones *)
Record rdataset := { rd_type : string; rd_ttl : Z; rd_data : list string }.
Record soa_rdataset := {
  soa_ttl : Z;
  rname : string;      (* without the final dot *)
  soa_serial : Z;
  soa_retry : Z;
  soa_expire : Z;
}.
Record dns_zone := {
  origin : string;
  soa : option soa_rdataset;
  nodes : list (string * list rdataset);
}.

Section Convert.
Context `{Env}.

(** [dnspythonrecord_to_recordset] *)
Definition append_items (l : pyval) (items : list pyval) : pyval := with_items l (app (list_objects l) items).
Definition dnspythonrecord_to_recordset (name : string) (rdataset : rdataset) : R pyval :=
  let? rrset := new_obj registry "RecordSet"
    (app [("name", PStr name); ("type", PStr (rd_type rdataset))]
       (if (rd_ttl rdataset =? 0)%Z then [] else [("ttl", PInt (rd_ttl rdataset))])) in
  let? records := new_obj registry "RecordList" [] in
  let? items := rmap (fun d => new_obj registry "Record" [("data", PStr d)]) (rd_data rdataset) in
  setattr registry rrset "records" (append_items records items).
(** [dnspyrecords_to_recordsetlist] *)
Definition dnspyrecords_to_recordsetlist (l : list (string * list rdataset)) : R pyval :=
  let? rrsets := new_obj registry "RecordSetList" [] in
  let? items := rmap (fun '(name, rd) => dnspythonrecord_to_recordset name rd)
                  (concat (map (fun '(name, rds) => map (fun rd => (name, rd)) rds) l)) in
  Ok (append_items rrsets items).
(** [from_dnspython_zone] *)
Definition from_dnspython_zone (z : dns_zone) : R pyval :=
  match soa z with
  | None => Raise (BadRequest BR_Base)
  | Some s =>
      let ttl := if (soa_ttl s =? 0)%Z then match min_ttl with Some m => PInt m | None => PNone end
                 else PInt (soa_ttl s) in
      let? zone := new_obj registry "Zone"
        [("name", PStr (origin z)); ("email", PStr (replace_first "." "@" (rname s))); ("ttl", ttl);
         ("serial", PInt (soa_serial s)); ("retry", PInt (soa_retry s)); ("expire", PInt (soa_expire s))] in
      let? rrsets := dnspyrecords_to_recordsetlist (nodes z) in
      setattr registry zone "recordsets" rrsets
  end.
End Convert.

(** ** [do_axfr] *)

(** What comes of asking one server: the zone, a timeout of this attempt or of an
    enclosing one, or another failure. *)
Inductive axfr_answer :=
| Transferred (z : dns_zone)
| OwnTimeout
| OtherTimeout
| NotThere.
(** A timeout that is not the attempt's own counts like any other failure: the loop
    goes on. [servers] are already shuffled. *)
Fixpoint do_axfr (ask : pyval -> axfr_answer) (servers : list pyval) : R dns_zone :=
  match servers with
  | [] => Raise XFRFailure
  | srv :: rest =>
      match ask srv with
      | Transferred z => Ok z
      | OwnTimeout | OtherTimeout | NotThere => do_axfr ask rest
      end
  end.

(** ** [ZoneLock] *)
Section Lock.
Variable delay : Z.
Abbreviation lock_data := (gmap string Z).
Definition acquire (now : Z) (zone : string) (data : lock_data) : bool * lock_data :=
  match data !! zone with
  | None => (true, <[zone := now]> data)
  | Some locktime =>
      if (delay <? now - locktime)%Z then (true, <[zone := now]> data) else (false, data)
  end.
Definition release (zone : string) (data : lock_data) : lock_data := delete zone data.

(** [LimitNotifyMiddleware.process_request]: a NOTIFY that gets the lock sleeps for the delay,
    releases the lock and is passed on; one that does not get it is answered and dropped. Others
    may run while one sleeps: a task that sleeps goes on with the lock as it finds it then. *)
Inductive decision := PassOn | Answer.
Inductive task := Return (d : decision) | Sleep (seconds : Z) (next : lock_data -> task * lock_data).
Definition limit_notify (is_notify : bool) (now : Z) (zone : string) (data : lock_data) : task * lock_data :=
  if negb is_notify then (Return PassOn, data)
  else
    let '(granted, data) := acquire now zone data in
    if granted then (Sleep delay (fun data => (Return PassOn, release zone data)), data)
    else (Return Answer, data).

(** ** Many NOTIFYs at a time
    What happens, the last first: a NOTIFY gets the lock of its zone, or is dropped, or goes on
    after its sleep. *)
Inductive event := Granted (who : nat) (now : Z) (zone : string) | Dropped (who : nat) (now : Z) (zone : string)
                 | Resumed (who : nat) (now : Z) (zone : string).
Record sleeper := { sl_who : nat; sl_zone : string; sl_since : Z; sl_wakes : Z; sl_next : lock_data -> task * lock_data }.
Record state := { clock : Z; locks : lock_data; sleepers : list sleeper }.
Definition fresh (i : nat) (tr : list event) : Prop := forall t z, Granted i t z ∉ tr.
(** The runs in which the clock does not go back, a task sleeps at least as long as it asks for,
    and the scheduler lets no more time pass than [ok] says. *)
Inductive runs (ok : state -> Z -> Prop) : list event -> state -> Prop :=
| runs_begin now : runs ok [] {| clock := now; locks := ∅; sleepers := [] |}
| runs_granted tr s i now zone seconds next data :
    runs ok tr s -> (clock s <= now)%Z -> ok s now -> fresh i tr ->
    limit_notify true now zone (locks s) = (Sleep seconds next, data) ->
    runs ok (Granted i now zone :: tr)
      {| clock := now; locks := data;
         sleepers := {| sl_who := i; sl_zone := zone; sl_since := now; sl_wakes := (now + seconds)%Z; sl_next := next |} :: sleepers s |}
| runs_dropped tr s i now zone d data :
    runs ok tr s -> (clock s <= now)%Z -> ok s now ->
    limit_notify true now zone (locks s) = (Return d, data) ->
    runs ok (Dropped i now zone :: tr) {| clock := now; locks := data; sleepers := sleepers s |}
| runs_resumed tr s pre sl post now d data :
    runs ok tr s -> (clock s <= now)%Z -> ok s now ->
    sleepers s = app pre (sl :: post) -> (sl_wakes sl <= now)%Z -> sl_next sl (locks s) = (Return d, data) ->
    runs ok (Resumed (sl_who sl) now (sl_zone sl) :: tr) {| clock := now; locks := data; sleepers := app pre post |}.
(** Nobody sleeps longer than it asked for. *)
Definition punctual (s : state) (now : Z) : Prop := forall sl, sl ∈ sleepers s -> (now <= sl_wakes sl)%Z.

Lemma notified_spec now zone data : limit_notify true now zone data =
  match data !! zone with
  | Some t => if (delay <? now - t)%Z then (Sleep delay (fun data => (Return PassOn, release zone data)), <[zone := now]> data)
              else (Return Answer, data)
  | None => (Sleep delay (fun data => (Return PassOn, release zone data)), <[zone := now]> data)
  end.
Proof. unfold limit_notify, acquire. cbn. destruct (data !! zone) as [t|]; [|done]. by destruct (delay <? now - t)%Z. Qed.
Lemma granted_spec now zone data seconds next data' : limit_notify true now zone data = (Sleep seconds next, data') ->
  seconds = delay /\ next = (fun data => (Return PassOn, release zone data)) /\ data' = <[zone := now]> data /\
  forall t, data !! zone = Some t -> (delay < now - t)%Z.
Proof.
  rewrite notified_spec. destruct (data !! zone) as [t|]; [destruct (Z.ltb_spec delay (now - t))|]; intros [= <- <- <-]; split_and!; try done.
  by intros ? [= <-].
Qed.
Lemma dropped_spec now zone data d data' : limit_notify true now zone data = (Return d, data') ->
  d = Answer /\ data' = data /\ exists t, data !! zone = Some t /\ (now - t <= delay)%Z.
Proof.
  rewrite notified_spec. destruct (data !! zone) as [t|]; [destruct (Z.ltb_spec delay (now - t))|]; intros [= <- <-]. split_and!; [done..|]. exists t. by split; [|lia].
Qed.

Section Runs.
Variable ok : state -> Z -> Prop.
(** Who sleeps has got the lock before, and will release it and pass its NOTIFY on. *)
Lemma sleepers_spec tr s sl : runs ok tr s -> sl ∈ sleepers s ->
  Granted (sl_who sl) (sl_since sl) (sl_zone sl) ∈ tr /\ sl_wakes sl = (sl_since sl + delay)%Z /\
  sl_next sl = (fun data => (Return PassOn, release (sl_zone sl) data)).
Proof.
  induction 1 as [now|tr s i now zone seconds next data Hr IH Hc Ho Hf Hl|tr s i now zone d data Hr IH Hc Ho Hl
    |tr s pre sl0 post now d data Hr IH Hc Ho Hs Hw Hn]; cbn [sleepers]; intros Hin.
  - by apply elem_of_nil in Hin.
  - apply elem_of_cons in Hin as [->|Hin]; cbn.
    + apply granted_spec in Hl as (-> & -> & _). split_and!; [by left|done|done].
    + destruct (IH Hin) as (? & ? & ?). split_and!; [by right|done|done].
  - destruct (IH Hin) as (? & ? & ?). split_and!; [by right|done|done].
  - destruct IH as (? & ? & ?); [rewrite Hs; set_solver|]. split_and!; [by right|done|done].
Qed.
Definition event_time (e : event) : Z := match e with Granted _ t _ | Dropped _ t _ | Resumed _ t _ => t end.
Lemma past tr s e : runs ok tr s -> e ∈ tr -> (event_time e <= clock s)%Z.
Proof.
  induction 1; cbn [clock]; intros Hin; [by apply elem_of_nil in Hin|..];
    (apply elem_of_cons in Hin as [->|Hin]; [cbn; lia|specialize (IHruns Hin); lia]).
Qed.
Lemma resumed_spec tr s j w z : runs ok tr s -> Resumed j w z ∈ tr -> exists u, Granted j u z ∈ tr /\ (u + delay <= w)%Z.
Proof.
  induction 1 as [| | |tr s pre sl post now d data Hr IH Hc Ho Hs Hw Hn]; intros Hin; [by apply elem_of_nil in Hin|set_solver..|].
  apply elem_of_cons in Hin as [Hin|Hin]; [|set_solver]. injection Hin as -> -> ->.
  destruct (sleepers_spec tr s sl Hr) as (Hg & Hwk & _); [rewrite Hs; set_solver|]. exists (sl_since sl). split; [by right|lia].
Qed.
(** The entry of a zone is the time of the last grant, and nobody went on since. *)
Definition quiet (z : string) (l : list event) : Prop := forall i t, Granted i t z ∉ l /\ Resumed i t z ∉ l.
Lemma quiet_cons z e l : quiet z (e :: l) -> quiet z l.
Proof. intros Hq i t. destruct (Hq i t). set_solver. Qed.
Lemma quiet_new z e l : quiet z l -> (forall i t, e <> Granted i t z /\ e <> Resumed i t z) -> quiet z (e :: l).
Proof. intros Hq He i t. destruct (Hq i t), (He i t). set_solver. Qed.
Lemma entry_kept tr s z after i t before : runs ok tr s -> tr = app after (Granted i t z :: before) -> quiet z after -> locks s !! z = Some t.
Proof.
  intros Hr. revert after. induction Hr as [now|tr s i' now zone seconds next data Hr IH Hc Ho Hf Hl|tr s i' now zone d data Hr IH Hc Ho Hl
    |tr s pre sl post now d data Hr IH Hc Ho Hs Hw Hn]; intros [|e after] [= E1 E2] Hq; cbn [locks]; subst.
  - apply granted_spec in Hl as (_ & _ & -> & _). by rewrite lookup_insert_eq.
  - apply granted_spec in Hl as (_ & _ & -> & _). rewrite lookup_insert_ne; [eapply IH; [done|by eapply quiet_cons]|].
    intros ->. destruct (Hq i' now) as [Hq1 _]. apply Hq1. by left.
  - apply dropped_spec in Hl as (_ & -> & _). eapply IH; [done|by eapply quiet_cons].
  - destruct (sleepers_spec _ s sl Hr) as (_ & _ & Hnx); [rewrite Hs; set_solver|]. rewrite Hnx in Hn. injection Hn as _ <-.
    unfold release. rewrite lookup_delete_ne; [eapply IH; [done|by eapply quiet_cons]|].
    intros E. destruct (Hq (sl_who sl) now) as [_ Hq2]. apply Hq2. rewrite E. by left.
Qed.
Lemma entry_origin tr s z t : runs ok tr s -> locks s !! z = Some t ->
  exists after i before, tr = app after (Granted i t z :: before) /\ quiet z after.
Proof.
  assert (Hstep : forall tr e, (exists after i before, tr = app after (Granted i t z :: before) /\ quiet z after) ->
    (forall i t, e <> Granted i t z /\ e <> Resumed i t z) -> exists after i before, e :: tr = app after (Granted i t z :: before) /\ quiet z after).
  { intros tr' e (after & i & before & -> & Hq) He. exists (e :: after), i, before. split; [done|by apply quiet_new]. }
  induction 1 as [now|tr s i' now zone seconds next data Hr IH Hc Ho Hf Hl|tr s i' now zone d data Hr IH Hc Ho Hl
    |tr s pre sl post now d data Hr IH Hc Ho Hs Hw Hn]; cbn [locks].
  - done.
  - apply granted_spec in Hl as (_ & _ & -> & _). destruct (decide (zone = z)) as [->|Hz].
    + rewrite lookup_insert_eq. intros [= ->]. exists [], i', tr. split; [done|]. intros i u. set_solver.
    + rewrite lookup_insert_ne by done. intros Hz'. apply Hstep; [by apply IH|]. intros i u. split; congruence.
  - apply dropped_spec in Hl as (_ & -> & _). intros Hz'. apply Hstep; [by apply IH|]. intros i u. split; congruence.
  - destruct (sleepers_spec _ s sl Hr) as (_ & _ & Hnx); [rewrite Hs; set_solver|]. rewrite Hnx in Hn. injection Hn as _ <-.
    unfold release. destruct (decide (sl_zone sl = z)) as [->|Hz]; [by rewrite lookup_delete_eq|].
    rewrite lookup_delete_ne by done. intros Hz'. apply Hstep; [by apply IH|]. intros i u. split; congruence.
Qed.
(** Without delays a zone has one sleeper at most, whose entry stands, and who does not sleep
    any more was granted the lock a delay ago. *)
Lemma punctual_spec tr s : (forall s now, ok s now -> punctual s now) -> runs ok tr s ->
  (forall sl, sl ∈ sleepers s -> locks s !! sl_zone sl = Some (sl_since sl)) /\
  NoDup (map sl_zone (sleepers s)) /\
  (forall i t z, Granted i t z ∈ tr -> (exists sl, sl ∈ sleepers s /\ sl_zone sl = z /\ sl_since sl = t) \/ (t + delay <= clock s)%Z).
Proof.
  intros Hok. induction 1 as [now|tr s i now zone seconds next data Hr (IH1 & IH2 & IH3) Hc Ho Hf Hl
    |tr s i now zone d data Hr (IH1 & IH2 & IH3) Hc Ho Hl|tr s pre sl post now d data Hr (IH1 & IH2 & IH3) Hc Ho Hs Hw Hn]; cbn [sleepers locks clock].
  - split_and!; [set_solver|constructor|set_solver].
  - apply granted_spec in Hl as (-> & -> & -> & Hexp).
    assert (Hz : zone ∉ map sl_zone (sleepers s)).
    { intros (sl & -> & Hin)%list_elem_of_fmap. specialize (Hexp _ (IH1 _ Hin)). pose proof (Hok _ _ Ho sl Hin) as Hp.
      destruct (sleepers_spec _ _ _ Hr Hin) as (_ & Hwk & _). lia. }
    split_and!.
    + intros sl [->|Hin]%elem_of_cons; cbn; [by rewrite lookup_insert_eq|]. rewrite lookup_insert_ne; [by apply IH1|].
      intros ->. apply Hz. apply list_elem_of_fmap. by exists sl.
    + by constructor.
    + intros j t z [He|Hin]%elem_of_cons.
      * injection He as -> -> ->. left. eexists. split; [by left|by split].
      * destruct (IH3 _ _ _ Hin) as [(sl & Hsl & Hz')|Ht]; [left; exists sl; split; [by right|exact Hz']|right; lia].
  - apply dropped_spec in Hl as (_ & -> & _). split_and!; [done..|].
    intros j t z [?|Hin]%elem_of_cons; [done|]. destruct (IH3 _ _ _ Hin) as [?|?]; [by left|right; lia].
  - destruct (sleepers_spec _ s sl Hr) as (_ & Hwk & Hnx); [rewrite Hs; set_solver|]. rewrite Hnx in Hn. injection Hn as _ <-.
    rewrite Hs, map_app in IH2. cbn in IH2. pose proof IH2 as Hd.
    assert (Hother : sl_zone sl ∉ map sl_zone (app pre post)).
    { rewrite map_app. apply NoDup_app in Hd as (_ & Hd & Hd2). apply NoDup_cons in Hd2 as [Hd2 _]. intros [Hi|Hi]%elem_of_app; [|done].
      apply (Hd _ Hi). by left. }
    split_and!.
    + intros sl' Hin. unfold release. rewrite lookup_delete_ne; [apply IH1; rewrite Hs; set_solver|].
      intros E. apply Hother. rewrite E. apply list_elem_of_fmap. by exists sl'.
    + rewrite map_app. apply NoDup_app in IH2 as (H1 & H2 & H3). apply NoDup_cons in H3 as [_ H3]. apply NoDup_app. split_and!; [done| |done]. set_solver.
    + intros j t z [?|Hin]%elem_of_cons; [done|]. destruct (IH3 _ _ _ Hin) as [(sl' & Hsl & Hz)|?]; [|right; lia].
      rewrite Hs in Hsl. assert (Hcase : sl' = sl \/ sl' ∈ app pre post) by set_solver. destruct Hcase as [->|Hin']; [right; lia|].
      left. by exists sl'.
Qed.

(** C38: NOTIFYs of a zone are thinned out. A NOTIFY is answered and dropped only when another
    one of the same zone got the lock at most the delay before, and no NOTIFY of the zone went on
    since. One that gets the lock sleeps for the delay, releases the lock and is passed on. When
    nobody oversleeps, those of a zone that get the lock are at least the delay apart. In general
    the last one before may have been later only when another one, that got the lock before
    that one, has gone on since: a holder that wakes late releases the lock of whoever has it
    then. *)
Theorem notify_rate_limited tr s now zone :
  runs ok tr s -> (clock s <= now)%Z ->
  let asked := (limit_notify true now zone (locks s)).1 in
  (asked = Return Answer /\
     (exists after i t before, tr = app after (Granted i t zone :: before) /\ quiet zone after /\ (now - t <= delay)%Z) \/
   (exists next, asked = Sleep delay next /\ (forall data, next data = (Return PassOn, delete zone data))) /\
     (forall after i t before, tr = app after (Granted i t zone :: before) -> (forall j u, Granted j u zone ∉ after) ->
        (delay <= now - t)%Z \/
        exists j u w, Granted j u zone ∈ before /\ Resumed j w zone ∈ after) /\
     ((forall s now, ok s now -> punctual s now) -> ok s now ->
        forall i t, Granted i t zone ∈ tr -> (delay <= now - t)%Z)).
Proof.
  intros Hr Hc. cbn zeta. destruct (limit_notify true now zone (locks s)) as [[d|seconds next] data] eqn:Hl; cbn [fst].
  - left. apply dropped_spec in Hl as (-> & _ & t & Ht & Hle). split; [done|].
    destruct (entry_origin tr s zone t Hr Ht) as (after & i & before & -> & Hq). by exists after, i, t, before.
  - right. apply granted_spec in Hl as (-> & -> & _ & Hexp). split_and!.
    + eexists. split; [done|]. intros data'. done.
    + intros after i t before E Hlast.
      destruct (existsb (fun e => match e with Resumed _ _ z => z =? zone | _ => false end) after) eqn:Hx.
      * apply existsb_exists in Hx as ([| |j w z] & Hin & Hz); try done. apply String.eqb_eq in Hz as ->. apply list_elem_of_In in Hin.
        assert (Hin' : Resumed j w zone ∈ tr) by (rewrite E; set_solver).
        destruct (resumed_spec tr s j w zone Hr Hin') as (u & Hu & Hle). rewrite E in Hu.
        apply elem_of_app in Hu as [Hu|[Hu|Hu]%elem_of_cons]; [by apply Hlast in Hu| |right; by exists j, u, w].
        injection Hu as <- <-. left. pose proof (past tr s _ Hr Hin') as Hp. cbn in Hp. lia.
      * left. assert (Hq : quiet zone after).
        { intros j u. split; [apply Hlast|]. intros Hin. apply not_true_iff_false in Hx. apply Hx. apply existsb_exists.
          exists (Resumed j u zone). split; [by apply list_elem_of_In|]. apply String.eqb_refl. }
        specialize (Hexp t (entry_kept tr s zone after i t before Hr E Hq)). lia.
    + intros Hok Ho i t Hin. destruct (punctual_spec tr s Hok Hr) as (H1 & _ & H3).
      destruct (H3 i t zone Hin) as [(sl & Hsl & <- & <-)|Ht]; [|lia].
      specialize (Hexp _ (H1 sl Hsl)). lia.
Qed.
End Runs.
End Lock.

(** ** Examples, with a delay of 5 *)
Lemma grant_run ok delay tr s i now zone :
  runs delay ok tr s -> (clock s <= now)%Z -> ok s now -> fresh i tr ->
  match locks s !! zone with Some t => (delay <? now - t)%Z | None => true end = true ->
  runs delay ok (Granted i now zone :: tr)
    {| clock := now; locks := <[zone := now]> (locks s);
       sleepers := {| sl_who := i; sl_zone := zone; sl_since := now; sl_wakes := (now + delay)%Z;
                      sl_next := fun data => (Return PassOn, release zone data) |} :: sleepers s |}.
Proof.
  intros Hr Hc Ho Hf Hl. eapply runs_granted; try done. rewrite notified_spec.
  destruct (locks s !! zone) as [t|]; [by rewrite Hl|done].
Qed.
(** The first holder oversleeps; the second gets the lock 6 seconds after it, and loses it when the
    first wakes; so the third gets it one second after the second. *)
Definition overslept : list event := [Resumed 1 16 "a."; Granted 2 16 "a."; Granted 1 10 "a."].
Lemma oversleep : exists s, runs 5 (fun _ _ => True) overslept s /\ clock s = 16%Z /\ locks s !! "a." = None.
Proof.
  set (init := {| clock := 10; locks := ∅; sleepers := [] |}).
  assert (H0 : runs 5 (fun _ _ => True) [] init) by apply runs_begin.
  pose proof (grant_run _ _ _ _ 1 10 "a." H0 ltac:(done) I ltac:(by intros t z ?%elem_of_nil) eq_refl) as H1.
  pose proof (grant_run _ _ _ _ 2 16 "a." H1 ltac:(done) I ltac:(intros t z Hin; elem_cases Hin) eq_refl) as H2.
  pose proof (runs_resumed 5 _ _ _ [_] _ [] 16 _ _ H2 ltac:(done) I eq_refl ltac:(done) eq_refl) as H3.
  eexists. split; [exact H3|]. by vm_compute.
Qed.
Lemma notify_rate_limited_witness : exists s,
  runs 5 (fun _ _ => True) overslept s /\ (limit_notify 5 true 17 "a." (locks s)).1 <> Return Answer /\
  exists j u w, Granted j u "a." ∈ [Granted 1 10 "a."] /\ Resumed j w "a." ∈ [Resumed 1 16 "a."].
Proof.
  destruct oversleep as (s & Hr & Hc & Hl). exists s. split; [exact Hr|].
  assert (Hg : (limit_notify 5 true 17 "a." (locks s)).1 <> Return Answer) by (rewrite notified_spec, Hl; discriminate).
  split; [exact Hg|].
  destruct (notify_rate_limited 5 (fun _ _ => True) overslept s 17 "a." Hr ltac:(rewrite Hc; lia)) as [[Ha _]|(_ & Hb & _)];
    [by destruct (Hg Ha)|].
  destruct (Hb [Resumed 1 16 "a."] 2%nat 16%Z [Granted 1 10 "a."] eq_refl) as [Hle|Hx]; [|lia|exact Hx].
  intros j u Hin. elem_cases Hin.
Defined.
