(* ===== verification/CentralAdmin.v ===== *)
(** * Central: quotas, TLDs, TSIG keys, blacklists, pools, transfers, imports,
      exports and service statuses (designate/central/service.py)

    Most methods check a policy and go to storage; the interesting ones are the
    change of a pool, which follows its name servers in every zone, and the import
    of a zone file. *)
From Stdlib Require Import ZArith Lia Ascii String.
From stdpp Require Import base option numbers strings sets list.
From S2P Require Import Prelude PyStr Exceptions Values Objects Utils Classes World Decorators Sql Tables Storage StorageZdns Quota Scheduler Central CentralZones CentralRecords CentralViews CentralCreate Dnsutils.
Local Open Scope string_scope.

Section Admin.
Context `{Env} `{SqlEngine} `{Services}.
Variable payloads : string -> pyval -> list pyval -> list pyval.
Abbreviation criterion := (list (string * pyval)).

(** ** Quotas *)
Definition get_absolute_limits (ctx : context) : P world (list (string * Z)) := Quota.get_quotas ctx (tenant_val ctx).
(** A tenant's quotas are for itself, or for a context that sees all tenants. *)
Definition own_or_all (ctx : context) (tenant_id : pyval) : P world unit :=
  raise_if (negb (py_eq tenant_id (tenant_val ctx)) && negb (all_tenants ctx)) (Forbidden F_Base).
Definition get_quotas (ctx : context) (tenant_id : pyval) : P world (list (string * Z)) :=
  check_policy "get_quotas" ctx [("tenant_id", tenant_id)] ;;;
  own_or_all ctx tenant_id ;;; Quota.get_quotas ctx tenant_id.
Definition get_quota (ctx : context) (tenant_id : pyval) (resource : string) : P world (list (string * pyval)) :=
  check_policy "get_quota" ctx [("tenant_id", tenant_id); ("resource", PStr resource)] ;;;
  Quota.get_quota ctx tenant_id resource.
Definition set_quota (ctx : context) (tenant_id : pyval) (resource : string) (hard_limit : pyval) :
    P world (list (string * pyval)) :=
  transaction (binary (fun tenant_id hard_limit =>
    check_policy "set_quota" ctx
      [("tenant_id", tenant_id); ("resource", PStr resource); ("hard_limit", hard_limit)] ;;;
    own_or_all ctx tenant_id ;;; Quota.set_quota ctx tenant_id resource hard_limit)) [tenant_id; hard_limit].
(** [reset_quotas] does not compare the tenants. *)
Definition reset_quotas (ctx : context) (tenant_id : pyval) : P world unit :=
  transaction (unary (fun tenant_id =>
    check_policy "reset_quotas" ctx [("tenant_id", tenant_id)] ;;; Quota.reset_quotas ctx tenant_id)) [tenant_id].

(** ** TLDs, TSIG keys and blacklists: a policy check and the operation of storage *)
Section Resource.
Variables (rs : resource) (name : string).
Definition resource_id : string := name ++ "_id".
Definition event (verb : string) : string := "dns." ++ name ++ "." ++ verb.
Definition create_resource (ctx : context) (obj : pyval) : P world pyval :=
  notification payloads (event "create") (transaction (unary (fun obj =>
    check_policy ("create_" ++ name) ctx [] ;;; create rs obj))) [obj].
Definition find_resources (ctx : context) (c : criterion) (pg : page) : P world pyval :=
  check_policy ("find_" ++ name ++ "s") ctx [] ;;; find_all rs ctx c pg.
Definition find_resource (ctx : context) (c : criterion) : P world pyval :=
  check_policy ("find_" ++ name) ctx [] ;;; find_one rs ctx c.
(** [targeted]: whether the policy is told which resource. *)
Definition get_resource (targeted : bool) (ctx : context) (id : pyval) : P world pyval :=
  check_policy ("get_" ++ name) ctx (if targeted then [(resource_id, id)] else []) ;;; get_by_id rs ctx id.
Definition update_resource (original : bool) (ctx : context) (obj : pyval) : P world pyval :=
  notification payloads (event "update") (transaction (unary (fun obj =>
    let! id := (if original then lift (obj_get_original_value registry obj "id") else attr obj "id") in
    check_policy ("update_" ++ name) ctx [(resource_id, id)] ;;; update_obj rs ctx obj))) [obj].
Definition delete_resource (targeted : bool) (ctx : context) (id : pyval) : P world pyval :=
  notification payloads (event "delete") (transaction (unary (fun id =>
    check_policy ("delete_" ++ name) ctx (if targeted then [(resource_id, id)] else []) ;;;
    delete_by_id rs ctx id))) [id].
End Resource.
Definition create_tld := create_resource tld_methods "tld".
Definition find_tlds := find_resources tld_methods "tld".
Definition get_tld := get_resource tld_methods "tld" true.
Definition update_tld := update_resource tld_methods "tld" true.
Definition delete_tld := delete_resource tld_methods "tld" true.
Definition create_tsigkey := create_resource tsigkey_methods "tsigkey".
Definition find_tsigkeys := find_resources tsigkey_methods "tsigkey".
Definition get_tsigkey := get_resource tsigkey_methods "tsigkey" true.
Definition update_tsigkey := update_resource tsigkey_methods "tsigkey" true.
Definition delete_tsigkey := delete_resource tsigkey_methods "tsigkey" true.
Definition create_blacklist := create_resource blacklist_methods "blacklist".
Definition get_blacklist := get_resource blacklist_methods "blacklist" false.
Definition find_blacklists := find_resources blacklist_methods "blacklist".
Definition find_blacklist := find_resource blacklist_methods "blacklist".
Definition update_blacklist := update_resource blacklist_methods "blacklist" false.
Definition delete_blacklist := delete_resource blacklist_methods "blacklist" false.

(** ** Pools *)
Definition central_create_pool (ctx : context) (pool : pyval) : P world pyval :=
  notification payloads "dns.pool.create" (transaction (unary (fun pool =>
    let! tenant_id := attr pool "tenant_id" in
    let! pool := (match tenant_id with PNone => set_attr pool "tenant_id" (tenant_val ctx) | _ => ret pool end) in
    check_policy "create_pool" ctx [] ;;; create_pool ctx pool))) [pool].
Definition central_find_pools (ctx : context) (c : criterion) (pg : page) : P world pyval :=
  check_policy "find_pools" ctx [] ;;; find_pools ctx c pg.
Definition central_find_pool (ctx : context) (c : criterion) : P world pyval :=
  check_policy "find_pool" ctx [] ;;; find_pool ctx c.
Definition central_get_pool (ctx : context) (id : pyval) : P world pyval :=
  check_policy "get_pool" ctx [] ;;; get_pool ctx id.

(** [update_pool]: name servers that come or go are carried to every zone of the
    pool. [set_order] is the order a set of names is gone through. Without name
    servers in the request the two sets are unbound. *)
Variable set_order : list pyval -> list pyval.
Definition hostnames (records : list pyval) : P world (list pyval) := mmap (fun n => attr n "hostname") records.
Definition mem_val (v : pyval) (l : list pyval) : bool := existsb (py_eq v) l.
Fixpoint to_set (l : list pyval) : list pyval :=
  match l with [] => [] | v :: l' => if mem_val v l' then to_set l' else v :: to_set l' end.
Definition difference (a b : list pyval) : list pyval :=
  set_order (to_set (filter (fun v => mem_val v b = false) a)).
Definition zones_of_pool (ctx : context) (c : criterion) : P world (list pyval) :=
  let! zones := central_find_zones ctx c no_page in ret (list_objects zones).
Definition add_ns_everywhere (ctx : context) (pool_id ns : pyval) : P world unit :=
  let! zones := zones_of_pool ctx [("pool_id", pool_id); ("action", PStr "!DELETE")] in
  mfor zones (_add_ns ctx ns).
Definition delete_ns_everywhere (ctx : context) (pool_id : pyval) (left : list pyval) (ns : pyval) : P world unit :=
  raise_if (match left with [] => true | _ => false end) (BadRequest LastServerDeleteNotAllowed) ;;;
  let! zones := zones_of_pool ctx [("pool_id", pool_id)] in
  mfor zones (_delete_ns ctx ns).
Definition update_pool_body (ctx : context) (pool : pyval) : P world pyval :=
  check_policy "update_pool" ctx [] ;;;
  let! id := attr pool "id" in
  if obj_attr_is_set pool "ns_records" then
    let! elevated_context := lift (elevated None true false ctx) in
    let! original := _get_pool_ns_records ctx id in
    let! existing_ns := hostnames original in
    let! ns_records := items_of pool "ns_records" in
    let! request_ns := hostnames ns_records in
    let! updated_pool := update_pool ctx pool in
    mfor (difference request_ns existing_ns) (add_ns_everywhere elevated_context id) ;;;
    mfor (difference existing_ns request_ns) (delete_ns_everywhere elevated_context id ns_records) ;;;
    ret updated_pool
  else update_pool ctx pool ;;; raise (Py PyUnboundLocalError).
Definition central_update_pool (ctx : context) (pool : pyval) : P world pyval :=
  notification payloads "dns.pool.update" (transaction (unary (update_pool_body ctx))) [pool].

(** [delete_pool] *)
Definition delete_pool_body (ctx : context) (pool_id : pyval) : P world pyval :=
  check_policy "delete_pool" ctx [] ;;;
  let! elevated_context := lift (elevated None true false ctx) in
  let! zones := zones_of_pool elevated_context [("pool_id", pool_id); ("action", PStr "!DELETE")] in
  match zones with
  | [] => delete_pool ctx pool_id
  | _ => raise (BadRequest InvalidOperation)
  end.
Definition central_delete_pool (ctx : context) (pool_id : pyval) : P world pyval :=
  notification payloads "dns.pool.delete" (transaction (unary (delete_pool_body ctx))) [pool_id].

(** ** Zone transfers *)
Definition owner_target (o : pyval) : P world criterion := let! t := attr o "tenant_id" in ret [("tenant_id", t)].
Definition central_update_zone_transfer_request (ctx : context) (request : pyval) : P world pyval :=
  notification payloads "dns.zone_transfer_request.update" (transaction (unary (fun request =>
    raise_if (mem_str "zone_id" (obj_what_changed registry request)) (BadRequest InvalidOperation) ;;;
    let! target := owner_target request in
    check_policy "update_zone_transfer_request" ctx target ;;;
    update_zone_transfer_request ctx request))) [request].
Definition central_delete_zone_transfer_request (ctx : context) (id : pyval) : P world pyval :=
  notification payloads "dns.zone_transfer_request.delete" (transaction (unary (fun id =>
    let! request := get_zone_transfer_request ctx id in
    let! target := owner_target request in
    check_policy "delete_zone_transfer_request" ctx target ;;;
    delete_zone_transfer_request ctx id))) [id].
Definition get_zone_transfer_accept (ctx : context) (id : pyval) : P world pyval :=
  let! accept := get_by_id zone_transfer_accept_methods ctx id in
  let! target := owner_target accept in
  check_policy "get_zone_transfer_accept" ctx target ;;; ret accept.
Definition find_zone_transfer_accepts (ctx : context) (c : criterion) (pg : page) : P world pyval :=
  check_policy "find_zone_transfer_accepts" ctx [] ;;; find_all zone_transfer_accept_methods ctx c pg.
Definition find_zone_transfer_accept (ctx : context) (c : criterion) : P world pyval :=
  check_policy "find_zone_transfer_accept" ctx [] ;;; find_one zone_transfer_accept_methods ctx c.
Definition update_zone_transfer_accept (ctx : context) (accept : pyval) : P world pyval :=
  notification payloads "dns.zone_transfer_accept.update" (transaction (unary (fun accept =>
    let! target := owner_target accept in
    check_policy "update_zone_transfer_accept" ctx target ;;;
    update_obj zone_transfer_accept_methods ctx accept))) [accept].
Definition delete_zone_transfer_accept (ctx : context) (id : pyval) : P world pyval :=
  notification payloads "dns.zone_transfer_accept.delete" (transaction (unary (fun id =>
    let! accept := get_by_id zone_transfer_accept_methods ctx id in
    let! target := owner_target accept in
    check_policy "delete_zone_transfer_accept" ctx target ;;;
    delete_by_id zone_transfer_accept_methods ctx id))) [id].

(** ** Imports and exports *)
Section Task.
Variables (rs : resource) (name task_type : string).
(** The criterion of the caller is replaced. *)
Definition central_find_tasks (ctx : context) (c : criterion) (pg : page) : P world pyval :=
  check_policy ("find_" ++ name ++ "s") ctx (own_target ctx) ;;;
  find_tasks rs task_type ctx [("task_type", PStr task_type)] pg.
Definition central_get_task (ctx : context) (id : pyval) : P world pyval :=
  check_policy ("get_" ++ name) ctx (own_target ctx) ;;; get_task rs task_type ctx id.
Definition central_update_task (ctx : context) (task : pyval) : P world pyval :=
  notification payloads ("dns." ++ name ++ ".update") (unary (fun task =>
    let! target := owner_target task in
    check_policy ("update_" ++ name) ctx target ;;; update_obj rs ctx task)) [task].
Definition central_delete_task (ctx : context) (id : pyval) : P world pyval :=
  notification payloads ("dns." ++ name ++ ".delete") (transaction (unary (fun id =>
    check_policy ("delete_" ++ name) ctx (app [(name ++ "_id", id)] (own_target ctx)) ;;;
    delete_task rs task_type ctx id))) [id].
Definition new_task (cls : string) (ctx : context) (zone_id : pyval) : P world pyval :=
  let! task := lift (new_obj registry cls
    [("status", PStr "PENDING"); ("message", PNone); ("zone_id", zone_id); ("tenant_id", tenant_val ctx);
     ("task_type", PStr task_type)]) in
  create rs task.
End Task.
Definition find_zone_imports := central_find_tasks zone_import_methods "zone_import" "IMPORT".
Definition get_zone_import := central_get_task zone_import_methods "zone_import" "IMPORT".
Definition update_zone_import := central_update_task zone_import_methods "zone_import".
Definition delete_zone_import := central_delete_task zone_import_methods "zone_import" "IMPORT".
Definition find_zone_exports := central_find_tasks zone_export_methods "zone_export" "EXPORT".
Definition get_zone_export := central_get_task zone_export_methods "zone_export" "EXPORT".
Definition update_zone_export := central_update_task zone_export_methods "zone_export".
Definition delete_zone_export := central_delete_task zone_export_methods "zone_export" "EXPORT".

(** [create_zone_import]; the import itself runs in a thread, [_import_zone]. *)
Definition create_zone_import (ctx : context) (request_body : pyval) : P world pyval :=
  notification payloads "dns.zone_import.create" (unary (fun _ =>
    check_policy "create_zone_import" ctx (own_target ctx) ;;;
    new_task zone_import_methods "IMPORT" "ZoneImport" ctx PNone)) [request_body].

(** What dnspython makes of a zone file, and the text of an exception. *)
Inductive parsed := Parsed (z : dns_zone) | UnknownOrigin | MalformedFile | ParseError (e : exc).
Variable from_text : string -> parsed.
Variable exc_text : exc -> string.
(** What the scheduler's filters take from outside the source. *)
Variable bool_from_string : pyval -> option bool.
Variable random_choice : nat -> nat.
Variable scheduler_filters : list filter_kind.

Definition with_outcome (status message : string) (task : pyval) : R pyval :=
  let? task := setattr registry task "message" (PStr message) in setattr registry task "status" (PStr status).
Definition undefined_error (e : exc) : string := "An undefined error occurred. " ++ stake 130 (exc_text e).
(** The name server and SOA record sets of the file are left out. *)
Definition without_ns_soa (zone : pyval) : R pyval :=
  let? l := getattr registry zone "recordsets" in
  let rrsets := list_objects l in
  let keep := foldl (fun acc rrset => if mem_str (str_attr rrset "type") ["NS"; "SOA"]
                                      then remove_first rrset acc else acc) rrsets rrsets in
  Ok (with_attr_items zone "recordsets" keep).
Definition parse_import (request_body : string) (task : pyval) : R (option pyval * pyval) :=
  let failed message := let? task := with_outcome "ERROR" message task in Ok (None, task) in
  match from_text request_body with
  | UnknownOrigin =>
      failed "The $ORIGIN statement is required and must be the first statement in the zonefile."
  | MalformedFile => failed "Malformed zonefile."
  | ParseError e => failed (undefined_error e)
  | Parsed z =>
      match (let? zone := from_dnspython_zone z in
             let? zone := setattr registry zone "type" (PStr "PRIMARY") in without_ns_soa zone) with
      | Ok zone => Ok (Some zone, task)
      | Raise (BadRequest _) => failed "An SOA record is required."
      | Raise e => failed (undefined_error e)
      end
  end.
(** [_import_zone] *)
Definition create_imported (ctx : context) (zone task : pyval) : P world pyval :=
  try_except
    (let! zone := central_create_zone payloads bool_from_string random_choice scheduler_filters ctx zone in
     let! id := attr zone "id" in
     let! task := set_attr task "zone_id" id in
     let! name := zone_name zone in
     lift (with_outcome "COMPLETE" (name ++ " imported") task))
    (fun e =>
       match e with
       | Py Blocked | Py (EventletTimeout _) => None
       | Duplicate DuplicateZone => Some (lift (with_outcome "ERROR" "Duplicate zone." task))
       | InvalidTTL => Some (lift (with_outcome "ERROR" (exc_text e) task))
       | _ => Some (lift (with_outcome "ERROR" (undefined_error e) task))
       end).
Definition _import_zone (ctx : context) (task : pyval) (request_body : string) : P world pyval :=
  let! ' (zone, task) := lift (parse_import request_body task) in
  let! task := (match zone with
                | Some zone => create_imported ctx zone task
                | None => ret task
                end) in
  update_zone_import ctx task.

(** [create_zone_export] *)
Definition worker_enabled : bool := negb (conf_int "service:worker.enabled" =? 0)%Z.
Definition finish_export (ctx : context) (zone_id export created : pyval) : P world pyval :=
  let! count := count_recordsets ctx [("zone_id", zone_id)] in
  let store export := update_zone_export ctx export ;;; ret created in
  if (conf_int "service:zone_manager.export_synchronous" =? 0)%Z then
    let! export := lift (with_outcome "ERROR" "No suitable method for export" export) in store export
  else
    try_else (limit_check ctx (tenant_val ctx) [("api_export_size", count)])
      (on OverQuota (lift (with_outcome "ERROR" "Zone is too large to export" export)))
      (fun _ =>
         let! id := attr export "id" in
         let! id := str_of id in
         let! export := set_attr export "location" (PStr ("designate://v2/zones/tasks/exports/" ++ id ++ "/export")) in
         let! export := set_attr export "status" (PStr "COMPLETE") in store export).
Definition create_zone_export_body (ctx : context) (zone_id : pyval) : P world pyval :=
  let! zone := get_zone ctx zone_id in
  check_policy "create_zone_export" ctx (own_target ctx) ;;;
  let! created := new_task zone_export_methods "EXPORT" "ZoneExport" ctx zone_id in
  let export := deepcopy registry created in
  if worker_enabled then send (Cast "worker" "start_zone_export" [zone; export]) ;;; ret created
  else finish_export ctx zone_id export created.
Definition create_zone_export (ctx : context) (zone_id : pyval) : P world pyval :=
  notification payloads "dns.zone_export.create" (unary (create_zone_export_body ctx)) [zone_id].

(** ** Service statuses *)
Definition find_service_statuses (ctx : context) (c : criterion) (pg : page) : P world pyval :=
  check_policy "find_service_statuses" ctx [] ;;; find_all service_status_methods ctx c pg.
Definition find_service_status (ctx : context) (c : criterion) : P world pyval :=
  check_policy "find_service_status" ctx [] ;;; find_one service_status_methods ctx c.
Definition update_service_status (ctx : context) (status : pyval) : P world pyval :=
  check_policy "update_service_status" ctx [] ;;;
  let! service_name := attr status "service_name" in
  let! hostname := attr status "hostname" in
  let! id := attr status "id" in
  let c := app [("service_name", service_name); ("hostname", hostname)]
             (if obj_attr_is_set status "id" then [("id", id)] else []) in
  try_except
    (let! db_status := find_one service_status_methods ctx c in
     let! db_status := lift (update registry db_status (items registry status)) in
     update_obj service_status_methods ctx db_status)
    (on (NotFound ServiceStatusNotFound) (create service_status_methods status)).
End Admin.
