(* ===== verification/Heartbeat.v ===== *)
(** * Heartbeats (designate/service_status.py)

    Every service tells central, at each tick of a timer, that it is alive. The emitters, with
    the timer as a sequence of ticks, on the database that [update_service_status] of central
    keeps; and what a sequence of heartbeats makes of the rows of a service. *)
From Stdlib Require Import ZArith Lia Ascii String.
From stdpp Require Import base option numbers strings sets list.
From S2P Require Import Prelude PyStr Exceptions Values Objects Utils Classes World Decorators Sql SqlFacts Rows Tables Storage CentralZones CentralAdmin.
Local Open Scope string_scope.

(** ** The emitters (HeartBeatEmitter) *)
Record emitter := { _service : string; _hostname : string; _running : bool }.
Definition new_emitter (service hostname : string) : emitter := {| _service := service; _hostname := hostname; _running := false |}.
Definition start (e : emitter) : emitter := {| _service := _service e; _hostname := _hostname e; _running := true |}.
Definition stop (e : emitter) : emitter := {| _service := _service e; _hostname := _hostname e; _running := false |}.

Section Emitter.
Context `{Env} `{SqlEngine}.
(** [status_factory], of the services [RPCService._get_status] *)
Record reported := { h_status : pyval; h_stats : pyval; h_capabilities : pyval }.
Definition service_reports : reported := {| h_status := PStr "UP"; h_stats := PDict []; h_capabilities := PDict [] |}.
Definition _get_status (status_factory : option reported) : reported :=
  default {| h_status := PBool true; h_stats := PDict []; h_capabilities := PDict [] |} status_factory.
Definition service_status (e : emitter) (r : reported) (now : Z) : R pyval :=
  new_obj registry "ServiceStatus"
    [("service_name", PStr (_service e)); ("hostname", PStr (_hostname e)); ("status", h_status r);
     ("stats", h_stats r); ("capabilities", h_capabilities r); ("heartbeated_at", PInt now)].
Definition _emit_heartbeat (_transmit : pyval -> P world unit) (status_factory : option reported) (e : emitter) : P world unit :=
  if negb (_running e) then ret tt
  else
    let! now := utcnow in
    let! status := lift (service_status e (_get_status status_factory) now) in
    _transmit status.

(** [NoopEmitter], and [RpcEmitter] with central as [rpc_api] *)
Definition Noop_transmit (status : pyval) : P world unit := ret tt.
Definition Rpc_transmit (status : pyval) : P world unit :=
  let! admin_context := lift (get_admin_context false) in
  update_service_status admin_context status ;;; ret tt.

(** What happens to an emitter: the timer ticks, at a time, the service starts and stops. *)
Inductive occurs := Tick (now : Z) | Start | Stop.
Definition set_now (now : Z) (w : world) : world :=
  {| w_db := w_db w; w_uuids := w_uuids w; w_now := now; w_sent := w_sent w; w_zone_locks := w_zone_locks w; w_held := w_held w;
     w_tx := w_tx w; w_doomed := w_doomed w; w_retry_held := w_retry_held w; w_retries := w_retries w;
     w_nstack := w_nstack w; w_nqueue := w_nqueue w |}.
Fixpoint happens (transmit : pyval -> P world unit) (status_factory : option reported) (l : list occurs) (e : emitter) : P world emitter :=
  match l with
  | [] => ret e
  | Tick now :: l => modify (set_now now) ;;; _emit_heartbeat transmit status_factory e ;;; happens transmit status_factory l e
  | Start :: l => happens transmit status_factory l (start e)
  | Stop :: l => happens transmit status_factory l (stop e)
  end.
End Emitter.

(** ** The types of the columns (storage/impl_sqlalchemy/tables.py), and whether they are nullable *)
Definition SERVICE_STATES : list string := ["UP"; "DOWN"; "WARNING"].
Definition service_status_types : list (string * (column_type * bool)) := [
  ("id", (CUuid, false));
  ("created_at", (CDateTime, true));
  ("updated_at", (CDateTime, true));
  ("service_name", (CString 40, false));
  ("hostname", (CString 255, false));
  ("heartbeated_at", (CDateTime, true));
  ("status", (CEnum SERVICE_STATES, false));
  ("stats", (CJson, false));
  ("capabilities", (CJson, false)) ].

(** ** Theorems *)
Section Rows.
Context `{Env} `{SqlLaws}.
Hypothesis uuid4_fresh : forall n m, uuid4 n = uuid4 m -> n = m.
Variables service hostname : string.
Hypothesis service_plain : plain service.
Hypothesis hostname_plain : plain hostname.

Abbreviation statuses w := (rows_of (w_db w) service_status_table).
Definition own (r : row) : bool :=
  compare_op OEq (cell r "service_name") (PStr service) && compare_op OEq (cell r "hostname") (PStr hostname).
Definition own_rows (w : world) : list row := filter (fun r => own r = true) (statuses w).
Definition beat_at (now : Z) (r : row) : Prop := own r = true /\ cell r "heartbeated_at" = PInt now.

Variable r : reported.
Definition beat (now : Z) : pyval :=
  PObj "ServiceStatus" [("service_name", PStr service); ("hostname", PStr hostname); ("status", h_status r);
     ("stats", h_stats r); ("capabilities", h_capabilities r); ("heartbeated_at", PInt now)]
    ["service_name"; "hostname"; "status"; "stats"; "capabilities"; "heartbeated_at"] [].
Lemma service_status_eq e now : _service e = service -> _hostname e = hostname -> service_status e r now = Ok (beat now).
Proof. intros Hs Hh. unfold service_status. rewrite Hs, Hh. reflexivity. Qed.

Definition values_of (now : Z) : row :=
  [("service_name", PStr service); ("hostname", PStr hostname); ("status", h_status r); ("stats", h_stats r);
   ("capabilities", h_capabilities r); ("heartbeated_at", PInt now)].
(** The table takes what the service reports: its names are of the lengths of their columns, its
    status is one of the enumeration, its statistics and capabilities are dictionaries. *)
Definition reportable : Prop :=
  Forall (fun nv => column_takes service_status_types nv.1 nv.2 /\ wf_val nv.2) (values_of 0).
Hypothesis is_reportable : reportable.
Lemma reported_values : (exists s, h_status r = PStr s /\ s ∈ SERVICE_STATES) /\ wf_val (h_stats r) /\ wf_val (h_capabilities r).
Proof.
  pose proof is_reportable as Hr. unfold reportable, values_of in Hr. rewrite !Forall_cons in Hr. cbn [fst snd] in Hr.
  destruct Hr as (_ & _ & [Hs _] & [_ Ht] & [_ Hc] & _). split; [|done]. unfold column_takes in Hs.
  change (takes (CEnum SERVICE_STATES, false) (h_status r) = true) in Hs. destruct (h_status r) as [| | |s| | |]; try done.
  exists s. split; [done|]. by apply mem_str_elem.
Qed.

Lemma find_own ctx w :
  find_one service_status_methods ctx [("service_name", PStr service); ("hostname", PStr hostname)] w =
  match own_rows w with
  | [x] => (_set_object_from_model (PObj "ServiceStatus" [] [] []) (Some x), w)
  | _ => (Raise (NotFound ServiceStatusNotFound), w)
  end.
Proof.
  unfold find_one. cbn [r_table r_cls r_nf service_status_methods]. rewrite find_one_eq.
  - unfold own_rows. erewrite filter_ext_bool; [reflexivity|]. intros x. unfold wanted, matches, own.
    cbn [forallb fst snd]. rewrite service_plain, hostname_plain. cbn. by rewrite !andb_true_r.
  - unfold find_query. cbn [_apply_criterion]. rewrite service_plain, hostname_plain. cbn. eauto.
Qed.
(** *** A new row *)
Definition new_row (w : world) : row :=
  [("id", PStr (uuid4 (w_uuids w))); ("created_at", PInt (w_now w)); ("updated_at", PNone); ("service_name", PStr service);
   ("hostname", PStr hostname); ("heartbeated_at", PInt (w_now w)); ("status", h_status r); ("stats", h_stats r);
   ("capabilities", h_capabilities r)].
Lemma new_row_beat w : beat_at (w_now w) (new_row w).
Proof. split; [|done]. change (compare_op OEq (PStr service) (PStr service) && compare_op OEq (PStr hostname) (PStr hostname) = true). by rewrite !eq_str, !String.eqb_refl. Qed.
(** *** A heartbeat of a service that has no row, or several *)
Lemma insert_beat w : identified service_status_table w ->
  execute_insert service_status_table (values_of (w_now w)) w =
  (Ok (PStr (uuid4 (w_uuids w))),
   set_db (set_rows service_status_table (app (statuses w) [new_row w]) (w_db w)) (set_uuids (S (w_uuids w)) w)).
Proof.
  intros Hi.
  transitivity ((if violates service_status_table (new_row w) (statuses w) then raise (Py DBDuplicateEntry)
                 else modify (set_db (set_rows service_status_table (app (statuses w) [new_row w]) (w_db w))) ;;;
                      ret (PStr (uuid4 (w_uuids w)))) (set_uuids (S (w_uuids w)) w)); [reflexivity|].
  rewrite (violates_unlike _ _ (uuid4 (w_uuids w))); [done|done| |done]. by apply identified_new.
Qed.
Definition with_new_row (w : world) : world :=
  set_db (set_rows service_status_table (app (statuses w) [new_row w]) (w_db w)) (set_uuids (S (w_uuids w)) w).
Lemma create_beat w : identified service_status_table w -> exists o,
  create service_status_methods (beat (w_now w)) w = (Ok o, with_new_row w).
Proof.
  intros Hi. unfold create, create_in, _create. cbn [r_parent r_table r_dup service_status_methods].
  unfold bind, lift, ret, try_except.
  change (obj_get_changes registry (beat (w_now w))) with (Ok (E:=exc) (values_of (w_now w))). cbv beta iota.
  change (aupdate (without [] (values_of (w_now w))) []) with (values_of (w_now w)).
  rewrite insert_beat by done. unfold execute_select, bind, gets, ret.
  match goal with |- exists o, (_set_object_from_model _ ?m, _) = _ =>
    destruct (set_object_Ok "ServiceStatus" (values_of (w_now w)) (values_of (w_now w)).*1 [] m) as [f' E] end.
  exists (PObj "ServiceStatus" f' [] []). change (beat (w_now w)) with (PObj "ServiceStatus" (values_of (w_now w)) (values_of (w_now w)).*1 []).
  by rewrite E.
Qed.

(** *** A heartbeat of a service that has one row *)
(** [dict(service_status)] *)
Definition items_of (now : Z) : row :=
  [("service_name", PStr service); ("hostname", PStr hostname); ("heartbeated_at", PInt now); ("status", h_status r); ("stats", h_stats r);
   ("capabilities", h_capabilities r)].
Lemma items_beat now : items registry (beat now) = items_of now.
Proof. reflexivity. Qed.
(** The row of a service, with the heartbeat in it *)
Definition current (now : Z) (x : row) : Prop :=
  own x = true /\ py_eq (PInt now) (cell x "heartbeated_at") = true /\ cell x "status" = h_status r /\
  py_eq (h_stats r) (cell x "stats") = true /\ py_eq (h_capabilities r) (cell x "capabilities") = true.
Lemma update_beat ctx w pre x post f : identified service_status_table w -> statuses w = app pre (x :: post) -> own x = true ->
  loaded_from service_status_table "ServiceStatus" x (PObj "ServiceStatus" f [] []) ->
  exists db_status o x', update registry (PObj "ServiceStatus" f [] []) (items_of (w_now w)) = Ok db_status /\
    update_obj service_status_methods ctx db_status w =
      (Ok o, set_db (set_rows service_status_table (app pre (x' :: post)) (w_db w)) w) /\
    current (w_now w) x' /\ cell x' "id" = cell x "id".
Proof.
  intros Hi Hw Hown Hf.
  destruct (update_loaded ctx service_status_table "ServiceStatus" (Duplicate DuplicateServiceStatus) (NotFound ServiceStatusNotFound)
    w pre x post f (items_of (w_now w))) as (db & x' & Hu & _ & Hnew & Hold & Hupd); try done.
  { set_solver. }
  { apply (bool_decide_unpack _). reflexivity. }
  { intros n Hn. cbn in Hn. repeat (apply elem_of_cons in Hn as [->|Hn]; [reflexivity|]). by apply elem_of_nil in Hn. }
  { cbn. set_solver. }
  destruct Hupd as [o Ho]; [done|]. exists db, o, x'. split; [exact Hu|]. split; [exact Ho|]. split; [|apply Hold; cbn; set_solver].
  apply andb_true_iff in Hown as [Hs Hh]. split; [apply andb_true_iff; split|split_and!].
  - destruct (Hnew "service_name" (PStr service)) as [->|[-> _]]; [unfold items_of; set_solver|done|cbn; set_solver| |done]. by rewrite eq_str, String.eqb_refl.
  - destruct (Hnew "hostname" (PStr hostname)) as [->|[-> _]]; [unfold items_of; set_solver|done|cbn; set_solver| |done]. by rewrite eq_str, String.eqb_refl.
  - destruct (Hnew "heartbeated_at" (PInt (w_now w))) as [->|[-> He]]; [unfold items_of; set_solver|done|cbn; set_solver| |done]. cbn. by rewrite Z.eqb_refl.
  - destruct reported_values as ((s & Es & _) & _ & _).
    destruct (Hnew "status" (h_status r)) as [Hn|[Hn He]]; [unfold items_of; set_solver|done|cbn; set_solver|exact Hn|].
    rewrite Es in He. rewrite Hn, Es. cbn in He. destruct (cell x "status"); try done. by apply String.eqb_eq in He as ->.
  - destruct (Hnew "stats" (h_stats r)) as [->|[-> He]]; [unfold items_of; set_solver|done|cbn; set_solver| |done]. by apply py_eq_refl, reported_values.
  - destruct (Hnew "capabilities" (h_capabilities r)) as [->|[-> He]]; [unfold items_of; set_solver|done|cbn; set_solver| |done]. by apply py_eq_refl, reported_values.
Qed.

(** *** Central takes a heartbeat *)
Variable admin : context.
Hypothesis admin_context : get_admin_context false = Ok admin.
Hypothesis admin_may : check "update_service_status" admin [] = Ok tt.

(** What a heartbeat does to the rows: the one of the service is current, or there is one more. *)
Inductive beaten (w w' : world) : Prop :=
| row_renewed pre x post x' :
    statuses w = app pre (x :: post) -> own x = true -> (forall y, y ∈ app pre post -> own y = false) ->
    statuses w' = app pre (x' :: post) -> current (w_now w) x' -> cell x' "id" = cell x "id" -> beaten w w'
| row_added : length (own_rows w) <> 1 -> statuses w' = app (statuses w) [new_row w] -> beaten w w'.
Lemma set_object_row x : exists f, _set_object_from_model (PObj "ServiceStatus" [] [] []) (Some x) = Ok (PObj "ServiceStatus" f [] []).
Proof. apply set_object_Ok. Qed.
Lemma update_status_beat w : identified service_status_table w -> exists o w', update_service_status admin (beat (w_now w)) w = (Ok o, w') /\
  beaten w w' /\ identified service_status_table w' /\ forall t, t_name t <> "service_statuses" -> rows_of (w_db w') t = rows_of (w_db w) t.
Proof.
  intros Hi.
  assert (E : update_service_status admin (beat (w_now w)) w =
    try_except (let! db_status := find_one service_status_methods admin [("service_name", PStr service); ("hostname", PStr hostname)] in
                let! db_status := lift (update registry db_status (items_of (w_now w))) in
                update_obj service_status_methods admin db_status)
      (on (NotFound ServiceStatusNotFound) (create service_status_methods (beat (w_now w)))) w).
  { unfold update_service_status, check_policy. rewrite admin_may. reflexivity. }
  rewrite E. clear E. unfold try_except, bind, lift. rewrite find_own.
  destruct (own_rows w) as [|x [|y l]] eqn:Ho.
  2: { apply filter_one in Ho as (pre & post & Hw & Hx & Ho). destruct (set_object_row x) as [f Hf]. rewrite Hf.
       destruct (update_beat admin w pre x post f Hi Hw Hx (set_object_loaded service_status_table _ _ _ Hf)) as (db & o & x' & Hu & Hs & Hc & Hid).
       rewrite Hu, Hs. exists o. eexists. split; [done|]. split_and!.
       - eapply (row_renewed w _ pre x post x'); try done. apply rows_of_set_rows.
       - by eapply identified_replaced.
       - intros t Ht. by apply (rows_of_set_other service_status_table t). }
  all: destruct (create_beat w Hi) as [o Hc]; unfold on; rewrite bool_decide_true by done; rewrite Hc; exists o, (with_new_row w); split; [done|];
    split_and!; [apply row_added; [by rewrite Ho|apply rows_of_set_rows]|by apply identified_added|intros t Ht; by apply (rows_of_set_other service_status_table t)].
Qed.
Definition others (w : world) : list row := filter (fun x => own x = false) (statuses w).
Lemma others_app pre x post : own x = true ->
  filter (fun y => own y = false) (app pre (x :: post)) = filter (fun y => own y = false) (app pre post).
Proof. intros Hx. rewrite !filter_app, filter_cons, decide_False; [done|congruence]. Qed.
Lemma new_row_own w : own (new_row w) = true.
Proof. apply new_row_beat. Qed.
Lemma new_row_current w : current (w_now w) (new_row w).
Proof.
  destruct reported_values as (_ & Hs & Hc). split; [apply new_row_own|]. split; [apply Z.eqb_refl|].
  split; [done|]. split; by apply py_eq_refl.
Qed.
Lemma beaten_rows w w' : beaten w w' ->
  (length (own_rows w) <= 1 -> exists x, own_rows w' = [x] /\ current (w_now w) x) /\
  (2 <= length (own_rows w) -> length (own_rows w') = S (length (own_rows w))) /\ others w' = others w.
Proof.
  intros [pre x post x' Hw Hx Ho Hw' Hc Hid|Hn Hw'].
  - assert (own_rows w = [x]) as -> by (unfold own_rows; by rewrite Hw, filter_app_one, Hx by done).
    split_and!; [|cbn; lia|unfold others; rewrite Hw, Hw', !others_app; [done..|apply Hc]].
    intros _. exists x'. split; [|done]. unfold own_rows. rewrite Hw', filter_app_one by done. by rewrite (proj1 Hc).
  - assert (E : own_rows w' = app (own_rows w) [new_row w]).
    { unfold own_rows. rewrite Hw', filter_app, filter_cons, decide_True; [done|apply new_row_own]. }
    rewrite E, length_app. split_and!; [|cbn; lia|].
    + intros Hl. destruct (own_rows w); [|cbn in *; lia]. eexists. split; [done|]. apply new_row_current.
    + unfold others. rewrite Hw', filter_app, filter_cons, decide_False; [cbn; by rewrite app_nil_r|]. by rewrite new_row_own.
Qed.

(** The times of the ticks of a running emitter *)
Fixpoint beats (running : bool) (l : list occurs) : list Z :=
  match l with
  | [] => []
  | Tick now :: l => app (if running then [now] else []) (beats running l)
  | Start :: l => beats true l
  | Stop :: l => beats false l
  end.
Definition rows_after (n : nat) (ts : list Z) : nat := match ts with [] => n | _ => if (n <=? 1)%nat then 1 else n + length ts end.
Lemma tick_run e now w : identified service_status_table w -> _service e = service -> _hostname e = hostname -> _running e = true ->
  exists w', bind (modify (set_now now)) (fun _ => _emit_heartbeat Rpc_transmit (Some r) e) w = (Ok tt, w') /\
    beaten (set_now now w) w' /\ identified service_status_table w' /\ forall t, t_name t <> "service_statuses" -> rows_of (w_db w') t = rows_of (w_db w) t.
Proof.
  intros Hi Hs Hh Hr. destruct (update_status_beat (set_now now w) Hi) as (o & w' & E & Hb & Hi' & Ho).
  exists w'. split; [|done]. unfold bind at 1, modify. unfold _emit_heartbeat. rewrite Hr. cbn [negb].
  unfold bind at 1, utcnow, gets. cbn [_get_status default from_option]. rewrite (service_status_eq _ _ Hs Hh).
  unfold bind at 1, lift. unfold Rpc_transmit. rewrite admin_context. unfold bind, lift.
  change (w_now (set_now now w)) with now in E |- *. by rewrite E.
Qed.

(** C30: heartbeats. Whatever ticks, starts and stops an emitter sees, each tick while it runs,
    and no other, reaches central, and when the columns take what it reports (a status of UP,
    DOWN and WARNING, names of at most 40 and 255 characters, dictionaries), succeeds, and leaves
    the rows of other services and all other tables as they were. When the service has at most
    one row, it has exactly one from the first heartbeat on, with the time of the last one and
    the status, statistics and capabilities reported; but when it has come to have two, as when
    two processes of a host send their first heartbeat at the same time, no heartbeat finds it
    any more and each adds another row, for ever. *)
Theorem heartbeats_recorded l e w :
  identified service_status_table w -> _service e = service -> _hostname e = hostname ->
  let n := length (own_rows w) in let ts := beats (_running e) l in
  exists e' w', happens Rpc_transmit (Some r) l e w = (Ok e', w') /\
    (ts = [] -> w_db w' = w_db w) /\ length (own_rows w') = rows_after n ts /\
    (forall now, last ts = Some now -> n <= 1 -> exists x, own_rows w' = [x] /\ current now x) /\
    others w' = others w /\
    forall t, t_name t <> "service_statuses" -> rows_of (w_db w') t = rows_of (w_db w) t.
Proof.
  revert e w. induction l as [|[now| |] l IH]; intros e w Hi Hs Hh; cbn [happens beats].
  - exists e, w. by split_and!.
  - destruct (_running e) eqn:Hr.
    + destruct (tick_run e now w Hi Hs Hh Hr) as (w1 & E & Hb & Hi1 & Ht1).
      apply beaten_rows in Hb as (Hb1 & Hb2 & Hb3).
      destruct (IH e w1 Hi1 Hs Hh) as (e' & w' & E' & Hd & Hn & Hc & Ho & Ht). rewrite Hr in *.
      assert (E0 : own_rows (set_now now w) = own_rows w) by done. rewrite E0 in Hb1, Hb2.
      exists e', w'. split; [|split; [done|split; [|split; [|split; [by rewrite Ho|]]]]].
      * unfold bind, modify in E |- *. by rewrite E.
      * rewrite Hn. cbn [app]. destruct (beats true l) as [|t ts]; cbn [rows_after].
        -- destruct (Nat.leb_spec (length (own_rows w)) 1) as [Hle|Hgt]; [destruct (Hb1 Hle) as (x & -> & _); done|].
           rewrite Hb2 by lia. cbn. lia.
        -- destruct (Nat.leb_spec (length (own_rows w)) 1) as [Hle|Hgt]; [destruct (Hb1 Hle) as (x & -> & _); done|].
           rewrite Hb2 by lia. destruct (Nat.leb_spec (S (length (own_rows w))) 1); cbn; lia.
      * intros t Hl Hle. destruct (Hb1 Hle) as (x & Hx & Hcx). destruct (beats true l) as [|t1 ts] eqn:Hts.
        -- cbn in Hl. injection Hl as <-. exists x. split; [|done]. rewrite <- Hx. unfold own_rows. by rewrite Hd.
        -- apply Hc; [done|]. rewrite Hx. done.
      * intros t Hne. rewrite Ht by done. by apply Ht1.
    + destruct (IH e (set_now now w) Hi Hs Hh) as (e' & w' & E' & Hd & Hn & Hc & Ho & Ht). rewrite Hr in *.
      exists e', w'. split; [|by split_and!]. unfold _emit_heartbeat. rewrite Hr. exact E'.
  - by apply IH.
  - by apply IH.
Qed.
End Rows.

(** ** An example: a service that starts late *)
#[local] Existing Instance counting_env.
#[local] Existing Instance ref_engine.
#[local] Existing Instance ref_laws.
Definition beating_world : world := ref_world
  [("service_statuses", [[("id", PStr "w"); ("service_name", PStr "worker"); ("hostname", PStr "h1"); ("heartbeated_at", PInt 7)]])].
Definition a_day : list occurs := [Tick 1; Start; Tick 5; Tick 10; Stop; Tick 20].
Lemma heartbeats_recorded_witness :
  exists e' w' x, happens Rpc_transmit (Some service_reports) a_day (new_emitter "central" "h1") beating_world = (Ok e', w') /\
    own_rows "central" "h1" w' = [x] /\ current "central" "h1" service_reports 10 x.
Proof.
  destruct (get_admin_context false) as [admin|e] eqn:Ha; [|discriminate Ha].
  edestruct (@heartbeats_recorded counting_env ref_engine ref_laws counting_fresh "central" "h1"
    ltac:(intros n; reflexivity) ltac:(intros n; reflexivity) service_reports ltac:(repeat constructor) admin Ha ltac:(reflexivity) a_day
    (new_emitter "central" "h1") beating_world) as (e' & w' & E & _ & _ & Hc & _).
  - exists ["w"]. split_and!; [reflexivity|apply NoDup_singleton|]. intros n _ Hn%list_elem_of_singleton. destruct n; discriminate Hn.
  - reflexivity.
  - reflexivity.
  - destruct (Hc 10%Z) as (x & Hx & Hcx); [reflexivity|vm_compute; lia|]. exists e', w', x. exact (conj E (conj Hx Hcx)).
Defined.
