(* ===== verification/CentralFloating.v ===== *)
(** * Central: reverse names of floating IPs (designate/central/service.py)

    The floating IPs of a tenant come from the network service; the PTR records
    are ordinary records marked as managed. *)
From Stdlib Require Import ZArith Lia Ascii String.
From stdpp Require Import base option numbers strings sets list.
From S2P Require Import Prelude PyStr Exceptions Values Objects Utils Classes World Decorators Sql Tables Storage StorageZdns Quota Scheduler Central CentralZones CentralRecords CentralViews CentralCreate.
Local Open Scope string_scope.

Section Floating.
Context `{Env} `{SqlEngine} `{Services}.
Variable payloads : string -> pyval -> list pyval -> list pyval.
(** What the scheduler's filters take from outside the source. *)
Variable bool_from_string : pyval -> option bool.
Variable random_choice : nat -> nat.
Variable scheduler_filters : list filter_kind.
(** [dns.reversename.from_address(address).to_text()] *)
Variable reverse_name : string -> string.

(** A floating IP, and its key: region and identifier. *)
Abbreviation fip_key := (pyval * pyval)%type.
Abbreviation fips := (list (fip_key * pyval))%type.
Definition key_eq (a b : fip_key) : bool := py_eq a.1 b.1 && py_eq a.2 b.2.
Definition fget {A} (k : fip_key) (l : list (fip_key * A)) : option A := snd <$> find (fun x => key_eq x.1 k) l.
Definition fset {A} (k : fip_key) (v : A) (l : list (fip_key * A)) : list (fip_key * A) :=
  if existsb (fun x => key_eq x.1 k) l then map (fun x => if key_eq x.1 k then (x.1, v) else x) l else app l [(k, v)].
(** The order in which a dictionary gives its entries. *)
Variable dict_order : forall A, list (fip_key * A) -> list (fip_key * A).

(** [_list_to_dict] by region and id, [_list_floatingips] *)
Definition _list_to_dict (data : list pyval) : R fips :=
  foldl (fun acc i =>
    let? acc := acc in
    let? region := item i "region" in
    let? id := item i "id" in Ok (fset (region, id) i acc)) (Ok []) data.
Definition _list_floatingips (region : pyval) : P world fips :=
  let! data := call "network" "list_floatingips" [region] in
  match data with PList l => lift (_list_to_dict l) | _ => raise (Py PyTypeError) end.
(** [_get_floatingip] *)
Definition _get_floatingip (region id : pyval) (l : fips) : R pyval :=
  match fget (region, id) l with Some fip => Ok fip | None => Raise (NotFound NF_Base) end.

(** [_determine_floatingips]: each floating IP with its record; a record of another
    tenant is invalid. *)
Definition fip_criterion : list (string * pyval) :=
  [("managed", PBool true); ("managed_resource_type", PStr "ptr:floatingip")].
Definition record_for (records : list pyval) (address : pyval) : option pyval :=
  List.last (map Some (filter (fun r => match getattr registry r "managed_extra" with
                                        | Ok v => py_eq v address | Raise _ => false end = true) records)) None.
Definition determine_one (tenant_id : pyval) (records : list pyval) (x : fip_key * pyval) :
    R (fip_key * (pyval * option pyval) * option pyval) :=
  let? address := item x.2 "address" in
  match record_for records address with
  | None => Ok (x.1, (x.2, None), None)
  | Some record =>
      let? owner := getattr registry record "managed_tenant_id" in
      if py_eq owner tenant_id then Ok (x.1, (x.2, Some record), None)
      else Ok (x.1, (x.2, None), Some record)
  end.
Definition _determine_floatingips (ctx : context) (l : fips) :
    P world (list (fip_key * (pyval * option pyval)) * list pyval) :=
  let! elevated_context := lift (elevated None true true ctx) in
  let! records := central_find_records elevated_context fip_criterion no_page in
  let! found := lift (rmap (determine_one (tenant_val ctx) (list_objects records)) (dict_order _ l)) in
  ret (map fst found, omap snd found).

(** [_invalidate_floatingips] *)
Definition _invalidate_floatingips (ctx : context) (records : list pyval) : P world unit :=
  let! elevated_context := lift (elevated None true true ctx) in
  mfor records (fun r =>
    let! zone_id := attr r "zone_id" in
    let! recordset_id := attr r "recordset_id" in
    let! id := attr r "id" in
    central_delete_record payloads elevated_context zone_id recordset_id id ;;; ret tt).

(** [_format_floatingips]; [given] is a record set that is already at hand. *)
Definition blank_fip (fip : pyval) : P world pyval :=
  let! address := lift (item fip "address") in
  let! id := lift (item fip "id") in
  let! region := lift (item fip "region") in
  lift (new_obj registry "FloatingIP"
    [("address", address); ("id", id); ("region", region); ("ptrdname", PNone); ("ttl", PNone);
     ("description", PNone); ("action", PNone); ("status", PStr "ACTIVE")]).
Definition fip_ttl (ctx : context) (given : option pyval) (record : pyval) : P world pyval :=
  let! recordset_id := attr record "recordset_id" in
  let! recordset := (match given with
                     | Some rs => let! id := attr rs "id" in
                                  if py_eq id recordset_id then ret rs else get_recordset ctx recordset_id
                     | None => get_recordset ctx recordset_id
                     end) in
  let! ttl := attr recordset "ttl" in
  match ttl with
  | PNone => let! zone_id := attr record "zone_id" in
             let! zone := get_zone_checked ctx zone_id in attr zone "ttl"
  | v => ret v
  end.
Definition format_one (ctx : context) (given : option pyval) (x : fip_key * (pyval * option pyval)) : P world pyval :=
  let '(_, (fip, record)) := x in
  let! ptr := blank_fip fip in
  match record with
  | None => ret ptr
  | Some record =>
      let! action := attr record "action" in
      let! ptr := set_attr ptr "action" action in
      let! status := attr record "status" in
      let! ptr := set_attr ptr "status" status in
      let! ttl := fip_ttl ctx given record in
      let! ptr := set_attr ptr "ttl" ttl in
      let! data := attr record "data" in
      let! ptr := set_attr ptr "ptrdname" data in
      let! description := attr record "description" in
      set_attr ptr "description" description
  end.
Definition _format_floatingips (ctx : context) (data : list (fip_key * (pyval * option pyval))) (given : option pyval) :
    P world (list pyval) :=
  let! elevated_context := lift (elevated None true false ctx) in
  mmap (format_one elevated_context given) (dict_order _ data).
Definition first_fip (l : list pyval) : P world pyval :=
  match l with fip :: _ => ret fip | [] => raise (Py PyIndexError) end.

(** [list_floatingips], [get_floatingip] *)
Definition list_floatingips (ctx : context) : P world (list pyval) :=
  let! elevated_context := lift (elevated None true true ctx) in
  let! tenant_fips := _list_floatingips PNone in
  let! ' (valid, invalid) := _determine_floatingips elevated_context tenant_fips in
  _invalidate_floatingips ctx invalid ;;;
  _format_floatingips ctx valid None.
Definition get_floatingip (ctx : context) (region id : pyval) : P world pyval :=
  let! elevated_context := lift (elevated None true false ctx) in
  let! tenant_fips := _list_floatingips region in
  lift (_get_floatingip region id tenant_fips) ;;;
  let! ' (valid, invalid) := _determine_floatingips elevated_context tenant_fips in
  _invalidate_floatingips ctx invalid ;;;
  let! l := _format_floatingips ctx valid None in first_fip l.

(** ** Setting and unsetting the reverse name *)

(** [address_zone]: IPv4 only. *)
Definition address_zone (address : string) : string :=
  join "." (reverse (List.removelast (split_char dot address))) ++ ".in-addr.arpa.".
Definition find_or_create_zone (ctx : context) (zone_name : string) : P world pyval :=
  try_except (find_zone ctx [("name", PStr zone_name)])
    (on (NotFound ZoneNotFound)
       (let! zone := lift (new_obj registry "Zone"
          [("type", PStr "PRIMARY"); ("name", PStr zone_name);
           ("email", PStr (conf_str "service:central.managed_resource_email"));
           ("tenant_id", PStr (conf_str "service:central.managed_resource_tenant_id"))]) in
        central_create_zone payloads bool_from_string random_choice scheduler_filters ctx zone)).
Definition reset_recordset (ctx : context) (zone_id name ttl : pyval) : P world pyval :=
  let! recordset := central_find_recordset ctx [("name", name); ("type", PStr "PTR")] in
  let! recordset := set_attr recordset "name" name in
  let! recordset := set_attr recordset "type" (PStr "PTR") in
  let! recordset := set_attr recordset "ttl" ttl in
  let! recordset := set_attr recordset "zone_id" zone_id in
  let! recordset := central_update_recordset payloads ctx recordset in
  let! records := items_of recordset "records" in
  mfor records (fun record =>
    let! z := attr recordset "zone_id" in
    let! rs := attr recordset "id" in
    let! id := attr record "id" in
    central_delete_record payloads ctx z rs id ;;; ret tt) ;;;
  ret recordset.
(** [create_record] is called with the keyword [recordset_id], which it does not
    have: the call fails once the decorators have run. *)
Definition create_record_by_id (zone_id recordset_id record : pyval) : P world pyval :=
  notification payloads "dns.record.create"
    (synchronized_zone false (fun _ => raise (Py PyTypeError))) [zone_id; recordset_id; record].
Definition fip_record (ctx : context) (region id fip values : pyval) : P world pyval :=
  let! ptrdname := attr values "ptrdname" in
  let! description := attr values "description" in
  let! address := lift (item fip "address") in
  lift (new_obj registry "Record"
    [("data", ptrdname); ("description", description); ("managed", PBool true); ("managed_extra", address);
     ("managed_resource_id", id); ("managed_resource_region", region);
     ("managed_resource_type", PStr "ptr:floatingip"); ("managed_tenant_id", tenant_val ctx)]).
(** [_set_floatingip_reverse] *)
Definition _set_floatingip_reverse (ctx : context) (region id values : pyval) : P world pyval :=
  let! elevated_context := lift (elevated None true true ctx) in
  let! tenant_fips := _list_floatingips region in
  let! fip := lift (_get_floatingip region id tenant_fips) in
  let! address := lift (item fip "address") in
  let! address := str_of address in
  let! zone := find_or_create_zone elevated_context (address_zone address) in
  let name := PStr (reverse_name address) in
  let! ttl := lift (obj_get registry values "ttl" (Some PNone)) in
  let! zone_id := attr zone "id" in
  let! recordset :=
    try_except (reset_recordset elevated_context zone_id name ttl)
      (on (NotFound RecordSetNotFound)
         (let! recordset := lift (new_obj registry "RecordSet" [("name", name); ("type", PStr "PTR"); ("ttl", ttl)]) in
          central_create_recordset payloads elevated_context zone_id recordset)) in
  let! record := fip_record ctx region id fip values in
  let! recordset_id := attr recordset "id" in
  let! record := create_record_by_id zone_id recordset_id record in
  let! l := _format_floatingips ctx [((region, id), (fip, Some record))] (Some recordset) in
  first_fip l.
(** [_unset_floatingip_reverse] *)
Definition _unset_floatingip_reverse (ctx : context) (region id : pyval) : P world unit :=
  let! elevated_context := lift (elevated None true true ctx) in
  let! record :=
    try_except (find_record elevated_context [("managed_resource_id", id); ("managed_tenant_id", tenant_val ctx)])
      (on (NotFound RecordNotFound) (raise (NotFound NF_Base))) in
  let! zone_id := attr record "zone_id" in
  let! recordset_id := attr record "recordset_id" in
  let! record_id := attr record "id" in
  central_delete_record payloads elevated_context zone_id recordset_id record_id ;;; ret tt.
(** [update_floatingip] *)
Definition update_floatingip_body (ctx : context) (region id values : pyval) : P world pyval :=
  let! ptrdname := attr values "ptrdname" in
  if mem_str "ptrdname" (obj_what_changed registry values) && py_eq ptrdname PNone then
    _unset_floatingip_reverse ctx region id ;;; ret PNone
  else match ptrdname with
       | PStr _ => _set_floatingip_reverse ctx region id values
       | _ => ret PNone
       end.
Definition update_floatingip (ctx : context) (region id values : pyval) : P world pyval :=
  transaction (ternary (update_floatingip_body ctx)) [region; id; values].
End Floating.
