(* ===== verification/CentralRecordsFacts.v ===== *)
(** * Theorems about record sets and records

    Who may change a record set, and when; a record set goes only when the worker
    has confirmed every record of it; a primary zone without an SOA record set is
    stuck. *)
From Stdlib Require Import ZArith Lia Ascii String.
From stdpp Require Import base option numbers strings sets list.
From S2P Require Import Prelude PyStr Exceptions Values Objects Utils Classes World Decorators Sql SqlFacts ObjectTypes Tables Storage StorageFacts Quota Scheduler Central CentralZones CentralFacts CentralZonesFacts CentralRecords CentralViews CentralCreate.
Local Open Scope string_scope.

(** One more step of a method that has only looked so far: it raises and has
    changed nothing, or goes on in the same world. *)
Tactic Notation "look" ident(x) ident(Hx) :=
  match goal with
  | |- bind ?m _ ?w = _ -> _ =>
      let e := fresh "e" in let w1 := fresh "w" in let E := fresh in
      unfold bind at 1; destruct (m w) as [[x|e] w1] eqn:Hx;
      assert (E : w1 = w) by (refine (reads (m := m) _ _ _ Hx)); subst w1;
      [|intros [= <- <-]; left; by eexists]
  end.

Section Guards.
Context `{Env} `{SqlEngine} `{Services}.

#[export] Instance not_deleting_reads zone : Reads (not_deleting zone).
Proof. unfold not_deleting. apply _. Qed.
#[export] Instance unmanaged_reads ctx recordset : Reads (unmanaged ctx recordset).
Proof. unfold unmanaged. apply _. Qed.
#[export] Instance same_id_reads a b e : Reads (same_id a b e).
Proof. unfold same_id. apply _. Qed.
#[export] Instance immutable_recordset_reads changes : Reads (immutable_recordset changes).
Proof. unfold immutable_recordset. apply _. Qed.
#[export] Instance recordset_target_reads id zone recordset : Reads (recordset_target id zone recordset).
Proof. unfold recordset_target. apply _. Qed.
#[export] Instance central_find_records_reads ctx c pg : Reads (central_find_records ctx c pg).
Proof. unfold central_find_records. apply _. Qed.

Lemma not_deleting_Ok zone (w : world) u w' :
  not_deleting zone w = (Ok u, w') -> str_attr zone "action" <> "DELETE".
Proof. unfold not_deleting. intros [Hne _]%raise_if_Ok. by apply String.eqb_neq. Qed.

Lemma unmanaged_Ok ctx recordset (w : world) u w' :
  unmanaged ctx recordset w = (Ok u, w') ->
  exists records, items_of recordset "records" w = (Ok records, w) /\
    (recordset_managed records = true -> edit_managed_records ctx = true).
Proof.
  unfold unmanaged. intros (records & w1 & Hi & Hr)%bind_Ok.
  assert (w1 = w) as -> by (by eapply items_of_reads).
  apply raise_if_Ok in Hr as [Hm _]. exists records. split; [done|].
  intros Hman. rewrite Hman in Hm. by destruct (edit_managed_records ctx).
Qed.
Lemma check_policy_Ok rule ctx target (w : world) u w' :
  check_policy rule ctx target w = (Ok u, w') -> enforce rule ctx target = true.
Proof. unfold check_policy. by intros [? _]%check_Ok. Qed.
Lemma immutable_recordset_Ok changes (w : world) u w' :
  immutable_recordset changes w = (Ok u, w') ->
  forall n, n ∈ ["tenant_id"; "zone_id"; "zone_name"; "type"] -> n ∉ changes.
Proof.
  unfold immutable_recordset. intros (u1 & w1 & [Ht ->]%raise_if_Ok & Hr)%bind_Ok.
  apply bind_Ok in Hr as (u2 & w2 & [Hz ->]%raise_if_Ok & [Hy _]%raise_if_Ok).
  apply orb_false_iff in Hz as [Hz Hzn]. intros n Hn Hin. apply mem_str_elem in Hin.
  elem_cases Hn; congruence.
Qed.

(** A record set is changed only in its place, and only by who may. The update
    of a record set gets as far as changing anything, or asking the worker for
    anything, only when the zone the record set was loaded from is stored, visible
    and not being deleted; the changes leave its owner, its zone and its type alone;
    policy allows the update for that zone; and, if it holds managed records, the
    caller may edit those. In every other case it raises and nothing has changed. *)
Theorem update_recordset_guarded ctx recordset w r w' :
  update_recordset_body ctx recordset w = (r, w') ->
  (exists e, r = Raise e /\ w' = w) \/
  (exists zone_id zone changes id zone_type zone_name tenant_id records,
     obj_get_original_value registry recordset "zone_id" = Ok zone_id /\
     get_zone ctx zone_id w = (Ok zone, w) /\ str_attr zone "action" <> "DELETE" /\
     obj_get_changes registry recordset = Ok changes /\
     (forall n, n ∈ ["tenant_id"; "zone_id"; "zone_name"; "type"] -> n ∉ changes.*1) /\
     obj_get_original_value registry recordset "id" = Ok id /\
     getattr registry zone "type" = Ok zone_type /\ getattr registry zone "name" = Ok zone_name /\
     getattr registry zone "tenant_id" = Ok tenant_id /\
     enforce "update_recordset" ctx
       [("zone_id", zone_id); ("zone_type", zone_type); ("recordset_id", id); ("zone_name", zone_name);
        ("tenant_id", tenant_id)] = true /\
     items_of recordset "records" w = (Ok records, w) /\
     (recordset_managed records = true -> edit_managed_records ctx = true)).
Proof.
  unfold update_recordset_body, attr. look zone_id Hzid. look zone Hzone. look changes Hch. look u1 Himm.
  look u2 Hdel. look zone_type Hty. look rid Hid. look zone_name Hname. look tenant_id Hten.
  look u3 Hpol. look u4 Hman. intros _. right.
  injection Hzid as Hzid. injection Hch as Hch. injection Hty as Hty. injection Hid as Hid.
  injection Hname as Hname. injection Hten as Hten.
  apply unmanaged_Ok in Hman as (records & Hrec & Hman).
  exists zone_id, zone, changes, rid, zone_type, zone_name, tenant_id, records.
  split_and!; try done.
  - by eapply not_deleting_Ok.
  - by eapply immutable_recordset_Ok.
  - by eapply check_policy_Ok.
Qed.

(** ** Deleting a record set *)
Section Deletion.
Variable zone_api_delete_record : pyval -> pyval -> pyval -> P world pyval.
(** The worker is asked for the deletion of one record after the other: each call returns a list,
    and confirms the deletion when that does not start with None. *)
Definition confirms (response : pyval) (ok : bool) : Prop :=
  exists id rest, response = PList (id :: rest) /\ (ok = true <-> id <> PNone).
Inductive asked (zone recordset : pyval) : list pyval -> world -> list bool -> world -> Prop :=
| asked_none w : asked zone recordset [] w [] w
| asked_next record record' records w response ok w1 oks w2 :
    setattr registry record "action" (PStr "DELETE") = Ok record' ->
    zone_api_delete_record zone record' recordset w = (Ok response, w1) -> confirms response ok ->
    asked zone recordset records w1 oks w2 -> asked zone recordset (record :: records) w (ok :: oks) w2.
(** Or it comes to a record whose call does not return such a list. *)
Definition given_up (zone recordset : pyval) (records : list pyval) (w w' : world) : Prop :=
  exists before record after oks w1, records = app before (record :: after) /\ asked zone recordset before w oks w1 /\
    (w' = w1 \/ exists record' r, setattr registry record "action" (PStr "DELETE") = Ok record' /\
       zone_api_delete_record zone record' recordset w1 = (r, w')).
Lemma accepted_confirms response ok : accepted response = Ok ok -> confirms response ok.
Proof.
  unfold accepted, confirms. destruct response as [| | | |[|x l]| |]; try done.
  destruct x; intros [= <-]; do 2 eexists; (split; [done|]); naive_solver.
Qed.
Lemma ask_deletions zone recordset records w r w' :
  mmap (fun record =>
    let! record := set_attr record "action" (PStr "DELETE") in
    let! response := zone_api_delete_record zone record recordset in lift (accepted response)) records w = (r, w') ->
  match r with Ok oks => asked zone recordset records w oks w' | Raise _ => given_up zone recordset records w w' end.
Proof.
  revert w r. induction records as [|record records IH]; intros w r; cbn [mmap]; [intros [= <- <-]; constructor|].
  unfold bind at 1, set_attr, bind at 1, lift at 1.
  destruct (setattr registry record "action" (PStr "DELETE")) as [record'|e] eqn:Hs.
  2:{ intros [= <- <-]. exists [], record, records, [], w. split_and!; [done|constructor|by left]. }
  unfold bind at 1. destruct (zone_api_delete_record zone record' recordset w) as [[response|e] w1] eqn:Hcall.
  2:{ intros [= <- <-]. exists [], record, records, [], w. split_and!; [done|constructor|right; by do 2 eexists]. }
  unfold lift at 1. destruct (accepted response) as [ok|e] eqn:Hok.
  2:{ intros [= <- <-]. exists [], record, records, [], w. split_and!; [done|constructor|right; by do 2 eexists]. }
  apply accepted_confirms in Hok.
  unfold bind at 1. destruct (mmap _ records w1) as [[oks|e] w2] eqn:Hrest; intros [= <- <-]; apply IH in Hrest.
  - by econstructor.
  - destruct Hrest as (before & record2 & after & oks & w3 & -> & Ha & Hw).
    exists (record :: before), record2, after, (ok :: oks), w3. split_and!; [done|by econstructor|done].
Qed.
Lemma outcome_spec (oks : list bool) (m : P world unit) w r w' :
  outcome (length (filter (fun b => b = true) oks)) (length oks) m w = (r, w') ->
  (Forall (fun b => b = true) oks /\ m w = (r, w')) \/
  (Exists (fun b => b = false) oks /\ w' = w /\ r = Raise (Failed (if bool_decide (true ∈ oks) then PartlyFailed else AllFailed))).
Proof.
  assert (Hf : Forall (fun b => b = true) oks <-> length (filter (fun b => b = true) oks) = length oks).
  { clear. induction oks as [|b oks IH]; [done|]. rewrite filter_cons, Forall_cons. pose proof (length_filter (fun b => b = true) oks).
    case_decide as Hb; cbn; [rewrite IH; intuition lia|]. split; [intros [? _]; done|lia]. }
  assert (Hn : length (filter (fun b => b = true) oks) = O <-> true ∉ oks).
  { clear. induction oks as [|b oks IH]; [by split; [intros _ ?%elem_of_nil|]|]. rewrite filter_cons.
    case_decide as Hb; cbn; [set_solver|]. rewrite IH. destruct b; [done|]. set_solver. }
  unfold outcome. destruct (Nat.eqb_spec (length (filter (fun b => b = true) oks)) (length oks)) as [Hall|Hall].
  - intros E. left. split; [by apply Hf|done].
  - assert (Hx : Exists (fun b => b = false) oks).
    { apply (Exists_impl (fun b : bool => ~ b = true)); [|by intros []]. apply not_Forall_Exists; [|by rewrite Hf]. intros b. apply _. }
    destruct (Nat.eqb_spec (length (filter (fun b => b = true) oks)) 0) as [Hz|Hz]; intros [= <- <-]; right; split_and!; try done.
    + by rewrite bool_decide_eq_false_2; [|apply Hn].
    + rewrite bool_decide_eq_true_2; [done|]. rewrite Hn in Hz. by destruct (decide (true ∈ oks)).
Qed.

(** C11: a record set goes only when every record of it has gone. The worker is asked for nothing,
    and the deletion raises and changes nothing, unless the zone of the record set is the given
    one and is not being deleted, policy allows the deletion, and managed records are the
    caller's to edit. Then the worker is asked for the records of the record set, one by one;
    central deletes the record set only when each call has confirmed its record. When one has
    not, it raises AllFailed or PartlyFailed, and when a call raises, that; central itself has
    changed nothing then, but what the calls have changed stays as it is: the worker reports each
    deletion to central before it answers, and so the rows of the records before have gone. *)
Theorem delete_recordset_confirmed ctx zone_id recordset_id w r w' :
  delete_recordset_body zone_api_delete_record ctx zone_id recordset_id w = (r, w') ->
  (exists e, r = Raise e /\ w' = w) \/
  (exists zone recordset target records,
     get_zone ctx zone_id w = (Ok zone, w) /\ get_recordset ctx recordset_id w = (Ok recordset, w) /\
     (exists z o, getattr registry zone "id" = Ok z /\ getattr registry recordset "zone_id" = Ok o /\ py_eq z o = true) /\
     str_attr zone "action" <> "DELETE" /\
     recordset_target zone_id zone recordset w = (Ok target, w) /\ enforce "delete_recordset" ctx target = true /\
     (exists l, items_of recordset "records" w = (Ok l, w) /\
        (recordset_managed l = true -> edit_managed_records ctx = true)) /\
     central_find_records ctx [("recordset_id", recordset_id)] no_page w = (Ok records, w) /\
     ((exists e, r = Raise e /\ given_up zone recordset (list_objects records) w w') \/
      (exists oks w1, asked zone recordset (list_objects records) w oks w1 /\
         (Forall (fun ok => ok = true) oks /\ (_delete_recordset_in_storage ctx zone recordset ;;; ret tt) w1 = (r, w') \/
          Exists (fun ok => ok = false) oks /\ w' = w1 /\
            r = Raise (Failed (if bool_decide (true ∈ oks) then PartlyFailed else AllFailed)))))).
Proof.
  unfold delete_recordset_body, attr. look zone Hzone. look recordset Hrs. look z Hz. look o Ho. look u1 Hsame.
  look u2 Hdel. look target Ht. look u3 Hpol. look u4 Hman. look records Hrecs.
  intros Hrun. right. exists zone, recordset, target, records.
  injection Hz as Hz. injection Ho as Ho. unfold same_id in Hsame. apply raise_if_Ok in Hsame as [Hsame%negb_false_iff _].
  split_and!; try done.
  { by exists z, o. }
  { by eapply not_deleting_Ok. }
  { by eapply check_policy_Ok. }
  { by eapply unmanaged_Ok. }
  revert Hrun. unfold bind at 1. destruct (mmap _ (list_objects records) w) as [[oks|e] w1] eqn:Hask; apply ask_deletions in Hask.
  - intros Hout%outcome_spec. right. by exists oks, w1.
  - intros [= <- <-]. left. by exists e.
Qed.
End Deletion.
End Guards.

(** ** A table that a computation leaves alone *)
Section Keeping.
Context `{Env} `{SqlEngine} `{Services}.
Variable t : table.
Definition Keeps {A} (m : P world A) : Prop := forall w r w', m w = (r, w') -> rows_of (w_db w') t = rows_of (w_db w) t.

Lemma reads_keeps {A} (m : P world A) : Reads m -> Keeps m.
Proof. by intros Hm w r w' ->%Hm. Qed.
Lemma bind_keeps {A B} (m : P world A) (f : A -> P world B) :
  Keeps m -> (forall a, Keeps (f a)) -> Keeps (bind m f).
Proof.
  intros Hm Hf w r w'. unfold bind. destruct (m w) as [[a|e] w1] eqn:Hw; apply Hm in Hw.
  - intros Hr%Hf. congruence.
  - by intros [= _ <-].
Qed.
Lemma mmap_keeps {A B} (f : A -> P world B) l : (forall a, Keeps (f a)) -> Keeps (mmap f l).
Proof.
  intros Hf. induction l; cbn; [by apply reads_keeps, _|]. apply bind_keeps; [apply Hf|intros].
  apply bind_keeps; [done|intros]. by apply reads_keeps, _.
Qed.
Lemma mfor_keeps {A} (f : A -> P world unit) l : (forall a, Keeps (f a)) -> Keeps (mfor l f).
Proof. intros Hf. induction l; cbn; [by apply reads_keeps, _|]. by apply bind_keeps. Qed.
Lemma uuid_keeps : Keeps generate_uuid.
Proof. by intros w r w' [= _ <-]. Qed.
Lemma on_keeps {A} (m k : P world A) e : Keeps m -> Keeps k -> Keeps (try_except m (on e k)).
Proof.
  intros Hm Hk w r w'. unfold try_except, on. destruct (m w) as [[a|e'] w1] eqn:Hw; apply Hm in Hw.
  - by intros [= _ <-].
  - case_bool_decide; [|by intros [= _ <-]]. intros Hr%Hk. congruence.
Qed.

Section Other.
Variable t' : table.
Hypothesis other : t_name t <> t_name t'.
Lemma insert_keeps values : Keeps (execute_insert t' values).
Proof.
  unfold execute_insert. assert (Hfill : Keeps (fill (t_columns t') values [])).
  { generalize (@nil (string * pyval)). induction (t_columns t') as [|[c d] cols IH]; intros r; cbn [fill];
      [by apply reads_keeps, _|]. apply bind_keeps; [|intros; apply IH].
    destruct (aget c values); [by apply reads_keeps, _|]. unfold default_value, utcnow.
    destruct d as [[]|]; repeat first [apply uuid_keeps | by apply reads_keeps, _ | apply bind_keeps; [|intros]
                                      | progress case_match]. }
  intros w r w'. unfold bind at 1. destruct (fill _ _ _ w) as [[x|e] w1] eqn:Hf; apply Hfill in Hf as <-;
    [|by intros [= _ <-]]. unfold bind, gets, modify, ret, raise.
  destruct (violates _ _ _); intros [= _ <-]; [done|]. by apply rows_of_set_other.
Qed.
Lemma update_keeps q values incr : Keeps (execute_update t' q values incr).
Proof.
  intros w r w' Hu. apply execute_update_spec in Hu. destruct r as [n|e]; [|by subst].
  destruct Hu as [_ ->]. by apply rows_of_set_other.
Qed.
Lemma delete_keeps q : Keeps (execute_delete t' q).
Proof.
  intros w r w'. unfold execute_delete, bind, gets, modify, ret. intros [= _ <-]. by apply rows_of_set_other.
Qed.
Lemma _create_keeps o dup skip extra : Keeps (_create t' o dup skip extra).
Proof.
  unfold _create. apply bind_keeps; [by apply reads_keeps, _|intros].
  apply bind_keeps; [apply on_keeps; [apply insert_keeps|by apply reads_keeps, _]|intros].
  by apply reads_keeps, _.
Qed.
Lemma _update_keeps ctx o dup nf skip : Keeps (_update ctx t' o dup nf skip).
Proof.
  unfold _update. do 2 (apply bind_keeps; [by apply reads_keeps, _|intros]).
  apply bind_keeps; [apply on_keeps; [apply update_keeps|by apply reads_keeps, _]|intros].
  by apply reads_keeps, _.
Qed.
Lemma _delete_keeps ctx o nf hard : Keeps (_delete ctx t' o nf hard).
Proof.
  unfold _delete, utcnow. apply bind_keeps; [by apply reads_keeps, _|intros id].
  destruct (_ && _).
  - apply bind_keeps; [by apply reads_keeps, _|intros]. destruct id; try (by apply reads_keeps, _).
    apply bind_keeps; [by apply reads_keeps, _|intros]. apply _update_keeps.
  - apply bind_keeps; [apply delete_keeps|intros]. by apply reads_keeps, _.
Qed.
End Other.
Lemma sync_items_keeps ctx rs parent obj n : t_name t <> t_name (r_table rs) -> Keeps (sync_items ctx rs parent obj n).
Proof.
  intros Hne. unfold sync_items. destruct (r_parent rs) as [col|]; [|by apply reads_keeps, _].
  do 5 (apply bind_keeps; [by apply reads_keeps, _|intros]).
  apply bind_keeps.
  { apply mfor_keeps. intros i. apply bind_keeps; [|intros; by apply reads_keeps, _].
    unfold delete_by_id, get_by_id. apply bind_keeps; [by apply reads_keeps, _|intros]. by apply _delete_keeps. }
  intros _. apply bind_keeps; [|intros].
  { apply mmap_keeps. intros [i []]; [by apply reads_keeps, _|]. by apply _update_keeps. }
  apply bind_keeps; [|intros; by apply reads_keeps, _].
  apply mmap_keeps. intros [i []]; [|by apply reads_keeps, _].
  unfold create_in. apply bind_keeps; [case_match; by apply reads_keeps, _|intros]. by apply _create_keeps.
Qed.
End Keeping.

(** ** Zones without an SOA record set *)
Section Soa.
Context `{Env} `{SqlEngine} `{Services}.

(** The row with the identifier is a primary zone. *)
Definition primary_row (id : string) (r : row) : Prop :=
  holds r (col_eq "id" (PStr id)) = true ->
  cell r "id" = PStr id /\ cell r "type" = PStr "PRIMARY" /\ aget "recordsets" r = None.
Definition soa_criterion (id : string) : list (string * pyval) := [("zone_id", PStr id); ("type", PStr "SOA")].
(** No SOA record set of the zone that the context may see. *)
Definition no_soa (ctx : context) (id : string) (d : db) : Prop :=
  forall r, r ∈ rows_of d recordsets_table -> wanted ctx recordsets_table (soa_criterion id) true r = false.

Lemma no_soa_found ctx id w o w' : no_soa ctx id (w_db w) -> find_recordset ctx (soa_criterion id) w <> (Ok o, w').
Proof.
  intros Hno. unfold find_recordset. change (lift (_rname_check (soa_criterion id))) with (lift (S := world) (Ok (E := exc) (soa_criterion id))).
  unfold bind at 1, lift at 1. change (aget "zones_deleted" (soa_criterion id)) with (@None pyval). cbn match.
  intros (q & w1 & Hq & Hr)%bind_Ok. injection Hq as Hq <-. apply bind_Ok in Hr as (d & w2 & Hd & Hr).
  injection Hd as <- <-. apply find_query_spec in Hq as (_ & _ & Hs).
  destruct (filter _ _) as [|r [|]] eqn:Hf; try done.
  assert (Hin : r ∈ filter (fun r => selects q r && in_live_zone (w_db w) r = true) (rows_of (w_db w) recordsets_table)).
  { rewrite Hf. set_solver. }
  apply list_elem_of_filter in Hin as [[Hsel _]%andb_true_iff Hin]. rewrite Hs in Hsel.
  by rewrite (Hno _ Hin) in Hsel.
Qed.

Lemma update_soa_stuck ctx id zone w u w' :
  getattr registry zone "id" = Ok (PStr id) -> str_attr zone "type" = "PRIMARY" -> no_soa ctx id (w_db w) ->
  _update_soa ctx zone w <> (Ok u, w').
Proof.
  intros Hid Hty Hno. unfold _update_soa. rewrite Hty. cbn [negb String.eqb Ascii.eqb Bool.eqb]. unfold attr.
  change (negb (String.eqb "PRIMARY" "PRIMARY")) with false. cbn match.
  intros (pool & w1 & Hp & Hr)%bind_Ok. apply bind_Ok in Hr as (ns & w2 & Hns & Hr).
  apply bind_Ok in Hr as (z & w3 & Hz & Hr). apply bind_Ok in Hr as (u1 & w4 & Hpol & Hr).
  apply bind_Ok in Hr as (soa & w5 & Hsoa & _). reads_subst. injection Hz as Hz. rewrite Hid in Hz. injection Hz as <-.
  by apply no_soa_found in Hsoa.
Qed.

Lemma assign_other t values incr now (r : row) c :
  c ∉ values.*1 -> c <> "version" -> c ∉ t_onupdate t -> aget c (assign t values incr now r) = aget c r.
Proof.
  intros Hv Hver Hon. unfold assign.
  set (r1 := if incr then _ else _).
  assert (Hr1 : aget c r1 = aget c r).
  { assert (Hup : aget c (aupdate r values) = aget c r).
    { clear r1. unfold aupdate. revert r Hv. clear. induction values as [|[k v] l IH]; intros r Hv; [done|].
      cbn in *. rewrite IH by set_solver. rewrite aget_aset_ne; [done|set_solver]. }
    unfold r1. clear r1. destruct incr; [|done]. case_match; try done. by rewrite aget_aset_ne. }
  rewrite <- Hr1. clear Hr1. revert Hon. generalize r1. clear. induction (t_onupdate t) as [|x l IH]; intros r Hon; [done|].
  cbn [foldl]. rewrite IH by set_solver. case_match; [done|]. rewrite aget_aset_ne; [done|set_solver].
Qed.

(** A zone as the SOA steps see it: its identifier and its type, and no record sets
    of its own. *)
Definition soa_zone (id : string) (o : pyval) : Prop :=
  is_obj "Zone" o /\ aget "id" (fields_of_obj o) = Some (PStr id) /\
  aget "type" (fields_of_obj o) = Some (PStr "PRIMARY") /\ aget "recordsets" (fields_of_obj o) = None.

Lemma soa_zone_attrs id o : soa_zone id o ->
  getattr registry o "id" = Ok (PStr id) /\ str_attr o "type" = "PRIMARY" /\ obj_attr_is_set o "recordsets" = false.
Proof.
  intros ((f & ch & og & ->) & Hid & Hty & Hrs). cbn [fields_of_obj] in *.
  unfold str_attr, getattr, obj_attr_is_set.
  change (in_FIELDS registry "Zone" "id") with true. change (in_FIELDS registry "Zone" "type") with true.
  cbn [negb]. by rewrite Hid, Hty, Hrs.
Qed.
Lemma set_attr_soa_zone id o n v o' (w w' : world) :
  soa_zone id o -> n ∉ ["id"; "type"; "recordsets"] -> set_attr o n v w = (Ok o', w') -> soa_zone id o'.
Proof.
  intros (Ho & Hid & Hty & Hrs) Hn. unfold set_attr. intros [= Hs _].
  destruct Ho as (f & ch & og & ->). cbn [fields_of_obj] in *. revert Hs. unfold setattr.
  destruct (negb _); [done|]. set_unfold.
  destruct (aget n f); intros [= <-]; (split; [by do 3 eexists|]); cbn [fields_of_obj]; by rewrite !aget_aset_ne by naive_solver.
Qed.
Lemma items_soa_zone id o n items :
  soa_zone id o -> n ∉ ["id"; "type"; "recordsets"] -> soa_zone id (with_attr_items o n items).
Proof.
  intros ((f & ch & og & ->) & Hid & Hty & Hrs) Hn. cbn [fields_of_obj with_attr_items] in *. set_unfold.
  destruct (aget n f); (split; [by do 3 eexists|]); cbn [fields_of_obj]; [|done]. by rewrite !aget_aset_ne by naive_solver.
Qed.
Lemma reset_soa_zone id o names : soa_zone id o -> soa_zone id (obj_reset_changes o names).
Proof.
  intros ((f & ch & og & ->) & Hrest). cbn [obj_reset_changes].
  destruct names; (split; [by do 3 eexists|exact Hrest]).
Qed.
(** Loaded again from its row. *)
Lemma loaded_soa_zone id o model o' :
  soa_zone id o ->
  (forall r, model = Some r -> cell r "id" = PStr id /\ cell r "type" = PStr "PRIMARY" /\ aget "recordsets" r = None) ->
  _set_object_from_model o model = Ok o' -> soa_zone id o'.
Proof.
  intros Ho Hm. destruct model as [r|]; [|by intros [= <-]; apply reset_soa_zone].
  destruct (Hm r eq_refl) as (Hri & Hrt & Hrr). destruct Ho as ((f & ch & og & ->) & Hid & Hty & Hrs).
  cbn [fields_of_obj] in *. intros (f' & -> & Hf)%set_object_spec. split; [by do 3 eexists|]. cbn [fields_of_obj].
  rewrite !Hf. change (mem_str "id" (fields_of registry "Zone").*1) with true.
  change (mem_str "type" (fields_of registry "Zone").*1) with true.
  rewrite Hrr, Hrs. unfold cell in Hri, Hrt.
  destruct (aget "id" r); [cbn in Hri; subst|done]. destruct (aget "type" r); [cbn in Hrt; subst|done].
  split_and!; try done.
Qed.

Lemma collect_names o names d : collect registry o names = Ok d -> d.*1 = names.
Proof.
  revert d. induction names as [|n names IH]; intros d; cbn [collect]; [by intros [= <-]|].
  destruct (getattr registry o n); cbn [rbind]; [|done]. destruct (collect registry o names) as [d'|]; cbn [rbind]; [|done].
  intros [= <-]. cbn. by rewrite (IH d').
Qed.
Lemma run_by_id id rows r : head (run (by_id id) rows) = Some r -> r ∈ rows /\ holds r (col_eq "id" id) = true.
Proof.
  intros Hr. assert (Hin : r ∈ run (by_id id) rows) by (destruct (run _ _); [done|injection Hr as ->; set_solver]).
  revert Hin. unfold run, by_id. cbn [q_order q_limit where_ select_all].
  rewrite order_rows_nil. intros [Hs Hin]%list_elem_of_filter. split; [done|]. by rewrite selects_where in Hs.
Qed.

Definition zone_skip := ["attributes"; "recordsets"; "masters"].
Lemma update_soa_zone ctx id z dup nf w z' w' :
  soa_zone id z -> (forall n, n ∈ obj_what_changed registry z -> n = "serial") ->
  (forall r, r ∈ rows_of (w_db w) zones_table -> primary_row id r) ->
  _update ctx zones_table z dup nf zone_skip w = (Ok z', w') -> soa_zone id z'.
Proof.
  intros Hz Hch Hrows. destruct (soa_zone_attrs _ _ Hz) as (Hid & _ & _).
  unfold _update. rewrite Hid. intros (values & w1 & Hv & Hr)%bind_Ok. injection Hv as Hv <-.
  apply collect_names in Hv. apply bind_Ok in Hr as (i & w1 & Hi & Hr). injection Hi as <- <-.
  apply bind_Ok in Hr as (n & w1 & Hu & Hr).
  apply bind_Ok in Hr as (u & w2 & Hn & Hr). apply raise_if_Ok in Hn as [_ ->].
  apply bind_Ok in Hr as (rows & w2 & Hsel & Hr). unfold execute_select, bind, gets, ret in Hsel.
  injection Hsel as <- <-. injection Hr as Hr _.
  eapply loaded_soa_zone; [exact Hz| |exact Hr]. intros r [Hin Hholds]%run_by_id.
  revert Hu. unfold try_except. destruct (execute_update _ _ _ _ w) as [[m|e] w3] eqn:Hu.
  2:{ unfold on, raise. case_bool_decide; by intros [=]. }
  intros [= -> ->]. apply execute_update_spec in Hu as [_ ->].
  cbn [w_db set_db] in Hin. rewrite rows_of_set_rows in Hin.
  apply list_elem_of_fmap in Hin as (r0 & -> & Hin0). specialize (Hrows _ Hin0). unfold primary_row in Hrows.
  case_match; [|by apply Hrows].
  assert (Hsame : forall c, c ∈ ["id"; "type"; "recordsets"] ->
    aget c (assign zones_table (without zone_skip values) (has_column zones_table "version") (w_now w) r0) = aget c r0).
  { intros c Hc. apply assign_other.
    - intros Hin. apply aget_None_elem in Hin; [done|]. rewrite aget_adel_all. case_match; [done|].
      apply aget_None_elem. rewrite Hv. intros ->%Hch. elem_cases Hc.
    - intros ->. elem_cases Hc.
    - change (t_onupdate zones_table) with ["updated_at"]. intros ->%list_elem_of_singleton. elem_cases Hc. }
  revert Hholds. unfold cell. cbn [holds col_eq]. unfold cell. rewrite !Hsame by set_solver. exact Hrows.
Qed.

Lemma sync_soa_zone ctx rs parent id z n w z' w' :
  soa_zone id z -> n ∉ ["id"; "type"; "recordsets"] ->
  sync_items ctx rs parent z n w = (Ok z', w') -> soa_zone id z'.
Proof.
  intros Hz Hn. unfold sync_items. destruct (r_parent rs); [|by intros [= <- _]].
  intros Hr. repeat (apply bind_Ok in Hr as (? & ? & _ & Hr)). injection Hr as <- _. by apply items_soa_zone.
Qed.
(** Storing the zone leaves the record sets alone and gives a zone of this kind back. *)
Lemma update_zone_stays ctx id z w z' w' :
  soa_zone id z -> (forall n, n ∈ obj_what_changed registry z -> n = "serial") ->
  (forall r, r ∈ rows_of (w_db w) zones_table -> primary_row id r) ->
  update_zone ctx z w = (Ok z', w') ->
  soa_zone id z' /\ rows_of (w_db w') recordsets_table = rows_of (w_db w) recordsets_table.
Proof.
  intros Hz Hch Hrows. unfold update_zone.
  assert (Ht : mem_str "tenant_id" (obj_what_changed registry z) = false).
  { destruct (mem_str _ _) eqn:Hm; [|done]. by apply mem_str_elem, Hch in Hm. }
  rewrite Ht. intros (z1 & w1 & Hu & Hr)%bind_Ok.
  pose proof (update_soa_zone _ _ _ _ _ _ _ _ Hz Hch Hrows Hu) as Hz1.
  apply (_update_keeps recordsets_table zones_table) in Hu as <-; [|done].
  apply bind_Ok in Hr as (i & w2 & Hi & Hr). injection Hi as _ <-.
  apply bind_Ok in Hr as (z2 & w2 & Ha & Hr).
  assert (Hz2 : soa_zone id z2 /\ rows_of (w_db w2) recordsets_table = rows_of (w_db w1) recordsets_table).
  { destruct (obj_attr_is_set z1 "attributes"); [|injection Ha as <- <-; by split].
    split; [eapply sync_soa_zone; [exact Hz1| |exact Ha]; intros Hin; elem_cases Hin|].
    eapply (sync_items_keeps recordsets_table); [|exact Ha]; discriminate. }
  destruct Hz2 as [Hz2 <-]. apply bind_Ok in Hr as (z3 & w3 & Hm & Hr).
  assert (Hz3 : soa_zone id z3 /\ rows_of (w_db w3) recordsets_table = rows_of (w_db w2) recordsets_table).
  { destruct (obj_attr_is_set z2 "masters"); [|injection Hm as <- <-; by split].
    split; [eapply sync_soa_zone; [exact Hz2| |exact Hm]; intros Hin; elem_cases Hin|].
    eapply (sync_items_keeps recordsets_table); [|exact Hm]; discriminate. }
  destruct Hz3 as [Hz3 <-]. destruct (soa_zone_attrs _ _ Hz3) as (_ & _ & Hno). rewrite Hno in Hr.
  apply bind_Ok in Hr as (z4 & w4 & Heq & Hr). injection Heq as <- <-.
  apply bind_Ok in Hr as (t & w4 & Htt & Hr). injection Htt as _ <-. cbn [when] in Hr.
  apply bind_Ok in Hr as (? & ? & Hn & Hr). injection Hn as _ <-. by injection Hr as <- <-.
Qed.

Lemma increment_needs_soa ctx id z w r w' :
  soa_zone id z -> obj_what_changed registry z = [] ->
  (forall r, r ∈ rows_of (w_db w) zones_table -> primary_row id r) -> no_soa ctx id (w_db w) ->
  _increment_zone_serial ctx z false w <> (Ok r, w').
Proof.
  intros Hz Hch Hrows Hno. unfold _increment_zone_serial.
  intros (now & w1 & Hnow & Hr)%bind_Ok. injection Hnow as _ <-. apply bind_Ok in Hr as (z1 & w1 & Hs & Hr).
  assert (w1 = w) as -> by (by eapply set_attr_reads).
  assert (Hz1 : soa_zone id z1).
  { eapply set_attr_soa_zone; [exact Hz| |exact Hs]. intros Hin. elem_cases Hin. }
  apply bind_Ok in Hr as (z2 & w2 & Hd & Hr). injection Hd as <- <-.
  apply bind_Ok in Hr as (z3 & w3 & Hu & Hr). apply bind_Ok in Hr as (u & w4 & Hsoa & _).
  assert (Hch1 : forall n, n ∈ obj_what_changed registry z1 -> n = "serial").
  { injection Hs as Hs. destruct Hz as ((f & ch & og & ->) & _). revert Hs. unfold obj_what_changed in Hch.
    change (is_list_class registry "Zone") with false in Hch. cbn in Hch. subst ch.
    unfold setattr. change (in_FIELDS registry "Zone" "serial") with true. cbn [negb].
    destruct (aget "serial" f); intros [= <-] n; cbn [obj_what_changed];
      change (is_list_class registry "Zone") with false; cbn match.
    - case_match; [|by intros ?%not_elem_of_nil]. cbn. by intros ->%list_elem_of_singleton.
    - cbn. by intros ->%list_elem_of_singleton. }
  destruct (update_zone_stays _ _ _ _ _ _ Hz1 Hch1 Hrows Hu) as [Hz3 Hkeep].
  destruct (soa_zone_attrs _ _ Hz3) as (Hid & Hty & _).
  eapply (update_soa_stuck ctx id z3 w3 u w4 Hid Hty); [|exact Hsoa].
  intros x. rewrite Hkeep. apply Hno.
Qed.

(** The zone as it is loaded, and the copy of it that the transaction works on. *)
Lemma load_relations_soa_zone ctx id z w z' w' :
  soa_zone id z -> load_zone_relations ctx z w = (Ok z', w') -> soa_zone id z'.
Proof.
  intros Hz. unfold load_zone_relations. intros (ty & w1 & _ & Hr)%bind_Ok.
  apply bind_Ok in Hr as (i & w2 & _ & Hr). apply bind_Ok in Hr as (m & w3 & _ & Hr).
  apply bind_Ok in Hr as (z1 & w4 & Hs1 & Hr). apply bind_Ok in Hr as (a & w5 & _ & Hr).
  apply bind_Ok in Hr as (z2 & w6 & Hs2 & Hr). injection Hr as <- _. apply reset_soa_zone.
  eapply set_attr_soa_zone; [eapply set_attr_soa_zone; [exact Hz| |exact Hs1]| |exact Hs2]; intros Hin; elem_cases Hin.
Qed.
Lemma fresh_soa_zone id r o :
  cell r "id" = PStr id -> cell r "type" = PStr "PRIMARY" -> aget "recordsets" r = None ->
  _set_object_from_model (PObj "Zone" [] [] []) (Some r) = Ok o -> soa_zone id o /\ own_changes o = [].
Proof.
  intros Hid Hty Hrs (f' & -> & Hf)%set_object_spec. split; [|done]. split; [by do 3 eexists|]. cbn [fields_of_obj].
  rewrite !Hf. change (mem_str "id" (fields_of registry "Zone").*1) with true.
  change (mem_str "type" (fields_of registry "Zone").*1) with true. rewrite Hrs. unfold cell in Hid, Hty.
  destruct (aget "id" r); [cbn in Hid; subst|done]. destruct (aget "type" r); [cbn in Hty; subst|done].
  by split_and!.
Qed.
Lemma load_relations_unchanged ctx z w z' w' :
  is_obj "Zone" z -> own_changes z = [] -> load_zone_relations ctx z w = (Ok z', w') -> own_changes z' = [].
Proof.
  intros (f & ch & og & ->) Hch. cbn in Hch. subst ch. unfold load_zone_relations.
  intros (ty & w1 & _ & Hr)%bind_Ok. apply bind_Ok in Hr as (i & w2 & _ & Hr).
  apply bind_Ok in Hr as (m & w3 & _ & Hr). apply bind_Ok in Hr as (z1 & w4 & Hs1 & Hr).
  apply bind_Ok in Hr as (a & w5 & _ & Hr). apply bind_Ok in Hr as (z2 & w6 & Hs2 & Hr). injection Hr as <- _.
  unfold set_attr in Hs1, Hs2. apply lift_Ok in Hs1, Hs2.
  assert (Hnames : forall n, n ∈ own_changes z2 -> n ∈ ["masters"; "attributes"]).
  { intros n Hn. destruct (setattr_changes_names registry _ _ _ _ _ Hs2 Hn) as [->|Hn1]; [set_solver|].
    destruct (setattr_changes_names registry _ _ _ _ _ Hs1 Hn1) as [->|Hn2]; [set_solver|]. by apply not_elem_of_nil in Hn2. }
  destruct z2; try done. cbn in *. clear -Hnames. induction changes as [|n l IH]; [done|]. rewrite filter_cons, decide_False.
  - apply IH. intros x Hx. apply Hnames. set_solver.
  - assert (Hn : n ∈ ["masters"; "attributes"]) by (apply Hnames; set_solver). intros Hneg.
    elem_cases Hn; by cbn in Hneg.
Qed.
Lemma deepcopy_soa_zone id z : soa_zone id z -> soa_zone id (deepcopy registry z) /\ own_changes (deepcopy registry z) = own_changes z.
Proof.
  intros ((f & ch & og & ->) & Hid & Hty & Hrs). cbn [fields_of_obj deepcopy] in *. split; [|done].
  split; [by do 3 eexists|]. cbn [fields_of_obj].
  assert (Hget : forall n, aget n (map (fun kv : string * pyval => (kv.1, deepcopy registry kv.2)) f) =
                           deepcopy registry <$> aget n f).
  { intros n. clear. induction f as [|[k v] f IH]; [done|]. cbn. by destruct (String.eqb n k). }
  assert (Hord : forall n, in_FIELDS registry "Zone" n = true ->
    aget n (in_order registry "Zone" (map (fun kv : string * pyval => (kv.1, deepcopy registry kv.2)) f)) =
    deepcopy registry <$> aget n f).
  { intros n Hn. rewrite <- Hget. unfold in_order. pose proof (FIELDS_NoDup "Zone") as Hnd.
    unfold in_FIELDS in Hn. revert Hn Hnd. generalize (map (fun kv : string * pyval => (kv.1, deepcopy registry kv.2)) f).
    generalize (fields_of registry "Zone").*1. intros l g. induction l as [|m l IH]; [done|]. cbn [mem_str existsb omap list_omap].
    intros Hn [Hm Hnd]%NoDup_cons. destruct (String.eqb_spec n m) as [->|Hne].
    - destruct (aget m g) as [v|] eqn:Hv; cbn; [by rewrite String.eqb_refl|].
      apply aget_None_elem. intros ([k x] & -> & (y & Hy & Hk)%list_elem_of_omap)%list_elem_of_fmap.
      destruct (aget y g) eqn:Hyg; [|done]. injection Hk as -> _. cbn in Hm. by destruct Hm.
    - cbn in Hn. destruct (aget m g); cbn; [|by apply IH]. destruct (String.eqb_spec n m); [done|]. by apply IH. }
  rewrite !Hord by reflexivity. rewrite Hid, Hty, Hrs. done.
Qed.

(** The steps of a change of a zone keep the session. *)
#[local] Hint Constants Opaque : typeclass_instances.
#[export] Instance touch_record_reads serial record : Reads (touch_record serial record).
Proof. unfold touch_record. apply _. Qed.
#[export] Instance store_recordset_balanced ctx zone recordset : Balanced (store_recordset ctx zone recordset).
Proof. unfold store_recordset. balanced. Qed.
#[export] Instance update_recordset_in_storage_balanced ctx zone recordset :
  Balanced (update_recordset_in_storage ctx zone recordset).
Proof. unfold update_recordset_in_storage. balanced. Qed.
#[export] Instance update_soa_balanced ctx zone : Balanced (_update_soa ctx zone).
Proof. unfold _update_soa. balanced. Qed.
#[export] Instance increment_zone_serial_balanced ctx zone d : Balanced (_increment_zone_serial ctx zone d).
Proof. unfold _increment_zone_serial, utcnow. balanced. Qed.
#[export] Instance touch_zone_in_storage_balanced ctx zone : Balanced (touch_zone_in_storage ctx zone).
Proof. apply increment_zone_serial_balanced. Qed.

(** A primary zone without an SOA record set is stuck. As long as the zone has
    no SOA record set that the caller can see (and [create_zone] stores none),
    touching the zone always raises, whatever else is stored; no new serial number
    is kept: the database is left exactly as it was. *)
Theorem zone_without_soa_stuck ctx id w r w' :
  w_tx w = [] -> w_doomed w = false -> w_retry_held w = false -> w_retries w = 0%nat ->
  plain_id id ->
  (forall row, row ∈ rows_of (w_db w) zones_table -> primary_row id row) -> no_soa ctx id (w_db w) ->
  touch_zone_body ctx (PStr id) w = (r, w') ->
  (exists e, r = Raise e) /\ w_db w' = w_db w.
Proof.
  intros Htx Hd Hh Hret Hplain Hrows Hno. unfold touch_zone_body.
  unfold bind at 1. destruct (get_zone ctx (PStr id) w) as [[z|e] w1] eqn:Hz; apply get_zone_reads in Hz as Hw; subst w1.
  2:{ intros [= <- <-]. split; [by eexists|done]. }
  unfold bind at 1. destruct (zone_target (PStr id) z w) as [[target|e] w1] eqn:Ht; apply zone_target_reads in Ht as ->.
  2:{ intros [= <- <-]. split; [by eexists|done]. }
  unfold bind at 1. destruct (check_policy _ ctx target w) as [[u|e] w1] eqn:Hp; apply check_policy_reads in Hp as ->.
  2:{ intros [= <- <-]. split; [by eexists|done]. }
  unfold bind at 1. destruct (transaction _ [z] w) as [res w1] eqn:Hrun.
  apply transaction_outermost in Hrun; [|apply _|done..].
  destruct res as [a|e]; [exfalso|by intros [= <- <-]; split; [by eexists|]].
  destruct Hrun as (v & v' & Hdb & Hbody & _). cbn [map unary] in Hbody.
  assert (Hsz : soa_zone id z /\ own_changes z = []).
  { unfold get_zone, find_zone in Hz. apply bind_Ok in Hz as (c & w2 & Hc & Hz). injection Hc as <- <-.
    apply bind_Ok in Hz as (z0 & w2 & Hone & Hz). apply find_one_Ok in Hone as (-> & row & Hf & Hset).
    assert (Hin : row ∈ filter (fun r => wanted ctx zones_table [("id", PStr id)] true r = true) (rows_of (w_db w) zones_table)).
    { rewrite Hf. set_solver. }
    apply list_elem_of_filter in Hin as [Hw Hin].
    assert (Hholds : holds row (col_eq "id" (PStr id)) = true).
    { unfold wanted, matches in Hw. cbn [forallb fst snd] in Hw. rewrite Hplain in Hw. by repeat apply andb_true_iff in Hw as [Hw _]. }
    destruct (Hrows _ Hin Hholds) as (Hi & Hty & Hrs). destruct (fresh_soa_zone _ _ _ Hi Hty Hrs Hset) as [Hz0 Hc0].
    split; [by eapply load_relations_soa_zone|]. eapply load_relations_unchanged; [|exact Hc0|exact Hz].
    by destruct Hz0. }
  destruct Hsz as [Hsz Hch]. destruct (deepcopy_soa_zone _ _ Hsz) as [Hcopy Hsame].
  eapply increment_needs_soa; [exact Hcopy| |rewrite Hdb; exact Hrows|rewrite Hdb; exact Hno|exact Hbody].
  rewrite <- Hch, <- Hsame. destruct Hcopy as ((f & ch & og & ->) & _). reflexivity.
Qed.
End Soa.

(** ** At concrete record sets *)
#[local] Existing Instances ref_env ref_engine.
Definition recordset_row (id zone name type : string) : row :=
  [("id", PStr id); ("version", PInt 1); ("created_at", PInt 1); ("updated_at", PNone); ("zone_shard", PInt 0);
   ("tenant_id", PStr "t1"); ("zone_id", PStr zone); ("name", PStr name); ("type", PStr type); ("ttl", PInt 60);
   ("description", PNone); ("reverse_name", PStr (srev name))].
Definition record_row (id recordset zone data : string) : row :=
  [("id", PStr id); ("version", PInt 1); ("created_at", PInt 1); ("updated_at", PNone); ("data", PStr data);
   ("zone_id", PStr zone); ("managed", PBool false); ("tenant_id", PStr "t1"); ("recordset_id", PStr recordset);
   ("status", PStr "ACTIVE"); ("action", PStr "NONE"); ("serial", PInt 5)].
Definition records_db : db :=
  app zones_db
    [("recordsets", [recordset_row "r1" "z1" "www.b.org." "A"]);
     ("records", [record_row "a1" "r1" "z1" "1.2.3.4"; record_row "a2" "r1" "z1" "1.2.3.5"])].
#[local] Instance willing_worker : Services := {| reply := fun _ => Ok (PList [PStr "ok"]) |}.

Lemma update_recordset_guarded_witness :
  let moved := PObj "RecordSet" [("id", PStr "r1"); ("zone_id", PStr "z2"); ("ttl", PInt 60)] ["zone_id"]
                 [("zone_id", PStr "z1")] in
  let run := update_recordset_body ref_context moved (ref_world records_db) in
  exists e, run.1 = Raise e /\ run.2 = ref_world records_db.
Proof.
  cbv zeta. set (run := update_recordset_body _ _ _).
  destruct (update_recordset_guarded ref_context
    (PObj "RecordSet" [("id", PStr "r1"); ("zone_id", PStr "z2"); ("ttl", PInt 60)] ["zone_id"] [("zone_id", PStr "z1")])
    (ref_world records_db) run.1 run.2 (surjective_pairing run))
    as [H|(? & ? & changes & ? & ? & ? & ? & ? & _ & _ & _ & Hch & Him & _)]; [exact H|exfalso].
  vm_compute in Hch. injection Hch as <-. apply (Him "zone_id"); [right; left|left].
Defined.

(** A worker that reports the first record to central and refuses the second *)
Definition associated_db : db :=
  app records_db
    [("records_zdns_record_associations", [[("id", PStr "as1"); ("record_id", PStr "a1"); ("zdns_record_id", PStr "b1")]]);
     ("zdns_record_info_t", [[("id", PStr "b1")]])].
Definition half_willing (zone record recordset : pyval) : P world pyval :=
  let! id := attr record "id" in
  if py_eq id (PStr "a1") then
    update_record_status ref_context record "DELETE" "SUCCESS" ;;; ret (PList [id])
  else ret (PList [PNone]).
Definition record_ids (w : world) : list pyval := map (fun x => cell x "id") (rows_of (w_db w) records_table).
Lemma delete_recordset_confirmed_witness :
  let run := delete_recordset_body half_willing ref_context (PStr "z1") (PStr "r1") (ref_world associated_db) in
  run.1 = Raise (Failed PartlyFailed) /\
  record_ids (ref_world associated_db) = [PStr "a1"; PStr "a2"] /\ record_ids run.2 = [PStr "a2"] /\
  exists zone recordset records,
    central_find_records ref_context [("recordset_id", PStr "r1")] no_page (ref_world associated_db) = (Ok records, ref_world associated_db) /\
    (given_up half_willing zone recordset (list_objects records) (ref_world associated_db) run.2 \/
     exists oks w1, asked half_willing zone recordset (list_objects records) (ref_world associated_db) oks w1).
Proof.
  cbv zeta. set (run := delete_recordset_body _ _ _ _ _).
  assert (Hrun : run.1 = Raise (Failed PartlyFailed)) by (vm_compute; reflexivity). split; [exact Hrun|].
  split; [vm_compute; reflexivity|]. split; [vm_compute; reflexivity|].
  destruct (delete_recordset_confirmed half_willing ref_context (PStr "z1") (PStr "r1") (ref_world associated_db)
    run.1 run.2 (surjective_pairing run))
    as [(e & _ & Hw)|(zone & recordset & target & records & _ & _ & _ & _ & _ & _ & _ & Hrec & [(e & _ & Hg)|(oks & w1 & Ha & [[Hall Hd]|(Hx & Hw & _)])])].
  - apply (f_equal record_ids) in Hw. exfalso. revert Hw. vm_compute. discriminate.
  - exists zone, recordset, records. split; [exact Hrec|]. by left.
  - exists zone, recordset, records. split; [exact Hrec|]. right. by exists oks, w1.
  - exists zone, recordset, records. split; [exact Hrec|]. right. by exists oks, w1.
Defined.

Lemma zone_without_soa_stuck_witness :
  let run := touch_zone_body ref_context (PStr "z1") (ref_world records_db) in
  (exists e, run.1 = Raise e) /\ w_db run.2 = records_db.
Proof.
  cbv zeta. set (run := touch_zone_body _ _ _).
  refine (zone_without_soa_stuck ref_context "z1" (ref_world records_db) run.1 run.2
    eq_refl eq_refl eq_refl eq_refl _ _ _ (surjective_pairing run)).
  - intros n. reflexivity.
  - intros r Hr. change (r ∈ [zone_row "z1" "t1" "b.org." PNone; zone_row "z2" "t1" "x.b.org." (PStr "z1")]) in Hr.
    elem_cases Hr; vm_compute; [by intros _|discriminate].
  - intros r Hr. change (r ∈ [recordset_row "r1" "z1" "www.b.org." "A"]) in Hr. elem_cases Hr. vm_compute. reflexivity.
Defined.

(** A zone that was just created cannot be touched. *)
Definition view_row (id name : string) : row :=
  [("id", PStr id); ("version", PInt 1); ("created_at", PInt 1); ("updated_at", PNone); ("tenant_id", PStr "t1");
   ("name", PStr name)].
Definition creating_db : db :=
  [("pools", [pool_row "p1" "gold"]); ("pool_ns_records", [ns_record_row "n1" "p1"]); ("view", [view_row "v1" "default"])].
Definition in_view (view_id : string) : pyval :=
  PObj "ZoneAttributeList"
    [("objects", PList [PObj "ZoneAttribute" [("key", PStr "view_id"); ("value", PStr view_id)] ["key"; "value"] []])] [] [].
Definition requested_zone : pyval :=
  PObj "Zone" [("name", PStr "a.b."); ("type", PStr "PRIMARY"); ("ttl", PInt 300); ("email", PStr "a@a.b");
               ("attributes", in_view "v1")] ["name"; "type"; "ttl"; "email"; "attributes"] [].
Example new_zone_is_stuck :
  let made := central_create_zone default_payloads (fun _ => None) (fun _ => 0%nat) [FallbackFilter] ref_context
                requested_zone (ref_world creating_db) in
  is_Ok made.1 = true /\
  map (fun r => text (cell r "type")) (rows_of (w_db made.2) recordsets_table) = ["NS"; "A"] /\
  let zone_id := match made.1 with Ok z => cell (fields_of_obj z) "id" | Raise _ => PNone end in
  (touch_zone_body ref_context zone_id made.2).1 = Raise (NotFound RecordSetNotFound).
Proof. vm_compute. by split_and!. Qed.
