(* ===== verification/CentralAdminFacts.v ===== *)
(** * Theorems about administration: imports, pools, floating IPs and views

    No import ever completes; a pool in use stays; reverse names stay with their
    tenant; the priorities of the views stay consecutive. *)
From Stdlib Require Import ZArith Lia Ascii String.
From stdpp Require Import base option numbers strings sets list.
From S2P Require Import Prelude PyStr Exceptions Values Objects Utils Classes ObjectLists World Decorators Sql SqlFacts ObjectTypes Tables Storage StorageFacts StorageZdns Quota Scheduler Central CentralZones CentralFacts CentralZonesFacts CentralRecords CentralViews CentralCreate Dnsutils CentralAdmin CentralFloating CentralRecordsFacts.
Local Open Scope string_scope.

(** ** Imports *)

(** It raises and leaves the database alone. *)
Definition Fails {A} (m : P world A) : Prop := forall w, exists e w', m w = (Raise e, w') /\ w_db w' = w_db w.

Lemma notification_fails payloads ty f args : Fails (f args) -> Fails (notification payloads ty f args).
Proof.
  intros Hf w. unfold notification. destruct (Hf (set_buffer (S (w_nstack w)) (w_nqueue w) w)) as (e & w1 & -> & Hdb).
  eexists e, _. split; [reflexivity|]. cbn. by destruct (_ =? 0)%nat.
Qed.
Lemma synchronized_zone_fails {A} new_zone (f : list pyval -> P world A) args :
  Fails (f args) -> Fails (synchronized_zone new_zone f args).
Proof.
  intros Hf w. unfold synchronized_zone. destruct (_ && _); [by eexists _, w|]. unfold bind at 1, gets.
  destruct (mem_str _ (w_held w)); [apply Hf|]. unfold with_lock. destruct (mem_str _ _); [by eexists _, w|].
  unfold bind at 1, modify. unfold bind at 1. edestruct Hf as (e & w1 & -> & Hdb). by eexists e, _.
Qed.

(** A zone with an attribute that is not set. *)
Definition lacks (n : string) (o : pyval) : Prop := is_obj "Zone" o /\ aget n (fields_of_obj o) = None.
Lemma setattr_lacks n o k v o' : lacks n o -> n <> k -> setattr registry o k v = Ok o' -> lacks n o'.
Proof.
  intros [(f & ch & og & ->) Hn] Hk. cbn [setattr fields_of_obj] in *. destruct (negb _); [done|].
  destruct (aget k f); intros [= <-]; (split; [by do 3 eexists|]); cbn [fields_of_obj]; by rewrite aget_aset_ne.
Qed.
Lemma init_lacks n o kwargs o' : lacks n o -> n ∉ kwargs.*1 -> init_from registry o "Zone" kwargs = Ok o' -> lacks n o'.
Proof.
  revert o. induction kwargs as [|[k v] kwargs IH]; intros o Ho Hn; cbn [init_from]; [by intros [= <-]|].
  destruct (in_FIELDS registry "Zone" k); [|done].
  destruct (setattr registry o k v) as [o1|] eqn:Hs; cbn [rbind]; [|done]. cbn in Hn.
  apply IH; [|set_solver]. eapply setattr_lacks; [exact Ho| |exact Hs]. set_solver.
Qed.
Lemma new_zone_lacks n kwargs o : n ∉ kwargs.*1 -> new_obj registry "Zone" kwargs = Ok o -> lacks n o.
Proof.
  intros Hn. unfold new_obj. destruct (init_from _ _ _ _) as [o1|] eqn:Hi; cbn [rbind]; [|done].
  change (is_list_class registry "Zone") with false. cbn [andb]. intros [= <-].
  eapply init_lacks; [|exact Hn|exact Hi]. split; [by do 3 eexists|done].
Qed.
Lemma items_lacks n o k items : lacks n o -> lacks n (with_attr_items o k items).
Proof.
  intros [(f & ch & og & ->) Hn]. cbn [with_attr_items fields_of_obj] in *.
  destruct (aget k f) as [v|] eqn:Hk; (split; [by do 3 eexists|]); cbn [fields_of_obj]; [|done].
  rewrite aget_aset. case_match eqn:Heq; [|done]. apply String.eqb_eq in Heq as ->. congruence.
Qed.

Section Imports.
Context `{Env} `{SqlEngine} `{Services}.
Variable payloads : string -> pyval -> list pyval -> list pyval.
Variable from_text : string -> parsed.
Variable exc_text : exc -> string.
Variable bool_from_string : pyval -> option bool.
Variable random_choice : nat -> nat.
Variable scheduler_filters : list filter_kind.

(** A zone made of a zone file has no attributes. *)
Lemma from_dnspython_zone_lacks z o : from_dnspython_zone z = Ok o -> lacks "attributes" o.
Proof.
  unfold from_dnspython_zone. destruct (soa z) as [s|]; [|done].
  destruct (new_obj registry "Zone" _) as [o1|] eqn:Hn; cbn [rbind]; [|done].
  apply (new_zone_lacks "attributes") in Hn; [|cbn; intros Hin; elem_cases Hin].
  destruct (dnspyrecords_to_recordsetlist _) as [l|]; cbn [rbind]; [|done].
  intros Hs. by eapply setattr_lacks in Hs.
Qed.
Lemma without_ns_soa_lacks o o' : lacks "attributes" o -> without_ns_soa o = Ok o' -> lacks "attributes" o'.
Proof.
  intros Ho. unfold without_ns_soa. destruct (getattr registry o "recordsets"); cbn [rbind]; [|done].
  intros [= <-]. by apply items_lacks.
Qed.

Lemma set_attr_lacks n o k v (w : world) o' w' :
  lacks n o -> n <> k -> set_attr o k v w = (Ok o', w') -> lacks n o'.
Proof. intros Ho Hk Hs. unfold set_attr in Hs. apply lift_Ok in Hs. by eapply setattr_lacks. Qed.
(** The checks give no attributes to a zone that has none. *)
Lemma create_zone_checks_lacks ctx zone w zone' subzones w' :
  lacks "attributes" zone ->
  create_zone_checks bool_from_string random_choice scheduler_filters ctx zone w = (Ok (zone', subzones), w') ->
  lacks "attributes" zone'.
Proof.
  intros Hz. unfold create_zone_checks. intros (own & w1 & _ & Hr)%bind_Ok.
  apply bind_Ok in Hr as (z1 & w2 & Hs1 & Hr). apply (set_attr_lacks "attributes") in Hs1; [|done..].
  do 8 (apply bind_Ok in Hr as (? & ? & _ & Hr)). apply bind_Ok in Hr as (pool & w3 & _ & Hr).
  apply bind_Ok in Hr as (z2 & w4 & Hs2 & Hr). apply (set_attr_lacks "attributes") in Hs2; [|done..].
  apply bind_Ok in Hr as (parent & w5 & _ & Hr). apply bind_Ok in Hr as (z3 & w6 & Hs3 & Hr).
  assert (Hz3 : lacks "attributes" z3).
  { destruct parent as [p|]; [|by injection Hs3 as <- _].
    apply bind_Ok in Hs3 as (t & w7 & _ & Hs3). destruct (py_eq _ _); [|done].
    apply bind_Ok in Hs3 as (i & w8 & _ & Hs3). by apply (set_attr_lacks "attributes") in Hs3. }
  do 4 (apply bind_Ok in Hr as (? & ? & _ & Hr)). by injection Hr as <- _ _.
Qed.

Lemma _create_zone_fails ctx zone subzones : lacks "attributes" zone -> Fails (_create_zone payloads ctx zone subzones).
Proof.
  intros Hz w. unfold _create_zone. unfold bind at 1, attr at 1, lift at 1.
  destruct (getattr registry zone "serial") as [serial|e]; [|by eexists _, w]. unfold bind at 1.
  set (m := if _ && _ then _ else _).
  assert (Hm : exists r, m w = (r, w) /\ forall z, r = Ok z -> lacks "attributes" z).
  { unfold m, set_attr, lift, ret. destruct (_ && _); eexists; (split; [reflexivity|]).
    - intros z Hs. eapply setattr_lacks; [exact Hz| |exact Hs]. done.
    - by intros z [= <-]. }
  destruct Hm as ([z|e] & -> & Hz'); [|by eexists _, w]. destruct (Hz' z eq_refl) as [(f & ch & og & ->) Hno].
  cbn [fields_of_obj] in Hno. unfold bind at 1, items_of, bind at 1, attr at 1, lift at 1, getattr.
  change (in_FIELDS registry "Zone" "attributes") with true. change (is_relation registry "Zone" "attributes") with true.
  cbn [negb]. rewrite Hno. by eexists _, w.
Qed.
Lemma create_zone_body_fails ctx zone :
  lacks "attributes" zone ->
  Fails (create_zone_body payloads bool_from_string random_choice scheduler_filters ctx zone).
Proof.
  intros Hz w. unfold create_zone_body. unfold bind at 1.
  destruct (create_zone_checks _ _ _ ctx zone w) as [[[z subs]|e] w1] eqn:Hc;
    apply create_zone_checks_reads in Hc as Hw; subst w1; [|by eexists _, w].
  apply _create_zone_fails. by eapply create_zone_checks_lacks.
Qed.
Lemma central_create_zone_fails ctx zone :
  lacks "attributes" zone ->
  Fails (central_create_zone payloads bool_from_string random_choice scheduler_filters ctx zone).
Proof.
  intros Hz. unfold central_create_zone. do 2 apply notification_fails. apply synchronized_zone_fails.
  by apply create_zone_body_fails.
Qed.

(** The outcome a task is given. *)
Lemma with_outcome_status status message task :
  is_obj "ZoneImport" task -> exists task', with_outcome status message task = Ok task' /\
    is_obj "ZoneImport" task' /\ getattr registry task' "status" = Ok (PStr status).
Proof.
  intros Ht. unfold with_outcome. destruct (setattr_field "ZoneImport" task "message" (PStr message) Ht eq_refl) as (t1 & -> & Ht1 & _).
  cbn [rbind]. destruct (setattr_field "ZoneImport" t1 "status" (PStr status) Ht1 eq_refl) as (t2 & Hs & Ht2 & Hf).
  exists t2. split_and!; [done|done|]. rewrite (getattr_plain "ZoneImport") by done. unfold cell. by rewrite Hf, aget_aset_eq.
Qed.

(** Reading the file: a zone without attributes, or an error that is recorded. *)
Lemma parse_import_spec body task :
  is_obj "ZoneImport" task ->
  exists zone task', parse_import from_text exc_text body task = Ok (zone, task') /\
    match zone with
    | Some z => lacks "attributes" z /\ task' = task
    | None => getattr registry task' "status" = Ok (PStr "ERROR")
    end.
Proof.
  intros Ht. unfold parse_import.
  assert (Hfail : forall message, exists zone task',
    (let? task := with_outcome "ERROR" message task in Ok (None, task)) = Ok (zone, task') /\
    match zone with
    | Some z => lacks "attributes" z /\ task' = task
    | None => getattr registry task' "status" = Ok (PStr "ERROR")
    end).
  { intros message. destruct (with_outcome_status "ERROR" message task Ht) as (t1 & -> & _ & Hst). by exists None, t1. }
  destruct (from_text body) as [z| | |e]; try apply Hfail.
  destruct (let? zone := from_dnspython_zone z in _) as [zone|e] eqn:Hz; [|destruct e; apply Hfail].
  exists (Some zone), task. split_and!; [done| |done]. revert Hz.
  destruct (from_dnspython_zone z) as [z1|] eqn:Hz1; cbn [rbind]; [|done]. apply from_dnspython_zone_lacks in Hz1.
  destruct (setattr registry z1 "type" _) as [z2|] eqn:Hz2; cbn [rbind]; [|done].
  apply (setattr_lacks "attributes") in Hz2; [|done..]. by apply without_ns_soa_lacks.
Qed.

Lemma create_imported_fails ctx zone task w r w' :
  lacks "attributes" zone -> is_obj "ZoneImport" task ->
  create_imported payloads exc_text bool_from_string random_choice scheduler_filters ctx zone task w = (r, w') ->
  w_db w' = w_db w /\ match r with Ok t => getattr registry t "status" = Ok (PStr "ERROR") | Raise _ => True end.
Proof.
  intros Hz Ht. unfold create_imported, try_except. unfold bind at 1.
  destruct (central_create_zone_fails ctx zone Hz w) as (e & w1 & -> & Hdb).
  assert (Hall : forall message r w', lift (S := world) (with_outcome "ERROR" message task) w1 = (r, w') ->
    w_db w' = w_db w /\ match r with Ok t => getattr registry t "status" = Ok (PStr "ERROR") | Raise _ => True end).
  { intros message r0 w0. destruct (with_outcome_status "ERROR" message task Ht) as (t1 & -> & _ & Hst).
    by intros [= <- <-]. }
  set (h := match e with InvalidTTL => _ | _ => _ end).
  assert (Hh : h = None \/ exists message, h = Some (lift (with_outcome "ERROR" message task))).
  { unfold h. destruct e; eauto; match goal with |- context [match ?x with _ => _ end] => destruct x; eauto end. }
  destruct Hh as [-> | [message ->]]; [by intros [= <- <-]|apply Hall].
Qed.

(** No import ever completes. Whatever the zone file holds, the zone that is made
    of it has no attributes, so it names no view, and its creation raises before
    anything is stored. The import ends by recording its task with the status ERROR,
    in the database as it was before the import; only a timeout, or the lock of
    another request, keeps it from recording that. *)
Theorem import_never_completes ctx task body w r w' :
  is_obj "ZoneImport" task ->
  _import_zone payloads from_text exc_text bool_from_string random_choice scheduler_filters ctx task body w = (r, w') ->
  (exists e, r = Raise e /\ w_db w' = w_db w) \/
  (exists task' v, getattr registry task' "status" = Ok (PStr "ERROR") /\ w_db v = w_db w /\
     update_zone_import payloads ctx task' v = (r, w')).
Proof.
  intros Ht. unfold _import_zone. unfold bind at 1, lift at 1.
  destruct (parse_import_spec body task Ht) as (zone & task' & -> & Hzone). unfold bind at 1.
  destruct zone as [z|].
  - destruct Hzone as [Hz ->]. destruct (create_imported _ _ _ _ _ ctx z task w) as [[t|e] w1] eqn:Hc;
      destruct (create_imported_fails _ _ _ _ _ _ Hz Ht Hc) as [Hdb Hst].
    + intros Hr. right. by exists t, w1.
    + intros [= <- <-]. left. by exists e.
  - intros Hr. right. by exists task', w.
Qed.
End Imports.

(** ** Pools *)
Section Pools.
Context `{Env} `{SqlEngine} `{Services}.

Lemma mmap_length {A B} (f : A -> P world B) l w l' w' : mmap f l w = (Ok l', w') -> length l' = length l.
Proof.
  revert w l'. induction l as [|x l IH]; intros w l'; cbn [mmap]; [by intros [= <- _]|].
  intros (y & w1 & _ & Hr)%bind_Ok. apply bind_Ok in Hr as (ys & w2 & Hys & Hr). injection Hr as <- <-.
  cbn. by rewrite (IH _ _ Hys).
Qed.

(** A query without a page finds every wanted row. *)
Lemma sort_query_plain t q ks d q' :
  sort_query t q ks d = Ok q' -> q_where q' = q_where q /\ q_limit q' = q_limit q.
Proof.
  revert q. induction ks as [|k ks IH]; intros q; cbn [sort_query]; [by intros [= <-]|].
  do 2 (case_match; [done|]). intros Hs%IH. exact Hs.
Qed.
Lemma find_all_rows ctx t cls list_cls c w o w' :
  _find ctx t cls list_cls c no_page true w = (Ok o, w') ->
  length (list_objects o) = length (filter (fun r => wanted ctx t c true r = true) (rows_of (w_db w) t)).
Proof.
  unfold _find. intros (q & w1 & Hq & Hr)%bind_Ok. injection Hq as Hq <-.
  apply find_query_spec in Hq as (_ & Hl & Hs). apply bind_Ok in Hr as (m & w1 & Hm & Hr). injection Hm as <- <-.
  apply bind_Ok in Hr as (q' & w1 & Hp & Hr). injection Hp as Hp <-.
  apply bind_Ok in Hr as (rows & w1 & Hsel & Hr). injection Hr as Hset _. revert Hset. unfold _set_listobject_from_models.
  destruct (rmap _ rows) as [l|] eqn:Hmap; cbn [rbind]; [|done]. intros [= <-]. cbn [list_objects aget String.eqb Ascii.eqb Bool.eqb].
  change (String.eqb "objects" "objects") with true. cbn match. rewrite (rmap_length _ _ _ Hmap).
  unfold execute_select, bind, gets, ret in Hsel. injection Hsel as <- _.
  assert (Hq' : q_where q' = q_where q /\ q_limit q' = None).
  { revert Hp. unfold paginate_query. cbn [p_limit no_page].
    destruct (sort_query t q _ _) as [q2|] eqn:Hsort; cbn [rbind mapped_errors]; [|done]. intros [= <-].
    apply sort_query_plain in Hsort. by rewrite Hl in Hsort. }
  destruct Hq' as [Hwh Hlim]. unfold run. rewrite Hlim. rewrite (Permutation_length (order_rows_perm _ _)).
  f_equal. apply filter_ext_bool. intros r. rewrite <- Hs. unfold selects. by rewrite Hwh.
Qed.

Lemma find_zones_rows ctx c w o w' :
  aget "name" c = None -> find_zones ctx c no_page w = (Ok o, w') ->
  w' = w /\ (list_objects o = [] -> forall r, r ∈ rows_of (w_db w) zones_table -> wanted ctx zones_table c true r = false).
Proof.
  intros Hname Hrun. split; [by eapply find_zones_reads|]. revert Hrun. unfold find_zones, _rname_check. rewrite Hname.
  intros (c' & w1 & Hc & Hr)%bind_Ok. injection Hc as <- <-. apply bind_Ok in Hr as (zones & w1 & Hf & Hr).
  pose proof (find_all_rows _ _ _ _ _ _ _ _ Hf) as Hlen. apply bind_Ok in Hr as (n & w2 & _ & Hr).
  apply bind_Ok in Hr as (z2 & w3 & Hset & Hr). apply bind_Ok in Hr as (l & w4 & Hmap & Hr). injection Hr as <- _.
  apply mmap_length in Hmap. intros Hnil r Hin. apply not_true_iff_false. intros Hw.
  assert (Hl : list_objects (with_items z2 l) = l /\ list_objects z2 = list_objects zones).
  { unfold set_attr in Hset. apply lift_Ok in Hset. destruct zones as [| | | | | |cls f ch og]; try done.
    cbn [setattr] in Hset. destruct (negb _); [done|].
    assert (Hz2 : exists ch' og', z2 = PObj cls (aset "total_count" (PInt n) f) ch' og').
    { destruct (aget "total_count" f); injection Hset as <-; by do 2 eexists. }
    destruct Hz2 as (ch' & og' & ->). cbn [with_items list_objects]. rewrite aget_aset_eq. split; [done|].
    by rewrite aget_aset_ne. }
  destruct Hl as [Hl1 Hl2]. rewrite Hnil in Hl1. subst l. rewrite Hl2, Hlen in Hmap.
  assert (Hr : r ∈ filter (fun r => wanted ctx zones_table c true r = true) (rows_of (w_db w) zones_table)).
  { by apply list_elem_of_filter. }
  destruct (filter _ _); [by apply not_elem_of_nil in Hr|done].
Qed.

(** A pool in use is not deleted. A deletion gets as far as changing anything
    only when policy allows it, and no stored zone of any tenant is in the pool
    except those already being deleted (or deleted, unless the caller sees those);
    in every other case it raises and has changed nothing. *)
Theorem delete_pool_guarded ctx pool_id w r w' :
  delete_pool_body ctx pool_id w = (r, w') ->
  (exists e, r = Raise e /\ w' = w) \/
  (enforce "delete_pool" ctx [] = true /\
   exists elevated_context, elevated None true false ctx = Ok elevated_context /\
     (forall row, row ∈ rows_of (w_db w) zones_table ->
        wanted elevated_context zones_table [("pool_id", pool_id); ("action", PStr "!DELETE")] true row = false) /\
     delete_pool ctx pool_id w = (r, w')).
Proof.
  unfold delete_pool_body. unfold bind at 1. destruct (check_policy _ ctx [] w) as [[u|e] w1] eqn:Hp;
    apply check_policy_reads in Hp as Hw; subst w1; [|intros [= <- <-]; left; by eexists].
  unfold check_policy in Hp. apply check_Ok in Hp as [Hp _]. unfold bind at 1, lift at 1.
  destruct (elevated None true false ctx) as [ectx|e] eqn:Hel; [|intros [= <- <-]; left; by eexists].
  unfold bind at 1. destruct (zones_of_pool _ _ w) as [[zones|e] w1] eqn:Hz.
  2:{ assert (w1 = w) as ->.
      { revert Hz. unfold zones_of_pool, central_find_zones. apply reads. }
      intros [= <- <-]. left. by eexists. }
  unfold zones_of_pool, central_find_zones in Hz. apply bind_Ok in Hz as (o & w2 & Hf & Hz). injection Hz as <- <-.
  apply bind_Ok in Hf as (u' & w3 & Hp2 & Hf). apply check_policy_reads in Hp2 as ->.
  apply find_zones_rows in Hf as [-> Hnone]; [|done].
  destruct (list_objects o) as [|z zones]; [|intros [= <- <-]; left; by eexists].
  intros Hrun. right. split; [exact Hp|]. exists ectx. split_and!; [done|by apply Hnone|done].
Qed.
End Pools.

(** ** Reverse names of floating IPs *)
Section Floating.
Context `{Env} `{SqlEngine} `{Services}.
Variable dict_order : forall A, list (pyval * pyval * A) -> list (pyval * pyval * A).

Lemma record_for_spec records address r :
  record_for records address = Some r ->
  r ∈ records /\ exists v, getattr registry r "managed_extra" = Ok v /\ py_eq v address = true.
Proof.
  unfold record_for. set (l := filter _ records). intros Hlast.
  assert (Hin : r ∈ l).
  { revert Hlast. clear. induction l as [|x l IH]; [done|]. cbn [map List.last]. destruct l as [|y l]; cbn [map].
    - intros [= ->]. set_solver.
    - intros Hl. apply elem_of_cons. right. by apply IH. }
  apply list_elem_of_filter in Hin as [Hm Hin]. split; [done|].
  destruct (getattr registry r "managed_extra") as [v|]; [|done]. by exists v.
Qed.

(** A reverse name is shown to its tenant only. The floating IPs that the network
    service lists keep their place; one is paired with a record only if that is a
    managed record of a floating IP for its very address and belongs to the
    caller's tenant; and every record that is handed over for removal is one for
    the address of a listed floating IP, and is another tenant's. *)
Theorem floatingips_isolated ctx l w valid invalid w' :
  _determine_floatingips dict_order ctx l w = (Ok (valid, invalid), w') ->
  w' = w /\ exists elevated_context records,
    elevated None true true ctx = Ok elevated_context /\
    central_find_records elevated_context fip_criterion no_page w = (Ok records, w) /\
    map (fun x => (x.1, x.2.1)) valid = dict_order _ l /\
    (forall key fip record, (key, (fip, Some record)) ∈ valid ->
       record ∈ list_objects records /\
       exists address extra owner, item fip "address" = Ok address /\
         getattr registry record "managed_extra" = Ok extra /\ py_eq extra address = true /\
         getattr registry record "managed_tenant_id" = Ok owner /\ py_eq owner (tenant_val ctx) = true) /\
    (forall record, record ∈ invalid ->
       record ∈ list_objects records /\
       exists key fip address extra owner, (key, fip) ∈ dict_order _ l /\ item fip "address" = Ok address /\
         getattr registry record "managed_extra" = Ok extra /\ py_eq extra address = true /\
         getattr registry record "managed_tenant_id" = Ok owner /\ py_eq owner (tenant_val ctx) = false).
Proof.
  unfold _determine_floatingips. intros (ectx & w1 & Hel & Hr)%bind_Ok. injection Hel as Hel <-.
  apply bind_Ok in Hr as (records & w1 & Hrec & Hr). assert (w1 = w) as -> by (by eapply central_find_records_reads).
  apply bind_Ok in Hr as (found & w1 & Hfound & Hr). injection Hfound as Hfound <-. injection Hr as <- <- <-.
  split; [done|]. exists ectx, records. split_and!; [done|done|..].
  - apply rmap_Forall2 in Hfound. revert Hfound. generalize (dict_order pyval l). clear. intros l.
    induction 1 as [|x y l l' Hxy _ IH]; [done|]. cbn. rewrite IH. f_equal. revert Hxy. unfold determine_one.
    destruct x as [key fip]. cbn. destruct (item fip "address"); cbn [rbind]; [|done].
    destruct (record_for _ _) as [r|]; [|by intros [= <-]]. destruct (getattr registry r _); cbn [rbind]; [|done].
    destruct (py_eq _ _); by intros [= <-].
  - intros key fip record ([[k v] o] & Heq & Hin)%list_elem_of_fmap. cbn in Heq. injection Heq as Hk Hv; subst k v.
    apply rmap_Forall2 in Hfound. apply list_elem_of_lookup in Hin as [i Hi].
    destruct (Forall2_lookup_r _ _ _ _ _ Hfound Hi) as (x & _ & Hx). revert Hx. unfold determine_one.
    destruct (item x.2 "address") as [address|] eqn:Ha; cbn [rbind]; [|done].
    destruct (record_for _ _) as [r|] eqn:Hf; [|by intros [= _ _]]. apply record_for_spec in Hf as (Hr & extra & He & Hx2).
    destruct (getattr registry r "managed_tenant_id") as [owner|] eqn:Ho; cbn [rbind]; [|done].
    destruct (py_eq owner _) eqn:Hown; [|by intros [= _ _]]. intros [= <- <- <- <-]. split; [done|].
    by exists address, extra, owner.
  - intros record ([[k v] o] & Hin & Heq)%list_elem_of_omap. cbn in Heq. subst o.
    apply rmap_Forall2 in Hfound. apply list_elem_of_lookup in Hin as [i Hi].
    destruct (Forall2_lookup_r _ _ _ _ _ Hfound Hi) as ([key fip] & Hl & Hx). apply list_elem_of_lookup_2 in Hl.
    revert Hx. unfold determine_one. cbn [fst snd]. destruct (item fip "address") as [address|] eqn:Ha; cbn [rbind]; [|done].
    destruct (record_for _ _) as [r|] eqn:Hf; [|by intros [= _ _]]. apply record_for_spec in Hf as (Hr & extra & He & Hx2).
    destruct (getattr registry r "managed_tenant_id") as [owner|] eqn:Ho; cbn [rbind]; [|done].
    destruct (py_eq owner _) eqn:Hown; [by intros [= _ _]|]. intros [= _ _ <-]. split; [done|].
    by exists key, fip, address, extra, owner.
Qed.
End Floating.

(** ** The priorities of the views *)
Section Priorities.
Context `{Env} `{SqlLaws} `{Services}.

Definition info_rows (w : world) : list row := rows_of (w_db w) zdns_view_info_t_table.
(** What matters of a row: the identifier and the priority. *)
Definition ranked (r : row) : pyval * pyval := (cell r "id", cell r "priority").
Definition ranks (w : world) : list (pyval * pyval) := map ranked (info_rows w).
Definition plain_rank (x : pyval * pyval) : Prop :=
  exists s p, x = (PStr s, PInt p) /\ replace "-" "" s = s.
(** The views behind priority [d] move up. *)
Definition close_up (d : Z) (x : pyval * pyval) : pyval * pyval :=
  match x.2 with PInt p => (x.1, PInt (if (d <? p)%Z then p - 1 else p)) | _ => x end.

Definition is_id (s : string) (v : pyval) : bool := match v with PStr i => String.eqb i s | _ => false end.

Lemma id_selected s r : plain_rank (ranked r) -> selects (by_id (PStr s)) r = is_id s (cell r "id").
Proof.
  intros (i & p & [= Hi _] & _). unfold by_id. rewrite selects_where.
  cbn [selects select_all q_where forallb andb holds col_eq]. rewrite Hi. unfold compare_op. cbn [is_id].
  destruct (String.eqb_spec i s) as [->|Hne]; [by rewrite (proj2 (collate_str s s) eq_refl)|].
  destruct (collate (PStr i) (PStr s)) eqn:Hc; [by apply collate_str in Hc|done..].
Qed.

(** Writing one priority. *)
Definition put (s : string) (p : Z) (x : pyval * pyval) : pyval * pyval := if is_id s x.1 then (x.1, PInt p) else x.
Lemma write_priority s p w w' :
  Forall plain_rank (ranks w) -> update_zdns_view_info (PStr s) [("priority", PInt p)] w = (Ok tt, w') ->
  ranks w' = map (put s p) (ranks w).
Proof.
  intros Hplain. unfold update_zdns_view_info, update_dict, try_except. unfold bind at 1.
  destruct (execute_update _ _ _ _ w) as [[n|e] w1] eqn:Hu; apply execute_update_spec in Hu.
  2:{ unfold on, raise. by case_bool_decide. }
  destruct Hu as [_ ->]. intros [= <-]. unfold ranks, info_rows in *. cbn [w_db set_db]. rewrite rows_of_set_rows, !map_map.
  apply map_ext_in. intros r Hr%list_elem_of_In. rewrite Forall_forall in Hplain.
  rewrite id_selected by (apply Hplain, list_elem_of_fmap; by exists r). unfold put.
  change (ranked r).1 with (cell r "id"). destruct (is_id s (cell r "id")); [|done]. unfold assign. change (t_onupdate zdns_view_info_t_table) with (@nil string).
  cbn [foldl aupdate fst snd]. unfold ranked, cell. rewrite aget_aset_ne by done. by rewrite aget_aset_eq.
Qed.

(** One view of the loop. *)
Definition move_up (d : pyval) (other : pyval) : P world unit :=
  let! n := attr other "priority" in
  let! behind := lift (py_gt n d) in
  when behind (shift_priority (-1) other).
Definition info_obj (o : pyval) (s : string) (p : Z) : Prop :=
  is_obj "ZdnsViewInfo" o /\ getattr registry o "id" = Ok (PStr s) /\ getattr registry o "priority" = Ok (PInt p) /\
  replace "-" "" s = s.
Lemma move_up_one d o s p w w' :
  Forall plain_rank (ranks w) -> info_obj o s p -> (forall x, x ∈ ranks w -> x.1 = PStr s -> x.2 = PInt p) ->
  move_up (PInt d) o w = (Ok tt, w') ->
  ranks w' = map (fun x => if is_id s x.1 then close_up d x else x) (ranks w).
Proof.
  intros Hplain (Ho & Hid & Hp & Hs) Hx. unfold move_up, attr. unfold bind at 1, lift at 1. rewrite Hp.
  unfold bind at 1, lift at 1. cbn [py_gt].
  assert (Hmap : forall q, q = (if (d <? p)%Z then p - 1 else p)%Z ->
    map (put s q) (ranks w) = map (fun x => if is_id s x.1 then close_up d x else x) (ranks w)).
  { intros q ->. apply map_ext_in. intros x Hin%list_elem_of_In. unfold put, close_up.
    destruct (is_id s x.1) eqn:His; [|done]. rewrite (Hx x Hin); [done|].
    destruct (x.1); try done. cbn in His. by apply String.eqb_eq in His as ->. }
  destruct (Z.ltb_spec d p) as [Hlt|Hge]; cbn [when].
  - unfold shift_priority, attr. unfold bind at 1, lift at 1. rewrite Hp.
    destruct (setattr_field "ZdnsViewInfo" o "priority" (PInt (p + -1)) Ho eq_refl) as (o1 & Hset & Ho1 & Hf).
    unfold set_attr. unfold bind at 1, lift at 1. rewrite Hset. unfold _update_zdns_view_info_storage.
    assert (Hitem : item o1 "id" = Ok (PStr s) /\ item o1 "priority" = Ok (PInt (p + -1))).
    { assert (Hget : forall n, item o1 n = getattr registry o1 n) by (destruct Ho1 as (? & ? & ? & ->); done).
      rewrite !Hget, !(getattr_plain "ZdnsViewInfo") by done. unfold cell. rewrite Hf, aget_aset_eq, aget_aset_ne by done.
      split; [|done]. rewrite (getattr_plain "ZdnsViewInfo") in Hid by done. exact Hid. }
    destruct Hitem as [Hi1 Hi2]. unfold bind at 1, lift at 1. rewrite Hi1.
    unfold bind at 1, strip_dashes, str_of, bind at 1, ret at 1. cbn beta iota. rewrite Hs. unfold ret at 1.
    unfold bind at 1, lift at 1. rewrite Hi2. intros Hr%write_priority; [|done]. rewrite Hr. apply Hmap. lia.
  - intros [= <-]. rewrite <- (Hmap p) by done. rewrite <- (map_id (ranks w)) at 1.
    apply map_ext_in. intros x Hin%list_elem_of_In. unfold put. destruct (is_id s x.1) eqn:His; [|done].
    destruct x as [i q]. cbn in *. destruct i; try done. apply String.eqb_eq in His as ->.
    pose proof (Hx _ Hin eq_refl) as Hq. cbn in Hq. by subst q.
Qed.

Definition listed (sp : list (string * Z)) (x : pyval * pyval) : bool := existsb (fun y => is_id y.1 x.1) sp.
Lemma close_up_id d x : (close_up d x).1 = x.1.
Proof. unfold close_up. by destruct x.2. Qed.
Lemma close_up_plain d x : plain_rank x -> plain_rank (close_up d x).
Proof. intros (s & p & -> & Hs). by exists s, (if (d <? p)%Z then p - 1 else p)%Z. Qed.
Lemma is_id_spec s v : is_id s v = true <-> v = PStr s.
Proof. destruct v; cbn; try (split; congruence). rewrite String.eqb_eq. split; congruence. Qed.

Lemma move_up_all d l sp w w' :
  Forall plain_rank (ranks w) -> Forall2 (fun o y => info_obj o y.1 y.2) l sp -> NoDup sp.*1 ->
  (forall y x, y ∈ sp -> x ∈ ranks w -> x.1 = PStr y.1 -> x.2 = PInt y.2) ->
  mfor l (move_up (PInt d)) w = (Ok tt, w') ->
  ranks w' = map (fun x => if listed sp x then close_up d x else x) (ranks w).
Proof.
  intros Hplain Hl. revert w Hplain. induction Hl as [|o [s p] l sp Ho _ IH]; intros w Hplain Hnd Hx; cbn [mfor].
  { intros [= <-]. symmetry. apply map_id. }
  cbn [fst snd] in Ho. cbn in Hnd. apply NoDup_cons in Hnd as [Hs Hnd].
  intros ([] & w1 & Hone & Hrest)%bind_Ok.
  apply (move_up_one d o s p) in Hone; [|done|done|intros x Hin; apply (Hx (s, p)); set_solver].
  assert (Hkept : forall x, x ∈ ranks w1 -> exists x0, x0 ∈ ranks w /\ x = if is_id s x0.1 then close_up d x0 else x0).
  { intros x. rewrite Hone. intros (x0 & -> & Hin)%list_elem_of_fmap. by exists x0. }
  rewrite (IH w1); [| |done| |exact Hrest].
  - rewrite Hone, map_map. apply map_ext. intros x. unfold listed. cbn [existsb fst].
    destruct (is_id s x.1) eqn:His; cbn [orb]; [|done]. rewrite close_up_id. apply is_id_spec in His. rewrite His.
    destruct (existsb _ sp) eqn:Hex; [exfalso|done]. apply existsb_exists in Hex as ([s' p'] & Hin & Heq).
    cbn in Heq. apply String.eqb_eq in Heq as <-. apply Hs. apply list_elem_of_fmap. exists (s, p').
    split; [done|by apply list_elem_of_In].
  - apply Forall_forall. intros x (x0 & Hin & ->)%Hkept. rewrite Forall_forall in Hplain.
    destruct (is_id s x0.1); [apply close_up_plain|]; by apply Hplain.
  - intros y x Hy (x0 & Hin & ->)%Hkept Hid. destruct (is_id s x0.1) eqn:His; [|apply Hx; set_solver].
    rewrite close_up_id in Hid. apply is_id_spec in His. rewrite His in Hid. injection Hid as ->.
    destruct Hs. apply list_elem_of_fmap. by exists y.
Qed.

(** Closing the gap that one priority leaves keeps them consecutive. *)
Lemma close_up_consecutive d (ps qs : list Z) n :
  Permutation ps (seqZ 1 (Z.of_nat (S n))) -> Permutation ps (d :: qs) ->
  Permutation (map (fun p => if (d <? p)%Z then p - 1 else p)%Z qs) (seqZ 1 (Z.of_nat n)).
Proof.
  intros Hps Hqs.
  assert (Hnd : NoDup (d :: qs)) by (rewrite <- Hqs, Hps; apply NoDup_seqZ).
  assert (Hin : forall p, p ∈ d :: qs -> (1 <= p <= Z.of_nat (S n))%Z).
  { intros p. rewrite <- Hqs, Hps, elem_of_seqZ. lia. }
  assert (Hall : forall p, (1 <= p <= Z.of_nat (S n))%Z -> p = d \/ p ∈ qs).
  { intros p Hp. apply elem_of_cons. rewrite <- Hqs, Hps, elem_of_seqZ. lia. }
  apply NoDup_cons in Hnd as [Hd Hnd]. pose proof (Hin d ltac:(set_solver)) as Hd1.
  apply NoDup_Permutation; [|apply NoDup_seqZ|].
  - apply NoDup_fmap_2_strong; [|done]. intros x y Hx Hy Heq.
    destruct (Z.ltb_spec d x), (Z.ltb_spec d y); try lia; assert (x <> d /\ y <> d) by (split; intros ->; done); lia.
  - intros x. rewrite elem_of_seqZ, list_elem_of_fmap. split.
    + intros (q & -> & Hq). pose proof (Hin q ltac:(set_solver)). assert (q <> d) by (intros ->; done).
      destruct (Z.ltb_spec d q); lia.
    + intros Hx. destruct (Z.ltb_spec x d).
      * exists x. destruct (Hall x ltac:(lia)) as [->|Hq]; [lia|]. split; [|done]. destruct (Z.ltb_spec d x); lia.
      * exists (x + 1)%Z. destruct (Hall (x + 1)%Z ltac:(lia)) as [|Hq]; [lia|]. split; [|done].
        destruct (Z.ltb_spec d (x + 1)); lia.
Qed.

(** The objects of the loop, and the rows they stand for. *)
Lemma loaded_info r o :
  plain_rank (ranked r) -> _set_object_from_model (PObj "ZdnsViewInfo" [] [] []) (Some r) = Ok o ->
  exists s p, ranked r = (PStr s, PInt p) /\ info_obj o s p.
Proof.
  intros (s & p & Hr & Hs) Hset. exists s, p. split; [done|]. injection Hr as Hi Hp.
  apply set_object_spec in Hset as (f' & -> & Hf). split_and!; [by do 3 eexists|..|done].
  - rewrite (getattr_plain "ZdnsViewInfo") by (done || by do 3 eexists). cbn [fields_of_obj]. unfold cell in *. rewrite Hf.
    change (mem_str "id" (fields_of registry "ZdnsViewInfo").*1) with true. cbn match. destruct (aget "id" r); [by f_equal|done].
  - rewrite (getattr_plain "ZdnsViewInfo") by (done || by do 3 eexists). cbn [fields_of_obj]. unfold cell in *. rewrite Hf.
    change (mem_str "priority" (fields_of registry "ZdnsViewInfo").*1) with true. cbn match.
    destruct (aget "priority" r); [by f_equal|done].
Qed.
Lemma found_infos ctx w o w' :
  Forall plain_rank (ranks w) -> find_zdns_view_infos ctx w = (Ok o, w') ->
  w' = w /\ exists sp, Forall2 (fun x y => info_obj x y.1 y.2) (list_objects o) sp /\
    Permutation (map (fun y => (PStr y.1, PInt y.2)) sp) (ranks w).
Proof.
  intros Hplain Hrun. split; [by eapply _find_reads|]. revert Hrun. unfold find_zdns_view_infos, _find.
  intros (q & w1 & Hq & Hr)%bind_Ok. assert (w1 = w) as -> by (by injection Hq). apply lift_Ok in Hq.
  apply find_query_spec in Hq as (_ & Hl & Hs). apply bind_Ok in Hr as (m & w1 & Hm & Hr). injection Hm as <- <-.
  apply bind_Ok in Hr as (q' & w1 & Hp & Hr). assert (w1 = w) as -> by (by injection Hp). apply lift_Ok in Hp.
  apply bind_Ok in Hr as (rows & w1 & Hsel & Hr). injection Hr as Hset _. revert Hset. unfold _set_listobject_from_models.
  destruct (rmap _ rows) as [l|] eqn:Hmap; cbn [rbind]; [|done]. intros [= <-].
  change (list_objects (PObj "ZdnsViewInfoList" [("objects", PList l)] [] [])) with l.
  unfold execute_select, bind, gets, ret in Hsel. injection Hsel as <- _.
  assert (Hq' : q_where q' = q_where q /\ q_limit q' = None).
  { revert Hp. unfold paginate_query. cbn [p_limit].
    destruct (sort_query _ q _ _) as [q2|] eqn:Hsort; cbn [rbind mapped_errors]; [|done]. intros [= <-].
    apply sort_query_plain in Hsort. by rewrite Hl in Hsort. }
  destruct Hq' as [Hwh Hlim].
  assert (Hperm : Permutation (run q' (info_rows w)) (info_rows w)).
  { unfold run. rewrite Hlim. rewrite order_rows_perm. rewrite (filter_ext_bool _ (fun _ => true)).
    - clear. induction (info_rows w) as [|r l IH]; [done|]. rewrite filter_cons, decide_True by done. by constructor.
    - intros r. assert (Hsel : selects q' r = selects q r) by (unfold selects; by rewrite Hwh). rewrite Hsel, Hs. reflexivity. }
  assert (Hrows : Forall (fun r => plain_rank (ranked r)) (run q' (info_rows w))).
  { rewrite Hperm. apply Forall_forall. intros r Hin. rewrite Forall_forall in Hplain. apply Hplain, list_elem_of_fmap. by exists r. }
  assert (Hsp : exists sp, Forall2 (fun x y => info_obj x y.1 y.2) l sp /\
                  map (fun y => (PStr y.1, PInt y.2)) sp = map ranked (run q' (info_rows w))).
  { revert Hrows l Hmap. change (rows_of (w_db w) zdns_view_info_t_table) with (info_rows w). generalize (run q' (info_rows w)). clear.
    intros rows. induction 1 as [|r rows Hr _ IH]; intros l; cbn [rmap]; [intros [= <-]; by exists []|].
    destruct (_set_object_from_model _ (Some r)) as [x|] eqn:Hx; cbn [rbind]; [|done].
    destruct (rmap _ rows) as [xs|]; cbn [rbind]; [|done]. intros [= <-]. destruct (IH xs eq_refl) as (sp & Hf & Heq).
    destruct (loaded_info r x Hr Hx) as (s & p & Hrk & Hinfo). exists ((s, p) :: sp). split; [by constructor|].
    cbn. by rewrite Heq, Hrk. }
  destruct Hsp as (sp & Hf & Heq). exists sp. split; [done|]. rewrite Heq. unfold ranks. by rewrite Hperm.
Qed.

(** One row of a table, by the value of a column. *)
Lemma find_row_spec t c v w r w' :
  _find_zdns_view t c v w = (Ok r, w') ->
  w' = w /\ r ∈ rows_of (w_db w) t /\ selects (where_ select_all (col_eq c v)) r = true.
Proof.
  unfold _find_zdns_view, _find_asso. intros (o & w1 & Ho & Hr)%bind_Ok.
  apply bind_Ok in Ho as (q & w2 & Hq & Ho). assert (w2 = w) as -> by (by injection Hq). apply lift_Ok in Hq.
  apply bind_Ok in Ho as (rows & w3 & Hs & Ho). injection Ho as <- <-.
  unfold execute_select, bind, gets, ret in Hs. injection Hs as Hs <-.
  set (q0 := where_ select_all (col_eq c v)) in *. cbn [paginate_query sort_query rbind] in Hq.
  destruct rows as [|x l]; [done|]. injection Hr as -> <-. split; [done|].
  assert (Hin : r ∈ run q (rows_of (w_db w) t)) by (rewrite Hs; set_solver). injection Hq as <-.
  unfold run in Hin. cbn [q_limit] in Hin. apply elem_of_take in Hin as (k & Hk & _). apply list_elem_of_lookup_2 in Hk.
  rewrite order_rows_perm in Hk. apply list_elem_of_filter in Hk as [Hsel Hin]. by split.
Qed.
Lemma delete_where_rows t c v w w' :
  delete_where t c v w = (Ok tt, w') ->
  w_db w' = set_rows t (filter (fun r => selects (where_ select_all (col_eq c v)) r = false) (rows_of (w_db w) t)) (w_db w).
Proof. unfold delete_where, execute_delete, bind, gets, modify, ret. by intros [= <-]. Qed.

(** The row of a view, and what its deletion leaves. *)
Lemma deleted_info s w w' :
  Forall plain_rank (ranks w) -> delete_zdns_view_info (PStr s) w = (Ok tt, w') ->
  ranks w' = filter (fun x => is_id s x.1 = false) (ranks w).
Proof.
  intros Hplain Hdel%delete_where_rows. unfold ranks, info_rows in *. rewrite Hdel, rows_of_set_rows.
  change (where_ select_all (col_eq "id" (PStr s))) with (by_id (PStr s)).
  revert Hplain. generalize (rows_of (w_db w) zdns_view_info_t_table). clear Hdel. intros rows.
  induction rows as [|r rows IH]; intros Hplain; [done|]. cbn [map] in Hplain. apply Forall_cons in Hplain as [Hr Hplain].
  cbn [map]. rewrite !filter_cons. specialize (IH Hplain). pose proof (id_selected s r Hr) as Hsel.
  change (ranked r).1 with (cell r "id"). rewrite Hsel.
  case_decide; cbn [map]; by rewrite IH.
Qed.

(** The priorities alone. *)
Definition priorities (l : list (pyval * pyval)) : list Z :=
  omap (fun x => match x.2 with PInt p => Some p | _ => None end) l.
Lemma priorities_close_up d l :
  priorities (map (close_up d) l) = map (fun p => if (d <? p)%Z then p - 1 else p)%Z (priorities l).
Proof.
  induction l as [|[i p] l IH]; [done|]. unfold priorities in *. cbn [map omap list_omap]. rewrite IH.
  unfold close_up. cbn. by destruct p.
Qed.
Lemma take_out s v (l : list (pyval * pyval)) :
  NoDup l.*1 -> (PStr s, v) ∈ l -> Permutation l ((PStr s, v) :: filter (fun x => is_id s x.1 = false) l).
Proof.
  induction l as [|x l IH]; intros Hnd Hin; [by apply not_elem_of_nil in Hin|].
  cbn in Hnd. apply NoDup_cons in Hnd as [Hx Hnd]. rewrite filter_cons. apply elem_of_cons in Hin as [<- | Hin].
  - rewrite decide_False by (cbn; by rewrite String.eqb_refl). f_equiv. clear IH Hnd.
    induction l as [|y l IH]; [done|]. cbn in Hx. rewrite filter_cons, decide_True; [f_equiv; apply IH; set_solver|].
    apply not_true_iff_false. intros Hy%is_id_spec. apply Hx. rewrite Hy. set_solver.
  - rewrite decide_True; [rewrite (IH Hnd Hin) at 1; by constructor|].
    apply not_true_iff_false. intros Hy%is_id_spec. apply Hx. rewrite Hy. apply list_elem_of_fmap. by exists (PStr s, v).
Qed.

(** C12: the views of a tenant stay consecutively ranked. When the information of a
    view is deleted, its row goes, every row behind it moves up by one, the rows
    before it keep their priority, and no other row changes; so priorities that were
    1 to n+1 are 1 to n afterwards. *)
Theorem view_priorities_close_up ctx view w w' n :
  Forall plain_rank (ranks w) -> NoDup (ranks w).*1 ->
  (forall r, r ∈ rows_of (w_db w) view_zdns_view_associations_table -> exists s, cell r "zdns_view_id" = PStr s) ->
  Permutation (priorities (ranks w)) (seqZ 1 (Z.of_nat (S n))) ->
  _delete_zdns_view_info ctx view w = (Ok tt, w') ->
  Permutation (priorities (ranks w')) (seqZ 1 (Z.of_nat n)) /\
  exists gone d, (PStr gone, PInt d) ∈ ranks w /\
    ranks w' = map (close_up d) (filter (fun x => is_id gone x.1 = false) (ranks w)).
Proof.
  intros Hplain Hnd Hasso Hps. unfold _delete_zdns_view_info. intros (asso & w1 & Ha & Hr)%bind_Ok.
  unfold find_view_zdns_view in Ha. apply bind_Ok in Ha as (id & w0 & Hid & Ha). injection Hid as _ <-.
  apply find_row_spec in Ha as (-> & Hin & _). destruct (Hasso _ Hin) as [s Hs]. rewrite Hs in Hr.
  apply bind_Ok in Hr as ([] & w1 & Hd1 & Hr). unfold delete_view_zdns_view in Hd1.
  apply bind_Ok in Hd1 as (id' & w0 & Hid & Hd1). injection Hid as _ <-. apply delete_where_rows in Hd1.
  assert (Hsame : ranks w1 = ranks w).
  { unfold ranks, info_rows. rewrite Hd1. unfold rows_of, set_rows. by rewrite aget_aset_ne. }
  rewrite <- Hsame in Hplain, Hnd, Hps |- *. clear Hd1 Hsame Hasso Hin.
  apply bind_Ok in Hr as (info & w2 & Hi & Hr). apply find_row_spec in Hi as (-> & Hin & Hsel).
  assert (Hinfo : ranked info ∈ ranks w1) by (apply list_elem_of_fmap; by exists info).
  assert (Hrank : plain_rank (ranked info)) by (rewrite Forall_forall in Hplain; by apply Hplain).
  change (where_ _ _) with (by_id (PStr s)) in Hsel. rewrite id_selected in Hsel by done. apply is_id_spec in Hsel.
  destruct Hrank as (i & d & Hrank & _). unfold ranked in Hinfo, Hrank. injection Hrank as Hi Hd.
  rewrite Hsel, Hd in *. injection Hi as <-. clear Hin Hsel.
  apply bind_Ok in Hr as ([] & w2 & Hdel & Hr). apply deleted_info in Hdel; [|done].
  pose proof (take_out s (PInt d) _ Hnd Hinfo) as Hperm. rewrite <- Hdel in Hperm.
  apply bind_Ok in Hr as (o & w3 & Hf & Hr). rewrite Hperm in Hplain, Hnd. apply Forall_cons in Hplain as [_ Hplain].
  cbn in Hnd. apply NoDup_cons in Hnd as [_ Hnd].
  apply found_infos in Hf as (-> & sp & Hsp & Hpsp); [|done].
  assert (Hall : ranks w' = map (close_up d) (ranks w2)).
  { rewrite (move_up_all d (list_objects o) sp w2 w'); [|done|exact Hsp| | |exact Hr].
    - apply map_ext_in. intros x Hx%list_elem_of_In. rewrite <- Hpsp in Hx. apply list_elem_of_fmap in Hx as (y & -> & Hy).
      assert (Hl : listed sp (PStr y.1, PInt y.2) = true); [|by rewrite Hl].
      apply existsb_exists. exists y. split; [by apply list_elem_of_In|]. apply String.eqb_refl.
    - rewrite <- Hpsp in Hnd. rewrite <- list_fmap_compose in Hnd. apply (NoDup_fmap_1 PStr).
      by rewrite <- list_fmap_compose.
    - intros y x Hy Hx Hxy. assert (Hyin : (PStr y.1, PInt y.2) ∈ ranks w2).
      { rewrite <- Hpsp. apply list_elem_of_fmap. by exists y. }
      apply list_elem_of_lookup in Hyin as [j Hj]. apply list_elem_of_lookup in Hx as [k Hk].
      assert (k = j) as ->.
      { apply (NoDup_lookup _ _ _ (PStr y.1) Hnd); rewrite list_lookup_fmap; [by rewrite Hk; cbn; f_equal|by rewrite Hj]. }
      rewrite Hj in Hk. by injection Hk as <-. }
  split; [|exists s, d; by rewrite <- Hdel].
  rewrite Hall, priorities_close_up. eapply close_up_consecutive; [exact Hps|].
  unfold priorities. rewrite Hperm. reflexivity.
Qed.
End Priorities.

(** ** At concrete databases *)
#[local] Existing Instances ref_env ref_engine ref_laws willing_worker.

Definition import_task : pyval :=
  PObj "ZoneImport" [("id", PStr "i1"); ("tenant_id", PStr "t1"); ("status", PStr "PENDING"); ("task_type", PStr "IMPORT")] [] [].
Definition importing_db : db :=
  app creating_db
    [("zone_tasks", [[("id", PStr "i1"); ("version", PInt 1); ("created_at", PInt 1); ("updated_at", PNone);
                      ("tenant_id", PStr "t1"); ("status", PStr "PENDING"); ("task_type", PStr "IMPORT")]])].
Definition zone_file : dns_zone := {|
  origin := "c.b.";
  soa := Some {| soa_ttl := 5; rname := "x.c.b."; soa_serial := 4; soa_retry := 4; soa_expire := 5 |};
  nodes := [("c.b.", [{| rd_type := "SOA"; rd_ttl := 4; rd_data := ["s"] |}]);
            ("w.c.b.", [{| rd_type := "A"; rd_ttl := 4; rd_data := ["1.1.1.1"] |}])];
|}%Z.

Lemma import_never_completes_witness :
  let run := _import_zone default_payloads (fun _ => Parsed zone_file) (fun _ => "") (fun _ => None) (fun _ => 0%nat)
               [FallbackFilter] ref_context import_task "file" (ref_world importing_db) in
  is_Ok run.1 = true /\
  exists task', getattr registry task' "status" = Ok (PStr "ERROR") /\ exists v, w_db v = importing_db /\
    update_zone_import default_payloads ref_context task' v = run.
Proof.
  cbv zeta. set (run := _import_zone _ _ _ _ _ _ _ _ _ _).
  assert (Hok : is_Ok run.1 = true) by (vm_compute; reflexivity). split; [exact Hok|].
  destruct (import_never_completes default_payloads (fun _ => Parsed zone_file) (fun _ => "") (fun _ => None)
    (fun _ => 0%nat) [FallbackFilter] ref_context import_task "file" (ref_world importing_db) run.1 run.2)
    as [(e & He & _)|(task' & v & Hst & Hdb & Hrun)].
  - do 3 eexists; reflexivity.
  - apply surjective_pairing.
  - rewrite He in Hok. discriminate Hok.
  - exists task'. split; [exact Hst|]. exists v. split; [exact Hdb|]. rewrite Hrun. symmetry. apply surjective_pairing.
Defined.

Lemma delete_pool_guarded_witness :
  let run := delete_pool_body ref_context (PStr "p1") (ref_world zones_db) in
  exists e, run.1 = Raise e /\ run.2 = ref_world zones_db.
Proof.
  cbv zeta. set (run := delete_pool_body _ _ _).
  destruct (delete_pool_guarded ref_context (PStr "p1") (ref_world zones_db) run.1 run.2 (surjective_pairing run))
    as [H|(_ & ectx & Hel & Hnone & _)]; [exact H|exfalso].
  vm_compute in Hel. injection Hel as <-.
  specialize (Hnone (zone_row "z1" "t1" "b.org." PNone) ltac:(apply elem_of_cons; left; reflexivity)).
  vm_compute in Hnone. discriminate Hnone.
Defined.

(** Two floating IPs of the caller; a record of each address, one of them another tenant's. *)
Definition fip_record (id tenant address : string) : row :=
  app [("managed_resource_type", PStr "ptr:floatingip"); ("managed_extra", PStr address);
       ("managed_tenant_id", PStr tenant)]
    (aset "managed" (PBool true) (record_row id "r1" "z1" "host.")).
Definition fip_db : db := app zones_db [("records", [fip_record "a1" "t1" "10.0.0.1"; fip_record "a2" "t2" "10.0.0.2"])].
Definition fip (address : string) : pyval * pyval * pyval :=
  ((PStr "region", PStr address), PDict [("address", PStr address)]).

Lemma floatingips_isolated_witness :
  let run := _determine_floatingips (fun _ l => l) ref_context [fip "10.0.0.1"; fip "10.0.0.2"] (ref_world fip_db) in
  exists mine theirs fip1 fip2 k1 k2, run.1 = Ok ([(k1, (fip1, Some mine)); (k2, (fip2, None))], [theirs]) /\
    (exists owner, getattr registry mine "managed_tenant_id" = Ok owner /\ py_eq owner (PStr "t1") = true) /\
    (exists owner, getattr registry theirs "managed_tenant_id" = Ok owner /\ py_eq owner (PStr "t1") = false).
Proof.
  cbv zeta. set (run := _determine_floatingips _ _ _ _).
  assert (Hrun : exists mine theirs fip1 fip2 k1 k2,
    run = (Ok ([(k1, (fip1, Some mine)); (k2, (fip2, None))], [theirs]), run.2)).
  { do 6 eexists. vm_compute. reflexivity. }
  destruct Hrun as (mine & theirs & fip1 & fip2 & k1 & k2 & Hrun).
  destruct (floatingips_isolated (fun _ l => l) ref_context _ _ _ _ _ Hrun)
    as (_ & ectx & records & _ & _ & _ & Hmine & Htheirs).
  exists mine, theirs, fip1, fip2, k1, k2. split; [by rewrite Hrun|]. split.
  - destruct (Hmine k1 fip1 mine ltac:(apply elem_of_cons; left; reflexivity)) as (_ & _ & _ & owner & _ & _ & _ & Ho & Heq).
    exists owner. split; [exact Ho|exact Heq].
  - destruct (Htheirs theirs ltac:(apply elem_of_cons; left; reflexivity)) as (_ & _ & _ & _ & _ & owner & _ & _ & _ & _ & Ho & Heq).
    exists owner. split; [exact Ho|exact Heq].
Defined.

(** Three views; the second is deleted. *)
Definition info_row (id : string) (priority : Z) : row := [("id", PStr id); ("name", PStr id); ("priority", PInt priority)].
Definition views_db : db :=
  [("zdns_view_info_t", [info_row "i1" 1; info_row "i2" 2; info_row "i3" 3]);
   ("view_zdns_view_associations", [[("id", PStr "s1"); ("view_id", PStr "v2"); ("zdns_view_id", PStr "i2")]])].
Definition second_view : pyval := PObj "View" [("id", PStr "v2"); ("name", PStr "v2")] [] [].

Lemma view_priorities_close_up_witness :
  let run := _delete_zdns_view_info ref_context second_view (ref_world views_db) in
  run.1 = Ok tt /\ ranks run.2 = [(PStr "i1", PInt 1); (PStr "i3", PInt 2)] /\
  Permutation (priorities (ranks run.2)) [1; 2]%Z.
Proof.
  cbv zeta. set (run := _delete_zdns_view_info _ _ _).
  assert (Hrun : run = (Ok tt, run.2)) by (vm_compute; reflexivity).
  split; [by rewrite Hrun|]. split; [vm_compute; reflexivity|].
  refine (proj1 (view_priorities_close_up ref_context second_view (ref_world views_db) run.2 2 _ _ _ _ Hrun)).
  - repeat constructor; by do 2 eexists.
  - vm_compute. repeat constructor; set_solver.
  - intros r Hr. change (r ∈ [[("id", PStr "s1"); ("view_id", PStr "v2"); ("zdns_view_id", PStr "i2")]]) in Hr.
    elem_cases Hr. by exists "i2".
  - vm_compute. reflexivity.
Defined.
