(* ===== verification/Mdns.v ===== *)
(** * MiniDNS (designate/mdns/handler.py, notify.py, xfr.py)

    The DNS server inside Designate: it answers the name servers' queries and zone
    transfers from storage, takes NOTIFYs from the masters of secondary zones, and
    asks name servers which serial of a zone they serve. dnspython, which builds
    resource records and renders messages, is the class [Dnspython]; a handler is a
    generator, so its run is the list of what it yields and how it ends. *)
From Stdlib Require Import ZArith Lia Ascii String.
From stdpp Require Import base option numbers strings sets list.
From S2P Require Import Prelude PyStr Exceptions Values Objects Classes World Sql Storage StorageZdns Dnsutils.
Local Open Scope string_scope.

Inductive opcode := QUERY | NOTIFY | OtherOpcode.
Inductive rcode := NOERROR | FORMERR | SERVFAIL | NXDOMAIN | REFUSED | NOTAUTH | OtherRcode.
#[global] Instance rcode_eq_dec : EqDecision rcode.
Proof. solve_decision. Defined.

Record question := { q_name : string; q_rdclass : string; q_rdtype : string }.
(** A decoded request with its environ. *)
Record request := {
  r_opcode : opcode;
  r_question : list question;
  had_tsig : bool;
  e_context : context;
  e_addr : string;
  e_tsigkey : option pyval;
}.

(** What dnspython does: [dns.rrset.from_text_list], whether a message with a
    question section and an answer section keeps within a size, and the serial in
    the answer of [resolver.query(name, 'SOA')] at an address. *)
Class Dnspython := {
  rrset : Type;
  from_text_list : string -> pyval -> string -> list string -> R rrset;
  fits : Z -> list question -> list rrset -> bool;
  query_soa : string -> string -> R Z;
}.

(** A response is a message or a rendered packet of a transfer, whose flags are
    those of an authoritative answer. *)
Inductive response `{Dnspython} :=
| Message (code : rcode) (authoritative : bool) (answer : list rrset)
| Packet (answer : list rrset).

(** What a handler does before it ends: it yields responses and starts threads that
    synchronise a zone with a master. The exception is the one it ends with. *)
Inductive event `{Dnspython} :=
| Yield (r : response)
| ZoneSync (ctx : context) (zone master : pyval).
Abbreviation outcome := (list event * option exc)%type.

Section Handler.
Context `{Env} `{SqlEngine} `{Services} `{Dnspython}.

Definition _handle_query_error (code : rcode) : response := Message code false [].
Definition refuse : P world outcome := ret ([Yield (_handle_query_error REFUSED)], None).
Definition conf_bool (o : string) : bool := negb (conf_int o =? 0)%Z.

(** [_zone_criterion_from_request] *)
Definition _zone_criterion_from_request (request : request) (criterion : list (string * pyval)) :
    R (list (string * pyval)) :=
  match e_tsigkey request with
  | None =>
      if conf_bool "service:mdns.query_enforce_tsig" then Raise (Forbidden F_Base)
      else Ok (aset "pool_id" (PStr (conf_str "service:central.default_pool_id")) criterion)
  | Some tsigkey =>
      let? scope := getattr registry tsigkey "scope" in
      let? resource_id := getattr registry tsigkey "resource_id" in
      if py_eq scope (PStr "POOL") then Ok (aset "pool_id" resource_id criterion)
      else if py_eq scope (PStr "ZONE") then Ok (aset "id" resource_id criterion)
      else Raise (Py PyNotImplementedError)
  end.

(** The handlers of NotFound (or of one kind of it) and of Forbidden, which refuse. *)
Definition or_refused {A} (not_found : exc -> bool) (m : P world A) (k : A -> P world outcome) : P world outcome :=
  let! found := try_except (let! x := m in ret (Some x))
    (fun e => match e with
              | Forbidden _ => Some (ret None)
              | _ => if not_found e then Some (ret None) else None
              end) in
  match found with Some x => k x | None => refuse end.
Definition any_not_found (e : exc) : bool := match e with NotFound _ => true | _ => false end.
Definition zone_not_found (e : exc) : bool := match e with NotFound ZoneNotFound => true | _ => false end.
Definition zone_of_request (request : request) (criterion : list (string * pyval)) : P world pyval :=
  let! criterion := lift (_zone_criterion_from_request request criterion) in
  find_zone (e_context request) criterion.

(** [_convert_to_rrset] *)
Definition live_data (records : list pyval) : R (list string) :=
  let? l := rmap (fun record =>
    let? action := getattr registry record "action" in
    if py_eq action (PStr "DELETE") then Ok []
    else let? data := getattr registry record "data" in Ok [text data]) records in
  Ok (concat l).
Definition _convert_to_rrset (zone recordset : pyval) : R (option rrset) :=
  let? own := getattr registry recordset "ttl" in
  let? ttl := (if truthy own then Ok own else getattr registry zone "ttl") in
  let? records := getattr registry recordset "records" in
  let? rdata := live_data (list_objects records) in
  match rdata with
  | [] => Ok None
  | _ =>
      let? name := getattr registry recordset "name" in
      let? type := getattr registry recordset "type" in
      let? r := from_text_list (text name) ttl (text type) rdata in Ok (Some r)
  end.

(** [_handle_record_query] *)
Definition _handle_record_query (request : request) (q_rrset : question) : P world outcome :=
  or_refused any_not_found
    (find_recordset (e_context request)
       [("name", PStr (q_name q_rrset)); ("type", PStr (q_rdtype q_rrset)); ("zones_deleted", PBool false)])
    (fun recordset =>
       or_refused zone_not_found
         (let! zone_id := attr recordset "zone_id" in zone_of_request request [("id", zone_id)])
         (fun zone =>
            let! r_rrset := lift (_convert_to_rrset zone recordset) in
            let answer := match r_rrset with Some r => [r] | None => [] end in
            ret ([Yield (Message NOERROR true answer)], None))).

(** ** Zone transfers *)

(** A row of [find_recordsets_axfr]: id, type, ttl, name, data, action. *)
Definition rrset_of_row (zone : pyval) (record : list pyval) : R rrset :=
  match record with
  | [_; type; ttl; name; data; _] =>
      let? ttl := (match ttl with
                   | PNone => getattr registry zone "ttl"
                   | v => let? n := Utils.int_of_val v in Ok (PInt n)
                   end) in
      from_text_list (text name) ttl (text type) [text data]
  | _ => Raise (Py PyIndexError)
  end.
(** The loop over the records. A renderer is the list of the RRSets it holds;
    [add_rrset] leaves it as it was when it raises TooBig. Adding the question
    raises outside the [try]. *)
Fixpoint axfr_loop (fuel : nat) (zone : pyval) (max_size : Z) (questions : list question)
    (records : list (list pyval)) (renderer : option (list rrset)) : outcome :=
  match fuel with
  | O => ([], Some (Py Blocked))
  | S fuel =>
      match records with
      | [] => (match renderer with Some held => [Yield (Packet held)] | None => [] end, None)
      | record :: rest =>
          let held := default [] renderer in
          if negb (match renderer with Some _ => true | None => fits max_size questions [] end)
          then ([], Some (Py PyException))
          else match rrset_of_row zone record with
               | Raise e => ([], Some e)
               | Ok r =>
                   if fits max_size questions (app held [r])
                   then axfr_loop fuel zone max_size questions rest (Some (app held [r]))
                   else match held with
                        | [] => ([Yield (_handle_query_error SERVFAIL)], None)
                        | _ => let '(events, e) := axfr_loop fuel zone max_size questions records None in
                               (Yield (Packet held) :: events, e)
                        end
               end
      end
  end.
(** Every record is tried at most twice. *)
Definition axfr_fuel (records : list (list pyval)) : nat := S (2 * length records).

Definition TSIG_RRSIZE : Z := 10 + 64 + 160 + 1.
Definition max_message_size (request : request) : Z :=
  let size := Z.min (conf_int "service:mdns.max_message_size") 65535 in
  if had_tsig request then (size - TSIG_RRSIZE)%Z else size.

(** [_handle_axfr]: the SOA comes first and last. *)
Definition _handle_axfr (request : request) (q_rrset : question) : P world outcome :=
  or_refused zone_not_found (zone_of_request request [("name", PStr (q_name q_rrset))])
    (fun zone =>
       let! zone_id := attr zone "id" in
       let! soa_records := find_recordsets_axfr (e_context request) [("zone_id", zone_id); ("type", PStr "SOA")] in
       let! records := find_recordsets_axfr (e_context request) [("zone_id", zone_id); ("type", PStr "!SOA")] in
       match soa_records with
       | [] => raise (Py PyIndexError)
       | soa :: _ =>
           let records := app (soa :: records) [soa] in
           ret (axfr_loop (axfr_fuel records) zone (max_message_size request) (r_question request) records None)
       end).

(** ** NOTIFY *)

(** [_handle_notify] *)
Definition _handle_notify (request : request) : P world outcome :=
  let answer code aa := [Yield (Message code aa [])] in
  match r_question request with
  | [question] =>
      let! found := try_except
        (let! zone := find_zone (e_context request)
           [("name", PStr (q_name question)); ("type", PStr "SECONDARY"); ("deleted", PBool false)] in ret (Some zone))
        (fun e => if zone_not_found e then Some (ret None) else None) in
      match found with
      | None => ret (answer NOTAUTH false, None)
      | Some zone =>
          let! master := lift (get_master_by_ip zone (e_addr request)) in
          match master with
          | None => ret (answer REFUSED false, None)
          | Some master =>
              let! name := attr zone "name" in
              let! soa_serial := lift (query_soa (e_addr request) (text name)) in
              let! serial := attr zone "serial" in
              let threads := if py_eq (PInt soa_serial) serial then [] else [ZoneSync (e_context request) zone master] in
              ret (app threads (answer NOERROR true), None)
          end
      end
  | _ => ret (answer FORMERR false, None)
  end.

(** [__call__] *)
Definition handle (request : request) : P world outcome :=
  match r_opcode request with
  | QUERY =>
      match r_question request with
      | [q_rrset] =>
          if negb (String.eqb (q_rdclass q_rrset) "IN") then refuse
          else if mem_str (q_rdtype q_rrset) ["AXFR"; "IXFR"] then _handle_axfr request q_rrset
          else _handle_record_query request q_rrset
      | _ => refuse
      end
  | NOTIFY => _handle_notify request
  | OtherOpcode => refuse
  end.

(** ** The middleware around the handler (dnsutils.py) *)

(** [TsigKeyring.get], with the decoding of base64 *)
Variable base64_decode : string -> R string.
Definition keyring_get (ctx : context) (key : string) (default : option string) : P world (option string) :=
  try_except
    (let! tsigkey := find_one tsigkey_methods ctx [("name", PStr key)] in
     let! secret := attr tsigkey "secret" in
     let! secret := lift (base64_decode (text secret)) in ret (Some secret))
    (fun e => match e with NotFound TsigKeyNotFound => Some (ret default) | _ => None end).

(** [TsigInfoMiddleware]: it attaches the key of a signed request. When the key is
    gone it returns a message where the caller iterates over responses, and a
    message of dnspython is not iterable. *)
Definition with_tsigkey (tsigkey : pyval) (id : string) (r : request) : request :=
  let c := e_context r in
  {| r_opcode := r_opcode r; r_question := r_question r; had_tsig := had_tsig r;
     e_context := {| tenant := tenant c; user := user c; is_admin := is_admin c; roles := roles c;
                     original_tenant := original_tenant c; all_tenants := all_tenants c; abandon := abandon c;
                     edit_managed_records := edit_managed_records c; hide_counts := hide_counts c;
                     show_deleted := show_deleted c; tsigkey_id := Some id |};
     e_addr := e_addr r; e_tsigkey := Some tsigkey |}.
Definition tsig_info (keyname : string) (request : request) : P world outcome :=
  if negb (had_tsig request) then handle request
  else
    let! found := try_except
      (let! k := find_one tsigkey_methods (e_context request) [("name", PStr keyname)] in ret (Some k))
      (fun e => match e with NotFound TsigKeyNotFound => Some (ret None) | _ => None end) in
    match found with
    | Some tsigkey => let! id := attr tsigkey "id" in handle (with_tsigkey tsigkey (text id) request)
    | None => raise (Py PyTypeError)
    end.
(** What [dns.message.from_wire] makes of a payload: the request, with the name of
    the key that signed it, or no request, whatever the reason. *)
Definition decoded : Type := option (opcode * list question * option string).
(** [SerializationMiddleware]: every response is put on the wire; the error response
    to a payload it can not decode is built and not yielded. *)
Definition dns_application (payload : decoded) (addr : string) : P world outcome :=
  let! ctxt := lift (get_admin_context true) in
  match payload with
  | None => ret ([], None)
  | Some (opcode, questions, key) =>
      tsig_info (default "" key)
        {| r_opcode := opcode; r_question := questions; had_tsig := match key with Some _ => true | None => false end;
           e_context := ctxt; e_addr := addr; e_tsigkey := None |}
  end.
End Handler.

(** ** Transfers from the masters (xfr.py) *)
Section Xfr.
Context `{Env} `{Services}.
Variable shuffle : list pyval -> list pyval.
Variable ask : string -> pyval -> axfr_answer.

(** [zone_sync]. [servers] is a Python list, which has no method [to_list], or None,
    when the masters of the zone are taken. *)
Definition servers_of (zone : pyval) (servers : option (list pyval)) : P world (list pyval) :=
  match servers with
  | Some (_ :: _) => raise (Py PyAttributeError)
  | _ =>
      let! masters := attr zone "masters" in
      match to_dict registry masters with PList l => ret l | _ => raise (Py PyAttributeError) end
  end.
Definition zone_sync (ctx : context) (zone : pyval) (servers : option (list pyval)) : P world unit :=
  let! servers := servers_of zone servers in
  let! name := attr zone "name" in
  let! transferred := try_except (let! z := lift (do_axfr (ask (text name)) (shuffle servers)) in ret (Some z))
                        (on XFRFailure (ret None)) in
  match transferred with
  | None => ret tt
  | Some dnspython_zone =>
      let! new := lift (from_dnspython_zone dnspython_zone) in
      let! zone := lift (update registry zone (items registry new)) in
      let! now := utcnow in
      let! zone := set_attr zone "transferred_at" (PInt now) in
      call "central" "update_zone" [zone; PBool false] ;;; ret tt
  end.
Definition perform_zone_xfr (ctx : context) (zone : pyval) : P world unit := zone_sync ctx zone None.
(** The threads that a handler starts. *)
Definition run_thread `{Dnspython} (e : event) : P world unit :=
  match e with
  | ZoneSync ctx zone master => zone_sync ctx zone (Some [master])
  | Yield _ => ret tt
  end.
End Xfr.

(** ** Asking name servers for a serial (notify.py) *)

(** An RRSet of an answer: name, class, type, and the serials of its items. *)
Record answer_rrset := { a_name : string; a_rdclass : string; a_rdtype : string; a_serials : list Z }.
Record dns_reply := { reply_code : rcode; reply_aa : bool; reply_answer : list answer_rrset }.

Section Notify.
(** What the n-th message that is sent comes to. *)
Variable net : nat -> R dns_reply.
(** The name, the serial and the action of the zone. *)
Variables (zone_name zone_action : string) (zone_serial : Z).

(** The loop of [_make_and_send_dns_message]; the state counts the messages. *)
Fixpoint send_loop (tries : nat) (retry : Z) : P nat (option dns_reply * Z) :=
  match tries with
  | O => ret (None, retry)
  | S tries =>
      let! n := gets id in
      modify S ;;;
      match net n with
      | Ok response => ret (Some response, retry + 1)%Z
      | Raise (Py SocketEAGAIN) | Raise (Py DnsTimeout) => send_loop tries (retry + 1)
      | Raise (Py DnsBadResponse) => ret (None, retry + 1)%Z
      | Raise e => raise e
      end
  end.
Definition zone_missing (r : dns_reply) : bool :=
  bool_decide (reply_code r ∈ [NXDOMAIN; REFUSED; SERVFAIL])
  || (bool_decide (reply_code r = NOERROR) && match reply_answer r with [] => true | _ => false end).
(** A reply that is not authoritative, or an error, counts as none. *)
Definition usable (r : dns_reply) : bool :=
  zone_missing r || (reply_aa r && bool_decide (reply_code r = NOERROR)).
Definition _make_and_send_dns_message (max_retries : Z) : P nat (option dns_reply * Z) :=
  let! ' (response, retry) := send_loop (Z.to_nat max_retries) 0 in
  ret (match response with Some r => if usable r then Some r else None | None => None end, retry).

(** One reply, in [get_serial_number]: whether it says that there is no zone, and
    the serial it gives. *)
Definition says_no_zone (r : dns_reply) : bool :=
  bool_decide (reply_code r ∈ [NXDOMAIN; REFUSED; SERVFAIL])
  || match reply_answer r with [] => true | _ => false end.
Definition serial_in (r : dns_reply) : R (option Z) :=
  match reply_answer r with
  | [rrset] =>
      if String.eqb (a_name rrset) zone_name && String.eqb (a_rdclass rrset) "IN"
         && String.eqb (a_rdtype rrset) "SOA"
      then match a_serials rrset with s :: _ => Ok (Some s) | [] => Raise (Py PyIndexError) end
      else Ok None
  | _ => Ok None
  end.
Definition expected_absent : bool := (zone_serial =? 0)%Z && mem_str zone_action ["DELETE"; "NONE"].

(** The loop of [get_serial_number]: status, serial and retries left. *)
Fixpoint get_serial_loop (fuel : nat) (status : string) (actual : option Z) (retries_left : Z) :
    P nat (string * option Z * Z) :=
  match fuel with
  | O => raise (Py Blocked)
  | S fuel =>
      let! ' (response, retry_cnt) := _make_and_send_dns_message retries_left in
      let missing := match response with Some r => says_no_zone r | None => false end in
      let status := if missing then "NO_ZONE" else status in
      if missing && expected_absent then ret (status, Some 0%Z, retries_left)
      else
        let! actual := (match response with
                        | Some r => if missing then ret actual
                                    else let! s := lift (serial_in r) in
                                         ret (match s with Some s => Some s | None => actual end)
                        | None => ret actual
                        end) in
        if match actual with Some s => (zone_serial <=? s)%Z | None => false end
        then ret ("SUCCESS", actual, retries_left)
        else
          let retries_left := (retries_left - retry_cnt)%Z in
          if (retries_left =? 0)%Z then ret (status, actual, retries_left)
          else get_serial_loop fuel status actual retries_left
  end.
(** Every round sends a message. *)
Definition get_serial_number (max_retries : Z) : P nat (string * option Z * Z) :=
  get_serial_loop (S (Z.to_nat max_retries)) "ERROR" None max_retries.
End Notify.

(** ** The endpoint of notify.py *)
Section Endpoint.
Context `{Env} `{Services}.
(** What the n-th message to a host and port comes to. *)
Variable net : string -> Z -> nat -> R dns_reply.

Definition serial_of_zone (zone : pyval) (host : string) (port max_retries : Z) : P world (string * option Z * Z) :=
  let! name := attr zone "name" in
  lift (get_serial_number (net host port) (text name) (str_attr zone "action") (int_attr zone "serial") max_retries 0%nat).1.
Definition poll_for_serial_number (zone nameserver : pyval) (max_retries : Z) : P world unit :=
  let! host := attr nameserver "host" in
  let! port := attr nameserver "port" in
  let! n := lift (Utils.int_of_val port) in
  let! ' (status, actual_serial, _) := serial_of_zone zone (text host) n max_retries in
  let serial := match actual_serial with Some s => PInt s | None => PNone end in
  call "pool_manager" "update_status" [zone; nameserver; PStr status; serial] ;;; ret tt.
Definition notify_zone_changed (host : string) (port max_retries : Z) : P world (option dns_reply * Z) :=
  lift (_make_and_send_dns_message (net host port) max_retries 0%nat).1.
End Endpoint.
