(* ===== verification/MdnsFacts.v ===== *)
(** * Theorems about MiniDNS

    Transfers are complete and end; which zone a request may see; what a NOTIFY
    leads to; how a name server is asked for a serial. *)
From Stdlib Require Import ZArith Lia Ascii String.
From stdpp Require Import base option numbers strings sets list.
From S2P Require Import Prelude PyStr Exceptions Values Objects Classes World Sql SqlFacts Tables Storage StorageFacts StorageZdns CentralFacts Dnsutils CentralRecordsFacts Mdns.
Local Open Scope string_scope.

(** ** Transfers *)
Section Axfr.
Context `{Env} `{SqlEngine} `{Services} `{Dnspython}.
Variables (zone : pyval) (max_size : Z) (questions : list question).

Definition packet (g : list rrset) : event := Yield (Packet g).
Definition converts (record : list pyval) (r : rrset) : Prop := rrset_of_row zone record = Ok r.
(** A packet holds something and keeps within the size. *)
Definition good_packet (g : list rrset) : Prop := g <> [] /\ fits max_size questions g = true.
(** No packet had room for the first RRSet of the next one. *)
Fixpoint tight (packets : list (list rrset)) (next : option rrset) : Prop :=
  match packets with
  | [] => True
  | g :: rest =>
      match (match rest with g' :: _ => head g' | [] => next end) with
      | Some r => fits max_size questions (app g [r]) = false
      | None => True
      end /\ tight rest next
  end.

Definition good_renderer (renderer : option (list rrset)) : Prop :=
  match renderer with Some g => good_packet g | None => True end.
(** A packet that is begun costs one more round. *)
Definition open_rounds (renderer : option (list rrset)) : nat := match renderer with Some _ => 1 | None => 0 end.

Lemma tight_cons g packets next r l :
  Forall good_packet packets -> app (concat packets) (match next with Some x => [x] | None => [] end) = r :: l ->
  fits max_size questions (app g [r]) = false -> tight packets next -> tight (g :: packets) next.
Proof.
  intros Hg Hcat Hr Ht. cbn [tight]. split; [|done]. destruct packets as [|p packets].
  - cbn in Hcat. destruct next; [|done]. by injection Hcat as -> _.
  - apply Forall_cons in Hg as [[Hne _] _]. destruct p; [done|]. cbn in Hcat. by injection Hcat as -> _.
Qed.

(** The records that fit into a packet of their own are taken in, in order. *)
Lemma axfr_loop_prefix rrs records more n fuel renderer :
  Forall2 converts records rrs -> fits max_size questions [] = true -> good_renderer renderer ->
  Forall (fun r => fits max_size questions [r] = true) rrs ->
  (2 * length records + open_rounds renderer + n < fuel)%nat ->
  exists packets held fuel',
    axfr_loop fuel zone max_size questions (app records more) renderer =
      (app (map packet packets) (axfr_loop fuel' zone max_size questions more held).1,
       (axfr_loop fuel' zone max_size questions more held).2) /\
    app (concat packets) (default [] held) = app (default [] renderer) rrs /\
    Forall good_packet packets /\ good_renderer held /\ tight packets (head (default [] held)) /\
    (open_rounds held + n < fuel')%nat.
Proof.
  intros Hconv Hq. revert rrs records Hconv renderer.
  induction fuel as [|fuel IH]; intros rrs records Hconv renderer Hr Hall Hfuel; [lia|].
  destruct Hconv as [|record r records rrs Hx Hconv].
  { exists [], renderer, (S fuel). cbn [app map concat]. rewrite app_nil_r. cbn [length] in Hfuel.
    split_and!; try done; try lia; by destruct axfr_loop. }
  cbn [app axfr_loop].
  assert (Hok : negb (match renderer with Some _ => true | None => fits max_size questions [] end) = false)
    by (destruct renderer; [done|by rewrite Hq]).
  rewrite Hok, Hx. apply Forall_cons in Hall as [Hone Hall]. cbn [length] in Hfuel.
  destruct (fits max_size questions (app (default [] renderer) [r])) eqn:Hfits.
  - destruct (IH rrs records Hconv (Some (app (default [] renderer) [r]))) as (packets & held & fuel' & Hrun & Hcat & Hrest);
      [by split; [destruct (default [] renderer)|]|done|cbn [open_rounds] in *; lia|].
    exists packets, held, fuel'. rewrite Hrun, Hcat. cbn [from_option id]. by rewrite <- app_assoc.
  - destruct renderer as [g|]; cbn [from_option id] in *; [|cbn in Hfits; congruence].
    destruct g as [|x g]; [by destruct Hr|].
    destruct (IH (r :: rrs) (record :: records) ltac:(by constructor) None)
      as (packets & held & fuel' & Hrun & Hcat & Hg & Hh & Ht & Hf);
      [done|by constructor|cbn [length open_rounds] in *; lia|].
    change (record :: app records more) with (app (record :: records) more).
    rewrite Hrun. exists ((x :: g) :: packets), held, fuel'. cbn [map concat from_option id app] in *.
    split_and!; try done; [by rewrite <- app_assoc, Hcat|by constructor|].
    destruct held as [h|]; cbn [from_option id] in *.
    + destruct h as [|y h]; [by destruct Hh|]. eapply (tight_cons _ _ _ r (take (length (concat packets) + 1 - 1) rrs)); [done| |done|done].
      cbn [head]. transitivity (take (S (length (concat packets))) (r :: rrs)); [|cbn; do 2 f_equal; lia].
      rewrite <- Hcat. rewrite take_app. rewrite take_ge by lia. by replace (S _ - _)%nat with 1%nat by lia.
    + eapply (tight_cons _ _ _ r rrs); [done| |done|done]. cbn. by rewrite Hcat.
Qed.

(** The first RRSet too large for a packet of its own, if there is one. *)
Lemma first_too_large (l : list rrset) :
  Forall (fun r => fits max_size questions [r] = true) l \/
  exists pre x post, l = app pre (x :: post) /\ Forall (fun r => fits max_size questions [r] = true) pre /\
    fits max_size questions [x] = false.
Proof.
  induction l as [|r l [IH|(pre & x & post & -> & Hpre & Hx)]]; [by left| |];
    (destruct (fits max_size questions [r]) eqn:Hr; [|right; by eexists [], r, _]).
  - left. by constructor.
  - right. exists (r :: pre), x, post. split_and!; [done|by constructor|done].
Qed.
Lemma axfr_loop_complete records rrs :
  Forall2 converts records rrs -> fits max_size questions [] = true ->
  Forall (fun r => fits max_size questions [r] = true) rrs ->
  exists packets, Forall good_packet packets /\
    axfr_loop (axfr_fuel records) zone max_size questions records None = (map packet packets, None) /\
    concat packets = rrs /\ tight packets None.
Proof.
  intros Hconv Hq Hall.
  destruct (axfr_loop_prefix rrs records [] 0 (axfr_fuel records) None) as (packets & held & fuel' & Hrun & Hcat & Hg & Hh & Ht & Hf);
    [done..|unfold axfr_fuel; cbn; lia|].
  rewrite app_nil_r in Hrun. rewrite Hrun. destruct fuel' as [|fuel']; [lia|]. cbn [axfr_loop fst snd].
  destruct held as [h|]; cbn [from_option id] in *.
  - exists (app packets [h]). rewrite map_app, concat_app. cbn [concat]. rewrite app_nil_r.
    split_and!; [by apply Forall_app_2; [|constructor]|done|done|].
    clear -Ht Hh. induction packets as [|p packets IH]; cbn in *; [done|]. destruct Ht as [Hp Ht].
    split; [|by apply IH]. by destruct packets.
  - exists packets. rewrite app_nil_r in *. by split_and!.
Qed.
Lemma axfr_loop_aborted records pre x post :
  Forall2 converts records (app pre (x :: post)) -> fits max_size questions [] = true ->
  (forall g, fits max_size questions (app g [x]) = true -> fits max_size questions [x] = true) ->
  Forall (fun r => fits max_size questions [r] = true) pre -> fits max_size questions [x] = false ->
  exists packets, Forall good_packet packets /\
    axfr_loop (axfr_fuel records) zone max_size questions records None =
      (app (map packet packets) [Yield (_handle_query_error SERVFAIL)], None) /\
    concat packets = pre.
Proof.
  intros Hconv Hq Hmono Hall Hx. apply Forall2_app_inv_r in Hconv as (l1 & l2 & Hl1 & Hl2 & ->).
  apply Forall2_cons_inv_r in Hl2 as (record & l2' & Hrec & _ & ->).
  destruct (axfr_loop_prefix pre l1 (record :: l2') 2 (axfr_fuel (app l1 (record :: l2'))) None)
    as (packets & held & fuel' & Hrun & Hcat & Hg & Hh & _ & Hf);
    [done..|unfold axfr_fuel; rewrite length_app; cbn; lia|].
  assert (Hnot : forall g, fits max_size questions (app g [x]) = false).
  { intros g. apply not_true_iff_false. intros Hf'%Hmono. congruence. }
  assert (Hempty : forall fuel, axfr_loop (S fuel) zone max_size questions (record :: l2') None =
    ([Yield (_handle_query_error SERVFAIL)], None)).
  { intros fuel. cbn [axfr_loop from_option id]. rewrite Hq, Hrec, Hnot. done. }
  rewrite Hrun. destruct fuel' as [|[|fuel']]; [lia..|]. destruct held as [h|]; cbn [from_option id] in *.
  - exists (app packets [h]). rewrite concat_app. cbn [concat]. rewrite app_nil_r.
    split_and!; [by apply Forall_app_2; [|constructor]| |done].
    remember (S fuel') as fuel1 eqn:Hf1. cbn [axfr_loop negb from_option id]. rewrite Hrec, Hnot. subst fuel1. rewrite Hempty.
    destruct h as [|y h]; [by destruct Hh|]. rewrite map_app, <- app_assoc. done.
  - exists packets. rewrite app_nil_r in Hcat. rewrite Hempty. done.
Qed.
End Axfr.

Section Handlers.
Context `{Env} `{SqlEngine} `{Services} `{Dnspython}.

Lemma or_refused_Ok {A} nf (m : P world A) k w x :
  m w = (Ok x, w) -> or_refused nf m k w = k x w.
Proof. intros Hm. unfold or_refused, try_except, bind. by rewrite Hm. Qed.

(** C34: a zone transfer is complete. When the zone is found, the answer to an AXFR or
    IXFR carries in its packets, taken together, exactly the SOA record, every other
    record of the zone in the order storage gives them, and the SOA record again;
    every packet holds something and keeps within the message size, and none has
    room for the first RRSet of the next one. Only when a single RRSet is too large
    for a packet of its own, the packets before it are followed by SERVFAIL. A zone
    without an SOA record (as [create_zone] leaves it) can not be transferred at
    all. *)
Theorem axfr_complete request q_rrset zone zone_id soas rows w :
  let max_size := max_message_size request in
  let questions := r_question request in
  (forall g r, fits max_size questions (app g [r]) = true -> fits max_size questions [r] = true) ->
  fits max_size questions [] = true ->
  zone_of_request request [("name", PStr (q_name q_rrset))] w = (Ok zone, w) ->
  getattr registry zone "id" = Ok zone_id ->
  find_recordsets_axfr (e_context request) [("zone_id", zone_id); ("type", PStr "SOA")] w = (Ok soas, w) ->
  find_recordsets_axfr (e_context request) [("zone_id", zone_id); ("type", PStr "!SOA")] w = (Ok rows, w) ->
  match soas with
  | [] => _handle_axfr request q_rrset w = (Raise (Py PyIndexError), w)
  | soa :: _ => forall rrs, Forall2 (converts zone) (app (soa :: rows) [soa]) rrs ->
      exists packets, Forall (good_packet max_size questions) packets /\
        ((_handle_axfr request q_rrset w = (Ok (map packet packets, None), w) /\
          concat packets = rrs /\ tight max_size questions packets None) \/
         (exists pre x post, rrs = app pre (x :: post) /\ fits max_size questions [x] = false /\ concat packets = pre /\
            _handle_axfr request q_rrset w =
              (Ok (app (map packet packets) [Yield (Message SERVFAIL false [])], None), w)))
  end.
Proof.
  intros max_size questions Hmono Hq Hz Hid Hsoa Hrows.
  assert (Hrun : _handle_axfr request q_rrset w =
    match soas with
    | [] => (Raise (Py PyIndexError), w)
    | soa :: _ => (Ok (axfr_loop (axfr_fuel (app (soa :: rows) [soa])) zone max_size questions (app (soa :: rows) [soa]) None), w)
    end).
  { unfold _handle_axfr. rewrite (or_refused_Ok _ _ _ _ _ Hz). unfold bind at 1, attr, lift. rewrite Hid.
    unfold bind at 1. rewrite Hsoa. unfold bind at 1. rewrite Hrows. by destruct soas. }
  destruct soas as [|soa more]; [done|]. intros rrs Hconv. rewrite Hrun.
  destruct (first_too_large max_size questions rrs) as [Hall|(pre & x & post & -> & Hall & Hx)].
  - destruct (axfr_loop_complete zone max_size questions _ _ Hconv Hq Hall) as (packets & Hg & -> & Hcat & Ht).
    exists packets. split; [done|]. by left.
  - destruct (axfr_loop_aborted zone max_size questions _ pre x post Hconv Hq (fun g => Hmono g x) Hall Hx)
      as (packets & Hg & -> & Hcat).
    exists packets. split; [done|]. right. by exists pre, x, post.
Qed.

(** ** Queries *)
Lemma lift_eq {A} (x : R A) (w : world) a w' : lift x w = (Ok a, w') -> x = Ok a /\ w' = w.
Proof. by intros [= -> ->]. Qed.
#[export] Instance zone_of_request_reads request c : Reads (zone_of_request request c).
Proof. unfold zone_of_request. apply _. Qed.

Lemma or_refused_spec {A} nf (m : P world A) k w r w' :
  Reads m -> or_refused nf m k w = (r, w') ->
  (exists x, m w = (Ok x, w) /\ k x w = (r, w')) \/
  (w' = w /\ ((exists e, r = Raise e) \/ r = Ok ([Yield (_handle_query_error REFUSED)], None))).
Proof.
  intros Hm. unfold or_refused, try_except, bind, ret, refuse.
  destruct (m w) as [[x|e] w1] eqn:Hx; assert (w1 = w) as -> by (by eapply reads).
  - intros Hk. left. by exists x.
  - destruct e; try destruct (nf _); intros [= <- <-]; right; (split; [done|]); (by left; eexists) || by right.
Qed.
Lemma find_zone_row ctx c zone w w' :
  aget "name" c = None -> find_zone ctx c w = (Ok zone, w') ->
  exists row, row ∈ rows_of (w_db w) zones_table /\ wanted ctx zones_table c true row = true.
Proof.
  intros Hname. unfold find_zone, _rname_check. rewrite Hname. intros (c' & w1 & Hc & Hr)%bind_Ok. injection Hc as <- <-.
  apply bind_Ok in Hr as (z & w2 & Hf & _). apply find_one_Ok in Hf as (_ & row & Hrow & _).
  assert (Hin : row ∈ filter (fun r => wanted ctx zones_table c true r = true) (rows_of (w_db w) zones_table))
    by (rewrite Hrow; set_solver).
  apply list_elem_of_filter in Hin as [Hw Hin]. by exists row.
Qed.

Definition asked (q_rrset : question) : list (string * pyval) :=
  [("name", PStr (q_name q_rrset)); ("type", PStr (q_rdtype q_rrset)); ("zones_deleted", PBool false)].
(** The zone a request may ask about, given the zone of the record set. *)
Definition scope_of (request : request) (zone_id : pyval) (criterion : list (string * pyval)) : Prop :=
  match e_tsigkey request with
  | None => conf_bool "service:mdns.query_enforce_tsig" = false /\
            criterion = [("id", zone_id); ("pool_id", PStr (conf_str "service:central.default_pool_id"))]
  | Some key => exists scope resource_id,
      getattr registry key "scope" = Ok scope /\ getattr registry key "resource_id" = Ok resource_id /\
      ((py_eq scope (PStr "POOL") = true /\ criterion = [("id", zone_id); ("pool_id", resource_id)]) \/
       (py_eq scope (PStr "ZONE") = true /\ criterion = [("id", resource_id)]))
  end.
Lemma criterion_scope request zone_id criterion :
  _zone_criterion_from_request request [("id", zone_id)] = Ok criterion -> scope_of request zone_id criterion.
Proof.
  unfold _zone_criterion_from_request, scope_of. destruct (e_tsigkey request) as [key|].
  - destruct (getattr registry key "scope") as [scope|] eqn:Hs; cbn [rbind]; [|done].
    destruct (getattr registry key "resource_id") as [rid|] eqn:Hr; cbn [rbind]; [|done]. intros Hc. exists scope, rid.
    split_and!; [done..|]. destruct (py_eq scope (PStr "POOL")) eqn:Hp; [left; by injection Hc as <-|].
    destruct (py_eq scope (PStr "ZONE")) eqn:Hz; [right; by injection Hc as <-|done].
  - destruct (conf_bool _); [done|]. by intros [= <-].
Qed.

(** The DNS server gives away only what a request may see, with one exception. A
    query changes nothing; it raises, or is refused, or is answered with the live
    records of the one record set of that name and type; and then a zone is stored
    that is in the scope of the request: without a key (which must then be allowed)
    the record set's zone, in the default pool; with the key of a pool the record
    set's zone, in that pool. The exception: with the key of a zone it is that zone,
    whatever the zone of the record set. *)
Theorem query_guarded request q_rrset w r w' :
  _handle_record_query request q_rrset w = (r, w') ->
  w' = w /\
  ((exists e, r = Raise e) \/ r = Ok ([Yield (Message REFUSED false [])], None) \/
   exists recordset zone_id zone criterion row answer,
     find_recordset (e_context request) (asked q_rrset) w = (Ok recordset, w) /\
     getattr registry recordset "zone_id" = Ok zone_id /\
     scope_of request zone_id criterion /\
     row ∈ rows_of (w_db w) zones_table /\ wanted (e_context request) zones_table criterion true row = true /\
     _convert_to_rrset zone recordset = Ok answer /\
     r = Ok ([Yield (Message NOERROR true (match answer with Some a => [a] | None => [] end))], None)).
Proof.
  unfold _handle_record_query. intros [(recordset & Hrs & Hr)|(-> & Hr)]%or_refused_spec; [| |apply _].
  2:{ split; [done|]. destruct Hr as [Hr|Hr]; [by left|right; by left]. }
  apply or_refused_spec in Hr as [(zone & Hz & Hr)|(-> & Hr)]; [| |apply _].
  2:{ split; [done|]. destruct Hr as [Hr|Hr]; [by left|right; by left]. }
  apply bind_Ok in Hz as (zone_id & w1 & Hid & Hz). apply lift_eq in Hid as [Hid ->].
  unfold zone_of_request in Hz. apply bind_Ok in Hz as (criterion & w1 & Hc & Hz). apply lift_eq in Hc as [Hc ->].
  apply criterion_scope in Hc. unfold bind, lift, ret in Hr.
  destruct (_convert_to_rrset zone recordset) as [answer|e] eqn:Ha; injection Hr as <- <-; (split; [done|]).
  2:{ left. by eexists. }
  right. right. assert (Hname : aget "name" criterion = None).
  { clear -Hc. unfold scope_of in Hc. destruct (e_tsigkey request); [|by destruct Hc as [_ ->]].
    by destruct Hc as (? & ? & _ & _ & [[_ ->]|[_ ->]]). }
  destruct (find_zone_row _ _ _ _ _ Hname Hz) as (row & Hin & Hw).
  by exists recordset, zone_id, zone, criterion, row, answer.
Qed.

(** The key of one zone opens every zone. A query signed with a key whose scope is
    a stored zone is answered from whatever record set it names, of that zone or of
    any other: the criterion for the zone loses the zone of the record set. *)
Theorem zone_key_opens_every_zone request q_rrset key resource_id own_zone recordset zone_id answer w :
  e_tsigkey request = Some key ->
  getattr registry key "scope" = Ok (PStr "ZONE") -> getattr registry key "resource_id" = Ok resource_id ->
  find_zone (e_context request) [("id", resource_id)] w = (Ok own_zone, w) ->
  find_recordset (e_context request) (asked q_rrset) w = (Ok recordset, w) ->
  getattr registry recordset "zone_id" = Ok zone_id ->
  _convert_to_rrset own_zone recordset = Ok (Some answer) ->
  _handle_record_query request q_rrset w = (Ok ([Yield (Message NOERROR true [answer])], None), w).
Proof.
  intros Hkey Hscope Hres Hz Hrs Hid Ha. unfold _handle_record_query. rewrite (or_refused_Ok _ _ _ _ _ Hrs).
  assert (Hfound : (let! zone_id := attr recordset "zone_id" in zone_of_request request [("id", zone_id)]) w = (Ok own_zone, w)).
  { unfold bind at 1, attr, lift. rewrite Hid. unfold zone_of_request, _zone_criterion_from_request.
    rewrite Hkey, Hscope, Hres. exact Hz. }
  rewrite (or_refused_Ok _ _ _ _ _ Hfound). unfold bind, lift, ret. by rewrite Ha.
Qed.

(** A NOTIFY never leads to a transfer. Handling a NOTIFY changes nothing; it is
    acknowledged only when a secondary zone of the name is stored and the sender is
    one of its masters; and every thread that it starts, to synchronise the zone
    with the master, raises before it asks the master for anything. *)
Theorem notify_never_syncs (shuffle : list pyval -> list pyval) ask request w events ended w' :
  _handle_notify request w = (Ok (events, ended), w') ->
  w' = w /\ ended = None /\
  (Yield (Message NOERROR true []) ∈ events ->
     exists question zone master, r_question request = [question] /\
       find_zone (e_context request)
         [("name", PStr (q_name question)); ("type", PStr "SECONDARY"); ("deleted", PBool false)] w = (Ok zone, w) /\
       get_master_by_ip zone (e_addr request) = Ok (Some master)) /\
  (forall thread v, thread ∈ events -> (forall r, thread <> Yield r) ->
     run_thread shuffle ask thread v = (Raise (Py PyAttributeError), v)).
Proof.
  unfold _handle_notify. destruct (r_question request) as [|question [|]] eqn:Hquestion.
  1, 3: intros [= <- <- <-]; split_and!; [done|done|set_solver|];
    intros thread v Hin%list_elem_of_singleton Hno; by destruct (Hno _ Hin).
  intros (found & w1 & Hf & Hr)%bind_Ok. unfold try_except, bind, ret in Hf.
  destruct (find_zone _ _ w) as [[zone|e] w2] eqn:Hz; assert (w2 = w) as -> by (by eapply find_zone_reads).
  2:{ destruct (zone_not_found e); [|done]. injection Hf as <- <-. injection Hr as <- <- <-.
      split_and!; [done|done|set_solver|]. intros thread v Hin%list_elem_of_singleton Hno. by destruct (Hno _ Hin). }
  injection Hf as <- <-. apply bind_Ok in Hr as (master & w1 & Hm & Hr). apply lift_eq in Hm as [Hm ->].
  destruct master as [master|].
  2:{ injection Hr as <- <- <-. split_and!; [done|done|set_solver|].
      intros thread v Hin%list_elem_of_singleton Hno. by destruct (Hno _ Hin). }
  apply bind_Ok in Hr as (name & w1 & Hn & Hr). apply lift_eq in Hn as [_ ->].
  apply bind_Ok in Hr as (soa_serial & w1 & Hs & Hr). apply lift_eq in Hs as [_ ->].
  apply bind_Ok in Hr as (serial & w1 & Hs & Hr). apply lift_eq in Hs as [_ ->]. injection Hr as <- <- <-.
  split_and!; [done|done|by intros _; exists question, zone, master|].
  intros thread v Hin Hno. apply elem_of_app in Hin as [Hin|Hin%list_elem_of_singleton]; [|by destruct (Hno _ Hin)].
  assert (thread = ZoneSync (e_context request) zone master) as ->; [|reflexivity].
  destruct (num_of serial) as [y|]; [destruct (_ =? _)%Z|]; set_solver.
Qed.
End Handlers.

(** ** Asking for a serial *)
Section Serial.
Variable net : nat -> R dns_reply.
Variables (zone_name zone_action : string) (zone_serial : Z).

(** A reply after which the zone counts as served: it is for the very zone and its
    serial is not behind. *)
Definition up_to_date (n : nat) : option Z :=
  match net n with
  | Ok r => if usable r && negb (says_no_zone r) then
              match serial_in zone_name r with
              | Ok (Some s) => if (zone_serial <=? s)%Z then Some s else None
              | _ => None
              end
            else None
  | Raise _ => None
  end.
(** A reply that the zone is not there. *)
Definition absent (n : nat) : Prop := exists r, net n = Ok r /\ usable r = true /\ says_no_zone r = true.
(** What goes through to the caller. *)
Definition fails_with (n : nat) (e : exc) : Prop :=
  match net n with
  | Raise e' => e = e' /\ e' <> Py SocketEAGAIN /\ e' <> Py DnsTimeout /\ e' <> Py DnsBadResponse
  | Ok r => usable r = true /\ says_no_zone r = false /\ serial_in zone_name r = Raise e
  end.

(** One round: at least one message, at most as many as there are tries; all but the
    last were in vain. *)
Definition round (tries : nat) (retry : Z) (n : nat) (run : res exc (option dns_reply * Z) * nat) : Prop :=
  exists k, (k <= tries)%nat /\ (tries <> 0 -> k <> 0)%nat /\
    (forall i, (n <= i < n + k - 1)%nat -> exists e, net i = Raise e) /\
    ((k = 0%nat /\ run = (Ok (None, retry), n)) \/
     (k <> 0%nat /\
      match net (n + k - 1) with
      | Ok r => run = (Ok (Some r, (retry + Z.of_nat k)%Z), (n + k)%nat)
      | Raise e => run = (Ok (None, (retry + Z.of_nat k)%Z), (n + k)%nat) \/
                   (fails_with (n + k - 1) e /\ run = (Raise e, (n + k)%nat))
      end)).
(** The message settles the round. *)
Lemma round_settled tries retry n run :
  match net n with
  | Ok r => run = (Ok (Some r, (retry + 1)%Z), S n)
  | Raise e => run = (Ok (None, (retry + 1)%Z), S n) \/ (fails_with n e /\ run = (Raise e, S n))
  end -> round (S tries) retry n run.
Proof.
  intros Hrun. exists 1%nat. split_and!; [lia|done|lia|]. right. split; [done|].
  replace (n + 1 - 1)%nat with n by lia. by replace (n + 1)%nat with (S n) by lia.
Qed.
(** The message was in vain and another one is sent. *)
Lemma round_again tries retry n run e :
  net n = Raise e -> round tries (retry + 1) (S n) run -> round (S tries) retry n run.
Proof.
  intros Hn (k & Hk & Hk0 & Hall & Hrun). exists (S k). split_and!; [lia|done| |right].
  - intros i Hi. destruct (decide (i = n)) as [->|]; [by exists e|]. apply Hall. lia.
  - split; [done|]. replace (n + S k - 1)%nat with (n + k)%nat by lia. replace (n + S k)%nat with (S n + k)%nat by lia.
    replace (retry + Z.of_nat (S k))%Z with (retry + 1 + Z.of_nat k)%Z by lia.
    destruct Hrun as [[-> ->]|[Hne Hrun]].
    + rewrite !Nat.add_0_r, Z.add_0_r, Hn. by left.
    + by replace (S n + k - 1)%nat with (n + k)%nat in Hrun by lia.
Qed.
Lemma send_loop_spec tries retry n : round tries retry n (send_loop net tries retry n).
Proof.
  revert retry n. induction tries as [|tries IH]; intros retry n.
  { exists 0%nat. split_and!; [done|done|lia|]. by left. }
  cbn [send_loop]. unfold bind at 1, gets, bind at 1, modify. cbn beta iota. cbn [id].
  destruct (net n) as [r|e] eqn:Hn; [apply round_settled; by rewrite Hn|].
  destruct (decide (e = Py SocketEAGAIN)) as [->|Hne1]; [by eapply round_again|].
  destruct (decide (e = Py DnsTimeout)) as [->|Hne2]; [by eapply round_again|].
  apply round_settled. rewrite Hn. destruct (decide (e = Py DnsBadResponse)) as [->|Hne3]; [by left|].
  right. unfold fails_with. rewrite Hn. split; [done|]. destruct e; try done. by destruct b.
Qed.

(** Where the polling stands after [n] messages: none of them settled it, and the
    status remembers whether one of them said that the zone is not there. *)
Definition in_vain (n : nat) (status : string) : Prop :=
  (forall i, (i < n)%nat -> up_to_date i = None) /\
  ((status = "ERROR" /\ forall i, (i < n)%nat -> ~ absent i) \/
   (status = "NO_ZONE" /\ exists i, (i < n)%nat /\ absent i)).
Definition behind (actual : option Z) : Prop := match actual with Some s => (s < zone_serial)%Z | None => True end.
(** How it ends, with at most [most] messages. *)
Definition settled (most : nat) (run : res exc (string * option Z * Z) * nat) : Prop :=
  (run.2 <= most)%nat /\
  match run.1 with
  | Ok (status, actual, _) =>
      (run.2 <> 0%nat /\ status = "SUCCESS" /\ actual = up_to_date (run.2 - 1) /\ actual <> None /\
       forall i, (i < run.2 - 1)%nat -> up_to_date i = None) \/
      (run.2 <> 0%nat /\ status = "NO_ZONE" /\ actual = Some 0%Z /\ expected_absent zone_action zone_serial = true /\
       absent (run.2 - 1)) \/
      (run.2 = most /\ in_vain most status /\ behind actual)
  | Raise e => run.2 <> 0%nat /\ fails_with (run.2 - 1) e
  end.

(** A round that does not settle it. *)
Lemma in_vain_more n k status (missing : bool) :
  in_vain n status -> (forall i, (n <= i < n + k - 1)%nat -> exists e, net i = Raise e) ->
  k <> 0%nat -> up_to_date (n + k - 1) = None -> (missing = true <-> absent (n + k - 1)) ->
  in_vain (n + k) (if missing then "NO_ZONE" else status).
Proof.
  intros [Hno Hst] Hraise Hk Hlast Hmiss.
  assert (Hcases : forall i, (i < n + k)%nat -> (i < n)%nat \/ i = (n + k - 1)%nat \/ exists e, net i = Raise e).
  { intros i Hi. destruct (decide (i < n)%nat); [by left|right]. destruct (decide (i = n + k - 1)%nat); [by left|right].
    apply Hraise. lia. }
  split.
  - intros i [Hi|[->|[e He]]]%Hcases; [by apply Hno|done|]. unfold up_to_date. by rewrite He.
  - destruct missing; [right; split; [done|]; exists (n + k - 1)%nat; split; [lia|by apply Hmiss]|].
    destruct Hst as [[-> Hst]|(-> & i & Hi & Habs)]; [left|right; split; [done|]; exists i; split; [lia|done]].
    split; [done|]. intros i [Hi|[->|[e He]]]%Hcases; [by apply Hst|intros Ha; by apply Hmiss in Ha|].
    intros (r & Hr & _). congruence.
Qed.

Lemma get_serial_loop_settles fuel status actual n most :
  (n <= most)%nat -> (most - n < fuel)%nat -> in_vain n status -> behind actual ->
  settled most (get_serial_loop net zone_name zone_action zone_serial fuel status actual (Z.of_nat (most - n)) n).
Proof.
  revert status actual n. induction fuel as [|fuel IH]; intros status actual n Hn Hfuel Hvain Hbehind; [lia|].
  cbn [get_serial_loop]. unfold bind at 1, _make_and_send_dns_message, bind at 1. rewrite Nat2Z.id.
  destruct (send_loop_spec (most - n) 0 n) as (k & Hk & Hk0 & Hraise & Hrun).
  assert (Hgo : forall status' actual' , in_vain (n + k) status' -> behind actual' ->
    settled most ((if match actual' with Some s => (zone_serial <=? s)%Z | None => false end
                   then ret ("SUCCESS", actual', Z.of_nat (most - n))
                   else if (Z.of_nat (most - n) - (0 + Z.of_nat k) =? 0)%Z
                        then ret (status', actual', (Z.of_nat (most - n) - (0 + Z.of_nat k))%Z)
                        else get_serial_loop net zone_name zone_action zone_serial fuel status' actual'
                               (Z.of_nat (most - n) - (0 + Z.of_nat k))) (n + k)%nat)).
  { intros status' actual' Hv Hb.
    assert (Hfalse : match actual' with Some s => (zone_serial <=? s)%Z | None => false end = false)
      by (destruct actual'; cbn in Hb; lia). rewrite Hfalse.
    destruct (Z.eqb_spec (Z.of_nat (most - n) - (0 + Z.of_nat k)) 0) as [Hz|Hz].
    - assert (most = n + k)%nat as -> by lia. split; [done|]. right. right. by split.
    - replace (Z.of_nat (most - n) - (0 + Z.of_nat k))%Z with (Z.of_nat (most - (n + k))) by lia.
      apply IH; [lia|lia|done|done]. }
  destruct Hrun as [[-> Hrun]|[Hkz Hrun]].
  { rewrite Hrun. unfold ret at 1. cbn beta iota. cbn [andb]. unfold bind at 1, ret at 1.
    specialize (Hgo status actual). rewrite Nat.add_0_r in Hgo. by apply Hgo. }
  destruct (net (n + k - 1)) as [r|e] eqn:Hnet.
  2:{ assert (Hv : in_vain (n + k) status).
      { apply (in_vain_more n k status false); [done..|unfold up_to_date; by rewrite Hnet|].
        split; [done|]. intros (r & Hr & _). congruence. }
      destruct Hrun as [Hrun|[Hfail Hrun]]; rewrite Hrun.
      - unfold ret at 1. cbn beta iota. cbn [andb]. unfold bind at 1, ret at 1. by apply Hgo.
      - split; [cbn; lia|]. cbn. split; [lia|done]. }
  rewrite Hrun. unfold ret at 1. cbn beta iota.
  destruct (usable r) eqn:Husable; [destruct (says_no_zone r) eqn:Hmissing|].
  - assert (Habs : absent (n + k - 1)) by (by exists r).
    cbn [andb]. destruct (expected_absent zone_action zone_serial) eqn:Hexp.
    { split; [cbn; lia|]. right. left. cbn. split_and!; try done. lia. }
    unfold bind at 1, ret at 1. apply Hgo; [|done].
    apply (in_vain_more n k status true); [done..|unfold up_to_date; by rewrite Hnet, Husable, Hmissing|done].
  - cbn [andb]. unfold bind at 1, bind at 1, lift at 1.
    assert (Hv : up_to_date (n + k - 1) = None -> in_vain (n + k) status).
    { intros Hup. apply (in_vain_more n k status false); [done..|]. split; [done|].
      intros (r' & Hr' & _ & Hs). congruence. }
    unfold up_to_date in Hv. rewrite Hnet, Husable, Hmissing in Hv. cbn [andb negb] in Hv.
    destruct (serial_in zone_name r) as [[s|]|e] eqn:Hs.
    + unfold ret at 1. destruct (Z.leb_spec zone_serial s) as [Hle|Hlt].
      * split; [cbn; lia|]. left. cbn. unfold up_to_date. rewrite Hnet, Husable, Hmissing, Hs. cbn [andb negb].
        rewrite (proj2 (Z.leb_le _ _) Hle). split_and!; try done; [lia|].
        intros i Hi. destruct (decide (i < n)%nat); [by apply Hvain|]. destruct (Hraise i) as [e He]; [lia|].
        by rewrite He.
      * pose proof (Hgo status (Some s) (Hv eq_refl) Hlt) as Hnext. cbn beta iota in Hnext.
        by rewrite (proj2 (Z.leb_gt _ _) Hlt) in Hnext.
    + unfold ret at 1. exact (Hgo status actual (Hv eq_refl) Hbehind).
    + split; [cbn; lia|]. cbn. split; [lia|]. unfold fails_with. rewrite Hnet. by split_and!.
  - cbn [andb]. unfold bind at 1, ret at 1. apply Hgo; [|done].
    apply (in_vain_more n k status false); [done..|unfold up_to_date; by rewrite Hnet, Husable|].
    split; [done|]. intros (r' & Hr' & Hu & _). congruence.
Qed.

(** Asking a name server for a serial ends, and tells what it found. With
    [max_retries] at most that many messages are sent, however many time out; the
    answer is SUCCESS with the serial of the last reply exactly when that is the
    first reply that serves the zone with a serial not behind; it is NO_ZONE with
    serial 0 when the zone should be gone and the last reply says that it is;
    otherwise all messages were sent in vain, and it is NO_ZONE if some reply said
    that the zone is not there and ERROR if none did. Only errors of the socket
    other than a full buffer, and SOA answers without data, get through. *)
Theorem serial_poll_settles max_retries :
  (0 <= max_retries)%Z ->
  settled (Z.to_nat max_retries) (get_serial_number net zone_name zone_action zone_serial max_retries 0%nat).
Proof.
  intros Hmax. unfold get_serial_number.
  replace max_retries with (Z.of_nat (Z.to_nat max_retries - 0)) at 3 by lia.
  apply get_serial_loop_settles; [lia|lia| |done]. split; [lia|]. left. split; [done|lia].
Qed.
End Serial.

(** ** At a concrete database *)
#[local] Existing Instances ref_env ref_engine willing_worker.
(** Two RRSets to a packet. *)
#[local] Instance small_packets : Dnspython := {|
  rrset := string * string * list string;
  from_text_list := fun name _ type data => Ok (name, type, data);
  fits := fun size _ l => (5 * Z.of_nat (length l) <=? size)%Z;
  query_soa := fun _ _ => Ok 7%Z;
|}.
Definition served_db : db :=
  app zones_db
    [("recordsets", [recordset_row "r0" "z1" "b.org." "SOA"; recordset_row "r1" "z1" "www.b.org." "A"; recordset_row "r2" "z2" "x.b.org." "TXT"]);
     ("records", [record_row "a0" "r0" "z1" "soa"; record_row "a1" "r1" "z1" "1.2.3.4"; record_row "a2" "r1" "z1" "1.2.3.5";
                  record_row "a3" "r2" "z2" "secret"])].
Definition zone_key : pyval := PObj "TsigKey" [("id", PStr "k1"); ("scope", PStr "ZONE"); ("resource_id", PStr "z1")] [] [].
Definition admin : context := with_all_tenants true ref_context.
Definition query_of (name type : string) : question := {| q_name := name; q_rdclass := "IN"; q_rdtype := type |}.
Definition signed (q : question) : request :=
  {| r_opcode := QUERY; r_question := [q]; had_tsig := false; e_context := admin; e_addr := "192.0.2.1";
     e_tsigkey := Some zone_key |}.

Lemma axfr_complete_witness :
  let q := query_of "b.org." "AXFR" in
  let soa := ("b.org.", "SOA", ["soa"]) in
  let run := _handle_axfr (signed q) q (ref_world served_db) in
  exists packets, run.1 = Ok (map packet packets, None) /\
    concat packets = [soa; ("www.b.org.", "A", ["1.2.3.4"]); ("www.b.org.", "A", ["1.2.3.5"]); soa].
Proof.
  cbv zeta. set (q := query_of "b.org." "AXFR"). set (w := ref_world served_db).
  assert (Hz : exists zone, zone_of_request (signed q) [("name", PStr (q_name q))] w = (Ok zone, w)) by (eexists; vm_compute; reflexivity).
  destruct Hz as [zone Hz].
  assert (Hsoa : exists soa, find_recordsets_axfr (e_context (signed q)) [("zone_id", PStr "z1"); ("type", PStr "SOA")] w = (Ok [soa], w))
    by (eexists; vm_compute; reflexivity). destruct Hsoa as [soa Hsoa].
  assert (Hrows : exists rows, find_recordsets_axfr (e_context (signed q)) [("zone_id", PStr "z1"); ("type", PStr "!SOA")] w = (Ok rows, w))
    by (eexists; vm_compute; reflexivity). destruct Hrows as [rows Hrows].
  assert (Hid : getattr registry zone "id" = Ok (PStr "z1")) by (vm_compute in Hz; injection Hz as <-; reflexivity).
  assert (Hmono : forall (g : list rrset) (r : rrset),
    fits (max_message_size (signed q)) [q] (app g [r]) = true -> fits (max_message_size (signed q)) [q] [r] = true) by reflexivity.
  destruct (axfr_complete (signed q) q zone (PStr "z1") [soa] rows w Hmono eq_refl Hz Hid Hsoa Hrows
    [("b.org.", "SOA", ["soa"]); ("www.b.org.", "A", ["1.2.3.4"]); ("www.b.org.", "A", ["1.2.3.5"]); ("b.org.", "SOA", ["soa"])])
    as (packets & _ & [(Hrun & Hcat & _)|(pre & x & post & _ & Hx & _)]); [| |discriminate Hx].
  - vm_compute in Hsoa, Hrows. injection Hsoa as <-. injection Hrows as <-. repeat constructor.
  - exists packets. split; [by rewrite Hrun|exact Hcat].
Defined.

Lemma query_guarded_witness :
  let q := query_of "www.b.org." "A" in
  let run := _handle_record_query (signed q) q (ref_world served_db) in
  exists recordset, find_recordset admin (asked q) (ref_world served_db) = (Ok recordset, ref_world served_db) /\
    run.2 = ref_world served_db.
Proof.
  cbv zeta. set (q := query_of "www.b.org." "A"). set (run := _handle_record_query _ _ _).
  destruct (query_guarded (signed q) q (ref_world served_db) run.1 run.2 (surjective_pairing run))
    as (Hw & [[e He]|[Hr|(recordset & zone_id & zone & criterion & row & answer & Hrs & _)]]).
  - vm_compute in He. discriminate He.
  - vm_compute in Hr. discriminate Hr.
  - exists recordset. split; [exact Hrs|exact Hw].
Defined.

(** The key of one zone reads the record set of the other. *)
Lemma zone_key_opens_every_zone_witness :
  let q := query_of "x.b.org." "TXT" in
  _handle_record_query (signed q) q (ref_world served_db) =
    (Ok ([Yield (Message NOERROR true [("x.b.org.", "TXT", ["secret"])])], None), ref_world served_db) /\
  exists recordset, (find_recordset admin (asked q) (ref_world served_db)).1 = Ok recordset /\
    getattr registry recordset "zone_id" = Ok (PStr "z2").
Proof.
  cbv zeta. set (q := query_of "x.b.org." "TXT"). set (w := ref_world served_db).
  assert (Hz : exists zone, find_zone (e_context (signed q)) [("id", PStr "z1")] w = (Ok zone, w)) by (eexists; vm_compute; reflexivity).
  destruct Hz as [zone Hz].
  assert (Hrs : exists recordset, find_recordset (e_context (signed q)) (asked q) w = (Ok recordset, w))
    by (eexists; vm_compute; reflexivity).
  destruct Hrs as [recordset Hrs].
  assert (Hid : getattr registry recordset "zone_id" = Ok (PStr "z2")) by (vm_compute in Hrs; injection Hrs as <-; reflexivity).
  split.
  - refine (zone_key_opens_every_zone (signed q) q zone_key (PStr "z1") zone recordset (PStr "z2")
      ("x.b.org.", "TXT", ["secret"]) w eq_refl eq_refl eq_refl Hz Hrs Hid _).
    vm_compute in Hrs, Hz. injection Hrs as <-. injection Hz as <-. vm_compute. reflexivity.
  - exists recordset. split; [|exact Hid]. change (e_context (signed q)) with admin in Hrs. by rewrite Hrs.
Defined.

Definition secondary_db : db :=
  [("zones", [aset "type" (PStr "SECONDARY") (zone_row "z1" "t1" "b.org." PNone)]);
   ("zone_masters", [[("id", PStr "m1"); ("version", PInt 1); ("created_at", PInt 1); ("updated_at", PNone);
                      ("host", PStr "192.0.2.1"); ("port", PInt 53); ("zone_id", PStr "z1")]])].
Definition notify_request : request :=
  {| r_opcode := NOTIFY; r_question := [query_of "b.org." "SOA"]; had_tsig := false; e_context := admin;
     e_addr := "192.0.2.1"; e_tsigkey := None |}.
(** Booleans are stored, and compared, as digits. *)
Definition digit (v : pyval) : pyval := match v with PBool b => PStr (if b then "1" else "0") | v => v end.
Definition digit_engine : SqlEngine := {| collate := fun a b => ref_collate (digit a) (digit b); like := ref_like |}.
Lemma notify_never_syncs_witness :
  exists thread zone master,
    @_handle_notify digit_engine small_packets notify_request (ref_world secondary_db) =
      (Ok ([thread; Yield (Message NOERROR true [])], None), ref_world secondary_db) /\
    thread = ZoneSync admin zone master /\
    run_thread (fun l => l) (fun _ _ => OwnTimeout) thread (ref_world []) = (Raise (Py PyAttributeError), ref_world []).
Proof.
  assert (Hrun : exists zone master, @_handle_notify digit_engine small_packets notify_request (ref_world secondary_db) =
    (Ok ([ZoneSync admin zone master; Yield (Message NOERROR true [])], None), ref_world secondary_db))
    by (do 2 eexists; vm_compute; reflexivity).
  destruct Hrun as (zone & master & Hrun). exists (ZoneSync admin zone master), zone, master.
  split; [exact Hrun|]. split; [reflexivity|].
  refine (proj2 (proj2 (proj2 (notify_never_syncs (fun l => l) (fun _ _ => OwnTimeout) notify_request _ _ _ _ Hrun))) _ _ _ _).
  - apply elem_of_cons. by left.
  - intros r. discriminate.
Defined.

(** The first message is lost, the second reply is behind, the third is not. *)
Definition lossy_net (n : nat) : R dns_reply :=
  match n with
  | O => Raise (Py DnsTimeout)
  | S n => Ok {| reply_code := NOERROR; reply_aa := true;
                 reply_answer := [{| a_name := "b.org."; a_rdclass := "IN"; a_rdtype := "SOA"; a_serials := [4 + Z.of_nat n]%Z |}] |}
  end.
Lemma serial_poll_settles_witness :
  let run := get_serial_number lossy_net "b.org." "UPDATE" 5 4 0%nat in
  run = (Ok ("SUCCESS", Some 5%Z, 2%Z), 3%nat) /\ settled lossy_net "b.org." "UPDATE" 5 4 run.
Proof.
  split; [vm_compute; reflexivity|].
  exact (serial_poll_settles lossy_net "b.org." "UPDATE" 5 4 ltac:(lia)).
Defined.
