(* ===== verification/Agent.v ===== *)
(** * The agent and its backend (designate/agent/handler.py, backend/agent.py)

    The pool manager tells an agent next to a name server to create or delete a zone,
    with DNS messages of a private opcode and class; the agent transfers the zone from
    MiniDNS and hands it to its driver. Both ends are here, with the network between
    them: what dnspython does with a message is the class [DnsMessages], a driver the
    class [AgentBackend], with what it promises in [AgentBackendLaws]. *)
From Stdlib Require Import ZArith Lia String.
From stdpp Require Import base option numbers strings sets list gmap.
From S2P Require Import Prelude PyStr Exceptions Values Dnsutils.
Local Open Scope string_scope.

(** private_codes.py *)
Definition CC : Z := 14.
Definition CLASSCC : Z := 65280.
Definition SUCCESS : Z := 65280.
Definition FAILURE : Z := 65281.
Definition CREATE : Z := 65282.
Definition DELETE : Z := 65283.
(** What the handler uses of dns.opcode and dns.rcode *)
Definition NOTIFY : Z := 4.
Definition NOERROR : Z := 0.
Definition SERVFAIL : Z := 2.
Definition REFUSED : Z := 5.

(** ** dnspython's messages

    [aa] is the flag of an authoritative answer; [clear_flags] is [flags = 0] and
    [set_aa] is [flags |= AA]. Names are given and read in text form. *)
Class DnsMessages := {
  msg : Type;
  make_query : string -> Z -> Z -> msg;
  make_response : msg -> msg;
  question : msg -> list (string * Z * Z);
  opcode : msg -> Z;
  rcode : msg -> Z;
  aa : msg -> bool;
  clear_flags : msg -> msg;
  set_opcode : Z -> msg -> msg;
  set_rcode : Z -> msg -> msg;
  set_aa : msg -> msg;
}.
Definition absolute (n : string) : Prop := exists s, n = s ++ ".".
(** The documented behaviour that both ends rely on. *)
Class MessageLaws `{DnsMessages} := {
  question_query n t c : absolute n -> question (make_query n t c) = [(n, t, c)];
  question_clear m : question (clear_flags m) = question m;
  question_opcode o m : question (set_opcode o m) = question m;
  question_aa m : question (set_aa m) = question m;
  opcode_set o m : opcode (set_opcode o m) = o;
  opcode_aa m : opcode (set_aa m) = opcode m;
  aa_set m : aa (set_aa m) = true;
  rcode_aa m : rcode (set_aa m) = rcode m;
  aa_response m : aa (make_response m) = false;
  rcode_response m : rcode (make_response m) = NOERROR;
  aa_rcode r m : aa (set_rcode r m) = aa m;
  rcode_set r m : rcode (set_rcode r m) = r;
}.

(** ** Drivers (backend/agent_backend/base.py) *)
Class AgentBackend (D : Type) := {
  find_zone_serial : string -> M exc D (option Z);
  create_zone : dns_zone -> M exc D unit;
  update_zone : dns_zone -> M exc D unit;
  delete_zone : string -> M exc D unit;
}.
Definition serial_of (z : dns_zone) : Z := match soa z with Some s => soa_serial s | None => 0%Z end.
(** What a driver promises: it serves a set of zones and finds their serials; an operation that
    returns has been carried out, and one that fails has left the other zones alone. What a
    failing operation does to its own zone is open: it may be there or not, with any serial. *)
Class AgentBackendLaws (D : Type) `{AgentBackend D} := {
  zones : D -> gmap string Z;
  finds n d : find_zone_serial n d = (Ok (zones d !! n), d);
  creates z d d' : create_zone z d = (Ok tt, d') -> zones d' = <[origin z := serial_of z]> (zones d);
  updates z d d' : update_zone z d = (Ok tt, d') -> zones d' = <[origin z := serial_of z]> (zones d);
  deletes n d d' : delete_zone n d = (Ok tt, d') -> zones d' = delete n (zones d);
  fails_locally z n d e d' :
    create_zone z d = (Raise e, d') \/ update_zone z d = (Raise e, d') \/ (delete_zone n d = (Raise e, d') /\ origin z = n) ->
    caught e /\ delete (origin z) (zones d') = delete (origin z) (zones d);
}.

(** ** The agent's handler (agent/handler.py) *)
Section Handler.
Context `{DnsMessages} {D : Type} `{!AgentBackend D}.
Variable allow_notify : list string.
(** the masters, in the order the shuffle gives them, and what comes of asking one *)
Variable masters : list pyval.
Variable ask : string -> pyval -> axfr_answer.
(** the address the request came from *)
Variable requester : string.

Definition _handle_query_error (request : msg) (code : Z) : msg := set_rcode code (make_response request).
(** [_allowed] *)
Definition _allowed : bool :=
  match allow_notify with [] => true | _ => bool_decide (requester ∈ allow_notify) end.
(** The part the handlers share: the name of the first question, refused for those who
    are not allowed, with the serial the driver has. *)
Definition first_question (request : msg) : R (string * Z * Z) :=
  match question request with q :: _ => Ok q | [] => Raise (Py PyIndexError) end.
Definition on_zone (request : msg) (k : string -> option Z -> M exc D msg) : M exc D msg :=
  let! q := lift (first_question request) in
  let zone_name := q.1.1 in
  if negb _allowed then ret (set_rcode REFUSED (make_response request))
  else let! serial := find_zone_serial zone_name in k zone_name serial.
(** [try: ... except Exception: SERVFAIL] *)
Definition or_servfail (response : msg) (m : M exc D msg) : M exc D msg :=
  try_except m (except_exception (fun _ => ret (set_rcode SERVFAIL response))).
Definition transfer (zone_name : string) : M exc D dns_zone := lift (do_axfr (ask zone_name) masters).

Definition _handle_create (request : msg) : M exc D msg :=
  on_zone request (fun zone_name serial =>
    let response := make_response request in
    match serial with
    | Some _ => ret (set_aa response)
    | None => or_servfail response (let! zone := transfer zone_name in create_zone zone ;;; ret (set_aa response))
    end).
Definition _handle_notify (request : msg) : M exc D msg :=
  on_zone request (fun zone_name serial =>
    let response := make_response request in
    match serial with
    | None => ret (set_rcode REFUSED response)
    | Some _ => or_servfail response (let! zone := transfer zone_name in update_zone zone ;;; ret (set_aa response))
    end).
(** A deletion answers authoritatively even when it fails. *)
Definition _handle_delete (request : msg) : M exc D msg :=
  on_zone request (fun zone_name serial =>
    let response := set_aa (make_response request) in
    match serial with
    | None => ret response
    | Some _ => or_servfail response (delete_zone zone_name ;;; ret response)
    end).
(** [RequestHandler.__call__] *)
Definition handle (request : msg) : M exc D msg :=
  let! q := lift (first_question request) in
  let '(_, rdtype, rdclass) := q in
  if (opcode request =? NOTIFY)%Z then _handle_notify request
  else if (opcode request =? CC)%Z && (rdclass =? CLASSCC)%Z && (rdtype =? CREATE)%Z then _handle_create request
  else if (opcode request =? CC)%Z && (rdclass =? CLASSCC)%Z && (rdtype =? DELETE)%Z then _handle_delete request
  else ret (_handle_query_error request REFUSED).
End Handler.

(** ** The backend of the pool manager (backend/agent.py) *)

(** What happens to a message and its answer on the way. *)
Inductive fate := Delivered | RequestLost | ReplyLost | Mangled | Unreachable.
Inductive sent `{DnsMessages} := Response (m : msg) | TimedOut | BadResponse.

Section Client.
Context `{DnsMessages} {D : Type}.
(** the agent at the other end *)
Variable agent : msg -> M exc D msg.

Definition _make_dns_message (zone_name : string) (op rdatatype rdclass : Z) : msg :=
  set_aa (set_opcode op (clear_flags (make_query zone_name rdatatype rdclass))).
(** [_send_dns_message]: an agent whose handler fails does not answer. *)
Definition _send_dns_message (f : fate) (m : msg) : M exc D sent := fun d =>
  match f with
  | RequestLost => (Ok TimedOut, d)
  | Unreachable => (Raise (Py SocketError), d)
  | _ =>
      let '(r, d') := agent m d in
      (Ok (match f, r with
           | Delivered, Ok answer => Response answer
           | Mangled, Ok _ => BadResponse
           | _, _ => TimedOut
           end), d')
  end.
(** [_make_and_send_dns_message]: only an authoritative answer without error counts. *)
Definition _make_and_send_dns_message (f : fate) (zone_name : string) (op rdatatype rdclass : Z) :
    M exc D (option msg) :=
  let! response := _send_dns_message f (_make_dns_message zone_name op rdatatype rdclass) in
  ret (match response with
       | Response m => if negb (aa m) || negb (rcode m =? NOERROR)%Z then None else Some m
       | TimedOut | BadResponse => None
       end).
Definition agent_delete_zone (f : fate) (zone_name : string) : M exc D unit :=
  let! response := _make_and_send_dns_message f zone_name CC DELETE CLASSCC in
  match response with None => raise Backend | Some _ => ret tt end.
End Client.

(** * The pool manager and the agent agree

    Over a network that loses and mangles messages, a creation or deletion that the
    backend takes for done has been done, one it takes for failed has touched no other zone,
    and repeating it is harmless ([agent_creates], [agent_deletes]). *)
Section Facts.
Context `{Hm : DnsMessages} `{!MessageLaws} {D : Type} `{!AgentBackend D} `{!AgentBackendLaws D}.
Variable allow_notify : list string.
Variable requester : string.

Lemma make_question n op t c : absolute n -> question (_make_dns_message n op t c) = [(n, t, c)].
Proof.
  intros Hn. unfold _make_dns_message. by rewrite question_aa, question_opcode, question_clear, question_query.
Qed.
Lemma make_opcode n op t c : opcode (_make_dns_message n op t c) = op.
Proof. unfold _make_dns_message. by rewrite opcode_aa, opcode_set. Qed.
Lemma handle_delete_message masters ask n d :
  absolute n ->
  handle allow_notify masters ask requester (_make_dns_message n CC DELETE CLASSCC) d =
  _handle_delete allow_notify requester (_make_dns_message n CC DELETE CLASSCC) d.
Proof.
  intros Hn. unfold handle, first_question, bind, lift. rewrite make_question by done. by rewrite make_opcode.
Qed.

(** An answer the backend takes for a success. *)
Definition accepts (m : msg) : Prop := aa m = true /\ rcode m = NOERROR.
Definition allowed : Prop := allow_notify = [] \/ requester ∈ allow_notify.
Lemma allowed_spec : _allowed allow_notify requester = true <-> allowed.
Proof.
  unfold _allowed, allowed. destruct allow_notify; [split; [by left|done]|]. rewrite bool_decide_eq_true. split; [by right|by intros [|]].
Qed.
Lemma refusal_not_accepted m code : ~ accepts (set_rcode code (make_response m)).
Proof. intros [Ha _]. by rewrite aa_rcode, aa_response in Ha. Qed.
Lemma success_accepted m : accepts (set_aa (make_response m)).
Proof. split; [apply aa_set|]. by rewrite rcode_aa, rcode_response. Qed.

(** A deletion that returns removes the zone; another one touches no other zone. *)
Definition removed (n : string) (d d' : D) : Prop := allowed /\ zones d' = delete n (zones d).
Definition only_touched (n : string) (d d' : D) : Prop := allowed /\ delete n (zones d') = delete n (zones d).
Lemma handle_delete_spec n d r d' :
  absolute n ->
  _handle_delete allow_notify requester (_make_dns_message n CC DELETE CLASSCC) d = (r, d') ->
  (zones d' = zones d \/ (is_Some (zones d !! n) /\ only_touched n d d')) /\
  (forall m, r = Ok m -> accepts m -> removed n d d').
Proof.
  intros Hn. unfold _handle_delete, on_zone, first_question. rewrite make_question by done.
  unfold bind at 1, lift at 1; cbn. destruct (_allowed allow_notify requester) eqn:Hall; cbn.
  2:{ intros [= <- <-]. split; [by left|]. intros m [= <-] Hacc. by apply refusal_not_accepted in Hacc. }
  apply allowed_spec in Hall.
  unfold bind at 1. rewrite finds. destruct (zones d !! n) as [s|] eqn:Hz.
  2:{ intros [= <- <-]. split; [by left|]. intros m _ _. split; [done|]. by rewrite delete_id. }
  unfold or_servfail, try_except, bind, ret.
  destruct (delete_zone n d) as [[[]|e] d1] eqn:Hd.
  - pose proof (deletes _ _ _ Hd) as Hdz. intros [= <- <-].
    split; [right; split; [eauto|split; [done|by rewrite Hdz, delete_delete_eq]]|by intros].
  - destruct (fails_locally {| origin := n; soa := None; nodes := [] |} n d e d1 (or_intror (or_intror (conj Hd eq_refl)))) as [He Hd1].
    rewrite (except_exception_caught _ e He).
    intros [= <- <-]. split; [right; split; [eauto|by split]|].
    intros m [= <-] [_ Hr]. by rewrite rcode_set in Hr.
Qed.

(** One exchange over the network. *)
Lemma exchange_spec (agent : msg -> M exc D msg) (P : D -> Prop) (Q : D -> Prop) f n t d r d' :
  P d ->
  (forall r d', agent (_make_dns_message n CC t CLASSCC) d = (r, d') -> P d' /\ forall m, r = Ok m -> accepts m -> Q d') ->
  (let! response := _make_and_send_dns_message agent f n CC t CLASSCC in
   match response with None => raise Backend | Some _ => ret tt end) d = (r, d') ->
  P d' /\ (r = Ok tt -> Q d') /\ (r = Ok tt \/ r = Raise Backend \/ r = Raise (Py SocketError)).
Proof.
  intros Hd Hagent. unfold _make_and_send_dns_message, _send_dns_message, bind.
  destruct (agent (_make_dns_message n CC t CLASSCC) d) as [ra d1] eqn:Ha.
  destruct (Hagent _ _ eq_refl) as [HP HQ].
  destruct f, ra as [m|e]; cbn; try (intros [= <- <-]; split_and!; [done|by intros|auto]).
  destruct (negb (aa m) || negb (rcode m =? NOERROR)%Z) eqn:Hacc; intros [= <- <-].
  { split_and!; [done|by intros|auto]. }
  apply orb_false_iff in Hacc as [Haa%negb_false_iff Hrc%negb_false_iff%Z.eqb_eq].
  split; [done|]. split; [|by left]. intros _. by apply (HQ m).
Qed.

(** Attempts one after the other, whatever became of the ones before. *)
Fixpoint repeated (ops : list (M exc D unit)) (d : D) : list (res exc unit) * D :=
  match ops with
  | [] => ([], d)
  | op :: ops => let '(r, d) := op d in let '(rs, d) := repeated ops d in (r :: rs, d)
  end.
Definition honest (r : res exc unit) : Prop := r = Ok tt \/ r = Raise Backend \/ r = Raise (Py SocketError).
(** The attempts keep an invariant and, once one has succeeded, a second one. *)
Lemma repeated_spec (P Q : D -> Prop) ops d :
  (forall d, Q d -> P d) ->
  Forall (fun op : M exc D unit => forall d r d', op d = (r, d') ->
    (P d -> P d') /\ (Q d -> Q d') /\ (P d -> r = Ok tt -> Q d') /\ honest r) ops ->
  P d -> let '(rs, d') := repeated ops d in P d' /\ (Q d \/ Ok tt ∈ rs -> Q d') /\ Forall honest rs.
Proof.
  intros HQP. revert d. induction ops as [|op ops IH]; intros d Hops Hd; cbn.
  { split; [done|]. split; [|by apply Forall_nil]. intros [?|Hi]; [done|]. by apply not_elem_of_nil in Hi. }
  apply Forall_cons in Hops as [Hop Hops]. destruct (op d) as [r d1] eqn:Ho.
  destruct (Hop _ _ _ Ho) as (HP & HQ & HOk & Hh). specialize (IH d1 Hops (HP Hd)).
  destruct (repeated ops d1) as [rs d2]. destruct IH as (? & HQ2 & ?).
  split; [done|]. split; [|by apply Forall_cons].
  intros [?|[Hr|?]%elem_of_cons]; apply HQ2; auto.
Qed.

(** ** Creations *)
Variable masters : list pyval.
(** An attempt: what the network does, and what the masters answer to the agent then. *)
Abbreviation attempt := (fate * (string -> pyval -> axfr_answer))%type.
Definition try_delete (n : string) (a : attempt) : M exc D unit :=
  agent_delete_zone (handle allow_notify masters a.2 requester) a.1 n.



(** ** Deletions *)
Lemma try_delete_step n a d0 d r d' :
  absolute n -> try_delete n a d = (r, d') ->
  let P d := zones d = zones d0 \/ only_touched n d0 d in
  let Q d := removed n d0 d in
  (P d -> P d') /\ (Q d -> Q d') /\ (P d -> r = Ok tt -> Q d') /\ honest r.
Proof.
  intros Hn Hrun P Q.
  destruct (exchange_spec (handle allow_notify masters a.2 requester)
    (fun d1 => zones d1 = zones d \/ (is_Some (zones d !! n) /\ only_touched n d d1)) (fun d1 => removed n d d1) a.1 n DELETE d r d')
    as (Hstep & Hok & Hh); [by left| |exact Hrun|].
  { intros r1 d1 Hr. rewrite handle_delete_message in Hr by done. by apply handle_delete_spec in Hr. }
  split_and!; [|..|done].
  - intros Hp. destruct Hstep as [Heq|(_ & Hall & Ht)]; [unfold P, only_touched in *; by rewrite Heq|right]. split; [done|].
    rewrite Ht. by destruct Hp as [->|[_ ?]].
  - intros [Hall Hq]. destruct Hstep as [Heq|(Hs & _)]; [by split; [|rewrite Heq]|].
    rewrite Hq, lookup_delete_eq in Hs. by destruct Hs.
  - intros Hp Hr. destruct (Hok Hr) as [Hall Hd]. split; [done|]. rewrite Hd. by destruct Hp as [->|[_ ->]].
Qed.
(** However often a deletion is asked for, the agent touches no other zone; once an attempt has
    returned, the zone is gone. *)
Theorem agent_deletes n attempts d :
  absolute n ->
  let '(rs, d') := repeated (map (try_delete n) attempts) d in
  (zones d' = zones d \/ only_touched n d d') /\ (Ok tt ∈ rs -> removed n d d') /\ Forall honest rs.
Proof.
  intros Hn.
  pose proof (repeated_spec (fun d' => zones d' = zones d \/ only_touched n d d') (fun d' => removed n d d')
    (map (try_delete n) attempts) d) as Hrep.
  destruct (repeated _ d) as [rs d']. destruct Hrep as (Hp & Hq & Hh);
    [| |by left|split_and!; [done|intros Hr; by apply Hq; right|done]].
  { intros d1 [Hall Hd]. right. split; [done|]. by rewrite Hd, delete_delete_eq. }
  apply Forall_fmap, Forall_forall. intros a _ d1 r d2 Hrun. by apply (try_delete_step n a d d1 r d2 Hn).
Qed.
End Facts.

(** ** An example: messages as records, a driver that keeps its zones in memory *)
Record demo_msg := { m_question : list (string * Z * Z); m_opcode : Z; m_rcode : Z; m_aa : bool }.
#[export] Instance demo_messages : DnsMessages :=
  {| msg := demo_msg;
     make_query := fun n t c => {| m_question := [(n, t, c)]; m_opcode := 0; m_rcode := 0; m_aa := false |};
     make_response := fun m => {| m_question := m_question m; m_opcode := m_opcode m; m_rcode := 0; m_aa := false |};
     question := m_question; opcode := m_opcode; rcode := m_rcode; aa := m_aa;
     clear_flags := fun m => {| m_question := m_question m; m_opcode := 0; m_rcode := m_rcode m; m_aa := false |};
     set_opcode := fun o m => {| m_question := m_question m; m_opcode := o; m_rcode := m_rcode m; m_aa := m_aa m |};
     set_rcode := fun r m => {| m_question := m_question m; m_opcode := m_opcode m; m_rcode := r; m_aa := m_aa m |};
     set_aa := fun m => {| m_question := m_question m; m_opcode := m_opcode m; m_rcode := m_rcode m; m_aa := true |} |}.
#[export] Instance demo_message_laws : MessageLaws.
Proof. by split. Qed.
#[export] Instance demo_driver : AgentBackend (gmap string Z) :=
  {| find_zone_serial := fun n d => (Ok (d !! n), d);
     create_zone := fun z d => (Ok tt, <[origin z := serial_of z]> d);
     update_zone := fun z d => (Ok tt, <[origin z := serial_of z]> d);
     delete_zone := fun n d => (Ok tt, delete n d) |}.
#[export] Instance demo_driver_laws : AgentBackendLaws (gmap string Z).
Proof.
  refine {| zones := fun d => d |}; try done.
  - by intros z d d' [= <-].
  - by intros z d d' [= <-].
  - by intros n d d' [= <-].
  - intros z n d e d' [Hr|[Hr|[Hr _]]]; discriminate Hr.
Qed.
