(* ===== verification/Machine.v ===== *)
(** * The machine a driver runs on

    Files, directories, commands and locks, as the drivers of name servers use them: os,
    tempfile, glob, oslo's processutils and lockutils. The class [Host] is the environment:
    which system calls fail, what commands do, what a directory lists in which order. The
    machine keeps every state of its files, which is what another program may have seen of
    them, and a log of the calls. *)
From Stdlib Require Import ZArith Lia Ascii String.
From stdpp Require Import base option numbers strings sets list gmap.
From S2P Require Import Prelude PyStr Exceptions.
Local Open Scope string_scope.

(** ** Exceptions of the drivers, with what they look at in them *)
Inductive err : Set :=
| EBackend (text : string)
| EProcess (stdout stderr text : string)   (* processutils.ProcessExecutionError *)
| EOS (errno : Z)
| EPython (e : builtin_exc)
| EBase (text : string).              (* exceptions.Base itself *)
Definition ENOENT : Z := 2.
Definition ENOTEMPTY : Z := 39.

(** ** Paths (os.path) *)
Definition path_join (a b : string) : string :=
  if startswith "/" b then b else if (a =? "") || endswith "/" a then a ++ b else a ++ "/" ++ b.
(** [head, tail = os.path.split(p)], for the paths that occur, which have no slash twice *)
Fixpoint path_split (p : string) : string * string :=
  match p with
  | EmptyString => ("", "")
  | String c p' =>
      if has_char "/" p' then let '(h, t) := path_split p' in (String c h, t)
      else if Ascii.eqb c "/" then ("", p') else ("", String c p')
  end.
Definition dirname (p : string) : string := (path_split p).1.
Definition basename (p : string) : string := (path_split p).2.

(** ** The machine *)
Definition tree : Type := gmap string string * gset string.
Inductive act :=
| Sys (call path : string)
| Spawn (run_as_root : bool) (cwd : option string) (cmd : list string)
| Lock (name : string)
| Unlock (name : string).
#[global] Instance act_eq_dec : EqDecision act.
Proof. solve_decision. Defined.
Record machine := {
  files : gmap string string;
  dirs : gset string;
  seen : list (gmap string string);   (* the files after every change, oldest first *)
  acts : list act;                    (* the calls, oldest first *)
}.
Inductive outcome := Finished (out err : string) | Failing (stdout stderr text : string) | NotStarted (errno : Z).
Class Host := {
  (** the error number of a system call that fails, by name and path *)
  sys_fails : machine -> string -> string -> option Z;
  (** the random part of a temporary name *)
  temp_suffix : machine -> string -> string;
  (** what a command answers and makes of files and directories *)
  spawn : machine -> option string -> list string -> outcome * tree;
  (** what others may find in a file while it is written *)
  while_writing : machine -> string -> string -> list string;
  (** the order of a directory listing *)
  listing : machine -> list string -> list string;
  (** [str(e)] *)
  str_of_err : err -> string;
}.
(** The documented behaviour of tempfile, glob and os: temporary names are new and have no
    slash, a listing has what is there, no file is missing that is there. *)
Class HostLaws `{Host} := {
  temp_fresh s p : files s !! (p ++ temp_suffix s p) = None /\ p ++ temp_suffix s p ∉ dirs s;
  temp_flat s p : has_char "/" (temp_suffix s p) = false;
  listing_perm s l : Permutation (listing s l) l;
  missing_only s p : sys_fails s "remove" p = Some ENOENT -> files s !! p = None;
}.

Section Machine.
Context `{Host}.
Abbreviation D A := (M err machine A).

Definition log (a : act) (s : machine) : machine :=
  {| files := files s; dirs := dirs s; seen := seen s; acts := app (acts s) [a] |}.
Definition put (t : gmap string string) (s : machine) : machine :=
  {| files := t; dirs := dirs s; seen := app (seen s) [t]; acts := acts s |}.
Definition put_dirs (ds : gset string) (s : machine) : machine :=
  {| files := files s; dirs := ds; seen := seen s; acts := acts s |}.

(** A system call: recorded, and then failed by the environment or carried out. *)
Definition sys {A} (call path : string) (k : D A) : D A := fun s =>
  let s1 := log (Sys call path) s in
  match sys_fails s call path with Some n => (Raise (EOS n), s1) | None => k s1 end.
(** [os.remove], [os.rename], [os.chmod] *)
Definition os_remove (p : string) : D unit := sys "remove" p (fun s =>
  match files s !! p with Some _ => (Ok tt, put (delete p (files s)) s) | None => (Raise (EOS ENOENT), s) end).
Definition os_rename (a b : string) : D unit := sys "rename" a (fun s =>
  match files s !! a with
  | Some c => if decide (dirname b ∈ dirs s) then (Ok tt, put (<[b := c]> (delete a (files s))) s) else (Raise (EOS ENOENT), s)
  | None => (Raise (EOS ENOENT), s)
  end).
Definition os_chmod (p : string) : D unit := sys "chmod" p (ret tt).
(** [os.rmdir], [os.removedirs] *)
Definition is_empty (d : string) (s : machine) : bool :=
  forallb (fun kv => negb (String.eqb (dirname kv.1) d)) (map_to_list (files s)) &&
  forallb (fun k => negb (String.eqb (dirname k) d)) (elements (dirs s)).
Definition os_rmdir (d : string) : D unit := sys "rmdir" d (fun s =>
  if decide (d ∈ dirs s) then
    if is_empty d s then (Ok tt, put_dirs (dirs s ∖ {[d]}) s) else (Raise (EOS ENOTEMPTY), s)
  else (Raise (EOS ENOENT), s)).
Definition os_error_stops (m : D unit) (k : D unit) : D unit :=
  try_else m (fun e => match e with EOS _ => Some (ret tt) | _ => None end) (fun _ => k).
Fixpoint prune (fuel : nat) (head tail : string) : D unit :=
  match fuel with
  | O => ret tt
  | S fuel =>
      if (head =? "") || (tail =? "") then ret tt
      else os_error_stops (os_rmdir head) (prune fuel (dirname head) (basename head))
  end.
Definition os_removedirs (d : string) : D unit :=
  os_rmdir d ;;; prune (String.length d) (dirname d) (basename d).
(** [try: m except OSError: pass] *)
Definition ignoring_os_errors (m : D unit) : D unit :=
  try_except m (fun e => match e with EOS _ => Some (ret tt) | _ => None end).

(** [tempfile.mkstemp(prefix=prefix, dir=dir)[1]], [tempfile.mkdtemp(dir=dir)] *)
Definition mkstemp (prefix dir : string) : D string := fun s =>
  let p := path_join dir prefix ++ temp_suffix s (path_join dir prefix) in
  sys "mkstemp" p (fun s =>
    if decide (dir ∈ dirs s) then (Ok p, put (<[p := ""]> (files s)) s) else (Raise (EOS ENOENT), s)) s.
Definition mkdtemp (dir : string) : D string := fun s =>
  let p := path_join dir "tmp" ++ temp_suffix s (path_join dir "tmp") in
  sys "mkdtemp" p (fun s =>
    if decide (dir ∈ dirs s) then (Ok p, put_dirs (dirs s ∪ {[p]}) s) else (Raise (EOS ENOENT), s)) s.
(** [open(p, 'w')], [f.write(text)], [open(p).read()] *)
Definition open_w (p : string) : D unit := sys "open" p (fun s =>
  if decide (dirname p ∈ dirs s) then (Ok tt, put (<[p := ""]> (files s)) s) else (Raise (EOS ENOENT), s)).
Definition content (p : string) (s : machine) : string := default "" (files s !! p).
Definition partly_written (p text : string) (s : machine) : machine :=
  foldl (fun s' part => put (<[p := content p s ++ part]> (files s)) s') s (while_writing s p text).
Definition write (p text : string) : D unit := fun s =>
  let s1 := partly_written p text (log (Sys "write" p) s) in
  match sys_fails s "write" p with
  | Some n => (Raise (EOS n), s1)
  | None => (Ok tt, put (<[p := content p s ++ text]> (files s)) s1)
  end.
Definition read (p : string) : D string := sys "open" p (fun s =>
  match files s !! p with Some c => (Ok c, s) | None => (Raise (EOS ENOENT), s) end).
(** [glob.glob(dir/*suffix)] *)
Definition glob (dir suffix : string) : D (list string) := fun s =>
  let here p := String.eqb (dirname p) dir && endswith suffix (basename p) && negb (startswith "." (basename p)) in
  (Ok (listing s (List.filter here (map_to_list (files s)).*1)), s).
(** [lockutils.lock(name)] *)
Definition with_lock {A} (name : string) (m : D A) : D A :=
  try_finally (fun s => m (log (Lock name) s)) (modify (log (Unlock name))).
(** [utils.execute(cmd, cwd=cwd, run_as_root=run_as_root)] *)
Definition execute_in (cwd : option string) (run_as_root : bool) (cmd : list string) : D (string * string) := fun s =>
  let '(o, (fs, ds)) := spawn s cwd cmd in
  let s1 := put fs (put_dirs ds (log (Spawn run_as_root cwd cmd) s)) in
  match o with
  | Finished out err => (Ok (out, err), s1)
  | Failing out err text => (Raise (EProcess out err text), s1)
  | NotStarted n => (Raise (EOS n), s1)
  end.
Definition execute : list string -> D (string * string) := execute_in None true.
End Machine.
