(* ===== verification/AgentDrivers.v ===== *)
(** * Drivers of the agent (designate/backend/agent_backend/)

    impl_knot2.py and impl_bind9.py, which run the control programs of their servers;
    impl_gdnsd.py, which writes zone files; impl_djbdns.py, which lets axfr-get write them and
    rebuilds a database from all of them. Zones come as dnspython reads them; what it writes
    of one is the parameter [zone_text]. *)
From Stdlib Require Import ZArith Lia Ascii String.
From stdpp Require Import base option numbers strings sets list gmap.
From S2P Require Import Prelude PyStr Exceptions Utils Dnsutils Machine.
Local Open Scope string_scope.

(** [zone.origin.to_text(omit_final_dot=True)] *)
Definition origin_text (z : dns_zone) : string :=
  if (origin z =? ".") then "." else if endswith "." (origin z) then drop_last (origin z) else origin z.
(** [s.rstrip('.')] *)
Definition rstrip_dots : string -> string := rstrip (fun c => Ascii.eqb c ".").

Section Drivers.
Context `{Host}.
(** the zone as [to_file] writes it, relative to its origin or not *)
Variable zone_text : bool -> dns_zone -> string.
Abbreviation D A := (M err machine A).

(** A [try] that turns the failures of a command into the exception of backends. *)
Definition process_error {A} (k : string -> string -> string -> D A) (e : err) : option (D A) :=
  match e with EProcess out err text => Some (k out err text) | _ => None end.

(** [zone.to_file(path, relativize=relativize)]: the file is opened and written in place. *)
Definition to_file (zone : dns_zone) (path : string) (relativize : bool) : D unit :=
  open_w path ;;; write path (zone_text relativize zone).

(** ** Knot (Knot2Backend) *)
Section Knot.
Variable _knotc_cmd_name : string.
Definition _lock_name : string := "knot2.lock".
(** Without an expected output of their own all calls expect OK. *)
Definition _execute_knotc (knotc_args : list string) (expected_error : option string) : D unit :=
  try_except
    (let! '(out, err) := execute (_knotc_cmd_name :: knotc_args) in
     let out := rstrip is_space out in
     if (out =? "OK") then ret tt
     else match expected_error with
          | Some alt => if (out =? alt) then ret tt else raise (EProcess out err "")
          | None => raise (EProcess out err "")
          end)
    (process_error (fun _ _ text => raise (EBackend text))).
Definition _start_minidns_to_knot_axfr (zone_name : string) : D unit := _execute_knotc ["zone-refresh"; zone_name] None.
(** [except Exception], then [raise] *)
Definition reraising {A} (m : D A) (cleanup : D unit) (k : A -> D unit) : D unit :=
  try_else m (fun e => match e with EPython Blocked => None | _ => Some (cleanup ;;; raise e) end) k.
Definition _modify_zone (knotc_args : list string) (expected_error : string) : D unit :=
  with_lock _lock_name
    (_execute_knotc ["conf-begin"] None ;;;
     reraising (_execute_knotc knotc_args (Some expected_error))
       (_execute_knotc ["conf-abort"] None)
       (fun _ => _execute_knotc ["conf-commit"] None)).
Fixpoint contains (sub s : string) : bool :=
  startswith sub s || match s with EmptyString => false | String _ s' => contains sub s' end.
(** [s.split()] *)
Fixpoint smap (f : ascii -> ascii) (s : string) : string :=
  match s with EmptyString => "" | String c s' => String (f c) (smap f s') end.
Definition words (s : string) : list string :=
  List.filter (fun w => negb (w =? "")) (split_char " " (smap (fun c => if is_space c then " "%char else c) s)).
(** [int(out.split('|')[1].split()[1])] *)
Definition status_serial (out : string) : option Z :=
  match split_char "|" out !! 1%nat with
  | Some field => match words field !! 1%nat with Some w => int_of_str w | None => None end
  | None => None
  end.
Definition knot_find_zone_serial (zone_name : string) : D (option Z) :=
  try_else (execute [_knotc_cmd_name; "zone-status"; rstrip_dots zone_name])
    (process_error (fun out _ text => if contains "no such zone" out then ret None else raise (EBackend text)))
    (fun '(out, _) => match status_serial out with
                      | Some serial => ret (Some serial)
                      | None => raise (EBackend "Unexpected knotc zone-status output")
                      end).
Definition in_zone (name : string) : string := "zone[" ++ name ++ "]".
Definition knot_create_zone (zone : dns_zone) : D unit :=
  let zone_name := origin_text zone in
  _modify_zone ["conf-set"; in_zone zone_name] "duplicate identifier" ;;;
  _start_minidns_to_knot_axfr zone_name.
Definition knot_update_zone (zone : dns_zone) : D unit := _start_minidns_to_knot_axfr (origin_text zone).
Definition knot_delete_zone (zone_name : string) : D unit :=
  _modify_zone ["conf-unset"; in_zone zone_name] "invalid identifier".
End Knot.

(** ** Bind (Bind9Backend) *)
Section Bind.
(** [[backend:agent:bind9]]; an option that is not set is [""] *)
Variables rndc_host rndc_config_file rndc_key_file zone_file_path : string.
Variable rndc_port : Z.
Definition _rndc_base : list string :=
  app ["rndc"; "-s"; rndc_host; "-p"; str_of_Z rndc_port]
    (app (if (rndc_config_file =? "") then [] else ["-c"; rndc_config_file])
         (if (rndc_key_file =? "") then [] else ["-k"; rndc_key_file])).
Definition _execute_rndc (rndc_call : list string) : D unit :=
  try_except (execute rndc_call ;;; ret tt) (process_error (fun _ _ text => raise (EBackend text))).
Definition _sync_zone (zone : dns_zone) (new_zone_flag : bool) : D unit :=
  let zone_name := origin_text zone in
  with_lock ("bind9-" ++ zone_name)
    (let output_path := path_join zone_file_path (zone_name ++ ".zone") in
     to_file zone output_path false ;;;
     _execute_rndc (app _rndc_base
       (if new_zone_flag
        then ["addzone"; zone_name ++ " { type master; file " ++ dqs ++ output_path ++ dqs ++ "; };"]
        else ["reload"; zone_name]))).
Definition bind_create_zone (zone : dns_zone) : D unit := _sync_zone zone true.
Definition bind_update_zone (zone : dns_zone) : D unit := _sync_zone zone false.
(** Here a failing command is no [Backend]. *)
Definition bind_delete_zone (zone_name : string) : D unit :=
  execute (app _rndc_base ["delzone"; rstrip_dots zone_name]) ;;; ret tt.
End Bind.

(** [filter_exceptions] of the next two drivers *)
Definition filter_exceptions {A} (m : D A) : D A :=
  try_except m (fun e => match e with
                         | EBackend _ | EPython Blocked => None
                         | _ => Some (raise (EBackend (str_of_err e)))
                         end).
(** [_check_dirs] *)
Definition _check_dirs (dirnames : list string) : D unit :=
  mfor dirnames (fun dn =>
    let! ds := gets dirs in
    raise_if (negb (bool_decide (dn ∈ ds))) (EBackend ("Missing directory " ++ dn)) ;;;
    try_except (sys "access" dn (ret tt))
      (fun e => match e with EOS _ => Some (raise (EBackend ("Directory not writable: " ++ dn))) | _ => None end)).
(** Deleting a file that may be gone already: whether it was there. *)
Definition remove_if_there (path : string) : D bool :=
  try_except (os_remove path ;;; ret true)
    (fun e => match e with EOS n => if (n =? ENOENT)%Z then Some (ret false) else None | _ => None end).

(** ** gdnsd (GdnsdBackend) *)
Section Gdnsd.
Variables _confdir_path gdnsd_cmd_name : string.
Definition _zonedir_path : string := path_join _confdir_path "zones".
Definition _check_conf : D unit :=
  try_except (execute_in None false [gdnsd_cmd_name; "-D"; "-x"; "checkconf"; "-c"; _confdir_path] ;;; ret tt)
    (process_error (fun _ _ _ => raise (EBackend "Configuration check failed"))).
Definition valid_char (c : ascii) : bool :=
  is_upper c || is_lower c || is_digit c || has_char c "-_.@".
(** [string.replace('/', '@').lower()], then everything else as a character of number 3 and
    the decimal number of the character *)
Definition slash_to_at (c : ascii) : ascii := if Ascii.eqb c "/" then "@"%char else c.
Fixpoint encode_chars (s : string) : string :=
  match s with
  | EmptyString => ""
  | String c s' => if valid_char c then String c (encode_chars s')
                   else String "003" (str_of_Z (Z.of_nat (nat_of_ascii c)) ++ encode_chars s')
  end.
Definition _generate_zone_filename (zone_name : string) : string :=
  encode_chars (lower (smap slash_to_at zone_name)).
Definition _write_zone_file (zone : dns_zone) : D unit := fun s =>
  let zone_base_fname := _generate_zone_filename (origin_text zone) in
  let zone_fname := path_join _zonedir_path zone_base_fname in
  match mkstemp ("." ++ zone_base_fname) _zonedir_path s with
  | (Raise _, s1) => (Raise (EPython PyUnboundLocalError), s1)   (* the [finally] names a variable not set *)
  | (Ok tmp_zone_fname, s1) =>
      try_finally
        (to_file zone tmp_zone_fname true ;;; os_chmod tmp_zone_fname ;;; os_rename tmp_zone_fname zone_fname)
        (ignoring_os_errors (os_remove tmp_zone_fname)) s1
  end.
Definition gdnsd_create_zone (zone : dns_zone) : D unit := filter_exceptions (_write_zone_file zone).
Definition gdnsd_update_zone (zone : dns_zone) : D unit := filter_exceptions (_write_zone_file zone).
Definition gdnsd_delete_zone (zone_name : string) : D unit :=
  filter_exceptions
    (remove_if_there (path_join _zonedir_path (_generate_zone_filename (rstrip_dots zone_name))) ;;; ret tt).
End Gdnsd.

(** ** djbdns (DjbdnsBackend) *)
Section Djbdns.
Variables tinydns_datadir _tcpclient_cmd_name _axfr_get_cmd_name tinydns_data_cmd_name : string.
(** the master [random.choice] picks *)
Variable master : machine -> string * Z.
Definition tinydns_root_dir : string := path_join tinydns_datadir "root".
Definition _tinydns_cdb_filename : string := path_join tinydns_root_dir "data.cdb".
Definition _datafiles_dir : string := path_join tinydns_datadir "datafiles".
Definition _datafiles_tmp_path (zone : string) : string := path_join _datafiles_dir (zone ++ ".ztmp").
Definition _datafiles_path (zone : string) : string := path_join _datafiles_dir (zone ++ ".zonedata").
Definition _concatenate_zone_datafiles (data_fn : string) : D unit :=
  open_w data_fn ;;;
  let! zone_fns := glob _datafiles_dir ".zonedata" in
  mfor zone_fns (fun zone_fn => let! text := read zone_fn in write data_fn text).
Definition _rebuild_data_cdb : D unit :=
  let! tmpdir := mkdtemp _datafiles_dir in
  let data_fn := path_join tmpdir "data" in
  let tmp_cdb_fn := path_join tmpdir "data.cdb" in
  try_finally
    (_concatenate_zone_datafiles data_fn ;;;
     try_except (execute_in (Some tmpdir) true [tinydns_data_cmd_name] ;;; ret tt)
       (process_error (fun _ _ _ => raise (EBackend "Failed to generate data.cdb"))) ;;;
     try_except (os_rename tmp_cdb_fn _tinydns_cdb_filename)
       (fun e => match e with
                 | EOS _ => Some (os_remove tmp_cdb_fn ;;; raise (EBackend "Unable to move data.cdb"))
                 | _ => None
                 end))
    (ignoring_os_errors (os_remove data_fn) ;;; ignoring_os_errors (os_removedirs tmpdir)).
Definition _perform_axfr_from_minidns (zone_name : string) : D unit :=
  let zone_fn := _datafiles_path zone_name in
  let zone_tmp_fn := _datafiles_tmp_path zone_name in
  let! '(mdns_hostname, mdns_port) := gets master in
  with_lock (zone_name ++ ".lock")
    (try_finally
      (try_except (execute [_tcpclient_cmd_name; mdns_hostname; str_of_Z mdns_port; _axfr_get_cmd_name;
                            zone_name; zone_fn; zone_tmp_fn] ;;; ret tt)
        (process_error (fun _ _ text => raise (EBackend text))))
      (ignoring_os_errors (os_remove zone_tmp_fn))).
Definition djbdns_create_zone (zone : dns_zone) : D unit :=
  filter_exceptions (_perform_axfr_from_minidns (origin_text zone) ;;; _rebuild_data_cdb).
Definition djbdns_update_zone (zone : dns_zone) : D unit :=
  filter_exceptions (_perform_axfr_from_minidns (origin_text zone) ;;; _rebuild_data_cdb).
Definition djbdns_delete_zone (zone_name : string) : D unit :=
  filter_exceptions
    (let! there := remove_if_there (_datafiles_path (rstrip_dots zone_name)) in
     if there then _rebuild_data_cdb else ret tt).
End Djbdns.
End Drivers.

(** ** Microsoft DNS (MSDNSBackend) *)
Inductive win_err := DNSZoneNotFound | DNSZoneAlreadyExists | WinError.
(** os_win's dnsutils, over a state of its own *)
Class DnsUtils (W : Type) := {
  get_zone_serial : string -> M win_err W Z;
  zone_create : string -> Z -> bool -> list string -> M win_err W unit;
  get_zone_properties : string -> M win_err W (Z * bool * list string);
  zone_update : string -> M win_err W unit;
  zone_delete : string -> M win_err W unit;
}.
Section Msdns.
Context {W : Type} `{!DnsUtils W}.
(** os_win's number for the type, and [[service:agent] masters] *)
Variable DNS_ZONE_TYPE_SECONDARY : Z.
Variable masters : list string.
Definition _masters : list string := map (fun ns => match split_char ":" ns with m :: _ => m | [] => "" end) masters.
Definition msdns_find_zone_serial (zone_name : string) : M win_err W (option Z) :=
  try_except (let! serial := get_zone_serial (rstrip_dots zone_name) in ret (Some serial))
    (fun e => match e with DNSZoneNotFound => Some (ret None) | _ => None end).
Definition same_elements (a b : list string) : bool := bool_decide (a ⊆ b) && bool_decide (b ⊆ a).
Definition msdns_create_zone (zone : dns_zone) : M win_err W unit :=
  let zone_name := origin_text zone in
  try_except (zone_create zone_name DNS_ZONE_TYPE_SECONDARY false _masters)
    (fun e => match e with
              | DNSZoneAlreadyExists => Some (
                  let! '(zone_type, ds_integrated, master_servers) := get_zone_properties zone_name in
                  raise_if (negb ((zone_type =? DNS_ZONE_TYPE_SECONDARY)%Z && negb ds_integrated &&
                                  same_elements master_servers _masters)) e)
              | _ => None
              end).
Definition msdns_update_zone (zone : dns_zone) : M win_err W unit := zone_update (origin_text zone).
Definition msdns_delete_zone (zone_name : string) : M win_err W unit := zone_delete (rstrip_dots zone_name).
End Msdns.
