(* ===== verification/AgentDriversFacts.v ===== *)
(** * The drivers of the agent: theorems *)
From Stdlib Require Import ZArith Lia Ascii String DecimalString.
From stdpp Require Import base option numbers strings sets list gmap.
From S2P Require Import Prelude PyStr Exceptions Utils Dnsutils Machine AgentDrivers.
Local Open Scope string_scope.

(** ** Paths *)
Lemma path_split_join d n : has_char "/" n = false -> path_split (d ++ String "/" n) = (d, n).
Proof.
  intros Hn. induction d as [|c d IH].
  - cbn [append path_split]. by rewrite Hn.
  - cbn [append path_split]. rewrite has_char_app. cbn [has_char]. rewrite (Ascii.eqb_refl "/"), orb_true_r.
    by rewrite IH.
Qed.
(** A directory that [path_join] puts a slash after. *)
Definition plain_dir (d : string) : Prop := d <> "" /\ endswith "/" d = false.
Lemma path_join_flat d n : plain_dir d -> has_char "/" n = false -> path_join d n = d ++ String "/" n.
Proof.
  intros [Hd He] Hn. unfold path_join.
  assert (startswith "/" n = false) as ->.
  { destruct n as [|c n]; [done|]. cbn [has_char] in Hn. apply orb_false_iff in Hn as [Hc%Ascii.eqb_neq _].
    unfold startswith. cbn [String.prefix]. by destruct (ascii_dec "/" c). }
  apply String.eqb_neq in Hd. by rewrite Hd, He.
Qed.
Lemma dirname_flat d n : has_char "/" n = false -> dirname (d ++ String "/" n) = d.
Proof. intros. unfold dirname. by rewrite path_split_join. Qed.
Lemma basename_flat d n : has_char "/" n = false -> basename (d ++ String "/" n) = n.
Proof. intros. unfold basename. by rewrite path_split_join. Qed.

(** ** Hidden files

    A reader of the zone files does not look at hidden ones. *)
Definition hidden (p : string) : bool := startswith "." (basename p).
Definition looks_like (f g : gmap string string) : Prop := forall p, hidden p = false -> g !! p = f !! p.
#[export] Instance looks_like_preorder : PreOrder looks_like.
Proof. split; [done|]. intros f g h Hfg Hgh p Hp. by rewrite (Hgh p Hp), (Hfg p Hp). Qed.
Lemma looks_like_insert p c f : hidden p = true -> looks_like f (<[p := c]> f).
Proof. intros Hp q Hq. apply lookup_insert_ne. congruence. Qed.
Lemma looks_like_delete p f : hidden p = true -> looks_like f (delete p f).
Proof. intros Hp q Hq. apply lookup_delete_ne. congruence. Qed.

(** What others see of the files from one state to another is in [Q]. *)
Definition shows (Q : gmap string string -> Prop) (s s' : machine) : Prop :=
  exists l, seen s' = app (seen s) l /\ Forall Q l.
Lemma shows_refl Q s s' : seen s' = seen s -> shows Q s s'.
Proof. intros E. exists []. by rewrite E, app_nil_r. Qed.
Lemma shows_trans Q s1 s2 s3 : shows Q s1 s2 -> shows Q s2 s3 -> shows Q s1 s3.
Proof.
  intros (l1 & E1 & H1) (l2 & E2 & H2). exists (app l1 l2). rewrite E2, E1, app_assoc. split; [done|].
  by apply Forall_app.
Qed.
Lemma shows_weaken (Q Q' : gmap string string -> Prop) s s' : (forall f, Q f -> Q' f) -> shows Q s s' -> shows Q' s s'.
Proof. intros HQ (l & E & Hl). exists l. split; [done|]. by eapply Forall_impl. Qed.
Lemma shows_put Q t s : Q t -> shows Q s (put t s).
Proof. intros HQ. exists [t]. split; [done|]. by constructor. Qed.

Section Facts.
Context `{HostLaws}.
Abbreviation D A := (M err machine A).

(** A computation whose changes nobody sees. *)
Class Discreet {A} (m : D A) : Prop :=
  discreet : forall s r s', m s = (r, s') -> shows (looks_like (files s)) s s' /\ looks_like (files s) (files s').
#[local] Instance ret_discreet {A} (a : A) : Discreet (ret a).
Proof. intros s r s' [= _ <-]. split; [by apply shows_refl|done]. Qed.
#[local] Instance bind_discreet {A B} (m : D A) (f : A -> D B) :
  Discreet m -> (forall a, Discreet (f a)) -> Discreet (bind m f).
Proof.
  intros Hm Hf s r s'. unfold bind. destruct (m s) as [[a|e] s1] eqn:E1; intros E2.
  - destruct (Hm _ _ _ E1) as [S1 L1], (Hf _ _ _ _ E2) as [S2 L2]. split; [|by etrans].
    eapply shows_trans; [done|]. eapply shows_weaken; [|exact S2]. intros f' Hf'. by etrans.
  - injection E2 as <- <-. by eapply Hm.
Qed.
Lemma ignoring_discreet (m : D unit) : Discreet m -> Discreet (ignoring_os_errors m).
Proof.
  intros Hm s r s'. unfold ignoring_os_errors, try_except. destruct (m s) as [[[]|e] s1] eqn:E.
  - intros [= _ <-]. by eapply Hm.
  - destruct e; intros [= _ <-]; by eapply Hm.
Qed.
#[local] Instance sys_discreet {A} c p (k : D A) : Discreet k -> Discreet (sys c p k).
Proof.
  intros Hk s r s'. unfold sys. case_match.
  - intros [= _ <-]. split; [by apply shows_refl|done].
  - intros E%Hk. exact E.
Qed.
Lemma remove_discreet p : hidden p = true -> Discreet (os_remove p).
Proof.
  intros Hp. apply sys_discreet. intros s r s'. case_match; intros [= _ <-].
  - split; [apply shows_put|]; by apply looks_like_delete.
  - split; [by apply shows_refl|done].
Qed.
Lemma puts_discreet p c0 f0 l s :
  hidden p = true -> looks_like f0 (files s) ->
  let s' := foldl (fun s' part => put (<[p := c0 ++ part]> f0) s') s l in
  shows (looks_like f0) s s' /\ looks_like f0 (files s').
Proof.
  intros Hp. revert s. induction l as [|x l IH]; intros s Hs; [split; [by apply shows_refl|done]|].
  assert (Hx : looks_like f0 (<[p := c0 ++ x]> f0)) by by apply looks_like_insert.
  destruct (IH (put (<[p := c0 ++ x]> f0) s) Hx) as [S1 L1]. split; [|exact L1].
  eapply shows_trans; [|exact S1]. by apply shows_put.
Qed.
Lemma partly_written_discreet p text s :
  hidden p = true -> shows (looks_like (files s)) s (partly_written p text s) /\
    looks_like (files s) (files (partly_written p text s)).
Proof. intros Hp. by apply puts_discreet. Qed.
Lemma write_discreet p text : hidden p = true -> Discreet (write p text).
Proof.
  intros Hp s r s'. unfold write. set (s1 := log (Sys "write" p) s).
  destruct (partly_written_discreet p text s1 Hp) as [S1 L1]. case_match; intros [= _ <-]; [done|].
  split; [|by apply (looks_like_insert p _ (files s))].
  eapply shows_trans; [exact S1|]. apply shows_put. by apply (looks_like_insert p _ (files s)).
Qed.
Lemma open_w_discreet p : hidden p = true -> Discreet (open_w p).
Proof.
  intros Hp. apply sys_discreet. intros s r s'. case_match; intros [= _ <-].
  - split; [apply shows_put|]; by apply looks_like_insert.
  - split; [by apply shows_refl|done].
Qed.

(** ** What successful calls do *)
Lemma sys_Ok {A} c p (k : D A) s a s' :
  sys c p k s = (Ok a, s') -> k (log (Sys c p) s) = (Ok a, s').
Proof. unfold sys. by case_match. Qed.
Lemma write_Ok p text s u s' :
  write p text s = (Ok u, s') -> files s' = <[p := content p s ++ text]> (files s) /\ dirs s' = dirs s.
Proof.
  unfold write. case_match; intros [= _ <-]. split; [done|]. cbn.
  unfold partly_written. set (l := while_writing _ _ _). clearbody l. set (c0 := content p _). set (f0 := files _).
  assert (Hl : forall s0, dirs (foldl (fun s' part => put (<[p := c0 ++ part]> f0) s') s0 l) = dirs s0).
  { induction l as [|x l IH]; intros s0; [done|]. cbn. by rewrite IH. }
  by rewrite Hl.
Qed.
Lemma open_w_Ok p s u s' :
  open_w p s = (Ok u, s') -> files s' = <[p := ""]> (files s) /\ dirs s' = dirs s /\ dirname p ∈ dirs s.
Proof. intros E%sys_Ok. cbn in E. case_decide; [|done]. injection E as _ <-. done. Qed.
Lemma os_rename_Ok a b s u s' :
  os_rename a b s = (Ok u, s') -> exists c, files s !! a = Some c /\ files s' = <[b := c]> (delete a (files s)) /\
    seen s' = app (seen s) [files s'] /\ dirs s' = dirs s.
Proof. intros E%sys_Ok. cbn in E. destruct (files s !! a); [|done]. case_decide; [|done]. injection E as _ <-. eauto. Qed.
Lemma os_rename_failing a b s e s' : os_rename a b s = (Raise e, s') -> exists n, e = EOS n /\ s' = log (Sys "rename" a) s.
Proof.
  unfold os_rename, sys. destruct (sys_fails _ _ _); [|cbn; destruct (files s !! a); [case_decide|]]; intros [= <- <-]; eauto.
Qed.
Lemma os_chmod_Ok p s u s' : os_chmod p s = (Ok u, s') -> files s' = files s.
Proof. intros E%sys_Ok. unfold ret in E. injection E as _ <-. done. Qed.
Lemma os_remove_gone p s : files s !! p = None ->
  let s' := log (Sys "remove" p) s in ignoring_os_errors (os_remove p) s = (Ok tt, s').
Proof.
  intros Hp s'. unfold ignoring_os_errors, try_except, os_remove, sys.
  destruct (sys_fails s "remove" p); [done|]. cbn. by rewrite Hp.
Qed.
Lemma os_remove_failing p s e s' : os_remove p s = (Raise e, s') -> exists n, e = EOS n /\ s' = log (Sys "remove" p) s.
Proof. unfold os_remove, sys. destruct (sys_fails _ _ _); [|cbn; destruct (files s !! p)]; intros [= <- <-]; eauto. Qed.
Lemma ignoring_remove p s : exists s', ignoring_os_errors (os_remove p) s = (Ok tt, s').
Proof.
  unfold ignoring_os_errors, try_except. destruct (os_remove p s) as [[[]|e] s1] eqn:E; [eauto|].
  apply os_remove_failing in E as (n & -> & ->). eauto.
Qed.
Lemma mkstemp_run prefix dir s :
  exists s1, let p := path_join dir prefix ++ temp_suffix s (path_join dir prefix) in
  (exists n, mkstemp prefix dir s = (Raise (EOS n), s1) /\ files s1 = files s /\ seen s1 = seen s) \/
  (mkstemp prefix dir s = (Ok p, s1) /\ files s1 = <[p := ""]> (files s) /\ dir ∈ dirs s /\
   seen s1 = app (seen s) [<[p := ""]> (files s)]).
Proof.
  unfold mkstemp, sys. case_match; [eexists; left; eauto|]. cbn. case_decide; eexists; [right|left]; eauto.
Qed.

(** ** gdnsd: zone files *)
Lemma has_slash_digits d : has_char "/" (NilEmpty.string_of_uint d) = false.
Proof. induction d; cbn; auto. Qed.
Lemma has_slash_number n : has_char "/" (str_of_Z (Z.of_nat n)) = false.
Proof.
  assert (Hz : forall u, has_char "/" (NilZero.string_of_uint u) = false)
    by (intros []; [done|apply has_slash_digits..]).
  unfold str_of_Z. destruct (Z.to_int _); cbn; [apply Hz|rewrite Hz; done].
Qed.
Lemma encode_chars_flat s : has_char "/" (encode_chars s) = false.
Proof.
  induction s as [|c s IH]; [done|]. cbn [encode_chars]. destruct (valid_char c) eqn:Hc; cbn [has_char].
  - rewrite IH, orb_false_r. apply Ascii.eqb_neq. by intros ->.
  - rewrite has_char_app, IH, has_slash_number. done.
Qed.
Lemma filename_flat n : has_char "/" (_generate_zone_filename n) = false.
Proof. apply encode_chars_flat. Qed.
Lemma lower_char_dot c : lower_char c = "."%char -> c = "."%char.
Proof. by destruct c as [[] [] [] [] [] [] [] []]. Qed.
Lemma filename_visible n : startswith "." n = false -> startswith "." (_generate_zone_filename n) = false.
Proof.
  destruct n as [|c n]; [done|]. unfold _generate_zone_filename. cbn [smap lower encode_chars].
  set (c' := lower_char (slash_to_at c)). unfold startswith. cbn [String.prefix]. intros Hc.
  destruct (valid_char c'); cbn [String.prefix]; [|done].
  destruct (ascii_dec "." c') as [E|]; [|done]. exfalso. symmetry in E. apply lower_char_dot in E.
  unfold slash_to_at in E. destruct (Ascii.eqb_spec c "/"); [done|]. subst c.
  destruct (ascii_dec "." "."); [|done]. by destruct n.
Qed.
End Facts.
Section Gdnsd_facts.
Context `{HostLaws}.
Variable zone_text : bool -> dns_zone -> string.
Variable confdir : string.

Lemma to_file_Ok zone p rel s u s' :
  to_file zone_text zone p rel s = (Ok u, s') -> files s' = <[p := zone_text rel zone]> (files s).
Proof.
  unfold to_file. intros (? & s1 & (E1 & _ & _)%open_w_Ok & [E2 _]%write_Ok)%bind_Ok.
  rewrite E2, E1. unfold content. rewrite E1, lookup_insert_eq. cbn. apply insert_insert_eq.
Qed.
Lemma zonedir_plain : plain_dir (_zonedir_path confdir).
Proof.
  unfold _zonedir_path, path_join. change (startswith "/" "zones") with false. cbv iota.
  assert (Hs : forall d, plain_dir (d ++ "zones")).
  { intros d. split; [by destruct d|]. unfold endswith, slast. rewrite slength_app. cbn [String.length].
    replace (String.length d + 5 - 1)%nat with (String.length (d ++ "zone")) by (rewrite slength_app; cbn; lia).
    change "zones" with ("zone" ++ "s"). rewrite <- sapp_assoc, sdrop_app. apply andb_false_r. }
  case_match; [apply Hs|]. change ("/" ++ "zones") with ("/" ++ "zones").
  rewrite <- sapp_assoc. apply Hs.
Qed.
Definition zone_file (zone : dns_zone) : string :=
  path_join (_zonedir_path confdir) (_generate_zone_filename (origin_text zone)).
Definition new_files (zone : dns_zone) (s : machine) : gmap string string :=
  <[zone_file zone := zone_text true zone]> (files s).
Lemma zone_file_flat zone :
  zone_file zone = _zonedir_path confdir ++ String "/" (_generate_zone_filename (origin_text zone)).
Proof. apply path_join_flat; [apply zonedir_plain|apply filename_flat]. Qed.
Lemma temp_file_flat zone s :
  let d := path_join (_zonedir_path confdir) ("." ++ _generate_zone_filename (origin_text zone)) in
  exists n, has_char "/" n = false /\ d ++ temp_suffix s d = _zonedir_path confdir ++ String "/" (String "." n).
Proof.
  intros d. exists (_generate_zone_filename (origin_text zone) ++ temp_suffix s d). split.
  - by rewrite has_char_app, filename_flat, temp_flat.
  - unfold d at 1. rewrite path_join_flat; [by rewrite sapp_assoc|apply zonedir_plain|].
    cbn [append has_char]. by rewrite filename_flat.
Qed.
(** Everything up to the renaming. *)
Lemma writing_discreet zone p : hidden p = true ->
  Discreet (to_file zone_text zone p true ;;; os_chmod p).
Proof.
  intros Hp. apply bind_discreet; [apply bind_discreet; [by apply open_w_discreet|intros; by apply write_discreet]|].
  intros _. apply sys_discreet, ret_discreet.
Qed.
(** No command and no thread is waited for: what is raised is an exception like others. *)
Lemma write_zone_file_unblocked zone s s' :
  _write_zone_file zone_text confdir zone s <> (Raise (EPython Blocked), s').
Proof.
  unfold _write_zone_file. destruct (mkstemp _ _ s) as [[tmp|e] s1]; [|by intros [=]].
  unfold try_finally. destruct (bind _ _ s1) as [r s2] eqn:E. destruct (ignoring_remove tmp s2) as [s3 ->].
  intros [= -> _]. apply bind_Raise in E as [E|(? & s4 & _ & E)].
  { unfold to_file in E. apply bind_Raise in E as [E|(? & s4 & _ & E)]; revert E.
    - unfold open_w, sys. case_match; [by intros [=]|]. cbn. by case_decide.
    - unfold write. by case_match. }
  apply bind_Raise in E as [E|(? & s5 & _ & (k & ? & _)%os_rename_failing)]; [|done].
  revert E. unfold os_chmod, sys. by case_match.
Qed.
Lemma write_zone_file_spec zone s r s' :
  startswith "." (origin_text zone) = false ->
  _write_zone_file zone_text confdir zone s = (r, s') ->
  shows (fun f => looks_like (files s) f \/ looks_like (new_files zone s) f) s s' /\
  (r = Ok tt /\ files s' = new_files zone s \/ exists e, r = Raise e /\ looks_like (files s) (files s')).
Proof.
  intros Hn. unfold _write_zone_file.
  destruct (temp_file_flat zone s) as (n & Hflat & Htmp).
  destruct (mkstemp_run ("." ++ _generate_zone_filename (origin_text zone)) (_zonedir_path confdir) s)
    as (s1 & [(k & -> & Hf & Hs)|(-> & Hf & _ & Hs)]).
  { intros [= <- <-]. split; [by apply shows_refl|]. right. eexists. split; [done|]. by rewrite Hf. }
  set (tmp := _ ++ _) in *. pose proof (temp_fresh s (path_join (_zonedir_path confdir) ("." ++ _generate_zone_filename (origin_text zone)))) as [Hfresh _].
  change (files s !! tmp = None) in Hfresh.
  assert (Hh : hidden tmp = true).
  { unfold hidden. rewrite Htmp, basename_flat; [apply startswith_app; by exists n|]. cbn [has_char]. by rewrite Hflat. }
  assert (Hv : hidden (zone_file zone) = false).
  { unfold hidden. rewrite zone_file_flat, basename_flat by apply filename_flat. by apply filename_visible. }
  assert (Hne : tmp <> zone_file zone) by congruence.
  assert (L1 : looks_like (files s) (files s1)) by (rewrite Hf; by apply looks_like_insert).
  assert (S1 : shows (looks_like (files s)) s s1) by (exists [files s1]; rewrite Hs, Hf; split; [done|]; constructor; [by rewrite <- Hf|done]).
  unfold try_finally. rewrite <- bind_assoc. fold (zone_file zone).
  destruct (bind (bind (to_file _ _ _ _) _) _ s1) as [r2 s3] eqn:E.
  destruct (ignoring_remove tmp s3) as [s4 E4]. rewrite E4. intros [= <- <-].
  pose proof (ignoring_discreet _ (remove_discreet tmp Hh) _ _ _ E4) as [S4 L4].
  pose proof (writing_discreet zone tmp Hh s1) as HW.
  unfold bind in E at 1. destruct (bind (to_file _ _ _ _) _ s1) as [[u|e] s2] eqn:E2.
  - destruct (HW _ _ eq_refl) as [S2 L2]. apply bind_Ok in E2 as (? & s1' & Ef%to_file_Ok & Ec%os_chmod_Ok).
    assert (S2' : shows (looks_like (files s)) s s2).
    { eapply shows_trans; [exact S1|]. eapply shows_weaken; [|exact S2]. intros f Hff. by etrans. }
    destruct r2 as [[]|e].
    + apply os_rename_Ok in E as (c & Hc & Hf3 & Hs3 & _).
      assert (Hnew : files s3 = new_files zone s).
      { rewrite Ec, Ef, lookup_insert_eq in Hc. injection Hc as <-.
        rewrite Hf3, Ec, Ef, Hf, insert_insert_eq, delete_insert_id by done. done. }
      rewrite os_remove_gone in E4. 2:{ rewrite Hnew. unfold new_files. by rewrite lookup_insert_ne. }
      injection E4 as <-. split; [|left; split; [done|exact Hnew]].
      eapply shows_trans; [eapply shows_weaken; [|exact S2']; auto|].
      exists [files s3]. cbn. rewrite Hs3, Hnew. split; [done|]. constructor; [by right|done].
    + apply os_rename_failing in E as (k & -> & ->). split; [|right; eexists; split; [done|]].
      * eapply shows_weaken with (Q := looks_like (files s)); [auto|].
        eapply shows_trans; [exact S2'|]. eapply shows_trans; [by apply shows_refl|].
        eapply shows_weaken; [|exact S4]. intros f Hff. etrans; [|exact Hff]. cbn. etrans; [exact L1|exact L2].
      * etrans; [|exact L4]. etrans; [exact L1|exact L2].
  - injection E as <- <-. destruct (HW _ _ eq_refl) as [S2 L2]. split; [|right; eexists; split; [done|]].
    + eapply shows_weaken with (Q := looks_like (files s)); [auto|]. eapply shows_trans; [exact S1|].
      eapply shows_trans; [eapply shows_weaken; [|exact S2]; intros f Hff; by etrans|].
      eapply shows_weaken; [|exact S4]. intros f Hff. etrans; [|exact Hff]. by etrans.
    + etrans; [|exact L4]. by etrans.
Qed.
(** C20: a zone file of gdnsd changes in one step. Whatever fails while a zone is created or
    updated, those who read the directory of the zones, where they pass over hidden files,
    see at every moment either all the files that were there, or these with the whole text
    of the zone in the file of its name, which lies in that directory; the call returns
    exactly when the second is what it leaves, without a file left over, and raises
    [Backend] otherwise. *)
Theorem zone_file_atomic zone s r s' :
  startswith "." (origin_text zone) = false ->
  gdnsd_create_zone zone_text confdir zone s = (r, s') \/ gdnsd_update_zone zone_text confdir zone s = (r, s') ->
  dirname (zone_file zone) = _zonedir_path confdir /\
  shows (fun f => looks_like (files s) f \/ looks_like (new_files zone s) f) s s' /\
  (r = Ok tt /\ files s' = new_files zone s \/
   exists text, r = Raise (EBackend text) /\ looks_like (files s) (files s')).
Proof.
  intros Hn Hr. split; [rewrite zone_file_flat; apply dirname_flat, filename_flat|].
  assert (Hr' : filter_exceptions (_write_zone_file zone_text confdir zone) s = (r, s')) by (destruct Hr; done).
  clear Hr. revert Hr'. unfold filter_exceptions, try_except.
  destruct (_write_zone_file zone_text confdir zone s) as [r0 s0] eqn:E.
  pose proof (write_zone_file_spec zone s r0 s0 Hn E) as [HS Hr0].
  pose proof (write_zone_file_unblocked zone s s0) as Hb.
  destruct Hr0 as [[-> Hnew]|(e & -> & Hold)].
  - intros [= <- <-]. auto.
  - destruct e as [text|o x text|k|b|text]; [| | |destruct b|]; intros [= <- <-]; try (split; [exact HS|right; eauto]; fail).
    by destruct Hb.
Qed.
End Gdnsd_facts.

(** ** A machine for examples: whatever is asked for works, but what [fails] names. *)
Section Calm.
Definition longest (s : machine) : nat :=
  foldr Nat.max 0%nat (map String.length (app (map fst (map_to_list (files s))) (elements (dirs s)))).
Fixpoint xs (n : nat) : string := match n with O => "" | S n => String "x" (xs n) end.
Definition calm (fails : machine -> string -> string -> option Z)
    (run : machine -> option string -> list string -> outcome * tree) : Host :=
  {| sys_fails := fails; temp_suffix s _ := xs (S (longest s)); spawn := run;
     while_writing _ _ text := [String.substring 0 3 text]; listing _ l := l; str_of_err _ := "failed" |}.
Definition works : machine -> string -> string -> option Z := fun _ _ _ => None.
Definition idle : machine -> option string -> list string -> outcome * tree :=
  fun s _ _ => (Finished "OK" "", (files s, dirs s)).
Lemma longest_bound s p : is_Some (files s !! p) \/ p ∈ dirs s -> (String.length p <= longest s)%nat.
Proof.
  intros Hp. unfold longest. assert (Hin : p ∈ app (map fst (map_to_list (files s))) (elements (dirs s))).
  { rewrite elem_of_app. destruct Hp as [[c Hc]|Hp]; [left|right; by apply elem_of_elements].
    apply list_elem_of_fmap. exists (p, c). split; [done|]. by apply elem_of_map_to_list. }
  clear Hp. induction Hin as [x l|x y l _ IH]; cbn; lia.
Qed.
Lemma length_xs n : String.length (xs n) = n.
Proof. induction n; cbn; auto. Qed.
Class Honest (fails : machine -> string -> string -> option Z) : Prop :=
  honest : forall s p, fails s "remove" p = Some ENOENT -> files s !! p = None.
#[export] Instance works_honest : Honest works.
Proof. done. Qed.
#[export] Instance calm_laws fails run : Honest fails -> @HostLaws (calm fails run).
Proof.
  intros Hh. split; [|intros s p|done|exact Hh].
  - intros s p. cbn [temp_suffix calm].
    assert (Hl : forall q, is_Some (files s !! q) \/ q ∈ dirs s -> q <> p ++ xs (S (longest s))).
    { intros q Hq%longest_bound ->. rewrite slength_app, length_xs in Hq. lia. }
    split; [|intros Hd; by eapply (Hl _ (or_intror Hd))].
    destruct (files s !! _) eqn:E; [|done]. exfalso. eapply Hl; [left; eauto|done].
  - cbn. induction (longest s); cbn; auto.
Qed.
Definition zone_named (name : string) : dns_zone := {| origin := name; soa := None; nodes := [] |}.
Definition as_text (_ : bool) (z : dns_zone) : string := "zone " ++ origin z.
Definition machine_with (fs : list (string * string)) (ds : list string) : machine :=
  {| files := list_to_map fs; dirs := list_to_set ds; seen := []; acts := [] |}.
End Calm.

Lemma zone_file_atomic_witness :
  let s := machine_with [("/etc/gdnsd/zones/other.org", "zone other.org.")] ["/etc/gdnsd/zones"] in
  let run := gdnsd_create_zone (H := calm works idle) as_text "/etc/gdnsd" (zone_named "Example.com.") s in
  run.1 = Ok tt /\ files run.2 !! "/etc/gdnsd/zones/example.com" = Some "zone Example.com." /\
  files run.2 = new_files as_text "/etc/gdnsd" (zone_named "Example.com.") s.
Proof.
  intros s run. assert (H1 : run.1 = Ok tt) by (vm_compute; reflexivity). split; [exact H1|].
  assert (Hr : run = (Ok tt, run.2)) by (rewrite <- H1; apply surjective_pairing).
  destruct (zone_file_atomic (H := calm works idle) as_text "/etc/gdnsd" (zone_named "Example.com.") s (Ok tt) run.2)
    as (_ & _ & [[_ Hf]|(text & Hx & _)]); [reflexivity|left; exact Hr| |discriminate Hx].
  split; [|exact Hf]. rewrite Hf. reflexivity.
Defined.
