(* ===== verification/KnotFacts.v ===== *)
(** * The Knot driver of the agent: configuration transactions

    The server keeps a configuration and at most one open transaction on it. What the driver
    relies on of knotc is the class [KnotLaws]; the driver is shown to make a change whole or
    not at all, and how it can leave a transaction open. *)
From Stdlib Require Import ZArith Lia Ascii String.
From stdpp Require Import base option numbers strings sets list gmap.
From S2P Require Import Prelude PyStr Exceptions Utils Dnsutils Machine AgentDrivers AgentDriversFacts.
Local Open Scope string_scope.

(** The answer of a command that ended, without the white space at its end. *)
Definition said (r : res err (string * string)) (w : string) : Prop :=
  exists out err, r = Ok (out, err) /\ rstrip is_space out = w.

(** The server behind knotc: the changes of the open transaction, if there is one, and
    those that are in force. *)
Class Knot `{Host} := {
  pending : machine -> option (list (list string));
  config : machine -> list (list string);
}.
Definition untouched `{Knot} (s s' : machine) : Prop := pending s' = pending s /\ config s' = config s.
Definition changes (args : list string) : Prop :=
  exists z, args = ["conf-set"; z] \/ args = ["conf-unset"; z].
(** The documented behaviour of knotc: it says OK exactly when it did what it was told. *)
Class KnotLaws `{Knot} (knotc : string) := {
  knot_lock n s : untouched s (log (Lock n) s);
  knot_unlock n s : untouched s (log (Unlock n) s);
  knot_begin s r s' : execute [knotc; "conf-begin"] s = (r, s') ->
    (said r "OK" /\ pending s = None /\ pending s' = Some [] /\ config s' = config s) \/ (~ said r "OK" /\ untouched s s');
  knot_change args s r s' : changes args -> execute (knotc :: args) s = (r, s') ->
    (said r "OK" /\ (exists l, pending s = Some l /\ pending s' = Some (app l [args])) /\ config s' = config s) \/
    (~ said r "OK" /\ untouched s s');
  knot_commit s r s' : execute [knotc; "conf-commit"] s = (r, s') ->
    (said r "OK" /\ exists l, pending s = Some l /\ pending s' = None /\ config s' = app (config s) l) \/
    (~ said r "OK" /\ untouched s s');
  knot_abort s r s' : execute [knotc; "conf-abort"] s = (r, s') ->
    (said r "OK" /\ pending s' = None /\ config s' = config s) \/ (~ said r "OK" /\ untouched s s');
  knot_refresh z s r s' : execute [knotc; "zone-refresh"; z] s = (r, s') -> untouched s s';
}.

Section Knot_facts.
Context `{KnotLaws}.

Lemma execute_acts cmd s r s' : execute cmd s = (r, s') -> acts s' = app (acts s) [Spawn true None cmd].
Proof. unfold execute, execute_in. destruct (spawn _ _ _) as [o [fs ds]]. by destruct o; intros [= _ <-]. Qed.
Lemma execute_unblocked cmd s b s' : execute cmd s <> (Raise (EPython b), s').
Proof. unfold execute, execute_in. destruct (spawn _ _ _) as [o [fs ds]]. by destruct o; intros [=]. Qed.
Lemma said_fun r v w : said r v -> said r w -> v = w.
Proof. intros (o & e & -> & <-) (o' & e' & [= <- <-] & <-). done. Qed.

(** One call of knotc. *)
Lemma execute_knotc_run args alt s r s' :
  _execute_knotc knotc args alt s = (r, s') ->
  exists r0, execute (knotc :: args) s = (r0, s') /\
    ((r = Ok tt /\ (said r0 "OK" \/ exists a, alt = Some a /\ said r0 a /\ ~ said r0 "OK")) \/
     (exists e, r = Raise e /\ ~ said r0 "OK" /\ forall b, e <> EPython b)).
Proof.
  unfold _execute_knotc, try_except, bind. destruct (execute (knotc :: args) s) as [r0 s1] eqn:E.
  destruct r0 as [[out err]|e].
  - destruct (String.eqb_spec (rstrip is_space out) "OK") as [Hok|Hok].
    { intros [= <- <-]. eexists. split; [done|]. left. split; [done|]. left. by exists out, err. }
    assert (Hno : ~ said (Ok (out, err)) "OK") by (intros (o & e & [= <- <-] & Hx); done).
    destruct alt as [a|]; [destruct (String.eqb_spec (rstrip is_space out) a) as [Ha|Ha]|].
    { intros [= <- <-]. eexists. split; [done|]. left. split; [done|]. right. exists a. split; [done|]. split; [by exists out, err|done]. }
    all: intros [= <- <-]; eexists; split; [done|]; right; eexists; split; [done|]; by split.
  - assert (Hno : ~ said (Raise e) "OK") by (intros (o & x & [=] & _)).
    intros Hr. exists (Raise e).
    destruct e as [text|o x text|n|b|text]; cbn in Hr; injection Hr as <- <-; (split; [done|]);
      [right; eexists; split; [done|]; by split..| |right; eexists; split; [done|]; by split].
    by apply execute_unblocked in E.
Qed.
(** The commands of a change, in the lock, and what became of configuration and transaction. *)
Inductive change_run (args : list string) (alt : string) (s : machine) : list (list string) -> res err unit -> machine -> Prop :=
| run_refused e s' : pending s' = pending s -> config s' = config s ->
    change_run args alt s [["conf-begin"]] (Raise e) s'
| run_aborted e s' : pending s = None -> config s' = config s -> (pending s' = None \/ pending s' = Some []) ->
    change_run args alt s [["conf-begin"]; args; ["conf-abort"]] (Raise e) s'
| run_committed s' : pending s = None -> pending s' = None -> config s' = app (config s) [args] ->
    change_run args alt s [["conf-begin"]; args; ["conf-commit"]] (Ok tt) s'
| run_needless s' s1 r0 s2 : pending s = None -> execute (knotc :: args) s1 = (r0, s2) -> said r0 alt -> pending s' = None -> config s' = config s ->
    change_run args alt s [["conf-begin"]; args; ["conf-commit"]] (Ok tt) s'
| run_left_open e s' l : pending s = None -> config s' = config s -> pending s' = Some l ->
    change_run args alt s [["conf-begin"]; args; ["conf-commit"]] (Raise e) s'.
Definition calls (cmds : list (list string)) : list act := map (fun c => Spawn true None (knotc :: c)) cmds.

Lemma modify_zone_run args alt s r s' :
  changes args -> _modify_zone knotc args alt s = (r, s') ->
  exists cmds, acts s' = app (acts s) (app (Lock _lock_name :: calls cmds) [Unlock _lock_name]) /\
    change_run args alt s cmds r s'.
Proof.
  intros Hargs. unfold _modify_zone, with_lock, try_finally. set (s0 := log (Lock _lock_name) s).
  destruct (knot_lock _lock_name s) as [Hp0 Hc0]. fold s0 in Hp0, Hc0.
  assert (Ha0 : acts s0 = app (acts s) [Lock _lock_name]) by done.
  destruct (bind _ _ s0) as [r1 s1] eqn:E. unfold modify. intros [= <- <-].
  destruct (knot_unlock _lock_name s1) as [Hp1 Hc1]. cbn [acts log].
  unfold bind in E. destruct (_execute_knotc knotc ["conf-begin"] None s0) as [rb sb] eqn:Eb.
  apply execute_knotc_run in Eb as (r0 & Eb & Hrb). pose proof (execute_acts _ _ _ _ Eb) as Hab.
  apply knot_begin in Eb as [(Hok & Hn & Hpb & Hcb)|(Hno & Hpb & Hcb)].
  2:{ destruct Hrb as [(-> & [Hx|(a & [=] & _)])|(e & -> & _ & _)]; [done|]. injection E as <- <-.
      exists [["conf-begin"]]. rewrite Hab, Ha0, <- !app_assoc. split; [done|]. constructor; congruence. }
  destruct Hrb as [(-> & _)|(e & -> & Hx & _)]; [|done].
  unfold reraising, try_else in E. destruct (_execute_knotc knotc args (Some alt) sb) as [rc sc] eqn:Ec.
  apply execute_knotc_run in Ec as (r0c & Ec & Hrc). pose proof (execute_acts _ _ _ _ Ec) as Hac.
  destruct Hrc as [(-> & Hsaid)|(e & -> & Hno & Hnb)].
  - destruct (_execute_knotc knotc ["conf-commit"] None sc) as [rm sm] eqn:Em. injection E as <- <-.
    apply execute_knotc_run in Em as (r0m & Em & Hrm). pose proof (execute_acts _ _ _ _ Em) as Ham.
    exists [["conf-begin"]; args; ["conf-commit"]]. rewrite Ham, Hac, Hab, Ha0, <- !app_assoc. split; [done|].
    apply knot_commit in Em. pose proof (knot_change args sb r0c sc Hargs Ec) as Hch.
    destruct Em as [(Hokm & l & Hl & Hpm & Hcm)|(Hnom & Hpm & Hcm)].
    + destruct Hrm as [(-> & _)|(e & -> & Hx & _)]; [|done].
      destruct Hch as [(Hokc & (l' & Hl' & Hpc) & Hcc)|(Hnoc & Hpc & Hcc)].
      * apply run_committed; try congruence. rewrite Hc1, Hcm, Hcc, Hcb, Hc0. f_equal. rewrite Hpb in Hl'. injection Hl' as <-. cbn in Hpc. congruence.
      * destruct Hsaid as [Hx|(a & [= <-] & Ha & _)]; [done|]. eapply run_needless; [congruence|exact Ec|exact Ha|congruence|].
        rewrite Hc1, Hcm, Hcc, Hcb, Hc0. replace l with (@nil (list string)) by congruence. apply app_nil_r.
    + destruct Hrm as [(-> & [Hx|(a & [=] & _)])|(e & -> & _ & _)]; [done|].
      destruct Hch as [(_ & (l' & Hl' & Hpc) & Hcc)|(_ & Hpc & Hcc)];
        [apply run_left_open with (l := app l' [args])|apply run_left_open with (l := [])]; congruence.
  - assert (Hcase : bind (_execute_knotc knotc ["conf-abort"] None) (fun _ => raise e) sc = (r1, s1)).
    { destruct e as [| | |b|]; [exact E..| |exact E]. by destruct (Hnb b). }
    clear E. unfold bind in Hcase. destruct (_execute_knotc knotc ["conf-abort"] None sc) as [ra sa] eqn:Ea.
    apply execute_knotc_run in Ea as (r0a & Ea & Hra). pose proof (execute_acts _ _ _ _ Ea) as Haa.
    assert (Hr1 : (exists e', r1 = Raise e') /\ s1 = sa) by (destruct ra; injection Hcase as <- <-; eauto).
    destruct Hr1 as [[e' ->] ->]. exists [["conf-begin"]; args; ["conf-abort"]].
    rewrite Haa, Hac, Hab, Ha0, <- !app_assoc. split; [done|].
    apply (knot_change args sb r0c sc Hargs) in Ec as [(Hx & _)|(_ & Hpc & Hcc)]; [done|].
    apply knot_abort in Ea as [(_ & Hpa & Hca)|(_ & Hpa & Hca)]; apply run_aborted; try congruence; [left|right]; congruence.
Qed.
Lemma change_run_open args alt s cmds r s' l :
  change_run args alt s cmds r s' -> pending s = Some l ->
  cmds = [["conf-begin"]] /\ (exists e, r = Raise e) /\ pending s' = Some l /\ config s' = config s.
Proof. intros Hrun Hp. destruct Hrun; try congruence. repeat split; [eauto|congruence|done]. Qed.
(** What a creation leaves: a transaction, and then a transfer, outside of the lock. *)
Definition created (zone : dns_zone) (s : machine) (r : res err unit) (s' : machine) : Prop :=
  exists cmds r1 s1,
    acts s1 = app (acts s) (app (Lock _lock_name :: calls cmds) [Unlock _lock_name]) /\
    change_run ["conf-set"; in_zone (origin_text zone)] "duplicate identifier" s cmds r1 s1 /\
    match r1 with
    | Raise e => r = Raise e /\ s' = s1
    | Ok _ => untouched s1 s' /\ acts s' = app (acts s1) (calls [["zone-refresh"; origin_text zone]])
    end.

(** C21: the Knot driver makes the change of a configuration whole or not at all. A creation or
    deletion runs, under its lock, one transaction: nothing but a beginning that is refused; the
    change and an abortion, when it fails; or the change and its commitment. It returns only when
    the change is in force, or the server has said that it is needless; in all other cases the
    configuration is as it was, and the transaction is closed but for the closing command having
    failed. The driver does not abort a transaction whose commitment fails: while it is open,
    every creation and deletion is refused after one command and changes nothing. *)
Theorem knot_changes_whole zone name s :
  (forall r s', knot_delete_zone knotc name s = (r, s') -> exists cmds,
     acts s' = app (acts s) (app (Lock _lock_name :: calls cmds) [Unlock _lock_name]) /\
     change_run ["conf-unset"; in_zone name] "invalid identifier" s cmds r s') /\
  (forall r s', knot_create_zone knotc zone s = (r, s') -> created zone s r s') /\
  (forall l r s', pending s = Some l ->
     knot_delete_zone knotc name s = (r, s') \/ knot_create_zone knotc zone s = (r, s') ->
     (exists e, r = Raise e) /\ untouched s s' /\
     acts s' = app (acts s) [Lock _lock_name; Spawn true None [knotc; "conf-begin"]; Unlock _lock_name]).
Proof.
  assert (Hdel : forall r s', knot_delete_zone knotc name s = (r, s') -> exists cmds,
     acts s' = app (acts s) (app (Lock _lock_name :: calls cmds) [Unlock _lock_name]) /\
     change_run ["conf-unset"; in_zone name] "invalid identifier" s cmds r s').
  { intros r s' E. eapply modify_zone_run; [|exact E]. eexists. by right. }
  assert (Hcre : forall r s', knot_create_zone knotc zone s = (r, s') -> created zone s r s').
  { intros r s' E. unfold knot_create_zone, bind in E. destruct (_modify_zone _ _ _ s) as [r1 s1] eqn:E1.
    apply modify_zone_run in E1 as (cmds & Hacts & Hrun); [|eexists; by left].
    exists cmds, r1, s1. split_and!; [done..|]. destruct r1 as [[]|e]; [|by injection E as <- <-].
    unfold _start_minidns_to_knot_axfr in E. apply execute_knotc_run in E as (r0 & E & _). split.
    - by eapply knot_refresh.
    - by apply execute_acts in E. }
  split_and!; [exact Hdel|exact Hcre|]. intros l r s' Hl [E%Hdel|E%Hcre].
  - destruct E as (cmds & Hacts & Hrun). eapply change_run_open in Hrun as (-> & He & Hp & Hc); [|exact Hl].
    split_and!; [done|split; congruence|exact Hacts].
  - destruct E as (cmds & r1 & s1 & Hacts & Hrun & Hr). eapply change_run_open in Hrun as (-> & [e ->] & Hp & Hc); [|exact Hl].
    destruct Hr as [-> ->]. split_and!; [eauto|split; congruence|exact Hacts].
Qed.
End Knot_facts.

(** ** An example: a server that keeps its books in the log of the commands *)
Section Example.
(** The transaction and the configuration after a command, and whether it was obeyed. *)
Definition book : Type := option (list (list string)) * list (list string).
Definition obey (cmd : list string) (b : book) : bool * book :=
  match cmd with
  | _ :: op :: args =>
      if op =? "zone-refresh" then (true, b)
      else match b.1 with
           | None => if op =? "conf-begin" then (true, (Some [], b.2)) else (false, b)
           | Some l => if op =? "conf-begin" then (false, b)
                       else if op =? "conf-commit" then (true, (None, app b.2 l))
                       else if op =? "conf-abort" then (true, (None, b.2))
                       else (true, (Some (app l [op :: args]), b.2))
           end
  | _ => (false, b)
  end.
Definition books (s : machine) : book :=
  fold_left (fun b a => match a with Spawn _ _ cmd => (obey cmd b).2 | _ => b end) (acts s) (None, []).
Definition knotd (s : machine) (cwd : option string) (cmd : list string) : outcome * tree :=
  (Finished (if (obey cmd (books s)).1 then "OK" else "error") "", (files s, dirs s)).
Definition knot_host : Host := calm works knotd.
#[local] Instance knot_books : @Knot knot_host := {| pending s := (books s).1; config s := (books s).2 |}.
Lemma knotd_execute cmd s r s' : execute (H := knot_host) cmd s = (r, s') ->
  r = Ok (if (obey cmd (books s)).1 then "OK" else "error", "") /\ books s' = (obey cmd (books s)).2.
Proof.
  unfold execute, execute_in. cbn. intros [= <- <-]. split; [done|]. unfold books. cbn. by rewrite fold_left_app.
Qed.
Lemma knotd_said (b : bool) : said (Ok (if b then "OK" else "error", "")) "OK" <-> b = true.
Proof. split; [intros (o & e & [= <- <-] & Hx); by destruct b|intros ->; by exists "OK", ""]. Qed.
#[local] Instance knotd_laws : @KnotLaws knot_host knot_books "knotc".
Proof.
  split; [intros n s|intros n s|intros s r s'|intros args s r s' (z & Hz)|intros s r s'|intros s r s'|intros z s r s'];
    unfold untouched, pending, config, knot_books.
  1, 2: unfold books; cbn; by rewrite fold_left_app.
  all: intros [-> ->]%knotd_execute; try rewrite knotd_said.
  2: destruct Hz as [-> | ->].
  all: destruct (books s) as [[l|] c]; cbn.
  all: first [by split | right; split; [done|by split] | left; split; [done|]].
  all: first [by split_and! | exists l; by split_and! | split; [exists l; by split|done]].
Qed.
End Example.

Lemma knot_changes_whole_witness :
  let host := knot_host in
  let s := machine_with [] [] in
  let run := knot_create_zone "knotc" (zone_named "example.com.") s in
  run.1 = Ok tt /\ (books run.2) = (None, [["conf-set"; "zone[example.com]"]]) /\
  created (H := knot_host) (H0 := knot_books) (knotc := "knotc") (zone_named "example.com.") s run.1 run.2.
Proof.
  intros host s run. split; [reflexivity|]. split; [reflexivity|].
  pose proof (knot_changes_whole (H := knot_host) (H0 := knot_books) (knotc := "knotc") (H1 := knotd_laws) (zone_named "example.com.") "" s) as (_ & Hc & _).
  apply Hc. reflexivity.
Defined.
