(* ===== verification/DjbdnsFacts.v ===== *)
(** * The djbdns driver of the agent: zone files and the database made of them *)
From Stdlib Require Import ZArith Lia Ascii String.
From stdpp Require Import base option numbers strings sets list gmap.
From S2P Require Import Prelude PyStr Exceptions Utils Dnsutils Machine AgentDrivers AgentDriversFacts.
Local Open Scope string_scope.

(** ** Computations that keep to one directory *)
Definition same_but (d : string) (f g : gmap string string) : Prop := forall p, dirname p <> d -> g !! p = f !! p.
#[export] Instance same_but_preorder d : PreOrder (same_but d).
Proof. split; [done|]. intros f g h Hfg Hgh p Hp. by rewrite (Hgh p Hp), (Hfg p Hp). Qed.
Lemma same_but_insert d p c f : dirname p = d -> same_but d f (<[p := c]> f).
Proof. intros Hp q Hq. apply lookup_insert_ne. congruence. Qed.
Lemma same_but_delete d p f : dirname p = d -> same_but d f (delete p f).
Proof. intros Hp q Hq. apply lookup_delete_ne. congruence. Qed.

Lemma same_but_insert_both d p c f g : same_but d f g -> same_but d (<[p := c]> f) (<[p := c]> g).
Proof.
  intros Hs q Hq. destruct (decide (p = q)) as [<-|]; [by rewrite !lookup_insert_eq|].
  rewrite !lookup_insert_ne by done. by apply Hs.
Qed.

Lemma plain_join d n : has_char "/" n = false -> n <> "" -> plain_dir (d ++ String "/" n).
Proof.
  intros Hn Hne. split; [by destruct d|]. destruct (endswith _ _) eqn:E; [|done]. exfalso.
  apply endswith_app in E as [t Ht]. apply (f_equal path_split) in Ht.
  rewrite (path_split_join t ""), path_split_join in Ht by done. congruence.
Qed.

Section Within.
Context `{HostLaws}.
Abbreviation D A := (M err machine A).
Class Within (d : string) {A} (m : D A) : Prop :=
  within : forall s r s', m s = (r, s') -> same_but d (files s) (files s') /\ dirs s' = dirs s.
#[export] Instance ret_within d {A} (a : A) : Within d (ret a).
Proof. by intros s r s' [= _ <-]. Qed.
#[export] Instance raise_within d {A} e : Within d (raise e : D A).
Proof. by intros s r s' [= _ <-]. Qed.
#[export] Instance bind_within d {A B} (m : D A) (f : A -> D B) :
  Within d m -> (forall a, Within d (f a)) -> Within d (bind m f).
Proof.
  intros Hm Hf s r s'. unfold bind. destruct (m s) as [[a|e] s1] eqn:E; intros E'.
  - destruct (Hm _ _ _ E) as [S1 D1], (Hf _ _ _ _ E') as [S2 D2]. split; [by etrans|congruence].
  - injection E' as _ <-. by eapply Hm.
Qed.
#[export] Instance mfor_within d {A} (f : A -> D unit) l : (forall a, Within d (f a)) -> Within d (mfor l f).
Proof. intros Hf. induction l; cbn; apply _. Qed.
Lemma try_except_within d {A} (m : D A) h :
  Within d m -> (forall e k, h e = Some k -> Within d k) -> Within d (try_except m h).
Proof.
  intros Hm Hh s r s'. unfold try_except. destruct (m s) as [[a|e] s1] eqn:E.
  - intros [= _ <-]. by eapply Hm.
  - destruct (h e) as [k|] eqn:Hk; [|intros [= _ <-]; by eapply Hm].
    intros E'. destruct (Hm _ _ _ E) as [S1 D1], (Hh _ _ Hk _ _ _ E') as [S2 D2]. split; [by etrans|congruence].
Qed.
#[export] Instance sys_within d {A} c p (k : D A) : Within d k -> Within d (sys c p k).
Proof. intros Hk s r s'. unfold sys. case_match; [by intros [= _ <-]|]. intros E. exact (Hk _ _ _ E). Qed.
Lemma open_w_within p : Within (dirname p) (open_w p).
Proof. apply sys_within. intros s r s'. case_match; intros [= _ <-]; [split; [by apply same_but_insert|]|]; done. Qed.
Lemma puts_within p c0 f0 l s :
  same_but (dirname p) f0 (files s) ->
  let s' := foldl (fun s' part => put (<[p := c0 ++ part]> f0) s') s l in
  same_but (dirname p) f0 (files s') /\ dirs s' = dirs s.
Proof.
  revert s. induction l as [|x l IH]; intros s Hs; [done|].
  destruct (IH (put (<[p := c0 ++ x]> f0) s)) as [S1 D1]; [by apply same_but_insert|]. done.
Qed.
Lemma write_within p text : Within (dirname p) (write p text).
Proof.
  intros s r s'. unfold write, partly_written.
  destruct (puts_within p (content p (log (Sys "write" p) s)) (files s) (while_writing (log (Sys "write" p) s) p text)
    (log (Sys "write" p) s)) as [S1 D1]; [done|].
  case_match; intros [= _ <-]; [done|]. split; [by apply (same_but_insert _ p _ (files s))|exact D1].
Qed.
#[export] Instance read_within d p : Within d (read p).
Proof. apply sys_within. intros s r s'. case_match; by intros [= _ <-]. Qed.
#[export] Instance glob_within d a b : Within d (glob a b).
Proof. by intros s r s' [= _ <-]. Qed.
Lemma remove_within p : Within (dirname p) (os_remove p).
Proof. apply sys_within. intros s r s'. case_match; intros [= _ <-]; [split; [by apply same_but_delete|]|]; done. Qed.
Lemma read_Ok p s c s' : read p s = (Ok c, s') -> files s !! p = Some c /\ files s' = files s /\ dirs s' = dirs s.
Proof. intros E%sys_Ok. cbn in E. destruct (files s !! p) eqn:Hp; [|done]. injection E as <- <-. done. Qed.
End Within.

(** The files of the zones, in some order. *)
Definition is_zone_file (dir p : string) : bool :=
  String.eqb (dirname p) dir && endswith ".zonedata" (basename p) && negb (startswith "." (basename p)).
Definition zone_files (dir : string) (f : gmap string string) : list string :=
  List.filter (is_zone_file dir) (map_to_list f).*1.
Lemma zone_files_elem dir f p : p ∈ zone_files dir f <-> is_zone_file dir p = true /\ is_Some (f !! p).
Proof.
  unfold zone_files. rewrite list_elem_of_In, filter_In, <- list_elem_of_In, list_elem_of_fmap. split.
  - intros [((q & c) & -> & Hq%elem_of_map_to_list) Hz]. eauto.
  - intros [Hz [c Hc]]. split; [|done]. exists (p, c). split; [done|]. by apply elem_of_map_to_list.
Qed.
Lemma NoDup_zone_files dir f : NoDup (zone_files dir f).
Proof. unfold zone_files. apply NoDup_ListNoDup, List.NoDup_filter, NoDup_ListNoDup, NoDup_fst_map_to_list. Qed.
Lemma zone_files_ext dir d f g : d <> dir -> same_but d f g -> Permutation (zone_files dir g) (zone_files dir f).
Proof.
  intros Hd Hs. apply NoDup_Permutation; [apply NoDup_zone_files..|]. intros p. rewrite !zone_files_elem.
  split; intros [Hz Hp]; (split; [done|]); revert Hp; rewrite Hs; try done;
    unfold is_zone_file in Hz; apply andb_true_iff in Hz as [[Hz%String.eqb_eq _]%andb_true_iff _]; congruence.
Qed.

(** ** The tools

    What the driver relies on: axfr-get writes the zone to the file it is told, by way of the
    other file it is told, and into a directory that is there; tinydns-data makes data.cdb of
    data in its directory. [compile] is the format of the database. *)
Class DjbTools `{Host} (tcpclient axfr_get tinydns_data : string) (compile : string -> string) := {
  axfr h p z fn tmp s r s' : execute [tcpclient; h; p; axfr_get; z; fn; tmp] s = (r, s') ->
    dirs s' = dirs s /\
    ((exists x text, r = Ok x /\ dirname fn ∈ dirs s /\ files s' = <[fn := text]> (files s)) \/
     (exists e, r = Raise e /\ forall q, q <> tmp -> files s' !! q = files s !! q));
  tinydns d s r s' : execute_in (Some d) true [tinydns_data] s = (r, s') ->
    dirs s' = dirs s /\
    ((exists x data, r = Ok x /\ files s !! path_join d "data" = Some data /\
        files s' = <[path_join d "data.cdb" := compile data]> (files s)) \/
     (exists e, r = Raise e /\ same_but d (files s) (files s')));
}.

Section Djbdns_facts.
Context `{HostLaws} {tcpclient axfr_get tinydns_data : string} {compile : string -> string}.
Context `{!DjbTools tcpclient axfr_get tinydns_data compile}.
Variable datadir : string.
Variable master : machine -> string * Z.
Hypothesis datadir_plain : plain_dir datadir.
Abbreviation D A := (M err machine A).
Abbreviation datafiles := (_datafiles_dir datadir).
Abbreviation cdb := (_tinydns_cdb_filename datadir).
Abbreviation create_zone := (djbdns_create_zone datadir tcpclient axfr_get tinydns_data master).
Abbreviation update_zone := (djbdns_update_zone datadir tcpclient axfr_get tinydns_data master).
Abbreviation delete_zone := (djbdns_delete_zone datadir tinydns_data).

Lemma datafiles_flat : datafiles = datadir ++ String "/" "datafiles".
Proof. by apply path_join_flat. Qed.
Lemma datafiles_plain : plain_dir datafiles.
Proof. rewrite datafiles_flat. by apply plain_join. Qed.
Lemma cdb_flat : cdb = (datadir ++ String "/" "root") ++ String "/" "data.cdb".
Proof.
  unfold _tinydns_cdb_filename, tinydns_root_dir.
  rewrite (path_join_flat datadir) by done. apply path_join_flat; [by apply plain_join|done].
Qed.
(** The texts of zone files, one after the other. *)
Fixpoint texts (f : gmap string string) (l : list string) : string :=
  match l with [] => "" | p :: l => default "" (f !! p) ++ texts f l end.
Lemma texts_ext f g l : (forall p, p ∈ l -> g !! p = f !! p) -> texts g l = texts f l.
Proof.
  induction l as [|p l IH]; intros Hl; [done|]. cbn. rewrite Hl by set_solver. f_equal. apply IH. set_solver.
Qed.
Lemma append_files_run data l s u s' :
  (forall p, p ∈ l -> dirname p <> dirname data) ->
  mfor l (fun zone_fn => let! text := read zone_fn in write data text) s = (Ok u, s') ->
  content data s' = content data s ++ texts (files s) l.
Proof.
  revert s. induction l as [|p l IH]; intros s Hl; cbn [mfor texts].
  - intros [= _ <-]. by rewrite sapp_nil_r.
  - intros (? & s1 & (text & s2 & (Hp & Hf & _)%read_Ok & [Hw _]%write_Ok)%bind_Ok & Hr)%bind_Ok.
    apply IH in Hr; [|set_solver]. rewrite Hr. unfold content at 1. rewrite Hw, lookup_insert_eq. unfold content. rewrite Hf, Hp.
    cbn [from_option id]. rewrite sapp_assoc. do 2 f_equal. apply texts_ext. intros q Hq.
    rewrite lookup_insert_ne; [done|]. intros <-. eapply (Hl data); [set_solver|done].
Qed.
Lemma concatenate_run data s u s' :
  dirname data <> datafiles -> _concatenate_zone_datafiles datadir data s = (Ok u, s') ->
  exists l, Permutation l (zone_files datafiles (<[data := ""]> (files s))) /\
    content data s' = texts (files s) l /\ same_but (dirname data) (files s) (files s') /\ dirs s' = dirs s.
Proof.
  intros Hd E. unfold _concatenate_zone_datafiles in E.
  apply bind_Ok in E as (? & s1 & (Hf & Hds & _)%open_w_Ok & (l & s2 & Hg & Hr)%bind_Ok).
  unfold glob in Hg. injection Hg as Hl <-.
  assert (Hperm : Permutation l (zone_files datafiles (files s1))) by (rewrite <- Hl; apply listing_perm).
  assert (Hin : forall p, p ∈ l -> dirname p = datafiles).
  { intros p Hp. rewrite Hperm in Hp. apply zone_files_elem in Hp as [Hz _].
    unfold is_zone_file in Hz. by apply andb_true_iff in Hz as [[Hz%String.eqb_eq _]%andb_true_iff _]. }
  pose proof Hr as Hr'. apply append_files_run in Hr; [|intros p Hp; rewrite (Hin p Hp); congruence].
  assert (Hw : Within (dirname data) (mfor l (fun zone_fn => let! text := read zone_fn in write data text))).
  { apply mfor_within. intros a. apply bind_within; [apply _|]. intros t. apply write_within. }
  destruct (Hw _ _ _ Hr') as [S2 D2]. exists l. rewrite <- Hf. split_and!; [done| | |congruence].
  - rewrite Hr. unfold content. rewrite Hf, lookup_insert_eq. cbn. apply texts_ext. intros p Hp.
    rewrite lookup_insert_ne; [done|]. intros <-. by apply Hd, Hin.
  - etrans; [|exact S2]. rewrite Hf. by apply same_but_insert.
Qed.

(** ** Rebuilding the database *)
Class Quiet {A} (m : D A) : Prop :=
  quiet : forall s r s', m s = (r, s') -> files s' = files s /\ forall e, r = Raise e -> exists n, e = EOS n.
#[local] Instance ret_quiet {A} (a : A) : Quiet (ret a).
Proof. by intros s r s' [= <- <-]. Qed.
#[local] Instance bind_quiet {A B} (m : D A) (f : A -> D B) : Quiet m -> (forall a, Quiet (f a)) -> Quiet (bind m f).
Proof.
  intros Hm Hf s r s'. unfold bind. destruct (m s) as [[a|e] s1] eqn:E; intros E'; destruct (Hm _ _ _ E) as [F1 X1].
  - destruct (Hf _ _ _ _ E') as [F2 X2]. split; [congruence|done].
  - injection E' as <- <-. split; [done|]. intros e' [= <-]. by apply X1.
Qed.
#[local] Instance rmdir_quiet d : Quiet (os_rmdir d).
Proof.
  intros s r s'. unfold os_rmdir, sys. destruct (sys_fails _ _ _); [intros [= <- <-]; split; [done|intros e [= <-]; eauto]|].
  cbn. case_decide; [destruct (is_empty _ _)|]; intros [= <- <-]; (split; [done|]); intros e [=]; eauto.
Qed.
#[local] Instance os_error_stops_quiet m k : Quiet m -> Quiet k -> Quiet (os_error_stops m k).
Proof.
  intros Hm Hk s r s'. unfold os_error_stops, try_else. destruct (m s) as [[a|e] s1] eqn:E; intros E'; destruct (Hm _ _ _ E) as [F1 X1].
  - destruct (Hk _ _ _ E') as [F2 X2]. split; [congruence|done].
  - destruct (X1 e eq_refl) as [n ->]. by injection E' as <- <-.
Qed.
#[local] Instance prune_quiet n h t : Quiet (prune n h t).
Proof. revert h t. induction n as [|n IH]; intros h t; cbn; [apply _|]. case_match; apply _. Qed.
Lemma ignoring_quiet m s : Quiet m -> exists s', ignoring_os_errors m s = (Ok tt, s') /\ files s' = files s.
Proof.
  intros Hm. unfold ignoring_os_errors, try_except. destruct (m s) as [[[]|e] s1] eqn:E; destruct (Hm _ _ _ E) as [F1 X1]; [eauto|].
  destruct (X1 e eq_refl) as [n ->]. eauto.
Qed.
Lemma cleanup_run tmp s : let data := tmp ++ String "/" "data" in
  exists s', (ignoring_os_errors (os_remove data) ;;; ignoring_os_errors (os_removedirs tmp)) s = (Ok tt, s') /\
    same_but tmp (files s) (files s').
Proof.
  intros data. destruct (ignoring_remove data s) as [s1 E1]. destruct (ignoring_quiet (os_removedirs tmp) s1) as (s2 & E2 & F2).
  { unfold os_removedirs. apply _. }
  exists s2. unfold bind. rewrite E1. split; [done|]. rewrite F2. revert E1. unfold ignoring_os_errors.
  assert (Hd : dirname data = tmp) by by apply dirname_flat.
  pose proof (remove_within data) as Hw. rewrite Hd in Hw.
  intros E1. eapply (try_except_within tmp) in E1 as [S1 _]; [done|exact Hw|].
  intros e k. destruct e; intros [= <-]. apply _.
Qed.
Lemma mkdtemp_run s r s1 : mkdtemp datafiles s = (r, s1) ->
  exists n, let tmp := datafiles ++ String "/" n in
  has_char "/" n = false /\ n <> "" /\ tmp ∉ dirs s /\ files s1 = files s /\
  ((exists k, r = Raise (EOS k)) \/ (r = Ok tmp /\ datafiles ∈ dirs s /\ dirs s1 = dirs s ∪ {[tmp]})).
Proof.
  unfold mkdtemp, sys. rewrite path_join_flat by first [apply datafiles_plain|done].
  set (tmp := datafiles ++ _). intros E. exists ("tmp" ++ temp_suffix s tmp). pose proof (temp_fresh s tmp) as [_ Hd].
  assert (Ht : datafiles ++ String "/" ("tmp" ++ temp_suffix s tmp) = tmp ++ temp_suffix s tmp) by (unfold tmp; by rewrite sapp_assoc).
  rewrite Ht. split_and!; [cbn; apply temp_flat|done|exact Hd|..]; revert E; case_match.
  1, 3: intros [= <- <-]; eauto.
  all: cbn; case_decide; intros [= <- <-]; eauto.
Qed.
(** A path of another directory than the temporary one. *)
Lemma cdb_elsewhere n : has_char "/" n = false -> dirname cdb <> datafiles ++ String "/" n.
Proof.
  intros Hn. rewrite cdb_flat, dirname_flat, datafiles_flat by done. intros E.
  apply (f_equal path_split) in E. rewrite !path_split_join in E by done. injection E as E _.
  apply (f_equal String.length) in E. rewrite slength_app in E. cbn in E. lia.
Qed.
(** What a computation may raise here: no thread is waited for. *)
Definition plain_error (e : err) : Prop := forall b, e <> EPython b.
Class Raises_plainly {A} (m : D A) : Prop := plainly : forall s e s', m s = (Raise e, s') -> plain_error e.
#[local] Instance bind_plainly {A B} (m : D A) (f : A -> D B) :
  Raises_plainly m -> (forall a, Raises_plainly (f a)) -> Raises_plainly (bind m f).
Proof. intros Hm Hf s e s' [E|(a & s1 & _ & E)]%bind_Raise; [by eapply Hm|by eapply Hf]. Qed.
#[local] Instance ret_plainly {A} (a : A) : Raises_plainly (ret a).
Proof. by intros s e s' [=]. Qed.
#[local] Instance raise_plainly {A} t : Raises_plainly (raise (EBackend t) : D A).
Proof. by intros s e s' [= <- _] b. Qed.
#[local] Instance mfor_plainly {A} (f : A -> D unit) l : (forall a, Raises_plainly (f a)) -> Raises_plainly (mfor l f).
Proof. intros Hf. induction l; cbn; apply _. Qed.
#[local] Instance sys_plainly {A} c p (k : D A) : Raises_plainly k -> Raises_plainly (sys c p k).
Proof. intros Hk s e s'. unfold sys. case_match; [by intros [= <- _] b|]. apply Hk. Qed.
#[local] Instance open_w_plainly p : Raises_plainly (open_w p).
Proof. apply sys_plainly. intros s e s'. case_match; by intros [= <- _] b. Qed.
#[local] Instance read_plainly p : Raises_plainly (read p).
Proof. apply sys_plainly. intros s e s'. case_match; by intros [= <- _] b. Qed.
#[local] Instance write_plainly p t : Raises_plainly (write p t).
Proof. intros s e s'. unfold write. case_match; by intros [= <- _] b. Qed.
#[local] Instance glob_plainly a b : Raises_plainly (glob a b).
Proof. by intros s e s' [=]. Qed.
#[local] Instance remove_plainly p : Raises_plainly (os_remove p).
Proof. intros s e s' (n & -> & _)%os_remove_failing b. done. Qed.
#[local] Instance rename_plainly a b : Raises_plainly (os_rename a b).
Proof. intros s e s' (n & -> & _)%os_rename_failing c. done. Qed.
#[local] Instance execute_in_plainly cwd root cmd : Raises_plainly (execute_in cwd root cmd).
Proof. intros s e s'. unfold execute_in. destruct (spawn _ _ _) as [o [fs ds]]. by destruct o; intros [= <- _] b. Qed.
Lemma try_except_plainly {A} (m : D A) h :
  Raises_plainly m -> (forall e k, h e = Some k -> Raises_plainly k) -> Raises_plainly (try_except m h).
Proof.
  intros Hm Hh s e s'. unfold try_except. destruct (m s) as [[a|e1] s1] eqn:E; [by intros [=]|].
  destruct (h e1) as [k|] eqn:Hk; [by apply (Hh e1 k Hk)|]. intros [= <- _]. by eapply Hm.
Qed.

(** The body of the rebuilding, between the making of the directory and its removal. *)
Definition rebuild_body (tmp : string) : D unit :=
  _concatenate_zone_datafiles datadir (tmp ++ String "/" "data") ;;;
  try_except (execute_in (Some tmp) true [tinydns_data] ;;; ret tt)
    (process_error (fun _ _ _ => raise (EBackend "Failed to generate data.cdb"))) ;;;
  try_except (os_rename (tmp ++ String "/" "data.cdb") cdb)
    (fun e => match e with
              | EOS _ => Some (os_remove (tmp ++ String "/" "data.cdb") ;;; raise (EBackend "Unable to move data.cdb"))
              | _ => None
              end).
Lemma rebuild_body_plainly tmp : Raises_plainly (rebuild_body tmp).
Proof.
  apply bind_plainly; [unfold _concatenate_zone_datafiles; apply _|]. intros _. apply bind_plainly.
  - apply try_except_plainly; [apply _|]. intros e k. unfold process_error. destruct e; intros [= <-]. apply _.
  - intros _. apply try_except_plainly; [apply _|]. intros e k. destruct e; intros [= <-]. apply _.
Qed.
Lemma tinydns_step tmp s r s' :
  plain_dir tmp ->
  try_except (execute_in (Some tmp) true [tinydns_data] ;;; ret tt)
    (process_error (fun _ _ _ => raise (EBackend "Failed to generate data.cdb"))) s = (r, s') ->
  (r = Ok tt /\ exists data, files s !! (tmp ++ String "/" "data") = Some data /\
     files s' = <[tmp ++ String "/" "data.cdb" := compile data]> (files s)) \/
  ((exists e, r = Raise e) /\ same_but tmp (files s) (files s')).
Proof.
  intros Ht. unfold try_except, bind. destruct (execute_in (Some tmp) true [tinydns_data] s) as [r1 s1] eqn:E.
  apply tinydns in E as (_ & [(x & data & -> & Hd & Hf)|(e & -> & Hs)]).
  - intros [= <- <-]. left. rewrite !path_join_flat in * by done. eauto.
  - intros Hr. right. destruct e; cbn in Hr; injection Hr as <- <-; eauto.
Qed.
Lemma rename_step tmp s r s' :
  let t := tmp ++ String "/" "data.cdb" in
  try_except (os_rename t cdb)
    (fun e => match e with EOS _ => Some (os_remove t ;;; raise (EBackend "Unable to move data.cdb")) | _ => None end) s = (r, s') ->
  (r = Ok tt /\ exists c, files s !! t = Some c /\ files s' = <[cdb := c]> (delete t (files s))) \/
  ((exists e, r = Raise e) /\ same_but tmp (files s) (files s')).
Proof.
  intros t. unfold try_except. destruct (os_rename t cdb s) as [[[]|e] s1] eqn:E.
  - intros [= <- <-]. left. apply os_rename_Ok in E as (c & Hc & Hf & _). eauto.
  - apply os_rename_failing in E as (n & -> & ->). intros E. right.
    assert (Hd : dirname t = tmp) by by apply dirname_flat.
    pose proof (remove_within t) as Hw. rewrite Hd in Hw.
    assert (Hb : Within tmp (os_remove t ;;; raise (EBackend "Unable to move data.cdb") : D unit)) by apply _.
    split; [|exact (proj1 (Hb _ _ _ E))]. destruct r as [u|e]; [|by eauto].
    apply bind_Ok in E as (? & ? & _ & [=]).
Qed.
(** What the body leaves: a new database, or a trace in the temporary directory only. *)
Lemma rebuild_body_run tmp s r s' :
  plain_dir tmp -> tmp <> datafiles -> dirname cdb <> tmp -> rebuild_body tmp s = (r, s') ->
  ((exists e, r = Raise e) /\ same_but tmp (files s) (files s')) \/
  (r = Ok tt /\ exists l, Permutation l (zone_files datafiles (files s)) /\
     same_but tmp (<[cdb := compile (texts (files s) l)]> (files s)) (files s')).
Proof.
  intros Hp Hne Hcdb E. unfold rebuild_body in E. set (data := tmp ++ String "/" "data") in *.
  assert (Hdata : dirname data = tmp) by by apply dirname_flat.
  assert (Hconc : Within tmp (_concatenate_zone_datafiles datadir data)).
  { unfold _concatenate_zone_datafiles. rewrite <- Hdata.
    apply bind_within; [apply open_w_within|]. intros _. apply bind_within; [apply _|]. intros l.
    apply mfor_within. intros p. apply bind_within; [apply _|]. intros text. apply write_within. }
  unfold bind at 1 in E. destruct (_concatenate_zone_datafiles datadir data s) as [[[]|e] s1] eqn:E1.
  2:{ injection E as <- <-. left. split; [eauto|]. by eapply Hconc. }
  apply concatenate_run in E1 as (l & Hperm & Htext & S1 & _); [|congruence]. rewrite Hdata in S1.
  unfold bind at 1 in E. destruct (try_except (execute_in _ _ _ ;;; _) _ s1) as [r2 s2] eqn:E2.
  apply tinydns_step in E2 as [(-> & d & Hd & Hf2)|([e ->] & S2)]; [| |exact Hp].
  2:{ injection E as <- <-. left. split; [eauto|]. by etrans. }
  assert (S2 : same_but tmp (files s1) (files s2)).
  { rewrite Hf2. apply same_but_insert. by apply dirname_flat. }
  apply rename_step in E as [(-> & c & Hc & Hf3)|([e ->] & S3)]; [right|left].
  2:{ split; [eauto|]. etrans; [exact S1|]. by etrans. }
  split; [done|]. exists l. split.
  { rewrite Hperm. apply (zone_files_ext _ tmp); [done|]. by apply same_but_insert. }
  assert (Hcd : c = compile (texts (files s) l)).
  { rewrite Hf2, lookup_insert_eq in Hc. injection Hc as <-. f_equal.
    rewrite <- Htext. unfold content. fold data in Hd. by rewrite Hd. }
  rewrite Hf3, Hcd. apply same_but_insert_both.
  etrans; [exact S1|]. etrans; [exact S2|]. apply same_but_delete. by apply dirname_flat.
Qed.
(** The whole rebuilding: the database is the compiled texts of all zone files, or as it was. *)
Lemma rebuild_run s r s' : _rebuild_data_cdb datadir tinydns_data s = (r, s') ->
  (forall e, r = Raise e -> plain_error e) /\ exists tmp, dirname cdb <> tmp /\ tmp <> datafiles /\ tmp ∉ dirs s /\
  (((exists e, r = Raise e) /\ same_but tmp (files s) (files s')) \/
   (r = Ok tt /\ datafiles ∈ dirs s /\ exists l, Permutation l (zone_files datafiles (files s)) /\
     same_but tmp (<[cdb := compile (texts (files s) l)]> (files s)) (files s'))).
Proof.
  unfold _rebuild_data_cdb, bind at 1. destruct (mkdtemp datafiles s) as [r1 s1] eqn:E1.
  apply mkdtemp_run in E1 as (n & Hn & Hne & Hnew & F1 & Hr1). set (tmp := datafiles ++ String "/" n) in *.
  assert (Hcdb : dirname cdb <> tmp) by by apply cdb_elsewhere.
  assert (Htmp : tmp <> datafiles).
  { intros E. apply (f_equal String.length) in E. unfold tmp in E. rewrite slength_app in E. cbn in E. lia. }
  assert (Hplain : plain_dir tmp) by by apply plain_join.
  destruct Hr1 as [[k ->]|(-> & Hdir & _)].
  { intros [= <- <-]. split; [by intros e [= <-] b|]. exists tmp. split_and!; try done. left. split; [eauto|by rewrite F1]. }
  rewrite !path_join_flat by done. fold (rebuild_body tmp). unfold try_finally.
  destruct (rebuild_body tmp s1) as [r2 s2] eqn:E2. destruct (cleanup_run tmp s2) as (s3 & -> & S3). intros [= <- <-].
  split; [intros e ->; by eapply rebuild_body_plainly|]. exists tmp. split_and!; try done.
  apply rebuild_body_run in E2 as [([e ->] & S2)|(-> & l & Hl & S2)]; [left|right|done..]; rewrite F1 in *.
  { split; [eauto|]. by etrans. }
  split_and!; [done..|]. exists l. split; [done|]. by etrans.
Qed.

(** ** Transfers *)
Abbreviation zone_fn := (_datafiles_path datadir).
Abbreviation ztmp_fn := (_datafiles_tmp_path datadir).
Lemma zone_fn_flat z : has_char "/" z = false -> zone_fn z = datafiles ++ String "/" (z ++ ".zonedata").
Proof. intros Hz. apply path_join_flat; [apply datafiles_plain|]. by rewrite has_char_app, Hz. Qed.
Lemma ztmp_fn_flat z : has_char "/" z = false -> ztmp_fn z = datafiles ++ String "/" (z ++ ".ztmp").
Proof. intros Hz. apply path_join_flat; [apply datafiles_plain|]. by rewrite has_char_app, Hz. Qed.
Lemma zone_fn_dirname z : has_char "/" z = false -> dirname (zone_fn z) = datafiles.
Proof. intros Hz. rewrite zone_fn_flat by done. apply dirname_flat. by rewrite has_char_app, Hz. Qed.
Lemma ztmp_fn_dirname z : has_char "/" z = false -> dirname (ztmp_fn z) = datafiles.
Proof. intros Hz. rewrite ztmp_fn_flat by done. apply dirname_flat. by rewrite has_char_app, Hz. Qed.
Lemma zone_fn_ztmp_fn z : has_char "/" z = false -> zone_fn z <> ztmp_fn z.
Proof.
  intros Hz E. rewrite zone_fn_flat, ztmp_fn_flat in E by done.
  apply (f_equal String.length) in E. rewrite !slength_app in E. cbn in E. rewrite !slength_app in E. cbn in E. lia.
Qed.
Lemma zone_fn_zone_file z : has_char "/" z = false -> startswith "." z = false -> z <> "" ->
  is_zone_file datafiles (zone_fn z) = true.
Proof.
  intros Hz Hdot Hne. unfold is_zone_file. rewrite zone_fn_flat by done.
  assert (Hf : has_char "/" (z ++ ".zonedata") = false) by by rewrite has_char_app, Hz.
  rewrite dirname_flat, basename_flat, String.eqb_refl by done. apply andb_true_iff. split.
  - apply andb_true_iff. split; [done|]. apply endswith_app. by exists z.
  - apply negb_true_iff. destruct z as [|c z]; [done|]. revert Hdot. unfold startswith. cbn [append String.prefix].
    destruct (ascii_dec "." c); [|done]. by destruct z.
Qed.
Lemma cdb_not_datafile p : dirname p = datafiles -> p <> cdb.
Proof.
  intros Hp ->. rewrite cdb_flat, dirname_flat, datafiles_flat in Hp by done.
  apply (f_equal path_split) in Hp. by rewrite !path_split_join in Hp.
Qed.
(** After a transfer the zone's file is new; whatever happens, only it and the temporary one change. *)
Lemma perform_axfr_run z s r s' : has_char "/" z = false ->
  _perform_axfr_from_minidns datadir tcpclient axfr_get master z s = (r, s') ->
  dirs s' = dirs s /\ (forall p, p <> zone_fn z -> p <> ztmp_fn z -> files s' !! p = files s !! p) /\
  ((r = Ok tt /\ datafiles ∈ dirs s /\ is_Some (files s' !! zone_fn z)) \/
   (exists e, r = Raise e /\ plain_error e)).
Proof.
  intros Hz. unfold _perform_axfr_from_minidns, bind at 1, gets. destruct (master s) as [h p] eqn:Em.
  unfold with_lock, try_finally, modify. set (s0 := log _ s).
  destruct (try_except _ _ s0) as [r1 s1] eqn:E1. destruct (ignoring_remove (ztmp_fn z) s1) as [s2 E2]. rewrite E2.
  intros [= <- <-]. cbn [dirs log files].
  assert (Hrm : dirs s2 = dirs s1 /\ forall q, q <> ztmp_fn z -> files s2 !! q = files s1 !! q).
  { revert E2. unfold ignoring_os_errors, try_except, os_remove, sys. destruct (sys_fails _ _ _); [by intros [= <-]|].
    cbn. destruct (files s1 !! ztmp_fn z); cbn; intros [= <-]; [|done]. split; [done|]. intros q Hq. by apply lookup_delete_ne. }
  destruct Hrm as [Hd2 Hf2]. unfold try_except, bind in E1.
  destruct (execute _ s0) as [r0 s0'] eqn:E0.
  assert (Hplain : forall e, r0 = Raise e -> plain_error e) by (intros e ->; by eapply execute_in_plainly).
  apply axfr in E0 as [Hd0 [(x & text & -> & Hdir & Hf0)|(e & -> & Hf0)]].
  all: change (dirs s0) with (dirs s) in *; change (files s0) with (files s) in *.
  - injection E1 as <- <-. split; [congruence|]. rewrite zone_fn_dirname in Hdir by done. split.
    + intros q Hq Hq'. rewrite Hf2, Hf0, lookup_insert_ne by congruence. done.
    + left. split_and!; [done..|]. rewrite Hf2 by (by apply zone_fn_ztmp_fn). rewrite Hf0, lookup_insert_eq. eauto.
  - assert (Hs1 : s1 = s0') by (destruct e; by injection E1 as _ <-). subst s1. split; [congruence|]. split.
    + intros q Hq Hq'. rewrite Hf2, Hf0 by done. done.
    + right. destruct e as [| | |b|]; injection E1 as <-; eexists; (split; [done|]); try (by intros b'); by apply Hplain.
Qed.

(** ** Creation, update and deletion *)
Lemma filtered (m : D unit) s r s' :
  filter_exceptions m s = (r, s') -> (forall e, (m s).1 = Raise e -> plain_error e) ->
  exists r0, m s = (r0, s') /\ (r0 = Ok tt /\ r = Ok tt \/ exists e text, r0 = Raise e /\ r = Raise (EBackend text)).
Proof.
  unfold filter_exceptions, try_except. destruct (m s) as [[[]|e] s1] eqn:E; cbn; intros Hr Hp.
  - injection Hr as <- <-. eauto.
  - destruct e as [| | |b|]; [| | |by destruct (Hp _ eq_refl b)|]; injection Hr as <- <-; eexists; (split; [done|]); right; eauto.
Qed.
(** The database is made of the zone files that are there. *)
Definition up_to_date (f : gmap string string) : Prop :=
  exists l, Permutation l (zone_files datafiles f) /\ f !! cdb = Some (compile (texts f l)).
Lemma rebuilt s r s' : _rebuild_data_cdb datadir tinydns_data s = (r, s') ->
  (forall p, dirname p = datafiles -> files s' !! p = files s !! p) /\
  ((r = Ok tt /\ datafiles ∈ dirs s /\ up_to_date (files s')) \/
   ((exists e, r = Raise e) /\ files s' !! cdb = files s !! cdb)).
Proof.
  intros (_ & tmp & Hcdb & Htmp & _ & [[He S]|(-> & Hd & l & Hl & S)])%rebuild_run.
  - split; [|right; split; [done|by apply S]]. intros p Hp. apply S. congruence.
  - assert (Hin : forall p, dirname p = datafiles -> files s' !! p = files s !! p).
    { intros p Hp. rewrite S by congruence. apply lookup_insert_ne. intros E'. by apply (cdb_not_datafile p Hp). }
    split; [done|]. left. split_and!; [done..|]. exists l. split.
    + rewrite Hl. symmetry. apply NoDup_Permutation; [apply NoDup_zone_files..|]. intros p. rewrite !zone_files_elem.
      split; intros [Hz Hp]; (split; [done|]); revert Hp; rewrite Hin; try done;
        unfold is_zone_file in Hz; by apply andb_true_iff in Hz as [[Hz%String.eqb_eq _]%andb_true_iff _].
    + rewrite S, lookup_insert_eq by done. do 2 f_equal. symmetry. apply texts_ext. intros p Hp. apply Hin.
      rewrite Hl in Hp. apply zone_files_elem in Hp as [Hz _].
      unfold is_zone_file in Hz. by apply andb_true_iff in Hz as [[Hz%String.eqb_eq _]%andb_true_iff _].
Qed.
Lemma written zone s r s' : has_char "/" (origin_text zone) = false ->
  create_zone zone s = (r, s') \/ update_zone zone s = (r, s') ->
  (forall p, dirname p = datafiles -> p <> zone_fn (origin_text zone) -> p <> ztmp_fn (origin_text zone) ->
     files s' !! p = files s !! p) /\
  ((r = Ok tt /\ up_to_date (files s') /\ is_Some (files s' !! zone_fn (origin_text zone)) /\ datafiles ∈ dirs s) \/
   (exists text, r = Raise (EBackend text) /\ files s' !! cdb = files s !! cdb)).
Proof.
  intros Hz Hr. set (z := origin_text zone) in *.
  assert (E : filter_exceptions (_perform_axfr_from_minidns datadir tcpclient axfr_get master z ;;;
                                 _rebuild_data_cdb datadir tinydns_data) s = (r, s')) by (destruct Hr; done).
  assert (Hc1 : cdb <> zone_fn z) by (intros E'; symmetry in E'; revert E'; apply cdb_not_datafile, zone_fn_dirname, Hz).
  assert (Hc2 : cdb <> ztmp_fn z) by (intros E'; symmetry in E'; revert E'; apply cdb_not_datafile, ztmp_fn_dirname, Hz).
  apply filtered in E as (r0 & E & Hr0).
  - unfold bind in E. destruct (_perform_axfr_from_minidns _ _ _ _ z s) as [r1 s1] eqn:E1.
    apply perform_axfr_run in E1 as (Hd & Hf & [(-> & Hdir & Hz1)|(e & -> & _)]); [| |done].
    + apply rebuilt in E as [Hin Hcase]. split.
      { intros p Hp Hp1 Hp2. rewrite Hin by done. by apply Hf. }
      destruct Hcase as [(-> & _ & Hup)|([e ->] & Hcdb)].
      * destruct Hr0 as [[_ ->]|(e & text & [=] & _)]. left. split_and!; [done..| |done].
        by rewrite Hin by by apply zone_fn_dirname.
      * destruct Hr0 as [[[=] _]|(e' & text & _ & ->)]. right. exists text. split; [done|]. rewrite Hcdb. by apply Hf.
    + injection E as <- <-. destruct Hr0 as [[[=] _]|(e' & text & _ & ->)]. split; [by intros p _; apply Hf|].
      right. exists text. split; [done|]. by apply Hf.
  - intros e. unfold bind. destruct (_perform_axfr_from_minidns _ _ _ _ z s) as [r1 s1] eqn:E1.
    apply perform_axfr_run in E1 as (_ & _ & [(-> & _)|(e1 & -> & He)]); [| |done].
    + cbn. destruct (_rebuild_data_cdb _ _ s1) as [r2 s2] eqn:E2. apply rebuild_run in E2 as [Hp _]. apply Hp.
    + cbn. by intros [= <-].
Qed.
Lemma remove_if_there_run p s r s' : remove_if_there p s = (r, s') ->
  (files s' = files s /\ ((r = Ok false /\ files s !! p = None) \/ exists n, r = Raise (EOS n))) \/
  (r = Ok true /\ is_Some (files s !! p) /\ files s' = delete p (files s)).
Proof.
  unfold remove_if_there, try_except, bind, os_remove, sys. destruct (sys_fails s "remove" p) as [n|] eqn:Hn.
  - destruct (n =? ENOENT)%Z eqn:En; intros [= <- <-]; left; (split; [done|]); [left|right; eauto].
    apply Z.eqb_eq in En as ->. split; [done|]. by apply missing_only.
  - cbn. destruct (files s !! p) eqn:Hp; cbn; intros [= <- <-]; [right|left]; eauto.
Qed.
Lemma deleted name s r s' : let z := rstrip_dots name in has_char "/" z = false ->
  delete_zone name s = (r, s') ->
  (forall p, dirname p = datafiles -> p <> zone_fn z -> files s' !! p = files s !! p) /\
  match files s !! zone_fn z with
  | None => files s' = files s /\ (r = Ok tt \/ exists text, r = Raise (EBackend text))
  | Some _ => (r = Ok tt /\ up_to_date (files s') /\ files s' !! zone_fn z = None) \/
              (exists text, r = Raise (EBackend text) /\ files s' !! cdb = files s !! cdb)
  end.
Proof.
  intros z Hz E. assert (Hc1 : cdb <> zone_fn z) by (intros E'; symmetry in E'; revert E'; apply cdb_not_datafile, zone_fn_dirname, Hz).
  assert (Hplain : forall e, (bind (remove_if_there (zone_fn z)) (fun there : bool => if there then _rebuild_data_cdb datadir tinydns_data else ret tt) s).1 = Raise e -> plain_error e).
  { assert (Hm : Raises_plainly (bind (remove_if_there (zone_fn z)) (fun there : bool => if there then _rebuild_data_cdb datadir tinydns_data else ret tt))).
    { apply bind_plainly; [apply try_except_plainly; [apply _|]|].
      - intros e k. destruct e as [| |n| |]; try done. destruct (n =? ENOENT)%Z; intros [= <-]. apply _.
      - intros []; [|apply _]. intros s0 e s0' [Hp _]%rebuild_run. by apply Hp. }
    intros e He. destruct (bind _ _ s) as [r1 s1] eqn:E1. cbn in He. subst r1. by eapply Hm. }
  apply filtered in E as (r0 & E & Hr0); [|exact Hplain]. clear Hplain.
  unfold bind in E. fold z in E. destruct (remove_if_there (zone_fn z) s) as [r1 s1] eqn:E1.
  apply remove_if_there_run in E1 as [[Hf [[-> Hnone]|[n ->]]]|(-> & [c Hc] & Hf)].
  - injection E as <- <-. rewrite Hnone, Hf. split; [done|]. destruct Hr0 as [[_ ->]|(e & text & [=] & _)]. auto.
  - injection E as <- <-. destruct Hr0 as [[[=] _]|(e & text & _ & ->)]. rewrite Hf. split; [done|].
    destruct (files s !! zone_fn z); [right|split; [done|right]]; eauto.
  - apply rebuilt in E as [Hin Hcase]. rewrite Hc. split.
    { intros p Hp Hne. rewrite Hin, Hf by done. by apply lookup_delete_ne. }
    destruct Hcase as [(-> & _ & Hup)|([e ->] & Hcdb)]; [left|right].
    + destruct Hr0 as [[_ ->]|(e & text & [=] & _)]. split_and!; [done..|].
      rewrite Hin, Hf by by apply zone_fn_dirname. apply lookup_delete_eq.
    + destruct Hr0 as [[[=] _]|(e' & text & _ & ->)]. exists text. split; [done|]. rewrite Hcdb, Hf. by apply lookup_delete_ne.
Qed.

(** C22: the database that tinydns serves. When a creation or an update of a zone returns, the
    database is compiled from the texts of all zone files that are there, that of the zone
    among them; when a deletion returns, either the zone's file was not there and nothing
    changed, or it is gone and the database is compiled from the others. Every failure is a
    [Backend], and leaves the database of before. A deletion whose rebuilding failed is lost:
    repeating it succeeds and leaves the database with the zone in it. *)
Theorem djbdns_database zone name s :
  let z := origin_text zone in let zd := rstrip_dots name in
  has_char "/" z = false -> startswith "." z = false -> z <> "" -> has_char "/" zd = false ->
  (forall r s', create_zone zone s = (r, s') \/ update_zone zone s = (r, s') ->
     (r = Ok tt /\ up_to_date (files s') /\ zone_fn z ∈ zone_files datafiles (files s')) \/
     (exists text, r = Raise (EBackend text) /\ files s' !! cdb = files s !! cdb)) /\
  (forall r s', delete_zone name s = (r, s') ->
     (r = Ok tt /\ (files s !! zone_fn zd = None /\ files s' = files s \/
                    up_to_date (files s') /\ zone_fn zd ∉ zone_files datafiles (files s'))) \/
     (exists text, r = Raise (EBackend text) /\ files s' !! cdb = files s !! cdb)) /\
  (forall e s1 s2, delete_zone name s = (Raise e, s1) -> files s1 !! zone_fn zd = None ->
     delete_zone name s1 = (Ok tt, s2) -> files s2 !! cdb = files s !! cdb).
Proof.
  intros z zd Hz Hdot Hne Hzd. split_and!.
  - intros r s' [_ [(-> & Hup & Hin & _)|Hf]]%(written zone s r s' Hz); [left|by right].
    split_and!; [done..|]. apply zone_files_elem. split; [by apply zone_fn_zone_file|done].
  - intros r s' [_ Hd]%(deleted name s r s' Hzd). destruct (files s !! zone_fn zd) eqn:Hf; fold zd in Hd; rewrite Hf in Hd.
    + destruct Hd as [(-> & Hup & Hgone)|Hd]; [left|by right]. split; [done|]. right. split; [done|].
      rewrite zone_files_elem. intros [_ [c Hc]]. congruence.
    + destruct Hd as [Hsame [->|[text ->]]]; [left; split; [done|by left]|right]. exists text. by rewrite Hsame.
  - intros e s1 s2 [_ H1]%(deleted name s _ s1 Hzd) Hgone [_ H2]%(deleted name s1 _ s2 Hzd). fold zd in H1, H2.
    rewrite Hgone in H2. destruct H2 as [-> _]. destruct (files s !! zone_fn zd).
    + destruct H1 as [([=] & _)|(text & _ & Hc)]. done.
    + by destruct H1 as [-> _].
Qed.
End Djbdns_facts.

(** ** An example *)
Section Example.
Definition tools (s : machine) (cwd : option string) (cmd : list string) : outcome * tree :=
  match cmd, cwd with
  | [_; _; _; _; z; fn; _], None =>
      if decide (dirname fn ∈ dirs s) then (Finished "" "", (<[fn := "data of " ++ z]> (files s), dirs s))
      else (Failing "" "" "", (files s, dirs s))
  | [_], Some d =>
      match files s !! path_join d "data" with
      | Some data => (Finished "" "", (<[path_join d "data.cdb" := "cdb:" ++ data]> (files s), dirs s))
      | None => (Failing "" "" "", (files s, dirs s))
      end
  | _, _ => (Failing "" "" "", (files s, dirs s))
  end.
#[local] Instance example_tools fails :
  @DjbTools (calm fails tools) "tcpclient" "axfr-get" "tinydns-data" (fun data => "cdb:" ++ data).
Proof.
  split.
  - intros h p z fn tmp s r s'. unfold execute, execute_in, spawn, calm, tools. case_decide as Hd; intros [= <- <-];
      (split; [done|]); [left; exists ("", ""), ("data of " ++ z); done|right; by exists (EProcess "" "" "")].
  - intros d s r s'. unfold execute_in, spawn, calm, tools. destruct (files s !! path_join d "data") as [data|] eqn:E;
      intros [= <- <-]; (split; [done|]); [left; by exists ("", ""), data|right; by exists (EProcess "" "" "")].
Qed.
Definition djb_machine : machine :=
  machine_with [("/djb/root/data.cdb", "cdb:data of old.org"); ("/djb/datafiles/old.org.zonedata", "data of old.org")]
               ["/djb"; "/djb/root"; "/djb/datafiles"].
Definition a_master (_ : machine) : string * Z := ("127.0.0.1", 5354%Z).
(** The only zone is deleted: the directory of the zone files goes with it, and no zone is ever
    created again. *)
Lemma last_zone_takes_directory :
  let s1 := (djbdns_delete_zone (H := calm works tools) "/djb" "tinydns-data" "old.org." djb_machine).2 in
  bool_decide ("/djb/datafiles" ∈ dirs s1) = false /\
  (djbdns_create_zone (H := calm works tools) "/djb" "tcpclient" "axfr-get" "tinydns-data" a_master
     (zone_named "new.org.") s1).1 = Raise (EBackend "").
Proof. vm_compute. done. Qed.
End Example.

Lemma djbdns_database_witness :
  let host := calm works tools in
  let run := djbdns_create_zone (H := host) "/djb" "tcpclient" "axfr-get" "tinydns-data" a_master (zone_named "new.org.") djb_machine in
  run.1 = Ok tt /\ up_to_date (compile := fun data => "cdb:" ++ data) "/djb" (files run.2).
Proof.
  intros host run. assert (H1 : run.1 = Ok tt) by (vm_compute; reflexivity). split; [exact H1|].
  assert (Hr : run = (Ok tt, run.2)) by (rewrite <- H1; apply surjective_pairing).
  destruct (djbdns_database (H := host) (H0 := calm_laws works tools works_honest)
    (DjbTools0 := example_tools works) "/djb" a_master ltac:(split; done) (zone_named "new.org.") "" djb_machine)
    as (Hc & _); [reflexivity|reflexivity|discriminate|reflexivity|].
  destruct (Hc (Ok tt) run.2 (or_introl Hr)) as [(_ & Hup & _)|(text & Hx & _)]; [exact Hup|discriminate Hx].
Defined.
