(* ===== verification/Denominator.v ===== *)
(** * The Denominator driver of the agent (backend/agent_backend/impl_denominator.py)

    It keeps the zones of a DNS provider by running the denominator program, a command per
    record, and updates a zone by the differences from what the provider lists. *)
From Stdlib Require Import ZArith Lia Ascii String.
From stdpp Require Import base option numbers strings sets list gmap.
From S2P Require Import Prelude PyStr Exceptions Dnsutils Machine AgentDrivers AgentDriversFacts.
Local Open Scope string_scope.

(** A record of a zone: name without the final dot, TTL, type and text of the data *)
Record zone_record := { zr_name : string; zr_ttl : Z; zr_type : string; zr_data : string }.
Definition without_dot (n : string) : string :=
  if (n =? ".") then "." else if endswith "." n then drop_last n else n.
(** [_iterate_records] *)
Definition _iterate_records (z : dns_zone) : list zone_record :=
  concat (map (fun '(name, rdatasets) =>
    concat (map (fun rd => map (fun d => {| zr_name := without_dot name; zr_ttl := rd_ttl rd; zr_type := rd_type rd; zr_data := d |})
                               (rd_data rd)) rdatasets)) (nodes z)).
(** [s.splitlines()] *)
Definition newline : ascii := "010"%char.
Definition splitlines (s : string) : list string :=
  let l := split_char newline s in if (List.last l "" =? "") then removelast l else l.

Section Denominator.
Context `{Host}.
(** [[backend:agent:denominator]]; without a file [config_file] is [""] *)
Variables conf_name config_file : string.
(** dnspython's reading of the data of an SOA record: its serial *)
Variable soa_from_text : string -> option Z.
Abbreviation D A := (M err machine A).

(** ** The program (class Denominator) *)
Definition kwargs : Type := list (string * string).
Definition _params (kw : kwargs) : list string := concat (map (fun '(k, v) => ["--" ++ k; v]) kw).
Definition _base : list string :=
  app ["denominator"; "-q"; "-n"; conf_name] (if (config_file =? "") then [] else ["-C"; config_file]).
Definition _execute (op : list string) (kw : kwargs) : D string :=
  try_except (let! '(stdout, _) := execute (app _base (app op (_params kw))) in ret stdout)
    (process_error (fun _ _ text => raise (EBase text))).
Definition update_record (zone : string) (kw : kwargs) : D string := _execute ["record"; "-z"; zone; "replace"] kw.
Definition create_record (zone : string) (kw : kwargs) : D string := _execute ["record"; "-z"; zone; "add"] kw.
Definition delete_record (zone : string) (kw : kwargs) : D string := _execute ["record"; "-z"; zone; "delete"] kw.
Definition get_record (zone : string) (kw : kwargs) : D string := _execute ["record"; "-z"; zone; "get"] kw.
Definition get_records (zone : string) (kw : kwargs) : D string := _execute ["record"; "-z"; zone; "list"] kw.
Definition create_zone (kw : kwargs) : D string := _execute ["zone"; "add"] kw.
Definition update_zone (kw : kwargs) : D string := _execute ["zone"; "update"] kw.
Definition delete_zone (kw : kwargs) : D string := _execute ["zone"; "delete"] kw.

(** ** The driver (DenominatorBackend) *)
Definition _sync_zone {A} (zone_name : string) (m : D A) : D A := with_lock ("denominator-" ++ zone_name) m.
Definition denominator_find_zone_serial (zone_name : string) : D (option Z) :=
  let zone_name := rstrip_dots zone_name in
  let! output := get_record zone_name [("type", "SOA"); ("name", zone_name)] in
  ret (soa_from_text (join " " (drop 3 (words output)))).
(** [zone.find_rrset(zone.origin, SOA)]: its TTL and the mail address *)
Definition soa_of (zone : dns_zone) : D (Z * string) :=
  match soa zone with
  | Some s => ret (soa_ttl s, rname s ++ ".")
  | None => raise (EPython PyKeyError)
  end.
Definition of_record (r : zone_record) : kwargs :=
  [("name", zr_name r); ("type", zr_type r); ("ttl", str_of_Z (zr_ttl r)); ("data", zr_data r)].
Definition denominator_create_zone (zone : dns_zone) : D unit :=
  let zone_name := origin_text zone in
  let! '(ttl, email) := soa_of zone in
  _sync_zone (origin zone)
    (create_zone [("name", zone_name); ("ttl", str_of_Z ttl); ("email", email)] ;;;
     mfor (_iterate_records zone) (fun r =>
       when (negb (zr_type r =? "SOA")) (create_record zone_name (of_record r) ;;; ret tt))).

(** The names of the provider's record sets with their types. *)
Definition subzones : Type := list (string * list string).
Definition types_of (subs : subzones) (name : string) : list string := default [] (aget name subs).
Definition add_type (subs : subzones) (name rtype : string) : subzones :=
  let rtypes := types_of subs name in
  aset name (if bool_decide (rtype ∈ rtypes) then rtypes else app rtypes [rtype]) subs.
Definition remove_type (subs : subzones) (name rtype : string) : subzones :=
  aset name (List.filter (fun t => negb (t =? rtype)) (types_of subs name)) subs.
Fixpoint listed (subs : subzones) (raws : list string) : D subzones :=
  match raws with
  | [] => ret subs
  | raw :: raws => match words raw with
                   | name :: rtype :: _ => listed (add_type subs name rtype) raws
                   | _ => raise (EPython PyIndexError)
                   end
  end.
(** One record of the zone: added, or, the first of a set the provider has, replacing it. *)
Definition put_record (zone_name : string) (subs : subzones) (r : zone_record) : D subzones :=
  if bool_decide (zr_type r ∈ types_of subs (zr_name r)) then
    let subs := remove_type subs (zr_name r) (zr_type r) in
    when (negb (zr_type r =? "SOA")) (update_record zone_name (of_record r) ;;; ret tt) ;;; ret subs
  else create_record zone_name (of_record r) ;;; ret subs.
Definition delete_remaining (zone_name : string) (subs : subzones) : D unit :=
  mfor subs (fun '(name, types) => mfor types (fun rtype =>
    delete_record zone_name [("id", name); ("type", rtype)] ;;; ret tt)).
Definition denominator_update_zone (zone : dns_zone) : D unit :=
  let zone_name := origin_text zone in
  let! '(ttl, email) := soa_of zone in
  _sync_zone (origin zone)
    (update_zone [("id", zone_name); ("ttl", str_of_Z ttl); ("email", email)] ;;;
     let! output := get_records zone_name [] in
     let! subs := listed [] (splitlines output) in
     let! subs := mfold (_iterate_records zone) subs (put_record zone_name) in
     delete_remaining zone_name subs).
Definition denominator_delete_zone (zone_name : string) : D unit :=
  _sync_zone zone_name (delete_zone [("id", zone_name)] ;;; ret tt).
End Denominator.

(** ** The provider

    The record sets of the zone at the provider, by name and type, and what the driver relies
    on of the program when it succeeds. *)
Abbreviation rrsets_map := (gmap (string * string) (list string)).
Class Provider `{Host} := rrsets : machine -> rrsets_map.
Definition lists (out name rtype : string) : Prop :=
  exists raw rest, raw ∈ splitlines out /\ words raw = name :: rtype :: rest.
Class ProviderLaws `{Provider} (base : list string) (zone : string) := {
  provider_lock n s : rrsets (log (Lock n) s) = rrsets s;
  provider_unlock n s : rrsets (log (Unlock n) s) = rrsets s;
  provider_update p s x s' : execute (app base (app ["zone"; "update"] p)) s = (Ok x, s') -> rrsets s' = rrsets s;
  provider_list s out e s' : execute (app base ["record"; "-z"; zone; "list"]) s = (Ok (out, e), s') ->
    rrsets s' = rrsets s /\ forall n t, lists out n t <-> is_Some (rrsets s !! (n, t));
  provider_add n t ttl d s x s' :
    execute (app base (app ["record"; "-z"; zone; "add"] ["--name"; n; "--type"; t; "--ttl"; ttl; "--data"; d])) s = (Ok x, s') ->
    rrsets s' = <[(n, t) := app (default [] (rrsets s !! (n, t))) [d]]> (rrsets s);
  provider_replace n t ttl d s x s' :
    execute (app base (app ["record"; "-z"; zone; "replace"] ["--name"; n; "--type"; t; "--ttl"; ttl; "--data"; d])) s = (Ok x, s') ->
    rrsets s' = <[(n, t) := [d]]> (rrsets s);
  provider_delete n t s x s' :
    execute (app base (app ["record"; "-z"; zone; "delete"] ["--id"; n; "--type"; t])) s = (Ok x, s') ->
    rrsets s' = delete (n, t) (rrsets s);
}.
(** The data a zone has under a name and a type. *)
Definition data_of (l : list zone_record) (n t : string) : list string :=
  map zr_data (List.filter (fun r => (zr_name r =? n) && (zr_type r =? t)) l).

Section Facts.
Context `{Provider}.
Variables conf_name config_file : string.
Variable zone : dns_zone.
Context `{!ProviderLaws (_base conf_name config_file) (origin_text zone)}.
Abbreviation zn := (origin_text zone).

Lemma execute_Ok op kw s out s' :
  _execute conf_name config_file op kw s = (Ok out, s') ->
  exists e, execute (app (_base conf_name config_file) (app op (_params kw))) s = (Ok (out, e), s').
Proof.
  unfold _execute, try_except, bind. destruct (execute _ s) as [[[o e]|e] s1].
  - intros [= <- <-]. eauto.
  - destruct e; cbn; try (by intros [=]); by intros [=].
Qed.
Lemma create_record_Ok r s x s' :
  create_record conf_name config_file zn (of_record r) s = (Ok x, s') ->
  rrsets s' = <[(zr_name r, zr_type r) := app (default [] (rrsets s !! (zr_name r, zr_type r))) [zr_data r]]> (rrsets s).
Proof. intros [e E]%execute_Ok. by apply provider_add in E. Qed.
Lemma update_record_Ok r s x s' :
  update_record conf_name config_file zn (of_record r) s = (Ok x, s') ->
  rrsets s' = <[(zr_name r, zr_type r) := [zr_data r]]> (rrsets s).
Proof. intros [e E]%execute_Ok. by apply provider_replace in E. Qed.

Lemma types_add subs n t n' t' :
  t ∈ types_of (add_type subs n' t') n <-> (n = n' /\ t = t') \/ t ∈ types_of subs n.
Proof.
  unfold add_type, types_of. rewrite aget_aset. destruct (String.eqb_spec n n') as [->|Hn]; cbn.
  - case_bool_decide; [|rewrite elem_of_app, list_elem_of_singleton]; naive_solver.
  - naive_solver.
Qed.
Lemma types_remove subs n t n' t' :
  t ∈ types_of (remove_type subs n' t') n <-> (n, t) <> (n', t') /\ t ∈ types_of subs n.
Proof.
  unfold remove_type, types_of. rewrite aget_aset. destruct (String.eqb_spec n n') as [->|Hn]; cbn.
  - rewrite list_elem_of_In, filter_In, <- list_elem_of_In, negb_true_iff, String.eqb_neq. naive_solver.
  - naive_solver.
Qed.
Lemma listed_Ok raws subs s subs' s' : listed subs raws s = (Ok subs', s') ->
  s' = s /\ forall n t, t ∈ types_of subs' n <->
    t ∈ types_of subs n \/ exists raw rest, raw ∈ raws /\ words raw = n :: t :: rest.
Proof.
  revert subs. induction raws as [|raw raws IH]; intros subs; cbn.
  - intros [= <- <-]. split; [done|]. intros n t. split; [by left|]. intros [?|(? & ? & []%not_elem_of_nil & _)]. done.
  - destruct (words raw) as [|n0 [|t0 rest0]] eqn:Hw; [done..|].
    intros [-> Hin]%IH. split; [done|]. intros n t. rewrite Hin, types_add. split.
    + intros [[[-> ->]|?]|(r & rest & Hr & Hwr)]; [right|by left|right].
      * exists raw, rest0. split; [by left|done].
      * exists r, rest. split; [by right|done].
    + intros [?|(r & rest & [->|Hr]%elem_of_cons & Hwr)]; [left; by right| |right; eauto].
      left. left. rewrite Hw in Hwr. by injection Hwr as -> ->.
Qed.

Lemma data_of_snoc l r n t :
  data_of (app l [r]) n t = app (data_of l n t) (if (zr_name r =? n) && (zr_type r =? t) then [zr_data r] else []).
Proof. unfold data_of. rewrite List.filter_app, map_app. cbn. by destruct (_ && _). Qed.

(** The state of the loop over the records, after those of [l]: the sets of [l] are what they
    should be, those not come to yet are as they were, and listed. *)
Definition putting (before : rrsets_map) (l : list zone_record) (subs : subzones) (now : rrsets_map) : Prop :=
  forall n t, t <> "SOA" ->
    (data_of l n t <> [] -> now !! (n, t) = Some (data_of l n t) /\ t ∉ types_of subs n) /\
    (data_of l n t = [] -> now !! (n, t) = before !! (n, t) /\ (t ∈ types_of subs n <-> is_Some (before !! (n, t)))).
Lemma replace_or_skip r s u s' :
  when (negb (zr_type r =? "SOA")) (update_record conf_name config_file zn (of_record r) ;;; ret tt) s = (Ok u, s') ->
  rrsets s' = if zr_type r =? "SOA" then rrsets s else <[(zr_name r, zr_type r) := [zr_data r]]> (rrsets s).
Proof.
  destruct (zr_type r =? "SOA"); cbn; [by intros [= _ <-]|]. intros (x & s2 & E & Hr)%bind_Ok.
  unfold ret in Hr. simplify_eq. by eapply update_record_Ok.
Qed.
Lemma put_record_step before l r subs s subs' s' :
  putting before l subs (rrsets s) -> put_record conf_name config_file zn subs r s = (Ok subs', s') ->
  putting before (app l [r]) subs' (rrsets s').
Proof.
  intros Hinv E. unfold put_record in E. case_bool_decide as Hin.
  - apply bind_Ok in E as (? & s1 & E%replace_or_skip & [= <- <-]).
    assert (Hother : forall k, k <> (zr_name r, zr_type r) -> rrsets s1 !! k = rrsets s !! k).
    { intros k Hk. rewrite E. destruct (_ =? _); [done|]. by apply lookup_insert_ne. }
    intros n t Ht. rewrite types_remove, data_of_snoc.
    destruct (Hinv n t Ht) as [H1 H2].
    destruct (String.eqb_spec (zr_name r) n) as [<-|Hn]; [destruct (String.eqb_spec (zr_type r) t) as [<-|Ht']|]; cbn [andb].
    + apply String.eqb_neq in Ht. rewrite E, Ht, lookup_insert_eq.
      destruct (data_of l (zr_name r) (zr_type r)) eqn:Hd; [|by destruct (H1 ltac:(done))]. cbn. naive_solver.
    + rewrite Hother, app_nil_r by congruence. split; [naive_solver|]. intros Hd. destruct (H2 Hd) as [-> <-]. naive_solver.
    + rewrite Hother, app_nil_r by congruence. split; [naive_solver|]. intros Hd. destruct (H2 Hd) as [-> <-]. naive_solver.
  - apply bind_Ok in E as (? & s1 & E & [= <- <-]). apply create_record_Ok in E. rewrite E. intros n t Ht.
    destruct (Hinv n t Ht) as [H1 H2]. rewrite data_of_snoc.
    destruct (String.eqb_spec (zr_name r) n) as [<-|Hn]; [destruct (String.eqb_spec (zr_type r) t) as [<-|Ht']|]; cbn [andb].
    + rewrite lookup_insert_eq. destruct (data_of l (zr_name r) (zr_type r)) as [|d ds] eqn:Hd.
      * destruct (H2 eq_refl) as [-> Hiff]. split; [|done]. intros _. split; [|done].
        destruct (before !! (zr_name r, zr_type r)) eqn:Hb; [|done]. exfalso. apply Hin, Hiff. eauto.
      * destruct (H1 ltac:(done)) as [-> Hno]. split; [by intros _|done].
    + rewrite lookup_insert_ne, app_nil_r by congruence. done.
    + rewrite lookup_insert_ne, app_nil_r by congruence. done.
Qed.
Lemma put_records_run before records l subs s subs' s' :
  putting before l subs (rrsets s) -> mfold records subs (put_record conf_name config_file zn) s = (Ok subs', s') ->
  putting before (app l records) subs' (rrsets s').
Proof.
  revert l subs s. induction records as [|r records IH]; intros l subs s Hinv; cbn [mfold].
  - intros [= <- <-]. by rewrite app_nil_r.
  - intros (subs1 & s1 & E & E')%bind_Ok. replace (app l (r :: records)) with (app (app l [r]) records) by by rewrite <- app_assoc.
    eapply IH; [|exact E']. by eapply put_record_step.
Qed.
Lemma put_records_NoDup records subs s subs' s' :
  NoDup subs.*1 -> mfold records subs (put_record conf_name config_file zn) s = (Ok subs', s') -> NoDup subs'.*1.
Proof.
  revert subs s. induction records as [|r records IH]; intros subs s Hnd; cbn [mfold]; [by intros [= <- <-]|].
  intros (subs1 & s1 & E & E')%bind_Ok. eapply IH; [|exact E']. unfold put_record in E. case_bool_decide.
  - apply bind_Ok in E as (? & s2 & _ & [= <- <-]). by apply aset_NoDup.
  - by apply bind_Ok in E as (? & s2 & _ & [= <- <-]).
Qed.
Lemma listed_NoDup raws subs s subs' s' : NoDup subs.*1 -> listed subs raws s = (Ok subs', s') -> NoDup subs'.*1.
Proof.
  revert subs. induction raws as [|raw raws IH]; intros subs Hnd; cbn; [by intros [= <- <-]|].
  destruct (words raw) as [|n0 [|t0 rest0]]; [done..|]. apply IH. by apply aset_NoDup.
Qed.
Lemma delete_types_run name types s u s' :
  mfor types (fun rtype => delete_record conf_name config_file zn [("id", name); ("type", rtype)] ;;; ret tt) s = (Ok u, s') ->
  forall n t, rrsets s' !! (n, t) = if decide (n = name /\ t ∈ types) then None else rrsets s !! (n, t).
Proof.
  revert s. induction types as [|t0 types IH]; intros s; cbn [mfor].
  - intros [= _ <-] n t. case_decide as Hd; [|done]. by destruct Hd as [_ []%not_elem_of_nil].
  - intros (? & s1 & (? & s2 & [e E]%execute_Ok & Hr)%bind_Ok & E')%bind_Ok n t. unfold ret in Hr. simplify_eq.
    apply provider_delete in E. rewrite (IH _ E' n t), E.
    destruct (decide (n = name /\ t = t0)) as [[-> ->]|Hne].
    + rewrite lookup_delete_eq. destruct (decide (name = name /\ t0 ∈ t0 :: types)) as [|Hx]; [by case_decide|].
      destruct Hx. split; [done|by left].
    + rewrite lookup_delete_ne by naive_solver. do 2 case_decide; try done; exfalso; set_solver.
Qed.
Lemma delete_remaining_run subs s u s' :
  NoDup subs.*1 -> delete_remaining conf_name config_file zn subs s = (Ok u, s') ->
  forall n t, rrsets s' !! (n, t) = if decide (t ∈ types_of subs n) then None else rrsets s !! (n, t).
Proof.
  revert s. induction subs as [|[name types] subs IH]; intros s Hnd; cbn.
  - intros [= _ <-] n t. case_decide as Hd; [|done]. by apply not_elem_of_nil in Hd.
  - intros (? & s1 & E & E')%bind_Ok n t. apply NoDup_cons in Hnd as [Hno Hnd].
    rewrite (IH _ Hnd E' n t), (delete_types_run _ _ _ _ _ E n t). unfold types_of. cbn [aget].
    destruct (String.eqb_spec n name) as [->|Hn]; cbn [from_option id].
    + cbn in Hno. apply aget_None_elem in Hno. rewrite Hno. cbn. repeat case_decide; try done; exfalso; set_solver.
    + repeat case_decide; try done; exfalso; naive_solver.
Qed.

(** C23: an update of a zone at a DNS provider brings the provider to the zone. When it
    returns, the provider has, under every name and every type but SOA, exactly the data that
    the zone has there, in the order of the zone, and nothing under the others: the first
    record of a set that was there replaces it, further ones are added, and what the zone does
    not have is deleted, whatever the provider had before. *)
Theorem denominator_synchronises s u s' :
  denominator_update_zone conf_name config_file zone s = (Ok u, s') ->
  forall n t, t <> "SOA" ->
    rrsets s' !! (n, t) = match data_of (_iterate_records zone) n t with [] => None | l => Some l end.
Proof.
  unfold denominator_update_zone. intros ((ttl & email) & s0 & Hsoa & E)%bind_Ok n t Ht.
  unfold _sync_zone, with_lock, try_finally in E. destruct (bind _ _ (log _ s0)) as [r1 s1] eqn:Eb.
  unfold modify in E. injection E as -> <-. rewrite provider_unlock.
  apply bind_Ok in Eb as (x & s2 & [e2 E2]%execute_Ok & Eb). apply provider_update in E2.
  apply bind_Ok in Eb as (out & s3 & [e3 E3]%execute_Ok & Eb). apply provider_list in E3 as [H3 Hlist].
  apply bind_Ok in Eb as (subs & s4 & El & Eb).
  assert (Hnd : NoDup subs.*1) by (eapply listed_NoDup; [|exact El]; apply NoDup_nil_2).
  apply listed_Ok in El as [-> Hin]. apply bind_Ok in Eb as (subs' & s5 & Em & Ed).
  assert (Hinv : putting (rrsets s3) [] subs (rrsets s3)).
  { intros n' t' _. split; [done|]. intros _. split; [done|]. rewrite H3, <- Hlist, Hin. unfold types_of, lists. cbn.
    split; [intros [Hx|(raw & rest & ?)]; [by apply not_elem_of_nil in Hx|by exists raw, rest]|].
    intros (raw & rest & ?). right. by exists raw, rest. }
  pose proof (put_records_NoDup _ _ _ _ _ Hnd Em) as Hnd'. apply (put_records_run _ _ _ _ _ _ _ Hinv) in Em.
  cbn [app] in Em. rewrite (delete_remaining_run _ _ _ _ Hnd' Ed n t).
  destruct (Em n t Ht) as [H1 H2]. destruct (data_of (_iterate_records zone) n t) as [|d ds] eqn:Hd.
  - destruct (H2 eq_refl) as [Hs Hiff]. case_decide as Hdec; [done|]. rewrite Hs.
    destruct (rrsets s3 !! (n, t)) eqn:Hb; [|done]. exfalso. apply Hdec, Hiff. eauto.
  - destruct (H1 ltac:(done)) as [Hs Hno]. by rewrite decide_False.
Qed.
End Facts.

(** ** An example: a provider with one record set, whose changes are in the log *)
Section Example.
Definition provided : rrsets_map := {[ ("old.example.com", "A") := ["192.0.2.1"] ]}.
Definition provide (cmd : list string) (m : rrsets_map) : rrsets_map :=
  match drop 4 cmd with
  | [what; _; _; op; _; n; _; t; _; _; _; d] =>
      if negb (what =? "record") then m
      else if op =? "add" then <[(n, t) := app (default [] (m !! (n, t))) [d]]> m
      else if op =? "replace" then <[(n, t) := [d]]> m else m
  | [what; _; _; op; _; n; _; t] =>
      if negb (what =? "record") then m else if op =? "delete" then delete (n, t) m else m
  | _ => m
  end.
Definition sets_of (s : machine) : rrsets_map :=
  fold_left (fun m a => match a with Spawn _ _ cmd => provide cmd m | _ => m end) (acts s) provided.
Definition lines : string := "old.example.com A 300 192.0.2.1" ++ String newline "".
(** The program fails to list what it was made to change. *)
Definition provider_run (s : machine) (cwd : option string) (cmd : list string) : outcome * tree :=
  (if (length cmd =? 8)%nat then
     if bool_decide (sets_of s = provided) then Finished lines "" else Failing "" "" ""
   else Finished "" "", (files s, dirs s)).
Definition provider_host : Host := calm works provider_run.
#[local] Instance provider_sets : @Provider provider_host := sets_of.
Lemma provider_execute cmd s r s' : execute (H := provider_host) cmd s = (r, s') ->
  sets_of s' = provide cmd (sets_of s) /\
  ((length cmd = 8)%nat -> forall x, r = Ok x -> sets_of s = provided /\ x = (lines, "")).
Proof.
  unfold execute, execute_in. cbn [spawn provider_host calm]. unfold provider_run.
  assert (Hs : forall o, sets_of (put (files s) (put_dirs (dirs s) (log (Spawn true None cmd) s))) = o -> sets_of s = sets_of s -> o = provide cmd (sets_of s)).
  { intros o <- _. unfold sets_of. cbn [acts put put_dirs log]. by rewrite fold_left_app. }
  destruct (length cmd =? 8)%nat eqn:Hl; [case_bool_decide as Hb|]; intros [= <- <-]; (split; [by eapply Hs|]).
  - intros _ x [= <-]. done.
  - intros _ x [=].
  - intros Hc. by rewrite Hc in Hl.
Qed.
#[local] Instance provider_laws name : @ProviderLaws provider_host provider_sets (_base "p" "") name.
Proof.
  split; unfold rrsets, provider_sets; cbn [app _base String.eqb].
  1, 2: intros n s; unfold sets_of; cbn; by rewrite fold_left_app.
  - intros p s x s' [-> _]%provider_execute. unfold provide. cbn. repeat case_match; try done; simplify_eq/=.
  - intros s out e s' [-> Hx]%provider_execute. split; [done|].
    destruct (Hx eq_refl _ eq_refl) as [-> [= -> _]]. intros n t. split.
    + intros (raw & rest & Hin & Hw). change (splitlines lines) with ["old.example.com A 300 192.0.2.1"] in Hin.
      apply list_elem_of_singleton in Hin as ->. change (words _) with ["old.example.com"; "A"; "300"; "192.0.2.1"] in Hw.
      injection Hw as <- <- _. unfold provided. rewrite lookup_singleton_eq. eauto.
    + unfold provided. intros [l [[= <- <-] _]%lookup_singleton_Some].
      exists "old.example.com A 300 192.0.2.1", ["300"; "192.0.2.1"]. split; [by left|reflexivity].
  - by intros n t ttl d s x s' [-> _]%provider_execute.
  - by intros n t ttl d s x s' [-> _]%provider_execute.
  - by intros n t s x s' [-> _]%provider_execute.
Qed.
Definition example_zone : dns_zone :=
  {| origin := "example.com."; soa := Some {| soa_ttl := 60; rname := "admin.example.com"; soa_serial := 1; soa_retry := 2; soa_expire := 3 |};
     nodes := [("example.com.", [{| rd_type := "SOA"; rd_ttl := 60; rd_data := ["soa"] |}]);
               ("www.example.com.", [{| rd_type := "A"; rd_ttl := 60; rd_data := ["192.0.2.2"; "192.0.2.3"] |}])] |}.
End Example.

Lemma denominator_synchronises_witness :
  let run := denominator_update_zone (H := provider_host) "p" "" example_zone (machine_with [] []) in
  run.1 = Ok tt /\ sets_of run.2 !! ("www.example.com", "A") = Some ["192.0.2.2"; "192.0.2.3"] /\
  sets_of run.2 !! ("old.example.com", "A") = None.
Proof.
  intros run. assert (H1 : run.1 = Ok tt) by (vm_compute; reflexivity). split; [exact H1|].
  assert (Hr : run = (Ok tt, run.2)) by (rewrite <- H1; apply surjective_pairing).
  pose proof (denominator_synchronises (H0 := provider_sets) (ProviderLaws0 := provider_laws _) "p" "" example_zone _ _ _ Hr) as Hs.
  split; [exact (Hs "www.example.com" "A" ltac:(discriminate))|exact (Hs "old.example.com" "A" ltac:(discriminate))].
Defined.
