(* ===== verification/Backends.v ===== *)
(** * Backends of the name servers (designate/backend/)

    The drivers for BIND (impl_bind9.py), NSD (impl_nsd4.py), PowerDNS (impl_powerdns/,
    impl_pdns4.py), another Designate (impl_designate.py) and Akamai (impl_akamai.py); those for
    DynECT and Infoblox are in [Dynect] and [Infoblox]. What a driver says to its server, and to
    MiniDNS, is a list of events; what it hears depends on all that was said, the class
    [Peers]. PowerDNS is reached by its database, which is here in full. *)
From Stdlib Require Import ZArith Lia Ascii String.
From stdpp Require Import base option numbers strings sets list.
From S2P Require Import Prelude PyStr Exceptions Utils.
Local Open Scope string_scope.

(** An exception with its text, [six.text_type(e)]. *)
Record failure := { what : exc; message : string }.
Definition backend (text : string) : failure := {| what := Backend; message := text |}.
Definition plain (e : exc) : failure := {| what := e; message := "" |}.
(** [sub in s] *)
Fixpoint contains (sub s : string) : bool :=
  startswith sub s || match s with EmptyString => false | String _ s' => contains sub s' end.
Definition rstrip_dots : string -> string := rstrip (fun c => Ascii.eqb c ".").

Inductive event :=
| Command (cmd : list string)                                   (* utils.execute *)
| Control (host : string) (port : Z) (text : string)            (* a line over TLS *)
| Http (verb url : string) (body : list (string * string))      (* requests *)
| Soap (method : string) (args : list (string * string))        (* suds *)
| Client (method : string) (args : list string)                 (* designateclient *)
| Notify (zone host : string) (port : Z).                       (* mdns_api.notify_zone_changed *)
(** [Refused]: the exception of the library that says no, with a status; [Broken]: any other
    exception. *)
Inductive reply := Answer (text : string) | Refused (status : Z) (text : string) | Broken (text : string).
Class Peers := peer : list event -> event -> reply.

(** What the drivers read of a zone, and of their target. *)
Record zone := { z_id : string; z_name : string }.
Record target := { t_options : list (string * string); t_masters : list (string * Z); t_id : string }.

Section Drivers.
Context `{Peers}.
Abbreviation D A := (M failure (list event) A).
Definition tell (e : event) : D reply := fun s => (Ok (peer s e), app s [e]).
Definition opt (t : target) (key default_ : string) : string := default default_ (aget key (t_options t)).
(** [int(self.options.get(key, default))] *)
Definition int_opt (t : target) (key : string) (default_ : Z) : D Z :=
  match aget key (t_options t) with
  | None => ret default_
  | Some v => match int_of_str v with Some n => ret n | None => raise (plain (Py PyValueError)) end
  end.
(** [mdns_api.notify_zone_changed], for the host and port of the target *)
Definition notify_zone_changed (t : target) (z : zone) : D unit :=
  let! port := int_opt t "port" 53 in
  tell (Notify (z_name z) (opt t "host" "127.0.0.1") port) ;;; ret tt.
(** [try: m except exceptions.Backend as e: if text not in str(e): raise] *)
Definition tolerating (text : string) (m : D unit) : D unit :=
  try_except m (fun e => if bool_decide (what e = Backend) && contains text (message e) then Some (ret tt) else None).

(** ** BIND (Bind9Backend) *)
Section Bind9.
Variable t : target.
(** [random.shuffle] *)
Variable shuffle : list string -> list string.
(** strutils.bool_from_string *)
Variable bool_from_string : string -> bool.
Definition _generate_rndc_base_call : D (list string) :=
  let! rndc_port := int_opt t "rndc_port" 953 in
  ret (app [opt t "rndc_bin_path" "rndc"; "-s"; opt t "rndc_host" "127.0.0.1"; "-p"; str_of_Z rndc_port]
       (app (if opt t "rndc_config_file" "" =? "" then [] else ["-c"; opt t "rndc_config_file" ""])
            (if opt t "rndc_key_file" "" =? "" then [] else ["-k"; opt t "rndc_key_file" ""]))).
Definition _execute_rndc (rndc_op : list string) : D unit :=
  let! base := _generate_rndc_base_call in
  let! r := tell (Command (app base rndc_op)) in
  match r with
  | Answer _ => ret tt
  | Refused _ text => raise (backend text)
  | Broken _ => raise (plain (Py PyException))
  end.
Definition view : string := if opt t "view" "" =? "" then "" else "in " ++ opt t "view" "".
Definition master_text (m : string * Z) : string := fst m ++ " port " ++ str_of_Z (snd m).
Definition addzone (z : zone) : list string :=
  ["addzone"; rstrip_dots (z_name z) ++ " " ++ view ++ " { type slave; masters { " ++
     join "; " (shuffle (map master_text (t_masters t))) ++ ";}; file " ++ dqs ++ "slave." ++ z_name z ++ z_id z ++ dqs ++ "; };"].
Definition delzone (z : zone) : list string :=
  "delzone" :: app (if bool_from_string (opt t "clean_zonefile" "false") then ["-clean"] else [])
                   [rstrip_dots (z_name z) ++ " " ++ view].
Definition bind9_create_zone (z : zone) : D unit :=
  tolerating "already exists" (_execute_rndc (addzone z)) ;;; notify_zone_changed t z.
Definition bind9_delete_zone (z : zone) : D unit := tolerating "not found" (_execute_rndc (delzone z)).
End Bind9.

(** ** NSD (NSD4Backend) *)
Section Nsd4.
Variable t : target.
Definition newline : string := String "010" "".
Definition _command (command : string) : D reply :=
  let! port := int_opt t "port" 8952 in
  tell (Control (opt t "host" "127.0.0.1") port ("NSDCT1 " ++ command ++ newline)).
Definition _execute_nsd4 (command : string) : D unit :=
  let! r := _command command in
  match r with
  | Answer result => raise_if (negb (rstrip (fun c => Ascii.eqb c "010") result =? "ok")) (backend result)
  | Refused _ text => raise (backend text)      (* ssl.SSLError, socket.error *)
  | Broken _ => raise (plain (Py PyException))
  end.
Definition nsd4_create_zone (z : zone) : D unit :=
  tolerating "already exists" (_execute_nsd4 ("addzone " ++ z_name z ++ " " ++ opt t "pattern" "slave")).
Definition nsd4_delete_zone (z : zone) : D unit :=
  tolerating "not found" (_execute_nsd4 ("delzone " ++ z_name z)).
End Nsd4.

(** ** PowerDNS by its HTTP interface (PDNS4Backend) *)
Section Pdns4.
Variable t : target.
(** the scheme and the host of the endpoint, as urlparse finds them *)
Variable endpoint : string * string.
Definition _build_url (z : string) : string :=
  fst endpoint ++ "://" ++ snd endpoint ++ "/api/v1/servers/localhost/zones" ++ (if z =? "" then "" else "/") ++ z.
(** [raise_for_status], with requests.HTTPError as [Backend]; other failures of requests pass. *)
Definition raise_for_status (r : reply) : D unit :=
  match r with
  | Answer _ => ret tt
  | Refused _ text => raise (backend text)
  | Broken _ => raise (plain (Py PyException))
  end.
Definition pdns4_create_zone (z : zone) : D unit :=
  let masters := map (fun m => fst m ++ ":" ++ str_of_Z (snd m)) (t_masters t) in
  let! r := tell (Http "POST" (_build_url "") [("name", z_name z); ("kind", "slave"); ("masters", join "," masters)]) in
  raise_for_status r.
Definition pdns4_delete_zone (z : zone) : D unit :=
  let! r := tell (Http "DELETE" (_build_url (z_name z)) []) in raise_for_status r.
End Pdns4.

(** ** Another Designate (DesignateBackend)

    [_get_client] reads an attribute that nothing sets. *)
Section Designate.
Variable t : target.
(** the attribute [_client], when something has set it *)
Variable _client : option unit.
Definition _get_client : D unit :=
  match _client with Some _ => ret tt | None => raise (plain (Py PyAttributeError)) end.
Definition designate_create_zone (z : zone) : D unit :=
  let masters := map (fun m => fst m ++ ":" ++ str_of_Z (snd m)) (t_masters t) in
  _get_client ;;;
  let! r := tell (Client "zones.create" (z_name z :: "SECONDARY" :: masters)) in
  match r with Answer _ => ret tt | _ => raise (plain (Py PyException)) end.
Definition designate_delete_zone (z : zone) : D unit :=
  _get_client ;;;
  let! r := tell (Client "zones.delete" [z_name z]) in
  match r with
  | Answer _ => ret tt
  | Refused 404 _ => ret tt      (* exceptions.NotFound of the client *)
  | _ => raise (plain (Py PyException))
  end.
End Designate.

(** ** Akamai (EnhancedDNSClient, AkamaiBackend) *)
Section Akamai.
Variable t : target.
Definition _sanitizeZoneName (n : string) : string := lower (rstrip_dots n).
(** [AkamaiBackend.__init__] and its like: only masters on port 53 *)
Definition check_masters : D unit :=
  mfor (t_masters t) (fun m => raise_if (negb (snd m =? 53)%Z) (plain (ConfigurationError CE_Base))).
Definition buildZone (zoneName endCustomerId : string) (tsig : list (string * string)) : list (string * string) :=
  app [("transferMode", "axfr"); ("type", "edns"); ("notify", "1"); ("dnssec", "False");
       ("zoneName", _sanitizeZoneName zoneName); ("masters", join "," (map fst (t_masters t)))]
      (app tsig [("endCustomerId", endCustomerId)]).
Definition build_zone (z : zone) : list (string * string) :=
  buildZone (z_name z) (z_id z)
    (if opt t "tsig_key_name" "" =? "" then []
     else [("tsigKeyName", opt t "tsig_key_name" ""); ("tsigKey", opt t "tsig_key_secret" "");
           ("tsigAlgorithm", opt t "tsig_key_algorithm" "")]).
(** [except Exception as e] of setZone; the exceptions of this module are classes of their own. *)
Definition set_failure (text : string) : failure :=
  if contains "You do not have permission to view this zone" text then plain (Duplicate DuplicateZone)
  else if contains "You do not have access to edit this zone" text then plain (Forbidden F_Base)
  else if contains "basic auth failed" text then plain (ConfigurationError CE_Base)
  else backend ("Akamai Communication Failure: " ++ text).
Definition setZone (z : list (string * string)) : D unit :=
  let! r := tell (Soap "setZone" z) in
  match r with Answer _ => ret tt | Refused _ text | Broken text => raise (set_failure text) end.
Definition deleteZones (zoneNames : list string) : D unit :=
  let! r := tell (Soap "deleteZones" [("zoneNames", join "," (map _sanitizeZoneName zoneNames))]) in
  match r with
  | Answer _ => ret tt
  | Refused _ text | Broken text =>
      if contains "Could not retrive object ID for zone" text then ret tt
      else if contains "The following zones are still delegated to Akamai" text then raise (plain (BadRequest BR_Base))
      else if contains "basic auth failed" text then raise (plain (ConfigurationError CE_Base))
      else raise (backend ("Akamai Communication Failure: " ++ text))
  end.
Definition deleteZone (zoneName : string) : D unit := deleteZones [_sanitizeZoneName zoneName].
Definition akamai_create_zone (z : zone) : D unit := setZone (build_zone z).
Definition akamai_delete_zone (z : zone) : D unit := deleteZone (z_name z).
End Akamai.
End Drivers.

(** ** PowerDNS by its database (PowerDNSBackend)

    The table of domains, whose names are unique; [PowerDNSBackend] asks for each operation
    for a session, whose transaction ends in one of three ways. *)
Record domain := { d_designate_id : string; d_name : string; d_master : string; d_account : string }.
Inductive ending := Committed | RolledBack | LeftOpen.
Record pdns := { domains : list domain; endings : list ending; notified : list zone }.
Section Powerdns.
Variable masters : list (string * Z).
(** whether the database fails on a statement *)
Variable db_fails : pdns -> bool.
Definition finish (e : ending) (s : pdns) : pdns :=
  {| domains := domains s; endings := app (endings s) [e]; notified := notified s |}.
(** [_create]: an insertion, and the row again. A name that is taken is DBDuplicateEntry. *)
Definition _create (d : domain) : P pdns unit := fun s =>
  if db_fails s then (Raise (Py DBDeadlock), s)
  else if existsb (fun r => d_name r =? d_name d) (domains s) then (Raise (Py DBDuplicateEntry), s)
  else (Ok tt, {| domains := app (domains s) [d]; endings := endings s; notified := notified s |}).
(** [_get], [_delete] by the identifier of the zone: exactly one row *)
Definition with_id (id : string) (d : domain) : bool := d_designate_id d =? id.
Definition _get (id : string) : P pdns unit := fun s =>
  if db_fails s then (Raise (Py DBDeadlock), s)
  else if (length (List.filter (with_id id) (domains s)) =? 1)%nat then (Ok tt, s) else (Raise (NotFound ZoneNotFound), s).
Definition _delete (id : string) : P pdns unit := fun s =>
  if db_fails s then (Raise (Py DBDeadlock), s)
  else
    let s1 := {| domains := List.filter (fun d => negb (with_id id d)) (domains s); endings := endings s; notified := notified s |} in
    if (length (List.filter (with_id id) (domains s)) =? 1)%nat then (Ok tt, s1) else (Raise (NotFound ZoneNotFound), s1).
(** A session: what it did is undone but by a commitment. [tolerated] leaves it open. *)
Definition in_session (tolerated : exc) (m : P pdns unit) (after : P pdns unit) : P pdns unit := fun s =>
  match m s with
  | (Ok _, s1) => after (finish Committed s1)
  | (Raise e, s1) =>
      if bool_decide (e = tolerated) then after (finish LeftOpen s)
      else (Raise e, finish RolledBack s)
  end.
Definition powerdns_create_zone (tenant : string) (z : zone) : P pdns unit :=
  in_session (Py DBDuplicateEntry)
    (_create {| d_designate_id := z_id z; d_name := rstrip_dots (z_name z);
                d_master := join "," (map (fun m => fst m ++ ":" ++ str_of_Z (snd m)) masters); d_account := tenant |})
    (modify (fun s => {| domains := domains s; endings := endings s; notified := app (notified s) [z] |})).
Definition powerdns_delete_zone (z : zone) : P pdns unit :=
  in_session (NotFound ZoneNotFound) (_get (z_id z) ;;; _delete (z_id z)) (ret tt).
End Powerdns.

(** * The backends of the name servers: theorems *)
(** ** PowerDNS by its database *)
Section Powerdns.
Variable masters : list (string * Z).
Variable db_fails : pdns -> bool.
Abbreviation create_zone := (powerdns_create_zone masters db_fails).
Abbreviation delete_zone := (powerdns_delete_zone db_fails).
Definition names (s : pdns) : list string := map d_name (domains s).
Definition ids (s : pdns) : list string := map d_designate_id (domains s).
(** The row of a zone. *)
Definition row_of (tenant : string) (z : zone) : domain :=
  {| d_designate_id := z_id z; d_name := rstrip_dots (z_name z);
     d_master := join "," (map (fun m => fst m ++ ":" ++ str_of_Z (snd m)) masters); d_account := tenant |}.
Definition told (z : zone) (e : ending) (rows : list domain) (s : pdns) : pdns :=
  {| domains := rows; endings := app (endings s) [e]; notified := app (notified s) [z] |}.

Lemma taken_names n s : existsb (fun r => d_name r =? n) (domains s) = true <-> n ∈ names s.
Proof.
  unfold names. rewrite existsb_exists, list_elem_of_In, in_map_iff. split; intros (d & H1 & H2); exists d.
  - by apply String.eqb_eq in H2.
  - split; [done|]. by apply String.eqb_eq.
Qed.
Lemma create_fresh tenant z s : db_fails s = false -> rstrip_dots (z_name z) ∉ names s ->
  create_zone tenant z s = (Ok tt, told z Committed (app (domains s) [row_of tenant z]) s).
Proof.
  intros Hf Hn. unfold powerdns_create_zone, in_session, _create. rewrite Hf.
  destruct (existsb _ (domains s)) eqn:E; [|done]. by apply (taken_names (rstrip_dots (z_name z)) s) in E.
Qed.
Lemma create_taken tenant z s : db_fails s = false -> rstrip_dots (z_name z) ∈ names s ->
  create_zone tenant z s = (Ok tt, told z LeftOpen (domains s) s).
Proof.
  intros Hf Hn. unfold powerdns_create_zone, in_session, _create. rewrite Hf.
  destruct (existsb _ (domains s)) eqn:E; [done|]. cbn in E. apply (taken_names (rstrip_dots (z_name z)) s) in Hn. congruence.
Qed.
Lemma no_row id l : id ∉ map d_designate_id l -> List.filter (with_id id) l = [].
Proof.
  unfold with_id. induction l as [|d l IH]; [done|]. cbn. intros [Hd Hl]%not_elem_of_cons.
  destruct (String.eqb_spec (d_designate_id d) id); [congruence|by apply IH].
Qed.
Lemma other_rows id l : id ∉ map d_designate_id l -> List.filter (fun d => negb (with_id id d)) l = l.
Proof.
  unfold with_id. induction l as [|d l IH]; [done|]. cbn. intros [Hd Hl]%not_elem_of_cons.
  destruct (String.eqb_spec (d_designate_id d) id); [congruence|]. cbn. by rewrite IH.
Qed.
Lemma delete_absent z s : db_fails s = false -> z_id z ∉ ids s -> delete_zone z s = (Ok tt, finish LeftOpen s).
Proof.
  intros Hf Hn. unfold powerdns_delete_zone, in_session, _get, bind. rewrite Hf, no_row by done. done.
Qed.
Lemma delete_last tenant z s rows :
  db_fails s = false -> domains s = app rows [row_of tenant z] -> z_id z ∉ map d_designate_id rows ->
  delete_zone z s = (Ok tt, {| domains := rows; endings := app (endings s) [Committed]; notified := notified s |}).
Proof.
  intros Hf Hd Hn. unfold powerdns_delete_zone, in_session, _get, _delete, bind. rewrite Hf.
  assert (Hone : List.filter (with_id (z_id z)) (domains s) = [row_of tenant z]).
  { rewrite Hd, List.filter_app, no_row by done.
    cbn. unfold with_id. cbn. by rewrite String.eqb_refl. }
  rewrite Hone. cbn [length Nat.eqb]. cbn. rewrite Hf, Hone. cbn. unfold finish. cbn. do 3 f_equal.
  rewrite Hd, List.filter_app, other_rows by done.
  cbn. unfold with_id. cbn. by rewrite String.eqb_refl, app_nil_r.
Qed.

(** Zones in the database of PowerDNS. On a database that does not fail, a creation adds
    one row for a name that is free, a second one changes nothing, and the deletion takes away
    this row and no other; MiniDNS is told of each creation. But rows are found by name to
    create and by identifier to delete: a row left under the name of a zone by an earlier zone
    makes the creation of the zone and its deletion report success and do nothing, the row
    stays, and the transactions are neither committed nor rolled back. *)
Theorem powerdns_zones tenant z s :
  (forall s, db_fails s = false) ->
  let n := rstrip_dots (z_name z) in
  (n ∉ names s -> z_id z ∉ ids s ->
     exists s1 s2 s3, create_zone tenant z s = (Ok tt, s1) /\ domains s1 = app (domains s) [row_of tenant z] /\
       create_zone tenant z s1 = (Ok tt, s2) /\ domains s2 = domains s1 /\
       delete_zone z s2 = (Ok tt, s3) /\ domains s3 = domains s /\
       endings s3 = app (endings s) [Committed; LeftOpen; Committed] /\ notified s3 = app (notified s) [z; z]) /\
  (n ∈ names s -> z_id z ∉ ids s ->
     exists s1 s2, create_zone tenant z s = (Ok tt, s1) /\ delete_zone z s1 = (Ok tt, s2) /\
       domains s2 = domains s /\ n ∈ names s2 /\
       endings s2 = app (endings s) [LeftOpen; LeftOpen] /\ notified s2 = app (notified s) [z]).
Proof.
  intros Hf n. split; intros Hn Hid.
  - pose proof (create_fresh tenant z s (Hf s) Hn) as E1. set (s1 := told _ _ _ _) in E1.
    assert (Hin : n ∈ names s1) by (unfold names, s1; cbn; rewrite map_app, elem_of_app; right; by left).
    pose proof (create_taken tenant z s1 (Hf s1) Hin) as E2. set (s2 := told _ _ _ s1) in E2.
    pose proof (delete_last tenant z s2 (domains s) (Hf s2) eq_refl Hid) as E3.
    eexists _, _, _. split_and!; [exact E1|done|exact E2|done|exact E3|done|..]; cbn; by rewrite <- !app_assoc.
  - pose proof (create_taken tenant z s (Hf s) Hn) as E1. set (s1 := told _ _ _ _) in E1.
    pose proof (delete_absent z s1 (Hf s1) Hid) as E2.
    eexists _, _. split_and!; [exact E1|exact E2|done|done|..]; cbn; [by rewrite <- app_assoc|done].
Qed.
End Powerdns.

Lemma powerdns_zones_witness :
  let left_over := {| d_designate_id := "old"; d_name := "example.com"; d_master := ""; d_account := "t" |} in
  let s := {| domains := [left_over]; endings := []; notified := [] |} in
  let z := {| z_id := "new"; z_name := "example.com." |} in
  exists s1 s2, powerdns_create_zone [("127.0.0.1", 5354%Z)] (fun _ => false) "t" z s = (Ok tt, s1) /\
    powerdns_delete_zone (fun _ => false) z s1 = (Ok tt, s2) /\ domains s2 = [left_over].
Proof.
  intros left_over s z.
  destruct (powerdns_zones [("127.0.0.1", 5354%Z)] (fun _ => false) "t" z s (fun _ => eq_refl)) as [_ Hleft].
  destruct Hleft as (s1 & s2 & E1 & E2 & Hd & _); [apply (elem_of_cons []); left; reflexivity|apply (not_elem_of_cons []); split; [discriminate|apply not_elem_of_nil]|].
  exists s1, s2. split; [exact E1|]. split; [exact E2|exact Hd].
Defined.
