(* ===== verification/NetworkApi.v ===== *)
(** * The network API (designate/network_api/)

    Where floating IPs come from: Neutron, asked at every endpoint of the request's service
    catalog or of the configuration, in a green thread each (neutron.py, base.py), and the fake
    driver, which keeps them in two dictionaries (fake.py). *)
From Stdlib Require Import ZArith Lia Ascii String.
From stdpp Require Import base option numbers strings sets list.
From S2P Require Import Prelude PyStr Exceptions Values Objects.
Local Open Scope string_scope.

(** ** Endpoints (NetworkAPI) *)
Definition dictionary : Type := list (string * string).
Record svc := { svc_type : string; svc_endpoints : list dictionary }.
Definition endpoint : Type := string * string.   (* URL, region *)
Definition get_key (d : dictionary) (k : string) : R string :=
  match aget k d with Some v => Ok v | None => Raise (Py PyKeyError) end.
(** One entry of the catalog: nothing, or a URL with its region *)
Definition catalog_url (endpoint_type : string) (region : option string) (url : dictionary) : R (list endpoint) :=
  match aget endpoint_type url with
  | None => Ok []
  | Some e =>
      match region with
      | Some r => let? own := get_key url "region" in
                  if own =? r then Ok [(e, own)] else Ok []
      | None => let? own := get_key url "region" in Ok [(e, own)]
      end
  end.
Definition _endpoints_from_catalog (service_catalog : list svc) (service_type endpoint_type : string)
    (region : option string) : R (list endpoint) :=
  let urls := concat (map svc_endpoints (List.filter (fun s => svc_type s =? service_type) service_catalog)) in
  let? l := rmap (catalog_url endpoint_type region) urls in
  match concat l with [] => Raise (BadRequest NetworkEndpointNotFound) | l => Ok l end.
(** A configured endpoint, [<region>|<url>] *)
Definition configured_url (region : option string) (u : string) : R (list endpoint) :=
  match split_char "|"%char u with
  | [e_region; e] =>
      Ok (match region with
          | Some r => if negb (e_region =? "") && negb (r =? "") && negb (e_region =? r) then [] else [(e, e_region)]
          | None => [(e, e_region)]
          end)
  | _ => Raise (Py PyValueError)
  end.
(** [configured]: the option of the section, [None]: not set; the section is always given *)
Definition _endpoints (service_catalog : option (list svc)) (service_type endpoint_type : string)
    (configured : option (list string)) (region : option string) : R (list endpoint) :=
  match service_catalog with
  | Some ((_ :: _) as catalog) => _endpoints_from_catalog catalog service_type endpoint_type region
  | _ =>
      match configured with
      | None => Raise (Py PyTypeError)
      | Some us =>
          let? l := rmap (configured_url region) us in
          match concat l with [] => Raise (ConfigurationError CE_Base) | l => Ok l end
      end
  end.

(** ** Neutron (NeutronNetworkAPI) *)
Record neutron_conf := {
  endpoints : option (list string); endpoint_type : string; timeout : Z; insecure : bool;
  ca_certificates_file : option string; admin_username : option string; admin_password : option string;
  admin_tenant_name : option string; auth_url : option string; auth_strategy : option string;
}.
Record neutron_params := {
  p_endpoint : string; p_timeout : Z; p_insecure : bool; p_ca_cert : option string;
  p_token : option string; p_login : option (option string * option string * option string * option string);
  p_auth_strategy : option (option string);   (* [None]: not given *)
}.
Definition get_client (c : neutron_conf) (auth_token : option string) (url : string) : neutron_params :=
  let base := {| p_endpoint := url; p_timeout := timeout c; p_insecure := insecure c; p_ca_cert := ca_certificates_file c;
                 p_token := None; p_login := None; p_auth_strategy := None |} in
  let with_token t := {| p_endpoint := url; p_timeout := timeout c; p_insecure := insecure c; p_ca_cert := ca_certificates_file c;
                         p_token := Some t; p_login := None; p_auth_strategy := Some None |} in
  let admin u := {| p_endpoint := url; p_timeout := timeout c; p_insecure := insecure c; p_ca_cert := ca_certificates_file c;
                    p_token := None; p_login := Some (Some u, admin_tenant_name c, admin_password c, auth_url c);
                    p_auth_strategy := Some (auth_strategy c) |} in
  match auth_token, admin_username c with
  | Some t, _ => if t =? "" then match admin_username c with Some u => admin u | None => base end else with_token t
  | None, Some u => admin u
  | None, None => base
  end.

Record fip := { fip_id : string; fip_address : string; fip_region : string }.
(** What neutronclient does with a request for the floating IPs of a tenant: no client can be
    made, 401, another exception, or an answer: the entries under floatingips, if it has that
    key. *)
Inductive neutron_answer := NoClient | Unauthorized | CallFails | Answered (floatingips : option (list dictionary)).
Class Neutron := ask_neutron : neutron_params -> option string -> neutron_answer.

Section Neutron.
Context `{Neutron}.
Variable conf : neutron_conf.
(** The order in which the threads get their answers; they do not yield afterwards *)
Variable schedule : list endpoint -> list endpoint.
Record calls := { failed : list endpoint; data : list fip }.
Abbreviation T A := (M exc calls A).
Definition add_failed (e : endpoint) : T unit := fun st => (Ok tt, {| failed := app (failed st) [e]; data := data st |}).
Definition add_data (f : fip) : T unit := fun st => (Ok tt, {| failed := failed st; data := app (data st) [f] |}).
(** [_call], in a thread *)
Definition _call (auth_token tenant : option string) (e : endpoint) : T unit :=
  let '(url, region) := e in
  match ask_neutron (get_client conf auth_token url) tenant with
  | NoClient => raise (Py PyException)
  | Unauthorized => ret tt
  | CallFails => add_failed e
  | Answered fips =>
      let! fips := lift (match fips with Some l => Ok l | None => Raise (Py PyKeyError) end) in
      mfor fips (fun f =>
        let! id := lift (get_key f "id") in
        let! address := lift (get_key f "floating_ip_address") in
        add_data {| fip_id := id; fip_address := address; fip_region := region |})
  end.
(** [tg.wait()]: the thread group logs what ends a thread. *)
Definition thread (auth_token tenant : option string) (st : calls) (e : endpoint) : calls :=
  (_call auth_token tenant e st).2.
Definition list_floatingips (service_catalog : option (list svc)) (auth_token tenant region : option string) : R (list fip) :=
  let? es := _endpoints service_catalog "network" (endpoint_type conf) (endpoints conf) region in
  let st := foldl (thread auth_token tenant) {| failed := []; data := [] |} (schedule es) in
  match failed st with [] => Ok (data st) | _ => Raise NeutronCommunicationFailure end.
End Neutron.

(** ** The fake driver (FakeNetworkAPI) *)
Record fake := { POOL : dictionary; ALLOCATIONS : list (string * dictionary) }.
Definition _format_floatingip (kv : string * string) : fip :=
  {| fip_id := kv.1; fip_address := kv.2; fip_region := "RegionOne" |}.
Abbreviation F A := (M exc fake A).
(** The tenant has its dictionary from the first allocation on, failing ones too. *)
Definition allocate_floatingip (tenant_id : string) (floatingip_id : option string) : F fip := fun s =>
  let own := default [] (aget tenant_id (ALLOCATIONS s)) in
  let s1 := {| POOL := POOL s; ALLOCATIONS := aset tenant_id own (ALLOCATIONS s) |} in
  let id := match floatingip_id with
            | Some i => if i =? "" then head (POOL s).*1 else Some i
            | None => head (POOL s).*1
            end in
  match id with
  | None => (Raise (Py PyIndexError), s1)
  | Some id_ =>
      match aget id_ (POOL s) with
      | None => (Raise (Py PyKeyError), s1)
      | Some address =>
          (Ok (_format_floatingip (id_, address)),
           {| POOL := adel id_ (POOL s); ALLOCATIONS := aset tenant_id (aset id_ address own) (ALLOCATIONS s1) |})
      end
  end.
(** The first tenant that has it *)
Fixpoint find_owner (id_ : string) (l : list (string * dictionary)) : option (string * dictionary * string) :=
  match l with
  | [] => None
  | (tenant_id, allocated) :: l =>
      match aget id_ allocated with Some a => Some (tenant_id, allocated, a) | None => find_owner id_ l end
  end.
Definition deallocate_floatingip (id_ : string) : F unit := fun s =>
  match find_owner id_ (ALLOCATIONS s) with
  | Some (tenant_id, allocated, address) =>
      (Ok tt, {| POOL := aset id_ address (POOL s); ALLOCATIONS := aset tenant_id (adel id_ allocated) (ALLOCATIONS s) |})
  | None => (Raise (Py PyKeyError), s)
  end.
Definition emptied (l : list (string * dictionary)) : list (string * dictionary) := map (fun kv => (kv.1, [])) l.
Definition reset_floatingips : F unit := fun s =>
  (Ok tt, {| POOL := foldl (fun pool kv => aset kv.1 kv.2 pool) (POOL s) (concat (ALLOCATIONS s).*2);
             ALLOCATIONS := emptied (ALLOCATIONS s) |}).
Definition fake_list_floatingips (is_admin : bool) (tenant : option string) (s : fake) : list fip :=
  map _format_floatingip
    (if is_admin then concat (ALLOCATIONS s).*2
     else match tenant with Some t => default [] (aget t (ALLOCATIONS s)) | None => [] end).

(** * The network API: theorems *)
Section Neutron.
Context `{Neutron}.
Variable conf : neutron_conf.
Variable schedule : list endpoint -> list endpoint.
Variables auth_token tenant : option string.

(** What an endpoint says, and what it contributes: the entries before the first that lacks a
    key. *)
Definition answer_of (e : endpoint) : neutron_answer := ask_neutron (get_client conf auth_token e.1) tenant.
Definition entry (region : string) (f : dictionary) : option fip :=
  match aget "id" f, aget "floating_ip_address" f with
  | Some id, Some address => Some {| fip_id := id; fip_address := address; fip_region := region |}
  | _, _ => None
  end.
Fixpoint entries_until_bad (region : string) (l : list dictionary) : list fip :=
  match l with
  | [] => []
  | f :: l => match entry region f with Some x => x :: entries_until_bad region l | None => [] end
  end.
Definition share (e : endpoint) : list fip :=
  match answer_of e with Answered (Some fips) => entries_until_bad e.2 fips | _ => [] end.
Definition fails (e : endpoint) : bool := match answer_of e with CallFails => true | _ => false end.
(** The thread of the endpoint comes to its end, and then has had all of its entries. *)
Definition finishes (e : endpoint) : Prop :=
  match answer_of e with
  | Answered (Some fips) => Forall (fun f => entry e.2 f <> None) fips
  | Answered None | NoClient => False
  | Unauthorized | CallFails => True
  end.
Definition all_entries (e : endpoint) : list fip :=
  match answer_of e with Answered (Some fips) => omap (entry e.2) fips | _ => [] end.
Lemma share_all e : finishes e -> share e = all_entries e.
Proof.
  unfold finishes, share, all_entries. destruct (answer_of e) as [| | |[fips|]]; try done.
  induction 1 as [|f fips Hf _ IH]; [done|]. cbn. rewrite IH. by destruct (entry e.2 f).
Qed.
Lemma entries_loop region fips st :
  (mfor fips (fun f =>
     let! id := lift (get_key f "id") in
     let! address := lift (get_key f "floating_ip_address") in
     add_data {| fip_id := id; fip_address := address; fip_region := region |}) st).2 =
  {| failed := failed st; data := app (data st) (entries_until_bad region fips) |}.
Proof.
  revert st. induction fips as [|f fips IH]; intros st; [destruct st; cbn; by rewrite app_nil_r|].
  cbn [mfor entries_until_bad]. unfold entry, get_key. unfold bind at 1 2.
  destruct (aget "id" f) as [id|]; [|destruct st; cbn; by rewrite app_nil_r].
  unfold lift at 1, ret. unfold bind at 1.
  destruct (aget "floating_ip_address" f) as [address|]; [|destruct st; cbn; by rewrite app_nil_r].
  unfold lift at 1, add_data at 1, ret. etrans; [apply IH|]. cbn. by rewrite <- app_assoc.
Qed.
Lemma calls_spec es st : foldl (thread conf auth_token tenant) st es =
  {| failed := app (failed st) (List.filter fails es); data := app (data st) (concat (map share es)) |}.
Proof.
  revert st. induction es as [|e es IH]; intros st; [destruct st; cbn; by rewrite !app_nil_r|].
  cbn [foldl]. rewrite IH. cbn [map concat List.filter].
  assert (Ht : thread conf auth_token tenant st e =
    {| failed := app (failed st) (if fails e then [e] else []); data := app (data st) (share e) |}).
  { destruct e as [url region]. unfold thread, _call, fails, share, answer_of. cbn [fst snd].
    destruct (ask_neutron _ _) as [| | |[fips|]]; [destruct st; cbn; by rewrite !app_nil_r..| |].
    - unfold bind at 1, lift at 1. rewrite entries_loop. by rewrite app_nil_r.
    - destruct st. cbn. by rewrite !app_nil_r. }
  rewrite Ht. cbn [failed data]. rewrite <- !app_assoc. by destruct (fails e).
Qed.
Lemma concat_perm {A B} (f : A -> list B) l l' : l ≡ₚ l' -> concat (map f l) ≡ₚ concat (map f l').
Proof.
  induction 1; cbn; [done|by f_equiv| |by etrans].
  rewrite !app_assoc. f_equiv. apply Permutation_app_comm.
Qed.
(** In a region the endpoints of the catalog are those of the region. *)
Lemma catalog_region catalog type etype r es :
  _endpoints_from_catalog catalog type etype (Some r) = Ok es -> Forall (fun e => e.2 = r) es /\ es <> [].
Proof.
  unfold _endpoints_from_catalog. destruct (rmap _ _) as [l|] eqn:E; [|done]. cbn.
  assert (Hf : Forall (fun e => e.2 = r) (concat l)).
  { revert l E. induction (concat _) as [|u us IH]; intros l; cbn; [by intros [= <-]|].
    destruct (catalog_url etype (Some r) u) as [here|] eqn:Eu; [|done]. cbn. destruct (rmap _ us) as [rest|]; [|done].
    intros [= <-]. cbn. apply Forall_app. split; [|by apply IH].
    unfold catalog_url, get_key in Eu. destruct (aget etype u); [|by injection Eu as <-].
    destruct (aget "region" u) as [own|]; [|done]. cbn in Eu. destruct (String.eqb_spec own r); injection Eu as <-; by repeat constructor. }
  destruct (concat l); [done|]. intros [= <-]. by split.
Qed.

(** C27: the floating IPs of Neutron. In whatever order the endpoints answer, the call raises
    NeutronCommunicationFailure exactly when a request to one of them has failed. Otherwise it
    returns, up to the order, what their threads have read, each address with the region of its
    endpoint: all that the endpoints answered when every thread comes to its end, where an
    endpoint that answered 401 counts for nothing. A thread that dies, at an entry without
    identifier or address or before, is not noticed: the entries before that one are returned,
    the others are missing. For a region the endpoints of a service catalog are those of the
    region, and there is at least one of them. *)
Theorem floatingips_complete catalog region :
  (forall l, schedule l ≡ₚ l) ->
  match _endpoints catalog "network" (endpoint_type conf) (endpoints conf) region with
  | Raise e => list_floatingips conf schedule catalog auth_token tenant region = Raise e
  | Ok es =>
      ((exists e, e ∈ es /\ answer_of e = CallFails) /\
         list_floatingips conf schedule catalog auth_token tenant region = Raise NeutronCommunicationFailure \/
       (forall e, e ∈ es -> answer_of e <> CallFails) /\
         exists l, list_floatingips conf schedule catalog auth_token tenant region = Ok l /\
           l ≡ₚ concat (map share es) /\
           ((forall e, e ∈ es -> finishes e) -> l ≡ₚ concat (map all_entries es))) /\
      forall svc rest r, catalog = Some (svc :: rest) -> region = Some r -> Forall (fun e => e.2 = r) es /\ es <> []
  end.
Proof.
  intros Hs. unfold list_floatingips. destruct (_endpoints _ _ _ _ _) as [es|e] eqn:Ee; [|done]. cbn [rbind].
  rewrite calls_spec. cbn [failed data app]. split.
  - destruct (List.filter fails (schedule es)) as [|e l] eqn:Ef.
    + assert (Hp : concat (map share (schedule es)) ≡ₚ concat (map share es)) by by apply concat_perm.
      right. split.
      * intros e He Ha. assert (Hin : e ∈ List.filter fails (schedule es)); [|by rewrite Ef in Hin; apply elem_of_nil in Hin].
        apply list_elem_of_In, filter_In. split; [|by unfold fails; rewrite Ha]. apply list_elem_of_In. by rewrite Hs.
      * eexists. split_and!; [done|exact Hp|]. intros Hf. rewrite Hp.
        rewrite (map_ext_in share all_entries); [done|]. intros e He%list_elem_of_In. by apply share_all, Hf.
    + left. split; [|done]. exists e. assert (Hin : e ∈ List.filter fails (schedule es)) by (rewrite Ef; by left).
      apply list_elem_of_In, filter_In in Hin as [Hin Hf]. split; [rewrite <- Hs; by apply list_elem_of_In|].
      unfold fails in Hf. by destruct (answer_of e).
  - intros svc rest r -> ->. by apply catalog_region in Ee.
Qed.
End Neutron.

(** ** The fake driver: no address is lost or shared *)
Definition held (s : fake) : dictionary := app (POOL s) (concat (ALLOCATIONS s).*2).
Record tidy (s : fake) : Prop := { ids_unique : NoDup (held s).*1; tenants_unique : NoDup (ALLOCATIONS s).*1 }.
Lemma adel_perm {V} k (v : V) d : NoDup d.*1 -> aget k d = Some v -> d ≡ₚ (k, v) :: adel k d.
Proof.
  induction d as [|[k' v'] d IH]; [done|]. cbn. intros [Hn Hd]%NoDup_cons.
  destruct (String.eqb_spec k k') as [->|Hk].
  - intros [= ->]. replace (adel k' d) with d; [done|]. clear IH Hd.
    induction d as [|[k1 v1] d IH]; [done|]. cbn in *. destruct (String.eqb_spec k' k1) as [->|]; [set_solver|]. rewrite <- IH; [done|set_solver].
  - intros Hg. rewrite (IH Hd Hg) at 1. by constructor.
Qed.
(** Changing the dictionary of one tenant changes what the tenants hold by as much. *)
Lemma allocations_perm t (own new more less : dictionary) l :
  NoDup l.*1 -> aget t l = Some own \/ (aget t l = None /\ own = []) -> app new less ≡ₚ app own more ->
  app (concat (aset t new l).*2) less ≡ₚ app (concat l.*2) more.
Proof.
  intros Hd Hg Hnew. induction l as [|[t' d] l IH]; cbn.
  - destruct Hg as [|[_ ->]]; [done|]. by rewrite app_nil_r.
  - apply NoDup_cons in Hd as [Hn Hd]. cbn in Hg. destruct (String.eqb_spec t t') as [->|]; cbn.
    + destruct Hg as [[= ->]|[]]; [|done].
      rewrite (Permutation_app_comm new), <- app_assoc, Hnew, app_assoc. by rewrite (Permutation_app_comm own).
    + by rewrite <- !app_assoc, IH.
Qed.
Lemma tidy_perm s s' : tidy s -> held s' ≡ₚ held s -> NoDup (ALLOCATIONS s').*1 -> tidy s'.
Proof. intros [H1 H2] Hp Ht. split; [by rewrite Hp|done]. Qed.
Lemma own_of t l : aget t l = Some (default [] (aget t l)) \/ (aget t l = None /\ default ([] : dictionary) (aget t l) = []).
Proof. destruct (aget t l); [by left|by right]. Qed.
Lemma held_id s k v : (k, v) ∈ POOL s -> tidy s -> k ∉ (concat (ALLOCATIONS s).*2).*1.
Proof.
  intros Hin [Hn _] Hk. unfold held in Hn. rewrite fmap_app in Hn. apply NoDup_app in Hn as (_ & Hn & _).
  apply (Hn k); [|done]. apply list_elem_of_fmap. by exists (k, v).
Qed.
Lemma own_elem t (l : list (string * dictionary)) d kv : aget t l = Some d -> kv ∈ d -> kv ∈ concat l.*2.
Proof.
  intros Ht%aget_Some_elem Hin. apply list_elem_of_In, in_concat. exists d. split; [|by apply list_elem_of_In].
  apply list_elem_of_In, list_elem_of_fmap. by exists (t, d).
Qed.
Definition conserved (s s' : fake) : Prop := tidy s' /\ held s' ≡ₚ held s.
Lemma allocate_conserved t i s r s' : tidy s -> allocate_floatingip t i s = (r, s') ->
  conserved s s' /\ forall f, r = Ok f -> (fip_id f, fip_address f) ∈ POOL s /\ f ∈ fake_list_floatingips false (Some t) s'.
Proof.
  intros Hs. unfold allocate_floatingip. set (own := default [] (aget t (ALLOCATIONS s))).
  set (s1 := {| POOL := POOL s; ALLOCATIONS := aset t own (ALLOCATIONS s) |}).
  assert (Hd1 : NoDup (ALLOCATIONS s1).*1) by (apply aset_NoDup; by destruct Hs).
  assert (Hc1 : concat (ALLOCATIONS s1).*2 ≡ₚ concat (ALLOCATIONS s).*2).
  { rewrite <- (app_nil_r (concat (ALLOCATIONS s1).*2)), <- (app_nil_r (concat (ALLOCATIONS s).*2)).
    apply (allocations_perm _ own); [by destruct Hs|apply own_of|done]. }
  assert (H1 : conserved s s1).
  { assert (Hp : held s1 ≡ₚ held s) by (unfold held; by rewrite Hc1). split; [by eapply tidy_perm|done]. }
  destruct (match i with Some _ => _ | None => _ end) as [id|]; [|by intros [= <- <-]; split].
  destruct (aget id (POOL s)) as [a|] eqn:Ea; [|by intros [= <- <-]; split].
  pose proof (held_id s id a (aget_Some_elem _ _ _ Ea) Hs) as Hid.
  assert (Hown : id ∉ own.*1).
  { intros Hin. apply list_elem_of_fmap in Hin as ([k v] & -> & Hin). apply Hid. apply list_elem_of_fmap. exists (k, v). split; [done|].
    subst own. destruct (aget t (ALLOCATIONS s)) as [d|] eqn:Et; [by eapply own_elem|by apply elem_of_nil in Hin]. }
  intros [= <- <-]. split.
  - assert (Hp : held {| POOL := adel id (POOL s); ALLOCATIONS := aset t (aset id a own) (ALLOCATIONS s1) |} ≡ₚ held s).
    { unfold held. cbn [POOL ALLOCATIONS]. rewrite (aset_keys_new id a own) by done.
      pose proof (allocations_perm t own (app own [(id, a)]) [(id, a)] [] (ALLOCATIONS s1) Hd1) as Hq.
      rewrite !app_nil_r in Hq. rewrite Hq; [|left; apply aget_aset_eq|done]. rewrite Hc1.
      rewrite (Permutation_app_comm (concat _)). cbn. rewrite <- Permutation_middle.
      rewrite (adel_perm id a (POOL s)) at 2; [done| |done].
      destruct Hs as [Hn _]. unfold held in Hn. rewrite fmap_app in Hn. by apply NoDup_app in Hn as (Hn & _). }
    split; [|done]. eapply tidy_perm; [done|exact Hp|by apply aset_NoDup].
  - intros f [= <-]. split; [by apply aget_Some_elem|].
    unfold fake_list_floatingips. cbn. rewrite aget_aset_eq. cbn. apply list_elem_of_fmap. exists (id, a). split; [done|].
    rewrite aset_keys_new by done. apply elem_of_app. right. by left.
Qed.
Lemma find_owner_spec id l t d a : NoDup l.*1 -> find_owner id l = Some (t, d, a) -> aget t l = Some d /\ aget id d = Some a.
Proof.
  induction l as [|[t' d'] l IH]; [done|]. cbn. intros [Hn Hd]%NoDup_cons. destruct (aget id d') eqn:E.
  - intros [= <- <- <-]. by rewrite String.eqb_refl.
  - intros Hf. destruct (IH Hd Hf) as [H1 H2]. split; [|done]. destruct (String.eqb_spec t t') as [->|]; [|done].
    exfalso. apply Hn. apply aget_Some_elem in H1. apply list_elem_of_fmap. by exists (t', d).
Qed.
Lemma NoDup_keys_own t (l : list (string * dictionary)) d : NoDup (concat l.*2).*1 -> aget t l = Some d -> NoDup d.*1.
Proof.
  intros Hn. induction l as [|[t' d'] l IH]; [done|]. cbn in *. rewrite fmap_app in Hn.
  apply NoDup_app in Hn as (H1 & _ & H2). destruct (String.eqb t t'); [by intros [= ->]|by apply IH].
Qed.
Lemma deallocate_conserved id s r s' : tidy s -> deallocate_floatingip id s = (r, s') -> conserved s s'.
Proof.
  intros Hs. unfold deallocate_floatingip. destruct (find_owner id (ALLOCATIONS s)) as [[[t d] a]|] eqn:Ef; [|by intros [= <- <-]].
  apply find_owner_spec in Ef as [Ht Ha]; [|by destruct Hs]. intros [= <- <-].
  pose proof Hs as [Hn Hd]. unfold held in Hn. rewrite fmap_app in Hn. apply NoDup_app in Hn as (Hn1 & Hn2 & Hn3).
  assert (Hin : (id, a) ∈ concat (ALLOCATIONS s).*2) by (eapply own_elem; [exact Ht|by apply aget_Some_elem]).
  assert (Hpool : id ∉ (POOL s).*1).
  { intros Hk. apply (Hn2 id Hk). apply list_elem_of_fmap. by exists (id, a). }
  assert (Hp : held {| POOL := aset id a (POOL s); ALLOCATIONS := aset t (adel id d) (ALLOCATIONS s) |} ≡ₚ held s).
  { unfold held. cbn. rewrite aset_keys_new by done. rewrite <- app_assoc. f_equiv.
    rewrite Permutation_app_comm. rewrite <- (app_nil_r (concat (ALLOCATIONS s).*2)).
    apply (allocations_perm t d); [done|by left|]. rewrite app_nil_r, Permutation_app_comm. symmetry.
    apply (adel_perm id a d); [by eapply NoDup_keys_own|done]. }
  split; [|done]. eapply tidy_perm; [done|exact Hp|by apply aset_NoDup].
Qed.
Lemma foldl_aset_new (pool l : dictionary) : NoDup (app pool l).*1 -> foldl (fun d kv => aset kv.1 kv.2 d) pool l = app pool l.
Proof.
  revert pool. induction l as [|[k v] l IH]; intros pool Hn; [by rewrite app_nil_r|]. cbn.
  assert (Hk : k ∉ pool.*1).
  { rewrite fmap_app in Hn. apply NoDup_app in Hn as (_ & Hn & _). intros Hk. apply (Hn k Hk). by left. }
  rewrite aset_keys_new by done. rewrite IH; by rewrite <- app_assoc.
Qed.
Lemma emptied_spec l : concat (emptied l).*2 = [] /\ (emptied l).*1 = l.*1.
Proof.
  unfold emptied. induction l as [|[t d] l [IH1 IH2]]; [done|]. cbn. split; [exact IH1|]. f_equal. exact IH2.
Qed.
Lemma reset_conserved s r s' : tidy s -> reset_floatingips s = (r, s') -> conserved s s'.
Proof.
  intros Hs [= <- <-].
  pose proof (emptied_spec (ALLOCATIONS s)) as [He Hk].
  assert (Hp : held {| POOL := foldl (fun pool kv => aset kv.1 kv.2 pool) (POOL s) (concat (ALLOCATIONS s).*2);
                       ALLOCATIONS := emptied (ALLOCATIONS s) |} ≡ₚ held s).
  { unfold held. cbn [POOL ALLOCATIONS]. rewrite He, app_nil_r, foldl_aset_new; [done|by destruct Hs]. }
  split; [|done]. eapply tidy_perm; [done|exact Hp|]. cbn [ALLOCATIONS]. rewrite Hk. by destruct Hs.
Qed.
(** The fake driver of the network API loses and doubles no address: whatever is allocated,
    taken back or reset, and whether it succeeds or not, each identifier stays in exactly one
    place, with its address; an allocation hands one of the pool to the tenant, who sees it. *)
Theorem fake_addresses_conserved t i id s :
  tidy s ->
  (forall r s', allocate_floatingip t i s = (r, s') ->
     conserved s s' /\ forall f, r = Ok f -> (fip_id f, fip_address f) ∈ POOL s /\ f ∈ fake_list_floatingips false (Some t) s') /\
  (forall r s', deallocate_floatingip id s = (r, s') -> conserved s s') /\
  (forall r s', reset_floatingips s = (r, s') -> conserved s s').
Proof.
  intros Hs. split_and!; intros r s' E; [by eapply allocate_conserved|by eapply deallocate_conserved|by eapply reset_conserved].
Qed.

(** ** Examples *)
Definition two_regions : list svc :=
  [{| svc_type := "network";
      svc_endpoints := [[("publicURL", "http://a"); ("region", "A")]; [("publicURL", "http://b"); ("region", "B")];
                        [("publicURL", "http://c"); ("region", "C")]] |}].
Definition example_conf : neutron_conf :=
  {| endpoints := None; endpoint_type := "publicURL"; timeout := 30; insecure := false; ca_certificates_file := None;
     admin_username := None; admin_password := None; admin_tenant_name := None; auth_url := None; auth_strategy := None |}.
Definition floating (id address : string) : dictionary := [("id", id); ("floating_ip_address", address)].
(** The second answer of b has no address. *)
Definition example_neutron : Neutron := fun p _ =>
  if p_endpoint p =? "http://a" then Answered (Some [floating "1" "192.0.2.1"; floating "2" "192.0.2.2"])
  else if p_endpoint p =? "http://b" then Answered (Some [floating "3" "192.0.2.3"; [("id", "4")]; floating "5" "192.0.2.5"])
  else CallFails.
Lemma floatingips_complete_witness :
  let ask region := @list_floatingips example_neutron example_conf (fun l => rev l) (Some two_regions) None (Some "t") region in
  ask None = Raise NeutronCommunicationFailure /\
  ask (Some "B") = Ok [{| fip_id := "3"; fip_address := "192.0.2.3"; fip_region := "B" |}] /\
  exists l, ask (Some "A") = Ok l /\
    l ≡ₚ [{| fip_id := "1"; fip_address := "192.0.2.1"; fip_region := "A" |};
          {| fip_id := "2"; fip_address := "192.0.2.2"; fip_region := "A" |}].
Proof.
  intros ask. split_and!; [by vm_compute..|].
  pose proof (@floatingips_complete example_neutron example_conf (fun l => rev l) None (Some "t") (Some two_regions) (Some "A")
    (fun l => symmetry (Permutation_rev l))) as H.
  destruct H as [[[(e & He%list_elem_of_singleton & Ha) _]|(_ & l & Hl & _ & Hc)] _]; [by subst e|].
  exists l. split; [exact Hl|]. apply Hc. intros e He%list_elem_of_singleton. subst e. by repeat constructor.
Defined.
Lemma fake_addresses_conserved_witness :
  let s := {| POOL := [("1", "192.168.2.0"); ("2", "192.168.2.1")]; ALLOCATIONS := [] |} in
  tidy s /\ conserved s (allocate_floatingip "t" None s).2.
Proof.
  intros s. assert (Hs : tidy s) by (split; apply (bool_decide_eq_true_1 _); by vm_compute). split; [exact Hs|].
  destruct (fake_addresses_conserved "t" None "1" s Hs) as [H _]. by apply (H (allocate_floatingip "t" None s).1 _ (surjective_pairing _)).
Defined.
