(* ===== verification/Dynect.v ===== *)
(** * The DynECT backend (designate/backend/impl_dynect.py)

    The client keeps a session: [request] logs in when it has no token, and again when the
    server refuses the token it has. What the server answers depends on all that was asked
    before, the class [Dyn]; bodies are JSON values. *)
From Stdlib Require Import ZArith Lia Ascii String.
From stdpp Require Import base option numbers strings sets list.
From S2P Require Import Prelude PyStr Exceptions Values Utils.
Local Open Scope string_scope.

(** ** Answers and exceptions *)
Record dyn_request := { r_method : string; r_url : string; r_token : option string; r_data : option pyval }.
(** [r_json] is [None] when the body is no JSON. *)
Record dyn_answer := { status_code : Z; r_json : option pyval }.
Inductive dyn_class := ClientError | ClientAuthError | ClientOperationBlocked.
(** [NoAnswer]: the exceptions of requests; [Other]: everything that is not of this module *)
Inductive dyn_error := Client (c : dyn_class) (status : Z) (msgs : pyval) | NoAnswer | Other (e : exc).
Class Dyn := serve : list dyn_request -> option dyn_answer.

Definition item (v : pyval) (k : string) : R pyval :=
  match v with
  | PDict d => match aget k d with Some w => Ok w | None => Raise (Py PyKeyError) end
  | _ => Raise (Py PyTypeError)
  end.
Definition iter (v : pyval) : R (list pyval) :=
  match v with
  | PList l => Ok l
  | PDict d => Ok (map (fun kv => PStr kv.1) d)
  | PStr s => Ok (map (fun c => PStr (String c "")) (list_ascii_of_string s))
  | _ => Raise (Py PyTypeError)
  end.
Fixpoint contains (sub s : string) : bool :=
  startswith sub s || match s with EmptyString => false | String _ s' => contains sub s' end.

(** [DynClientError.from_response]: the first message that names a log-in or a blocked operation
    decides the class *)
Fixpoint class_by (msgs : list pyval) : R dyn_class :=
  match msgs with
  | [] => Ok ClientError
  | msg :: msgs =>
      let? info := item msg "INFO" in
      match info with
      | PStr s => if startswith "login:" s then Ok ClientAuthError
                  else if contains "Operation blocked" s then Ok ClientOperationBlocked
                  else class_by msgs
      | _ => Raise (Py PyAttributeError)
      end
  end.
Definition from_response (a : dyn_answer) : dyn_error :=
  match r_json a with
  | None => Other (Py PyValueError)
  | Some data =>
      match (let? d := item data "data" in let? j := item data "job_id" in
             let? msgs := item data "msgs" in let? l := iter msgs in
             let? c := class_by l in Ok (c, msgs)) with
      | Ok (c, msgs) => Client c (status_code a) msgs
      | Raise e => Other e
      end
  end.

(** ** The client (DynClient) *)
Record client := { token : option string; authing : bool; sent : list dyn_request }.
Definition new_client : client := {| token := None; authing := false; sent := [] |}.
Definition set_token (t : option string) (c : client) : client := {| token := t; authing := authing c; sent := sent c |}.
Definition set_authing (b : bool) (c : client) : client := {| token := token c; authing := b; sent := sent c |}.

Section Client.
Context `{Dyn}.
Variables customer_name user_name password endpoint : string.
Abbreviation D A := (M dyn_error client A).
Definition other {A} (r : R A) : D A := match r with Ok a => ret a | Raise e => raise (Other e) end.

Definition full_url (url : string) : string :=
  if startswith "http" url then url
  else endpoint ++ (if startswith "/REST" url then url else "/REST" ++ url).
Definition _request (method url : string) (data : option pyval) : D dyn_answer := fun s =>
  let r := {| r_method := method; r_url := full_url url; r_token := token s; r_data := data |} in
  let s1 := {| token := token s; authing := authing s; sent := app (sent s) [r] |} in
  match serve (sent s1) with
  | None => (Raise NoAnswer, s1)
  | Some resp => if (400 <=? status_code resp)%Z then (Raise (from_response resp), s1) else (Ok resp, s1)
  end.
(** [poll_response]: its first line reads [response.status], an attribute the responses of
    requests do not have. *)
Definition poll_response (_ : dyn_answer) : D dyn_answer := raise (Other (Py PyAttributeError)).
Definition json_of (a : dyn_answer) : D pyval :=
  match r_json a with Some v => ret v | None => raise (Other (Py PyValueError)) end.
(** [request], with what [self.login()] does *)
Fixpoint request_by (login : D unit) (retries : nat) (method url : string) (data : option pyval) : D pyval :=
  let! s := gets (fun s => s) in
  when (bool_decide (token s = None) && negb (authing s)) login ;;;
  try_else (_request method url data)
    (fun e => match e, retries with
              | Client ClientAuthError _ _, S retries =>
                  Some (modify (set_token None) ;;; request_by login retries method url data)
              | _, _ => None
              end)
    (fun response =>
       let! response := if (status_code response =? 307)%Z then poll_response response else ret response in
       json_of response).
Definition credentials : pyval :=
  PDict [("customer_name", PStr customer_name); ("user_name", PStr user_name); ("password", PStr password)].
(** While it runs, [authing] keeps its own request from logging in. A token that is no text
    makes requests refuse the header of the next request. *)
Definition login : D unit :=
  modify (set_authing true) ;;;
  let! response := request_by (ret tt) 2 "POST" "/Session" (Some credentials) in
  let! token := other (let? data := item response "data" in item data "token") in
  let! token := match token with PStr t => ret (Some t) | PNone => ret None | _ => raise NoAnswer end in
  modify (set_token token) ;;;
  modify (set_authing false).
Definition request : string -> string -> option pyval -> D pyval := request_by login 2.
Definition logout : D unit := request "DELETE" "/Session" None ;;; modify (set_token None).

(** ** The backend (DynECTBackend), with a client of its own for each operation *)
Variable masters : list (string * Z).
Variables contact_nickname tsig_key_name : option string.
Definition check_masters : D unit :=
  mfor masters (fun m => raise_if (negb (snd m =? 53)%Z) (Other (ConfigurationError CE_Base))).
Definition secondary (name : string) : string := "/Secondary/" ++ rstrip (fun c => Ascii.eqb c ".") name.
Definition zone_data : pyval :=
  let opt k v := match v with Some s => [(k, PStr s)] | None => [] end in
  PDict (("masters", PList (map (fun m => PStr (fst m)) masters)) ::
         app (opt "contact_nickname" contact_nickname) (opt "tsig_key_name" tsig_key_name)).
(** [for emsg in e.msgs: ... break else: raise] *)
Fixpoint target_exists (msgs : list pyval) : R bool :=
  match msgs with
  | [] => Ok false
  | m :: msgs => let? c := item m "ERR_CD" in if py_eq c (PStr "TARGET_EXISTS") then Ok true else target_exists msgs
  end.
Definition in_session (m : D unit) : res dyn_error unit * client := (m ;;; logout) new_client.
Definition create_body (name : string) : D unit :=
  let url := secondary name in
  try_except (request "POST" url (Some zone_data) ;;; ret tt)
    (fun e => match e with
              | Client _ _ msgs =>
                  Some (let! exists_ := other (let? l := iter msgs in target_exists l) in
                        if exists_ then request "PUT" url (Some zone_data) ;;; ret tt else raise e)
              | _ => None
              end) ;;;
  request "PUT" url (Some (PDict [("activate", PBool true)])) ;;; ret tt.
Definition delete_body (name : string) : D unit :=
  try_except (request "DELETE" ("/Zone/" ++ rstrip (fun c => Ascii.eqb c ".") name) None ;;; ret tt)
    (fun e => match e with Client _ status _ => if (status =? 404)%Z then Some (ret tt) else None | _ => None end).
Definition dynect_create_zone (name : string) : res dyn_error unit * client := in_session (create_body name).
Definition dynect_delete_zone (name : string) : res dyn_error unit * client := in_session (delete_body name).
End Client.
