(* ===== verification/DynectFacts.v ===== *)
(** * The DynECT backend: theorems *)
From Stdlib Require Import ZArith Lia Ascii String.
From stdpp Require Import base option numbers strings sets list.
From S2P Require Import Prelude PyStr Exceptions Values Utils Dynect.
Local Open Scope string_scope.

Section Sessions.
Context `{Dyn}.
Variables customer_name user_name password endpoint : string.
Variable masters : list (string * Z).
Variables contact_nickname tsig_key_name : option string.
Abbreviation D A := (M dyn_error client A).
Abbreviation creds := (credentials customer_name user_name password).
Abbreviation url := (full_url endpoint).
Abbreviation login := (login customer_name user_name password endpoint).
Abbreviation request := (request customer_name user_name password endpoint).
Abbreviation data := (zone_data masters contact_nickname tsig_key_name).
Definition activation : pyval := PDict [("activate", PBool true)].

(** A request to log in, and its acceptance with a token. *)
Definition is_login (r : dyn_request) : Prop :=
  r = {| r_method := "POST"; r_url := url "/Session"; r_token := None; r_data := Some creds |}.
Definition accepted (log : list dyn_request) (a : dyn_answer) : Prop :=
  serve log = Some a /\ (status_code a < 400)%Z /\ status_code a <> 307%Z.
Definition granted (log : list dyn_request) (t : string) : Prop :=
  exists pre r suf a v d, log = app pre (r :: suf) /\ is_login r /\ accepted (app pre [r]) a /\
    r_json a = Some v /\ item v "data" = Ok d /\ item d "token" = Ok (PStr t).
Definition harmless (d : option pyval) : Prop := d = None \/ d = Some data \/ d = Some activation.
Record sincere (c : client) : Prop := {
  own_token : forall t, token c = Some t -> granted (sent c) t;
  all_sent : forall pre r suf, sent c = app pre (r :: suf) ->
    (is_login r \/ harmless (r_data r)) /\ forall t, r_token r = Some t -> granted pre t }.

Lemma granted_app log l t : granted log t -> granted (app log l) t.
Proof. intros (pre & r & suf & a & v & d & -> & Hr). exists pre, r, (app suf l), a, v, d. by rewrite <- app_assoc. Qed.

(** [Sends n m]: whatever happens, [m] stays sincere and makes at most [n] requests. *)
Class Sends (n : nat) {A} (m : D A) : Prop :=
  sends : forall s r s', m s = (r, s') -> sincere s ->
    sincere s' /\ exists l, sent s' = app (sent s) l /\ length l <= n.
Lemma sends_weaken n k {A} (m : D A) : Sends n m -> n <= k -> Sends k m.
Proof. intros Hm Hk s r s' E Hs. destruct (Hm s r s' E Hs) as (H1 & l & H2 & H3). split; [done|]. exists l. split; [done|lia]. Qed.
#[local] Instance sends_ret {A} (a : A) : Sends 0 (ret a).
Proof. intros s r s' [= <- <-] Hs. split; [done|]. exists []. by rewrite app_nil_r. Qed.
#[local] Instance sends_raise {A} e : Sends 0 (raise e : D A).
Proof. intros s r s' [= <- <-] Hs. split; [done|]. exists []. by rewrite app_nil_r. Qed.
#[local] Instance sends_gets {A} (f : client -> A) : Sends 0 (gets f).
Proof. intros s r s' [= <- <-] Hs. split; [done|]. exists []. by rewrite app_nil_r. Qed.
#[local] Instance sends_other {A} (r : R A) : Sends 0 (other r).
Proof. destruct r; apply _. Qed.
#[local] Instance sends_bind n k {A B} (m : D A) (f : A -> D B) : Sends n m -> (forall a, Sends k (f a)) -> Sends (n + k) (bind m f).
Proof.
  intros Hm Hf s r s' E Hs. unfold bind in E. destruct (m s) as [[a|e] s1] eqn:E1.
  - destruct (Hm _ _ _ E1 Hs) as (Hs1 & l1 & H1 & L1). destruct (Hf a _ _ _ E Hs1) as (Hs2 & l2 & H2 & L2).
    split; [done|]. exists (app l1 l2). rewrite H2, H1, length_app, app_assoc. split; [done|lia].
  - injection E as <- <-. destruct (Hm _ _ _ E1 Hs) as (Hs1 & l1 & H1 & L1). split; [done|]. exists l1. split; [done|lia].
Qed.
#[local] Instance sends_try_except n k {A} (m : D A) (h : dyn_error -> option (D A)) :
  Sends n m -> (forall e m', h e = Some m' -> Sends k m') -> Sends (n + k) (try_except m h).
Proof.
  intros Hm Hh s r s' E Hs. unfold try_except in E. destruct (m s) as [[a|e] s1] eqn:E1;
    destruct (Hm _ _ _ E1 Hs) as (Hs1 & l1 & H1 & L1).
  - injection E as <- <-. split; [done|]. exists l1. split; [done|lia].
  - destruct (h e) as [m'|] eqn:E2.
    + destruct (Hh e m' E2 _ _ _ E Hs1) as (Hs2 & l2 & H2 & L2).
      split; [done|]. exists (app l1 l2). rewrite H2, H1, length_app, app_assoc. split; [done|lia].
    + injection E as <- <-. split; [done|]. exists l1. split; [done|lia].
Qed.
Lemma sincere_no_token s : sincere s -> sincere (set_token None s).
Proof. intros [H1 H2]. split; [done|exact H2]. Qed.
#[local] Instance sends_forget : Sends 0 (modify (set_token None)).
Proof. intros s r s' [= <- <-] Hs. split; [by apply sincere_no_token|]. exists []. by rewrite app_nil_r. Qed.
#[local] Instance sends_authing b : Sends 0 (modify (set_authing b)).
Proof. intros s r s' [= <- <-] [H1 H2]. split; [by split|]. exists []. by rewrite app_nil_r. Qed.
#[local] Instance sends_try_else n k {A B} (m : D A) (h : dyn_error -> option (D B)) (f : A -> D B) :
  Sends n m -> (forall e m', h e = Some m' -> Sends k m') -> (forall a, Sends 0 (f a)) -> Sends (n + k) (try_else m h f).
Proof.
  intros Hm Hh Hf s r s' E Hs. unfold try_else in E. destruct (m s) as [[a|e] s1] eqn:E1;
    destruct (Hm _ _ _ E1 Hs) as (Hs1 & l1 & H1 & L1).
  - destruct (Hf a _ _ _ E Hs1) as (Hs2 & l2 & H2 & L2).
    split; [done|]. exists (app l1 l2). rewrite H2, H1, length_app, app_assoc. split; [done|lia].
  - destruct (h e) as [m'|] eqn:E2.
    + destruct (Hh e m' E2 _ _ _ E Hs1) as (Hs2 & l2 & H2 & L2).
      split; [done|]. exists (app l1 l2). rewrite H2, H1, length_app, app_assoc. split; [done|lia].
    + injection E as <- <-. split; [done|]. exists l1. split; [done|lia].
Qed.
#[local] Instance sends_json a : Sends 0 (json_of a).
Proof. unfold json_of. destruct (r_json a); apply _. Qed.

(** *** One request *)
Lemma snoc_split {A} (l : list A) x pre y suf :
  app l [x] = app pre (y :: suf) -> (pre = l /\ y = x /\ suf = []) \/ exists suf', suf = app suf' [x] /\ l = app pre (y :: suf').
Proof.
  destruct suf as [|z suf] using rev_ind; intros E.
  - left. by apply app_inj_tail in E as [-> ->].
  - right. exists suf. rewrite app_comm_cons, app_assoc in E. by apply app_inj_tail in E as [-> ->].
Qed.
Lemma sincere_snoc r s s1 : sincere s -> sent s1 = app (sent s) [r] -> token s1 = token s -> r_token r = token s ->
  is_login r \/ harmless (r_data r) -> sincere s1.
Proof.
  intros [Ht Hr] Hs Htok Htr Hd. split.
  - intros t Et. rewrite Hs. apply granted_app, Ht. congruence.
  - intros pre y suf E. rewrite Hs in E. apply snoc_split in E as [(-> & -> & ->)|(suf' & -> & E)].
    + split; [done|]. intros t Et. apply Ht. congruence.
    + by apply (Hr _ _ suf').
Qed.
Definition request_of (method u : string) (d : option pyval) (s : client) : dyn_request :=
  {| r_method := method; r_url := url u; r_token := token s; r_data := d |}.
Lemma request_spec method u d s r s1 : _request endpoint method u d s = (r, s1) ->
  sent s1 = app (sent s) [request_of method u d s] /\ token s1 = token s /\ authing s1 = authing s /\
  forall a, r = Ok a -> serve (sent s1) = Some a /\ (status_code a < 400)%Z.
Proof.
  unfold _request. cbn zeta. cbn [sent token authing]. fold (request_of method u d s). intros E.
  destruct (serve _) as [a|] eqn:Es.
  - destruct (Z.leb_spec 400 (status_code a)) as [Hc|Hc]; injection E as <- <-; cbn; (split_and!; [done..|intros a' E'; by inversion E'; subst]).
  - injection E as <- <-. cbn. split_and!; [done..|]. intros a' E'. by inversion E'.
Qed.
Lemma sends_one method u d : harmless d -> Sends 1 (_request endpoint method u d).
Proof.
  intros Hd s r s1 E Hs. apply request_spec in E as (E1 & E2 & _ & _). split.
  - apply (sincere_snoc (request_of method u d s) s); try done. by right.
  - eauto.
Qed.
Lemma json_of_Ok a s v s1 : json_of a s = (Ok v, s1) -> r_json a = Some v /\ s1 = s.
Proof. unfold json_of. destruct (r_json a) as [w|]; intros E; by inversion E. Qed.
(** What is returned is the answer to the last request. *)
Definition last_request (method u : string) (d : option pyval) (v : pyval) (s' : client) : Prop :=
  exists pre r a, sent s' = app pre [r] /\ r_method r = method /\ r_url r = url u /\ r_data r = d /\
    accepted (sent s') a /\ r_json a = Some v.
Lemma request_by_Ok login_ k method u d s v s' :
  request_by endpoint login_ k method u d s = (Ok v, s') -> last_request method u d v s'.
Proof.
  revert s. induction k as [|k IH]; intros s; cbn [request_by]; intros (s0 & ? & [= <- <-] & E)%bind_Ok;
    apply bind_Ok in E as ([] & s1 & _ & E); unfold try_else in E;
    destruct (_request endpoint method u d s1) as [[a|e] s2] eqn:Er.
  all: try (apply request_spec in Er as (Hsent & _ & _ & Ha); destruct (Ha a eq_refl) as [Hserve Hc];
    apply bind_Ok in E as (a' & s3 & E3 & E4); destruct (Z.eqb_spec (status_code a) 307); [by inversion E3|];
    injection E3 as <- <-; apply json_of_Ok in E4 as [Hj ->]; exists (sent s1), (request_of method u d s1), a; by repeat split).
  - destruct e as [[]| |]; inversion E.
  - destruct e as [[]| |]; try (by inversion E).
    apply bind_Ok in E as ([] & s3 & _ & E). by apply IH in E.
Qed.

(** *** Logging in *)
Lemma login_one s r1 s1 : sincere s -> token s = None ->
  _request endpoint "POST" "/Session" (Some creds) s = (r1, s1) ->
  sincere s1 /\ token s1 = None /\ exists q, sent s1 = app (sent s) [q] /\ is_login q /\
    forall a, r1 = Ok a -> serve (sent s1) = Some a /\ (status_code a < 400)%Z.
Proof.
  intros Hs Ht Er. pose proof (request_spec _ _ _ _ _ _ Er) as (Hsent & Htok & _ & Ha).
  assert (Hq : is_login (request_of "POST" "/Session" (Some creds) s)) by (unfold is_login, request_of; by rewrite Ht).
  split_and!; [|congruence|by exists (request_of "POST" "/Session" (Some creds) s)].
  eapply sincere_snoc; [exact Hs|exact Hsent|done|done|by left].
Qed.
Lemma answered a s r s' :
  (let! response := if (status_code a =? 307)%Z then poll_response a else ret a in json_of response) s = (r, s') ->
  s' = s /\ forall v, r = Ok v -> status_code a <> 307%Z /\ r_json a = Some v.
Proof.
  unfold bind. destruct (Z.eqb_spec (status_code a) 307); cbn.
  - intros E. inversion E. by split.
  - unfold json_of. destruct (r_json a); intros E; inversion E; split; try done; intros ? E'; by inversion E'.
Qed.
Lemma answered_other a s c st msgs s' :
  (let! response := if (status_code a =? 307)%Z then poll_response a else ret a in json_of response) s <> (Raise (Client c st msgs), s').
Proof.
  unfold bind. destruct (status_code a =? 307)%Z; cbn; [by intros E; inversion E|].
  unfold json_of. destruct (r_json a); intros E; by inversion E.
Qed.
Definition logged_in (v : pyval) (s : client) : Prop :=
  exists pre q a, sent s = app pre [q] /\ is_login q /\ accepted (sent s) a /\ r_json a = Some v.
Lemma login_try k s r s' : sincere s -> token s = None ->
  request_by endpoint (ret tt) k "POST" "/Session" (Some creds) s = (r, s') ->
  sincere s' /\ token s' = None /\ (exists l, sent s' = app (sent s) l /\ length l <= S k) /\
  forall v, r = Ok v -> logged_in v s'.
Proof.
  revert s. induction k as [|k IH]; intros s Hs Ht E; cbn [request_by] in E; unfold bind at 1, gets in E;
    unfold bind in E at 1; replace (when _ (ret tt) s) with (Ok (E := dyn_error) tt, s) in E by (unfold when; by destruct (_ && _));
    unfold try_else in E; destruct (_request endpoint _ _ _ s) as [[a|e] s1] eqn:Er;
    destruct (login_one _ _ _ Hs Ht Er) as (Hs1 & Ht1 & q & Hsent & Hq & Ha).
  1, 3: apply answered in E as [-> Hv]; split_and!; [done..|eexists; split; [exact Hsent|cbn; lia]|];
    intros v Ev; destruct (Hv v Ev) as [H3 Hj], (Ha a eq_refl) as [H1 H2]; exists (sent s), q, a; done.
  - replace (match e with Client ClientAuthError _ _ | _ => None end) with (@None (D pyval)) in E by (by destruct e as [[]| |]).
    injection E as <- <-. split_and!; [done..|eexists; split; [exact Hsent|cbn; lia]|done].
  - destruct e as [[]| |]; try (injection E as <- <-; split_and!; [done..|eexists; split; [exact Hsent|cbn; lia]|done]).
    unfold bind at 1 in E. cbn [modify] in E.
    apply IH in E as (H1 & H2 & (l & H3 & H4) & H5); [|by apply sincere_no_token|done].
    split_and!; [done..| |done]. exists (q :: l). rewrite H3. cbn. rewrite Hsent, <- app_assoc. split; [done|cbn; lia].
Qed.
Lemma login_runs s r s' : sincere s -> token s = None -> login s = (r, s') ->
  sincere s' /\ exists l, sent s' = app (sent s) l /\ length l <= 3.
Proof.
  intros Hs Ht E. unfold Dynect.login in E. unfold bind at 1, modify at 1 in E.
  assert (Hs0 : sincere (set_authing true s)) by (destruct Hs; by split).
  unfold bind at 1 in E. destruct (request_by _ _ _ _ _ _ _) as [[v|e] s1] eqn:Er;
    apply login_try in Er as (Hs1 & Ht1 & Hl & Hv); try done; [|by injection E as <- <-].
  specialize (Hv v eq_refl). unfold bind at 1, other in E.
  destruct (rbind (item v "data") _) as [t|e] eqn:Et; cbn [ret raise] in E; [|by injection E as <- <-].
  destruct t; try (by injection E as <- <-); unfold bind, ret, modify in E; injection E as <- <-; split; try done.
  - destruct Hs1 as [H1 H2]. split; [done|exact H2].
  - destruct Hs1 as [H1 H2]. split; [|exact H2]. intros t [= <-].
    destruct Hv as (pre & q & a & Hsent & Hq & Hacc & Hj). cbn.
    destruct (item v "data") as [d|] eqn:Ed; [|done]. cbn in Et.
    exists pre, q, [], a, v, d. by rewrite <- Hsent.
Qed.

(** *** Requests, and the two operations *)
#[local] Instance sends_enter {A} (k : D A) n :
  Sends n k -> Sends (3 + n) (let! s := gets (fun s => s) in when (bool_decide (token s = None) && negb (authing s)) login ;;; k).
Proof.
  intros Hk s r s' E Hs. unfold bind at 1, gets in E. unfold when in E.
  destruct (bool_decide_reflect (token s = None)) as [Ht|Ht], (authing s); cbn [andb negb] in E.
  2: { unfold bind at 1 in E. destruct (login s) as [[[]|e] s1] eqn:E1; apply login_runs in E1 as (Hs1 & l1 & H1 & L1); try done.
       - destruct (Hk _ _ _ E Hs1) as (Hs2 & l2 & H2 & L2). split; [done|].
         exists (app l1 l2). rewrite H2, H1, length_app, app_assoc. split; [done|lia].
       - injection E as <- <-. split; [done|]. exists l1. split; [done|lia]. }
  all: destruct (Hk _ _ _ E Hs) as (Hs2 & l2 & H2 & L2); split; [done|]; exists l2; split; [done|lia].
Qed.
Lemma sends_request_by k method u d : harmless d -> Sends (4 * S k) (request_by endpoint login k method u d).
Proof.
  intros Hd. induction k as [|k IH]; cbn [request_by].
  - apply (sends_enter _ (1 + 0)), sends_try_else; [by apply sends_one| |].
    + by intros [[]| |] m'.
    + intros a s r s' [-> _]%answered Hs. split; [done|]. exists []. by rewrite app_nil_r.
  - apply (sends_weaken (3 + (1 + (0 + 4 * S k)))); [|lia]. apply sends_enter, sends_try_else; [by apply sends_one| |].
    + intros [[]| |] m' [= <-]. apply _.
    + intros a s r s' [-> _]%answered Hs. split; [done|]. exists []. by rewrite app_nil_r.
Qed.
#[local] Instance sends_post u : Sends 12 (request "POST" u (Some data)).
Proof. apply (sends_request_by 2). by right; left. Qed.
#[local] Instance sends_put u : Sends 12 (request "PUT" u (Some data)).
Proof. apply (sends_request_by 2). by right; left. Qed.
#[local] Instance sends_activate u : Sends 12 (request "PUT" u (Some activation)).
Proof. apply (sends_request_by 2). by right; right. Qed.
#[local] Instance sends_delete u : Sends 12 (request "DELETE" u None).
Proof. apply (sends_request_by 2). by left. Qed.
Lemma new_sincere : sincere new_client.
Proof. split; [done|]. by intros []. Qed.

(** *** Refusals *)
Definition refused (st : Z) (msgs : pyval) (s : client) : Prop :=
  exists pre q a c, sent s = app pre [q] /\ serve (sent s) = Some a /\ status_code a = st /\ from_response a = Client c st msgs.
Lemma from_response_status a c st msgs : from_response a = Client c st msgs -> st = status_code a.
Proof.
  unfold from_response. destruct (r_json a) as [v|]; [|done].
  match goal with |- context [match ?x with Ok _ => _ | Raise _ => _ end] => destruct x as [[c' m']|] end; [|done].
  by intros [= _ <- _].
Qed.
Lemma request_refused method u d s c st msgs s' :
  _request endpoint method u d s = (Raise (Client c st msgs), s') -> refused st msgs s'.
Proof.
  unfold _request. cbn zeta. cbn [sent]. destruct (serve _) as [a|] eqn:Es; [|by inversion 1].
  destruct (400 <=? status_code a)%Z; [|by inversion 1]. intros E. injection E as E <-.
  eexists _, _, a, c. cbn [sent]. split_and!; [reflexivity|exact Es| |done]. symmetry. by apply from_response_status in E.
Qed.
Definition refuses {A} (m : D A) : Prop := forall s c st msgs s', m s = (Raise (Client c st msgs), s') -> refused st msgs s'.
Lemma request_by_refuses l k method u d : refuses l -> refuses (request_by endpoint l k method u d).
Proof.
  intros Hl. induction k as [|k IH]; intros s c st msgs s' E; cbn [request_by] in E; unfold bind at 1, gets in E;
    apply bind_Raise in E as [E|([] & s1 & _ & E)];
    try (unfold when in E; destruct (_ && _) in E; [by apply Hl in E|by inversion E]);
    unfold try_else in E; destruct (_request endpoint method u d s1) as [[a|e] s2] eqn:Er.
  1, 3: by apply answered_other in E.
  - replace (match e with Client ClientAuthError _ _ | _ => None end) with (@None (D pyval)) in E by (by destruct e as [[]| |]).
    injection E as -> ->. by apply request_refused in Er.
  - destruct e as [[]| |]; try (inversion E; subst; by apply request_refused in Er).
    unfold bind, modify in E. by apply IH in E.
Qed.
Lemma login_refuses : refuses login.
Proof.
  intros s c st msgs s' E. unfold Dynect.login in E. unfold bind at 1, modify at 1 in E.
  apply bind_Raise in E as [E|(v & s1 & _ & E)].
  - eapply request_by_refuses, E. intros s1 c1 st1 m1 s2 E1. by inversion E1.
  - apply bind_Raise in E as [E|(t & s2 & _ & E)]; [unfold other in E; destruct (rbind _ _) in E; by inversion E|].
    apply bind_Raise in E as [E|(t' & s3 & _ & E)]; [destruct t; by inversion E|by inversion E].
Qed.
Lemma request_refuses method u d : refuses (request method u d).
Proof. apply request_by_refuses, login_refuses. Qed.

(** *** Whole operations *)
Abbreviation create_zone := (dynect_create_zone customer_name user_name password endpoint masters contact_nickname tsig_key_name).
Abbreviation delete_zone := (dynect_delete_zone customer_name user_name password endpoint).
Abbreviation create_body := (create_body customer_name user_name password endpoint masters contact_nickname tsig_key_name).
Abbreviation delete_body := (delete_body customer_name user_name password endpoint).
Definition existing (u : string) (e : dyn_error) : option (D unit) :=
  match e with
  | Client _ _ msgs =>
      Some (let! exists_ := other (let? l := iter msgs in target_exists l) in
            if exists_ then request "PUT" u (Some data) ;;; ret tt else raise e)
  | _ => None
  end.
#[local] Instance sends_creation u : Sends 24 (try_except (request "POST" u (Some data) ;;; ret tt) (existing u)).
Proof.
  apply (sends_weaken ((12 + 0) + 12)); [|lia]. apply sends_try_except; [apply _|].
  intros [c st msgs| |] m' [= <-]. apply (sends_weaken (0 + (12 + 0))); [|lia].
  apply sends_bind; [apply _|]. intros []; [apply _|]. eapply sends_weaken; [apply _|lia].
Qed.
#[local] Instance sends_create_body name : Sends 36 (create_body name).
Proof. apply (sends_weaken (24 + (12 + 0))); [|lia]. apply sends_bind; [apply sends_creation|intros; apply _]. Qed.
#[local] Instance sends_delete_body name : Sends 12 (delete_body name).
Proof.
  unfold Dynect.delete_body. apply (sends_weaken ((12 + 0) + 0)); [|lia]. apply sends_try_except; [apply _|].
  intros [c st msgs| |] m' E; try done. destruct (st =? 404)%Z; [|done]. injection E as <-. apply _.
Qed.
Lemma in_session_sends n (m : D unit) r s' : Sends n m -> in_session customer_name user_name password endpoint m = (r, s') ->
  sincere s' /\ length (sent s') <= n + 12.
Proof.
  intros Hm E. assert (Hb : Sends (n + (12 + 0)) (m ;;; logout customer_name user_name password endpoint)) by apply _.
  destruct (Hb _ _ _ E new_sincere) as (H1 & l & H2 & H3). split; [done|]. rewrite H2. cbn in *. lia.
Qed.
Lemma in_session_Ok (m : D unit) s' : in_session customer_name user_name password endpoint m = (Ok tt, s') ->
  exists s1 v s2, m new_client = (Ok tt, s1) /\ request "DELETE" "/Session" None s1 = (Ok v, s2) /\ s' = set_token None s2.
Proof.
  intros ([] & s1 & H1 & (v & s2 & H2 & H3)%bind_Ok)%bind_Ok. exists s1, v, s2. by injection H3 as <-.
Qed.
Lemma harmless_no_credentials d : harmless d -> d <> Some creds.
Proof. unfold harmless, zone_data, credentials, activation. intros [->|[->| ->]]; done. Qed.
Lemma extends n {A} (m : D A) s r s' : Sends n m -> m s = (r, s') -> sincere s -> sincere s' /\ sent s `prefix_of` sent s'.
Proof. intros Hm E Hs. destruct (Hm _ _ _ E Hs) as (H1 & l & H2 & _). split; [done|]. by exists l. Qed.
Lemma try_except_Ok {A} (m : D A) h s a s' : try_except m h s = (Ok a, s') ->
  m s = (Ok a, s') \/ exists e k s1, m s = (Raise e, s1) /\ h e = Some k /\ k s1 = (Ok a, s').
Proof.
  unfold try_except. destruct (m s) as [[b|e] s1]; [by left|].
  destruct (h e) as [k|] eqn:E; [|done]. intros Hk. right. by exists e, k, s1.
Qed.
(** The zone is there after [s]: created, or updated after the refusal of its creation. *)
Definition zone_taken (name : string) (s : client) : Prop :=
  exists v, last_request "POST" (secondary name) (Some data) v s \/
    last_request "PUT" (secondary name) (Some data) v s /\
    exists st msgs l s0, refused st msgs s0 /\ iter msgs = Ok l /\ target_exists l = Ok true /\ sent s0 `prefix_of` sent s.
Lemma create_body_Ok name s s' : sincere s -> create_body name s = (Ok tt, s') ->
  exists s1 v, zone_taken name s1 /\ last_request "PUT" (secondary name) (Some activation) v s' /\ sent s1 `prefix_of` sent s'.
Proof.
  intros Hs ([] & s1 & H1 & (v & s2 & H2 & E2)%bind_Ok)%bind_Ok. injection E2 as <-.
  exists s1, v. split; [|split; [by apply request_by_Ok in H2|]].
  - apply try_except_Ok in H1 as [(v1 & s3 & H1 & E)%bind_Ok|(e & k & s3 & H1 & Hk & H3)].
    + injection E as <-. exists v1. left. by apply request_by_Ok in H1.
    + apply bind_Raise in H1 as [H1|(v1 & s4 & _ & E)]; [|by inversion E].
      destruct e as [c st msgs| |]; [|done..]. injection Hk as <-.
      destruct (extends 12 _ _ _ _ (sends_post _) H1 Hs) as [Hs3 _].
      apply request_refuses in H1. apply bind_Ok in H3 as (b & s4 & H3 & H4).
      unfold other in H3. destruct (rbind (iter msgs) _) as [b'|e] eqn:Eb in H3; [|by inversion H3]. injection H3 as -> <-.
      destruct b; [|by inversion H4]. apply bind_Ok in H4 as (v1 & s4 & H4 & E). injection E as <-.
      destruct (iter msgs) as [l|] eqn:El; [|done]. exists v1. right. split; [by apply request_by_Ok in H4|].
      exists st, msgs, l, s3. split_and!; try done. by apply (extends 12 _ _ _ _ (sends_put _) H4 Hs3).
  - destruct (extends 24 _ _ _ _ (sends_creation _) H1 Hs) as [Hs1 _].
    by apply (extends 12 _ _ _ _ (sends_activate _) H2 Hs1).
Qed.

(** C25: sessions with DynECT. However the server answers, an operation makes at most 48 requests
    and never loops; the credentials are sent by requests to log in only, and a token only
    after a log-in that was accepted with it. A creation returns exactly when the server has
    taken the zone, or an update of it after refusing it with TARGET_EXISTS, then its
    activation, then the end of the session; a deletion when it has taken the deletion, or
    answered a request with 404, and then the end of the session. *)
Theorem dynect_sessions name :
  (forall r s', create_zone name = (r, s') \/ delete_zone name = (r, s') ->
     length (sent s') <= 48 /\
     forall pre q suf, sent s' = app pre (q :: suf) ->
       (r_data q = Some creds -> is_login q) /\ forall t, r_token q = Some t -> granted pre t) /\
  (forall s', create_zone name = (Ok tt, s') ->
     exists s1 s2 v2 v3, zone_taken name s1 /\ last_request "PUT" (secondary name) (Some activation) v2 s2 /\
       last_request "DELETE" "/Session" None v3 s' /\ sent s1 `prefix_of` sent s2 /\ sent s2 `prefix_of` sent s') /\
  (forall s', delete_zone name = (Ok tt, s') ->
     exists s1 v3, ((exists v, last_request "DELETE" ("/Zone/" ++ rstrip (fun c => Ascii.eqb c ".") name) None v s1) \/
         exists msgs, refused 404 msgs s1) /\
       last_request "DELETE" "/Session" None v3 s' /\ sent s1 `prefix_of` sent s').
Proof.
  split; [|split].
  - intros r s' HE. assert (Hr : sincere s' /\ length (sent s') <= 48).
    { destruct HE as [E|E]; [apply (in_session_sends 36) in E; [|apply _]|apply (in_session_sends 12) in E; [|apply _]];
        destruct E as [H1 H2]; (split; [done|lia]). }
    destruct Hr as [[_ Hall] Hlen]. split; [done|]. intros pre q suf E. destruct (Hall _ _ _ E) as [Hq Ht].
    split; [|done]. intros Hd. destruct Hq as [Hq|Hq]; [done|]. by apply harmless_no_credentials in Hq.
  - intros s' (s2 & v3 & s3 & H1 & H2 & ->)%in_session_Ok.
    destruct (extends 36 _ _ _ _ (sends_create_body name) H1 new_sincere) as [Hs2 _].
    apply (create_body_Ok name _ _ new_sincere) in H1 as (s1 & v2 & Hz & Ha & Hp).
    exists s1, s2, v2, v3. split_and!; try done; [by apply request_by_Ok in H2|].
    by apply (extends 12 _ _ _ _ (sends_delete _) H2 Hs2).
  - intros s' (s2 & v3 & s3 & H1 & H2 & ->)%in_session_Ok.
    destruct (extends 12 _ _ _ _ (sends_delete_body name) H1 new_sincere) as [Hs2 _].
    exists s2, v3. split_and!; [|by apply request_by_Ok in H2|by apply (extends 12 _ _ _ _ (sends_delete _) H2 Hs2)].
    apply try_except_Ok in H1 as [(v & s4 & H1 & E)%bind_Ok|(e & k & s4 & H1 & Hk & H3)].
    + injection E as <-. left. exists v. by apply request_by_Ok in H1.
    + right. apply bind_Raise in H1 as [H1|(v1 & s5 & _ & E)]; [|by inversion E].
      destruct e as [c st msgs| |]; [|done..]. destruct (Z.eqb_spec st 404) as [->|]; [|done].
      injection Hk as <-. injection H3 as <-. exists msgs. by apply request_refuses in H1.
Qed.
End Sessions.

(** ** An example: the server forgets the first token, and has the zone already *)
Definition json_msgs (l : list (string * string)) : option pyval :=
  Some (PDict [("data", PDict []); ("job_id", PInt 1);
               ("msgs", PList (map (fun m => PDict [("INFO", PStr m.1); ("ERR_CD", PStr m.2)]) l))]).
Definition dyn_server : Dyn := fun log =>
  match last log with
  | Some r =>
      if r_url r =? "https://dyn/REST/Session" then
        Some {| status_code := 200;
                r_json := Some (PDict [("data", PDict [("token", PStr (if (length log =? 1)%nat then "old" else "new"))])]) |}
      else if bool_decide (r_token r = Some "old") then
        Some {| status_code := 401; r_json := json_msgs [("login: expired", "")] |}
      else if r_method r =? "POST" then
        Some {| status_code := 400; r_json := json_msgs [("make: there", "TARGET_EXISTS")] |}
      else Some {| status_code := 200; r_json := json_msgs [] |}
  | None => None
  end.
Lemma dynect_sessions_witness :
  let run := @dynect_create_zone dyn_server "c" "u" "p" "https://dyn" [("192.0.2.1", 53%Z)] None None "example.org." in
  run.1 = Ok tt /\ map r_method (sent run.2) = ["POST"; "POST"; "POST"; "POST"; "PUT"; "PUT"; "DELETE"] /\
  length (sent run.2) <= 48.
Proof.
  intros run. split_and!; [by vm_compute|by vm_compute|].
  by apply (@dynect_sessions dyn_server "c" "u" "p" "https://dyn" [("192.0.2.1", 53%Z)] None None "example.org." ) with (r := run.1); left; apply surjective_pairing.
Defined.
