(* ===== verification/Infoblox.v ===== *)
(** * The Infoblox backend (designate/backend/impl_infoblox/)

    The connector speaks HTTP with the WAPI of an Infoblox server; the manipulator finds,
    creates and deletes objects by it; the backend keeps zones as objects of type zone_auth in
    the DNS view of the tenant. What the server answers depends on all that was asked before,
    the class [Wapi]. *)
From Stdlib Require Import ZArith Lia Ascii String.
From stdpp Require Import base option numbers strings sets list.
From S2P Require Import Prelude PyStr Exceptions Values Utils Adapters.
Local Open Scope string_scope.

(** ** Requests and exceptions (ibexceptions.py) *)
Record ib_request := { ib_verb : string; ib_url : string; ib_payload : pyval }.
(** The status, and the body when it is JSON; [None]: an exception of requests *)
Class Wapi := wapi : list ib_request -> option (Z * option pyval).
Inductive ib_error :=
| InfobloxIsMisconfigured (option_ : string)
| InfobloxSearchError | InfobloxCannotCreateObject | InfobloxCannotDeleteObject
| InfobloxCannotUpdateObject | InfobloxFuncException
| Unanswered | OtherError (e : exc).
(** The subclasses of InfobloxException *)
Definition is_InfobloxException (e : ib_error) : bool :=
  match e with
  | InfobloxSearchError | InfobloxCannotCreateObject | InfobloxCannotDeleteObject
  | InfobloxCannotUpdateObject | InfobloxFuncException => true
  | _ => false
  end.

(** ** The connector (connector.py) *)
Record ib_options := { wapi_url : pyval; username : pyval; password : pyval; ns_group : pyval; sslverify : pyval;
                       network_view : pyval; dns_view : pyval; multi_tenant : pyval }.
Section Options.
(** oslo_utils.strutils *)
Variable is_int_like : pyval -> bool.
Variable bool_from_string : pyval -> bool.
Variables options config : list (string * pyval).
Definition option_of (opt : string) : pyval := default PNone (aget opt options).
(** [options.get(opt) or getattr(config, opt)] *)
Definition option_or_config (opt : string) : pyval :=
  let v := option_of opt in if truthy v then v else default PNone (aget opt config).
Definition configured : ib_options :=
  {| wapi_url := option_or_config "wapi_url"; username := option_or_config "username";
     password := option_or_config "password"; ns_group := option_or_config "ns_group";
     sslverify := if is_int_like (option_of "sslverify") then PBool (bool_from_string (option_of "sslverify")) else option_of "sslverify";
     network_view := option_or_config "network_view"; dns_view := option_or_config "dns_view";
     multi_tenant := option_or_config "multi_tenant" |}.
(** [Infoblox.__init__]: a required option that is missing *)
Definition connector_init : res ib_error ib_options :=
  match List.find (fun opt => negb (truthy (option_or_config opt))) ["wapi_url"; "username"; "password"; "ns_group"] with
  | Some opt => Raise (InfobloxIsMisconfigured opt)
  | None => Ok configured
  end.
End Options.

(** [urllib.quote(path)]: like quote_plus, but the slash is kept and the blank is escaped *)
Fixpoint quote (s : string) : string :=
  match s with
  | "" => ""
  | String a s =>
      if unreserved a || Ascii.eqb a "/" then String a (quote s)
      else String "%" (String (hex_digit (nat_of_ascii a / 16)) (String (hex_digit (nat_of_ascii a mod 16)) (quote s)))
  end.
(** [urljoin(base, path)] for a base with a scheme and without query, and a relative path
    without dots for segments: everything of the base up to its last slash after the host *)
Fixpoint up_to_slash (s : string) : string :=
  match s with
  | "" => ""
  | String c s' => if has_char "/" s then String c (up_to_slash s') else ""
  end.
Fixpoint skip_scheme (s : string) : string * string :=
  if startswith "://" s then ("://", sdrop 3 s)
  else match s with "" => ("", "") | String c s' => let '(a, b) := skip_scheme s' in (String c a, b) end.
Definition urljoin (base path : string) : string :=
  let '(scheme, rest) := skip_scheme base in
  scheme ++ (if has_char "/" rest then up_to_slash rest else rest ++ "/") ++ path.

Section Infoblox.
Context `{Wapi}.
Variable conn : ib_options.
Abbreviation D A := (M ib_error (list ib_request) A).
Definition url_text : string := show (wapi_url conn).
Definition _construct_url (relative_path : string) (query_params extattrs : list (string * string)) : D string :=
  raise_if ((relative_path =? "") || startswith "/" relative_path) (OtherError (Py PyValueError)) ;;;
  let attrs_queries := map (fun kv => "*" ++ kv.1 ++ "=" ++ kv.2) extattrs in
  let query := match query_params, extattrs with [], [] => "" | _, _ => "?" end ++ join "&" attrs_queries in
  let query := match query_params with
               | [] => query
               | _ => query ++ (if (1 <? String.length query)%nat then "&" else "") ++ urlencode query_params
               end in
  ret (urljoin url_text (quote relative_path) ++ query).
Definition _validate_objtype_or_die (objtype : string) : D unit :=
  raise_if ((objtype =? "") || has_char "/" objtype) (OtherError (Py PyValueError)).
(** A request, whose answer is JSON, with the expected status or an exception *)
Definition session_call (verb url : string) (payload : pyval) (codes : list Z) (failure : ib_error) : D pyval := fun s =>
  let s1 := app s [{| ib_verb := verb; ib_url := url; ib_payload := payload |}] in
  match wapi s1 with
  | None => (Raise Unanswered, s1)
  | Some (_, None) => (Raise (OtherError (Py PyValueError)), s1)
  | Some (code, Some v) => if bool_decide (code ∈ codes) then (Ok v, s1) else (Raise failure, s1)
  end.
Definition fields_param (return_fields : list string) : list (string * string) :=
  match return_fields with [] => [] | l => [("_return_fields", join "," l)] end.
Definition get_object (objtype : string) (payload : pyval) (return_fields : list string)
    (extattrs : list (string * string)) : D pyval :=
  _validate_objtype_or_die objtype ;;;
  let! url := _construct_url objtype (fields_param return_fields) extattrs in
  session_call "GET" url payload [200%Z] InfobloxSearchError.
Definition create_object (objtype : string) (payload : pyval) (return_fields : list string) : D pyval :=
  _validate_objtype_or_die objtype ;;;
  let! url := _construct_url objtype (fields_param return_fields) [] in
  session_call "POST" url payload [201%Z] InfobloxCannotCreateObject.
Definition call_func (func_name ref : string) (payload : pyval) (return_fields : list string) : D pyval :=
  let! url := _construct_url ref (("_function", func_name) :: fields_param return_fields) [] in
  session_call "POST" url payload [201%Z; 200%Z] InfobloxFuncException.
Definition update_object (ref : string) (payload : pyval) : D pyval :=
  let! url := _construct_url ref [] [] in session_call "PUT" url payload [200%Z] InfobloxCannotUpdateObject.
Definition delete_object (ref : string) : D pyval :=
  let! url := _construct_url ref [] [] in session_call "DELETE" url PNone [200%Z] InfobloxCannotDeleteObject.

(** ** Objects (object_manipulator.py) *)
Definition ib_other {A} (r : R A) : D A := match r with Ok a => ret a | Raise e => raise (OtherError e) end.
Definition first_of (v : pyval) : R pyval :=
  match v with
  | PList (o :: _) => Ok o
  | PStr (String c _) => Ok (PStr (String c ""))
  | PDict _ => Raise (Py PyKeyError)
  | _ => Raise (Py PyTypeError)
  end.
Definition key_of (v : pyval) (k : string) : R pyval :=
  match v with
  | PDict d => match aget k d with Some w => Ok w | None => Raise (Py PyKeyError) end
  | _ => Raise (Py PyTypeError)
  end.
Definition _get_infoblox_object_or_none (obj_type : string) (payload : pyval) (return_fields : list string)
    (extattrs : list (string * string)) : D pyval :=
  let! ib_object := get_object obj_type payload return_fields extattrs in
  if truthy ib_object then
    let! first := ib_other (first_of ib_object) in
    match return_fields with
    | _ :: _ => ret first
    | [] => ib_other (key_of first "_ref")
    end
  else ret PNone.
Definition payload_of : Type := list (string * pyval).
Definition updated (payload more : payload_of) : payload_of := foldl (fun d kv => aset kv.1 kv.2 d) payload more.
Definition _create_infoblox_object (obj_type : string) (payload additional_create_kwargs : payload_of)
    (check_if_exists : bool) (return_fields : list string) : D pyval :=
  let! ib_object := if check_if_exists then _get_infoblox_object_or_none obj_type (PDict payload) [] [] else ret PNone in
  if truthy ib_object then ret ib_object
  else create_object obj_type (PDict (updated payload additional_create_kwargs)) return_fields.
(** [try: ref = ... except InfobloxSearchError] *)
Definition ref_or_none (obj_type : string) (payload : payload_of) : D pyval :=
  try_except (_get_infoblox_object_or_none obj_type (PDict payload) [] [])
    (fun e => match e with InfobloxSearchError => Some (ret PNone) | _ => None end).
Definition text_of (ref : pyval) : D string := match ref with PStr s => ret s | _ => raise (OtherError (Py PyTypeError)) end.
Definition _update_infoblox_object (obj_type : string) (payload update_kwargs : payload_of) : D unit :=
  let! ref := ref_or_none obj_type payload in
  if truthy ref then let! ref := text_of ref in update_object ref (PDict update_kwargs) ;;; ret tt else ret tt.
Definition _delete_infoblox_object (obj_type : string) (payload : payload_of) : D unit :=
  let! ref := ref_or_none obj_type payload in
  if truthy ref then let! ref := text_of ref in delete_object ref ;;; ret tt else ret tt.

Definition get_member (member_name : string) : D pyval :=
  get_object "member" (PDict [("host_name", PStr (stake (String.length member_name - 1) member_name))]) [] [].
Definition create_dns_view (net_view_name dns_view_name : string) : D pyval :=
  _create_infoblox_object "view" [("name", PStr dns_view_name); ("network_view", PStr net_view_name)] [] true [].
Definition delete_dns_view (net_view_name : string) : D unit := _delete_infoblox_object "view" [("name", PStr net_view_name)].
Definition create_network_view (net_view_name : string) (tenant_id : pyval) : D pyval :=
  _create_infoblox_object "networkview" [("name", PStr net_view_name)]
    [("extattrs", PDict [("TenantID", PDict [("value", tenant_id)])])] true [].
Definition delete_network_view (net_view_name : string) : D unit :=
  if net_view_name =? "default" then ret tt else _delete_infoblox_object "networkview" [("name", PStr net_view_name)].
Definition create_tsig (name secret : string) : D unit :=
  _create_infoblox_object "tsig" [("name", PStr name); ("key", PStr secret)] [] true [] ;;; ret tt.
(** [delete_tsig] passes an argument that [_delete_infoblox_object] does not have. *)
Definition delete_tsig (name secret : string) : D unit := raise (OtherError (Py PyTypeError)).
Definition create_multi_tenant_dns_view (net_view tenant : pyval) : D string :=
  let net_view := if truthy net_view then show net_view else show (network_view conn) ++ "." ++ show tenant in
  let dns_view := show (dns_view conn) ++ "." ++ net_view in
  try_except (create_network_view net_view tenant ;;; create_dns_view net_view dns_view ;;; ret tt)
    (fun e => if is_InfobloxException e then Some (ret tt) else None) ;;;
  ret dns_view.
Definition get_dns_view (tenant : pyval) : D string :=
  if negb (truthy (multi_tenant conn)) then ret (show (dns_view conn))
  else
    let! tenant_text := match tenant with PStr s => ret s | _ => raise (OtherError (Py PyTypeError)) end in
    let! net_view := _get_infoblox_object_or_none "networkview" PNone ["name"] [("TenantID", tenant_text)] in
    let! net_view := if truthy net_view then ib_other (key_of net_view "name") else ret net_view in
    create_multi_tenant_dns_view net_view tenant.
Definition zone_format (fqdn : string) : string :=
  if endswith "in-addr.arpa" fqdn then "IPV4" else if endswith "ip6.arpa" fqdn then "IPV6" else "FORWARD".
Definition create_zone_auth (fqdn dns_view : string) : D unit :=
  try_except
    (_create_infoblox_object "zone_auth" [("fqdn", PStr fqdn); ("view", PStr dns_view)]
       [("ns_group", ns_group conn); ("restart_if_needed", PBool true); ("zone_format", PStr (zone_format fqdn))] true [] ;;; ret tt)
    (fun e => match e with InfobloxCannotCreateObject => Some (ret tt) | _ => None end).
Definition delete_zone_auth (fqdn : string) : D unit := _delete_infoblox_object "zone_auth" [("fqdn", PStr fqdn)].

(** ** The backend (InfobloxBackend) *)
Definition backend_masters (masters : list (string * Z)) : D unit :=
  mfor masters (fun m => raise_if (negb (snd m =? 53)%Z) (OtherError (ConfigurationError CE_Base))).
(** [zone['name'][0:-1]] *)
Definition fqdn_of (name : string) : string := stake (String.length name - 1) name.
Definition infoblox_create_zone (tenant : pyval) (name : string) : D unit :=
  let! dns_net_view := get_dns_view tenant in create_zone_auth (fqdn_of name) dns_net_view.
Definition infoblox_delete_zone (name : string) : D unit := delete_zone_auth (fqdn_of name).
End Infoblox.

(** * The Infoblox backend: theorems *)
(** ** The objects of the server
    Searches return the objects with the given fields, with their references; objects are
    created from a payload, and deleted by the URL of their reference. A request answered by
    a client error (4xx) has changed nothing; a creation or a deletion that got another
    answer than the expected one, or none, may have taken place or not. *)
Record wobj := { o_ref : string; o_fields : payload_of }.
Definition fits (p : payload_of) (o : wobj) : bool :=
  forallb (fun kv => match aget kv.1 (o_fields o) with Some v => py_eq v kv.2 | None => false end) p.
Definition found_by (p : payload_of) (l : list wobj) : pyval :=
  PList (map (fun o => PDict (aset "_ref" (PStr (o_ref o)) (o_fields o))) (List.filter (fits p) l)).
Definition unsuccessful (ok : Z) (a : option (Z * option pyval)) : Prop :=
  a = None \/ exists code v, a = Some (code, v) /\ (code <> ok \/ v = None).
Definition client_error (a : option (Z * option pyval)) : Prop :=
  exists code v, a = Some (code, v) /\ (400 <= code < 500)%Z.
Definition object_url (conn : ib_options) (path : string) : string := urljoin (url_text conn) (quote path).

(** The zones among the objects, after a sequence of requests. *)
Class Zones `{Wapi} := zones : list ib_request -> list wobj.
(** What a request makes of the zones: the change [f] when it succeeds, none when it is refused
    as a client error, one or the other when nobody knows *)
Definition changes_by `{Zones} (ok : Z) (f : list wobj -> list wobj -> Prop) (s s1 : list ib_request) : Prop :=
  (exists v, wapi s1 = Some (ok, Some v) /\ f (zones s) (zones s1)) \/
  (unsuccessful ok (wapi s1) /\ (zones s1 = zones s \/ f (zones s) (zones s1) /\ ~ client_error (wapi s1))).
Definition with_one (p : payload_of) (l l' : list wobj) : Prop := exists ref, l' = app l [{| o_ref := ref; o_fields := p |}].
Definition without_ref (conn : ib_options) (ref : string) (l : list wobj) : list wobj :=
  List.filter (fun o => negb (object_url conn (o_ref o) =? object_url conn ref)) l.
Class ZonesLaws `{Zones} (conn : ib_options) := {
  search_zones : forall s p,
    let s1 := app s [{| ib_verb := "GET"; ib_url := object_url conn "zone_auth"; ib_payload := PDict p |}] in
    zones s1 = zones s /\ (wapi s1 = Some (200%Z, Some (found_by p (zones s))) \/ unsuccessful 200 (wapi s1));
  post_zone : forall s p,
    changes_by 201 (with_one p) s
      (app s [{| ib_verb := "POST"; ib_url := object_url conn "zone_auth"; ib_payload := PDict p |}]);
  drop_zone : forall s ref,
    changes_by 200 (fun l l' => l' = without_ref conn ref l) s
      (app s [{| ib_verb := "DELETE"; ib_url := object_url conn ref; ib_payload := PNone |}]);
  (** Views can be searched for and created without harm to the zones. *)
  view_requests : forall s verb path query payload, verb <> "DELETE" -> path ∈ ["networkview"; "view"] ->
    zones (app s [{| ib_verb := verb; ib_url := object_url conn path ++ query; ib_payload := payload |}]) = zones s;
  refs_ok : forall s o, o ∈ zones s -> o_ref o <> "" /\ startswith "/" (o_ref o) = false }.

Section Backend.
Context (conn : ib_options) `{ZonesLaws conn}.
Abbreviation D A := (M ib_error (list ib_request) A).

Lemma ref_call verb path payload codes failure s : path <> "" -> startswith "/" path = false ->
  (let! url := _construct_url conn path [] [] in session_call verb url payload codes failure) s =
  session_call verb (object_url conn path) payload codes failure s.
Proof.
  intros Hp Hs. unfold _construct_url, raise_if. destruct (String.eqb_spec path "") as [|_]; [done|]. rewrite Hs. cbn.
  unfold bind, ret, object_url. by rewrite sapp_nil_r.
Qed.
Lemma get_call p s : get_object conn "zone_auth" p [] [] s =
  session_call "GET" (object_url conn "zone_auth") p [200%Z] InfobloxSearchError s.
Proof. exact (ref_call "GET" "zone_auth" p [200%Z] InfobloxSearchError s ltac:(done) eq_refl). Qed.
Lemma post_call p s : create_object conn "zone_auth" p [] s =
  session_call "POST" (object_url conn "zone_auth") p [201%Z] InfobloxCannotCreateObject s.
Proof. exact (ref_call "POST" "zone_auth" p [201%Z] InfobloxCannotCreateObject s ltac:(done) eq_refl). Qed.
Definition refused (ok : Z) (s : list ib_request) : Prop := exists code v, wapi s = Some (code, Some v) /\ code <> ok.
Lemma unsuccessful_raises ok verb url payload failure s :
  let s1 := app s [{| ib_verb := verb; ib_url := url; ib_payload := payload |}] in
  unsuccessful ok (wapi s1) ->
  exists e, session_call verb url payload [ok] failure s = (Raise e, s1) /\
    (e = failure /\ refused ok s1 \/ e = Unanswered \/ exists x, e = OtherError x).
Proof.
  cbn zeta. unfold session_call. intros [Hw|(code & v & Hw & Hc)]; rewrite Hw.
  - eexists. split; [done|by right; left].
  - destruct v as [v|]; [|eexists; split; [done|right; right; by eexists]].
    destruct Hc as [Hc|]; [|done].
    rewrite bool_decide_eq_false_2; [|by intros ->%list_elem_of_singleton].
    exists failure. split; [done|left]. split; [done|]. by exists code, v.
Qed.
Lemma find_filter {A} (f : A -> bool) l : List.find f l = match List.filter f l with x :: _ => Some x | [] => None end.
Proof. induction l as [|x l IH]; [done|]. cbn. by destruct (f x). Qed.
Lemma key_of_set k v d : key_of (PDict (aset k v d)) k = Ok v.
Proof. unfold key_of. by rewrite aget_aset_eq. Qed.
Lemma successful_call ok verb url payload failure s v :
  let s1 := app s [{| ib_verb := verb; ib_url := url; ib_payload := payload |}] in
  wapi s1 = Some (ok, Some v) -> session_call verb url payload [ok] failure s = (Ok v, s1).
Proof. cbn zeta. unfold session_call. intros ->. rewrite bool_decide_eq_true_2; [done|by left]. Qed.
(** The search for a zone: its reference, nothing, or a failure. *)
Definition looked_up (p : payload_of) (s : list ib_request) (r : res ib_error pyval) (s1 : list ib_request) : Prop :=
  match List.find (fits p) (zones s) with
  | Some o => r = Ok (PStr (o_ref o))
  | None => r = Ok PNone
  end \/ exists e, r = Raise e /\ (e = InfobloxSearchError /\ refused 200 s1 \/ e = Unanswered \/ exists x, e = OtherError x).
Lemma search_spec p s r s1 : _get_infoblox_object_or_none conn "zone_auth" (PDict p) [] [] s = (r, s1) ->
  zones s1 = zones s /\ looked_up p s r s1.
Proof.
  unfold _get_infoblox_object_or_none. unfold bind at 1. rewrite get_call.
  destruct (search_zones s p) as [Hz [Ha|Ha]].
  - rewrite (successful_call _ _ _ _ _ _ _ Ha).
    unfold looked_up. rewrite find_filter. unfold found_by.
    destruct (List.filter (fits p) (zones s)) as [|o l] eqn:Ef; cbn [map truthy].
    + intros E. injection E as <- <-. split; [done|by left].
    + unfold bind, ib_other. cbn [first_of ret]. rewrite key_of_set. intros E. injection E as <- <-. split; [done|by left].
  - intros E. destruct (unsuccessful_raises 200 "GET" _ _ InfobloxSearchError _ Ha) as (e & He & Hk).
    rewrite He in E. injection E as <- <-. split; [done|right; by exists e].
Qed.
(** A call that changes the zones: it returns and has changed them, or raises and may have. *)
Lemma changing_call ok f verb url payload failure s r s1 :
  changes_by ok f s (app s [{| ib_verb := verb; ib_url := url; ib_payload := payload |}]) ->
  session_call verb url payload [ok] failure s = (r, s1) ->
  (exists v, wapi s1 = Some (ok, Some v) /\ r = Ok v /\ f (zones s) (zones s1)) \/
  (exists e, r = Raise e /\ (e = failure /\ refused ok s1 \/ e = Unanswered \/ exists x, e = OtherError x) /\
     (zones s1 = zones s \/ f (zones s) (zones s1) /\ ~ client_error (wapi s1))).
Proof.
  intros [(v & Ha & Hz)|[Hu Hz]] E.
  - rewrite (successful_call _ _ _ _ _ _ _ Ha) in E. injection E as <- <-. left. by exists v.
  - destruct (unsuccessful_raises ok verb url payload failure _ Hu) as (e & He & Hk).
    rewrite He in E. injection E as <- <-. right. by exists e.
Qed.

Lemma fqdn_of_app fqdn : fqdn_of (fqdn ++ ".") = fqdn.
Proof.
  unfold fqdn_of. rewrite slength_app. cbn [String.length].
  replace (String.length fqdn + 1 - 1)%nat with (String.length fqdn) by lia.
  induction fqdn as [|c fqdn IH]; [done|]. cbn. by rewrite IH.
Qed.

(** *** The view of a tenant
    Without multi_tenant the configured one. Otherwise it is named after a network view: the
    first the server finds with the identifier of the tenant, or one named after the tenant,
    when it finds none or one without a name. *)
Definition view_search (t : string) : ib_request :=
  {| ib_verb := "GET"; ib_url := object_url conn "networkview" ++ "?*TenantID=" ++ t ++ "&_return_fields=name"; ib_payload := PNone |}.
Definition names_view (v : pyval) (nv : option pyval) : Prop :=
  (truthy v = false /\ nv = None) \/
  (exists o l, v = PList (o :: l) /\
     ((truthy o = false /\ nv = None) \/
      (exists d n, o = PDict d /\ aget "name" d = Some n /\ nv = if truthy n then Some n else None))).
Definition view_of (tenant : pyval) (s : list ib_request) (view : string) : Prop :=
  if truthy (multi_tenant conn) then
    exists t v nv, tenant = PStr t /\ wapi (app s [view_search t]) = Some (200%Z, Some v) /\ names_view v nv /\
      view = show (dns_view conn) ++ "." ++
        match nv with Some n => show n | None => show (network_view conn) ++ "." ++ t end
  else view = show (dns_view conn).

Lemma view_search_call t s : get_object conn "networkview" PNone ["name"] [("TenantID", t)] s =
  session_call "GET" (ib_url (view_search t)) PNone [200%Z] InfobloxSearchError s.
Proof.
  unfold get_object, bind, view_search. cbn [_validate_objtype_or_die ib_url].
  unfold _validate_objtype_or_die, _construct_url, raise_if. cbn -[urlencode urljoin object_url].
  done.
Qed.
Lemma multi_view_value net_view t s view s1 :
  create_multi_tenant_dns_view conn net_view (PStr t) s = (Ok view, s1) ->
  view = show (dns_view conn) ++ "." ++ (if truthy net_view then show net_view else show (network_view conn) ++ "." ++ t).
Proof.
  unfold create_multi_tenant_dns_view, bind. destruct (try_except _ _ s) as [[u|e] s2]; [|done].
  unfold ret. intros E. by injection E as <- _.
Qed.
Lemma get_dns_view_spec tenant s view s1 : get_dns_view conn tenant s = (Ok view, s1) -> view_of tenant s view.
Proof.
  unfold get_dns_view, view_of. destruct (truthy (multi_tenant conn)); cbn [negb]; [|by intros [= <- _]].
  destruct tenant as [| | |t| | |]; try done. unfold bind at 1, ret at 1. unfold bind at 1.
  unfold _get_infoblox_object_or_none. unfold bind at 1. rewrite view_search_call. unfold session_call.
  change {| ib_verb := "GET"; ib_url := ib_url (view_search t); ib_payload := PNone |} with (view_search t).
  destruct (wapi (app s [view_search t])) as [[code [v|]]|] eqn:Ew; [|done..].
  case_bool_decide as Hc; [|done]. apply list_elem_of_singleton in Hc as ->. intros E. exists t, v.
  destruct (truthy v) eqn:Ev.
  - destruct v as [| | |[|c x]|[|o l]|d|]; try done; unfold ib_other at 1, bind at 1 in E; cbn [first_of ret] in E; try done.
    unfold ret at 1 in E. destruct (truthy o) eqn:Eo.
    + destruct o as [| | | | |d|]; try done. unfold ib_other, key_of in E. destruct (aget "name" d) as [n|] eqn:En; [|done].
      apply multi_view_value in E as ->. exists (if truthy n then Some n else None). split_and!; [done..| |by destruct (truthy n)].
      right. exists (PDict d), l. split; [done|right]. by exists d, n.
    + apply multi_view_value in E as ->. rewrite Eo. exists None. split_and!; [done..| |done]. right. exists o, l. split; [done|by left].
  - apply multi_view_value in E as ->. exists None. split_and!; [done..| |done]. by left.
Qed.

(** Requests about views keep the zones. *)
Definition keeps {A} (c : D A) : Prop := forall s r s', c s = (r, s') -> zones s' = zones s.
Lemma leaves_ret {A} (a : A) : keeps (ret a).
Proof. by intros s r s' [= _ <-]. Qed.
Lemma keeps_raise {A} (e : ib_error) : keeps (raise e : D A).
Proof. by intros s r s' [= _ <-]. Qed.
Lemma keeps_other {A} (r : R A) : keeps (ib_other r).
Proof. destruct r; [apply leaves_ret|apply keeps_raise]. Qed.
Lemma leaves_bind {A B} (c : D A) (k : A -> D B) : keeps c -> (forall a, keeps (k a)) -> keeps (bind c k).
Proof.
  intros Hc Hk s r s'. unfold bind. destruct (c s) as [[a|e] s1] eqn:E; apply Hc in E.
  - intros E'. apply Hk in E'. congruence.
  - intros [= _ <-]. done.
Qed.
Lemma keeps_catch {A} (c : D A) h : keeps c -> (forall e k, h e = Some k -> keeps k) -> keeps (try_except c h).
Proof.
  intros Hc Hh s r s'. unfold try_except. destruct (c s) as [[a|e] s1] eqn:E; apply Hc in E; [by intros [= _ <-]|].
  destruct (h e) as [k|] eqn:Eh; [|by intros [= _ <-]]. intros E'. apply (Hh _ _ Eh) in E'. congruence.
Qed.
Lemma keeps_request verb path q x payload codes failure : verb <> "DELETE" -> path ∈ ["networkview"; "view"] ->
  keeps (let! url := _construct_url conn path q x in session_call verb url payload codes failure).
Proof.
  intros Hv Hp s r s'. unfold _construct_url, raise_if, bind. destruct ((path =? "") || startswith "/" path); cbn; [by intros [= _ <-]|].
  fold (object_url conn path). unfold session_call, ret.
  match goal with |- context [object_url conn path ++ ?q] => generalize q end. intros query.
  pose proof (view_requests s verb path query payload Hv Hp) as Hz.
  destruct (wapi _) as [[code [v|]]|]; [case_bool_decide| |]; by intros [= _ <-].
Qed.
Ltac keep := repeat first
  [ apply leaves_ret | apply keeps_raise | apply keeps_other | apply keeps_request; [done|by set_solver]
  | apply leaves_bind; [|intros ?] | case_match | progress unfold raise_if, _validate_objtype_or_die | progress unfold raise_if ].
Lemma keeps_get objtype payload fields x : objtype ∈ ["networkview"; "view"] -> keeps (get_object conn objtype payload fields x).
Proof. intros Hp. unfold get_object, _validate_objtype_or_die. keep. Qed.
Lemma keeps_create objtype payload more : objtype ∈ ["networkview"; "view"] ->
  keeps (_create_infoblox_object conn objtype payload more true []).
Proof.
  intros Hp. unfold _create_infoblox_object, _get_infoblox_object_or_none, create_object, _validate_objtype_or_die.
  repeat (keep; try apply keeps_get; try done).
Qed.
Lemma keeps_view tenant : keeps (get_dns_view conn tenant).
Proof.
  unfold get_dns_view, _get_infoblox_object_or_none, create_multi_tenant_dns_view, create_network_view, create_dns_view.
  repeat first [ progress keep | apply keeps_get; by set_solver | apply keeps_create; by set_solver | apply keeps_catch; [|intros e k] ].
  all: intros [= <-]; apply leaves_ret.
Qed.

(** *** The zones *)
(** The format of a zone goes by its name. *)
Definition format_of (fqdn format : string) : Prop :=
  (exists p, fqdn = p ++ "in-addr.arpa") /\ format = "IPV4" \/
  (exists p, fqdn = p ++ "ip6.arpa") /\ format = "IPV6" \/
  (~ exists p, fqdn = p ++ "in-addr.arpa") /\ (~ exists p, fqdn = p ++ "ip6.arpa") /\ format = "FORWARD".
Lemma zone_format_of fqdn : format_of fqdn (zone_format fqdn).
Proof.
  unfold format_of, zone_format. rewrite <- !endswith_app.
  destruct (endswith "in-addr.arpa" fqdn), (endswith "ip6.arpa" fqdn); naive_solver.
Qed.
Definition in_view (fqdn view : string) : payload_of := [("fqdn", PStr fqdn); ("view", PStr view)].
(** The zone has been added to the view. *)
Definition added (fqdn view : string) (l l' : list wobj) : Prop :=
  exists format, format_of fqdn format /\
    with_one (app (in_view fqdn view)
      [("ns_group", ns_group conn); ("restart_if_needed", PBool true); ("zone_format", PStr format)]) l l'.
(** What the creation or deletion raises: the failed search, or what is no InfobloxException *)
Definition fails_by (names : list ib_error) (e : ib_error) : Prop := e ∈ names \/ e = Unanswered \/ exists x, e = OtherError x.
(** A creation in a view: nothing is done when the zone is there. Otherwise, if it returns, the
    zone has been added or the server has refused it; if it raises, the zone may have been
    added, unless the server answers with a client error. *)
Definition creation (fqdn view : string) (s : list ib_request) (r : res ib_error unit) (s' : list ib_request) : Prop :=
  (zones s' = zones s \/
   List.find (fits (in_view fqdn view)) (zones s) = None /\ added fqdn view (zones s) (zones s') /\ ~ client_error (wapi s')) /\
  match r with
  | Ok _ =>
      (exists o, List.find (fits (in_view fqdn view)) (zones s) = Some o) \/
      added fqdn view (zones s) (zones s') \/ refused 201 s'
  | Raise e => fails_by [InfobloxSearchError] e
  end.
(** A deletion: of the first zone of this name in any view, or of none. *)
Definition deletion (fqdn : string) (s : list ib_request) (r : res ib_error unit) (s' : list ib_request) : Prop :=
  let first := List.find (fits [("fqdn", PStr fqdn)]) (zones s) in
  let gone o := zones s' = without_ref conn (o_ref o) (zones s) in
  (zones s' = zones s \/ exists o, first = Some o /\ gone o /\ ~ client_error (wapi s')) /\
  match r with
  | Ok _ => (exists o, first = Some o /\ gone o) \/ first = None \/ refused 200 s'
  | Raise e => fails_by [InfobloxCannotDeleteObject] e
  end.

Lemma create_zone_auth_spec fqdn view s r s' : create_zone_auth conn fqdn view s = (r, s') -> creation fqdn view s r s'.
Proof.
  unfold create_zone_auth, _create_infoblox_object. fold (in_view fqdn view).
  unfold try_except, bind at 1, bind at 1. destruct (_get_infoblox_object_or_none _ _ _ _ _ s) as [r1 s1] eqn:E1.
  apply search_spec in E1 as [Hz Hl]. intros E.
  destruct Hl as [Hl|(e & -> & He)].
  2: { replace (match e with InfobloxCannotCreateObject => Some (ret tt) | _ => None end) with (@None (D unit)) in E
         by (by destruct He as [[-> _]|[->|[? ->]]]).
       injection E as <- <-. split; [by left|]. unfold fails_by. set_solver. }
  destruct (List.find (fits (in_view fqdn view)) (zones s)) as [o|] eqn:Ef; subst r1.
  - destruct (truthy (PStr (o_ref o))) eqn:Et.
    + cbn in E. injection E as <- <-. split; [by left|]. left. by exists o.
    + apply List.find_some in Ef as [Hin%list_elem_of_In _]. apply refs_ok in Hin as [Hr _].
      cbn in Et. by destruct (String.eqb_spec (o_ref o) "").
  - cbn [truthy] in E. destruct (create_object _ _ _ _ s1) as [r2 s2] eqn:E2. rewrite post_call in E2.
    apply (changing_call _ _ _ _ _ _ _ _ _ (post_zone s1 _)) in E2. rewrite Hz in E2.
    assert (Ha : forall l', with_one (updated (in_view fqdn view)
        [("ns_group", ns_group conn); ("restart_if_needed", PBool true); ("zone_format", PStr (zone_format fqdn))]) (zones s) l' ->
      added fqdn view (zones s) l') by (intros l' Hw; exists (zone_format fqdn); split; [apply zone_format_of|exact Hw]).
    destruct E2 as [(v & Hw & -> & Hf%Ha)|(e & -> & He & Hf)].
    + injection E as <- <-. unfold creation. rewrite Ef. split; [right|right; by left].
      split_and!; [done..|]. rewrite Hw. intros (code & v' & [= <- _] & ?). lia.
    + unfold creation. rewrite Ef.
      assert (Hc : zones s2 = zones s \/ None = (None : option wobj) /\ added fqdn view (zones s) (zones s2) /\ ~ client_error (wapi s2))
        by naive_solver.
      destruct He as [[-> Hr]|[->|[x ->]]]; injection E as <- <-; (split; [exact Hc|]); [right; by right|unfold fails_by; naive_solver..].
Qed.
Lemma delete_zone_auth_spec fqdn s r s' : delete_zone_auth conn fqdn s = (r, s') -> deletion fqdn s r s'.
Proof.
  unfold delete_zone_auth, _delete_infoblox_object, ref_or_none, try_except, deletion.
  unfold bind at 1. destruct (_get_infoblox_object_or_none _ _ _ _ _ s) as [r1 s1] eqn:E1.
  apply search_spec in E1 as [Hz Hl]. intros E.
  destruct Hl as [Hl|(e & -> & He)].
  2: { destruct He as [[-> Hr]|[->|[? ->]]]; cbn in E; injection E as <- <-; (split; [by left|]); unfold fails_by; naive_solver. }
  destruct (List.find _ (zones s)) as [o|] eqn:Ef; subst r1; [|injection E as <- <-; split; [by left|]; right; by left].
  apply List.find_some in Ef as [Hin%list_elem_of_In _]. apply refs_ok in Hin as [Hr Hs].
  replace (truthy (PStr (o_ref o))) with true in E by (cbn; by destruct (String.eqb_spec (o_ref o) "")).
  cbn [text_of] in E. unfold bind at 1, ret at 1 in E. unfold delete_object in E.
  unfold bind at 1 in E. rewrite ref_call in E by done.
  destruct (session_call _ _ _ _ _ s1) as [r2 s2] eqn:E2.
  apply (changing_call _ _ _ _ _ _ _ _ _ (drop_zone s1 (o_ref o))) in E2. rewrite Hz in E2.
  destruct E2 as [(v & Hw & -> & Hf)|(e & -> & He & Hf)]; injection E as <- <-.
  - split; [right|left]; exists o; split_and!; try done. rewrite Hw. intros (code & v' & [= <- _] & ?). lia.
  - split; [naive_solver|]. unfold fails_by. set_solver.
Qed.

(** C24: zones on an Infoblox server. A creation works in the view of the tenant: the configured
    one, or with multi_tenant the one named after the first network view the server finds with
    the identifier of the tenant, or after the tenant itself. When it returns, the zone was in
    that view already and nothing has changed, or is the one object that was added, or the
    server has refused it: the refusal does not reach the caller. A deletion does not know the
    view: when it returns, what is gone is the first zone of the name in whatever view, so with
    a view per tenant it takes the zone of another tenant, or nothing, when there is none or
    the server has refused the search for it. What raises has made no other change than this
    one, and none when the server has answered with a client error. *)
Theorem infoblox_zones tenant fqdn s r s' :
  (infoblox_create_zone conn tenant (fqdn ++ ".") s = (r, s') ->
     (exists view s1, view_of tenant s view /\ zones s1 = zones s /\ creation fqdn view s1 r s') \/
     (zones s' = zones s /\ exists e, r = Raise e)) /\
  (infoblox_delete_zone conn (fqdn ++ ".") s = (r, s') -> deletion fqdn s r s').
Proof.
  unfold infoblox_delete_zone, infoblox_create_zone. rewrite fqdn_of_app. split; [|apply delete_zone_auth_spec].
  unfold bind. destruct (get_dns_view conn tenant s) as [[view|e] s1] eqn:Ev; intros E;
    pose proof (keeps_view _ _ _ _ Ev) as Hz.
  - left. exists view, s1. split_and!; [by eapply get_dns_view_spec|done|by apply create_zone_auth_spec].
  - injection E as <- <-. right. split; [done|by exists e].
Qed.
End Backend.

(** ** An example: a server with a view for each tenant *)
Definition ib_conn : ib_options :=
  {| wapi_url := PStr "https://ib/wapi/v1.1/"; username := PStr "u"; password := PStr "p"; ns_group := PStr "g";
     sslverify := PBool true; network_view := PStr "net"; dns_view := PStr "dns"; multi_tenant := PBool true |}.
Abbreviation ib_url_of := (object_url ib_conn).
Definition is_creation (q : ib_request) : option payload_of :=
  if (ib_verb q =? "POST") && (ib_url q =? ib_url_of "zone_auth") then
    match ib_payload q with PDict p => Some p | _ => None end
  else None.
Definition apply_request (st : nat * list wobj) (q : ib_request) : nat * list wobj :=
  let '(n, l) := st in
  match is_creation q with
  | Some p => (S n, app l [{| o_ref := "zone_auth/" ++ str_of_Z (Z.of_nat n); o_fields := p |}])
  | None => (n, if ib_verb q =? "DELETE" then List.filter (fun o => negb (ib_url_of (o_ref o) =? ib_url q)) l else l)
  end.
Definition ib_zones (log : list ib_request) : list wobj := (foldl apply_request (O, []) log).2.
Definition ib_server : Wapi := fun log =>
  match last log with
  | Some q =>
      if ib_verb q =? "GET" then
        Some (200%Z, Some (if ib_url q =? ib_url_of "zone_auth"
                           then match ib_payload q with PDict p => found_by p (ib_zones log) | _ => PList [] end
                           else PList []))
      else if ib_verb q =? "POST" then Some (201%Z, Some (PStr "ref"))
      else Some (200%Z, Some (PStr "ref"))
  | None => None
  end.
Definition ib_zones_class : @Zones ib_server := ib_zones.
Lemma ib_zones_snoc log q : ib_zones (app log [q]) = (apply_request (foldl apply_request (O, []) log) q).2.
Proof. unfold ib_zones. by rewrite foldl_app. Qed.
Definition asks (verb path : string) (p : pyval) : ib_request := {| ib_verb := verb; ib_url := ib_url_of path; ib_payload := p |}.
Lemma ib_zones_get log path p : ib_zones (app log [asks "GET" path p]) = ib_zones log.
Proof. rewrite ib_zones_snoc. unfold ib_zones. by destruct (foldl _ _ log). Qed.
Lemma ib_zones_post log p : ib_zones (app log [asks "POST" "zone_auth" (PDict p)]) =
  app (ib_zones log) [{| o_ref := "zone_auth/" ++ str_of_Z (Z.of_nat (foldl apply_request (O, []) log).1); o_fields := p |}].
Proof.
  rewrite ib_zones_snoc. unfold ib_zones, apply_request at 1, is_creation, asks. cbn [ib_verb ib_url ib_payload].
  rewrite !String.eqb_refl. by destruct (foldl _ _ log).
Qed.
Lemma ib_zones_drop log ref : ib_zones (app log [asks "DELETE" ref PNone]) =
  List.filter (fun o => negb (ib_url_of (o_ref o) =? ib_url_of ref)) (ib_zones log).
Proof. rewrite ib_zones_snoc. unfold ib_zones. by destruct (foldl _ _ log). Qed.
Lemma ib_answer log verb path p : ib_server (app log [asks verb path p]) =
  if verb =? "GET" then
    Some (200%Z, Some (if ib_url_of path =? ib_url_of "zone_auth"
                       then match p with PDict p' => found_by p' (ib_zones (app log [asks verb path p])) | _ => PList [] end
                       else PList []))
  else if verb =? "POST" then Some (201%Z, Some (PStr "ref")) else Some (200%Z, Some (PStr "ref")).
Proof. unfold ib_server. by rewrite last_snoc. Qed.
Lemma sapp_eqb_l a s t : (a ++ s =? a ++ t) = (s =? t).
Proof. induction a as [|c a IH]; [done|]. cbn. by rewrite Ascii.eqb_refl. Qed.
#[local] Instance ib_laws : @ZonesLaws ib_server ib_zones_class ib_conn.
Proof.
  split.
  - intros s p. unfold zones, wapi, ib_zones_class. cbn zeta. fold (asks "GET" "zone_auth" (PDict p)).
    rewrite ib_answer, ib_zones_get, String.eqb_refl. split; [done|by left].
  - intros s p. unfold changes_by, zones, wapi, ib_zones_class. fold (asks "POST" "zone_auth" (PDict p)).
    rewrite ib_answer, ib_zones_post. left. eexists. split; [done|]. by eexists.
  - intros s ref. unfold changes_by, zones, wapi, ib_zones_class. fold (asks "DELETE" ref PNone).
    rewrite ib_answer, ib_zones_drop. left. by eexists.
  - intros s verb path query p Hv Hp. unfold zones, ib_zones_class. rewrite ib_zones_snoc. unfold ib_zones.
    destruct (foldl apply_request _ s) as [n l]. unfold apply_request, is_creation. cbn [ib_verb ib_url ib_payload].
    replace (ib_url_of path ++ query =? ib_url_of "zone_auth") with false
      by (apply list_elem_of_In in Hp as [<-|[<-|[]]]; by vm_compute).
    rewrite andb_false_r. by apply String.eqb_neq in Hv as ->.
  - intros s. unfold zones, ib_zones_class. induction s as [|q s IH] using rev_ind; [by intros o ?%elem_of_nil|].
    intros o. rewrite ib_zones_snoc. unfold ib_zones in IH.
    destruct (foldl apply_request _ s) as [n l]. unfold apply_request. destruct (is_creation q) as [p|]; cbn [snd].
    + intros [Ho|Ho%list_elem_of_singleton]%elem_of_app; [by apply IH|by subst o].
    + destruct (ib_verb q =? "DELETE"); [|apply IH].
      intros Ho%list_elem_of_In. apply filter_In in Ho as [Ho _]. by apply IH, list_elem_of_In.
Qed.
Lemma infoblox_zones_witness :
  let create t s := @infoblox_create_zone ib_server ib_conn (PStr t) ("example.org" ++ ".") s in
  let s := (create "b" (create "a" []).2).2 in
  let run := @infoblox_delete_zone ib_server ib_conn ("example.org" ++ ".") s in
  run.1 = Ok tt /\
  map (fun o => aget "view" (o_fields o)) (ib_zones s) = [Some (PStr "dns.net.a"); Some (PStr "dns.net.b")] /\
  map (fun o => aget "view" (o_fields o)) (ib_zones run.2) = [Some (PStr "dns.net.b")] /\
  @deletion ib_conn ib_server ib_zones_class "example.org" s run.1 run.2 /\
  (exists view s1, @view_of ib_conn ib_server (PStr "c") s view /\ ib_zones s1 = ib_zones s /\
     @creation ib_conn ib_server ib_zones_class "example.org" view s1 (create "c" s).1 (create "c" s).2).
Proof.
  intros create s run. split_and!; [by vm_compute|by vm_compute|by vm_compute| |].
  - apply (@infoblox_zones ib_conn ib_server ib_zones_class ib_laws (PStr "b") "example.org" s run.1 run.2). apply surjective_pairing.
  - destruct (@infoblox_zones ib_conn ib_server ib_zones_class ib_laws (PStr "c") "example.org" s (create "c" s).1 (create "c" s).2)
      as [Hc _].
    destruct (Hc (surjective_pairing _)) as [Hv|[_ [e He]]]; [exact Hv|]. exfalso. vm_compute in He. done.
Defined.
