(* ===== verification/DnsService.v ===== *)
(** * DNS over sockets (designate/service.py)

    The threads of a DNS service: those that accept TCP connections and receive UDP
    datagrams, and those that serve one connection or datagram by calling the DNS
    application. A socket is the list of what arrives on it; reading from it may
    return fewer bytes than asked for. *)
From Stdlib Require Import ZArith Lia Ascii String.
From stdpp Require Import base option numbers strings list.
From S2P Require Import Prelude PyStr Exceptions Values Objects.
Local Open Scope string_scope.
Local Open Scope list_scope.

Abbreviation bytes := (list ascii).

(** [struct.pack("!H", n)] and [struct.unpack("!H", b)]; [None] is [struct.error]. *)
Definition pack_H (n : nat) : option bytes :=
  if (N.of_nat n <? 65536)%N
  then Some [ascii_of_N (N.of_nat n / 256); ascii_of_N (N.of_nat n mod 256)] else None.
Definition unpack_H (b : bytes) : option nat :=
  match b with
  | [x; y] => Some (N.to_nat (N_of_ascii x * 256 + N_of_ascii y))
  | _ => None
  end.

(** The exceptions the handlers tell apart; [SocketErr] carries [e.args[0]]. *)
Inductive fault := Timeout | SocketErr (errno : Z) | StructError | Other (e : exc).
(** How a computation ends early: with an exception, or because the bound on the rounds
    of a loop cuts it off. *)
Inductive halt := Fault (e : fault) | Running.

(** ** The DNS application

    It is a generator: it yields responses, [None] among them, and may raise between
    them. Its state changes as the responses are asked for. *)
Section Application.
Context {W : Type}.
Inductive answers :=
| Ended
| Failed (e : fault)
| Yields (response : option bytes) (next : W -> W * answers).
Variable _dns_application : bytes -> list pyval -> W -> W * answers.
(** the keys of [errno.errorcode] *)
Variable errorcode : Z -> bool.

(** ** A connection *)

(** One arrival: some bytes, or a failure of [recv]. At the end of the list the other
    side has closed. *)
Inductive arrival := Data (b : bytes) | Fails (e : fault).
Record conn := {
  incoming : list arrival;
  outgoing : list bytes;               (* what [sendall] was given, oldest first *)
  send_faults : list (option fault);   (* what becomes of the next [sendall]s *)
  is_open : bool;
  app : W;
}.
Abbreviation C := (M halt conn).
Definition set_incoming (l : list arrival) (c : conn) : conn :=
  {| incoming := l; outgoing := outgoing c; send_faults := send_faults c; is_open := is_open c; app := app c |}.
Definition set_app (w : W) (c : conn) : conn :=
  {| incoming := incoming c; outgoing := outgoing c; send_faults := send_faults c; is_open := is_open c; app := w |}.

Definition recv (n : nat) : C bytes := fun c =>
  match incoming c with
  | [] => (Ok [], c)
  | Fails e :: rest => (Raise (Fault e), set_incoming rest c)
  | Data b :: rest =>
      if (length b <=? n)%nat then (Ok b, set_incoming rest c)
      else (Ok (take n b), set_incoming (Data (drop n b) :: rest) c)
  end.
Definition sendall (b : bytes) : C unit := fun c =>
  let done := {| incoming := incoming c; outgoing := outgoing c ++ [b]; send_faults := tail (send_faults c);
                 is_open := is_open c; app := app c |} in
  match send_faults c with
  | Some e :: rest => (Raise (Fault e), {| incoming := incoming c; outgoing := outgoing c; send_faults := rest;
                                   is_open := is_open c; app := app c |})
  | _ => (Ok tt, done)
  end.
Definition close : C unit := fun c =>
  (Ok tt, {| incoming := incoming c; outgoing := outgoing c; send_faults := send_faults c; is_open := false; app := app c |}).

Definition _TCP_RECV_MAX_SIZE : nat := N.to_nat 65535.
(** [while len(buf) < expected_length]: every round but the last adds a byte. *)
Fixpoint receive (rounds expected : nat) (buf : bytes) : C bytes :=
  if (length buf <? expected)%nat then
    match rounds with
    | O => raise Running
    | S rounds' =>
        let! data := recv (Nat.min (expected - length buf) _TCP_RECV_MAX_SIZE) in
        match data with [] => ret buf | _ => receive rounds' expected (buf ++ data) end
    end
  else ret buf.
(** [for response in self._dns_application(...)] *)
Definition send_tcp (response : bytes) : C unit :=
  match pack_H (length response) with
  | Some header => sendall (header ++ response)
  | None => raise (Fault StructError)
  end.
Fixpoint respond (send : bytes -> C unit) (a : answers) : C unit :=
  match a with
  | Ended => ret tt
  | Failed e => raise (Fault e)
  | Yields response next =>
      (match response with Some b => send b | None => ret tt end) ;;;
      (fun c => let '(w, a') := next (app c) in respond send a' (set_app w c))
  end.
Definition apply_dns (payload : bytes) (addr : list pyval) : C answers := fun c =>
  let '(w, a) := _dns_application payload addr (app c) in (Ok a, set_app w c).
(** One round of the loop: a query, and the responses to it. *)
Definition serve_query (addr : list pyval) : C unit :=
  let! header := recv 2 in
  match unpack_H header with
  | None => raise (Fault StructError)
  | Some expected_length =>
      let! query := receive expected_length expected_length [] in
      let! a := apply_dns query addr in respond send_tcp a
  end.
Fixpoint serve_queries (rounds : nat) (addr : list pyval) : C unit :=
  match rounds with
  | O => raise Running
  | S rounds' => serve_query addr ;;; serve_queries rounds' addr
  end.
(** The [except] clauses. *)
Definition logged_fault (e : halt) : option (C unit) :=
  match e with
  | Fault (Timeout | StructError | Other _) => Some (ret tt)
  | Fault (SocketErr n) => Some (if errorcode n then ret tt else raise (Fault (Other (Py PyKeyError))))
  | Running => None
  end.
(** [_dns_handle_tcp_conn]; [host, port = addr] comes before the [try]. *)
Definition _dns_handle_tcp_conn (rounds : nat) (addr : list pyval) : C unit :=
  match addr with
  | [_; _] => try_finally (try_except (serve_queries rounds addr) logged_fault) close
  | _ => raise (Fault (Other (Py PyValueError)))
  end.

(** [_dns_handle_udp_query]: [sendto] for every response; whatever fails is logged. *)
Definition _dns_handle_udp_query (addr : list pyval) (payload : bytes) : C unit :=
  try_except (let! a := apply_dns payload addr in respond sendall a)
    (fun e => match e with Running => None | Fault _ => Some (ret tt) end).
End Application.
Arguments answers : clear implicits.
Arguments conn : clear implicits.

(** ** The threads that wait for clients *)

(** What [accept] does: it returns a new client, known by a number, or fails. *)
Inductive accepting := Accepts (client : nat) (addr : list pyval) | AcceptFails (e : fault).
Record listener := {
  l_client : option nat;                     (* the local variable [client] *)
  l_dispatched : list (nat * list pyval);    (* threads started, oldest first *)
  l_closed : list nat;                       (* connections closed by this thread *)
  l_timeouts : list nat;                     (* clients that got a timeout *)
}.
Section Listening.
Variable errorcode : Z -> bool.
(** the option tcp_recv_timeout *)
Variable tcp_recv_timeout : bool.

(** [client.close()] and the log, in the handlers *)
Definition drop_client (e : fault) : M exc listener unit := fun l =>
  match l_client l with
  | None => (Raise (Py PyUnboundLocalError), l)
  | Some c =>
      (match e with SocketErr n => if errorcode n then Ok tt else Raise (Py PyKeyError) | _ => Ok tt end,
       {| l_client := Some c; l_dispatched := l_dispatched l; l_closed := l_closed l ++ [c];
          l_timeouts := l_timeouts l |})
  end.
Definition accept_one (a : accepting) : M exc listener unit :=
  match a with
  | Accepts c addr => fun l =>
      (Ok tt, {| l_client := Some c; l_dispatched := l_dispatched l ++ [(c, addr)]; l_closed := l_closed l;
                 l_timeouts := if tcp_recv_timeout then l_timeouts l ++ [c] else l_timeouts l |})
  | AcceptFails e => drop_client e
  end.
(** [_dns_handle_tcp], for as long as something happens on its socket *)
Definition _dns_handle_tcp (events : list accepting) : M exc listener unit := mfor events accept_one.

(** [_dns_handle_udp]: the datagrams handed to threads; only an unknown error number
    ends the loop. *)
Definition udp_one (received : list (bytes * list pyval)) (event : (bytes * list pyval) + fault) :
    R (list (bytes * list pyval)) :=
  match event with
  | inl d => Ok (received ++ [d])
  | inr (SocketErr n) => if errorcode n then Ok received else Raise (Py PyKeyError)
  | inr _ => Ok received
  end.
Fixpoint _dns_handle_udp (events : list ((bytes * list pyval) + fault)) (received : list (bytes * list pyval)) :
    R unit * list (bytes * list pyval) :=
  match events with
  | [] => (Ok tt, received)
  | e :: rest => match udp_one received e with
                 | Ok received' => _dns_handle_udp rest received'
                 | Raise f => (Raise f, received)
                 end
  end.
End Listening.

(** ** [_get_listen_on_addresses]

    [api] holds the options api_host and api_port of a service that has them. The
    addresses of the option listen come in the order of a Python set. *)
Record listen_config := { api : option (pyval * pyval); host : pyval; port : pyval; listen : list string }.
Definition _get_listen_on_addresses (parse_host_port : string -> R (pyval * pyval)) (order : list string -> list string)
    (conf : listen_config) (default_port : Z) : R (list (pyval * pyval)) :=
  let '(h, p) := match api conf with Some hp => hp | None => (host conf, port conf) end in
  if truthy h || negb (match p with PNone => true | _ => false end) then
    Ok [(if truthy h then h else PStr "0.0.0.0", match p with PNone => PInt default_port | _ => p end)]
  else rmap parse_host_port (order (remove_dups (listen conf))).
