(* ===== verification/DnsServiceFacts.v ===== *)
(** * Facts about DNS over sockets

    Queries come out of a TCP connection as they were put in, however the stream is cut;
    every connection ends closed; and what a failing [accept] does to the listener. *)
From Stdlib Require Import ZArith Lia Ascii String.
From stdpp Require Import base option numbers strings list.
From S2P Require Import Prelude PyStr Exceptions Values DnsService.
Local Open Scope list_scope.

(** ** The length of a message *)
Lemma pack_H_short n : (n < N.to_nat 65536)%nat -> exists x y, pack_H n = Some [x; y] /\ unpack_H [x; y] = Some n.
Proof.
  intros Hn. unfold pack_H. destruct (N.ltb_spec (N.of_nat n) 65536) as [Hl|]; [|lia].
  do 2 eexists. split; [reflexivity|]. unfold unpack_H.
  pose proof (N.mod_lt (N.of_nat n) 256 ltac:(done)). pose proof (N.Div0.div_lt_upper_bound (N.of_nat n) 256 256 ltac:(lia)).
  rewrite !N_ascii_embedding by lia. f_equal. pose proof (N.div_mod (N.of_nat n) 256 ltac:(done)). lia.
Qed.
Lemma pack_H_long n : (N.to_nat 65536 <= n)%nat -> pack_H n = None.
Proof. intros Hn. unfold pack_H. destruct (N.ltb_spec (N.of_nat n) 65536); [lia|done]. Qed.
Definition frame (b : bytes) : bytes := default [] (pack_H (length b)) ++ b.
Definition short (b : bytes) : Prop := (length b < N.to_nat 65536)%nat.

(** ** The stream *)

(** What is left of some segments after [n] bytes were read. *)
Fixpoint after (n : nat) (segs : list bytes) : list bytes :=
  match segs with
  | [] => []
  | s :: rest => if (n =? 0)%nat then segs
                 else if (length s <=? n)%nat then after (n - length s) rest else drop n s :: rest
  end.
(** Whether the two bytes before every query arrive in one segment. *)
Fixpoint prefixes_whole (queries segs : list bytes) : bool :=
  match queries with
  | [] => true
  | q :: rest => (2 <=? length (hd [] segs))%nat && prefixes_whole rest (after (2 + length q) segs)
  end.
Definition nonempty (s : bytes) : Prop := s <> [].

Lemma after_0 segs : after 0 segs = segs.
Proof. by destruct segs. Qed.
Lemma concat_after n segs : concat (after n segs) = drop n (concat segs).
Proof.
  revert n; induction segs as [|s rest IH]; intros n; cbn; [by rewrite drop_nil|].
  destruct (Nat.eqb_spec n 0) as [->|]; [done|]. rewrite drop_app.
  destruct (Nat.leb_spec (length s) n); cbn.
  - rewrite IH, (drop_ge s) by lia. done.
  - replace (n - length s) with 0 by lia. by rewrite drop_0.
Qed.
Lemma nonempty_after n segs : Forall nonempty segs -> Forall nonempty (after n segs).
Proof.
  revert n; induction segs as [|s rest IH]; intros n Hf; cbn; [done|]. inversion Hf; subst.
  destruct (n =? 0)%nat; [done|]. destruct (Nat.leb_spec (length s) n); [by apply IH|].
  constructor; [|done]. unfold nonempty. intros Hd%(f_equal length). rewrite length_drop in Hd. cbn in Hd. lia.
Qed.
Lemma after_after a b segs : after b (after a segs) = after (a + b) segs.
Proof.
  revert a b; induction segs as [|s rest IH]; intros a b; [done|]. cbn.
  destruct (Nat.eqb_spec a 0) as [->|Ha]; [done|]. replace (a + b =? 0)%nat with false by (symmetry; apply Nat.eqb_neq; lia).
  destruct (Nat.leb_spec (length s) a).
  - replace (length s <=? a + b)%nat with true by (symmetry; apply Nat.leb_le; lia). rewrite IH. f_equal. lia.
  - cbn. destruct (Nat.eqb_spec b 0) as [->|Hb].
    { rewrite Nat.add_0_r. by rewrite (proj2 (Nat.leb_gt _ _)) by lia. }
    rewrite length_drop. destruct (Nat.leb_spec (length s - a) b), (Nat.leb_spec (length s) (a + b)); try lia.
    + f_equal. lia.
    + by rewrite drop_drop.
Qed.

(** ** Reading a query *)
Section Facts.
Context {W : Type}.
Variable dns_app : bytes -> list pyval -> W -> W * answers W.
Variable errorcode : Z -> bool.
Abbreviation C := (M halt (conn W)).

Definition with_segments (segs : list bytes) (c : conn W) : conn W := set_incoming (map Data segs) c.
Lemma with_twice a b c : with_segments b (with_segments a c) = with_segments b c.
Proof. done. Qed.
Lemma recv_segments n segs c : (0 < n)%nat -> Forall nonempty segs ->
  recv n (with_segments segs c) =
  (Ok (take n (hd [] segs)), with_segments (after (Nat.min n (length (hd [] segs))) segs) c).
Proof.
  intros Hn Hf. destruct segs as [|s rest]; cbn; [by rewrite take_nil|].
  inversion Hf as [|? ? Hs _]; subst. assert (0 < length s)%nat by (destruct s; [done|cbn; lia]).
  replace (Nat.min n (length s) =? 0)%nat with false by (symmetry; apply Nat.eqb_neq; lia).
  unfold recv. cbn. destruct (Nat.leb_spec (length s) n).
  - rewrite Nat.min_r, take_ge, Nat.leb_refl, Nat.sub_diag, after_0 by lia. done.
  - rewrite Nat.min_l by lia. rewrite (proj2 (Nat.leb_gt _ _)) by lia. done.
Qed.

Lemma receive_segments rounds expected buf segs c :
  Forall nonempty segs -> (expected <= _TCP_RECV_MAX_SIZE)%nat ->
  (expected - length buf <= rounds)%nat ->
  receive rounds expected buf (with_segments segs c) =
  (Ok (buf ++ take (expected - length buf) (concat segs)), with_segments (after (expected - length buf) segs) c).
Proof.
  revert buf segs; induction rounds as [|rounds IH]; intros buf segs Hf Hmax Hr; cbn [receive];
    destruct (Nat.ltb_spec (length buf) expected) as [Hl|Hl]; try lia.
  1, 3: by replace (expected - length buf)%nat with 0%nat by lia; rewrite take_0, app_nil_r, after_0.
  unfold bind at 1. rewrite recv_segments by (done || lia). rewrite Nat.min_l by lia.
  destruct segs as [|s rest]; [by cbn; rewrite !take_nil, app_nil_r|]. cbn [hd].
  inversion Hf as [|? ? Hs Hrest]; subst. assert (Hsl : (0 < length s)%nat) by (destruct s; [done|cbn; lia]).
  destruct (take (expected - length buf) s) as [|x d] eqn:Htake.
  { apply (f_equal length) in Htake. rewrite length_take in Htake. cbn in Htake. lia. }
  assert (Hlen : length (x :: d) = Nat.min (expected - length buf) (length s)) by (rewrite <- Htake; apply length_take).
  cbv beta iota. rewrite IH by (try apply nonempty_after; rewrite ?length_app, ?Hlen; done || lia).
  rewrite length_app, Hlen, after_after, <- app_assoc. f_equal; [f_equal; f_equal|f_equal; f_equal; lia].
  rewrite concat_after. cbn [concat]. rewrite <- Htake, (take_app s). 
  destruct (Nat.le_gt_cases (expected - length buf) (length s)).
  - rewrite Nat.min_l by done. replace (expected - (length buf + (expected - length buf)))%nat with 0%nat by lia.
    rewrite take_0, app_nil_r. replace (expected - length buf - length s)%nat with 0%nat by lia. by rewrite take_0, app_nil_r.
  - rewrite Nat.min_r by lia. f_equal. rewrite drop_app_length. f_equal. lia.
Qed.

(** ** Responding *)

(** What an application says, up to its first failure or overlong response. *)
Fixpoint spoken (a : answers W) (w : W) : list bytes * W * option fault :=
  match a with
  | Ended => ([], w, None)
  | Failed e => ([], w, Some e)
  | Yields None next => let '(w', a') := next w in spoken a' w'
  | Yields (Some b) next =>
      if (N.of_nat (length b) <? 65536)%N then
        let '(w', a') := next w in
        let '(l, w'', f) := spoken a' w' in (b :: l, w'', f)
      else ([], w, Some StructError)
  end.
Fixpoint conversation (queries : list bytes) (addr : list pyval) (w : W) : list bytes * W * option fault :=
  match queries with
  | [] => ([], w, None)
  | q :: rest =>
      let '(w1, a) := dns_app q addr w in
      match spoken a w1 with
      | (l, w2, Some e) => (l, w2, Some e)
      | (l, w2, None) => let '(l', w3, f) := conversation rest addr w2 in (l ++ l', w3, f)
      end
  end.
Definition said (l : list bytes) (w : W) (c : conn W) : conn W :=
  {| incoming := incoming c; outgoing := outgoing c ++ map frame l; send_faults := []; is_open := is_open c; app := w |}.
Lemma answers_induction (Q : answers W -> Prop) :
  Q Ended -> (forall e, Q (Failed e)) ->
  (forall response next, (forall w, Q (next w).2) -> Q (Yields response next)) -> forall a, Q a.
Proof.
  intros He Hf Hy. fix IH 1. intros [|e|response next]; [done|apply Hf|].
  apply Hy. intros w. destruct (next w) as [w' a']. apply IH.
Qed.
Lemma send_tcp_run b (c : conn W) : send_faults c = [] ->
  send_tcp b c =
  if (N.of_nat (length b) <? 65536)%N then
    (Ok tt, {| incoming := incoming c; outgoing := outgoing c ++ [frame b]; send_faults := []; is_open := is_open c;
               app := DnsService.app c |})
  else (Raise (Fault StructError), c).
Proof.
  intros Hf. unfold send_tcp, frame, pack_H. destruct (N.of_nat (length b) <? 65536)%N; [|done].
  unfold sendall. by rewrite Hf.
Qed.
Lemma respond_spoken a w c : send_faults c = [] -> app c = w ->
  let '(l, w', f) := spoken a w in
  respond send_tcp a c = (match f with None => Ok tt | Some e => Raise (Fault e) end, said l w' c).
Proof.
  revert w c. induction a as [|e|response next IH] using answers_induction; intros w c Hf Hw.
  1, 2: cbn; unfold said; subst w; destruct c; cbn in *; subst; by rewrite app_nil_r.
  cbn [spoken respond]. specialize (IH w). unfold bind at 1. destruct response as [b|].
  - rewrite (send_tcp_run b c Hf). destruct (N.of_nat (length b) <? 65536)%N.
    + cbn -[respond spoken]. rewrite Hw.
      destruct (next w) as [w1 a1]. cbn in IH.
      match goal with |- context [respond send_tcp a1 ?c1] => specialize (IH w1 c1 eq_refl eq_refl) end.
      destruct (spoken a1 w1) as [[l w2] f]. rewrite IH. f_equal. unfold said. cbn.
      by rewrite <- app_assoc.
    + cbn. unfold said. cbn. destruct c; cbn in *; subst. by rewrite app_nil_r.
  - cbn. rewrite Hw. destruct (next w) as [w1 a1]. specialize (IH w1 (set_app w1 c) Hf eq_refl).
    cbn in IH. destruct (spoken a1 w1) as [[l w2] f]. by rewrite IH.
Qed.

(** A query that arrives is handed to the application whole, and answered. *)
Lemma serve_query_run q addr segs c :
  short q -> Forall nonempty segs -> (2 <= length (hd [] segs))%nat -> take (2 + length q) (concat segs) = frame q ->
  send_faults c = [] ->
  let '(w1, a) := dns_app q addr (DnsService.app c) in
  let '(l, w2, f) := spoken a w1 in
  serve_query dns_app addr (with_segments segs c) =
  (match f with None => Ok tt | Some e => Raise (Fault e) end,
   with_segments (after (2 + length q) segs) (said l w2 c)).
Proof.
  intros Hq Hf Htwo Hframe Hsend. destruct (pack_H_short (length q) Hq) as (x & y & Hpack & Hunpack).
  unfold frame in Hframe. rewrite Hpack in Hframe. cbn [default] in Hframe.
  destruct segs as [|[|x' [|y' s]] rest]; cbn [hd length] in Htwo; try lia.
  injection Hframe as -> -> Hbody. unfold serve_query. unfold bind at 1. rewrite recv_segments by (done || lia).
  cbn [hd]. replace (take 2 (x :: y :: s)) with [x; y] by done. cbv beta iota. rewrite Hunpack. unfold bind at 1.
  rewrite receive_segments; [|by apply nonempty_after|unfold _TCP_RECV_MAX_SIZE, short in *; lia|cbn; lia].
  cbn [length app]. rewrite Nat.sub_0_r, concat_after, after_after.
  replace (Nat.min 2 (S (S (length s)))) with 2%nat by lia.
  change (drop 2 (concat ((x :: y :: s) :: rest))) with (s ++ concat rest). rewrite Hbody, app_nil_l.
  unfold bind at 1, apply_dns. cbn [DnsService.app with_segments set_incoming].
  destruct (dns_app q addr (DnsService.app c)) as [w1 a].
  pose proof (respond_spoken a w1 (set_app w1 (with_segments (after (2 + length q) ((x :: y :: s) :: rest)) c)) Hsend eq_refl) as Hr.
  destruct (spoken a w1) as [[l w2] f]. exact Hr.
Qed.

(** The stream of some queries. *)
Definition carries (queries segs : list bytes) : Prop :=
  Forall short queries /\ Forall nonempty segs /\ concat segs = concat (map frame queries) /\
  prefixes_whole queries segs = true.
Lemma length_frame q : short q -> length (frame q) = (2 + length q)%nat.
Proof. intros Hq. destruct (pack_H_short _ Hq) as (x & y & Hp & _). unfold frame. by rewrite Hp. Qed.
Lemma carries_next q queries segs : carries (q :: queries) segs ->
  short q /\ Forall nonempty segs /\ (2 <= length (hd [] segs))%nat /\
  take (2 + length q) (concat segs) = frame q /\ carries queries (after (2 + length q) segs).
Proof.
  intros (Hq & Hf & Hc & Hp). inversion Hq as [|? ? Hq1 Hq2]; subst. cbn [prefixes_whole] in Hp.
  apply andb_prop in Hp as [Htwo%Nat.leb_le Hp]. cbn [map concat] in Hc. split_and!; try done.
  - rewrite Hc, <- (length_frame q Hq1). apply take_app_length.
  - split_and!; [done|by apply nonempty_after| |done].
    rewrite concat_after, Hc, <- (length_frame q Hq1). apply drop_app_length.
Qed.
Lemma said_twice l1 w1 l2 w2 c : said l2 w2 (said l1 w1 c) = said (l1 ++ l2) w2 c.
Proof. unfold said. cbn. by rewrite map_app, app_assoc. Qed.

(** After the last query the client has closed, which reads as an invalid packet. *)
Lemma serve_queries_run queries addr segs c rounds :
  carries queries segs -> send_faults c = [] -> (length queries < rounds)%nat ->
  let '(l, w, f) := conversation queries addr (DnsService.app c) in
  exists rest, serve_queries dns_app rounds addr (with_segments segs c) =
    (Raise (Fault (default StructError f)), with_segments rest (said l w c)).
Proof.
  revert segs c rounds; induction queries as [|q queries IH]; intros segs c rounds Hc Hs Hr;
    (destruct rounds as [|rounds]; [cbn in Hr; lia|]); cbn [conversation serve_queries].
  - destruct Hc as (_ & Hf & Hc & _). exists []. destruct segs as [|s segs].
    + cbn. unfold with_segments, said, set_incoming. cbn. by rewrite app_nil_r, Hs.
    + inversion Hf; subst. cbn in Hc. by apply app_nil in Hc as [? _].
  - destruct (carries_next _ _ _ Hc) as (Hq & Hf & Htwo & Htake & Hnext).
    pose proof (serve_query_run q addr segs c Hq Hf Htwo Htake Hs) as Hrun.
    destruct (dns_app q addr (DnsService.app c)) as [w1 a]. destruct (spoken a w1) as [[l w2] f].
    unfold bind at 1. rewrite Hrun. destruct f as [e|]; [by eexists|].
    specialize (IH _ (said l w2 c) rounds Hnext eq_refl ltac:(cbn in Hr; lia)).
    change (DnsService.app (said l w2 c)) with w2 in IH.
    destruct (conversation queries addr w2) as [[l' w3] f']. destruct IH as [rest IH]. exists rest.
    by rewrite IH, said_twice.
Qed.

(** C31: Every query that a client pipelines through a connection is answered, in order.
    However the network cuts the stream, as long as the two bytes before a query stay
    together: the application is given exactly the queries the client framed, one after
    the other, and the client receives the frames of exactly its responses, until the
    application fails or its response is too long for a frame. The connection is then
    closed, and nothing is raised but for a socket error with an unknown number. *)
Theorem tcp_queries_answered queries h p segs c rounds :
  carries queries segs -> send_faults c = [] -> (length queries < rounds)%nat ->
  let '(l, w, f) := conversation queries [h; p] (DnsService.app c) in
  let '(r, c') := _dns_handle_tcp_conn dns_app errorcode rounds [h; p] (with_segments segs c) in
  outgoing c' = outgoing c ++ map frame l /\ DnsService.app c' = w /\ is_open c' = false /\
  r = match f with
      | Some (SocketErr n) => if errorcode n then Ok tt else Raise (Fault (Other (Py PyKeyError)))
      | _ => Ok tt
      end.
Proof.
  intros Hc Hs Hr. pose proof (serve_queries_run queries [h; p] segs c rounds Hc Hs Hr) as Hrun.
  destruct (conversation _ _ _) as [[l w] f]. destruct Hrun as [rest Hrun].
  unfold _dns_handle_tcp_conn, try_finally, try_except. rewrite Hrun.
  destruct f as [[|n| |e]|]; cbn; try done. by destruct (errorcode n).
Qed.

(** ** Every connection ends *)

(** A bound on how often a socket can be read. *)
Definition arrival_size (a : arrival) : nat := match a with Data b => S (length b) | Fails _ => 1 end.
Definition size (l : list arrival) : nat := sum_list_with arrival_size l.
Definition not_cut {A} (r : res halt A) : Prop := r <> Raise Running.

Lemma recv_size n (c : conn W) :
  let '(r, c') := recv n c in
  not_cut r /\ (size (incoming c') + match r with Ok b => length b | Raise _ => 0 end <= size (incoming c))%nat.
Proof.
  unfold recv, size, not_cut. destruct (incoming c) as [|[b|e] rest] eqn:Hi; cbn; [by rewrite Hi|..|by split; [|lia]].
  destruct (Nat.leb_spec (length b) n); cbn; split; try done; [lia|]. rewrite length_take, length_drop. lia.
Qed.
Lemma receive_size rounds expected buf (c : conn W) : (expected - length buf <= rounds)%nat ->
  let '(r, c') := receive rounds expected buf c in not_cut r /\ (size (incoming c') <= size (incoming c))%nat.
Proof.
  revert buf c; induction rounds as [|rounds IH]; intros buf c Hr; cbn [receive];
    destruct (Nat.ltb_spec (length buf) expected); try lia; try done.
  unfold bind. pose proof (recv_size (Nat.min (expected - length buf) _TCP_RECV_MAX_SIZE) c) as Hrecv.
  destruct (recv _ c) as [[[|x d]|e] c1]; cbn in Hrecv; [by split; [|lia]| |split; [|lia]].
  - specialize (IH (buf ++ x :: d) c1). destruct (receive _ _ _ _) as [r c2].
    rewrite length_app in IH. cbn in IH. destruct IH as [? ?]; [lia|]. split; [done|lia].
  - destruct Hrecv as [Hn _]. unfold not_cut in *. intros [= ->]. done.
Qed.
Lemma respond_incoming a (c : conn W) :
  let '(r, c') := respond send_tcp a c in not_cut r /\ incoming c' = incoming c.
Proof.
  revert c; induction a as [|e|response next IH] using answers_induction; intros c; [done|done|].
  cbn [respond]. specialize (IH (DnsService.app c)). unfold bind.
  assert (Hsend : let '(r, c') := (match response with Some b => send_tcp b | None => ret tt end) c in
                  not_cut r /\ incoming c' = incoming c /\ DnsService.app c' = DnsService.app c).
  { destruct response as [b|]; [|done]. unfold send_tcp. destruct (pack_H _); [|done].
    unfold sendall. by destruct (send_faults c) as [|[e|] fs]. }
  destruct (_ c) as [[[]|e] c1]; destruct Hsend as (Hn & Hi & Ha); [|by split; [intros [= ->]|]].
  rewrite Ha. destruct (next (DnsService.app c)) as [w1 a1]. cbn in IH. specialize (IH (set_app w1 c1)).
  destruct (respond _ _ _) as [r c2]. by rewrite <- Hi.
Qed.
Lemma serve_query_size addr (c : conn W) :
  let '(r, c') := serve_query dns_app addr c in
  not_cut r /\ (r = Ok tt -> size (incoming c') < size (incoming c))%nat.
Proof.
  unfold serve_query. unfold bind at 1. pose proof (recv_size 2 c) as Hrecv.
  destruct (recv 2 c) as [[header|e] c1]; [|by destruct Hrecv as [Hn _]; split; [intros [= ->]|]].
  destruct (unpack_H header) as [expected|] eqn:Hu; [|by split].
  assert (length header = 2%nat) by (by destruct header as [|? [|? [|]]]).
  unfold bind at 1. pose proof (receive_size expected expected [] c1) as Hreceive.
  destruct (receive _ _ _ c1) as [[query|e] c2]; cbn in Hreceive, Hrecv.
  2:{ destruct Hreceive as [Hn _]; [lia|]. split; [by intros [= ->]|done]. }
  destruct Hreceive as [_ Hsize]; [lia|]. unfold bind, apply_dns. destruct (dns_app query addr (DnsService.app c2)) as [w1 a].
  pose proof (respond_incoming a (set_app w1 c2)) as Hresp. destruct (respond _ _ _) as [r c3].
  destruct Hresp as [Hn Hi]. destruct Hrecv as [_ Hrecv]; split; [done|]. intros _. rewrite Hi. change (size (incoming c2) < size (incoming c))%nat. lia.
Qed.
Lemma serve_queries_ends rounds addr (c : conn W) : (size (incoming c) < rounds)%nat ->
  exists e c', serve_queries dns_app rounds addr c = (Raise (Fault e), c').
Proof.
  revert c; induction rounds as [|rounds IH]; intros c Hr; [lia|]. cbn [serve_queries]. unfold bind.
  pose proof (serve_query_size addr c) as Hq. destruct (serve_query _ _ c) as [[[]|[e|]] c1].
  - apply IH. destruct Hq as [_ Hq]. specialize (Hq eq_refl). lia.
  - by do 2 eexists.
  - by destruct Hq as [Hn _].
Qed.

(** C32: Whatever a client sends, however reading and writing fail, and whatever the
    application does, the thread of a connection ends, and leaves the connection closed;
    it raises nothing but the error of looking up an unknown error number. That holds for
    addresses of two parts: for any other, as the four of IPv6, the thread raises before
    it reads anything, and the connection stays open. *)
Theorem connection_ends addr (c : conn W) rounds : (size (incoming c) < rounds)%nat ->
  let '(r, c') := _dns_handle_tcp_conn dns_app errorcode rounds addr c in
  if bool_decide (length addr = 2%nat)
  then is_open c' = false /\ (r = Ok tt \/ r = Raise (Fault (Other (Py PyKeyError))))
  else c' = c /\ r = Raise (Fault (Other (Py PyValueError))).
Proof.
  intros Hr. unfold _dns_handle_tcp_conn. destruct addr as [|h [|p [|x addr]]]; try done. cbn [length].
  destruct (serve_queries_ends rounds [h; p] c Hr) as (e & c' & Hrun).
  rewrite bool_decide_eq_true_2 by done. unfold try_finally, try_except. rewrite Hrun.
  destruct e as [|n| |e]; cbn; try (by split; [|left]). destruct (errorcode n); split; auto.
Qed.
(** The two bytes before a query are read at once: if only the first has arrived, the
    connection is closed as if the packet were invalid. *)
Lemma split_prefix_lost x segs h p c rounds : send_faults c = [] ->
  _dns_handle_tcp_conn dns_app errorcode (S rounds) [h; p] (with_segments ([x] :: segs) c) =
  (Ok tt, snd (close (with_segments segs c))).
Proof. done. Qed.
End Facts.

(** ** Waiting for clients *)

(** The connections that failures of [accept] close, after a client came. *)
Fixpoint victims (client : nat) (events : list accepting) : list nat :=
  match events with
  | [] => []
  | Accepts c _ :: rest => victims c rest
  | AcceptFails _ :: rest => client :: victims client rest
  end.
Definition clients (events : list accepting) : list (nat * list pyval) :=
  omap (fun e => match e with Accepts c a => Some (c, a) | AcceptFails _ => None end) events.
Definition waiting : listener := {| l_client := None; l_dispatched := []; l_closed := []; l_timeouts := [] |}.
Definition known (errorcode : Z -> bool) (e : accepting) : Prop :=
  match e with AcceptFails (SocketErr n) => errorcode n = true | _ => True end.

Lemma listener_run errorcode timeout events l client :
  l_client l = Some client -> Forall (known errorcode) events ->
  exists last timeouts, _dns_handle_tcp errorcode timeout events l =
    (Ok tt, {| l_client := Some last; l_dispatched := l_dispatched l ++ clients events;
               l_closed := l_closed l ++ victims client events; l_timeouts := timeouts |}).
Proof.
  unfold _dns_handle_tcp. revert l client; induction events as [|e events IH]; intros l client Hl Hf.
  { exists client, (l_timeouts l). cbn. rewrite !app_nil_r. destruct l; cbn in *; by subst. }
  inversion Hf as [|? ? Hk Hf']; subst. cbn [mfor]. unfold bind at 1. destruct e as [c addr|e].
  - cbn [accept_one]. match goal with |- context [mfor events _ ?l1] => destruct (IH l1 c eq_refl Hf') as (last & t & ->) end.
    exists last, t. cbn. by rewrite <- app_assoc.
  - cbn [accept_one]. unfold drop_client. rewrite Hl.
    assert (He : (match e with SocketErr n => if errorcode n then Ok tt else Raise (Py PyKeyError) | _ => Ok tt end : R unit) = Ok tt).
    { destruct e; try done. cbn in Hk. by rewrite Hk. }
    rewrite He. match goal with |- context [mfor events _ ?l1] => destruct (IH l1 client eq_refl Hf') as (last & t & ->) end.
    exists last, t. cbn. by rewrite <- app_assoc.
Qed.

(** What failures of [accept] do to a listener. One that comes before the first client
    ends the thread, which serves nobody from then on. Later ones it survives, if their
    numbers are known, and every client gets its thread, in order; but each closes the
    connection of the client accepted last, which its own thread may be serving. *)
Theorem accept_failures errorcode timeout events :
  match events with
  | [] => True
  | AcceptFails _ :: _ => _dns_handle_tcp errorcode timeout events waiting = (Raise (Py PyUnboundLocalError), waiting)
  | Accepts client _ :: rest =>
      Forall (known errorcode) rest ->
      let '(r, l) := _dns_handle_tcp errorcode timeout events waiting in
      r = Ok tt /\ l_dispatched l = clients events /\ l_closed l = victims client rest
  end.
Proof.
  destruct events as [|[client addr|e] rest]; [done| |done]. intros Hf.
  unfold _dns_handle_tcp. cbn [mfor accept_one]. unfold bind at 1.
  match goal with |- context [mfor rest _ ?l1] =>
    destruct (listener_run errorcode timeout rest l1 client eq_refl Hf) as (last & t & Hrun) end.
  unfold _dns_handle_tcp in Hrun. by rewrite Hrun.
Qed.

(** ** Examples *)

(** An application that echoes what it is sent, and counts. *)
Definition echo (payload : bytes) (addr : list pyval) (n : nat) : nat * answers nat :=
  (S n, Yields (Some payload) (fun n => (n, Ended))).
Definition demo_conn : conn nat := {| incoming := []; outgoing := []; send_faults := []; is_open := true; app := 0 |}.
Definition demo_addr : list pyval := [PStr "192.0.2.7"; PInt 40000].
Definition demo_queries : list bytes := [["a"; "b"; "c"]%char; ["d"]%char].
Definition demo_segments : list bytes :=
  [[Ascii.zero; ascii_of_nat 3]; ["a"]%char; ["b"; "c"]%char ++ [Ascii.zero; ascii_of_nat 1]; ["d"]%char].
Lemma tcp_queries_answered_witness :
  let '(r, c') := _dns_handle_tcp_conn echo (fun _ => true) 3 demo_addr (with_segments demo_segments demo_conn) in
  r = Ok tt /\ outgoing c' = map frame demo_queries /\ is_open c' = false.
Proof.
  pose proof (tcp_queries_answered echo (fun _ => true) demo_queries (PStr "192.0.2.7") (PInt 40000)
    demo_segments demo_conn 3) as Ha. unfold demo_addr.
  assert (Hc : carries demo_queries demo_segments).
  { split_and!; [|by repeat constructor|done|done]. apply Forall_cons; split; [|apply Forall_singleton]; unfold short; cbn [length]; lia. }
  specialize (Ha Hc eq_refl ltac:(cbn; lia)).
  assert (Hconv : conversation echo demo_queries [PStr "192.0.2.7"; PInt 40000] (DnsService.app demo_conn) = (demo_queries, 2%nat, None))
    by (vm_compute; reflexivity).
  rewrite Hconv in Ha. revert Ha. generalize (_dns_handle_tcp_conn echo (fun _ => true) 3 [PStr "192.0.2.7"; PInt 40000]
    (with_segments demo_segments demo_conn)). intros [r c'] (Ho & _ & Hcl & Hr). exact (conj Hr (conj Ho Hcl)).
Defined.
Lemma connection_ends_witness :
  let '(r, c') := _dns_handle_tcp_conn echo (fun _ => true) 2 demo_addr (set_incoming [Fails Timeout] demo_conn) in
  is_open c' = false /\ (r = Ok tt \/ r = Raise (Fault (Other (Py PyKeyError)))).
Proof. apply (connection_ends echo (fun _ => true) demo_addr (set_incoming [Fails Timeout] demo_conn) 2). cbn. lia. Defined.
Lemma accept_failures_witness :
  let events := [Accepts 1 demo_addr; AcceptFails Timeout; Accepts 2 demo_addr] in
  let '(r, l) := _dns_handle_tcp (fun _ => true) false events waiting in
  r = Ok tt /\ l_dispatched l = clients events /\ l_closed l = [1%nat].
Proof.
  apply (accept_failures (fun _ => true) false [Accepts 1 demo_addr; AcceptFails Timeout; Accepts 2 demo_addr]).
  by repeat constructor.
Defined.
