(* ===== verification/Coordination.v ===== *)
(** * Coordination (designate/coordination.py) and the periodic tasks of the
      producer (designate/producer/service.py, tasks.py)

    How the members of a group share out the shards of the zones, how one of them
    becomes the leader, and how a periodic task goes through its shards page by
    page. The coordination backend (tooz) is outside the source: its answers are
    the parameter of [_get_members]. *)
From Stdlib Require Import ZArith Lia String Sorting.Sorted.
From stdpp Require Import base option numbers strings sets list sorting.
From S2P Require Import Prelude PyStr PyNum Exceptions Values Objects Classes World Sql Worker.
Local Open Scope string_scope.

(** ** Partitions *)

(** [math.ceil] of a float. *)
Definition ceil (x : Z * Z) : Z := (- ((- x.1) / x.2))%Z.

(** [l.index(x)] *)
Fixpoint index_of (x : string) (l : list string) : R nat :=
  match l with
  | [] => Raise (Py PyValueError)
  | y :: l' => if String.eqb x y then Ok 0%nat else let? i := index_of x l' in Ok (S i)
  end.

(** [l[start:stop]] for positions that are not negative. *)
Definition slice {A} (start stop : nat) (l : list A) : list A := take (stop - start) (drop start l).

(** [_partition]; dividing by the size of an empty group fails. *)
Definition partition_size (member_count partition_count : nat) : Z :=
  ceil (float_div (float_of_Z (Z.of_nat partition_count)) (float_of_Z (Z.of_nat member_count))).
Definition _partition {A} (members : list string) (me : string) (partitions : list A) : R (list A) :=
  match members with
  | [] => Raise (Py PyZeroDivision)
  | _ =>
      let size := Z.to_nat (partition_size (length members) (length partitions)) in
      let? my_index := index_of me members in
      let my_start := (size * my_index)%nat in
      Ok (slice my_start (my_start + size) partitions)
  end.

(** ** The partitioner *)
Section Partitioner.
(** The answers of the backend, by the number of the question. *)
Variable get_members : nat -> R (list string).

(** A callback that was run: its name, and what it was told. *)
Record called := { c_callback : string; c_partitions : list Z; c_members : option (list string) }.
Record partitioner := {
  p_coordinated : bool;                 (* there is a coordinator *)
  p_id : string;                        (* [_my_id] *)
  p_all : list Z;                       (* [_partitions] *)
  p_mine : option (list Z);             (* [_my_partitions] *)
  p_started : bool;
  p_callbacks : list string;
  p_questions : nat;                    (* how often the backend was asked *)
  p_calls : list called;                (* oldest first *)
}.
Abbreviation PM := (P partitioner).
Definition with_mine (m : list Z) (p : partitioner) : partitioner :=
  {| p_coordinated := p_coordinated p; p_id := p_id p; p_all := p_all p; p_mine := Some m;
     p_started := p_started p; p_callbacks := p_callbacks p; p_questions := p_questions p;
     p_calls := p_calls p |}.
Definition with_started (p : partitioner) : partitioner :=
  {| p_coordinated := p_coordinated p; p_id := p_id p; p_all := p_all p; p_mine := p_mine p;
     p_started := true; p_callbacks := p_callbacks p; p_questions := p_questions p;
     p_calls := p_calls p |}.
Definition with_callbacks (l : list string) (p : partitioner) : partitioner :=
  {| p_coordinated := p_coordinated p; p_id := p_id p; p_all := p_all p; p_mine := p_mine p;
     p_started := p_started p; p_callbacks := l; p_questions := p_questions p; p_calls := p_calls p |}.
Definition asked_again (p : partitioner) : partitioner :=
  {| p_coordinated := p_coordinated p; p_id := p_id p; p_all := p_all p; p_mine := p_mine p;
     p_started := p_started p; p_callbacks := p_callbacks p; p_questions := S (p_questions p);
     p_calls := p_calls p |}.
Definition with_call (c : called) (p : partitioner) : partitioner :=
  {| p_coordinated := p_coordinated p; p_id := p_id p; p_all := p_all p; p_mine := p_mine p;
     p_started := p_started p; p_callbacks := p_callbacks p; p_questions := p_questions p;
     p_calls := app (p_calls p) [c] |}.

(** [_get_members]: at most five attempts, on errors of the backend only. *)
Definition _retry_if_tooz_error (e : exc) : bool :=
  bool_decide (e = Py ToozError) || bool_decide (e = Py GroupNotCreated).
Fixpoint attempts (n : nat) : PM (list string) := fun p =>
  let answer := get_members (p_questions p) in
  let p := asked_again p in
  match answer, n with
  | Ok members, _ => (Ok members, p)
  | Raise e, S n' => if _retry_if_tooz_error e then attempts n' p else (Raise e, p)
  | Raise e, O => (Raise e, p)
  end.
Definition _get_members : PM (list string) := attempts 4.

Definition _update_partitions : PM (list string * list Z) :=
  let! l := _get_members in
  let members := sort_names l in
  let! p := get in
  let! mine := lift (_partition members (p_id p) (p_all p)) in
  ret (members, mine).
(** [cb(partitions, members, event)] *)
Definition run_callback (members : option (list string)) (cb : string) : PM unit :=
  let! p := get in
  modify (with_call {| c_callback := cb; c_partitions := default [] (p_mine p); c_members := members |}).
Definition _run_callbacks (members : option (list string)) : PM unit :=
  let! p := get in mfor (p_callbacks p) (run_callback members).
Definition _on_group_change : PM unit :=
  let! ' (members, mine) := _update_partitions in
  modify (with_mine mine) ;;; _run_callbacks (Some members).
Definition start : PM unit :=
  let! p := get in
  (if p_coordinated p then
     let! ' (_, mine) := _update_partitions in modify (with_mine mine)
   else modify (with_mine (p_all p)) ;;; _run_callbacks None) ;;;
  modify with_started.
Definition watch_partition_change (callback : string) : PM unit :=
  let! p := get in
  modify (with_callbacks (app (p_callbacks p) [callback])) ;;;
  when (p_started p) (run_callback None callback).
End Partitioner.

(** ** Leader election *)
Record election := {
  e_coordinated : bool;
  e_started : bool;
  e_leader : bool;
  e_watching : bool;               (* the coordinator will tell of an election *)
  e_callbacks : list string;
  e_told : list string;            (* the callbacks run, oldest first *)
}.
Definition election_init (coordinated : bool) : election :=
  {| e_coordinated := coordinated; e_started := false; e_leader := false; e_watching := false;
     e_callbacks := []; e_told := [] |}.

(** [start] *)
Definition election_start (e : election) : election :=
  if e_coordinated e then
    {| e_coordinated := true; e_started := true; e_leader := e_leader e; e_watching := true;
       e_callbacks := e_callbacks e; e_told := e_told e |}
  else
    {| e_coordinated := false; e_started := true; e_leader := true; e_watching := e_watching e;
       e_callbacks := e_callbacks e; e_told := app (e_told e) (e_callbacks e) |}.
(** [stop] *)
Definition election_stop (e : election) : election :=
  {| e_coordinated := e_coordinated e; e_started := false; e_leader := false;
     e_watching := if e_coordinated e then false else e_watching e;
     e_callbacks := e_callbacks e; e_told := e_told e |}.
Definition _on_elected_leader (e : election) : election :=
  {| e_coordinated := e_coordinated e; e_started := e_started e; e_leader := true;
     e_watching := e_watching e; e_callbacks := e_callbacks e;
     e_told := app (e_told e) (e_callbacks e) |}.
Definition watch_elected_as_leader (cb : string) (e : election) : election :=
  {| e_coordinated := e_coordinated e; e_started := e_started e; e_leader := e_leader e;
     e_watching := e_watching e; e_callbacks := app (e_callbacks e) [cb];
     e_told := if e_started e && (e_leader e || negb (e_coordinated e))
               then app (e_told e) [cb] else e_told e |}.
(** [list.remove]: the first occurrence. *)
Fixpoint remove_first (x : string) (l : list string) : option (list string) :=
  match l with
  | [] => None
  | y :: l' => if String.eqb x y then Some l' else option_map (cons y) (remove_first x l')
  end.
Definition unwatch_elected_as_leader (cb : string) (e : election) : R election :=
  match remove_first cb (e_callbacks e) with
  | Some l => Ok {| e_coordinated := e_coordinated e; e_started := e_started e; e_leader := e_leader e;
                    e_watching := e_watching e; e_callbacks := l; e_told := e_told e |}
  | None => Raise (Py PyValueError)
  end.

(** What can happen to an election: the calls of the service, and the election by
    the coordinator, which only reaches those that watch. *)
Inductive election_step : election -> election -> Prop :=
| step_start e : e_started e = false -> election_step e (election_start e)
| step_stop e : e_started e = true -> election_step e (election_stop e)
| step_elected e : e_watching e = true -> election_step e (_on_elected_leader e)
| step_watch e cb : election_step e (watch_elected_as_leader cb e)
| step_unwatch e cb e' : unwatch_elected_as_leader cb e = Ok e' -> election_step e e'.
Inductive election_reach (e : election) : election -> Prop :=
| reach_refl : election_reach e e
| reach_step e1 e2 : election_reach e e1 -> election_step e1 e2 -> election_reach e e2.

(** ** The producer *)

(** The partitions the service shares out: [range(0, 4095)]. *)
Definition shards : list Z := map Z.of_nat (seq 0 4095).

Section Producer.
Context `{Env} `{Services}.

(** [_my_range]; [None] is a task that has not been told its partitions. *)
Definition _my_range (my_partitions : option (list Z)) : R (Z * Z) :=
  match my_partitions with
  | None => Raise (Py PyTypeError)
  | Some [] => Raise (Py PyIndexError)
  | Some (x :: l) => Ok (x, List.last (x :: l) x)
  end.
(** [_filter_between] *)
Definition _filter_between (col : string) (my_partitions : option (list Z)) : R (list (string * pyval)) :=
  let? '(lo, hi) := _my_range my_partitions in
  Ok [(col, PStr ("BETWEEN " ++ str_of_Z lo ++ "," ++ str_of_Z hi))].

(** [_iter]: the items of one page after another, until a page is empty, each
    given to the body of the loop before the next page is asked for; [fuel] bounds
    the pages. *)
Section Iter.
Variable page : pyval -> P world (list pyval).
Variable body : pyval -> P world unit.
Fixpoint _iter (fuel : nat) (marker : pyval) : P world unit :=
  match fuel with
  | O => raise (Py Blocked)
  | S fuel' =>
      let! items := page marker in
      match items with
      | [] => ret tt
      | _ =>
          let! marker := lift (getattr registry (List.last items PNone) "id") in
          mfor items body ;;; _iter fuel' marker
      end
  end.
End Iter.
(** [_iter_zones] *)
Definition _iter_zones (my_partitions : option (list Z)) (task : string)
    (criterion : list (string * pyval)) (body : pyval -> P world unit) (fuel : nat) : P world unit :=
  let! shard := lift (_filter_between "shard" my_partitions) in
  let criterion := app criterion shard in
  _iter (fun marker =>
           let! zones := call "central" "find_zones"
             [PDict criterion; marker; PInt (conf_int (task ++ ".per_page"))] in
           ret (list_objects zones)) body fuel PNone.

(** [PeriodicExistsTask] *)
Definition exists_events (start stop : Z) (zone : pyval) : P world unit :=
  let zone_data := match to_dict registry zone with PDict d => d | _ => [] end in
  let zone_data := PDict (app zone_data [("audit_period_beginning", PInt start); ("audit_period_ending", PInt stop)]) in
  send (Notify "dns.domain.exists" [zone_data]) ;;;
  send (Notify "dns.zone.exists" [zone_data]).
Definition PeriodicExistsTask (my_partitions : option (list Z)) (fuel : nat) : P world unit :=
  lift (_my_range my_partitions) ;;;
  let! ctx := lift (get_admin_context false) in
  let! ctx := lift (set_all_tenants true ctx) in
  let! stop := utcnow in
  let start := (stop - conf_int "producer_task:periodic_exists.interval")%Z in
  _iter_zones my_partitions "producer_task:periodic_exists" [] (exists_events start stop) fuel.

(** [PeriodicSecondaryRefreshTask]; [parse_isotime] is timeutils.parse_isotime, in
    seconds. *)
Section Refresh.
Variable parse_isotime : pyval -> R Z.
Definition refresh_zone (zone : pyval) : P world unit :=
  let! transferred_at := lift (getattr registry zone "transferred_at") in
  match transferred_at with
  | PNone => ret tt
  | _ =>
      let! now := utcnow in
      let! transferred := lift (parse_isotime transferred_at) in
      let! refresh := lift (let? v := getattr registry zone "refresh" in
                            match v with PInt n => Ok n | _ => Raise (Py PyTypeError) end) in
      when (refresh <? now - transferred)%Z
        (let! id := lift (getattr registry zone "id") in
         call "central" "xfr_zone" [id] ;;; ret tt)
  end.
Definition PeriodicSecondaryRefreshTask (my_partitions : option (list Z)) (fuel : nat) : P world unit :=
  lift (_my_range my_partitions) ;;;
  let! ctx := lift (get_admin_context false) in
  let! ctx := lift (set_all_tenants true ctx) in
  _iter_zones my_partitions "producer_task:periodic_secondary_refresh" [("type", PStr "SECONDARY")]
    refresh_zone fuel.
End Refresh.

(** [WorkerPeriodicRecovery] *)
Definition WorkerPeriodicRecovery (my_partitions : option (list Z)) : P world unit :=
  if (conf_int "service:worker.enabled" =? 0)%Z then ret tt
  else
    let! ' (pstart, pend) := lift (_my_range my_partitions) in
    let! ctx := lift (get_admin_context false) in
    let! ctx := lift (set_all_tenants true ctx) in
    call "worker" "recover_shard" [PInt pstart; PInt pend] ;;; ret tt.

(** [DeletedZonePurgeTask]; times are in seconds. *)
Definition DeletedZonePurgeTask (my_partitions : option (list Z)) : P world unit :=
  let! ' (pstart, pend) := lift (_my_range my_partitions) in
  let! now := utcnow in
  let! criterion := lift (_filter_between "shard" my_partitions) in
  let criterion := app criterion
    [("deleted", PStr "!0");
     ("deleted_at", PStr ("<=" ++ str_of_Z (now - conf_int "producer_task:zone_purge.time_threshold")))] in
  let! ctx := lift (get_admin_context false) in
  let! ctx := lift (set_all_tenants true ctx) in
  call "central" "purge_zones" [PDict criterion; PInt (conf_int "producer_task:zone_purge.batch_size")] ;;;
  ret tt.

(** [PeriodicGenerateDelayedNotifyTask]: the flag is reset after the request. *)
Definition delayed_notify (zone : pyval) : P world unit :=
  let target := if (conf_int "service:worker.enabled" =? 0)%Z then "pool_manager" else "worker" in
  call target "update_zone" [zone] ;;;
  let! zone := lift (setattr registry zone "delayed_notify" (PBool false)) in
  call "central" "update_zone" [zone] ;;; ret tt.
Definition PeriodicGenerateDelayedNotifyTask (my_partitions : option (list Z)) : P world unit :=
  lift (_my_range my_partitions) ;;;
  let! ctx := lift (get_admin_context false) in
  let! ctx := lift (set_all_tenants true ctx) in
  let! criterion := lift (_filter_between "shard" my_partitions) in
  let! zones := call "central" "find_zones"
    [PDict (app criterion [("delayed_notify", PBool true)]);
     PInt (conf_int "producer_task:delayed_notify.batch_size"); PStr "updated_at"; PStr "asc"] in
  mfor (list_objects zones) delayed_notify.
End Producer.
