(* ===== verification/CoordinationFacts.v ===== *)
(** * Theorems about coordination and the producer

    The members of a group share out all partitions, each to one of them; which
    shards of zones that covers; who is told of an election; that a periodic task
    goes through all its pages. *)
From Stdlib Require Import ZArith Lia String Sorting.Sorted.
From stdpp Require Import base option numbers strings sets list sorting.
From S2P Require Import Prelude PyStr PyNum Exceptions Values Objects Classes World Decorators Sql SqlFacts Tables Worker Coordination.
Local Open Scope string_scope.

(** ** Sharing out *)

(** The size of a share, with integers. *)
Definition share (members partitions : nat) : nat := ((partitions + members - 1) / members)%nat.

Lemma ceil_spec x t : (0 < x.2)%Z -> (ceil x <= t <-> x.1 <= t * x.2)%Z.
Proof.
  intros Hd. unfold ceil. pose proof (Z.div_mod (- x.1) x.2 ltac:(lia)).
  pose proof (Z.mod_pos_bound (- x.1) x.2 Hd). split; intros; nia.
Qed.

Lemma partition_size_exact m n :
  (0 < m)%nat -> (Z.of_nat m < 2 ^ 26)%Z -> (Z.of_nat n < 2 ^ 26)%Z ->
  Z.to_nat (partition_size m n) = share m n.
Proof.
  intros Hm Hm2 Hn2. unfold partition_size.
  assert (Hsize : forall t, (ceil (float_div (float_of_Z (Z.of_nat n)) (float_of_Z (Z.of_nat m))) <= t <->
                        Z.of_nat n <= t * Z.of_nat m)%Z).
  { intros t. pose proof (float_div_compare (Z.of_nat n) (Z.of_nat m) t ltac:(lia) ltac:(lia)) as H.
    destruct (float_div _ _) as [a e] eqn:Hf. destruct H as (He & _ & Hle).
    rewrite ceil_spec by (cbn; done). cbn. exact Hle. }
  set (c := ceil _) in *. unfold share.
  pose proof (proj1 (Hsize c) ltac:(lia)) as Hc.
  pose proof (proj2 (Hsize (Z.of_nat ((n + m - 1) / m)))) as Hge.
  pose proof (Nat.div_mod (n + m - 1) m ltac:(lia)) as Hdm.
  pose proof (Nat.mod_upper_bound (n + m - 1) m ltac:(lia)) as Hr.
  set (q := ((n + m - 1) / m)%nat) in *. clearbody q.
  assert (Hq : (c <= Z.of_nat q)%Z) by (apply Hge; nia).
  assert (Hlow : (0 <= c)%Z) by nia.
  assert (Hq2 : (Z.of_nat q <= c)%Z) by nia. lia.
Qed.

Lemma share_covers m n : (0 < m)%nat -> (n <= m * share m n)%nat.
Proof.
  intros Hm. unfold share. pose proof (Nat.div_mod (n + m - 1) m ltac:(lia)) as Hdm.
  pose proof (Nat.mod_upper_bound (n + m - 1) m ltac:(lia)) as Hr.
  set (q := ((n + m - 1) / m)%nat) in *. nia.
Qed.

Lemma index_of_lookup l i x : NoDup l -> l !! i = Some x -> index_of x l = Ok i.
Proof.
  revert i. induction l as [|y l IH]; intros i Hnd; [done|]. apply NoDup_cons in Hnd as [Hy Hnd].
  destruct i as [|i]; cbn.
  - intros [= ->]. by rewrite String.eqb_refl.
  - intros Hi. destruct (String.eqb_spec x y) as [->|].
    + exfalso. apply Hy. by eapply list_elem_of_lookup_2.
    + by rewrite (IH i).
Qed.

Lemma concat_slices {A} (l : list A) size k m :
  (length l <= (k + m) * size)%nat ->
  concat (map (fun i => slice (size * i) (size * i + size) l) (seq k m)) = drop (size * k) l.
Proof.
  revert k. induction m as [|m IH]; intros k Hl; cbn.
  - rewrite drop_ge; [done|lia].
  - rewrite IH by lia. unfold slice. replace (size * k + size - size * k)%nat with size by lia.
    replace (size * S k)%nat with (size * k + size)%nat by lia.
    by rewrite <- drop_drop, take_drop.
Qed.

(** The share of the member at one position. *)
Lemma partition_at {A} members i me (partitions : list A) :
  NoDup members -> members !! i = Some me ->
  (Z.of_nat (length members) < 2 ^ 26)%Z -> (Z.of_nat (length partitions) < 2 ^ 26)%Z ->
  let size := share (length members) (length partitions) in
  _partition members me partitions = Ok (slice (size * i) (size * i + size) partitions).
Proof.
  intros Hnd Hi Hm Hn. pose proof (lookup_lt_Some _ _ _ Hi) as Hpos.
  unfold _partition. rewrite partition_size_exact by (done || lia).
  rewrite (index_of_lookup _ _ _ Hnd Hi). by destruct members.
Qed.

(** The partitions of the members, in the order of the members. *)
Definition shares_of {A} (members : list string) (partitions : list A) : list (list A) :=
  map (fun i => slice (share (length members) (length partitions) * i)
                  (share (length members) (length partitions) * i + share (length members) (length partitions))
                  partitions) (seq 0 (length members)).

(** The members of a group share out the partitions. Every member computes its
    share on its own, from the list of members; together, in the order of the
    members, the shares are exactly the list of partitions, so that each partition
    belongs to one member and none is left over; and no share is longer than the
    number of partitions over the number of members, rounded up, although the
    code computes that size with floats. *)
Theorem partition_covers {A} (members : list string) (partitions : list A) :
  NoDup members -> members <> [] ->
  (Z.of_nat (length members) < 2 ^ 26)%Z -> (Z.of_nat (length partitions) < 2 ^ 26)%Z ->
  exists shares,
    Forall2 (fun me s => _partition members me partitions = Ok s) members shares /\
    concat shares = partitions /\
    Forall (fun s => (length s <= share (length members) (length partitions))%nat) shares.
Proof.
  intros Hnd Hne Hm Hn. exists (shares_of members partitions). unfold shares_of.
  assert (Hpos : (0 < length members)%nat) by (destruct members; cbn; [done|lia]).
  split_and!.
  - apply Forall2_same_length_lookup_2; [by rewrite length_map, length_seq|].
    intros i me s Hi Hs. rewrite list_lookup_fmap in Hs.
    apply fmap_Some in Hs as (j & [-> _]%lookup_seq & ->). cbn. by apply partition_at.
  - rewrite concat_slices; [by rewrite Nat.mul_0_r|]. rewrite Nat.add_0_l. by apply share_covers.
  - apply Forall_map, Forall_forall. intros i _. unfold slice. rewrite length_take. lia.
Qed.
Lemma partition_covers_witness :
  exists shares, Forall2 (fun me s => _partition ["a"; "b"; "c"] me (seq 0 7) = Ok s) ["a"; "b"; "c"] shares /\
                 concat shares = seq 0 7.
Proof.
  destruct (partition_covers ["a"; "b"; "c"] (seq 0 7)) as (shares & H1 & H2 & _).
  - apply (bool_decide_unpack _). by vm_compute.
  - discriminate.
  - cbn. lia.
  - cbn. lia.
  - exists shares. split; [exact H1|exact H2].
Defined.

(** ** Shards *)

Lemma shards_elem z : z ∈ shards <-> (0 <= z < 4095)%Z.
Proof.
  unfold shards. rewrite list_elem_of_fmap. setoid_rewrite elem_of_seq. split.
  - intros (n & -> & Hn). lia.
  - intros Hz. exists (Z.to_nat z). lia.
Qed.

Lemma length_shards : length shards = 4095%nat.
Proof. unfold shards. rewrite length_map. apply length_seq. Qed.

Lemma slice_shards a b : slice a b shards = map Z.of_nat (seq a (Nat.min (b - a) (4095 - a))).
Proof.
  unfold slice, shards. rewrite skipn_map, firstn_map. f_equal.
  by rewrite drop_seq, take_seq.
Qed.

Lemma last_seq a n d : (0 < n)%nat -> List.last (map Z.of_nat (seq a n)) d = Z.of_nat (a + n - 1).
Proof.
  intros Hn. destruct n as [|n]; [lia|]. rewrite seq_S, map_app. cbn [map].
  rewrite last_last. f_equal. lia.
Qed.

(** What the producer asks for: the first and the last shard of a share. *)
Definition range_of (members : list string) (me : string) : R (Z * Z) :=
  let? mine := _partition members me shards in _my_range (Some mine).
Definition covers (members : list string) (me : string) (z : Z) : Prop :=
  exists lo hi, range_of members me = Ok (lo, hi) /\ (lo <= z <= hi)%Z.

Section Group.
Variable members : list string.
Hypothesis Hnd : NoDup members.
Hypothesis Hm : (Z.of_nat (length members) < 2 ^ 26)%Z.
Local Notation size := (share (length members) 4095).

Lemma range_at i me : members !! i = Some me ->
  range_of members me =
    if (4095 <=? size * i)%nat then Raise (Py PyIndexError)
    else Ok (Z.of_nat (size * i), Z.of_nat (Nat.min (size * i + size) 4095 - 1)).
Proof.
  intros Hi. unfold range_of.
  rewrite (partition_at _ _ _ shards Hnd Hi Hm) by (rewrite length_shards; lia). rewrite length_shards.
  pose proof (share_covers (length members) 4095 ltac:(apply lookup_lt_Some in Hi; lia)) as Hc.
  set (s := size) in *. clearbody s. cbn [rbind]. rewrite slice_shards.
  destruct (Nat.leb_spec 4095 (s * i)) as [Hge|Hlt].
  - replace (Nat.min _ _) with 0%nat by lia. done.
  - replace (s * i + s - s * i)%nat with s by lia.
    unfold _my_range. destruct (Nat.min s (4095 - s * i)) as [|k] eqn:Hk; [nia|].
    cbn [seq map]. f_equal. f_equal.
    change (Z.of_nat (s * i) :: map Z.of_nat (seq (S (s * i)) k))
      with (map Z.of_nat (seq (s * i) (S k))). rewrite last_seq by lia. f_equal. lia.
Qed.

Lemma covers_at i me z : members !! i = Some me ->
  covers members me z <->
  (Z.of_nat (size * i) <= z < Z.of_nat (Nat.min (size * i + size) 4095))%Z /\ (size * i < 4095)%nat.
Proof.
  intros Hi. unfold covers. rewrite (range_at i me Hi).
  pose proof (share_covers (length members) 4095 ltac:(apply lookup_lt_Some in Hi; lia)) as Hc.
  assert (0 < size)%nat by nia. destruct (Nat.leb_spec 4095 (size * i)).
  - split; [by intros (? & ? & [=] & _)|lia].
  - split; [intros (? & ? & [= <- <-] & ?); lia|intros; do 2 eexists; split; [done|lia]].
Qed.
End Group.

(** Which zones the producer looks after. Whatever the group, each member that
    got a share asks for a range of shards, its share; the ranges of two members
    never meet; together they reach every shard from 0 to 4094. But zones are
    spread over the shards 0 to 4095: a zone in the last shard, whose identifier
    starts with fff, is in no member's range, for ever. A member of a group so
    large that it got no share fails instead of doing nothing. *)
Theorem shards_shared_out (members : list string) :
  NoDup members -> members <> [] -> (Z.of_nat (length members) < 2 ^ 26)%Z ->
  (forall z, (0 <= z < 4095)%Z -> exists me, me ∈ members /\ covers members me z) /\
  (forall me me' z, me ∈ members -> me' ∈ members -> covers members me z -> covers members me' z -> me = me') /\
  (forall me, me ∈ members -> ~ covers members me 4095%Z) /\
  (forall me, me ∈ members ->
     (exists lo hi, range_of members me = Ok (lo, hi)) \/ range_of members me = Raise (Py PyIndexError)).
Proof.
  intros Hnd Hne Hm.
  assert (Hpos : (0 < length members)%nat) by (destruct members; cbn; [done|lia]).
  pose proof (share_covers (length members) 4095 Hpos) as Hcov.
  split_and!.
  - intros z Hz. set (i := (Z.to_nat z / share (length members) 4095)%nat).
    pose proof (Nat.div_mod (Z.to_nat z) (share (length members) 4095) ltac:(nia)) as Hdm.
    pose proof (Nat.mod_upper_bound (Z.to_nat z) (share (length members) 4095) ltac:(nia)) as Hr. fold i in Hdm.
    destruct (lookup_lt_is_Some_2 members i) as [me Hi]; [nia|].
    exists me. split; [by eapply list_elem_of_lookup_2|]. rewrite (covers_at _ Hnd Hm i me z Hi). lia.
  - intros me me' z [i Hi]%list_elem_of_lookup [j Hj]%list_elem_of_lookup.
    rewrite (covers_at _ Hnd Hm i _ _ Hi), (covers_at _ Hnd Hm j _ _ Hj). intros [Hzi _] [Hzj _].
    assert (i = j) as -> by nia. rewrite Hi in Hj. by injection Hj.
  - intros me [i Hi]%list_elem_of_lookup. rewrite (covers_at _ Hnd Hm i _ _ Hi). lia.
  - intros me [i Hi]%list_elem_of_lookup. rewrite (range_at _ Hnd Hm i me Hi).
    destruct (_ <=? _)%nat; [by right|]. left. by do 2 eexists.
Qed.
Lemma shards_shared_out_witness :
  ~ covers ["a"; "b"; "c"] "c" 4095%Z /\
  range_of ["a"; "b"; "c"] "c" = Ok (2730%Z, 4094%Z).
Proof.
  split; [|vm_compute; reflexivity].
  apply (shards_shared_out ["a"; "b"; "c"]).
  - apply (bool_decide_unpack _). by vm_compute.
  - discriminate.
  - cbn. lia.
  - apply (bool_decide_unpack _). by vm_compute.
Defined.

(** ** Election *)

Lemma remove_first_subset x l l' y : remove_first x l = Some l' -> y ∈ l' -> y ∈ l.
Proof.
  revert l'. induction l as [|z l IH]; intros l'; cbn; [done|].
  destruct (String.eqb x z); [intros [= ->]; set_solver|].
  destruct (remove_first x l) as [r|]; cbn; [|done]. intros [= <-] [->|Hy]%elem_of_cons; [set_solver|].
  apply elem_of_cons. right. by apply (IH r).
Qed.

(** What holds of an election at any time. *)
Record election_inv (coordinated : bool) (e : election) : Prop := {
  inv_coordinated : e_coordinated e = coordinated;
  inv_leader : e_leader e = true -> e_started e = true;
  inv_watching : e_watching e = true -> coordinated = true /\ e_started e = true;
  inv_alone : coordinated = false -> e_leader e = e_started e;
  inv_told : e_leader e = true -> forall cb, cb ∈ e_callbacks e -> cb ∈ e_told e;
}.

Lemma election_step_inv c e e' : election_inv c e -> election_step e e' -> election_inv c e'.
Proof.
  intros [Hc Hl Hw Ha Ht] Hstep.
  destruct Hstep as [e Hs|e Hs|e Hwatch|e cb|e cb e' Hun].
  - unfold election_start. destruct (e_coordinated e) eqn:He; subst; split; cbn; try done; try set_solver.
  - unfold election_stop. split; cbn; try done. rewrite Hc. destruct c; [done|]. intros Hwt. by destruct (Hw Hwt).
  - unfold _on_elected_leader. destruct (Hw Hwatch) as [-> Hs]. split; cbn; try done; set_solver.
  - unfold watch_elected_as_leader. split; cbn; auto. intros Hle y. rewrite (Hl Hle), Hle. cbn. set_solver.
  - unfold unwatch_elected_as_leader in Hun. destruct (remove_first cb _) as [l|] eqn:Hr; [|done].
    injection Hun as <-. split; cbn; auto. intros Hle y Hy. apply Ht; [done|].
    by eapply remove_first_subset.
Qed.
Lemma election_reach_inv c e : election_reach (election_init c) e -> election_inv c e.
Proof.
  induction 1 as [|e1 e2 _ IH Hstep]; [by split|]. by eapply election_step_inv.
Qed.

(** Leader election. However starting, stopping, elections and registrations
    are interleaved, only a started service is the leader, a service without a
    coordination backend is the leader exactly while it is started, a leader has
    told every callback that is registered, also one registered later, and no step
    tells a callback of an election unless the service then is the leader. *)
Theorem leader_told coordinated e e' :
  election_reach (election_init coordinated) e -> election_step e e' ->
  (e_leader e = true -> e_started e = true) /\
  (coordinated = false -> e_leader e = e_started e) /\
  (e_leader e = true -> forall cb, cb ∈ e_callbacks e -> cb ∈ e_told e) /\
  (e_told e' <> e_told e -> e_leader e' = true).
Proof.
  intros Hreach Hstep. destruct (election_reach_inv _ _ Hreach) as [Hc Hl Hw Ha Ht].
  split_and!; try done. destruct Hstep as [e Hs|e Hs|e Hwatch|e cb|e cb e' Hun]; cbn; try done.
  - unfold election_start. by destruct (e_coordinated e).
  - destruct (e_started e) eqn:Hs; [|done]. destruct (e_leader e) eqn:Hle; [done|]. rewrite Hc.
    destruct coordinated; [done|]. by specialize (Ha eq_refl).
  - unfold unwatch_elected_as_leader in Hun. destruct (remove_first cb _); [|done].
    by injection Hun as <-.
Qed.
Lemma leader_told_witness :
  let e := _on_elected_leader (election_start (watch_elected_as_leader "a" (election_init true))) in
  e_leader e = true /\ "a" ∈ e_told e.
Proof.
  intros e. split; [reflexivity|].
  refine (proj1 (proj2 (proj2 (leader_told true e (watch_elected_as_leader "b" e) _ _))) eq_refl "a" _).
  - eapply reach_step; [eapply reach_step; [eapply reach_step; [apply reach_refl|apply step_watch]|]|].
    + apply step_start. reflexivity.
    + apply step_elected. reflexivity.
  - apply step_watch.
  - cbn. set_solver.
Defined.

(** ** Pages *)

(** A page law: the pages of a list of items, asked for by the identifier of the
    last item of the page before. *)
Section Iter.
Context (limit : nat) (page : pyval -> P world (list pyval)) (body : pyval -> P world unit).

Record pages_of (all : list pyval) : Prop := {
  page_first : forall w, page PNone w = (Ok (take limit all), w);
  page_next : forall pre item id post w, all = app pre (item :: post) ->
    getattr registry item "id" = Ok id -> page id w = (Ok (take limit post), w);
  page_ids : forall item, item ∈ all -> exists id, getattr registry item "id" = Ok id;
}.

Lemma iter_from all post : (0 < limit)%nat -> pages_of all -> forall pre marker fuel w,
  all = app pre post -> (length post < fuel)%nat -> (forall w, page marker w = (Ok (take limit post), w)) ->
  _iter page body fuel marker w = mfor post body w.
Proof.
  intros Hlim Hpages. induction post as [post IH] using (induction_ltof1 _ (@length pyval)).
  intros pre marker fuel w Hall Hf Hmarker. destruct fuel as [|fuel]; [lia|]. cbn [_iter].
  unfold bind at 1. rewrite Hmarker. destruct (take limit post) as [|x0 l0] eqn:Htake.
  { destruct post; [done|]. by destruct limit; [lia|]. }
  rewrite <- Htake. destruct (exists_last (l := take limit post)) as (l & item & Hl); [by rewrite Htake|].
  pose proof (take_drop limit post) as Hpost. rewrite Hl in Hpost.
  set (rest := drop limit post) in *.
  destruct (page_ids _ Hpages item) as [id Hid]; [rewrite Hall, <- Hpost; set_solver|].
  rewrite Hl, last_last. unfold bind at 1, lift. rewrite Hid.
  rewrite <- Hpost, mfor_app. unfold bind. destruct (mfor _ body w) as [[[]|e] w1]; [|done].
  apply (IH rest) with (pre := app pre (app l [item])).
  - unfold ltof. rewrite <- Hpost, !length_app. cbn. lia.
  - by rewrite Hall, <- Hpost, <- !app_assoc.
  - rewrite <- Hpost, !length_app in Hf. cbn in Hf. lia.
  - intros w2. apply (page_next _ Hpages (app pre l) item); [|done].
    by rewrite Hall, <- Hpost, <- !app_assoc.
Qed.

(** A periodic task reaches every item. When the pages of the service follow
    the identifier of the last item seen, the loop of a task runs its body on every
    item, once, in order, and then ends, in at most one page more than there are
    items; if the body fails on an item the rest is left, and the failure is the
    task's. *)
Theorem iter_complete all fuel w :
  (0 < limit)%nat -> pages_of all -> (length all < fuel)%nat ->
  _iter page body fuel PNone w = mfor all body w.
Proof.
  intros Hlim Hpages Hf. apply (iter_from all all) with (pre := []); try done. apply Hpages.
Qed.
End Iter.

(** A service with three items, two to a page. *)
Definition item_of (id : string) : pyval := PObj "Zone" [("id", PStr id)] [] [].
Definition three_items (marker : pyval) : P world (list pyval) :=
  ret (match marker with
       | PNone => [item_of "a"; item_of "b"]
       | PStr "b" => [item_of "c"]
       | PStr "a" => [item_of "b"; item_of "c"]
       | _ => []
       end).
Definition send_item (item : pyval) : P world unit := send (Cast "central" "seen" [item]).

Lemma iter_complete_witness :
  _iter three_items send_item 4 PNone (plain_world []) =
  mfor [item_of "a"; item_of "b"; item_of "c"] send_item (plain_world []).
Proof.
  apply (iter_complete 2).
  - lia.
  - split.
    + intros w'. reflexivity.
    + intros pre item id post w' Hall Hid.
      destruct pre as [|x [|y [|z pre]]]; cbn in Hall; simplify_eq; cbn in Hid; simplify_eq; [reflexivity..|].
      by destruct pre.
    + intros item Hin. elem_cases Hin; by eexists.
  - cbn. lia.
Defined.
