(* ===== verification/Cache.v ===== *)
(** * The status cache of the pool manager (designate/pool_manager/cache/,
      designate/common/memorycache.py)

    What the pool manager last heard about a zone from each name server. The
    interface, as the class [PoolManagerCache], its three drivers, and the laws a
    client may rely on, [CacheLaws]: a cache may forget, but never makes up or
    changes what it was told. *)
From Stdlib Require Import ZArith Lia Ascii String.
From stdpp Require Import base option numbers strings sets list gmap.
From S2P Require Import Prelude PyStr Exceptions Values Objects Classes World Sql.
Local Open Scope string_scope.

(** [objects.PoolManagerStatus]; [None] is the missing status. *)
Record pm_status := {
  pm_id : option string;
  nameserver_id : string;
  pm_zone_id : string;
  pm_action : string;
  pm_state : option string;
  serial_number : Z;
}.
Definition pm_key (s : pm_status) : string * string * string :=
  (nameserver_id s, pm_zone_id s, pm_action s).

(** ** The interface *)
Class PoolManagerCache (St : Type) := {
  clear : Z -> pm_status -> P St unit;
  store : Z -> pm_status -> P St pm_status;     (* the object, as it is afterwards *)
  retrieve : Z -> string -> string -> string -> P St pm_status;
}.

(** What was stored under a key, as far as the cache still knows at a time. *)
Class CacheLaws (St : Type) `{PoolManagerCache St} (ok_key : string * string * string -> Prop) := {
  known : Z -> St -> string * string * string -> option (option string * Z);
  known_later : forall now now' st k v, (now <= now')%Z -> known now' st k = Some v -> known now st k = Some v;
  retrieve_known : forall now ns z a st r st', ok_key (ns, z, a) -> retrieve now ns z a st = (r, st') ->
    (forall k v, ok_key k -> known now st' k = Some v -> known now st k = Some v) /\
    match r with
    | Ok s => pm_key s = (ns, z, a) /\ known now st (ns, z, a) = Some (pm_state s, serial_number s)
    | Raise _ => True
    end;
  store_known : forall now s st r st', ok_key (pm_key s) -> store now s st = (r, st') ->
    (forall k v, ok_key k -> known now st' k = Some v ->
       known now st k = Some v \/ (k = pm_key s /\ v.2 = serial_number s)) /\
    match r with
    | Ok s' => pm_key s' = pm_key s /\ pm_state s' = pm_state s /\ serial_number s' = serial_number s
    | Raise _ => True
    end;
  clear_known : forall now s st r st', ok_key (pm_key s) -> clear now s st = (r, st') ->
    forall k v, ok_key k -> known now st' k = Some v -> known now st k = Some v;
}.

(** ** The driver that forgets everything: impl_noop *)
Definition Noop_clear (now : Z) (s : pm_status) : P unit unit := ret tt.
Definition Noop_store (now : Z) (s : pm_status) : P unit pm_status := ret s.
Definition Noop_retrieve (now : Z) (ns zone action : string) : P unit pm_status :=
  raise (NotFound PoolManagerStatusNotFound).
#[export] Instance NoopPoolManagerCache : PoolManagerCache unit :=
  {| clear := Noop_clear; store := Noop_store; retrieve := Noop_retrieve |}.
#[export] Program Instance NoopPoolManagerCache_laws : CacheLaws unit (fun _ => True) :=
  {| known := fun _ _ _ => None |}.
Solve All Obligations with
  (cbn; intros; repeat match goal with H : _ = (_, _) |- _ => injection H as <- <- end; naive_solver).

(** ** The client of memcached within the process: [memorycache.Client] *)
Inductive cached := CStr (s : string) | CInt (z : Z).
Abbreviation client := (gmap string (Z * cached)).

(** [get]; it drops what has expired. *)
Definition expired (now : Z) (e : Z * cached) : bool := negb (e.1 =? 0)%Z && (e.1 <=? now)%Z.
Definition expunge (now : Z) (c : client) : client :=
  filter (fun ke => expired now ke.2 = false) c.
Definition client_get (now : Z) (key : string) (c : client) : option cached * client :=
  let c := expunge now c in (snd <$> c !! key, c).
(** [set], [delete] *)
Definition client_set (now : Z) (key : string) (value : cached) (time : Z) (c : client) : client :=
  <[key := ((if (time =? 0)%Z then 0 else now + time)%Z, value)]> c.
Definition client_delete (key : string) (c : client) : client := delete key c.
(** [add], [incr] *)
Definition client_add (now : Z) (key : string) (value : cached) (time : Z) (c : client) : bool * client :=
  match client_get now key c with
  | (Some _, c) => (false, c)
  | (None, c) => (true, client_set now key value time c)
  end.
Definition client_incr (now : Z) (key : string) (delta : Z) (c : client) : R (option Z) * client :=
  match client_get now key c with
  | (None, c) => (Ok None, c)
  | (Some v, c) =>
      match (match v with CInt z => Some z | CStr s => int_of_str s end) with
      | Some z => let timeout := default 0%Z (fst <$> c !! key) in
                  (Ok (Some (z + delta)%Z), <[key := (timeout, CStr (str_of_Z (z + delta)))]> c)
      | None => (Raise (Py PyValueError), c)
      end
  end.

(** ** The driver on memcached: impl_memcache *)
Section Memcache.
(** The option expiration, in seconds. *)
Variable expiration : Z.

Definition _status_key (k : string * string * string) (tail : string) : string :=
  k.1.1 ++ "-" ++ k.1.2 ++ "-" ++ k.2 ++ "-" ++ tail.
Definition _build_status_key (k : string * string * string) : string := _status_key k "status".
Definition _build_serial_number_key (k : string * string * string) : string := _status_key k "serial_number".

Definition DEFAULT_STATUS : string := "NONE".
Definition Memcache_clear (now : Z) (s : pm_status) : P client unit :=
  modify (client_delete (_build_status_key (pm_key s))) ;;;
  modify (client_delete (_build_serial_number_key (pm_key s))).
(** A status that is missing or empty is stored as the default one. *)
Definition status_value (s : option string) : string :=
  match s with None => DEFAULT_STATUS | Some s => if String.eqb s "" then DEFAULT_STATUS else s end.
Definition Memcache_store (now : Z) (s : pm_status) : P client pm_status :=
  modify (client_set now (_build_status_key (pm_key s)) (CStr (status_value (pm_state s))) expiration) ;;;
  modify (client_set now (_build_serial_number_key (pm_key s)) (CInt (serial_number s)) expiration) ;;;
  ret s.
Definition lookup_key (now : Z) (key : string) : P client cached := fun c =>
  match client_get now key c with
  | (Some v, c) => (Ok v, c)
  | (None, c) => (Raise (NotFound PoolManagerStatusNotFound), c)
  end.
Definition Memcache_retrieve (now : Z) (ns zone action : string) : P client pm_status :=
  let k := (ns, zone, action) in
  let! status := lookup_key now (_build_status_key k) in
  let! serial := lookup_key now (_build_serial_number_key k) in
  match status, serial with
  | CStr st, CInt n =>
      ret {| pm_id := None; nameserver_id := ns; pm_zone_id := zone; pm_action := action;
             pm_state := if String.eqb st DEFAULT_STATUS then None else Some st; serial_number := n |}
  | _, _ => raise (Py PyTypeError)
  end.
#[export] Instance MemcachePoolManagerCache : PoolManagerCache client :=
  {| clear := Memcache_clear; store := Memcache_store; retrieve := Memcache_retrieve |}.
End Memcache.

(** * The status cache keeps its promises

    The driver on memcached behaves like a map from (name server, zone, action) to
    the status and serial last stored, until they expire; so it fulfils the laws
    the pool manager relies on. *)
(** ** Keys *)

(** The keys in use: identifiers are UUIDs in their text form, 36 characters, and
    actions have no dash. *)
Definition ok_key (k : string * string * string) : Prop :=
  String.length k.1.1 = 36%nat /\ String.length k.1.2 = 36%nat /\ has_char "-" k.2 = false.

Lemma append_inj_length (a b c d : string) :
  String.length a = String.length b -> (a ++ c = b ++ d) -> a = b /\ c = d.
Proof.
  revert b. induction a as [|x a IH]; intros [|y b]; cbn; try discriminate; [done|].
  intros [= Hl] [= -> H]. apply IH in H as [-> ->]; done.
Qed.

Lemma first_dash (a b c d : string) :
  has_char "-" a = false -> has_char "-" b = false -> a ++ String "-" c = b ++ String "-" d -> a = b /\ c = d.
Proof.
  revert b. induction a as [|x a IH]; intros [|y b]; cbn.
  - by intros _ _ [= ->].
  - intros _ Hb [= <- _]. by cbn in Hb.
  - intros Ha _ [= -> _]. by cbn in Ha.
  - intros Ha Hb [= -> H]. apply orb_false_iff in Ha as [_ Ha], Hb as [_ Hb].
    by destruct (IH b Ha Hb H) as [-> ->].
Qed.

Lemma status_key_inj k k' t t' :
  ok_key k -> ok_key k' -> _status_key k t = _status_key k' t' -> k = k' /\ t = t'.
Proof.
  destruct k as [[a b] c], k' as [[a' b'] c']. intros (Ha & Hb & Hc) (Ha' & Hb' & Hc'). cbn in *.
  unfold _status_key. cbn [fst snd]. intros H.
  apply append_inj_length in H as [-> H]; [|congruence]. cbn in H. injection H as H.
  apply append_inj_length in H as [-> H]; [|congruence]. cbn in H. injection H as H.
  by apply first_dash in H as [-> ->].
Qed.

Lemma status_ne_serial k k' : ok_key k -> ok_key k' -> _build_status_key k <> _build_serial_number_key k'.
Proof. intros Hk Hk' H. by apply status_key_inj in H as [_ H]. Qed.

(** ** What memcached knows *)
Section Memcache.
Variable expiration : Z.
Hypothesis expiration_ge_0 : (0 <= expiration)%Z.

Definition live (now : Z) (key : string) (c : client) : option cached := snd <$> expunge now c !! key.
Definition decode_status (s : string) : option string := if String.eqb s DEFAULT_STATUS then None else Some s.
Definition mem_known (now : Z) (c : client) (k : string * string * string) : option (option string * Z) :=
  match live now (_build_status_key k) c, live now (_build_serial_number_key k) c with
  | Some (CStr s), Some (CInt n) => Some (decode_status s, n)
  | _, _ => None
  end.

Lemma expunge_twice now now' c : (now <= now')%Z -> expunge now' (expunge now c) = expunge now' c.
Proof.
  intros Hle. unfold expunge. rewrite map_filter_filter. apply map_filter_ext. intros key [t v] _.
  unfold expired. cbn. destruct (t =? 0)%Z; cbn; [naive_solver|]. rewrite !Z.leb_gt. lia.
Qed.
Lemma known_expunge now now' c k : (now <= now')%Z -> mem_known now' (expunge now c) k = mem_known now' c k.
Proof. intros Hle. unfold mem_known, live. by rewrite !expunge_twice. Qed.

(** When what is stored now expires; 0 is never. *)
Definition deadline (now : Z) : Z := if (expiration =? 0)%Z then 0%Z else (now + expiration)%Z.
Definition is_over (now' now : Z) : bool := negb (deadline now =? 0)%Z && (deadline now <=? now')%Z.
Lemma is_over_now now : is_over now now = false.
Proof.
  unfold is_over, deadline. destruct (Z.eqb_spec expiration 0) as [->|Hz]; [done|].
  apply andb_false_iff. right. apply Z.leb_gt. lia.
Qed.
Lemma live_set now now' key key' v c :
  live now' key' (client_set now key v expiration c) =
  if decide (key = key') then if is_over now' now then None else Some v else live now' key' c.
Proof.
  unfold live, client_set, expunge. fold (deadline now). rewrite map_lookup_filter.
  destruct (decide (key = key')) as [<-|Hne].
  - rewrite lookup_insert_eq. cbn. unfold expired. cbn [fst]. fold (is_over now' now).
    destruct (is_over now' now); by case_guard.
  - rewrite lookup_insert_ne by done. by rewrite map_lookup_filter.
Qed.
Lemma live_delete now key key' c :
  live now key' (client_delete key c) = if decide (key = key') then None else live now key' c.
Proof.
  unfold live, client_delete, expunge. rewrite !map_lookup_filter. destruct (decide (key = key')) as [<-|Hne].
  - by rewrite lookup_delete_eq.
  - by rewrite lookup_delete_ne.
Qed.
Lemma live_later now now' key c v : (now <= now')%Z -> live now' key c = Some v -> live now key c = Some v.
Proof.
  unfold live, expunge. intros Hle. rewrite !fmap_Some. intros (e & He & ->). exists e. split; [|done].
  apply map_lookup_filter_Some in He as [He Hx]. apply map_lookup_filter_Some. split; [done|].
  unfold expired in *. cbn in *. apply andb_false_iff in Hx as [->|Hx]; [done|].
  apply Z.leb_gt in Hx. apply andb_false_iff. right. apply Z.leb_gt. lia.
Qed.

(** What one operation does to what is known. *)
Lemma store_state now s c : Memcache_store expiration now s c =
  (Ok s, client_set now (_build_serial_number_key (pm_key s)) (CInt (serial_number s)) expiration
            (client_set now (_build_status_key (pm_key s)) (CStr (status_value (pm_state s))) expiration c)).
Proof. done. Qed.
Lemma clear_state now s c : Memcache_clear now s c =
  (Ok tt, client_delete (_build_serial_number_key (pm_key s)) (client_delete (_build_status_key (pm_key s)) c)).
Proof. done. Qed.
Lemma known_store now now' s c k :
  ok_key (pm_key s) -> ok_key k ->
  mem_known now' ((Memcache_store expiration now s c).2) k =
  if decide (k = pm_key s)
  then if is_over now' now then None else Some (decode_status (status_value (pm_state s)), serial_number s)
  else mem_known now' c k.
Proof.
  intros Hs Hk. rewrite store_state. cbn [snd]. unfold mem_known. rewrite !live_set.
  pose proof (status_ne_serial (pm_key s) k Hs Hk). pose proof (status_ne_serial k (pm_key s) Hk Hs).
  rewrite (decide_False (P := _build_serial_number_key _ = _build_status_key _)) by congruence.
  rewrite (decide_False (P := _build_status_key (pm_key s) = _build_serial_number_key k)) by done.
  destruct (decide (k = pm_key s)) as [->|Hne].
  { rewrite !decide_True by done. by destruct (is_over now' now). }
  rewrite !decide_False; [done|..]; intros Heq; apply status_key_inj in Heq as [Heq _]; congruence.
Qed.
Lemma known_clear now now' s c k :
  ok_key (pm_key s) -> ok_key k ->
  mem_known now' ((Memcache_clear now s c).2) k = if decide (k = pm_key s) then None else mem_known now' c k.
Proof.
  intros Hs Hk. rewrite clear_state. cbn [snd]. unfold mem_known. rewrite !live_delete.
  pose proof (status_ne_serial (pm_key s) k Hs Hk). pose proof (status_ne_serial k (pm_key s) Hk Hs).
  rewrite (decide_False (P := _build_serial_number_key _ = _build_status_key _)) by congruence.
  destruct (decide (k = pm_key s)) as [->|Hne]; [by rewrite !decide_True|].
  rewrite (decide_False (P := _build_status_key (pm_key s) = _build_serial_number_key k)) by done.
  rewrite !decide_False; [done|..]; intros Heq; apply status_key_inj in Heq as [Heq _]; congruence.
Qed.
Lemma retrieve_spec now ns z a c :
  ok_key (ns, z, a) ->
  exists c', (forall now' k, (now <= now')%Z -> mem_known now' c' k = mem_known now' c k) /\
    match Memcache_retrieve now ns z a c with
    | (Ok s, c1) => c1 = c' /\ pm_id s = None /\ pm_key s = (ns, z, a) /\
        mem_known now c (ns, z, a) = Some (pm_state s, serial_number s)
    | (Raise e, c1) => c1 = c' /\ mem_known now c (ns, z, a) = None
    end.
Proof.
  intros Hk. exists (expunge now c). split; [intros; by apply known_expunge|].
  unfold Memcache_retrieve, mem_known, bind, lookup_key, client_get, live. cbv zeta.
  generalize (_build_status_key (ns, z, a)) (_build_serial_number_key (ns, z, a)). intros ks kn.
  destruct (expunge now c !! ks) as [[t1 v1]|]; cbn; [|done]. rewrite expunge_twice by done.
  destruct (expunge now c !! kn) as [[t2 v2]|]; cbn; [|by destruct v1].
  by destruct v1, v2.
Qed.

(** ** The laws *)
#[export] Program Instance MemcachePoolManagerCache_laws :
    @CacheLaws client (MemcachePoolManagerCache expiration) ok_key := {| known := mem_known |}.
Next Obligation.
  intros now now' c k v Hle. unfold mem_known.
  destruct (live now' (_build_status_key k) c) as [v1|] eqn:H1; [|done].
  destruct (live now' (_build_serial_number_key k) c) as [v2|] eqn:H2; [|by destruct v1].
  by rewrite (live_later now now' _ c v1 Hle H1), (live_later now now' _ c v2 Hle H2).
Qed.
Next Obligation.
  intros now ns z a c r c' Hk Hr. cbn in Hr. destruct (retrieve_spec now ns z a c Hk) as (c1 & Hc & Hspec).
  rewrite Hr in Hspec. destruct r as [s|e]; destruct Hspec as (-> & Hspec); (split; [intros; by rewrite <- Hc|naive_solver]).
Qed.
Next Obligation.
  intros now s c r c' Hk Hr. cbn [store MemcachePoolManagerCache] in Hr. split.
  - intros k v Hk' Hv. pose proof (known_store now now s c k Hk Hk') as Hst.
    rewrite Hr in Hst. cbn [snd] in Hst. rewrite Hst in Hv.
    case_decide; [right|by left]. rewrite is_over_now in Hv. by injection Hv as <-.
  - rewrite store_state in Hr. by injection Hr as <- _.
Qed.
Next Obligation.
  intros now s c r c' Hk Hr k v Hk' Hv. pose proof (known_clear now now s c k Hk Hk') as Hst.
  cbn [clear MemcachePoolManagerCache] in Hr. rewrite Hr in Hst. cbn [snd] in Hst. rewrite Hst in Hv.
  by case_decide.
Qed.

(** ** The specification: a map whose entries expire *)
Inductive cache_op :=
| OStore (s : pm_status)
| OClear (s : pm_status)
| ORetrieve (k : string * string * string).
Abbreviation answer := (option (option string * Z)).
(** The specification keeps the whole history of each key: what was last stored
    and when. *)
Abbreviation spec := (string * string * string -> option (option string * Z * Z)).

Definition spec_op (now : Z) (op : cache_op) (m : spec) : answer * spec :=
  match op with
  | OStore s => (None, fun k => if decide (k = pm_key s)
                                then Some (decode_status (status_value (pm_state s)), serial_number s, now)
                                else m k)
  | OClear s => (None, fun k => if decide (k = pm_key s) then None else m k)
  | ORetrieve k => (match m k with
                    | Some (st, n, t) => if is_over now t then None else Some (st, n)
                    | None => None
                    end, m)
  end.
Definition mem_op (now : Z) (op : cache_op) (c : client) : answer * client :=
  match op with
  | OStore s => (None, (Memcache_store expiration now s c).2)
  | OClear s => (None, (Memcache_clear now s c).2)
  | ORetrieve (ns, z, a) =>
      match Memcache_retrieve now ns z a c with
      | (Ok s, c) => (Some (pm_state s, serial_number s), c)
      | (Raise _, c) => (None, c)
      end
  end.
Fixpoint run_ops {St} (step : Z -> cache_op -> St -> answer * St) (ops : list (Z * cache_op)) (st : St) : list answer :=
  match ops with
  | [] => []
  | (now, op) :: rest => let '(a, st') := step now op st in a :: run_ops step rest st'
  end.

Definition op_key (op : cache_op) : string * string * string :=
  match op with OStore s => pm_key s | OClear s => pm_key s | ORetrieve k => k end.
(** The clock does not go back. *)
Fixpoint in_order_from (t : Z) (ops : list (Z * cache_op)) : Prop :=
  match ops with
  | [] => True
  | (now, op) :: rest => (t <= now)%Z /\ ok_key (op_key op) /\ in_order_from now rest
  end.
Definition spec_known (now : Z) (m : spec) (k : string * string * string) : answer :=
  match m k with
  | Some (st, n, t) => if is_over now t then None else Some (st, n)
  | None => None
  end.
Definition represents (t : Z) (c : client) (m : spec) : Prop :=
  forall now k, (t <= now)%Z -> ok_key k -> mem_known now c k = spec_known now m k.

Lemma represents_step t now op c m :
  represents t c m -> (t <= now)%Z -> ok_key (op_key op) ->
  (mem_op now op c).1 = (spec_op now op m).1 /\ represents now (mem_op now op c).2 (spec_op now op m).2.
Proof.
  intros Hrep Ht Hk. destruct op as [s|s|[[ns z] a]]; cbn [mem_op spec_op op_key] in *.
  - split; [done|]. intros now' k Hle Hk'. unfold spec_known. cbn [snd].
    rewrite known_store by done. case_decide; [done|]. apply Hrep; [lia|done].
  - split; [done|]. intros now' k Hle Hk'. unfold spec_known. cbn [snd].
    rewrite known_clear by done. case_decide; [done|]. apply Hrep; [lia|done].
  - destruct (retrieve_spec now ns z a c Hk) as (c1 & Hc & Hspec).
    pose proof (Hrep now (ns, z, a) Ht Hk) as Hnow. unfold spec_known in Hnow.
    destruct (Memcache_retrieve now ns z a c) as [[s|e] c'].
    + destruct Hspec as (-> & _ & _ & Hs). cbn [fst snd]. rewrite Hs in Hnow. split; [done|].
      intros now' k Hle Hk'. rewrite Hc by done. apply Hrep; [lia|done].
    + destruct Hspec as (-> & Hs). cbn [fst snd]. rewrite Hs in Hnow. split; [done|].
      intros now' k Hle Hk'. rewrite Hc by done. apply Hrep; [lia|done].
Qed.

(** C36: the memcached driver refines a map whose entries expire. Whatever statuses
    are stored, cleared and retrieved, in any order and at any times that do not go
    back, every retrieval answers what a map from (name server, zone, action) would
    answer that remembers the status and serial last stored there until the
    expiration is over: the two memcached entries of a status, under two textual
    keys, never get out of step and never collide with those of another status. *)
Theorem memcache_refines_map t ops :
  in_order_from t ops -> run_ops mem_op ops ∅ = run_ops spec_op ops (fun _ => None).
Proof.
  assert (Hsim : forall ops t c m, represents t c m -> in_order_from t ops -> run_ops mem_op ops c = run_ops spec_op ops m).
  { clear t ops. intros ops. induction ops as [|[now op] ops IH]; intros t c m Hrep; [done|]. cbn [run_ops in_order_from].
    intros (Ht & Hk & Hops). destruct (represents_step t now op c m Hrep Ht Hk) as [Ha Hrep'].
    destruct (mem_op now op c), (spec_op now op m). cbn in *. f_equal; [done|]. by apply (IH now). }
  intros Hops. apply (Hsim ops t); [|done]. intros now k _ _. reflexivity.
Qed.
End Memcache.

Definition demo_id (c : ascii) : string :=
  String c "c8e2d3b-1f0a-4a52-9a38-60b1b3f0a1e2".
Definition demo_status : pm_status :=
  {| pm_id := None; nameserver_id := demo_id "a"; pm_zone_id := demo_id "b"; pm_action := "UPDATE";
     pm_state := Some "SUCCESS"; serial_number := 7 |}.
Lemma memcache_refines_map_witness :
  run_ops (mem_op 3600) [(10, OStore demo_status); (20, ORetrieve (pm_key demo_status));
                         (4000, ORetrieve (pm_key demo_status))]%Z ∅ =
  [None; Some (Some "SUCCESS", 7%Z); None].
Proof.
  rewrite (memcache_refines_map 3600 0%Z).
  - vm_compute. reflexivity.
  - cbn. unfold ok_key. repeat split; try reflexivity; lia.
Defined.
