(* ===== verification/PoolManager.v ===== *)
(** * The pool manager (designate/pool_manager/service.py)

    Carries the changes of zones to the targets of one pool, has MiniDNS poll the
    name servers, and concludes from what they report, kept in the status cache,
    what central is told. The state is the world and the state of the cache, whose
    driver is behind the interface of [Cache]. How long the service sleeps between
    attempts is not modelled. *)
From Stdlib Require Import ZArith Lia String Sorting.Sorted.
From stdpp Require Import base option numbers strings sets list sorting.
From S2P Require Import Prelude PyStr PyNum Exceptions Values Objects Utils Classes World Decorators Cache.
Local Open Scope string_scope.

Record pstate (St : Type) := { p_world : world; p_cache : St }.
Arguments p_world {St}. Arguments p_cache {St}.

Definition CREATE_ACTION := "CREATE".
Definition UPDATE_ACTION := "UPDATE".
Definition DELETE_ACTION := "DELETE".
Definition SUCCESS_STATUS := "SUCCESS".
Definition ERROR_STATUS := "ERROR".
Definition NO_ZONE_STATUS := "NO_ZONE".
Definition MAXIMUM_THRESHOLD : Z := 100.

Section PoolManager.
Context `{Env} `{Services} {St : Type} `{PoolManagerCache St}.
Abbreviation PMgr := (P (pstate St)).
(** The pool, as the service loaded it. *)
Variable pool : pyval.

Definition pool_relation (name : string) : list pyval :=
  match getattr registry pool name with Ok l => list_objects l | Raise _ => [] end.
Definition targets : list pyval := pool_relation "targets".
Definition nameservers : list pyval := pool_relation "nameservers".
Definition also_notifies : list pyval := pool_relation "also_notifies".

Definition in_world {A} (m : P world A) : PMgr A := fun s =>
  let '(r, w) := m (p_world s) in (r, {| p_world := w; p_cache := p_cache s |}).
(** A call of the cache, at the time it happens. *)
Definition in_cache {A} (m : Z -> P St A) : PMgr A := fun s =>
  let '(r, c) := m (w_now (p_world s)) (p_cache s) in (r, {| p_world := p_world s; p_cache := c |}).

(** ** Settings *)
Definition pm_option (name : string) : Z := conf_int ("service:pool_manager." ++ name).
Definition threshold : Z := pm_option "threshold_percentage".
Definition pm_max_retries : Z := pm_option "poll_max_retries".
Definition poll_settings : list pyval :=
  [PInt (pm_option "poll_timeout"); PInt (pm_option "poll_retry_interval"); PInt pm_max_retries].
Definition pm_max_prop_time : Z :=
  (pm_option "poll_timeout" * pm_max_retries + pm_max_retries * pm_option "poll_retry_interval"
   + pm_option "poll_delay")%Z.

(** ** Other services *)
Definition central_update_status (zone_id : string) (status : string) (serial : Z) : PMgr unit :=
  in_world (call "central" "update_status" [PStr zone_id; PStr status; PInt serial]) ;;; ret tt.
Definition poll_for_serial_number (zone nameserver : pyval) : PMgr unit :=
  in_world (send (Cast "mdns" "poll_for_serial_number"
    (app [zone; nameserver] (app poll_settings [PInt (pm_option "poll_delay")])))).
(** MdnsAPI.notify_zone_changed: nothing is sent when the worker notifies. *)
Definition notify_zone_changed (zone : pyval) (host port : pyval) : PMgr unit :=
  if negb (conf_int "service:worker.notify" =? 0)%Z && negb (conf_int "service:worker.enabled" =? 0)%Z
  then ret tt
  else in_world (send (Cast "mdns" "notify_zone_changed" (app [zone; host; port] (app poll_settings [PInt 0])))).
Definition on_target (target : pyval) (method : string) (zone : pyval) : PMgr unit :=
  in_world (call (str_attr target "id") method [zone]) ;;; ret tt.

(** ** Thresholds *)

(** [_percentage], a Decimal; a division by zero fails. *)
Definition _percentage (count total_count : Z) : R (Z * Z) :=
  if (total_count =? 0)%Z then Raise (Py PyZeroDivision) else Ok (decimal_percentage count total_count).
(** [_exceed_or_meet_threshold]: the share of the targets, whatever was counted. *)
Definition _exceed_or_meet_threshold (count : Z) (limit : option Z) : R bool :=
  let limit := match limit with None => threshold | Some 0%Z => threshold | Some t => t end in
  let? ' (m, e) := _percentage count (Z.of_nat (length targets)) in
  Ok (limit * e <=? m)%Z.

(** ** The statuses of the name servers *)
Definition _build_status_object (nameserver zone : pyval) (action : string) : pm_status :=
  {| pm_id := None; nameserver_id := str_attr nameserver "id"; pm_zone_id := str_attr zone "id";
     pm_action := action; pm_state := None; serial_number := 0 |}.
Definition with_state (status : string) (s : pm_status) : pm_status :=
  {| pm_id := pm_id s; nameserver_id := nameserver_id s; pm_zone_id := pm_zone_id s; pm_action := pm_action s;
     pm_state := Some status; serial_number := serial_number s |}.
Definition with_serial (n : Z) (s : pm_status) : pm_status :=
  {| pm_id := pm_id s; nameserver_id := nameserver_id s; pm_zone_id := pm_zone_id s; pm_action := pm_action s;
     pm_state := pm_state s; serial_number := n |}.
Definition with_action (a : string) (s : pm_status) : pm_status :=
  {| pm_id := pm_id s; nameserver_id := nameserver_id s; pm_zone_id := pm_zone_id s; pm_action := a;
     pm_state := pm_state s; serial_number := serial_number s |}.

Definition not_cached {A} (k : A) (e : exc) : option A := on (NotFound PoolManagerStatusNotFound) k e.
Definition cache_retrieve (nameserver zone : pyval) (action : string) : PMgr pm_status :=
  in_cache (fun now => retrieve now (str_attr nameserver "id") (str_attr zone "id") action).
Definition cache_store (s : pm_status) : PMgr pm_status := in_cache (fun now => store now s).

(** [_retrieve_from_mdns]; what MiniDNS answers is a status, a serial or [None],
    and the retries left. *)
Definition messaging_exception {A} (k : A) (e : exc) : option A :=
  match e with Py MessagingException | Py MessagingTimeout => Some k | _ => None end.
Definition mdns_status (status action : string) (s : pm_status) : pm_status :=
  if String.eqb status NO_ZONE_STATUS then
    if String.eqb action CREATE_ACTION then with_state ERROR_STATUS s
    else if String.eqb action DELETE_ACTION then with_state SUCCESS_STATUS s
    else if String.eqb action UPDATE_ACTION then with_state ERROR_STATUS (with_action CREATE_ACTION s)
    else s
  else with_state status s.
Definition mdns_answer (v : pyval) : R (string * Z) :=
  match v with
  | PList [PStr status; PNone; _] => Ok (status, 0%Z)
  | PList [PStr status; PInt n; _] => Ok (status, n)
  | _ => Raise (Py PyTypeError)
  end.
Definition get_serial_number (zone nameserver : pyval) : PMgr (string * Z) :=
  let! host := lift (getattr registry nameserver "host") in
  let! port := lift (getattr registry nameserver "port") in
  let! answer := in_world (call "mdns" "get_serial_number"
    (app [zone; host; port] (app poll_settings [PInt (pm_option "poll_delay")]))) in
  lift (mdns_answer answer).
Definition _retrieve_from_mdns (nameserver zone : pyval) (action : string) : PMgr (option pm_status) :=
  try_else (get_serial_number zone nameserver) (messaging_exception (ret None))
    (fun ' (status, actual_serial) =>
       let s := with_serial actual_serial
                  (mdns_status status action (_build_status_object nameserver zone action)) in
       let! s := cache_store s in ret (Some s)).
Definition _retrieve_status (zone : pyval) (action : string) (nameserver : pyval) : PMgr (option pm_status) :=
  try_except (let! s := cache_retrieve nameserver zone action in ret (Some s))
    (not_cached (_retrieve_from_mdns nameserver zone action)).
Definition _retrieve_statuses (zone : pyval) (action : string) : PMgr (list pm_status) :=
  let! l := mmap (_retrieve_status zone action) nameservers in ret (omap (fun x => x) l).

(** ** Consensus *)
Definition _get_serials_ascending (l : list pm_status) : list Z := merge_sort Z.le (map serial_number l).
Definition _get_serials_descending (l : list pm_status) : list Z := reverse (_get_serials_ascending l).
Definition zone_action (zone : pyval) : string :=
  if String.eqb (str_attr zone "action") "NONE" then UPDATE_ACTION else str_attr zone "action".

Definition _is_consensus (zone : pyval) (action status : string) (limit : option Z) : PMgr bool :=
  let! l := _retrieve_statuses zone action in
  let status_count := length (filter (fun s => pm_state s = Some status) l) in
  let limit := match limit with None => threshold | Some t => t end in
  lift (_exceed_or_meet_threshold (Z.of_nat status_count) (Some limit)).

(** The loop of [_get_consensus_serial]. *)
Definition at_least (serial : Z) (l : list pm_status) : nat :=
  length (filter (fun s => serial <= serial_number s)%Z l).
Fixpoint first_consensus (l : list pm_status) (serials : list Z) : R Z :=
  match serials with
  | [] => Ok 0%Z
  | serial :: rest =>
      let? enough := _exceed_or_meet_threshold (Z.of_nat (at_least serial l)) (Some threshold) in
      if enough then Ok serial else first_consensus l rest
  end.
Definition consensus_of (l : list pm_status) : R Z := first_consensus l (_get_serials_descending l).
Definition _get_consensus_serial (zone : pyval) : PMgr Z :=
  let! l := _retrieve_statuses zone (zone_action zone) in lift (consensus_of l).
Definition _get_error_serial (zone : pyval) (consensus_serial : Z) : PMgr Z :=
  let! failed := _is_consensus zone (zone_action zone) ERROR_STATUS None in
  if failed then
    let! l := _retrieve_statuses zone (zone_action zone) in
    ret (default 0%Z (head (filter (fun n => consensus_serial < n)%Z (_get_serials_ascending l))))
  else ret 0%Z.

(** [_clear_cache]; a status that is not there is not an error. *)
Definition _clear_cache (zone : pyval) (action : option string) : PMgr unit :=
  let actions := match action with Some a => [a] | None => [CREATE_ACTION; UPDATE_ACTION; DELETE_ACTION] end in
  mfor nameservers (fun nameserver => mfor actions (fun action =>
    try_except (in_cache (fun now => clear now (_build_status_object nameserver zone action)))
      (not_cached (ret tt)))).

(** ** [update_status]: what MiniDNS reports about one name server *)

(** [lockutils.lock('update-status-<id>')] *)
Definition update_lock {A} (zone : pyval) (m : PMgr A) : PMgr A := fun s =>
  let name := "update-status-" ++ str_attr zone "id" in
  let w := p_world s in
  if mem_str name (w_zone_locks w) then (Raise (Py Blocked), s)
  else match m {| p_world := set_locks (name :: w_zone_locks w) (w_held w) w; p_cache := p_cache s |} with
       | (r, s1) => (r, {| p_world := set_locks (remove_name name (w_zone_locks (p_world s1))) (w_held (p_world s1)) (p_world s1);
                           p_cache := p_cache s1 |})
       end.

Definition current_status (nameserver zone : pyval) (action : string) : PMgr pm_status :=
  try_except (cache_retrieve nameserver zone action)
    (not_cached (cache_store (_build_status_object nameserver zone action))).
(** [if actual_serial and cache_serial <= actual_serial] *)
Definition newer (cache_serial : Z) (actual_serial : option Z) : option Z :=
  match actual_serial with
  | Some n => if negb (n =? 0)%Z && (cache_serial <=? n)%Z then Some n else None
  | None => None
  end.
Definition tell_success (zone : pyval) (cache_serial consensus_serial : Z) : PMgr unit :=
  when (negb (consensus_serial =? 0)%Z && (cache_serial <=? consensus_serial)%Z
        && negb (String.eqb (str_attr zone "status") "ACTIVE"))
    (central_update_status (str_attr zone "id") SUCCESS_STATUS consensus_serial).
Definition tell_error (zone : pyval) (status : string) (consensus_serial : Z) : PMgr unit :=
  when (String.eqb status ERROR_STATUS)
    (let! error_serial := _get_error_serial zone consensus_serial in
     when ((consensus_serial <? error_serial)%Z || (error_serial =? 0)%Z)
       (central_update_status (str_attr zone "id") ERROR_STATUS error_serial)).
Definition tell_no_zone (zone : pyval) (status : string) : PMgr unit :=
  when (String.eqb status NO_ZONE_STATUS)
    (central_update_status (str_attr zone "id") NO_ZONE_STATUS 0).
Definition update_status_body (zone nameserver : pyval) (status : string) (actual_serial : option Z) : PMgr unit :=
  let action := zone_action zone in
  let! current := current_status nameserver zone action in
  let cache_serial := serial_number current in
  match newer cache_serial actual_serial with
  | Some n => cache_store (with_serial n (with_state status current)) ;;; ret tt
  | None => ret tt
  end ;;;
  let! consensus_serial := _get_consensus_serial zone in
  tell_success zone cache_serial consensus_serial ;;;
  tell_error zone status consensus_serial ;;;
  tell_no_zone zone status ;;;
  when (consensus_serial =? int_attr zone "serial")%Z
    (let! everywhere := _is_consensus zone action SUCCESS_STATUS (Some MAXIMUM_THRESHOLD) in
     when everywhere (_clear_cache zone (Some action))).
Definition update_status (zone nameserver : pyval) (status : string) (actual_serial : option Z) : PMgr unit :=
  update_lock zone (update_status_body zone nameserver status actual_serial).

(** ** The targets *)

(** [_create_zone_on_target], [_delete_zone_on_target]: [pm_max_retries] attempts. *)
Fixpoint attempts_on_target (method : string) (target zone : pyval) (left : nat) : PMgr bool :=
  match left with
  | O => ret false
  | S left' => try_except (on_target target method zone ;;; ret true)
                 (except_exception (fun _ => attempts_on_target method target zone left'))
  end.
Definition _create_zone_on_target (target zone : pyval) : PMgr bool :=
  attempts_on_target "create_zone" target zone (Z.to_nat pm_max_retries).
Definition _delete_zone_on_target (target zone : pyval) : PMgr bool :=
  attempts_on_target "delete_zone" target zone (Z.to_nat pm_max_retries).
Definition _update_zone_on_target (target zone : pyval) : PMgr bool :=
  try_except (on_target target "update_zone" zone ;;; ret true) (except_exception (fun _ => ret false)).
Definition count_true (l : list bool) : Z := Z.of_nat (length (filter (fun b => b = true) l)).

Definition _update_zone_on_also_notify (zone also_notify : pyval) : PMgr unit :=
  let! host := lift (getattr registry also_notify "host") in
  let! port := lift (getattr registry also_notify "port") in
  notify_zone_changed zone host port.
(** A status for a change that is not in progress yet. *)
Definition start_status (zone : pyval) (action : string) (nameserver : pyval) : PMgr unit :=
  try_except (cache_retrieve nameserver zone action ;;; ret tt)
    (not_cached (cache_store (_build_status_object nameserver zone action) ;;; ret tt)).
Definition central_error (zone : pyval) : PMgr unit :=
  central_update_status (str_attr zone "id") ERROR_STATUS (int_attr zone "serial").

(** [create_zone] *)
Definition create_zone (zone : pyval) : PMgr unit :=
  let! results := mmap (fun target => _create_zone_on_target target zone) targets in
  let! enough := lift (_exceed_or_meet_threshold (count_true results) None) in
  if enough then
    mfor also_notifies (_update_zone_on_also_notify zone) ;;;
    mfor nameservers (fun nameserver =>
      cache_store (_build_status_object nameserver zone CREATE_ACTION) ;;;
      poll_for_serial_number zone nameserver)
  else central_error zone.

(** [update_zone] *)
Definition update_zone (zone : pyval) : PMgr bool :=
  let! results := mmap (fun target => _update_zone_on_target target zone) targets in
  let! enough := lift (_exceed_or_meet_threshold (count_true results) None) in
  if enough then
    mfor also_notifies (_update_zone_on_also_notify zone) ;;;
    mfor nameservers (fun nameserver =>
      start_status zone UPDATE_ACTION nameserver ;;; poll_for_serial_number zone nameserver) ;;;
    ret true
  else central_error zone ;;; ret false.

(** [delete_zone]: the polling goes on whether the targets agree or not. *)
Definition delete_zone (zone : pyval) : PMgr unit :=
  let! results := mmap (fun target => _delete_zone_on_target target zone) targets in
  let! enough := lift (_exceed_or_meet_threshold (count_true results) (Some MAXIMUM_THRESHOLD)) in
  when (negb enough) (central_error zone) ;;;
  let! zone := lift (setattr registry zone "serial" (PInt 0)) in
  mfor nameservers (fun nameserver =>
    start_status zone DELETE_ACTION nameserver ;;; poll_for_serial_number zone nameserver).

(** ** Periodic tasks; [leader] is [_pool_election.is_leader] *)
Definition find_zones (criterion : list (string * pyval)) : PMgr (list pyval) :=
  let! zones := in_world (call "central" "find_zones" [PDict criterion]) in ret (list_objects zones).
Definition failed_criterion (action : string) : list (string * pyval) :=
  [("pool_id", PStr (conf_str "service:pool_manager.pool_id")); ("action", PStr action);
   ("status", PStr ERROR_STATUS)].
Definition stale_criterion (action : string) (current : Z) : list (string * pyval) :=
  [("pool_id", PStr (conf_str "service:pool_manager.pool_id")); ("action", PStr action);
   ("status", PStr "PENDING"); ("serial", PStr ("<" ++ str_of_Z (current - pm_max_prop_time)))].
Definition _get_failed_zones (action : string) : PMgr (list pyval) :=
  let! error_zones := find_zones (failed_criterion action) in
  let! now := in_world utcnow in
  let! stale_zones := find_zones (stale_criterion action (increment_serial now 0)) in
  ret (app error_zones stale_zones).
Definition recover_zones (action method : string) : PMgr unit :=
  let! zones := _get_failed_zones action in
  mfor zones (fun zone => in_world (send (Cast "pool_manager" method [zone]))).
Definition periodic_recovery (leader : bool) : PMgr unit :=
  when leader
    (let! ctx := lift (get_admin_context true) in
     try_except
       (recover_zones DELETE_ACTION "delete_zone" ;;;
        recover_zones CREATE_ACTION "create_zone" ;;;
        recover_zones UPDATE_ACTION "update_zone")
       (except_exception (fun _ => ret tt))).

(** [_fetch_healthy_zones]; [sync_seconds] is the option periodic_sync_seconds. *)
Variable sync_seconds : option Z.
Definition _fetch_healthy_zones : PMgr (list pyval) :=
  let! now := in_world utcnow in
  find_zones (app [("pool_id", PStr (conf_str "service:pool_manager.pool_id"));
                   ("status", PStr ("!" ++ ERROR_STATUS))]
                (match sync_seconds with
                 | Some s => [("serial", PStr (">" ++ str_of_Z (increment_serial now 0 - s)))]
                 | None => []
                 end)).

(** One cycle over the zones: those that are still in error. *)
Definition sync_zone (zone : pyval) : PMgr bool :=
  try_except (update_zone zone) (except_exception (fun _ => ret false)).
Definition sync_cycle (zones : list pyval) : PMgr (list pyval) :=
  let! oks := mmap sync_zone zones in
  ret (map fst (filter (fun x => x.2 = false) (zip zones oks))).
(** The cycles; [None] before the first one. *)
Fixpoint sync_cycles (cycles : nat) (zones : list pyval) (in_error : option (list pyval)) : PMgr (option (list pyval)) :=
  match cycles with
  | O => ret in_error
  | S cycles' =>
      let! failed := sync_cycle zones in
      match failed with
      | [] => ret (Some [])
      | _ => sync_cycles cycles' failed (Some failed)
      end
  end.
(** [set(zones)] goes through the zones in some order. *)
Variable set_order : list pyval -> list pyval.
Definition periodic_sync (leader : bool) : PMgr unit :=
  when leader
    (let! ctx := lift (get_admin_context true) in
     let! zones := _fetch_healthy_zones in
     let! failed := sync_cycles (Z.to_nat (pm_option "periodic_sync_max_attempts")) (set_order zones) None in
     match failed with
     | Some zones_in_error => mfor zones_in_error central_error
     | None => raise (Py PyUnboundLocalError)
     end).

(** ** Replaying changes on one target *)
(** [zone_ops.remove(zone_op)]: the first equal element. *)
Fixpoint remove_op (op : pyval * string) (l : list (pyval * string)) : list (pyval * string) :=
  match l with
  | [] => []
  | x :: l' => if py_eq x.1 op.1 && String.eqb x.2 op.2 then l' else x :: remove_op op l'
  end.
(** A loop over a list that removes from it: the position moves on by one in every
    turn, whatever was removed. [fuel] bounds the turns. *)
Fixpoint sweep (cond : pyval * string -> bool) (fuel : nat) (i : nat) (l : list (pyval * string)) :
    list (pyval * string) :=
  match fuel with
  | O => l
  | S fuel' =>
      match l !! i with
      | None => l
      | Some op => sweep cond fuel' (S i) (if cond op then remove_op op l else l)
      end
  end.
Definition same_name (zone : pyval) (op : pyval * string) : bool :=
  String.eqb (str_attr zone "name") (str_attr op.1 "name").
(** What to do, from the zones in the order of their changes; [created_at] reads
    the time of creation. *)
Variable created_at : pyval -> R Z.
Definition add_op (timestamp : Z) (ops : list (pyval * string)) (zone : pyval) : R (list (pyval * string)) :=
  let? created := created_at zone in
  if String.eqb (str_attr zone "status") "DELETED" then
    let ops := sweep (same_name zone) (length ops) 0 ops in
    Ok (if (created <=? timestamp)%Z then app ops [(zone, "DELETE")] else ops)
  else if (timestamp <? created)%Z then
    let ops := sweep (fun op => same_name zone op && String.eqb op.2 "DELETE") (length ops) 0 ops in
    Ok (app ops [(zone, "CREATE")])
  else Ok (app ops [(zone, "UPDATE")]).
Fixpoint zone_ops (timestamp : Z) (zones : list pyval) (ops : list (pyval * string)) : R (list (pyval * string)) :=
  match zones with
  | [] => Ok ops
  | zone :: rest => let? ops := add_op timestamp ops zone in zone_ops timestamp rest ops
  end.
Definition run_op (target : pyval) (op : pyval * string) : PMgr unit :=
  let '(zone, action) := op in
  let! zone :=
    (if String.eqb action "CREATE" then _create_zone_on_target target zone ;;; ret zone
     else if String.eqb action "UPDATE" then _update_zone_on_target target zone ;;; ret zone
     else _delete_zone_on_target target zone ;;; lift (setattr registry zone "serial" (PInt 0))) in
  mfor nameservers (poll_for_serial_number zone).
Definition _target_sync (zones : list pyval) (target : pyval) (timestamp : Z) : PMgr unit :=
  let! ops := lift (zone_ops timestamp zones []) in mfor ops (run_op target).
(** [target_sync]; the replay runs in a thread of its own, here at once. [iso] is
    the text of a time. *)
Variable iso : Z -> string.
Definition target_sync (pool_id target_id : string) (timestamp : Z) : PMgr unit :=
  let! ctx := lift (get_admin_context true) in
  match List.last (map Some (filter (fun t => str_attr t "id" = target_id) targets)) None with
  | None => raise (BadRequest BR_Base)
  | Some target =>
      let! zones := in_world (call "central" "find_zones"
        [PDict [("pool_id", PStr pool_id); ("updated_at", PStr (">" ++ iso timestamp))];
         PStr "updated_at"; PStr "asc"]) in
      _target_sync (list_objects zones) target timestamp
  end.
End PoolManager.

(** ** Starting: the pool is asked for until it has targets; [fuel] bounds the
    questions. *)
Section Start.
Context `{Env} `{Services}.
Definition has_targets (pool : pyval) : R bool :=
  let? l := getattr registry pool "targets" in
  Ok (match list_objects l with [] => false | _ => true end).
Definition ask_for_pool : P world (option pyval) :=
  try_except
    (let! pool := call "central" "get_pool" [PStr (conf_str "service:pool_manager.pool_id")] in
     let! ok := lift (has_targets pool) in ret (if ok : bool then Some pool else None))
    (except_exception (fun _ => ret None)).
Fixpoint fetch_pool (fuel : nat) : P world pyval :=
  match fuel with
  | O => raise (Py Blocked)
  | S fuel' =>
      let! answer := ask_for_pool in
      match answer with Some pool => ret pool | None => fetch_pool fuel' end
  end.
End Start.
