(* ===== verification/PoolManagerFacts.v ===== *)
(** * What the pool manager concludes

    The consensus serial as an order statistic; that central only hears of a
    success that enough name servers were seen to have; what a change on the
    targets comes to; when the periodic synchronisation gives up. *)
From Stdlib Require Import ZArith Lia Ascii String Sorting.Sorted.
From stdpp Require Import base option numbers strings sets list sorting.
From S2P Require Import Prelude PyStr PyNum Exceptions Values Objects Utils Classes World Decorators Sql Tables Cache PoolManager.
Local Open Scope string_scope.

(** ** Consensus *)
Section Consensus.
Context `{Env} (pool : pyval).
Let total : Z := Z.of_nat (length (targets pool)).

Lemma exceed_exact count limit :
  (0 < total < 10 ^ 9)%Z -> (0 <= count < 10 ^ 9)%Z -> limit <> 0%Z ->
  _exceed_or_meet_threshold pool count (Some limit) = Ok (limit * total <=? 100 * count)%Z.
Proof.
  intros Ht Hc Hl. unfold _exceed_or_meet_threshold, _percentage. fold total.
  destruct (Z.eqb_spec total 0); [lia|]. cbn [rbind].
  replace (match limit with 0%Z => threshold | _ => limit end) with limit by (by destruct limit).
  pose proof (decimal_percentage_ge count total limit Hc Ht) as Hd.
  destruct (decimal_percentage count total) as [m e]. f_equal. apply eq_true_iff_eq. by rewrite !Z.leb_le.
Qed.

(** The threshold of the configuration is met only by enough of the targets, and there are some. *)
Lemma exceed_default count : (total < 10 ^ 9)%Z -> (0 <= count < 10 ^ 9)%Z ->
  _exceed_or_meet_threshold pool count None = Ok true -> (0 < total)%Z /\ (threshold * total <= 100 * count)%Z.
Proof.
  intros Ht Hc. unfold _exceed_or_meet_threshold, _percentage. fold total. destruct (Z.eqb_spec total 0) as [|Hn]; [done|]. cbn [rbind].
  assert (Hp : (0 < total < 10 ^ 9)%Z) by (unfold total in *; lia). pose proof (decimal_percentage_ge count total threshold Hc Hp) as Hd.
  destruct (decimal_percentage count total) as [m e]. intros [= Hle%Z.leb_le]. split; [lia|by apply Hd].
Qed.

(** In a list in descending order, at least [k] elements reach [s] exactly when the
    [k]-th one does. *)
Lemma sorted_count (d : list Z) s k :
  StronglySorted Z.ge d ->
  (S k <= length (filter (fun n => s <= n)%Z d))%nat <-> exists v, d !! k = Some v /\ (s <= v)%Z.
Proof.
  intros Hs. revert k. induction Hs as [|x d Hs IH Hall]; intros k.
  - cbn. split; [lia|naive_solver].
  - rewrite filter_cons. case_decide as Hx.
    + cbn [length]. destruct k as [|k]; [|cbn [lookup list_lookup]; rewrite <- IH; lia].
      split; [intros _; by exists x|lia].
    + split.
      * intros Hlen. exfalso. destruct (filter _ d) as [|y l] eqn:Hf; [cbn in Hlen; lia|].
        assert (Hy : y ∈ filter (fun n => s <= n)%Z d) by (rewrite Hf; set_solver).
        apply list_elem_of_filter in Hy as [Hy1 Hy2]. rewrite Forall_forall in Hall. specialize (Hall y Hy2). lia.
      * intros (v & Hv & Hle). exfalso. destruct k as [|k]; cbn in Hv; [simplify_eq; lia|].
        rewrite Forall_forall in Hall. apply list_elem_of_lookup_2 in Hv. specialize (Hall v Hv). lia.
Qed.

Lemma serials_descending l : StronglySorted Z.ge (_get_serials_descending l) /\
  _get_serials_descending l ≡ₚ map serial_number l.
Proof.
  unfold _get_serials_descending, _get_serials_ascending. split.
  - assert (Hs : StronglySorted Z.le (merge_sort Z.le (map serial_number l))).
    { apply StronglySorted_merge_sort; [intros ???; lia|intros ??; lia]. }
    revert Hs. generalize (merge_sort Z.le (map serial_number l)). intros d Hs.
    induction Hs as [|x d Hs IH Hall]; [constructor|]. rewrite reverse_cons. apply StronglySorted_app_2; [|done|].
    + intros a b Ha ->%list_elem_of_singleton. rewrite Forall_forall in Hall.
      rewrite elem_of_reverse in Ha. specialize (Hall a Ha). lia.
    + repeat constructor.
  - by rewrite reverse_Permutation, merge_sort_Permutation.
Qed.


(** How many statuses make a consensus: the threshold of the number of targets,
    rounded up, but one at least. *)
Definition quorum : nat := Z.to_nat (Z.max 1 (- (- (threshold * total) / 100))).
Lemma quorum_spec count :
  (0 < count)%nat -> (threshold * total <=? 100 * Z.of_nat count)%Z = true <-> (quorum <= count)%nat.
Proof.
  intros Hc. unfold quorum. rewrite Z.leb_le.
  pose proof (Z.div_mod (- (threshold * total)) 100 ltac:(lia)) as Hd.
  pose proof (Z.mod_pos_bound (- (threshold * total)) 100 ltac:(lia)) as Hm. lia.
Qed.
Lemma quorum_pos : (0 < quorum)%nat.
Proof. unfold quorum. lia. Qed.

Lemma at_least_descending serial l :
  at_least serial l = length (filter (fun n => serial <= n)%Z (_get_serials_descending l)).
Proof.
  unfold at_least. destruct (serials_descending l) as [_ Hp].
  rewrite (Permutation_length (filter_Permutation _ _ _ Hp)). clear Hp. induction l as [|s l IH]; [done|].
  cbn [map]. rewrite !filter_cons. case_decide; [cbn; by rewrite IH|done].
Qed.

Lemma first_consensus_found l pre post :
  (0 < total < 10 ^ 9)%Z -> (Z.of_nat (length l) < 10 ^ 9)%Z -> threshold <> 0%Z ->
  _get_serials_descending l = app pre post ->
  Forall (fun s => at_least s l < quorum)%nat pre ->
  first_consensus pool l post = Ok (default 0%Z (head (filter (fun s => quorum <= at_least s l)%nat post))).
Proof.
  intros Ht Hl Hthr. revert pre. induction post as [|s post IH]; intros pre Hd Hpre; [done|].
  cbn [first_consensus].
  assert (Hbound : (at_least s l <= length l)%nat) by apply length_filter.
  assert (Hpos : (0 < at_least s l)%nat).
  { destruct (serials_descending l) as [_ Hp]. rewrite at_least_descending, Hd, filter_app, filter_cons_True by lia.
    rewrite length_app. cbn. lia. }
  rewrite exceed_exact by (done || lia). cbn [rbind]. rewrite filter_cons.
  destruct (threshold * total <=? 100 * Z.of_nat (at_least s l))%Z eqn:He.
  - apply quorum_spec in He; [|done]. by rewrite decide_True by done.
  - assert (Hn : ~ (quorum <= at_least s l)%nat) by (rewrite <- quorum_spec by done; congruence).
    rewrite decide_False by done. apply (IH (app pre [s])); [by rewrite Hd, <- app_assoc|].
    apply Forall_app. split; [done|]. constructor; [lia|constructor].
Qed.

(** C9: the consensus serial is an order statistic. Of the serials the name
    servers were seen to have, the consensus is the [quorum]-th highest one, and 0
    when fewer than that many servers were heard of: the highest serial that at
    least [quorum] of them have reached. The loop of the code, which counts for each
    serial in descending order how many statuses reach it and compares a decimal
    percentage with the threshold, computes exactly that. But the quorum is the
    threshold of the number of targets, not of the name servers that are counted. *)
Theorem consensus_is_order_statistic l :
  (0 < total < 10 ^ 9)%Z -> (Z.of_nat (length l) < 10 ^ 9)%Z -> threshold <> 0%Z ->
  consensus_of pool l = Ok (default 0%Z (_get_serials_descending l !! pred quorum)).
Proof.
  intros Ht Hl Hthr. unfold consensus_of. rewrite (first_consensus_found l [] _) by done.
  do 2 f_equal. destruct (serials_descending l) as [Hs _]. pose proof quorum_pos as Hq.
  set (d := _get_serials_descending l) in *. set (Q := fun s => (quorum <= at_least s l)%nat).
  assert (HQ : forall s, Q s <-> exists v, d !! pred quorum = Some v /\ (s <= v)%Z).
  { intros s. unfold Q. rewrite at_least_descending. fold d. rewrite <- sorted_count by done.
    by rewrite Nat.succ_pred by lia. }
  destruct (d !! pred quorum) as [v|] eqn:Hv.
  - apply list_elem_of_split_length in Hv as (pre & post & Hd & Hlen).
    assert (Hge : Forall (fun s => v <= s)%Z pre).
    { apply Forall_forall. intros s Hin. rewrite Hd in Hs. apply StronglySorted_app in Hs as (Hcross & _ & _).
      specialize (Hcross s v Hin ltac:(set_solver)). lia. }
    rewrite Hd, filter_app. rewrite (filter_cons_True _ v) by (apply HQ; by exists v).
    destruct (filter _ pre) as [|s l'] eqn:Hf; [done|]. cbn. f_equal.
    assert (Hin : s ∈ s :: l') by set_solver. rewrite <- Hf in Hin.
    apply list_elem_of_filter in Hin as [Hqs Hin]. apply HQ in Hqs as (v' & [= <-] & Hle).
    rewrite Forall_forall in Hge. specialize (Hge s Hin). lia.
  - destruct (filter _ d) as [|s l'] eqn:Hf; [done|].
    assert (Hin : s ∈ s :: l') by set_solver. rewrite <- Hf in Hin.
    apply list_elem_of_filter in Hin as [Hqs _]. by apply HQ in Hqs as (? & ? & _).
Qed.

End Consensus.

(** ** Backed successes *)

(** Triples over the pool manager's state: an invariant [I] of world and cache is
    kept, the clock stands still, every message sent satisfies [good], and a result
    satisfies [Q]. *)
Section Triples.
Context {St : Type} (I : pstate St -> Prop) (good : message -> Prop).
Definition log_of (s : pstate St) : list message := w_sent (p_world s).
Definition runs {A} (m : P (pstate St) A) (Q : A -> Prop) : Prop := forall s r s',
  I s -> m s = (r, s') ->
  I s' /\ (exists ms, log_of s' = app (log_of s) ms /\ Forall good ms) /\
  match r with Ok a => Q a | Raise _ => True end.

Lemma runs_ret {A} (a : A) (Q : A -> Prop) : Q a -> runs (ret a) Q.
Proof. intros Ha s r s' Hi [= <- <-]. split_and!; [done| |done]. exists []. by rewrite app_nil_r. Qed.
Lemma runs_lift {A} (x : R A) (Q : A -> Prop) : (forall a, x = Ok a -> Q a) -> runs (lift x) Q.
Proof.
  intros Ha s r s' Hi [= <- <-]. split_and!; [done| |by destruct x; auto]. exists []. by rewrite app_nil_r.
Qed.
Lemma runs_weaken {A} (m : P (pstate St) A) (Q Q' : A -> Prop) :
  runs m Q -> (forall a, Q a -> Q' a) -> runs m Q'.
Proof. intros Hm HQ s r s' Hi Hr. destruct (Hm _ _ _ Hi Hr) as (? & ? & ?). split_and!; [done..|]. destruct r; auto. Qed.
Lemma runs_bind {A B} (m : P (pstate St) A) (f : A -> P (pstate St) B) Q Q' :
  runs m Q -> (forall a, Q a -> runs (f a) Q') -> runs (bind m f) Q'.
Proof.
  intros Hm Hf s r s' Hi. unfold bind. destruct (m s) as [[a|e] s1] eqn:Hs.
  - destruct (Hm _ _ _ Hi Hs) as (Hi1 & (ms1 & Hl1 & Hg1) & Ha). intros Hr.
    destruct (Hf a Ha _ _ _ Hi1 Hr) as (Hi2 & (ms2 & Hl2 & Hg2) & HQ). split_and!; [done| |done].
    exists (app ms1 ms2). rewrite Hl2, Hl1, app_assoc. split; [done|by apply Forall_app].
  - intros [= <- <-]. by destruct (Hm _ _ _ Hi Hs) as (? & ? & _).
Qed.
Lemma runs_try_else {A B} (m : P (pstate St) A) (h : exc -> option (P (pstate St) B)) k Q Q' :
  runs m Q -> (forall e k', h e = Some k' -> runs k' Q') -> (forall a, Q a -> runs (k a) Q') -> runs (try_else m h k) Q'.
Proof.
  intros Hm Hh Hk s r s' Hi. unfold try_else. destruct (m s) as [[a|e] s1] eqn:Hs;
    destruct (Hm _ _ _ Hi Hs) as (Hi1 & (ms1 & Hl1 & Hg1) & Ha).
  - intros Hr. destruct (Hk a Ha _ _ _ Hi1 Hr) as (Hi2 & (ms2 & Hl2 & Hg2) & HQ). split_and!; [done| |done].
    exists (app ms1 ms2). rewrite Hl2, Hl1, app_assoc. split; [done|by apply Forall_app].
  - destruct (h e) as [k'|] eqn:He; [|by intros [= <- <-]; eauto]. intros Hr.
    destruct (Hh e k' He _ _ _ Hi1 Hr) as (Hi2 & (ms2 & Hl2 & Hg2) & HQ). split_and!; [done| |done].
    exists (app ms1 ms2). rewrite Hl2, Hl1, app_assoc. split; [done|by apply Forall_app].
Qed.
Lemma try_except_else {A} (m : P (pstate St) A) h s : try_except m h s = try_else m h ret s.
Proof. unfold try_except, try_else. by destruct (m s) as [[]]. Qed.
Lemma runs_try_except {A} (m : P (pstate St) A) h Q :
  runs m Q -> (forall e k, h e = Some k -> runs k Q) -> runs (try_except m h) Q.
Proof.
  intros Hm Hh s r s' Hi. rewrite try_except_else.
  by apply (runs_try_else m h ret Q Q Hm Hh (fun a Ha => runs_ret a Q Ha)).
Qed.
Lemma runs_when c (m : P (pstate St) unit) : (c = true -> runs m (fun _ => True)) -> runs (when c m) (fun _ => True).
Proof. intros Hm. destruct c; [by apply Hm|]. by apply runs_ret. Qed.
Lemma runs_mmap {A B} (f : A -> P (pstate St) B) (Q : A -> B -> Prop) l :
  (forall a, a ∈ l -> runs (f a) (Q a)) -> runs (mmap f l) (Forall2 Q l).
Proof.
  intros Hf. induction l as [|a l IH]; cbn [mmap]; [by apply runs_ret|].
  eapply runs_bind; [apply Hf; set_solver|]. intros b Hb.
  eapply runs_bind; [apply IH; set_solver|]. intros bs Hbs. apply runs_ret. by constructor.
Qed.
Lemma runs_mfor {A} (f : A -> P (pstate St) unit) l :
  (forall a, a ∈ l -> runs (f a) (fun _ => True)) -> runs (mfor l f) (fun _ => True).
Proof.
  intros Hf. induction l as [|a l IH]; cbn [mfor]; [by apply runs_ret|].
  eapply runs_bind; [apply Hf; set_solver|]. intros _ _. apply IH. set_solver.
Qed.
End Triples.

Section Backed.
Context `{Env} `{Services} {St : Type} `{PoolManagerCache St} {ok : string * string * string -> Prop}.
Context `{!CacheLaws St ok} (pool zone : pyval) (reporter : pyval) (attested : string -> Z -> Prop).
Let zid : string := str_attr zone "id".
Let total : Z := Z.of_nat (length (targets pool)).

(** [c] was reached by a quorum of the name servers. *)
Definition backed (c : Z) : Prop :=
  exists backers, backers ⊆+ nameservers pool /\ (threshold * total <= 100 * Z.of_nat (length backers))%Z /\
    Forall (fun ns => exists n, (c <= n)%Z /\ attested (str_attr ns "id") n) backers.
Definition backed_message (m : message) : Prop :=
  forall c, m = Cast "central" "update_status" [PStr zid; PStr SUCCESS_STATUS; PInt c] -> backed c.
Definition cache_attested (s : pstate St) : Prop :=
  forall k v, ok k -> k.1.2 = zid -> known (w_now (p_world s)) (p_cache s) k = Some v -> attested k.1.1 v.2.

(** The name servers and the zone are named by identifiers the cache can tell
    apart; serial 0 says nothing; what MiniDNS answers is attested. *)
Hypothesis keys_ok : forall ns a, ns ∈ reporter :: nameservers pool ->
  a ∈ [CREATE_ACTION; UPDATE_ACTION; DELETE_ACTION] -> ok (str_attr ns "id", zid, a).
Hypothesis action_ok : zone_action zone ∈ [CREATE_ACTION; UPDATE_ACTION; DELETE_ACTION].
Hypothesis zero_attested : forall ns, attested ns 0%Z.
Hypothesis mdns_attested : forall ns host port rest log answer status n,
  ns ∈ nameservers pool -> getattr registry ns "host" = Ok host -> getattr registry ns "port" = Ok port ->
  reply (app log [Cast "mdns" "get_serial_number" (zone :: host :: port :: rest)]) = Ok answer ->
  mdns_answer answer = Ok (status, n) -> attested (str_attr ns "id") n.
Hypothesis total_ok : (0 < total < 10 ^ 9)%Z.
Hypothesis few_nameservers : (Z.of_nat (length (nameservers pool)) < 10 ^ 9)%Z.
Hypothesis threshold_ok : threshold <> 0%Z.

Local Notation runs := (runs cache_attested backed_message).
Definition heard (ns : pyval) (s : pm_status) : Prop := attested (str_attr ns "id") (serial_number s).
Definition heard_at (ns : pyval) (action : string) (s : pm_status) : Prop :=
  heard ns s /\ pm_key s = (str_attr ns "id", zid, action).

Lemma runs_call target method args Q :
  (forall c, (target, method, args) <> ("central", "update_status", [PStr zid; PStr SUCCESS_STATUS; PInt c])) ->
  (forall log v, reply (app log [Cast target method args]) = Ok v -> Q v) ->
  runs (in_world (call target method args)) Q.
Proof.
  intros Hm HQ s r s' Hi. unfold in_world, call, send, bind, modify, gets, lift. cbn.
  intros [= <- <-]. split_and!; [exact Hi| |].
  - exists [Cast target method args]. split; [done|]. constructor; [|constructor]. intros c Hc. exfalso.
    apply (Hm c). congruence.
  - destruct (reply _) eqn:Hr; [|done]. by eapply HQ.
Qed.
Lemma runs_tell (status : string) n :
  (status = SUCCESS_STATUS -> backed n) -> runs (central_update_status zid status n) (fun _ => True).
Proof.
  intros Hb s r s' Hi. unfold central_update_status, in_world, call, send, bind, modify, gets, lift, ret. cbn.
  set (m := Cast "central" "update_status" [PStr zid; PStr status; PInt n]).
  assert (Hg : Forall backed_message [m]).
  { constructor; [|constructor]. intros c [= Hs ->]. by apply Hb. }
  destruct (reply _); intros [= <- <-]; (split_and!; [exact Hi| |done]); by exists [m].
Qed.
Lemma runs_retrieve ns action :
  ok (str_attr ns "id", zid, action) -> runs (cache_retrieve ns zone action) (heard_at ns action).
Proof.
  intros Hok s r s' Hi. unfold cache_retrieve, in_cache. fold zid.
  destruct (retrieve _ _ _ _ (p_cache s)) as [r1 c1] eqn:Hr. intros [= <- <-].
  destruct (retrieve_known _ _ _ _ _ _ _ Hok Hr) as [Hsub Hres]. split_and!.
  - intros k v Hk Hz Hv. cbn in Hv. apply Hi; [done..|]. by apply Hsub.
  - exists []. by rewrite app_nil_r.
  - destruct r1 as [st|]; [|done]. destruct Hres as [Hkey Hkn]. split; [exact (Hi _ _ Hok eq_refl Hkn)|exact Hkey].
Qed.
Lemma runs_store ns st action :
  pm_key st = (str_attr ns "id", zid, action) -> ok (pm_key st) -> heard ns st -> runs (cache_store st) (heard_at ns action).
Proof.
  intros Hkey Hok Hh s r s' Hi. unfold cache_store, in_cache.
  destruct (store _ st (p_cache s)) as [r1 c1] eqn:Hr. intros [= <- <-].
  destruct (store_known _ _ _ _ _ Hok Hr) as [Hsub Hres]. split_and!.
  - intros k v Hk Hz Hv. cbn in Hv. apply Hsub in Hv as [Hv|[-> ->]]; [by apply Hi|by rewrite Hkey|done].
  - exists []. by rewrite app_nil_r.
  - destruct r1 as [st'|]; [|done]. destruct Hres as (Hk & _ & Hn). split; [unfold heard; by rewrite Hn|by rewrite Hk].
Qed.
Lemma runs_clear st : ok (pm_key st) -> runs (in_cache (fun now => clear now st)) (fun _ => True).
Proof.
  intros Hok s r s' Hi. unfold in_cache. destruct (clear _ st (p_cache s)) as [r1 c1] eqn:Hr. intros [= <- <-].
  split_and!; [|exists []; by rewrite app_nil_r|by destruct r1].
  intros k v Hk Hz Hv. apply Hi; [done..|]. exact (clear_known _ _ _ _ _ Hok Hr _ _ Hk Hv).
Qed.

Lemma runs_mdns_serial ns : ns ∈ nameservers pool ->
  runs (get_serial_number zone ns) (fun a => attested (str_attr ns "id") a.2).
Proof.
  intros Hin. unfold get_serial_number.
  eapply runs_bind; [apply (runs_lift _ _ _ (fun h => getattr registry ns "host" = Ok h)); auto|]. intros host Hh.
  eapply runs_bind; [apply (runs_lift _ _ _ (fun p => getattr registry ns "port" = Ok p)); auto|]. intros port Hp.
  eapply runs_bind.
  - apply (runs_call _ _ _ (fun v => forall st n, mdns_answer v = Ok (st, n) -> attested (str_attr ns "id") n)).
    + intros c Hc. congruence.
    + intros log v Hr st n Ha. eapply mdns_attested; [exact Hin|exact Hh|exact Hp|exact Hr|exact Ha].
  - intros v Hv. apply runs_lift. intros [st n] Ha. by eapply Hv.
Qed.
Lemma mdns_status_facts status action s : pm_action s = action -> action ∈ [CREATE_ACTION; UPDATE_ACTION; DELETE_ACTION] ->
  nameserver_id (mdns_status status action s) = nameserver_id s /\
  pm_zone_id (mdns_status status action s) = pm_zone_id s /\
  pm_action (mdns_status status action s) ∈ [CREATE_ACTION; UPDATE_ACTION; DELETE_ACTION].
Proof. intros <- Ha. unfold mdns_status. repeat (case_match; cbn); split_and!; (done || set_solver). Qed.
Lemma runs_from_mdns ns action : ns ∈ nameservers pool -> action ∈ [CREATE_ACTION; UPDATE_ACTION; DELETE_ACTION] ->
  runs (_retrieve_from_mdns ns zone action) (fun o => forall s, o = Some s -> heard ns s).
Proof.
  intros Hin Ha. eapply (runs_try_else _ _ _ _ _ (fun a => attested (str_attr ns "id") a.2)).
  - by apply runs_mdns_serial.
  - unfold messaging_exception. intros e k Hk. repeat case_match; simplify_eq; by apply runs_ret.
  - intros [status n] Hn. cbn in Hn.
    set (st := with_serial n (mdns_status status action (_build_status_object ns zone action))).
    destruct (mdns_status_facts status action (_build_status_object ns zone action) eq_refl Ha) as (Hid & Hz & Hact).
    assert (Hkey : pm_key st = (str_attr ns "id", zid, pm_action st)) by (unfold pm_key; cbn; by rewrite Hid, Hz).
    eapply runs_bind; [apply (runs_store ns st (pm_action st) Hkey)|].
    + rewrite Hkey. apply keys_ok; [set_solver|exact Hact].
    + done.
    + intros s [Hs _]. apply runs_ret. by intros ? [= <-].
Qed.
Lemma runs_retrieve_status action ns : ns ∈ nameservers pool -> action ∈ [CREATE_ACTION; UPDATE_ACTION; DELETE_ACTION] ->
  runs (_retrieve_status zone action ns) (fun o => forall s, o = Some s -> heard ns s).
Proof.
  intros Hin Ha. apply runs_try_except.
  - eapply runs_bind; [apply runs_retrieve, keys_ok; [set_solver|done]|].
    intros s [Hs _]. apply runs_ret. by intros ? [= <-].
  - unfold not_cached, on. intros e k Hk. case_match; simplify_eq. by apply runs_from_mdns.
Qed.

(** The statuses found are those of some of the name servers, in their order. *)
Definition found (l : list pm_status) : Prop :=
  exists servers, servers `sublist_of` nameservers pool /\ Forall2 heard servers l.
Lemma found_omap servers answers :
  Forall2 (fun ns (o : option pm_status) => forall s, o = Some s -> heard ns s) servers answers ->
  exists sub, sub `sublist_of` servers /\ Forall2 heard sub (omap (fun x => x) answers).
Proof.
  induction 1 as [|ns o servers answers Ho _ (sub & Hsub & Hall)]; [by exists []; repeat constructor|].
  destruct o as [s|]; cbn; [exists (ns :: sub)|exists sub]; split; auto; constructor; auto.
Qed.
Lemma runs_statuses action : action ∈ [CREATE_ACTION; UPDATE_ACTION; DELETE_ACTION] ->
  runs (_retrieve_statuses pool zone action) found.
Proof.
  intros Ha. eapply runs_bind.
  - apply (runs_mmap _ _ _ (fun ns o => forall s, o = Some s -> heard ns s)). intros ns Hin. by apply runs_retrieve_status.
  - intros l Hl. apply runs_ret. by apply found_omap.
Qed.

Lemma found_backers l serial : found l ->
  exists backers, backers ⊆+ nameservers pool /\ length backers = at_least serial l /\
    Forall (fun ns => exists n, (serial <= n)%Z /\ attested (str_attr ns "id") n) backers.
Proof.
  intros (servers & Hsub & Hall). apply sublist_submseteq in Hsub.
  assert (Hb : exists backers, backers `sublist_of` servers /\ length backers = at_least serial l /\
    Forall (fun ns => exists n, (serial <= n)%Z /\ attested (str_attr ns "id") n) backers).
  { clear Hsub. unfold at_least. induction Hall as [|ns s servers l Hs _ (b & Hb & Hlen & Hat)];
      [by exists []; repeat constructor|]. rewrite filter_cons. case_decide as Hd.
    - exists (ns :: b). cbn. split_and!; [by constructor|by rewrite Hlen|]. constructor; [by exists (serial_number s)|done].
    - exists b. split_and!; [by constructor|done..]. }
  destruct Hb as (b & Hb & Hlen & Hat). exists b. split_and!; [|done..].
  etrans; [by apply sublist_submseteq|done].
Qed.
Lemma found_short l : found l -> (Z.of_nat (length l) < 10 ^ 9)%Z.
Proof.
  intros (servers & Hsub & Hall). apply sublist_length in Hsub. apply Forall2_length in Hall. lia.
Qed.
Lemma first_consensus_backed l serials c : found l -> first_consensus pool l serials = Ok c -> c <> 0%Z -> backed c.
Proof.
  intros Hl. pose proof (found_short l Hl) as Hshort.
  induction serials as [|serial rest IH]; cbn [first_consensus]; [intros [= <-]; done|].
  assert (Hle : (at_least serial l <= length l)%nat) by apply length_filter.
  rewrite (exceed_exact pool) by (done || (fold total; lia)). cbn [rbind].
  destruct (_ <=? _)%Z eqn:He; [|done]. intros [= <-] _. apply Z.leb_le in He.
  destruct (found_backers l serial Hl) as (b & Hb & Hlen & Hat). exists b. rewrite Hlen. by split_and!.
Qed.
Lemma runs_consensus : runs (_get_consensus_serial pool zone) (fun c => c <> 0%Z -> backed c).
Proof.
  eapply runs_bind; [by apply runs_statuses|]. intros l Hl. apply runs_lift. intros c Hc Hnz.
  by eapply first_consensus_backed.
Qed.
Lemma runs_is_consensus action status limit : action ∈ [CREATE_ACTION; UPDATE_ACTION; DELETE_ACTION] ->
  runs (_is_consensus pool zone action status limit) (fun _ => True).
Proof. intros Ha. eapply runs_bind; [by apply runs_statuses|]. intros l _. by apply runs_lift. Qed.
Lemma runs_error_serial c : runs (_get_error_serial pool zone c) (fun _ => True).
Proof.
  eapply runs_bind; [by apply runs_is_consensus|]. intros [] _; [|by apply runs_ret].
  eapply runs_bind; [by apply runs_statuses|]. intros l _. by apply runs_ret.
Qed.
Lemma runs_clear_cache : runs (_clear_cache pool zone (Some (zone_action zone))) (fun _ => True).
Proof.
  apply runs_mfor. intros ns Hns. apply runs_mfor. intros a ->%list_elem_of_singleton. apply runs_try_except.
  - apply runs_clear, keys_ok; [set_solver|done].
  - unfold not_cached, on. intros e k Hk. case_match; simplify_eq. by apply runs_ret.
Qed.
Lemma runs_current : runs (current_status reporter zone (zone_action zone)) (heard_at reporter (zone_action zone)).
Proof.
  assert (Hok : ok (str_attr reporter "id", zid, zone_action zone)) by (apply keys_ok; [set_solver|done]).
  apply runs_try_except; [by apply runs_retrieve|].
  unfold not_cached, on. intros e k Hk. case_match; simplify_eq. apply runs_store; [done..|]. apply zero_attested.
Qed.
Lemma runs_body status actual_serial : (forall n, actual_serial = Some n -> attested (str_attr reporter "id") n) ->
  runs (update_status_body pool zone reporter status actual_serial) (fun _ => True).
Proof.
  intros Hrep. unfold update_status_body. eapply runs_bind; [apply runs_current|]. intros current [Hcur Hkey].
  eapply (runs_bind _ _ _ _ (fun _ => True)).
  { destruct (newer _ _) as [n|] eqn:Hnew; [|by apply runs_ret].
    assert (Hn : actual_serial = Some n).
    { unfold newer in Hnew. by repeat (case_match; simplify_eq). }
    eapply runs_bind; [eapply (runs_store reporter)|]; [exact Hkey|..].
    - change (ok (pm_key current)). rewrite Hkey. apply keys_ok; [set_solver|done].
    - by apply Hrep.
    - intros _ _. by apply runs_ret. }
  intros _ _. eapply runs_bind; [apply runs_consensus|]. intros c Hc.
  eapply (runs_bind _ _ _ _ (fun _ => True)); [|intros _ _; eapply (runs_bind _ _ _ _ (fun _ => True));
    [|intros _ _; eapply (runs_bind _ _ _ _ (fun _ => True)); [|intros _ _]]].
  - apply runs_when. intros Hcond. apply runs_tell. intros _. apply Hc. intros ->. by rewrite andb_false_l in Hcond.
  - apply runs_when. intros _. eapply runs_bind; [apply runs_error_serial|]. intros n _. apply runs_when.
    intros _. by apply runs_tell.
  - apply runs_when. intros _. by apply runs_tell.
  - apply runs_when. intros _. eapply runs_bind; [by apply runs_is_consensus|]. intros b _. apply runs_when.
    intros _. apply runs_clear_cache.
Qed.

(** C6: central hears of a success only when enough name servers were seen to have
    it. When MiniDNS reports about one name server, every message [update_status]
    sends that tells central of SUCCESS for a serial [c] is backed: a quorum of the
    pool's name servers, each of them attested (by an earlier report, by this one,
    or by MiniDNS when it was asked) to serve a serial of [c] or later. And the
    cache afterwards holds only attested serials again. The cache is any driver
    that obeys [CacheLaws]; it may lose entries at any time. *)
Theorem success_backed status actual_serial s r s' :
  cache_attested s -> (forall n, actual_serial = Some n -> attested (str_attr reporter "id") n) ->
  update_status pool zone reporter status actual_serial s = (r, s') ->
  cache_attested s' /\ exists ms, log_of s' = app (log_of s) ms /\
    forall c, Cast "central" "update_status" [PStr zid; PStr SUCCESS_STATUS; PInt c] ∈ ms -> backed c.
Proof.
  intros Hi Hrep. unfold update_status, update_lock. destruct (mem_str _ _).
  { intros [= <- <-]. split; [done|]. exists []. rewrite app_nil_r. split; [done|]. set_solver. }
  set (locked := {| p_world := _; p_cache := _ |}). assert (Hi0 : cache_attested locked) by exact Hi.
  destruct (update_status_body _ _ _ _ _ locked) as [r1 s1] eqn:Hb. intros [= <- <-].
  destruct (runs_body status actual_serial Hrep _ _ _ Hi0 Hb) as (Hi1 & (ms & Hlog & Hms) & _).
  split; [exact Hi1|]. exists ms. split; [exact Hlog|]. intros c Hc. rewrite Forall_forall in Hms. exact (Hms _ Hc c eq_refl).
Qed.
End Backed.

(** ** The periodic synchronisation *)
Section Sync.
Context `{Env} `{LiveServices} {St : Type} `{PoolManagerCache St} (pool : pyval).
Context (sync_seconds : option Z) (set_order : list pyval -> list pyval).

(** The cache does not leave its caller waiting, and central takes the reports. *)
Hypothesis retrieve_catchable : forall now ns z a, Catchable (retrieve (St := St) now ns z a).
Hypothesis store_catchable : forall now st, Catchable (store (St := St) now st).
Hypothesis reports_taken : forall log args, exists v,
  reply (app log [Cast "central" "update_status" args]) = Ok v.

(** A computation that only adds to the log and whose failures [except Exception]
    catches. *)
Class Steady {A} (m : P (pstate St) A) : Prop :=
  steady : forall s r s', m s = (r, s') ->
    (exists ms, log_of s' = app (log_of s) ms) /\ match r with Ok _ => True | Raise e => caught e end.
Lemma log_refl (s : pstate St) : exists ms, log_of s = app (log_of s) ms.
Proof. exists []. by rewrite app_nil_r. Qed.
Lemma log_trans (s1 s2 s3 : pstate St) :
  (exists ms, log_of s2 = app (log_of s1) ms) -> (exists ms, log_of s3 = app (log_of s2) ms) ->
  exists ms, log_of s3 = app (log_of s1) ms.
Proof. intros [l1 Hl1] [l2 Hl2]. exists (app l1 l2). by rewrite Hl2, Hl1, app_assoc. Qed.

#[local] Instance lift_steady {A} (x : R A) : match x with Ok _ => True | Raise e => caught e end -> Steady (lift x).
Proof. intros Hx s r s' [= <- <-]. split; [apply log_refl|done]. Qed.
#[local] Instance ret_steady {A} (a : A) : Steady (ret a).
Proof. intros s r s' [= <- <-]. split; [apply log_refl|done]. Qed.
#[local] Instance bind_steady {A B} (m : P (pstate St) A) (f : A -> P (pstate St) B) :
  Steady m -> (forall a, Steady (f a)) -> Steady (bind m f).
Proof.
  intros Hm Hf s r s'. unfold bind. destruct (m s) as [[a|e] s1] eqn:Hs; destruct (Hm _ _ _ Hs) as [Hl Hr].
  - intros Hrun. destruct (Hf a _ _ _ Hrun) as [Hl' Hr']. split; [by eapply log_trans|done].
  - by intros [= <- <-].
Qed.
Lemma try_except_steady {A} (m : P (pstate St) A) h :
  Steady m -> (forall e k, h e = Some k -> Steady k) -> Steady (try_except m h).
Proof.
  intros Hm Hh s r s'. unfold try_except. destruct (m s) as [[a|e] s1] eqn:Hs; destruct (Hm _ _ _ Hs) as [Hl Hr].
  - by intros [= <- <-].
  - destruct (h e) as [k|] eqn:Hk; [|by intros [= <- <-]]. intros Hrun.
    destruct (Hh e k Hk _ _ _ Hrun) as [Hl' Hr']. split; [by eapply log_trans|done].
Qed.
#[local] Instance mmap_steady {A B} (f : A -> P (pstate St) B) l : (forall a, Steady (f a)) -> Steady (mmap f l).
Proof. intros Hf. induction l; cbn [mmap]; apply _. Qed.
#[local] Instance mfor_steady {A} (f : A -> P (pstate St) unit) l : (forall a, Steady (f a)) -> Steady (mfor l f).
Proof. intros Hf. induction l; cbn [mfor]; apply _. Qed.
#[local] Instance call_steady target method args : Steady (in_world (call target method args)).
Proof.
  intros s r s'. unfold in_world, call, send, bind, modify, gets, lift. cbn. intros [= <- <-].
  split; [by eexists|]. destruct (reply _) eqn:Hr; [done|]. by apply reply_comes in Hr.
Qed.
#[local] Instance send_steady m : Steady (in_world (send m)).
Proof. intros s r s' [= <- <-]. split; [by eexists|done]. Qed.
Lemma in_cache_steady {A} (m : Z -> P St A) : (forall now, Catchable (m now)) -> Steady (in_cache m).
Proof.
  intros Hm s r s'. unfold in_cache. destruct (m _ _) as [r1 c] eqn:Hr. intros [= <- <-].
  split; [exists []; by rewrite app_nil_r|]. destruct r1; [done|by eapply Hm].
Qed.
#[local] Instance getattr_steady o name : Steady (lift (getattr registry o name)).
Proof.
  apply lift_steady. destruct (getattr registry o name) eqn:Hg; [done|].
  by eapply (getattr_catchable (S := unit) o name tt); unfold lift; rewrite Hg.
Qed.

#[local] Instance update_on_target_steady t z : Steady (_update_zone_on_target t z).
Proof.
  apply try_except_steady; [unfold on_target; apply _|]. unfold except_exception.
  intros e k Hk. repeat case_match; simplify_eq; apply _.
Qed.
#[local] Instance start_steady z a ns : Steady (start_status z a ns).
Proof.
  unfold start_status, cache_retrieve, cache_store.
  apply try_except_steady; [apply bind_steady; [|apply _]; by apply in_cache_steady|].
  unfold not_cached, on. intros e k Hk. case_match; simplify_eq.
  apply bind_steady; [|apply _]. by apply in_cache_steady.
Qed.
#[local] Instance threshold_steady count limit : Steady (lift (_exceed_or_meet_threshold pool count limit)).
Proof. apply lift_steady. unfold _exceed_or_meet_threshold, _percentage. destruct (_ =? 0)%Z; [by split|]. by destruct (decimal_percentage _ _). Qed.
#[local] Instance notify_steady z a : Steady (_update_zone_on_also_notify z a).
Proof. unfold _update_zone_on_also_notify, notify_zone_changed. repeat (apply bind_steady; [apply _|intros ?]). case_match; apply _. Qed.
#[local] Instance update_zone_steady z : Steady (update_zone pool z).
Proof.
  unfold update_zone, central_error, central_update_status, poll_for_serial_number.
  repeat (apply bind_steady; [apply _|intros ?]). case_match; repeat (apply bind_steady; [apply _|intros ?]); apply _.
Qed.

(** The targets took the zone, in the part of the log behind [log0]: they were all asked to update
    it, one after the other, and those that answered without an error are at least the
    threshold of all of them. *)
Definition requests (zone : pyval) (ts : list pyval) : list message :=
  map (fun target => Cast (str_attr target "id") "update_zone" [zone]) ts.
Definition answers_well (log : list message) : bool := match reply log with Ok _ => true | Raise _ => false end.
Definition well_answered (log : list message) (l : list message) : list nat :=
  filter (fun i => answers_well (app log (take (S i) l)) = true) (seq 0 (length l)).
Definition taken (log0 log1 : list message) (zone : pyval) : Prop :=
  exists before after, log1 = app log0 (app before (app (requests zone (targets pool)) after)) /\ targets pool <> [] /\
    (threshold * Z.of_nat (length (targets pool)) <=
     100 * Z.of_nat (length (well_answered (app log0 before) (requests zone (targets pool)))))%Z.
Hypothesis few_targets : (Z.of_nat (length (targets pool)) < 10 ^ 9)%Z.

Lemma update_on_target_run target zone (s : pstate St) : exists s',
  _update_zone_on_target target zone s = (Ok (answers_well (app (log_of s) [Cast (str_attr target "id") "update_zone" [zone]])), s') /\
  log_of s' = app (log_of s) [Cast (str_attr target "id") "update_zone" [zone]].
Proof.
  unfold _update_zone_on_target, try_except, on_target, in_world, call, send, bind, modify, gets, lift, ret, answers_well, log_of. cbn.
  destruct (reply _) as [v|e] eqn:Hr; [by eexists|]. apply reply_comes in Hr. rewrite except_exception_caught by done. by eexists.
Qed.
Lemma filter_shift (p : nat -> bool) k n :
  length (filter (fun i => p i = true) (seq (S k) n)) = length (filter (fun i => p (S i) = true) (seq k n)).
Proof. revert k. induction n as [|n IH]; intros k; [done|]. cbn [seq]. rewrite !filter_cons. repeat case_decide; try done; cbn; by rewrite IH. Qed.
Lemma well_answered_cons log m l :
  length (well_answered log (m :: l)) =
  ((if answers_well (app log [m]) then 1 else 0) + length (well_answered (app log [m]) l))%nat.
Proof.
  unfold well_answered. cbn [length seq]. rewrite filter_cons.
  assert (Hs : length (filter (fun i => answers_well (app log (take (S i) (m :: l))) = true) (seq 1 (length l))) =
          length (filter (fun i => answers_well (app (app log [m]) (take (S i) l)) = true) (seq 0 (length l)))).
  { rewrite (filter_shift (fun i => answers_well (app log (take (S i) (m :: l))))). f_equal. apply list_filter_iff. intros i. cbn.
    by rewrite <- app_assoc. }
  change (app log (take 1 (m :: l))) with (app log [m]). destruct (answers_well (app log [m])); case_decide; try done; cbn [length]; rewrite Hs; lia.
Qed.
Lemma ask_targets zone ts (s : pstate St) : exists oks s',
  mmap (fun target => _update_zone_on_target target zone) ts s = (Ok oks, s') /\
  log_of s' = app (log_of s) (requests zone ts) /\
  count_true oks = Z.of_nat (length (well_answered (log_of s) (requests zone ts))) /\ length oks = length ts.
Proof.
  revert s. induction ts as [|t ts IH]; intros s; cbn [mmap requests map].
  - exists [], s. by rewrite app_nil_r.
  - destruct (update_on_target_run t zone s) as (s1 & E1 & Hl1). destruct (IH s1) as (oks & s2 & E2 & Hl2 & Hc & Hn).
    unfold bind at 1. rewrite E1. unfold bind at 1. rewrite E2. do 2 eexists. split; [done|].
    rewrite Hl2, Hl1, <- app_assoc. split; [done|]. fold (requests zone ts). rewrite well_answered_cons, <- Hl1. split; [|cbn; by rewrite Hn].
    assert (Hcc : forall b l, count_true (b :: l) = ((if b : bool then 1 else 0) + count_true l)%Z).
    { intros b l. unfold count_true. destruct b; [|done]. rewrite filter_cons_True by done. cbn [length]. lia. }
    rewrite Hcc, Hc. destruct (answers_well (log_of s1)); lia.
Qed.
Lemma update_zone_taken zone s s' : update_zone pool zone s = (Ok true, s') -> taken (log_of s) (log_of s') zone.
Proof.
  unfold update_zone. unfold bind at 1. destruct (ask_targets zone (targets pool) s) as (oks & s1 & -> & Hl & Hc & Hn).
  unfold bind at 1, lift at 1. destruct (_exceed_or_meet_threshold _ _ _) as [[]|e] eqn:He; [| |done].
  2: { unfold bind. by destruct (central_error _ _) as [[]]. }
  apply exceed_default in He as [Hpos He]; [|done|].
  2: { rewrite Hc. unfold well_answered. assert (Hr : length (requests zone (targets pool)) = length (targets pool)) by apply length_map.
       rewrite Hr. match goal with |- context [length (filter ?p ?l)] => pose proof (length_filter p l) as Hf end.
       rewrite length_seq in Hf. lia. }
  intros Hrun. match type of Hrun with ?m s1 = _ => assert (Hs : Steady m) end.
  { unfold poll_for_serial_number. repeat (apply bind_steady; [apply _|intros ?]). apply _. }
  destruct (Hs _ _ _ Hrun) as [[ms Hms] _]. exists [], ms. rewrite app_nil_r. cbn [app]. split_and!.
  - by rewrite Hms, Hl, app_assoc.
  - intros E. rewrite E in Hpos. cbn in Hpos. lia.
  - by rewrite <- Hc.
Qed.
Lemma taken_within (log0 ms log1 log2 : list message) zone :
  taken (app log0 ms) log1 zone -> (exists l, log2 = app log1 l) -> taken log0 log2 zone.
Proof.
  intros (before & after & -> & Ht & Hc) [l ->]. exists (app ms before), (app after l). rewrite <- !app_assoc in *. by split_and!.
Qed.
Lemma taken_in_run (s1 s2 s3 s4 : pstate St) zone :
  (exists ms, log_of s2 = app (log_of s1) ms) -> taken (log_of s2) (log_of s3) zone ->
  (exists ms, log_of s4 = app (log_of s3) ms) -> taken (log_of s1) (log_of s4) zone.
Proof. intros [ms Hms] Ht. rewrite Hms in Ht. by eapply taken_within. Qed.

Lemma sync_zone_result zone s : exists b s', sync_zone pool zone s = (Ok b, s') /\
  (exists ms, log_of s' = app (log_of s) ms) /\ (b = true -> taken (log_of s) (log_of s') zone).
Proof.
  unfold sync_zone, try_except. destruct (update_zone pool zone s) as [r s'] eqn:Hu.
  destruct (update_zone_steady zone _ _ _ Hu) as [Hl Hr]. destruct r as [b|e].
  - exists b, s'. split_and!; [done..|]. intros ->. by apply update_zone_taken.
  - rewrite except_exception_caught by done. by exists false, s'.
Qed.
Lemma sync_cycle_result zones s : exists failed s', sync_cycle pool zones s = (Ok failed, s') /\
  (exists ms, log_of s' = app (log_of s) ms) /\
  forall zone, zone ∈ zones -> zone ∈ failed \/ taken (log_of s) (log_of s') zone.
Proof.
  unfold sync_cycle. revert s. induction zones as [|zone zones IH]; intros s; cbn [mmap].
  - exists [], s. split_and!; [done|apply log_refl|set_solver].
  - destruct (sync_zone_result zone s) as (b & s1 & Hz & Hl1 & Hb).
    destruct (IH s1) as (failed & s2 & Hf & Hl2 & Hall). unfold bind in *. rewrite Hz.
    destruct (mmap _ zones s1) as [[oks|e] s3] eqn:Hm; [|done]. cbn in Hf |- *. injection Hf as <- <-.
    exists (map fst (filter (fun x => x.2 = false) (zip (zone :: zones) (b :: oks)))), s3.
    split_and!; [done|by eapply log_trans|]. cbn [zip zip_with]. rewrite filter_cons.
    intros z [->|Hz']%elem_of_cons.
    + destruct b; [right; eapply taken_in_run; [apply log_refl|by apply Hb|done]|]. left. cbn. set_solver.
    + destruct (Hall z Hz') as [Hin|Hu]; [left|right; by eapply taken_in_run; [exact Hl1|exact Hu|apply log_refl]].
      case_decide; cbn; [by apply elem_of_cons; right|done].
Qed.
Lemma sync_cycles_result n zones in_error s : exists failed s', sync_cycles pool n zones in_error s = (Ok failed, s') /\
  (exists ms, log_of s' = app (log_of s) ms) /\
  ((0 < n)%nat \/ in_error = Some zones -> exists l, failed = Some l /\
     forall zone, zone ∈ zones -> zone ∈ l \/ taken (log_of s) (log_of s') zone).
Proof.
  revert zones in_error s. induction n as [|n IH]; intros zones in_error s; cbn [sync_cycles].
  - exists in_error, s. split_and!; [done|apply log_refl|]. intros [?| ->]; [lia|]. exists zones. by split; [|left].
  - unfold bind. destruct (sync_cycle_result zones s) as (failed & s1 & -> & Hl1 & Hall). destruct failed as [|z failed].
    + exists (Some []), s1. split_and!; [done..|]. intros _. by exists [].
    + destruct (IH (z :: failed) (Some (z :: failed)) s1) as (l & s2 & -> & Hl2 & Hl). exists l, s2.
      split_and!; [done|by eapply log_trans|]. intros _. destruct (Hl (or_intror eq_refl)) as (l' & -> & Hl').
      exists l'. split; [done|]. intros zone Hin.
      destruct (Hall zone Hin) as [Hf|Hu]; [|right; by eapply taken_in_run; [apply log_refl|exact Hu|exact Hl2]].
      destruct (Hl' zone Hf) as [?|Hu]; [by left|right]. by eapply taken_in_run; [exact Hl1|exact Hu|apply log_refl].
Qed.

Definition error_report (zone : pyval) : message :=
  Cast "central" "update_status" [PStr (str_attr zone "id"); PStr ERROR_STATUS; PInt (int_attr zone "serial")].
Lemma report_all zones (s : pstate St) : exists s', mfor zones central_error s = (Ok tt, s') /\
  log_of s' = app (log_of s) (map error_report zones).
Proof.
  revert s. induction zones as [|zone zones IH]; intros s; cbn [mfor map].
  - exists s. by rewrite app_nil_r.
  - unfold bind, central_error, central_update_status, in_world, call, send, bind, modify, gets, lift, ret. cbn.
    destruct (reports_taken (w_sent (p_world s))
      [PStr (str_attr zone "id"); PStr ERROR_STATUS; PInt (int_attr zone "serial")]) as [v ->].
    edestruct IH as (s' & -> & Hl). exists s'. split; [done|]. rewrite Hl. unfold log_of. cbn.
    by rewrite <- app_assoc.
Qed.

(** C37: no zone is given up in silence. When the leader of a pool synchronises, whatever the
    targets answer, the run ends, and for every healthy zone that central named either there was
    an attempt within the run in which all targets were asked to update it and at least the
    threshold of them did so without an error, or central is told of its ERROR at the end. (The
    option periodic_sync_max_attempts has to be positive: without an attempt the code fails with
    an UnboundLocalError.) *)
Theorem periodic_sync_settles zones s s1 ctx :
  get_admin_context true = Ok ctx -> (0 < pm_option "periodic_sync_max_attempts")%Z ->
  (forall l, set_order l ≡ₚ l) ->
  _fetch_healthy_zones sync_seconds s = (Ok zones, s1) ->
  exists s', periodic_sync pool sync_seconds set_order true s = (Ok tt, s') /\
    forall zone, zone ∈ zones -> taken (log_of s1) (log_of s') zone \/ error_report zone ∈ log_of s'.
Proof.
  intros Hctx Hmax Hset Hfetch. unfold periodic_sync. cbn [when]. unfold bind at 1, lift. rewrite Hctx.
  unfold bind at 1. rewrite Hfetch. unfold bind at 1.
  destruct (sync_cycles_result (Z.to_nat (pm_option "periodic_sync_max_attempts")) (set_order zones) None s1)
    as (failed & s2 & -> & Hl2 & Hall).
  destruct Hall as (l & -> & Hl); [left; lia|]. destruct (report_all l s2) as (s3 & -> & Hlog).
  exists s3. split; [done|]. intros zone Hin. rewrite <- (Hset zones) in Hin. destruct (Hl zone Hin) as [Hf|Ht]; [right|left].
  2: { eapply taken_in_run; [apply log_refl|exact Ht|by eexists]. }
  rewrite Hlog. apply elem_of_app. right. by apply list_elem_of_In, in_map, list_elem_of_In.
Qed.
End Sync.

(** ** The theorems in a concrete environment *)

#[local] Instance pm_env : Env :=
  {| enforce := fun _ _ _ => true; uuid4 := fun n => str_of_Z (Z.of_nat n);
     conf_int := fun name =>
       if String.eqb name "service:pool_manager.threshold_percentage" then 60%Z
       else if String.eqb name "service:pool_manager.poll_max_retries" then 3%Z
       else if String.eqb name "service:pool_manager.periodic_sync_max_attempts" then 2%Z else 0%Z;
     conf_str := fun s => s; re_search := fun _ _ => Some false; min_ttl := None; md5_hex := fun s => s |}.
Definition pm_list (cls : string) (items : list pyval) : pyval := PObj cls [("objects", PList items)] [] [].
Definition pm_zone : pyval :=
  PObj "Zone" [("id", PStr (demo_id "z")); ("action", PStr "UPDATE"); ("status", PStr "PENDING");
               ("serial", PInt 7)] [] [].
(** MiniDNS always finds the name servers at serial 7; the second target refuses. *)
Definition pm_reply (h : list message) : R pyval :=
  match List.last (map Some h) None with
  | Some (Cast "mdns" "get_serial_number" _) => Ok (PList [PStr "SUCCESS"; PInt 7; PInt 0])
  | Some (Cast "central" "find_zones" _) => Ok (pm_list "ZoneList" [pm_zone])
  | Some (Cast "t2" _ _) => Raise Backend
  | _ => Ok PNone
  end.
#[local] Instance pm_services : Services := {| reply := pm_reply |}.
Definition pm_server (c : ascii) : pyval :=
  PObj "PoolNameserver" [("id", PStr (demo_id c)); ("host", PStr "ns."); ("port", PInt 53)] [] [].
Definition pm_pool : pyval :=
  PObj "Pool" [("targets", pm_list "PoolTargetList" [PObj "PoolTarget" [("id", PStr "t1")] [] [];
                                                     PObj "PoolTarget" [("id", PStr "t2")] [] []]);
               ("nameservers", pm_list "PoolNameserverList" [pm_server "1"; pm_server "2"; pm_server "3"])] [] [].
Definition pm_state0 : pstate client := {| p_world := Tables.ref_world []; p_cache := ∅ |}.
Definition pm_attested (ns : string) (n : Z) : Prop := n = 0%Z \/ n = 7%Z.
Definition status_of (n : Z) : pm_status :=
  {| pm_id := None; nameserver_id := demo_id "a"; pm_zone_id := demo_id "z"; pm_action := "UPDATE";
     pm_state := Some "SUCCESS"; serial_number := n |}.

(** Two targets and a threshold of 60 per cent make a quorum of two: of three name
    servers at 5, 9 and 7 the consensus is 7. *)
Lemma consensus_is_order_statistic_witness :
  consensus_of pm_pool [status_of 5; status_of 9; status_of 7] = Ok 7%Z.
Proof.
  rewrite (consensus_is_order_statistic pm_pool [status_of 5; status_of 9; status_of 7]).
  - vm_compute. reflexivity.
  - vm_compute. split; reflexivity.
  - vm_compute. reflexivity.
  - vm_compute. discriminate.
Defined.

Definition pm_run : R unit * pstate client :=
  update_status (H1 := MemcachePoolManagerCache 3600) pm_pool pm_zone (pm_server "1") "SUCCESS" (Some 7%Z) pm_state0.
Lemma success_backed_witness :
  Cast "central" "update_status" [PStr (demo_id "z"); PStr "SUCCESS"; PInt 7] ∈ log_of pm_run.2 /\
  backed pm_pool pm_attested 7.
Proof.
  assert (Hin : Cast "central" "update_status" [PStr (demo_id "z"); PStr "SUCCESS"; PInt 7] ∈ log_of pm_run.2).
  { apply list_elem_of_In. vm_compute. tauto. }
  split; [exact Hin|].
  destruct (success_backed (H1 := MemcachePoolManagerCache 3600)
    (CacheLaws0 := MemcachePoolManagerCache_laws 3600 ltac:(lia))
    pm_pool pm_zone (pm_server "1") pm_attested) with "SUCCESS" (Some 7%Z) pm_state0 pm_run.1 pm_run.2
    as (_ & ms & Hlog & Hms).
  - intros ns a Hns Ha.
    change (nameservers pm_pool) with [pm_server "1"; pm_server "2"; pm_server "3"] in Hns. elem_cases Ha; elem_cases Hns; vm_compute; by repeat split.
  - vm_compute. apply list_elem_of_In. cbn. tauto.
  - by left.
  - intros ns host port rest log answer status n _ _ _ Hr Ha. unfold reply, pm_services, pm_reply in Hr.
    rewrite map_app in Hr. cbn [map] in Hr. rewrite List.last_last in Hr. injection Hr as <-. injection Ha as _ <-. by right.
  - vm_compute. by split.
  - vm_compute. reflexivity.
  - vm_compute. discriminate.
  - intros k v _ _ Hk. vm_compute in Hk. discriminate.
  - intros n [= <-]. by right.
  - unfold pm_run. by destruct (update_status _ _ _ _ _ _).
  - apply Hms. rewrite Hlog in Hin. exact Hin.
Defined.

Lemma pm_reply_caught h e : pm_reply h = Raise e -> caught e.
Proof. unfold pm_reply. intros Hr. repeat (case_match; simplify_eq); by split. Qed.
#[local] Instance pm_live : LiveServices := {| reply_comes := pm_reply_caught |}.
Lemma periodic_sync_settles_witness :
  let run := periodic_sync (H1 := MemcachePoolManagerCache 3600) pm_pool None (fun l => l) true pm_state0 in
  run.1 = Ok tt /\ length (log_of run.2) = 8%nat /\ List.last (log_of run.2) (error_report PNone) = error_report pm_zone /\
  (taken pm_pool [Cast "central" "find_zones" [PDict [("pool_id", PStr "service:pool_manager.pool_id"); ("status", PStr "!ERROR")]]]
     (log_of run.2) pm_zone \/ error_report pm_zone ∈ log_of run.2).
Proof.
  destruct (_fetch_healthy_zones (St := client) None pm_state0) as [r s1] eqn:Hf.
  assert (Hr : r = Ok [pm_zone]) by (apply (f_equal fst) in Hf; vm_compute in Hf; by rewrite <- Hf). subst r.
  assert (Hl : log_of s1 = [Cast "central" "find_zones" [PDict [("pool_id", PStr "service:pool_manager.pool_id"); ("status", PStr "!ERROR")]]])
    by (apply (f_equal snd) in Hf; vm_compute in Hf; by rewrite <- Hf).
  edestruct (periodic_sync_settles (H2 := MemcachePoolManagerCache 3600) pm_pool None (fun l => l))
    with (zones := [pm_zone]) (s := pm_state0) (s1 := s1) as (s' & Hrun & Hz).
  - intros now ns z a c e c'. cbn. unfold Memcache_retrieve, lookup_key, bind, client_get, raise, ret.
    repeat case_match; intros; simplify_eq; by split.
  - intros now st c e c'. by intros [=].
  - intros log args. eexists. unfold reply, pm_services, pm_reply. rewrite map_app. cbn [map].
    rewrite List.last_last. reflexivity.
  - vm_compute. reflexivity.
  - vm_compute. reflexivity.
  - vm_compute. reflexivity.
  - done.
  - exact Hf.
  - cbv zeta. split; [by rewrite Hrun|]. split; [vm_compute; reflexivity|]. split; [vm_compute; reflexivity|].
    rewrite Hrun. cbn [snd]. rewrite <- Hl. apply Hz. by left.
Defined.
