(* ===== verification/Zdns.v ===== *)
(** * The backend of the ZDNS servers (designate/backend/base.py, impl_zdns.py)

    What a backend reads from its target, and the driver named cms, which speaks HTTPS
    with a server that keeps views, zones, records and ACLs. A request is a message to
    the URL with the verb as its method; the answer is the JSON the server returns. *)
From Stdlib Require Import ZArith Lia Ascii String.
From stdpp Require Import base option numbers strings sets list.
From S2P Require Import Prelude PyStr Exceptions Values Objects Utils Classes World Sql Storage.
Local Open Scope string_scope.

Section Zdns.
Context `{Env} `{Services}.

(** ** The base class (backend/base.py) *)

(** [self.options.get(key)], a list of keys and values *)
Definition option_of (target : pyval) (key : string) : R (option pyval) :=
  let? options := getattr registry target "options" in Ok (attr_list_get (list_objects options) key).

Record Backend := {
  b_target : pyval; b_masters : pyval; b_host : pyval; b_port : Z; b_admin_context : context;
  b_timeout : Z; b_retry_interval : Z; b_max_retries : Z; b_delay : Z;
}.
(** [Backend.__init__] *)
Definition Backend_init (target : pyval) : R Backend :=
  let? masters := getattr registry target "masters" in
  let? host := option_of target "host" in
  let? port := option_of target "port" in
  let? port := int_of_val (default (PInt 53) port) in
  let? admin := get_admin_context false in
  let? admin := set_all_tenants true admin in
  Ok {| b_target := target; b_masters := masters; b_host := default (PStr "127.0.0.1") host; b_port := port;
        b_admin_context := admin; b_timeout := conf_int "service:pool_manager.poll_timeout";
        b_retry_interval := conf_int "service:pool_manager.poll_retry_interval";
        b_max_retries := conf_int "service:pool_manager.poll_max_retries";
        b_delay := conf_int "service:pool_manager.poll_delay" |}.
(** [Backend.update_zone], for drivers that do not have their own *)
Definition Backend_update_zone (b : Backend) (zone : pyval) : P world unit :=
  send (Cast "mdns" "notify_zone_changed"
    [zone; b_host b; PInt (b_port b); PInt (b_timeout b); PInt (b_retry_interval b);
     PInt (b_max_retries b); PInt (b_delay b)]).

(** ** The client (ZdnsClient) *)
Record ZdnsClient := { ip : pyval; auth : pyval * pyval; client_port : pyval }.

(** [+] of strings *)
Definition add_str (a b : pyval) : R pyval :=
  match a, b with PStr x, PStr y => Ok (PStr (x ++ y)) | _, _ => Raise (Py PyTypeError) end.
Definition url_of (c : ZdnsClient) (endpoint : string) : R string :=
  let? u := add_str (PStr "https://") (ip c) in
  let? u := add_str u (PStr ":") in
  let? u := add_str u (client_port c) in
  let? u := add_str u (PStr endpoint) in
  Ok (text u).
Definition http (verb : string) (c : ZdnsClient) (endpoint : string) (data : row) : P world pyval :=
  let! url := lift (url_of c endpoint) in
  raise_if (negb (jsonable (PDict data))) (Py PyTypeError) ;;;
  call url verb [PDict data; fst (auth c); snd (auth c)].
Definition client_post : ZdnsClient -> string -> row -> P world pyval := http "POST".
Definition client_delete : ZdnsClient -> string -> row -> P world pyval := http "DELETE".
Definition client_update : ZdnsClient -> string -> row -> P world pyval := http "PUT".

(** ** The driver (CMSBackend) *)
Record CMSBackend := {
  cms_base : Backend;
  cms_ip : pyval; cms_port : pyval; cms_username : pyval; cms_password : pyval;
  cms_owners : list string; cms_slaves : pyval;
}.
(** [CMSBackend.__init__] *)
Definition CMSBackend_init (target : pyval) : R CMSBackend :=
  let? base := Backend_init target in
  let get key := let? v := option_of target key in Ok (default PNone v) in
  let? ip := get "cms_ip" in
  let? port := get "cms_port" in
  let? username := get "cms_username" in
  let? password := get "cms_password" in
  let? owners := get "cms_owners" in
  let? owners := (match owners with PStr s => Ok (split_char ","%char s) | _ => Raise (Py PyAttributeError) end) in
  let? slaves := get "cms_slaves" in
  Ok {| cms_base := base; cms_ip := ip; cms_port := port; cms_username := username; cms_password := password;
        cms_owners := owners; cms_slaves := slaves |}.

Section Driver.
Variable self : CMSBackend.

Definition get_client : ZdnsClient :=
  {| ip := cms_ip self; auth := (cms_username self, cms_password self); client_port := cms_port self |}.
(** [check_response]: an answer that names an error is an exception. *)
Definition check_response (response : pyval) : P world pyval :=
  match response with
  | PDict d => if truthy (default PNone (aget "error" d)) then raise ZdnsErrMessage else ret response
  | _ => raise (Py PyAttributeError)
  end.
Definition current_user : string * pyval := ("current_user", cms_username self).
Definition owners_value : pyval := PList (map PStr (cms_owners self)).
(** [zone['name'][0:-1]]: without the last character *)
Definition relative_name (zone : pyval) : P world string :=
  let! name := attr zone "name" in
  match name with PStr s => ret (drop_last s) | _ => raise (Py PyTypeError) end.

Definition cms_create_zone (zone view_name : pyval) : P world pyval :=
  let! name := attr zone "name" in
  let! ttl := attr zone "ttl" in
  let data := [("name", name); ("owners", owners_value); ("default_ttl", ttl); ("slaves", cms_slaves self);
               ("renewal", PStr "yes"); current_user] in
  let! response := client_post get_client ("/views/" ++ text view_name ++ "/zones") data in
  check_response response.
Definition cms_delete_zone (zone view_name : pyval) : P world pyval :=
  let! name := relative_name zone in
  let! response := client_delete get_client ("/views/" ++ text view_name ++ "/zones/" ++ name) [current_user] in
  check_response response.
Definition cms_update_zone (zone view_name : pyval) : P world pyval :=
  let! ttl := attr zone "ttl" in
  let data := [("default_ttl", PStr (text ttl)); ("renewal", PStr "yes"); current_user] in
  let! name := relative_name zone in
  let! response := client_update get_client ("/views/" ++ text view_name ++ "/zones/" ++ name) data in
  check_response response.

Definition cms_create_record (zone record recordset view_name : pyval) : P world pyval :=
  let! name := attr recordset "name" in
  let! type := attr recordset "type" in
  let! ttl := attr recordset "ttl" in
  let! rdata := attr record "data" in
  let data := [("name", name); ("type", type); ("ttl", ttl); ("rdata", rdata); ("klass", PStr "IN"); current_user] in
  let! zone_name := attr zone "name" in
  let! response := client_post get_client ("/views/" ++ text view_name ++ "/zones/" ++ text zone_name ++ "/rrs") data in
  check_response response.
Definition cms_update_record (zone record recordset view_name : pyval) : P world pyval :=
  let! ttl := attr record "ttl" in
  let! rdata := attr record "rdata" in
  let data := [("ttl", ttl); ("rdata", rdata); current_user] in
  let! zone_name := attr zone "name" in
  let! rr_id := attr record "rr_id" in
  let! response := client_update get_client
    ("/views/" ++ text view_name ++ "/zones/" ++ text zone_name ++ "/rrs/" ++ text rr_id) data in
  check_response response.
Definition cms_delete_record (zone rr_id view_name : pyval) : P world pyval :=
  let! zone_name := attr zone "name" in
  let! response := client_delete get_client
    ("/views/" ++ text view_name ++ "/zones/" ++ text zone_name ++ "/rrs/" ++ text rr_id) [current_user] in
  check_response response.

Definition cms_create_view (view acls : pyval) : P world pyval :=
  let! name := attr view "name" in
  let data := [("name", name); ("owners", owners_value); ("dns64s", PList []); ("acls", acls);
               ("fail_forwarder", PStr ""); current_user] in
  let! response := client_post get_client "/views" data in
  check_response response.
Definition cms_delete_view (view : pyval) : P world pyval :=
  let! name := attr view "name" in
  let! response := client_delete get_client ("/views/" ++ text name) [current_user] in
  check_response response.
Definition cms_update_view (view acls : pyval) : P world pyval :=
  let data := [("dns64s", PList []); ("acls", acls); ("fail_forwarder", PStr ""); current_user] in
  let! name := attr view "name" in
  let! response := client_update get_client ("/views/" ++ text name) data in
  check_response response.

Definition cms_create_acl (acl : pyval) : P world pyval :=
  let! name := attr acl "name" in
  let! networks := attr acl "networks" in
  let! response := client_post get_client "/acls" [("name", name); ("networks", networks); current_user] in
  check_response response.
Definition cms_delete_acl (acl : pyval) : P world pyval :=
  let! name := attr acl "name" in
  let! response := client_delete get_client ("/acls/" ++ text name) [current_user] in
  check_response response.
Definition cms_update_acl (acl : pyval) : P world pyval :=
  let! networks := attr acl "networks" in
  let data := [("networks", networks); current_user] in
  let! name := attr acl "name" in
  let! response := client_update get_client ("/acls/" ++ text name) data in
  check_response response.

(** The driver as an object: its methods by name. It has none for record sets. *)
Definition cms_call (method : string) (args : list pyval) : P world pyval :=
  match method, args with
  | "create_zone", [zone; view_name] => cms_create_zone zone view_name
  | "delete_zone", [zone; view_name] => cms_delete_zone zone view_name
  | "update_zone", [zone; view_name] => cms_update_zone zone view_name
  | "create_record", [zone; record; recordset; view_name] => cms_create_record zone record recordset view_name
  | "update_record", [zone; record; recordset; view_name] => cms_update_record zone record recordset view_name
  | "delete_record", [zone; rr_id; view_name] => cms_delete_record zone rr_id view_name
  | "create_view", [view; acls] => cms_create_view view acls
  | "delete_view", [view] => cms_delete_view view
  | "update_view", [view; acls] => cms_update_view view acls
  | "create_acl", [acl] => cms_create_acl acl
  | "delete_acl", [acl] => cms_delete_acl acl
  | "update_acl", [acl] => cms_update_acl acl
  | ("create_zone" | "delete_zone" | "update_zone" | "create_record" | "update_record" | "delete_record"
     | "create_view" | "delete_view" | "update_view" | "create_acl" | "delete_acl" | "update_acl"), _ =>
      raise (Py PyTypeError)
  | _, _ => raise (Py PyAttributeError)
  end.
End Driver.
End Zdns.
