(* ===== verification/WorkerViews.v ===== *)
(** * The worker: ACLs, views and NOTIFY (designate/worker/tasks/zone.py, utils.py, service.py)

    The tasks that carry ACLs and views to the backend of a pool's target and tell
    central what it answered, the task that sends a NOTIFY, and the methods of the
    service, which pick the pool and run a task. The backend of a target is a
    parameter, [drive]; Zdns.v has the one these tasks are for. *)
From Stdlib Require Import ZArith Lia String.
From stdpp Require Import base option numbers strings sets list.
From S2P Require Import Prelude PyStr Exceptions Values Objects Utils Classes World Sql Storage Worker CentralViews Zdns.
Local Open Scope string_scope.

Section Tasks.
Context `{Env} `{SqlEngine} `{Services} `{ThreadPool}.

(** ** [SendNotify] *)
Definition notify (zone_name host port : pyval) : P world pyval := call "dns" "NOTIFY" [zone_name; host; port].
Definition SendNotify (zone target : pyval) : P world bool :=
  if (conf_int "service:worker.notify" =? 0)%Z then ret true
  else
    let! host := lift (option_of target "host") in
    let! port := lift (option_of target "port") in
    let! port := lift (int_of_val (default PNone port)) in
    let! name := attr zone "name" in
    notify name (default PNone host) (PInt port) ;;; ret true.

(** [self.target.backend.<method>(...)] *)
Variable drive : pyval -> string -> list pyval -> P world pyval.

(** ** [AclAction]

    The handler of the task logs and raises again. *)
Definition reraised {A} (m : P world A) : P world A := try_except m (except_exception (fun e => raise e)).
Definition _create_zdns_acl (target acl response : pyval) : P world unit :=
  let! user := lift (option_of target "cms_username") in
  match response with
  | PDict d => on_central "create_zdns_acl" [acl; PDict (aset "current_users" (default PNone user) d)] ;;; ret tt
  | _ => raise (Py PyTypeError)
  end.
Definition _update_zdns_acl (acl response : pyval) : P world unit :=
  on_central "update_zdns_acl" [acl; response] ;;; ret tt.
Definition _delete_zdns_acl (acl : pyval) : P world unit := on_central "delete_zdns_acl" [acl] ;;; ret tt.
Definition AclAction (pool acl : pyval) (action : string) : P world bool :=
  let! target := lift (first_target pool) in
  validate_action action ;;;
  reraised
    (if String.eqb action "CREATE" then
       let! response := drive target "create_acl" [acl] in _create_zdns_acl target acl response
     else if String.eqb action "UPDATE" then
       let! response := drive target "update_acl" [acl] in _update_zdns_acl acl response
     else if String.eqb action "DELETE" then
       drive target "delete_acl" [acl] ;;; _delete_zdns_acl acl
     else ret tt) ;;;
  ret true.

(** ** [ViewAction]

    What central is told of a view that the backend has made. *)
Definition _get_zdns_view_info (response : pyval) : R row :=
  let? name := item response "name" in
  let? dns64s := item response "dns64s" in
  let? acls := item response "acls" in
  let? owners := item response "owners" in
  let? fail_forwarder := item response "fail_forwarder" in
  let? priority := item response "priority" in
  let? query_source := item response "query_source" in
  let? href := item response "href" in
  let? zones := item response "zones" in
  let? comment := item response "comment" in
  Ok [("id", PStr ""); ("name", name); ("dns64s", dns64s); ("acls", acls); ("owners", owners);
      ("fail_forwarder", fail_forwarder); ("current_users", PStr ""); ("priority", priority);
      ("query_source", query_source); ("href", href); ("zones", zones); ("comment", comment)].
Definition _create_zdns_view_info (view response : pyval) : P world pyval :=
  let! info := lift (_get_zdns_view_info response) in
  let! id := generate_uuid in
  on_central "create_zdns_view_info" [PDict (aset "id" (PStr id) info); view].
(** An action that is none of the three leaves the local variable [view] unset. *)
Definition ViewAction (pool view : pyval) (action : string) (acls : pyval) : P world pyval :=
  let! target := lift (first_target pool) in
  let! result := reraised
    (if String.eqb action "CREATE" then
       let! response := drive target "create_view" [view; acls] in
       let! view := _create_zdns_view_info view response in ret (Some view)
     else if String.eqb action "UPDATE" then
       drive target "update_view" [view; acls] ;;; ret (Some view)
     else if String.eqb action "DELETE" then
       drive target "delete_view" [view] ;;; ret (Some (PBool true))
     else ret None) in
  match result with Some v => ret v | None => raise (Py PyUnboundLocalError) end.

(** ** The service: [fuel] bounds how often it asks central for a pool *)
Section Service.
Variable fuel : nat.
Definition with_pool {A} (o : pyval) (task : pyval -> P world A) : P sstate (list A) :=
  let! id := pool_id_of o in
  let! pool := get_pool fuel id in
  let! r := on_service (task pool) in ret [r].
Definition _do_acl_action (acl : pyval) (action : string) : P sstate (list bool) :=
  with_pool acl (fun pool => AclAction pool acl action).
Definition _do_view_action (view : pyval) (action : string) (acls : pyval) : P sstate (list pyval) :=
  with_pool view (fun pool => ViewAction pool view action acls).

Definition worker_create_zone : pyval -> P sstate (list bool) := _do_zone_action fuel.
Definition worker_update_zone : pyval -> P sstate (list bool) := _do_zone_action fuel.
Definition worker_delete_zone : pyval -> P sstate (list bool) := _do_zone_action fuel.
Definition worker_recover_shard (ctx : context) (begin_shard end_shard : Z) : P sstate (list pyval) :=
  on_service (RecoverShard ctx begin_shard end_shard) ;;; ret [PNone].
Definition worker_start_zone_export (ctx : context) (zone export : pyval) : P sstate (list pyval) :=
  on_service (ExportZone ctx zone export) ;;; ret [PNone].
Definition worker_create_recordset : pyval -> pyval -> P sstate (list bool) := _do_recordset_action fuel.
Definition worker_delete_recordset : pyval -> pyval -> P sstate (list bool) := _do_recordset_action fuel.
Definition worker_update_recordset : pyval -> pyval -> P sstate (list bool) := _do_recordset_action fuel.
Definition worker_create_record : pyval -> pyval -> pyval -> P sstate (list pyval) := _do_record_action fuel.
Definition worker_delete_record : pyval -> pyval -> pyval -> P sstate (list pyval) := _do_record_action fuel.
Definition worker_update_record : pyval -> pyval -> pyval -> P sstate (list pyval) := _do_record_action fuel.
Definition worker_create_view (view acls : pyval) : P sstate (list pyval) := _do_view_action view "CREATE" acls.
Definition worker_delete_view (view : pyval) : P sstate (list pyval) := _do_view_action view "DELETE" (PList []).
Definition worker_update_view (acls view : pyval) : P sstate (list pyval) := _do_view_action view "UPDATE" acls.
Definition worker_create_acl (acl : pyval) : P sstate (list bool) := _do_acl_action acl "CREATE".
Definition worker_update_acl (acl : pyval) : P sstate (list bool) := _do_acl_action acl "UPDATE".
Definition worker_delete_acl (acl : pyval) : P sstate (list bool) := _do_acl_action acl "DELETE".
End Service.
End Tasks.

(** ** Targets with the driver of Zdns.v

    The service makes the driver of a target when it loads the pool; what the options
    hold then is what they hold when a task runs. *)
Section Linked.
Context `{Env} `{SqlEngine} `{Services}.
Definition cms_drive (target : pyval) (method : string) (args : list pyval) : P world pyval :=
  let! driver := lift (CMSBackend_init target) in cms_call driver method args.
End Linked.
