(* ===== verification/WorkerViewsFacts.v ===== *)
(** * Facts about ACL and view tasks over the ZDNS driver

    A task, run on a target whose backend is the driver cms: what goes to the server,
    what central is told of the answer, and what the caller gets. *)
From Stdlib Require Import ZArith Lia Ascii String.
From stdpp Require Import base option numbers strings sets list.
From S2P Require Import Prelude PyStr Exceptions Values Objects Utils Classes World Sql Storage Worker Tables CentralViews Zdns WorkerViews.
Local Open Scope string_scope.

Section Facts.
Context `{Env} `{SqlEngine} `{Services}.

(** Handlers that only log do not change what a task does. *)
Lemma reraised_same {A} (m : P world A) w : reraised m w = m w.
Proof.
  unfold reraised, try_except. destruct (m w) as [[a|e] w']; [done|].
  unfold except_exception. by destruct e as [| | | | | |?| | | | | | |?| | | | | | | | | |?|?| |?|?| | |[]].
Qed.

(** What the server said, as [check_response] reads it. *)
Definition server_answer (r : R pyval) : R row :=
  match r with
  | Ok (PDict d) => if truthy (default PNone (aget "error" d)) then Raise ZdnsErrMessage else Ok d
  | Ok _ => Raise (Py PyAttributeError)
  | Raise e => Raise e
  end.
Definition logged (l : list message) (w : world) : world := set_sent (app (w_sent w) l) w.
Lemma logged_twice l1 l2 w : logged l2 (logged l1 w) = logged (app l1 l2) w.
Proof. unfold logged. cbn. by rewrite app_assoc. Qed.

Section Server.
Variables (target : pyval) (self : CMSBackend) (ip port : string).
Definition at_server : Prop :=
  CMSBackend_init target = Ok self /\ cms_ip self = PStr ip /\ cms_port self = PStr port.
Definition request (verb endpoint : string) (data : row) : message :=
  Cast ("https://" ++ ip ++ ":" ++ port ++ endpoint) verb [PDict data; cms_username self; cms_password self].

Lemma append_assoc (a b c : string) : (a ++ b) ++ c = a ++ (b ++ c).
Proof. induction a as [|x a IH]; [done|]. cbn. by rewrite IH. Qed.
Lemma exchange_run verb endpoint data w : at_server -> jsonable (PDict data) = true ->
  bind (http verb (get_client self) endpoint data) (fun response => check_response response) w =
  (match server_answer (reply (app (w_sent w) [request verb endpoint data])) with
   | Ok d => Ok (PDict d) | Raise e => Raise e end, logged [request verb endpoint data] w).
Proof.
  intros (_ & Hip & Hport) Hj. unfold http, bind, lift, url_of, raise_if. cbn [get_client Zdns.ip client_port].
  rewrite Hip, Hport. cbn [add_str rbind text]. rewrite Hj. cbn [negb ret].
  unfold call, send, modify, bind, gets, lift. cbn [w_sent set_sent].
  rewrite !append_assoc. fold (request verb endpoint data). fold (logged [request verb endpoint data] w).
  destruct (reply _) as [[]|e]; try done. cbn. by destruct (truthy _).
Qed.
Lemma user_option : at_server -> exists v, option_of target "cms_username" = Ok v /\ default PNone v = cms_username self.
Proof.
  intros (Hi & _). unfold CMSBackend_init in Hi. destruct (Backend_init target); [|done]. cbn [rbind] in Hi.
  repeat (match type of Hi with context [option_of target ?k] => destruct (option_of target k) eqn:? end; [|done]; cbn [rbind] in Hi).
  destruct (default PNone a4); try done. cbn [rbind] in Hi. destruct (option_of target "cms_slaves"); [|done].
  cbn [rbind] in Hi. exists a2. by injection Hi as <-.
Qed.

(** The request an action stands for, and what central is told of the answer. *)
Definition acl_request (action : string) (name networks : pyval) : message :=
  if String.eqb action "CREATE" then
    request "POST" "/acls" [("name", name); ("networks", networks); current_user self]
  else if String.eqb action "UPDATE" then
    request "PUT" ("/acls/" ++ text name) [("networks", networks); current_user self]
  else request "DELETE" ("/acls/" ++ text name) [current_user self].
Definition acl_report (action : string) (acl : pyval) (answer : row) : message :=
  if String.eqb action "CREATE" then
    Cast "central" "create_zdns_acl" [acl; PDict (aset "current_users" (cms_username self) answer)]
  else if String.eqb action "UPDATE" then Cast "central" "update_zdns_acl" [acl; PDict answer]
  else Cast "central" "delete_zdns_acl" [acl].
Definition view_request (action : string) (name acls : pyval) : message :=
  if String.eqb action "CREATE" then
    request "POST" "/views" [("name", name); ("owners", owners_value self); ("dns64s", PList []); ("acls", acls);
                             ("fail_forwarder", PStr ""); current_user self]
  else if String.eqb action "UPDATE" then
    request "PUT" ("/views/" ++ text name) [("dns64s", PList []); ("acls", acls); ("fail_forwarder", PStr ""); current_user self]
  else request "DELETE" ("/views/" ++ text name) [current_user self].

(** A call of central that a task ends with. *)
Definition told {A} (w : world) (m : message) (k : pyval -> A) : res exc A * world :=
  (match reply (app (w_sent w) [m]) with Ok v => Ok (k v) | Raise e => Raise e end, logged [m] w).
Lemma told_spec {A} w m (k : pyval -> A) : exists w',
  told w m k = (match reply (w_sent w') with Ok v => Ok (k v) | Raise e => Raise e end, w') /\
  w_sent w' = app (w_sent w) [m] /\ w_db w' = w_db w.
Proof. by exists (logged [m] w). Qed.
Lemma on_central_run {A} method args (k : pyval -> A) w :
  bind (on_central method args) (fun v => ret (k v)) w = told w (Cast "central" method args) k.
Proof. unfold on_central, call, told, send, modify, bind, gets, lift, ret. cbn. by destruct (reply _). Qed.

(** What a task makes of the server's answer: an exception is passed on, and an answer
    without error leads to what the task does next. *)
Definition carried_out {A} (w : world) (sent : message) (next : row -> P world A) : res exc A * world :=
  match server_answer (reply (app (w_sent w) [sent])) with
  | Raise e => (Raise e, logged [sent] w)
  | Ok answer => next answer (logged [sent] w)
  end.
Lemma exchange_then {A} verb endpoint data (next : pyval -> P world A) w :
  at_server -> jsonable (PDict data) = true ->
  bind (let! response := http verb (get_client self) endpoint data in check_response response) next w =
  carried_out w (request verb endpoint data) (fun d => next (PDict d)).
Proof.
  intros Hs Hj. unfold bind at 1. rewrite (exchange_run _ _ _ _ Hs Hj). unfold carried_out. by destruct (server_answer _).
Qed.
Lemma attr_ok o n v (w : world) : getattr registry o n = Ok v -> attr o n w = (Ok v, w).
Proof. intros Hg. unfold attr, lift. by rewrite Hg. Qed.
Lemma drive_run method args w : at_server -> cms_drive target method args w = cms_call self method args w.
Proof. intros (Hi & _). unfold cms_drive, bind, lift. by rewrite Hi. Qed.
Lemma bind_same {S A B} (m m' : P S A) (f : A -> P S B) s : m s = m' s -> bind m f s = bind m' f s.
Proof. intros Hm. unfold bind. by rewrite Hm. Qed.

Section Object.
Variables (o name : pyval).
Hypothesis named : getattr registry o "name" = Ok name.
Hypothesis name_json : jsonable name = true.
Hypothesis served : at_server.
Hypothesis user_json : jsonable (cms_username self) = true.

Lemma owners_json : jsonable (owners_value self) = true.
Proof. cbn. by induction (cms_owners self). Qed.

(** A method of the driver that ends in one request. *)
Lemma method_then {A} method args verb endpoint data (next : pyval -> P world A) w :
  jsonable (PDict data) = true ->
  cms_call self method args w =
    bind (http verb (get_client self) endpoint data) (fun response => check_response response) w ->
  bind (cms_drive target method args) next w =
  carried_out w (request verb endpoint data) (fun d => next (PDict d)).
Proof.
  intros Hj Hm. rewrite (bind_same _ _ _ _ (drive_run method args w served)), (bind_same _ _ _ _ Hm).
  by apply exchange_then.
Qed.
Lemma carried_out_ext {A} w sent (f g : row -> P world A) :
  (forall d w, f d w = g d w) -> carried_out w sent f = carried_out w sent g.
Proof. intros Hfg. unfold carried_out. by destruct (server_answer _). Qed.
Lemma bind_bind {A B C} (m : P world A) (f : A -> P world B) (g : B -> P world C) w :
  bind (bind m f) g w = bind m (fun a => bind (f a) g) w.
Proof. unfold bind. by destruct (m w) as [[a|e] w']. Qed.

(** An action on an ACL is one request; central is told of the answer, if it is no error. *)
Lemma acl_action_run pool networks action w :
  first_target pool = Ok target -> action ∈ ["CREATE"; "UPDATE"; "DELETE"] ->
  getattr registry o "networks" = Ok networks -> jsonable networks = true ->
  AclAction cms_drive pool o action w =
  carried_out w (acl_request action name networks) (fun answer w => told w (acl_report action o answer) (fun _ => true)).
Proof.
  intros Ht Ha Hnets Hj. unfold AclAction. unfold bind at 1, lift at 1. rewrite Ht.
  assert (Hv : validate_action action w = (Ok tt, w)).
  { unfold validate_action. by rewrite (proj2 (mem_str_elem _ _) Ha). }
  unfold bind at 1. rewrite Hv. rewrite (bind_same _ _ _ _ (reraised_same _ w)).
  destruct (user_option served) as (u & Hu & Hu').
  elem_cases Ha; cbn [String.eqb Ascii.eqb Bool.eqb]; rewrite bind_bind; unfold acl_request, acl_report;
    cbn [String.eqb Ascii.eqb Bool.eqb]; (erewrite method_then; [apply carried_out_ext; intros d w'|..]).
  all: try (cbn [jsonable forallb snd current_user]; by rewrite ?name_json, ?Hj, ?user_json).
  all: try (cbn [cms_call]; unfold cms_create_acl, cms_update_acl, cms_delete_acl;
            repeat (rewrite (bind_same _ _ _ _ (attr_ok _ _ _ _ named)) || rewrite (bind_same _ _ _ _ (attr_ok _ _ _ _ Hnets)));
            unfold bind, ret; cbn; rewrite ?named, ?Hnets; reflexivity).
  all: cbv beta; unfold _create_zdns_acl, _update_zdns_acl, _delete_zdns_acl.
  - rewrite bind_bind. unfold bind at 1, lift at 1. rewrite Hu, Hu'. rewrite bind_bind. apply (on_central_run _ _ (fun _ => true)).
  - rewrite bind_bind. apply (on_central_run _ _ (fun _ => true)).
  - rewrite bind_bind. apply (on_central_run _ _ (fun _ => true)).
Qed.
(** What a view task does with an answer without error. *)
Definition view_next (action : string) (answer : row) : P world pyval := fun w =>
  if String.eqb action "CREATE" then
    match _get_zdns_view_info (PDict answer) with
    | Raise e => (Raise e, w)
    | Ok info => told (set_uuids (S (w_uuids w)) w)
        (Cast "central" "create_zdns_view_info" [PDict (aset "id" (PStr (uuid4 (w_uuids w))) info); o]) (fun v => v)
    end
  else if String.eqb action "UPDATE" then (Ok o, w) else (Ok (PBool true), w).
Lemma view_action_run pool acls action w :
  first_target pool = Ok target -> action ∈ ["CREATE"; "UPDATE"; "DELETE"] -> jsonable acls = true ->
  ViewAction cms_drive pool o action acls w = carried_out w (view_request action name acls) (view_next action).
Proof.
  intros Ht Ha Hj. unfold ViewAction. unfold bind at 1, lift at 1. rewrite Ht.
  rewrite (bind_same _ _ _ _ (reraised_same _ w)). pose proof owners_json as Ho.
  elem_cases Ha; cbn [String.eqb Ascii.eqb Bool.eqb]; rewrite bind_bind; unfold view_request, view_next;
    cbn [String.eqb Ascii.eqb Bool.eqb]; (erewrite method_then; [apply carried_out_ext; intros d w'|..]).
  all: try (cbn [jsonable forallb snd current_user]; by rewrite ?name_json, ?Hj, ?Ho, ?user_json).
  all: try (cbn [cms_call]; unfold cms_create_view, cms_update_view, cms_delete_view;
            rewrite (bind_same _ _ _ _ (attr_ok _ _ _ _ named)); reflexivity).
  1: cbv beta; rewrite bind_bind; unfold _create_zdns_view_info; rewrite bind_bind; unfold bind at 1, lift at 1.
  all: try reflexivity.
  - destruct (_get_zdns_view_info _) as [info|e]; [|done]. rewrite bind_bind. unfold bind at 1, generate_uuid.
    unfold bind at 1 2, gets, modify, ret. apply (on_central_run _ _ (fun v => v)).
  - change (jsonable name && (jsonable (owners_value self) && (true && (jsonable acls && (true &&
              (jsonable (cms_username self) && true))))) = true).
    rewrite name_json, Hj, user_json. exact (proj2 (andb_true_iff _ _) (conj Ho eq_refl)).
Qed.

(** ** What both kinds of task promise *)
Inductive job := AclJob (networks : pyval) | ViewJob (acls : pyval).
Definition run_job (pool : pyval) (j : job) (action : string) : P world pyval :=
  match j with
  | AclJob _ => let! done := AclAction cms_drive pool o action in ret (PBool done)
  | ViewJob acls => ViewAction cms_drive pool o action acls
  end.
Definition job_ok (j : job) : Prop :=
  match j with
  | AclJob networks => getattr registry o "networks" = Ok networks /\ jsonable networks = true
  | ViewJob acls => jsonable acls = true
  end.
Definition job_request (j : job) (action : string) : message :=
  match j with
  | AclJob networks => acl_request action name networks
  | ViewJob acls => view_request action name acls
  end.
(** What central is to hear of an answer. *)
Definition job_report (j : job) (action : string) (id : string) (answer : row) : R (option message) :=
  match j with
  | AclJob _ => Ok (Some (acl_report action o answer))
  | ViewJob _ =>
      if String.eqb action "CREATE" then
        let? info := _get_zdns_view_info (PDict answer) in
        Ok (Some (Cast "central" "create_zdns_view_info" [PDict (aset "id" (PStr id) info); o]))
      else Ok None
  end.
Definition job_result (j : job) (action : string) (heard : pyval) : pyval :=
  match j with
  | AclJob _ => PBool true
  | ViewJob _ => if String.eqb action "CREATE" then heard else if String.eqb action "UPDATE" then o else PBool true
  end.
End Object.

(** Central hears of a change of an ACL or a view only what the server answered
    without error. A task sends the server one request; if that fails, or the answer
    names an error, or lacks what central is to be told, the caller gets the exception
    and central hears nothing. Otherwise central gets one message, or none for changes of
    a view it needs no answer for, and the caller gets the result, or central's
    exception, in which case the server has made a change that central did not record.
    The database of the worker is untouched. *)
Theorem server_before_central o name pool j action w :
  at_server -> first_target pool = Ok target -> action ∈ ["CREATE"; "UPDATE"; "DELETE"] ->
  getattr registry o "name" = Ok name -> jsonable name = true -> jsonable (cms_username self) = true -> job_ok o j ->
  let sent := job_request name j action in
  let '(r, w') := run_job o pool j action w in
  w_db w' = w_db w /\
  match server_answer (reply (app (w_sent w) [sent])) with
  | Raise e => r = Raise e /\ w_sent w' = app (w_sent w) [sent]
  | Ok answer =>
      match job_report o j action (uuid4 (w_uuids w)) answer with
      | Raise e => r = Raise e /\ w_sent w' = app (w_sent w) [sent]
      | Ok None => r = Ok (job_result o j action PNone) /\ w_sent w' = app (w_sent w) [sent]
      | Ok (Some report) =>
          w_sent w' = app (w_sent w) [sent; report] /\
          r = (match reply (w_sent w') with Ok v => Ok (job_result o j action v) | Raise e => Raise e end)
      end
  end.
Proof.
  intros Hs Ht Ha Hn Hj Hu Hok sent. destruct j as [networks|acls]; cbn [run_job job_request job_report] in *.
  - destruct Hok as [Hnets Hjn]. unfold bind.
    rewrite (acl_action_run o name Hn Hj Hs Hu pool networks action w Ht Ha Hnets Hjn). subst sent.
    unfold carried_out. destruct (server_answer _) as [answer|e]; [|done]. unfold job_result.
    destruct (told_spec (logged [acl_request action name networks] w) (acl_report action o answer) (fun _ => true))
      as (w' & -> & Hsent & Hdb). cbn in Hsent. rewrite <- app_assoc in Hsent. destruct (reply (w_sent w')) eqn:He; cbn; by rewrite He.
  - rewrite (view_action_run o name Hn Hj Hs Hu pool acls action w Ht Ha Hok). subst sent.
    unfold carried_out. destruct (server_answer _) as [answer|e]; [|done]. unfold view_next, job_report, job_result.
    destruct (String.eqb action "CREATE"); [|by destruct (String.eqb action "UPDATE")].
    destruct (_get_zdns_view_info _) as [info|e]; [|done]. cbn [rbind].
    match goal with |- context [told ?w1 ?m ?k] => destruct (told_spec w1 m k) as (w' & -> & Hsent & Hdb) end.
    cbn in Hsent. by rewrite <- app_assoc in Hsent.
Qed.
End Server.
End Facts.

(** ** An example: a server that takes an ACL *)
Definition options_value (l : list (string * string)) : pyval :=
  PObj "PoolTargetOptionList"
    [("objects", PList (map (fun kv => PObj "PoolTargetOption" [("key", PStr kv.1); ("value", PStr kv.2)] [] []) l))] [] [].
Definition zdns_target : pyval :=
  PObj "PoolTarget" [("id", PStr "t1"); ("masters", PNone);
    ("options", options_value [("cms_ip", "192.0.2.1"); ("cms_port", "20120"); ("cms_username", "admin");
                               ("cms_password", "secret"); ("cms_owners", "a,b")])] [] [].
Definition zdns_pool : pyval :=
  PObj "Pool" [("id", PStr "p1"); ("targets", PObj "PoolTargetList" [("objects", PList [zdns_target])] [] [])] [] [].
Definition office_acl : pyval :=
  PObj "Acl" [("id", PStr "a1"); ("name", PStr "office"); ("networks", PList [PStr "192.0.2.0/24"])] [] [].
#[local] Existing Instances ref_env ref_engine.
#[local] Instance taking : Services :=
  {| reply := fun h => match last h with
                       | Some (Cast _ "POST" _) => Ok (PDict [("id", PStr "office"); ("networks", PList [PStr "192.0.2.0/24"])])
                       | _ => Ok PNone
                       end |}.
Lemma server_before_central_witness :
  exists self r w', CMSBackend_init zdns_target = Ok self /\
    run_job office_acl zdns_pool (AclJob (PList [PStr "192.0.2.0/24"])) "CREATE" (ref_world []) = (r, w') /\
    w_sent w' =
      [request self "192.0.2.1" "20120" "POST" "/acls"
         [("name", PStr "office"); ("networks", PList [PStr "192.0.2.0/24"]); ("current_user", PStr "admin")];
       Cast "central" "create_zdns_acl" [office_acl;
         PDict [("id", PStr "office"); ("networks", PList [PStr "192.0.2.0/24"]); ("current_users", PStr "admin")]]] /\
    r = Ok (PBool true).
Proof.
  destruct (CMSBackend_init zdns_target) as [self|e] eqn:Hi; [|by vm_compute in Hi].
  pose proof (server_before_central zdns_target self "192.0.2.1" "20120" office_acl (PStr "office") zdns_pool
    (AclJob (PList [PStr "192.0.2.0/24"])) "CREATE" (ref_world [])) as Hc.
  assert (Hself : cms_ip self = PStr "192.0.2.1" /\ cms_port self = PStr "20120" /\ cms_username self = PStr "admin").
  { vm_compute in Hi. injection Hi as <-. done. }
  destruct Hself as (Hip & Hport & Huser). exists self.
  destruct (run_job _ _ _ _ _) as [r w'] eqn:Hrun. exists r, w'.
  destruct Hc as (_ & Hsent & Hr); [done|done|set_solver|done|done|by rewrite Huser|done|].
  split_and!; try done; [|by rewrite Hr, Hsent].
  rewrite Hsent. cbn. unfold current_user, acl_report. by rewrite Huser.
Defined.
