(* ===== verification/Sink.v ===== *)
(** * The sink (designate/sink/service.py, notification_handler/)

    Other services announce instances and floating IPs; the handlers keep address records
    for them through central. A handler is a record of its operations, so that the sink's
    dispatch does not depend on which handlers are enabled. *)
From Stdlib Require Import ZArith Lia Ascii String.
From stdpp Require Import base option numbers strings sets list.
From S2P Require Import Prelude PyStr Exceptions Values Objects Utils Classes World Sql Storage Worker CentralViews Tables CentralRecords.
Local Open Scope string_scope.

(** ** Text *)

(** [fmt % data] for a dictionary: [%(key)s] and [%%]; what else may follow a percent
    sign is refused here. A missing key is a KeyError. *)
Fixpoint percent (fmt : string) (data : row) : R string :=
  match fmt with
  | EmptyString => Ok ""
  | String "%" (String "%" rest) => let? s := percent rest data in Ok (String "%" s)
  | String "%" (String "(" rest) => key_then "" rest data
  | String "%" _ => Raise (Py PyValueError)
  | String c rest => let? s := percent rest data in Ok (String c s)
  end
with key_then (key fmt : string) (data : row) : R string :=
  match fmt with
  | String ")" (String "s" rest) =>
      match aget (srev key) data with
      | Some v => let? s := percent rest data in Ok (text v ++ s)
      | None => Raise (Py PyKeyError)
      end
  | String ")" _ | EmptyString => Raise (Py PyValueError)
  | String c rest => key_then (String c key) rest data
  end.

(** [name.encode('idna')]: an ASCII label stays as it is, if it has 1 to 63 characters. *)
Section Sink.
Context `{Env} `{SqlEngine} `{Services}.
(** the encoding of labels that are not ASCII *)
Variable to_ascii : string -> R string.
Definition is_ascii (s : string) : bool := forallb (fun c => (nat_of_ascii c <? 128)%nat) (list_ascii_of_string s).
Definition ToASCII (label : string) : R string :=
  if is_ascii label then
    if (1 <=? String.length label)%nat && (String.length label <=? 63)%nat then Ok label else Raise (Py PyValueError)
  else to_ascii label.
Definition idna (name : string) : R string :=
  match name with
  | EmptyString => Ok ""
  | _ =>
      let labels := split_char "."%char name in
      let? encoded := rmap ToASCII (if String.eqb (List.last labels "x") "" then removelast labels else labels) in
      Ok (join "." (if String.eqb (List.last labels "x") "" then app encoded [""] else encoded))
  end.

(** [re.split('::|:', ip)] *)
Fixpoint split_colons (s : string) : list string :=
  match s with
  | EmptyString => [""]
  | String ":" (String ":" rest) | String ":" rest => "" :: split_colons rest
  | String c rest => match split_colons rest with
                     | [] => [String c ""]
                     | w :: ws => String c w :: ws
                     end
  end.
(** [s.replace(c, '-')] for a character [c] *)
Definition dashed (c : ascii) (s : string) : string := join "-" (split_char c s).

(** ** Handlers (notification_handler/base.py) *)

(** The options of a handler's group. *)
Record hconf := {
  c_zone_id : pyval; c_formatv4 : list string; c_formatv6 : list string; c_format : list string;
  c_control_exchange : string; c_notification_topics : list string;
}.
(** [NotificationHandler]: the payload a handler has worked on may have changed. *)
Record NotificationHandler := {
  plugin_name : string;
  get_exchange_topics : string * list string;
  get_event_types : list string;
  process_notification : row -> string -> pyval -> P world pyval;
}.
Definition __plugin_type__ : string := "handler".
Definition default_formatv4 : list string := ["%(hostname)s.%(domain)s"].
Definition default_formatv6 : list string := ["%(hostname)s.%(domain)s"].

Definition get_zone (zone_id : pyval) : P world pyval :=
  let! _ := lift (get_admin_context true) in on_central "get_zone" [zone_id].
Definition _find_or_create_recordset (zone_id : pyval) (name type : string) (ttl : pyval) : P world pyval :=
  let! name := lift (idna name) in
  let! recordset := lift (new_obj registry "RecordSet" [("name", PStr name); ("type", PStr type); ("ttl", ttl)]) in
  try_except (on_central "create_recordset" [zone_id; recordset])
    (on (Duplicate DuplicateRecordSet)
       (on_central "find_recordset" [PDict [("zone_id", zone_id); ("name", PStr name); ("type", PStr type)]])).

(** ** Address handlers *)

Definition first_or (a b c : list string) : list string :=
  match a with [] => (match b with [] => c | _ => b end) | _ => a end.
Definition _get_formatv4 (conf : hconf) : list string := first_or (c_formatv4 conf) (c_format conf) default_formatv4.
Definition _get_formatv6 (conf : hconf) : list string := first_or (c_formatv6 conf) (c_format conf) default_formatv6.

(** [data["octet%s" % i] = ip_data[i]] *)
Fixpoint octets (i : Z) (parts : list string) : row :=
  match parts with [] => [] | p :: rest => ("octet" ++ str_of_Z i, PStr p) :: octets (i + 1) rest end.
Definition str_value (v : pyval) : R string := match v with PStr s => Ok s | _ => Raise (Py PyAttributeError) end.
Definition is_version (n : Z) (v : pyval) : bool := py_eq v (PInt n).
Definition _get_ip_data (addr : pyval) : R row :=
  let? ip := item addr "address" in
  let? version := item addr "version" in
  if is_version 4 version then
    let? ip := str_value ip in
    let parts := split_char "."%char ip in
    if (length parts <? 4)%nat then Raise (Py PyIndexError)
    else Ok (app [("ip_version", version); ("ip_address", PStr (dashed "."%char ip))] (octets 0 (take 4 parts)))
  else if is_version 6 version then
    let? ip := str_value ip in
    Ok (app [("ip_version", version); ("ip_address", PStr (dashed ":"%char ip))] (octets 0 (split_colons ip)))
  else Ok [("ip_version", version)].
(** [d.update(e)] *)
Definition dict_update (d e : row) : row := foldl (fun d kv => aset kv.1 kv.2 d) d e.

(** [DesignateContext()], elevated, to see all tenants and edit managed records *)
Definition new_context : context :=
  {| tenant := None; user := None; is_admin := false; roles := []; original_tenant := None; all_tenants := false;
     abandon := false; edit_managed_records := false; hide_counts := false; show_deleted := false; tsigkey_id := None |}.
Definition handler_context : R context :=
  let? c := elevated None false false new_context in
  let? c := set_all_tenants true c in set_edit_managed true c.

Section Handler.
Variables (conf : hconf) (name : string).
(** [_get_ip_data] of the class *)
Variable ip_data : pyval -> R row.

(** The marks of a managed record. *)
Definition marks (managed : bool) (resource_type resource_id : pyval) : row :=
  if managed then
    [("managed", PBool managed); ("managed_plugin_name", PStr name); ("managed_plugin_type", PStr __plugin_type__);
     ("managed_resource_type", resource_type); ("managed_resource_id", resource_id)]
  else [].
Definition create_one (zone addr : pyval) (event_data : row) (managed : bool) (resource_type resource_id : pyval)
    (fmt : string) : P world unit :=
  let! zone_id := lift (item zone "id") in
  let! rname := lift (percent fmt event_data) in
  let! version := lift (item addr "version") in
  let! recordset := _find_or_create_recordset zone_id rname (if is_version 4 version then "A" else "AAAA") PNone in
  let! address := lift (item addr "address") in
  let! record := lift (new_obj registry "Record" (("data", address) :: marks managed resource_type resource_id)) in
  let! recordset_id := lift (item recordset "id") in
  on_central "create_record" [zone_id; recordset_id; record] ;;; ret tt.
Definition _create (addresses : list pyval) (extra : row) (zone_id : pyval) (managed : bool)
    (resource_type resource_id : pyval) : P world unit :=
  let! zone := get_zone zone_id in
  let! zone_name := lift (item zone "name") in
  let data := aset "zone" zone_name extra in
  let! _ := lift handler_context in
  mfor addresses (fun addr =>
    let! ip := lift (ip_data addr) in
    let event_data := dict_update data ip in
    let! version := lift (item addr "version") in
    mfor (if is_version 4 version then _get_formatv4 conf else _get_formatv6 conf)
      (create_one zone addr event_data managed resource_type resource_id)).

Definition delete_criterion (criterion : row) (zone_id : pyval) (managed : bool) (resource_id resource_type : pyval) : row :=
  let c := aset "zone_id" zone_id criterion in
  if managed then
    dict_update c
      [("managed", PBool managed); ("managed_plugin_name", PStr name); ("managed_plugin_type", PStr __plugin_type__);
       ("managed_resource_id", resource_id); ("managed_resource_type", resource_type)]
  else c.
Definition delete_one (zone_id record : pyval) : P world unit :=
  let! recordset_id := lift (item record "recordset_id") in
  let! id := lift (item record "id") in
  on_central "delete_record" [zone_id; recordset_id; id] ;;; ret tt.
Definition _delete (zone_id : pyval) (managed : bool) (resource_id resource_type : pyval) (criterion : row) : P world unit :=
  let! _ := lift handler_context in
  let! records := on_central "find_records" [PDict (delete_criterion criterion zone_id managed resource_id resource_type)] in
  mfor (list_objects records) (delete_one zone_id).
End Handler.

(** [payload[key] = v] *)
Definition put (o : pyval) (key : string) (v : pyval) : R pyval :=
  match o with PDict d => Ok (PDict (aset key v d)) | _ => Raise (Py PyTypeError) end.
Definition dict_of (o : pyval) : R row := match o with PDict d => Ok d | _ => Raise (Py PyAttributeError) end.
Definition list_of (o : pyval) : R (list pyval) := match o with PList l => Ok l | _ => Raise (Py PyTypeError) end.
Definition project_of (ctx : row) : pyval := default PNone (aget "project_name" ctx).

(** ** Instances (nova.py) *)
Definition nova_ip_data (addr : pyval) : R row :=
  let? data := _get_ip_data addr in
  let? label := item addr "label" in Ok (aset "label" label data).
Definition nova_process (conf : hconf) (ctx : row) (event_type : string) (payload : pyval) : P world pyval :=
  if String.eqb event_type "compute.instance.create.end" then
    let! payload := lift (put payload "project" (project_of ctx)) in
    let! addresses := lift (item payload "fixed_ips") in
    let! addresses := lift (list_of addresses) in
    let! resource_id := lift (item payload "instance_id") in
    let! extra := lift (dict_of payload) in
    _create conf "nova_fixed" nova_ip_data addresses extra (c_zone_id conf) true (PStr "instance") resource_id ;;; ret payload
  else if String.eqb event_type "compute.instance.delete.start" then
    let! resource_id := lift (item payload "instance_id") in
    _delete "nova_fixed" (c_zone_id conf) true resource_id (PStr "instance") [] ;;; ret payload
  else ret payload.
Definition NovaFixedHandler (conf : hconf) : NotificationHandler :=
  {| plugin_name := "nova_fixed";
     get_exchange_topics := (c_control_exchange conf, c_notification_topics conf);
     get_event_types := ["compute.instance.create.end"; "compute.instance.delete.start"];
     process_notification := nova_process conf |}.

(** ** Floating IPs (neutron.py) *)
Definition neutron_process (conf : hconf) (ctx : row) (event_type : string) (payload : pyval) : P world pyval :=
  let remove (id : pyval) := _delete "neutron_floatingip" (c_zone_id conf) true id (PStr "floatingip") [] in
  if startswith "floatingip.delete" event_type then
    let! id := lift (item payload "floatingip_id") in remove id ;;; ret payload
  else if startswith "floatingip.update" event_type then
    let! fip := lift (item payload "floatingip") in
    let! fixed := lift (item fip "fixed_ip_address") in
    if truthy fixed then
      let! address := lift (item fip "floating_ip_address") in
      let! fip := lift (put fip "project" (project_of ctx)) in
      let! payload := lift (put payload "floatingip" fip) in
      let! id := lift (item fip "id") in
      let! extra := lift (dict_of fip) in
      _create conf "neutron_floatingip" _get_ip_data [PDict [("version", PInt 4); ("address", address)]] extra
        (c_zone_id conf) true (PStr "floatingip") id ;;; ret payload
    else let! id := lift (item fip "id") in remove id ;;; ret payload
  else ret payload.
Definition NeutronFloatingHandler (conf : hconf) : NotificationHandler :=
  {| plugin_name := "neutron_floatingip";
     get_exchange_topics := (c_control_exchange conf, c_notification_topics conf);
     get_event_types := ["floatingip.update.end"; "floatingip.delete.start"];
     process_notification := neutron_process conf |}.

(** ** The sink (sink/service.py) *)
Section Service.
Variable handlers : list NotificationHandler.
Definition subscribe (subscriptions : list (string * list string)) (h : NotificationHandler) : list (string * list string) :=
  foldl (fun s et => aset et (app (default [] (aget et s)) [plugin_name h]) s) subscriptions (get_event_types h).
Definition _get_subscribers : list (string * list string) := foldl subscribe [] handlers.
Definition _get_targets : list (string * string) :=
  concat (map (fun h => map (fun topic => (fst (get_exchange_topics h), topic)) (snd (get_exchange_topics h))) handlers).
(** [info]: the handlers get the same payload, one after the other. *)
Definition info (ctx : row) (event_type : string) (payload : pyval) : P world pyval :=
  if mem_str event_type _get_subscribers.*1 then
    mfold (filter (fun h => mem_str event_type (get_event_types h) = true) handlers) payload
      (fun payload h => process_notification h ctx event_type payload)
  else ret payload.
End Service.
End Sink.

(** * Facts about the sink

    What the handlers may do to records, and that no creation of a record gets through
    central. *)
(** ** What a computation says: the messages it adds to the log satisfy [Q], and
    nothing else of the world changes *)
Class Says {A} (Q : message -> Prop) (m : P world A) : Prop :=
  says w : exists l, (m w).2 = set_sent (app (w_sent w) l) w /\ Forall Q l.

Section Says.
Context (Q : message -> Prop).
Lemma says_nothing {A} (m : P world A) w : (m w).2 = w -> exists l, (m w).2 = set_sent (app (w_sent w) l) w /\ Forall Q l.
Proof. intros ->. exists []. rewrite app_nil_r. by destruct w. Qed.
#[export] Instance says_ret {A} (a : A) : Says Q (ret a).
Proof. intros w. by apply says_nothing. Qed.
#[export] Instance says_raise {A} e : Says Q (raise e : P world A).
Proof. intros w. by apply says_nothing. Qed.
#[export] Instance says_lift {A} (r : R A) : Says Q (lift r).
Proof. intros w. by apply says_nothing. Qed.
Lemma says_then w l w' l' : w' = set_sent (app (w_sent w) l) w -> Forall Q l -> Forall Q l' ->
  exists l2, set_sent (app (w_sent w') l') w' = set_sent (app (w_sent w) l2) w /\ Forall Q l2.
Proof. intros -> Hl Hl'. exists (app l l'). cbn. rewrite app_assoc. split; [done|by apply Forall_app]. Qed.
#[export] Instance says_bind {A B} (m : P world A) (f : A -> P world B) :
  Says Q m -> (forall a, Says Q (f a)) -> Says Q (bind m f).
Proof.
  intros Hm Hf w. unfold bind. destruct (Hm w) as (l & Hw & Hl). destruct (m w) as [[a|e] w1]; cbn in Hw; [|by exists l].
  destruct (Hf a w1) as (l' & -> & Hl'). by apply (says_then w l).
Qed.
#[export] Instance says_mfor {A} (f : A -> P world unit) l : (forall a, Says Q (f a)) -> Says Q (mfor l f).
Proof. intros Hf. induction l as [|x l IH]; cbn; apply _. Qed.
#[export] Instance says_try {A} (m k : P world A) e : Says Q m -> Says Q k -> Says Q (try_except m (on e k)).
Proof.
  intros Hm Hk w. unfold try_except. destruct (Hm w) as (l & Hw & Hl). destruct (m w) as [[a|e'] w1]; cbn in Hw; [by exists l|].
  unfold on. case_bool_decide; [|by exists l]. destruct (Hk w1) as (l' & -> & Hl'). by apply (says_then w l).
Qed.
Lemma says_central `{Services} method args : Q (Cast "central" method args) -> Says Q (on_central method args).
Proof. intros Hq w. exists [Cast "central" method args]. split; [done|by apply Forall_singleton]. Qed.
Lemma says_known {A B} (r : R A) (f : A -> P world B) :
  (forall a, r = Ok a -> Says Q (f a)) -> Says Q (bind (lift r) f).
Proof. intros Hf w. destruct r as [a|e]; [by apply Hf|by apply says_nothing]. Qed.
End Says.

Section Facts.
Context `{Env} `{SqlEngine} `{Services}.
Variable to_ascii : string -> R string.

(** ** What a handler may say *)

(** The marks by which a record shows whose it is. *)
Definition marked_by (name : string) (d : row) : Prop :=
  aget "managed" d = Some (PBool true) /\ aget "managed_plugin_name" d = Some (PStr name) /\
  aget "managed_plugin_type" d = Some (PStr "handler").
(** Questions, and the creation of empty record sets. *)
Definition harmless (method : string) : Prop :=
  method ∈ ["get_zone"; "create_recordset"; "find_recordset"; "find_records"].
(** [told]: what was said before. *)
Definition permitted (name : string) (told : list message) (m : message) : Prop :=
  (exists method args, m = Cast "central" method args /\ harmless method) \/
  (exists zone_id recordset_id record, m = Cast "central" "create_record" [zone_id; recordset_id; record] /\
     exists f ch og, record = PObj "Record" f ch og /\ marked_by name f) \/
  (exists zone_id recordset_id id criterion records record,
     m = Cast "central" "delete_record" [zone_id; recordset_id; id] /\
     marked_by name criterion /\
     reply (app told [Cast "central" "find_records" [PDict criterion]]) = Ok records /\ record ∈ list_objects records /\
     item record "recordset_id" = Ok recordset_id /\ item record "id" = Ok id).

Lemma new_record_marked name address rtype rid o :
  new_obj registry "Record" (("data", address) :: marks name true rtype rid) = Ok o ->
  exists f ch og, o = PObj "Record" f ch og /\ marked_by name f.
Proof. intros Ho. vm_compute in Ho. injection Ho as <-. do 3 eexists. split; [reflexivity|]. by vm_compute. Qed.

Lemma says_harmless name told method args : harmless method -> Says (permitted name told) (on_central method args).
Proof. intros Hm. apply says_central. left. by exists method, args. Qed.
Lemma create_one_says name told zone addr data rtype rid fmt :
  Says (permitted name told) (create_one to_ascii name zone addr data true rtype rid fmt).
Proof.
  unfold create_one, _find_or_create_recordset.
  repeat (apply says_bind; [apply _|intros ?]).
  apply says_bind; [|intros rs].
  { repeat (apply says_bind; [apply _|intros ?]). apply says_try; apply says_harmless; set_solver. }
  apply says_bind; [apply _|intros address]. apply says_known. intros o Ho.
  apply says_bind; [apply _|intros rsid]. apply says_bind; [|intros ?; apply _].
  apply says_central. right; left. do 3 eexists. split; [reflexivity|by eapply new_record_marked].
Qed.
Lemma create_says name told conf ip addresses extra zone_id rtype rid :
  Says (permitted name told) (_create to_ascii conf name ip addresses extra zone_id true rtype rid).
Proof.
  unfold _create, get_zone. apply says_bind; [|intros zone].
  { apply says_bind; [apply _|intros ?]. apply says_harmless. set_solver. }
  repeat (apply says_bind; [apply _|intros ?]). apply says_mfor. intros addr.
  repeat (apply says_bind; [apply _|intros ?]). apply says_mfor. intros fmt. apply create_one_says.
Qed.
Lemma criterion_marked name zone_id rid rtype :
  marked_by name (delete_criterion name [] zone_id true rid rtype).
Proof. by vm_compute. Qed.
Lemma delete_says name zone_id rid rtype w :
  exists l, (_delete name zone_id true rid rtype [] w).2 = set_sent (app (w_sent w) l) w /\
    Forall (permitted name (w_sent w)) l.
Proof.
  unfold _delete. unfold bind at 1, lift at 1. destruct handler_context as [ctx|e]; [|by apply says_nothing].
  unfold bind at 1. set (criterion := delete_criterion _ _ _ _ _ _).
  set (ask := Cast "central" "find_records" [PDict criterion]).
  assert (Hask : permitted name (w_sent w) ask) by (left; do 2 eexists; split; [reflexivity|]; unfold harmless; set_solver).
  change (on_central "find_records" [PDict criterion] w)
    with (reply (app (w_sent w) [ask]), set_sent (app (w_sent w) [ask]) w).
  destruct (reply (app (w_sent w) [ask])) as [records|e] eqn:Hr; [|exists [ask]; by split; [|apply Forall_singleton]].
  assert (Hsays : forall l, (forall x, x ∈ l -> x ∈ list_objects records) ->
                    Says (permitted name (w_sent w)) (mfor l (delete_one zone_id))).
  { induction l as [|record l IH]; intros Hl; cbn; [apply _|]. apply says_bind; [|intros _; apply IH; set_solver].
    unfold delete_one. apply says_known. intros rsid Hrsid. apply says_known. intros id Hid.
    apply says_bind; [|intros ?; apply _]. apply says_central. right; right.
    exists zone_id, rsid, id, criterion, records, record. split; [done|]. split; [apply criterion_marked|]. split_and!; try done. apply Hl. set_solver. }
  destruct (Hsays (list_objects records) (fun x Hx => Hx) (set_sent (app (w_sent w) [ask]) w)) as (l & -> & Hl).
  apply (says_then _ w [ask] _ l); [done|by apply Forall_singleton|done].
Qed.

(** A handler's payload steps say nothing. *)
Definition run_permitted (name : string) (w : world) {A} (m : P world A) : Prop :=
  exists l, (m w).2 = set_sent (app (w_sent w) l) w /\ Forall (permitted name (w_sent w)) l.
Lemma permitted_known name w {A B} (r : R A) (f : A -> P world B) :
  (forall a, run_permitted name w (f a)) -> run_permitted name w (bind (lift r) f).
Proof. intros Hf. destruct r as [a|e]; [apply Hf|by apply says_nothing]. Qed.
Lemma permitted_then name w {A B} (m : P world A) (b : B) :
  run_permitted name w m -> run_permitted name w (m ;;; ret b).
Proof. intros (l & Hw & Hl). unfold run_permitted, bind. destruct (m w) as [[a|e] w1]; by exists l. Qed.
Lemma permitted_says name w {A} (m : P world A) : Says (permitted name (w_sent w)) m -> run_permitted name w m.
Proof. intros Hm. apply Hm. Qed.

(** C33: Handlers touch only the records that carry their mark. Whatever another service
    announces and central answers, a handler for instances or floating IPs changes nothing
    but through central, and says there nothing but: questions; the creation of a record
    set without records; the creation of a record that is marked as managed by this
    handler; and the deletion of records that central named when asked for records with
    this handler's mark. *)
Theorem handlers_touch_their_own conf ctx event_type payload handler w :
  handler ∈ [NovaFixedHandler to_ascii conf; NeutronFloatingHandler to_ascii conf] ->
  let '(_, w') := process_notification handler ctx event_type payload w in
  exists said, w' = set_sent (app (w_sent w) said) w /\ Forall (permitted (plugin_name handler) (w_sent w)) said.
Proof.
  intros Hh.
  assert (Hrun : run_permitted (plugin_name handler) w (process_notification handler ctx event_type payload)).
  { elem_cases Hh; cbn [plugin_name process_notification NovaFixedHandler NeutronFloatingHandler].
    - unfold nova_process. destruct (String.eqb _ _); [|destruct (String.eqb _ _)].
      + repeat (apply permitted_known; intros ?). apply permitted_then, permitted_says, create_says.
      + apply permitted_known; intros ?. apply permitted_then, delete_says.
      + by apply says_nothing.
    - unfold neutron_process. destruct (startswith _ _); [|destruct (startswith _ _)].
      + apply permitted_known; intros ?. apply permitted_then, delete_says.
      + do 2 (apply permitted_known; intros ?). destruct (truthy _).
        * repeat (apply permitted_known; intros ?). apply permitted_then, permitted_says, create_says.
        * apply permitted_known; intros ?. apply permitted_then, delete_says.
      + by apply says_nothing. }
  destruct Hrun as (l & Hw & Hl). destruct (process_notification _ _ _ _ _) as [r w']. by exists l.
Qed.

(** ** Creations *)

(** Central as it is: it answers the creation of a record as its method does, and names
    record sets by texts. *)
Class CentralAnswers := {
  creates_record h zone_id recordset record v :
    reply (app h [Cast "central" "create_record" [zone_id; recordset; record]]) = Ok v ->
    exists ctx w w', create_record_body ctx zone_id recordset record w = (Ok v, w');
  names_recordsets h method args rs id :
    method ∈ ["create_recordset"; "find_recordset"] ->
    reply (app h [Cast "central" method args]) = Ok rs -> item rs "id" = Ok id -> exists s, id = PStr s;
}.
(** Central's method wants the record set, not its identifier. *)
Lemma create_record_refuses_ids ctx zone_id id record w v w' :
  create_record_body ctx zone_id (PStr id) record w <> (Ok v, w').
Proof.
  unfold create_record_body. rewrite bind_Ok. intros (zone & w1 & _ & Hk). rewrite bind_Ok in Hk.
  destruct Hk as (u & w2 & _ & Hk). rewrite bind_Ok in Hk. by destruct Hk as (x & w3 & Hx & _).
Qed.
Context `{!CentralAnswers}.
Lemma call_Ok method args w v w' : on_central method args w = (Ok v, w') ->
  exists h, reply (app h [Cast "central" method args]) = Ok v.
Proof. intros [= Hr _]. by exists (w_sent w). Qed.
Lemma create_one_fails name zone addr data managed rtype rid fmt w w' :
  create_one to_ascii name zone addr data managed rtype rid fmt w <> (Ok tt, w').
Proof.
  unfold create_one. intros Hrun. do 3 (apply bind_Ok in Hrun as (? & ? & _ & Hrun)).
  apply bind_Ok in Hrun as (rs & w1 & Hrs & Hrun). do 2 (apply bind_Ok in Hrun as (? & ? & _ & Hrun)).
  apply bind_Ok in Hrun as (id & w2 & Hid & Hrun). apply bind_Ok in Hrun as (v & w3 & Hv & _).
  apply call_Ok in Hv as [h Hv]. apply creates_record in Hv as (ctx & w4 & w5 & Hc).
  assert (Hitem : item rs "id" = Ok id) by (unfold lift in Hid; by injection Hid).
  assert (Hs : exists s, id = PStr s).
  { unfold _find_or_create_recordset in Hrs. do 2 (apply bind_Ok in Hrs as (? & ? & _ & Hrs)).
    unfold try_except in Hrs. destruct (on_central "create_recordset" _ _) as [[rs'|e] w6] eqn:Hc1.
    - injection Hrs as -> ->. apply call_Ok in Hc1 as [h' Hc1]. eapply names_recordsets; [|done..]. set_solver.
    - unfold on in Hrs. case_bool_decide; [|done]. apply call_Ok in Hrs as [h' Hrs].
      eapply names_recordsets; [|done..]. set_solver. }
  destruct Hs as [s ->]. by apply create_record_refuses_ids in Hc.
Qed.
(** No announcement of an instance with an address is ever processed to the end: central
    is given the identifier of a record set where it wants the record set. *)
Theorem creations_never_complete conf ctx payload w payload' w' :
  nova_process to_ascii conf ctx "compute.instance.create.end" payload w = (Ok payload', w') ->
  exists p, payload' = PDict p /\ aget "fixed_ips" p = Some (PList []).
Proof.
  unfold nova_process. cbn [String.eqb Ascii.eqb Bool.eqb]. intros Hrun.
  apply bind_Ok in Hrun as (p & w1 & Hp & Hrun). apply bind_Ok in Hrun as (v & w2 & Hv & Hrun).
  apply bind_Ok in Hrun as (addresses & w3 & Ha & Hrun). do 2 (apply bind_Ok in Hrun as (? & ? & _ & Hrun)).
  apply bind_Ok in Hrun as (u & w4 & Hc & [= <- <-]). unfold lift in *.
  assert (addresses = []) as ->.
  { unfold _create in Hc. do 3 (apply bind_Ok in Hc as (? & ? & _ & Hc)).
    destruct addresses as [|addr rest]; [done|]. cbn [mfor] in Hc. apply bind_Ok in Hc as (? & ? & Hc & _).
    apply bind_Ok in Hc as (ip & ? & _ & Hc). apply bind_Ok in Hc as (version & ? & _ & Hc).
    assert (Hfmt : exists f fs, (if is_version 4 version then _get_formatv4 conf else _get_formatv6 conf) = f :: fs).
    { unfold _get_formatv4, _get_formatv6, first_or. repeat case_match; eauto. }
    destruct Hfmt as (f & fs & Hfmt). rewrite Hfmt in Hc. cbn [mfor] in Hc. apply bind_Ok in Hc as ([] & ? & Hc & _).
    by apply create_one_fails in Hc. }
  destruct payload as [| | | | |d|]; try done. injection Hp as <- <-. exists (aset "project" (project_of ctx) d).
  split; [done|]. unfold item in Hv. destruct (aget "fixed_ips" _) as [x'|]; [|done]. injection Hv as <- <-.
  destruct x'; try done. by injection Ha as -> ->.
Qed.
End Facts.

(** The default formats name a key that the handlers do not supply: without a domain in
    the payload of the other service they end in a KeyError. *)
Lemma default_format_needs_domain data s :
  percent "%(hostname)s.%(domain)s" data = Ok s ->
  exists h d, aget "hostname" data = Some h /\ aget "domain" data = Some d /\ s = text h ++ "." ++ text d ++ "".
Proof.
  cbn. destruct (aget "hostname" data) as [h|]; [|done]. destruct (aget "domain" data) as [d|]; [|done].
  cbn. intros [= <-]. by exists h, d.
Qed.

(** ** An example: an instance is deleted *)
#[local] Existing Instances ref_env ref_engine.
#[local] Instance record_keeper : Services :=
  {| reply := fun h => match last h with
                       | Some (Cast _ "find_records" _) =>
                           Ok (PObj "RecordList" [("objects", PList [PObj "Record" [("id", PStr "r1"); ("recordset_id", PStr "s1")] [] []])] [] [])
                       | _ => Ok PNone
                       end |}.
Definition nova_conf : hconf :=
  {| c_zone_id := PStr "z1"; c_formatv4 := []; c_formatv6 := []; c_format := []; c_control_exchange := "nova";
     c_notification_topics := ["notifications"] |}.
Lemma handlers_touch_their_own_witness :
  let '(r, w') := process_notification (NovaFixedHandler (fun s => Ok s) nova_conf) [] "compute.instance.delete.start"
                    (PDict [("instance_id", PStr "i1")]) (ref_world []) in
  (exists v, r = Ok v) /\
  exists said, w' = set_sent said (ref_world []) /\ Forall (permitted "nova_fixed" []) said /\
    Cast "central" "delete_record" [PStr "z1"; PStr "s1"; PStr "r1"] ∈ said.
Proof.
  pose proof (handlers_touch_their_own (fun s => Ok s) nova_conf [] "compute.instance.delete.start"
    (PDict [("instance_id", PStr "i1")]) (NovaFixedHandler (fun s => Ok s) nova_conf) (ref_world [])
    ltac:(apply list_elem_of_here)) as Hs.
  destruct (process_notification _ _ _ _ _) as [r w'] eqn:Hrun. vm_compute in Hrun. injection Hrun as <- Hw'.
  split; [by eexists|]. destruct Hs as (said & Hw & Hf). exists said. split_and!; [done..|].
  rewrite <- Hw' in Hw. apply (f_equal w_sent) in Hw. cbn in Hw. subst said. set_solver.
Defined.
